(* ===== verification/_CoqProject ===== *)
-Q . S2P
Prelude.v
TaErrors.v
Utils.v
Strtok.v
Cache.v
Regex.v
Json.v
World.v
Pow.v
Config.v
Serializer.v
SerMam.v
Core.v
Buffer.v
Mam.v
Health.v
MamFlow.v
Apis.v
Http.v
Cipher.v
Endpoint.v
Storage.v
Identity.v
Reattacher.v
DbApis.v
Permanode.v
RuntimeCli.v
Mqtt.v
MqttDuplex.v
Obd.v
Device.v
Shell.v
Ecdh.v
Timer.v
Debug.v
Heap.v
Socks.v
Requests.v
MqttMemory.v
ClientMemory.v
Resources.v
MqttTls.v
Main.v
