(* ===== verification/Prelude.v ===== *)
(** * A verification development for the tangle accelerator

    The tangle accelerator is a proxy between clients and an IOTA node: it takes
    requests over HTTP, attaches transactions with proof of work, sends them to
    the node and, while the node is away, keeps them in a Redis cache from where
    a periodical task sends them later.  The endpoint is the device side, which
    encrypts messages and posts them to the accelerator.  This library models
    the C code of both under [src/] as executable Rocq functions and proves what
    they do.

    ** Parts of the program and files of the library

    - [Prelude] (this file): machine integers, C arrays and strings, the parts
      of the C library the code uses ([strtol], [strtok], [strncpy], [snprintf]),
      loops with fuel ([run]), the monad [comp] of stateful code with undefined
      behaviour, tactics and the hint database [ta].
    - [TaErrors]: [common/ta_errors.h] and [ta_errors.c], every status code.
    - [Utils]: [utils/tryte_byte_conv.c], [fill_nines.h], [hash_algo_djb2.h].
    - [Strtok]: [strtok] and [strtok_r] on a buffer, and the list of the tokens,
      for [RuntimeCli] and [Shell].
    - [Cache]: [utils/cache/backend_redis.c], over a class [RedisServer] with the
      documented effect of the Redis commands.  [CacheView] and [CacheSpec] give
      the cache its contract: lists are stacks over a finite map.
    - [Regex]: POSIX extended regular expressions, for [connectivity/common.c].
    - [Json]: cJSON trees and accessors; the text format is the class [JsonText].
    - [World]: the interfaces of the IOTA client library ([IotaLib], [IotaNode]),
      of clock and UUID generator ([Os]), the read/write lock, and the state
      [world] the handlers share; [proc] is the monad of code over it.
    - [Pow]: [accelerator/core/pow.c].
    - [Config]: [accelerator/config.c], [config.h] and [cli_info.h].
    - [Serializer]: [core/serializer/ser_helper.c] and [serializer.c], with the
      request and response types of [core/request/] and [core/response/].
    - [SerMam]: [core/serializer/ser_mam.c] with the MAM types of [core/request/]
      and [core/response/].
    - [Core]: [accelerator/core/core.c] but for the buffer.
    - [Buffer]: the buffer operations of [core.c] and the broadcast loop of
      [periodical_task.c].
    - [Mam]: [accelerator/core/mam_core.c] and the MAM functions of [core/apis.c],
      over the MAM library as the classes [MamLib], [MamOs] and [MamNode].
    - [Health]: the rest of [periodical_task.c]: choice of the node, broadcast of
      buffered MAM requests, eviction, the loop of the thread.
    - [MamFlow]: the parts on MAM put together, from the API function to the
      fetch of the response.
    - [Apis]: [core/apis.c] and [core/proxy_apis.c].
    - [Http]: [connectivity/common.c] and [connectivity/http/http.c].
    - [Cipher]: [endpoint/cipher.c] and [text_serializer.c].
    - [Endpoint]: [endpoint/connectivity/conn_http.c], [https.c] and
      [endpoint_core.c].
    - [Storage]: [storage/scylladb_utils.c] and [scylladb_client.c], over the
      Cassandra driver as the class [Cassandra].
    - [Identity]: [storage/scylladb_identity.c]; the class [IdentityTable] is the
      contract of the table.
    - [Reattacher]: [reattacher/reattacher_main.c], proved against
      [IdentityTable].
    - [DbApis]: the functions of [serializer.c], [apis.c] and [http.c] that only
      builds with [DB_ENABLE] have.
    - [Permanode]: [storage/scylladb_permanode.c]; the class [TransactionTable]
      is the contract of the table.
    - [RuntimeCli]: [accelerator/runtime_cli.c].
    - [Mqtt]: [connectivity/mqtt/mqtt_common.c], [pub_utils.c] and [sub_utils.c],
      over libmosquitto as the class [Mosquitto].
    - [MqttDuplex]: [connectivity/mqtt/duplex_callback.c], [duplex_utils.c] and the
      loop of [accelerator/mqtt_main.c], which answers requests with the functions
      of [Apis].
    - [Obd]: [endpoint/OBDComp]: the monitor that asks a vehicle for its data over
      a CAN bus ([CanSocket]), and the emulator that answers in its place.
    - [Device]: [endpoint/platform] and [endpointComp/endpoint.c]; the class
      [Platform] is the interface of [impl.h], with the simulator and the Legato
      target as its instances.
    - [Shell]: [endpoint/shellComp/shell.c], over [Platform] and the system calls
      ([ShellOs]).
    - [MqttTls]: the options of TLS and proxies in [mosq_opts_set], compared with
      a table of calls; a build with [WITH_TLS] or [WITH_SOCKS] has them.
    - [Heap]: blocks that are allocated and freed, [malloc], [free], triples that
      say which blocks a computation needs and leaves, and [wp_step], which
      executes one step of it.  The next five files are over it.
    - [Socks]: the URLs of SOCKS proxies in [connectivity/mqtt/mqtt_common.c].
    - [Requests]: the requests and the response of the API functions on MAM
      messages as trees of blocks, with the deserializers of [ser_mam.c]; what
      the blocks contain is what [SerMam] says.
    - [MqttMemory]: the configuration of an MQTT client as blocks.
    - [ClientMemory]: the contexts and buffers of [Endpoint].
    - [Resources]: the connection of the cache, the objects of a database client,
      the CAN socket with the starts of monitor and emulator, arrays of bundles,
      the pipe of [utils/cpuinfo.h].
    - [Ecdh]: [crypto/ecdh.c], over mbed TLS as the class [EcdhLib].
    - [Timer]: [utils/timer.c] as a step relation of concurrent threads.
    - [Debug]: [common/debug.c].
    - [Main]: [accelerator/main.c], the start and stop of the HTTP daemon, the
      rest of [config.c] and the start of [mqtt_main.c].

    [Http] takes the two API functions on MAM messages as parameters, [Health]
    the functions that read, send and answer a MAM request; [Mam] and [SerMam]
    define them and [MamFlow] discharges the hypotheses [Health] states.

    A handler of [Http] calls a function of [Apis]; that one reads the request
    with [Serializer], calls [Core] or [Buffer], which call the node through
    [World], [Pow] and [Cache], and writes the response with [Serializer].

    ** How the code is modelled

    A C structure is a [Record], an enumeration an [Inductive] or its values; an
    integer is a [Z] with its wrap-around written out ([uwrap], [swrap]) where it
    can occur; a [char] array is the list of its bytes and a C string the list
    of its characters.  Accesses outside an object, NULL dereferences, unlocking
    a free lock and other undefined behaviour make the result [None] (or
    [Undefined]), so a theorem about [Some] includes its absence.  Status codes
    are returned as in C; output parameters are part of the result.  Libraries
    outside [src/] are classes: their operations are parameters, and what the
    code relies on is stated as laws of the class or as hypotheses.  Each group
    has a small instance ([ToyWorld], [ToyMam], [ToyDb], [RedisModel], [JsonModel],
    [CipherWitness], [EndpointWitness]) on which the hypotheses of the theorems
    are discharged by evaluation.

    Loops are structural where the code walks a list, and otherwise run with
    fuel.  [broadcast_buffered_txn] and [broadcast_buffered_send_mam_request]
    need one round per buffered request and one more, [find_slot] one per
    channel it passes over and one more, [evict] one per request to evict and one more, [trytes_to_bytes] one per pair of trytes and one more, the AES loops
    one per block and one to leave, [duplex_client_start] one per event of the
    library, [sh_split_line] one per word and one more, [uart_read] one per
    [select] without data and one more, [http_send_request] one per byte over a
    socket that accepts something at each call; the theorems state that these
    amounts are enough.  [trytes_to_bytes_diverges] shows a loop that no fuel is
    enough for.

    ** What the theorems show

    - The buffer: pushing, broadcasting and fetching requests keeps the invariant
      [buffered] (two disjoint lists of UUIDs and a bundle at each), the
      broadcast loop ends and moves what it sent, fetching refines an abstract
      status; and where this fails: fetching drops another request, the window
      between peek and pop, the lock that an error leaves taken.
    - MAM messages: the search for a key ends at the first channel it does not
      pass over, the packet with the message goes out behind the header of the
      key, the response says where it went and names the next channel when that
      is announced; each buffered request is sent once and answered with the
      response to its own text; what was sent is received in order; requests and
      responses round trip; and the cases where a key is used twice or lost, the
      local file is reset or memory is read outside its object.
    - The periodical task: buffered MAM requests are sent or kept, eviction
      removes no more than it must, and never ends when nothing is left to evict.
    - Sending: what [ta_send_trytes] broadcasts, how [ta_pow] chains a bundle,
      that it returns, how bundles are reassembled from their transactions.
    - The cache: stacks, push and pop, membership, values that are never
      overwritten.
    - Configuration: well-formedness after any file and command line, equality of
      the two for known options (unknown ones only the command line refuses), and
      the options that do not do what their help says.
    - Requests and responses: what is read from a well-formed request, the
      status every readable transfer request gets, round trips, and the
      undefined cases.
    - HTTP: matching decides the language of the rule, the URLs of every route
      reach their function, bodies are assembled from pieces or refused, proxy
      commands are dispatched; and URL parameters that are read past their end.
    - The endpoint: a message survives encryption, serialization and back,
      decryption accepts only authenticated messages, requests are delivered
      whole by any socket.
    - Storage: identities and transactions that were inserted are found again,
      whatever the database answers the tables stay well formed, the reattacher
      refines a step relation on the identity table, confirms what the node has
      confirmed, and the API reports it; and where a wrong hash is stored, an
      error is hidden or memory is read outside its object.
    - MQTT: a request that names its device writes behind an array; where the
      stack leaves room for the byte, one run of the client answers it on the
      topic of its device; topics select the functions of the documented table, no run of any
      length leaves the checked topics; and the arrays that are one byte too
      short, and the answer that is sent twice.
    - The runtime command line: a line has the effect of its words, and the end
      of the input ends in undefined behaviour.
    - Devices: the simulator implements a register for key and name that survives
      restarts, and this key protects the messages the endpoint program sends
      there; a line of the shell has the effect of its words; the identification
      number of a vehicle crosses the CAN bus; and the Legato target, for which
      the shell is built, encrypts with zeros whatever key is typed, values that
      are bytes of addresses, lines and commands that are read past their buffer.
    - Support: two parties of the key agreement get the same secret; the timer
      excludes and reports what happened in every interleaving, and where it
      races; comparing transactions decides equality; the parser of proxy URLs
      accepts six forms and neither loses a block nor frees one twice.
    - Memory: the API functions on MAM messages free what they allocate, whatever
      text is received, but for a request with a missing key or of another
      protocol; the endpoint program frees its contexts on every path, and what
      it loses when a request fails; an MQTT client that is initialised has all
      its structures or none, what its release leaves, and that every request it
      answers costs three strings; connections, descriptors and arrays of bundles
      are released whole; and the cases where NULL, an indeterminate pointer or
      a block that is gone is used.
    - The process: for every cause that can end it, the exit code and what it
      has started and released until then.

    ** What is not modelled

    The files over [Heap] model allocation, its failure and release; in the others
    allocations succeed and nothing is released.  Of the code under [src/] these
    parts are left out: logging, which has no effect on the results (but
    [uart_read] reads the line it logs, which is modelled, and [aes_decrypt] logs a
    NULL text when it succeeds, which is left to the logger); short and
    abbreviated options of [getopt_long]; the texts of
    the help; the diagnosis program of the device, which logs what its sensors say;
    the release of the table of the OBD monitor, whose order is that of a map of the
    Legato framework that is not in the repository; the macOS and FreeBSD variants
    of [cpuinfo.h]; and the constructors of requests and responses with one member,
    which set it to NULL.  What the map does not cover beyond that are comments,
    prototypes, include guards and tests. *)

From Stdlib Require Export ZArith Lia.
From stdpp Require Export base numbers list option strings gmap.

#[export] Set Default Goal Selector "!".

(** ** Scopes

    [cstr_scope] carries the notation of this library for C character
    buffers; arithmetic is written in [Z_scope]. *)
Declare Scope cstr_scope.
Delimit Scope cstr_scope with cstr.
Open Scope Z_scope.

(** ** Machine integers

    A [w]-bit unsigned value is kept as its residue in [[0, 2^w)], a signed one
    as its two's complement representative. *)
Definition uwrap (w z : Z) : Z := z mod 2 ^ w.

Definition swrap (w z : Z) : Z :=
  let r := uwrap w z in if r <? 2 ^ (w - 1) then r else r - 2 ^ w.

Abbreviation u8 := (uwrap 8).
Abbreviation u16 := (uwrap 16).
Abbreviation u32 := (uwrap 32).
Abbreviation u64 := (uwrap 64).
Abbreviation i8 := (swrap 8).
Abbreviation i32 := (swrap 32).
Abbreviation i64 := (swrap 64).

Create HintDb ta.
Create HintDb wrap.

Lemma uwrap_range w z : 0 <= w -> 0 <= uwrap w z < 2 ^ w.
Proof. intros. apply Z.mod_pos_bound. lia. Qed.

Lemma uwrap_small w z : 0 <= z < 2 ^ w -> uwrap w z = z.
Proof. apply Z.mod_small. Qed.

Lemma uwrap_idemp w z : 0 <= w -> uwrap w (uwrap w z) = uwrap w z.
Proof. intros. apply uwrap_small, uwrap_range; lia. Qed.

Lemma swrap_range w z : 0 < w -> - 2 ^ (w - 1) <= swrap w z < 2 ^ (w - 1).
Proof.
  intros Hw. unfold swrap.
  pose proof (uwrap_range w z ltac:(lia)) as Hr.
  assert (2 ^ w = 2 * 2 ^ (w - 1)) as E
    by (rewrite <- Z.pow_succ_r by lia; f_equal; lia).
  destruct (Z.ltb_spec (uwrap w z) (2 ^ (w - 1))); lia.
Qed.

Lemma swrap_small w z : 0 < w -> - 2 ^ (w - 1) <= z < 2 ^ (w - 1) -> swrap w z = z.
Proof.
  intros Hw Hz. unfold swrap, uwrap.
  assert (2 ^ w = 2 * 2 ^ (w - 1)) as E
    by (rewrite <- Z.pow_succ_r by lia; f_equal; lia).
  destruct (Z.le_gt_cases 0 z).
  - rewrite Z.mod_small by lia. destruct (Z.ltb_spec z (2 ^ (w - 1))); lia.
  - assert (z mod 2 ^ w = z + 2 ^ w) as ->.
    { symmetry. apply (Zmod_unique z (2 ^ w) (-1)); lia. }
    destruct (Z.ltb_spec (z + 2 ^ w) (2 ^ (w - 1))); lia.
Qed.

#[export] Hint Resolve uwrap_range swrap_range : ta.

(** ** Bit fields *)

Lemma testbit_small a w n : 0 <= a < 2 ^ w -> w <= n -> Z.testbit a n = false.
Proof.
  intros Ha Hn. destruct (decide (a = 0)) as [->|]; [apply Z.testbit_0_l|].
  destruct (Z.lt_ge_cases w 0); [rewrite Z.pow_neg_r in Ha by lia; lia|].
  apply Z.bits_above_log2; [lia|].
  apply Z.log2_lt_pow2; [lia|].
  assert (2 ^ w <= 2 ^ n) by (apply Z.pow_le_mono_r; lia). lia.
Qed.

Lemma land_shiftl_same a w k : 0 <= k -> 0 <= w -> 0 <= a < 2 ^ w ->
  Z.land (Z.shiftl a k) (Z.shiftl (Z.ones w) k) = Z.shiftl a k.
Proof.
  intros. rewrite <- Z.shiftl_land, Z.land_ones, Z.mod_small by lia. done.
Qed.

Lemma land_shiftl_disj a b w1 w2 k1 k2 :
  0 <= k1 -> 0 <= k2 -> 0 <= a < 2 ^ w1 -> 0 <= b < 2 ^ w2 ->
  (k1 + w1 <= k2 \/ k2 + w2 <= k1) ->
  Z.land (Z.shiftl a k1) (Z.shiftl b k2) = 0.
Proof.
  intros Hk1 Hk2 Ha Hb Hd. apply Z.bits_inj'. intros n Hn.
  rewrite Z.land_spec, Z.bits_0, !Z.shiftl_spec by lia.
  destruct (Z.testbit a (n - k1)) eqn:E1; [|done].
  destruct (Z.testbit b (n - k2)) eqn:E2; [|done].
  destruct (Z.lt_ge_cases (n - k1) w1) as [?|?];
    [|rewrite (testbit_small a w1) in E1 by lia; done].
  destruct (Z.lt_ge_cases (n - k2) w2) as [?|?];
    [|rewrite (testbit_small b w2) in E2 by lia; done].
  destruct (Z.lt_ge_cases (n - k1) 0); [rewrite Z.testbit_neg_r in E1 by lia; done|].
  destruct (Z.lt_ge_cases (n - k2) 0); [rewrite Z.testbit_neg_r in E2 by lia; done|].
  lia.
Qed.

(** ** Bytes and C character buffers

    A [char] array is the list of its bytes; a C string is the list of its
    characters without the terminating NUL. *)
Abbreviation cstr := (list Z) (only parsing).

Definition is_byte (b : Z) : Prop := 0 <= b < 256.

#[export] Instance is_byte_dec b : Decision (is_byte b).
Proof. unfold is_byte. apply _. Defined.

(** A literal of the source, as bytes. *)
Definition lit (s : string) : cstr :=
  map (fun a => Z.of_N (Ascii.N_of_ascii a)) (String.list_ascii_of_string s).

(** A literal of the source that contains double quotes, written with a
    back quote in place of each. *)
Definition qlit (s : string) : cstr :=
  map (fun c => if Z.eqb c 96 then 34 else c) (lit s).

(** [str_of_buf buf] is the C string at the beginning of a buffer. *)
Fixpoint str_of_buf (buf : list Z) : cstr :=
  match buf with
  | [] => []
  | c :: r => if Z.eqb c 0 then [] else c :: str_of_buf r
  end.

(** The C string in an array; [None] when a scan for its end leaves the array. *)
Definition c_string (buf : list Z) : option cstr :=
  if bool_decide (0 ∈ buf) then Some (str_of_buf buf) else None.

Definition strlen (s : cstr) : Z := Z.of_nat (length s).

(** [overwrite buf off data] is [buf] after [memcpy (buf + off, data, |data|)];
    [None] when the copy would leave the object. *)
Definition overwrite (buf : list Z) (off : nat) (data : list Z) : option (list Z) :=
  if decide (off + length data <= length buf)%nat
  then Some (take off buf ++ data ++ drop (off + length data) buf)
  else None.

(** The characters of a C string: no NUL, all bytes. *)
Definition is_cstr (s : cstr) : Prop := Forall (fun c => 0 < c < 256) s.

#[export] Instance is_cstr_dec s : Decision (is_cstr s).
Proof. unfold is_cstr. apply _. Defined.

Lemma str_of_buf_app s r : is_cstr s -> str_of_buf (s ++ 0 :: r) = s.
Proof.
  induction 1 as [|c s Hc _ IH]; [done|].
  simpl. rewrite IH. by destruct (Z.eqb_spec c 0); [lia|].
Qed.

Lemma str_of_buf_cstr buf : Forall is_byte buf -> is_cstr (str_of_buf buf).
Proof.
  induction 1 as [|c s Hc _ IH]; [constructor|].
  simpl. destruct (Z.eqb_spec c 0); constructor; [unfold is_byte in *; lia|done].
Qed.

Lemma length_overwrite buf off data buf' :
  overwrite buf off data = Some buf' -> length buf' = length buf.
Proof.
  unfold overwrite. case_decide; intros; simplify_eq.
  rewrite !length_app, length_take, length_drop. lia.
Qed.

(** [n] bytes from an offset of an array; [None] when they are not all in it. *)
Definition read_at (buf : list Z) (off n : nat) : option (list Z) :=
  if decide (off + n <= length buf)%nat then Some (take n (drop off buf)) else None.

(** Writing behind what has been written so far. *)
Lemma overwrite_extend buf p d : (length p + length d <= length buf)%nat ->
  overwrite (p ++ drop (length p) buf) (length p) d =
    Some ((p ++ d) ++ drop (length (p ++ d)) buf).
Proof.
  intros Hl. unfold overwrite. rewrite !length_app, length_drop, decide_True by lia. f_equal.
  rewrite take_app_length, drop_app_ge, drop_drop, app_assoc by lia. do 2 f_equal. lia.
Qed.

Lemma overwrite_start buf d : (length d <= length buf)%nat ->
  overwrite buf 0 d = Some (d ++ drop (length d) buf).
Proof. intros Hl. apply (overwrite_extend buf [] d Hl). Qed.

(** Reading a piece of an array that is known by its parts. *)
Lemma read_at_mid p d r : read_at (p ++ d ++ r) (length p) (length d) = Some d.
Proof.
  unfold read_at. rewrite !length_app, decide_True by lia. f_equal.
  by rewrite drop_app_length, take_app_length.
Qed.

(** ** Proof automation *)

(** Destruct the innermost boolean or propositional test of the goal. *)
Ltac destruct_test :=
  match goal with
  | |- context [if ?b then _ else _] => destruct b eqn:?
  | |- context [match ?x with _ => _ end] => destruct x eqn:?
  end.

Ltac zb :=
  repeat match goal with
  | H : Z.eqb _ _ = true |- _ => apply Z.eqb_eq in H
  | H : Z.eqb _ _ = false |- _ => apply Z.eqb_neq in H
  | H : Z.ltb _ _ = true |- _ => apply Z.ltb_lt in H
  | H : Z.ltb _ _ = false |- _ => apply Z.ltb_ge in H
  | H : Z.leb _ _ = true |- _ => apply Z.leb_le in H
  | H : Z.leb _ _ = false |- _ => apply Z.leb_gt in H
  end.

(** Reduce binds of the option monad without unfolding arithmetic. *)
Ltac bind_simpl := cbn [mbind option_bind fst snd].

(** ** Buffer accesses

    Reading and writing one element of an array; [None] is an access outside
    the object, which C leaves undefined. *)
Definition get {A} (buf : list A) (i : Z) : option A :=
  if i <? 0 then None else buf !! Z.to_nat i.

Definition put {A} (buf : list A) (i : Z) (x : A) : option (list A) :=
  if (0 <=? i) && (i <? Z.of_nat (length buf)) then Some (<[Z.to_nat i := x]> buf) else None.

Lemma get_app_r {A} (p r : list A) i x :
  i = Z.of_nat (length p) -> get (p ++ x :: r) i = Some x.
Proof.
  intros ->. unfold get. destruct (Z.ltb_spec (Z.of_nat (length p)) 0); [lia|].
  rewrite Nat2Z.id. by apply list_lookup_middle.
Qed.

Lemma get_lookup {A} (buf : list A) (i : nat) : get buf (Z.of_nat i) = buf !! i.
Proof.
  unfold get. destruct (Z.ltb_spec (Z.of_nat i) 0); [lia|]. by rewrite Nat2Z.id.
Qed.

Lemma put_app_r {A} (p r : list A) i x y :
  i = Z.of_nat (length p) -> put (p ++ x :: r) i y = Some (p ++ y :: r).
Proof.
  intros ->. unfold put. rewrite length_app. simpl.
  destruct (Z.leb_spec 0 (Z.of_nat (length p))); [|lia].
  destruct (Z.ltb_spec (Z.of_nat (length p)) (Z.of_nat (length p + S (length r)))); [|lia].
  simpl. rewrite Nat2Z.id, insert_app_r_alt, Nat.sub_diag by lia. done.
Qed.

Lemma length_put {A} (buf : list A) i x buf' :
  put buf i x = Some buf' -> length buf' = length buf.
Proof.
  unfold put. case_match; intros; simplify_eq. apply length_insert.
Qed.

(** ** Loops

    The body of a C loop is a function from the loop state to [ctl]: go round
    again, leave with a result, or perform an undefined access.  [run] iterates
    it with fuel; running out of fuel is an outcome of its own, so that a
    statement about [Done] is a statement of termination. *)
Inductive ctl (S A : Type) :=
| Continue (s : S)
| Break (a : A)
| Fault.
Arguments Continue {S A} s.
Arguments Break {S A} a.
Arguments Fault {S A}.

Inductive outcome (A : Type) :=
| Done (a : A)
| Undefined
| OutOfFuel.
Arguments Done {A} a.
Arguments Undefined {A}.
Arguments OutOfFuel {A}.

Fixpoint run {S A} (step : S -> ctl S A) (fuel : nat) (s : S) : outcome A :=
  match fuel with
  | O => OutOfFuel
  | Datatypes.S f =>
      match step s with
      | Continue s' => run step f s'
      | Break a => Done a
      | Fault => Undefined
      end
  end.

(** A body written in the option monad, as a loop body that goes round. *)
Definition continue_or_fault {S A} (o : option S) : ctl S A :=
  match o with Some s => Continue s | None => Fault end.

Section Loops.
Context {S A : Type} (step : S -> ctl S A).

(** Total correctness of a loop from an invariant and a measure. *)
Lemma run_rule (Inv : S -> Prop) (m : S -> nat) (Post : A -> Prop) fuel s :
  Inv s -> (m s < fuel)%nat ->
  (forall s, Inv s ->
     match step s with
     | Continue s' => Inv s' /\ (m s' < m s)%nat
     | Break a => Post a
     | Fault => False
     end) ->
  exists a, run step fuel s = Done a /\ Post a.
Proof.
  intros Hi Hf Hstep. revert s Hi Hf.
  induction fuel as [|f IH]; intros s Hi Hf; [lia|]. simpl.
  specialize (Hstep s Hi). destruct (step s) as [s'|a|]; [|by eauto|done].
  destruct Hstep as [Hi' Hm]. apply IH; [done|lia].
Qed.

(** A loop whose invariant never lets the body leave returns nothing. *)
Lemma run_never (Inv : S -> Prop) fuel s a :
  Inv s ->
  (forall s, Inv s ->
     match step s with
     | Continue s' => Inv s'
     | Break _ => False
     | Fault => True
     end) ->
  run step fuel s <> Done a.
Proof.
  intros Hi Hstep. revert s Hi.
  induction fuel as [|f IH]; intros s Hi; simpl; [done|].
  specialize (Hstep s Hi). destruct (step s); [by apply IH|done|done].
Qed.

(** More fuel does not change a result. *)
Lemma run_mono fuel fuel' s a :
  run step fuel s = Done a -> (fuel <= fuel')%nat -> run step fuel' s = Done a.
Proof.
  revert fuel' s. induction fuel as [|f IH]; intros fuel' s; simpl; [done|].
  destruct fuel' as [|f']; [lia|]. simpl.
  destruct (step s); intros; [apply IH; [done|lia]|done|done].
Qed.
End Loops.

(** ** Stateful computations

    [comp St A]: C code over a state [St]; [None] is undefined behaviour
    (dereferencing NULL, leaving an array). *)
Definition comp (St A : Type) : Type := St -> option (A * St).

#[export] Instance comp_mret St : MRet (comp St) := fun A a s => Some (a, s).
#[export] Instance comp_mbind St : MBind (comp St) :=
  fun A B k m s => match m s with Some (a, s') => k a s' | None => None end.

Definition undefined {St A} : comp St A := fun _ => None.
Definition gets {St A} (f : St -> A) : comp St A := fun s => Some (f s, s).
Definition modify {St} (f : St -> St) : comp St unit := fun s => Some (tt, f s).
Definition check {St A} (o : option A) : comp St A :=
  fun s => match o with Some a => Some (a, s) | None => None end.
Definition when {St} (b : bool) (m : comp St unit) : comp St unit := if b then m else mret tt.

Lemma comp_bind_Some {St A B} (m : comp St A) (k : A -> comp St B) s r :
  (m ≫= k) s = Some r <-> exists a s', m s = Some (a, s') /\ k a s' = Some r.
Proof.
  unfold mbind, comp_mbind. destruct (m s) as [[a s']|] eqn:E.
  - split; [intros H; by exists a, s'|]. by intros (? & ? & ? & ?); simplify_eq.
  - split; [done|]. by intros (? & ? & ? & ?).
Qed.

Lemma comp_bind_eq {St A B} (m : comp St A) (k : A -> comp St B) s a s' :
  m s = Some (a, s') -> (m ≫= k) s = k a s'.
Proof. unfold mbind, comp_mbind. by intros ->. Qed.

(** Evaluate the head bind of the goal with an equation for its first part. *)
Ltac comp_step H := rewrite (comp_bind_eq _ _ _ _ _ H).
Ltac comp_simpl :=
  unfold mbind, comp_mbind, mret, comp_mret, gets, modify, check, when, undefined;
  cbn [fst snd].

(** *** Reasoning about computations

    [hoare P m Q]: whenever [m] returns from a state in [P], result and final
    state satisfy [Q]. *)
Definition hoare {St A} (P : St -> Prop) (m : comp St A) (Q : A -> St -> Prop) : Prop :=
  forall s a s', P s -> m s = Some (a, s') -> Q a s'.

Section Hoare.
Context {St : Type}.
Implicit Types P : St -> Prop.

Lemma hoare_ret {A} P (a : A) (Q : A -> St -> Prop) :
  (forall s, P s -> Q a s) -> hoare P (mret a : comp St A) Q.
Proof. intros HQ s b s' Hs [= <- <-]. auto. Qed.

Lemma hoare_bind {A B} P (m : comp St A) (k : A -> comp St B) R Q :
  hoare P m R -> (forall a, hoare (R a) (k a) Q) -> hoare P (m ≫= k) Q.
Proof.
  intros Hm Hk s b s' Hs Hb. apply comp_bind_Some in Hb as (a & s1 & H1 & H2). eapply Hk; eauto.
Qed.

Lemma hoare_gets {A} P (f : St -> A) (Q : A -> St -> Prop) :
  (forall s, P s -> Q (f s) s) -> hoare P (gets f) Q.
Proof. intros HQ s b s' Hs [= <- <-]. auto. Qed.

Lemma hoare_modify P (f : St -> St) (Q : unit -> St -> Prop) :
  (forall s, P s -> Q tt (f s)) -> hoare P (modify f) Q.
Proof. intros HQ s b s' Hs [= <- <-]. auto. Qed.

Lemma hoare_check {A} P (o : option A) (Q : A -> St -> Prop) :
  (forall s a, P s -> o = Some a -> Q a s) -> hoare P (check o) Q.
Proof. intros HQ s b s' Hs. unfold check. destruct o; intros [= <- <-]. auto. Qed.

Lemma hoare_undefined {A} P (Q : A -> St -> Prop) : hoare P undefined Q.
Proof. by intros s b s' Hs [=]. Qed.

Lemma hoare_conseq {A} P P' (m : comp St A) (Q Q' : A -> St -> Prop) :
  hoare P' m Q' -> (forall s, P s -> P' s) -> (forall a s, Q' a s -> Q a s) -> hoare P m Q.
Proof. intros Hm HP HQ s a s' Hs Ha. eapply HQ, Hm; eauto. Qed.
End Hoare.

(** ** Pieces of the C library *)

(** [strncpy (dst, s, n)] of a source of which [n] bytes are readable: the
    characters up to a NUL, padded with NULs. *)
Definition strncpy_data (s : list Z) (n : nat) : list Z :=
  let t := str_of_buf (take n s) in t ++ replicate (n - length t) 0.

Lemma str_of_buf_no_nul s : 0 ∉ s -> str_of_buf s = s.
Proof.
  induction s as [|c r IH]; intros H; simpl; [done|].
  apply not_elem_of_cons in H as [H0 Hr].
  destruct (Z.eqb_spec c 0); [congruence|]. by rewrite IH.
Qed.

Lemma c_string_nul s r : 0 ∉ s -> c_string (s ++ 0 :: r) = Some s.
Proof.
  intros H0. unfold c_string. rewrite bool_decide_true by (rewrite elem_of_app; right; by constructor).
  f_equal. induction s as [|c s IH]; [done|]. apply not_elem_of_cons in H0 as [Hc H0].
  simpl. destruct (Z.eqb_spec c 0); [congruence|]. by rewrite IH.
Qed.

Lemma c_string_none s : 0 ∉ s -> c_string s = None.
Proof. intros H0. unfold c_string. by rewrite bool_decide_false. Qed.

Lemma strncpy_data_no_nul s : 0 ∉ s -> strncpy_data s (length s) = s.
Proof.
  intros H. unfold strncpy_data. rewrite take_ge, str_of_buf_no_nul by done.
  by rewrite Nat.sub_diag, app_nil_r.
Qed.

Lemma length_str_of_buf s : (length (str_of_buf s) <= length s)%nat.
Proof. induction s as [|c r IH]; simpl; [done|]. destruct (c =? 0); simpl; lia. Qed.

Lemma length_strncpy_data s n : length (strncpy_data s n) = n.
Proof.
  unfold strncpy_data. rewrite length_app, length_replicate.
  pose proof (length_str_of_buf (take n s)). rewrite length_take in *. lia.
Qed.

Definition is_digit (c : Z) : bool := (48 <=? c) && (c <=? 57).
(** [isspace] in the C locale. *)
Definition is_space (c : Z) : bool := (c =? 32) || ((9 <=? c) && (c <=? 13)).

Fixpoint digits_value (acc : Z) (s : cstr) : Z * cstr :=
  match s with
  | c :: r => if is_digit c then digits_value (10 * acc + (c - 48)) r else (acc, s)
  | [] => (acc, [])
  end.

Fixpoint skip_space (s : cstr) : cstr :=
  match s with c :: r => if is_space c then skip_space r else s | [] => [] end.

Definition LONG_MAX : Z := 2 ^ 63 - 1.
Definition LONG_MIN : Z := - 2 ^ 63.
Definition INT_MAX : Z := 2 ^ 31 - 1.
Definition INT_MIN : Z := - 2 ^ 31.

(** [strtol (s, &end, 10)] on a 64-bit target: the value, the rest of the
    string [end] points to, and whether [errno] was set to [ERANGE].  Without
    digits the value is 0 and [end] is the whole string. *)
Definition strtol (s : cstr) : Z * cstr * bool :=
  let t := skip_space s in
  let '(neg, body) :=
    match t with
    | c :: r => if c =? 45 then (true, r) else if c =? 43 then (false, r) else (false, t)
    | [] => (false, t)
    end in
  match body with
  | c :: _ =>
      if is_digit c then
        let '(v, rest) := digits_value 0 body in
        let v := if neg : bool then - v else v in
        if v >? LONG_MAX then (LONG_MAX, rest, true)
        else if v <? LONG_MIN then (LONG_MIN, rest, true)
        else (v, rest, false)
      else (0, s, false)
  | [] => (0, s, false)
  end.

(** [atol] and [atoi], undefined when the value is out of range. *)
Definition atol (s : cstr) : option Z :=
  let '(v, _, erange) := strtol s in if erange : bool then None else Some v.
Definition atoi (s : cstr) : option Z :=
  v ← atol s; if (v <? INT_MIN) || (v >? INT_MAX) then None else Some v.

(** [strstr (hay, needle)]: the suffix at the first occurrence. *)
Definition is_prefix_of (p s : cstr) : bool := bool_decide (take (length p) s = p).

Fixpoint strstr (hay needle : cstr) : option cstr :=
  if is_prefix_of needle hay then Some hay
  else match hay with [] => None | _ :: r => strstr r needle end.

(** The first token of [strtok (s, delim)] for a one-character delimiter. *)
Fixpoint span_ne (d : Z) (s : cstr) : cstr :=
  match s with c :: r => if c =? d then [] else c :: span_ne d r | [] => [] end.
Fixpoint skip_eq (d : Z) (s : cstr) : cstr :=
  match s with c :: r => if c =? d then skip_eq d r else s | [] => [] end.
Definition strtok1 (s : cstr) (d : Z) : option cstr :=
  match skip_eq d s with [] => None | t => Some (span_ne d t) end.

(** All the tokens of [strtok (s, d)], [strtok (NULL, d)], ... for a
    one-character delimiter: the maximal runs of other characters. *)
Fixpoint strtok_all (d : Z) (cur : cstr) (s : cstr) : list cstr :=
  match s with
  | [] => match cur with [] => [] | _ => [rev cur] end
  | c :: r =>
      if c =? d
      then match cur with [] => strtok_all d [] r | _ => rev cur :: strtok_all d [] r end
      else strtok_all d (c :: cur) r
  end.

(** Decimal digits, as [%d] and [%ld] print them. *)
Fixpoint dec_digits (fuel : nat) (n : Z) (acc : cstr) : cstr :=
  match fuel with
  | O => acc
  | S f => let acc := (48 + n mod 10) :: acc in
           if n <? 10 then acc else dec_digits f (n / 10) acc
  end.
(** [2 + log2 n] decimal digits are always enough. *)
Definition dec_nat (n : Z) : cstr := dec_digits (S (S (Z.to_nat (Z.log2 n)))) n [].
Definition dec (n : Z) : cstr := if n <? 0 then 45 :: dec_nat (- n) else dec_nat n.

(** The value of a digit string, most significant digit first. *)
Definition dval (a : Z) (ds : cstr) : Z := foldl (fun a c => 10 * a + (c - 48)) a ds.

Lemma digits_value_app ds rest a :
  Forall (fun c => is_digit c = true) ds ->
  digits_value a (ds ++ rest) = digits_value (dval a ds) rest.
Proof.
  intros H. revert a. induction H as [|c ds Hc _ IH]; intros a; simpl; [done|].
  by rewrite Hc, IH.
Qed.

Lemma dec_digits_spec fuel : forall n acc, 0 <= n < 10 ^ Z.of_nat fuel ->
  exists ds, dec_digits fuel n acc = ds ++ acc /\
    Forall (fun c => is_digit c = true) ds /\ dval 0 ds = n /\ (fuel <> O -> ds <> []).
Proof.
  induction fuel as [|f IH]; intros n acc Hn.
  { exists []. simpl in *. repeat split; [constructor|unfold dval; simpl; lia|done]. }
  simpl. rewrite Nat2Z.inj_succ, Z.pow_succ_r in Hn by lia.
  pose proof (Z.mod_pos_bound n 10 ltac:(lia)).
  assert (is_digit (48 + n mod 10) = true) as Hd
    by (unfold is_digit; apply andb_true_iff; split; apply Z.leb_le; lia).
  destruct (Z.ltb_spec n 10).
  - exists [48 + n mod 10]. repeat split; [by constructor| |done].
    unfold dval. simpl. rewrite Z.mod_small by lia. lia.
  - destruct (IH (n / 10) ((48 + n mod 10) :: acc)) as (ds & -> & Hf & Hv & Hne).
    { split; [apply Z.div_pos; lia|]. apply Z.div_lt_upper_bound; lia. }
    exists (ds ++ [48 + n mod 10]). rewrite <- app_assoc. split; [done|].
    split; [apply Forall_app; split; [done|by constructor]|]. split.
    + unfold dval in *. rewrite foldl_app, Hv. simpl.
      pose proof (Z.div_mod n 10 ltac:(lia)). lia.
    + intros _. by destruct ds.
Qed.

Lemma dec_nat_spec n : 0 <= n ->
  Forall (fun c => is_digit c = true) (dec_nat n) /\ dval 0 (dec_nat n) = n /\ dec_nat n <> [].
Proof.
  intros Hn. unfold dec_nat.
  destruct (dec_digits_spec (S (S (Z.to_nat (Z.log2 n)))) n []) as (ds & -> & Hf & Hv & Hne).
  - split; [done|]. rewrite !Nat2Z.inj_succ, Z2Nat.id by apply Z.log2_nonneg.
    destruct (decide (n = 0)) as [->|]; [reflexivity|].
    pose proof (Z.log2_spec n ltac:(lia)) as [_ Hlt]. pose proof (Z.log2_nonneg n).
    eapply Z.lt_le_trans; [exact Hlt|].
    transitivity (10 ^ Z.succ (Z.log2 n)); [apply Z.pow_le_mono_l; lia|].
    apply Z.pow_le_mono_r; lia.
  - rewrite app_nil_r. auto.
Qed.

(** A string of digits is read by [strtol], which stops behind it. *)
Lemma strtol_digits ds rest :
  Forall (fun c => is_digit c = true) ds -> ds <> [] -> dval 0 ds <= LONG_MAX ->
  (forall c, head rest = Some c -> is_digit c = false) ->
  strtol (ds ++ rest) = (dval 0 ds, rest, false).
Proof.
  intros Hf Hne Hn Hrest.
  assert (0 <= dval 0 ds) as H0.
  { clear - Hf. unfold dval. enough (forall a, 0 <= a -> 0 <= foldl (fun a c => 10 * a + (c - 48)) a ds)
      as H by by apply H.
    induction Hf as [|c ds Hc _ IH]; intros a Ha; [done|]. simpl. apply IH.
    unfold is_digit in Hc. lia. }
  destruct ds as [|c ds]; [done|].
  assert (is_digit c = true) as Hc by by inversion Hf.
  assert (48 <= c <= 57) as Hr by (unfold is_digit in Hc; lia).
  assert (skip_space ((c :: ds) ++ rest) = (c :: ds) ++ rest) as Hs.
  { simpl. unfold is_space. destruct (Z.eqb_spec c 32); [lia|].
    destruct (Z.leb_spec 9 c); [|lia]. by destruct (Z.leb_spec c 13); [lia|]. }
  assert (digits_value 0 ((c :: ds) ++ rest) = (dval 0 (c :: ds), rest)) as Hd.
  { rewrite digits_value_app by done. destruct rest as [|x r]; [done|].
    simpl. by rewrite (Hrest x eq_refl). }
  unfold strtol. rewrite Hs. simpl app in *.
  cbn beta iota zeta.
  rewrite (proj2 (Z.eqb_neq c 45)), (proj2 (Z.eqb_neq c 43)), Hc, Hd by lia. cbv zeta beta iota.
  unfold LONG_MIN. generalize dependent (dval 0 (c :: ds)). intros n Hn H0 _.
  destruct (Z.gtb_spec n LONG_MAX); [lia|]. by destruct (Z.ltb_spec n (- 2 ^ 63)); [lia|].
Qed.

Lemma strtol_dec_nat n rest :
  0 <= n <= LONG_MAX -> (forall c, head rest = Some c -> is_digit c = false) ->
  strtol (dec_nat n ++ rest) = (n, rest, false).
Proof.
  intros Hn Hrest. destruct (dec_nat_spec n ltac:(lia)) as (Hf & Hv & Hne).
  rewrite strtol_digits; [by rewrite Hv|done|done|lia|done].
Qed.

(** How many digits a number has. *)
Lemma length_dec_digits fuel : forall n k acc, 0 <= n < 10 ^ Z.of_nat (S k) ->
  (length (dec_digits fuel n acc) <= S k + length acc)%nat.
Proof.
  induction fuel as [|f IH]; intros n k acc Hn; simpl; [lia|].
  destruct (Z.ltb_spec n 10); [simpl; lia|]. destruct k as [|k]; [simpl in Hn; lia|].
  eapply Nat.le_trans; [apply (IH _ k)|simpl; lia].
  rewrite (Nat2Z.inj_succ (S k)), Z.pow_succ_r in Hn by lia.
  split; [apply Z.div_pos; lia|]. apply Z.div_lt_upper_bound; lia.
Qed.

Lemma length_dec_nat n k : 0 <= n < 10 ^ Z.of_nat (S k) -> (length (dec_nat n) <= S k)%nat.
Proof. intros Hn. unfold dec_nat. pose proof (length_dec_digits (S (S (Z.to_nat (Z.log2 n)))) n k [] Hn). simpl length in *. lia. Qed.

(** [%0<w>u]: the digits with zeros in front. *)
Definition zero_pad (w : nat) (s : cstr) : cstr := replicate (w - length s) 48 ++ s.

Lemma dval_zeros k ds : dval 0 (replicate k 48 ++ ds) = dval 0 ds.
Proof. unfold dval. rewrite foldl_app. f_equal. induction k as [|k IH]; [done|exact IH]. Qed.

Lemma zero_pad_spec w n : 0 <= n < 10 ^ Z.of_nat (S w) ->
  length (zero_pad (S w) (dec_nat n)) = S w /\
  Forall (fun c => is_digit c = true) (zero_pad (S w) (dec_nat n)) /\
  dval 0 (zero_pad (S w) (dec_nat n)) = n.
Proof.
  intros Hn. pose proof (length_dec_nat n w Hn) as Hl.
  destruct (dec_nat_spec n ltac:(lia)) as (Hf & Hv & _). unfold zero_pad. split; [|split].
  - rewrite length_app, length_replicate. lia.
  - apply Forall_app. split; [by apply Forall_replicate|done].
  - by rewrite dval_zeros.
Qed.

(** [sprintf] for formats whose only conversions take an already printed
    argument. *)
Fixpoint sprintf (fmt : cstr) (args : list cstr) : cstr :=
  match fmt with
  | 37 :: _ :: r => match args with a :: args => a ++ sprintf r args | [] => sprintf r [] end
  | c :: r => c :: sprintf r args
  | [] => []
  end.

(** What [snprintf (buf, n, ...)] stores of a text: at most [n - 1] characters. *)
Definition snprintf_text (n : nat) (text : cstr) : cstr := take (n - 1) text.

(** ** Strings joined and split again *)

Fixpoint join (d : Z) (l : list cstr) : cstr :=
  match l with
  | [] => []
  | [s] => s
  | s :: r => s ++ d :: join d r
  end.

Lemma strtok_all_token d cur s r :
  d ∉ s -> strtok_all d cur (s ++ r) = strtok_all d (rev s ++ cur) r.
Proof.
  revert cur. induction s as [|c s IH]; intros cur Hd; [done|].
  apply not_elem_of_cons in Hd as [Hc Hd]. simpl.
  destruct (Z.eqb_spec c d); [congruence|]. rewrite IH by done.
  by rewrite <- app_assoc.
Qed.

Lemma strtok_all_join d l :
  Forall (fun s => d ∉ s /\ s <> []) l -> strtok_all d [] (join d l) = l.
Proof.
  induction 1 as [|s l [Hd Hne] Hl IH]; [done|].
  assert (forall t, match rev s ++ [] with [] => t | _ => rev (rev s ++ []) :: t end = s :: t) as Hm.
  { intros t. rewrite app_nil_r, rev_involutive.
    destruct (rev s) eqn:E; [|done]. apply (f_equal (@rev _)) in E.
    rewrite rev_involutive in E. done. }
  destruct l as [|s' l].
  - cbn [join]. rewrite <- (app_nil_r s) at 1. rewrite strtok_all_token by done. simpl. apply Hm.
  - change (join d (s :: s' :: l)) with (s ++ d :: join d (s' :: l)).
    set (rest := join d (s' :: l)) in *.
    rewrite strtok_all_token by done. cbn [strtok_all]. rewrite Z.eqb_refl, IH. apply Hm.
Qed.

(** Changing an element in a way the test cannot see does not move what is
    found. *)
Lemma list_find_alter {A} (P : A -> Prop) `{forall x, Decision (P x)} (f : A -> A) l : forall i,
  (forall x, P (f x) <-> P x) -> fst <$> list_find P (alter f i l) = fst <$> list_find P l.
Proof.
  induction l as [|x l IH]; intros [|i] HP; try done; simpl.
  - destruct (decide (P (f x))) as [Hf|Hf], (decide (P x)) as [Hx|Hx]; try done; exfalso; naive_solver.
  - destruct (decide (P x)); [done|]. specialize (IH i HP). unfold alter in IH.
    destruct (list_find P (list_alter f i l)) as [[]|], (list_find P l) as [[]|]; simpl in *; congruence.
Qed.
