(* ===== verification/TaErrors.v ===== *)
(** * Status codes ([common/ta_errors.h], [common/ta_errors.c])

    The enumerators of [status_t] with their C values, built from the same
    bit fields (error code in bits 0-5, severity in bits 6-7, module in bits
    8-15), the field decoders given by the masks, and [ta_error_to_string].
    The theorems: the three fields of a code can be read back, two enumerators
    share a value exactly where the source gives them the same initialiser,
    and which enumerators have no message of their own. *)

From S2P Require Import Prelude.

Definition SC_SEVERITY_MASK : Z := 0x00C0.
Definition SC_SEVERITY_SHIFT : Z := 6.
Definition SC_SEVERITY_MINOR : Z := Z.shiftl 0x0 SC_SEVERITY_SHIFT.
Definition SC_SEVERITY_MODERATE : Z := Z.shiftl 0x01 SC_SEVERITY_SHIFT.
Definition SC_SEVERITY_MAJOR : Z := Z.shiftl 0x02 SC_SEVERITY_SHIFT.
Definition SC_SEVERITY_FATAL : Z := Z.shiftl 0x03 SC_SEVERITY_SHIFT.
Definition SC_MODULE_MASK : Z := 0xFF00.
Definition SC_MODULE_SHIFT : Z := 8.
Definition SC_MODULE_TA : Z := Z.shiftl 0x01 SC_MODULE_SHIFT.
Definition SC_MODULE_CCLIENT : Z := Z.shiftl 0x02 SC_MODULE_SHIFT.
Definition SC_MODULE_SERIALIZER : Z := Z.shiftl 0x03 SC_MODULE_SHIFT.
Definition SC_MODULE_CACHE : Z := Z.shiftl 0x04 SC_MODULE_SHIFT.
Definition SC_MODULE_MAM : Z := Z.shiftl 0x05 SC_MODULE_SHIFT.
Definition SC_MODULE_CONF : Z := Z.shiftl 0x06 SC_MODULE_SHIFT.
Definition SC_MODULE_UTILS : Z := Z.shiftl 0x07 SC_MODULE_SHIFT.
Definition SC_MODULE_HTTP : Z := Z.shiftl 0x08 SC_MODULE_SHIFT.
Definition SC_MODULE_MQTT : Z := Z.shiftl 0x09 SC_MODULE_SHIFT.
Definition SC_MODULE_STORAGE : Z := Z.shiftl 0x0A SC_MODULE_SHIFT.
Definition SC_MODULE_CORE : Z := Z.shiftl 0x0B SC_MODULE_SHIFT.
Definition SC_MODULE_ENDPOINT : Z := Z.shiftl 0x0C SC_MODULE_SHIFT.
Definition SC_MODULE_CRYPTO : Z := Z.shiftl 0x0D SC_MODULE_SHIFT.
Definition SC_ERROR_MASK : Z := 0x003F.

(** [enum status_t]: the values are the C enumerators' values. *)
Definition status_t := Z.

(** The shape [code | module | severity] of the initialisers. *)
Definition code (c m s : Z) : status_t := Z.lor (Z.lor c m) s.

Definition SC_OK : status_t := 0.
Definition SC_HTTP_OK : status_t := 200.
Definition SC_HTTP_BAD_REQUEST : status_t := 400.
Definition SC_HTTP_NOT_FOUND : status_t := 404.
Definition SC_HTTP_INTERNAL_SERVICE_ERROR : status_t := 500.
Definition SC_OOM : status_t := code 0x01 SC_MODULE_TA SC_SEVERITY_FATAL.
Definition SC_NULL : status_t := code 0x02 SC_MODULE_TA SC_SEVERITY_FATAL.
Definition SC_TA_WRONG_REQUEST_OBJ : status_t := code 0x03 SC_MODULE_TA SC_SEVERITY_FATAL.
Definition SC_TA_LOGGER_INIT_FAIL : status_t := code 0x04 SC_MODULE_TA SC_SEVERITY_MAJOR.

(** CClient module *)
Definition SC_CCLIENT_NOT_FOUND : status_t := code 0x01 SC_MODULE_CCLIENT SC_SEVERITY_FATAL.
Definition SC_CCLIENT_FAILED_RESPONSE : status_t := code 0x02 SC_MODULE_CCLIENT SC_SEVERITY_FATAL.
Definition SC_CCLIENT_INVALID_FLEX_TRITS : status_t := code 0x03 SC_MODULE_CCLIENT SC_SEVERITY_MAJOR.
Definition SC_CCLIENT_HASH : status_t := code 0x04 SC_MODULE_CCLIENT SC_SEVERITY_MAJOR.
Definition SC_CCLIENT_JSON_KEY : status_t := code 0x05 SC_MODULE_CCLIENT SC_SEVERITY_MAJOR.
Definition SC_CCLIENT_JSON_PARSE : status_t := code 0x06 SC_MODULE_CCLIENT SC_SEVERITY_MAJOR.
Definition SC_CCLIENT_FLEX_TRITS : status_t := code 0x07 SC_MODULE_CCLIENT SC_SEVERITY_MAJOR.
Definition SC_CCLIENT_JSON_CREATE : status_t := code 0x08 SC_MODULE_CCLIENT SC_SEVERITY_MAJOR.

(** Serializer module *)
Definition SC_SERIALIZER_JSON_CREATE : status_t := code 0x01 SC_MODULE_SERIALIZER SC_SEVERITY_FATAL.
Definition SC_SERIALIZER_NULL : status_t := code 0x02 SC_MODULE_SERIALIZER SC_SEVERITY_FATAL.
Definition SC_SERIALIZER_JSON_PARSE : status_t := code 0x03 SC_MODULE_SERIALIZER SC_SEVERITY_FATAL.
Definition SC_SERIALIZER_JSON_PARSE_NOT_TRYTE : status_t := code 0x04 SC_MODULE_SERIALIZER SC_SEVERITY_FATAL.
Definition SC_SERIALIZER_INVALID_REQ : status_t := code 0x05 SC_MODULE_SERIALIZER SC_SEVERITY_FATAL.
Definition SC_SERIALIZER_MESSAGE_OVERRUN : status_t := code 0x06 SC_MODULE_SERIALIZER SC_SEVERITY_FATAL.
Definition SC_SERIALIZER_KEY_NOT_EXISTS : status_t := code 0x07 SC_MODULE_SERIALIZER SC_SEVERITY_FATAL.
Definition SC_SERIALIZER_VALUE_EMPTY : status_t := code 0x08 SC_MODULE_SERIALIZER SC_SEVERITY_FATAL.
Definition SC_SERIALIZER_VALUE_INVLID : status_t := code 0x08 SC_MODULE_SERIALIZER SC_SEVERITY_FATAL.

(** Cache module *)
Definition SC_CACHE_FAILED_RESPONSE : status_t := code 0x02 SC_MODULE_CACHE SC_SEVERITY_FATAL.
Definition SC_CACHE_OFF : status_t := code 0x03 SC_MODULE_CACHE SC_SEVERITY_MINOR.
Definition SC_CACHE_INIT_FINI : status_t := code 0x04 SC_MODULE_CACHE SC_SEVERITY_FATAL.
Definition SC_CACHE_LOCK_FAILURE : status_t := code 0x05 SC_MODULE_CACHE SC_SEVERITY_FATAL.

(** MAM module *)
Definition SC_MAM_NOT_FOUND : status_t := code 0x01 SC_MODULE_MAM SC_SEVERITY_FATAL.
Definition SC_MAM_FAILED_INIT : status_t := code 0x02 SC_MODULE_MAM SC_SEVERITY_FATAL.
Definition SC_MAM_FAILED_RESPONSE : status_t := code 0x03 SC_MODULE_MAM SC_SEVERITY_FATAL.
Definition SC_MAM_FAILED_DESTROYED : status_t := code 0x04 SC_MODULE_MAM SC_SEVERITY_FATAL.
Definition SC_MAM_NO_PAYLOAD : status_t := code 0x05 SC_MODULE_MAM SC_SEVERITY_FATAL.
Definition SC_MAM_FAILED_WRITE : status_t := code 0x06 SC_MODULE_MAM SC_SEVERITY_FATAL.
Definition SC_MAM_FILE_SAVE : status_t := code 0x07 SC_MODULE_MAM SC_SEVERITY_FATAL.
Definition SC_MAM_ALL_MSS_KEYS_USED : status_t := code 0x08 SC_MODULE_MAM SC_SEVERITY_FATAL.
Definition SC_MAM_FAILED_CREATE_OR_GET_ID : status_t := code 0x09 SC_MODULE_MAM SC_SEVERITY_FATAL.
Definition SC_MAM_FAILED_WRITE_HEADER : status_t := code 0x0A SC_MODULE_MAM SC_SEVERITY_FATAL.
Definition SC_MAM_READ_MESSAGE_ERROR : status_t := code 0x0B SC_MODULE_MAM SC_SEVERITY_FATAL.
Definition SC_MAM_INVAID_CHID_OR_EPID : status_t := code 0x0C SC_MODULE_MAM SC_SEVERITY_FATAL.
Definition SC_MAM_EXCEEDED_CHID_ITER : status_t := code 0x0D SC_MODULE_MAM SC_SEVERITY_FATAL.

(** configuration module *)
Definition SC_CONF_MISSING_ARGUMENT : status_t := code 0x01 SC_MODULE_CONF SC_SEVERITY_FATAL.
Definition SC_CONF_UNKNOWN_OPTION : status_t := code 0x02 SC_MODULE_CONF SC_SEVERITY_FATAL.
Definition SC_CONF_LOCK_INIT : status_t := code 0x03 SC_MODULE_CONF SC_SEVERITY_FATAL.
Definition SC_CONF_LOCK_DESTROY : status_t := code 0x04 SC_MODULE_CONF SC_SEVERITY_FATAL.
Definition SC_CONF_PARSER_ERROR : status_t := code 0x05 SC_MODULE_CONF SC_SEVERITY_FATAL.
Definition SC_CONF_FOPEN_ERROR : status_t := code 0x06 SC_MODULE_CONF SC_SEVERITY_FATAL.

(** UTILS module *)
Definition SC_UTILS_WRONG_INPUT_ARG : status_t := code 0x01 SC_MODULE_UTILS SC_SEVERITY_FATAL.
Definition SC_UTILS_TIMER_ERROR : status_t := code 0x02 SC_MODULE_UTILS SC_SEVERITY_FATAL.
Definition SC_UTILS_TIMER_EXPIRED : status_t := code 0x03 SC_MODULE_UTILS SC_SEVERITY_FATAL.
Definition SC_UTILS_HTTPS_SEND_ERROR : status_t := code 0x04 SC_MODULE_UTILS SC_SEVERITY_FATAL.
Definition SC_UTILS_HTTPS_INIT_ERROR : status_t := code 0x05 SC_MODULE_UTILS SC_SEVERITY_FATAL.
Definition SC_UTILS_HTTPS_X509_ERROR : status_t := code 0x06 SC_MODULE_UTILS SC_SEVERITY_FATAL.
Definition SC_UTILS_HTTPS_CONN_ERROR : status_t := code 0x07 SC_MODULE_UTILS SC_SEVERITY_FATAL.
Definition SC_UTILS_HTTPS_SSL_ERROR : status_t := code 0x08 SC_MODULE_UTILS SC_SEVERITY_FATAL.
Definition SC_UTILS_HTTPS_RESPONSE_ERROR : status_t := code 0x09 SC_MODULE_UTILS SC_SEVERITY_FATAL.
Definition SC_UTILS_TEXT_SERIALIZE : status_t := code 0x0A SC_MODULE_UTILS SC_SEVERITY_FATAL.
Definition SC_UTILS_TEXT_DESERIALIZE : status_t := code 0x0B SC_MODULE_UTILS SC_SEVERITY_FATAL.
Definition SC_UTILS_OVERFLOW_ERROR : status_t := code 0x0C SC_MODULE_UTILS SC_SEVERITY_FATAL.
Definition SC_UTILS_CIPHER_ERROR : status_t := code 0x0D SC_MODULE_UTILS SC_SEVERITY_FATAL.

(** HTTP module *)
Definition SC_HTTP_INVALID_REGEX : status_t := code 0x01 SC_MODULE_HTTP SC_SEVERITY_MAJOR.
Definition SC_HTTP_URL_NOT_MATCH : status_t := code 0x02 SC_MODULE_HTTP SC_SEVERITY_MAJOR.
Definition SC_HTTP_URL_PARSE_ERROR : status_t := code 0x03 SC_MODULE_HTTP SC_SEVERITY_MAJOR.
Definition SC_HTTP_COMMAND_NOT_MATCH : status_t := code 0x04 SC_MODULE_HTTP SC_SEVERITY_MAJOR.

(** MQTT module *)
Definition SC_MQTT_INIT : status_t := code 0x01 SC_MODULE_MQTT SC_SEVERITY_MAJOR.
Definition SC_MQTT_MOSQ_OBJ_INIT_ERROR : status_t := code 0x02 SC_MODULE_MQTT SC_SEVERITY_MAJOR.
Definition SC_MQTT_TOPIC_SET : status_t := code 0x03 SC_MODULE_MQTT SC_SEVERITY_MAJOR.
Definition SC_MQTT_OPT_SET : status_t := code 0x04 SC_MODULE_MQTT SC_SEVERITY_MAJOR.
Definition SC_MQTT_CONNECT : status_t := code 0x05 SC_MODULE_MQTT SC_SEVERITY_MAJOR.
Definition SC_MQTT_INVALID_TAG : status_t := code 0x06 SC_MODULE_MQTT SC_SEVERITY_MAJOR.

(** STORAGE module *)
Definition SC_STORAGE_CONNECT_FAIL : status_t := code 0x01 SC_MODULE_STORAGE SC_SEVERITY_MAJOR.
Definition SC_STORAGE_INVALID_INPUT : status_t := code 0x02 SC_MODULE_STORAGE SC_SEVERITY_MAJOR.
Definition SC_STORAGE_CASSANDRA_QUERY_FAIL : status_t := code 0x03 SC_MODULE_STORAGE SC_SEVERITY_MAJOR.

(** Core module *)
Definition SC_CORE_NODE_UNSYNC : status_t := code 0x01 SC_MODULE_CORE SC_SEVERITY_FATAL.

(** Endpoint module *)
Definition SC_ENDPOINT_DEVICE_INIT : status_t := code 0x01 SC_MODULE_ENDPOINT SC_SEVERITY_FATAL.
Definition SC_ENDPOINT_DEVICE_FINI : status_t := code 0x02 SC_MODULE_ENDPOINT SC_SEVERITY_FATAL.
Definition SC_ENDPOINT_UART : status_t := code 0x03 SC_MODULE_ENDPOINT SC_SEVERITY_FATAL.
Definition SC_ENDPOINT_UART_SET_ATTR : status_t := code 0x04 SC_MODULE_ENDPOINT SC_SEVERITY_FATAL.
Definition SC_ENDPOINT_SEC_FAULT : status_t := code 0x05 SC_MODULE_ENDPOINT SC_SEVERITY_MINOR.
Definition SC_ENDPOINT_SEC_ITEM_NOT_FOUND : status_t := code 0x06 SC_MODULE_ENDPOINT SC_SEVERITY_MINOR.
Definition SC_ENDPOINT_SEC_UNAVAILABLE : status_t := code 0x07 SC_MODULE_ENDPOINT SC_SEVERITY_MINOR.
Definition SC_ENDPOINT_SEND_TRANSFER : status_t := code 0x08 SC_MODULE_ENDPOINT SC_SEVERITY_FATAL.
Definition SC_ENDPOINT_GET_KEY_ERROR : status_t := code 0x09 SC_MODULE_ENDPOINT SC_SEVERITY_FATAL.
Definition SC_ENDPOINT_GET_DEVICE_ID_ERROR : status_t := code 0x0A SC_MODULE_ENDPOINT SC_SEVERITY_FATAL.
Definition SC_ENDPOINT_DNS_RESOLVE_ERROR : status_t := code 0x0B SC_MODULE_ENDPOINT SC_SEVERITY_FATAL.
Definition SC_ENDPOINT_CAN_OPEN_ERROR : status_t := code 0x0C SC_MODULE_ENDPOINT SC_SEVERITY_FATAL.
Definition SC_ENDPOINT_CAN_SEND_ERROR : status_t := code 0x0D SC_MODULE_ENDPOINT SC_SEVERITY_FATAL.
Definition SC_ENDPOINT_CAN_RECV_ERROR : status_t := code 0x0E SC_MODULE_ENDPOINT SC_SEVERITY_FATAL.
Definition SC_ENDPOINT_CAN_CLOSE_ERROR : status_t := code 0x0F SC_MODULE_ENDPOINT SC_SEVERITY_FATAL.
Definition SC_ENDPOINT_UART_WRITE_ERROR : status_t := code 0x10 SC_MODULE_ENDPOINT SC_SEVERITY_FATAL.
Definition SC_ENDPOINT_UART_READ_ERROR : status_t := code 0x11 SC_MODULE_ENDPOINT SC_SEVERITY_FATAL.
Definition SC_ENDPOINT_SET_KEY_ERROR : status_t := code 0x12 SC_MODULE_ENDPOINT SC_SEVERITY_FATAL.

(** Crypto module *)
Definition SC_CRYPTO_RAND_ERR : status_t := code 0x01 SC_MODULE_CRYPTO SC_SEVERITY_FATAL.
Definition SC_CRYPTO_GENKEY_ERR : status_t := code 0x02 SC_MODULE_CRYPTO SC_SEVERITY_FATAL.
Definition SC_CRYPTO_SECRET_ERR : status_t := code 0x03 SC_MODULE_CRYPTO SC_SEVERITY_FATAL.

(** [switch] on an integer whose cases return: the first matching case wins,
    and a C compiler refuses duplicate cases. *)
Fixpoint switch {A} (x : Z) (cases : list (Z * A)) (default : A) : A :=
  match cases with
  | [] => default
  | (k, a) :: r => if Z.eqb x k then a else switch x r default
  end.

Definition error_strings : list (status_t * string) := [
  (SC_OK, "No error.");
  (SC_HTTP_OK, "HTTP response OK.");
  (SC_HTTP_BAD_REQUEST, "HTTP response, error when parsing request.");
  (SC_HTTP_NOT_FOUND, "HTTP request not found.");
  (SC_HTTP_INTERNAL_SERVICE_ERROR, "HTTP response, other errors in TA.");
  (SC_OOM, "Failed to create TA object.");
  (SC_NULL, "NULL TA objects.");
  (SC_TA_WRONG_REQUEST_OBJ, "Wrong TA request object.");
  (SC_TA_LOGGER_INIT_FAIL, "Failed to init TA logger.");
  (SC_CCLIENT_NOT_FOUND, "Empty result from cclient.");
  (SC_CCLIENT_FAILED_RESPONSE, "Error in cclient response.");
  (SC_CCLIENT_INVALID_FLEX_TRITS, "Invalid flex trits.");
  (SC_CCLIENT_HASH, "Hash container operation error.");
  (SC_CCLIENT_JSON_KEY, "JSON key not found.");
  (SC_CCLIENT_JSON_PARSE, "JSON parsing error.");
  (SC_CCLIENT_FLEX_TRITS, "flex_trits converting error.");
  (SC_CCLIENT_JSON_CREATE, "JSON create object error.");
  (SC_SERIALIZER_JSON_CREATE, "Failed to create JSON object in serializer.");
  (SC_SERIALIZER_NULL, "NULL object in serializer.");
  (SC_SERIALIZER_JSON_PARSE, "Failed to parse JSON object in serializer.");
  (SC_SERIALIZER_JSON_PARSE_NOT_TRYTE, "Unicode value in JSON.");
  (SC_SERIALIZER_INVALID_REQ, "Invalid request value in JSON.");
  (SC_SERIALIZER_MESSAGE_OVERRUN, "Message length is out of valid size.");
  (SC_CACHE_FAILED_RESPONSE, "Failed in cache operations.");
  (SC_CACHE_OFF, "Cache server is not turned on.");
  (SC_CACHE_INIT_FINI, "Failed to initialize or destroy lock in cache");
  (SC_CACHE_LOCK_FAILURE, "Failed to lock or unlock cache operation");
  (SC_MAM_NOT_FOUND, "Empty result from MAM.");
  (SC_MAM_FAILED_INIT, "Error in MAM initialization.");
  (SC_MAM_FAILED_RESPONSE, "Error in MAM response.");
  (SC_MAM_FAILED_DESTROYED, "Error in MAM destroy.");
  (SC_MAM_NO_PAYLOAD, "No payload or no chid in MAM.");
  (SC_MAM_FAILED_WRITE, "Failed to write MAM packet.");
  (SC_MAM_FILE_SAVE, "Failed to save MAM file.");
  (SC_MAM_ALL_MSS_KEYS_USED, "All MSS private keys of current given parameters are used.");
  (SC_MAM_FAILED_CREATE_OR_GET_ID, "Failed to created/get chid or epid or msg_id.");
  (SC_MAM_FAILED_WRITE_HEADER, "Failed to write header or packet in MAM.");
  (SC_MAM_READ_MESSAGE_ERROR, "Met error when reading MAM message from bundle");
  (SC_MAM_INVAID_CHID_OR_EPID, "Failed to add trusted channel ID or endpoint ID");
  (SC_MAM_EXCEEDED_CHID_ITER, "Too much iteration for finding a starting chid");
  (SC_CONF_MISSING_ARGUMENT, "No argument in CLI.");
  (SC_CONF_UNKNOWN_OPTION, "Undefined option in CLI.");
  (SC_CONF_LOCK_INIT, "Failed to init lock.");
  (SC_CONF_LOCK_DESTROY, "Failed to destroy lock.");
  (SC_CONF_PARSER_ERROR, "Failed to initialize yaml parser.");
  (SC_CONF_FOPEN_ERROR, "Failed to open file.");
  (SC_UTILS_WRONG_INPUT_ARG, "Wrong utilities input object");
  (SC_UTILS_TIMER_ERROR, "Errors occurred in timer function");
  (SC_UTILS_TIMER_EXPIRED, "Timer expired");
  (SC_UTILS_HTTPS_SEND_ERROR, "Failed to send message");
  (SC_UTILS_HTTPS_INIT_ERROR, "HTTPS module initialize error");
  (SC_UTILS_HTTPS_X509_ERROR, "HTTPS X509 certificate parse error");
  (SC_UTILS_HTTPS_CONN_ERROR, "HTTPS initial connection error");
  (SC_UTILS_HTTPS_SSL_ERROR, "HTTPS setting SSL config error");
  (SC_UTILS_HTTPS_RESPONSE_ERROR, "HTTPS response error");
  (SC_UTILS_TEXT_SERIALIZE, "Error occurred when serializing message");
  (SC_UTILS_TEXT_DESERIALIZE, "Error occurred when deserializing message");
  (SC_UTILS_OVERFLOW_ERROR, "Overflow error");
  (SC_UTILS_CIPHER_ERROR, "Error occurred when encrypting or descrypting message");
  (SC_HTTP_INVALID_REGEX, "Invalid URL regular expression rule in http.");
  (SC_HTTP_URL_NOT_MATCH, "URL doesn't match regular expression rule.");
  (SC_HTTP_URL_PARSE_ERROR, "URL parameter parsing error.");
  (SC_HTTP_COMMAND_NOT_MATCH, "Proxy API command hash does not match.");
  (SC_MQTT_INIT, "Error during initialization in MQTT.");
  (SC_MQTT_MOSQ_OBJ_INIT_ERROR, "Error initializing mosquitto object.");
  (SC_MQTT_TOPIC_SET, "Error setting topic in MQTT.");
  (SC_MQTT_OPT_SET, "Error setting options of mosquitto object.");
  (SC_MQTT_CONNECT, "Error in connecting to broker.");
  (SC_MQTT_INVALID_TAG, "Received invalid tag length in MQTT");
  (SC_STORAGE_CONNECT_FAIL, "Failed to connect ScyllaDB node.");
  (SC_STORAGE_INVALID_INPUT, "Invalid input parameter in ScyllaDB.");
  (SC_STORAGE_CASSANDRA_QUERY_FAIL, "Failed to execute Cassandra query.");
  (SC_CORE_NODE_UNSYNC, "IOTA full node host is not synchronized.");
  (SC_ENDPOINT_DEVICE_INIT, "Failed to initialize the device.");
  (SC_ENDPOINT_DEVICE_FINI, "Failed to finalize the device");
  (SC_ENDPOINT_UART, "UART error occurred in device component");
  (SC_ENDPOINT_UART_SET_ATTR, "UART error occurred when setting UART attribute");
  (SC_ENDPOINT_SEC_FAULT, "Error occurred inside secure storage");
  (SC_ENDPOINT_SEC_ITEM_NOT_FOUND, "Item not found inside secure storage");
  (SC_ENDPOINT_SEC_UNAVAILABLE, "Secure storage service is unavailable");
  (SC_ENDPOINT_SEND_TRANSFER, "Error occurred when sending the transfer message");
  (SC_ENDPOINT_GET_KEY_ERROR, "Error occurred when get private key from endpoint device");
  (SC_ENDPOINT_GET_DEVICE_ID_ERROR, "Error occurred when get device id from endpoint device");
  (SC_ENDPOINT_DNS_RESOLVE_ERROR, "Error occurred when resolving the domain name");
  (SC_ENDPOINT_CAN_OPEN_ERROR, "Error occurred when opening CAN BUS socket");
  (SC_ENDPOINT_CAN_SEND_ERROR, "Error occurred when writing message into CAN BUS socket");
  (SC_ENDPOINT_CAN_RECV_ERROR, "Error occurred when reading message from CAN BUS socket");
  (SC_ENDPOINT_CAN_CLOSE_ERROR, "Error occurred when closing CAN BUS socket");
  (SC_ENDPOINT_UART_WRITE_ERROR, "Error occurred when writing message to UART");
  (SC_ENDPOINT_UART_READ_ERROR, "Error occurred when reading message from UART");
  (SC_ENDPOINT_SET_KEY_ERROR, "Fail to set a new AES key");
  (SC_CRYPTO_RAND_ERR, "Failed to generate random number generator");
  (SC_CRYPTO_GENKEY_ERR, "Failed to generate ECDH public key");
  (SC_CRYPTO_SECRET_ERR, "Failed to compute ECDH shared secret")
].

Definition ta_error_to_string (err : status_t) : string :=
  switch err error_strings "Unknown error.".

(** Every enumerator of [status_t], by name. *)
Definition status_t_values : list (string * status_t) := [
  ("SC_OK", SC_OK);
  ("SC_HTTP_OK", SC_HTTP_OK);
  ("SC_HTTP_BAD_REQUEST", SC_HTTP_BAD_REQUEST);
  ("SC_HTTP_NOT_FOUND", SC_HTTP_NOT_FOUND);
  ("SC_HTTP_INTERNAL_SERVICE_ERROR", SC_HTTP_INTERNAL_SERVICE_ERROR);
  ("SC_OOM", SC_OOM);
  ("SC_NULL", SC_NULL);
  ("SC_TA_WRONG_REQUEST_OBJ", SC_TA_WRONG_REQUEST_OBJ);
  ("SC_TA_LOGGER_INIT_FAIL", SC_TA_LOGGER_INIT_FAIL);
  ("SC_CCLIENT_NOT_FOUND", SC_CCLIENT_NOT_FOUND);
  ("SC_CCLIENT_FAILED_RESPONSE", SC_CCLIENT_FAILED_RESPONSE);
  ("SC_CCLIENT_INVALID_FLEX_TRITS", SC_CCLIENT_INVALID_FLEX_TRITS);
  ("SC_CCLIENT_HASH", SC_CCLIENT_HASH);
  ("SC_CCLIENT_JSON_KEY", SC_CCLIENT_JSON_KEY);
  ("SC_CCLIENT_JSON_PARSE", SC_CCLIENT_JSON_PARSE);
  ("SC_CCLIENT_FLEX_TRITS", SC_CCLIENT_FLEX_TRITS);
  ("SC_CCLIENT_JSON_CREATE", SC_CCLIENT_JSON_CREATE);
  ("SC_SERIALIZER_JSON_CREATE", SC_SERIALIZER_JSON_CREATE);
  ("SC_SERIALIZER_NULL", SC_SERIALIZER_NULL);
  ("SC_SERIALIZER_JSON_PARSE", SC_SERIALIZER_JSON_PARSE);
  ("SC_SERIALIZER_JSON_PARSE_NOT_TRYTE", SC_SERIALIZER_JSON_PARSE_NOT_TRYTE);
  ("SC_SERIALIZER_INVALID_REQ", SC_SERIALIZER_INVALID_REQ);
  ("SC_SERIALIZER_MESSAGE_OVERRUN", SC_SERIALIZER_MESSAGE_OVERRUN);
  ("SC_SERIALIZER_KEY_NOT_EXISTS", SC_SERIALIZER_KEY_NOT_EXISTS);
  ("SC_SERIALIZER_VALUE_EMPTY", SC_SERIALIZER_VALUE_EMPTY);
  ("SC_SERIALIZER_VALUE_INVLID", SC_SERIALIZER_VALUE_INVLID);
  ("SC_CACHE_FAILED_RESPONSE", SC_CACHE_FAILED_RESPONSE);
  ("SC_CACHE_OFF", SC_CACHE_OFF);
  ("SC_CACHE_INIT_FINI", SC_CACHE_INIT_FINI);
  ("SC_CACHE_LOCK_FAILURE", SC_CACHE_LOCK_FAILURE);
  ("SC_MAM_NOT_FOUND", SC_MAM_NOT_FOUND);
  ("SC_MAM_FAILED_INIT", SC_MAM_FAILED_INIT);
  ("SC_MAM_FAILED_RESPONSE", SC_MAM_FAILED_RESPONSE);
  ("SC_MAM_FAILED_DESTROYED", SC_MAM_FAILED_DESTROYED);
  ("SC_MAM_NO_PAYLOAD", SC_MAM_NO_PAYLOAD);
  ("SC_MAM_FAILED_WRITE", SC_MAM_FAILED_WRITE);
  ("SC_MAM_FILE_SAVE", SC_MAM_FILE_SAVE);
  ("SC_MAM_ALL_MSS_KEYS_USED", SC_MAM_ALL_MSS_KEYS_USED);
  ("SC_MAM_FAILED_CREATE_OR_GET_ID", SC_MAM_FAILED_CREATE_OR_GET_ID);
  ("SC_MAM_FAILED_WRITE_HEADER", SC_MAM_FAILED_WRITE_HEADER);
  ("SC_MAM_READ_MESSAGE_ERROR", SC_MAM_READ_MESSAGE_ERROR);
  ("SC_MAM_INVAID_CHID_OR_EPID", SC_MAM_INVAID_CHID_OR_EPID);
  ("SC_MAM_EXCEEDED_CHID_ITER", SC_MAM_EXCEEDED_CHID_ITER);
  ("SC_CONF_MISSING_ARGUMENT", SC_CONF_MISSING_ARGUMENT);
  ("SC_CONF_UNKNOWN_OPTION", SC_CONF_UNKNOWN_OPTION);
  ("SC_CONF_LOCK_INIT", SC_CONF_LOCK_INIT);
  ("SC_CONF_LOCK_DESTROY", SC_CONF_LOCK_DESTROY);
  ("SC_CONF_PARSER_ERROR", SC_CONF_PARSER_ERROR);
  ("SC_CONF_FOPEN_ERROR", SC_CONF_FOPEN_ERROR);
  ("SC_UTILS_WRONG_INPUT_ARG", SC_UTILS_WRONG_INPUT_ARG);
  ("SC_UTILS_TIMER_ERROR", SC_UTILS_TIMER_ERROR);
  ("SC_UTILS_TIMER_EXPIRED", SC_UTILS_TIMER_EXPIRED);
  ("SC_UTILS_HTTPS_SEND_ERROR", SC_UTILS_HTTPS_SEND_ERROR);
  ("SC_UTILS_HTTPS_INIT_ERROR", SC_UTILS_HTTPS_INIT_ERROR);
  ("SC_UTILS_HTTPS_X509_ERROR", SC_UTILS_HTTPS_X509_ERROR);
  ("SC_UTILS_HTTPS_CONN_ERROR", SC_UTILS_HTTPS_CONN_ERROR);
  ("SC_UTILS_HTTPS_SSL_ERROR", SC_UTILS_HTTPS_SSL_ERROR);
  ("SC_UTILS_HTTPS_RESPONSE_ERROR", SC_UTILS_HTTPS_RESPONSE_ERROR);
  ("SC_UTILS_TEXT_SERIALIZE", SC_UTILS_TEXT_SERIALIZE);
  ("SC_UTILS_TEXT_DESERIALIZE", SC_UTILS_TEXT_DESERIALIZE);
  ("SC_UTILS_OVERFLOW_ERROR", SC_UTILS_OVERFLOW_ERROR);
  ("SC_UTILS_CIPHER_ERROR", SC_UTILS_CIPHER_ERROR);
  ("SC_HTTP_INVALID_REGEX", SC_HTTP_INVALID_REGEX);
  ("SC_HTTP_URL_NOT_MATCH", SC_HTTP_URL_NOT_MATCH);
  ("SC_HTTP_URL_PARSE_ERROR", SC_HTTP_URL_PARSE_ERROR);
  ("SC_HTTP_COMMAND_NOT_MATCH", SC_HTTP_COMMAND_NOT_MATCH);
  ("SC_MQTT_INIT", SC_MQTT_INIT);
  ("SC_MQTT_MOSQ_OBJ_INIT_ERROR", SC_MQTT_MOSQ_OBJ_INIT_ERROR);
  ("SC_MQTT_TOPIC_SET", SC_MQTT_TOPIC_SET);
  ("SC_MQTT_OPT_SET", SC_MQTT_OPT_SET);
  ("SC_MQTT_CONNECT", SC_MQTT_CONNECT);
  ("SC_MQTT_INVALID_TAG", SC_MQTT_INVALID_TAG);
  ("SC_STORAGE_CONNECT_FAIL", SC_STORAGE_CONNECT_FAIL);
  ("SC_STORAGE_INVALID_INPUT", SC_STORAGE_INVALID_INPUT);
  ("SC_STORAGE_CASSANDRA_QUERY_FAIL", SC_STORAGE_CASSANDRA_QUERY_FAIL);
  ("SC_CORE_NODE_UNSYNC", SC_CORE_NODE_UNSYNC);
  ("SC_ENDPOINT_DEVICE_INIT", SC_ENDPOINT_DEVICE_INIT);
  ("SC_ENDPOINT_DEVICE_FINI", SC_ENDPOINT_DEVICE_FINI);
  ("SC_ENDPOINT_UART", SC_ENDPOINT_UART);
  ("SC_ENDPOINT_UART_SET_ATTR", SC_ENDPOINT_UART_SET_ATTR);
  ("SC_ENDPOINT_SEC_FAULT", SC_ENDPOINT_SEC_FAULT);
  ("SC_ENDPOINT_SEC_ITEM_NOT_FOUND", SC_ENDPOINT_SEC_ITEM_NOT_FOUND);
  ("SC_ENDPOINT_SEC_UNAVAILABLE", SC_ENDPOINT_SEC_UNAVAILABLE);
  ("SC_ENDPOINT_SEND_TRANSFER", SC_ENDPOINT_SEND_TRANSFER);
  ("SC_ENDPOINT_GET_KEY_ERROR", SC_ENDPOINT_GET_KEY_ERROR);
  ("SC_ENDPOINT_GET_DEVICE_ID_ERROR", SC_ENDPOINT_GET_DEVICE_ID_ERROR);
  ("SC_ENDPOINT_DNS_RESOLVE_ERROR", SC_ENDPOINT_DNS_RESOLVE_ERROR);
  ("SC_ENDPOINT_CAN_OPEN_ERROR", SC_ENDPOINT_CAN_OPEN_ERROR);
  ("SC_ENDPOINT_CAN_SEND_ERROR", SC_ENDPOINT_CAN_SEND_ERROR);
  ("SC_ENDPOINT_CAN_RECV_ERROR", SC_ENDPOINT_CAN_RECV_ERROR);
  ("SC_ENDPOINT_CAN_CLOSE_ERROR", SC_ENDPOINT_CAN_CLOSE_ERROR);
  ("SC_ENDPOINT_UART_WRITE_ERROR", SC_ENDPOINT_UART_WRITE_ERROR);
  ("SC_ENDPOINT_UART_READ_ERROR", SC_ENDPOINT_UART_READ_ERROR);
  ("SC_ENDPOINT_SET_KEY_ERROR", SC_ENDPOINT_SET_KEY_ERROR);
  ("SC_CRYPTO_RAND_ERR", SC_CRYPTO_RAND_ERR);
  ("SC_CRYPTO_GENKEY_ERR", SC_CRYPTO_GENKEY_ERR);
  ("SC_CRYPTO_SECRET_ERR", SC_CRYPTO_SECRET_ERR)
].

(** Reading the bit fields back with the masks of the header. *)
Definition status_error (e : status_t) : Z := Z.land e SC_ERROR_MASK.
Definition status_severity (e : status_t) : Z := Z.land e SC_SEVERITY_MASK.
Definition status_module (e : status_t) : Z := Z.land e SC_MODULE_MASK.

(** Enumerators that are not built from the three fields. *)
Definition plain_codes : list status_t :=
  [SC_OK; SC_HTTP_OK; SC_HTTP_BAD_REQUEST; SC_HTTP_NOT_FOUND; SC_HTTP_INTERNAL_SERVICE_ERROR].

(** The three fields occupy disjoint bit ranges, so each mask selects its own. *)
Lemma code_land c m s mask :
  Z.land (code c m s) mask = Z.lor (Z.lor (Z.land c mask) (Z.land m mask)) (Z.land s mask).
Proof. unfold code. by rewrite !Z.land_lor_distr_l. Qed.

(** The bit division documented in [ta_errors.h] (error code in bits 0-5,
    severity in bits 6-7, module in bits 8-15) is a faithful encoding: from a
    code assembled out of in-range fields each mask reads back exactly the
    field that was put in. *)
Theorem status_fields_decode c m s :
  0 <= c < 64 -> 0 <= m < 256 -> 0 <= s < 4 ->
  let e := code c (Z.shiftl m SC_MODULE_SHIFT) (Z.shiftl s SC_SEVERITY_SHIFT) in
  status_error e = c /\
  status_module e = Z.shiftl m SC_MODULE_SHIFT /\
  status_severity e = Z.shiftl s SC_SEVERITY_SHIFT.
Proof.
  intros Hc Hm Hs e. subst e.
  unfold status_error, status_module, status_severity. rewrite !code_land.
  change SC_ERROR_MASK with (Z.shiftl (Z.ones 6) 0).
  change SC_MODULE_MASK with (Z.shiftl (Z.ones 8) 8).
  change SC_SEVERITY_MASK with (Z.shiftl (Z.ones 2) 6).
  change SC_MODULE_SHIFT with 8. change SC_SEVERITY_SHIFT with 6.
  rewrite <- (Z.shiftl_0_r c).
  rewrite !land_shiftl_same by lia.
  rewrite !(land_shiftl_disj c _ 6 8 0 8), !(land_shiftl_disj c _ 6 2 0 6),
    !(land_shiftl_disj m _ 8 6 8 0), !(land_shiftl_disj m _ 8 2 8 6),
    !(land_shiftl_disj s _ 2 6 6 0), !(land_shiftl_disj s _ 2 8 6 8)
    by first [lia | vm_compute; intuition congruence].
  by rewrite ?Z.lor_0_r, ?Z.lor_0_l.
Qed.

Lemma status_fields_decode_witness :
  status_module SC_CACHE_OFF = SC_MODULE_CACHE.
Proof.
  destruct (status_fields_decode 3 4 0) as (_ & H & _); [lia..|]. exact H.
Defined.

(** The enumerators have distinct values, with the one exception that the
    source gives [SC_SERIALIZER_VALUE_EMPTY] and [SC_SERIALIZER_VALUE_INVLID]
    the same code; every enumerator that is not a plain HTTP code carries a
    module between [SC_MODULE_TA] and [SC_MODULE_CRYPTO] and a non-zero error
    number. *)
Theorem status_codes_distinct :
  (forall n1 n2 v,
     In (n1, v) status_t_values -> In (n2, v) status_t_values ->
     n1 = n2 \/ v = SC_SERIALIZER_VALUE_EMPTY) /\
  SC_SERIALIZER_VALUE_EMPTY = SC_SERIALIZER_VALUE_INVLID /\
  (forall n v, In (n, v) status_t_values ->
     v ∈ plain_codes \/
     (SC_MODULE_TA <= status_module v <= SC_MODULE_CRYPTO /\ 0 < status_error v)).
Proof.
  split; [|split; [reflexivity|]].
  - assert (bool_decide (Forall (fun p => Forall (fun q => p.2 = q.2 ->
      p.1 = q.1 \/ p.2 = SC_SERIALIZER_VALUE_EMPTY) status_t_values) status_t_values) = true)
      as H by (vm_compute; reflexivity).
    apply bool_decide_eq_true in H.
    intros n1 n2 v H1%list_elem_of_In H2%list_elem_of_In.
    rewrite Forall_forall in H. specialize (H _ H1).
    rewrite Forall_forall in H. by apply (H _ H2).
  - assert (bool_decide (Forall (fun p => p.2 ∈ plain_codes \/
      (SC_MODULE_TA <= status_module p.2 <= SC_MODULE_CRYPTO /\ 0 < status_error p.2))
      status_t_values) = true) as H by (vm_compute; reflexivity).
    apply bool_decide_eq_true in H.
    intros n v Hin%list_elem_of_In. rewrite Forall_forall in H.
    by apply (H _ Hin).
Qed.

Lemma switch_in {A} x cases (d : A) :
  In (x, switch x cases d) cases \/ (switch x cases d = d /\ x ∉ cases.*1).
Proof.
  induction cases as [|[k a] r IH]; simpl.
  { right. split; [done|]. apply not_elem_of_nil. }
  destruct (Z.eqb_spec x k) as [->|Hne]; [by auto|].
  destruct IH as [IH|[IH Hx]]; [by auto|].
  right. split; [done|]. by rewrite not_elem_of_cons.
Qed.

(** [ta_error_to_string] has a message of its own for every enumerator but
    the three serializer codes its [switch] leaves out, and for no value that
    is not an enumerator. *)
Theorem ta_error_to_string_unknown e :
  ta_error_to_string e = "Unknown error."%string <->
  e ∉ status_t_values.*2 \/
  e ∈ [SC_SERIALIZER_KEY_NOT_EXISTS; SC_SERIALIZER_VALUE_EMPTY; SC_SERIALIZER_VALUE_INVLID].
Proof.
  assert (bool_decide (Forall (fun p => p.2 <> "Unknown error."%string) error_strings) = true)
    as Hs by (vm_compute; reflexivity).
  assert (bool_decide (Forall (fun v => v ∈ error_strings.*1 \/
    v ∈ [SC_SERIALIZER_KEY_NOT_EXISTS; SC_SERIALIZER_VALUE_EMPTY]) status_t_values.*2) = true)
    as Ht by (vm_compute; reflexivity).
  assert (bool_decide (Forall (fun v => v ∈ status_t_values.*2 /\
    v ∉ [SC_SERIALIZER_KEY_NOT_EXISTS; SC_SERIALIZER_VALUE_EMPTY]) error_strings.*1) = true)
    as He by (vm_compute; reflexivity).
  apply bool_decide_eq_true in Hs, Ht, He.
  rewrite Forall_forall in Hs. rewrite Forall_forall in Ht. rewrite Forall_forall in He.
  unfold ta_error_to_string.
  destruct (switch_in e error_strings "Unknown error."%string) as [Hin|[-> Hin]].
  - apply list_elem_of_In in Hin. pose proof (Hs _ Hin) as Hne. simpl in Hne.
    assert (e ∈ error_strings.*1) as He' by (apply list_elem_of_fmap; by exists (e, switch e error_strings "Unknown error."%string)).
    destruct (He _ He') as [Hv Hno].
    change SC_SERIALIZER_VALUE_INVLID with SC_SERIALIZER_VALUE_EMPTY.
    split; [done|]. rewrite elem_of_cons, elem_of_cons, list_elem_of_singleton.
    rewrite elem_of_cons, list_elem_of_singleton in Hno. tauto.
  - split; [intros _|done].
    destruct (decide (e ∈ status_t_values.*2)) as [Hv|]; [right|by left].
    destruct (Ht _ Hv) as [?|Hr]; [done|].
    rewrite elem_of_cons, list_elem_of_singleton in Hr.
    rewrite elem_of_cons, elem_of_cons. tauto.
Qed.
