(* ===== verification/Utils.v ===== *)
(** * Utilities ([utils/])

    Module [TryteByteConv] models [tryte_byte_conv.c], [FillNines] models
    [fill_nines.h] and [Djb2] models [hash_algo_djb2.h].  Loop indices keep
    their C width; a read or write outside an array is [Undefined]. *)

From S2P Require Import Prelude TaErrors.

(** Sizes of the IOTA library the sources rely on ([common/model/transaction.h]
    of [org_iota_common], and [MAM_PSK_ID_SIZE]). *)
Definition NUM_TRYTES_TAG : Z := 27.
Definition NUM_TRYTES_HASH : Z := 81.

Module TryteByteConv.

Definition tryte_alphabet : list Z := lit "9ABCDEFGHIJKLMNOPQRSTUVWXYZ".

(** The body of the loop of [bytes_to_trytes]; the state is the [uint16_t]
    index and the output array. *)
Definition bytes_to_trytes_step (input : list Z) (input_len : Z) (st : Z * list Z)
  : ctl (Z * list Z) (list Z) :=
  let '(i, output) := st in
  if i <? input_len then
    continue_or_fault (
      dec ← get input i;
      let upper := Z.land (Z.shiftr dec 4) 15 in
      let lower := Z.land dec 15 in
      cu ← get tryte_alphabet upper;
      output ← put output (2 * i) cu;
      cl ← get tryte_alphabet lower;
      output ← put output (2 * i + 1) cl;
      Some (u16 (i + 1), output))
  else Break output.

Definition bytes_to_trytes (fuel : nat) (input : list Z) (input_len : Z) (output : list Z) :=
  run (bytes_to_trytes_step input (u16 input_len)) fuel (0, output).

(** One digit read back: [uint8_t] arithmetic on the character. *)
Definition tryte_digit (c : Z) : Z := if Z.eqb c 57 then 0 else u8 (c - 64).

Definition trytes_to_bytes_step (input : list Z) (input_len : Z) (st : Z * list Z)
  : ctl (Z * list Z) (list Z) :=
  let '(i, output) := st in
  if i <? input_len then
    continue_or_fault (
      cu ← get input i;
      cl ← get input (i + 1);
      output ← put output (i / 2) (u8 (Z.lor (Z.shiftl (tryte_digit cu) 4) (tryte_digit cl)));
      Some (u16 (i + 2), output))
  else Break output.

Definition trytes_to_bytes (fuel : nat) (input : list Z) (input_len : Z) (output : list Z) :=
  run (trytes_to_bytes_step input (u32 input_len)) fuel (0, output).

(** ** Reference functions *)

Definition is_tryte (c : Z) : Prop := c = 57 \/ 65 <= c <= 90.

(** The tryte of a nibble. *)
Definition nibble_tryte (n : Z) : Z := if Z.eqb n 0 then 57 else n + 64.

Fixpoint tryte_encode (bs : list Z) : list Z :=
  match bs with
  | [] => []
  | b :: r => nibble_tryte (b / 16) :: nibble_tryte (b mod 16) :: tryte_encode r
  end.

Lemma length_tryte_encode bs : length (tryte_encode bs) = (2 * length bs)%nat.
Proof. induction bs; simpl; lia. Qed.

Lemma tryte_encode_app b1 b2 : tryte_encode (b1 ++ b2) = tryte_encode b1 ++ tryte_encode b2.
Proof. induction b1; simpl; congruence. Qed.

Lemma alphabet_nibble n : 0 <= n < 16 -> get tryte_alphabet n = Some (nibble_tryte n).
Proof.
  intros Hn.
  assert (bool_decide (Forall (fun n => get tryte_alphabet n = Some (nibble_tryte n))
    (seqZ 0 16)) = true) as H by (vm_compute; reflexivity).
  apply bool_decide_eq_true in H. rewrite Forall_forall in H.
  apply H, elem_of_seqZ. lia.
Qed.

Lemma byte_nibbles b : is_byte b ->
  Z.land (Z.shiftr b 4) 15 = b / 16 /\ Z.land b 15 = b mod 16.
Proof.
  intros Hb. change 15 with (Z.ones 4). rewrite !Z.land_ones, Z.shiftr_div_pow2 by lia.
  change (2 ^ 4) with 16. split; [|done].
  apply Z.mod_small. unfold is_byte in Hb. split; [apply Z.div_pos; lia|].
  apply Z.div_lt_upper_bound; lia.
Qed.

Lemma nibble_tryte_digit n : 0 <= n < 16 -> tryte_digit (nibble_tryte n) = n.
Proof.
  intros Hn. unfold nibble_tryte, tryte_digit.
  destruct (Z.eqb_spec n 0) as [->|]; [reflexivity|].
  destruct (Z.eqb_spec (n + 64) 57); [lia|].
  replace (n + 64 - 64) with n by lia. apply uwrap_small. lia.
Qed.

Lemma nibbles_byte h l : 0 <= h < 16 -> 0 <= l < 16 ->
  u8 (Z.lor (Z.shiftl h 4) l) = 16 * h + l.
Proof.
  intros Hh Hl. rewrite Z.shiftl_mul_pow2 by lia.
  rewrite <- Z.add_nocarry_lor.
  - rewrite uwrap_small by lia. lia.
  - rewrite <- Z.shiftl_mul_pow2, <- (Z.shiftl_0_r l) by lia.
    apply (land_shiftl_disj h l 4 4); lia.
Qed.

Lemma byte_tryte_roundtrip b : is_byte b ->
  u8 (Z.lor (Z.shiftl (tryte_digit (nibble_tryte (b / 16))) 4)
            (tryte_digit (nibble_tryte (b mod 16)))) = b.
Proof.
  unfold is_byte. intros Hb.
  assert (0 <= b / 16 < 16) by (split; [apply Z.div_pos|apply Z.div_lt_upper_bound]; lia).
  pose proof (Z.mod_pos_bound b 16 ltac:(lia)).
  rewrite !nibble_tryte_digit, nibbles_byte by lia.
  pose proof (Z.div_mod b 16 ltac:(lia)). lia.
Qed.

Lemma tryte_encode_trytes bs : Forall is_byte bs -> Forall is_tryte (tryte_encode bs).
Proof.
  assert (forall n, 0 <= n < 16 -> is_tryte (nibble_tryte n)) as Hn.
  { intros n ?. unfold is_tryte, nibble_tryte. destruct (Z.eqb_spec n 0); lia. }
  induction 1 as [|b r Hb _ IH]; simpl; [constructor|]. unfold is_byte in Hb.
  constructor; [|constructor; [|done]]; apply Hn; [|apply Z.mod_pos_bound; lia].
  split; [apply Z.div_pos|apply Z.div_lt_upper_bound]; lia.
Qed.

Lemma drop_cons {A} (l : list A) k : (k < length l)%nat -> exists x, drop k l = x :: drop (S k) l.
Proof.
  intros H. destruct (lookup_lt_is_Some_2 l k H) as [x Hx].
  exists x. by apply drop_S.
Qed.

(** [bytes_to_trytes] terminates for every length its [uint16_t] parameter
    can express and writes exactly the two trytes of each input byte, leaving
    the rest of the output array alone. *)
Theorem bytes_to_trytes_encodes input output :
  Forall is_byte input ->
  Z.of_nat (length input) <= 65535 ->
  (2 * length input <= length output)%nat ->
  bytes_to_trytes (S (length input)) input (Z.of_nat (length input)) output =
    Done (tryte_encode input ++ drop (2 * length input) output).
Proof.
  intros Hb Hlen Hout. unfold bytes_to_trytes.
  rewrite (uwrap_small 16 (Z.of_nat _)) by lia.
  destruct (run_rule (bytes_to_trytes_step input (Z.of_nat (length input)))
    (fun st => exists k, (k <= length input)%nat /\ st.1 = Z.of_nat k /\
       st.2 = tryte_encode (take k input) ++ drop (2 * k) output)
    (fun st => (length input - Z.to_nat st.1)%nat)
    (fun a => a = tryte_encode input ++ drop (2 * length input) output)
    (S (length input)) (0, output)) as (a & -> & ->); [..|done].
  - exists O. split; [lia|done].
  - simpl. lia.
  - intros [i out] (k & Hk & Hi & Ho). cbn [fst snd] in Hi, Ho. subst i. unfold bytes_to_trytes_step.
    destruct (Z.ltb_spec (Z.of_nat k) (Z.of_nat (length input))) as [Hlt|Hge].
    2:{ assert (k = length input) as -> by lia. by rewrite Ho, take_ge by lia. }
    destruct (lookup_lt_is_Some_2 input k ltac:(lia)) as [b Hbk].
    assert (is_byte b) as Hbb by (eapply Forall_lookup_1; eauto).
    rewrite get_lookup, Hbk. bind_simpl.
    destruct (byte_nibbles b Hbb) as [-> ->].
    assert (0 <= b / 16 < 16) as Hdiv.
    { unfold is_byte in Hbb. split; [apply Z.div_pos|apply Z.div_lt_upper_bound]; lia. }
    rewrite (alphabet_nibble (b / 16)) by done. bind_simpl.
    destruct (drop_cons output (2 * k) ltac:(lia)) as [x Hx].
    destruct (drop_cons output (S (2 * k)) ltac:(lia)) as [y Hy].
    rewrite Ho, Hx, Hy.
    assert (length (tryte_encode (take k input)) = (2 * k)%nat) as Hl
      by (rewrite length_tryte_encode, length_take; lia).
    rewrite put_app_r by lia. bind_simpl.
    rewrite (alphabet_nibble (b mod 16)) by (apply Z.mod_pos_bound; lia). bind_simpl.
    rewrite cons_middle, app_assoc.
    rewrite put_app_r by (rewrite length_app; simpl; lia). bind_simpl.
    cbn [continue_or_fault]. bind_simpl. rewrite (uwrap_small 16) by lia. split; [|lia].
    exists (S k). split; [lia|]. split; [lia|].
    rewrite (take_S_r _ _ _ Hbk), tryte_encode_app. simpl.
    rewrite <- !app_assoc. simpl. repeat f_equal. lia.
Qed.

Lemma bytes_to_trytes_encodes_witness :
  bytes_to_trytes 3 [0; 255] 2 [0; 0; 0; 0; 0] = Done [57; 57; 79; 79; 0].
Proof.
  apply (bytes_to_trytes_encodes [0; 255] [0; 0; 0; 0; 0]);
    [by repeat constructor | simpl; lia | simpl; lia].
Defined.

(** [trytes_to_bytes] terminates on an encoded string of at most 65534 trytes and
    restores the bytes, leaving the rest of the output array alone. *)
Lemma trytes_to_bytes_decodes input output rest :
  Forall is_byte input ->
  Z.of_nat (2 * length input) <= 65534 ->
  (length input <= length output)%nat ->
  trytes_to_bytes (S (length input)) (tryte_encode input ++ rest)
      (Z.of_nat (2 * length input)) output =
    Done (input ++ drop (length input) output).
Proof.
  intros Hb Hlen Hout. unfold trytes_to_bytes.
  rewrite (uwrap_small 32 (Z.of_nat _)) by lia.
  set (n := length input) in *.
  destruct (run_rule (trytes_to_bytes_step (tryte_encode input ++ rest) (Z.of_nat (2 * n)))
    (fun st => exists k, (k <= n)%nat /\ st.1 = Z.of_nat (2 * k) /\
       st.2 = take k input ++ drop k output)
    (fun st => (n - Z.to_nat st.1 / 2)%nat)
    (fun a => a = input ++ drop n output)
    (S n) (0, output)) as (a & -> & ->); [..|done].
  - exists O. split; [lia|done].
  - simpl. lia.
  - intros [i out] (k & Hk & Hi & Ho). cbn [fst snd] in Hi, Ho. subst i. unfold trytes_to_bytes_step.
    destruct (Z.ltb_spec (Z.of_nat (2 * k)) (Z.of_nat (2 * n))) as [Hlt|Hge].
    2:{ assert (k = n) as -> by lia. by rewrite Ho, take_ge by (subst n; lia). }
    destruct (lookup_lt_is_Some_2 input k ltac:(lia)) as [b Hbk].
    assert (is_byte b) as Hbb by (eapply Forall_lookup_1; eauto).
    assert (tryte_encode input ++ rest = tryte_encode (take k input) ++
      nibble_tryte (b / 16) :: nibble_tryte (b mod 16) ::
      (tryte_encode (drop (S k) input) ++ rest)) as ->.
    { rewrite <- (take_drop_middle input k b Hbk) at 1.
      rewrite tryte_encode_app. simpl. by rewrite <- app_assoc. }
    assert (length (tryte_encode (take k input)) = (2 * k)%nat) as Hl
      by (rewrite length_tryte_encode, length_take; lia).
    rewrite (get_app_r _ _ (Z.of_nat (2 * k))) by lia. bind_simpl.
    rewrite cons_middle, app_assoc, get_app_r by (rewrite length_app; simpl; lia). bind_simpl.
    rewrite byte_tryte_roundtrip by done.
    destruct (drop_cons output k ltac:(lia)) as [x Hx].
    rewrite Ho, Hx, Nat2Z.inj_mul, Z.mul_comm, Z.div_mul by lia.
    rewrite put_app_r by (rewrite length_take; lia). bind_simpl.
    cbn [continue_or_fault]. bind_simpl. rewrite (uwrap_small 16) by lia. split.
    + exists (S k). split; [lia|]. split; [lia|].
      rewrite (take_S_r _ _ _ Hbk), <- app_assoc. done.
    + replace (Z.to_nat (Z.of_nat k * Z.of_nat 2 + 2)) with (S k * 2)%nat by lia.
      replace (Z.to_nat (Z.of_nat k * Z.of_nat 2)) with (k * 2)%nat by lia.
      rewrite !Nat.div_mul by lia. lia.
Qed.

(** C39 Whatever bytes are encoded by [bytes_to_trytes] into an array with room for
    two trytes each, [trytes_to_bytes] reads back from that array: both end, and the
    output starts with the bytes, as long as there are at most 32767 of them. *)
Theorem trytes_to_bytes_roundtrip input trytes output :
  Forall is_byte input ->
  Z.of_nat (2 * length input) <= 65534 ->
  (2 * length input <= length trytes)%nat ->
  (length input <= length output)%nat ->
  exists encoded, bytes_to_trytes (S (length input)) input (Z.of_nat (length input)) trytes = Done encoded /\
    drop (2 * length input) encoded = drop (2 * length input) trytes /\
    trytes_to_bytes (S (length input)) encoded (Z.of_nat (2 * length input)) output =
      Done (input ++ drop (length input) output).
Proof.
  intros Hb Hlen Ht Ho. eexists. split; [apply bytes_to_trytes_encodes; [done|lia|done]|]. split.
  - by rewrite drop_app_le, (drop_ge (tryte_encode input)), ?app_nil_l by (rewrite length_tryte_encode; lia).
  - by apply trytes_to_bytes_decodes.
Qed.

Lemma trytes_to_bytes_roundtrip_witness : exists encoded,
  bytes_to_trytes 3 [104; 9] 2 [0; 0; 0; 0; 7] = Done encoded /\ drop 4 encoded = [7] /\
  trytes_to_bytes 3 encoded 4 [0; 0] = Done [104; 9].
Proof.
  apply (trytes_to_bytes_roundtrip [104; 9] [0; 0; 0; 0; 7] [0; 0]);
    [by repeat constructor | simpl; lia | simpl; lia | simpl; lia].
Defined.

(** The [uint16_t] index of [trytes_to_bytes] wraps before it reaches an
    [input_len] above 65534, although the parameter is a [uint32_t]: no amount
    of iterations makes the function return. *)
Theorem trytes_to_bytes_diverges fuel input input_len output a :
  65534 < input_len < 2 ^ 32 ->
  trytes_to_bytes fuel input input_len output <> Done a.
Proof.
  intros Hlen. unfold trytes_to_bytes. rewrite (uwrap_small 32) by lia.
  apply run_never with (Inv := fun st => 0 <= st.1 <= 65534 /\ Z.even st.1 = true); [done|].
  intros [i out] [Hi He]. simpl in Hi, He. unfold trytes_to_bytes_step.
  destruct (Z.ltb_spec i input_len); [|lia].
  destruct (get input i); simpl; [|done].
  destruct (get input (i + 1)); simpl; [|done].
  destruct (put _ _ _); simpl; [|done].
  apply Z.even_spec in He as [j ->].
  unfold uwrap. change (2 ^ 16) with 65536.
  destruct (decide (2 * j = 65534)) as [E|].
  - rewrite E. done.
  - rewrite Z.mod_small by lia. split; [lia|].
    apply Z.even_spec. exists (j + 1). lia.
Qed.

Lemma trytes_to_bytes_diverges_witness :
  trytes_to_bytes 9 [] 65535 [] <> Done [].
Proof. apply (trytes_to_bytes_diverges 9 [] 65535 [] []). lia. Defined.

End TryteByteConv.

Module FillNines.

(** [memset (buf + off, c, n)]: a negative [int] size becomes a huge [size_t]. *)
Definition memset_at (buf : list Z) (off : nat) (c n : Z) : option (list Z) :=
  if n <? 0 then None else overwrite buf off (replicate (Z.to_nat n) c).

(** [fill_nines]; a null pointer is [None], the result is the status and the
    contents of [new_str] afterwards, or [None] when an access leaves it. *)
Definition fill_nines (new_str : option (list Z)) (old_str : option cstr) (new_str_len : Z)
  : option (status_t * option (list Z)) :=
  match new_str, old_str with
  | Some new_buf, Some old =>
      if negb (new_str_len =? NUM_TRYTES_TAG) then Some (SC_NULL, new_str) else
      let old_str_len := i32 (strlen old) in
      buf ← overwrite new_buf 0 (take (Z.to_nat old_str_len) old);
      let diff := i32 (u64 (new_str_len - old_str_len)) in
      if negb (diff =? 0) then
        buf ← memset_at buf (Z.to_nat old_str_len) 57 diff;
        buf ← put buf new_str_len 0;
        Some (SC_OK, Some buf)
      else Some (SC_UTILS_WRONG_INPUT_ARG, Some buf)
  | _, _ => Some (SC_NULL, new_str)
  end.

(** The padded tag. *)
Definition pad_nines (old : cstr) : cstr :=
  old ++ replicate (Z.to_nat NUM_TRYTES_TAG - length old) 57.

Lemma overwrite_app (p q r data : list Z) :
  length q = length data -> overwrite (p ++ q ++ r) (length p) data = Some (p ++ data ++ r).
Proof.
  intros Hq. unfold overwrite. rewrite !length_app.
  destruct (decide _) as [|n]; [|lia].
  rewrite take_app_length, drop_app_add', drop_app_length' by done. done.
Qed.

Lemma swrap32_u64 d : - 2 ^ 31 <= d < 2 ^ 31 -> i32 (u64 d) = d.
Proof.
  intros. rewrite <- (swrap_small 32 d) at 2 by lia.
  unfold swrap, uwrap. by rewrite <- Znumtheory.Zmod_div_mod by (try lia; by exists (2 ^ 32)).
Qed.

(** [fill_nines] on a tag shorter than 27 characters writes the tag followed
    by nines up to length 27 and a terminator, whatever the buffer held; on a
    tag of exactly 27 characters it copies the tag and reports
    [SC_UTILS_WRONG_INPUT_ARG]; on a longer one it writes out of bounds of a
    28-byte buffer. *)
Theorem fill_nines_spec new_buf old :
  length new_buf = 28%nat -> is_cstr old -> strlen old < 2 ^ 31 ->
  fill_nines (Some new_buf) (Some old) NUM_TRYTES_TAG =
    if decide (strlen old < NUM_TRYTES_TAG)
    then Some (SC_OK, Some (pad_nines old ++ [0]))
    else if decide (strlen old = NUM_TRYTES_TAG)
    then Some (SC_UTILS_WRONG_INPUT_ARG, Some (old ++ drop 27 new_buf))
    else None.
Proof.
  intros Hn _ Ho. unfold fill_nines, strlen in *. rewrite Z.eqb_refl. cbn [negb].
  rewrite (swrap_small 32 (Z.of_nat _)) by lia. rewrite Nat2Z.id, take_ge by done.
  rewrite swrap32_u64 by (unfold NUM_TRYTES_TAG; lia).
  destruct (decide (Z.of_nat (length old) <= 27)) as [Hle|Hgt].
  - rewrite <- (take_drop (length old) new_buf).
    replace (overwrite _ 0 old) with (Some (old ++ drop (length old) new_buf))
      by (symmetry; apply (overwrite_app []); rewrite length_take; lia).
    bind_simpl.
    destruct (Z.eqb_spec (NUM_TRYTES_TAG - Z.of_nat (length old)) 0) as [E|E];
      unfold NUM_TRYTES_TAG in *; cbn [negb].
    + destruct (decide _); [lia|]. destruct (decide _) as [_|]; [|lia].
      assert (length old = 27%nat) as -> by lia. rewrite take_drop. done.
    + destruct (decide _) as [_|]; [|lia]. unfold memset_at.
      destruct (Z.ltb_spec (27 - Z.of_nat (length old)) 0); [lia|].
      assert (exists z, drop 27 new_buf = [z]) as [z Hz].
      { assert (length (drop 27 new_buf) = 1%nat) as Hd by (rewrite length_drop; lia).
        destruct (drop 27 new_buf) as [|z [|]]; simpl in Hd; try lia. by exists z. }
      rewrite <- (take_drop (27 - length old) (drop (length old) new_buf)).
      rewrite drop_drop. replace (length old + (27 - length old))%nat with 27%nat by lia.
      rewrite overwrite_app by (rewrite length_take, length_replicate, length_drop; lia).
      bind_simpl. rewrite Hz, app_assoc.
      rewrite put_app_r by (rewrite length_app, length_replicate; lia).
      bind_simpl. unfold pad_nines. repeat f_equal. unfold NUM_TRYTES_TAG. lia.
  - unfold NUM_TRYTES_TAG. destruct (decide _); [lia|]. destruct (decide _); [lia|].
    unfold overwrite at 1. destruct (decide _) as [Hle|]; [|done]. bind_simpl.
    destruct (Z.eqb_spec (27 - Z.of_nat (length old)) 0); [lia|]. cbn [negb].
    unfold memset_at. destruct (Z.ltb_spec (27 - Z.of_nat (length old)) 0); [done|lia].
Qed.

Lemma fill_nines_spec_witness :
  fill_nines (Some (replicate 28 0)) (Some (lit "TAG")) NUM_TRYTES_TAG =
    Some (SC_OK, Some (lit "TAG999999999999999999999999" ++ [0])).
Proof.
  rewrite (fill_nines_spec (replicate 28 0) (lit "TAG"));
    [vm_compute; reflexivity | reflexivity | repeat constructor; done | reflexivity].
Defined.

End FillNines.

Module Djb2.

(** [hash_algo_djb2]; [char] is signed, so [c] is the character's
    two's complement value, and the sum is computed in [uint32_t]. *)
Fixpoint djb2_loop (hash : Z) (str : cstr) : Z :=
  match str with
  | [] => hash
  | ch :: r =>
      let c := i8 ch in
      djb2_loop (u32 (u32 (Z.shiftl hash 5) + hash + u32 c)) r
  end.

Definition hash_algo_djb2 (str : cstr) : Z := djb2_loop 5381 str.

(** The polynomial [5381 * 33^n + sum c_i * 33^(n-1-i)]. *)
Fixpoint horner33 (acc : Z) (str : cstr) : Z :=
  match str with [] => acc | ch :: r => horner33 (33 * acc + i8 ch) r end.

Lemma djb2_loop_horner str : forall h k,
  h mod 2 ^ 32 = k mod 2 ^ 32 -> (djb2_loop h str) mod 2 ^ 32 = (horner33 k str) mod 2 ^ 32.
Proof.
  induction str as [|c r IH]; intros h k E; simpl; [done|].
  apply IH. unfold uwrap. rewrite Z.shiftl_mul_pow2 by lia.
  rewrite Z.mod_mod by lia.
  rewrite <- Z.add_assoc, Zplus_mod_idemp_l.
  rewrite Z.add_assoc, Zplus_mod_idemp_r.
  replace (h * 2 ^ 5 + h + i8 c) with (33 * h + i8 c) by lia.
  rewrite Z.add_mod, Z.mul_mod, E by lia.
  rewrite <- Z.mul_mod, <- Z.add_mod by lia. done.
Qed.

(** [hash_algo_djb2] computes the DJB2 polynomial modulo 2^32: the
    wrap-around of every intermediate [uint32_t] and the sign extension of the
    characters commute with taking the residue once at the end. *)
Theorem hash_algo_djb2_polynomial str :
  hash_algo_djb2 str = (horner33 5381 str) mod 2 ^ 32.
Proof.
  unfold hash_algo_djb2.
  rewrite <- (djb2_loop_horner str 5381 5381 eq_refl).
  symmetry. apply Z.mod_small.
  assert (forall s h, 0 <= h < 2 ^ 32 -> 0 <= djb2_loop h s < 2 ^ 32) as H.
  { induction s as [|c s IH]; intros h Hh; simpl; [done|].
    apply IH. apply uwrap_range. lia. }
  apply H. lia.
Qed.

End Djb2.
