(* ===== verification/Strtok.v ===== *)
(** * Cutting a string into tokens ([strtok], [strtok_r])

    The C functions write a NUL behind each token of a buffer.  [strtok_r] is
    their behaviour on a buffer, [tokens] the list of the maximal runs of
    characters that are not delimiters; calling the first again and again
    yields the second. *)

From S2P Require Import Prelude.

Section Strtok.
Context (delim : Z -> bool).

(** Delimiters, and the characters of a token, at the beginning of a list. *)
Fixpoint span_delims (l : list Z) : nat :=
  match l with c :: r => if delim c then S (span_delims r) else O | [] => O end.

Fixpoint span_token (l : list Z) : nat :=
  match l with c :: r => if delim c || (c =? 0) then O else S (span_token r) | [] => O end.

(** The token (NULL when there is none) of the string at an offset of the
    buffer, the buffer, the new offset; [None] when the scan leaves the buffer. *)
Definition strtok_r (buf : list Z) (orig : nat) : option (option cstr * list Z * nat) :=
  let p := (orig + span_delims (drop orig buf))%nat in
  c ← buf !! p;
  if c =? 0 then Some (None, buf, p) else
  let e := (p + span_token (drop p buf))%nat in
  d ← buf !! e;
  let word := take (e - p) (drop p buf) in
  if d =? 0 then Some (Some word, buf, e) else Some (Some word, <[e := 0]> buf, S e).

(** *** The list of the tokens *)

Definition flush (cur : cstr) : list cstr := match cur with [] => [] | _ => [rev cur] end.

Fixpoint tokens_from (cur s : cstr) : list cstr :=
  match s with
  | [] => flush cur
  | c :: r => if delim c then flush cur ++ tokens_from [] r else tokens_from (c :: cur) r
  end.

Definition tokens (s : cstr) : list cstr := tokens_from [] s.

Definition no_delim (w : cstr) : Prop := Forall (fun c => delim c = false) w.

Lemma tokens_delims k s : Forall (fun c => delim c = true) k -> tokens (k ++ s) = tokens s.
Proof. induction 1 as [|c k Hc _ IH]; [done|]. unfold tokens. cbn. rewrite Hc. exact IH. Qed.

Lemma tokens_from_token w : no_delim w -> forall cur r, tokens_from cur (w ++ r) = tokens_from (rev w ++ cur) r.
Proof.
  induction 1 as [|c w Hc _ IH]; intros cur r; [done|]. cbn [app tokens_from]. rewrite Hc, IH. cbn [rev].
  by rewrite <- app_assoc.
Qed.

Lemma flush_rev w : w <> [] -> flush (rev w) = [w].
Proof.
  intros Hw. unfold flush. destruct (rev w) as [|c r] eqn:E.
  - apply (f_equal (@rev _)) in E. rewrite rev_involutive in E. done.
  - by rewrite <- E, rev_involutive.
Qed.

Lemma tokens_token w r : no_delim w -> w <> [] ->
  (forall c r', r = c :: r' -> delim c = true) -> tokens (w ++ r) = w :: tokens (tail r).
Proof.
  intros Hw Hne Hr. unfold tokens. rewrite tokens_from_token, app_nil_r by done.
  destruct r as [|c r]; cbn [tokens_from tail]; [by rewrite flush_rev|].
  by rewrite (Hr c r eq_refl), flush_rev.
Qed.

(** A token without delimiters is the only token of itself. *)
Lemma tokens_single w : no_delim w -> w <> [] -> tokens w = [w].
Proof. intros Hw Hne. rewrite <- (app_nil_r w) at 1. by rewrite tokens_token. Qed.

(** *** The buffer *)

Hypothesis delim_nul : delim 0 = false.

Lemma span_delims_spec s t : exists k s', s = k ++ s' /\ span_delims (s ++ 0 :: t) = length k /\
  Forall (fun c => delim c = true) k /\ (forall c r, s' = c :: r -> delim c = false).
Proof using delim_nul.
  induction s as [|c s IH].
  - exists [], []. cbn [app span_delims]. rewrite delim_nul. split_and!; [done|done|constructor|done].
  - cbn [app span_delims]. destruct (delim c) eqn:Hc.
    + destruct IH as (k & s' & -> & Hn & Hk & Hs). exists (c :: k), s'. rewrite Hn.
      split_and!; [done|done|by constructor|done].
    + exists [], (c :: s). split_and!; [done|done|constructor|]. by intros ? ? [= <- <-].
Qed.

Lemma span_token_spec s t : 0 ∉ s -> exists w r, s = w ++ r /\ span_token (s ++ 0 :: t) = length w /\
  no_delim w /\ (forall c r', r = c :: r' -> delim c = true).
Proof using.
  induction s as [|c s IH]; intros H0.
  - exists [], []. cbn [app span_token]. rewrite orb_true_r. split_and!; [done|done|constructor|done].
  - apply not_elem_of_cons in H0 as [Hc H0]. cbn [app span_token]. destruct (delim c) eqn:Hd.
    + exists [], (c :: s). split_and!; [done|done|constructor|]. by intros ? ? [= <- <-].
    + destruct (Z.eqb_spec c 0); [congruence|]. cbn [orb].
      destruct (IH H0) as (w & r & -> & Hn & Hw & Hr). exists (c :: w), r.
      split_and!; [done|cbn; congruence|by constructor|done].
Qed.

Lemma drop_lookup_0 (buf : list Z) p l c r : drop p buf = l ++ c :: r -> buf !! (p + length l)%nat = Some c.
Proof using. intros E. rewrite <- lookup_drop, E. apply list_lookup_middle. done. Qed.

Lemma drop_skip (buf : list Z) p l r : drop p buf = l ++ r -> drop (p + length l) buf = r.
Proof using. intros E. rewrite <- drop_drop, E. apply drop_app_length. Qed.

(** One token of a string in a buffer: either there is none, or the first is
    returned and the string behind the new offset has the others. *)
Lemma strtok_r_spec buf p s t : drop p buf = s ++ 0 :: t -> 0 ∉ s ->
  exists buf' p', strtok_r buf p = Some (head (tokens s), buf', p') /\
    exists s' t', drop p' buf' = s' ++ 0 :: t' /\ 0 ∉ s' /\ tokens s' = tail (tokens s).
Proof using delim_nul.
  intros Hd H0. unfold strtok_r. rewrite Hd.
  destruct (span_delims_spec s t) as (k & s1 & -> & -> & Hk & Hh).
  rewrite tokens_delims by done. apply not_elem_of_app in H0 as [_ H0].
  rewrite <- app_assoc in Hd. pose proof (drop_skip _ _ _ _ Hd) as Hd2.
  set (q := (p + length k)%nat) in *. clearbody q. rewrite Hd2. clear Hk Hd.
  destruct (span_token_spec s1 t H0) as (w & r & -> & -> & Hw & Hr).
  destruct w as [|c w].
  - assert (r = []) as ->.
    { destruct r as [|c r]; [done|]. pose proof (Hh c r eq_refl). by rewrite (Hr c r eq_refl) in *. }
    pose proof (drop_lookup_0 buf q [] 0 t Hd2) as Hc. rewrite Nat.add_0_r in Hc.
    rewrite Hc. cbn. exists buf, q. split; [done|]. by exists [], t.
  - pose proof (drop_lookup_0 buf q [] c _ Hd2) as Hc. rewrite Nat.add_0_r in Hc.
    rewrite Hc. cbn [mbind option_bind]. apply not_elem_of_app in H0 as [H0w H0r].
    destruct (Z.eqb_spec c 0) as [->|_]; [by destruct H0w; constructor|].
    rewrite <- app_assoc in Hd2. pose proof (drop_skip _ _ _ _ Hd2) as Hd3. rewrite tokens_token by done.
    replace (q + length (c :: w) - q)%nat with (length (c :: w)) by lia.
    rewrite <- app_assoc, take_app_length. destruct r as [|d r].
    + pose proof (drop_lookup_0 buf q (c :: w) 0 t Hd2) as He. rewrite He.
      eexists _, _. split; [done|]. by exists [], t.
    + pose proof (drop_lookup_0 buf q (c :: w) d _ Hd2) as He. rewrite He. cbn [mbind option_bind].
      apply not_elem_of_cons in H0r as [Hd0 H0r].
      destruct (Z.eqb_spec d 0) as [->|_]; [done|]. eexists _, _. split; [done|]. exists r, t.
      split; [|done]. rewrite drop_insert_lt by lia.
      pose proof (drop_skip buf (q + length (c :: w)) [d] (r ++ 0 :: t) Hd3) as Hd4.
      cbn [length] in Hd4. by rewrite Nat.add_1_r in Hd4.
Qed.

End Strtok.

Arguments no_delim delim w : simpl never.
