(* ===== verification/Cache.v ===== *)
(** * The cache ([utils/cache/cache.h], [utils/cache/backend_redis.c])

    The Redis server and hiredis are not part of the sources: the class
    [RedisServer] states the documented effect and reply of the commands the
    backend sends.  Module [Backend] models the private [redis_*] functions and
    the public [cache_*] ones over any such server; [RedisModel] is a concrete
    server used by the witnesses.  The theorems show that the cache lists are
    stacks, what each operation returns on every reply, and that a switched off
    cache touches nothing. *)

From S2P Require Import Prelude TaErrors.

(** ** The server interface *)

Inductive redis_cmd :=
| DEL (key : cstr)
| GET (key : cstr)
| SET_NX (key value : cstr) (ex : option Z)
| LPUSH (key value : cstr)
| LINDEX (key : cstr) (index : Z)
| LLEN (key : cstr)
| LPOP (key : cstr)
| INFO
| CONFIG_SET_maxmemory (size : cstr)
| CONFIG_GET_maxmemory.

Inductive reply_type :=
| REDIS_REPLY_STRING | REDIS_REPLY_ARRAY | REDIS_REPLY_INTEGER
| REDIS_REPLY_NIL | REDIS_REPLY_STATUS | REDIS_REPLY_ERROR.

#[export] Instance reply_type_eq_dec : EqDecision reply_type.
Proof. solve_decision. Defined.

(** [redisReply]; fields a reply does not use are zero, as hiredis allocates
    it with [calloc]. *)
Record redisReply := mkReply { r_type : reply_type; r_integer : Z; r_str : list Z }.

Definition string_reply (s : list Z) := mkReply REDIS_REPLY_STRING 0 s.
Definition integer_reply (n : Z) := mkReply REDIS_REPLY_INTEGER n [].
Definition nil_reply := mkReply REDIS_REPLY_NIL 0 [].
Definition status_reply := mkReply REDIS_REPLY_STATUS 0 (lit "OK").

(** What a key holds: Redis keys are typed and an empty list does not exist. *)
Inductive rvalue := RString (s : list Z) | RList (l : list (list Z)).

Definition of_list (l : list (list Z)) : option rvalue :=
  match l with [] => None | _ => Some (RList l) end.

(** The list at a key; [None] when the key holds a string. *)
Definition as_list (v : option rvalue) : option (list (list Z)) :=
  match v with None => Some [] | Some (RList l) => Some l | Some (RString _) => None end.

Definition is_error (r : redisReply) : Prop := r_type r = REDIS_REPLY_ERROR /\ r_integer r = 0.

(** The documented behaviour of the commands, for a connection that is up.
    [maxed d] tells that the server is at its [maxmemory] limit without an
    eviction policy and therefore refuses writes. *)
Class RedisServer (db : Type) := {
  redisCommand : db -> redis_cmd -> db * redisReply;
  keyspace : db -> gmap (list Z) rvalue;
  maxed : db -> bool;
  redis_DEL : forall d k,
    keyspace (redisCommand d (DEL k)).1 = delete k (keyspace d) /\
    (redisCommand d (DEL k)).2 = integer_reply (if keyspace d !! k then 1 else 0);
  redis_GET : forall d k,
    keyspace (redisCommand d (GET k)).1 = keyspace d /\
    match keyspace d !! k with
    | Some (RString s) => (redisCommand d (GET k)).2 = string_reply s
    | Some (RList _) => is_error (redisCommand d (GET k)).2
    | None => (redisCommand d (GET k)).2 = nil_reply
    end;
  redis_SET_refused : forall d k v ex, maxed d = true ->
    keyspace (redisCommand d (SET_NX k v ex)).1 = keyspace d /\
    is_error (redisCommand d (SET_NX k v ex)).2;
  redis_SET_exists : forall d k v ex, maxed d = false -> is_Some (keyspace d !! k) ->
    keyspace (redisCommand d (SET_NX k v ex)).1 = keyspace d /\
    (redisCommand d (SET_NX k v ex)).2 = nil_reply;
  redis_SET_new : forall d k v ex, maxed d = false -> keyspace d !! k = None ->
    keyspace (redisCommand d (SET_NX k v ex)).1 = <[k := RString v]> (keyspace d) /\
    (redisCommand d (SET_NX k v ex)).2 = status_reply;
  redis_LPUSH : forall d k v l, maxed d = false -> as_list (keyspace d !! k) = Some l ->
    keyspace (redisCommand d (LPUSH k v)).1 = <[k := RList (v :: l)]> (keyspace d) /\
    (redisCommand d (LPUSH k v)).2 = integer_reply (Z.of_nat (S (length l)));
  redis_LPUSH_error : forall d k v, maxed d = true \/ as_list (keyspace d !! k) = None ->
    keyspace (redisCommand d (LPUSH k v)).1 = keyspace d /\
    is_error (redisCommand d (LPUSH k v)).2;
  redis_LINDEX : forall d k i, 0 <= i ->
    keyspace (redisCommand d (LINDEX k i)).1 = keyspace d /\
    match as_list (keyspace d !! k) with
    | Some l => (redisCommand d (LINDEX k i)).2 =
                match l !! Z.to_nat i with Some v => string_reply v | None => nil_reply end
    | None => is_error (redisCommand d (LINDEX k i)).2
    end;
  redis_LLEN : forall d k,
    keyspace (redisCommand d (LLEN k)).1 = keyspace d /\
    match as_list (keyspace d !! k) with
    | Some l => (redisCommand d (LLEN k)).2 = integer_reply (Z.of_nat (length l))
    | None => is_error (redisCommand d (LLEN k)).2
    end;
  redis_LPOP : forall d k,
    match as_list (keyspace d !! k) with
    | Some [] => keyspace (redisCommand d (LPOP k)).1 = keyspace d /\
                 (redisCommand d (LPOP k)).2 = nil_reply
    | Some (v :: l) =>
        keyspace (redisCommand d (LPOP k)).1 = partial_alter (fun _ => of_list l) k (keyspace d) /\
        (redisCommand d (LPOP k)).2 = string_reply v
    | None => keyspace (redisCommand d (LPOP k)).1 = keyspace d /\
              is_error (redisCommand d (LPOP k)).2
    end;
  redis_INFO : forall d, keyspace (redisCommand d INFO).1 = keyspace d
}.

(** ** The backend *)
Module Backend.

(** The statics of the file: [state] and the connection, as the server the
    connection leads to. *)
Record env (db : Type) := mkEnv { state : bool; conn : db }.
Arguments mkEnv {db} state conn.
Arguments state {db} e.
Arguments conn {db} e.

Section Operations.
Context {db : Type} `{RedisServer db}.

Definition M := comp (env db).

(** One command on the connection. *)
Definition command (c : redis_cmd) : M redisReply :=
  fun e => let '(d, r) := redisCommand (conn e) c in Some (r, mkEnv (state e) d).

(** An argument passed with [%b]: [n] bytes starting at the pointer. *)
Definition arg_b (buf : list Z) (n : Z) : M (list Z) :=
  check (if (0 <=? n) && (n <=? Z.of_nat (length buf))
         then Some (take (Z.to_nat n) buf) else None).

Definition redis_del (key : option cstr) : M status_t :=
  match key with
  | None => mret SC_NULL
  | Some key =>
      reply ← command (DEL key);
      mret (if r_integer reply =? 0 then SC_CACHE_FAILED_RESPONSE else SC_OK)
  end.

(** The second component is [*res] afterwards; [None] inside is NULL. *)
Definition redis_get (key : option cstr) (res : option cstr) : M (status_t * option cstr) :=
  match key with
  | None => mret (SC_NULL, res)
  | Some key =>
      reply ← command (GET key);
      mret (if decide (r_type reply = REDIS_REPLY_STRING)
            then (SC_OK, Some (str_of_buf (r_str reply)))
            else (SC_CACHE_FAILED_RESPONSE, None))
  end.

Definition redis_set (key : option (list Z)) (key_size : Z) (value : option (list Z))
    (value_size timeout : Z) : M status_t :=
  match key, value with
  | Some key, Some value =>
      k ← arg_b key key_size;
      v ← arg_b value value_size;
      _ ← command (SET_NX k v (if timeout >? 0 then Some timeout else None));
      mret SC_OK
  | _, _ => mret SC_NULL
  end.

Definition redis_list_push (key : option (list Z)) (key_size : Z) (value : option (list Z))
    (value_size : Z) : M status_t :=
  match key, value with
  | Some key, Some value =>
      k ← arg_b key key_size;
      v ← arg_b value value_size;
      reply ← command (LPUSH k v);
      mret (if decide (r_type reply = REDIS_REPLY_ERROR) then SC_CACHE_FAILED_RESPONSE else SC_OK)
  | _, _ => mret SC_NULL
  end.

(** [strncpy (res, str, len); res[len] = 0]. *)
Definition copy_reply (str res : list Z) : option (list Z) :=
  overwrite res 0 (strncpy_data str (length str) ++ [0]).

Definition redis_list_at (key : option cstr) (index res_len : Z) (res : list Z)
  : M (status_t * list Z) :=
  match key with
  | None => mret (SC_NULL, res)
  | Some key =>
      reply ← command (LINDEX key index);
      if bool_decide (r_type reply = REDIS_REPLY_STRING) && (i32 (strlen (r_str reply)) <=? res_len)
      then res ← check (copy_reply (r_str reply) res); mret (SC_OK, res)
      else mret (SC_CACHE_FAILED_RESPONSE, res)
  end.

Definition redis_list_peek (key : option cstr) (res_len : Z) (res : list Z)
  : M (status_t * list Z) :=
  match key with
  | None => mret (SC_NULL, res)
  | Some key =>
      reply ← command (LINDEX key 0);
      if bool_decide (r_type reply = REDIS_REPLY_STRING) && (i32 (strlen (r_str reply)) <=? res_len)
      then res ← check (copy_reply (r_str reply) res); mret (SC_OK, res)
      else mret (SC_CACHE_FAILED_RESPONSE, res)
  end.

Definition redis_list_size (key : option cstr) (len : Z) : M (status_t * Z) :=
  match key with
  | None => mret (SC_NULL, len)
  | Some key =>
      reply ← command (LLEN key);
      mret (if decide (r_type reply <> REDIS_REPLY_ERROR)
            then (SC_OK, i32 (r_integer reply))
            else (SC_CACHE_FAILED_RESPONSE, len))
  end.

(** [!memcmp (value, res, n)]: both objects must have [n] bytes. *)
Definition memcmp_eq (a b : list Z) (n : nat) : option bool :=
  if decide (n <= length a /\ n <= length b)%nat then Some (bool_decide (take n a = take n b)) else None.

(** The loop of [redis_list_exist] from index [i] on, [n] rounds left. *)
Fixpoint list_exist_loop (n : nat) (key : cstr) (value : list Z) (value_len i : Z)
    (ret : status_t) (exist : bool) (res : list Z) : M (status_t * bool) :=
  match n with
  | O => mret (ret, exist)
  | S n =>
      '(r, res) ← redis_list_at (Some key) i value_len res;
      if r =? SC_OK
      then
        equal ← check (memcmp_eq value res (Z.to_nat value_len));
        list_exist_loop n key value value_len (i + 1) ret (if equal : bool then true else exist) res
      else list_exist_loop n key value value_len (i + 1) SC_CACHE_FAILED_RESPONSE exist res
  end.

(** [res0] is the indeterminate content of the local array [res]; the last
    argument is [*exist] on entry. *)
Definition redis_list_exist (res0 : list Z) (key : option cstr) (value : option (list Z))
    (value_len : Z) (exist : bool) : M (status_t * bool) :=
  match key, value with
  | Some key, Some value =>
      '(r, len) ← redis_list_size (Some key) 0;
      list_exist_loop (Z.to_nat len) key value value_len 0
        (if r =? SC_OK then SC_OK else SC_CACHE_FAILED_RESPONSE) false res0
  | _, _ => mret (SC_NULL, exist)
  end.

Definition redis_list_pop (key : option cstr) (res : list Z) : M (status_t * list Z) :=
  match key with
  | None => mret (SC_NULL, res)
  | Some key =>
      reply ← command (LPOP key);
      if decide (r_type reply = REDIS_REPLY_STRING)
      then res ← check (copy_reply (r_str reply) res); mret (SC_OK, res)
      else mret (SC_CACHE_FAILED_RESPONSE, res)
  end.

(** [errno_erange] tells whether [errno] already was [ERANGE] on entry: the
    code does not clear it.  A reply without the field makes [strtok] continue
    an unrelated scan, which is left undefined. *)
Definition redis_occupied_space (errno_erange : bool) : M Z :=
  reply ← command INFO;
  if decide (r_type reply = REDIS_REPLY_STRING) then
    let size_field := lit "used_memory:" in
    str ← check (strstr (str_of_buf (r_str reply)) size_field);
    size_str ← check (strtok1 str 10);
    let ptr := drop (length size_field) size_str in
    let '(v, rest, erange) := strtol ptr in
    if negb (bool_decide (rest = ptr)) && negb (errno_erange || erange)
       && (v >=? INT_MIN) && (v <=? INT_MAX)
    then mret v else mret (-1)
  else mret (-1).

(** *** The public functions *)

Definition guarded {A} (off : A) (m : M A) : M A :=
  st ← gets state; if st : bool then m else mret off.

Definition cache_del (key : option cstr) : M status_t := guarded SC_CACHE_OFF (redis_del key).

Definition cache_get (key res : option cstr) : M (status_t * option cstr) :=
  guarded (SC_CACHE_OFF, res) (redis_get key res).

Definition cache_set key key_size value value_size timeout : M status_t :=
  guarded SC_CACHE_OFF (redis_set key key_size value value_size timeout).

Definition cache_list_push key key_size value value_size : M status_t :=
  guarded SC_CACHE_OFF (redis_list_push key key_size value value_size).

Definition cache_list_at key index res_len res : M (status_t * list Z) :=
  guarded (SC_CACHE_OFF, res) (redis_list_at key index res_len res).

Definition cache_list_peek key res_len res : M (status_t * list Z) :=
  guarded (SC_CACHE_OFF, res) (redis_list_peek key res_len res).

Definition cache_list_size key len : M (status_t * Z) :=
  guarded (SC_CACHE_OFF, len) (redis_list_size key len).

Definition cache_list_exist res0 key value value_len exist : M (status_t * bool) :=
  guarded (SC_CACHE_OFF, exist) (redis_list_exist res0 key value value_len exist).

Definition cache_list_pop key res : M (status_t * list Z) :=
  guarded (SC_CACHE_OFF, res) (redis_list_pop key res).

Definition cache_occupied_space errno_erange : M Z :=
  guarded SC_CACHE_OFF (redis_occupied_space errno_erange).

Definition cache_set_capacity (size : cstr) : M Z :=
  guarded SC_CACHE_OFF (_ ← command (CONFIG_SET_maxmemory size); mret 1).

Definition cache_get_capacity : M Z :=
  guarded SC_CACHE_OFF (_ ← command CONFIG_GET_maxmemory; mret 1).

(** The result of [redisConnect]: NULL, a context with its [err] field set, or
    a connection. *)
Inductive connect_result := ConnNull | ConnErr | Connected (d : db).

(** [cache_init]; [lock_rc] is the result of [pthread_rwlock_init].  The file
    returns a [bool], so any non-zero status becomes [true]. *)
Definition cache_init (input_state : bool) (c : connect_result) (lock_rc : Z) : M bool :=
  _ ← modify (fun e => mkEnv input_state (conn e));
  if negb input_state then mret false else
  match c with
  | ConnNull => undefined
  | ConnErr => mret false
  | Connected d =>
      _ ← modify (fun e => mkEnv (state e) d);
      if negb (lock_rc =? 0) then mret (negb (SC_CACHE_INIT_FINI =? 0)) else mret true
  end.

(** ** Properties *)

(** The list a key holds, seen through the environment. *)
Definition klist (e : env db) (k : cstr) : option (list (list Z)) :=
  as_list (keyspace (conn e) !! k).

(** Two environments a client cannot tell apart through the keyspace. *)
#[export] Instance env_equiv : Equiv (env db) := fun e1 e2 =>
  state e1 = state e2 /\ keyspace (conn e1) = keyspace (conn e2).

#[export] Instance env_equivalence : Equivalence (≡@{env db}).
Proof.
  split.
  - by intros e.
  - intros e1 e2 [? ?]. by split.
  - intros e1 e2 e3 [? ?] [? ?]. split; congruence.
Qed.

#[export] Instance klist_proper : Proper ((≡) ==> (=) ==> (=)) klist.
Proof. intros e1 e2 [_ E] k ? <-. unfold klist. by rewrite E. Qed.

#[export] Instance state_proper : Proper ((≡) ==> (=)) (@state db).
Proof. by intros e1 e2 [? _]. Qed.

(** [e'] is [e] with the value at [k] replaced. *)
Definition updated (e e' : env db) (k : cstr) (v : option rvalue) : Prop :=
  state e' = state e /\ keyspace (conn e') = partial_alter (fun _ => v) k (keyspace (conn e)).

Lemma updated_klist e e' k v : updated e e' k v -> klist e' k = as_list v.
Proof. intros [_ E]. unfold klist. by rewrite E, lookup_partial_alter_eq. Qed.

Lemma updated_klist_ne e e' k v k' : updated e e' k v -> k <> k' -> klist e' k' = klist e k'.
Proof. intros [_ E] Hne. unfold klist. by rewrite E, lookup_partial_alter_ne. Qed.

Lemma as_list_of_list l : as_list (of_list l) = Some l.
Proof. by destruct l. Qed.

(** *** Single commands *)

Lemma command_run c e :
  command c e = Some ((redisCommand (conn e) c).2, mkEnv (state e) (redisCommand (conn e) c).1).
Proof. unfold command. by destruct (redisCommand (conn e) c). Qed.

Lemma arg_b_whole (s : list Z) e : arg_b s (strlen s) e = Some (s, e).
Proof.
  unfold arg_b, strlen, check. rewrite Nat2Z.id, take_ge by done.
  destruct (Z.leb_spec 0 (Z.of_nat (length s))); [|lia].
  by destruct (Z.leb_spec (Z.of_nat (length s)) (Z.of_nat (length s))); [|lia].
Qed.

Lemma copy_reply_spec v res :
  0 ∉ v -> (length v < length res)%nat ->
  copy_reply v res = Some (v ++ 0 :: drop (S (length v)) res).
Proof.
  intros H0 Hl. unfold copy_reply, overwrite. rewrite strncpy_data_no_nul by done.
  rewrite length_app. simpl. case_decide; [|lia].
  rewrite <- app_assoc. simpl. by rewrite Nat.add_1_r.
Qed.

(** The state guard of the public functions. *)
Lemma guarded_on {A} (off : A) (m : M A) e : state e = true -> guarded off m e = m e.
Proof. intros Hs. unfold guarded, mbind, comp_mbind, gets. by rewrite Hs. Qed.

Lemma guarded_off {A} (off : A) (m : M A) e : state e = false -> guarded off m e = Some (off, e).
Proof. intros Hs. unfold guarded, mbind, comp_mbind, gets. by rewrite Hs. Qed.

Lemma redis_list_push_spec e k v l :
  maxed (conn e) = false -> klist e k = Some l ->
  exists e', redis_list_push (Some k) (strlen k) (Some v) (strlen v) e = Some (SC_OK, e') /\
    updated e e' k (Some (RList (v :: l))).
Proof.
  intros Hm Hk. unfold redis_list_push.
  comp_step (arg_b_whole k e). comp_step (arg_b_whole v e). comp_step (command_run (LPUSH k v) e).
  destruct (redis_LPUSH (conn e) k v l Hm Hk) as [Hks Hr]. rewrite Hr.
  eexists. split; [reflexivity|]. split; [done|]. simpl. by rewrite Hks.
Qed.

Lemma redis_list_push_error e k v :
  maxed (conn e) = true \/ klist e k = None ->
  exists e', redis_list_push (Some k) (strlen k) (Some v) (strlen v) e =
    Some (SC_CACHE_FAILED_RESPONSE, e') /\ e' ≡ e.
Proof.
  intros Hm. unfold redis_list_push.
  comp_step (arg_b_whole k e). comp_step (arg_b_whole v e). comp_step (command_run (LPUSH k v) e).
  destruct (redis_LPUSH_error (conn e) k v Hm) as [Hks [Hr _]]. rewrite Hr.
  eexists. split; [reflexivity|]. by split.
Qed.

(** Reading an element, whatever the outcome. *)
Lemma redis_list_at_spec e k i res_len res l :
  0 <= i -> klist e k = Some l ->
  exists e', e' ≡ e /\
  redis_list_at (Some k) i res_len res e =
    match l !! Z.to_nat i with
    | Some v => if i32 (strlen v) <=? res_len
                then match copy_reply v res with Some r => Some ((SC_OK, r), e') | None => None end
                else Some ((SC_CACHE_FAILED_RESPONSE, res), e')
    | None => Some ((SC_CACHE_FAILED_RESPONSE, res), e')
    end.
Proof.
  intros Hi Hk. unfold redis_list_at. comp_step (command_run (LINDEX k i) e).
  destruct (redis_LINDEX (conn e) k i Hi) as [Hks Hr]. unfold klist in Hk. rewrite Hk in Hr.
  exists (mkEnv (state e) (redisCommand (conn e) (LINDEX k i)).1).
  split; [by split|]. rewrite Hr.
  destruct (l !! Z.to_nat i) as [v|]; [|done]. cbn [r_type string_reply r_str].
  rewrite bool_decide_true by done. simpl.
  destruct (i32 (strlen v) <=? res_len); [|done]. comp_simpl. by destruct (copy_reply v res).
Qed.

Lemma redis_list_peek_at e k res_len res :
  redis_list_peek (Some k) res_len res e = redis_list_at (Some k) 0 res_len res e.
Proof. done. Qed.

Lemma redis_list_size_spec e k n l :
  klist e k = Some l ->
  exists e', redis_list_size (Some k) n e = Some ((SC_OK, i32 (Z.of_nat (length l))), e') /\ e' ≡ e.
Proof.
  intros Hk. unfold redis_list_size. comp_step (command_run (LLEN k) e).
  destruct (redis_LLEN (conn e) k) as [Hks Hr]. unfold klist in Hk. rewrite Hk in Hr. rewrite Hr.
  eexists. split; [reflexivity|]. by split.
Qed.

Lemma redis_list_pop_spec e k res v l :
  klist e k = Some (v :: l) -> 0 ∉ v -> (length v < length res)%nat ->
  exists e', redis_list_pop (Some k) res e =
      Some ((SC_OK, v ++ 0 :: drop (S (length v)) res), e') /\
    updated e e' k (of_list l).
Proof.
  intros Hk H0 Hl. unfold redis_list_pop. comp_step (command_run (LPOP k) e).
  pose proof (redis_LPOP (conn e) k) as Hp. unfold klist in Hk. rewrite Hk in Hp.
  destruct Hp as [Hks ->]. comp_simpl. cbn [string_reply r_type r_str].
  rewrite decide_True by done. rewrite copy_reply_spec by done.
  eexists. split; [reflexivity|]. by split.
Qed.

Lemma redis_list_pop_empty e k res :
  klist e k = Some [] ->
  exists e', redis_list_pop (Some k) res e = Some ((SC_CACHE_FAILED_RESPONSE, res), e') /\ e' ≡ e.
Proof.
  intros Hk. unfold redis_list_pop. comp_step (command_run (LPOP k) e).
  pose proof (redis_LPOP (conn e) k) as Hp. unfold klist in Hk. rewrite Hk in Hp.
  destruct Hp as [Hks ->]. eexists. split; [reflexivity|]. by split.
Qed.

Lemma redis_del_spec e k :
  exists e', redis_del (Some k) e =
      Some (if keyspace (conn e) !! k then SC_OK else SC_CACHE_FAILED_RESPONSE, e') /\
    updated e e' k None.
Proof.
  unfold redis_del. comp_step (command_run (DEL k) e).
  destruct (redis_DEL (conn e) k) as [Hks Hr]. rewrite Hr.
  exists (mkEnv (state e) (redisCommand (conn e) (DEL k)).1). split; [|by split].
  by destruct (keyspace (conn e) !! k).
Qed.

Lemma redis_get_spec e k res :
  exists e', e' ≡ e /\ redis_get (Some k) res e =
    Some (match keyspace (conn e) !! k with
          | Some (RString s) => (SC_OK, Some (str_of_buf s))
          | _ => (SC_CACHE_FAILED_RESPONSE, None)
          end, e').
Proof.
  unfold redis_get. comp_step (command_run (GET k) e).
  destruct (redis_GET (conn e) k) as [Hks Hr].
  exists (mkEnv (state e) (redisCommand (conn e) (GET k)).1). split; [by split|].
  destruct (keyspace (conn e) !! k) as [[s|l]|].
  - by rewrite Hr.
  - destruct Hr as [Hr _]. by rewrite Hr.
  - by rewrite Hr.
Qed.

Lemma redis_set_spec e k v timeout :
  maxed (conn e) = false ->
  exists e', redis_set (Some k) (strlen k) (Some v) (strlen v) timeout e = Some (SC_OK, e') /\
    match keyspace (conn e) !! k with
    | None => updated e e' k (Some (RString v))
    | Some _ => e' ≡ e
    end.
Proof.
  intros Hm. unfold redis_set.
  comp_step (arg_b_whole k e). comp_step (arg_b_whole v e).
  set (ex := if timeout >? 0 then Some timeout else None).
  comp_step (command_run (SET_NX k v ex) e). eexists. split; [reflexivity|].
  destruct (keyspace (conn e) !! k) eqn:E.
  - destruct (redis_SET_exists (conn e) k v ex Hm ltac:(by eexists)) as [Hks _]. by split.
  - destruct (redis_SET_new (conn e) k v ex Hm E) as [Hks _]. by split.
Qed.

(** *** Lists are stacks *)

(** A client that pushes the values of a list one after the other. *)
Fixpoint push_all (k : cstr) (vs : list (list Z)) : M status_t :=
  match vs with
  | [] => mret SC_OK
  | v :: r =>
      ret ← cache_list_push (Some k) (strlen k) (Some v) (strlen v);
      if ret =? SC_OK then push_all k r else mret ret
  end.

Lemma push_all_spec k vs : (forall d : db, maxed d = false) -> forall e l,
  state e = true -> klist e k = Some l ->
  exists e', push_all k vs e = Some (SC_OK, e') /\ state e' = true /\
    klist e' k = Some (rev vs ++ l) /\
    (forall k', k <> k' -> klist e' k' = klist e k').
Proof.
  intros Hm. induction vs as [|v vs IH]; intros e l Hs Hk; simpl.
  { by exists e. }
  destruct (redis_list_push_spec e k v l (Hm _) Hk) as (e1 & Hp & Hu).
  unfold cache_list_push, mbind, comp_mbind. rewrite guarded_on, Hp by done. simpl.
  destruct (IH e1 (v :: l)) as (e' & -> & Hs' & Hk' & Hf).
  { by destruct Hu as [-> _]. } { by rewrite (updated_klist _ _ _ _ Hu). }
  exists e'. split; [done|]. split; [done|]. split; [by rewrite <- app_assoc|].
  intros k' Hne. rewrite Hf by done. by apply (updated_klist_ne _ _ _ _ _ Hu).
Qed.

Lemma redis_list_exist_fits v res n value :
  0 ∉ v -> 0 ∉ value -> length value = n -> length res = S n -> (length v <= n)%nat ->
  copy_reply v res = Some (v ++ 0 :: drop (S (length v)) res) /\
  length (v ++ 0 :: drop (S (length v)) res) = S n /\
  memcmp_eq value (v ++ 0 :: drop (S (length v)) res) n = Some (bool_decide (v = value)).
Proof.
  intros Hv Hval Hn Hres Hle. split; [apply copy_reply_spec; [done|lia]|]. split.
  { rewrite length_app. simpl. rewrite length_drop. lia. }
  unfold memcmp_eq. rewrite decide_True by (rewrite length_app; simpl; rewrite length_drop; lia).
  rewrite (take_ge value) by lia. f_equal. apply bool_decide_ext.
  destruct (decide (length v = n)) as [E|E].
  - rewrite <- E at 1. rewrite take_app_length. by split.
  - split; [|by intros ->].
    rewrite take_app_ge by lia. intros Heq. exfalso. apply Hval. rewrite Heq.
    apply elem_of_app. right. destruct (n - length v)%nat eqn:En; [lia|].
    simpl. apply elem_of_cons. by left.
Qed.

(** Elements the local array of [redis_list_exist] can take. *)
Definition fits (n : nat) (v : list Z) : bool := (length v <=? n)%nat.

Lemma list_exist_loop_spec k value l :
  0 ∉ value -> Forall (fun v => 0 ∉ v /\ strlen v < 2 ^ 31) l ->
  forall n i ret ex res e,
  klist e k = Some l -> length l = (i + n)%nat -> length res = S (length value) ->
  exists e', e' ≡ e /\
  list_exist_loop n k value (strlen value) (Z.of_nat i) ret ex res e =
    Some ((if forallb (fits (length value)) (drop i l) then ret else SC_CACHE_FAILED_RESPONSE,
           ex || bool_decide (value ∈ drop i l)), e').
Proof.
  intros Hval Hl. induction n as [|n IH]; intros i ret ex res e Hk Hlen Hres.
  { exists e. split; [done|]. simpl. rewrite drop_ge by lia. simpl.
    by rewrite orb_false_r. }
  destruct (lookup_lt_is_Some_2 l i ltac:(lia)) as [v Hv].
  pose proof (Forall_lookup_1 _ _ _ _ Hl Hv) as [Hv0 Hvl]. unfold strlen in Hvl.
  destruct (redis_list_at_spec e k (Z.of_nat i) (strlen value) res l ltac:(lia) Hk)
    as (e1 & He1 & Hat). rewrite Nat2Z.id, Hv in Hat.
  rewrite (swrap_small 32) in Hat by (unfold strlen; lia).
  rewrite (drop_S _ _ _ Hv). cbn [list_exist_loop]. unfold mbind at 1, comp_mbind at 1.
  rewrite Hat. clear Hat. unfold strlen in *. simpl forallb. unfold fits at 1.
  replace (Z.of_nat i + 1) with (Z.of_nat (S i)) by lia.
  destruct (Z.leb_spec (Z.of_nat (length v)) (Z.of_nat (length value))) as [Hle|Hgt].
  - destruct (redis_list_exist_fits v res (length value) value) as (-> & Hl' & Hcmp);
      [done|done|done|done|lia|].
    rewrite (proj2 (Nat.leb_le _ _)) by lia. change (SC_OK =? SC_OK) with true. cbn [andb].
    rewrite Nat2Z.id, Hcmp. unfold mbind at 1, comp_mbind at 1, check at 1.
    destruct (IH (S i) ret (if bool_decide (v = value) then true else ex)
      (v ++ 0 :: drop (S (length v)) res) e1) as (e' & He' & ->);
      [by rewrite He1|lia|done|].
    exists e'. split; [by rewrite He'|]. do 3 f_equal.
    rewrite (bool_decide_ext (value ∈ v :: drop (S i) l) (v = value \/ value ∈ drop (S i) l))
      by (rewrite elem_of_cons; naive_solver).
    rewrite bool_decide_or. by destruct (bool_decide (v = value)), ex.
  - rewrite (proj2 (Nat.leb_gt _ _)) by lia.
    change (SC_CACHE_FAILED_RESPONSE =? SC_OK) with false. cbn [andb].
    destruct (IH (S i) SC_CACHE_FAILED_RESPONSE ex res e1) as (e' & He' & ->);
      [by rewrite He1|lia|done|].
    exists e'. split; [by rewrite He'|]. f_equal. f_equal. f_equal.
    + by destruct (forallb _ _).
    + f_equal. apply bool_decide_ext. rewrite elem_of_cons.
      split; [by right|]. intros [->|]; [lia|done].
Qed.

End Operations.
End Backend.

(** ** The cache as a map

    The view clients of the cache reason with: [cache_is e m] says that the
    cache is on and holds [m].  On a server that never refuses writes every
    operation is then a function of [m]. *)
Module CacheView.
Import Backend.

Section View.
Context {db : Type} {server : RedisServer db} (never_maxed : forall d : db, maxed d = false).

Definition cache_is (e : env db) (m : gmap (list Z) rvalue) : Prop :=
  state e = true /\ keyspace (conn e) = m.

Lemma updated_is e e' k v m :
  cache_is e m -> updated e e' k v -> cache_is e' (partial_alter (fun _ => v) k m).
Proof. intros [Hs <-] [Hs' Hk]. split; [congruence|done]. Qed.

Lemma equiv_is e e' m : cache_is e m -> e' ≡ e -> cache_is e' m.
Proof. intros [Hs <-] [Hs' Hk]. split; congruence. Qed.

Lemma push_is e m k v l :
  cache_is e m -> as_list (m !! k) = Some l ->
  exists e', cache_list_push (Some k) (strlen k) (Some v) (strlen v) e = Some (SC_OK, e') /\
    cache_is e' (<[k := RList (v :: l)]> m).
Proof.
  intros [Hs Hm] Hl. destruct (redis_list_push_spec e k v l (never_maxed _)) as (e' & He & Hu).
  { unfold klist. by rewrite Hm. }
  exists e'. unfold cache_list_push. rewrite guarded_on by done. split; [done|].
  by apply (updated_is e e' k).
Qed.

(** The beginning of an array as an argument. *)
Lemma arg_b_take b x (e : env db) : take (length x) b = x -> arg_b b (strlen x) e = Some (x, e).
Proof.
  intros Hx. unfold arg_b, strlen, check. rewrite Nat2Z.id, Hx.
  assert (length x <= length b)%nat by (rewrite <- Hx, length_take; lia).
  by rewrite (proj2 (Z.leb_le _ _)), (proj2 (Z.leb_le _ _)) by lia.
Qed.

(** Key and value given as the beginnings of longer arrays. *)
Lemma push_take_is e m kb vb k v l :
  cache_is e m -> as_list (m !! k) = Some l ->
  take (length k) kb = k -> take (length v) vb = v ->
  exists e', cache_list_push (Some kb) (strlen k) (Some vb) (strlen v) e = Some (SC_OK, e') /\
    cache_is e' (<[k := RList (v :: l)]> m).
Proof.
  intros He Hl Hk Hv. destruct (push_is e m k v l He Hl) as (e' & Hp & Hi).
  exists e'. split; [|done]. rewrite <- Hp. unfold cache_list_push, redis_list_push.
  destruct He as [Hs _]. rewrite !guarded_on by done.
  unfold mbind, comp_mbind. by rewrite (arg_b_take kb k e Hk), (arg_b_take vb v e Hv), !arg_b_whole.
Qed.

Lemma size_is e m k l n :
  cache_is e m -> as_list (m !! k) = Some l -> Z.of_nat (length l) <= INT_MAX ->
  exists e', cache_list_size (Some k) n e = Some ((SC_OK, Z.of_nat (length l)), e') /\ cache_is e' m.
Proof.
  intros He Hl Hlen. destruct He as [Hs Hm].
  destruct (redis_list_size_spec e k n l) as (e' & Hr & Hq). { unfold klist. by rewrite Hm. }
  exists e'. unfold cache_list_size. rewrite guarded_on, Hr by done.
  unfold INT_MAX in Hlen. rewrite (swrap_small 32) by lia. split; [done|].
  by apply (equiv_is e).
Qed.

Lemma at_is e m k l i v res_len res :
  cache_is e m -> as_list (m !! k) = Some l -> l !! i = Some v -> 0 ∉ v ->
  strlen v <= res_len <= INT_MAX -> (length v < length res)%nat ->
  exists e', cache_list_at (Some k) (Z.of_nat i) res_len res e =
      Some ((SC_OK, v ++ 0 :: drop (S (length v)) res), e') /\ cache_is e' m.
Proof.
  intros He Hl Hi H0 Hlen Hres. destruct He as [Hs Hm].
  destruct (redis_list_at_spec e k (Z.of_nat i) res_len res l) as (e' & Hq & Hr);
    [lia|unfold klist; by rewrite Hm|].
  exists e'. unfold cache_list_at. rewrite guarded_on, Hr, Nat2Z.id, Hi by done.
  rewrite (swrap_small 32) by (unfold strlen, INT_MAX in *; lia).
  rewrite (proj2 (Z.leb_le _ _)), copy_reply_spec by (done || lia).
  split; [done|]. by apply (equiv_is e).
Qed.

Lemma peek_is e m k v l res_len res :
  cache_is e m -> as_list (m !! k) = Some (v :: l) -> 0 ∉ v ->
  strlen v <= res_len <= INT_MAX -> (length v < length res)%nat ->
  exists e', cache_list_peek (Some k) res_len res e =
      Some ((SC_OK, v ++ 0 :: drop (S (length v)) res), e') /\ cache_is e' m.
Proof. intros He Hl. by apply (at_is e m k (v :: l) 0 v). Qed.

Lemma pop_is e m k v l res :
  cache_is e m -> as_list (m !! k) = Some (v :: l) -> 0 ∉ v -> (length v < length res)%nat ->
  exists e', cache_list_pop (Some k) res e =
      Some ((SC_OK, v ++ 0 :: drop (S (length v)) res), e') /\
    cache_is e' (partial_alter (fun _ => of_list l) k m).
Proof.
  intros He Hl H0 Hres. destruct He as [Hs Hm].
  destruct (redis_list_pop_spec e k res v l) as (e' & Hr & Hu);
    [unfold klist; by rewrite Hm|done|done|].
  exists e'. unfold cache_list_pop. rewrite guarded_on by done. split; [done|].
  by apply (updated_is e).
Qed.

Lemma del_is e m k :
  cache_is e m ->
  exists e', cache_del (Some k) e =
      Some (if m !! k then SC_OK else SC_CACHE_FAILED_RESPONSE, e') /\ cache_is e' (delete k m).
Proof.
  intros He. destruct He as [Hs Hm]. destruct (redis_del_spec e k) as (e' & Hr & Hu).
  exists e'. unfold cache_del. rewrite guarded_on, Hr, Hm by done. split; [done|].
  by apply (updated_is e).
Qed.

Lemma exist_is e m k value l res0 ex :
  cache_is e m -> as_list (m !! k) = Some l -> Z.of_nat (length l) <= INT_MAX ->
  Forall (fun v => 0 ∉ v /\ length v = length value) l -> 0 ∉ value ->
  strlen value < 2 ^ 31 -> length res0 = S (length value) ->
  exists e', cache_list_exist res0 (Some k) (Some value) (strlen value) ex e =
      Some ((SC_OK, bool_decide (value ∈ l)), e') /\ cache_is e' m.
Proof.
  intros He Hl Hlen Hf H0 Hv Hres. destruct He as [Hs Hm]. unfold cache_list_exist.
  rewrite guarded_on by done. unfold redis_list_exist.
  destruct (redis_list_size_spec e k 0 l) as (e1 & Hsz & He1). { unfold klist. by rewrite Hm. }
  unfold INT_MAX in Hlen. rewrite (swrap_small 32) in Hsz by lia.
  unfold mbind, comp_mbind. rewrite Hsz, Nat2Z.id.
  change (if SC_OK =? SC_OK then SC_OK else SC_CACHE_FAILED_RESPONSE) with SC_OK.
  destruct (list_exist_loop_spec k value l H0) with (n := length l) (i := 0%nat)
    (ret := SC_OK) (ex := false) (res := res0) (e := e1) as (e' & He' & Heq).
  - eapply Forall_impl; [exact Hf|]. intros v [? E]. split; [done|]. unfold strlen in *. lia.
  - rewrite He1. unfold klist. by rewrite Hm.
  - done.
  - done.
  - exists e'. split; [|apply (equiv_is e); [done|by rewrite He']].
    etransitivity; [exact Heq|]. do 3 f_equal. change (drop 0 l) with l.
    assert (forallb (fits (length value)) l = true) as ->; [|done].
    apply forallb_forall. intros v Hin. rewrite Forall_forall in Hf.
    destruct (Hf v) as [_ E]; [by apply list_elem_of_In|]. unfold fits. apply Nat.leb_le. lia.
Qed.

(** Only the first [n] bytes of the value are compared. *)
Lemma exist_take (e : env db) res0 k vb n ex : 0 <= n ->
  cache_list_exist res0 (Some k) (Some vb) n ex e =
  cache_list_exist res0 (Some k) (Some (take (Z.to_nat n) vb)) n ex e.
Proof.
  intros Hn.
  assert (forall c i ret x res (e0 : env db), list_exist_loop c k vb n i ret x res e0 =
    list_exist_loop c k (take (Z.to_nat n) vb) n i ret x res e0) as Hloop.
  { induction c as [|c IH]; intros i ret x res e0; cbn [list_exist_loop]; [done|].
    unfold mbind, comp_mbind. destruct (redis_list_at _ _ _ _ _) as [ [ [r res'] e1] |]; [|done].
    assert (forall res, memcmp_eq (take (Z.to_nat n) vb) res (Z.to_nat n) = memcmp_eq vb res (Z.to_nat n)) as ->.
    { intros res1. unfold memcmp_eq. rewrite take_idemp, length_take.
      destruct (decide (Z.to_nat n <= length vb /\ _)%nat) as [H1|H1];
        [rewrite decide_True by lia|rewrite decide_False by lia]; done. }
    destruct (r =? SC_OK); [|apply IH].
    unfold check. destruct (memcmp_eq vb res' (Z.to_nat n)); [apply IH|done]. }
  unfold cache_list_exist, guarded, mbind, comp_mbind, gets. destruct (state e); [|done].
  unfold redis_list_exist, mbind, comp_mbind.
  destruct (redis_list_size _ _ _) as [ [ [r len] e1] |]; [|done]. apply Hloop.
Qed.

(** Looking into a key that holds a string. *)
Lemma exist_error_is e m k value n res0 ex :
  cache_is e m -> as_list (m !! k) = None ->
  exists e', cache_list_exist res0 (Some k) (Some value) n ex e =
      Some ((SC_CACHE_FAILED_RESPONSE, false), e') /\ cache_is e' m.
Proof.
  intros [Hs Hm] Hl. unfold cache_list_exist. rewrite guarded_on by done.
  unfold redis_list_exist, redis_list_size, mbind, comp_mbind, command.
  destruct (redis_LLEN (conn e) k) as [Hk Hr]. rewrite Hm, Hl in Hr. destruct Hr as [Hr _].
  destruct (redisCommand (conn e) (LLEN k)) as [d r]. simpl in *.
  rewrite decide_False by (intros H; apply H, Hr). simpl.
  eexists. split; [reflexivity|]. split; [done|]. simpl. by rewrite Hk.
Qed.

End View.
End CacheView.

(** ** A server for evaluation *)
Module RedisModel.

(** A server without a memory limit: its state is the keyspace. *)
Abbreviation db := (gmap (list Z) rvalue).

Definition error_reply := mkReply REDIS_REPLY_ERROR 0 (lit "ERR").

(** A thousand bytes for each key, as long as there is room. *)
Definition memory (m : db) : Z := Z.min (865432 + 1000 * Z.of_nat (size m)) INT_MAX.

Definition exec (m : db) (c : redis_cmd) : db * redisReply :=
  match c with
  | DEL k => (delete k m, integer_reply (if m !! k then 1 else 0))
  | GET k => (m, match m !! k with
                 | Some (RString s) => string_reply s
                 | Some (RList _) => error_reply
                 | None => nil_reply end)
  | SET_NX k v _ =>
      match m !! k with
      | Some _ => (m, nil_reply)
      | None => (<[k := RString v]> m, status_reply)
      end
  | LPUSH k v =>
      match as_list (m !! k) with
      | Some l => (<[k := RList (v :: l)]> m, integer_reply (Z.of_nat (S (length l))))
      | None => (m, error_reply)
      end
  | LINDEX k i =>
      (m, match as_list (m !! k) with
          | Some l => match l !! Z.to_nat i with Some v => string_reply v | None => nil_reply end
          | None => error_reply end)
  | LLEN k =>
      (m, match as_list (m !! k) with
          | Some l => integer_reply (Z.of_nat (length l)) | None => error_reply end)
  | LPOP k =>
      match as_list (m !! k) with
      | Some (v :: l) => (partial_alter (fun _ => of_list l) k m, string_reply v)
      | Some [] => (m, nil_reply)
      | None => (m, error_reply)
      end
  | INFO => (m, string_reply ((lit "# Memory" ++ [13; 10]) ++ lit "used_memory:" ++
                              dec_nat (memory m) ++ [13; 10] ++ []))
  | CONFIG_SET_maxmemory _ => (m, status_reply)
  | CONFIG_GET_maxmemory => (m, mkReply REDIS_REPLY_ARRAY 0 [])
  end.

#[local] Obligation Tactic := idtac.

#[export] Program Instance server : RedisServer db := {
  redisCommand := exec; keyspace := fun m => m; maxed := fun _ => false }.
Next Obligation. by intros m k. Qed.
Next Obligation. intros m k. simpl. destruct (m !! k) as [[s|l]|]; repeat split. Qed.
Next Obligation. done. Qed.
Next Obligation. intros m k v ex _ [x Hx]; simpl in *. rewrite Hx; repeat split. Qed.
Next Obligation. intros m k v ex _ Hx; simpl in *. rewrite Hx; repeat split. Qed.
Next Obligation. intros m k v l _ Hx; simpl in *. rewrite Hx; repeat split. Qed.
Next Obligation. intros m k v [Hx|Hx]; simpl in *; [done|]. rewrite Hx; repeat split. Qed.
Next Obligation. intros m k i Hi. simpl. destruct (as_list (m !! k)); repeat split. Qed.
Next Obligation. intros m k. simpl. destruct (as_list (m !! k)); repeat split. Qed.
Next Obligation. intros m k. simpl. destruct (as_list (m !! k)) as [ [|v l] |]; repeat split. Qed.
Next Obligation. done. Qed.

Definition empty : Backend.env db := Backend.mkEnv true ∅.

End RedisModel.

(** ** The properties of the cache *)
Module CacheSpec.
Import Backend.

Section Spec.
Context {db : Type} `{RedisServer db}.

(** A cache list is a stack: after pushing [vs] in order onto a key that
    holds [l], the element at index [i] is the [i]-th of [rev vs ++ l], returned
    NUL-terminated in the caller's array, and no other key has changed. *)
Theorem cache_list_lifo (e : env db) k vs l i v res_len res :
  (forall d : db, maxed d = false) -> state e = true -> klist e k = Some l ->
  (rev vs ++ l) !! i = Some v -> 0 ∉ v ->
  strlen v <= res_len <= INT_MAX -> (length v < length res)%nat ->
  exists e' e'', push_all k vs e = Some (SC_OK, e') /\
    cache_list_at (Some k) (Z.of_nat i) res_len res e' =
      Some ((SC_OK, v ++ 0 :: drop (S (length v)) res), e'') /\
    klist e'' k = Some (rev vs ++ l) /\
    (forall k', k <> k' -> klist e'' k' = klist e k').
Proof.
  intros Hm Hs Hk Hi Hv0 Hlen Hres.
  destruct (push_all_spec k vs Hm e l Hs Hk) as (e1 & Hp & Hs1 & Hk1 & Hf).
  destruct (redis_list_at_spec e1 k (Z.of_nat i) res_len res _ ltac:(lia) Hk1) as (e2 & He2 & Hat).
  exists e1, e2. split; [done|]. split.
  - unfold cache_list_at. rewrite guarded_on, Hat, Nat2Z.id, Hi by done.
    rewrite (swrap_small 32) by (unfold strlen, INT_MAX in *; lia).
    rewrite (proj2 (Z.leb_le _ _)) by lia. by rewrite copy_reply_spec.
  - setoid_rewrite He2. auto.
Qed.

(** Popping undoes pushing: [cache_list_pop] after [cache_list_push]
    returns the pushed value and leaves the keyspace as it was before, whether
    or not the list existed. *)
Theorem cache_push_pop (e : env db) k v l res :
  maxed (conn e) = false -> state e = true -> klist e k = Some l ->
  keyspace (conn e) !! k = of_list l ->
  0 ∉ v -> (length v < length res)%nat ->
  exists e' e'',
    cache_list_push (Some k) (strlen k) (Some v) (strlen v) e = Some (SC_OK, e') /\
    cache_list_pop (Some k) res e' = Some ((SC_OK, v ++ 0 :: drop (S (length v)) res), e'') /\
    e'' ≡ e.
Proof.
  intros Hm Hs Hk Hof Hv0 Hres.
  destruct (redis_list_push_spec e k v l Hm Hk) as (e1 & Hp & Hu).
  pose proof (updated_klist _ _ _ _ Hu) as Hk1. destruct Hu as [Hs1 Hks1].
  destruct (redis_list_pop_spec e1 k res v l Hk1 Hv0 Hres) as (e2 & Hpop & Hs2 & Hks2).
  exists e1, e2. unfold cache_list_push, cache_list_pop.
  rewrite !guarded_on by congruence. split; [done|]. split; [done|].
  split; [congruence|]. rewrite Hks2, Hks1, <- Hof.
  apply map_eq. intros k'. destruct (decide (k = k')) as [<-|Hne].
  - by rewrite lookup_partial_alter_eq.
  - by rewrite !lookup_partial_alter_ne.
Qed.

(** [cache_list_exist] decides membership for NUL-free values of any mix of
    lengths, although it compares with an uninitialised array: its answer is
    right even when it reports [SC_CACHE_FAILED_RESPONSE], which it does exactly
    when some element is longer than the value looked for. *)
Theorem cache_list_exist_spec (e : env db) res0 k value l ex :
  state e = true -> klist e k = Some l -> Z.of_nat (length l) <= INT_MAX ->
  0 ∉ value -> Forall (fun v => 0 ∉ v /\ strlen v < 2 ^ 31) l ->
  length res0 = S (length value) ->
  exists e', e' ≡ e /\
  cache_list_exist res0 (Some k) (Some value) (strlen value) ex e =
    Some ((if forallb (fits (length value)) l then SC_OK else SC_CACHE_FAILED_RESPONSE,
           bool_decide (value ∈ l)), e').
Proof.
  intros Hs Hk Hlen Hval Hl Hres. unfold cache_list_exist. rewrite guarded_on by done.
  unfold redis_list_exist.
  destruct (redis_list_size_spec e k 0 l Hk) as (e1 & Hsz & He1).
  unfold INT_MAX in Hlen. rewrite (swrap_small 32) in Hsz by lia.
  unfold mbind, comp_mbind. rewrite Hsz, Nat2Z.id.
  change (if SC_OK =? SC_OK then SC_OK else SC_CACHE_FAILED_RESPONSE) with SC_OK.
  destruct (list_exist_loop_spec k value l Hval Hl (length l) 0 SC_OK false res0 e1)
    as (e' & He' & Heq); [by rewrite He1|done|done|].
  exists e'. split; [by rewrite He'|exact Heq].
Qed.

(** With the cache switched off, every operation reports [SC_CACHE_OFF],
    leaves its output arguments alone and sends nothing to the server. *)
Theorem cache_off (e : env db) (key res : option cstr) (buf : list Z) n m t (b er : bool) val :
  state e = false ->
  cache_del key e = Some (SC_CACHE_OFF, e) /\
  cache_get key res e = Some ((SC_CACHE_OFF, res), e) /\
  cache_set key n val m t e = Some (SC_CACHE_OFF, e) /\
  cache_list_push key n val m e = Some (SC_CACHE_OFF, e) /\
  cache_list_at key n m buf e = Some ((SC_CACHE_OFF, buf), e) /\
  cache_list_peek key m buf e = Some ((SC_CACHE_OFF, buf), e) /\
  cache_list_size key n e = Some ((SC_CACHE_OFF, n), e) /\
  cache_list_exist buf key val n b e = Some ((SC_CACHE_OFF, b), e) /\
  cache_list_pop key buf e = Some ((SC_CACHE_OFF, buf), e) /\
  cache_occupied_space er e = Some (SC_CACHE_OFF, e).
Proof. intros Hs. repeat split; by apply guarded_off. Qed.

(** [cache_set] keeps the first value: a second [cache_set] on the same key
    also returns [SC_OK], and [cache_get] still returns the first value. *)
Theorem cache_set_first_wins (e : env db) k v1 v2 t1 t2 res :
  (forall d : db, maxed d = false) -> state e = true -> keyspace (conn e) !! k = None ->
  0 ∉ v1 ->
  exists e1 e2 e3,
    cache_set (Some k) (strlen k) (Some v1) (strlen v1) t1 e = Some (SC_OK, e1) /\
    cache_set (Some k) (strlen k) (Some v2) (strlen v2) t2 e1 = Some (SC_OK, e2) /\
    cache_get (Some k) res e2 = Some ((SC_OK, Some v1), e3).
Proof.
  intros Hm Hs Hk H0.
  destruct (redis_set_spec e k v1 t1 (Hm _)) as (e1 & H1 & Hu1). rewrite Hk in Hu1.
  destruct Hu1 as [Hs1 Hks1].
  assert (keyspace (conn e1) !! k = Some (RString v1)) as Hk1
    by (rewrite Hks1; apply lookup_partial_alter_eq).
  destruct (redis_set_spec e1 k v2 t2 (Hm _)) as (e2 & H2 & Hu2). rewrite Hk1 in Hu2.
  destruct (redis_get_spec e2 k res) as (e3 & _ & H3). destruct Hu2 as [Hs2 Hks2].
  rewrite Hks2, Hk1, str_of_buf_no_nul in H3 by done.
  exists e1, e2, e3. unfold cache_set, cache_get. rewrite !guarded_on by congruence. auto.
Qed.

(** [cache_occupied_space] returns the [used_memory] figure of the server's
    [INFO] text when it fits an [int], and -1 when it does not: above 2 GiB
    the value is treated as malformed. *)
Theorem cache_occupied_space_spec (e : env db) pre n post :
  state e = true -> 0 <= n <= LONG_MAX ->
  is_cstr (pre ++ lit "used_memory:" ++ dec_nat n ++ [13; 10] ++ post) ->
  strstr (pre ++ lit "used_memory:" ++ dec_nat n ++ [13; 10] ++ post) (lit "used_memory:") =
    Some (lit "used_memory:" ++ dec_nat n ++ [13; 10] ++ post) ->
  (redisCommand (conn e) INFO).2 =
    string_reply (pre ++ lit "used_memory:" ++ dec_nat n ++ [13; 10] ++ post) ->
  exists e', e' ≡ e /\
  cache_occupied_space false e = Some (if n <=? INT_MAX then n else -1, e').
Proof.
  intros Hs Hn Hc Hstr Hr. unfold cache_occupied_space. rewrite guarded_on by done.
  unfold redis_occupied_space. comp_step (command_run INFO e). rewrite Hr.
  exists (mkEnv (state e) (redisCommand (conn e) INFO).1).
  split; [split; [done|apply redis_INFO]|].
  rewrite decide_True by done. cbn [string_reply r_str].
  rewrite str_of_buf_no_nul.
  2:{ intros Hin. unfold is_cstr in Hc. rewrite Forall_forall in Hc. specialize (Hc 0 Hin). lia. }
  rewrite Hstr. comp_simpl.
  destruct (dec_nat_spec n ltac:(lia)) as (Hd & _ & Hne).
  assert (forall ds r, Forall (fun c => is_digit c = true) ds ->
    span_ne 10 (ds ++ 13 :: 10 :: r) = ds ++ [13]) as Hspan.
  { intros ds r. induction 1 as [|c ds Hc' _ IH]; simpl; [done|]. rewrite IH.
    unfold is_digit in Hc'. destruct (Z.eqb_spec c 10); [subst; done|done]. }
  change (strtok1 (lit "used_memory:" ++ dec_nat n ++ [13; 10] ++ post) 10)
    with (Some (lit "used_memory:" ++ span_ne 10 (dec_nat n ++ [13; 10] ++ post))).
  cbn beta iota. rewrite drop_app_length.
  change ([13; 10] ++ post) with (13 :: 10 :: post). rewrite Hspan by done.
  rewrite strtol_dec_nat; [|done|by intros c [= <-]].
  rewrite bool_decide_false.
  2:{ intros E. apply (f_equal length) in E. rewrite length_app in E. simpl in E.
      destruct (dec_nat n); [done|simpl in E; lia]. }
  simpl. unfold INT_MIN, INT_MAX. destruct (Z.geb_spec n (- 2 ^ 31)); [|lia]. simpl.
  by destruct (n <=? _).
Qed.

(** [cache_init] leaves the cache on when the connection failed (it returns
    [false] but [state] keeps the requested value), and reports a failed lock
    initialisation as success, because the error status converts to [true]. *)
Theorem cache_init_results (e : env db) d lock_rc :
  cache_init false (Connected d) lock_rc e = Some (false, mkEnv false (conn e)) /\
  cache_init true ConnErr lock_rc e = Some (false, mkEnv true (conn e)) /\
  cache_init true (Connected d) lock_rc e = Some (true, mkEnv true d).
Proof.
  split; [done|]. split; [done|].
  unfold cache_init, mbind, comp_mbind, modify. simpl. by destruct (lock_rc =? 0).
Qed.

End Spec.

(** *** Witnesses on the concrete server *)
Import RedisModel.

Lemma cache_list_lifo_witness :
  exists e' e'', push_all (lit "q") [lit "A"; lit "B"] empty = Some (SC_OK, e') /\
    cache_list_at (Some (lit "q")) 0 3 [7; 7; 7; 7] e' = Some ((SC_OK, [66; 0; 7; 7]), e'').
Proof.
  destruct (cache_list_lifo empty (lit "q") [lit "A"; lit "B"] [] 0 (lit "B") 3 [7; 7; 7; 7])
    as (e' & e'' & H1 & H2 & _); [| | | | | | |by exists e', e''].
  all: vm_compute; first [done | intuition (congruence || lia) | set_solver].
Defined.

Lemma cache_push_pop_witness :
  exists e' e'',
    cache_list_push (Some (lit "q")) 1 (Some (lit "A")) 1 empty = Some (SC_OK, e') /\
    cache_list_pop (Some (lit "q")) [7; 7; 7] e' = Some ((SC_OK, [65; 0; 7]), e'').
Proof.
  destruct (cache_push_pop empty (lit "q") (lit "A") [] [7; 7; 7])
    as (e' & e'' & H1 & H2 & _); [| | | | | |by exists e', e''].
  all: vm_compute; first [done | intuition (congruence || lia) | set_solver].
Defined.

Definition two_values : env db := mkEnv true {[ lit "q" := RList [lit "AB"; lit "C"] ]}.

Lemma cache_list_exist_spec_witness :
  exists e', cache_list_exist [7; 7] (Some (lit "q")) (Some (lit "C")) 1 false two_values =
    Some ((SC_CACHE_FAILED_RESPONSE, true), e').
Proof.
  destruct (cache_list_exist_spec two_values [7; 7] (lit "q") (lit "C") [lit "AB"; lit "C"] false)
    as (e' & _ & Heq); [reflexivity|reflexivity|done|set_solver| |reflexivity|].
  - repeat constructor; done || (vm_compute; set_solver).
  - exists e'. exact Heq.
Defined.

Lemma cache_off_witness :
  cache_del (Some (lit "k")) (mkEnv false (∅ : db)) = Some (SC_CACHE_OFF, mkEnv false ∅).
Proof.
  destruct (cache_off (mkEnv false (∅ : db)) (Some (lit "k")) None [] 0 0 0 false false None)
    as [H1 _]; [reflexivity|exact H1].
Defined.

Lemma cache_set_first_wins_witness :
  exists e1 e2 e3,
    cache_set (Some (lit "k")) 1 (Some (lit "A")) 1 0 empty = Some (SC_OK, e1) /\
    cache_set (Some (lit "k")) 1 (Some (lit "B")) 1 60 e1 = Some (SC_OK, e2) /\
    cache_get (Some (lit "k")) None e2 = Some ((SC_OK, Some (lit "A")), e3).
Proof.
  destruct (cache_set_first_wins empty (lit "k") (lit "A") (lit "B") 0 60 None)
    as (e1 & e2 & e3 & H); [done|done|reflexivity|set_solver|].
  exists e1, e2, e3. exact H.
Defined.

Lemma cache_occupied_space_spec_witness :
  exists e', cache_occupied_space false empty = Some (865432, e').
Proof.
  destruct (cache_occupied_space_spec empty (lit "# Memory" ++ [13; 10]) 865432 [])
    as (e' & _ & Heq); [reflexivity|by vm_compute| |reflexivity|reflexivity|].
  - vm_compute. repeat constructor.
  - exists e'. exact Heq.
Defined.

End CacheSpec.
