(* ===== verification/Regex.v ===== *)
(** * POSIX extended regular expressions

    What the sources use of [regcomp] and [regexec]: [regcomp] for literals,
    [.], bracket ranges, groups, alternation, the repetition operators and the
    escape for white space; [regexec] as the leftmost-longest search that POSIX
    prescribes, computed with derivatives.  The theorem of the file is that a
    full-length match means membership in the language of the expression. *)

From S2P Require Import Prelude.

Inductive re :=
| Nul
| Eps
| Cls (ranges : list (Z * Z))
| Cat (a b : re)
| Alt (a b : re)
| Star (a : re).

Definition in_ranges (l : list (Z * Z)) (c : Z) : bool :=
  existsb (fun r => (r.1 <=? c) && (c <=? r.2)) l.

(** ** Languages *)
Inductive lang : re -> list Z -> Prop :=
| lang_eps : lang Eps []
| lang_cls l c : in_ranges l c = true -> lang (Cls l) [c]
| lang_cat a b s t : lang a s -> lang b t -> lang (Cat a b) (s ++ t)
| lang_alt_l a b s : lang a s -> lang (Alt a b) s
| lang_alt_r a b s : lang b s -> lang (Alt a b) s
| lang_star_nil a : lang (Star a) []
| lang_star_app a s t : lang a s -> lang (Star a) t -> lang (Star a) (s ++ t).

(** ** Matching by derivatives *)
Fixpoint nullable (r : re) : bool :=
  match r with
  | Nul | Cls _ => false
  | Eps | Star _ => true
  | Cat a b => nullable a && nullable b
  | Alt a b => nullable a || nullable b
  end.

(** Constructors that simplify, so that a dead expression is seen as [Nul]. *)
Definition cat (a b : re) : re :=
  match a with
  | Nul => Nul
  | Eps => b
  | _ => match b with Nul => Nul | _ => Cat a b end
  end.

Definition alt (a b : re) : re :=
  match a, b with
  | Nul, _ => b
  | _, Nul => a
  | _, _ => Alt a b
  end.

Fixpoint deriv (c : Z) (r : re) : re :=
  match r with
  | Nul | Eps => Nul
  | Cls l => if in_ranges l c then Eps else Nul
  | Cat a b => if nullable a then alt (cat (deriv c a) b) (deriv c b) else cat (deriv c a) b
  | Alt a b => alt (deriv c a) (deriv c b)
  | Star a => cat (deriv c a) (Star a)
  end.

Definition matchb (r : re) (s : list Z) : bool := nullable (foldl (fun r c => deriv c r) r s).

Lemma lang_Nul s : ~ lang Nul s.
Proof. by inversion 1. Qed.

Lemma lang_Eps s : lang Eps s <-> s = [].
Proof. split; [by inversion 1|intros ->; constructor]. Qed.

Lemma lang_Cls l s : lang (Cls l) s <-> exists c, s = [c] /\ in_ranges l c = true.
Proof. split; [inversion 1; eauto|intros (c & -> & ?); by constructor]. Qed.

Lemma lang_Cat a b s : lang (Cat a b) s <-> exists t u, s = t ++ u /\ lang a t /\ lang b u.
Proof. split; [inversion 1; eauto 6|intros (t & u & -> & ? & ?); by constructor]. Qed.

Lemma lang_Alt a b s : lang (Alt a b) s <-> lang a s \/ lang b s.
Proof. split; [inversion 1; auto|intros [?|?]; [by apply lang_alt_l|by apply lang_alt_r]]. Qed.

Lemma lang_cat_iff a b s : lang (cat a b) s <-> lang (Cat a b) s.
Proof.
  assert (lang (Cat Nul b) s <-> False) as HN
    by (rewrite lang_Cat; split; [intros (?&?&_&H&_); by apply lang_Nul in H|done]).
  assert (lang (Cat a Nul) s <-> False) as HR
    by (rewrite lang_Cat; split; [intros (?&?&_&_&H); by apply lang_Nul in H|done]).
  assert (lang Nul s <-> False) as H0 by (split; [apply lang_Nul|done]).
  destruct a; simpl; try (by rewrite H0, HN);
    try (destruct b; try done; by rewrite H0, HR).
  rewrite lang_Cat. split.
  - intros H. exists [], s. split; [done|]. split; [constructor|done].
  - intros (t & u & -> & Ht & Hu). apply lang_Eps in Ht as ->. done.
Qed.

Lemma lang_alt_iff a b s : lang (alt a b) s <-> lang a s \/ lang b s.
Proof.
  assert (lang Nul s <-> False) as H0 by (split; [apply lang_Nul|done]).
  destruct a, b; simpl; rewrite ?lang_Alt, ?H0; tauto.
Qed.

Lemma nullable_lang r : nullable r = true <-> lang r [].
Proof.
  induction r as [| |l|a IHa b IHb|a IHa b IHb|a IHa]; simpl.
  - split; [done|intros H; by apply lang_Nul in H].
  - split; [constructor|done].
  - split; [done|by inversion 1].
  - rewrite andb_true_iff, IHa, IHb, lang_Cat. split.
    + intros [? ?]. by exists [], [].
    + intros (t & u & E & ? & ?). symmetry in E. by apply app_nil in E as [-> ->].
  - by rewrite orb_true_iff, IHa, IHb, lang_Alt.
  - split; [constructor|done].
Qed.

Lemma lang_Star_cons a c s :
  lang (Star a) (c :: s) <-> exists t u, s = t ++ u /\ lang a (c :: t) /\ lang (Star a) u.
Proof.
  split.
  - intros H. remember (Star a) as r eqn:Er. remember (c :: s) as w eqn:Ew.
    revert s Ew. induction H as [| | | | |a'|a' t u Ht _ Hu IH]; intros z Ew; try discriminate.
    injection Er as ->. destruct t as [|x t]; [by apply IH|].
    injection Ew as -> <-. by exists t, u.
  - intros (t & u & -> & Ha & Hs). rewrite app_comm_cons. by constructor.
Qed.

Lemma deriv_lang c r : forall s, lang (deriv c r) s <-> lang r (c :: s).
Proof.
  induction r as [| |l|a IHa b IHb|a IHa b IHb|a IHa]; intros s; simpl.
  - split; [intros H; by apply lang_Nul in H|by inversion 1].
  - split; [intros H; by apply lang_Nul in H|by inversion 1].
  - rewrite lang_Cls. destruct (in_ranges l c) eqn:E.
    + rewrite lang_Eps. split; [intros ->; eauto|]. by intros (d & [= -> ->] & _).
    + split; [intros H; by apply lang_Nul in H|]. intros (d & [= -> ->] & ?). congruence.
  - assert (lang (cat (deriv c a) b) s <-> exists t u, s = t ++ u /\ lang a (c :: t) /\ lang b u) as Hc.
    { rewrite lang_cat_iff, lang_Cat. setoid_rewrite IHa. done. }
    assert (lang (Cat a b) (c :: s) <->
      (exists t u, s = t ++ u /\ lang a (c :: t) /\ lang b u) \/ (lang a [] /\ lang b (c :: s))) as Hr.
    { rewrite lang_Cat. split.
      - intros ([|x t] & u & E & Ha & Hb); simpl in E; [right; by rewrite E|].
        injection E as -> ->. left. by exists t, u.
      - intros [(t & u & -> & Ha & Hb)|[Ha Hb]]; [by exists (c :: t), u|by exists [], (c :: s)]. }
    destruct (nullable a) eqn:En.
    + rewrite lang_alt_iff, Hc, IHb, Hr. apply nullable_lang in En. tauto.
    + rewrite Hc, Hr. split; [by left|]. intros [?|[Ha _]]; [done|].
      apply nullable_lang in Ha. congruence.
  - by rewrite lang_alt_iff, IHa, IHb, lang_Alt.
  - rewrite lang_cat_iff, lang_Cat, lang_Star_cons. setoid_rewrite IHa. done.
Qed.

Lemma matchb_lang r s : matchb r s = true <-> lang r s.
Proof.
  revert r. induction s as [|c s IH]; intros r; [apply nullable_lang|].
  rewrite <- deriv_lang. apply (IH (deriv c r)).
Qed.

(** ** [regexec]: leftmost, then longest *)

(** The longest prefix of [s] that matches. *)
Fixpoint longest (r : re) (s : list Z) : option nat :=
  match s with
  | [] => if nullable r then Some O else None
  | c :: t =>
      match longest (deriv c r) t with
      | Some n => Some (S n)
      | None => if nullable r then Some O else None
      end
  end.

(** The offsets [rm_so] and [rm_eo] of the match; [i] counts the characters
    already skipped. *)
Fixpoint regexec (r : re) (s : list Z) (i : nat) : option (nat * nat) :=
  match longest r s with
  | Some n => Some (i, i + n)%nat
  | None => match s with [] => None | _ :: t => regexec r t (S i) end
  end.

Lemma longest_le r s n : longest r s = Some n -> (n <= length s)%nat.
Proof.
  revert r n. induction s as [|c s IH]; intros r n; simpl; [by destruct (nullable r); intros; simplify_eq|].
  destruct (longest (deriv c r) s) eqn:E.
  - intros [= <-]. apply IH in E. lia.
  - destruct (nullable r); intros; simplify_eq. lia.
Qed.

Lemma longest_full r s : longest r s = Some (length s) <-> matchb r s = true.
Proof.
  revert r. induction s as [|c s IH]; intros r; simpl.
  - unfold matchb. simpl. by destruct (nullable r).
  - change (matchb r (c :: s)) with (matchb (deriv c r) s). rewrite <- IH.
    destruct (longest (deriv c r) s) as [n|].
    + split; [intros [= ->]|intros [= ->]]; done.
    + split; [by destruct (nullable r)|done].
Qed.

Lemma regexec_start r s i so eo : regexec r s i = Some (so, eo) -> (i <= so /\ eo <= i + length s)%nat.
Proof.
  revert i. induction s as [|c s IH]; intros i; cbn [regexec];
    destruct (longest r _) as [n|] eqn:E; try done.
  - intros [= <- <-]. apply longest_le in E. simpl in *. lia.
  - intros [= <- <-]. apply longest_le in E. simpl in *. lia.
  - intros H. apply IH in H. simpl. lia.
Qed.

(** A match as long as the whole text is a match of the whole text. *)
Lemma regexec_full r s :
  (exists so eo, regexec r s 0 = Some (so, eo) /\ (eo - so)%nat = length s) <-> lang r s.
Proof.
  rewrite <- matchb_lang, <- longest_full. split.
  - intros (so & eo & H & E). destruct s as [|c s]; cbn [regexec] in H.
    + destruct (longest r []) as [n|] eqn:En; [|done]. injection H as <- <-.
      f_equal. simpl in *. lia.
    + destruct (longest r (c :: s)) as [n|] eqn:En.
      * injection H as <- <-. f_equal. lia.
      * apply regexec_start in H. simpl in E. lia.
  - intros H. exists O, (length s). split; [|lia]. destruct s; cbn [regexec]; by rewrite H.
Qed.

Definition whole_match (r : re) (s : list Z) : bool :=
  match regexec r s 0 with Some (so, eo) => (eo - so =? length s)%nat | None => false end.

Lemma whole_match_matchb r s : whole_match r s = matchb r s.
Proof.
  apply eq_true_iff_eq. rewrite matchb_lang, <- regexec_full. unfold whole_match.
  destruct (regexec r s 0) as [[so eo]|].
  - rewrite Nat.eqb_eq. split; [eauto|]. by intros (? & ? & [= <- <-] & ?).
  - split; [done|]. by intros (? & ? & ? & _).
Qed.

(** ** [regcomp] *)

(** [r{m}] and [r{m,n}]. *)
Fixpoint power (r : re) (n : nat) : re :=
  match n with O => Eps | S n => Cat r (power r n) end.
Fixpoint upto (r : re) (n : nat) : re :=
  match n with O => Eps | S n => Alt Eps (Cat r (upto r n)) end.
Definition interval (r : re) (m n : nat) : re := Cat (power r m) (upto r (n - m)).

(** A decimal number. *)
Fixpoint number (acc : nat) (s : cstr) : nat * cstr :=
  match s with
  | c :: r => if is_digit c then number (10 * acc + Z.to_nat (c - 48)) r else (acc, s)
  | [] => (acc, [])
  end.

(** The items of a bracket expression up to the closing bracket. *)
Fixpoint bracket (s : cstr) (acc : list (Z * Z)) : option (list (Z * Z) * cstr) :=
  match s with
  | 93 :: r => Some (acc, r)
  | a :: 45 :: b :: r => if b =? 93 then Some ((a, a) :: (45, 45) :: acc, r) else bracket r ((a, b) :: acc)
  | a :: r => bracket r ((a, a) :: acc)
  | [] => None
  end.

Definition any_char : re := Cls [(1, 255)].
Definition white_space : re := Cls [(32, 32); (9, 13)].

(** The repetition operators that follow an atom. *)
Fixpoint quantifiers (fuel : nat) (a : re) (s : cstr) : option (re * cstr) :=
  match fuel with
  | O => None
  | S f =>
      match s with
      | 42 :: r => quantifiers f (Star a) r
      | 43 :: r => quantifiers f (Cat a (Star a)) r
      | 63 :: r => quantifiers f (Alt a Eps) r
      | 123 :: r =>
          let '(m, r) := number 0 r in
          match r with
          | 125 :: r => quantifiers f (interval a m m) r
          | 44 :: r =>
              let '(n, r) := number 0 r in
              match r with 125 :: r => quantifiers f (interval a m n) r | _ => None end
          | _ => None
          end
      | _ => Some (a, s)
      end
  end.

(** Alternatives of branches of pieces; [None] is a syntax error. *)
Fixpoint parse_alt (fuel : nat) (s : cstr) : option (re * cstr) :=
  match fuel with
  | O => None
  | S f =>
      '(b, r) ← parse_branch f s;
      match r with
      | 124 :: r => '(b', r) ← parse_alt f r; Some (Alt b b', r)
      | _ => Some (b, r)
      end
  end
with parse_branch (fuel : nat) (s : cstr) : option (re * cstr) :=
  match fuel with
  | O => None
  | S f =>
      match s with
      | [] => Some (Eps, s)
      | 41 :: _ => Some (Eps, s)
      | 124 :: _ => Some (Eps, s)
      | _ =>
          '(a, r) ← parse_atom f s;
          '(a, r) ← quantifiers f a r;
          '(b, r) ← parse_branch f r;
          Some (Cat a b, r)
      end
  end
with parse_atom (fuel : nat) (s : cstr) : option (re * cstr) :=
  match fuel with
  | O => None
  | S f =>
      match s with
      | 40 :: r =>
          '(a, r) ← parse_alt f r;
          match r with 41 :: r => Some (a, r) | _ => None end
      | 91 :: r => '(l, r) ← bracket r []; Some (Cls l, r)
      | 46 :: r => Some (any_char, r)
      | 92 :: 115 :: r => Some (white_space, r)
      | 92 :: c :: r => Some (Cls [(c, c)], r)
      | c :: r => Some (Cls [(c, c)], r)
      | [] => None
      end
  end.

(** Three calls per character are enough. *)
Definition regcomp (rule : cstr) : option re :=
  match parse_alt (4 + 3 * length rule) rule with
  | Some (r, []) => Some r
  | _ => None
  end.

(** [r{m,n}] matches between [m] and [n] matches of [r]; for a character class
    these are the strings of such length over it. *)
Lemma lang_power_cls l n s :
  lang (power (Cls l) n) s <-> length s = n /\ Forall (fun c => in_ranges l c = true) s.
Proof.
  revert s. induction n as [|n IH]; intros s; simpl.
  - rewrite lang_Eps. split; [intros ->; by split|]. intros [E _]. by apply nil_length_inv.
  - rewrite lang_Cat. split.
    + intros (t & u & -> & Ht & Hu). apply lang_Cls in Ht as (c & -> & Hc).
      apply IH in Hu as [<- Hu]. by split; [|constructor].
    + intros [E Hf]. destruct s as [|c s]; [done|]. apply Forall_cons in Hf as [Hc Hf].
      exists [c], s. split; [done|]. split; [by constructor|]. apply IH. split; [simpl in E; lia|done].
Qed.

Lemma lang_upto_cls l n s :
  lang (upto (Cls l) n) s <-> (length s <= n)%nat /\ Forall (fun c => in_ranges l c = true) s.
Proof.
  revert s. induction n as [|n IH]; intros s; simpl.
  - rewrite lang_Eps. split; [intros ->; by split|]. intros [E _]. apply nil_length_inv. lia.
  - rewrite lang_Alt, lang_Eps, lang_Cat. split.
    + intros [->|(t & u & -> & Ht & Hu)]; [split; [simpl; lia|done]|].
      apply lang_Cls in Ht as (c & -> & Hc). apply IH in Hu as [Hl Hu].
      split; [simpl; lia|by constructor].
    + intros [E Hf]. destruct s as [|c s]; [by left|]. right. apply Forall_cons in Hf as [Hc Hf].
      exists [c], s. split; [done|]. split; [by constructor|]. apply IH. split; [simpl in E; lia|done].
Qed.

Lemma lang_interval_cls l m n s : (m <= n)%nat ->
  lang (interval (Cls l) m n) s <->
    (m <= length s <= n)%nat /\ Forall (fun c => in_ranges l c = true) s.
Proof.
  intros Hmn. unfold interval. rewrite lang_Cat. split.
  - intros (t & u & -> & Ht & Hu). apply lang_power_cls in Ht as [<- Ht].
    apply lang_upto_cls in Hu as [Hl Hu]. rewrite length_app. split; [lia|by apply Forall_app].
  - intros [Hl Hf]. exists (take m s), (drop m s). rewrite take_drop.
    rewrite lang_power_cls, lang_upto_cls, length_take, length_drop.
    split; [done|]. split; [split; [lia|by apply Forall_take]|split; [lia|by apply Forall_drop]].
Qed.
