(* ===== verification/Json.v ===== *)
(** * JSON values

    The trees cJSON builds and the accessors the serializers use on them.  The
    text format itself is cJSON's: parsing and printing are the parameters of
    the class [JsonText], with the documented round trip as its law. *)

From S2P Require Import Prelude.

(** A cJSON node.  A number is kept as the integer its double represents. *)
Inductive json :=
| JNull
| JBool (b : bool)
| JNumber (n : Z)
| JString (s : cstr)
| JArray (l : list json)
| JObject (fields : list (cstr * json)).

(** [cJSON_GetObjectItemCaseSensitive]: the first child of that name. *)
Definition get_item (j : json) (name : cstr) : option json :=
  match j with
  | JObject fields => snd <$> list_find (fun f => f.1 = name) fields ≫= (fun p => Some p.2)
  | _ => None
  end.

(** [cJSON_GetObjectItem] ignores the case of names. *)
Definition tolower (c : Z) : Z := if (65 <=? c) && (c <=? 90) then c + 32 else c.

Definition get_item_ci (j : json) (name : cstr) : option json :=
  match j with
  | JObject fields =>
      snd <$> list_find (fun f => tolower <$> f.1 = tolower <$> name) fields ≫= (fun p => Some p.2)
  | _ => None
  end.

Definition has_item (j : json) (name : cstr) : bool := bool_decide (is_Some (get_item_ci j name)).

Definition is_number (j : json) : bool := match j with JNumber _ => true | _ => false end.

(** [valueint]: cJSON saturates at the bounds of [int]. *)
Definition valueint (j : json) : Z :=
  match j with JNumber n => Z.max INT_MIN (Z.min INT_MAX n) | _ => 0 end.

(** [valuestring]; NULL unless the node is a string. *)
Definition valuestring (j : json) : option cstr :=
  match j with JString s => Some s | _ => None end.

Definition array_items (j : json) : option (list json) :=
  match j with JArray l => Some l | _ => None end.

(** [cJSON_AddItemToObject] and [cJSON_AddItemToArray] append. *)
Definition add_item (j : json) (name : cstr) (v : json) : json :=
  match j with JObject fields => JObject (fields ++ [(name, v)]) | _ => j end.
Definition add_string (j : json) (name : string) (s : cstr) : json :=
  add_item j (lit name) (JString s).
Definition add_number (j : json) (name : string) (n : Z) : json :=
  add_item j (lit name) (JNumber n).
Definition add_bool (j : json) (name : string) (b : bool) : json :=
  add_item j (lit name) (JBool b).

(** Trees that survive printing: numbers a double holds exactly, strings that
    are C strings. *)
Fixpoint json_ok (j : json) : bool :=
  match j with
  | JNull | JBool _ => true
  | JNumber n => Z.abs n <=? 2 ^ 53
  | JString s => bool_decide (is_cstr s)
  | JArray l => forallb json_ok l
  | JObject fields => forallb (fun f => bool_decide (is_cstr f.1) && json_ok f.2) fields
  end.

Class JsonText := {
  cJSON_Parse : cstr -> option json;
  cJSON_PrintUnformatted : json -> cstr;
  parse_print : forall j, json_ok j = true -> cJSON_Parse (cJSON_PrintUnformatted j) = Some j
}.

Lemma get_item_here name v fields : get_item (JObject ((name, v) :: fields)) name = Some v.
Proof. simpl. by rewrite decide_True. Qed.

Lemma get_item_next name name' v fields :
  name <> name' ->
  get_item (JObject ((name', v) :: fields)) name = get_item (JObject fields) name.
Proof.
  intros Hne. simpl. rewrite decide_False by congruence.
  by destruct (list_find _ fields) as [[i [k w]]|].
Qed.

Lemma get_item_ci_here name name' v fields : tolower <$> name' = tolower <$> name ->
  get_item_ci (JObject ((name', v) :: fields)) name = Some v.
Proof. intros Hn. simpl. by rewrite decide_True. Qed.

Lemma get_item_ci_next name name' v fields : tolower <$> name' <> tolower <$> name ->
  get_item_ci (JObject ((name', v) :: fields)) name = get_item_ci (JObject fields) name.
Proof.
  intros Hne. simpl. rewrite decide_False by done.
  by destruct (list_find _ fields) as [[i [k w]]|].
Qed.

(** A member found with its exact name is found without regard to case. *)
Lemma get_item_has j name v : get_item j name = Some v -> has_item j name = true.
Proof.
  destruct j as [| | | | |fields]; try done. unfold has_item. intros H. apply bool_decide_eq_true.
  induction fields as [|[k w] fields IH]; [done|].
  destruct (decide (tolower <$> k = tolower <$> name)) as [E|E];
    [rewrite get_item_ci_here by done; by eexists|].
  rewrite get_item_ci_next by done. apply IH. rewrite get_item_next in H; [done|congruence].
Qed.

(** Find members of an object whose names are literals. *)
Ltac json_lookup :=
  repeat first
    [ rewrite get_item_here
    | rewrite get_item_next by (vm_compute; congruence)
    | rewrite get_item_ci_here by reflexivity
    | rewrite get_item_ci_next by (vm_compute; congruence) ].

(** ** A text format for evaluation *)
Module JsonModel.

Fixpoint to_tree (j : json) : gen_tree (bool + Z + list Z) :=
  match j with
  | JNull => GenNode 0 []
  | JBool b => GenNode 1 [GenLeaf (inl (inl b))]
  | JNumber n => GenNode 2 [GenLeaf (inl (inr n))]
  | JString s => GenNode 3 [GenLeaf (inr s)]
  | JArray l => GenNode 4 (to_tree <$> l)
  | JObject fs => GenNode 5 ((fun f => GenNode 6 [GenLeaf (inr f.1); to_tree f.2]) <$> fs)
  end.

Fixpoint of_tree (t : gen_tree (bool + Z + list Z)) : json :=
  match t with
  | GenNode 1 [GenLeaf (inl (inl b))] => JBool b
  | GenNode 2 [GenLeaf (inl (inr n))] => JNumber n
  | GenNode 3 [GenLeaf (inr s)] => JString s
  | GenNode 4 l => JArray (of_tree <$> l)
  | GenNode 5 l =>
      JObject ((fun t => match t with
                         | GenNode 6 [GenLeaf (inr k); v] => (k, of_tree v)
                         | _ => ([], JNull) end) <$> l)
  | _ => JNull
  end.

Fixpoint of_to_tree (j : json) : of_tree (to_tree j) = j.
Proof.
  destruct j as [|b|n|s|l|fs]; simpl; try done.
  - f_equal. induction l as [|x l IH]; simpl; [done|]. f_equal; [apply of_to_tree|exact IH].
  - f_equal. induction fs as [|[k v] fs IH]; simpl; [done|].
    f_equal; [f_equal; apply of_to_tree|exact IH].
Qed.

(** Any injective coding of trees is a text format; this one is stdpp's. *)
Definition parse (s : cstr) : option json :=
  match s with [Zpos p] => of_tree <$> decode p | _ => None end.
Definition print (j : json) : cstr := [Zpos (encode (to_tree j))].

Lemma parse_print_model j : json_ok j = true -> parse (print j) = Some j.
Proof. intros _. unfold parse, print. rewrite decode_encode. simpl. by rewrite of_to_tree. Qed.

#[export] Instance text : JsonText := {
  cJSON_Parse := parse; cJSON_PrintUnformatted := print; parse_print := parse_print_model }.

End JsonModel.
