(* ===== verification/World.v ===== *)
(** * The environment of the accelerator

    What the core calls and the sources do not contain: the IOTA client library
    (transactions, flex trits, the node API), the proof-of-work library dcurl,
    the clock, the UUID generator and the read/write lock of pthreads.  The
    operations are fields of the classes below and so parameters of every
    definition that uses them; nothing is assumed about them here.  [world] is
    the state the handlers of the core share, and [proc] the computations over
    it. *)

From S2P Require Import Prelude TaErrors Cache.

(** Flex trits and trytes, as the bytes of their C arrays. *)
Abbreviation trits := (list Z) (only parsing).
Abbreviation trytes := (list Z) (only parsing).

(** [iota_transaction_t]: the fields the sources read or set through the
    accessors of the library. *)
Record iota_transaction_t := mkTx {
  transaction_address : trits;
  transaction_value : Z;
  transaction_obsolete_tag : trits;
  transaction_timestamp : Z;
  transaction_current_index : Z;
  transaction_last_index : Z;
  transaction_bundle : trits;
  transaction_trunk : trits;
  transaction_branch : trits;
  transaction_tag : trits;
  transaction_attachment_timestamp : Z;
  transaction_attachment_timestamp_lower : Z;
  transaction_attachment_timestamp_upper : Z;
  transaction_nonce : trits;
  transaction_message : trits;
  transaction_hash : trits
}.

#[export] Instance iota_transaction_eq_dec : EqDecision iota_transaction_t.
Proof. solve_decision. Defined.

(** What [ta_pow] sets on a transaction before it asks for a nonce. *)
Definition set_attachment (tx : iota_transaction_t) (trunk branch : trits)
    (ts lower upper : Z) : iota_transaction_t :=
  mkTx (transaction_address tx) (transaction_value tx) (transaction_obsolete_tag tx)
    (transaction_timestamp tx) (transaction_current_index tx) (transaction_last_index tx)
    (transaction_bundle tx) trunk branch (transaction_tag tx) ts lower upper
    (transaction_nonce tx) (transaction_message tx) (transaction_hash tx).

Definition transaction_set_nonce (tx : iota_transaction_t) (nonce : trits) : iota_transaction_t :=
  mkTx (transaction_address tx) (transaction_value tx) (transaction_obsolete_tag tx)
    (transaction_timestamp tx) (transaction_current_index tx) (transaction_last_index tx)
    (transaction_bundle tx) (transaction_trunk tx) (transaction_branch tx) (transaction_tag tx)
    (transaction_attachment_timestamp tx) (transaction_attachment_timestamp_lower tx)
    (transaction_attachment_timestamp_upper tx) nonce (transaction_message tx) (transaction_hash tx).

(** Sizes fixed by the IOTA protocol. *)
Definition NUM_TRYTES_SERIALIZED_TRANSACTION : Z := 2673.
Definition NUM_TRITS_SERIALIZED_TRANSACTION : Z := 8019.
Definition NUM_TRYTES_NONCE : Z := 27.
Definition NUM_TRYTES_ADDRESS : Z := 81.
Definition NUM_TRYTES_BUNDLE : Z := 81.
Definition NUM_TRYTES_MESSAGE : Z := 2187.
Definition NUM_TRYTES_SIGNATURE : Z := 2187.

(** The client library.  [FLEX_TRIT_SIZE_8019] is the number of bytes of a
    serialized transaction, which depends on the trit encoding it was built
    with. *)
Class IotaLib := {
  FLEX_TRIT_SIZE_8019 : nat;
  transaction_serialize : iota_transaction_t -> option trits;
  transaction_serialize_on_flex_trits : iota_transaction_t -> Z * trits;
  transaction_deserialize : trits -> bool -> option iota_transaction_t;
  iota_flex_digest : trits -> trits;
  (* the number of trits converted (0 on failure) and the [n] trytes *)
  flex_trits_to_trytes : nat -> trits -> Z * trytes;
  flex_trits_from_trytes : nat -> trytes -> trits;
  (* two trytes per character *)
  ascii_to_trytes : cstr -> trytes;
  (* the trunk and branch of a response object nobody has filled *)
  fresh_tips : trits * trits;
  bundle_finalize : list iota_transaction_t -> list iota_transaction_t;
  transaction_deserialize_from_trits : trits -> bool -> iota_transaction_t;
  flex_trits_are_null : trits -> bool;
  dcurl_entry : trytes -> Z -> option trytes
}.

(** Where the client talks to: [service->http.host], [port] and [ca_pem]. *)
Record iota_client_service_t := mkService {
  http_host : cstr; http_port : Z; http_ca_pem : cstr }.

(** The size of [service->http.host] in the client library; the sources write
    at most [HOST_MAX_LEN - 1] characters of it. *)
Definition HOST_MAX_LEN : nat := 128.

(** [find_transactions_req_t]: the queries of a find request. *)
Record find_transactions_req_t := mkFindReq {
  find_bundles : list trits; find_addresses : list trits;
  find_tags : list trits; find_approvees : list trits }.

(** [transfer_t], as [ta_send_transfer] fills it. *)
Record transfer_t := mkTransfer {
  transfer_address : trits; transfer_tag : trits; transfer_value : Z;
  transfer_timestamp : Z; transfer_message : trytes }.

(** The node, reached through the service; [None] is any return code other
    than [RC_OK].  [net] is whatever the requests change. *)
Class IotaNode (net : Type) := {
  iota_client_get_transactions_to_approve :
    iota_client_service_t -> net -> Z -> option (trits * trits) * net;
  iota_client_store_and_broadcast : iota_client_service_t -> net -> list trits -> bool * net;
  iota_client_find_transactions :
    iota_client_service_t -> net -> find_transactions_req_t -> option (list trits) * net;
  iota_client_get_trytes : iota_client_service_t -> net -> list trits -> option (list trits) * net;
  iota_client_get_transaction_objects :
    iota_client_service_t -> net -> list trits -> option (list iota_transaction_t) * net;
  iota_client_prepare_transfers :
    iota_client_service_t -> net -> trits -> Z -> list transfer_t -> Z ->
    option (list iota_transaction_t) * net;
  iota_service_query : iota_client_service_t -> net -> cstr -> option cstr * net
}.

(** Clock and UUID generator ([uuid_generate_random] with [uuid_unparse]). *)
Class Os (os : Type) := {
  current_timestamp_ms : os -> Z * os;
  uuid_random : os -> cstr * os
}.

Definition UUID_STR_LEN : Z := 37.

(** ** The read/write lock

    [pthread_rwlock_t] as seen by the calls on it: they return 0 on success.
    Unlocking a free lock is undefined. *)
Inductive rwlock := Unlocked | ReadLocked (n : nat) | WriteLocked.

#[export] Instance rwlock_eq_dec : EqDecision rwlock.
Proof. solve_decision. Defined.

Definition tryrdlock (l : rwlock) : option rwlock :=
  match l with
  | Unlocked => Some (ReadLocked 1)
  | ReadLocked n => Some (ReadLocked (S n))
  | WriteLocked => None
  end.

Definition trywrlock (l : rwlock) : option rwlock :=
  match l with Unlocked => Some WriteLocked | _ => None end.

Definition rwlock_unlock (l : rwlock) : option rwlock :=
  match l with
  | Unlocked => None
  | ReadLocked (S (S n)) => Some (ReadLocked (S n))
  | ReadLocked _ => Some Unlocked
  | WriteLocked => Some Unlocked
  end.

(** ** The shared state *)
Record world (net os db : Type) := mkWorld {
  w_net : net; w_os : os; w_cache : Backend.env db; w_lock : rwlock }.
Arguments mkWorld {net os db} w_net w_os w_cache w_lock.
Arguments w_net {net os db} w.
Arguments w_os {net os db} w.
Arguments w_cache {net os db} w.
Arguments w_lock {net os db} w.

Section Proc.
Context {net os db : Type}.

Definition proc := comp (world net os db).

(** A call on the node, on the clock or generator, on the cache. *)
Definition on_net {A} (f : net -> A * net) : proc A :=
  fun w => let '(a, n) := f (w_net w) in
           Some (a, mkWorld n (w_os w) (w_cache w) (w_lock w)).

Definition on_os {A} (f : os -> A * os) : proc A :=
  fun w => let '(a, o) := f (w_os w) in
           Some (a, mkWorld (w_net w) o (w_cache w) (w_lock w)).

Definition on_cache {A} (m : comp (Backend.env db) A) : proc A :=
  fun w => match m (w_cache w) with
           | Some (a, c) => Some (a, mkWorld (w_net w) (w_os w) c (w_lock w))
           | None => None
           end.

(** [true] when the lock could not be taken, as the C condition has it. *)
Definition lock_fails (f : rwlock -> option rwlock) : proc bool :=
  fun w => match f (w_lock w) with
           | Some l => Some (false, mkWorld (w_net w) (w_os w) (w_cache w) l)
           | None => Some (true, w)
           end.

Definition unlock : proc unit :=
  fun w => match rwlock_unlock (w_lock w) with
           | Some l => Some (tt, mkWorld (w_net w) (w_os w) (w_cache w) l)
           | None => None
           end.

Definition set_cache (w : world net os db) (c : Backend.env db) : world net os db :=
  mkWorld (w_net w) (w_os w) c (w_lock w).
Definition set_lock (w : world net os db) (l : rwlock) : world net os db :=
  mkWorld (w_net w) (w_os w) (w_cache w) l.

Lemma on_cache_run {A} (m : comp (Backend.env db) A) w a c :
  m (w_cache w) = Some (a, c) -> on_cache m w = Some (a, set_cache w c).
Proof. unfold on_cache. by intros ->. Qed.

(** *** Computations that leave the cache alone

    [cache_free m]: what [m] does depends only on the node and the system, and
    cache and lock are the same afterwards.  [total m]: no undefined behaviour. *)
Definition keep_cache {A} (c : Backend.env db) (l : rwlock) (r : A * world net os db) :=
  (r.1, mkWorld (w_net r.2) (w_os r.2) c l).

Definition cache_free {A} (m : proc A) : Prop := forall n o c l c' l',
  m (mkWorld n o c' l') = keep_cache c' l' <$> m (mkWorld n o c l).

Definition total {A} (m : proc A) : Prop := forall w, is_Some (m w).

Lemma cache_free_same {A} (m : proc A) w a w' :
  cache_free m -> m w = Some (a, w') -> w_cache w' = w_cache w /\ w_lock w' = w_lock w.
Proof.
  intros Hm Hr. destruct w as [n o c l]. specialize (Hm n o c l c l). rewrite Hr in Hm.
  by injection Hm as ->.
Qed.

Lemma cache_free_transport {A} (m : proc A) w a w' w2 :
  cache_free m -> m w = Some (a, w') -> w_net w2 = w_net w -> w_os w2 = w_os w ->
  m w2 = Some (a, mkWorld (w_net w') (w_os w') (w_cache w2) (w_lock w2)).
Proof.
  intros Hm Hr Hn Ho. destruct w as [n o c l], w2 as [n2 o2 c2 l2]. simpl in *. subst.
  by rewrite (Hm n o c l), Hr.
Qed.

Lemma cache_free_ret {A} (a : A) : cache_free (mret a).
Proof. by intros n o c l c' l'. Qed.

Lemma cache_free_bind {A B} (m : proc A) (k : A -> proc B) :
  cache_free m -> (forall a, cache_free (k a)) -> cache_free (m ≫= k).
Proof.
  intros Hm Hk n o c l c' l'. unfold mbind, comp_mbind. rewrite (Hm n o c l c' l').
  destruct (m (mkWorld n o c l)) as [[a w1]|] eqn:E; [|done]. simpl.
  destruct (cache_free_same _ _ _ _ Hm E) as [E1 E2]. destruct w1 as [n1 o1 c1 l1].
  simpl in *. subst. apply Hk.
Qed.

Lemma cache_free_on_net {A} (f : net -> A * net) : cache_free (on_net f).
Proof. intros n o c l c' l'. unfold on_net. simpl. by destruct (f n). Qed.

Lemma cache_free_on_os {A} (f : os -> A * os) : cache_free (on_os f).
Proof. intros n o c l c' l'. unfold on_os. simpl. by destruct (f o). Qed.

Lemma total_ret {A} (a : A) : total (mret a).
Proof. intros w. by eexists. Qed.

Lemma total_bind {A B} (m : proc A) (k : A -> proc B) :
  total m -> (forall a, total (k a)) -> total (m ≫= k).
Proof.
  intros Hm Hk w. destruct (Hm w) as [[a w1] E]. unfold mbind, comp_mbind. rewrite E. apply Hk.
Qed.

Lemma total_on_net {A} (f : net -> A * net) : total (on_net f).
Proof. intros w. unfold on_net. destruct (f (w_net w)). by eexists. Qed.

Lemma total_on_os {A} (f : os -> A * os) : total (on_os f).
Proof. intros w. unfold on_os. destruct (f (w_os w)). by eexists. Qed.

End Proc.

#[export] Hint Resolve cache_free_ret cache_free_on_net cache_free_on_os
  total_ret total_on_net total_on_os : ta.

(** Split a computation along its binds and tests. *)
Ltac proc_frame :=
  repeat first
    [ progress auto with ta
    | apply cache_free_bind; [|intros ?]
    | apply total_bind; [|intros ?]
    | case_match ].

(** ** A small world for evaluation

    Three-byte transactions, a node that keeps what it is sent while it is up,
    and a counter for clock and UUIDs. *)
Module ToyWorld.

Definition toy_tx (i l : Z) (hash : trits) : iota_transaction_t :=
  mkTx [65] 0 [66] 0 i l [67] [68] [69] [70] 0 0 0 [71] [72] hash.

Definition digest (t : trits) : trits := 77 :: t.

Definition serialize (tx : iota_transaction_t) : trits :=
  [transaction_current_index tx + 65; transaction_last_index tx + 65; 66].

Definition deserialize (t : trits) (hash : bool) : option iota_transaction_t :=
  match t with
  | a :: b :: _ :: _ => Some (toy_tx (a - 65) (b - 65) (if hash then digest (take 3 t) else []))
  | _ => None
  end.

#[export] Instance lib : IotaLib := {
  FLEX_TRIT_SIZE_8019 := 3;
  transaction_serialize tx := Some (serialize tx);
  transaction_serialize_on_flex_trits tx := (NUM_TRITS_SERIALIZED_TRANSACTION, serialize tx);
  transaction_deserialize := deserialize;
  iota_flex_digest := digest;
  flex_trits_to_trytes n t := (Z.of_nat (3 * length t), filter (fun c => c <> 0) (take n t));
  flex_trits_from_trytes n s := take n s;
  ascii_to_trytes s := s ≫= (fun c => [65 + c mod 26; 65 + c / 26]);
  fresh_tips := ([48], [48]);
  bundle_finalize b := b;
  transaction_deserialize_from_trits t h := default (toy_tx 0 0 []) (deserialize t h);
  flex_trits_are_null t := forallb (Z.eqb 57) t;
  dcurl_entry t _ := Some (t ++ replicate (Z.to_nat NUM_TRYTES_SERIALIZED_TRANSACTION) 57)
}.

Record toy_net := mkNet { up : bool; stored : list trits; info : cstr }.

Definition lookup_txn (n : toy_net) (h : trits) : option trits :=
  snd <$> list_find (fun t => digest t = h) (stored n).

(** An answer is a few well-formed transactions, or an error. *)
Definition answer (l : list trits) : option (list trits) :=
  match take 8 (filter (fun t => length t = 3%nat /\ 0 ∉ t) l) with [] => None | l => Some l end.

#[export] Instance node : IotaNode toy_net := {
  iota_client_get_transactions_to_approve _ n _ := (if up n then Some ([84], [85]) else None, n);
  iota_client_store_and_broadcast _ n l :=
    if up n then (true, mkNet (up n) (stored n ++ l) (info n)) else (false, n);
  iota_client_find_transactions _ n _ := (if up n then Some (digest <$> stored n) else None, n);
  iota_client_get_trytes _ n hs := (if up n then answer (omap (lookup_txn n) hs) else None, n);
  iota_client_get_transaction_objects _ n hs :=
    (if up n then Some (omap (fun h => lookup_txn n h ≫= fun t => deserialize t true) hs) else None, n);
  iota_client_prepare_transfers _ n _ _ _ _ := (Some [toy_tx 0 1 []; toy_tx 1 1 []], n);
  iota_service_query _ n _ := (if up n then Some (info n) else None, n)
}.

Definition uuid_of (o : Z) : cstr := replicate 35 48 ++ [48 + o].

#[export] Instance toy_os : Os Z := {
  current_timestamp_ms o := (1000 * o, o + 1);
  uuid_random o := (uuid_of o, o + 1)
}.

Definition toy_world (up : bool) : world toy_net Z (gmap (list Z) rvalue) :=
  mkWorld (mkNet up [] []) 0 RedisModel.empty Unlocked.

End ToyWorld.
