(* ===== verification/Pow.v ===== *)
(** * Proof of work ([accelerator/core/pow.c])

    [ta_pow_flex] asks dcurl for a nonce; [ta_pow] attaches a bundle from its
    last transaction to its first, chaining the trunks.  The state is the
    bundle, which the C function updates in place. *)

From S2P Require Import Prelude TaErrors Cache World.

Section Pow.
Context {net os db : Type} `{!IotaLib} `{!Os os}.
Abbreviation proc := (@proc net os db).

Definition ta_pow_flex (trits_in : trits) (mwm : Z) : option trits :=
  let trytes_in :=
    (flex_trits_to_trytes (Z.to_nat NUM_TRYTES_SERIALIZED_TRANSACTION) trits_in).2 in
  match dcurl_entry trytes_in mwm with
  | None => None
  | Some ret_trytes =>
      let nonce_trytes := take (Z.to_nat NUM_TRYTES_NONCE)
        (drop (Z.to_nat (NUM_TRYTES_SERIALIZED_TRANSACTION - NUM_TRYTES_NONCE)) ret_trytes) in
      Some (flex_trits_from_trytes (Z.to_nat NUM_TRYTES_NONCE) nonce_trytes)
  end.

(** The constant of [transaction_set_attachment_timestamp_upper]. *)
Definition ATTACHMENT_UPPER : Z := 3812798742493.

(** The [do ... while] loop.  [todo] holds the transactions from the current
    one backwards, [done] those already attached, in bundle order. *)
Fixpoint ta_pow_loop (todo : list iota_transaction_t) (attached : list iota_transaction_t)
    (cur_idx : Z) (ctrunk branch : trits) (mwm : Z) : proc (status_t * list iota_transaction_t) :=
  match todo with
  | [] => mret (SC_OK, attached)
  | tx :: rest =>
      let cur_idx := u64 (cur_idx - 1) in
      ts ← on_os current_timestamp_ms;
      let tx := set_attachment tx ctrunk branch ts 0 ATTACHMENT_UPPER in
      let '(offset, tx_trits) := transaction_serialize_on_flex_trits tx in
      if negb (offset =? NUM_TRITS_SERIALIZED_TRANSACTION)
      then mret (SC_CCLIENT_INVALID_FLEX_TRITS, rev rest ++ tx :: attached) else
      match ta_pow_flex tx_trits mwm with
      | None => mret (SC_OOM, rev rest ++ tx :: attached)
      | Some nonce =>
          let tx := transaction_set_nonce tx nonce in
          let ctrunk := iota_flex_digest (transaction_serialize_on_flex_trits tx).2 in
          if negb (cur_idx =? 0)
          then ta_pow_loop rest (tx :: attached) cur_idx ctrunk branch mwm
          else mret (SC_OK, rev rest ++ tx :: attached)
      end
  end.

(** [ta_pow]; the result is the status and the bundle afterwards. *)
Definition ta_pow (bundle : list iota_transaction_t) (trunk branch : trits) (mwm : Z)
  : proc (status_t * list iota_transaction_t) :=
  match last bundle with
  | None => mret (SC_NULL, bundle)
  | Some tx =>
      ta_pow_loop (rev bundle) [] (u64 (transaction_last_index tx + 1)) trunk branch mwm
  end.

(** ** The attached bundle *)

(** [chained trunk branch bundle]: the last transaction approves [trunk], every
    other one approves the digest of its successor, and all have [branch]. *)
Fixpoint chained (trunk branch : trits) (bundle : list iota_transaction_t) : Prop :=
  match bundle with
  | [] => True
  | tx :: rest =>
      transaction_trunk tx =
        match rest with
        | [] => trunk
        | next :: _ => iota_flex_digest (transaction_serialize_on_flex_trits next).2
        end /\
      transaction_branch tx = branch /\ chained trunk branch rest
  end.

(** The nonce was computed by dcurl for the rest of the transaction. *)
Definition mined (mwm : Z) (tx : iota_transaction_t) : Prop :=
  exists old nonce, tx = transaction_set_nonce old nonce /\
    ta_pow_flex (transaction_serialize_on_flex_trits old).2 mwm = Some nonce.

(** What attaching may not change. *)
Definition essence (tx : iota_transaction_t) :=
  (transaction_address tx, transaction_value tx, transaction_obsolete_tag tx,
   transaction_timestamp tx, transaction_current_index tx, transaction_last_index tx,
   transaction_bundle tx, transaction_tag tx, transaction_message tx).

(** The trunk the next transaction towards the front will get. *)
Definition next_trunk (trunk : trits) (attached : list iota_transaction_t) : trits :=
  match attached with
  | [] => trunk
  | tx :: _ => iota_flex_digest (transaction_serialize_on_flex_trits tx).2
  end.

Lemma ta_pow_loop_ok trunk branch mwm todo : forall attached (w w' : world net os db) out,
  Z.of_nat (length todo) < 2 ^ 64 ->
  chained trunk branch attached -> Forall (mined mwm) attached ->
  ta_pow_loop todo attached (Z.of_nat (length todo)) (next_trunk trunk attached) branch mwm w =
    Some ((SC_OK, out), w') ->
  chained trunk branch out /\ Forall (mined mwm) out /\
  essence <$> out = (essence <$> rev todo) ++ (essence <$> attached).
Proof.
  induction todo as [|tx rest IH]; intros attached w w' out Hlen Hc Hm.
  { intros [= -> _]. done. }
  cbn [ta_pow_loop]. unfold mbind, comp_mbind.
  destruct (on_os current_timestamp_ms w) as [[ts w1]|]; [|done].
  set (tx1 := set_attachment tx _ _ _ _ _).
  destruct (transaction_serialize_on_flex_trits tx1) as [offset tt1] eqn:Eser.
  destruct (negb (offset =? NUM_TRITS_SERIALIZED_TRANSACTION)); [by intros [=]|].
  destruct (ta_pow_flex tt1 mwm) as [nonce|] eqn:Epow; [|by intros [=]].
  set (tx2 := transaction_set_nonce tx1 nonce).
  assert (chained trunk branch (tx2 :: attached)) as Hc2.
  { simpl. split; [|by split]. subst tx2 tx1. simpl. by destruct attached. }
  assert (Forall (mined mwm) (tx2 :: attached)) as Hm2.
  { constructor; [|done]. exists tx1, nonce. split; [done|]. by rewrite Eser. }
  assert (essence tx2 = essence tx) as He by done.
  cbn [length]. rewrite (uwrap_small 64) by (cbn [length] in Hlen; lia).
  replace (Z.of_nat (S (length rest)) - 1) with (Z.of_nat (length rest)) by lia.
  destruct (Z.eqb_spec (Z.of_nat (length rest)) 0) as [E|E]; cbn [negb].
  - intros [= <- _]. destruct rest; [|simpl in E; lia]. simpl rev. simpl app.
    split; [done|]. split; [done|]. cbn [fmap list_fmap app]. by rewrite He.
  - intros Hrun. cbn [length] in Hlen.
    destruct (IH (tx2 :: attached) w1 w' out ltac:(lia) Hc2 Hm2 Hrun) as (H1 & H2 & H3).
    split; [done|]. split; [done|]. rewrite H3. simpl rev.
    rewrite fmap_app, <- app_assoc. cbn [fmap list_fmap app]. by rewrite He.
Qed.

(** C19 When [ta_pow] succeeds on a bundle whose last index matches its length,
    every transaction has been attached: the last approves the given trunk,
    every other approves the digest of the one after it, all carry the given
    branch and a nonce dcurl computed for them, and nothing else about the
    transactions has changed. *)
Theorem ta_pow_chains bundle trunk branch mwm (w w' : world net os db) out tl :
  last bundle = Some tl -> transaction_last_index tl + 1 = Z.of_nat (length bundle) ->
  Z.of_nat (length bundle) < 2 ^ 64 ->
  ta_pow bundle trunk branch mwm w = Some ((SC_OK, out), w') ->
  chained trunk branch out /\ Forall (mined mwm) out /\ essence <$> out = essence <$> bundle.
Proof.
  intros Hl Hi Hlen. unfold ta_pow. rewrite Hl, Hi, (uwrap_small 64) by lia. intros Hrun.
  destruct (ta_pow_loop_ok trunk branch mwm (rev bundle) [] w w' out) as (H1 & H2 & H3).
  - by rewrite length_rev.
  - done.
  - constructor.
  - by rewrite length_rev.
  - split; [done|]. split; [done|]. rewrite H3, rev_involutive. cbn [fmap list_fmap].
    by rewrite app_nil_r.
Qed.

(** [ta_pow] does succeed when every transaction serializes to its full length
    and dcurl answers. *)
Lemma ta_pow_loop_total branch mwm :
  (forall tx, (transaction_serialize_on_flex_trits tx).1 = NUM_TRITS_SERIALIZED_TRANSACTION) ->
  (forall t, is_Some (dcurl_entry t mwm)) ->
  forall todo attached cur_idx ctrunk (w : world net os db),
  exists out w', ta_pow_loop todo attached cur_idx ctrunk branch mwm w = Some ((SC_OK, out), w').
Proof.
  intros Hser Hd. induction todo as [|tx rest IH]; intros attached cur_idx ctrunk w.
  { by exists attached, w. }
  cbn [ta_pow_loop]. unfold mbind, comp_mbind, on_os.
  destruct (current_timestamp_ms (w_os w)) as [ts o].
  specialize (Hser (set_attachment tx ctrunk branch ts 0 ATTACHMENT_UPPER)).
  destruct (transaction_serialize_on_flex_trits _) as [offset tt1]. simpl in Hser. rewrite Hser.
  rewrite Z.eqb_refl. cbn [negb]. unfold ta_pow_flex.
  destruct (Hd (flex_trits_to_trytes (Z.to_nat NUM_TRYTES_SERIALIZED_TRANSACTION) tt1).2) as [r ->].
  destruct (negb _); [apply IH|]. by eexists _, _.
Qed.

(** [ta_pow] fails only for a reason: with full-length serializations and an
    answering dcurl it returns [SC_OK] on every non-empty bundle, and it reports
    [SC_NULL] on the empty one. *)
Theorem ta_pow_total bundle trunk branch mwm (w : world net os db) :
  (forall tx, (transaction_serialize_on_flex_trits tx).1 = NUM_TRITS_SERIALIZED_TRANSACTION) ->
  (forall t, is_Some (dcurl_entry t mwm)) ->
  exists out w', ta_pow bundle trunk branch mwm w =
    Some ((if decide (bundle = []) then SC_NULL else SC_OK, out), w').
Proof.
  intros Hser Hd. unfold ta_pow.
  destruct (last bundle) as [tl|] eqn:El.
  - rewrite decide_False by (intros ->; done). by apply ta_pow_loop_total.
  - apply last_None in El as ->. by exists [], w.
Qed.

(** *** What [ta_pow] touches *)

Lemma ta_pow_frame bundle trunk branch mwm :
  cache_free (ta_pow bundle trunk branch mwm) /\ total (ta_pow bundle trunk branch mwm).
Proof.
  assert (forall todo attached idx ctrunk,
    cache_free (ta_pow_loop todo attached idx ctrunk branch mwm) /\
    total (ta_pow_loop todo attached idx ctrunk branch mwm)) as Hloop.
  { induction todo as [|tx rest IH]; intros attached idx ctrunk; cbn [ta_pow_loop].
    - split; proc_frame.
    - split; proc_frame; apply IH. }
  unfold ta_pow. split; case_match; proc_frame; apply Hloop.
Qed.

Lemma ta_pow_length bundle trunk branch mwm w ret out w' :
  ta_pow bundle trunk branch mwm w = Some ((ret, out), w') -> length out = length bundle.
Proof.
  assert (forall todo attached idx ctrunk w,
    ta_pow_loop todo attached idx ctrunk branch mwm w = Some ((ret, out), w') ->
    length out = (length todo + length attached)%nat) as Hloop.
  { induction todo as [|tx rest IH]; intros attached idx ctrunk w0; cbn [ta_pow_loop].
    { by intros [= <- <- <-]. }
    intros Hr. apply comp_bind_Some in Hr as (ts & w1 & _ & Hr).
    repeat case_match; try (injection Hr as <- <- <-; rewrite length_app, length_rev; simpl; lia).
    apply IH in Hr. simpl in *. lia. }
  unfold ta_pow. case_match; [|by intros [= <- <- <-]].
  intros Hr. apply Hloop in Hr. by rewrite length_rev, Nat.add_0_r in Hr.
Qed.

End Pow.

(** ** Witnesses *)
Module PowWitness.
Import ToyWorld.

Definition two : list iota_transaction_t := [toy_tx 0 1 []; toy_tx 1 1 []].

Lemma ta_pow_chains_witness : exists out w',
  ta_pow two [84] [85] 14 (toy_world true) = Some ((SC_OK, out), w') /\
  chained [84] [85] out.
Proof.
  eexists _, _. split; [vm_compute; reflexivity|].
  apply (ta_pow_chains two [84] [85] 14 (toy_world true) _ _ (toy_tx 1 1 [])
    eq_refl eq_refl ltac:(done) ltac:(vm_compute; reflexivity)).
Defined.

Lemma ta_pow_total_witness : exists out w',
  ta_pow two [84] [85] 14 (toy_world true) = Some ((SC_OK, out), w').
Proof.
  destruct (ta_pow_total two [84] [85] 14 (toy_world true)) as (out & w' & H);
    [done|intros t; by eexists|]. exists out, w'. exact H.
Defined.

End PowWitness.
