(* ===== verification/Config.v ===== *)
(** * Configuration ([accelerator/config.h], [config.c], [cli_info.h])

    The structures [ta_config_t], [iota_config_t], [ta_cache_t] and
    [ta_core_t], the table of command line options, and the functions that fill
    them: defaults, one option ([cli_core_set]), a configuration file and the
    command line.  The default build is modelled, in which neither
    [MQTT_ENABLE] nor [DB_ENABLE] is defined.

    [getopt_long] and the YAML scanner are not part of the sources; the
    functions below take the sequence of their results.  For the comparison of
    file and command line, what [getopt_long] gives for long options is defined
    with the properties.  [errno] is state: the
    code tests it after [strtol] without clearing it. *)

From S2P Require Import Prelude TaErrors Cache World.

(** ** Option keys ([ta_cli_arg_value_t]) *)
Definition TA_HOST_CLI : Z := 127.
Definition TA_PORT_CLI : Z := 128.
Definition RUNTIME_CLI : Z := 129.
Definition NODE_HOST_CLI : Z := 130.
Definition NODE_PORT_CLI : Z := 131.
Definition NODE_ADDRESS_CLI : Z := 132.
Definition MQTT_HOST_CLI : Z := 133.
Definition MQTT_ROOT_CLI : Z := 134.
Definition REDIS_HOST_CLI : Z := 135.
Definition REDIS_PORT_CLI : Z := 136.
Definition DB_HOST_CLI : Z := 137.
Definition MILESTONE_DEPTH_CLI : Z := 138.
Definition MWM_CLI : Z := 139.
Definition SEED_CLI : Z := 140.
Definition CACHE : Z := 141.
Definition CONF_CLI : Z := 142.
Definition PROXY_API : Z := 143.
(** The enumerator; [config.h], which includes [cli_info.h] first, then defines
    a macro of the same name. *)
Definition HEALTH_TRACK_PERIOD_enum : Z := 144.
Definition NO_GTTA : Z := 145.
Definition BUFFER_LIST : Z := 146.
Definition COMPLETE_LIST : Z := 147.
Definition HTTP_THREADS_CLI : Z := 148.
Definition CACHE_CAPACITY : Z := 149.
Definition IPC : Z := 150.
Definition QUIET : Z := 151.
Definition CA_PEM : Z := 152.

(** ** Constants of [config.h] *)
Definition TA_VERSION : cstr := lit "tangle-accelerator/0.9.7".
Definition TA_HOST : cstr := lit "localhost".
Definition TA_PORT : Z := 8000.
Definition SEED : cstr :=
  lit "AMRWQP9BUMJALJHBXUCHOD9HFFD9LGTGEAWMJWWXSDVOF9PI9YGJAPBQLQUOMNYEQCZPGCTHGVNNAPGHA".
Definition NODE_HOST : cstr := lit "localhost".
Definition NODE_PORT : Z := 443.
Definition MAX_NODE_LIST_ELEMENTS : nat := 5.
Definition MILESTONE_DEPTH : Z := 3.
Definition MWM : Z := 14.
Definition REDIS_HOST : cstr := lit "localhost".
Definition REDIS_PORT : Z := 6379.
Definition DEFAULT_HTTP_TPOOL_SIZE : Z := 4.
Definition BUFFER_LIST_NAME : cstr := lit "txn_buff_list".
Definition COMPLETE_LIST_NAME : cstr := lit "complete_txn_buff_list".
Definition MAM_BUFFER_LIST_NAME : cstr := lit "mam_buff_list".
Definition MAM_COMPLETE_LIST_NAME : cstr := lit "complete_mam_buff_list".
Definition CACHE_MAX_CAPACITY : Z := 170 * 1024 * 1024.
(** The macro, which is what [config.c] sees under this name. *)
Definition HEALTH_TRACK_PERIOD : Z := 1800.
Definition RESULT_SET_LIMIT : Z := 100.
Definition FILE_PATH_SIZE : Z := 128.
Definition DOMAIN_SOCKET : cstr := lit "/tmp/tangle-accelerator-socket".

Definition CLI_PROXY_PASSTHROUGH : Z := Z.shiftl 1 0.
Definition CLI_GTTA : Z := Z.shiftl 1 1.
Definition CLI_RUNTIME_CLI : Z := Z.shiftl 1 2.
Definition CLI_QUIET_MODE : Z := Z.shiftl 1 3.

(** ** The structures *)
Record ta_config_t := mkTaConf {
  ta_version : cstr; ta_host : cstr; ta_port : Z;
  iota_host_list : list (option cstr); iota_port_list : list Z;
  health_track_period : Z; http_tpool_size : Z; cli_options : Z; socket : cstr }.

Record iota_config_t := mkIotaConf {
  milestone_depth : Z; mwm : Z; seed : cstr; mam_file_path : cstr }.

Record ta_cache_t := mkCacheConf {
  cache_host : cstr; cache_timeout : Z;
  buffer_list_name : cstr; complete_list_name : cstr;
  mam_buffer_list_name : cstr; mam_complete_list_name : cstr;
  cache_port : Z; cache_state : bool; cache_capacity : Z }.

Record ta_core_t := mkCore {
  ta_conf : ta_config_t; cache : ta_cache_t; iota_conf : iota_config_t;
  iota_service : iota_client_service_t; conf_file : cstr }.

Definition is_option_enabled (c : ta_config_t) (option : Z) : bool :=
  negb (Z.land (cli_options c) option =? 0).

(** Field updates. *)
Definition with_ta_conf (f : ta_config_t -> ta_config_t) (c : ta_core_t) : ta_core_t :=
  mkCore (f (ta_conf c)) (cache c) (iota_conf c) (iota_service c) (conf_file c).
Definition with_cache (f : ta_cache_t -> ta_cache_t) (c : ta_core_t) : ta_core_t :=
  mkCore (ta_conf c) (f (cache c)) (iota_conf c) (iota_service c) (conf_file c).
Definition with_iota_conf (f : iota_config_t -> iota_config_t) (c : ta_core_t) : ta_core_t :=
  mkCore (ta_conf c) (cache c) (f (iota_conf c)) (iota_service c) (conf_file c).
Definition with_service (f : iota_client_service_t -> iota_client_service_t) (c : ta_core_t)
  : ta_core_t :=
  mkCore (ta_conf c) (cache c) (iota_conf c) (f (iota_service c)) (conf_file c).
Definition with_conf_file (s : cstr) (c : ta_core_t) : ta_core_t :=
  mkCore (ta_conf c) (cache c) (iota_conf c) (iota_service c) s.

Definition set_ta_host v c := mkTaConf (ta_version c) v (ta_port c) (iota_host_list c)
  (iota_port_list c) (health_track_period c) (http_tpool_size c) (cli_options c) (socket c).
Definition set_ta_port v c := mkTaConf (ta_version c) (ta_host c) v (iota_host_list c)
  (iota_port_list c) (health_track_period c) (http_tpool_size c) (cli_options c) (socket c).
Definition set_host_list v c := mkTaConf (ta_version c) (ta_host c) (ta_port c) v
  (iota_port_list c) (health_track_period c) (http_tpool_size c) (cli_options c) (socket c).
Definition set_port_list v c := mkTaConf (ta_version c) (ta_host c) (ta_port c) (iota_host_list c)
  v (health_track_period c) (http_tpool_size c) (cli_options c) (socket c).
Definition set_period v c := mkTaConf (ta_version c) (ta_host c) (ta_port c) (iota_host_list c)
  (iota_port_list c) v (http_tpool_size c) (cli_options c) (socket c).
Definition set_tpool v c := mkTaConf (ta_version c) (ta_host c) (ta_port c) (iota_host_list c)
  (iota_port_list c) (health_track_period c) v (cli_options c) (socket c).
Definition set_options v c := mkTaConf (ta_version c) (ta_host c) (ta_port c) (iota_host_list c)
  (iota_port_list c) (health_track_period c) (http_tpool_size c) v (socket c).
Definition set_socket v c := mkTaConf (ta_version c) (ta_host c) (ta_port c) (iota_host_list c)
  (iota_port_list c) (health_track_period c) (http_tpool_size c) (cli_options c) v.

Definition set_depth v c := mkIotaConf v (mwm c) (seed c) (mam_file_path c).
Definition set_mwm v c := mkIotaConf (milestone_depth c) v (seed c) (mam_file_path c).
Definition set_seed v c := mkIotaConf (milestone_depth c) (mwm c) v (mam_file_path c).

Definition set_cache_host v c := mkCacheConf v (cache_timeout c) (buffer_list_name c)
  (complete_list_name c) (mam_buffer_list_name c) (mam_complete_list_name c) (cache_port c)
  (cache_state c) (cache_capacity c).
Definition set_buffer_list v c := mkCacheConf (cache_host c) (cache_timeout c) v
  (complete_list_name c) (mam_buffer_list_name c) (mam_complete_list_name c) (cache_port c)
  (cache_state c) (cache_capacity c).
Definition set_complete_list v c := mkCacheConf (cache_host c) (cache_timeout c)
  (buffer_list_name c) v (mam_buffer_list_name c) (mam_complete_list_name c) (cache_port c)
  (cache_state c) (cache_capacity c).
Definition set_cache_port v c := mkCacheConf (cache_host c) (cache_timeout c)
  (buffer_list_name c) (complete_list_name c) (mam_buffer_list_name c)
  (mam_complete_list_name c) v (cache_state c) (cache_capacity c).
Definition set_cache_state v c := mkCacheConf (cache_host c) (cache_timeout c)
  (buffer_list_name c) (complete_list_name c) (mam_buffer_list_name c)
  (mam_complete_list_name c) (cache_port c) v (cache_capacity c).
Definition set_capacity v c := mkCacheConf (cache_host c) (cache_timeout c)
  (buffer_list_name c) (complete_list_name c) (mam_buffer_list_name c)
  (mam_complete_list_name c) (cache_port c) (cache_state c) v.

(** ** [cli_info.h]: the option table

    The name, [has_arg] and [val] of an entry; [flag] is NULL throughout. *)
Definition no_argument : Z := 0.
Definition required_argument : Z := 1.
Definition optional_argument : Z := 2.

Definition ta_cli_arguments_g : list (cstr * Z * Z) := [
  (lit "help", no_argument, 104); (lit "version", no_argument, 118);
  (lit "ta_host", required_argument, TA_HOST_CLI);
  (lit "ta_port", required_argument, TA_PORT_CLI);
  (lit "http_threads", required_argument, HTTP_THREADS_CLI);
  (lit "node_host", required_argument, NODE_HOST_CLI);
  (lit "node_port", required_argument, NODE_PORT_CLI);
  (lit "CA_PEM", required_argument, CA_PEM);
  (lit "mqtt_host", required_argument, MQTT_HOST_CLI);
  (lit "mqtt_root", required_argument, MQTT_ROOT_CLI);
  (lit "node_address", required_argument, NODE_ADDRESS_CLI);
  (lit "redis_host", required_argument, REDIS_HOST_CLI);
  (lit "redis_port", required_argument, REDIS_PORT_CLI);
  (lit "db_host", required_argument, DB_HOST_CLI);
  (lit "milestone_depth", optional_argument, MILESTONE_DEPTH_CLI);
  (lit "mwm", optional_argument, MWM_CLI); (lit "seed", optional_argument, SEED_CLI);
  (lit "cache", required_argument, CACHE); (lit "ipc", required_argument, IPC);
  (lit "config", required_argument, CONF_CLI);
  (lit "proxy_passthrough", no_argument, PROXY_API);
  (lit "health_track_period", required_argument, HEALTH_TRACK_PERIOD_enum);
  (lit "no-gtta", no_argument, NO_GTTA); (lit "buffer_list", required_argument, BUFFER_LIST);
  (lit "complete_list", required_argument, COMPLETE_LIST);
  (lit "cache_capacity", required_argument, CACHE_CAPACITY);
  (lit "quiet", no_argument, QUIET); (lit "runtime_cli", no_argument, RUNTIME_CLI) ].

(** [get_conf_key]: the loop stops before the terminating NULL entry. *)
Fixpoint conf_key_loop (args : list (cstr * Z * Z)) (key : cstr) : Z :=
  match args with
  | [] => 0
  | (name, _, val) :: r => if bool_decide (name = key) then val else conf_key_loop r key
  end.
Definition get_conf_key (key : cstr) : Z := conf_key_loop ta_cli_arguments_g key.

(** ** [read_ca_pem]

    [char c] is signed, so the byte 255 compares equal to [EOF].  The array is
    given by its capacity and what has been written; a write at the capacity is
    undefined.  A file that cannot be opened leads to [fclose (NULL)]. *)
Definition CA_BUFFER_SIZE : Z := 2048.

Fixpoint read_ca_loop (file : list Z) (i cap buffer_nums : Z) (written : cstr) : option cstr :=
  match file with
  | c :: r =>
      if i8 c =? -1 then (if i <? cap then Some (rev written) else None) else
      if negb (i <? cap) then None else
      let i := i + 1 in
      if negb (i <? CA_BUFFER_SIZE)
      then read_ca_loop r i (buffer_nums * CA_BUFFER_SIZE) (buffer_nums + 1) (c :: written)
      else read_ca_loop r i cap buffer_nums (c :: written)
  | [] => if i <? cap then Some (rev written) else None
  end.

Definition read_ca_pem (file : option (list Z)) : option cstr :=
  match file with
  | None => None
  | Some bytes => read_ca_loop bytes 0 CA_BUFFER_SIZE 1 []
  end.

(** ** Defaults *)

(** What [ta_core_default_init] stores; [mam_file] is the name [mkstemp] makes
    and [ca] the built-in certificate.  The option bits are set and cleared one
    by one, the other bits of the structure's memory stay. *)
Definition default_core (mam_file ca : cstr) (c : ta_core_t) : ta_core_t :=
  mkCore
    (mkTaConf TA_VERSION TA_HOST TA_PORT
       (replicate MAX_NODE_LIST_ELEMENTS None) (replicate MAX_NODE_LIST_ELEMENTS NODE_PORT)
       HEALTH_TRACK_PERIOD DEFAULT_HTTP_TPOOL_SIZE
       (Z.lor (Z.ldiff (Z.ldiff (Z.ldiff (cli_options (ta_conf c)) CLI_QUIET_MODE)
          CLI_RUNTIME_CLI) CLI_PROXY_PASSTHROUGH) CLI_GTTA)
       DOMAIN_SOCKET)
    (mkCacheConf REDIS_HOST (cache_timeout (cache c)) BUFFER_LIST_NAME COMPLETE_LIST_NAME
       MAM_BUFFER_LIST_NAME MAM_COMPLETE_LIST_NAME REDIS_PORT false CACHE_MAX_CAPACITY)
    (mkIotaConf MILESTONE_DEPTH MWM SEED mam_file)
    (mkService NODE_HOST NODE_PORT ca)
    (conf_file c).

(** ** Setting one option *)
Record cfg (db : Type) := mkCfg {
  c_core : ta_core_t; c_errno : bool; c_env : Backend.env db }.
Arguments mkCfg {db} c_core c_errno c_env.
Arguments c_core {db} c.
Arguments c_errno {db} c.
Arguments c_env {db} c.

Section Options.
Context {db : Type} `{RedisServer db}.
(** The file system, [MAX_HTTP_TPOOL_SIZE] of the machine, the Redis server a
    host and port lead to, and the result of [pthread_rwlock_init]. *)
Context (fs : cstr -> option (list Z)) (max_tpool : Z)
  (connect : cstr -> Z -> @Backend.connect_result db) (lock_rc : Z).

Definition C := comp (cfg db).

Definition upd (f : ta_core_t -> ta_core_t) : C unit :=
  modify (fun c => mkCfg (f (c_core c)) (c_errno c) (c_env c)).

(** [strtol (value, end, 10)] with the tests that follow it: [use_end] tells
    whether the call stores the end pointer, otherwise [strtol_p] is still NULL
    and differs from [value].  [Some] is a number that passed. *)
Definition parse_long (use_end : bool) (value : cstr) (lo hi : Z) : C (option Z) :=
  fun c =>
    let '(v, rest, erange) := strtol value in
    let errno := c_errno c || erange in
    let moved := negb use_end || negb (bool_decide (rest = value)) in
    Some (if moved && negb errno && (lo <=? v) && (v <=? hi) then Some v else None,
          mkCfg (c_core c) errno (c_env c)).

(** The loop over the node ports. *)
Fixpoint node_port_loop (toks : list cstr) (idx : nat) : C unit :=
  match toks with
  | p :: r =>
      if (idx <? MAX_NODE_LIST_ELEMENTS)%nat then
        v ← parse_long true p 0 65535;
        _ ← match v with
            | Some v => upd (with_ta_conf (fun t => set_port_list (<[idx := u16 v]> (iota_port_list t)) t))
            | None => mret tt
            end;
        node_port_loop r (S idx)
      else mret tt
  | [] => mret tt
  end.

(** The loop over the node hosts. *)
Fixpoint node_host_loop (toks : list cstr) (idx : nat) (hosts : list (option cstr))
  : list (option cstr) :=
  match toks with
  | p :: r =>
      if (idx <? MAX_NODE_LIST_ELEMENTS)%nat
      then node_host_loop r (S idx) (<[idx := Some p]> hosts) else hosts
  | [] => hosts
  end.

(** The keys that need no argument. *)
Definition no_argument_key (key : Z) : bool :=
  (key =? CACHE) || (key =? PROXY_API) || (key =? QUIET) || (key =? NO_GTTA) || (key =? RUNTIME_CLI).

Definition set_cli_option (bit : Z) : C status_t :=
  _ ← upd (with_ta_conf (fun t => set_options (Z.lor (cli_options t) bit) t)); mret SC_OK.

(** [cache_init] on the connection part of the state; its result is only
    logged. *)
Definition init_cache (host : cstr) (port : Z) : C unit := fun c =>
  match Backend.cache_init true (connect host port) lock_rc (c_env c) with
  | Some (_, e) => Some (tt, mkCfg (c_core c) (c_errno c) e)
  | None => None
  end.

(** The case [CACHE]. *)
Definition toggle_cache : C status_t :=
  core ← gets c_core;
  let st := negb (cache_state (cache core)) in
  _ ← upd (with_cache (set_cache_state st));
  _ ← when st (init_cache (cache_host (cache core)) (cache_port (cache core)));
  mret SC_OK.

Definition cli_core_set (key : Z) (value : option cstr) : C status_t :=
  match value with
  | None =>
      if negb (no_argument_key key) then mret SC_NULL
      else if key =? CACHE then toggle_cache
      else if key =? QUIET then set_cli_option CLI_QUIET_MODE
      else if key =? PROXY_API then set_cli_option CLI_PROXY_PASSTHROUGH
      else if key =? NO_GTTA then set_cli_option CLI_GTTA
      else set_cli_option CLI_RUNTIME_CLI
  | Some value =>
      if key =? TA_HOST_CLI then _ ← upd (with_ta_conf (set_ta_host value)); mret SC_OK
      else if key =? TA_PORT_CLI then
        v ← parse_long true value INT_MIN INT_MAX;
        _ ← match v with Some v => upd (with_ta_conf (set_ta_port v)) | None => mret tt end;
        mret SC_OK
      else if key =? HTTP_THREADS_CLI then
        v ← parse_long true value 0 255;
        _ ← match v with
            | Some v => upd (with_ta_conf (set_tpool (u8 (if u8 v >? max_tpool then max_tpool else v))))
            | None => mret tt
            end;
        mret SC_OK
      else if key =? NODE_HOST_CLI then
        core ← gets c_core;
        let hosts := node_host_loop (strtok_all 44 [] value) 0 (iota_host_list (ta_conf core)) in
        first ← check (match hosts with Some h :: _ => Some h | _ => None end);
        _ ← upd (with_ta_conf (set_host_list hosts));
        _ ← upd (with_service (fun s =>
              mkService (take (HOST_MAX_LEN - 1) first) (http_port s) (http_ca_pem s)));
        mret SC_OK
      else if key =? NODE_PORT_CLI then
        _ ← node_port_loop (strtok_all 44 [] value) 0;
        core ← gets c_core;
        p ← check (head (iota_port_list (ta_conf core)));
        _ ← upd (with_service (fun s => mkService (http_host s) p (http_ca_pem s)));
        mret SC_OK
      else if key =? CA_PEM then
        pem ← check (read_ca_pem (fs value));
        _ ← upd (with_service (fun s => mkService (http_host s) (http_port s) pem));
        mret SC_OK
      else if key =? HEALTH_TRACK_PERIOD then
        v ← parse_long false value INT_MIN INT_MAX;
        _ ← match v with Some v => upd (with_ta_conf (set_period v)) | None => mret tt end;
        mret SC_OK
      else if key =? CACHE then toggle_cache
      else if key =? IPC then _ ← upd (with_ta_conf (set_socket value)); mret SC_OK
      else if key =? REDIS_HOST_CLI then _ ← upd (with_cache (set_cache_host value)); mret SC_OK
      else if key =? REDIS_PORT_CLI then
        v ← parse_long false value INT_MIN INT_MAX;
        _ ← match v with Some v => upd (with_cache (set_cache_port (u16 v))) | None => mret tt end;
        mret SC_OK
      else if key =? CACHE_CAPACITY then
        v ← parse_long false value INT_MIN INT_MAX;
        _ ← match v with
            | Some v => if v <=? 0 then mret tt else upd (with_cache (set_capacity v))
            | None => mret tt end;
        mret SC_OK
      else if key =? MILESTONE_DEPTH_CLI then
        v ← parse_long false value INT_MIN INT_MAX;
        _ ← match v with Some v => upd (with_iota_conf (set_depth (u8 v))) | None => mret tt end;
        mret SC_OK
      else if key =? MWM_CLI then
        v ← parse_long false value INT_MIN INT_MAX;
        _ ← match v with Some v => upd (with_iota_conf (set_mwm (u8 v))) | None => mret tt end;
        mret SC_OK
      else if key =? SEED_CLI then _ ← upd (with_iota_conf (set_seed value)); mret SC_OK
      else if key =? BUFFER_LIST then _ ← upd (with_cache (set_buffer_list value)); mret SC_OK
      else if key =? COMPLETE_LIST then _ ← upd (with_cache (set_complete_list value)); mret SC_OK
      else if key =? QUIET then set_cli_option CLI_QUIET_MODE
      else if key =? PROXY_API then set_cli_option CLI_PROXY_PASSTHROUGH
      else if key =? NO_GTTA then set_cli_option CLI_GTTA
      else if key =? RUNTIME_CLI then set_cli_option CLI_RUNTIME_CLI
      else if key =? CONF_CLI then
        if strlen value <? FILE_PATH_SIZE
        then _ ← upd (with_conf_file value); mret SC_OK
        else undefined
      else mret SC_OK
  end.

Definition ta_core_default_init (mam_file ca : cstr) : C status_t :=
  _ ← upd (default_core mam_file ca); mret SC_OK.

(** ** The command line

    One result of [getopt_long]: its value and [optarg].  ['?'] is 63, [':'] is
    58, ['h'] is 104 and ['v'] is 118. *)
Abbreviation getopt_result := (Z * option cstr)%type.

(** [inl] is a returned status, [inr] the process exiting. *)
Fixpoint ta_core_cli_init_loop (opts : list getopt_result) (ret : status_t) : C (status_t + unit) :=
  match opts with
  | [] => mret (inl ret)
  | (key, optarg) :: r =>
      if key =? 58 then mret (inl SC_CONF_MISSING_ARGUMENT)
      else if key =? 63 then ta_core_cli_init_loop r SC_CONF_UNKNOWN_OPTION
      else if key =? 104 then mret (inr tt)
      else if key =? 118 then mret (inr tt)
      else if key =? CONF_CLI
      then (if negb (ret =? SC_OK) then mret (inl ret) else ta_core_cli_init_loop r ret)
      else
        ret ← cli_core_set key optarg;
        if negb (ret =? SC_OK) then mret (inl ret) else ta_core_cli_init_loop r ret
  end.

Definition ta_core_cli_init (opts : list getopt_result) : C (status_t + unit) :=
  ta_core_cli_init_loop opts SC_OK.

(** ** The configuration file *)
Inductive yaml_token :=
| YAML_STREAM_START_TOKEN | YAML_STREAM_END_TOKEN
| YAML_BLOCK_MAPPING_START_TOKEN | YAML_BLOCK_END_TOKEN
| YAML_KEY_TOKEN | YAML_VALUE_TOKEN | YAML_SCALAR_TOKEN (value : cstr)
| YAML_OTHER_TOKEN.

(** The first pass of [ta_core_file_init] over the command line: it only looks
    for the configuration file.  The result is the variable [key] afterwards. *)
Fixpoint file_init_scan (opts : list getopt_result) (ret : status_t) : C Z :=
  match opts with
  | [] => mret (-1)
  | (key, optarg) :: r =>
      if key =? 58 then mret key
      else if key =? 63 then file_init_scan r SC_CONF_UNKNOWN_OPTION
      else
        ret ← (if key =? CONF_CLI then cli_core_set key optarg else mret ret);
        if negb (ret =? SC_OK) then mret key else file_init_scan r ret
  end.

(** The token loop: [state] is 0 after a key token and 1 after a value token;
    the end of the list without a stream end is a scanner error. *)
Fixpoint file_init_tokens (tokens : list yaml_token) (st key : Z) : C status_t :=
  match tokens with
  | [] => mret SC_CONF_PARSER_ERROR
  | YAML_STREAM_END_TOKEN :: _ => mret SC_OK
  | YAML_KEY_TOKEN :: r => file_init_tokens r 0 key
  | YAML_VALUE_TOKEN :: r => file_init_tokens r 1 key
  | YAML_SCALAR_TOKEN arg :: r =>
      if st =? 0 then file_init_tokens r st (get_conf_key arg)
      else
        ret ← cli_core_set key (Some arg);
        if negb (ret =? SC_OK) then mret ret else file_init_tokens r st key
  | _ :: r => file_init_tokens r st key
  end.

(** [ta_core_file_init]; [yaml path] is the token stream of a file, [None] when
    it cannot be opened. *)
Definition ta_core_file_init (parser_ok : bool) (yaml : cstr -> option (list yaml_token))
    (opts : list getopt_result) : C status_t :=
  _ ← upd (with_conf_file []);
  if negb parser_ok then mret SC_CONF_PARSER_ERROR else
  key ← file_init_scan opts SC_OK;
  core ← gets c_core;
  if strlen (conf_file core) =? 0 then mret SC_OK else
  match yaml (conf_file core) with
  | None => mret SC_CONF_FOPEN_ERROR
  | Some tokens => file_init_tokens tokens 0 key
  end.

(** [ta_logger_switch]: its effect on the configuration. *)
Definition ta_logger_switch (quiet init : bool) (t : ta_config_t) : ta_config_t :=
  if xorb quiet (is_option_enabled t CLI_QUIET_MODE) || init then
    if negb quiet then set_options (Z.ldiff (cli_options t) CLI_QUIET_MODE) t
    else set_options (Z.lor (cli_options t) CLI_QUIET_MODE) t
  else t.

End Options.

(** ** Properties *)

(** The widths of the C fields, the array lengths, and the bounds the copies
    into fixed arrays respect. *)
Definition u_bits (w z : Z) : Prop := 0 <= z < 2 ^ w.

Record core_wf (c : ta_core_t) : Prop := {
  wf_hosts : length (iota_host_list (ta_conf c)) = MAX_NODE_LIST_ELEMENTS;
  wf_ports : length (iota_port_list (ta_conf c)) = MAX_NODE_LIST_ELEMENTS;
  wf_port_vals : Forall (u_bits 16) (iota_port_list (ta_conf c));
  wf_port : INT_MIN <= ta_port (ta_conf c) <= INT_MAX;
  wf_period : INT_MIN <= health_track_period (ta_conf c) <= INT_MAX;
  wf_tpool : u_bits 8 (http_tpool_size (ta_conf c));
  wf_options : u_bits 32 (cli_options (ta_conf c));
  wf_depth : u_bits 8 (milestone_depth (iota_conf c));
  wf_mwm : u_bits 8 (mwm (iota_conf c));
  wf_cache_port : u_bits 16 (cache_port (cache c));
  wf_cap : 0 < cache_capacity (cache c);
  wf_service_host : (length (http_host (iota_service c)) < HOST_MAX_LEN)%nat;
  wf_service_port : u_bits 16 (http_port (iota_service c));
  wf_conf_file : strlen (conf_file c) < FILE_PATH_SIZE
}.

Lemma lor_u_bits w a b : 0 <= w -> u_bits w a -> u_bits w b -> u_bits w (Z.lor a b).
Proof.
  intros Hw [Ha1 Ha2] [Hb1 Hb2]. split; [by apply Z.lor_nonneg|].
  destruct (decide (Z.lor a b = 0)) as [->|Hne]; [apply Z.pow_pos_nonneg; lia|].
  apply Z.log2_lt_pow2; [pose proof (proj2 (Z.lor_nonneg a b) (conj Ha1 Hb1)); lia|].
  rewrite Z.log2_lor by done.
  destruct (decide (w = 0)) as [->|]; [exfalso; apply Hne;
    replace a with 0 by lia; replace b with 0 by lia; reflexivity|].
  apply Z.max_lub_lt.
  - destruct (decide (a = 0)) as [->|]; [simpl; lia|]. apply Z.log2_lt_pow2; lia.
  - destruct (decide (b = 0)) as [->|]; [simpl; lia|]. apply Z.log2_lt_pow2; lia.
Qed.

Lemma length_node_host_loop toks : forall idx hosts,
  length (node_host_loop toks idx hosts) = length hosts.
Proof.
  induction toks as [|p r IH]; intros idx hosts; simpl; [done|].
  destruct (idx <? _)%nat; [|done]. by rewrite IH, length_insert.
Qed.

Section Invariants.
Context {db : Type} `{RedisServer db}.
Context (fs : cstr -> option (list Z)) (max_tpool : Z)
  (connect : cstr -> Z -> @Backend.connect_result db) (lock_rc : Z).

(** A computation that keeps a property of the configuration. *)
Definition keeps {A} (P : ta_core_t -> Prop) (m : comp (cfg db) A) : Prop :=
  hoare (fun c => P (c_core c)) m (fun _ c => P (c_core c)).

Lemma keeps_ret {A} P (a : A) : keeps P (mret a : comp (cfg db) A).
Proof. by apply hoare_ret. Qed.

Lemma keeps_bind {A B} P (m : comp (cfg db) A) (k : A -> comp (cfg db) B) :
  keeps P m -> (forall a, keeps P (k a)) -> keeps P (m ≫= k).
Proof. intros Hm Hk. by eapply hoare_bind. Qed.

Lemma keeps_upd P f : (forall c, P c -> P (f c)) -> keeps P (upd f : comp (cfg db) unit).
Proof. intros Hf. apply hoare_modify. intros s. apply Hf. Qed.

Lemma keeps_parse_bind {B} P b v lo hi (k : option Z -> comp (cfg db) B) :
  (forall o, (forall z, o = Some z -> lo <= z <= hi) -> keeps P (k o)) ->
  keeps P (parse_long b v lo hi ≫= k).
Proof.
  intros Hk. eapply hoare_bind
    with (R := fun o c => P (c_core c) /\ (forall z, o = Some z -> lo <= z <= hi)).
  - intros s o s' HP Ho. unfold parse_long in Ho. destruct (strtol v) as [[z rest] e].
    injection Ho as <- <-. split; [done|]. intros z'.
    destruct (_ && _) eqn:E; [|done]. intros [= <-].
    rewrite !andb_true_iff in E. destruct E as [[_ E1] E2]. zb. lia.
  - intros o s a s' [HP Hz] Hr. by eapply (Hk o Hz).
Qed.

Lemma keeps_gets_bind {A B} P (f : cfg db -> A) (k : A -> comp (cfg db) B) :
  (forall c, P (c_core c) -> keeps P (k (f c))) -> keeps P (gets f ≫= k).
Proof. intros Hk s b s' HP. unfold mbind, comp_mbind, gets. by apply Hk. Qed.

Lemma keeps_check_bind {A B} P (o : option A) (k : A -> comp (cfg db) B) :
  (forall a, o = Some a -> keeps P (k a)) -> keeps P (check o ≫= k).
Proof.
  intros Hk s b s' HP. unfold mbind, comp_mbind, check.
  destruct o as [a|]; [|done]. by apply (Hk a eq_refl).
Qed.

Lemma keeps_toggle P :
  (forall c b, P c -> P (with_cache (set_cache_state b) c)) ->
  keeps P (toggle_cache connect lock_rc).
Proof.
  intros HP. apply keeps_gets_bind. intros c Hc. apply keeps_bind.
  - apply keeps_upd. auto.
  - intros _. apply keeps_bind; [|intros; apply keeps_ret].
    unfold when. destruct (negb _); [|apply keeps_ret].
    intros s a s' Hs. unfold init_cache.
    destruct (Backend.cache_init _ _ _ _) as [[b e]|]; [|done]. by intros [= <- <-].
Qed.

Lemma keeps_option P bit :
  (forall c, P c -> P (with_ta_conf (fun t => set_options (Z.lor (cli_options t) bit) t) c)) ->
  keeps P (set_cli_option bit : comp (cfg db) status_t).
Proof. intros HP. apply keeps_bind; [by apply keeps_upd|]. intros; apply keeps_ret. Qed.

(** What an option may do to a property, one field update at a time. *)
Record stable (P : ta_core_t -> Prop) : Prop := {
  st_host : forall v c, P c -> P (with_ta_conf (set_ta_host v) c);
  st_port : forall v c, INT_MIN <= v <= INT_MAX -> P c -> P (with_ta_conf (set_ta_port v) c);
  st_tpool : forall v c, u_bits 8 v -> P c -> P (with_ta_conf (set_tpool v) c);
  st_hosts : forall l c, length l = length (iota_host_list (ta_conf c)) -> P c ->
    P (with_ta_conf (set_host_list l) c);
  st_ports : forall i v c, u_bits 16 v -> P c ->
    P (with_ta_conf (fun t => set_port_list (<[i := v]> (iota_port_list t)) t) c);
  st_period : forall v c, INT_MIN <= v <= INT_MAX -> P c -> P (with_ta_conf (set_period v) c);
  st_socket : forall v c, P c -> P (with_ta_conf (set_socket v) c);
  st_option : forall b c, b ∈ [CLI_QUIET_MODE; CLI_PROXY_PASSTHROUGH; CLI_GTTA; CLI_RUNTIME_CLI] ->
    P c -> P (with_ta_conf (fun t => set_options (Z.lor (cli_options t) b) t) c);
  st_state : forall b c, P c -> P (with_cache (set_cache_state b) c);
  st_chost : forall v c, P c -> P (with_cache (set_cache_host v) c);
  st_cport : forall v c, u_bits 16 v -> P c -> P (with_cache (set_cache_port v) c);
  st_cap : forall v c, 0 < v -> P c -> P (with_cache (set_capacity v) c);
  st_buf : forall v c, P c -> P (with_cache (set_buffer_list v) c);
  st_comp : forall v c, P c -> P (with_cache (set_complete_list v) c);
  st_depth : forall v c, u_bits 8 v -> P c -> P (with_iota_conf (set_depth v) c);
  st_mwm : forall v c, u_bits 8 v -> P c -> P (with_iota_conf (set_mwm v) c);
  st_seed : forall v c, P c -> P (with_iota_conf (set_seed v) c);
  st_shost : forall v c, (length v < HOST_MAX_LEN)%nat -> P c ->
    P (with_service (fun s => mkService v (http_port s) (http_ca_pem s)) c);
  st_sport : forall v c, In v (iota_port_list (ta_conf c)) -> P c ->
    P (with_service (fun s => mkService (http_host s) v (http_ca_pem s)) c);
  st_pem : forall v c, P c -> P (with_service (fun s => mkService (http_host s) (http_port s) v) c);
  st_conf : forall v c, strlen v < FILE_PATH_SIZE -> P c -> P (with_conf_file v c)
}.

Lemma uwrap_u_bits w z : 0 <= w -> u_bits w (uwrap w z).
Proof. apply uwrap_range. Qed.

Lemma keeps_some_upd P (o : option Z) (f : Z -> ta_core_t -> ta_core_t) :
  (forall z c, o = Some z -> P c -> P (f z c)) ->
  keeps P (_ ← match o with Some v => upd (f v) | None => mret tt end;
           mret SC_OK : comp (cfg db) status_t).
Proof.
  intros Hf. apply keeps_bind; [|intros; apply keeps_ret].
  destruct o; [|apply keeps_ret]. apply keeps_upd. auto.
Qed.

Lemma keeps_upd_ok P f :
  (forall c, P c -> P (f c)) -> keeps P (_ ← upd f; mret SC_OK : comp (cfg db) status_t).
Proof. intros Hf. apply keeps_bind; [by apply keeps_upd|]. intros; apply keeps_ret. Qed.

Lemma keeps_node_ports P : stable P -> forall toks idx,
  keeps P (node_port_loop toks idx : comp (cfg db) unit).
Proof.
  intros HP. induction toks as [|p r IH]; intros idx; cbn [node_port_loop]; [apply keeps_ret|].
  destruct (idx <? _)%nat; [|apply keeps_ret].
  apply keeps_parse_bind. intros o Ho. apply keeps_bind; [|intros; apply IH].
  destruct o; [|apply keeps_ret]. apply keeps_upd. intros c.
  apply (st_ports P HP). apply uwrap_u_bits. lia.
Qed.

Lemma keeps_node_hosts P value : stable P ->
  keeps P (core ← gets c_core;
    let hosts := node_host_loop (strtok_all 44 [] value) 0 (iota_host_list (ta_conf core)) in
    first ← check (match hosts with Some h :: _ => Some h | _ => None end);
    _ ← upd (with_ta_conf (set_host_list hosts));
    _ ← upd (with_service (fun s =>
          mkService (take (HOST_MAX_LEN - 1) first) (http_port s) (http_ca_pem s)));
    mret SC_OK : comp (cfg db) status_t).
Proof.
  intros HP s a s' Hs Hrun.
  unfold mbind, comp_mbind, gets, check, upd, modify, mret, comp_mret in Hrun.
  set (hosts := node_host_loop _ _ _) in Hrun.
  destruct hosts as [|[h|] hs] eqn:Eh; [done| |done]. injection Hrun as <- <-. simpl.
  apply (st_shost P HP).
  { rewrite length_take. unfold HOST_MAX_LEN. lia. }
  apply (st_hosts P HP); [|done]. rewrite <- Eh. apply length_node_host_loop.
Qed.

Lemma keeps_cli_core_set P key value :
  stable P -> keeps P (cli_core_set fs max_tpool connect lock_rc key value).
Proof.
  intros HP. unfold cli_core_set. destruct value as [value|].
  2:{ destruct (negb _); [apply keeps_ret|].
      destruct (key =? CACHE); [apply keeps_toggle; intros; by apply st_state|].
      repeat (destruct (key =? _)); apply keeps_option; intros c; apply (st_option P HP); set_solver. }
  destruct (key =? TA_HOST_CLI); [by apply keeps_upd_ok, st_host|].
  destruct (key =? TA_PORT_CLI).
  { apply keeps_parse_bind. intros o Ho. apply keeps_some_upd. intros z c Hz. apply st_port; auto. }
  destruct (key =? HTTP_THREADS_CLI).
  { apply keeps_parse_bind. intros o Ho. apply keeps_some_upd. intros z c Hz.
    apply st_tpool; [done|]. apply uwrap_u_bits. lia. }
  destruct (key =? NODE_HOST_CLI); [by apply keeps_node_hosts|].
  destruct (key =? NODE_PORT_CLI).
  { apply keeps_bind; [by apply keeps_node_ports|]. intros _.
    intros s a s' Hs Hrun.
    unfold mbind, comp_mbind, gets, check, upd, modify, mret, comp_mret in Hrun.
    destruct (head _) as [p|] eqn:Ep; [|done]. injection Hrun as <- <-.
    apply (st_sport P HP); [|done].
    destruct (iota_port_list _); [done|]. injection Ep as ->. by left. }
  destruct (key =? CA_PEM).
  { apply keeps_check_bind. intros pem _. by apply keeps_upd_ok, st_pem. }
  destruct (key =? HEALTH_TRACK_PERIOD).
  { apply keeps_parse_bind. intros o Ho. apply keeps_some_upd. intros z c Hz. apply st_period; auto. }
  destruct (key =? CACHE); [apply keeps_toggle; intros; by apply st_state|].
  destruct (key =? IPC); [by apply keeps_upd_ok, st_socket|].
  destruct (key =? REDIS_HOST_CLI); [by apply keeps_upd_ok, st_chost|].
  destruct (key =? REDIS_PORT_CLI).
  { apply keeps_parse_bind. intros o Ho. apply keeps_some_upd. intros z c Hz.
    apply st_cport; [done|]. apply uwrap_u_bits. lia. }
  destruct (key =? CACHE_CAPACITY).
  { apply keeps_parse_bind. intros o Ho. apply keeps_bind; [|intros; apply keeps_ret].
    destruct o as [v|]; [|apply keeps_ret].
    destruct (Z.leb_spec v 0); [apply keeps_ret|]. apply keeps_upd. intros c. by apply st_cap. }
  destruct (key =? MILESTONE_DEPTH_CLI).
  { apply keeps_parse_bind. intros o Ho. apply keeps_some_upd. intros z c Hz.
    apply st_depth; [done|]. apply uwrap_u_bits. lia. }
  destruct (key =? MWM_CLI).
  { apply keeps_parse_bind. intros o Ho. apply keeps_some_upd. intros z c Hz.
    apply st_mwm; [done|]. apply uwrap_u_bits. lia. }
  destruct (key =? SEED_CLI); [by apply keeps_upd_ok, st_seed|].
  destruct (key =? BUFFER_LIST); [by apply keeps_upd_ok, st_buf|].
  destruct (key =? COMPLETE_LIST); [by apply keeps_upd_ok, st_comp|].
  do 4 (destruct (key =? _); [apply keeps_option; intros c; apply (st_option P HP); set_solver|]).
  destruct (key =? CONF_CLI); [|apply keeps_ret].
  destruct (Z.ltb_spec (strlen value) FILE_PATH_SIZE); [|apply hoare_undefined].
  apply keeps_upd_ok. intros c. by apply st_conf.
Qed.

Lemma keeps_cli_init P : stable P -> forall opts ret,
  keeps P (ta_core_cli_init_loop fs max_tpool connect lock_rc opts ret).
Proof.
  intros HP. induction opts as [|[key arg] r IH]; intros ret; cbn [ta_core_cli_init_loop];
    [apply keeps_ret|].
  do 4 (destruct (key =? _); [first [apply IH | apply keeps_ret]|]).
  destruct (key =? CONF_CLI); [destruct (negb _); [apply keeps_ret|apply IH]|].
  apply keeps_bind; [by apply keeps_cli_core_set|]. intros ret'.
  destruct (negb _); [apply keeps_ret|apply IH].
Qed.

Lemma keeps_file_tokens P : stable P -> forall tokens st key,
  keeps P (file_init_tokens fs max_tpool connect lock_rc tokens st key).
Proof.
  intros HP. induction tokens as [|[| | | | | |arg|] r IH]; intros st key; cbn [file_init_tokens];
    try apply IH; try apply keeps_ret.
  destruct (st =? 0); [apply IH|].
  apply keeps_bind; [by apply keeps_cli_core_set|]. intros ret.
  destruct (negb _); [apply keeps_ret|apply IH].
Qed.

Lemma keeps_file_scan P : stable P -> forall opts ret,
  keeps P (file_init_scan fs max_tpool connect lock_rc opts ret).
Proof.
  intros HP. induction opts as [|[key arg] r IH]; intros ret; cbn [file_init_scan];
    [apply keeps_ret|].
  destruct (key =? 58); [apply keeps_ret|]. destruct (key =? 63); [apply IH|].
  apply keeps_bind.
  - destruct (key =? CONF_CLI); [by apply keeps_cli_core_set|apply keeps_ret].
  - intros ret'. destruct (negb _); [apply keeps_ret|apply IH].
Qed.

Lemma keeps_file_init P parser_ok yaml opts : stable P ->
  keeps P (ta_core_file_init fs max_tpool connect lock_rc parser_ok yaml opts).
Proof.
  intros HP. unfold ta_core_file_init. apply keeps_bind.
  { apply keeps_upd. intros c. by apply st_conf. }
  intros _. destruct parser_ok; [|apply keeps_ret].
  apply keeps_bind; [by apply keeps_file_scan|]. intros key.
  apply keeps_gets_bind. intros c Hc. destruct (strlen _ =? 0); [apply keeps_ret|].
  destruct (yaml _); [by apply keeps_file_tokens|apply keeps_ret].
Qed.

End Invariants.

Lemma core_wf_stable : stable core_wf.
Proof.
  split; intros; match goal with H : core_wf _ |- _ => destruct H end; split; simpl in *; try done;
    try congruence.
  - by rewrite length_insert.
  - by apply Forall_insert.
  - apply lor_u_bits; [lia|done|].
    match goal with H : _ ∈ _ |- _ => rename H into Hb end.
    repeat (apply elem_of_cons in Hb as [->|Hb]; [by vm_compute|]). by apply not_elem_of_nil in Hb.
  - rewrite Forall_forall in wf_port_vals0. apply wf_port_vals0. by apply list_elem_of_In.
Qed.

(** The option bit [CLI_GTTA] is only ever set. *)
Definition gtta_on (c : ta_core_t) : Prop := is_option_enabled (ta_conf c) CLI_GTTA = true.

Lemma is_option_bit o n : 0 <= n ->
  negb (Z.land o (Z.shiftl 1 n) =? 0) = Z.testbit o n.
Proof.
  intros Hn. destruct (Z.testbit o n) eqn:E.
  - apply negb_true_iff, Z.eqb_neq. intros Hz.
    assert (Z.testbit (Z.land o (Z.shiftl 1 n)) n = true) as Ht.
    { rewrite Z.land_spec, E, Z.shiftl_spec, Z.sub_diag by lia. done. }
    rewrite Hz, Z.bits_0 in Ht. done.
  - apply negb_false_iff, Z.eqb_eq, Z.bits_inj'. intros m Hm.
    rewrite Z.land_spec, Z.bits_0, Z.shiftl_spec by lia.
    destruct (decide (m = n)) as [->|]; [by rewrite E|].
    destruct (Z.lt_ge_cases m n); [rewrite (Z.testbit_neg_r 1) by lia; apply andb_false_r|].
    rewrite (testbit_small 1 1 (m - n)) by lia. apply andb_false_r.
Qed.

Lemma gtta_stable : stable gtta_on.
Proof.
  split; intros; unfold gtta_on, is_option_enabled in *; simpl in *; try done.
  change CLI_GTTA with (Z.shiftl 1 1) in *. rewrite is_option_bit in * by lia.
  rewrite Z.lor_spec. by apply orb_true_iff; left.
Qed.

Lemma ldiff_u_bits w a b : u_bits w a -> u_bits w (Z.ldiff a b).
Proof.
  intros [Ha1 Ha2].
  assert (Z.land (Z.ldiff a b) (Z.land a b) = 0) as Hd.
  { apply Z.bits_inj'. intros n Hn. rewrite !Z.land_spec, Z.ldiff_spec, Z.bits_0.
    by destruct (Z.testbit a n), (Z.testbit b n). }
  pose proof (Z.lor_ldiff_and a b) as E. rewrite <- Z.add_nocarry_lor in E by done.
  pose proof (proj2 (Z.land_nonneg a b) (or_introl Ha1)).
  pose proof (proj2 (Z.ldiff_nonneg a b) (or_introl Ha1)). split; lia.
Qed.

Lemma default_core_wf mam_file ca c :
  u_bits 32 (cli_options (ta_conf c)) -> strlen (conf_file c) < FILE_PATH_SIZE ->
  core_wf (default_core mam_file ca c).
Proof.
  intros Ho Hf. split; cbn.
  - done.
  - done.
  - by repeat constructor.
  - done.
  - done.
  - done.
  - apply lor_u_bits; [lia| |done]. by repeat apply ldiff_u_bits.
  - done.
  - done.
  - done.
  - done.
  - unfold HOST_MAX_LEN. lia.
  - done.
  - done.
Qed.

Lemma gtta_default mam_file ca c : gtta_on (default_core mam_file ca c).
Proof.
  unfold gtta_on, is_option_enabled, default_core. simpl.
  change CLI_GTTA with (Z.shiftl 1 1). rewrite is_option_bit, Z.lor_spec by lia.
  apply orb_true_r.
Qed.

Section Theorems.
Context {db : Type} `{RedisServer db}.
Context (fs : cstr -> option (list Z)) (max_tpool : Z)
  (connect : cstr -> Z -> @Backend.connect_result db) (lock_rc : Z).
Abbreviation cli_core_set := (cli_core_set fs max_tpool connect lock_rc).
Abbreviation ta_core_cli_init := (ta_core_cli_init fs max_tpool connect lock_rc).
Abbreviation ta_core_file_init := (ta_core_file_init fs max_tpool connect lock_rc).

(** Defaults, then the configuration file, then the command line, as [main]
    calls them. *)
Definition configure (mam_file ca : cstr) (parser_ok : bool)
    (yaml : cstr -> option (list yaml_token)) (opts : list (Z * option cstr))
  : comp (cfg db) (status_t + unit) :=
  _ ← ta_core_default_init mam_file ca;
  _ ← ta_core_file_init parser_ok yaml opts;
  ta_core_cli_init opts.

(** Whatever the configuration file and the command line contain, the
    configuration they leave is well formed: every numeric field fits its C
    type, the host and port arrays keep their five entries, the capacity stays
    positive and the fixed-size character arrays are not overrun. *)
Theorem configure_well_formed mam_file ca parser_ok yaml opts (c c' : cfg db) r :
  u_bits 32 (cli_options (ta_conf (c_core c))) ->
  strlen (conf_file (c_core c)) < FILE_PATH_SIZE ->
  configure mam_file ca parser_ok yaml opts c = Some (r, c') -> core_wf (c_core c').
Proof.
  intros Ho Hf Hrun. unfold configure in Hrun.
  apply comp_bind_Some in Hrun as (s1 & c1 & H1 & Hrun).
  apply comp_bind_Some in Hrun as (s2 & c2 & H2 & H3).
  eapply (keeps_cli_init fs max_tpool connect lock_rc core_wf core_wf_stable); [|exact H3].
  eapply (keeps_file_init fs max_tpool connect lock_rc core_wf); [apply core_wf_stable| |exact H2].
  injection H1 as <- <-. by apply default_core_wf.
Qed.

(** The option [--no-gtta] does not switch tip selection off, and nothing
    else does: after the defaults, [CLI_GTTA] is enabled whatever the
    configuration file and the command line contain. *)
Theorem gtta_cannot_be_disabled mam_file ca parser_ok yaml opts (c c' : cfg db) r :
  configure mam_file ca parser_ok yaml opts c = Some (r, c') ->
  is_option_enabled (ta_conf (c_core c')) CLI_GTTA = true.
Proof.
  intros Hrun. unfold configure in Hrun.
  apply comp_bind_Some in Hrun as (s1 & c1 & H1 & Hrun).
  apply comp_bind_Some in Hrun as (s2 & c2 & H2 & H3).
  eapply (keeps_cli_init fs max_tpool connect lock_rc gtta_on gtta_stable); [|exact H3].
  eapply (keeps_file_init fs max_tpool connect lock_rc gtta_on); [apply gtta_stable| |exact H2].
  injection H1 as <- <-. apply gtta_default.
Qed.

(** The option [--health_track_period] is silently ignored: its key is the
    enumerator of [cli_info.h], but the [case] label of [config.c] is the macro
    1800 of [config.h], so no value given for it changes anything. *)
Theorem health_track_period_ignored value (c : cfg db) :
  get_conf_key (lit "health_track_period") = HEALTH_TRACK_PERIOD_enum /\
  cli_core_set HEALTH_TRACK_PERIOD_enum (Some value) c = Some (SC_OK, c).
Proof. split; [reflexivity|]. reflexivity. Qed.

(** [parse_long] on a printed number. *)
Lemma parse_long_dec b n lo hi (c : cfg db) :
  0 <= n <= LONG_MAX -> c_errno c = false ->
  parse_long b (dec_nat n) lo hi c =
    Some (if (lo <=? n) && (n <=? hi) then Some n else None, c).
Proof.
  intros Hn He. unfold parse_long.
  pose proof (strtol_dec_nat n [] Hn ltac:(done)) as Hs. rewrite app_nil_r in Hs. rewrite Hs.
  destruct c as [core errno env]. simpl in He. subst errno. simpl.
  rewrite bool_decide_false.
  2:{ destruct (dec_nat_spec n ltac:(lia)) as (_ & _ & Hne). congruence. }
  rewrite orb_true_r. done.
Qed.

(** Numeric options keep the number given when it fits the field and
    otherwise: the listening port and the thread number leave the old value, but
    the minimum weight magnitude is stored modulo 256, and text without digits
    counts as 0. *)
Theorem numeric_options n (c : cfg db) :
  0 <= n <= LONG_MAX -> c_errno c = false ->
  cli_core_set TA_PORT_CLI (Some (dec_nat n)) c =
    Some (SC_OK, if n <=? INT_MAX
                 then mkCfg (with_ta_conf (set_ta_port n) (c_core c)) false (c_env c) else c) /\
  cli_core_set MWM_CLI (Some (dec_nat n)) c =
    Some (SC_OK, if n <=? INT_MAX
                 then mkCfg (with_iota_conf (set_mwm (n mod 256)) (c_core c)) false (c_env c) else c) /\
  cli_core_set TA_PORT_CLI (Some (lit "port")) c = Some (SC_OK, c) /\
  cli_core_set MWM_CLI (Some (lit "mwm")) c =
    Some (SC_OK, mkCfg (with_iota_conf (set_mwm 0) (c_core c)) false (c_env c)).
Proof.
  intros Hn He.
  assert (INT_MIN <=? n = true) as Hlo by (apply Z.leb_le; unfold INT_MIN; lia).
  split; [|split; [|split]].
  - change (cli_core_set TA_PORT_CLI (Some (dec_nat n)) c) with
      ((v ← parse_long true (dec_nat n) INT_MIN INT_MAX;
        _ ← match v with Some v => upd (with_ta_conf (set_ta_port v)) | None => mret tt end;
        mret SC_OK : comp (cfg db) status_t) c).
    comp_step (parse_long_dec true n INT_MIN INT_MAX c Hn He). rewrite Hlo. simpl.
    destruct (n <=? INT_MAX); [|done]. comp_simpl. unfold upd, modify. by rewrite He.
  - change (cli_core_set MWM_CLI (Some (dec_nat n)) c) with
      ((v ← parse_long false (dec_nat n) INT_MIN INT_MAX;
        _ ← match v with Some v => upd (with_iota_conf (set_mwm (u8 v))) | None => mret tt end;
        mret SC_OK : comp (cfg db) status_t) c).
    comp_step (parse_long_dec false n INT_MIN INT_MAX c Hn He). rewrite Hlo. simpl.
    destruct (n <=? INT_MAX); [|done]. comp_simpl. unfold upd, modify. by rewrite He.
  - destruct c as [core errno env]. simpl in He. subst errno. reflexivity.
  - destruct c as [core errno env]. simpl in He. subst errno. reflexivity.
Qed.

(** [errno] is never cleared before [strtol]: once a number was out of range
    for [long], every numeric option after it is refused. *)
Theorem errno_is_sticky value b n lo hi (c : cfg db) :
  (strtol value).2 = true ->
  exists c1, cli_core_set TA_PORT_CLI (Some value) c = Some (SC_OK, c1) /\
    c_core c1 = c_core c /\
    parse_long b (dec_nat n) lo hi c1 = Some (None, c1).
Proof.
  intros He. exists (mkCfg (c_core c) true (c_env c)). split; [|split; [done|]].
  - change (cli_core_set TA_PORT_CLI (Some value) c) with
      ((v ← parse_long true value INT_MIN INT_MAX;
        _ ← match v with Some v => upd (with_ta_conf (set_ta_port v)) | None => mret tt end;
        mret SC_OK : comp (cfg db) status_t) c).
    unfold parse_long at 1, mbind, comp_mbind.
    destruct (strtol value) as [[v rest] e]. simpl in He. subst e.
    rewrite orb_true_r. simpl. rewrite andb_false_r. done.
  - unfold parse_long. destruct (strtol (dec_nat n)) as [[v rest] e].
    simpl. rewrite andb_false_r. done.
Qed.

Lemma node_host_loop_spec l : forall i hs, (length hs = 5)%nat -> (i <= 5)%nat ->
  node_host_loop l i hs =
    take i hs ++ (Some <$> take (5 - i) l) ++ drop (i + length (take (5 - i) l)) hs.
Proof.
  induction l as [|h l IH]; intros i hs Hl Hi; cbn [node_host_loop].
  - rewrite take_nil. simpl. rewrite Nat.add_0_r. by rewrite take_drop.
  - unfold MAX_NODE_LIST_ELEMENTS. destruct (Nat.ltb_spec i 5) as [Hlt|Hge].
    + rewrite IH by (rewrite ?length_insert; lia).
      destruct (lookup_lt_is_Some_2 hs i ltac:(lia)) as [x Hx].
      rewrite (take_S_r _ _ (Some h)) by (apply list_lookup_insert_eq; lia).
      rewrite take_insert_ge by lia.
      replace (5 - i)%nat with (S (5 - S i)) by lia. cbn [take fmap list_fmap length].
      rewrite <- app_assoc. simpl.
      rewrite drop_insert_lt by lia. repeat f_equal. lia.
    + assert (i = 5)%nat as -> by lia. simpl. rewrite take_ge, drop_ge by lia.
      by rewrite app_nil_r.
Qed.

(** The node list option takes the first five entries of a comma separated
    list and connects to the first. *)
Theorem node_hosts_option hosts (c : cfg db) :
  Forall (fun s => 44 ∉ s /\ s <> []) hosts -> hosts <> [] ->
  length (iota_host_list (ta_conf (c_core c))) = MAX_NODE_LIST_ELEMENTS ->
  exists c', cli_core_set NODE_HOST_CLI (Some (join 44 hosts)) c = Some (SC_OK, c') /\
    take (length hosts) (iota_host_list (ta_conf (c_core c'))) = Some <$> take 5 hosts /\
    http_host (iota_service (c_core c')) = take (HOST_MAX_LEN - 1) (hd [] hosts).
Proof.
  intros Hh Hne Hlen.
  set (old := iota_host_list (ta_conf (c_core c))) in *.
  assert (node_host_loop hosts 0 old = (Some <$> take 5 hosts) ++ drop (length (take 5 hosts)) old)
    as Hl by (rewrite node_host_loop_spec by (done || lia); done).
  destruct hosts as [|h t]; [done|].
  assert (iota_host_list_of : node_host_loop (strtok_all 44 [] (join 44 (h :: t))) 0 old =
    (Some <$> take 5 (h :: t)) ++ drop (length (take 5 (h :: t))) old)
    by by rewrite strtok_all_join.
  change (cli_core_set NODE_HOST_CLI (Some (join 44 (h :: t))) c) with
    ((core ← gets c_core;
      let hosts := node_host_loop (strtok_all 44 [] (join 44 (h :: t))) 0
        (iota_host_list (ta_conf core)) in
      first ← check (match hosts with Some h :: _ => Some h | _ => None end);
      _ ← upd (with_ta_conf (set_host_list hosts));
      _ ← upd (with_service (fun s =>
            mkService (take (HOST_MAX_LEN - 1) first) (http_port s) (http_ca_pem s)));
      mret SC_OK : comp (cfg db) status_t) c).
  unfold mbind, comp_mbind, gets. fold old. rewrite iota_host_list_of.
  eexists. split; [reflexivity|]. split; [|done].
  cbn [upd modify c_core with_service with_ta_conf ta_conf set_host_list iota_host_list].
  change (Some h :: _) with ((Some <$> take 5 (h :: t)) ++ drop (length (take 5 (h :: t))) old).
  destruct (decide (length (h :: t) <= 5)%nat).
  - rewrite (take_ge (h :: t)) by lia. rewrite take_app_length' by by rewrite length_fmap. done.
  - rewrite drop_ge by (rewrite length_take; unfold MAX_NODE_LIST_ELEMENTS in Hlen; lia).
    rewrite app_nil_r. apply take_ge. rewrite length_fmap, length_take. lia.
Qed.

(** *** Command lines

    What [getopt_long] documents for words of the form [--name] and
    [--name=value] with the table above and no leading colon in its short
    options: an unknown name, an argument given to an option that takes none
    and a required argument that is missing are all ['?'] with no [optarg].
    Other command lines are not interpreted ([None]): short options, words that
    are no option, and abbreviated names. *)
Fixpoint find_argument (args : list (cstr * Z * Z)) (key : cstr) : option (Z * Z) :=
  match args with
  | [] => None
  | (name, has_arg, val) :: r =>
      if bool_decide (name = key) then Some (has_arg, val) else find_argument r key
  end.

Definition abbreviation (name : cstr) : bool :=
  existsb (fun e => bool_decide (take (length name) e.1.1 = name)) ta_cli_arguments_g.

(** A word after its [--], cut at the first [=] (61). *)
Fixpoint split_word (w : cstr) : cstr * option cstr :=
  match w with
  | [] => ([], None)
  | c :: r => if c =? 61 then ([], Some r) else let '(n, v) := split_word r in (c :: n, v)
  end.

Fixpoint getopt_long (words : list cstr) : option (list (Z * option cstr)) :=
  match words with
  | [] => Some []
  | (45 :: 45 :: w) :: rest =>
      let '(name, value) := split_word w in
      match find_argument ta_cli_arguments_g name, value with
      | None, _ => if abbreviation name then None else cons (63, None) <$> getopt_long rest
      | Some (has_arg, val), Some v =>
          cons (if has_arg =? no_argument then (63, None) else (val, Some v)) <$> getopt_long rest
      | Some (has_arg, val), None =>
          if has_arg =? required_argument then
            match rest with
            | [] => Some [(63, None)]
            | v :: rest => cons (val, Some v) <$> getopt_long rest
            end
          else cons (val, None) <$> getopt_long rest
      end
  | _ => None
  end.

(** A configuration file with the given keys and values, as the tokens the
    scanner finds in it. *)
Definition pair_tokens (p : cstr * cstr) : list yaml_token :=
  [YAML_KEY_TOKEN; YAML_SCALAR_TOKEN p.1; YAML_VALUE_TOKEN; YAML_SCALAR_TOKEN p.2].
Definition tokens_of (pairs : list (cstr * cstr)) : list yaml_token :=
  match pairs with
  | [] => [YAML_STREAM_START_TOKEN; YAML_STREAM_END_TOKEN]
  | _ => YAML_STREAM_START_TOKEN :: YAML_BLOCK_MAPPING_START_TOKEN ::
           concat (pair_tokens <$> pairs) ++ [YAML_BLOCK_END_TOKEN; YAML_STREAM_END_TOKEN]
  end.

(** The same setting as a word of the command line; an option that takes no
    argument is given without one. *)
Definition takes_argument (k : cstr) : bool :=
  match find_argument ta_cli_arguments_g k with
  | Some (has_arg, _) => negb (has_arg =? no_argument)
  | None => true
  end.
Definition option_word (p : cstr * cstr) : cstr :=
  45 :: 45 :: p.1 ++ (if takes_argument p.1 then 61 :: p.2 else []).
Definition opts_of (pairs : list (cstr * cstr)) : list (Z * option cstr) :=
  (fun p => (get_conf_key p.1, if takes_argument p.1 then Some p.2 else None)) <$> pairs.

(** A key that sets something: in the table, and not help, version or config. *)
Definition setting_key (k : cstr) : Prop :=
  exists has_arg val, find_argument ta_cli_arguments_g k = Some (has_arg, val) /\
    val ∉ [104; 118; CONF_CLI].

Lemma find_argument_elem args k h v :
  find_argument args k = Some (h, v) -> (k, h, v) ∈ args /\ conf_key_loop args k = v.
Proof.
  induction args as [|[[n h'] v'] r IH]; [done|]. cbn [find_argument conf_key_loop].
  case_bool_decide as E.
  - subst n. intros [= -> ->]. split; [left|done].
  - intros Hf. destruct (IH Hf). split; [by right|done].
Qed.

Lemma find_argument_none args k : find_argument args k = None -> conf_key_loop args k = 0.
Proof.
  induction args as [|[[n h'] v'] r IH]; [done|]. cbn [find_argument conf_key_loop].
  by case_bool_decide.
Qed.

(** What every entry of the table satisfies. *)
Lemma table_entries : Forall (fun '(k, h, v) => 61 ∉ k /\ v ∉ [58; 63] /\
    (h = no_argument -> v ∉ [104; 118; CONF_CLI] -> v ∈ [PROXY_API; NO_GTTA; QUIET; RUNTIME_CLI]))
  ta_cli_arguments_g.
Proof. apply (bool_decide_unpack _). vm_compute. exact I. Qed.

Lemma setting_key_inv k : setting_key k ->
  exists h v, find_argument ta_cli_arguments_g k = Some (h, v) /\ get_conf_key k = v /\ 61 ∉ k /\
    v ∉ [58; 63] /\ v ∉ [104; 118; CONF_CLI] /\
    (h = no_argument -> v ∈ [PROXY_API; NO_GTTA; QUIET; RUNTIME_CLI]).
Proof.
  intros (h & v & Hf & Hv). exists h, v. destruct (find_argument_elem _ _ _ _ Hf) as [He Hk].
  pose proof (proj1 (Forall_forall _ _) table_entries _ He) as (H1 & H2 & H3).
  repeat (split; [done|]). auto.
Qed.

(** A switch does the same with and without a value. *)
Lemma switch_value key value : key ∈ [PROXY_API; NO_GTTA; QUIET; RUNTIME_CLI] ->
  cli_core_set key (Some value) = cli_core_set key None.
Proof. rewrite !elem_of_cons. intros [-> | [-> | [-> | [-> | Hn]]]]; try done. inversion Hn. Qed.

Lemma setting_same p : setting_key p.1 ->
  cli_core_set (get_conf_key p.1) (if takes_argument p.1 then Some p.2 else None) =
  cli_core_set (get_conf_key p.1) (Some p.2).
Proof.
  intros (h & v & Hf & -> & _ & _ & _ & Hn)%setting_key_inv. unfold takes_argument. rewrite Hf.
  destruct (Z.eqb_spec h no_argument) as [Hh|]; [|done]. simpl. symmetry. apply switch_value. auto.
Qed.

Lemma split_word_name k r : 61 ∉ k -> split_word (k ++ 61 :: r) = (k, Some r) /\ split_word k = (k, None).
Proof.
  induction k as [|c k IH]; intros Hk; [done|]. rewrite not_elem_of_cons in Hk. destruct Hk as [Hc Hk].
  destruct (IH Hk) as [H1 H2]. simpl. rewrite (proj2 (Z.eqb_neq c 61)) by congruence.
  by rewrite H1, H2.
Qed.

Lemma getopt_settings pairs : Forall (fun p => setting_key p.1) pairs ->
  getopt_long (option_word <$> pairs) = Some (opts_of pairs).
Proof.
  induction 1 as [|p pairs Hp _ IH]; [done|].
  destruct (setting_key_inv _ Hp) as (h & v & Hf & Hk & Heq & _).
  unfold opts_of. cbn [fmap list_fmap]. unfold option_word at 1. cbn [getopt_long].
  destruct (split_word_name p.1 p.2 Heq) as [S1 S2].
  rewrite Hk. unfold takes_argument. rewrite Hf.
  destruct (Z.eqb_spec h no_argument) as [->|Hh]; cbn [negb].
  - rewrite app_nil_r, S2, Hf. cbn. by rewrite IH.
  - rewrite S1, Hf. rewrite (proj2 (Z.eqb_neq _ _) Hh). by rewrite IH.
Qed.

Lemma file_pairs_cli pairs : Forall (fun p => setting_key p.1) pairs ->
  forall rest st key (c : cfg db),
  (forall st key c', file_init_tokens fs max_tpool connect lock_rc rest st key c' = Some (SC_OK, c')) ->
  file_init_tokens fs max_tpool connect lock_rc (concat (pair_tokens <$> pairs) ++ rest) st key c =
    match ta_core_cli_init (opts_of pairs) c with
    | Some (inl s, c') => Some (s, c')
    | _ => None
    end.
Proof.
  induction 1 as [|p pairs Hp _ IH]; intros rest st key c Hrest; [apply Hrest|].
  pose proof (setting_same p Hp) as Hs.
  destruct (setting_key_inv _ Hp) as (h & v & _ & Hk & _ & Hv1 & Hv2 & _).
  apply not_elem_of_cons in Hv1 as [H1 Hv1]. apply not_elem_of_cons in Hv1 as [H2 _].
  rewrite !not_elem_of_cons in Hv2. destruct Hv2 as (H3 & H4 & H5 & _).
  cbn [fmap list_fmap concat]. rewrite <- app_assoc.
  change (file_init_tokens _ _ _ _ (pair_tokens p ++ ?r) st key c) with
    ((ret ← cli_core_set (get_conf_key p.1) (Some p.2);
      if negb (ret =? SC_OK) then mret ret
      else file_init_tokens fs max_tpool connect lock_rc r 1 (get_conf_key p.1)) c).
  unfold Config.ta_core_cli_init, opts_of in *. cbn [fmap list_fmap ta_core_cli_init_loop].
  rewrite Hs, Hk, (proj2 (Z.eqb_neq _ _) H1), (proj2 (Z.eqb_neq _ _) H2),
    (proj2 (Z.eqb_neq _ _) H3), (proj2 (Z.eqb_neq _ _) H4), (proj2 (Z.eqb_neq _ _) H5).
  unfold mbind at 1 2, comp_mbind at 1 2.
  destruct (cli_core_set v (Some p.2) c) as [[ret c']|]; [|done].
  destruct (Z.eqb_spec ret SC_OK) as [->|]; [|done]. cbn [negb]. by apply IH.
Qed.

Lemma file_tokens_cli pairs st key (c : cfg db) : Forall (fun p => setting_key p.1) pairs ->
  file_init_tokens fs max_tpool connect lock_rc (tokens_of pairs) st key c =
    match ta_core_cli_init (opts_of pairs) c with
    | Some (inl s, c') => Some (s, c')
    | _ => None
    end.
Proof.
  intros Hp. destruct pairs as [|p pairs]; [done|].
  change (tokens_of (p :: pairs)) with (YAML_STREAM_START_TOKEN :: YAML_BLOCK_MAPPING_START_TOKEN ::
    concat (pair_tokens <$> (p :: pairs)) ++ [YAML_BLOCK_END_TOKEN; YAML_STREAM_END_TOKEN]).
  cbn [file_init_tokens]. by apply file_pairs_cli.
Qed.

(** C30 A configuration file is worth the command line: a file whose block
    mapping holds options of the table (other than help, version and config),
    each with a scalar, leaves the same configuration and returns the same
    status as the words [--key=value] in the same order; for an option that
    takes no argument the word is [--key], and the scalar of the file does not
    matter.  The words are what [getopt_long] reads as those options. *)
Theorem config_file_equals_cli path pairs yaml (c : cfg db) :
  Forall (fun p => setting_key p.1) pairs ->
  path <> [] -> strlen path < FILE_PATH_SIZE -> yaml path = Some (tokens_of pairs) ->
  getopt_long (option_word <$> pairs) = Some (opts_of pairs) /\
  ta_core_file_init true yaml [(CONF_CLI, Some path)] c =
    match ta_core_cli_init (opts_of pairs)
            (mkCfg (with_conf_file path (c_core c)) (c_errno c) (c_env c)) with
    | Some (inl s, c') => Some (s, c')
    | _ => None
    end.
Proof.
  intros Hp Hne Hlen Hy. split; [by apply getopt_settings|].
  rewrite <- (file_tokens_cli pairs 0 (-1) _ Hp).
  unfold Config.ta_core_file_init. unfold mbind at 1, comp_mbind at 1, upd, modify. cbn [negb].
  cbn [file_init_scan]. change (CONF_CLI =? 58) with false. change (CONF_CLI =? 63) with false.
  change (CONF_CLI =? CONF_CLI) with true. cbn iota.
  assert (forall c0 : cfg db, cli_core_set CONF_CLI (Some path) c0 =
    Some (SC_OK, mkCfg (with_conf_file path (c_core c0)) (c_errno c0) (c_env c0))) as Hset.
  { intros c0. change (cli_core_set CONF_CLI (Some path) c0) with
      ((if strlen path <? FILE_PATH_SIZE
        then _ ← upd (with_conf_file path); mret SC_OK else undefined : comp (cfg db) status_t) c0).
    by rewrite (proj2 (Z.ltb_lt _ _)). }
  unfold mbind, comp_mbind, gets. rewrite Hset. cbn.
  rewrite Hy. unfold strlen. destruct path; [done|]. done.
Qed.

(** A key that is in no entry is the exception: a configuration file with it
    succeeds and changes nothing ([get_conf_key] gives 0, which [cli_core_set]
    does not know), the same word on the command line is
    [SC_CONF_UNKNOWN_OPTION]. *)
Theorem unknown_key_accepted k v (c : cfg db) :
  find_argument ta_cli_arguments_g k = None -> abbreviation k = false -> 61 ∉ k ->
  file_init_tokens fs max_tpool connect lock_rc (tokens_of [(k, v)]) 0 (-1) c = Some (SC_OK, c) /\
  getopt_long [option_word (k, v)] = Some [(63, None)] /\
  ta_core_cli_init [(63, None)] c = Some (inl SC_CONF_UNKNOWN_OPTION, c).
Proof.
  intros Hf Ha Hk. split; [|split; [|done]].
  - change (file_init_tokens _ _ _ _ (tokens_of [(k, v)]) 0 (-1) c) with
      ((ret ← cli_core_set (get_conf_key k) (Some v);
        if negb (ret =? SC_OK) then mret ret
        else file_init_tokens fs max_tpool connect lock_rc [YAML_BLOCK_END_TOKEN; YAML_STREAM_END_TOKEN]
               1 (get_conf_key k)) c).
    unfold get_conf_key. by rewrite (find_argument_none _ _ Hf).
  - unfold option_word, takes_argument. cbn [fst snd]. rewrite Hf. cbn [getopt_long].
    rewrite (proj1 (split_word_name k v Hk)), Hf, Ha. done.
Qed.

(** An unknown option is not reported when a valid one follows it: the
    status of the last option processed wins. *)
Theorem unknown_option_forgotten host opts (c : cfg db) :
  ta_core_cli_init ((63, None) :: (TA_HOST_CLI, Some host) :: opts) c =
  ta_core_cli_init ((TA_HOST_CLI, Some host) :: opts) c /\
  ta_core_cli_init [(63, None)] c = Some (inl SC_CONF_UNKNOWN_OPTION, c).
Proof. by split. Qed.

End Theorems.

(** *** Reading the certificate *)

Lemma read_ca_loop_short file : forall i written,
  Forall (fun c => 0 <= c < 255) file -> 0 <= i -> i + Z.of_nat (length file) < CA_BUFFER_SIZE ->
  read_ca_loop file i CA_BUFFER_SIZE 1 written = Some (rev written ++ file).
Proof.
  induction file as [|c r IH]; intros i written Hf Hi Hlen; simpl.
  - simpl in Hlen. rewrite (proj2 (Z.ltb_lt i CA_BUFFER_SIZE)) by lia. by rewrite app_nil_r.
  - inversion Hf as [|? ? Hc Hr]; subst. cbn [length] in Hlen. rewrite Nat2Z.inj_succ in Hlen.
    destruct (Z.eqb_spec (i8 c) (-1)) as [E|_].
    { unfold swrap, uwrap in E. rewrite Z.mod_small in E by lia.
      destruct (c <? 2 ^ (8 - 1)); lia. }
    rewrite (proj2 (Z.ltb_lt i CA_BUFFER_SIZE)) by lia. cbn [negb].
    rewrite (proj2 (Z.ltb_lt (i + 1) CA_BUFFER_SIZE)) by lia. cbn [negb].
    rewrite IH by (done || lia). simpl. by rewrite <- app_assoc.
Qed.

Lemma read_ca_loop_long file : forall i written,
  Forall (fun c => 0 <= c < 255) file -> 0 <= i < CA_BUFFER_SIZE ->
  CA_BUFFER_SIZE <= i + Z.of_nat (length file) ->
  read_ca_loop file i CA_BUFFER_SIZE 1 written = None.
Proof.
  induction file as [|c r IH]; intros i written Hf Hi Hlen; [simpl in Hlen; lia|].
  cbn [read_ca_loop length] in *.
  inversion Hf as [|? ? Hc Hr]; subst. rewrite Nat2Z.inj_succ in Hlen.
  destruct (Z.eqb_spec (i8 c) (-1)) as [E|_].
  { unfold swrap, uwrap in E. rewrite Z.mod_small in E by lia.
    destruct (c <? 2 ^ (8 - 1)); lia. }
  rewrite (proj2 (Z.ltb_lt i CA_BUFFER_SIZE)) by lia. cbn [negb].
  destruct (Z.ltb_spec (i + 1) CA_BUFFER_SIZE) as [Hlt|Hge]; cbn [negb].
  - apply IH; [done|lia|lia].
  - assert (i + 1 = CA_BUFFER_SIZE) as -> by lia.
    destruct r as [|c' r']; [reflexivity|]. cbn [read_ca_loop].
    inversion Hr as [|? ? Hc' _]; subst.
    destruct (Z.eqb_spec (i8 c') (-1)); reflexivity.
Qed.

(** [read_ca_pem] returns the contents of a certificate of less than 2048
    bytes, and writes beyond its array for any longer one: the first
    reallocation asks for the size the array already has. *)
Theorem read_ca_pem_spec file :
  Forall (fun c => 0 <= c < 255) file ->
  read_ca_pem (Some file) = if Z.of_nat (length file) <? CA_BUFFER_SIZE then Some file else None.
Proof.
  intros Hf. unfold read_ca_pem.
  destruct (Z.ltb_spec (Z.of_nat (length file)) CA_BUFFER_SIZE).
  - by rewrite read_ca_loop_short by (done || lia).
  - apply read_ca_loop_long; [done|unfold CA_BUFFER_SIZE in *; lia|lia].
Qed.

(** ** Witnesses *)
Module ConfigWitness.
Import RedisModel.

Definition no_files : cstr -> option (list Z) := fun _ => None.
Definition local_redis : cstr -> Z -> @Backend.connect_result db :=
  fun _ _ => Backend.Connected ∅.
Definition zero_core : ta_core_t :=
  mkCore (mkTaConf [] [] 0 [] [] 0 0 0 []) (mkCacheConf [] 0 [] [] [] [] 0 false 0)
    (mkIotaConf 0 0 [] []) (mkService [] 0 []) [].
Definition start : cfg db := mkCfg zero_core false (Backend.mkEnv false ∅).
Definition defaults : cfg db :=
  mkCfg (default_core (lit "/tmp/mam_bin_a") [] zero_core) false (Backend.mkEnv false ∅).

Lemma configure_well_formed_witness :
  exists r c', configure no_files 3 local_redis 0 (lit "/tmp/mam_bin_a") [] true (fun _ => None)
    [(MWM_CLI, Some (lit "300")); (NO_GTTA, None)] start = Some (r, c') /\ core_wf (c_core c').
Proof.
  eexists _, _. split; [vm_compute; reflexivity|].
  eapply (configure_well_formed no_files 3 local_redis 0 (lit "/tmp/mam_bin_a") [] true
    (fun _ => None) [(MWM_CLI, Some (lit "300")); (NO_GTTA, None)] start);
    [by vm_compute|by vm_compute|vm_compute; reflexivity].
Defined.

Lemma gtta_cannot_be_disabled_witness :
  exists r c', configure no_files 3 local_redis 0 (lit "/tmp/mam_bin_a") [] true (fun _ => None)
    [(NO_GTTA, None)] start = Some (r, c') /\
    is_option_enabled (ta_conf (c_core c')) CLI_GTTA = true.
Proof.
  eexists _, _. split; [vm_compute; reflexivity|].
  eapply (gtta_cannot_be_disabled no_files 3 local_redis 0 (lit "/tmp/mam_bin_a") [] true
    (fun _ => None) [(NO_GTTA, None)] start). vm_compute. reflexivity.
Defined.

Lemma numeric_options_witness :
  cli_core_set no_files 3 local_redis 0 MWM_CLI (Some (dec_nat 300)) defaults =
    Some (SC_OK, mkCfg (with_iota_conf (set_mwm 44) (c_core defaults)) false (c_env defaults)).
Proof.
  destruct (numeric_options no_files 3 local_redis 0 300 defaults) as (_ & H & _);
    [by vm_compute|reflexivity|exact H].
Defined.

Lemma errno_is_sticky_witness :
  exists c1, cli_core_set no_files 3 local_redis 0 TA_PORT_CLI
      (Some (lit "99999999999999999999")) defaults = Some (SC_OK, c1) /\
    parse_long false (dec_nat 9) 0 255 c1 = Some (None, c1).
Proof.
  destruct (errno_is_sticky no_files 3 local_redis 0 (lit "99999999999999999999") false 9 0 255
    defaults) as (c1 & H1 & _ & H2); [reflexivity|]. exists c1. exact (conj H1 H2).
Defined.

Lemma node_hosts_option_witness :
  exists c', cli_core_set no_files 3 local_redis 0 NODE_HOST_CLI (Some (lit "a.org,b.org")) defaults
      = Some (SC_OK, c') /\ http_host (iota_service (c_core c')) = lit "a.org".
Proof.
  destruct (node_hosts_option no_files 3 local_redis 0 [lit "a.org"; lit "b.org"] defaults)
    as (c' & H1 & _ & H2); [|done|reflexivity|exists c'; exact (conj H1 H2)].
  repeat constructor; first [discriminate | vm_compute; set_solver].
Defined.

Definition some_settings : list (cstr * cstr) :=
  [(lit "ta_port", lit "80"); (lit "quiet", lit "on"); (lit "mwm", lit "9")].

Lemma config_file_equals_cli_witness :
  exists c', ta_core_file_init no_files 3 local_redis 0 true (fun _ => Some (tokens_of some_settings))
      [(CONF_CLI, Some (lit "ta.yml"))] defaults = Some (SC_OK, c') /\
    getopt_long [lit "--ta_port=80"; lit "--quiet"; lit "--mwm=9"] = Some (opts_of some_settings) /\
    ta_port (ta_conf (c_core c')) = 80 /\
    is_option_enabled (ta_conf (c_core c')) CLI_QUIET_MODE = true.
Proof.
  destruct (config_file_equals_cli no_files 3 local_redis 0 (lit "ta.yml") some_settings
      (fun _ => Some (tokens_of some_settings)) defaults) as [Hg Hf];
    [|done|by vm_compute|reflexivity|].
  { repeat constructor; eexists _, _; (split; [vm_compute; reflexivity|]); vm_compute; set_solver. }
  eexists. split; [rewrite Hf; vm_compute; reflexivity|].
  split; [exact Hg|]. split; reflexivity.
Defined.

Lemma unknown_key_witness :
  file_init_tokens no_files 3 local_redis 0 (tokens_of [(lit "ta-port", lit "80")]) 0 (-1) defaults
    = Some (SC_OK, defaults).
Proof.
  destruct (unknown_key_accepted no_files 3 local_redis 0 (lit "ta-port") (lit "80") defaults)
    as [H _]; [reflexivity|reflexivity|vm_compute; set_solver|exact H].
Defined.

Lemma read_ca_pem_spec_witness : read_ca_pem (Some (replicate 2048 65)) = None.
Proof.
  rewrite (read_ca_pem_spec (replicate 2048 65)); [reflexivity|].
  apply Forall_replicate. lia.
Defined.

End ConfigWitness.
