(* ===== verification/Serializer.v ===== *)
(** * Requests and responses as JSON
    ([accelerator/core/serializer/ser_helper.c], [serializer.c])

    A deserializer maps the text of a request to a status and the request
    object; a serializer maps a response object to a status and the text.  The
    result is in [option]: [None] is an access the C code leaves undefined, such
    as reading 81 trytes from a shorter string or using a NULL [valuestring].
    Failing allocations are not modelled.  The functions of [MQTT_ENABLE] builds
    are included, [db_identity_serialize] is not. *)

From S2P Require Import Prelude TaErrors Utils Json Cache World Config.

(** [n] characters starting at a C string, whose object ends behind its NUL. *)
Definition read_n (s : cstr) (n : nat) : option (list Z) :=
  if decide (n <= S (length s))%nat then Some (take n (s ++ [0])) else None.

Definition N_TAG : nat := Z.to_nat NUM_TRYTES_TAG.
Definition N_HASH : nat := Z.to_nat NUM_TRYTES_HASH.
Definition N_TXN : nat := Z.to_nat NUM_TRYTES_SERIALIZED_TRANSACTION.

(** ** [ser_helper.c] *)

Definition valid_tryte_char (c : Z) : bool := ((65 <=? c) && (c <=? 90)) || (c =? 57).

(** [valid_tryte]; characters above 127 are negative [char]s and fail. *)
Fixpoint valid_tryte (s : cstr) (len : nat) : bool :=
  match len, s with
  | O, _ => true
  | S n, c :: r => if valid_tryte_char c then valid_tryte r n else false
  | S _, [] => false
  end.

Fixpoint string_items (l : list json) (ut : list cstr) : status_t * list cstr :=
  match l with
  | [] => (SC_OK, ut)
  | j :: r => match valuestring j with
              | Some s => string_items r (ut ++ [s])
              | None => (SC_SERIALIZER_JSON_PARSE, ut)
              end
  end.

Definition ta_json_string_array_to_string_utarray (obj : json) (obj_name : cstr) (ut : list cstr)
  : status_t * list cstr :=
  match get_item obj obj_name ≫= array_items with
  | Some l => string_items l ut
  | None => (SC_SERIALIZER_JSON_PARSE, ut)
  end.

Section Serializers.
Context {lib : IotaLib} {txt : JsonText}.

(** The trytes of a field, as the C string the serializers build. *)
Definition tryte_string (n : nat) (t : trits) : cstr := str_of_buf (flex_trits_to_trytes n t).2.

(** The loop of [ta_hash243_stack_to_json_array] and
    [ta_hash243_queue_to_json_array]. *)
Fixpoint hashes_to_items (l : list trits) (acc : list json) : status_t * list json :=
  match l with
  | [] => (SC_OK, acc)
  | h :: r =>
      if negb ((flex_trits_to_trytes N_HASH h).1 =? 0)
      then hashes_to_items r (acc ++ [JString (tryte_string N_HASH h)])
      else (SC_CCLIENT_INVALID_FLEX_TRITS, acc)
  end.

Definition ta_hash243_stack_to_json_array (stack : list trits) (root : list json)
  : status_t * list json :=
  match stack with [] => (SC_CCLIENT_NOT_FOUND, root) | _ => hashes_to_items stack root end.

Definition ta_hash243_queue_to_json_array (queue : list trits) (root : list json)
  : status_t * list json :=
  match queue with [] => (SC_CCLIENT_NOT_FOUND, root) | _ => hashes_to_items queue root end.

Fixpoint items_to_hashes (l : list json) (queue : list trits) : option (list trits) :=
  match l with
  | [] => Some queue
  | j :: r =>
      match valuestring j with
      | Some s => t ← read_n s N_HASH;
                  items_to_hashes r (queue ++ [flex_trits_from_trytes N_HASH t])
      | None => items_to_hashes r queue
      end
  end.

Definition ta_json_array_to_hash243_queue (obj : json) (obj_name : cstr) (queue : list trits)
  : option (status_t * list trits) :=
  match get_item obj obj_name with
  | None => Some (SC_SERIALIZER_NULL, queue)
  | Some j =>
      match array_items j with
      | Some l => q ← items_to_hashes l queue; Some (SC_OK, q)
      | None => Some (SC_SERIALIZER_JSON_PARSE, queue)
      end
  end.

Fixpoint items_to_txns (l : list json) (array : list trits) : status_t * list trits :=
  match l with
  | [] => (SC_OK, array)
  | j :: r =>
      match valuestring j with
      | Some s =>
          if negb (strlen s =? NUM_TRYTES_SERIALIZED_TRANSACTION)
          then (SC_SERIALIZER_INVALID_REQ, array)
          else items_to_txns r (array ++ [flex_trits_from_trytes N_TXN s])
      | None => items_to_txns r array
      end
  end.

Definition ta_json_array_to_hash8019_array (obj : json) (obj_name : cstr) (array : list trits)
  : status_t * list trits :=
  match get_item obj obj_name ≫= array_items with
  | None => (SC_CCLIENT_JSON_PARSE, array)
  | Some l => items_to_txns l array
  end.

Fixpoint txns_to_items (array : list trits) (acc : list json) : status_t * list json :=
  match array with
  | [] => (SC_OK, acc)
  | t :: r =>
      if (flex_trits_to_trytes N_TXN t).1 =? 0 then (SC_CCLIENT_FLEX_TRITS, acc)
      else txns_to_items r (acc ++ [JString (tryte_string N_TXN t)])
  end.

(** An empty array adds nothing to the object. *)
Definition ta_hash8019_array_to_json_array (array : list trits) (obj_name : cstr) (root : json)
  : status_t * json :=
  match array with
  | [] => (SC_OK, root)
  | _ => let '(ret, items) := txns_to_items array [] in
         (ret, add_item root obj_name (JArray items))
  end.

(** [None] is a NULL transaction. *)
Definition ta_iota_transaction_to_json_object (txn : option iota_transaction_t) (root : json)
  : status_t * json :=
  match txn with
  | None => (SC_CCLIENT_NOT_FOUND, root)
  | Some txn =>
      let j := add_string root "hash" (tryte_string N_HASH (transaction_hash txn)) in
      let j := add_string j "signature_and_message_fragment"
                 (tryte_string (Z.to_nat NUM_TRYTES_SIGNATURE) (transaction_message txn)) in
      let j := add_string j "address" (tryte_string N_HASH (transaction_address txn)) in
      let j := add_number j "value" (transaction_value txn) in
      let j := add_string j "obsolete_tag" (tryte_string N_TAG (transaction_obsolete_tag txn)) in
      let j := add_number j "timestamp" (transaction_timestamp txn) in
      let j := add_number j "current_index" (transaction_current_index txn) in
      let j := add_number j "last_index" (transaction_last_index txn) in
      let j := add_string j "bundle_hash" (tryte_string N_HASH (transaction_bundle txn)) in
      let j := add_string j "trunk_transaction_hash" (tryte_string N_HASH (transaction_trunk txn)) in
      let j := add_string j "branch_transaction_hash" (tryte_string N_HASH (transaction_branch txn)) in
      let j := add_string j "tag" (tryte_string N_TAG (transaction_tag txn)) in
      let j := add_number j "attachment_timestamp" (transaction_attachment_timestamp txn) in
      let j := add_number j "attachment_timestamp_lower_bound"
                 (transaction_attachment_timestamp_lower txn) in
      let j := add_number j "attachment_timestamp_upper_bound"
                 (transaction_attachment_timestamp_upper txn) in
      let j := add_string j "nonce"
                 (tryte_string (Z.to_nat NUM_TRYTES_NONCE) (transaction_nonce txn)) in
      (SC_OK, j)
  end.

Definition txn_object (txn : iota_transaction_t) : json :=
  (ta_iota_transaction_to_json_object (Some txn) (JObject [])).2.

Fixpoint ta_transaction_array_to_json_array (txns : list iota_transaction_t) (root : list json)
  : status_t * list json :=
  match txns with
  | [] => (SC_OK, root)
  | txn :: r =>
      let '(ret, obj) := ta_iota_transaction_to_json_object (Some txn) (JObject []) in
      if negb (ret =? SC_OK) then (ret, root)
      else ta_transaction_array_to_json_array r (root ++ [obj])
  end.

Definition ta_bundle_transaction_to_json_array (bundle : list iota_transaction_t)
    (obj_name : cstr) (root : json) : status_t * json :=
  let '(ret, items) := ta_transaction_array_to_json_array bundle [] in
  if negb (ret =? SC_OK) then (ret, root) else (ret, add_item root obj_name (JArray items)).

(** [text] is the caller's array; [strncpy] writes exactly [size] bytes. *)
Definition ta_json_get_string (obj : json) (obj_name : cstr) (text : list Z) (size : nat)
  : option (status_t * list Z) :=
  match get_item obj obj_name with
  | None => Some (SC_CCLIENT_JSON_KEY, text)
  | Some v =>
      match valuestring v with
      | Some s => t ← overwrite text 0 (strncpy_data s size); Some (SC_OK, t)
      | None => Some (SC_CCLIENT_JSON_PARSE, text)
      end
  end.

(** ** [serializer.c] *)

Definition DEFAULT_TAG : cstr := lit "POWEREDBYTANGLEACCELERATOR9".
Definition DEFAULT_ADDRESS : cstr :=
  lit "POWEREDBYTANGLEACCELERATOR9999999999999999999999999999999999999999999999999999999".
Definition DEFAULT_MSG : cstr := lit "ZBCDKDTCFDTCSCEAQCMDEAHDPCBDVC9DTCRAPCRCRCTC9DTCFDPCHDCDFD".
Definition DEFAULT_MSG_LEN : Z := 58.

Definition ta_get_info_serialize (ta_config : ta_config_t) (tangle : iota_config_t)
    (c : ta_cache_t) : status_t * cstr :=
  let j := add_string (JObject []) "name" (lit "tangle-accelerator") in
  let j := add_string j "host" (ta_host ta_config) in
  let j := add_string j "version" (ta_version ta_config) in
  let j := add_number j "port" (ta_port ta_config) in
  let j := add_number j "thread" (http_tpool_size ta_config) in
  let j := add_string j "redis_host" (cache_host c) in
  let j := add_number j "redis_port" (cache_port c) in
  let j := add_number j "milestone_depth" (milestone_depth tangle) in
  let j := add_number j "mwm" (mwm tangle) in
  let j := add_bool j "quiet" (is_option_enabled ta_config CLI_QUIET_MODE) in
  (SC_OK, cJSON_PrintUnformatted j).

(** [ta_send_transfer_req_t]: [tag] and [address] are queues. *)
Record ta_send_transfer_req_t := mkTransferReq {
  req_value : Z; req_tag : list trits; req_address : list trits;
  req_message : list Z; req_msg_len : Z }.

Definition ta_send_transfer_req_new (value0 len0 : Z) : ta_send_transfer_req_t :=
  mkTransferReq value0 [] [] (replicate (Z.to_nat NUM_TRYTES_MESSAGE) 0) len0.

Definition set_req_value v r :=
  mkTransferReq v (req_tag r) (req_address r) (req_message r) (req_msg_len r).
Definition push_req_address a r :=
  mkTransferReq (req_value r) (req_tag r) (req_address r ++ [a]) (req_message r) (req_msg_len r).
Definition push_req_tag t r :=
  mkTransferReq (req_value r) (req_tag r ++ [t]) (req_address r) (req_message r) (req_msg_len r).
Definition set_req_message m n r :=
  mkTransferReq (req_value r) (req_tag r) (req_address r) m n.

(** The member is present and its [valuestring] is not NULL. *)
Definition string_member (obj : json) (name : string) : option cstr :=
  get_item obj (lit name) ≫= valuestring.

(** [int len = strlen (...)]. *)
Definition text_len (s : cstr) : Z := i32 (strlen s).

(** The address of the request, or the status that ends the parsing. *)
Definition transfer_address_of (obj : json) : option (status_t + trits) :=
  match string_member obj "address" with
  | Some s =>
      if negb (valid_tryte s (Z.to_nat (text_len s)))
      then Some (inl SC_SERIALIZER_JSON_PARSE_NOT_TRYTE)
      else t ← read_n s N_HASH; Some (inr (flex_trits_from_trytes N_HASH t))
  | None => Some (inr (flex_trits_from_trytes N_HASH DEFAULT_ADDRESS))
  end.

Definition transfer_tag_of (obj : json) : option (status_t + trits) :=
  match string_member obj "tag" with
  | Some s =>
      if negb (valid_tryte s (Z.to_nat (text_len s)))
      then Some (inl SC_SERIALIZER_JSON_PARSE_NOT_TRYTE)
      else if text_len s <? NUM_TRYTES_TAG then
        '(_, buf) ← FillNines.fill_nines (Some (replicate 28 0)) (Some s) NUM_TRYTES_TAG;
        buf ← buf;
        Some (inr (flex_trits_from_trytes N_TAG (take N_TAG buf)))
      else t ← read_n s N_TAG; Some (inr (flex_trits_from_trytes N_TAG t))
  | None => Some (inr (flex_trits_from_trytes N_TAG DEFAULT_TAG))
  end.

(** [raw_message] after looking at the message format. *)
Definition raw_message_of (obj : json) : option bool :=
  match get_item obj (lit "message_format") with
  | None => Some true
  | Some j => s ← valuestring j; Some (negb (bool_decide (take 6 s = lit "trytes")))
  end.

Definition has_high_bit (s : cstr) : bool := existsb (fun c => negb (Z.land c 128 =? 0)) s.

(** The loop over the characters and [req->msg_len] count in [int]: twice the
    length may overflow, which is undefined, and the length of the [memcpy] is
    converted to an unsigned number, larger than any array when it is
    negative. *)
Definition transfer_message_of (obj : json) (raw : bool) (r : ta_send_transfer_req_t)
  : option (status_t * ta_send_transfer_req_t) :=
  match string_member obj "message" with
  | Some s =>
      let msg_len := text_len s in
      if has_high_bit (take (Z.to_nat msg_len) s) then Some (SC_SERIALIZER_JSON_PARSE_NOT_TRYTE, r)
      else if raw then
        let len := msg_len * 2 in
        if (len <? INT_MIN) || (len >? INT_MAX) then None
        else if len >? NUM_TRYTES_MESSAGE
        then Some (SC_SERIALIZER_MESSAGE_OVERRUN, set_req_message (req_message r) len r)
        else m ← overwrite (req_message r) 0 (ascii_to_trytes s); Some (SC_OK, set_req_message m len r)
      else if msg_len >? NUM_TRYTES_MESSAGE
      then Some (SC_SERIALIZER_MESSAGE_OVERRUN, set_req_message (req_message r) msg_len r)
      else if msg_len <? 0 then None
      else m ← overwrite (req_message r) 0 (take (Z.to_nat msg_len) s);
           Some (SC_OK, set_req_message m msg_len r)
  | None =>
      m ← overwrite (req_message r) 0 (flex_trits_from_trytes (Z.to_nat DEFAULT_MSG_LEN) DEFAULT_MSG);
      Some (SC_OK, set_req_message m (DEFAULT_MSG_LEN * 3) r)
  end.

Definition ta_send_transfer_req_deserialize (obj : option cstr) (r : ta_send_transfer_req_t)
  : option (status_t * ta_send_transfer_req_t) :=
  match obj with
  | None => Some (SC_SERIALIZER_NULL, r)
  | Some text =>
      match cJSON_Parse text with
      | None => Some (SC_SERIALIZER_JSON_PARSE, r)
      | Some j =>
          let r := set_req_value
                     (match get_item j (lit "value") with
                      | Some v => if is_number v then valueint v else 0
                      | None => 0 end) r in
          a ← transfer_address_of j;
          match a with
          | inl ret => Some (ret, r)
          | inr addr =>
              let r := push_req_address addr r in
              t ← transfer_tag_of j;
              match t with
              | inl ret => Some (ret, r)
              | inr tag =>
                  let r := push_req_tag tag r in
                  raw ← raw_message_of j;
                  transfer_message_of j raw r
              end
          end
      end
  end.

Definition ta_send_trytes_req_deserialize (obj : option cstr) (out : list trits)
  : status_t * list trits :=
  match obj with
  | None => (SC_SERIALIZER_NULL, out)
  | Some text =>
      match cJSON_Parse text with
      | None => (SC_SERIALIZER_JSON_PARSE, out)
      | Some j => ta_json_array_to_hash8019_array j (lit "trytes") out
      end
  end.

Definition ta_send_trytes_res_serialize (txns : list trits) : status_t * option cstr :=
  let '(ret, root) := ta_hash8019_array_to_json_array txns (lit "trytes") (JObject []) in
  if negb (ret =? SC_OK) then (ret, None) else (SC_OK, Some (cJSON_PrintUnformatted root)).

Definition ta_find_transaction_objects_req_deserialize (obj : option cstr) (hashes : list trits)
  : option (status_t * list trits) :=
  match obj with
  | None => Some (SC_SERIALIZER_NULL, hashes)
  | Some text =>
      match cJSON_Parse text with
      | None => Some (SC_SERIALIZER_JSON_PARSE, hashes)
      | Some j => ta_json_array_to_hash243_queue j (lit "hashes") hashes
      end
  end.

Definition ta_find_transaction_object_single_res_serialize (res : list iota_transaction_t)
  : status_t * option cstr :=
  let '(ret, root) := ta_iota_transaction_to_json_object (head res) (JObject []) in
  if negb (ret =? SC_OK) then (ret, None) else (SC_OK, Some (cJSON_PrintUnformatted root)).

Definition ta_find_transaction_objects_res_serialize (res : list iota_transaction_t)
  : status_t * option cstr :=
  let '(ret, items) := ta_transaction_array_to_json_array res [] in
  if negb (ret =? SC_OK) then (ret, None)
  else (SC_OK, Some (cJSON_PrintUnformatted (JArray items))).

(** A NULL queue is the empty queue. *)
Definition ta_find_transactions_by_tag_res_serialize (hashes : list trits)
  : status_t * option cstr :=
  match hashes with
  | [] => (SC_SERIALIZER_NULL, None)
  | _ => let '(ret, items) := ta_hash243_queue_to_json_array hashes [] in
         if negb (ret =? SC_OK) then (ret, None)
         else (SC_OK, Some (cJSON_PrintUnformatted (JArray items)))
  end.

(** [ta_send_transfer_res_t]; [res_txn_array] is [None] while nobody has set the
    pointer, which the constructor leaves uninitialised; [res_address] is the
    array of trytes, with or without a terminating NUL. *)
Record ta_send_transfer_res_t := mkTransferRes {
  res_hash : list trits; res_txn_array : option (list iota_transaction_t);
  res_uuid : option cstr; res_address : option (list Z) }.

Definition ta_send_transfer_res_new : ta_send_transfer_res_t := mkTransferRes [] None None None.

Definition ta_send_transfer_res_serialize (res : ta_send_transfer_res_t)
  : option (status_t * option cstr) :=
  match res_uuid res with
  | Some uuid =>
      addr ← res_address res ≫= c_string;
      let j := add_string (JObject []) "uuid" uuid in
      let j := add_string j "address" addr in
      Some (SC_OK, Some (cJSON_PrintUnformatted j))
  | None =>
      txns ← res_txn_array res;
      let '(ret, root) := ta_iota_transaction_to_json_object (head txns) (JObject []) in
      Some (if negb (ret =? SC_OK) then (ret, None)
            else (SC_OK, Some (cJSON_PrintUnformatted root)))
  end.

(** The three MQTT requests copy one string member. *)
Definition string_req_deserialize (name : string) (size : nat) (obj : option cstr) (out : list Z)
  : option (status_t * list Z) :=
  match obj with
  | None => Some (SC_SERIALIZER_NULL, out)
  | Some text =>
      match cJSON_Parse text with
      | None => Some (SC_SERIALIZER_JSON_PARSE, out)
      | Some j => ta_json_get_string j (lit name) out size
      end
  end.

(** [ID_LEN] of [connectivity/mqtt/mqtt_common.h]. *)
Definition ID_LEN : nat := 32.

Definition mqtt_device_id_deserialize := string_req_deserialize "device_id" (ID_LEN + 1).
Definition mqtt_tag_req_deserialize := string_req_deserialize "tag" (N_TAG + 1).
Definition mqtt_transaction_hash_req_deserialize := string_req_deserialize "hash" (N_HASH + 1).
Definition proxy_apis_command_req_deserialize := string_req_deserialize "command" 30.

(** The two indices are [None] until they are stored. *)
Definition get_node_status_milestone_deserialize (obj : option cstr)
  : status_t * option Z * option Z :=
  match obj with
  | None => (SC_SERIALIZER_NULL, None, None)
  | Some text =>
      match cJSON_Parse text with
      | None => (SC_SERIALIZER_JSON_PARSE, None, None)
      | Some j =>
          match get_item j (lit "latestMilestoneIndex") with
          | Some (JNumber _ as v) =>
              match get_item j (lit "latestSolidSubtangleMilestoneIndex") with
              | Some (JNumber _ as s) => (SC_OK, Some (valueint v), Some (valueint s))
              | _ => (SC_SERIALIZER_NULL, Some (valueint v), None)
              end
          | _ => (SC_SERIALIZER_NULL, None, None)
          end
      end
  end.

Definition get_node_status_res_serialize (status : status_t) : status_t * cstr :=
  let j := add_bool (JObject []) "status" (status =? SC_OK) in
  let j := if status =? SC_CCLIENT_FAILED_RESPONSE
           then add_string j "status_code" (lit "SC_CCLIENT_FAILED_RESPONSE")
           else if status =? SC_CORE_NODE_UNSYNC
           then add_string j "status_code" (lit "SC_CORE_NODE_UNSYNC") else j in
  (SC_OK, cJSON_PrintUnformatted j).

(** [strncpy] of 36 characters; [uuid] is the caller's array. *)
Definition fetch_buffered_request_status_req_deserialize (obj : option cstr) (uuid : list Z)
  : option (status_t * list Z) :=
  match obj with
  | None => Some (SC_SERIALIZER_NULL, uuid)
  | Some text =>
      match cJSON_Parse text with
      | None => Some (SC_SERIALIZER_JSON_PARSE, uuid)
      | Some j =>
          match get_item j (lit "uuid") with
          | None => Some (SC_OK, uuid)
          | Some v =>
              s ← valuestring v;
              u ← overwrite uuid 0 (strncpy_data s (Z.to_nat (UUID_STR_LEN - 1)));
              Some (SC_OK, u)
          end
      end
  end.

Inductive request_with_uuid_status_t := MAM_BUFREQ_UNSENT | MAM_BUFREQ_NOT_EXIST | MAM_BUFREQ_SENT.

#[export] Instance request_with_uuid_status_eq_dec : EqDecision request_with_uuid_status_t.
Proof. solve_decision. Defined.

Record ta_fetch_buffered_request_status_res_t := mkFetchRes {
  fetch_bundle : list iota_transaction_t;
  fetch_status : request_with_uuid_status_t;
  fetch_mam_result : option cstr }.

Definition ta_fetch_buffered_request_status_res_new : ta_fetch_buffered_request_status_res_t :=
  mkFetchRes [] MAM_BUFREQ_NOT_EXIST None.

Definition fetch_buffered_request_status_res_serialize
    (res : ta_fetch_buffered_request_status_res_t) : status_t * option cstr :=
  match fetch_status res with
  | MAM_BUFREQ_SENT =>
      match fetch_mam_result res with
      | Some s => (SC_OK, Some s)
      | None =>
          let '(ret, j) := ta_bundle_transaction_to_json_array (fetch_bundle res) (lit "bundle") (JObject []) in
          if negb (ret =? SC_OK) then (ret, None) else (SC_OK, Some (cJSON_PrintUnformatted j))
      end
  | MAM_BUFREQ_UNSENT =>
      (SC_OK, Some (cJSON_PrintUnformatted (add_string (JObject []) "status" (lit "unsent"))))
  | MAM_BUFREQ_NOT_EXIST =>
      (SC_OK, Some (cJSON_PrintUnformatted (add_string (JObject []) "status" (lit "not_exist"))))
  end.

End Serializers.

(** ** Properties *)
Section Properties.
Context {lib : IotaLib} {txt : JsonText}.

Lemma valid_tryte_all s : valid_tryte s (length s) = forallb valid_tryte_char s.
Proof. induction s as [|c r IH]; simpl; [done|]. by rewrite <- IH; destruct (valid_tryte_char c). Qed.

Lemma valid_tryte_cstr s : valid_tryte s (length s) = true -> is_cstr s.
Proof.
  rewrite valid_tryte_all. intros H. apply Forall_forall. intros c Hc.
  rewrite forallb_forall in H. specialize (H c (proj1 (list_elem_of_In _ _) Hc)).
  unfold valid_tryte_char in H. apply orb_true_iff in H as [H|H].
  - apply andb_true_iff in H as [H1 H2]. zb. lia.
  - zb. lia.
Qed.

Lemma is_cstr_no_nul s : is_cstr s -> 0 ∉ s.
Proof.
  intros H Hin. unfold is_cstr in H. rewrite Forall_forall in H. specialize (H 0 Hin). lia.
Qed.

Lemma read_n_exact s : read_n s (length s) = Some s.
Proof. unfold read_n. rewrite decide_True by lia. by rewrite take_app_length. Qed.

Lemma text_len_small s : strlen s < 2 ^ 30 -> text_len s = strlen s /\ Z.to_nat (text_len s) = length s.
Proof.
  intros Hs. assert (text_len s = strlen s) as ->
    by (apply swrap_small; unfold strlen in *; lia).
  split; [done|]. unfold strlen. lia.
Qed.

Lemma double_in_int n : 0 <= n < 2 ^ 30 -> (n * 2 <? INT_MIN) || (n * 2 >? INT_MAX) = false.
Proof.
  intros Hn. unfold INT_MIN, INT_MAX. apply orb_false_iff. rewrite Z.gtb_ltb.
  split; apply Z.ltb_ge; lia.
Qed.

(** *** What a transfer request promises *)

(** The member is a string and holds something that is no tryte. *)
Definition not_trytes (j : json) (name : string) : bool :=
  match string_member j name with Some s => negb (valid_tryte s (length s)) | None => false end.

(** The message is given as trytes. *)
Definition raw_trytes (j : json) : bool :=
  match raw_message_of j with Some raw => negb raw | None => false end.

(** What belongs into the message array, and its length in the unit of
    [msg_len]: trytes, but trits for the default message. *)
Definition message_trytes (j : json) : list Z :=
  match string_member j "message" with
  | Some s => if raw_trytes j then s else ascii_to_trytes s
  | None => flex_trits_from_trytes (Z.to_nat DEFAULT_MSG_LEN) DEFAULT_MSG
  end.
Definition message_size (j : json) : Z :=
  match string_member j "message" with
  | Some s => if raw_trytes j then strlen s else 2 * strlen s
  | None => 3 * DEFAULT_MSG_LEN
  end.

(** The status the contents of a request deserve. *)
Definition transfer_status (j : json) : status_t :=
  if not_trytes j "address" || not_trytes j "tag"
     || match string_member j "message" with Some s => has_high_bit s | None => false end
  then SC_SERIALIZER_JSON_PARSE_NOT_TRYTE
  else if message_size j >? NUM_TRYTES_MESSAGE then SC_SERIALIZER_MESSAGE_OVERRUN
  else SC_OK.

(** No string has 2^30 characters or more, an address of trytes has at least
    80, and the message format is a string. *)
Definition readable (j : json) : Prop :=
  Forall (fun name => forall s, string_member j name = Some s -> strlen s < 2 ^ 30)
    ["address"; "tag"; "message"]%string /\
  (forall s, string_member j "address" = Some s -> valid_tryte s (length s) = true -> (80 <= length s)%nat) /\
  raw_message_of j <> None.

Lemma readable_text j name s : readable j -> name ∈ ["address"; "tag"; "message"]%string ->
  string_member j name = Some s -> text_len s = strlen s /\ Z.to_nat (text_len s) = length s.
Proof.
  intros (Hs & _) Hn Hm. apply text_len_small. rewrite Forall_forall in Hs. by eapply Hs.
Qed.

Lemma transfer_address_run j : readable j ->
  exists t, transfer_address_of j =
    Some (if not_trytes j "address" then inl SC_SERIALIZER_JSON_PARSE_NOT_TRYTE else inr t).
Proof.
  intros Hr. unfold transfer_address_of, not_trytes.
  destruct (string_member j "address") as [s|] eqn:Es; [|by eexists].
  destruct (readable_text j "address" s Hr ltac:(set_solver) Es) as [_ ->].
  destruct (valid_tryte s (length s)) eqn:Ev; cbn [negb]; [|by exists []].
  unfold read_n. rewrite decide_True; [by eexists|].
  destruct Hr as (_ & Ha & _). specialize (Ha s Es Ev). change N_HASH with 81%nat. lia.
Qed.

Lemma transfer_tag_run j : readable j ->
  exists t, transfer_tag_of j =
    Some (if not_trytes j "tag" then inl SC_SERIALIZER_JSON_PARSE_NOT_TRYTE else inr t).
Proof.
  intros Hr. unfold transfer_tag_of, not_trytes.
  destruct (string_member j "tag") as [s|] eqn:Es; [|by eexists].
  destruct (readable_text j "tag" s Hr ltac:(set_solver) Es) as [Hl ->].
  destruct (valid_tryte s (length s)) eqn:Ev; cbn [negb]; [|by exists []].
  rewrite Hl. destruct (Z.ltb_spec (strlen s) NUM_TRYTES_TAG) as [Hlt|Hge].
  - rewrite FillNines.fill_nines_spec;
      [|done|by apply valid_tryte_cstr|unfold NUM_TRYTES_TAG in Hlt; lia].
    rewrite decide_True by done. bind_simpl. by eexists.
  - unfold read_n. rewrite decide_True; [by eexists|].
    unfold N_TAG, strlen, NUM_TRYTES_TAG in *. lia.
Qed.

Lemma transfer_message_run j raw r :
  (forall s, length (ascii_to_trytes s) = (2 * length s)%nat) ->
  (length (flex_trits_from_trytes (Z.to_nat DEFAULT_MSG_LEN) DEFAULT_MSG) <= length (req_message r))%nat ->
  readable j -> raw_message_of j = Some raw ->
  length (req_message r) = Z.to_nat NUM_TRYTES_MESSAGE ->
  exists r', transfer_message_of j raw r = Some
    (if match string_member j "message" with Some s => has_high_bit s | None => false end
     then SC_SERIALIZER_JSON_PARSE_NOT_TRYTE
     else if message_size j >? NUM_TRYTES_MESSAGE then SC_SERIALIZER_MESSAGE_OVERRUN else SC_OK, r') /\
    req_address r' = req_address r /\ req_tag r' = req_tag r /\
    length (req_message r') = length (req_message r) /\
    (match string_member j "message" with Some s => has_high_bit s | None => false end = false ->
     req_msg_len r' = message_size j /\
     (message_size j <= NUM_TRYTES_MESSAGE ->
      take (length (message_trytes j)) (req_message r') = message_trytes j)).
Proof.
  intros Ha Hd Hr Hraw Hl. unfold transfer_message_of, message_size, message_trytes, raw_trytes.
  rewrite Hraw.
  destruct (string_member j "message") as [s|] eqn:Es.
  - destruct (readable_text j "message" s Hr ltac:(set_solver) Es) as [E1 E2].
    destruct Hr as (Hs & _). apply Forall_lookup with (i := 2%nat) (x := "message"%string) in Hs; [|done].
    specialize (Hs s Es). rewrite E2, E1, take_ge by lia.
    destruct (has_high_bit s); [by eexists|].
    assert (0 <= strlen s) by (unfold strlen; lia).
    rewrite double_in_int by lia. rewrite (Z.mul_comm 2).
    destruct raw; cbn [negb].
    + destruct (Z.gtb_spec (strlen s * 2) NUM_TRYTES_MESSAGE); [eexists; repeat split; simpl; lia|].
      rewrite overwrite_start by (rewrite Ha, Hl; unfold strlen, NUM_TRYTES_MESSAGE in *; lia).
      eexists. split; [reflexivity|]. repeat split; cbn; [|by rewrite take_app_length].
      rewrite length_app, length_drop, Ha, Hl. unfold strlen, NUM_TRYTES_MESSAGE in *; lia.
    + destruct (Z.gtb_spec (strlen s) NUM_TRYTES_MESSAGE); [eexists; repeat split; simpl; lia|].
      rewrite (proj2 (Z.ltb_ge _ _)) by done.
      rewrite overwrite_start by (rewrite Hl; unfold strlen, NUM_TRYTES_MESSAGE in *; lia).
      eexists. split; [reflexivity|]. repeat split; cbn; [|by rewrite take_app_length].
      rewrite length_app, length_drop, Hl. unfold strlen, NUM_TRYTES_MESSAGE in *; lia.
  - rewrite overwrite_start by done. eexists. split; [reflexivity|].
    repeat split; cbn [set_req_message req_message].
    + rewrite length_app, length_drop. lia.
    + intros _. by rewrite take_app_length.
Qed.

(** C31 Whatever readable request a client sends, the deserializer returns, with
    the status the contents deserve: text that is no tryte string where trytes
    are expected and a message that would not fit the array (2187 trytes; two
    for each character) are refused, everything else is accepted.  An accepted
    request has exactly one address and one tag, its length is the message's and
    at most 2187, and the array of 2187 begins with the message.  The lengths
    are the C [int]s; readable is what keeps them, and the copies of 81 trytes
    of the address, defined. *)
Theorem transfer_req_well_formed text j v0 l0 :
  (forall s, length (ascii_to_trytes s) = (2 * length s)%nat) ->
  (length (flex_trits_from_trytes (Z.to_nat DEFAULT_MSG_LEN) DEFAULT_MSG) <= 2187)%nat ->
  cJSON_Parse text = Some j -> readable j ->
  exists r, ta_send_transfer_req_deserialize (Some text) (ta_send_transfer_req_new v0 l0) =
      Some (transfer_status j, r) /\
    (transfer_status j = SC_OK ->
     length (req_address r) = 1%nat /\ length (req_tag r) = 1%nat /\
     req_msg_len r = message_size j /\ 0 <= req_msg_len r <= NUM_TRYTES_MESSAGE /\
     length (req_message r) = Z.to_nat NUM_TRYTES_MESSAGE /\
     take (length (message_trytes j)) (req_message r) = message_trytes j).
Proof.
  intros Ha Hd Hp Hr. unfold ta_send_transfer_req_deserialize. rewrite Hp. unfold transfer_status.
  destruct (transfer_address_run j Hr) as [addr ->]. bind_simpl.
  destruct (not_trytes j "address"); cbn [orb]; [by eexists|].
  destruct (transfer_tag_run j Hr) as [tag ->]. bind_simpl.
  destruct (not_trytes j "tag"); cbn [orb]; [by eexists|].
  destruct (raw_message_of j) as [raw|] eqn:Hraw; [|by destruct Hr as (_ & _ & [])]. bind_simpl.
  match goal with |- context [transfer_message_of j raw ?r0] =>
    destruct (transfer_message_run j raw r0) as (r & -> & H1 & H2 & H3 & H4); [done| |done|done| |] end.
  1,2: cbn [push_req_tag push_req_address set_req_value ta_send_transfer_req_new req_message];
    by rewrite length_replicate.
  exists r. split; [by destruct (match string_member j "message" with Some _ => _ | None => _ end)|].
  destruct (match string_member j "message" with Some _ => _ | None => _ end); [done|].
  destruct (Z.gtb_spec (message_size j) NUM_TRYTES_MESSAGE) as [|Hle]; [done|]. intros _.
  destruct (H4 eq_refl) as [H5 H6]. rewrite H1, H2, H3, H5, (H6 Hle).
  repeat split; try done. unfold message_size, strlen, DEFAULT_MSG_LEN.
  destruct (string_member j "message") as [s|]; [destruct (raw_trytes j)|]; lia.
Qed.

(** The request of a client that names an address, a tag and a message. *)
Definition transfer_request (addr tag msg : cstr) : json :=
  JObject [(lit "address", JString addr); (lit "tag", JString tag); (lit "message", JString msg)].

Lemma members_of_request addr tag msg :
  string_member (transfer_request addr tag msg) "address" = Some addr /\
  string_member (transfer_request addr tag msg) "tag" = Some tag /\
  string_member (transfer_request addr tag msg) "message" = Some msg /\
  get_item (transfer_request addr tag msg) (lit "value") = None /\
  get_item (transfer_request addr tag msg) (lit "message_format") = None.
Proof. by repeat split. Qed.

Lemma transfer_request_ok addr tag msg :
  is_cstr addr -> is_cstr tag -> is_cstr msg -> json_ok (transfer_request addr tag msg) = true.
Proof.
  intros. simpl. rewrite !bool_decide_true; [done|..]; try done;
    vm_compute; repeat constructor; intuition discriminate.
Qed.

(** A client's transfer request is understood as meant: a request with an
    81-tryte address, a tag of at most 27 trytes and an ASCII message of at most
    1093 characters yields that address, the tag padded with nines, and the
    message converted to trytes. *)
Theorem transfer_req_functional addr tag msg v0 l0 :
  (forall s, length (ascii_to_trytes s) = (2 * length s)%nat) ->
  valid_tryte addr (length addr) = true -> length addr = N_HASH ->
  valid_tryte tag (length tag) = true -> strlen tag <= NUM_TRYTES_TAG ->
  Forall (fun c => 0 < c < 128) msg -> 2 * strlen msg <= NUM_TRYTES_MESSAGE ->
  ta_send_transfer_req_deserialize
      (Some (cJSON_PrintUnformatted (transfer_request addr tag msg)))
      (ta_send_transfer_req_new v0 l0) =
    Some (SC_OK, mkTransferReq 0
      [flex_trits_from_trytes N_TAG (FillNines.pad_nines tag)]
      [flex_trits_from_trytes N_HASH addr]
      (ascii_to_trytes msg ++ replicate (Z.to_nat NUM_TRYTES_MESSAGE - 2 * length msg) 0)
      (strlen msg * 2)).
Proof.
  intros Ha Hav Hal Htv Htl Hm Hml.
  destruct (members_of_request addr tag msg) as (M1 & M2 & M3 & M4 & M5).
  unfold ta_send_transfer_req_deserialize. rewrite parse_print.
  2:{ apply transfer_request_ok; [by apply valid_tryte_cstr|by apply valid_tryte_cstr|].
      eapply Forall_impl; [exact Hm|]. simpl. lia. }
  assert (strlen addr = 81) as Hs by (unfold strlen; rewrite Hal; reflexivity).
  destruct (text_len_small addr) as [_ Ta]; [lia|].
  destruct (text_len_small tag) as [Tl Tt]; [unfold NUM_TRYTES_TAG in *; lia|].
  destruct (text_len_small msg) as [Ml Mt]; [unfold NUM_TRYTES_MESSAGE in *; lia|].
  rewrite M4. unfold transfer_address_of. rewrite M1, Ta, Hav. cbn [negb].
  rewrite <- Hal, read_n_exact. bind_simpl.
  assert (transfer_tag_of (transfer_request addr tag msg) =
    Some (inr (flex_trits_from_trytes N_TAG (FillNines.pad_nines tag)))) as ->.
  { unfold transfer_tag_of. rewrite M2, Tt, Htv, Tl. cbn [negb].
    destruct (Z.ltb_spec (strlen tag) NUM_TRYTES_TAG) as [Hlt|Hge].
    - rewrite FillNines.fill_nines_spec;
        [|done|by apply valid_tryte_cstr|unfold NUM_TRYTES_TAG in Hlt; lia].
      rewrite decide_True by done. bind_simpl. do 3 f_equal.
      unfold FillNines.pad_nines, N_TAG, strlen in *.
      apply take_app_length'. rewrite length_app, length_replicate.
      unfold NUM_TRYTES_TAG in *. lia.
    - assert (length tag = N_TAG) as Hl by (unfold strlen, N_TAG, NUM_TRYTES_TAG in *; lia).
      rewrite <- Hl, read_n_exact. bind_simpl. do 3 f_equal.
      unfold FillNines.pad_nines. rewrite Hl. unfold N_TAG. rewrite Nat.sub_diag.
      by rewrite app_nil_r. }
  bind_simpl. unfold raw_message_of. rewrite M5. bind_simpl.
  unfold transfer_message_of. rewrite M3, Mt, Ml, take_ge by lia.
  assert (has_high_bit msg = false) as ->.
  { clear -Hm. induction Hm as [|c msg Hc _ IH]; [done|]. unfold has_high_bit in *. simpl.
    rewrite IH, orb_false_r. change 128 with (Z.shiftl 1 7).
    rewrite <- (Z.shiftl_0_r c), (land_shiftl_disj c 1 7 1) by lia. done. }
  rewrite double_in_int by (unfold strlen, NUM_TRYTES_MESSAGE in *; lia). cbn iota.
  rewrite Z.gtb_ltb. destruct (Z.ltb_spec NUM_TRYTES_MESSAGE (strlen msg * 2)); [lia|].
  unfold overwrite.
  cbn [push_req_tag push_req_address set_req_value ta_send_transfer_req_new req_message].
  rewrite length_replicate, Ha. unfold strlen in *.
  rewrite decide_True by (unfold NUM_TRYTES_MESSAGE in *; lia).
  bind_simpl. unfold set_req_message, push_req_tag, push_req_address, set_req_value.
  cbn [ta_send_transfer_req_new req_address req_tag req_message req_value app].
  by rewrite drop_replicate.
Qed.

(** An address shorter than 80 trytes makes the deserializer read beyond the
    string, and a message format that is not a string makes it compare with a
    NULL pointer. *)
Theorem transfer_req_undefined addr tag msg r :
  valid_tryte addr (length addr) = true -> (length addr < 80)%nat -> is_cstr tag -> is_cstr msg ->
  ta_send_transfer_req_deserialize
    (Some (cJSON_PrintUnformatted (transfer_request addr tag msg))) r = None /\
  ta_send_transfer_req_deserialize
    (Some (cJSON_PrintUnformatted (JObject [(lit "message_format", JNumber 1)]))) r = None.
Proof.
  intros Hv Hl Ht Hm. split.
  - unfold ta_send_transfer_req_deserialize. rewrite parse_print
      by (apply transfer_request_ok; [by apply valid_tryte_cstr|done|done]).
    destruct (members_of_request addr tag msg) as (M1 & _).
    destruct (text_len_small addr) as [_ Ta]; [unfold strlen; lia|].
    unfold transfer_address_of. rewrite M1, Ta, Hv. cbn [negb].
    unfold read_n. by rewrite decide_False by (change N_HASH with 81%nat; lia).
  - unfold ta_send_transfer_req_deserialize. rewrite parse_print by (by vm_compute). reflexivity.
Qed.

(** A transaction whose trytes print and read back. *)
Definition printable (t : trits) : Prop :=
  (flex_trits_to_trytes N_TXN t).1 <> 0 /\
  is_cstr (flex_trits_to_trytes N_TXN t).2 /\
  length (flex_trits_to_trytes N_TXN t).2 = N_TXN /\
  flex_trits_from_trytes N_TXN (flex_trits_to_trytes N_TXN t).2 = t.

Lemma txns_to_items_ok txns : Forall printable txns -> forall acc,
  txns_to_items txns acc =
    (SC_OK, acc ++ ((fun t => JString (flex_trits_to_trytes N_TXN t).2) <$> txns)).
Proof.
  induction 1 as [|t txns (H1 & H2 & H3 & H4) _ IH]; intros acc; simpl; [by rewrite app_nil_r|].
  destruct (Z.eqb_spec (flex_trits_to_trytes N_TXN t).1 0); [done|].
  rewrite IH, <- app_assoc. unfold tryte_string.
  by rewrite str_of_buf_no_nul by by apply is_cstr_no_nul.
Qed.

Lemma items_to_txns_ok txns : Forall printable txns -> forall array,
  items_to_txns ((fun t => JString (flex_trits_to_trytes N_TXN t).2) <$> txns) array =
    (SC_OK, array ++ txns).
Proof.
  induction 1 as [|t txns (H1 & H2 & H3 & H4) _ IH]; intros array; simpl; [by rewrite app_nil_r|].
  unfold strlen. rewrite H3, H4. change (Z.of_nat N_TXN) with NUM_TRYTES_SERIALIZED_TRANSACTION.
  rewrite Z.eqb_refl. cbn [negb]. by rewrite IH, <- app_assoc.
Qed.

(** Trytes survive the JSON interface: what [ta_send_trytes_res_serialize]
    prints, [ta_send_trytes_req_deserialize] reads back as the same
    transactions; only the empty list is not accepted back. *)
Theorem send_trytes_roundtrip txns out :
  Forall printable txns ->
  exists text, ta_send_trytes_res_serialize txns = (SC_OK, Some text) /\
    ta_send_trytes_req_deserialize (Some text) out =
      match txns with [] => (SC_CCLIENT_JSON_PARSE, out) | _ => (SC_OK, out ++ txns) end.
Proof.
  intros Hp. unfold ta_send_trytes_res_serialize, ta_hash8019_array_to_json_array.
  destruct txns as [|t txns].
  { eexists. split; [reflexivity|]. simpl. by rewrite parse_print. }
  rewrite (txns_to_items_ok _ Hp []). eexists. split; [reflexivity|].
  unfold ta_send_trytes_req_deserialize. rewrite parse_print.
  2:{ cbn [add_item json_ok forallb app snd fst].
      rewrite bool_decide_true by (vm_compute; repeat constructor; intuition discriminate).
      rewrite andb_true_r. cbn [andb]. apply forallb_forall. intros x Hx.
      apply list_elem_of_In, list_elem_of_fmap in Hx as (t' & -> & Ht').
      rewrite Forall_forall in Hp. destruct (Hp _ Ht') as (_ & Hc & _).
      by apply bool_decide_eq_true. }
  unfold ta_json_array_to_hash8019_array. cbn [add_item app]. rewrite get_item_here.
  bind_simpl. cbn [array_items]. by apply items_to_txns_ok.
Qed.

(** The milestone indices a node reports are read exactly, saturated to
    [int]. *)
Theorem milestones_read m s more :
  Z.abs m <= 2 ^ 53 -> Z.abs s <= 2 ^ 53 -> forallb (fun f => bool_decide (is_cstr f.1) && json_ok f.2) more = true ->
  get_node_status_milestone_deserialize (Some (cJSON_PrintUnformatted (JObject
    ((lit "latestMilestoneIndex", JNumber m) ::
     (lit "latestSolidSubtangleMilestoneIndex", JNumber s) :: more)))) =
  (SC_OK, Some (Z.max INT_MIN (Z.min INT_MAX m)), Some (Z.max INT_MIN (Z.min INT_MAX s))).
Proof.
  intros Hm Hs Hmore. unfold get_node_status_milestone_deserialize. rewrite parse_print.
  { by rewrite get_item_here, get_item_next, get_item_here by done. }
  simpl. rewrite Hmore.
  by rewrite (proj2 (Z.leb_le _ _) Hm), (proj2 (Z.leb_le _ _) Hs).
Qed.

End Properties.

(** ** Witnesses *)
Module SerializerWitness.
Import ToyWorld.
Import JsonModel.

Lemma ascii_len s : length (ascii_to_trytes s) = (2 * length s)%nat.
Proof.
  cbn [ascii_to_trytes lib]. induction s as [|c s IH]; [done|].
  rewrite bind_cons, length_app, IH. simpl. lia.
Qed.

Definition addr81 : cstr := DEFAULT_ADDRESS.

Definition hello : json := transfer_request addr81 (lit "TAG") (lit "hello").
Definition overlong : json := transfer_request addr81 (lit "TAG") (replicate 1094 65).

Lemma readable_request addr tag msg :
  (80 <= length addr)%nat -> strlen addr < 2 ^ 30 -> strlen tag < 2 ^ 30 -> strlen msg < 2 ^ 30 ->
  readable (transfer_request addr tag msg).
Proof.
  intros Ha Hal Ht Hm. split; [|split; [by intros s [= <-] _|done]].
  repeat apply Forall_cons_2; [..|constructor]; by intros s [= <-].
Qed.

Lemma transfer_req_well_formed_witness :
  (exists r, ta_send_transfer_req_deserialize (Some (cJSON_PrintUnformatted hello))
      (ta_send_transfer_req_new 0 0) = Some (SC_OK, r) /\ req_msg_len r = 10) /\
  (exists r, ta_send_transfer_req_deserialize (Some (cJSON_PrintUnformatted overlong))
      (ta_send_transfer_req_new 0 0) = Some (SC_SERIALIZER_MESSAGE_OVERRUN, r)).
Proof.
  split.
  - destruct (transfer_req_well_formed (cJSON_PrintUnformatted hello) hello 0 0) as (r & Hr & Hok);
      [apply ascii_len|apply Nat.leb_le; reflexivity|vm_compute; reflexivity
      |apply readable_request; [apply Nat.leb_le|..]; reflexivity|].
    exists r. split; [exact Hr|]. by destruct (Hok eq_refl) as (_ & _ & -> & _).
  - destruct (transfer_req_well_formed (cJSON_PrintUnformatted overlong) overlong 0 0) as (r & Hr & _);
      [apply ascii_len|apply Nat.leb_le; reflexivity|vm_compute; reflexivity
      |apply readable_request; [apply Nat.leb_le|..]; reflexivity|].
    exists r. exact Hr.
Defined.

Lemma transfer_req_functional_witness :
  ta_send_transfer_req_deserialize
    (Some (cJSON_PrintUnformatted (transfer_request addr81 (lit "TAG") (lit "hello"))))
    (ta_send_transfer_req_new 0 0) =
  Some (SC_OK, mkTransferReq 0 [lit "TAG999999999999999999999999"] [addr81]
    (ascii_to_trytes (lit "hello") ++ replicate 2177 0) 10).
Proof.
  rewrite (transfer_req_functional addr81 (lit "TAG") (lit "hello") 0 0);
    [vm_compute; reflexivity|apply ascii_len|reflexivity|reflexivity|reflexivity|done| |done].
  vm_compute. repeat constructor.
Defined.

Lemma transfer_req_undefined_witness :
  ta_send_transfer_req_deserialize
    (Some (cJSON_PrintUnformatted (transfer_request (lit "ADDR") (lit "TAG") (lit "hello"))))
    (ta_send_transfer_req_new 0 0) = None.
Proof.
  apply (transfer_req_undefined (lit "ADDR") (lit "TAG") (lit "hello")
    (ta_send_transfer_req_new 0 0)); [reflexivity|simpl; lia|..]; vm_compute; repeat constructor.
Defined.

Definition nines : trits := replicate N_TXN 57.

Lemma send_trytes_roundtrip_witness :
  exists text, ta_send_trytes_res_serialize [nines] = (SC_OK, Some text) /\
    ta_send_trytes_req_deserialize (Some text) [] = (SC_OK, [nines]).
Proof.
  apply (send_trytes_roundtrip [nines] []). constructor; [|constructor].
  split; [done|]. split; [|split; vm_compute; reflexivity].
  apply Forall_forall; intros c [_ Hc]%list_elem_of_filter.
  assert (H : Forall (fun c => 0 < c < 256) (take N_TXN nines))
    by (apply Forall_take, Forall_replicate; lia).
  by apply (proj1 (Forall_forall _ _) H).
Defined.

Lemma milestones_read_witness :
  get_node_status_milestone_deserialize (Some (cJSON_PrintUnformatted (JObject
    [(lit "latestMilestoneIndex", JNumber 1000);
     (lit "latestSolidSubtangleMilestoneIndex", JNumber 900)]))) = (SC_OK, Some 1000, Some 900).
Proof. apply (milestones_read 1000 900 []); done. Defined.

End SerializerWitness.
