(* ===== verification/SerMam.v ===== *)
(** * Requests and responses for MAM messages
    ([core/serializer/ser_mam.c] and the MAM types of [core/request/] and
    [core/response/])

    The conventions are those of [Serializer].  Fields that the allocation of an
    object leaves indeterminate are parameters: [protocol0] is what an
    uninitialised [protocol] holds, [uninit] the contents of uninitialised
    arrays. *)

From S2P Require Import Prelude TaErrors Utils Json Cache World Config Serializer.

(** [mam_protocol_e] has one constant. *)
Definition MAM_V1 : Z := 0.

(** Sizes of the MAM library in trits, and in trytes as [common/macros.h] has
    them. *)
Definition MAM_MSG_ID_SIZE : Z := 63.
Definition NUM_TRYTES_MAM_MSG_ID : Z := MAM_MSG_ID_SIZE / 3.
Definition N_MSG_ID : nat := Z.to_nat NUM_TRYTES_MAM_MSG_ID.

(** ** Requests and responses *)

Definition SERVICE_TOKEN_LEN : nat := 64.

Record send_mam_data_mam_v1_t := mkSendData {
  sd_seed : option trytes; sd_ch_mss_depth : Z; sd_chid : option trytes; sd_message : option cstr }.

(** [send_mam_key_mam_v1_t] and [recv_mam_key_mam_v1_t]. *)
Record mam_key_mam_v1_t := mkMamKey { psk_array : list cstr; ntru_array : list cstr }.

Record ta_send_mam_req_t := mkSendMamReq {
  sm_service_token : list Z; sm_data : option send_mam_data_mam_v1_t;
  sm_key : option mam_key_mam_v1_t; sm_protocol : Z }.

Record recv_mam_data_id_mam_v1_t := mkDataId {
  di_bundle_hash : option trytes; di_chid : option trytes; di_msg_id : option trytes }.

Record ta_recv_mam_req_t := mkRecvMamReq {
  rm_data_id : option recv_mam_data_id_mam_v1_t; rm_key : option mam_key_mam_v1_t; rm_protocol : Z }.

(** The strings are arrays of 82 and 22 characters. *)
Record ta_send_mam_res_t := mkSendMamRes {
  sr_bundle_hash : list Z; sr_chid : list Z; sr_msg_id : list Z;
  sr_announcement_bundle_hash : list Z; sr_chid1 : list Z }.

(** The array of payloads may hold NULL. *)
Record ta_recv_mam_res_t := mkRecvMamRes { rr_payload_array : list (option cstr); rr_chid1 : list Z }.

Record ta_register_mam_channel_req_t := mkRegisterReq { rg_seed : list Z }.

Definition send_mam_res_new : ta_send_mam_res_t :=
  mkSendMamRes (replicate (S N_HASH) 0) (replicate (S N_HASH) 0) (replicate (S N_MSG_ID) 0)
    (replicate (S N_HASH) 0) (replicate (S N_HASH) 0).

Definition recv_mam_res_new : ta_recv_mam_res_t := mkRecvMamRes [] (replicate (S N_HASH) 0).

(** [memcpy] of [n] trytes and the terminating NUL that the setters write;
    [None] when the source is shorter. *)
Definition copy_trytes (n : nat) (src : trytes) : option (list Z) :=
  t ← read_at src 0 n; Some (t ++ [0]).

(** The setters of [response/ta_send_mam.c]; [None] as argument is NULL. *)
Definition send_mam_res_set_bundle_hash (res : ta_send_mam_res_t) (bundle_hash : option trytes)
  : option (status_t * ta_send_mam_res_t) :=
  match bundle_hash with
  | None => Some (SC_NULL, res)
  | Some h => t ← copy_trytes N_HASH h;
      Some (SC_OK, mkSendMamRes t (sr_chid res) (sr_msg_id res) (sr_announcement_bundle_hash res) (sr_chid1 res))
  end.

Definition send_mam_res_set_channel_id (res : ta_send_mam_res_t) (channel_id : option trytes)
  : option (status_t * ta_send_mam_res_t) :=
  match channel_id with
  | None => Some (SC_NULL, res)
  | Some h => t ← copy_trytes N_HASH h;
      Some (SC_OK, mkSendMamRes (sr_bundle_hash res) t (sr_msg_id res)
                     (sr_announcement_bundle_hash res) (sr_chid1 res))
  end.

Definition send_mam_res_set_msg_id (res : ta_send_mam_res_t) (msg_id : option trytes)
  : option (status_t * ta_send_mam_res_t) :=
  match msg_id with
  | None => Some (SC_NULL, res)
  | Some h => t ← copy_trytes N_MSG_ID h;
      Some (SC_OK, mkSendMamRes (sr_bundle_hash res) (sr_chid res) t
                     (sr_announcement_bundle_hash res) (sr_chid1 res))
  end.

Definition send_mam_res_set_announce_bundle_hash (res : ta_send_mam_res_t) (hash : option trytes)
  : option (status_t * ta_send_mam_res_t) :=
  match hash with
  | None => Some (SC_NULL, res)
  | Some h => t ← copy_trytes N_HASH h;
      Some (SC_OK, mkSendMamRes (sr_bundle_hash res) (sr_chid res) (sr_msg_id res) t (sr_chid1 res))
  end.

Definition send_mam_res_set_chid1 (res : ta_send_mam_res_t) (chid1 : option trytes)
  : option (status_t * ta_send_mam_res_t) :=
  match chid1 with
  | None => Some (SC_NULL, res)
  | Some h => t ← copy_trytes N_HASH h;
      Some (SC_OK, mkSendMamRes (sr_bundle_hash res) (sr_chid res) (sr_msg_id res)
                     (sr_announcement_bundle_hash res) t)
  end.

(** The bundle must not be empty: its first transaction is read. *)
Definition send_mam_res_set_msg_result (res : ta_send_mam_res_t) (chid msg_id : trytes)
    (bundle : list iota_transaction_t) : option (status_t * ta_send_mam_res_t) :=
  '(ret, res) ← send_mam_res_set_channel_id res (Some chid);
  if negb (ret =? SC_OK) then Some (SC_OK, res) else
  '(ret, res) ← send_mam_res_set_msg_id res (Some msg_id);
  if negb (ret =? SC_OK) then Some (SC_OK, res) else
  tx ← head bundle;
  '(_, res) ← send_mam_res_set_bundle_hash res (Some (transaction_bundle tx));
  Some (SC_OK, res).

Definition send_mam_res_set_announce (res : ta_send_mam_res_t) (chid1 : trytes)
    (bundle : list iota_transaction_t) : option (status_t * ta_send_mam_res_t) :=
  tx ← head bundle;
  '(ret, res) ← send_mam_res_set_announce_bundle_hash res (Some (transaction_bundle tx));
  if negb (ret =? SC_OK) then Some (SC_OK, res) else
  '(_, res) ← send_mam_res_set_chid1 res (Some chid1);
  Some (SC_OK, res).

Section Requests.
Context (protocol0 : Z) (uninit : nat -> list Z).

Definition send_mam_req_new : ta_send_mam_req_t := mkSendMamReq (uninit (S SERVICE_TOKEN_LEN)) None None protocol0.
Definition recv_mam_req_new : ta_recv_mam_req_t := mkRecvMamReq None None protocol0.

Definition send_mam_req_v1_init (req : ta_send_mam_req_t) : status_t * ta_send_mam_req_t :=
  (SC_OK, mkSendMamReq (replicate (S SERVICE_TOKEN_LEN) 0) (Some (mkSendData None 6 None None))
            (Some (mkMamKey [] [])) (sm_protocol req)).

Definition recv_mam_req_v1_init (req : ta_recv_mam_req_t) : status_t * ta_recv_mam_req_t :=
  (SC_OK, mkRecvMamReq (Some (mkDataId None None None)) (Some (mkMamKey [] [])) (rm_protocol req)).

(** [None] as a result is the NULL dereference of [data_id]. *)
Definition recv_mam_set_mam_v1_data_id (req : ta_recv_mam_req_t) (bundle_hash chid msg_id : option cstr)
  : option (status_t * ta_recv_mam_req_t) :=
  match bundle_hash, chid, msg_id with
  | None, None, None => Some (SC_NULL, req)
  | _, _, _ =>
      d ← rm_data_id req;
      let pick (new old : option trytes) := match new with Some _ => new | None => old end in
      Some (SC_OK, mkRecvMamReq
        (Some (mkDataId (pick bundle_hash (di_bundle_hash d)) (pick chid (di_chid d)) (pick msg_id (di_msg_id d))))
        (rm_key req) (rm_protocol req))
  end.

(** ** Deserializers of requests *)

(** An array of strings below [key]; any failure is a parse error. *)
Definition mam_key_array (json_key : json) (name : string) (ut : list cstr) : status_t * list cstr :=
  if has_item json_key (lit name) then
    let '(ret, ut) := ta_json_string_array_to_string_utarray json_key (lit name) ut in
    (if ret =? SC_OK then SC_OK else SC_SERIALIZER_JSON_PARSE, ut)
  else (SC_OK, ut).

(** The member [key] of a request, the same for both requests. *)
Definition mam_keys_of (json_obj : json) (key : mam_key_mam_v1_t) : status_t * mam_key_mam_v1_t :=
  match get_item_ci json_obj (lit "key") with
  | None => (SC_OK, key)
  | Some json_key =>
      let '(ret, psk) := mam_key_array json_key "psk" (psk_array key) in
      if negb (ret =? SC_OK) then (ret, mkMamKey psk (ntru_array key)) else
      let '(ret, ntru) := mam_key_array json_key "ntru" (ntru_array key) in
      (ret, mkMamKey psk ntru)
  end.

(** [seed] and [chid]: 81 characters, of a string that may be longer. *)
Definition mam_trytes_member (json_key : json) (name : string) (old : option trytes)
  : status_t * option trytes :=
  match string_member json_key name with
  | Some s =>
      if negb (Nat.min (length s) N_HASH =? N_HASH)%nat then (SC_SERIALIZER_INVALID_REQ, old)
      else (SC_OK, Some (take N_HASH s))
  | None => (SC_OK, old)
  end.

Definition mam_message_member (json_key : json) (old : option cstr) : status_t * option cstr :=
  match string_member json_key "message" with
  | Some s =>
      if existsb (fun c => negb (Z.land c 0x80 =? 0)) s
      then (SC_SERIALIZER_JSON_PARSE_NOT_TRYTE, Some (uninit (S (length s))))
      else (SC_OK, Some s)
  | None => (SC_SERIALIZER_NULL, old)
  end.

(** From [data] on; a missing message is reported only at the end. *)
Definition send_mam_data_of (json_key : json) (d : send_mam_data_mam_v1_t)
  : status_t * send_mam_data_mam_v1_t :=
  let '(ret, seed) := mam_trytes_member json_key "seed" (sd_seed d) in
  let d := mkSendData seed (sd_ch_mss_depth d) (sd_chid d) (sd_message d) in
  if negb (ret =? SC_OK) then (ret, d) else
  let '(ret, chid) := mam_trytes_member json_key "chid" (sd_chid d) in
  let d := mkSendData seed (sd_ch_mss_depth d) chid (sd_message d) in
  if negb (ret =? SC_OK) then (ret, d) else
  let '(ret, message) := mam_message_member json_key (sd_message d) in
  let d := mkSendData seed (sd_ch_mss_depth d) chid message in
  if ret =? SC_SERIALIZER_JSON_PARSE_NOT_TRYTE then (ret, d) else
  let depth := match get_item json_key (lit "ch_mss_depth") with
               | Some j => if is_number j then valueint j else sd_ch_mss_depth d
               | None => sd_ch_mss_depth d
               end in
  (ret, mkSendData seed depth chid message).

Definition service_token_of (json_obj : json) (token : list Z) : option (status_t * list Z) :=
  if has_item json_obj (lit "x-api-key")
  then ta_json_get_string json_obj (lit "x-api-key") token SERVICE_TOKEN_LEN
  else Some (SC_OK, token).

Definition send_mam_message_mam_v1_req_deserialize (json_obj : json) (req : ta_send_mam_req_t)
  : option (status_t * ta_send_mam_req_t) :=
  data ← sm_data req;
  key ← sm_key req;
  '(ret, token) ← service_token_of json_obj (sm_service_token req);
  let req := mkSendMamReq token (sm_data req) (sm_key req) (sm_protocol req) in
  if negb (ret =? SC_OK) then Some (ret, req) else
  let '(ret, key) := mam_keys_of json_obj key in
  let req := mkSendMamReq token (sm_data req) (Some key) (sm_protocol req) in
  if negb (ret =? SC_OK) then Some (ret, req) else
  match get_item_ci json_obj (lit "data") with
  | None => Some (SC_SERIALIZER_JSON_PARSE, req)
  | Some json_key =>
      let '(ret, data) := send_mam_data_of json_key data in
      Some (ret, mkSendMamReq token (Some data) (Some key) (sm_protocol req))
  end.

(** The length of the array [protocol_str]; only its first six characters are
    compared. *)
Definition protocol_len : nat := 20.
Definition is_mam_v1 (protocol_str : list Z) : bool := bool_decide (take 6 protocol_str = lit "MAM_V1").

Context {txt : JsonText}.

Definition send_mam_message_req_deserialize (obj : option cstr) (req : ta_send_mam_req_t)
  : option (status_t * ta_send_mam_req_t) :=
  match obj with
  | None => Some (SC_SERIALIZER_NULL, req)
  | Some obj =>
      match cJSON_Parse obj with
      | None => Some (SC_SERIALIZER_JSON_PARSE, req)
      | Some json_obj =>
          '(ret, protocol_str) ← ta_json_get_string json_obj (lit "protocol") (uninit protocol_len) protocol_len;
          if negb (ret =? SC_OK) then Some (ret, req) else
          let req := mkSendMamReq (sm_service_token req) (sm_data req) (sm_key req)
                       (if is_mam_v1 protocol_str then MAM_V1 else sm_protocol req) in
          let '(_, req) := send_mam_req_v1_init req in
          send_mam_message_mam_v1_req_deserialize json_obj req
      end
  end.

(** An identifier of exactly [n] trytes below [data_id]. *)
Definition data_id_member (json_key : json) (name : string) (n : nat) : status_t * option cstr :=
  if has_item json_key (lit name) then
    match get_item json_key (lit name) with
    | None => (SC_CCLIENT_JSON_KEY, None)
    | Some v =>
        match valuestring v with
        | Some s => if (length s =? n)%nat then (SC_OK, Some s) else (SC_CCLIENT_JSON_PARSE, None)
        | None => (SC_CCLIENT_JSON_PARSE, None)
        end
    end
  else (SC_OK, None).

(** A bundle hash makes the other two members be ignored. *)
Definition recv_mam_message_mam_v1_req_deserialize (json_obj : json) (req : ta_recv_mam_req_t)
  : option (status_t * ta_recv_mam_req_t) :=
  key ← rm_key req;
  let '(ret, key) := mam_keys_of json_obj key in
  let req := mkRecvMamReq (rm_data_id req) (Some key) (rm_protocol req) in
  if negb (ret =? SC_OK) then Some (ret, req) else
  match get_item_ci json_obj (lit "data_id") with
  | None => Some (SC_SERIALIZER_JSON_PARSE, req)
  | Some json_key =>
      let '(ret, bundle_hash) := data_id_member json_key "bundle_hash" N_HASH in
      if negb (ret =? SC_OK) then Some (ret, req) else
      match bundle_hash with
      | Some _ => recv_mam_set_mam_v1_data_id req bundle_hash None None
      | None =>
          let '(ret, chid) := data_id_member json_key "chid" N_HASH in
          if negb (ret =? SC_OK) then Some (ret, req) else
          let '(ret, msg_id) := data_id_member json_key "msg_id" N_MSG_ID in
          if negb (ret =? SC_OK) then Some (ret, req) else
          recv_mam_set_mam_v1_data_id req None chid msg_id
      end
  end.

Definition recv_mam_message_req_deserialize (obj : option cstr) (req : ta_recv_mam_req_t)
  : option (status_t * ta_recv_mam_req_t) :=
  match obj with
  | None => Some (SC_SERIALIZER_NULL, req)
  | Some obj =>
      match cJSON_Parse obj with
      | None => Some (SC_SERIALIZER_JSON_PARSE, req)
      | Some json_obj =>
          '(ret, protocol_str) ← ta_json_get_string json_obj (lit "protocol") (uninit protocol_len) protocol_len;
          if negb (ret =? SC_OK) then Some (ret, req) else
          let req := mkRecvMamReq (rm_data_id req) (rm_key req)
                       (if is_mam_v1 protocol_str then MAM_V1 else rm_protocol req) in
          if rm_protocol req =? MAM_V1 then
            let '(ret, req) := recv_mam_req_v1_init req in
            if negb (ret =? SC_OK) then Some (ret, req) else
            recv_mam_message_mam_v1_req_deserialize json_obj req
          else Some (ret, req)
      end
  end.

Definition register_mam_channel_req_deserialize (obj : option cstr) (req : ta_register_mam_channel_req_t)
  : option (status_t * ta_register_mam_channel_req_t) :=
  match obj with
  | None => Some (SC_SERIALIZER_NULL, req)
  | Some obj =>
      match cJSON_Parse obj with
      | None => Some (SC_SERIALIZER_JSON_PARSE, req)
      | Some json_obj =>
          match get_item json_obj (lit "seed") with
          | None => Some (SC_SERIALIZER_KEY_NOT_EXISTS, req)
          | Some v =>
              match valuestring v with
              | None => Some (SC_SERIALIZER_VALUE_EMPTY, req)
              | Some s =>
                  if negb (strlen s =? NUM_TRYTES_ADDRESS) then Some (SC_SERIALIZER_VALUE_INVLID, req) else
                  t ← overwrite (rg_seed req) 0 (strncpy_data s N_HASH);
                  t ← overwrite t N_HASH [0];
                  Some (SC_OK, mkRegisterReq t)
              end
          end
      end
  end.

(** ** Serializers and deserializers of responses *)

(** [res] and [uuid] may be NULL, not both. *)
Definition send_mam_message_res_serialize (res : option ta_send_mam_res_t) (uuid : option cstr)
  : option (status_t * option cstr) :=
  match uuid, res with
  | Some uuid, _ => Some (SC_OK, Some (cJSON_PrintUnformatted (add_string (JObject []) "uuid" uuid)))
  | None, None => Some (SC_SERIALIZER_NULL, None)
  | None, Some res =>
      bundle_hash ← c_string (sr_bundle_hash res);
      let j := add_string (JObject []) "bundle_hash" bundle_hash in
      chid ← c_string (sr_chid res);
      let j := add_string j "chid" chid in
      msg_id ← c_string (sr_msg_id res);
      let j := add_string j "msg_id" msg_id in
      announcement ← c_string (sr_announcement_bundle_hash res);
      let j := if bool_decide (announcement = []) then j
               else add_string j "announcement_bundle_hash" announcement in
      chid1 ← c_string (sr_chid1 res);
      let j := if bool_decide (chid1 = []) then j else add_string j "chid1" chid1 in
      Some (SC_OK, Some (cJSON_PrintUnformatted j))
  end.

(** A member copied to the array [buf] and from there to the response; [skip]
    when the member may be missing. *)
Definition res_member (json_obj : json) (name : string) (skip : bool) (buf : list Z) (n : nat)
    (set : ta_send_mam_res_t -> option trytes -> option (status_t * ta_send_mam_res_t))
    (res : ta_send_mam_res_t) : option (status_t * (list Z * ta_send_mam_res_t)) :=
  if skip && negb (has_item json_obj (lit name)) then Some (SC_OK, (buf, res)) else
  '(ret, buf) ← ta_json_get_string json_obj (lit name) buf n;
  if negb (ret =? SC_OK) then Some (SC_SERIALIZER_NULL, (buf, res)) else
  '(_, res) ← set res (Some buf);
  Some (SC_OK, (buf, res)).

Definition send_mam_message_res_deserialize (obj : option cstr) (res : ta_send_mam_res_t)
  : option (status_t * ta_send_mam_res_t) :=
  match obj with
  | None => Some (SC_SERIALIZER_NULL, res)
  | Some obj =>
      match cJSON_Parse obj with
      | None => Some (SC_SERIALIZER_JSON_PARSE, res)
      | Some json_obj =>
          '(ret, (addr, res)) ← res_member json_obj "chid" false (uninit (S N_HASH)) N_HASH
                                  send_mam_res_set_channel_id res;
          if negb (ret =? SC_OK) then Some (ret, res) else
          '(ret, (_, res)) ← res_member json_obj "msg_id" false (uninit (Z.to_nat MAM_MSG_ID_SIZE)) N_MSG_ID
                               send_mam_res_set_msg_id res;
          if negb (ret =? SC_OK) then Some (ret, res) else
          '(ret, (addr, res)) ← res_member json_obj "bundle_hash" false addr N_HASH
                                  send_mam_res_set_bundle_hash res;
          if negb (ret =? SC_OK) then Some (ret, res) else
          '(ret, (addr, res)) ← res_member json_obj "chid1" true addr N_HASH send_mam_res_set_chid1 res;
          if negb (ret =? SC_OK) then Some (ret, res) else
          '(ret, (_, res)) ← res_member json_obj "announcement_bundle_hash" true addr N_HASH
                               send_mam_res_set_announce_bundle_hash res;
          Some (ret, res)
      end
  end.

(** Each payload becomes the pair of its first 20 characters and the rest; the
    rest of a shorter payload starts behind its end. *)
Definition TIMESTAMP_CHARS : nat := 20.

Definition payload_item (p : cstr) : option json :=
  timestamp ← overwrite (replicate 21 0) 0 (strncpy_data p TIMESTAMP_CHARS);
  rest ← (if (TIMESTAMP_CHARS <=? length p)%nat then Some (drop TIMESTAMP_CHARS p) else None);
  Some (JArray [JString (str_of_buf timestamp); JString rest]).

Fixpoint ta_mam_recv_payload_items (payloads : list (option cstr)) : option (list json) :=
  match payloads with
  | [] => Some []
  | None :: r => ta_mam_recv_payload_items r
  | Some p :: r => j ← payload_item p; l ← ta_mam_recv_payload_items r; Some (j :: l)
  end.

Definition recv_mam_message_res_serialize (res : ta_recv_mam_res_t) : option (status_t * option cstr) :=
  items ← ta_mam_recv_payload_items (rr_payload_array res);
  let j := add_item (JObject []) (lit "payload") (JArray items) in
  chid1 ← c_string (rr_chid1 res);
  let j := if bool_decide (chid1 = []) then j else add_string j "chid1" chid1 in
  Some (SC_OK, Some (cJSON_PrintUnformatted j)).

(** [cJSON_ArrayForEach] goes over the children of anything. *)
Definition children (j : json) : list json :=
  match j with JArray l => l | JObject fields => snd <$> fields | _ => [] end.

Fixpoint payload_strings (l : list json) (ut : list (option cstr)) : status_t * list (option cstr) :=
  match l with
  | [] => (SC_OK, ut)
  | j :: r => match valuestring j with
              | Some s => payload_strings r (ut ++ [Some s])
              | None => (SC_SERIALIZER_JSON_PARSE, ut)
              end
  end.

Definition ta_json_recv_payload_to_string_utarray (obj : json) (obj_name : cstr) (ut : list (option cstr))
  : status_t * list (option cstr) :=
  match get_item obj obj_name ≫= array_items with
  | Some l => payload_strings (l ≫= children) ut
  | None => (SC_SERIALIZER_JSON_PARSE, ut)
  end.

Definition recv_mam_message_res_deserialize (obj : option cstr) (res : ta_recv_mam_res_t)
  : option (status_t * ta_recv_mam_res_t) :=
  match obj with
  | None => Some (SC_SERIALIZER_NULL, res)
  | Some obj =>
      match cJSON_Parse obj with
      | None => Some (SC_SERIALIZER_JSON_PARSE, res)
      | Some json_obj =>
          let '(ret, payloads) :=
            ta_json_recv_payload_to_string_utarray json_obj (lit "payload") (rr_payload_array res) in
          let res := mkRecvMamRes payloads (rr_chid1 res) in
          if negb (ret =? SC_OK) then Some (SC_CCLIENT_JSON_KEY, res) else
          if has_item json_obj (lit "chid1") then
            '(ret, chid1) ← ta_json_get_string json_obj (lit "chid1") (rr_chid1 res) N_HASH;
            Some (if ret =? SC_OK then SC_OK else SC_CCLIENT_JSON_KEY, mkRecvMamRes payloads chid1)
          else Some (SC_OK, res)
      end
  end.

Definition register_mam_channel_res_serialize (uuid : option cstr) : status_t * option cstr :=
  match uuid with
  | None => (SC_SERIALIZER_NULL, None)
  | Some uuid => (SC_OK, Some (cJSON_PrintUnformatted (add_string (JObject []) "user-id" uuid)))
  end.

Definition register_mam_channel_res_deserialize (obj : option cstr) (user_id : list Z)
  : option (status_t * list Z) :=
  match obj with
  | None => Some (SC_SERIALIZER_NULL, user_id)
  | Some obj =>
      match cJSON_Parse obj with
      | None => Some (SC_SERIALIZER_JSON_PARSE, user_id)
      | Some json_obj =>
          match get_item json_obj (lit "user-id") with
          | None => Some (SC_SERIALIZER_KEY_NOT_EXISTS, user_id)
          | Some v =>
              match valuestring v with
              | None => Some (SC_SERIALIZER_VALUE_EMPTY, user_id)
              | Some s =>
                  if negb (strlen s =? UUID_STR_LEN - 1) then Some (SC_SERIALIZER_VALUE_INVLID, user_id) else
                  t ← overwrite user_id 0 (strncpy_data s 36);
                  t ← overwrite t 36 [0];
                  Some (SC_OK, t)
              end
          end
      end
  end.

End Requests.

(** ** Properties *)
Section Properties.
Context {txt : JsonText} (protocol0 : Z) (uninit : nat -> list Z)
  (uninit_len : forall n, length (uninit n) = n).

Lemma get_string_total obj name buf n : (n <= length buf)%nat ->
  exists ret buf', ta_json_get_string obj name buf n = Some (ret, buf') /\ length buf' = length buf /\
    drop n buf' = drop n buf.
Proof.
  intros Hn. unfold ta_json_get_string.
  destruct (get_item obj name) as [v|]; [|by eauto].
  destruct (valuestring v) as [s|]; [|by eauto].
  rewrite overwrite_start by (by rewrite length_strncpy_data). rewrite length_strncpy_data. simpl.
  eexists _, _. split; [done|]. rewrite length_app, length_drop, length_strncpy_data.
  split; [lia|]. by rewrite drop_app_ge, length_strncpy_data, Nat.sub_diag by (by rewrite length_strncpy_data).
Qed.

Lemma get_string_is obj name s buf n : get_item obj name = Some (JString s) -> (n <= length buf)%nat ->
  ta_json_get_string obj name buf n = Some (SC_OK, strncpy_data s n ++ drop n buf).
Proof.
  intros H Hn. unfold ta_json_get_string. rewrite H. cbn [valuestring].
  by rewrite overwrite_start, length_strncpy_data by (by rewrite length_strncpy_data).
Qed.

Definition tryte_hash (o : option trytes) : Prop := forall s, o = Some s -> length s = N_HASH.

(** What the handlers may rely on in an accepted request to send a message. *)
Record send_mam_req_ok (req : ta_send_mam_req_t) (data : send_mam_data_mam_v1_t) (key : mam_key_mam_v1_t)
    (message : cstr) : Prop := {
  so_data : sm_data req = Some data;
  so_key : sm_key req = Some key;
  so_token : length (sm_service_token req) = S SERVICE_TOKEN_LEN /\
             drop SERVICE_TOKEN_LEN (sm_service_token req) = [0];
  so_protocol : sm_protocol req = MAM_V1 \/ sm_protocol req = protocol0;
  so_seed : tryte_hash (sd_seed data);
  so_chid : tryte_hash (sd_chid data);
  so_depth : INT_MIN <= sd_ch_mss_depth data <= INT_MAX;
  so_message : sd_message data = Some message;
  so_ascii : Forall (fun c => Z.land c 0x80 = 0) message
}.

Lemma mam_trytes_member_ok json_key name old ret o :
  mam_trytes_member json_key name old = (ret, o) -> tryte_hash old -> tryte_hash o.
Proof.
  unfold mam_trytes_member. intros H Hold. destruct (string_member json_key name) as [s|]; [|by injection H as <- <-].
  destruct (Nat.eqb_spec (Nat.min (length s) N_HASH) N_HASH) as [E|E]; simpl in H; injection H as <- <-; [|done].
  intros t [= <-]. rewrite length_take. lia.
Qed.

Lemma mam_message_member_ok json_key old o :
  mam_message_member uninit json_key old = (SC_OK, o) ->
  exists s, o = Some s /\ Forall (fun c => Z.land c 0x80 = 0) s.
Proof.
  unfold mam_message_member. destruct (string_member json_key "message") as [s|]; [|done].
  destruct (existsb _ s) eqn:E; [done|]. intros [= <-]. exists s. split; [done|].
  apply Forall_forall. intros c Hc. apply not_true_iff_false in E.
  destruct (Z.eqb_spec (Z.land c 0x80) 0) as [H|H]; [done|]. exfalso. apply E, existsb_exists.
  exists c. split; [by apply list_elem_of_In|]. by apply negb_true_iff, Z.eqb_neq.
Qed.

Lemma valueint_range j : INT_MIN <= valueint j <= INT_MAX.
Proof. destruct j; unfold valueint, INT_MIN, INT_MAX; lia. Qed.

Lemma send_mam_data_ok json_key d d' :
  tryte_hash (sd_seed d) -> tryte_hash (sd_chid d) -> INT_MIN <= sd_ch_mss_depth d <= INT_MAX ->
  send_mam_data_of uninit json_key d = (SC_OK, d') ->
  tryte_hash (sd_seed d') /\ tryte_hash (sd_chid d') /\ INT_MIN <= sd_ch_mss_depth d' <= INT_MAX /\
  exists s, sd_message d' = Some s /\ Forall (fun c => Z.land c 0x80 = 0) s.
Proof.
  intros Hs Hc Hd. unfold send_mam_data_of.
  destruct (mam_trytes_member json_key "seed" (sd_seed d)) as [r1 seed] eqn:E1.
  apply mam_trytes_member_ok in E1; [|done].
  destruct (Z.eqb_spec r1 SC_OK) as [_|?]; cbn [negb sd_chid sd_message sd_ch_mss_depth]; [|by intros [= ->]].
  destruct (mam_trytes_member json_key "chid" (sd_chid d)) as [r2 chid] eqn:E2.
  apply mam_trytes_member_ok in E2; [|done].
  destruct (Z.eqb_spec r2 SC_OK) as [_|?]; cbn [negb sd_chid sd_message sd_ch_mss_depth]; [|by intros [= ->]].
  destruct (mam_message_member uninit json_key (sd_message d)) as [r3 msg] eqn:E3.
  destruct (Z.eqb_spec r3 SC_SERIALIZER_JSON_PARSE_NOT_TRYTE) as [->|?]; [by intros [=]|].
  intros [= -> <-]. apply mam_message_member_ok in E3. cbn [sd_seed sd_chid sd_ch_mss_depth sd_message].
  split; [done|]. split; [done|]. split; [|done].
  destruct (get_item json_key _) as [j|]; [|done]. destruct (is_number j); [apply valueint_range|done].
Qed.

Lemma service_token_ok j : exists ret token,
  service_token_of j (replicate (S SERVICE_TOKEN_LEN) 0) = Some (ret, token) /\
  length token = S SERVICE_TOKEN_LEN /\ drop SERVICE_TOKEN_LEN token = [0].
Proof.
  unfold service_token_of. destruct (has_item j _); [|by eexists _, _].
  destruct (get_string_total j (lit "x-api-key") (replicate (S SERVICE_TOKEN_LEN) 0) SERVICE_TOKEN_LEN)
    as (r & t & -> & Hl & Hd); [rewrite length_replicate; lia|].
  eexists _, _. split; [done|]. by rewrite Hl, Hd.
Qed.

(** C27 Whatever text is given, reading a request to send a message is defined;
    and an accepted request is well typed: seed and channel ID have 81 trytes,
    the depth fits an [int], the service token is terminated and the message is
    there and in ASCII. *)
Theorem send_mam_req_well_typed obj :
  exists ret req, send_mam_message_req_deserialize uninit obj (send_mam_req_new protocol0 uninit) = Some (ret, req) /\
    (ret = SC_OK -> exists data key message, send_mam_req_ok req data key message).
Proof.
  unfold send_mam_message_req_deserialize.
  destruct obj as [obj|]; [|by eexists _, _]. destruct (cJSON_Parse obj) as [j|]; [|by eexists _, _].
  destruct (get_string_total j (lit "protocol") (uninit protocol_len) protocol_len) as (r0 & p & -> & _);
    [by rewrite uninit_len|]. bind_simpl.
  destruct (Z.eqb_spec r0 SC_OK) as [_|?]; cbn [negb]; [|by eexists _, _].
  cbn [send_mam_req_v1_init sm_protocol send_mam_req_new].
  set (proto := if is_mam_v1 p then MAM_V1 else protocol0).
  unfold send_mam_message_mam_v1_req_deserialize. cbn [sm_data sm_key sm_service_token sm_protocol]. bind_simpl.
  destruct (service_token_ok j) as (r1 & token & -> & Ht).
  bind_simpl. destruct (Z.eqb_spec r1 SC_OK) as [_|?]; cbn [negb]; [|by eexists _, _].
  destruct (mam_keys_of j (mkMamKey [] [])) as [r2 key].
  destruct (Z.eqb_spec r2 SC_OK) as [_|?]; cbn [negb]; [|by eexists _, _].
  destruct (get_item_ci j (lit "data")) as [jd|]; [|by eexists _, _].
  destruct (send_mam_data_of uninit jd (mkSendData None 6 None None)) as [ret data] eqn:E.
  eexists _, _. split; [done|]. intros ->.
  apply send_mam_data_ok in E as (H1 & H2 & H3 & s & H4 & H5); [|done|done|done].
  exists data, key, s. split; try done. cbn [sm_protocol]. subst proto. destruct (is_mam_v1 p); auto.
Qed.

(** *** Reading a documented request *)

Definition opt_field (name : string) (v : option json) : list (cstr * json) :=
  match v with Some v => [(lit name, v)] | None => [] end.

(** A request to send a message, with its optional members. *)
Definition send_request (psk ntru : list cstr) (seed chid : option trytes) (message : cstr) (depth : option Z)
  : json :=
  JObject [(lit "key", JObject [(lit "psk", JArray (JString <$> psk)); (lit "ntru", JArray (JString <$> ntru))]);
           (lit "data", JObject (opt_field "seed" (JString <$> seed) ++ opt_field "chid" (JString <$> chid) ++
                                 (lit "message", JString message) :: opt_field "ch_mss_depth" (JNumber <$> depth)));
           (lit "protocol", JString (lit "MAM_V1"))].

Lemma string_items_strings l : forall ut, string_items (JString <$> l) ut = (SC_OK, ut ++ l).
Proof.
  induction l as [|s l IH]; intros ut; simpl; [by rewrite app_nil_r|]. by rewrite IH, <- app_assoc.
Qed.

Lemma mam_key_array_strings fields name l ut :
  get_item (JObject fields) (lit name) = Some (JArray (JString <$> l)) ->
  mam_key_array (JObject fields) name ut = (SC_OK, ut ++ l).
Proof.
  intros H. unfold mam_key_array. rewrite (get_item_has _ _ _ H).
  unfold ta_json_string_array_to_string_utarray. rewrite H. simpl. by rewrite string_items_strings.
Qed.

Lemma mam_trytes_member_is jd name s old :
  get_item jd (lit name) = Some (JString s) -> length s = N_HASH ->
  mam_trytes_member jd name old = (SC_OK, Some s).
Proof.
  intros H Hl. unfold mam_trytes_member, string_member. rewrite H. cbn [mbind option_bind valuestring].
  by rewrite Hl, Nat.min_id, Nat.eqb_refl, take_ge by lia.
Qed.

Lemma mam_trytes_member_none jd name old :
  get_item jd (lit name) = None -> mam_trytes_member jd name old = (SC_OK, old).
Proof. intros H. unfold mam_trytes_member, string_member. by rewrite H. Qed.

Lemma mam_message_member_is jd s old :
  get_item jd (lit "message") = Some (JString s) -> Forall (fun c => Z.land c 0x80 = 0) s ->
  mam_message_member uninit jd old = (SC_OK, Some s).
Proof.
  intros H Ha. unfold mam_message_member, string_member. rewrite H. cbn [mbind option_bind valuestring].
  destruct (existsb _ s) eqn:E; [|done]. apply existsb_exists in E as (c & Hc & E).
  apply list_elem_of_In in Hc. rewrite Forall_forall in Ha. by rewrite (Ha c Hc) in E.
Qed.

(** Members of the request, whichever of the optional ones are there. *)
Lemma send_request_data psk ntru seed chid message depth :
  exists jd, get_item_ci (send_request psk ntru seed chid message depth) (lit "data") = Some jd /\
    get_item jd (lit "seed") = JString <$> seed /\ get_item jd (lit "chid") = JString <$> chid /\
    get_item jd (lit "message") = Some (JString message) /\
    get_item jd (lit "ch_mss_depth") = JNumber <$> depth.
Proof.
  eexists. unfold send_request. split; [by json_lookup|].
  destruct seed, chid, depth; cbn [opt_field fmap option_fmap option_map app]; json_lookup; done.
Qed.

Lemma send_data_is jd seed chid message depth :
  get_item jd (lit "seed") = JString <$> seed -> get_item jd (lit "chid") = JString <$> chid ->
  get_item jd (lit "message") = Some (JString message) -> get_item jd (lit "ch_mss_depth") = JNumber <$> depth ->
  tryte_hash seed -> tryte_hash chid -> Forall (fun c => Z.land c 0x80 = 0) message ->
  (forall d, depth = Some d -> INT_MIN <= d <= INT_MAX) ->
  send_mam_data_of uninit jd (mkSendData None 6 None None) =
    (SC_OK, mkSendData seed (default 6 depth) chid (Some message)).
Proof.
  intros H1 H2 H3 H4 Hs Hc Hm Hd. unfold send_mam_data_of. cbn [sd_seed].
  assert (forall name o, get_item jd (lit name) = JString <$> o -> tryte_hash o ->
    mam_trytes_member jd name None = (SC_OK, o)) as Hmem.
  { intros name [s|] H Ho; [apply mam_trytes_member_is; [done|by apply Ho]|by apply mam_trytes_member_none]. }
  rewrite (Hmem "seed" seed) by done. cbn [negb sd_chid sd_ch_mss_depth sd_message].
  change (SC_OK =? SC_OK) with true. cbn [negb]. rewrite (Hmem "chid" chid) by done.
  change (SC_OK =? SC_OK) with true. cbn [negb]. rewrite (mam_message_member_is jd message) by done.
  cbn [negb sd_chid sd_ch_mss_depth sd_message]. rewrite H4.
  destruct depth as [d|]; [|done]. specialize (Hd d eq_refl). cbn. do 2 f_equal. lia.
Qed.

(** A well-formed request to send a message is read into exactly its seed,
    channel ID, message, depth (6 when it is missing) and keys. *)
Theorem send_mam_req_functional psk ntru seed chid message depth req :
  json_ok (send_request psk ntru seed chid message depth) = true ->
  tryte_hash seed -> tryte_hash chid -> Forall (fun c => Z.land c 0x80 = 0) message ->
  (forall d, depth = Some d -> INT_MIN <= d <= INT_MAX) ->
  send_mam_message_req_deserialize uninit
    (Some (cJSON_PrintUnformatted (send_request psk ntru seed chid message depth))) req =
  Some (SC_OK, mkSendMamReq (replicate (S SERVICE_TOKEN_LEN) 0)
    (Some (mkSendData seed (default 6 depth) chid (Some message))) (Some (mkMamKey psk ntru)) MAM_V1).
Proof.
  intros Hok Hs Hc Hm Hd. unfold send_mam_message_req_deserialize. rewrite parse_print by done.
  destruct (send_request_data psk ntru seed chid message depth) as (jd & Hjd & H1 & H2 & H3 & H4).
  rewrite (get_string_is _ _ (lit "MAM_V1"));
    [|unfold send_request; by json_lookup|by rewrite uninit_len]. bind_simpl.
  change (is_mam_v1 _) with true. cbn [negb send_mam_req_v1_init sm_protocol].
  unfold send_mam_message_mam_v1_req_deserialize. cbn [sm_data sm_key sm_service_token sm_protocol]. bind_simpl.
  change (service_token_of _ _) with (Some (SC_OK, replicate (S SERVICE_TOKEN_LEN) 0)). bind_simpl.
  change (negb (SC_OK =? SC_OK)) with false. cbv iota.
  assert (mam_keys_of (send_request psk ntru seed chid message depth) (mkMamKey [] []) =
    (SC_OK, mkMamKey psk ntru)) as ->.
  { unfold mam_keys_of, send_request. json_lookup. cbn [psk_array ntru_array].
    rewrite (mam_key_array_strings _ "psk" psk []), (mam_key_array_strings _ "ntru" ntru [])
      by (by json_lookup). done. }
  change (negb (SC_OK =? SC_OK)) with false. cbv iota.
  rewrite Hjd, (send_data_is jd seed chid message depth) by done. done.
Qed.

(** *** Responses *)

(** The contents of an array for [n] trytes that may be unset. *)
Definition res_array (n : nat) (o : option cstr) : list Z :=
  match o with Some t => t ++ [0] | None => replicate (S n) 0 end.

Definition is_trytes (n : nat) (s : cstr) : Prop := is_cstr s /\ length s = n.

Lemma c_string_res_array n o : (forall t, o = Some t -> is_trytes n t) ->
  c_string (res_array n o) = Some (default [] o).
Proof.
  intros H. unfold c_string, res_array. destruct o as [t|].
  - destruct (H t eq_refl) as [Ht _]. rewrite bool_decide_true by (rewrite elem_of_app, list_elem_of_singleton; auto).
    f_equal. by apply str_of_buf_app.
  - by rewrite bool_decide_true by (simpl; constructor).
Qed.

Lemma copy_trytes_is n s r : length s = n -> copy_trytes n (s ++ r) = Some (s ++ [0]).
Proof.
  intros <-. unfold copy_trytes. pose proof (read_at_mid [] s r) as H. simpl in H. by rewrite H.
Qed.

(** A member that is there is copied, one that is not is left alone. *)
Lemma res_member_is j name skip buf n set res s res' :
  get_item j (lit name) = Some (JString s) -> is_trytes n s -> (n <= length buf)%nat ->
  (forall r, set res (Some (s ++ r)) = Some (SC_OK, res')) ->
  res_member j name skip buf n set res = Some (SC_OK, (s ++ drop n buf, res')).
Proof.
  intros H [Hs Hl] Hn Hset. unfold res_member. rewrite (get_item_has _ _ _ H), andb_false_r.
  rewrite (get_string_is _ _ _ _ _ H Hn). bind_simpl. rewrite <- Hl, strncpy_data_no_nul by (by apply is_cstr_no_nul).
  change (negb (SC_OK =? SC_OK)) with false. cbv iota. by rewrite Hset.
Qed.

Lemma res_member_none j name buf n set res :
  get_item_ci j (lit name) = None -> res_member j name true buf n set res = Some (SC_OK, (buf, res)).
Proof.
  intros H. unfold res_member, has_item. by rewrite H.
Qed.

Definition send_response (bundle_hash chid msg_id : cstr) (announcement chid1 : option cstr) : ta_send_mam_res_t :=
  mkSendMamRes (res_array N_HASH (Some bundle_hash)) (res_array N_HASH (Some chid))
    (res_array N_MSG_ID (Some msg_id)) (res_array N_HASH announcement) (res_array N_HASH chid1).

Definition response_json (bundle_hash chid msg_id : cstr) (announcement chid1 : option cstr) : json :=
  JObject ((lit "bundle_hash", JString bundle_hash) :: (lit "chid", JString chid) ::
    (lit "msg_id", JString msg_id) :: opt_field "announcement_bundle_hash" (JString <$> announcement) ++
    opt_field "chid1" (JString <$> chid1)).

Lemma is_trytes_nonempty n s : is_trytes (S n) s -> s <> [].
Proof. by intros [_ H] ->. Qed.

Lemma send_mam_res_serialize_is bh chid mid ann chid1 :
  is_trytes N_HASH bh -> is_trytes N_HASH chid -> is_trytes N_MSG_ID mid ->
  (forall t, ann = Some t -> is_trytes N_HASH t) -> (forall t, chid1 = Some t -> is_trytes N_HASH t) ->
  send_mam_message_res_serialize (Some (send_response bh chid mid ann chid1)) None =
    Some (SC_OK, Some (cJSON_PrintUnformatted (response_json bh chid mid ann chid1))).
Proof.
  intros H1 H2 H3 H4 H5. unfold send_mam_message_res_serialize.
  assert (forall n s, is_trytes n s -> forall t, Some s = Some t -> is_trytes n t) as Hsome by (by intros ? ? ? ? [= <-]).
  cbn [send_response sr_bundle_hash sr_chid sr_msg_id sr_announcement_bundle_hash sr_chid1].
  rewrite !c_string_res_array by eauto. bind_simpl. cbn [default].
  assert (forall o, (forall t, o = Some t -> is_trytes N_HASH t) ->
    bool_decide (default [] o = []) = bool_decide (o = None)) as Hne.
  { intros [t|] Ho; [|done]. cbn [default]. rewrite !bool_decide_false; [done|done|].
    by eapply is_trytes_nonempty, Ho. }
  rewrite !Hne by done. do 4 f_equal. unfold response_json.
  by destruct ann, chid1.
Qed.

Lemma response_json_ok bh chid mid ann chid1 :
  is_trytes N_HASH bh -> is_trytes N_HASH chid -> is_trytes N_MSG_ID mid ->
  (forall t, ann = Some t -> is_trytes N_HASH t) -> (forall t, chid1 = Some t -> is_trytes N_HASH t) ->
  json_ok (response_json bh chid mid ann chid1) = true.
Proof.
  intros H1 H2 H3 H4 H5. unfold response_json.
  destruct ann as [a|], chid1 as [c|]; cbn [opt_field fmap option_fmap option_map app json_ok forallb fst snd];
    repeat match goal with |- context [bool_decide (is_cstr ?s)] =>
      rewrite (bool_decide_true (is_cstr s)) by first
        [apply H1|apply H2|apply H3|by apply H4|by apply H5|apply (bool_decide_unpack _); vm_compute; exact I]
    end; done.
Qed.

Lemma copied_room n s r : is_trytes n s -> (n <= length (s ++ r))%nat.
Proof. intros [_ <-]. rewrite length_app. lia. Qed.

Ltac room := first [by eapply copied_room|rewrite uninit_len; by apply Nat.leb_le].

(** Copy a member known by [H] and go on. *)
Ltac read_member H :=
  erewrite res_member_is;
  [|unfold response_json; cbn [opt_field fmap option_fmap option_map app]; json_lookup; reflexivity|exact H|room
   |intros ?; cbv beta delta [send_mam_res_set_channel_id send_mam_res_set_msg_id send_mam_res_set_bundle_hash
      send_mam_res_set_chid1 send_mam_res_set_announce_bundle_hash] iota;
    rewrite copy_trytes_is by apply H; reflexivity];
  bind_simpl; change (negb (SC_OK =? SC_OK)) with false; cbv iota;
  cbn [sr_bundle_hash sr_chid sr_msg_id sr_announcement_bundle_hash sr_chid1 send_mam_res_new].

(** The response to a sent message is read back as it was written, with and
    without the announcement of the next channel. *)
Theorem send_mam_res_roundtrip bh chid mid ann chid1 :
  is_trytes N_HASH bh -> is_trytes N_HASH chid -> is_trytes N_MSG_ID mid ->
  (forall t, ann = Some t -> is_trytes N_HASH t) -> (forall t, chid1 = Some t -> is_trytes N_HASH t) ->
  exists text, send_mam_message_res_serialize (Some (send_response bh chid mid ann chid1)) None = Some (SC_OK, Some text) /\
    send_mam_message_res_deserialize uninit (Some text) send_mam_res_new =
      Some (SC_OK, send_response bh chid mid ann chid1).
Proof.
  intros H1 H2 H3 H4 H5. eexists. split; [by apply send_mam_res_serialize_is|].
  unfold send_mam_message_res_deserialize. rewrite parse_print by (by apply response_json_ok).
  read_member H2. read_member H3. read_member H1.
  destruct chid1 as [c|], ann as [a|];
    try specialize (H5 c eq_refl); try specialize (H4 a eq_refl).
  - read_member H5. by read_member H4.
  - read_member H5. by rewrite res_member_none.
  - rewrite res_member_none by done. bind_simpl. change (negb (SC_OK =? SC_OK)) with false. cbv iota.
    by read_member H4.
  - rewrite res_member_none by done. bind_simpl. change (negb (SC_OK =? SC_OK)) with false. cbv iota.
    by rewrite res_member_none.
Qed.

(** *** Received messages *)

Definition is_payload (p : cstr) : Prop := is_cstr p /\ (TIMESTAMP_CHARS <= length p)%nat.

Definition payload_pair (p : cstr) : json :=
  JArray [JString (take TIMESTAMP_CHARS p); JString (drop TIMESTAMP_CHARS p)].

Lemma payload_item_is p : is_payload p -> payload_item p = Some (payload_pair p).
Proof.
  intros [Hp Hl]. unfold payload_item.
  rewrite overwrite_start by (rewrite length_strncpy_data; by apply Nat.leb_le). bind_simpl.
  rewrite (proj2 (Nat.leb_le _ _) Hl). bind_simpl.
  pose proof (Forall_take _ TIMESTAMP_CHARS _ Hp) as Ht.
  unfold strncpy_data. rewrite (str_of_buf_no_nul (take _ p)) by (by apply is_cstr_no_nul).
  rewrite length_take, Nat.min_l, Nat.sub_diag, app_nil_r by lia.
  rewrite length_take, Nat.min_l by lia.
  change (drop TIMESTAMP_CHARS (replicate 21 0)) with [0]. by rewrite str_of_buf_app.
Qed.

Lemma payload_items_are ps : Forall is_payload (omap id ps) ->
  ta_mam_recv_payload_items ps = Some (payload_pair <$> omap id ps).
Proof.
  induction ps as [|[p|] ps IH]; [done| |done]. cbn [omap list_omap id ta_mam_recv_payload_items fmap list_fmap].
  intros [Hp Hps]%Forall_cons. rewrite payload_item_is by done. bind_simpl. fold (omap (M := list) id ps).
  by rewrite (IH Hps).
Qed.

(** The strings a received response is read back as. *)
Definition split_payload (p : cstr) : list (option cstr) :=
  [Some (take TIMESTAMP_CHARS p); Some (drop TIMESTAMP_CHARS p)].

Lemma payload_strings_pairs ps : forall ut,
  payload_strings ((payload_pair <$> ps) ≫= children) ut = (SC_OK, ut ++ (ps ≫= split_payload)).
Proof.
  induction ps as [|p ps IH]; intros ut; [by rewrite app_nil_r|]. simpl.
  fold (mbind (M := list) children (payload_pair <$> ps)). rewrite IH. by rewrite <- !app_assoc.
Qed.

Definition payload_json (ps : list cstr) (chid1 : option cstr) : json :=
  JObject ((lit "payload", JArray (payload_pair <$> ps)) :: opt_field "chid1" (JString <$> chid1)).

Lemma payload_json_ok ps chid1 : Forall is_payload ps -> (forall t, chid1 = Some t -> is_trytes N_HASH t) ->
  json_ok (payload_json ps chid1) = true.
Proof.
  intros Hps Hc. unfold payload_json.
  assert (json_ok (JArray (payload_pair <$> ps)) = true) as Hj.
  { apply forallb_forall. intros j Hj. apply list_elem_of_In, list_elem_of_fmap in Hj as (p & -> & Hp).
    rewrite Forall_forall in Hps. destruct (Hps p Hp) as [Hp' _]. simpl.
    rewrite !bool_decide_true; [done| |]; [by apply Forall_drop|by apply Forall_take]. }
  change (json_ok (JObject ?l)) with (forallb (fun f => bool_decide (is_cstr f.1) && json_ok f.2) l).
  cbn [forallb fst snd]. rewrite Hj. destruct chid1 as [c|]; [|done].
  cbn [opt_field fmap option_fmap option_map forallb fst snd json_ok].
  by rewrite (bool_decide_true (is_cstr c)) by (by apply Hc).
Qed.

(** Received messages round trip up to the split the format makes: every
    payload comes back as its time stamp (20 characters) and its text, in
    order, NULL payloads (announcements) vanish and the next channel ID is
    kept. *)
Theorem recv_mam_res_roundtrip ps chid1 :
  Forall is_payload (omap id ps) -> (forall t, chid1 = Some t -> is_trytes N_HASH t) ->
  exists text, recv_mam_message_res_serialize (mkRecvMamRes ps (res_array N_HASH chid1)) = Some (SC_OK, Some text) /\
    recv_mam_message_res_deserialize (Some text) recv_mam_res_new =
      Some (SC_OK, mkRecvMamRes (omap id ps ≫= split_payload) (res_array N_HASH chid1)).
Proof.
  intros Hps Hc. exists (cJSON_PrintUnformatted (payload_json (omap id ps) chid1)). split.
  - unfold recv_mam_message_res_serialize. cbn [rr_payload_array rr_chid1].
    rewrite payload_items_are by done. bind_simpl. rewrite c_string_res_array by done. bind_simpl.
    destruct chid1 as [c|]; [|done]. cbn [default].
    by rewrite bool_decide_false by (by eapply is_trytes_nonempty, Hc).
  - unfold recv_mam_message_res_deserialize. rewrite parse_print by (by apply payload_json_ok).
    unfold ta_json_recv_payload_to_string_utarray, payload_json. rewrite get_item_here.
    cbn [mbind option_bind array_items]. fold (mbind (M := list) children). rewrite payload_strings_pairs.
    change (negb (SC_OK =? SC_OK)) with false. cbv iota. cbn [recv_mam_res_new rr_payload_array rr_chid1 app].
    destruct chid1 as [c|]; [|done]. destruct (Hc c eq_refl) as [H1 H2].
    cbn [opt_field fmap option_fmap option_map].
    rewrite (get_item_has _ _ (JString c)) by (by json_lookup).
    rewrite (get_string_is _ _ c); [|by json_lookup|rewrite length_replicate; lia]. bind_simpl.
    rewrite <- H2, strncpy_data_no_nul by (by apply is_cstr_no_nul). change (SC_OK =? SC_OK) with true.
    cbv iota. do 3 f_equal. rewrite H2. done.
Qed.

(** A payload of fewer than 20 characters, which any publisher can put on a
    channel, makes the serializer read behind the end of the string. *)
Theorem recv_short_payload_undefined ps p chid1 :
  Some p ∈ ps -> (length p < TIMESTAMP_CHARS)%nat ->
  recv_mam_message_res_serialize (mkRecvMamRes ps chid1) = None.
Proof.
  intros Hp Hl. unfold recv_mam_message_res_serialize. cbn [rr_payload_array].
  assert (ta_mam_recv_payload_items ps = None) as ->; [|done].
  assert (payload_item p = None) as Hnone.
  { unfold payload_item. rewrite overwrite_start by (rewrite length_strncpy_data; by apply Nat.leb_le).
    bind_simpl. by rewrite (proj2 (Nat.leb_gt _ _) Hl). }
  induction ps as [|[q|] ps IH]; [by apply not_elem_of_nil in Hp| |].
  - apply elem_of_cons in Hp as [[= <-]|Hp]; cbn [ta_mam_recv_payload_items]; [by rewrite Hnone|].
    rewrite (IH Hp). by destruct (payload_item q).
  - apply elem_of_cons in Hp as [?|Hp]; [done|]. by apply IH.
Qed.

(** *** Identifiers of a message to receive *)

(** Either a bundle hash alone, or a channel ID, a message ID or both. *)
Definition data_id_ok (d : recv_mam_data_id_mam_v1_t) : Prop :=
  (exists h, d = mkDataId (Some h) None None /\ length h = N_HASH) \/
  (di_bundle_hash d = None /\ tryte_hash (di_chid d) /\
   (forall m, di_msg_id d = Some m -> length m = N_MSG_ID) /\ (is_Some (di_chid d) \/ is_Some (di_msg_id d))).

Lemma data_id_member_ok j name n ret o : data_id_member j name n = (ret, o) ->
  forall s, o = Some s -> length s = n.
Proof.
  unfold data_id_member. intros H s ->. destruct (has_item j _); [|done].
  destruct (get_item j _) as [v|]; [|done]. destruct (valuestring v) as [t|]; [|done].
  destruct (Nat.eqb_spec (length t) n) as [E|E]; [|done]. by injection H as <- <-.
Qed.

(** Reading a request to receive messages is defined for every text; an
    accepted one of the known protocol identifies either one bundle or a channel
    or message, with identifiers of the right length. *)
Theorem recv_mam_req_well_formed obj :
  exists ret req, recv_mam_message_req_deserialize uninit obj (recv_mam_req_new protocol0) = Some (ret, req) /\
    (ret = SC_OK -> rm_protocol req = MAM_V1 ->
     exists d key, rm_data_id req = Some d /\ data_id_ok d /\ rm_key req = Some key).
Proof.
  unfold recv_mam_message_req_deserialize.
  destruct obj as [obj|]; [|by eexists _, _]. destruct (cJSON_Parse obj) as [j|]; [|by eexists _, _].
  destruct (get_string_total j (lit "protocol") (uninit protocol_len) protocol_len) as (r0 & p & -> & _);
    [by rewrite uninit_len|]. bind_simpl.
  destruct (Z.eqb_spec r0 SC_OK) as [->|?]; cbn [negb]; [|by eexists _, _].
  cbn [rm_protocol recv_mam_req_new]. set (proto := if is_mam_v1 p then MAM_V1 else protocol0).
  destruct (Z.eqb_spec proto MAM_V1) as [_|Hp]; [|eexists _, _; split; [done|]; by intros _ ?].
  cbn [recv_mam_req_v1_init rm_protocol]. change (negb (SC_OK =? SC_OK)) with false. cbv iota.
  unfold recv_mam_message_mam_v1_req_deserialize. cbn [rm_key rm_data_id rm_protocol]. bind_simpl.
  destruct (mam_keys_of j (mkMamKey [] [])) as [r1 key].
  destruct (Z.eqb_spec r1 SC_OK) as [_|?]; cbn [negb]; [|by eexists _, _].
  destruct (get_item_ci j (lit "data_id")) as [jd|]; [|by eexists _, _].
  destruct (data_id_member jd "bundle_hash" N_HASH) as [r2 bh] eqn:E2.
  destruct (Z.eqb_spec r2 SC_OK) as [_|?]; cbn [negb]; [|by eexists _, _].
  destruct bh as [h|].
  { eexists _, _. split; [done|]. intros _ _. eexists _, _. split; [done|]. split; [|done].
    left. exists h. split; [done|]. by eapply data_id_member_ok. }
  destruct (data_id_member jd "chid" N_HASH) as [r3 chid] eqn:E3.
  destruct (Z.eqb_spec r3 SC_OK) as [_|?]; cbn [negb]; [|by eexists _, _].
  destruct (data_id_member jd "msg_id" N_MSG_ID) as [r4 mid] eqn:E4.
  destruct (Z.eqb_spec r4 SC_OK) as [_|?]; cbn [negb]; [|by eexists _, _].
  destruct chid as [c|], mid as [m|]; [| | |by eexists _, _];
    (eexists _, _; split; [done|]; intros _ _; eexists _, _; split; [done|]; split; [|done]; right;
     split; [done|]; split; [|split]; cbn;
     [intros ? [= <-]; by eapply data_id_member_ok || done| |by eauto];
     intros ? [= <-]; by eapply data_id_member_ok).
Qed.

(** *** Registration of a channel *)

Lemma register_req_is seed buf : json_ok (JObject [(lit "seed", JString seed)]) = true ->
  is_trytes N_HASH seed -> length buf = S N_HASH ->
  register_mam_channel_req_deserialize (Some (cJSON_PrintUnformatted (JObject [(lit "seed", JString seed)])))
    (mkRegisterReq buf) = Some (SC_OK, mkRegisterReq (seed ++ [0])).
Proof.
  intros Hok [Hs Hl] Hb. unfold register_mam_channel_req_deserialize. rewrite parse_print, get_item_here by done.
  cbn [valuestring]. unfold strlen. rewrite Hl. change (negb (_ =? NUM_TRYTES_ADDRESS)) with false. cbv iota.
  cbn [rg_seed]. rewrite <- Hl, strncpy_data_no_nul by (by apply is_cstr_no_nul).
  rewrite overwrite_start by lia. bind_simpl.
  rewrite overwrite_extend by (simpl; lia). bind_simpl. do 3 f_equal.
  rewrite drop_ge, app_nil_r; [done|]. rewrite length_app. simpl. lia.
Qed.

Lemma register_res_roundtrip uuid buf : is_trytes 36 uuid -> length buf = 37%nat ->
  exists text, register_mam_channel_res_serialize (Some uuid) = (SC_OK, Some text) /\
    register_mam_channel_res_deserialize (Some text) buf = Some (SC_OK, uuid ++ [0]).
Proof.
  intros [Hs Hl] Hb. eexists. split; [done|]. unfold register_mam_channel_res_deserialize, add_string.
  cbn [add_item app]. rewrite parse_print; [|cbn [json_ok forallb fst snd]; by rewrite (bool_decide_true (is_cstr uuid))].
  rewrite get_item_here. cbn [valuestring]. unfold strlen. rewrite Hl.
  change (negb (_ =? UUID_STR_LEN - 1)) with false. cbv iota.
  rewrite <- Hl, strncpy_data_no_nul by (by apply is_cstr_no_nul).
  rewrite overwrite_start by lia. bind_simpl.
  rewrite overwrite_extend by (simpl; lia). bind_simpl. do 2 f_equal.
  rewrite drop_ge, app_nil_r; [done|]. rewrite length_app. simpl. lia.
Qed.

End Properties.

(** ** Evaluations *)
Module SerMamWitness.
Import JsonModel.

Definition noise (n : nat) : list Z := replicate n 170.
Lemma noise_len n : length (noise n) = n.
Proof. apply length_replicate. Qed.

Definition hash_of (c : Z) : cstr := replicate N_HASH c.
Definition id_of (c : Z) : cstr := replicate N_MSG_ID c.

Lemma hash_of_ok c : 0 < c < 256 -> is_trytes N_HASH (hash_of c).
Proof. intros Hc. split; [|done]. by apply Forall_replicate. Qed.

Lemma send_mam_req_well_typed_witness : exists ret req,
  send_mam_message_req_deserialize noise
    (Some (cJSON_PrintUnformatted (send_request [] [] None None [72; 105] None))) (send_mam_req_new 7 noise) = Some (ret, req) /\
  (ret = SC_OK -> exists data key message, send_mam_req_ok 7 req data key message).
Proof. apply (send_mam_req_well_typed (txt := text) 7 noise noise_len). Defined.

Lemma send_mam_req_functional_witness :
  send_mam_message_req_deserialize noise
    (Some (cJSON_PrintUnformatted (send_request [hash_of 65] [] (Some (hash_of 66)) None [72; 105] (Some 3))))
    (send_mam_req_new 7 noise) =
  Some (SC_OK, mkSendMamReq (replicate (S SERVICE_TOKEN_LEN) 0)
    (Some (mkSendData (Some (hash_of 66)) 3 None (Some [72; 105]))) (Some (mkMamKey [hash_of 65] [])) MAM_V1).
Proof.
  apply (send_mam_req_functional (txt := text) noise noise_len [hash_of 65] [] (Some (hash_of 66)) None [72; 105] (Some 3)).
  - vm_compute. reflexivity.
  - intros s [= <-]. reflexivity.
  - done.
  - repeat constructor.
  - intros d [= <-]. done.
Defined.

Lemma send_mam_res_roundtrip_witness : exists text,
  send_mam_message_res_serialize
    (Some (send_response (hash_of 65) (hash_of 66) (id_of 67) (Some (hash_of 68)) None)) None = Some (SC_OK, Some text) /\
  send_mam_message_res_deserialize noise (Some text) send_mam_res_new =
    Some (SC_OK, send_response (hash_of 65) (hash_of 66) (id_of 67) (Some (hash_of 68)) None).
Proof.
  apply (send_mam_res_roundtrip (txt := text) noise noise_len).
  - by apply hash_of_ok.
  - by apply hash_of_ok.
  - split; [by apply Forall_replicate|done].
  - intros t [= <-]. by apply hash_of_ok.
  - done.
Defined.

Definition two_payloads : list (option cstr) :=
  [Some (replicate 20 48 ++ [72; 105]); None; Some (replicate 20 49)].

Lemma recv_mam_res_roundtrip_witness : exists text,
  recv_mam_message_res_serialize (mkRecvMamRes two_payloads (res_array N_HASH (Some (hash_of 65)))) =
    Some (SC_OK, Some text) /\
  recv_mam_message_res_deserialize (Some text) recv_mam_res_new =
    Some (SC_OK, mkRecvMamRes [Some (replicate 20 48); Some [72; 105]; Some (replicate 20 49); Some []]
      (res_array N_HASH (Some (hash_of 65)))).
Proof.
  apply (recv_mam_res_roundtrip (txt := text) two_payloads (Some (hash_of 65))).
  - apply Forall_cons; split; [|apply Forall_cons; split; [|done]];
      (split; [apply (bool_decide_unpack _); vm_compute; exact I|by apply Nat.leb_le]).
  - intros t [= <-]. by apply hash_of_ok.
Defined.

Lemma recv_short_payload_undefined_witness :
  recv_mam_message_res_serialize (mkRecvMamRes [Some [72; 105]] (replicate 82 0)) = None.
Proof.
  apply (recv_short_payload_undefined (txt := text) [Some [72; 105]] [72; 105]); [by constructor|by apply Nat.ltb_lt].
Defined.

Lemma recv_mam_req_well_formed_witness : exists ret req,
  recv_mam_message_req_deserialize noise
    (Some (cJSON_PrintUnformatted (JObject [(lit "data_id", JObject [(lit "chid", JString (hash_of 65))]);
                           (lit "protocol", JString (lit "MAM_V1"))]))) (recv_mam_req_new 7) = Some (ret, req) /\
  (ret = SC_OK -> rm_protocol req = MAM_V1 ->
   exists d key, rm_data_id req = Some d /\ data_id_ok d /\ rm_key req = Some key).
Proof. apply (recv_mam_req_well_formed (txt := text) 7 noise noise_len). Defined.

(** The requests of the two witnesses above are accepted. *)
Example requests_accepted :
  (fst <$> send_mam_message_req_deserialize noise
     (Some (cJSON_PrintUnformatted (send_request [] [] None None [72; 105] None))) (send_mam_req_new 7 noise)) = Some SC_OK /\
  (fst <$> recv_mam_message_req_deserialize noise
     (Some (cJSON_PrintUnformatted (JObject [(lit "data_id", JObject [(lit "chid", JString (hash_of 65))]);
                            (lit "protocol", JString (lit "MAM_V1"))]))) (recv_mam_req_new 7)) = Some SC_OK.
Proof. split; vm_compute; reflexivity. Qed.
End SerMamWitness.
