(* ===== verification/Core.v ===== *)
(** * The core ([accelerator/core/core.c])

    Attaching, sending and querying transactions.  Every function of the file is
    here but the buffer operations, which are in [Buffer].  Output parameters
    that the C functions fill are part of the results; arrays of transactions
    are lists.  Failing allocations are not modelled; [qsort] is a parameter, as
    C leaves the order of equal elements open. *)

From stdpp Require Import sorting.
From S2P Require Import Prelude TaErrors Utils Json Cache World Pow Config Serializer.

Section Core.
Context {net os db : Type} {lib : IotaLib} {txt : JsonText}
  {node : IotaNode net} {sys : Os os} {server : RedisServer db}.
Abbreviation proc := (@proc net os db).

(** ** Attaching and sending *)

(** [BUNDLE_FOREACH ... transaction_serialize ... push]: the transactions
    serialized before the first failure, and whether there was one. *)
Fixpoint serialize_all (txs : list iota_transaction_t) (acc : list trits) : status_t * list trits :=
  match txs with
  | [] => (SC_OK, acc)
  | tx :: r =>
      match transaction_serialize tx with
      | Some t => serialize_all r (acc ++ [t])
      | None => (SC_CCLIENT_FAILED_RESPONSE, acc)
      end
  end.

Definition ta_attach_to_tangle (req_trytes : list trits) (trunk branch : trits) (mwm : Z)
  : proc (status_t * list trits) :=
  let bundle := (fun elt => transaction_deserialize_from_trits elt true) <$> req_trytes in
  '(ret, bundle) ← ta_pow bundle trunk branch mwm;
  if negb (ret =? SC_OK) then mret (ret, []) else mret (serialize_all bundle []).

(** The second component is the array [trytes] afterwards. *)
Definition ta_send_trytes (info : ta_config_t) (iconf : iota_config_t)
    (service : iota_client_service_t) (trytes : list trits) : proc (status_t * list trits) :=
  tips ← (if is_option_enabled info CLI_GTTA
          then on_net (fun n => iota_client_get_transactions_to_approve service n (milestone_depth iconf))
          else mret (Some fresh_tips));
  match tips with
  | None => mret (SC_CCLIENT_FAILED_RESPONSE, trytes)
  | Some (trunk, branch) =>
      '(ret, attached) ← ta_attach_to_tangle trytes trunk branch (mwm iconf);
      if negb (ret =? SC_OK) then mret (ret, trytes) else
      ok ← on_net (fun n => iota_client_store_and_broadcast service n attached);
      if negb ok then mret (SC_CCLIENT_FAILED_RESPONSE, trytes) else
      mret (SC_OK, attached)
  end.

(** ** Finding transactions *)

(** The loop over the requested hashes: cached transactions go to the result,
    the others to the list of hashes to ask the node for. *)
Fixpoint find_cached (hashes : list trits) (uncached : list trits) (res : list iota_transaction_t)
  : proc (status_t * list trits * list iota_transaction_t) :=
  match hashes with
  | [] => mret (SC_OK, uncached, res)
  | h :: r =>
      let txn_hash := tryte_string N_HASH h in
      '(ret, value) ← on_cache (Backend.cache_get (Some txn_hash) None);
      if ret =? SC_OK then
        value ← check value;
        trytes ← check (read_n value N_TXN);
        match transaction_deserialize (flex_trits_from_trytes N_TXN trytes) true with
        | None => mret (SC_OOM, uncached, res)
        | Some tx => find_cached r uncached (res ++ [tx])
        end
      else find_cached r (uncached ++ [h]) res
  end.

(** The loop over the uncached hashes: each answer of the node is appended, and
    then the first element of the array once more. *)
Fixpoint fetch_uncached (service : iota_client_service_t) (hashes : list trits)
    (txns : list iota_transaction_t) : proc (status_t * list iota_transaction_t) :=
  match hashes with
  | [] => mret (SC_OK, txns)
  | h :: r =>
      objs ← on_net (fun n => iota_client_get_transaction_objects service n [h]);
      match objs with
      | None => mret (SC_CCLIENT_FAILED_RESPONSE, txns)
      | Some objs =>
          let txns := txns ++ objs in
          first ← check (head txns);
          fetch_uncached service r (txns ++ [first])
      end
  end.

(** The last loop: transactions that are not null are copied to the result. *)
Fixpoint append_found (txns res : list iota_transaction_t)
  : option (status_t * list iota_transaction_t) :=
  match txns with
  | [] => Some (SC_OK, res)
  | tx :: r =>
      t ← transaction_serialize tx;
      if negb (flex_trits_are_null t) then
        tx' ← transaction_deserialize t true;
        append_found r (res ++ [tx'])
      else Some (SC_CCLIENT_NOT_FOUND, res)
  end.

Definition ta_find_transaction_objects (service : iota_client_service_t) (hashes : list trits)
    (res : list iota_transaction_t) : proc (status_t * list iota_transaction_t) :=
  '(ret, uncached, res) ← find_cached hashes [] res;
  if negb (ret =? SC_OK) then mret (ret, res) else
  '(ret, txns) ← fetch_uncached service uncached [];
  if negb (ret =? SC_OK) then mret (ret, res) else
  check (append_found txns res).

Definition ta_find_transactions_obj_by_tag (service : iota_client_service_t)
    (req : find_transactions_req_t) (res : list iota_transaction_t)
  : proc (status_t * list iota_transaction_t) :=
  found ← on_net (fun n => iota_client_find_transactions service n req);
  match found with
  | None => mret (SC_CCLIENT_FAILED_RESPONSE, res)
  | Some hashes => ta_find_transaction_objects service (take (Z.to_nat RESULT_SET_LIMIT) hashes) res
  end.

Fixpoint get_objects (service : iota_client_service_t) (hashes : list trits)
    (txns : list iota_transaction_t) : proc (status_t * list iota_transaction_t) :=
  match hashes with
  | [] => mret (SC_OK, txns)
  | h :: r =>
      objs ← on_net (fun n => iota_client_get_transaction_objects service n [h]);
      match objs with
      | None => mret (SC_CCLIENT_FAILED_RESPONSE, txns)
      | Some objs => get_objects service r (txns ++ objs)
      end
  end.

Definition ta_get_txn_objects_with_txn_hash (service : iota_client_service_t)
    (req : find_transactions_req_t) (txns : list iota_transaction_t)
  : proc (status_t * list iota_transaction_t) :=
  found ← on_net (fun n => iota_client_find_transactions service n req);
  match found with
  | None => mret (SC_CCLIENT_FAILED_RESPONSE, txns)
  | Some hashes => get_objects service hashes txns
  end.

(** ** Bundles *)

(** [idx_sort], the comparison given to [qsort]. *)
Definition idx_sort (lhs rhs : iota_transaction_t) : Z :=
  if transaction_current_index lhs <? transaction_current_index rhs then -1
  else if transaction_current_index lhs >? transaction_current_index rhs then 1 else 0.

Context (qsort : (iota_transaction_t -> iota_transaction_t -> Z) ->
                 list iota_transaction_t -> list iota_transaction_t).

(** The loop of [get_first_bundle_from_transactions]. *)
Fixpoint bundle_loop (txns : list iota_transaction_t) (prev : iota_transaction_t)
    (bundle : list iota_transaction_t) : list iota_transaction_t :=
  match txns with
  | [] => bundle
  | tx :: r =>
      if (transaction_current_index tx =? transaction_current_index prev + 1) &&
         bool_decide (transaction_hash tx = transaction_trunk prev)
      then bundle_loop r tx (bundle ++ [tx]) else bundle_loop r prev bundle
  end.

(** An empty array makes the function add a NULL transaction. *)
Definition get_first_bundle_from_transactions (txns bundle : list iota_transaction_t)
  : option (list iota_transaction_t) :=
  let txns := qsort idx_sort txns in
  match txns with
  | [] => None
  | tail :: _ => Some (bundle_loop txns tail (bundle ++ [tail]))
  end.

Definition bundle_query (h : trits) : find_transactions_req_t := mkFindReq [h] [] [] [].
Definition address_query (a : trits) : find_transactions_req_t := mkFindReq [] [a] [] [].

Definition ta_get_bundle (service : iota_client_service_t) (bundle_hash : trytes)
    (bundle : list iota_transaction_t) : proc (status_t * list iota_transaction_t) :=
  let req := bundle_query (flex_trits_from_trytes (Z.to_nat NUM_TRYTES_BUNDLE) bundle_hash) in
  '(ret, txns) ← ta_get_txn_objects_with_txn_hash service req [];
  if negb (ret =? SC_OK) then mret (SC_CCLIENT_FAILED_RESPONSE, bundle) else
  bundle ← check (get_first_bundle_from_transactions txns bundle);
  mret (SC_OK, bundle).

Definition ta_send_bundle (info : ta_config_t) (iconf : iota_config_t)
    (service : iota_client_service_t) (bundle : list iota_transaction_t) : proc status_t :=
  let bundle := bundle_finalize bundle in
  let raw_trytes := (fun tx => (transaction_serialize_on_flex_trits tx).2) <$> bundle in
  _ ← ta_send_trytes info iconf service raw_trytes;
  mret SC_OK.

(** The loop over the transactions of an address; [seen] is the set of bundle
    hashes already fetched. *)
Fixpoint bundles_loop (service : iota_client_service_t) (txns : list iota_transaction_t)
    (seen : list trits) (bundles : list (list iota_transaction_t))
  : proc (status_t * list (list iota_transaction_t)) :=
  match txns with
  | [] => mret (SC_OK, bundles)
  | tx :: r =>
      if bool_decide (transaction_bundle tx ∈ seen) then bundles_loop service r seen bundles
      else
        let bundle_hash := (flex_trits_to_trytes (Z.to_nat NUM_TRYTES_BUNDLE) (transaction_bundle tx)).2 in
        '(ret, bundle) ← ta_get_bundle service bundle_hash [];
        if negb (ret =? SC_OK) then mret (ret, bundles)
        else bundles_loop service r (transaction_bundle tx :: seen) (bundles ++ [bundle])
  end.

Definition ta_get_bundles_by_addr (service : iota_client_service_t) (addr : trytes)
    (bundles : list (list iota_transaction_t)) : proc (status_t * list (list iota_transaction_t)) :=
  let req := address_query (flex_trits_from_trytes N_HASH addr) in
  found ← on_net (fun n => iota_client_find_transactions service n req);
  match found with
  | None => mret (SC_CCLIENT_FAILED_RESPONSE, bundles)
  | Some [] => mret (SC_CCLIENT_NOT_FOUND, bundles)
  | Some hashes =>
      '(ret, txns) ← ta_find_transaction_objects service hashes [];
      if negb (ret =? SC_OK) then mret (ret, bundles)
      else bundles_loop service txns [] bundles
  end.

(** ** The node's status *)

Definition getnodeinfo : cstr := qlit "{`command`: `getNodeInfo`}".

(** Subtraction of [int]s; overflow is undefined. *)
Definition int_sub (a b : Z) : option Z :=
  if (INT_MIN <=? a - b) && (a - b <=? INT_MAX) then Some (a - b) else None.

Definition ta_get_node_status (service : iota_client_service_t) : proc status_t :=
  result ← on_net (fun n => iota_service_query service n getnodeinfo);
  match result with
  | None => mret SC_CCLIENT_FAILED_RESPONSE
  | Some node_result =>
      let '(ret, latest, solid) := get_node_status_milestone_deserialize (Some node_result) in
      if negb (ret =? SC_OK) then mret ret else
      latest ← check latest;
      solid ← check solid;
      diff ← check (int_sub solid latest);
      mret (if diff >? 1 then SC_CORE_NODE_UNSYNC else SC_OK)
  end.

End Core.

(** ** Properties *)
Section Properties.
Context {net os db : Type} {lib : IotaLib} {txt : JsonText}
  {node : IotaNode net} {sys : Os os} {server : RedisServer db}.
Implicit Types w : world net os db.

(** Invert the head of a successful computation. *)
Ltac comp_inv Hx :=
  apply comp_bind_Some in Hx as (? & ? & ? & Hx).

Lemma ta_attach_ok trytes trunk branch mwm w w' out tl :
  last ((fun elt => transaction_deserialize_from_trits elt true) <$> trytes) = Some tl ->
  transaction_last_index tl + 1 = Z.of_nat (length trytes) -> Z.of_nat (length trytes) < 2 ^ 64 ->
  ta_attach_to_tangle trytes trunk branch mwm w = Some ((SC_OK, out), w') ->
  exists bundle, chained trunk branch bundle /\ Forall (mined mwm) bundle /\
    essence <$> bundle =
      (fun elt => essence (transaction_deserialize_from_trits elt true)) <$> trytes /\
    serialize_all bundle [] = (SC_OK, out).
Proof.
  intros Hl Hi Hlen Hrun. unfold ta_attach_to_tangle in Hrun.
  apply comp_bind_Some in Hrun as ([ret bundle] & w1 & Hpow & Hrun).
  destruct (Z.eqb_spec ret SC_OK) as [->|Hne]; cbn [negb] in Hrun.
  2:{ injection Hrun as -> _ _. done. }
  injection Hrun as Hser _.
  edestruct (ta_pow_chains (net := net) (db := db)) as (H1 & H2 & H3);
    [exact Hl| | |exact Hpow|]; try (rewrite length_fmap; done).
  exists bundle. split; [done|]. split; [done|]. split; [|done].
  rewrite H3, <- list_fmap_compose. done.
Qed.

(** C17 Sending trytes: on success the array holds what was broadcast, namely
    the given transactions attached to the tips (trunks chained from the last
    transaction to the first, nonces mined, nothing else changed); on any error
    the array is the one given, which the caller can buffer. *)
Theorem ta_send_trytes_spec info iconf service trytes w w' ret out tl :
  last ((fun elt => transaction_deserialize_from_trits elt true) <$> trytes) = Some tl ->
  transaction_last_index tl + 1 = Z.of_nat (length trytes) -> Z.of_nat (length trytes) < 2 ^ 64 ->
  ta_send_trytes info iconf service trytes w = Some ((ret, out), w') ->
  (ret <> SC_OK /\ out = trytes) \/
  (ret = SC_OK /\ exists trunk branch bundle n,
     chained trunk branch bundle /\ Forall (mined (mwm iconf)) bundle /\
     essence <$> bundle =
       (fun elt => essence (transaction_deserialize_from_trits elt true)) <$> trytes /\
     serialize_all bundle [] = (SC_OK, out) /\
     iota_client_store_and_broadcast service n out = (true, w_net w')).
Proof.
  intros Hl Hi Hlen Hrun. unfold ta_send_trytes in Hrun.
  apply comp_bind_Some in Hrun as (tips & w1 & _ & Hrun).
  destruct tips as [[trunk branch]|]; [|injection Hrun as <- <- _; by left].
  apply comp_bind_Some in Hrun as ([ret1 attached] & w2 & Hatt & Hrun).
  destruct (Z.eqb_spec ret1 SC_OK) as [->|Hne]; cbn [negb] in Hrun;
    [|injection Hrun as <- <- _; by left].
  apply comp_bind_Some in Hrun as (ok & w3 & Hsb & Hrun).
  destruct ok; cbn [negb] in Hrun; [|injection Hrun as <- <- _; by left].
  injection Hrun as <- <- <-. right. split; [done|].
  destruct (ta_attach_ok _ _ _ _ _ _ _ _ Hl Hi Hlen Hatt) as (bundle & H1 & H2 & H3 & H4).
  exists trunk, branch, bundle, (w_net w2). repeat split; try done.
  unfold on_net in Hsb. destruct (iota_client_store_and_broadcast _ _ _) as [b n]. by injection Hsb as -> <-.
Qed.

(** *** What sending touches *)

Lemma ta_send_trytes_frame info iconf service trytes :
  cache_free (db := db) (ta_send_trytes info iconf service trytes) /\
  total (db := db) (ta_send_trytes info iconf service trytes).
Proof.
  unfold ta_send_trytes, ta_attach_to_tangle.
  split; proc_frame; apply ta_pow_frame.
Qed.

Lemma serialize_all_length txs : forall acc out,
  serialize_all txs acc = (SC_OK, out) -> length out = (length acc + length txs)%nat.
Proof.
  induction txs as [|tx r IH]; intros acc out; simpl; [by intros [= <-]|].
  destruct (transaction_serialize tx); [|by intros [=]].
  intros Hr. apply IH in Hr. rewrite length_app in Hr. simpl in Hr. lia.
Qed.

Lemma ta_send_trytes_length info iconf service trytes w ret out w' :
  ta_send_trytes info iconf service trytes w = Some ((ret, out), w') ->
  length out = length trytes.
Proof.
  unfold ta_send_trytes. intros Hr.
  apply comp_bind_Some in Hr as ([[trunk branch]|] & w1 & _ & Hr); [|by injection Hr as <- <- _].
  apply comp_bind_Some in Hr as ([ret1 attached] & w2 & Hatt & Hr).
  destruct (Z.eqb_spec ret1 SC_OK) as [->|]; cbn [negb] in Hr; [|by injection Hr as <- <- _].
  apply comp_bind_Some in Hr as (ok & w3 & _ & Hr).
  destruct ok; injection Hr as <- <- _; [|done].
  unfold ta_attach_to_tangle in Hatt.
  apply comp_bind_Some in Hatt as ([ret2 bundle] & w4 & Hpow & Hatt).
  destruct (Z.eqb_spec ret2 SC_OK) as [->|]; cbn [negb] in Hatt; [|by injection Hatt as -> _].
  injection Hatt as Hser _. apply serialize_all_length in Hser. apply ta_pow_length in Hpow.
  rewrite length_fmap in Hpow. simpl in Hser. lia.
Qed.

(** [ta_send_bundle] reports success whatever happened to the trytes. *)
Theorem ta_send_bundle_always_ok info iconf service bundle w w' ret :
  ta_send_bundle info iconf service bundle w = Some (ret, w') -> ret = SC_OK.
Proof.
  unfold ta_send_bundle. intros Hrun. apply comp_bind_Some in Hrun as (r & w1 & _ & Hrun).
  by injection Hrun as <- _.
Qed.

(** *** The first bundle *)

Definition linked (prev tx : iota_transaction_t) : Prop :=
  transaction_current_index tx = transaction_current_index prev + 1 /\
  transaction_hash tx = transaction_trunk prev.

(** Consecutive transactions are linked. *)
Fixpoint is_chain (prev : iota_transaction_t) (rest : list iota_transaction_t) : Prop :=
  match rest with
  | [] => True
  | tx :: r => linked prev tx /\ is_chain tx r
  end.

Definition idx_le (a b : iota_transaction_t) : Prop :=
  transaction_current_index a <= transaction_current_index b.

Lemma bundle_loop_chain rest : forall prev bundle,
  is_chain prev rest -> bundle_loop rest prev bundle = bundle ++ rest.
Proof.
  induction rest as [|tx r IH]; intros prev bundle; simpl; [by rewrite app_nil_r|].
  intros [[Hi Hh] Hc]. rewrite Hi, Z.eqb_refl, bool_decide_true by done. simpl.
  rewrite IH by done. by rewrite <- app_assoc.
Qed.

Lemma is_chain_index rest : forall prev, is_chain prev rest ->
  Forall (fun tx => transaction_current_index prev < transaction_current_index tx) rest.
Proof.
  induction rest as [|tx r IH]; intros prev; simpl; [constructor|].
  intros [[Hi _] Hc]. constructor; [lia|]. eapply Forall_impl; [by apply IH|]. simpl. lia.
Qed.

Lemma is_chain_sorted rest : forall prev, is_chain prev rest -> StronglySorted idx_le (prev :: rest).
Proof.
  induction rest as [|tx r IH]; intros prev Hc.
  - by repeat constructor.
  - constructor; [by apply IH; destruct Hc|].
    eapply Forall_impl; [by apply is_chain_index|]. unfold idx_le. simpl. lia.
Qed.

Lemma is_chain_distinct rest : forall prev x y, is_chain prev rest ->
  x ∈ prev :: rest -> y ∈ prev :: rest ->
  transaction_current_index x = transaction_current_index y -> x = y.
Proof.
  induction rest as [|tx r IH]; intros prev x y Hc Hx Hy E.
  - apply list_elem_of_singleton in Hx, Hy. congruence.
  - pose proof (is_chain_index _ _ Hc) as Hlt. rewrite Forall_forall in Hlt.
    apply elem_of_cons in Hx as [->|Hx]; apply elem_of_cons in Hy as [->|Hy]; [done|..].
    + specialize (Hlt _ Hy). lia.
    + specialize (Hlt _ Hx). lia.
    + destruct Hc as [_ Hc]. by eapply IH.
Qed.

(** C18 A bundle is put together from its transactions in whatever order the
    node returned them: if they are, in some order, a chain in which every
    transaction has the next index and the hash the previous one names as its
    trunk, [get_first_bundle_from_transactions] returns exactly that chain, for
    any [qsort] that sorts. *)
Theorem first_bundle_reassembled qsort txns tail rest :
  (forall l, qsort idx_sort l ≡ₚ l /\ StronglySorted idx_le (qsort idx_sort l)) ->
  is_chain tail rest -> txns ≡ₚ tail :: rest ->
  get_first_bundle_from_transactions qsort txns [] = Some (tail :: rest).
Proof.
  intros Hq Hc Hp. unfold get_first_bundle_from_transactions.
  destruct (Hq txns) as [Hperm Hsort].
  assert (qsort idx_sort txns = tail :: rest) as ->.
  { apply (StronglySorted_unique_strong idx_le); [|done|by apply is_chain_sorted|].
    - intros x y Hx Hy Hxy Hyx. rewrite Hperm, Hp in Hx.
      apply (is_chain_distinct rest tail); [done..|]. unfold idx_le in *. lia.
    - by rewrite Hperm, Hp. }
  cbn [bundle_loop]. destruct (Z.eqb_spec (transaction_current_index tail)
    (transaction_current_index tail + 1)); [lia|]. cbn [andb].
  by rewrite bundle_loop_chain.
Qed.

(** *** Duplicated answers *)

(** Every answer followed by the first one. *)
Definition with_first (first : iota_transaction_t) (l : list iota_transaction_t) :=
  l ≫= (fun t => [t; first]).

Lemma fetch_uncached_dup service (obj : trits -> iota_transaction_t) hashes : forall first done w,
  (forall n h, (iota_client_get_transaction_objects service n [h]).1 = Some [obj h]) ->
  exists w', fetch_uncached service hashes (first :: done) w =
    Some ((SC_OK, first :: done ++ with_first first (obj <$> hashes)), w').
Proof.
  induction hashes as [|h r IH]; intros first done w Hobj; cbn [fetch_uncached].
  { exists w. by rewrite app_nil_r. }
  unfold mbind at 1, comp_mbind at 1, on_net. specialize (Hobj (w_net w) h) as Hh.
  destruct (iota_client_get_transaction_objects service (w_net w) [h]) as [o n]. simpl in Hh. subst o.
  cbn [app head check]. unfold mbind, comp_mbind, check.
  destruct (IH first ((done ++ [obj h]) ++ [first]) (mkWorld n (w_os w) (w_cache w) (w_lock w)) Hobj)
    as [w' Hw']. exists w'. etransitivity; [exact Hw'|]. unfold with_first.
  cbn [fmap list_fmap]. rewrite bind_cons, <- !app_assoc. done.
Qed.

(** [ta_find_transaction_objects] asked for transactions the cache does not
    have returns each of them followed by a copy of the first: twice as many
    objects as hashes. *)
Theorem find_objects_duplicates service (obj : trits -> iota_transaction_t) h hashes w :
  Backend.state (w_cache w) = false ->
  (forall n x, (iota_client_get_transaction_objects service n [x]).1 = Some [obj x]) ->
  (forall x, exists t, transaction_serialize (obj x) = Some t /\ flex_trits_are_null t = false /\
     transaction_deserialize t true = Some (obj x)) ->
  exists w', ta_find_transaction_objects service (h :: hashes) [] w =
    Some ((SC_OK, with_first (obj h) (obj <$> h :: hashes)), w').
Proof.
  intros Hoff Hobj Hser.
  assert (forall l unc res w0, Backend.state (w_cache w0) = false ->
    find_cached l unc res w0 = Some ((SC_OK, unc ++ l, res), w0)) as Hcache.
  { induction l as [|x l IH]; intros unc res w0 Hw0; cbn [find_cached]; [by rewrite app_nil_r|].
    unfold mbind at 1, comp_mbind at 1, on_cache, Backend.cache_get.
    rewrite Backend.guarded_off by done. change (SC_CACHE_OFF =? SC_OK) with false.
    destruct w0 as [n o c k]. simpl in *. rewrite IH by done. by rewrite <- app_assoc. }
  assert (forall l res, append_found (with_first (obj h) (obj <$> l)) res =
    Some (SC_OK, res ++ with_first (obj h) (obj <$> l))) as Hfound.
  { induction l as [|x l IH]; intros res; [by rewrite app_nil_r|].
    unfold with_first in *. cbn [fmap list_fmap]. rewrite bind_cons. cbn [app append_found].
    destruct (Hser x) as (t & -> & Hn & Hd). bind_simpl. rewrite Hn. cbn [negb]. rewrite Hd. bind_simpl.
    destruct (Hser h) as (t' & -> & Hn' & Hd'). bind_simpl. rewrite Hn'. cbn [negb]. rewrite Hd'. bind_simpl.
    rewrite IH, <- !app_assoc. done. }
  unfold ta_find_transaction_objects. rewrite (comp_bind_eq _ _ _ _ _ (Hcache (h :: hashes) [] [] w Hoff)).
  cbn [negb app]. change (SC_OK =? SC_OK) with true. cbn [negb].
  pose proof (Hobj (w_net w) h) as Hh.
  destruct (iota_client_get_transaction_objects service (w_net w) [h]) as [o n] eqn:En. simpl in Hh. subst o.
  destruct (fetch_uncached_dup service obj hashes (obj h) [obj h]
    (mkWorld n (w_os w) (w_cache w) (w_lock w)) Hobj) as [w' Hf].
  exists w'. rewrite (comp_bind_eq _ _ _ (SC_OK, with_first (obj h) (obj <$> h :: hashes)) w').
  - change (SC_OK =? SC_OK) with true. cbn [negb]. unfold check.
    by rewrite Hfound.
  - cbn [fetch_uncached]. unfold mbind at 1, comp_mbind at 1, on_net. rewrite En.
    cbn [app head]. unfold mbind, comp_mbind, check. etransitivity; [exact Hf|].
    unfold with_first. cbn [fmap list_fmap]. by rewrite bind_cons.
Qed.

(** A node that lags behind is never reported as unsynchronised: however far
    the solid milestone is below the latest one, [ta_get_node_status] returns
    [SC_OK]. *)
Theorem lagging_node_not_detected service latest solid more w n :
  0 <= solid <= latest -> latest <= 2 ^ 53 ->
  forallb (fun f => bool_decide (is_cstr f.1) && json_ok f.2) more = true ->
  iota_service_query service (w_net w) getnodeinfo =
    (Some (cJSON_PrintUnformatted (JObject
       ((lit "latestMilestoneIndex", JNumber latest) ::
        (lit "latestSolidSubtangleMilestoneIndex", JNumber solid) :: more))), n) ->
  exists w', ta_get_node_status service w = Some (SC_OK, w').
Proof.
  intros Hs Hl Hmore Hq. unfold ta_get_node_status, mbind, comp_mbind, on_net. rewrite Hq.
  unfold get_node_status_milestone_deserialize. rewrite parse_print.
  2:{ simpl. rewrite Hmore. rewrite !(proj2 (Z.leb_le _ _)) by lia. done. }
  rewrite get_item_here, get_item_next, get_item_here by done.
  change (SC_OK =? SC_OK) with true. cbn [negb check valueint]. unfold check, int_sub.
  rewrite !(proj2 (Z.leb_le _ _)) by (unfold INT_MIN, INT_MAX; lia). cbn [andb].
  rewrite Z.gtb_ltb, (proj2 (Z.ltb_ge _ _)) by lia. by eexists.
Qed.

End Properties.

(** ** Witnesses *)
Module CoreWitness.
Import ToyWorld RedisModel JsonModel.

Definition conf : ta_config_t := mkTaConf [] [] 0 [] [] 0 0 CLI_GTTA [].
Definition iconf : iota_config_t := mkIotaConf 3 14 [] [].
Definition here : iota_client_service_t := mkService [] 0 [].
Definition raw : list trits := [[65; 66; 66]; [66; 66; 66]].

Definition ok_status (r : option (status_t * list trits * world toy_net Z db)) : bool :=
  match r with Some ((ret, _), _) => ret =? SC_OK | None => false end.

Lemma ta_send_trytes_spec_witness :
  exists out w' bundle, ta_send_trytes conf iconf here raw (toy_world true) = Some ((SC_OK, out), w') /\
    serialize_all bundle [] = (SC_OK, out).
Proof.
  assert (ok_status (ta_send_trytes conf iconf here raw (toy_world true)) = true) as Hok
    by (vm_compute; reflexivity).
  destruct (ta_send_trytes conf iconf here raw (toy_world true)) as [ [ [ret out] w'] |] eqn:E;
    [|discriminate Hok].
  destruct (ta_send_trytes_spec conf iconf here raw (toy_world true) w' ret out
    (toy_tx 1 1 (digest [66; 66; 66]))) as [ [Hne _] | (-> & trunk & branch & bundle & n & _ & _ & _ & Hs & _)];
    [reflexivity|reflexivity|done|exact E| |].
  - apply Z.eqb_eq in Hok. by destruct Hne.
  - exists out, w', bundle. split; [reflexivity|exact Hs].
Defined.

Lemma ta_send_bundle_always_ok_witness : exists ret w',
  ta_send_bundle conf iconf here [toy_tx 0 0 []] (toy_world false) = Some (ret, w') /\ ret = SC_OK.
Proof.
  destruct (ta_send_bundle conf iconf here [toy_tx 0 0 []] (toy_world false)) as [ [ret w'] |] eqn:E;
    [|vm_compute in E; discriminate E].
  exists ret, w'. split; [reflexivity|].
  apply (ta_send_bundle_always_ok conf iconf here [toy_tx 0 0 []] (toy_world false) w' ret E).
Defined.

#[local] Instance idx_le_dec : RelDecision idx_le.
Proof. intros a b. unfold idx_le. apply _. Defined.
#[local] Instance idx_le_total : Total idx_le.
Proof. intros a b. unfold idx_le. lia. Qed.
#[local] Instance idx_le_trans : Transitive idx_le.
Proof. intros a b c. unfold idx_le. lia. Qed.

Definition sort (_ : iota_transaction_t -> iota_transaction_t -> Z) := merge_sort idx_le.

(** Three transactions, each the trunk of the one before it. *)
Definition link (i : Z) : iota_transaction_t :=
  mkTx [] 0 [] 0 i 2 [] [i + 1] [] [] 0 0 0 [] [] [i].

Lemma first_bundle_reassembled_witness :
  get_first_bundle_from_transactions sort [link 2; link 0; link 1] [] =
    Some [link 0; link 1; link 2].
Proof.
  apply (first_bundle_reassembled sort [link 2; link 0; link 1] (link 0) [link 1; link 2]).
  - intros l. split; [apply merge_sort_Permutation|apply (StronglySorted_merge_sort idx_le)].
  - done.
  - apply (Permutation_cons_append [link 0; link 1] (link 2)).
Defined.

(** A node that knows one transaction, whatever it is asked for. *)
Definition known : iota_transaction_t := toy_tx 0 0 (digest [65; 65; 66]).

Definition echo : IotaNode unit := {|
  iota_client_get_transactions_to_approve _ n _ := (None, n);
  iota_client_store_and_broadcast _ n _ := (false, n);
  iota_client_find_transactions _ n _ := (None, n);
  iota_client_get_trytes _ n _ := (None, n);
  iota_client_get_transaction_objects _ n hs := (Some ((fun _ => known) <$> hs), n);
  iota_client_prepare_transfers _ n _ _ _ _ := (None, n);
  iota_service_query _ n _ := (None, n) |}.

Lemma find_objects_duplicates_witness : exists w',
  ta_find_transaction_objects (node := echo) here [[1]; [2]] []
    (mkWorld tt 0 (Backend.mkEnv false (∅ : db)) Unlocked) =
  Some ((SC_OK, [known; known; known; known]), w').
Proof.
  destruct (find_objects_duplicates (node := echo) here (fun _ => known) [1] [[2]]
    (mkWorld tt 0 (Backend.mkEnv false (∅ : db)) Unlocked)) as [w' H]; [done|done| |].
  - intros _. exists [65; 65; 66]. by split.
  - exists w'. exact H.
Defined.

(** A node a hundred milestones behind. *)
Definition lagging : cstr := cJSON_PrintUnformatted (JObject
  [(lit "latestMilestoneIndex", JNumber 1100);
   (lit "latestSolidSubtangleMilestoneIndex", JNumber 1000)]).

Lemma lagging_node_not_detected_witness : exists w',
  ta_get_node_status here (mkWorld (mkNet true [] lagging) 0 RedisModel.empty Unlocked) =
    Some (SC_OK, w').
Proof.
  apply (lagging_node_not_detected here 1100 1000 []
    (mkWorld (mkNet true [] lagging) 0 RedisModel.empty Unlocked) (mkNet true [] lagging));
    [lia|lia|reflexivity|reflexivity].
Defined.

End CoreWitness.
