(* ===== verification/Buffer.v ===== *)
(** * The transaction buffer
    ([core.c]: [push_txn_to_buffer], [ta_send_transfer], [ta_fetch_txn_with_uuid],
    [ta_fetch_mam_with_uuid]; [periodical_task.c]: [broadcast_buffered_txn])

    A transfer that cannot be sent is stored under a fresh UUID and its UUID is
    put on the buffer list; the periodical task sends the buffered transfers and
    moves their UUIDs to the complete list; a client fetches the outcome by
    UUID, which removes it.  Locks are part of the state, and an iteration of
    the broadcast loop is split where it takes the lock, so that what another
    thread does in between can be stated. *)

From S2P Require Import Prelude TaErrors Utils Json Cache World Pow Config Serializer Core.

(** What one iteration of the loop ends with. *)
Inductive iteration (A : Type) := Return (ret : status_t) | Go (a : A).
Arguments Return {A} ret.
Arguments Go {A} a.

Section Buffer.
Context {net os db : Type} {lib : IotaLib} {txt : JsonText}
  {node : IotaNode net} {sys : Os os} {server : RedisServer db}.
(** The indeterminate content of a local array of [n] bytes. *)
Context (uninit : nat -> list Z).
Abbreviation proc := (@proc net os db).

Definition FT : Z := Z.of_nat FLEX_TRIT_SIZE_8019.
Definition UUID_LEN : Z := UUID_STR_LEN - 1.
Definition N_UUID : nat := Z.to_nat UUID_STR_LEN.

(** ** Pushing *)

Fixpoint push_txns (uuid : cstr) (txns : list trits) : proc status_t :=
  match txns with
  | [] => mret SC_OK
  | t :: r =>
      ret ← on_cache (Backend.cache_list_push (Some uuid) UUID_LEN (Some t) FT);
      if negb (ret =? SC_OK) then mret ret else push_txns uuid r
  end.

(** [push_txn_to_buffer]; the second component is the array [uuid] as a string.
    [have_uuid] is false for a NULL pointer. *)
Definition push_txn_to_buffer (c : ta_cache_t) (have_uuid : bool) (raw : list trits)
  : proc (status_t * option cstr) :=
  if negb have_uuid then mret (SC_NULL, None) else
  uuid ← on_os uuid_random;
  if bool_decide (uuid = []) then mret (SC_OK, Some uuid) else
  ret ← push_txns uuid raw;
  if negb (ret =? SC_OK) then mret (ret, Some uuid) else
  ret ← on_cache (Backend.cache_list_push (Some (buffer_list_name c)) (strlen (buffer_list_name c))
                    (Some uuid) UUID_LEN);
  mret (ret, Some uuid).

(** ** Sending a transfer *)

(** [ta_send_transfer] behind its check for NULL arguments. *)
Definition send_transfer (info : ta_config_t) (iconf : iota_config_t)
    (service : iota_client_service_t) (c : ta_cache_t)
    (req : ta_send_transfer_req_t) (res : ta_send_transfer_res_t)
  : proc (status_t * ta_send_transfer_res_t) :=
  ts ← on_os current_timestamp_ms;
  addr ← check (head (req_address req));
  tag ← check (head (req_tag req));
  message ← check (if 0 <=? req_msg_len req then read_n (req_message req) (Z.to_nat (req_msg_len req)) else None);
  let transfer := mkTransfer addr tag 0 ts message in
  let sd := flex_trits_from_trytes N_HASH (seed iconf) in
  now ← on_os current_timestamp_ms;
  bundle ← on_net (fun n => iota_client_prepare_transfers service n sd 2 [transfer] now);
  match bundle with
  | None => mret (SC_CCLIENT_FAILED_RESPONSE, res)
  | Some out_bundle =>
      let '(ret, raw_tx) := serialize_all out_bundle [] in
      if negb (ret =? SC_OK) then mret (ret, res) else
      '(ret, raw_tx) ← ta_send_trytes info iconf service raw_tx;
      if negb (ret =? SC_OK) then
        '(_, uuid) ← push_txn_to_buffer c true raw_tx;
        txn ← check (head out_bundle);
        let address := (flex_trits_to_trytes (Z.to_nat NUM_TRYTES_ADDRESS) (transaction_address txn)).2 in
        mret (ret, mkTransferRes (res_hash res) (res_txn_array res) uuid (Some address))
      else
        txn ← check (head out_bundle);
        found ← on_net (fun n => iota_client_find_transactions service n
                          (bundle_query (transaction_bundle txn)));
        match found with
        | None => mret (SC_CCLIENT_FAILED_RESPONSE, res)
        | Some hashes => mret (SC_OK, mkTransferRes hashes (res_txn_array res) (res_uuid res) (res_address res))
        end
  end.

Definition ta_send_transfer (info : ta_config_t) (iconf : iota_config_t)
    (service : iota_client_service_t) (c : ta_cache_t)
    (req : option ta_send_transfer_req_t) (res : option ta_send_transfer_res_t)
  : proc (status_t * option ta_send_transfer_res_t) :=
  match req, res with
  | Some req, Some res =>
      '(ret, res) ← send_transfer info iconf service c req res; mret (ret, Some res)
  | _, _ => mret (SC_NULL, res)
  end.

(** ** Fetching *)

(** The loop that reads the stored transactions back. *)
Fixpoint read_bundle (uuid : cstr) (i : Z) (n : nat) (bundle : list iota_transaction_t)
  : proc (status_t * list iota_transaction_t) :=
  match n with
  | O => mret (SC_OK, bundle)
  | S n =>
      '(ret, buf) ← on_cache (Backend.cache_list_at (Some uuid) i FT (uninit (S FLEX_TRIT_SIZE_8019)));
      if negb (ret =? SC_OK) then mret (ret, bundle) else
      txn ← check (transaction_deserialize (take FLEX_TRIT_SIZE_8019 buf) false);
      read_bundle uuid (i + 1) n (bundle ++ [txn])
  end.

Definition set_status s r := mkFetchRes (fetch_bundle r) s (fetch_mam_result r).
Definition set_bundle b r := mkFetchRes b (fetch_status r) (fetch_mam_result r).
Definition set_mam m r := mkFetchRes (fetch_bundle r) (fetch_status r) m.

(** [ta_fetch_txn_with_uuid]; [uuid] is the caller's array, which has to end in
    a NUL where it is used as a key.  Between taking and releasing the read lock two
    error returns leave it taken. *)
Definition ta_fetch_txn_with_uuid (c : ta_cache_t) (uuid : list Z)
    (res : ta_fetch_buffered_request_status_res_t)
  : proc (status_t * ta_fetch_buffered_request_status_res_t) :=
  busy ← lock_fails tryrdlock;
  if busy : bool then mret (SC_CACHE_LOCK_FAILURE, res) else
  '(ret, found) ← on_cache (Backend.cache_list_exist (uninit N_UUID)
                     (Some (buffer_list_name c)) (Some uuid) UUID_LEN false);
  if negb (ret =? SC_OK) then _ ← unlock; mret (ret, res) else
  if found : bool then _ ← unlock; mret (ret, set_status MAM_BUFREQ_UNSENT res) else
  '(ret, found) ← on_cache (Backend.cache_list_exist (uninit N_UUID)
                     (Some (complete_list_name c)) (Some uuid) UUID_LEN found);
  if negb (ret =? SC_OK) then mret (ret, res) else
  if found : bool then
    let res := set_status MAM_BUFREQ_SENT res in
    key ← check (c_string uuid);
    '(ret, len) ← on_cache (Backend.cache_list_size (Some key) 0);
    if negb (ret =? SC_OK) then mret (ret, res) else
    _ ← unlock;
    '(ret, bundle) ← read_bundle key 0 (Z.to_nat len) (fetch_bundle res);
    let res := set_bundle bundle res in
    if negb (ret =? SC_OK) then mret (ret, res) else
    ret ← on_cache (Backend.cache_del (Some key));
    if negb (ret =? SC_OK) then mret (ret, res) else
    '(ret, _) ← on_cache (Backend.cache_list_pop (Some (complete_list_name c)) (uninit N_UUID));
    mret (ret, res)
  else _ ← unlock; mret (ret, res).

Definition ta_fetch_mam_with_uuid (c : ta_cache_t) (uuid : list Z)
    (res : ta_fetch_buffered_request_status_res_t)
  : proc (status_t * ta_fetch_buffered_request_status_res_t) :=
  busy ← lock_fails tryrdlock;
  if busy : bool then mret (SC_CACHE_LOCK_FAILURE, res) else
  '(ret, found) ← on_cache (Backend.cache_list_exist (uninit N_UUID)
                     (Some (mam_buffer_list_name c)) (Some uuid) UUID_LEN false);
  if negb (ret =? SC_OK) then _ ← unlock; mret (ret, res) else
  if found : bool then _ ← unlock; mret (ret, set_status MAM_BUFREQ_UNSENT res) else
  '(ret, found) ← on_cache (Backend.cache_list_exist (uninit N_UUID)
                     (Some (mam_complete_list_name c)) (Some uuid) UUID_LEN found);
  if negb (ret =? SC_OK) then _ ← unlock; mret (ret, res) else
  if found : bool then
    let res := set_status MAM_BUFREQ_SENT res in
    _ ← unlock;
    key ← check (c_string uuid);
    '(ret, mam) ← on_cache (Backend.cache_get (Some key) (fetch_mam_result res));
    let res := set_mam mam res in
    if negb (ret =? SC_OK) then mret (ret, res) else
    ret ← on_cache (Backend.cache_del (Some key));
    if negb (ret =? SC_OK) then mret (ret, res) else
    '(ret, _) ← on_cache (Backend.cache_list_pop (Some (mam_complete_list_name c)) (uninit N_UUID));
    mret (ret, res)
  else _ ← unlock; mret (ret, res).

(** ** Broadcasting *)

Fixpoint read_txns (uuid : cstr) (i : Z) (n : nat) (array : list trits)
  : proc (status_t * list trits) :=
  match n with
  | O => mret (SC_OK, array)
  | S n =>
      '(ret, buf) ← on_cache (Backend.cache_list_at (Some uuid) i FT
                                (replicate (S FLEX_TRIT_SIZE_8019) 0));
      if negb (ret =? SC_OK) then mret (ret, array) else
      read_txns uuid (i + 1) n (array ++ [take FLEX_TRIT_SIZE_8019 buf])
  end.

(** The hashes of the first [n] transactions of the array. *)
Definition hashes_of (txns : list trits) (n : nat) : option (list trits) :=
  if decide (n <= length txns)%nat
  then Some ((fun t => transaction_hash (transaction_deserialize_from_trits t true)) <$> take n txns)
  else None.

(** From the head of the loop to the point where the results are stored; [Go]
    carries the array [uuid]. *)
Definition broadcast_send (core : ta_core_t) : proc (iteration (list Z)) :=
  '(ret, uuid_list_len) ← on_cache (Backend.cache_list_size (Some (buffer_list_name (cache core))) 0);
  if negb (ret =? SC_OK) then mret (Return ret) else
  if uuid_list_len =? 0 then mret (Return ret) else
  '(ret, uuid) ← on_cache (Backend.cache_list_peek (Some (buffer_list_name (cache core)))
                             UUID_STR_LEN (uninit N_UUID));
  if negb (ret =? SC_OK) then mret (Return ret) else
  let key := str_of_buf uuid in
  '(ret, trytes_array_len) ← on_cache (Backend.cache_list_size (Some key) 0);
  if negb (ret =? SC_OK) then mret (Return ret) else
  '(ret, txns) ← read_txns key 0 (Z.to_nat trytes_array_len) [];
  if negb (ret =? SC_OK) then mret (Return ret) else
  '(ret, txns) ← ta_send_trytes (ta_conf core) (iota_conf core) (iota_service core) txns;
  if negb (ret =? SC_OK) then mret (Return ret) else
  hashes ← check (hashes_of txns (Z.to_nat trytes_array_len));
  res ← on_net (fun n => iota_client_get_trytes (iota_service core) n hashes);
  match res with
  | None => mret (Return SC_CCLIENT_FAILED_RESPONSE)
  | Some sent =>
      ret ← on_cache (Backend.cache_del (Some key));
      if negb (ret =? SC_OK) then mret (Return ret) else
      ret ← push_txns uuid sent;
      if negb (ret =? SC_OK) then mret (Return ret) else mret (Go uuid)
  end.

(** The rest of the iteration, under the write lock. *)
Definition broadcast_move (core : ta_core_t) (uuid : list Z) : proc (iteration unit) :=
  busy ← lock_fails trywrlock;
  if busy : bool then mret (Return SC_CACHE_LOCK_FAILURE) else
  '(ret, uuid) ← on_cache (Backend.cache_list_pop (Some (buffer_list_name (cache core))) uuid);
  if negb (ret =? SC_OK) then mret (Return ret) else
  ret ← on_cache (Backend.cache_list_push (Some (complete_list_name (cache core)))
                    (strlen (complete_list_name (cache core))) (Some uuid) UUID_LEN);
  if negb (ret =? SC_OK) then mret (Return ret) else
  _ ← unlock;
  mret (Go tt).

Definition broadcast_iteration (core : ta_core_t) : proc (iteration unit) :=
  r ← broadcast_send core;
  match r with
  | Return ret => mret (Return ret)
  | Go uuid => broadcast_move core uuid
  end.

(** [broadcast_buffered_txn]; [None] is running out of fuel. *)
Fixpoint broadcast_buffered_txn (fuel : nat) (core : ta_core_t) : proc (option status_t) :=
  match fuel with
  | O => mret None
  | S f =>
      r ← broadcast_iteration core;
      match r with
      | Return ret => mret (Some ret)
      | Go _ => broadcast_buffered_txn f core
      end
  end.

End Buffer.

(** ** Properties *)
Section Properties.
Context {net os db : Type} {lib : IotaLib} {txt : JsonText}
  {node : IotaNode net} {sys : Os os} {server : RedisServer db}.
Context (uninit : nat -> list Z) (uninit_len : forall n, length (uninit n) = n).
Context (never_maxed : forall d : db, maxed d = false).
Context (FT_int : FT <= INT_MAX).
Import CacheView.
Implicit Types w : world net os db.
Implicit Types m : gmap (list Z) rvalue.

Definition is_uuid (u : cstr) : Prop := length u = 36%nat /\ 0 ∉ u.
Definition is_txn (t : trits) : Prop := length t = FLEX_TRIT_SIZE_8019 /\ 0 ∉ t.

(** The transactions stored for one request. *)
Definition is_bundle (ts : list trits) : Prop :=
  ts <> [] /\ Forall is_txn ts /\ Z.of_nat (length ts) <= INT_MAX.

(** The buffer in the cache: the UUIDs on the buffer list [B] and on the
    complete list [C] are well formed and pairwise distinct, and each has its
    transactions stored under it. *)
Record buffered (c : ta_cache_t) (m : gmap (list Z) rvalue) (B C : list cstr) : Prop := {
  b_buffer : as_list (m !! buffer_list_name c) = Some B;
  b_complete : as_list (m !! complete_list_name c) = Some C;
  b_names : buffer_list_name c <> complete_list_name c;
  b_uuid : Forall is_uuid (B ++ C);
  b_nodup : NoDup (B ++ C);
  b_size : Z.of_nat (length (B ++ C)) <= INT_MAX;
  b_keys : forall u, u ∈ B ++ C -> u <> buffer_list_name c /\ u <> complete_list_name c;
  b_data : forall u, u ∈ B ++ C -> exists ts, m !! u = Some (RList ts) /\ is_bundle ts
}.

(** The status a client is told. *)
Definition status_in (B C : list cstr) (u : cstr) : request_with_uuid_status_t :=
  if decide (u ∈ B) then MAM_BUFREQ_UNSENT
  else if decide (u ∈ C) then MAM_BUFREQ_SENT else MAM_BUFREQ_NOT_EXIST.

Lemma on_cache_is {A} (op : comp (Backend.env db) A) w r m' :
  (exists e', op (w_cache w) = Some (r, e') /\ cache_is e' m') ->
  exists w', on_cache op w = Some (r, w') /\ cache_is (w_cache w') m' /\
    w_net w' = w_net w /\ w_os w' = w_os w /\ w_lock w' = w_lock w.
Proof. intros (e' & Ho & Hi). exists (set_cache w e'). rewrite (on_cache_run _ _ _ _ Ho). done. Qed.

Lemma is_uuid_strlen u : is_uuid u -> UUID_LEN = strlen u.
Proof. intros [Hl _]. unfold strlen. by rewrite Hl. Qed.

Lemma is_txn_strlen t : is_txn t -> FT = strlen t.
Proof. intros [Hl _]. unfold strlen, FT. by rewrite Hl. Qed.

Lemma push_txns_spec ub u txns : take 36 ub = u -> is_uuid u -> Forall is_txn txns ->
  forall w m l, cache_is (w_cache w) m -> as_list (m !! u) = Some l ->
  exists w', push_txns ub txns w = Some (SC_OK, w') /\
    cache_is (w_cache w') (match txns with [] => m | _ => <[u := RList (rev txns ++ l)]> m end) /\
    w_net w' = w_net w /\ w_os w' = w_os w /\ w_lock w' = w_lock w.
Proof.
  intros Hub Hu. induction 1 as [|t txns Ht Hts IH]; intros w m l Hc Hl; [by exists w|].
  cbn [push_txns]. rewrite (is_uuid_strlen u Hu), (is_txn_strlen t Ht).
  destruct (on_cache_is (Backend.cache_list_push (Some ub) (strlen u) (Some t) (strlen t)) w SC_OK
    (<[u := RList (t :: l)]> m)) as (w1 & H1 & Hc1 & Hn1 & Ho1 & Hl1).
  { apply push_take_is; [done|done|done| |by rewrite take_ge].
    by rewrite (proj1 Hu). }
  comp_step H1. cbn [negb]. change (SC_OK =? SC_OK) with true. cbn [negb].
  destruct (IH w1 (<[u := RList (t :: l)]> m) (t :: l) Hc1) as (w' & Hr & Hc' & Hn & Ho & Hk).
  { by rewrite lookup_insert_eq. }
  exists w'. split; [done|]. split; [|by rewrite Hn, Ho, Hk].
  destruct txns as [|t' txns]; [done|]. rewrite insert_insert_eq in Hc'.
  change (rev (t :: t' :: txns)) with (rev (t' :: txns) ++ [t]). by rewrite <- app_assoc.
Qed.

Lemma is_bundle_rev ts : is_bundle ts -> is_bundle (rev ts).
Proof.
  intros (Hne & Hf & Hl). split; [|split; [by apply Forall_rev|by rewrite length_rev]].
  intros E. apply Hne. by rewrite <- (rev_involutive ts), E.
Qed.

(** Buffering a transfer: under a fresh UUID its transactions are stored,
    last one first, the UUID becomes the head of the buffer list, nothing else
    changes, and the buffer stays well formed. *)
Lemma push_txn_to_buffer_spec c raw w m B C u o :
  cache_is (w_cache w) m -> buffered c m B C -> Z.of_nat (length (B ++ C)) < INT_MAX ->
  uuid_random (w_os w) = (u, o) -> is_uuid u -> m !! u = None ->
  u <> buffer_list_name c -> u <> complete_list_name c -> is_bundle raw ->
  exists w' m', push_txn_to_buffer c true raw w = Some ((SC_OK, Some u), w') /\
    cache_is (w_cache w') m' /\ buffered c m' (u :: B) C /\
    m' !! u = Some (RList (rev raw)) /\
    (forall k, k <> u -> k <> buffer_list_name c -> m' !! k = m !! k) /\
    w_net w' = w_net w /\ w_lock w' = w_lock w.
Proof.
  intros Hc Hb Hroom Hr Hu Hfresh Hn1 Hn2 Hraw. unfold push_txn_to_buffer. cbn [negb].
  assert (on_os uuid_random w = Some (u, mkWorld (w_net w) o (w_cache w) (w_lock w))) as Hos
    by (unfold on_os; by rewrite Hr).
  comp_step Hos. rewrite bool_decide_false by (intros ->; by destruct Hu).
  destruct (push_txns_spec u u raw) with (w := mkWorld (w_net w) o (w_cache w) (w_lock w))
    (m := m) (l := @nil (list Z)) as (w1 & H1 & Hc1 & Hw1 & _ & Hk1);
    [by rewrite take_ge by (rewrite (proj1 Hu); lia)|done|apply Hraw|done|by rewrite Hfresh|].
  comp_step H1. change (SC_OK =? SC_OK) with true. cbn [negb].
  assert (cache_is (w_cache w1) (<[u := RList (rev raw)]> m)) as Hc1'.
  { destruct raw; [by destruct Hraw|]. by rewrite app_nil_r in Hc1. }
  rewrite (is_uuid_strlen u Hu).
  destruct (on_cache_is (Backend.cache_list_push (Some (buffer_list_name c))
    (strlen (buffer_list_name c)) (Some u) (strlen u)) w1 SC_OK
    (<[buffer_list_name c := RList (u :: B)]> (<[u := RList (rev raw)]> m)))
    as (w2 & H2 & Hc2 & Hw2 & _ & Hk2).
  { apply push_is; [done|done|]. rewrite lookup_insert_ne by done. apply Hb. }
  comp_step H2. eexists w2, _. split; [reflexivity|]. split; [exact Hc2|].
  assert (u ∉ B ++ C) as Hnew.
  { intros Hin. destruct (b_data _ _ _ _ Hb u Hin) as (ts & Hts & _). congruence. }
  simpl in Hw1, Hk1. split; [|split; [|split; [|split; congruence]]].
  - destruct Hb as [b1 b2 b3 b4 b5 b6 b7 b8]. split; simpl.
    + by rewrite lookup_insert_eq.
    + by rewrite !lookup_insert_ne.
    + done.
    + by constructor.
    + by constructor.
    + lia.
    + intros v [->|Hv]%elem_of_cons; [done|by apply b7].
    + intros v [->|Hv]%elem_of_cons.
      * exists (rev raw). rewrite lookup_insert_ne, lookup_insert_eq by done.
        split; [done|by apply is_bundle_rev].
      * destruct (b7 v Hv). rewrite !lookup_insert_ne; [by apply b8|by intros ->|done].
  - by rewrite lookup_insert_ne, lookup_insert_eq.
  - intros k Hk1' Hk2'. by rewrite !lookup_insert_ne.
Qed.

(** *** Broadcasting *)

(** Reading the entry at index [i] into an array of [FLEX_TRIT_SIZE_8019 + 1]. *)
Lemma read_one w m u ts i t res :
  cache_is (w_cache w) m -> as_list (m !! u) = Some ts -> ts !! i = Some t -> is_txn t ->
  length res = S FLEX_TRIT_SIZE_8019 ->
  exists w', on_cache (Backend.cache_list_at (Some u) (Z.of_nat i) FT res) w =
      Some ((SC_OK, t ++ [0]), w') /\
    cache_is (w_cache w') m /\ w_net w' = w_net w /\ w_os w' = w_os w /\ w_lock w' = w_lock w.
Proof.
  intros Hc Hl Hi Ht Hres. apply on_cache_is.
  destruct (at_is (w_cache w) m u ts i t FT res) as (e' & He & Hm); [done|done|done|apply Ht| | |].
  - by rewrite <- (is_txn_strlen t Ht).
  - rewrite (proj1 Ht). lia.
  - exists e'. split; [|done]. rewrite He. by rewrite drop_ge by (rewrite (proj1 Ht); lia).
Qed.

Lemma read_txns_spec u ts : Forall is_txn ts ->
  forall n i arr w m, cache_is (w_cache w) m -> as_list (m !! u) = Some ts ->
  (i + n)%nat = length ts ->
  exists w', read_txns u (Z.of_nat i) n arr w = Some ((SC_OK, arr ++ drop i ts), w') /\
    cache_is (w_cache w') m /\ w_net w' = w_net w /\ w_os w' = w_os w /\ w_lock w' = w_lock w.
Proof.
  intros Hts. induction n as [|n IH]; intros i arr w m Hc Hl Hin; cbn [read_txns].
  { exists w. rewrite drop_ge, app_nil_r by lia. done. }
  destruct (lookup_lt_is_Some_2 ts i ltac:(lia)) as [t Ht].
  pose proof (Forall_lookup_1 _ _ _ _ Hts Ht) as Hit.
  destruct (read_one w m u ts i t (replicate (S FLEX_TRIT_SIZE_8019) 0)) as (w1 & H1 & Hc1 & E1 & E2 & E3);
    [done|done|done|done|by rewrite length_replicate|].
  comp_step H1. change (SC_OK =? SC_OK) with true. cbn [negb].
  rewrite (take_app_length' t) by (symmetry; apply Hit).
  replace (Z.of_nat i + 1) with (Z.of_nat (S i)) by lia.
  destruct (IH (S i) (arr ++ [t]) w1 m Hc1 Hl ltac:(lia)) as (w' & H2 & Hc2 & F1 & F2 & F3).
  exists w'. rewrite H2, (drop_S _ _ _ Ht), <- app_assoc. split; [done|]. split; [done|]. 
  split; [congruence|]. split; congruence.
Qed.

(** The array [uuid] after peeking. *)
Lemma uuid_array u : is_uuid u -> u ++ 0 :: drop (S (length u)) (uninit N_UUID) = u ++ [0].
Proof.
  intros [Hl _]. rewrite drop_ge; [done|]. rewrite uninit_len, Hl.
  change N_UUID with 37%nat. lia.
Qed.

Lemma uuid_key u : is_uuid u -> str_of_buf (u ++ [0]) = u.
Proof.
  intros [_ H0]. induction u as [|c u IH]; [done|]. apply not_elem_of_cons in H0 as [Hc H0].
  simpl. destruct (Z.eqb_spec c 0); [congruence|]. by rewrite IH.
Qed.

(** What the node may answer to [getTrytes]. *)
Definition trytes_answers : Prop := forall s (n n' : net) hs sent,
  iota_client_get_trytes s n hs = (Some sent, n') -> is_bundle sent.

(** The reads at the head of an iteration. *)
Lemma broadcast_reads core w m u B C ts :
  cache_is (w_cache w) m -> buffered (cache core) m (u :: B) C -> m !! u = Some (RList ts) ->
  is_bundle ts ->
  exists w1, cache_is (w_cache w1) m /\ w_net w1 = w_net w /\ w_os w1 = w_os w /\
    w_lock w1 = w_lock w /\
  broadcast_send uninit core w =
    ('(ret, txns) ← ta_send_trytes (ta_conf core) (iota_conf core) (iota_service core) ts;
     if negb (ret =? SC_OK) then mret (Return ret) else
     hashes ← check (hashes_of txns (length ts));
     res ← on_net (fun n => iota_client_get_trytes (iota_service core) n hashes);
     match res with
     | None => mret (Return SC_CCLIENT_FAILED_RESPONSE)
     | Some sent =>
         ret ← on_cache (Backend.cache_del (Some u));
         if negb (ret =? SC_OK) then mret (Return ret) else
         ret ← push_txns (u ++ [0]) sent;
         if negb (ret =? SC_OK) then mret (Return ret) else mret (Go (u ++ [0]))
     end) w1.
Proof.
  intros Hc Hb Hu (Hne & Hts & Hlen).
  assert (is_uuid u) as Hiu by (pose proof (b_uuid _ _ _ _ Hb) as H; by inversion H).
  pose proof (b_size _ _ _ _ Hb) as Hsize. rewrite length_app in Hsize.
  unfold broadcast_send.
  destruct (on_cache_is (Backend.cache_list_size (Some (buffer_list_name (cache core))) 0) w
    (SC_OK, Z.of_nat (length (u :: B))) m) as (w1 & H1 & Hc1 & N1 & O1 & L1).
  { apply size_is; [done|apply Hb|lia]. }
  comp_step H1. change (SC_OK =? SC_OK) with true. cbn [negb].
  rewrite (proj2 (Z.eqb_neq _ _)) by (simpl; lia).
  destruct (on_cache_is (Backend.cache_list_peek (Some (buffer_list_name (cache core)))
    UUID_STR_LEN (uninit N_UUID)) w1 (SC_OK, u ++ [0]) m) as (w2 & H2 & Hc2 & N2 & O2 & L2).
  { rewrite <- (uuid_array u Hiu). apply peek_is with (l := B); [done|apply Hb|apply Hiu| |].
    - unfold strlen. rewrite (proj1 Hiu). done.
    - rewrite uninit_len, (proj1 Hiu). change N_UUID with 37%nat. lia. }
  comp_step H2. change (SC_OK =? SC_OK) with true. cbn [negb]. cbv zeta.
  rewrite (uuid_key u Hiu).
  destruct (on_cache_is (Backend.cache_list_size (Some u) 0) w2
    (SC_OK, Z.of_nat (length ts)) m) as (w3 & H3 & Hc3 & N3 & O3 & L3).
  { apply size_is; [done|by rewrite Hu|done]. }
  comp_step H3. change (SC_OK =? SC_OK) with true. cbn [negb]. rewrite Nat2Z.id.
  destruct (read_txns_spec u ts Hts (length ts) 0 [] w3 m Hc3) as (w4 & H4 & Hc4 & N4 & O4 & L4);
    [by rewrite Hu|done|].
  comp_step H4. change (SC_OK =? SC_OK) with true. cbn [negb app]. rewrite drop_0.
  exists w4. split; [done|]. split; [congruence|]. split; [congruence|]. by split; [congruence|].
Qed.

(** The node accepted the transactions [ts] in the state [w] and returned
    [sent] when asked for them. *)
Definition accepted (core : ta_core_t) (w : world net os db) (ts sent : list trits) : Prop :=
  exists out w1 hashes n,
    ta_send_trytes (ta_conf core) (iota_conf core) (iota_service core) ts w = Some ((SC_OK, out), w1) /\
    hashes_of out (length ts) = Some hashes /\
    iota_client_get_trytes (iota_service core) (w_net w1) hashes = (Some sent, n).

Lemma store_sent w m u sent ts :
  cache_is (w_cache w) m -> is_uuid u -> m !! u = Some (RList ts) -> is_bundle sent ->
  exists w', (ret ← on_cache (Backend.cache_del (Some u));
      if negb (ret =? SC_OK) then mret (Return ret) else
      ret ← push_txns (u ++ [0]) sent;
      if negb (ret =? SC_OK) then mret (Return ret) else mret (Go (u ++ [0]))) w =
    Some (Go (u ++ [0]), w') /\
    cache_is (w_cache w') (<[u := RList (rev sent)]> m) /\ w_lock w' = w_lock w.
Proof.
  intros Hc Hu Hm (Hne & Hs & _).
  destruct (on_cache_is (Backend.cache_del (Some u)) w SC_OK (delete u m)) as (w1 & H1 & Hc1 & _ & _ & L1).
  { destruct (del_is (w_cache w) m u Hc) as (e' & He & Hi). exists e'. by rewrite He, Hm. }
  comp_step H1. change (SC_OK =? SC_OK) with true. cbn [negb].
  destruct (push_txns_spec (u ++ [0]) u sent) with (w := w1) (m := delete u m) (l := @nil (list Z))
    as (w2 & H2 & Hc2 & _ & _ & L2); [|done|done|done|by rewrite lookup_delete_eq|].
  { by rewrite (take_app_length' u) by (symmetry; apply Hu). }
  comp_step H2. exists w2. split; [done|]. split; [|congruence].
  destruct sent; [done|]. by rewrite app_nil_r, insert_delete_eq in Hc2.
Qed.

Lemma broadcast_send_spec core w m u B C ts :
  trytes_answers ->
  cache_is (w_cache w) m -> buffered (cache core) m (u :: B) C -> m !! u = Some (RList ts) ->
  exists r w', broadcast_send uninit core w = Some (r, w') /\ w_lock w' = w_lock w /\
    match r with
    | Return ret => ret <> SC_OK /\ cache_is (w_cache w') m
    | Go ub => ub = u ++ [0] /\ exists sent, accepted core w ts sent /\ is_bundle sent /\
        cache_is (w_cache w') (<[u := RList (rev sent)]> m)
    end.
Proof.
  intros Hans Hc Hb Hu.
  destruct (b_data _ _ _ _ Hb u) as (ts' & Hts' & Hbun); [by constructor|].
  replace ts' with ts in Hbun by congruence. clear ts' Hts'.
  assert (is_uuid u) as Hiu by (pose proof (b_uuid _ _ _ _ Hb) as H; by inversion H).
  destruct (broadcast_reads core w m u B C ts Hc Hb Hu Hbun) as (w1 & Hc1 & N1 & O1 & L1 & ->).
  destruct (ta_send_trytes_frame (db := db) (ta_conf core) (iota_conf core) (iota_service core) ts)
    as [Hfree Htot].
  destruct (Htot w) as [ [ [ret out] w2] Hsend].
  comp_step (cache_free_transport _ _ _ _ w1 Hfree Hsend N1 O1).
  destruct (Z.eqb_spec ret SC_OK) as [->|Hret]; cbn [negb].
  2:{ eexists _, _. split; [done|]. by split. }
  pose proof (ta_send_trytes_length _ _ _ _ _ _ _ _ Hsend) as Hlen.
  unfold hashes_of. rewrite decide_True by lia. unfold mbind at 1, comp_mbind at 1, check.
  set (hashes := _ <$> take (length ts) out). unfold mbind at 1, comp_mbind at 1, on_net. simpl.
  destruct (iota_client_get_trytes (iota_service core) (w_net w2) hashes) as [ [sent|] n] eqn:Eget.
  2:{ eexists _, _. split; [done|]. split; [done|]. by split; [discriminate|]. }
  destruct (store_sent (mkWorld n (w_os w2) (w_cache w1) (w_lock w1)) m u sent ts)
    as (w3 & H3 & Hc3 & L3); [done|done|done|by eapply Hans|].
  eexists _, w3. split; [exact H3|]. split; [by rewrite L3|]. split; [done|].
  exists sent. split; [|split; [by eapply Hans|done]].
  exists out, w2, hashes, n. split; [done|]. split; [|done].
  unfold hashes_of. by rewrite decide_True by lia.
Qed.

(** The map after the UUID [u] has moved, its new transactions [sent]. *)
Definition moved (c : ta_cache_t) (m : gmap (list Z) rvalue) (u : cstr) (B C : list cstr)
  (sent : list trits) : gmap (list Z) rvalue :=
  <[complete_list_name c := RList (u :: C)]>
    (partial_alter (fun _ => of_list B) (buffer_list_name c) (<[u := RList (rev sent)]> m)).

Lemma stored_buffered c m u B C sent :
  buffered c m (u :: B) C -> is_bundle sent -> buffered c (<[u := RList (rev sent)]> m) (u :: B) C.
Proof.
  intros [b1 b2 b3 b4 b5 b6 b7 b8] Hs. destruct (b7 u) as [Hu1 Hu2]; [by constructor|].
  split; try done; [by rewrite lookup_insert_ne..|].
  intros v Hv. destruct (decide (u = v)) as [<-|Hne].
  - rewrite lookup_insert_eq. exists (rev sent). split; [done|by apply is_bundle_rev].
  - rewrite lookup_insert_ne by done. by apply b8.
Qed.

Lemma moved_buffered c m u B C sent :
  buffered c m (u :: B) C -> is_bundle sent -> buffered c (moved c m u B C sent) B (u :: C).
Proof.
  intros [b1 b2 b3 b4 b5 b6 b7 b8] Hs. unfold moved.
  assert (B ++ u :: C ≡ₚ (u :: B) ++ C) as Hp by (symmetry; apply Permutation_middle).
  destruct (b7 u) as [Hu1 Hu2]; [by constructor|]. split.
  - by rewrite lookup_insert_ne, lookup_partial_alter_eq, Backend.as_list_of_list by done.
  - by rewrite lookup_insert_eq.
  - done.
  - by rewrite Hp.
  - by rewrite Hp.
  - by rewrite Hp.
  - intros v Hv. rewrite Hp in Hv. by apply b7.
  - intros v Hv. rewrite Hp in Hv. destruct (b7 v Hv).
    rewrite lookup_insert_ne, lookup_partial_alter_ne by done.
    destruct (decide (u = v)) as [<-|Hne].
    + rewrite lookup_insert_eq. exists (rev sent). split; [done|by apply is_bundle_rev].
    + rewrite lookup_insert_ne by done. by apply b8.
Qed.

(** Whatever UUID [v] heads the buffer list is the one that moves. *)
Lemma broadcast_move_run core w m v B C ub :
  cache_is (w_cache w) m -> as_list (m !! buffer_list_name (cache core)) = Some (v :: B) ->
  as_list (m !! complete_list_name (cache core)) = Some C ->
  buffer_list_name (cache core) <> complete_list_name (cache core) ->
  is_uuid v -> length ub = N_UUID -> w_lock w = Unlocked ->
  exists w', broadcast_move core ub w = Some (Go tt, w') /\
    cache_is (w_cache w') (<[complete_list_name (cache core) := RList (v :: C)]>
      (partial_alter (fun _ => of_list B) (buffer_list_name (cache core)) m)) /\
    w_lock w' = Unlocked.
Proof.
  intros Hc HB HC Hne Hv Hub Hl.
  assert (length ub = S (length v)) as Hub' by (by rewrite Hub, (proj1 Hv)).
  unfold broadcast_move. unfold mbind at 1, comp_mbind at 1, lock_fails. rewrite Hl. cbn [trywrlock].
  set (w0 := mkWorld _ _ _ WriteLocked).
  destruct (on_cache_is (Backend.cache_list_pop (Some (buffer_list_name (cache core))) ub) w0
    (SC_OK, v ++ [0]) (partial_alter (fun _ => of_list B) (buffer_list_name (cache core)) m))
    as (w1 & H1 & Hc1 & _ & _ & L1).
  { destruct (pop_is (w_cache w0) m (buffer_list_name (cache core)) v B ub) as (e' & He & Hi);
      [done|done|apply Hv|lia|].
    exists e'. split; [|done]. rewrite He. by rewrite drop_ge by lia. }
  comp_step H1. change (SC_OK =? SC_OK) with true. cbn [negb].
  rewrite (is_uuid_strlen v Hv).
  destruct (on_cache_is (Backend.cache_list_push (Some (complete_list_name (cache core)))
    (strlen (complete_list_name (cache core))) (Some (v ++ [0])) (strlen v)) w1 SC_OK
    (<[complete_list_name (cache core) := RList (v :: C)]>
      (partial_alter (fun _ => of_list B) (buffer_list_name (cache core)) m)))
    as (w2 & H2 & Hc2 & _ & _ & L2).
  { apply push_take_is; [done|done| |by rewrite take_ge|by rewrite take_app_length].
    by rewrite lookup_partial_alter_ne. }
  comp_step H2. change (SC_OK =? SC_OK) with true. cbn [negb].
  unfold mbind, comp_mbind, unlock. rewrite L2, L1. cbn [w0 w_lock rwlock_unlock].
  eexists. split; [reflexivity|]. by split.
Qed.

Lemma broadcast_move_spec core w m u B C sent :
  cache_is (w_cache w) (<[u := RList (rev sent)]> m) -> buffered (cache core) m (u :: B) C ->
  w_lock w = Unlocked ->
  exists w', broadcast_move core (u ++ [0]) w = Some (Go tt, w') /\
    cache_is (w_cache w') (moved (cache core) m u B C sent) /\ w_lock w' = Unlocked.
Proof.
  intros Hc Hb Hl. destruct (b_keys _ _ _ _ Hb u) as [Hk1 Hk2]; [by constructor|].
  assert (is_uuid u) as Hu by (pose proof (b_uuid _ _ _ _ Hb) as H; by inversion H).
  apply broadcast_move_run; [done|rewrite lookup_insert_ne by done; apply Hb
    |rewrite lookup_insert_ne by done; apply Hb|apply Hb|done| |done].
  rewrite length_app, (proj1 Hu). done.
Qed.

(** One round of [broadcast_buffered_txn] on a well-formed buffer whose head
    is [u]: either an error is returned and nothing in the cache has changed, or
    the node accepted the stored transactions, [u] moved from the buffer list to
    the complete list and what the node returned is stored in their place; the
    buffer is well formed and the lock is free again. *)
Lemma broadcast_iteration_spec core w m u B C ts :
  trytes_answers ->
  cache_is (w_cache w) m -> buffered (cache core) m (u :: B) C -> m !! u = Some (RList ts) ->
  w_lock w = Unlocked ->
  exists r w' m', broadcast_iteration uninit core w = Some (r, w') /\
    cache_is (w_cache w') m' /\ w_lock w' = Unlocked /\
    match r with
    | Return ret => ret <> SC_OK /\ m' = m
    | Go _ => buffered (cache core) m' B (u :: C) /\
        exists sent, accepted core w ts sent /\ m' = moved (cache core) m u B C sent
    end.
Proof.
  intros Hans Hc Hb Hu Hl. unfold broadcast_iteration.
  destruct (broadcast_send_spec core w m u B C ts Hans Hc Hb Hu) as (r & w1 & H1 & L1 & Hr).
  comp_step H1. destruct r as [ret|ub].
  - destruct Hr as [Hne Hc1]. exists (Return ret), w1, m. split; [done|]. split; [done|].
    split; [congruence|done].
  - destruct Hr as (-> & sent & Hacc & Hs & Hc1).
    destruct (broadcast_move_spec core w1 m u B C sent Hc1 Hb ltac:(congruence)) as (w2 & H2 & Hc2 & L2).
    exists (Go tt), w2, (moved (cache core) m u B C sent). split; [done|]. split; [done|].
    split; [done|]. split; [by apply moved_buffered|]. by exists sent.
Qed.

(** An empty buffer list ends the loop. *)
Lemma broadcast_iteration_empty core w m :
  cache_is (w_cache w) m -> as_list (m !! buffer_list_name (cache core)) = Some [] ->
  exists w', broadcast_iteration uninit core w = Some (Return SC_OK, w') /\
    cache_is (w_cache w') m /\ w_lock w' = w_lock w.
Proof.
  intros Hc Hb. unfold broadcast_iteration, broadcast_send.
  destruct (on_cache_is (Backend.cache_list_size (Some (buffer_list_name (cache core))) 0) w
    (SC_OK, 0) m) as (w1 & H1 & Hc1 & _ & _ & L1).
  { by apply (size_is (w_cache w) m _ []). }
  exists w1. unfold mbind, comp_mbind in *. by rewrite H1.
Qed.

Lemma moved_sent c m u B C sent :
  buffered c m (u :: B) C -> moved c m u B C sent !! u = Some (RList (rev sent)).
Proof.
  intros Hb. destruct (b_keys _ _ _ _ Hb u) as [? ?]; [by constructor|]. unfold moved.
  by rewrite lookup_insert_ne, lookup_partial_alter_ne, lookup_insert_eq.
Qed.

Lemma moved_other c m u B C sent k :
  k <> u -> k <> buffer_list_name c -> k <> complete_list_name c ->
  moved c m u B C sent !! k = m !! k.
Proof.
  intros H1 H2 H3. unfold moved. by rewrite lookup_insert_ne, lookup_partial_alter_ne, lookup_insert_ne.
Qed.

(** The transactions of the requests in [B1] were accepted in some state each
    and replaced by what the node returned; other keys are as before. *)
Definition sent_part (core : ta_core_t) (m m' : gmap (list Z) rvalue) (B1 : list cstr) : Prop :=
  (forall u, u ∈ B1 -> exists ts sent w0, m !! u = Some (RList ts) /\ accepted core w0 ts sent /\
     m' !! u = Some (RList (rev sent))) /\
  (forall k, k ∉ B1 -> k <> buffer_list_name (cache core) -> k <> complete_list_name (cache core) ->
     m' !! k = m !! k).

Lemma sent_part_cons core m m' u B1 B2 C ts sent w0 :
  buffered (cache core) m (u :: B1 ++ B2) C -> m !! u = Some (RList ts) -> accepted core w0 ts sent ->
  sent_part core (moved (cache core) m u (B1 ++ B2) C sent) m' B1 ->
  sent_part core m m' (u :: B1).
Proof.
  intros Hb Hts Hacc [Hs Ho].
  pose proof (b_nodup _ _ _ _ Hb) as Hnd. cbn in Hnd. apply NoDup_cons in Hnd as [Hnin _].
  assert (u ∉ B1) as Hu by (intros Hin; apply Hnin; rewrite !elem_of_app; auto).
  destruct (b_keys _ _ _ _ Hb u) as [Hk1 Hk2]; [by constructor|]. split.
  - intros v [->|Hv]%elem_of_cons.
    + exists ts, sent, w0. split; [done|]. split; [done|]. rewrite Ho by done. by apply (moved_sent _ _ _ _ _ _ Hb).
    + destruct (Hs v Hv) as (ts' & sent' & w' & Hm & Hrest). exists ts', sent', w'. split; [|done].
      destruct (b_keys _ _ _ _ Hb v) as [? ?]; [rewrite elem_of_app, elem_of_cons, elem_of_app; auto|].
      rewrite moved_other in Hm; [done| |done|done]. by intros ->.
  - intros k [Hku Hk]%not_elem_of_cons H1 H2. rewrite Ho by done. by apply moved_other.
Qed.

(** C1 [broadcast_buffered_txn] terminates after at most one round per buffered
    request, whatever the node answers: some first part [B1] of the buffer list
    has moved to the complete list, each of its requests with the transactions
    the node accepted and returned; the rest [B2] is still buffered and
    unchanged, no request is lost or duplicated, the lock is free, and [SC_OK]
    is returned exactly when everything was sent. *)
Theorem broadcast_buffered_txn_total core B : forall fuel w m C,
  trytes_answers ->
  cache_is (w_cache w) m -> buffered (cache core) m B C -> w_lock w = Unlocked ->
  (length B < fuel)%nat ->
  exists ret w' m' B1 B2, broadcast_buffered_txn uninit fuel core w = Some (Some ret, w') /\
    cache_is (w_cache w') m' /\ w_lock w' = Unlocked /\
    B = B1 ++ B2 /\ buffered (cache core) m' B2 (rev B1 ++ C) /\ sent_part core m m' B1 /\
    (ret = SC_OK <-> B2 = []).
Proof.
  induction B as [|u B IH]; intros fuel w m C Hans Hc Hb Hl Hf;
    (destruct fuel as [|fuel]; [simpl in Hf; lia|]); cbn [broadcast_buffered_txn].
  - destruct (broadcast_iteration_empty core w m Hc) as (w1 & H1 & Hc1 & L1); [apply Hb|].
    comp_step H1. exists SC_OK, w1, m, [], []. split; [done|]. split; [done|]. split; [congruence|].
    split; [done|]. split; [done|]. split; [|done]. split; [by intros v ?%not_elem_of_nil|done].
  - destruct (b_data _ _ _ _ Hb u) as (ts & Hts & _); [by constructor|].
    destruct (broadcast_iteration_spec core w m u B C ts Hans Hc Hb Hts Hl)
      as (r & w1 & m1 & H1 & Hc1 & L1 & Hr).
    comp_step H1. destruct r as [ret|[]].
    + destruct Hr as [Hne ->]. exists ret, w1, m, [], (u :: B). split; [done|]. split; [done|].
      split; [done|]. split; [done|]. split; [done|]. split; [|done].
      split; [by intros v ?%not_elem_of_nil|done].
    + destruct Hr as (Hb1 & sent & Hacc & ->).
      destruct (IH fuel w1 (moved (cache core) m u B C sent) (u :: C) Hans Hc1 Hb1 L1)
        as (ret & w2 & m2 & B1 & B2 & H2 & Hc2 & L2 & -> & Hb2 & Hsp & Hok);
        [simpl in Hf; lia|].
      exists ret, w2, m2, (u :: B1), B2. split; [done|]. split; [done|]. split; [done|].
      split; [done|]. split; [|split; [by apply (sent_part_cons core m m2 u B1 B2 C ts sent w)|done]].
      simpl. by rewrite <- app_assoc.
Qed.

(** *** Fetching *)

Lemma read_bundle_spec u ts txs : Forall is_txn ts ->
  Forall2 (fun t tx => transaction_deserialize t false = Some tx) ts txs ->
  forall n i b w m, cache_is (w_cache w) m -> as_list (m !! u) = Some ts ->
  (i + n)%nat = length ts ->
  exists w', read_bundle uninit u (Z.of_nat i) n b w = Some ((SC_OK, b ++ drop i txs), w') /\
    cache_is (w_cache w') m /\ w_lock w' = w_lock w.
Proof.
  intros Hts Hd. pose proof (Forall2_length _ _ _ Hd) as Hlen.
  induction n as [|n IH]; intros i b w m Hc Hl Hin; cbn [read_bundle].
  { exists w. rewrite drop_ge, app_nil_r by lia. done. }
  destruct (lookup_lt_is_Some_2 ts i ltac:(lia)) as [t Ht].
  destruct (lookup_lt_is_Some_2 txs i ltac:(lia)) as [tx Htx].
  pose proof (Forall_lookup_1 _ _ _ _ Hts Ht) as Hit.
  pose proof (Forall2_lookup_lr _ _ _ _ _ _ Hd Ht Htx) as Hdt. simpl in Hdt.
  destruct (read_one w m u ts i t (uninit (S FLEX_TRIT_SIZE_8019))) as (w1 & H1 & Hc1 & _ & _ & L1);
    [done|done|done|done|apply uninit_len|].
  comp_step H1. change (SC_OK =? SC_OK) with true. cbn [negb].
  rewrite (take_app_length' t) by (symmetry; apply Hit). rewrite Hdt.
  unfold mbind, comp_mbind, check. replace (Z.of_nat i + 1) with (Z.of_nat (S i)) by lia.
  destruct (IH (S i) (b ++ [tx]) w1 m Hc1 Hl ltac:(lia)) as (w' & H2 & Hc2 & L2).
  exists w'. rewrite H2, (drop_S _ _ _ Htx), <- app_assoc. split; [done|]. split; [done|congruence].
Qed.

(** Looking a UUID up in one of the lists; [ub] is an array that begins with it. *)
Lemma exist_step w m k u ub l ex :
  cache_is (w_cache w) m -> as_list (m !! k) = Some l -> Z.of_nat (length l) <= INT_MAX ->
  Forall is_uuid l -> is_uuid u -> take 36 ub = u ->
  exists w', on_cache (Backend.cache_list_exist (uninit N_UUID) (Some k) (Some ub) UUID_LEN ex) w =
      Some ((SC_OK, bool_decide (u ∈ l)), w') /\
    cache_is (w_cache w') m /\ w_lock w' = w_lock w.
Proof.
  intros Hc Hl Hlen Hf Hu Hub.
  destruct (on_cache_is (Backend.cache_list_exist (uninit N_UUID) (Some k) (Some ub) UUID_LEN ex) w
    (SC_OK, bool_decide (u ∈ l)) m) as (w' & H1 & Hc1 & _ & _ & L1); [|by exists w'].
  rewrite exist_take by done. change (Z.to_nat UUID_LEN) with 36%nat. rewrite Hub.
  rewrite (is_uuid_strlen u Hu). apply exist_is; [done|done|done| |apply Hu| |].
  - eapply Forall_impl; [exact Hf|]. intros v [E1 E2]. by rewrite (proj1 Hu).
  - unfold strlen. by rewrite (proj1 Hu).
  - rewrite uninit_len, (proj1 Hu). done.
Qed.

Lemma take_uuid u : is_uuid u -> take 36 (u ++ [0]) = u.
Proof. intros [Hl _]. by rewrite (take_app_length' u) by lia. Qed.

(** The cache after the request at [u] was handed out. *)
Definition fetched (c : ta_cache_t) (m : gmap (list Z) rvalue) (u : cstr) (C : list cstr)
  : gmap (list Z) rvalue :=
  partial_alter (fun _ => of_list (tail C)) (complete_list_name c) (delete u m).

(** What a fetch on a well-formed buffer does: [res'] and the map [m']. *)
Definition fetch_result (c : ta_cache_t) (m : gmap (list Z) rvalue) (B C : list cstr) (u : cstr)
    (res res' : ta_fetch_buffered_request_status_res_t) (m' : gmap (list Z) rvalue) : Prop :=
  match status_in B C u with
  | MAM_BUFREQ_SENT => exists ts txs, m !! u = Some (RList ts) /\
      Forall2 (fun t tx => transaction_deserialize t false = Some tx) ts txs /\
      res' = mkFetchRes (fetch_bundle res ++ txs) MAM_BUFREQ_SENT (fetch_mam_result res) /\
      m' = fetched c m u C
  | MAM_BUFREQ_UNSENT => res' = set_status MAM_BUFREQ_UNSENT res /\ m' = m
  | _ => res' = res /\ m' = m
  end.

(** The part behind the lock: the transactions are read, their key deleted and
    the complete list popped. *)
Lemma hand_out c u w m B C ts res :
  (forall t, is_txn t -> is_Some (transaction_deserialize t false)) ->
  cache_is (w_cache w) m -> buffered c m B C -> u ∈ C -> m !! u = Some (RList ts) ->
  exists txs w', Forall2 (fun t tx => transaction_deserialize t false = Some tx) ts txs /\
    ('(ret, bundle) ← read_bundle uninit u 0 (length ts) (fetch_bundle res);
     let res := set_bundle bundle res in
     if negb (ret =? SC_OK) then mret (ret, res) else
     ret ← on_cache (Backend.cache_del (Some u));
     if negb (ret =? SC_OK) then mret (ret, res) else
     '(ret, _) ← on_cache (Backend.cache_list_pop (Some (complete_list_name c)) (uninit N_UUID));
     mret (ret, res)) w = Some ((SC_OK, set_bundle (fetch_bundle res ++ txs) res), w') /\
    cache_is (w_cache w') (fetched c m u C) /\ w_lock w' = w_lock w.
Proof.
  intros Hdes Hc Hb HinC Hts.
  destruct (b_data _ _ _ _ Hb u) as (ts' & Hts' & Hne & Htx & Hlen); [rewrite elem_of_app; auto|].
  replace ts' with ts in * by congruence. clear ts' Hts'.
  destruct (b_keys _ _ _ _ Hb u) as [_ Hk]; [rewrite elem_of_app; auto|].
  assert (exists txs, Forall2 (fun t tx => transaction_deserialize t false = Some tx) ts txs) as [txs Hd].
  { apply Forall_exists_Forall2_l. eapply Forall_impl; [exact Htx|]. intros t Ht. by apply Hdes. }
  destruct (read_bundle_spec u ts txs Htx Hd (length ts) 0 (fetch_bundle res) w m Hc)
    as (w1 & H1 & Hc1 & L1); [by rewrite Hts|done|].
  exists txs. comp_step H1. change (SC_OK =? SC_OK) with true. cbn [negb drop]. cbv zeta.
  destruct (on_cache_is (Backend.cache_del (Some u)) w1 SC_OK (delete u m)) as (w2 & H2 & Hc2 & _ & _ & L2).
  { destruct (del_is (w_cache w1) m u Hc1) as (e' & He & Hi). exists e'. by rewrite He, Hts. }
  comp_step H2. change (SC_OK =? SC_OK) with true. cbn [negb].
  pose proof (b_complete _ _ _ _ Hb) as HC. pose proof (b_uuid _ _ _ _ Hb) as Hf.
  destruct C as [|v C]; [by apply not_elem_of_nil in HinC|].
  assert (is_uuid v) as Hv by (apply Forall_app in Hf as [_ Hf]; by inversion Hf).
  destruct (on_cache_is (Backend.cache_list_pop (Some (complete_list_name c)) (uninit N_UUID)) w2
    (SC_OK, v ++ [0]) (fetched c m u (v :: C))) as (w3 & H3 & Hc3 & _ & _ & L3).
  { destruct (pop_is (w_cache w2) (delete u m) (complete_list_name c) v C (uninit N_UUID))
      as (e' & He & Hi); [done|by rewrite lookup_delete_ne|apply Hv| |].
    - rewrite uninit_len, (proj1 Hv). change N_UUID with 37%nat. lia.
    - exists e'. by rewrite He, (uuid_array v Hv). }
  comp_step H3. exists w3. split; [done|]. split; [done|]. split; [done|]. congruence.
Qed.

Lemma fetch_txn_run c u w m B C res :
  (forall t, is_txn t -> is_Some (transaction_deserialize t false)) ->
  cache_is (w_cache w) m -> buffered c m B C -> is_uuid u -> w_lock w = Unlocked ->
  exists res' w' m', ta_fetch_txn_with_uuid uninit c (u ++ [0]) res w = Some ((SC_OK, res'), w') /\
    cache_is (w_cache w') m' /\ w_lock w' = Unlocked /\ fetch_result c m B C u res res' m'.
Proof.
  intros Hdes Hc Hb Hu Hl. pose proof (b_size _ _ _ _ Hb) as Hsize. rewrite length_app in Hsize.
  pose proof (b_uuid _ _ _ _ Hb) as Hf. apply Forall_app in Hf as [HfB HfC].
  unfold ta_fetch_txn_with_uuid. unfold mbind at 1, comp_mbind at 1, lock_fails. rewrite Hl.
  cbn [tryrdlock]. set (w0 := mkWorld _ _ _ _).
  destruct (exist_step w0 m (buffer_list_name c) u (u ++ [0]) B false) as (w1 & H1 & Hc1 & L1);
    [done|apply Hb|lia|done|done|by apply take_uuid|].
  comp_step H1. change (SC_OK =? SC_OK) with true. cbn [negb]. unfold fetch_result, status_in.
  assert (forall w', w_lock w' = w_lock w0 -> unlock w' = Some (tt, set_lock w' Unlocked)) as Hunl.
  { intros w' Hw'. unfold unlock. by rewrite Hw'. }
  destruct (decide (u ∈ B)) as [Hin|Hnin].
  { rewrite bool_decide_true by done. comp_step (Hunl w1 L1).
    eexists _, _, m. split; [done|]. by split. }
  rewrite bool_decide_false by done.
  destruct (exist_step w1 m (complete_list_name c) u (u ++ [0]) C false) as (w2 & H2 & Hc2 & L2);
    [done|apply Hb|lia|done|done|by apply take_uuid|].
  comp_step H2. change (SC_OK =? SC_OK) with true. cbn [negb].
  destruct (decide (u ∈ C)) as [HinC|HninC].
  2:{ rewrite bool_decide_false by done. comp_step (Hunl w2 ltac:(congruence)).
      eexists _, _, m. split; [done|]. by split. }
  rewrite bool_decide_true by done.
  destruct (b_data _ _ _ _ Hb u) as (ts & Hts & Hne & Htx & Hlen); [rewrite elem_of_app; auto|].
  destruct (on_cache_is (Backend.cache_list_size (Some u) 0) w2 (SC_OK, Z.of_nat (length ts)) m)
    as (w3 & H3 & Hc3 & _ & _ & L3).
  { apply size_is; [done|by rewrite Hts|done]. }
  cbv zeta. rewrite (c_string_nul u []) by apply Hu. unfold mbind at 1, comp_mbind at 1, check.
  comp_step H3. change (SC_OK =? SC_OK) with true. cbn [negb].
  comp_step (Hunl w3 ltac:(congruence)). rewrite Nat2Z.id.
  destruct (hand_out c u (set_lock w3 Unlocked) m B C ts (set_status MAM_BUFREQ_SENT res))
    as (txs & w4 & Hd & H4 & Hc4 & L4); [done..|].
  eexists _, w4, _. split; [exact H4|]. split; [exact Hc4|]. split; [exact L4|].
  exists ts, txs. by repeat split.
Qed.

Lemma fetched_buffered c m B C u :
  buffered c m B (u :: C) -> buffered c (fetched c m u (u :: C)) B C.
Proof.
  intros Hb. destruct (b_keys _ _ _ _ Hb u) as [Hu1 Hu2]; [rewrite elem_of_app, elem_of_cons; auto|].
  destruct Hb as [b1 b2 b3 b4 b5 b6 b7 b8]. unfold fetched. cbn [tail].
  assert (u :: B ++ C ≡ₚ B ++ u :: C) as Hp by apply Permutation_middle.
  rewrite <- Hp in b4, b5, b6. apply NoDup_cons in b5 as [Hnin b5].
  assert (forall v, v ∈ B ++ C -> v ∈ B ++ u :: C) as Hsub by (intros v Hv; rewrite <- Hp; by constructor).
  split.
  - by rewrite lookup_partial_alter_ne, lookup_delete_ne.
  - by rewrite lookup_partial_alter_eq, Backend.as_list_of_list.
  - done.
  - by inversion b4.
  - done.
  - cbn [length] in b6. lia.
  - intros v Hv. by apply b7, Hsub.
  - intros v Hv. destruct (b7 v (Hsub v Hv)).
    rewrite lookup_partial_alter_ne, lookup_delete_ne; [by apply b8, Hsub| |done].
    intros ->. done.
Qed.

(** A UUID on neither list is not found. *)
Lemma fetch_absent c u w m B C res :
  cache_is (w_cache w) m -> as_list (m !! buffer_list_name c) = Some B ->
  as_list (m !! complete_list_name c) = Some C ->
  Z.of_nat (length B) <= INT_MAX -> Z.of_nat (length C) <= INT_MAX ->
  Forall is_uuid B -> Forall is_uuid C -> is_uuid u -> u ∉ B -> u ∉ C -> w_lock w = Unlocked ->
  exists w', ta_fetch_txn_with_uuid uninit c (u ++ [0]) res w = Some ((SC_OK, res), w') /\
    cache_is (w_cache w') m /\ w_lock w' = Unlocked.
Proof.
  intros Hc HB HC LB LC HfB HfC Hu HnB HnC Hl.
  unfold ta_fetch_txn_with_uuid. unfold mbind at 1, comp_mbind at 1, lock_fails. rewrite Hl.
  cbn [tryrdlock]. set (w0 := mkWorld _ _ _ _).
  destruct (exist_step w0 m (buffer_list_name c) u (u ++ [0]) B false) as (w1 & H1 & Hc1 & L1);
    [done|done|done|done|done|by apply take_uuid|].
  comp_step H1. rewrite bool_decide_false by done. change (SC_OK =? SC_OK) with true. cbn [negb].
  destruct (exist_step w1 m (complete_list_name c) u (u ++ [0]) C false) as (w2 & H2 & Hc2 & L2);
    [done|done|done|done|done|by apply take_uuid|].
  comp_step H2. rewrite bool_decide_false by done. change (SC_OK =? SC_OK) with true. cbn [negb].
  unfold mbind, comp_mbind, unlock. rewrite L2, L1. cbn [w0 w_lock rwlock_unlock].
  eexists. split; [reflexivity|]. by split.
Qed.

(** Without a terminating NUL a completed request cannot be handed out. *)
Lemma fetch_unterminated c u w m B C res :
  cache_is (w_cache w) m -> buffered c m B C -> u ∈ C -> w_lock w = Unlocked ->
  ta_fetch_txn_with_uuid uninit c u res w = None.
Proof.
  intros Hc Hb Hin Hl. pose proof (b_size _ _ _ _ Hb) as Hsize. rewrite length_app in Hsize.
  pose proof (b_uuid _ _ _ _ Hb) as Hf. apply Forall_app in Hf as [HfB HfC].
  pose proof (b_nodup _ _ _ _ Hb) as Hnd. apply NoDup_app in Hnd as (_ & Hdis & _).
  assert (is_uuid u) as Hu by (rewrite Forall_forall in HfC; auto).
  assert (take 36 u = u) as Ht by (apply take_ge; rewrite (proj1 Hu); lia).
  unfold ta_fetch_txn_with_uuid. unfold mbind at 1, comp_mbind at 1, lock_fails. rewrite Hl.
  cbn [tryrdlock]. set (w0 := mkWorld _ _ _ _).
  destruct (exist_step w0 m (buffer_list_name c) u u B false) as (w1 & H1 & Hc1 & L1);
    [done|apply Hb|lia|done|done|done|].
  comp_step H1. change (SC_OK =? SC_OK) with true. cbn [negb].
  rewrite bool_decide_false by (intros HB; by apply (Hdis u HB)).
  destruct (exist_step w1 m (complete_list_name c) u u C false) as (w2 & H2 & Hc2 & L2);
    [done|apply Hb|lia|done|done|done|].
  comp_step H2. change (SC_OK =? SC_OK) with true. cbn [negb]. rewrite bool_decide_true by done.
  cbv zeta. by rewrite c_string_none by apply Hu.
Qed.

(** C3 Fetching by UUID on a well-formed buffer: a request still on the buffer
    list is reported unsent, a completed one is handed out with its transactions
    in the order they are stored and its data deleted, an unknown one leaves the
    response alone; the lock is released; and when the completed request is the
    one completed last (or there was none), the buffer stays well formed. *)
Theorem fetch_txn_spec c u w m B C res :
  (forall t, is_txn t -> is_Some (transaction_deserialize t false)) ->
  cache_is (w_cache w) m -> buffered c m B C -> is_uuid u -> w_lock w = Unlocked ->
  exists res' w' m', ta_fetch_txn_with_uuid uninit c (u ++ [0]) res w = Some ((SC_OK, res'), w') /\
    cache_is (w_cache w') m' /\ w_lock w' = Unlocked /\ fetch_result c m B C u res res' m' /\
    (status_in B C u <> MAM_BUFREQ_SENT -> buffered c m' B C) /\
    (head C = Some u -> buffered c m' B (tail C)).
Proof.
  intros Hdes Hc Hb Hu Hl.
  destruct (fetch_txn_run c u w m B C res Hdes Hc Hb Hu Hl) as (res' & w' & m' & H1 & Hc' & L' & Hr).
  exists res', w', m'. split; [done|]. split; [done|]. split; [done|]. split; [done|].
  unfold fetch_result in Hr. split.
  - intros Hs. destruct (status_in B C u); try done; by destruct Hr as [_ ->].
  - intros Hh. destruct C as [|v C]; [done|]. injection Hh as ->.
    pose proof (b_nodup _ _ _ _ Hb) as Hnd. apply NoDup_app in Hnd as (HndB & Hdis & Hnd).
    assert (status_in B (u :: C) u = MAM_BUFREQ_SENT) as E.
    { unfold status_in. rewrite decide_False, decide_True; [done|by constructor|].
      intros Hin. apply (Hdis u Hin). by constructor. }
    rewrite E in Hr. destruct Hr as (ts & txs & Hts & _ & _ & ->). by apply fetched_buffered.
Qed.

(** A completed request can only be fetched safely in the reverse order of
    completion: fetching [u] while [v] was completed later removes [v] from the
    complete list instead of [u].  A fetch of [v] then reports it as unknown
    although its transactions are still stored. *)
Theorem fetch_drops_other_request c u v w m B C res res2 :
  (forall t, is_txn t -> is_Some (transaction_deserialize t false)) ->
  cache_is (w_cache w) m -> buffered c m B (v :: C) -> u ∈ C -> w_lock w = Unlocked ->
  exists res' w' w'' m', ta_fetch_txn_with_uuid uninit c (u ++ [0]) res w = Some ((SC_OK, res'), w') /\
    fetch_status res' = MAM_BUFREQ_SENT /\
    ta_fetch_txn_with_uuid uninit c (v ++ [0]) res2 w' = Some ((SC_OK, res2), w'') /\
    cache_is (w_cache w'') m' /\ m' !! v = m !! v /\ is_Some (m !! v) /\
    as_list (m' !! complete_list_name c) = Some C.
Proof.
  intros Hdes Hc Hb Hin Hl.
  pose proof (b_nodup _ _ _ _ Hb) as Hnd. apply NoDup_app in Hnd as (HndB & Hdis & Hnd).
  apply NoDup_cons in Hnd as [Hv Hnd]. pose proof (b_uuid _ _ _ _ Hb) as Hf.
  apply Forall_app in Hf as [HfB HfC]. apply Forall_cons in HfC as [Hiv HfC].
  assert (is_uuid u) as Hu by (rewrite Forall_forall in HfC; auto).
  destruct (fetch_txn_run c u w m B (v :: C) res Hdes Hc Hb Hu Hl) as (res' & w' & m' & H1 & Hc' & L' & Hr).
  assert (status_in B (v :: C) u = MAM_BUFREQ_SENT) as E.
  { unfold status_in. rewrite decide_False, decide_True; [done|by constructor|].
    intros HuB. apply (Hdis u HuB). by constructor. }
  unfold fetch_result in Hr. rewrite E in Hr. destruct Hr as (ts & txs & Hts & _ & -> & ->).
  destruct (b_keys _ _ _ _ Hb u) as [Hu1 Hu2]; [rewrite elem_of_app, elem_of_cons; auto|].
  destruct (b_keys _ _ _ _ Hb v) as [Hv1 Hv2]; [rewrite elem_of_app, elem_of_cons; auto|].
  destruct (b_data _ _ _ _ Hb v) as (tv & Htv & _); [rewrite elem_of_app, elem_of_cons; auto|].
  assert (as_list (fetched c m u (v :: C) !! complete_list_name c) = Some C) as HC'.
  { unfold fetched. by rewrite lookup_partial_alter_eq, Backend.as_list_of_list. }
  pose proof (b_size _ _ _ _ Hb) as Hsz. rewrite length_app in Hsz. simpl in Hsz.
  destruct (fetch_absent c v w' (fetched c m u (v :: C)) B C res2) as (w'' & H2 & Hc2 & _);
    [done| |done|lia|lia|done|done|done|intros HvB; apply (Hdis v HvB); by constructor|done|done|].
  { unfold fetched. rewrite lookup_partial_alter_ne, lookup_delete_ne by (done || (intros E'; by destruct (b_names _ _ _ _ Hb))).
    apply Hb. }
  eexists _, w', w'', _. split; [exact H1|]. split; [done|]. split; [exact H2|]. split; [exact Hc2|].
  split; [|split; [by rewrite Htv|done]].
  unfold fetched. rewrite lookup_partial_alter_ne, lookup_delete_ne; [done| |done].
  intros ->. done.
Qed.

(** An error while the complete list is searched leaves the read lock taken:
    [ta_fetch_txn_with_uuid] returns without unlocking, and from then on every
    round of the broadcast fails to take the write lock. *)
Theorem fetch_error_leaks_lock core u w m B res ub :
  cache_is (w_cache w) m -> as_list (m !! buffer_list_name (cache core)) = Some B ->
  as_list (m !! complete_list_name (cache core)) = None ->
  Z.of_nat (length B) <= INT_MAX -> Forall is_uuid B -> is_uuid u -> u ∉ B -> w_lock w = Unlocked ->
  exists w', ta_fetch_txn_with_uuid uninit (cache core) (u ++ [0]) res w =
      Some ((SC_CACHE_FAILED_RESPONSE, res), w') /\ w_lock w' = ReadLocked 1 /\
    broadcast_move core ub w' = Some (Return SC_CACHE_LOCK_FAILURE, w').
Proof.
  intros Hc HB HC LB HfB Hu HnB Hl.
  unfold ta_fetch_txn_with_uuid. unfold mbind at 1, comp_mbind at 1, lock_fails. rewrite Hl.
  cbn [tryrdlock]. set (w0 := mkWorld _ _ _ _).
  destruct (exist_step w0 m (buffer_list_name (cache core)) u (u ++ [0]) B false) as (w1 & H1 & Hc1 & L1);
    [done|done|done|done|done|by apply take_uuid|].
  comp_step H1. rewrite bool_decide_false by done. change (SC_OK =? SC_OK) with true. cbn [negb].
  destruct (on_cache_is (Backend.cache_list_exist (uninit N_UUID)
    (Some (complete_list_name (cache core))) (Some (u ++ [0])) UUID_LEN false) w1
    (SC_CACHE_FAILED_RESPONSE, false) m) as (w2 & H2 & Hc2 & _ & _ & L2).
  { by apply exist_error_is. }
  comp_step H2. exists w2. split; [done|]. split; [by rewrite L2, L1|].
  unfold broadcast_move, mbind, comp_mbind, lock_fails. by rewrite L2, L1.
Qed.

(** The broadcast peeks a UUID and pops it later, and pushing takes no lock:
    when a client's request [v] is buffered in between, it is [v], never sent,
    that moves to the complete list with its unsent transactions, while the
    sent [u] stays on the buffer list and will be sent again. *)
Theorem broadcast_race core w m u B C ts raw v o :
  trytes_answers -> cache_is (w_cache w) m -> buffered (cache core) m (u :: B) C ->
  m !! u = Some (RList ts) -> w_lock w = Unlocked ->
  forall ub w1, broadcast_send uninit core w = Some (Go ub, w1) ->
  uuid_random (w_os w1) = (v, o) -> is_uuid v -> m !! v = None ->
  v <> buffer_list_name (cache core) -> v <> complete_list_name (cache core) -> is_bundle raw ->
  Z.of_nat (length (u :: B ++ C)) < INT_MAX ->
  exists w2 w3 m', push_txn_to_buffer (cache core) true raw w1 = Some ((SC_OK, Some v), w2) /\
    broadcast_move core ub w2 = Some (Go tt, w3) /\ cache_is (w_cache w3) m' /\
    as_list (m' !! buffer_list_name (cache core)) = Some (u :: B) /\
    as_list (m' !! complete_list_name (cache core)) = Some (v :: C) /\
    m' !! v = Some (RList (rev raw)).
Proof.
  intros Hans Hc Hb Hts Hl ub w1 Hsend Hr Hv Hfresh Hv1 Hv2 Hraw Hroom.
  destruct (broadcast_send_spec core w m u B C ts Hans Hc Hb Hts) as (r & w1' & H1 & L1 & Hgo).
  rewrite Hsend in H1. injection H1 as <- <-. destruct Hgo as (-> & sent & _ & Hs & Hc1).
  destruct (b_keys _ _ _ _ Hb u) as [Hu1 Hu2]; [by constructor|].
  assert (is_uuid u) as Hu by (pose proof (b_uuid _ _ _ _ Hb) as H; by inversion H).
  assert (u <> v) as Huv by congruence.
  destruct (push_txn_to_buffer_spec (cache core) raw w1 (<[u := RList (rev sent)]> m) (u :: B) C v o)
    as (w2 & m2 & H2 & Hc2 & Hb2 & Hm2 & _ & _ & L2);
    [done|by apply stored_buffered|done|done|done|by rewrite lookup_insert_ne|done|done|done|].
  destruct (broadcast_move_run core w2 m2 v (u :: B) C (u ++ [0])) as (w3 & H3 & Hc3 & _);
    [done|apply Hb2|apply Hb2|apply Hb2|done|rewrite length_app, (proj1 Hu); done|congruence|].
  eexists w2, w3, _. split; [done|]. split; [exact H3|]. split; [exact Hc3|].
  split; [rewrite lookup_insert_ne, lookup_partial_alter_eq by (symmetry; apply Hb2); done|].
  split; [by rewrite lookup_insert_eq|].
  rewrite lookup_insert_ne, lookup_partial_alter_ne by done. done.
Qed.

(** *** A transfer while the node is down *)

Lemma on_os_run {A} (f : os -> A * os) w a o :
  f (w_os w) = (a, o) -> on_os f w = Some (a, mkWorld (w_net w) o (w_cache w) (w_lock w)).
Proof. unfold on_os. by intros ->. Qed.

Lemma on_net_run {A} (f : net -> A * net) w a n :
  f (w_net w) = (a, n) -> on_net f w = Some (a, mkWorld n (w_os w) (w_cache w) (w_lock w)).
Proof. unfold on_net. by intros ->. Qed.

Lemma ta_send_trytes_no_tips info iconf service trytes w n :
  is_option_enabled info CLI_GTTA = true ->
  iota_client_get_transactions_to_approve service (w_net w) (milestone_depth iconf) = (None, n) ->
  ta_send_trytes info iconf service trytes w =
    Some ((SC_CCLIENT_FAILED_RESPONSE, trytes), mkWorld n (w_os w) (w_cache w) (w_lock w)).
Proof.
  intros Hg Ht. unfold ta_send_trytes. rewrite Hg. unfold mbind, comp_mbind, on_net. by rewrite Ht.
Qed.

(** A transfer that cannot be sent because the node gives no tips is
    buffered: the error is returned together with the UUID and the address, the
    bundle's transactions are stored under the UUID (last one first), and the
    UUID heads the buffer list. *)
Theorem ta_send_transfer_buffers info iconf service c req res w m B C
    t1 o1 t2 o2 u o3 n1 n2 addr tag message out_bundle first raw :
  cache_is (w_cache w) m -> buffered c m B C -> Z.of_nat (length (B ++ C)) < INT_MAX ->
  current_timestamp_ms (w_os w) = (t1, o1) -> current_timestamp_ms o1 = (t2, o2) ->
  uuid_random o2 = (u, o3) -> is_uuid u -> m !! u = None ->
  u <> buffer_list_name c -> u <> complete_list_name c ->
  head (req_address req) = Some addr -> head (req_tag req) = Some tag ->
  0 <= req_msg_len req -> read_n (req_message req) (Z.to_nat (req_msg_len req)) = Some message ->
  iota_client_prepare_transfers service (w_net w) (flex_trits_from_trytes N_HASH (seed iconf)) 2
    [mkTransfer addr tag 0 t1 message] t2 = (Some out_bundle, n1) ->
  head out_bundle = Some first -> serialize_all out_bundle [] = (SC_OK, raw) -> is_bundle raw ->
  is_option_enabled info CLI_GTTA = true ->
  iota_client_get_transactions_to_approve service n1 (milestone_depth iconf) = (None, n2) ->
  exists w' m', ta_send_transfer info iconf service c (Some req) (Some res) w =
      Some ((SC_CCLIENT_FAILED_RESPONSE, Some (mkTransferRes (res_hash res) (res_txn_array res) (Some u)
        (Some (flex_trits_to_trytes (Z.to_nat NUM_TRYTES_ADDRESS) (transaction_address first)).2))), w') /\
    cache_is (w_cache w') m' /\ buffered c m' (u :: B) C /\ m' !! u = Some (RList (rev raw)).
Proof.
  intros Hc Hb Hroom T1 T2 Hr Hu Hfresh Hu1 Hu2 Ha Hg Hlen Hm Hp Hf Hser Hraw Hgtta Htips.
  unfold ta_send_transfer, send_transfer.
  rewrite Ha, Hg, (proj2 (Z.leb_le _ _) Hlen), Hm.
  set (w2 := mkWorld n1 o2 (w_cache w) (w_lock w)).
  set (w3 := mkWorld n2 o2 (w_cache w) (w_lock w)).
  destruct (push_txn_to_buffer_spec c raw w3 m B C u o3) as (w4 & m4 & H4 & Hc4 & Hb4 & Hm4 & _);
    [done..|].
  exists w4, m4. split; [|done].
  unfold mbind, comp_mbind, check. cbv zeta.
  rewrite (on_os_run _ w _ _ T1), (on_os_run _ _ _ _ (T2 : current_timestamp_ms (w_os (mkWorld _ _ _ _)) = _)).
  rewrite (on_net_run _ (mkWorld (w_net w) o2 (w_cache w) (w_lock w)) _ _ Hp), Hser.
  change (SC_OK =? SC_OK) with true. cbn [negb w_net w_os w_cache w_lock].
  rewrite (ta_send_trytes_no_tips info iconf service raw w2 n2 Hgtta Htips : ta_send_trytes _ _ _ _ (mkWorld _ _ _ _) = _).
  change (SC_CCLIENT_FAILED_RESPONSE =? SC_OK) with false. cbn [negb].
  change (mkWorld n2 (w_os w2) (w_cache w2) (w_lock w2)) with w3. by rewrite H4, Hf.
Qed.

(** C2 The life of a buffered request on an otherwise empty buffer: after
    [push_txn_to_buffer] it is reported unsent; a run of the broadcast either
    fails and leaves it unsent, or sends its transactions (in the reverse of
    their order in the bundle) and a fetch then hands out what the node
    returned and leaves the buffer empty again. *)
Theorem buffered_request_lifecycle core raw w m u o res :
  (forall t, is_txn t -> is_Some (transaction_deserialize t false)) -> trytes_answers ->
  cache_is (w_cache w) m -> buffered (cache core) m [] [] -> w_lock w = Unlocked ->
  uuid_random (w_os w) = (u, o) -> is_uuid u -> m !! u = None ->
  u <> buffer_list_name (cache core) -> u <> complete_list_name (cache core) -> is_bundle raw ->
  exists w1 w2 ret w3 res', push_txn_to_buffer (cache core) true raw w = Some ((SC_OK, Some u), w1) /\
    broadcast_buffered_txn uninit 2 core w1 = Some (Some ret, w2) /\
    ta_fetch_txn_with_uuid uninit (cache core) (u ++ [0]) res w2 = Some ((SC_OK, res'), w3) /\
    ((ret <> SC_OK /\ fetch_status res' = MAM_BUFREQ_UNSENT) \/
     (ret = SC_OK /\ fetch_status res' = MAM_BUFREQ_SENT /\
      (exists sent txs, accepted core w1 (rev raw) sent /\
        Forall2 (fun t tx => transaction_deserialize t false = Some tx) (rev sent) txs /\
        fetch_bundle res' = fetch_bundle res ++ txs) /\
      exists m3, cache_is (w_cache w3) m3 /\ buffered (cache core) m3 [] [])).
Proof.
  intros Hdes Hans Hc Hb Hl Hr Hu Hfresh Hu1 Hu2 Hraw.
  destruct (push_txn_to_buffer_spec (cache core) raw w m [] [] u o)
    as (w1 & m1 & H1 & Hc1 & Hb1 & Hm1 & _ & _ & L1); [done..|].
  exists w1. cbn [broadcast_buffered_txn].
  destruct (broadcast_iteration_spec core w1 m1 u [] [] (rev raw) Hans Hc1 Hb1 Hm1 ltac:(congruence))
    as (r & w2 & m2 & H2 & Hc2 & L2 & Hit).
  rewrite (comp_bind_eq _ _ _ _ _ H2). destruct r as [ret|[] ].
  - destruct Hit as [Hne ->].
    destruct (fetch_txn_run (cache core) u w2 m1 [u] [] res Hdes Hc2 Hb1 Hu L2)
      as (res' & w3 & m3 & H3 & _ & _ & Hres).
    exists w2, ret, w3, res'. split; [done|]. split; [done|]. split; [done|]. left. split; [done|].
    unfold fetch_result, status_in in Hres. rewrite decide_True in Hres by by constructor.
    by destruct Hres as [-> _].
  - destruct Hit as (Hb2 & sent & Hacc & Hmv).
    destruct (broadcast_iteration_empty core w2 m2 Hc2) as (w2' & H2' & Hc2' & L2'); [apply Hb2|].
    destruct (fetch_txn_run (cache core) u w2' m2 [] [u] res Hdes Hc2' Hb2 Hu ltac:(congruence))
      as (res' & w3 & m3 & H3 & Hc3 & _ & Hres).
    exists w2', SC_OK, w3, res'. split; [done|]. split; [by rewrite (comp_bind_eq _ _ _ _ _ H2')|].
    split; [done|]. right. split; [done|].
    unfold fetch_result, status_in in Hres.
    rewrite decide_False, decide_True in Hres by (by constructor || by apply not_elem_of_nil).
    destruct Hres as (ts & txs & Hts & Hd & -> & ->). split; [done|].
    rewrite Hmv, (moved_sent _ _ _ _ _ _ Hb1) in Hts. injection Hts as <-.
    split; [by exists sent, txs|]. exists (fetched (cache core) m2 u [u]). split; [done|].
    by apply fetched_buffered.
Qed.

End Properties.

(** ** Witnesses *)
Module BufferWitness.
Import ToyWorld RedisModel CacheView.

Definition no_core : ta_core_t :=
  mkCore (mkTaConf [] [] 0 [] [] 0 0 0 []) (mkCacheConf [] 0 [] [] [] [] 0 false 0)
    (mkIotaConf 0 0 [] []) (mkService [] 0 []) [].
Definition toy_core : ta_core_t := default_core [] [] no_core.
Definition garbage (n : nat) : list Z := replicate n 170.

Definition txn (i l : Z) : trits := [65 + i; 65 + l; 66].
Definition raw2 : list trits := [txn 0 1; txn 1 1].

Lemma garbage_len n : length (garbage n) = n.
Proof. apply length_replicate. Qed.

Lemma toy_unlimited (d : db) : maxed d = false.
Proof. reflexivity. Qed.

Lemma toy_FT : FT <= INT_MAX.
Proof. done. Qed.

Lemma toy_answers : @trytes_answers toy_net lib node.
Proof.
  intros s n n' hs sent. simpl. unfold answer. destruct (up n); [|done].
  set (l := filter _ _). destruct (take 8 l) as [|t r] eqn:E; [done|]. intros [= <- _].
  rewrite <- E. split; [by rewrite E|]. split.
  - apply Forall_take, Forall_forall. intros t' Ht. subst l. by apply list_elem_of_filter in Ht as [Ht _].
  - rewrite length_take. unfold INT_MAX. lia.
Qed.

Lemma toy_deserialize t : is_txn t -> is_Some (transaction_deserialize t false).
Proof. intros [Hl _]. by destruct t as [|a [|b [|c r]]]. Qed.

Lemma uuid_of_ok i : 0 <= i -> is_uuid (uuid_of i).
Proof.
  intros Hi. split; [done|]. unfold uuid_of. rewrite elem_of_app, list_elem_of_singleton.
  intros [H|H]; [|lia]. by apply elem_of_replicate in H as [? _].
Qed.

Lemma raw2_bundle : is_bundle raw2.
Proof.
  split; [done|]. split; [|done].
  apply Forall_cons_2; [|apply Forall_cons_2; [|done]]; (split; [done|]);
    apply (bool_decide_unpack _); vm_compute; exact I.
Qed.

(** A cache with the given lists and the same two transactions for each UUID. *)
Definition toy_map (B C : list cstr) : db :=
  partial_alter (fun _ => of_list B) BUFFER_LIST_NAME
    (partial_alter (fun _ => of_list C) COMPLETE_LIST_NAME
       (list_to_map ((fun u => (u, RList raw2)) <$> B ++ C))).

Definition toy (up : bool) (B C : list cstr) : world toy_net Z db :=
  mkWorld (mkNet up [] []) 5 (Backend.mkEnv true (toy_map B C)) Unlocked.

Lemma toy_is up B C : cache_is (w_cache (toy up B C)) (toy_map B C).
Proof. done. Qed.

Lemma uuid_not_name u : is_uuid u -> u <> BUFFER_LIST_NAME /\ u <> COMPLETE_LIST_NAME.
Proof. intros [Hl _]. split; intros ->; vm_compute in Hl; discriminate Hl. Qed.

Lemma toy_buffered B C :
  Forall is_uuid (B ++ C) -> NoDup (B ++ C) -> Z.of_nat (length (B ++ C)) <= INT_MAX ->
  buffered (cache toy_core) (toy_map B C) B C.
Proof.
  intros Hf Hnd Hl. assert (BUFFER_LIST_NAME <> COMPLETE_LIST_NAME) as Hne by done.
  assert (forall u, u ∈ B ++ C -> u <> BUFFER_LIST_NAME /\ u <> COMPLETE_LIST_NAME) as Hk.
  { intros u Hu. rewrite Forall_forall in Hf. by apply uuid_not_name, Hf. }
  split; [| |done|done|done|done|done|].
  - unfold toy_map. rewrite lookup_partial_alter_eq. by destruct B.
  - unfold toy_map. rewrite lookup_partial_alter_ne, lookup_partial_alter_eq by done. by destruct C.
  - intros u Hu. destruct (Hk u Hu). exists raw2. split; [|apply raw2_bundle].
    unfold toy_map. rewrite !lookup_partial_alter_ne by done.
    apply elem_of_list_to_map_1.
    + by rewrite <- list_fmap_compose, list_fmap_id.
    + apply list_elem_of_fmap. by exists u.
Qed.

Lemma toy_fresh B C u : is_uuid u -> u ∉ B ++ C -> toy_map B C !! u = None.
Proof.
  intros Hu Hn. destruct (uuid_not_name u Hu). unfold toy_map.
  rewrite !lookup_partial_alter_ne by done. apply not_elem_of_list_to_map_1.
  by rewrite <- list_fmap_compose, list_fmap_id.
Qed.

Ltac toy_buffer :=
  apply toy_buffered;
  [ repeat constructor; apply uuid_of_ok; done
  | apply (bool_decide_unpack _); vm_compute; exact I
  | done ].

Lemma broadcast_buffered_txn_total_witness :
  exists ret w', broadcast_buffered_txn garbage 3 toy_core (toy true [uuid_of 1; uuid_of 2] []) =
    Some (Some ret, w').
Proof.
  destruct (broadcast_buffered_txn_total garbage garbage_len toy_unlimited toy_FT toy_core
    [uuid_of 1; uuid_of 2] 3 (toy true [uuid_of 1; uuid_of 2] []) (toy_map [uuid_of 1; uuid_of 2] []) [])
    as (ret & w' & _ & _ & _ & H & _);
    [exact toy_answers|apply toy_is|toy_buffer|done|simpl; lia|].
  exists ret, w'. exact H.
Defined.

Lemma fetch_txn_spec_witness :
  exists res' w', ta_fetch_txn_with_uuid garbage (cache toy_core) (uuid_of 1 ++ [0])
      ta_fetch_buffered_request_status_res_new (toy true [] [uuid_of 1]) = Some ((SC_OK, res'), w').
Proof.
  destruct (fetch_txn_spec garbage garbage_len toy_FT (cache toy_core) (uuid_of 1)
    (toy true [] [uuid_of 1]) (toy_map [] [uuid_of 1]) [] [uuid_of 1]
    ta_fetch_buffered_request_status_res_new) as (res' & w' & _ & H & _);
    [exact toy_deserialize|apply toy_is|toy_buffer|by apply uuid_of_ok|done|].
  exists res', w'. exact H.
Defined.

Lemma fetch_drops_other_request_witness :
  exists res' w' w'',
    ta_fetch_txn_with_uuid garbage (cache toy_core) (uuid_of 1 ++ [0])
      ta_fetch_buffered_request_status_res_new (toy true [] [uuid_of 2; uuid_of 1]) =
        Some ((SC_OK, res'), w') /\
    ta_fetch_txn_with_uuid garbage (cache toy_core) (uuid_of 2 ++ [0])
      ta_fetch_buffered_request_status_res_new w' =
        Some ((SC_OK, ta_fetch_buffered_request_status_res_new), w'').
Proof.
  destruct (fetch_drops_other_request garbage garbage_len toy_FT (cache toy_core) (uuid_of 1) (uuid_of 2)
    (toy true [] [uuid_of 2; uuid_of 1]) (toy_map [] [uuid_of 2; uuid_of 1]) [] [uuid_of 1]
    ta_fetch_buffered_request_status_res_new ta_fetch_buffered_request_status_res_new)
    as (res' & w' & w'' & m' & H1 & _ & H2 & _);
    [exact toy_deserialize|apply toy_is|toy_buffer|by constructor|done|].
  exists res', w', w''. split; [exact H1|exact H2].
Defined.

(** The complete list's key holds a string. *)
Definition broken : world toy_net Z db :=
  mkWorld (mkNet true [] []) 5
    (Backend.mkEnv true {[ COMPLETE_LIST_NAME := RString (lit "x") ]}) Unlocked.

Lemma fetch_error_leaks_lock_witness :
  exists w', ta_fetch_txn_with_uuid garbage (cache toy_core) (uuid_of 1 ++ [0])
      ta_fetch_buffered_request_status_res_new broken =
        Some ((SC_CACHE_FAILED_RESPONSE, ta_fetch_buffered_request_status_res_new), w') /\
    w_lock w' = ReadLocked 1.
Proof.
  destruct (fetch_error_leaks_lock garbage garbage_len toy_core (uuid_of 1) broken
    {[ COMPLETE_LIST_NAME := RString (lit "x") ]} [] ta_fetch_buffered_request_status_res_new [])
    as (w' & H1 & H2 & _);
    [done|reflexivity|reflexivity|done|constructor|by apply uuid_of_ok|apply not_elem_of_nil|done|].
  exists w'. split; [exact H1|exact H2].
Defined.

(** The round goes on, and the clock has reached [t]. *)
Definition goes_on (r : option (iteration (list Z) * world toy_net Z db)) (t : Z) : bool :=
  match r with Some (Go _, w1) => w_os w1 =? t | _ => false end.

Lemma broadcast_race_witness :
  exists ub w1 w2 w3 v,
    broadcast_send garbage toy_core (toy true [uuid_of 1] []) = Some (Go ub, w1) /\
    push_txn_to_buffer (cache toy_core) true raw2 w1 = Some ((SC_OK, Some v), w2) /\
    broadcast_move toy_core ub w2 = Some (Go tt, w3).
Proof.
  set (w := toy true [uuid_of 1] []).
  assert (goes_on (broadcast_send garbage toy_core w) 7 = true) as Hgo by (vm_compute; reflexivity).
  destruct (broadcast_send garbage toy_core w) as [[ [ret|ub] w1] |] eqn:Hs;
    [discriminate Hgo| |discriminate Hgo].
  apply Z.eqb_eq in Hgo as Ho.
  destruct (broadcast_race garbage garbage_len toy_unlimited toy_FT toy_core w
    (toy_map [uuid_of 1] []) (uuid_of 1) [] [] raw2 raw2 (uuid_of 7) 8) with (ub := ub) (w1 := w1)
    as (w2 & w3 & m' & H2 & H3 & _);
    [exact toy_answers|apply toy_is|toy_buffer|reflexivity|done|exact Hs|by rewrite Ho
    |by apply uuid_of_ok|reflexivity|by apply uuid_not_name, uuid_of_ok|by apply uuid_not_name, uuid_of_ok
    |exact raw2_bundle|done|].
  exists ub, w1, w2, w3, (uuid_of 7). split; [reflexivity|]. split; [exact H2|exact H3].
Defined.

Definition toy_req : ta_send_transfer_req_t := mkTransferReq 0 [[84]] [[65]] [72; 73] 2.

Lemma ta_send_transfer_buffers_witness :
  exists res w', ta_send_transfer (ta_conf toy_core) (iota_conf toy_core) (iota_service toy_core)
    (cache toy_core) (Some toy_req) (Some ta_send_transfer_res_new) (toy false [] []) =
    Some ((SC_CCLIENT_FAILED_RESPONSE, Some res), w') /\ res_uuid res = Some (uuid_of 7).
Proof.
  destruct (ta_send_transfer_buffers toy_unlimited (ta_conf toy_core) (iota_conf toy_core)
    (iota_service toy_core) (cache toy_core) toy_req ta_send_transfer_res_new (toy false [] [])
    (toy_map [] []) [] [] 5000 6 6000 7 (uuid_of 7) 8 (mkNet false [] []) (mkNet false [] [])
    [65] [84] [72; 73] [toy_tx 0 1 []; toy_tx 1 1 []] (toy_tx 0 1 []) raw2)
    as (w' & m' & H & _);
    [apply toy_is|toy_buffer|done|reflexivity|reflexivity|reflexivity|by apply uuid_of_ok|reflexivity
    |by apply uuid_not_name, uuid_of_ok|by apply uuid_not_name, uuid_of_ok|reflexivity|reflexivity|done
    |reflexivity|reflexivity|reflexivity|reflexivity|exact raw2_bundle|reflexivity|reflexivity|].
  eexists _, w'. split; [exact H|reflexivity].
Defined.

Lemma buffered_request_lifecycle_witness :
  exists w1 w2 ret, push_txn_to_buffer (cache toy_core) true raw2 (toy true [] []) =
      Some ((SC_OK, Some (uuid_of 5)), w1) /\
    broadcast_buffered_txn garbage 2 toy_core w1 = Some (Some ret, w2).
Proof.
  destruct (buffered_request_lifecycle garbage garbage_len toy_unlimited toy_FT toy_core raw2
    (toy true [] []) (toy_map [] []) (uuid_of 5) 6 ta_fetch_buffered_request_status_res_new)
    as (w1 & w2 & ret & w3 & res' & H1 & H2 & _);
    [exact toy_deserialize|exact toy_answers|apply toy_is|toy_buffer|done|reflexivity|by apply uuid_of_ok
    |reflexivity|by apply uuid_not_name, uuid_of_ok|by apply uuid_not_name, uuid_of_ok|exact raw2_bundle|].
  exists w1, w2, ret. split; [exact H1|exact H2].
Defined.

End BufferWitness.
