(* ===== verification/Mam.v ===== *)
(** * MAM messages ([accelerator/core/mam_core.c] and the MAM functions of
    [core/apis.c])

    A channel is a list of one-time keys; a message is signed with the first key
    whose message ID is not on the ledger yet.  The MAM library (an API object,
    channels, reading and writing of bundles) is the class [MamLib], its use of
    files and the clock [MamOs].  The API object is a value that every call
    returns anew. *)

From S2P Require Import Prelude TaErrors Utils Json Cache World Pow Config Serializer SerMam Core Buffer.

(** Sizes of the MAM library in trytes ([common/macros.h]). *)
Definition NUM_TRYTES_MAM_NTRU_PK_SIZE : Z := 9216 / 3.
Definition NUM_TRYTES_MAM_NTRU_SK_SIZE : Z := 342.
Definition NUM_TRYTES_MAM_PSK_KEY_SIZE : Z := 243 / 3.
Definition NUM_TRYTES_MAM_PSK_ID_SIZE : Z := 81 / 3.

(** A pre-shared key: [id] and [key]. *)
Record mam_psk_t := mkPsk { psk_id : trits; psk_key : trits }.

#[export] Instance mam_psk_eq_dec : EqDecision mam_psk_t.
Proof. solve_decision. Defined.

Abbreviation bundle_t := (list iota_transaction_t) (only parsing).

(** The library.  A set is the list of its elements in the order of iteration;
    [None] stands for a return code other than [RC_OK]. *)
Class MamLib := {
  mam_api_t : Type;
  mam_channel_t : Type;
  trytes_to_trits : trytes -> trits;
  trits_to_trytes : trits -> trytes;
  trytes_to_ascii : trytes -> cstr;
  mam_psk_t_set_add : list mam_psk_t -> mam_psk_t -> option (list mam_psk_t);
  mam_ntru_set_add : list trits -> trits -> option (list trits);
  mam_api_init : trytes -> option mam_api_t;
  mam_api_destroy : mam_api_t -> bool;
  mam_api_channel_create : mam_api_t -> Z -> option trytes * mam_api_t;
  channels : mam_api_t -> list mam_channel_t;
  set_channels : mam_api_t -> list mam_channel_t -> mam_api_t;
  mam_channel_id : mam_channel_t -> trits;
  mam_endpoint_ids : mam_channel_t -> list trits;
  mam_mss_next : mam_channel_t -> mam_channel_t;
  mam_api_bundle_write_header_on_channel :
    mam_api_t -> trytes -> list mam_psk_t -> list trits -> bundle_t -> option (bundle_t * trits) * mam_api_t;
  mam_api_bundle_write_packet : mam_api_t -> trits -> trytes -> bundle_t -> option bundle_t * mam_api_t;
  mam_api_bundle_announce_channel :
    mam_api_t -> trytes -> trytes -> list mam_psk_t -> list trits -> bundle_t -> option bundle_t * mam_api_t;
  mam_api_bundle_read : mam_api_t -> bundle_t -> option (option trytes) * mam_api_t;
  mam_api_add_trusted_channel_pk : mam_api_t -> trytes -> bool * mam_api_t;
  mam_api_add_psk : mam_api_t -> mam_psk_t -> bool * mam_api_t;
  trusted_channel_pks : mam_api_t -> list trits
}.

(** The return codes of [mam_api_load] the code tells apart. *)
Inductive load_result (A : Type) :=
| RC_OK (a : A)
| RC_UTILS_FAILED_TO_OPEN_FILE
| RC_OTHER.
Arguments RC_OK {A} a.
Arguments RC_UTILS_FAILED_TO_OPEN_FILE {A}.
Arguments RC_OTHER {A}.

(** Files of the library and [CLOCK_MONOTONIC] in seconds. *)
Class MamOs {mlib : MamLib} (os : Type) := {
  mam_api_load : cstr -> os -> load_result mam_api_t * os;
  mam_api_save : mam_api_t -> cstr -> os -> bool * os;
  clock_monotonic : os -> Z * os
}.

(** [iota_client_find_transaction_objects]: [None] is an error other than
    [RC_NULL_PARAM]. *)
Class MamNode (net : Type) := {
  iota_client_find_transaction_objects :
    iota_client_service_t -> net -> find_transactions_req_t -> option (list iota_transaction_t) * net
}.

Inductive mam_send_operation_t := ANNOUNCE_CHID | SEND_MESSAGE.

#[export] Instance mam_send_operation_eq_dec : EqDecision mam_send_operation_t.
Proof. solve_decision. Defined.

Record mam_encrypt_key_t := mkEncryptKey { psks : list mam_psk_t; ntru_pks : list trits; ntru_sks : list trits }.

Record channel_info_t := mkChannelInfo { ci_ch_mss_depth : Z; ci_chid : option trytes }.

Definition TIMESTAMP_LEN : nat := 20.

(** [printf] of a [long] with "%020ld". *)
Definition fmt_020ld (z : Z) : cstr :=
  let pad (n : nat) (s : cstr) := replicate (n - length s) 48 ++ s in
  if z <? 0 then 45 :: pad 19%nat (dec_nat (- z)) else pad TIMESTAMP_LEN (dec_nat z).

Section Mam.
Context {net os db : Type} {lib : IotaLib} {txt : JsonText} {node : IotaNode net} {mnode : MamNode net}
  {sys : Os os} {server : RedisServer db} {mlib : MamLib} {mos : MamOs os}.
Abbreviation proc := (@proc net os db).

(** ** Headers and packets *)

Definition ta_mam_write_header (api : mam_api_t) (channel_id : trytes) (keys : mam_encrypt_key_t)
    (bundle : bundle_t) : status_t * option (bundle_t * trits) * mam_api_t :=
  match mam_api_bundle_write_header_on_channel api channel_id (psks keys) (ntru_pks keys) bundle with
  | (None, api) => (SC_MAM_FAILED_WRITE_HEADER, None, api)
  | (Some r, api) => (SC_OK, Some r, api)
  end.

Definition ta_mam_write_packet (api : mam_api_t) (payload : cstr) (msg_id : trits) (bundle : bundle_t)
  : status_t * bundle_t * mam_api_t :=
  match mam_api_bundle_write_packet api msg_id (ascii_to_trytes payload) bundle with
  | (None, api) => (SC_MAM_FAILED_WRITE, bundle, api)
  | (Some bundle, api) => (SC_OK, bundle, api)
  end.

(** The first 21 trytes of the tags are compared. *)
Definition msg_id_of (tag : trits) : trytes := take N_MSG_ID (flex_trits_to_trytes N_TAG tag).2.

Fixpoint msg_id_exist (tag_array : list trits) (tag : trits) : bool :=
  match tag_array with
  | [] => false
  | tag_cursor :: r => if bool_decide (msg_id_of tag_cursor = msg_id_of tag) then true else msg_id_exist r tag
  end.

(** The pointer to a channel is its position in the set. *)
Definition mam_api_channel_get (api : mam_api_t) (channel_id : trytes) : option nat :=
  fst <$> list_find (fun ch => mam_channel_id ch = trytes_to_trits channel_id) (channels api).

Definition mam_api_endpoint_get (api : mam_api_t) (channel_id : trytes) (endpoint_id : option trytes)
  : option (nat * nat) :=
  match endpoint_id, mam_api_channel_get api channel_id with
  | Some endpoint_id, Some i =>
      ch ← channels api !! i;
      '(j, _) ← list_find (fun e => e = trytes_to_trits endpoint_id) (mam_endpoint_ids ch);
      Some (i, j)
  | _, _ => None
  end.

(** [mam_mss_next (&mam_api_channel_get (api, chid)->mss)]. *)
Definition channel_mss_next (api : mam_api_t) (chid : trytes) : option mam_api_t :=
  i ← mam_api_channel_get api chid;
  Some (set_channels api (alter mam_mss_next i (channels api))).

(** ** Keys *)

(** The ID of the next pre-shared key, from the counter [psk_id_cnt]. *)
Definition psk_id_of (psk_id_cnt : Z) : option (status_t * option (list Z)) :=
  match TryteByteConv.bytes_to_trytes 3 [Z.land psk_id_cnt 255; Z.shiftr psk_id_cnt 8] 2
          (replicate (S (Z.to_nat NUM_TRYTES_MAM_PSK_ID_SIZE)) 0) with
  | Done raw_psk_id =>
      FillNines.fill_nines (Some (replicate (S (Z.to_nat NUM_TRYTES_MAM_PSK_ID_SIZE)) 0))
        (Some (str_of_buf raw_psk_id)) NUM_TRYTES_MAM_PSK_ID_SIZE
  | _ => None
  end.

(** The loop over the pre-shared keys; the counter is never incremented. *)
Fixpoint set_psks (psk_id_cnt : Z) (l : list cstr) (set : list mam_psk_t)
  : option (status_t * list mam_psk_t) :=
  match l with
  | [] => Some (SC_OK, set)
  | p :: r =>
      '(ret, psk_id) ← psk_id_of psk_id_cnt;
      if negb (ret =? SC_OK) then Some (ret, set) else
      psk_id ← psk_id;
      psk_id ← read_at psk_id 0 (Z.to_nat NUM_TRYTES_MAM_PSK_ID_SIZE);
      key ← read_n p (Z.to_nat NUM_TRYTES_MAM_PSK_KEY_SIZE);
      match mam_psk_t_set_add set (mkPsk (trytes_to_trits psk_id) (trytes_to_trits key)) with
      | None => Some (SC_MAM_FAILED_INIT, set)
      | Some set => set_psks psk_id_cnt r set
      end
  end.

(** The loops over the NTRU keys, public or secret. *)
Fixpoint set_ntrus (size : Z) (l : list cstr) (set : list trits) : option (status_t * list trits) :=
  match l with
  | [] => Some (SC_OK, set)
  | p :: r =>
      key ← read_n p (Z.to_nat size);
      match mam_ntru_set_add set (trytes_to_trits key) with
      | None => Some (SC_MAM_FAILED_INIT, set)
      | Some set => set_ntrus size r set
      end
  end.

(** A NULL array is [[]]: nothing is added for it. *)
Definition ta_set_mam_key (mam_keys : mam_encrypt_key_t) (psk ntru_pk ntru_sk : list cstr)
  : option (status_t * mam_encrypt_key_t) :=
  '(ret, ps) ← set_psks 0 psk (psks mam_keys);
  let mam_keys := mkEncryptKey ps (ntru_pks mam_keys) (ntru_sks mam_keys) in
  if negb (ret =? SC_OK) then Some (ret, mam_keys) else
  '(ret, pks) ← set_ntrus NUM_TRYTES_MAM_NTRU_PK_SIZE ntru_pk (ntru_pks mam_keys);
  let mam_keys := mkEncryptKey ps pks (ntru_sks mam_keys) in
  if negb (ret =? SC_OK) then Some (ret, mam_keys) else
  '(ret, sks) ← set_ntrus NUM_TRYTES_MAM_NTRU_SK_SIZE ntru_sk (ntru_sks mam_keys);
  Some (ret, mkEncryptKey ps pks sks).

Definition no_keys : mam_encrypt_key_t := mkEncryptKey [] [] [].

(** ** The API object *)

Definition ta_mam_init (iconf : iota_config_t) (sd : option trytes) : proc (status_t * option mam_api_t) :=
  match sd with
  | Some sd =>
      mret (match mam_api_init sd with
            | Some api => (SC_OK, Some api) | None => (SC_MAM_FAILED_INIT, None) end)
  | None =>
      rc ← on_os (mam_api_load (mam_file_path iconf));
      mret (match rc with
            | RC_OK api => (SC_OK, Some api)
            | RC_UTILS_FAILED_TO_OPEN_FILE =>
                match mam_api_init (seed iconf) with
                | Some api => (SC_OK, Some api) | None => (SC_MAM_FAILED_INIT, None) end
            | RC_OTHER => (SC_MAM_FAILED_INIT, None)
            end)
  end.

(** The loop over the transactions of a channel: one tag per message. *)
Fixpoint collect_tags (txns : list iota_transaction_t) (tag_array : list trits) : list trits :=
  match txns with
  | [] => tag_array
  | tx :: r =>
      collect_tags r (if msg_id_exist tag_array (transaction_tag tx) then tag_array
                      else tag_array ++ [transaction_tag tx])
  end.

Definition channel_query (chid : trytes) : find_transactions_req_t :=
  address_query (flex_trits_from_trytes N_HASH chid).

(** [chid] and [tag_array] are results. *)
Definition create_channel_fetch_all_transactions (service : iota_client_service_t) (api : mam_api_t)
    (channel_depth : Z) (first_iter : bool) (chid : trytes) (tag_array : list trits)
  : proc (status_t * mam_api_t * trytes * list trits) :=
  let '(created, api) := if first_iter then (Some chid, api) else mam_api_channel_create api channel_depth in
  match created with
  | None => mret (SC_MAM_FAILED_CREATE_OR_GET_ID, api, chid, tag_array)
  | Some chid =>
      '(ret, txns) ← ta_get_txn_objects_with_txn_hash service (channel_query chid) [];
      if negb (ret =? SC_OK) then mret (ret, api, chid, tag_array)
      else mret (SC_OK, api, chid, collect_tags txns tag_array)
  end.

Definition is_setting_changed (service : iota_client_service_t) (api : mam_api_t) (channel_depth : Z)
    (chid : trytes) : proc (bool * mam_api_t * trytes) :=
  let '(created, api) := mam_api_channel_create api channel_depth in
  match created with
  | None => mret (true, api, chid)
  | Some chid =>
      txn_res ← on_net (fun n => iota_client_find_transaction_objects service n (channel_query chid));
      match txn_res with
      | None => mret (true, api, chid)
      | Some txns => mret (bool_decide (txns = []), api, chid)
      end
  end.

(** ** Choosing a key *)

(** The loop that looks for the assigned channel; [n] is [101 - cnt]. *)
Fixpoint find_starting_chid (n : nat) (depth : Z) (target : trytes) (api : mam_api_t) (chid : trytes)
  : status_t * mam_api_t * trytes :=
  if bool_decide (take N_HASH target = take N_HASH chid) then (SC_OK, api, chid) else
  let '(created, api) := mam_api_channel_create api depth in
  match created with
  | None => (SC_MAM_FAILED_CREATE_OR_GET_ID, api, chid)
  | Some chid =>
      match n with
      | O => (SC_MAM_EXCEEDED_CHID_ITER, api, chid)
      | S n => find_starting_chid n depth target api chid
      end
  end.

(** What the inner loop leaves behind: [ch_remain_key_num], [used_key_num],
    the bundle with the header, and the message ID. *)
Record key_choice := mkChoice {
  kc_remain : nat; kc_used : Z; kc_bundle : bundle_t; kc_msg_id : trits }.

(** The [do] loop over the keys of a channel; [remain] is [ch_remain_key_num]
    after it has been decremented in this round. *)
Fixpoint choose_key (remain : nat) (used : Z) (api : mam_api_t) (chid : trytes) (keys : mam_encrypt_key_t)
    (tag_array : list trits) : option (status_t * mam_api_t * option key_choice) :=
  let used := used - 1 in
  match ta_mam_write_header api chid keys [] with
  | (_, None, api) => Some (SC_MAM_FAILED_WRITE_HEADER, api, None)
  | (_, Some (bundle, msg_id), api) =>
      tx ← head bundle;
      if negb (msg_id_exist tag_array (transaction_tag tx))
      then Some (SC_OK, api, Some (mkChoice remain used bundle msg_id))
      else
        api ← channel_mss_next api chid;
        match remain with
        | O => Some (SC_OK, api, Some (mkChoice 0 used bundle msg_id))
        | S r => choose_key r used api chid keys tag_array
        end
  end.

(** [1 << depth] of an [int]. *)
Definition leaf_num (depth : Z) : option nat :=
  if (0 <=? depth) && (depth <? 31) then Some (Z.to_nat (Z.shiftl 1 depth)) else None.

(** The outer loop; [None] inside the result is running out of fuel. *)
Fixpoint find_slot (fuel : nat) (service : iota_client_service_t) (api : mam_api_t) (depth : Z)
    (keys : mam_encrypt_key_t) (first_iter : bool) (chid : trytes)
  : proc (option (status_t * mam_api_t * trytes * option (key_choice * mam_send_operation_t))) :=
  match fuel with
  | O => mret None
  | S f =>
      '(ret, api, chid, tag_array) ←
        create_channel_fetch_all_transactions service api depth first_iter chid [];
      if negb (ret =? SC_OK) then mret (Some (ret, api, chid, None)) else
      leaves ← check (leaf_num depth);
      '(ret, api, choice) ← check (choose_key (leaves - 1) (Z.of_nat (length tag_array)) api chid keys tag_array);
      match choice with
      | None => mret (Some (ret, api, chid, None))
      | Some c =>
          if (kc_remain c =? 1)%nat then mret (Some (SC_OK, api, chid, Some (c, ANNOUNCE_CHID)))
          else if (kc_remain c =? 0)%nat && (kc_used c =? 0)
          then find_slot f service api depth keys false chid
          else mret (Some (SC_OK, api, chid, Some (c, SEND_MESSAGE)))
      end
  end.

(** What [ta_mam_written_msg_to_bundle] returns besides its status: the API
    object, the channel ID and, on success, bundle, message ID and operation. *)
Definition written := (status_t * mam_api_t * trytes * option (bundle_t * trytes * mam_send_operation_t))%type.

Definition ta_mam_written_msg_to_bundle (fuel : nat) (service : iota_client_service_t) (api : mam_api_t)
    (channel_info : channel_info_t) (keys : mam_encrypt_key_t) (payload : cstr) (chid : trytes)
  : proc (option written) :=
  let depth := ci_ch_mss_depth channel_info in
  if depth <? 1 then mret (Some (SC_NULL, api, chid, None)) else
  '(ret, api, chid) ←
    (match ci_chid channel_info with
     | None => mret (SC_OK, api, chid)
     | Some target =>
         '(changed, api, chid) ← is_setting_changed service api depth chid;
         mret (if changed : bool then (SC_OK, api, chid)
               else find_starting_chid 101 depth target api chid)
     end);
  if negb (ret =? SC_OK) then mret (Some (ret, api, chid, None)) else
  slot ← find_slot fuel service api depth keys (bool_decide (is_Some (ci_chid channel_info))) chid;
  match slot with
  | None => mret None
  | Some (ret, api, chid, None) => mret (Some (ret, api, chid, None))
  | Some (_, api, chid, Some (c, op)) =>
      let '(ret, bundle, api) := ta_mam_write_packet api payload (kc_msg_id c) (kc_bundle c) in
      if negb (ret =? SC_OK) then mret (Some (SC_MAM_FAILED_WRITE, api, chid, None)) else
      mret (Some (SC_OK, api, chid, Some (bundle, trits_to_trytes (kc_msg_id c), op)))
  end.

(** The bundle and [chid1] are results. *)
Definition ta_mam_write_announce_to_bundle (api : mam_api_t) (channel_depth : Z) (chid : trytes)
    (keys : mam_encrypt_key_t) (chid1 : trytes) : status_t * mam_api_t * trytes * bundle_t :=
  match mam_api_channel_create api channel_depth with
  | (None, api) => (SC_MAM_FAILED_CREATE_OR_GET_ID, api, chid1, [])
  | (Some chid1, api) =>
      match mam_api_bundle_announce_channel api chid chid1 (psks keys) (ntru_pks keys) [] with
      | (None, api) => (SC_MAM_FAILED_WRITE_HEADER, api, chid1, [])
      | (Some bundle, api) => (SC_OK, api, chid1, bundle)
      end
  end.

Definition ta_mam_api_bundle_read (api : mam_api_t) (bundle : bundle_t)
  : status_t * option cstr * mam_api_t :=
  match mam_api_bundle_read api bundle with
  | (None, api) => (SC_MAM_READ_MESSAGE_ERROR, None, api)
  | (Some (Some ((_ :: _) as payload)), api) => (SC_OK, Some (trytes_to_ascii payload), api)
  | (Some _, api) => (SC_MAM_NO_PAYLOAD, None, api)
  end.

(** ** Sending *)

(** The end of [ta_send_mam_message]: save the file unless a seed was given. *)
Definition close_sender (iconf : iota_config_t) (has_seed : bool) (ret : status_t) (api : mam_api_t)
  : proc status_t :=
  saved ← (if has_seed then mret true else on_os (mam_api_save api (mam_file_path iconf)));
  let ret := if saved : bool then ret else SC_MAM_FILE_SAVE in
  mret (if mam_api_destroy api then ret else SC_MAM_FAILED_DESTROYED).

(** The announcement of the next channel. *)
Definition announce (info : ta_config_t) (iconf : iota_config_t) (service : iota_client_service_t)
    (api : mam_api_t) (depth : Z) (chid : trytes) (keys : mam_encrypt_key_t) (res : ta_send_mam_res_t)
  : proc (status_t * mam_api_t * ta_send_mam_res_t) :=
  let '(ret, api, chid1, bundle) :=
    ta_mam_write_announce_to_bundle api depth chid keys (replicate N_HASH 0) in
  if negb (ret =? SC_OK) then mret (ret, api, res) else
  ret ← ta_send_bundle info iconf service bundle;
  if negb (ret =? SC_OK) then mret (ret, api, res) else
  '(ret, res) ← check (send_mam_res_set_announce res chid1 (bundle_finalize bundle));
  mret (ret, api, res).

(** The body of the loop [while (!msg_sent)], which leaves it in every case.
    [ta_send_bundle] finalizes the bundle in place. *)
Definition send_message (fuel : nat) (info : ta_config_t) (iconf : iota_config_t)
    (service : iota_client_service_t) (api : mam_api_t) (keys : mam_encrypt_key_t)
    (data : send_mam_data_mam_v1_t) (res : ta_send_mam_res_t)
  : proc (option (status_t * mam_api_t * ta_send_mam_res_t)) :=
  t ← on_os clock_monotonic;
  message ← check (sd_message data);
  let message := fmt_020ld t ++ message in
  w ← ta_mam_written_msg_to_bundle fuel service api (mkChannelInfo (sd_ch_mss_depth data) (sd_chid data))
        keys message (replicate N_HASH 0);
  match w with
  | None => mret None
  | Some (ret, api, chid, None) => mret (Some (ret, api, res))
  | Some (_, api, chid, Some (bundle, msg_id, op)) =>
      ret ← ta_send_bundle info iconf service bundle;
      if negb (ret =? SC_OK) then mret (Some (ret, api, res)) else
      '(ret, res) ← check (send_mam_res_set_msg_result res chid msg_id (bundle_finalize bundle));
      if negb (ret =? SC_OK) then mret (Some (ret, api, res)) else
      if bool_decide (op = ANNOUNCE_CHID) then
        r ← announce info iconf service api (sd_ch_mss_depth data) chid keys res; mret (Some r)
      else mret (Some (ret, api, res))
  end.

(** The API object is not closed when the status is [SC_MAM_FAILED_INIT], even
    if a key, not the object, made it so. *)
Definition ta_send_mam_message (fuel : nat) (info : ta_config_t) (iconf : iota_config_t)
    (service : iota_client_service_t) (req : ta_send_mam_req_t) (res : ta_send_mam_res_t)
  : proc (option (status_t * ta_send_mam_res_t)) :=
  data ← check (sm_data req);
  key ← check (sm_key req);
  '(ret, api) ← ta_mam_init iconf (sd_seed data);
  match api with
  | None => mret (Some (ret, res))
  | Some api =>
      '(ret, keys) ← check (ta_set_mam_key no_keys (psk_array key) (ntru_array key) []);
      sent ← (if negb (ret =? SC_OK) then mret (Some (ret, api, res))
              else send_message fuel info iconf service api keys data res);
      match sent with
      | None => mret None
      | Some (ret, api, res) =>
          if ret =? SC_MAM_FAILED_INIT then mret (Some (ret, res)) else
          ret ← close_sender iconf (bool_decide (is_Some (sd_seed data))) ret api;
          mret (Some (ret, res))
      end
  end.

(** ** Receiving *)

(** [qsort] is a parameter of [Core]; [uninit] and [protocol0] are as in
    [SerMam]. *)
Context (qsort : (iota_transaction_t -> iota_transaction_t -> Z) ->
                 list iota_transaction_t -> list iota_transaction_t)
  (uninit : nat -> list Z) (protocol0 : Z).

(** The bundles to read. *)
Definition fetch_bundles (service : iota_client_service_t) (data_id : recv_mam_data_id_mam_v1_t)
  : proc (status_t * list bundle_t) :=
  match di_bundle_hash data_id, di_chid data_id with
  | Some h, _ =>
      '(ret, bundle) ← ta_get_bundle qsort service h [];
      mret (if ret =? SC_OK then (SC_OK, [bundle]) else (ret, []))
  | None, Some chid => ta_get_bundles_by_addr qsort service chid []
  | None, None => mret (SC_OK, [])
  end.

(** The loop that hands the keys to the API object; [false] when one of them
    is refused. *)
Fixpoint add_psks (l : list mam_psk_t) (api : mam_api_t) : bool * mam_api_t :=
  match l with
  | [] => (true, api)
  | p :: r => let '(ok, api) := mam_api_add_psk api p in if ok : bool then add_psks r api else (false, api)
  end.

(** The loop over the bundles: it stops at the first that cannot be read.  The
    array keeps a copy of each payload. *)
Fixpoint read_bundles (bundles : list bundle_t) (api : mam_api_t) (payloads : list (option cstr))
  : bool * mam_api_t * list (option cstr) :=
  match bundles with
  | [] => (true, api, payloads)
  | b :: r =>
      let '(read_ret, payload, api) := ta_mam_api_bundle_read api b in
      if negb (read_ret =? SC_OK) && negb (read_ret =? SC_MAM_NO_PAYLOAD) then (false, api, payloads)
      else read_bundles r api (payloads ++ [str_of_buf <$> payload])
  end.

(** Every channel that has become trusted since [init_trusted_ch] is written to
    [chid1], the last one stays. *)
Fixpoint find_new_channel (pks : list trits) (init_trusted_ch : list trits) (chid1 : list Z)
  : option (list Z) :=
  match pks with
  | [] => Some chid1
  | pk :: r =>
      if bool_decide (pk ∈ init_trusted_ch) then find_new_channel r init_trusted_ch chid1
      else chid1 ← overwrite chid1 0 (take N_HASH (trits_to_trytes pk)); find_new_channel r init_trusted_ch chid1
  end.

(** Between creation and end of the API object; the status of a refused key and
    of an unreadable bundle is not passed on. *)
Definition recv_messages (service : iota_client_service_t) (api : mam_api_t)
    (data_id : recv_mam_data_id_mam_v1_t) (key : mam_key_mam_v1_t) (res : ta_recv_mam_res_t)
  : proc (status_t * mam_api_t * ta_recv_mam_res_t) :=
  let '(ok, api) := match di_chid data_id with
                    | Some chid => mam_api_add_trusted_channel_pk api chid
                    | None => (true, api)
                    end in
  if negb ok then mret (SC_MAM_INVAID_CHID_OR_EPID, api, res) else
  '(ret, bundles) ← fetch_bundles service data_id;
  if negb (ret =? SC_OK) then mret (ret, api, res) else
  '(ret, keys) ← check (ta_set_mam_key no_keys (psk_array key) [] (ntru_array key));
  if negb (ret =? SC_OK) then mret (ret, api, res) else
  let '(ok, api) := add_psks (psks keys) api in
  if negb ok then mret (SC_OK, api, res) else
  let init_trusted_ch := trusted_channel_pks api in
  let '(ok, api, payloads) := read_bundles bundles api (rr_payload_array res) in
  let res := mkRecvMamRes payloads (rr_chid1 res) in
  if negb ok then mret (SC_OK, api, res) else
  chid1 ← check (find_new_channel (trusted_channel_pks api) init_trusted_ch (rr_chid1 res));
  mret (SC_OK, api, mkRecvMamRes payloads chid1).

(** A failure to save is only logged. *)
Definition ta_recv_mam_message (iconf : iota_config_t) (service : iota_client_service_t)
    (req : ta_recv_mam_req_t) (res : ta_recv_mam_res_t) : proc (status_t * ta_recv_mam_res_t) :=
  match mam_api_init (seed iconf) with
  | None => mret (SC_MAM_FAILED_INIT, res)
  | Some api =>
      data_id ← check (rm_data_id req);
      key ← check (rm_key req);
      '(ret, api, res) ← recv_messages service api data_id key res;
      if ret =? SC_MAM_FAILED_INIT then mret (ret, res) else
      _ ← on_os (mam_api_save api (mam_file_path iconf));
      mret (if mam_api_destroy api then ret else SC_MAM_FAILED_DESTROYED, res)
  end.

(** ** Registration *)

(** The second component is the array [uuid] as a string. *)
Definition ta_register_mam_channel (c : ta_cache_t) (req : ta_register_mam_channel_req_t)
  : proc (status_t * cstr) :=
  uuid ← on_os uuid_random;
  if bool_decide (uuid = []) then mret (SC_OK, uuid) else
  ret ← on_cache (Backend.cache_set (Some uuid) UUID_LEN (Some (rg_seed req)) NUM_TRYTES_ADDRESS (i32 (cache_timeout c)));
  mret (ret, uuid).

(** ** API functions *)

Definition api_recv_mam_message (iconf : iota_config_t) (service : iota_client_service_t) (obj : cstr)
  : proc (status_t * option cstr) :=
  '(ret, req) ← check (recv_mam_message_req_deserialize uninit (Some obj) (recv_mam_req_new protocol0));
  if negb (ret =? SC_OK) then mret (ret, None) else
  '(ret, res) ← ta_recv_mam_message iconf service req recv_mam_res_new;
  if negb (ret =? SC_OK) then mret (ret, None) else
  check (recv_mam_message_res_serialize res).

(** The request is only checked; its text is what the cache keeps. *)
Definition api_send_mam_message (c : ta_cache_t) (obj : cstr) : proc (status_t * option cstr) :=
  '(ret, _) ← check (send_mam_message_req_deserialize uninit (Some obj) (send_mam_req_new protocol0 uninit));
  if negb (ret =? SC_OK) then mret (ret, None) else
  uuid ← on_os uuid_random;
  if bool_decide (uuid = []) then mret (ret, None) else
  ret ← on_cache (Backend.cache_set (Some uuid) UUID_LEN (Some obj) (strlen obj) (i32 (cache_timeout c)));
  if negb (ret =? SC_OK) then mret (ret, None) else
  ret ← on_cache (Backend.cache_list_push (Some (mam_buffer_list_name c)) (strlen (mam_buffer_list_name c))
                    (Some uuid) UUID_LEN);
  if negb (ret =? SC_OK) then mret (ret, None) else
  check (send_mam_message_res_serialize None (Some uuid)).

Definition api_register_mam_channel (c : ta_cache_t) (obj : cstr) : proc (status_t * option cstr) :=
  '(ret, req) ← check (register_mam_channel_req_deserialize (Some obj) (mkRegisterReq (uninit (S N_HASH))));
  if negb (ret =? SC_OK) then mret (ret, None) else
  '(ret, uuid) ← ta_register_mam_channel c req;
  if negb (ret =? SC_OK) then mret (ret, None) else
  mret (register_mam_channel_res_serialize (Some uuid)).

End Mam.

(** ** Properties of the choice of keys *)
Section Slots.
Context {net os db : Type} {lib : IotaLib} {txt : JsonText} {node : IotaNode net} {mnode : MamNode net}
  {sys : Os os} {server : RedisServer db} {mlib : MamLib} {mos : MamOs os}.
Implicit Types w : world net os db.
Implicit Types api : mam_api_t.

(** What the code relies on in the library: channels are created in a fixed
    order; each has a current key, which [mam_mss_next] advances; a header
    carries the message ID of the channel's current key, in its tag too. *)
Record ChannelLaws (depth : Z) (keys : mam_encrypt_key_t) (chan : nat -> trytes)
    (ord : mam_api_t -> nat) (key_index : mam_channel_t -> nat)
    (id_at tag_at : trytes -> nat -> trits) : Prop := {
  cl_set : forall api l, channels (set_channels api l) = l /\ ord (set_channels api l) = ord api;
  cl_next : forall ch, mam_channel_id (mam_mss_next ch) = mam_channel_id ch /\
                       key_index (mam_mss_next ch) = S (key_index ch);
  cl_header : forall api chid i ch, mam_api_channel_get api chid = Some i -> channels api !! i = Some ch ->
    exists tx b api',
      mam_api_bundle_write_header_on_channel api chid (psks keys) (ntru_pks keys) [] =
        (Some (tx :: b, id_at chid (key_index ch)), api') /\
      transaction_tag tx = tag_at chid (key_index ch) /\ channels api' = channels api /\ ord api' = ord api;
  cl_create : forall api, exists api' i ch,
    mam_api_channel_create api depth = (Some (chan (ord api)), api') /\ ord api' = S (ord api) /\
    mam_api_channel_get api' (chan (ord api)) = Some i /\ channels api' !! i = Some ch /\ key_index ch = 0%nat
}.

Context (depth : Z) (keys : mam_encrypt_key_t) (chan : nat -> trytes)
  (ord : mam_api_t -> nat) (key_index : mam_channel_t -> nat) (id_at tag_at : trytes -> nat -> trits)
  (laws : ChannelLaws depth keys chan ord key_index id_at tag_at).

(** The channel is there and its current key is the [k]-th. *)
Definition at_key api chid k : Prop := exists i ch,
  mam_api_channel_get api chid = Some i /\ channels api !! i = Some ch /\ key_index ch = k.

Lemma next_at api chid k : at_key api chid k -> exists api',
  channel_mss_next api chid = Some api' /\ at_key api' chid (S k) /\ ord api' = ord api.
Proof.
  intros (i & ch & Hi & Hch & Hk). unfold channel_mss_next. rewrite Hi. bind_simpl. eexists. split; [done|].
  destruct (cl_set _ _ _ _ _ _ _ laws api (alter mam_mss_next i (channels api))) as [Hset Hord].
  split; [|done]. exists i, (mam_mss_next ch). unfold mam_api_channel_get. rewrite Hset.
  rewrite list_find_alter by (intros x; by rewrite (proj1 (cl_next _ _ _ _ _ _ _ laws x))).
  split; [exact Hi|]. split; [by rewrite list_lookup_alter_eq, Hch|].
  rewrite (proj2 (cl_next _ _ _ _ _ _ _ laws ch)). by rewrite Hk.
Qed.

Definition used_key (tags : list trits) chid k : bool := msg_id_exist tags (tag_at chid k).

(** A bundle that begins with the header of the [k]-th key. *)
Definition header_of chid k (c : key_choice) : Prop :=
  kc_msg_id c = id_at chid k /\ exists tx b, kc_bundle c = tx :: b /\ transaction_tag tx = tag_at chid k.

(** The inner loop takes the first unused key, or the last one if all are
    used; it counts the keys behind it and the tags not accounted for. *)
Lemma choose_key_spec tags chid remain : forall used api k, at_key api chid k ->
  exists api' c j, choose_key remain used api chid keys tags = Some (SC_OK, api', Some c) /\
    ord api' = ord api /\ (j <= remain)%nat /\ kc_remain c = (remain - j)%nat /\
    kc_used c = used - 1 - Z.of_nat j /\ header_of chid (k + j) c /\
    (forall i, (i < j)%nat -> used_key tags chid (k + i) = true) /\
    (used_key tags chid (k + j) = false \/ j = remain).
Proof.
  induction remain as [|remain IH]; intros used api k Hat;
    destruct Hat as (i & ch & Hi & Hch & Hk); cbn [choose_key]; unfold ta_mam_write_header;
    destruct (cl_header _ _ _ _ _ _ _ laws api chid i ch Hi Hch) as (tx & b & api1 & -> & Htag & Hchs & Hord);
    rewrite Hk in *; cbn [head]; bind_simpl; rewrite Htag;
    (assert (at_key api1 chid k) as Hat1 by
      (exists i, ch; unfold mam_api_channel_get in *; by rewrite Hchs));
    fold (used_key tags chid k); destruct (used_key tags chid k) eqn:Hu; cbn [negb];
    try (destruct (next_at api1 chid k Hat1) as (api2 & -> & Hat2 & Hord2)); bind_simpl.
  - eexists _, _, 0%nat. split; [done|]. split; [congruence|]. split; [done|]. split; [done|].
    split; [simpl; lia|]. rewrite Nat.add_0_r. split; [split; [done|]; by exists tx, b|]. split; [lia|by right].
  - eexists _, _, 0%nat. split; [done|]. split; [congruence|]. split; [done|]. split; [done|].
    split; [simpl; lia|]. rewrite Nat.add_0_r. split; [split; [done|]; by exists tx, b|]. split; [lia|by left].
  - destruct (IH (used - 1) api2 (S k) Hat2) as (api' & c & j & Hrun & Ho & Hj & Hr & Hus & Hh & Hall & Hend).
    exists api', c, (S j). split; [exact Hrun|]. split; [congruence|]. split; [lia|]. split; [by rewrite Hr|].
    split; [lia|]. rewrite Nat.add_succ_r. split; [done|]. split; [|destruct Hend; [by left|right; lia]].
    intros [|m] Hm; [by rewrite Nat.add_0_r|]. rewrite Nat.add_succ_r. apply (Hall m). lia.
  - eexists _, _, 0%nat. split; [done|]. split; [congruence|]. split; [lia|]. split; [simpl; lia|].
    split; [simpl; lia|]. rewrite Nat.add_0_r. split; [split; [done|]; by exists tx, b|]. split; [lia|by left].
Qed.

(** C29 The search for the assigned channel ends: it creates at most [limit + 1]
    channels ([101 + 1] in the code) and finds the channel exactly if it is
    among the first [limit + 1] from the current one on. *)
Theorem starting_chid_search limit target : forall api o, ord api = S o ->
  (exists i api', (i <= limit)%nat /\ (forall j, (j < i)%nat -> take N_HASH target <> take N_HASH (chan (o + j))) /\
     take N_HASH target = take N_HASH (chan (o + i)) /\ ord api' = S (o + i) /\
     find_starting_chid limit depth target api (chan o) = (SC_OK, api', chan (o + i))) \/
  ((forall i, (i <= limit)%nat -> take N_HASH target <> take N_HASH (chan (o + i))) /\
   exists api', ord api' = (S (S limit) + o)%nat /\
     find_starting_chid limit depth target api (chan o) =
       (SC_MAM_EXCEEDED_CHID_ITER, api', chan (S limit + o))).
Proof.
  induction limit as [|limit IH]; intros api o Hord;
    destruct (cl_create _ _ _ _ _ _ _ laws api) as (api1 & i1 & ch1 & Hcr & Hord1 & _);
    cbn [find_starting_chid]; case_bool_decide as Ht;
    try (left; exists 0%nat, api; rewrite Nat.add_0_r; split; [lia|]; split; [lia|]; done);
    rewrite Hcr, Hord; cbn [negb].
  - right. split; [|exists api1; split; [lia|done]].
    intros i Hi. replace (o + i)%nat with o by lia. done.
  - rewrite Hord in Hord1. destruct (IH api1 (S o) Hord1) as [(i & api' & Hi & Hlt & Hf & Ho & ->)|[Hall (api' & Ho & ->)]].
    + left. exists (S i), api'. rewrite Nat.add_succ_r, <- Nat.add_succ_l. split; [lia|]. split; [|done].
      intros [|j] Hj; [by rewrite Nat.add_0_r|]. rewrite Nat.add_succ_r, <- Nat.add_succ_l. apply Hlt. lia.
    + right. split; [|exists api'; split; [lia|do 2 f_equal; lia]].
      intros [|i] Hi; [by rewrite Nat.add_0_r|]. rewrite Nat.add_succ_r, <- Nat.add_succ_l. apply Hall. lia.
Qed.

(** The ledger during the search: the transactions at each channel's address. *)
Context (service : iota_client_service_t) (txns_of : trytes -> list iota_transaction_t)
  (ledger : forall chid w, exists w',
     ta_get_txn_objects_with_txn_hash service (channel_query chid) [] w = Some ((SC_OK, txns_of chid), w')).

Definition tags_of chid : list trits := collect_tags (txns_of chid) [].

Context (n : nat) (Hn : leaf_num depth = Some n) (Hdepth : 1 <= depth).

Lemma leaves_ge_2 : (2 <= n)%nat.
Proof.
  unfold leaf_num in Hn. destruct ((0 <=? depth) && (depth <? 31)); [|done]. injection Hn as <-.
  rewrite Z.shiftl_1_l. assert (2 ^ 1 <= 2 ^ depth) by (apply Z.pow_le_mono_r; lia). lia.
Qed.

(** Every key has been used. *)
Definition all_used chid : Prop := forall k, (k < n)%nat -> used_key (tags_of chid) chid k = true.

(** The [k]-th key is the first unused one. *)
Definition first_unused chid k : Prop :=
  (k < n)%nat /\ used_key (tags_of chid) chid k = false /\
  (forall i, (i < k)%nat -> used_key (tags_of chid) chid i = true).

(** The key the code takes: the first unused one, or the last one once more. *)
Definition key_for chid k : Prop := first_unused chid k \/ (all_used chid /\ k = (n - 1)%nat).

(** What the code takes for a channel without free keys: all keys but perhaps
    the last one have been used, and there are as many message IDs as keys. *)
Definition passed_over chid : Prop :=
  (forall k, (k < n - 1)%nat -> used_key (tags_of chid) chid k = true) /\ length (tags_of chid) = n.

Lemma key_for_spec chid j : (j < n)%nat -> (forall i, (i < j)%nat -> used_key (tags_of chid) chid i = true) ->
  used_key (tags_of chid) chid j = false \/ j = (n - 1)%nat -> key_for chid j.
Proof.
  intros Hj Hall Hend. destruct (used_key (tags_of chid) chid j) eqn:E; [|by left].
  destruct Hend as [?| ->]; [done|]. right. split; [|done]. intros k Hk.
  destruct (decide (k = n - 1)%nat) as [->|]; [done|]. apply Hall. lia.
Qed.

(** A channel with all its messages on the ledger and nothing else is passed
    over; so is one whose last key is free, if somebody else has put a message
    there. *)
Lemma exhausted_passed chid : all_used chid -> length (tags_of chid) = n -> passed_over chid.
Proof. intros Hall Hl. split; [|done]. intros k Hk. apply Hall. lia. Qed.

Lemma last_key_passed chid : first_unused chid (n - 1) -> length (tags_of chid) = n -> passed_over chid.
Proof. intros (_ & _ & Hlt) Hl. by split. Qed.

(** The loop is about to look at the [s]-th channel, which is still to be
    created unless this is the first round and a channel was assigned. *)
Definition poised (first : bool) api (chid : trytes) (s : nat) : Prop :=
  if first then ord api = S s /\ chid = chan s /\ at_key api (chan s) 0 else ord api = s.

Lemma round_start first api chid s w : poised first api chid s -> exists api1 w1,
  create_channel_fetch_all_transactions service api depth first chid [] w =
    Some ((SC_OK, api1, chan s, tags_of (chan s)), w1) /\ ord api1 = S s /\ at_key api1 (chan s) 0.
Proof.
  unfold create_channel_fetch_all_transactions. destruct first; cbn [poised].
  - intros (Ho & -> & Hat). destruct (ledger (chan s) w) as [w1 Hled]. exists api, w1. by comp_step Hled.
  - intros <-. destruct (cl_create _ _ _ _ _ _ _ laws api) as (api1 & i & ch & Hcr & Hord & Hi & Hch & Hk).
    destruct (ledger (chan (ord api)) w) as [w1 Hled]. exists api1, w1. rewrite Hcr. comp_step Hled.
    split; [done|]. split; [done|]. by exists i, ch.
Qed.

(** One round of the outer loop. *)
Lemma find_slot_round f first api w chid0 s : poised first api chid0 s -> exists api' c j w',
  let chid := chan s in
  ord api' = S s /\ kc_remain c = (n - 1 - j)%nat /\
  kc_used c = Z.of_nat (length (tags_of chid)) - 1 - Z.of_nat j /\ header_of chid j c /\ key_for chid j /\
  (j < n)%nat /\
  find_slot (S f) service api depth keys first chid0 w =
    if (kc_remain c =? 1)%nat then Some (Some (SC_OK, api', chid, Some (c, ANNOUNCE_CHID)), w')
    else if (kc_remain c =? 0)%nat && (kc_used c =? 0) then find_slot f service api' depth keys false chid w'
    else Some (Some (SC_OK, api', chid, Some (c, SEND_MESSAGE)), w').
Proof.
  intros Hp. destruct (round_start first api chid0 s w Hp) as (api1 & w1 & Hfetch & Hord & Hat).
  destruct (choose_key_spec (tags_of (chan s)) (chan s) (n - 1)
    (Z.of_nat (length (tags_of (chan s)))) api1 0 Hat) as (api2 & c & j & Hrun & Ho & Hj & Hr & Hu & Hh & Hall & Hend).
  exists api2, c, j, w1. cbv zeta. split; [congruence|]. pose proof leaves_ge_2.
  do 3 (split; [done|]). split; [apply key_for_spec; [lia|exact Hall|exact Hend]|]. split; [lia|].
  cbn [find_slot]. comp_step Hfetch. change (negb (SC_OK =? SC_OK)) with false. cbv iota.
  unfold mbind at 1, comp_mbind at 1, check at 1. rewrite Hn.
  unfold mbind at 1, comp_mbind at 1, check at 1. rewrite Hrun. cbv beta iota.
  destruct (kc_remain c =? 1)%nat; [done|]. by destruct ((kc_remain c =? 0)%nat && (kc_used c =? 0)).
Qed.

(** The outcome of the search, from the [s]-th channel on. *)
Lemma slot_found m : forall fuel first api w chid0 s, (m < fuel)%nat -> poised first api chid0 s ->
  (forall i, (i < m)%nat -> passed_over (chan (s + i))) -> ~ passed_over (chan (s + m)) ->
  exists k api' c w', key_for (chan (s + m)) k /\
    find_slot fuel service api depth keys first chid0 w =
      Some (Some (SC_OK, api', chan (s + m),
        Some (c, if decide (k = n - 2)%nat then ANNOUNCE_CHID else SEND_MESSAGE)), w') /\
    header_of (chan (s + m)) k c /\ ord api' = S (s + m).
Proof.
  pose proof leaves_ge_2 as H2.
  induction m as [|m IH]; intros [|fuel] first api w chid0 s Hf Hp Hex Hk; try lia;
    destruct (find_slot_round fuel first api w chid0 s Hp) as (api1 & c1 & j1 & w1 & Hord1 & Hr1 & Hu1 & Hh1 & Hkey & Hj1 & Hrun).
  - rewrite Nat.add_0_r in *. exists j1, api1, c1, w1. split; [done|]. split; [|by split].
    rewrite Hrun, Hr1, Hu1. destruct (Nat.eqb_spec (n - 1 - j1) 1) as [E|E]; [by rewrite decide_True by lia|].
    rewrite decide_False by lia.
    destruct (Nat.eqb_spec (n - 1 - j1) 0) as [E0|E0]; cbn [andb]; [|done].
    destruct (Z.eqb_spec (Z.of_nat (length (tags_of (chan s))) - 1 - Z.of_nat j1) 0) as [El|El]; [|done].
    destruct Hk. split; [|lia]. intros k Hk.
    destruct Hkey as [(_ & _ & Hlt)|[Hall _]]; [apply Hlt; lia|apply Hall; lia].
  - destruct (Hex 0%nat) as [Hfull Hlen]; [lia|]. rewrite Nat.add_0_r in Hfull, Hlen.
    assert (j1 = (n - 1)%nat) as ->.
    { destruct Hkey as [(_ & Hfree & _)|[_ ->]]; [|done]. destruct (decide (j1 < n - 1)%nat) as [Hlt|]; [|lia].
      by rewrite Hfull in Hfree. }
    destruct (IH fuel false api1 w1 (chan s) (S s) ltac:(lia) Hord1) as (k & api2 & c2 & w2 & Hk2 & Hrun2 & Hh2 & Ho2).
    { intros i Hi. rewrite Nat.add_succ_l, <- Nat.add_succ_r. apply Hex. lia. }
    { by rewrite Nat.add_succ_l, <- Nat.add_succ_r. }
    rewrite Nat.add_succ_l, <- Nat.add_succ_r in Hk2, Hrun2, Hh2, Ho2.
    exists k, api2, c2, w2. split; [done|]. split; [|done]. rewrite Hrun, Hr1, Hu1, Hlen.
    destruct (Nat.eqb_spec (n - 1 - (n - 1)) 1) as [E|_]; [lia|].
    destruct (Nat.eqb_spec (n - 1 - (n - 1)) 0) as [_|E]; [|lia].
    destruct (Z.eqb_spec (Z.of_nat n - 1 - Z.of_nat (n - 1)) 0) as [_|E]; [|lia]. exact Hrun2.
Qed.

(** C8 The search for a key, from the [s]-th channel on, in the order of
    creation: it ends at the first channel that is not passed over, after one round for
    each channel, and takes the first unused key there or, if all are used, the
    last key once more; the next channel is announced exactly when the key is
    the last but one.  Passed over are the channels with as many message IDs on
    the ledger as keys, all their keys used but perhaps the last one: a free last key is lost when somebody
    else has put a message at the channel's address. *)
Theorem mss_slot_found m fuel first api w chid0 s : (m < fuel)%nat -> poised first api chid0 s ->
  (forall i, (i < m)%nat -> passed_over (chan (s + i))) -> ~ passed_over (chan (s + m)) ->
  exists k api' c w',
    (first_unused (chan (s + m)) k \/ (all_used (chan (s + m)) /\ k = (n - 1)%nat)) /\
    find_slot fuel service api depth keys first chid0 w =
      Some (Some (SC_OK, api', chan (s + m),
        Some (c, if decide (k = n - 2)%nat then ANNOUNCE_CHID else SEND_MESSAGE)), w') /\
    header_of (chan (s + m)) k c.
Proof.
  intros Hf Hp Hex Hk. destruct (slot_found m fuel first api w chid0 s Hf Hp Hex Hk) as (k & api' & c & w' & H & Hrun & Hh & _).
  by exists k, api', c, w'.
Qed.

(** A one-time key can be used twice: when all keys of the channel are used
    and the address has one more message on it, which anybody can put there, the
    message is signed with the last key once more instead of going to the next
    channel. *)
Theorem mss_key_reused api w chid0 f :
  all_used (chan (ord api)) -> length (tags_of (chan (ord api))) <> n ->
  exists api' c w',
    find_slot (S f) service api depth keys false chid0 w =
      Some (Some (SC_OK, api', chan (ord api), Some (c, SEND_MESSAGE)), w') /\
    header_of (chan (ord api)) (n - 1) c /\
    used_key (tags_of (chan (ord api))) (chan (ord api)) (n - 1) = true.
Proof.
  pose proof leaves_ge_2 as H2. intros Hfull Hlen.
  destruct (slot_found 0 (S f) false api w chid0 (ord api)) as (k & api' & c & w' & Hk & Hrun & Hh & _);
    [lia|done|lia|rewrite Nat.add_0_r; by intros [_ ?]|].
  rewrite Nat.add_0_r in Hk, Hrun, Hh.
  assert (k = (n - 1)%nat) as ->.
  { destruct Hk as [(Hk & Hfree & _)|[_ ->]]; [|done]. by rewrite Hfull in Hfree. }
  rewrite decide_False in Hrun by lia. exists api', c, w'. split; [done|]. split; [done|]. apply Hfull. lia.
Qed.

(** *** Sending a message *)

Context (info : ta_config_t) (iconf : iota_config_t).

Lemma ta_send_bundle_ok bundle w : exists w', ta_send_bundle info iconf service bundle w = Some (SC_OK, w').
Proof.
  unfold ta_send_bundle. set (raw := _ <$> bundle_finalize bundle).
  destruct (proj2 (ta_send_trytes_frame (net := net) (db := db) info iconf service raw) w) as [[r w'] H].
  exists w'. by comp_step H.
Qed.

(** What sending needs of the library beyond the choice of the key: packets and
    announcements are written, identifiers have their sizes, a finalized bundle
    has a bundle hash. *)
Record SendLaws : Prop := {
  sl_packet : forall api id payload b, exists tx r api',
    mam_api_bundle_write_packet api id payload b = (Some (tx :: r), api') /\ ord api' = ord api;
  sl_announce : forall api chid chid1, exists tx r api',
    mam_api_bundle_announce_channel api chid chid1 (psks keys) (ntru_pks keys) [] = (Some (tx :: r), api');
  sl_finalize : forall tx b, exists tx' b',
    bundle_finalize (tx :: b) = tx' :: b' /\ length (transaction_bundle tx') = N_HASH;
  sl_chid : forall i, length (chan i) = N_HASH;
  sl_id : forall chid k, length (trits_to_trytes (id_at chid k)) = N_MSG_ID;
  sl_destroy : forall api, mam_api_destroy api = true
}.

Lemma copy_whole l : copy_trytes (length l) l = Some (l ++ [0]).
Proof. rewrite <- (app_nil_r l) at 2. by apply copy_trytes_is. Qed.

(** The response after the message, and after the announcement. *)
Definition sent_res (res : ta_send_mam_res_t) (chid msg_id hash : trytes) : ta_send_mam_res_t :=
  mkSendMamRes (hash ++ [0]) (chid ++ [0]) (msg_id ++ [0]) (sr_announcement_bundle_hash res) (sr_chid1 res).
Definition announced_res (res : ta_send_mam_res_t) (chid1 hash : trytes) : ta_send_mam_res_t :=
  mkSendMamRes (sr_bundle_hash res) (sr_chid res) (sr_msg_id res) (hash ++ [0]) (chid1 ++ [0]).

Lemma set_msg_result_is res chid msg_id tx b :
  length chid = N_HASH -> length msg_id = N_MSG_ID -> length (transaction_bundle tx) = N_HASH ->
  send_mam_res_set_msg_result res chid msg_id (tx :: b) =
    Some (SC_OK, sent_res res chid msg_id (transaction_bundle tx)).
Proof.
  intros H1 H2 H3. unfold send_mam_res_set_msg_result, send_mam_res_set_channel_id, send_mam_res_set_msg_id,
    send_mam_res_set_bundle_hash.
  rewrite <- H1, copy_whole. bind_simpl. change (negb (SC_OK =? SC_OK)) with false. cbv iota.
  rewrite <- H2, copy_whole. bind_simpl. change (negb (SC_OK =? SC_OK)) with false. cbv iota.
  cbn [head]. bind_simpl. rewrite H1, <- H3, copy_whole. done.
Qed.

Lemma set_announce_is res chid1 tx b :
  length chid1 = N_HASH -> length (transaction_bundle tx) = N_HASH ->
  send_mam_res_set_announce res chid1 (tx :: b) = Some (SC_OK, announced_res res chid1 (transaction_bundle tx)).
Proof.
  intros H1 H2. unfold send_mam_res_set_announce, send_mam_res_set_announce_bundle_hash, send_mam_res_set_chid1.
  cbn [head]. bind_simpl. rewrite <- H2, copy_whole. bind_simpl. change (negb (SC_OK =? SC_OK)) with false.
  cbv iota. by rewrite H2, <- H1, copy_whole.
Qed.

(** The bundle is handed to [ta_send_bundle]; the finalized one has the hash. *)
Definition bundle_sent (bundle : bundle_t) (hash : trytes) w w' : Prop :=
  ta_send_bundle info iconf service bundle w = Some (SC_OK, w') /\
  transaction_bundle <$> head (bundle_finalize bundle) = Some hash.

Lemma bundle_sent_ok tx r w : SendLaws -> exists tx' r' w',
  ta_send_bundle info iconf service (tx :: r) w = Some (SC_OK, w') /\
  bundle_finalize (tx :: r) = tx' :: r' /\ length (transaction_bundle tx') = N_HASH /\
  bundle_sent (tx :: r) (transaction_bundle tx') w w'.
Proof.
  intros L. destruct (ta_send_bundle_ok (tx :: r) w) as [w' H]. destruct (sl_finalize L tx r) as (tx' & r' & E & Hl).
  exists tx', r', w'. unfold bundle_sent. by rewrite E.
Qed.

(** The next channel is created, and its announcement on [chid] is written and
    sent. *)
Definition announced api (chid chid1 : trytes) (hash : trytes) w api' w' : Prop := exists api1 b,
  mam_api_channel_create api depth = (Some chid1, api1) /\
  mam_api_bundle_announce_channel api1 chid chid1 (psks keys) (ntru_pks keys) [] = (Some b, api') /\
  bundle_sent b hash w w'.

Lemma announce_is api chid res w : SendLaws -> exists api' hash w',
  announced api chid (chan (ord api)) hash w api' w' /\
  announce info iconf service api depth chid keys res w =
    Some ((SC_OK, api', announced_res res (chan (ord api)) hash), w').
Proof.
  intros L. unfold announce, ta_mam_write_announce_to_bundle, announced.
  destruct (cl_create _ _ _ _ _ _ _ laws api) as (api1 & i & ch & E1 & _). rewrite E1.
  destruct (sl_announce L api1 chid (chan (ord api))) as (tx & r & api2 & E2). rewrite E2.
  change (negb (SC_OK =? SC_OK)) with false. cbv iota.
  destruct (bundle_sent_ok tx r w L) as (tx' & r' & w1 & H1 & E & Hl & Hs). comp_step H1.
  change (negb (SC_OK =? SC_OK)) with false. cbv iota. rewrite E.
  unfold mbind at 1, comp_mbind at 1, check at 1. rewrite set_announce_is by (done || apply (sl_chid L)).
  exists api2, (transaction_bundle tx'), w1. split; [|done]. by exists api1, (tx :: r).
Qed.

(** Where the search for a key begins: at the next channel to create, or, when
    a channel is assigned and the ledger knows the next channel to create, at the assigned
    one. *)
Definition starts_at (target : option trytes) (o : nat) w (s : nat) : Prop :=
  match target with
  | None => s = o
  | Some target =>
      match (iota_client_find_transaction_objects service (w_net w) (channel_query (chan o))).1 with
      | Some (_ :: _) => exists i, (i <= 101)%nat /\ s = (o + i)%nat /\ take N_HASH target = take N_HASH (chan s) /\
          forall j, (j < i)%nat -> take N_HASH target <> take N_HASH (chan (o + j))
      | _ => s = o
      end
  end.

Lemma starting_chid_found limit i target : forall api o, (i <= limit)%nat -> ord api = S o ->
  at_key api (chan o) 0 -> take N_HASH target = take N_HASH (chan (o + i)) ->
  (forall j, (j < i)%nat -> take N_HASH target <> take N_HASH (chan (o + j))) ->
  exists api', find_starting_chid limit depth target api (chan o) = (SC_OK, api', chan (o + i)) /\
    poised true api' (chan (o + i)) (o + i).
Proof.
  revert limit. induction i as [|i IH]; intros limit api o Hi Ho Hat Heq Hne.
  - rewrite Nat.add_0_r in *. exists api. split; [|done].
    destruct limit; cbn [find_starting_chid]; by rewrite bool_decide_true.
  - destruct limit as [|limit]; [lia|]. cbn [find_starting_chid].
    rewrite bool_decide_false; [|specialize (Hne 0%nat ltac:(lia)); by rewrite Nat.add_0_r in Hne].
    destruct (cl_create _ _ _ _ _ _ _ laws api) as (api1 & c & ch & Hcr & Hord & Hc & Hch & Hk).
    rewrite Ho in Hcr, Hord, Hc. rewrite Hcr.
    destruct (IH limit api1 (S o)) as (api' & Hrun & Hp);
      [lia|done|by exists c, ch|by rewrite Nat.add_succ_l, <- Nat.add_succ_r| |].
    + intros j Hj. rewrite Nat.add_succ_l, <- Nat.add_succ_r. apply Hne. lia.
    + rewrite Nat.add_succ_l, <- Nat.add_succ_r in Hrun, Hp. by exists api'.
Qed.

(** The payload is put behind the header of key [k] of [chid] and both are the
    bundle to send. *)
Definition message_written (fuel : nat) api (target : option trytes) (payload : cstr) (chid : trytes) (k : nat)
    (bundle : bundle_t) api' w w' : Prop := exists c api1,
  header_of chid k c /\
  mam_api_bundle_write_packet api1 (id_at chid k) (ascii_to_trytes payload) (kc_bundle c) = (Some bundle, api') /\
  ta_mam_written_msg_to_bundle fuel service api (mkChannelInfo depth target) keys payload (replicate N_HASH 0) w =
    Some (Some (SC_OK, api', chid, Some (bundle, trits_to_trytes (id_at chid k),
      if decide (k = n - 2)%nat then ANNOUNCE_CHID else SEND_MESSAGE)), w').

(** What precedes the search. *)
Lemma find_start (target : option trytes) api chid0 w s : starts_at target (ord api) w s -> exists api1 chid1 w1,
  (match target with
   | None => mret (SC_OK, api, chid0)
   | Some target =>
       '(changed, api, chid) ← is_setting_changed service api depth chid0;
       mret (if changed : bool then (SC_OK, api, chid) else find_starting_chid 101 depth target api chid)
   end) w = Some ((SC_OK, api1, chid1), w1) /\
  poised (bool_decide (is_Some target)) api1 chid1 s.
Proof.
  destruct target as [target|]; cbn [starts_at]; [|by intros ->; exists api, chid0, w].
  destruct (cl_create _ _ _ _ _ _ _ laws api) as (api1 & i & ch & Hcr & Hord & Hi & Hch & Hk).
  assert (at_key api1 (chan (ord api)) 0) as Hat by (by exists i, ch).
  unfold is_setting_changed. rewrite Hcr. rewrite bool_decide_true by done.
  unfold mbind at 1, comp_mbind at 1. unfold mbind at 1, comp_mbind at 1, on_net at 1.
  destruct (iota_client_find_transaction_objects service (w_net w) (channel_query (chan (ord api)))) as [found net1].
  cbn [fst]. destruct found as [[|tx txns]|].
  - intros ->. exists api1, (chan (ord api)). eexists. by split.
  - intros (d & Hd & -> & Heq & Hne). destruct (starting_chid_found 101 d target api1 (ord api)) as (api2 & Hrun & Hp); [done..|].
    exists api2, (chan (ord api + d)). eexists. cbn [mret comp_mret]. by rewrite Hrun.
  - intros ->. exists api1, (chan (ord api)). eexists. by split.
Qed.

Lemma written_is m fuel api w target payload s : SendLaws -> (m < fuel)%nat -> starts_at target (ord api) w s ->
  (forall i, (i < m)%nat -> passed_over (chan (s + i))) -> ~ passed_over (chan (s + m)) ->
  exists k tx r api' w', key_for (chan (s + m)) k /\ ord api' = S (s + m) /\
    message_written fuel api target payload (chan (s + m)) k (tx :: r) api' w w'.
Proof.
  intros L Hf Hs Hex Hk. destruct (find_start target api (replicate N_HASH 0) w s Hs) as (api0 & chid0 & w0 & Hstart & Hp).
  destruct (slot_found m fuel _ api0 w0 chid0 s Hf Hp Hex Hk) as (k & api1 & c & w1 & Hkey & Hslot & Hh & Ho1).
  destruct (sl_packet L api1 (kc_msg_id c) (ascii_to_trytes payload) (kc_bundle c)) as (tx & r & api2 & Hpk & Ho2).
  exists k, tx, r, api2, w1. split; [done|]. split; [congruence|]. exists c, api1. split; [done|].
  rewrite <- (proj1 Hh). split; [done|]. unfold ta_mam_written_msg_to_bundle. cbn [ci_ch_mss_depth ci_chid].
  destruct (Z.ltb_spec depth 1) as [?|_]; [lia|]. rewrite (comp_bind_eq _ _ _ _ _ Hstart). cbv beta iota.
  change (negb (SC_OK =? SC_OK)) with false. cbv iota. comp_step Hslot. unfold ta_mam_write_packet. by rewrite Hpk.
Qed.

(** The bundle is sent, and the next channel announced when one key is left. *)
Definition sent_and_announced api (chid chid1 : trytes) (k : nat) (bundle : bundle_t) (res : ta_send_mam_res_t) w
    api' (res' : ta_send_mam_res_t) w' : Prop := exists hash w1,
  bundle_sent bundle hash w w1 /\
  let res1 := sent_res res chid (trits_to_trytes (id_at chid k)) hash in
  if decide (k = n - 2)%nat
  then exists hash1, announced api chid chid1 hash1 w1 api' w' /\ res' = announced_res res1 chid1 hash1
  else api' = api /\ res' = res1 /\ w' = w1.

Lemma send_message_is m fuel api w data res message s t o : SendLaws -> (m < fuel)%nat ->
  sd_message data = Some message -> sd_ch_mss_depth data = depth ->
  starts_at (sd_chid data) (ord api) w s -> clock_monotonic (w_os w) = (t, o) ->
  (forall i, (i < m)%nat -> passed_over (chan (s + i))) -> ~ passed_over (chan (s + m)) ->
  exists k bundle api1 w1 api' res' w', key_for (chan (s + m)) k /\
    message_written fuel api (sd_chid data) (fmt_020ld t ++ message) (chan (s + m)) k bundle api1
      (mkWorld (w_net w) o (w_cache w) (w_lock w)) w1 /\
    sent_and_announced api1 (chan (s + m)) (chan (S (s + m))) k bundle res w1 api' res' w' /\
    send_message fuel info iconf service api keys data res w = Some (Some (SC_OK, api', res'), w').
Proof.
  intros L Hf Hm Hd Hs Ht Hex Hk. set (w0 := mkWorld (w_net w) o (w_cache w) (w_lock w)).
  destruct (written_is m fuel api w0 (sd_chid data) (fmt_020ld t ++ message) s L Hf Hs Hex Hk)
    as (k & tx & r & api1 & w1 & Hkey & Ho & Hw). exists k, (tx :: r), api1, w1.
  pose proof Hw as (c & apic & _ & _ & Hrun).
  destruct (bundle_sent_ok tx r w1 L) as (tx' & r' & w2 & H2 & E & Hl & Hsent).
  unfold send_message. comp_step (on_os_run _ _ _ _ Ht).
  unfold mbind at 1, comp_mbind at 1, check at 1. rewrite Hm, Hd. fold w0. comp_step Hrun. comp_step H2.
  change (negb (SC_OK =? SC_OK)) with false. cbv iota. rewrite E.
  unfold mbind at 1, comp_mbind at 1, check at 1. rewrite set_msg_result_is by (done || apply L).
  change (negb (SC_OK =? SC_OK)) with false. cbv iota. unfold sent_and_announced.
  set (res1 := sent_res _ _ _ _). destruct (decide (k = n - 2)%nat) as [Hlast|Hlast].
  - rewrite bool_decide_true by done.
    destruct (announce_is api1 (chan (s + m)) res1 w2 L) as (api3 & hash & w3 & Hann & H3). rewrite Ho in *.
    comp_step H3. exists api3, (announced_res res1 (chan (S (s + m))) hash), w3.
    split; [done|]. split; [exact Hw|]. split; [|done]. exists (transaction_bundle tx'), w2. split; [done|]. by exists hash.
  - rewrite bool_decide_false by done. exists api1, res1, w2.
    split; [done|]. split; [exact Hw|]. split; [|done]. by exists (transaction_bundle tx'), w2.
Qed.

(** The end: without a seed the state of the channels is saved, and the status
    says if that worked. *)
Definition closed (has_seed : bool) api w (ret : status_t) w' : Prop :=
  if has_seed then ret = SC_OK /\ w' = w
  else exists saved o, mam_api_save api (mam_file_path iconf) (w_os w) = (saved, o) /\
    ret = (if saved : bool then SC_OK else SC_MAM_FILE_SAVE) /\ w' = mkWorld (w_net w) o (w_cache w) (w_lock w).

Lemma send_mam_message_run req res data key message api m fuel w w0 s t o : SendLaws -> (m < fuel)%nat ->
  sm_data req = Some data -> sm_key req = Some key ->
  sd_message data = Some message -> sd_ch_mss_depth data = depth ->
  ta_mam_init iconf (sd_seed data) w = Some ((SC_OK, Some api), w0) ->
  ta_set_mam_key no_keys (psk_array key) (ntru_array key) [] = Some (SC_OK, keys) ->
  starts_at (sd_chid data) (ord api) w0 s -> clock_monotonic (w_os w0) = (t, o) ->
  (forall i, (i < m)%nat -> passed_over (chan (s + i))) -> ~ passed_over (chan (s + m)) ->
  exists k bundle api1 w1 api2 w2 ret res' w', key_for (chan (s + m)) k /\
    message_written fuel api (sd_chid data) (fmt_020ld t ++ message) (chan (s + m)) k bundle api1
      (mkWorld (w_net w0) o (w_cache w0) (w_lock w0)) w1 /\
    sent_and_announced api1 (chan (s + m)) (chan (S (s + m))) k bundle res w1 api2 res' w2 /\
    closed (bool_decide (is_Some (sd_seed data))) api2 w2 ret w' /\
    ta_send_mam_message fuel info iconf service req res w = Some (Some (ret, res'), w').
Proof.
  intros L Hf Hdata Hkey Hm Hd Hinit Hkeys Hs Ht Hex Hk.
  destruct (send_message_is m fuel api w0 data res message s t o L Hf Hm Hd Hs Ht Hex Hk)
    as (k & bundle & api1 & w1 & api2 & res' & w2 & Hkey2 & Hw & Hsent & Hrun).
  exists k, bundle, api1, w1, api2, w2. unfold ta_send_mam_message.
  rewrite Hdata, Hkey. unfold mbind at 1, comp_mbind at 1, check at 1.
  unfold mbind at 1, comp_mbind at 1, check at 1. comp_step Hinit.
  unfold mbind at 1, comp_mbind at 1, check at 1. rewrite Hkeys.
  change (negb (SC_OK =? SC_OK)) with false. cbv iota. comp_step Hrun.
  change (SC_OK =? SC_MAM_FAILED_INIT) with false. cbv iota. unfold close_sender, closed.
  destruct (bool_decide (is_Some (sd_seed data))).
  - exists SC_OK, res', w2. do 3 (split; [done|]). split; [done|].
    unfold mbind, comp_mbind. cbn [mret comp_mret]. by rewrite (sl_destroy L).
  - unfold mbind, comp_mbind, on_os. destruct (mam_api_save api2 (mam_file_path iconf) (w_os w2)) as [saved o'].
    eexists (if saved : bool then SC_OK else SC_MAM_FILE_SAVE), res', _. do 3 (split; [done|]).
    split; [by exists saved, o'|]. cbn [mret comp_mret]. by rewrite (sl_destroy L).
Qed.

(** C7 Sending a message, when the library, the request and the ledger let it
    be written: with the seed of the request or the saved channels, from the
    assigned channel on or from the next one.  The time stamp and the text are
    written as a packet behind the header of the key the search ends at, and
    that bundle is handed to [ta_send_bundle]; the response names its hash, the
    channel and the message ID.  When one key is left after it, the next
    channel is created, its announcement is sent too and named in the response,
    and otherwise nothing more is sent.  Without a seed the channels are saved, and
    the status is [SC_OK] unless that fails.  (Whether the broadcast itself
    failed is lost in [ta_send_bundle].) *)
Theorem ta_send_mam_message_spec req res data key message api m fuel w w0 s t o : SendLaws -> (m < fuel)%nat ->
  sm_data req = Some data -> sm_key req = Some key ->
  sd_message data = Some message -> sd_ch_mss_depth data = depth ->
  ta_mam_init iconf (sd_seed data) w = Some ((SC_OK, Some api), w0) ->
  ta_set_mam_key no_keys (psk_array key) (ntru_array key) [] = Some (SC_OK, keys) ->
  starts_at (sd_chid data) (ord api) w0 s -> clock_monotonic (w_os w0) = (t, o) ->
  (forall i, (i < m)%nat -> passed_over (chan (s + i))) -> ~ passed_over (chan (s + m)) ->
  let chid := chan (s + m) in
  exists k bundle api1 w1 api2 w2 ret res' w', key_for chid k /\
    message_written fuel api (sd_chid data) (fmt_020ld t ++ message) chid k bundle api1
      (mkWorld (w_net w0) o (w_cache w0) (w_lock w0)) w1 /\
    sent_and_announced api1 chid (chan (S (s + m))) k bundle res w1 api2 res' w2 /\
    closed (bool_decide (is_Some (sd_seed data))) api2 w2 ret w' /\
    ta_send_mam_message fuel info iconf service req res w = Some (Some (ret, res'), w').
Proof.
  intros L Hf Hdata Hkey Hm Hd Hinit Hkeys Hs Ht Hex Hk. cbv zeta.
  exact (send_mam_message_run req res data key message api m fuel w w0 s t o L Hf Hdata Hkey Hm Hd Hinit Hkeys Hs Ht Hex Hk).
Qed.

End Slots.

(** ** Properties of keys *)
Section Keys.
Context {mlib : MamLib}.

Definition nines : trytes := replicate (Z.to_nat NUM_TRYTES_MAM_PSK_ID_SIZE) 57.

Lemma psk_id_zero : psk_id_of 0 = Some (SC_OK, Some (nines ++ [0])).
Proof. vm_compute. reflexivity. Qed.

(** All pre-shared keys of a request get the same ID, nines only: the counter
    the ID is made of is never incremented. *)
Theorem psk_ids_collide l : forall set,
  (forall s p, mam_psk_t_set_add s p = Some (s ++ [p])) ->
  Forall (fun k => (Z.to_nat NUM_TRYTES_MAM_PSK_KEY_SIZE <= length k)%nat) l ->
  set_psks 0 l set =
    Some (SC_OK, set ++ ((fun k => mkPsk (trytes_to_trits nines)
      (trytes_to_trits (take (Z.to_nat NUM_TRYTES_MAM_PSK_KEY_SIZE) k))) <$> l)).
Proof.
  intros set Hadd Hl. revert set. induction Hl as [|k l Hk Hl IH]; intros set; [by rewrite app_nil_r|].
  cbn [set_psks]. rewrite psk_id_zero. bind_simpl. change (negb (SC_OK =? SC_OK)) with false. cbv iota.
  change (read_at (nines ++ [0]) 0 (Z.to_nat NUM_TRYTES_MAM_PSK_ID_SIZE)) with (Some nines). bind_simpl.
  unfold read_n. rewrite decide_True by lia. bind_simpl. rewrite Hadd, IH, <- app_assoc.
  by rewrite take_app_le by lia.
Qed.

End Keys.

(** ** Properties of receiving *)
Section Receive.
Context {net os db : Type} {lib : IotaLib} {txt : JsonText} {node : IotaNode net} {mnode : MamNode net}
  {sys : Os os} {server : RedisServer db} {mlib : MamLib} {mos : MamOs os}.
Context (qsort : (iota_transaction_t -> iota_transaction_t -> Z) ->
                 list iota_transaction_t -> list iota_transaction_t)
  (uninit : nat -> list Z) (uninit_len : forall n, length (uninit n) = n) (protocol0 : Z).
Implicit Types w : world net os db.
Implicit Types api : mam_api_t.

(** The status that [ta_send_mam_message] has a branch for is never returned. *)
Lemma find_slot_status fuel : forall service api depth keys first chid w ret api' chid' w',
  find_slot fuel service api depth keys first chid w = Some (Some (ret, api', chid', None), w') ->
  ret <> SC_MAM_ALL_MSS_KEYS_USED.
Proof.
  assert (forall remain used api chid keys tags ret api',
    choose_key remain used api chid keys tags = Some (ret, api', None) -> ret = SC_MAM_FAILED_WRITE_HEADER) as Hck.
  { induction remain as [|remain IH]; intros used api chid keys tags ret api'; cbn [choose_key];
      destruct (ta_mam_write_header api chid keys []) as [[? [[b id]|]] api1]; try (by intros [= <- _]);
      destruct (head b) as [tx|]; try done; bind_simpl; destruct (negb _); try done;
      destruct (channel_mss_next api1 chid) as [api2|]; try done; bind_simpl; (done || apply IH). }
  assert (forall service hashes txns w ret objs w',
    get_objects (net := net) (os := os) (db := db) service hashes txns w = Some ((ret, objs), w') ->
    ret = SC_OK \/ ret = SC_CCLIENT_FAILED_RESPONSE) as Hobj.
  { intros service hashes. induction hashes as [|h hashes IH]; intros txns w ret objs w'; cbn [get_objects];
      [by intros [= <- _ _]; left|]. intros H. apply comp_bind_Some in H as ([o|] & w1 & _ & H);
      [by eapply IH|injection H as <- _ _; by right]. }
  induction fuel as [|f IH]; intros service api depth keys first chid w ret api' chid' w' H; [done|].
  cbn [find_slot] in H. apply comp_bind_Some in H as ([[[r1 api1] chid1] tags] & w1 & H1 & H).
  destruct (Z.eqb_spec r1 SC_OK) as [->|Hr]; cbn [negb] in H.
  - apply comp_bind_Some in H as (leaves & w2 & _ & H). apply comp_bind_Some in H as ([[r2 api2] c] & w3 & H2 & H).
    destruct c as [c|].
    + destruct (kc_remain c =? 1)%nat; [done|].
      destruct ((kc_remain c =? 0)%nat && (kc_used c =? 0)); [by eapply IH|done].
    + injection H as <- _ _ _. unfold check in H2. destruct (choose_key _ _ _ _ _ _) as [[[r3 api3] c3]|] eqn:E; [|done].
      injection H2 as -> -> -> _. by rewrite (Hck _ _ _ _ _ _ _ _ E).
  - injection H as <- _ _ _. unfold create_channel_fetch_all_transactions in H1.
    destruct (if first then _ else _) as [[c|] api2]; [|by injection H1 as <- _ _ _ _].
    apply comp_bind_Some in H1 as ([r3 txns] & w4 & H3 & H1). unfold ta_get_txn_objects_with_txn_hash in H3.
    apply comp_bind_Some in H3 as ([hs|] & w5 & _ & H3); [|injection H3 as <- _ _; by injection H1 as <- _ _ _ _].
    destruct (Hobj _ _ _ _ _ _ _ H3) as [->| ->]; by injection H1 as <- _ _ _ _.
Qed.

(** *** From the sender's bundles to the receiver's *)

(** A bundle with a header on [chid] and [payload] in the packet behind it. *)
Definition packet_on (chid : trytes) (keys : mam_encrypt_key_t) (payload : cstr) (b : bundle_t) : Prop :=
  exists hapi header id hapi1 api1 api2,
    mam_api_bundle_write_header_on_channel hapi chid (psks keys) (ntru_pks keys) [] = (Some (header, id), hapi1) /\
    mam_api_bundle_write_packet api1 id (ascii_to_trytes payload) header = (Some b, api2).

Definition header_written (chid : trytes) (keys : mam_encrypt_key_t) (c : key_choice) : Prop := exists hapi hapi1,
  mam_api_bundle_write_header_on_channel hapi chid (psks keys) (ntru_pks keys) [] = (Some (kc_bundle c, kc_msg_id c), hapi1).

Lemma choose_key_header remain : forall used api chid keys tags r api' c,
  choose_key remain used api chid keys tags = Some (r, api', Some c) -> header_written chid keys c.
Proof.
  induction remain as [|remain IH]; intros used api chid keys tags r api' c; cbn [choose_key];
    unfold ta_mam_write_header;
    destruct (mam_api_bundle_write_header_on_channel api chid (psks keys) (ntru_pks keys) []) as [[[b id]|] api1] eqn:E;
    try done; destruct (head b) as [tx|]; try done; bind_simpl; case_match;
    try (intros [= _ _ <-]; by exists api, api1); destruct (channel_mss_next api1 chid) as [api2|]; try done;
    bind_simpl; [intros [= _ _ <-]; by exists api, api1|apply IH].
Qed.

Lemma find_slot_header {net' : Type} {node' : IotaNode net'} fuel :
  forall service api depth keys first chid (w w' : world net' os db) r api' chid' c op,
  find_slot fuel service api depth keys first chid w = Some (Some (r, api', chid', Some (c, op)), w') ->
  header_written chid' keys c.
Proof.
  induction fuel as [|f IH]; intros service api depth keys first chid w w' r api' chid' c op H; [done|].
  cbn [find_slot] in H. apply comp_bind_Some in H as ([[[r1 api1] chid1] tags] & w1 & _ & H).
  destruct (negb (r1 =? SC_OK)); [done|].
  apply comp_bind_Some in H as (leaves & w2 & _ & H). apply comp_bind_Some in H as ([[r2 api2] c2] & w3 & H2 & H).
  unfold check in H2. destruct (choose_key _ _ _ _ _ _) as [[[r3 api3] c3]|] eqn:E; [|done]. injection H2 as -> -> -> _.
  destruct c2 as [c2|]; [|done]. apply choose_key_header in E.
  destruct (kc_remain c2 =? 1)%nat; [by injection H as _ _ <- <- _ _|].
  destruct ((kc_remain c2 =? 0)%nat && (kc_used c2 =? 0)); [by eapply IH|by injection H as _ _ <- <- _ _].
Qed.

(** [ta_mam_written_msg_to_bundle], run anywhere and without keys, has made the
    bundle [b] with [payload] on the channel [chid]. *)
Definition sender_wrote (chid : trytes) (payload : cstr) (b : bundle_t) : Prop :=
  exists (net' : Type) (node' : IotaNode net') (mnode' : MamNode net') fuel service api info chid0
    (w w' : world net' os db) api' id op,
    ta_mam_written_msg_to_bundle fuel service api info no_keys payload chid0 w =
      Some (Some (SC_OK, api', chid, Some (b, id, op)), w').

Lemma sender_packet chid payload b : sender_wrote chid payload b -> packet_on chid no_keys payload b.
Proof.
  intros (net' & node' & mnode' & fuel & service & api & info & chid0 & w & w' & api' & id & op & H).
  unfold ta_mam_written_msg_to_bundle in H. destruct (ci_ch_mss_depth info <? 1); [done|].
  apply comp_bind_Some in H as ([[r0 api0] chid1] & w0 & _ & H). destruct (negb (r0 =? SC_OK)); [done|].
  apply comp_bind_Some in H as ([[[[r1 api1] chid2] [[c op1]|]]|] & w1 & Hs & H); [|done|done].
  apply find_slot_header in Hs as (hapi & hapi1 & Hh). unfold ta_mam_write_packet in H.
  destruct (mam_api_bundle_write_packet api1 (kc_msg_id c) (ascii_to_trytes payload) (kc_bundle c))
    as [[b2|] api2] eqn:Ep; [|done].
  change (negb (SC_OK =? SC_OK)) with false in H. cbv iota in H. injection H as _ <- <- _ _ _.
  by exists hapi, (kc_bundle c), (kc_msg_id c), hapi1, api1, api2.
Qed.

(** Finalising and attaching a bundle leave addresses, tags and messages of its
    transactions alone. *)
Definition same_content (b b' : bundle_t) : Prop := Forall2 (fun tx tx' =>
  transaction_address tx' = transaction_address tx /\ transaction_tag tx' = transaction_tag tx /\
  transaction_message tx' = transaction_message tx) b b'.

(** What receiving needs of the library: [accepts api chid] is the condition
    under which [api] reads messages on the channel [chid]; a bundle with the
    content of one that was written without keys is read to the packet's payload, and that
    changes neither the trusted channels nor what is accepted. *)
Record ReaderLaws (accepts : mam_api_t -> trytes -> Prop) : Prop := {
  rd_read : forall chid hapi header id hapi1 api1 p b api2 b' api,
    mam_api_bundle_write_header_on_channel hapi chid [] [] [] = (Some (header, id), hapi1) ->
    mam_api_bundle_write_packet api1 id p header = (Some b, api2) -> same_content b b' -> accepts api chid ->
    exists api', mam_api_bundle_read api b' = (Some (Some p), api') /\
      trusted_channel_pks api' = trusted_channel_pks api /\ (forall c, accepts api c -> accepts api' c);
  rd_destroy : forall api, mam_api_destroy api = true
}.

(** A sequence of bundles is read to payloads. *)
Inductive reads : mam_api_t -> list bundle_t -> list cstr -> mam_api_t -> Prop :=
| reads_nil api : reads api [] [] api
| reads_cons api b api1 bs p ps api2 :
    mam_api_bundle_read api b = (Some (Some (ascii_to_trytes p)), api1) ->
    reads api1 bs ps api2 -> reads api (b :: bs) (p :: ps) api2.

(** Conversion to trytes and back. *)
Definition ascii_laws : Prop := forall p, is_cstr p -> p <> [] ->
  ascii_to_trytes p <> [] /\ trytes_to_ascii (ascii_to_trytes p) = p.

Lemma read_bundles_all api bs ps api' : ascii_laws -> reads api bs ps api' ->
  Forall (fun p => is_cstr p /\ p <> []) ps -> forall acc,
  read_bundles bs api acc = (true, api', acc ++ (Some <$> ps)).
Proof.
  intros HA Hr. induction Hr as [api|api b api1 bs p ps api2 Hb Hr IH]; intros Hps acc; [by rewrite app_nil_r|].
  apply Forall_cons in Hps as [[Hp Hne] Hps]. destruct (HA p Hp Hne) as [Hne' Hback].
  cbn [read_bundles]. unfold ta_mam_api_bundle_read. rewrite Hb.
  destruct (ascii_to_trytes p) as [|t ts] eqn:E; [done|]. rewrite Hback.
  change (negb (SC_OK =? SC_OK) && negb (SC_OK =? SC_MAM_NO_PAYLOAD)) with false. cbv iota.
  rewrite (IH Hps), <- app_assoc. cbn [fmap option_fmap option_map].
  by rewrite str_of_buf_no_nul by (by apply is_cstr_no_nul).
Qed.

(** A payload as the sender writes it. *)
Definition stamped (m : Z * cstr) : cstr := fmt_020ld m.1 ++ m.2.

Lemma fmt_length t : 0 <= t < 10 ^ 20 -> is_cstr (fmt_020ld t) /\ length (fmt_020ld t) = TIMESTAMP_LEN.
Proof.
  intros Ht. unfold fmt_020ld. destruct (Z.ltb_spec t 0); [lia|].
  destruct (dec_nat_spec t) as (Hd & _ & _); [lia|].
  pose proof (length_dec_nat t 19 ltac:(done)) as Hl. split.
  - apply Forall_app. split; [by apply Forall_replicate|].
    eapply Forall_impl; [exact Hd|]. intros c Hc. unfold is_digit in Hc. lia.
  - rewrite length_app, length_replicate. change TIMESTAMP_LEN with 20%nat in *. lia.
Qed.

Lemma stamped_payload m : 0 <= m.1 < 10 ^ 20 -> is_cstr m.2 ->
  is_payload (stamped m) /\ payload_pair (stamped m) = JArray [JString (fmt_020ld m.1); JString m.2].
Proof.
  intros Ht Hm. destruct (fmt_length m.1 Ht) as [Hf Hl]. unfold stamped, payload_pair. split.
  - split; [by apply Forall_app|]. rewrite length_app, Hl. unfold TIMESTAMP_CHARS, TIMESTAMP_LEN. lia.
  - change TIMESTAMP_CHARS with TIMESTAMP_LEN. by rewrite <- Hl, take_app_length, drop_app_length.
Qed.

Lemma payload_not_empty p : is_payload p -> is_cstr p /\ p <> [].
Proof. intros [Hp Hl]. split; [done|]. intros ->. simpl in Hl. unfold TIMESTAMP_CHARS in Hl. lia. Qed.

Lemma find_new_channel_none init l chid1 : l ⊆ init -> find_new_channel l init chid1 = Some chid1.
Proof.
  induction l as [|pk l IH]; intros Hl; [done|]. cbn [find_new_channel].
  rewrite bool_decide_true by set_solver. apply IH. set_solver.
Qed.

(** The API object after the channel of the request has become trusted. *)
Definition trusting (d : recv_mam_data_id_mam_v1_t) api api1 : Prop :=
  match di_chid d with Some chid => mam_api_add_trusted_channel_pk api chid | None => (true, api) end = (true, api1).

(** Reading without keys, no channel being announced. *)
Lemma recv_messages_is service d api api1 api' bundles ps w w1 : ascii_laws -> trusting d api api1 ->
  fetch_bundles qsort service d w = Some ((SC_OK, bundles), w1) -> reads api1 bundles ps api' ->
  trusted_channel_pks api' = trusted_channel_pks api1 -> Forall is_payload ps ->
  recv_messages qsort service api d (mkMamKey [] []) recv_mam_res_new w =
    Some ((SC_OK, api', mkRecvMamRes (Some <$> ps) (res_array N_HASH None)), w1).
Proof.
  intros HA Hc Hfetch Hreads Htr Hpay. unfold recv_messages. rewrite Hc. cbn [negb]. comp_step Hfetch.
  change (negb (SC_OK =? SC_OK)) with false. cbv iota. unfold mbind at 1, comp_mbind at 1, check at 1.
  change (ta_set_mam_key no_keys _ _ _) with (Some (SC_OK, no_keys)).
  cbv beta iota. change (negb (SC_OK =? SC_OK)) with false. cbv iota. cbn [add_psks psks no_keys negb].
  rewrite (read_bundles_all api1 bundles ps api' HA Hreads)
    by (eapply Forall_impl; [exact Hpay|apply payload_not_empty]).
  cbn [negb rr_payload_array rr_chid1 recv_mam_res_new app]. rewrite Htr.
  unfold mbind, comp_mbind, check. by rewrite find_new_channel_none.
Qed.

(** What is closed behind a successful read. *)
Lemma ta_recv_is iconf service req d key api api' res w w1 :
  mam_api_init (seed iconf) = Some api -> rm_data_id req = Some d -> rm_key req = Some key ->
  recv_messages qsort service api d key recv_mam_res_new w = Some ((SC_OK, api', res), w1) ->
  mam_api_destroy api' = true ->
  exists w', ta_recv_mam_message qsort iconf service req recv_mam_res_new w = Some ((SC_OK, res), w').
Proof.
  intros Hinit Hd Hk Hrecv Hdest. unfold ta_recv_mam_message. rewrite Hinit.
  unfold mbind at 1, comp_mbind at 1, check at 1. rewrite Hd.
  unfold mbind at 1, comp_mbind at 1, check at 1. rewrite Hk. comp_step Hrecv.
  change (SC_OK =? SC_MAM_FAILED_INIT) with false. cbv iota.
  unfold mbind, comp_mbind, on_os. destruct (mam_api_save api' (mam_file_path iconf) (w_os w1)) as [saved o].
  cbn [mret comp_mret]. rewrite Hdest. by eexists.
Qed.

Lemma serialize_payloads ps : Forall is_payload ps ->
  recv_mam_message_res_serialize (mkRecvMamRes (Some <$> ps) (res_array N_HASH None)) =
    Some (SC_OK, Some (cJSON_PrintUnformatted (payload_json ps None))).
Proof.
  intros Hps. assert (omap id (Some <$> ps) = ps) as Hom.
  { clear Hps. induction ps as [|x l IH]; [done|]. simpl. by f_equal. }
  unfold recv_mam_message_res_serialize. cbn [rr_payload_array rr_chid1].
  rewrite payload_items_are by (by rewrite Hom). by rewrite Hom.
Qed.

Section Delivery.
Context (accepts : mam_api_t -> trytes -> Prop) (reader : ReaderLaws accepts).

(** The bundle on the ledger has the content of the one the sender made of the
    time stamp and the text, on a channel the receiver accepts. *)
Definition delivered api (m : Z * cstr) (b' : bundle_t) : Prop := exists chid b,
  accepts api chid /\ sender_wrote chid (stamped m) b /\ same_content b b'.

Lemma delivered_reads msgs bundles : forall api, Forall2 (delivered api) msgs bundles ->
  exists api', reads api bundles (stamped <$> msgs) api' /\ trusted_channel_pks api' = trusted_channel_pks api.
Proof.
  revert bundles. induction msgs as [|m msgs IH]; intros bundles api H; inversion H as [|? b' ? bs Hm Hrest]; subst.
  - exists api. split; [constructor|done].
  - destruct Hm as (chid & b & Hacc & Hw & Hsame).
    destruct (sender_packet _ _ _ Hw) as (hapi & header & id & hapi1 & api1 & api2 & Hh & Hp).
    destruct (rd_read _ reader _ _ _ _ _ _ _ _ _ b' api Hh Hp Hsame Hacc) as (api3 & Hread & Ht & Hkeep).
    destruct (IH bs api3) as (api4 & Hr & Ht4).
    + eapply Forall2_impl; [exact Hrest|]. intros m1 b1 (c & b2 & H1 & H2). exists c, b2. split; [by apply Hkeep|done].
    + exists api4. split; [by econstructor|congruence].
Qed.

(** C9 Messages come back as they were sent, in the order of the bundles that
    the request's bundle hash or channel leads to: if each of them has the content of
    one that [ta_mam_written_msg_to_bundle] made of a time stamp and a text,
    without keys and on a channel the receiver accepts, then the response of
    [api_recv_mam_message] is the list of the pairs of time stamp and text, one
    for each bundle. *)
Theorem mam_messages_delivered iconf service obj req d api api1 bundles msgs w w1 : ascii_laws ->
  recv_mam_message_req_deserialize uninit (Some obj) (recv_mam_req_new protocol0) = Some (SC_OK, req) ->
  rm_data_id req = Some d -> rm_key req = Some (mkMamKey [] []) ->
  mam_api_init (seed iconf) = Some api -> trusting d api api1 ->
  fetch_bundles qsort service d w = Some ((SC_OK, bundles), w1) ->
  Forall2 (delivered api1) msgs bundles ->
  Forall (fun m => 0 <= m.1 < 10 ^ 20 /\ is_cstr m.2) msgs ->
  exists w', api_recv_mam_message qsort uninit protocol0 iconf service obj w =
    Some ((SC_OK, Some (cJSON_PrintUnformatted (JObject [(lit "payload",
      JArray ((fun m => JArray [JString (fmt_020ld m.1); JString m.2]) <$> msgs))]))), w').
Proof.
  intros HA Hreq Hd Hk Hinit Htrust Hfetch Hdel Hmsgs. unfold api_recv_mam_message.
  unfold mbind at 1, comp_mbind at 1, check at 1. rewrite Hreq.
  change (negb (SC_OK =? SC_OK)) with false. cbv iota.
  assert (Forall is_payload (stamped <$> msgs)) as Hpay.
  { apply Forall_fmap. eapply Forall_impl; [exact Hmsgs|]. intros m [H1 H2]. by apply stamped_payload. }
  destruct (delivered_reads msgs bundles api1 Hdel) as (api' & Hreads & Htr).
  destruct (ta_recv_is iconf service req d (mkMamKey [] []) api api' _ w w1 Hinit Hd Hk
    (recv_messages_is service d api api1 api' bundles _ w w1 HA Htrust Hfetch Hreads Htr Hpay)
    (rd_destroy _ reader api')) as [w' Hta].
  comp_step Hta. change (negb (SC_OK =? SC_OK)) with false. cbv iota. exists w'. unfold check.
  rewrite serialize_payloads by done. unfold payload_json. cbn [opt_field fmap option_fmap option_map].
  replace (payload_pair <$> (stamped <$> msgs))
    with ((fun m => JArray [JString (fmt_020ld m.1); JString m.2]) <$> msgs); [done|].
  rewrite <- list_fmap_compose. apply list_fmap_ext. intros i m Hm. symmetry.
  rewrite Forall_lookup in Hmsgs. destruct (Hmsgs i m Hm). by apply stamped_payload.
Qed.

End Delivery.

(** What reading does to the channels of the API object: nothing. *)
Record ReadLaws : Prop := {
  rl_init : forall sd api, mam_api_init sd = Some api -> channels api = [];
  rl_trust : forall api chid, channels (mam_api_add_trusted_channel_pk api chid).2 = channels api;
  rl_psk : forall api p, channels (mam_api_add_psk api p).2 = channels api;
  rl_read : forall api b, channels (mam_api_bundle_read api b).2 = channels api
}.

Lemma add_psks_channels l : ReadLaws -> forall api, channels (add_psks l api).2 = channels api.
Proof.
  intros L. induction l as [|p l IH]; intros api; [done|]. cbn [add_psks].
  pose proof (rl_psk L api p) as Hp. destruct (mam_api_add_psk api p) as [[] api1]; cbn [snd] in *; [|done].
  by rewrite IH.
Qed.

Lemma read_bundles_channels bs : ReadLaws -> forall api acc,
  channels (read_bundles bs api acc).1.2 = channels api.
Proof.
  intros L. induction bs as [|b bs IH]; intros api acc; [done|]. cbn [read_bundles].
  pose proof (rl_read L api b) as Hb. unfold ta_mam_api_bundle_read.
  destruct (mam_api_bundle_read api b) as [[[[|t ts]|]|] api1]; cbn [snd] in Hb;
    destruct (negb _ && negb _); cbn [fst snd]; by rewrite ?IH.
Qed.

Lemma recv_messages_channels service api d key res w ret api' res' w' : ReadLaws ->
  recv_messages qsort service api d key res w = Some ((ret, api', res'), w') -> channels api' = channels api.
Proof.
  intros L. unfold recv_messages.
  set (trust := match di_chid d with Some _ => _ | None => _ end).
  assert (channels trust.2 = channels api) as Ht by (subst trust; destruct (di_chid d); [apply (rl_trust L)|done]).
  destruct trust as [ok api1]. cbn [snd] in Ht. rewrite <- Ht. clear Ht.
  destruct ok; cbn [negb]; [|by intros [= _ <- _ _]]. intros H.
  apply comp_bind_Some in H as ([r1 bundles] & w1 & _ & H). destruct (negb (r1 =? SC_OK)); [by injection H as _ <- _ _|].
  apply comp_bind_Some in H as ([r2 keys] & w2 & _ & H). destruct (negb (r2 =? SC_OK)); [by injection H as _ <- _ _|].
  pose proof (add_psks_channels (psks keys) L api1) as Hp. destruct (add_psks (psks keys) api1) as [[] api2];
    cbn [snd negb] in *; [|injection H as _ <- _ _; done].
  pose proof (read_bundles_channels bundles L api2 (rr_payload_array res)) as Hr.
  destruct (read_bundles bundles api2 (rr_payload_array res)) as [[[] api3] ps]; cbn [fst snd negb] in *.
  - apply comp_bind_Some in H as (c & w3 & _ & H). injection H as _ <- _ _. congruence.
  - injection H as _ <- _ _. congruence.
Qed.

(** Receiving rewrites the local MAM file with the state of an API object
    that has no channels, so those a sender without seed has created are
    forgotten; that messages were refused or could not be read does not prevent
    it. *)
Theorem recv_resets_mam_file iconf service req res w ret res' w' : ReadLaws ->
  ta_recv_mam_message qsort iconf service req res w = Some ((ret, res'), w') -> ret <> SC_MAM_FAILED_INIT ->
  exists api o, channels api = [] /\ w_os w' = (mam_api_save api (mam_file_path iconf) o).2.
Proof.
  intros L H Hret. unfold ta_recv_mam_message in H.
  destruct (mam_api_init (seed iconf)) as [api|] eqn:Hinit; [|by injection H as <- _ _].
  apply comp_bind_Some in H as (d & w1 & _ & H). apply comp_bind_Some in H as (key & w2 & _ & H).
  apply comp_bind_Some in H as ([[r api'] res1] & w3 & Hm & H).
  apply recv_messages_channels in Hm; [|done]. rewrite (rl_init L _ _ Hinit) in Hm.
  destruct (Z.eqb_spec r SC_MAM_FAILED_INIT) as [->|_]; [by injection H as <- _ _|].
  apply comp_bind_Some in H as (saved & w4 & Hs & H). injection H as _ _ <-.
  exists api', (w_os w3). split; [done|]. unfold on_os in Hs.
  destruct (mam_api_save api' (mam_file_path iconf) (w_os w3)) as [b o]. by injection Hs as _ <-.
Qed.

(** A request to receive that names another protocol passes the deserializer
    and makes the handler dereference NULL, unless the uninitialised field
    happens to hold the known protocol. *)
Theorem recv_other_protocol_undefined iconf service obj j proto api w :
  cJSON_Parse obj = Some j -> get_item j (lit "protocol") = Some (JString proto) ->
  take 6 (strncpy_data proto protocol_len) <> lit "MAM_V1" -> protocol0 <> MAM_V1 ->
  mam_api_init (seed iconf) = Some api ->
  api_recv_mam_message qsort uninit protocol0 iconf service obj w = None.
Proof.
  intros Hparse Hproto Hne H0 Hinit. unfold api_recv_mam_message, recv_mam_message_req_deserialize.
  rewrite Hparse, (get_string_is _ _ _ _ _ Hproto) by (by rewrite uninit_len). bind_simpl.
  unfold mbind at 1, comp_mbind at 1, check at 1. bind_simpl.
  change (negb (SC_OK =? SC_OK)) with false. cbv iota. cbn [rm_data_id rm_key rm_protocol recv_mam_req_new].
  assert (is_mam_v1 (strncpy_data proto protocol_len ++ drop protocol_len (uninit protocol_len)) = false) as ->.
  { apply bool_decide_eq_false. rewrite take_app_le; [done|]. rewrite length_strncpy_data. by apply Nat.leb_le. }
  rewrite (proj2 (Z.eqb_neq _ _) H0). change (negb (SC_OK =? SC_OK)) with false. cbv iota.
  unfold mbind at 1, comp_mbind at 1, ta_recv_mam_message. by rewrite Hinit.
Qed.

End Receive.

(** ** A small MAM library for evaluation *)
Module ToyMam.
Import ToyWorld RedisModel.

(** A channel is its ID and the index of its current key. *)
Record api := mkApi { a_ord : nat; a_chs : list (trits * nat); a_trusted : list trits }.

Definition chan_of (i : nat) : trytes := replicate 80 65 ++ [65 + Z.of_nat i].
Definition id_of_key (chid : trytes) (k : nat) : trits :=
  [default 0 (last chid); 65 + Z.of_nat k] ++ replicate 19 57.
Definition tag_of_key (chid : trytes) (k : nat) : trits := id_of_key chid k ++ replicate 6 57.

Definition tagged (tag message : trits) : iota_transaction_t :=
  mkTx [65] 0 [66] 0 0 0 [67] [68] [69] tag 0 0 0 [71] message [].

Definition with_hash (tx : iota_transaction_t) : iota_transaction_t :=
  mkTx (transaction_address tx) 0 [66] 0 0 0 (replicate N_HASH 72) [68] [69] (transaction_tag tx) 0 0 0 [71]
    (transaction_message tx) [].

(** The serialized form ends with the bundle hash. *)
Definition deserialize_bundle (t : trits) (hash : bool) : option iota_transaction_t :=
  tx ← deserialize t hash;
  Some (mkTx (transaction_address tx) 0 [66] 0 (transaction_current_index tx) (transaction_last_index tx)
    (drop 3 t) [68] [69] (transaction_tag tx) 0 0 0 [71] (transaction_message tx) (transaction_hash tx)).

#[export] Instance iota_lib : IotaLib := {
  FLEX_TRIT_SIZE_8019 := 3;
  transaction_serialize tx := Some (serialize tx ++ transaction_bundle tx);
  transaction_serialize_on_flex_trits tx := (NUM_TRITS_SERIALIZED_TRANSACTION, serialize tx);
  transaction_deserialize := deserialize_bundle;
  iota_flex_digest := digest;
  flex_trits_to_trytes n t := (Z.of_nat (3 * length t), take n t);
  flex_trits_from_trytes n s := take n s;
  ascii_to_trytes s := s;
  fresh_tips := ([48], [48]);
  bundle_finalize b := with_hash <$> b;
  transaction_deserialize_from_trits t h := default (toy_tx 0 0 []) (deserialize t h);
  flex_trits_are_null t := forallb (Z.eqb 57) t;
  dcurl_entry t _ := Some (t ++ replicate (Z.to_nat NUM_TRYTES_SERIALIZED_TRANSACTION) 57)
}.

Definition find_channel (chid : trytes) (l : list (trits * nat)) : option (trits * nat) :=
  snd <$> list_find (fun ch => ch.1 = chid) l.

#[export] Instance mam_lib : MamLib := {
  mam_api_t := api;
  mam_channel_t := trits * nat;
  trytes_to_trits t := t;
  trits_to_trytes t := t;
  trytes_to_ascii t := t;
  mam_psk_t_set_add s p := Some (s ++ [p]);
  mam_ntru_set_add s p := Some (s ++ [p]);
  mam_api_init _ := Some (mkApi 0 [] []);
  mam_api_destroy _ := true;
  mam_api_channel_create a _ :=
    (Some (chan_of (a_ord a)), mkApi (S (a_ord a)) ((chan_of (a_ord a), 0%nat) :: a_chs a) (a_trusted a));
  channels := a_chs;
  set_channels a l := mkApi (a_ord a) l (a_trusted a);
  mam_channel_id := fst;
  mam_endpoint_ids _ := [];
  mam_mss_next ch := (ch.1, S ch.2);
  mam_api_bundle_write_header_on_channel a chid _ _ b :=
    match find_channel chid (a_chs a) with
    | Some (_, k) => (Some (tagged (tag_of_key chid k) [] :: b, id_of_key chid k), a)
    | None => (None, a)
    end;
  mam_api_bundle_write_packet a id p b := (Some (tagged id p :: tail b), a);
  mam_api_bundle_announce_channel a chid chid1 _ _ b := (Some (tagged chid chid1 :: b), a);
  mam_api_bundle_read a b := (Some (transaction_message <$> head b), a);
  mam_api_add_trusted_channel_pk a c := (true, mkApi (a_ord a) (a_chs a) (c :: a_trusted a));
  mam_api_add_psk a _ := (true, a);
  trusted_channel_pks := a_trusted
}.

(** The file is kept in the state of the system next to its clock. *)
Definition toy_os_state := (Z * option api)%type.

#[export] Instance mam_os : MamOs toy_os_state := {
  mam_api_load _ o := (match o.2 with Some a => RC_OK a | None => RC_UTILS_FAILED_TO_OPEN_FILE end, o);
  mam_api_save a _ o := (true, (o.1, Some a));
  clock_monotonic o := (o.1, (o.1 + 1, o.2))
}.

#[export] Instance mam_sys : Os toy_os_state := {
  current_timestamp_ms o := (1000 * o.1, (o.1 + 1, o.2));
  uuid_random o := (uuid_of o.1, (o.1 + 1, o.2))
}.

(** A node that answers from a fixed ledger, given by address. *)
Definition ledger_node (f : trytes -> list iota_transaction_t) : IotaNode unit := {|
  iota_client_get_transactions_to_approve _ n _ := (None, n);
  iota_client_store_and_broadcast _ n _ := (false, n);
  iota_client_find_transactions _ n r := (Some (find_addresses r ++ find_bundles r), n);
  iota_client_get_trytes _ n _ := (None, n);
  iota_client_get_transaction_objects _ n hs := (Some (hs ≫= f), n);
  iota_client_prepare_transfers _ n _ _ _ _ := (None, n);
  iota_service_query _ n _ := (None, n) |}.

Definition ledger_mam_node (f : trytes -> list iota_transaction_t) : MamNode unit := {|
  iota_client_find_transaction_objects _ n r := (Some (find_addresses r ≫= f), n) |}.

Lemma channel_laws depth keys :
  ChannelLaws depth keys chan_of a_ord (@snd trits nat) id_of_key tag_of_key.
Proof.
  split.
  - done.
  - done.
  - intros a chid i ch Hget Hch. unfold mam_api_channel_get in Hget. simpl in *. unfold find_channel.
    destruct (list_find (fun ch => ch.1 = chid) (a_chs a)) as [[j [c k]]|] eqn:E; [|done].
    injection Hget as ->. apply list_find_Some in E as (E & _ & _).
    rewrite E in Hch. injection Hch as <-. simpl. by eexists _, _, _.
  - intros a. exists (mkApi (S (a_ord a)) ((chan_of (a_ord a), 0%nat) :: a_chs a) (a_trusted a)), 0%nat,
      (chan_of (a_ord a), 0%nat).
    split; [reflexivity|]. split; [reflexivity|]. split; [|by split].
    unfold mam_api_channel_get. cbn [channels mam_lib a_chs list_find]. by rewrite decide_True.
Qed.

Lemma send_laws keys : SendLaws keys chan_of a_ord id_of_key.
Proof.
  split; simpl.
  - intros a id p b. by eexists _, _, _.
  - intros a c c1. by eexists _, _, _.
  - intros tx b. by eexists _, _.
  - done.
  - done.
  - done.
Qed.
End ToyMam.

(** ** Evaluations *)
Module MamWitness.
Import ToyWorld RedisModel JsonModel ToyMam SerMamWitness.

Definition nowhere : iota_client_service_t := mkService [] 0 [].

(** Four keys per channel: the first channel is used up, one key of the second
    is. *)
Definition ledger1 (chid : trytes) : list iota_transaction_t :=
  if decide (chid = chan_of 0) then (fun k => tagged (tag_of_key (chan_of 0) k) []) <$> [0; 1; 2; 3]%nat
  else if decide (chid = chan_of 1) then [tagged (tag_of_key (chan_of 1) 0) []] else [].

(** The first channel is used up and somebody else has sent to its address. *)
Definition ledger2 (chid : trytes) : list iota_transaction_t :=
  ledger1 chid ++ [tagged (replicate 27 90) []].

Definition start : world unit toy_os_state db := mkWorld tt (7, None) (Backend.mkEnv true ∅) Unlocked.
Definition fresh_api : api := mkApi 0 [] [].

Definition at_address (f : trytes -> list iota_transaction_t) (chid : trytes) := f (take N_HASH chid).

Lemma ledger_answers (f : trytes -> list iota_transaction_t) (chid : trytes) (w : world unit toy_os_state db) :
  exists w', ta_get_txn_objects_with_txn_hash (node := ledger_node f) nowhere (channel_query chid) [] w =
    Some ((SC_OK, at_address f chid), w').
Proof.
  eexists. unfold ta_get_txn_objects_with_txn_hash, mbind, comp_mbind, on_net.
  cbn [iota_client_find_transactions ledger_node channel_query address_query find_addresses find_bundles app
    get_objects flex_trits_from_trytes iota_lib]. unfold mbind, comp_mbind, on_net.
  cbn [iota_client_get_transaction_objects ledger_node]. cbn [mbind list_bind app]. rewrite app_nil_r.
  reflexivity.
Qed.

Lemma full_channel : passed_over tag_of_key (at_address ledger1) 4 (chan_of 0).
Proof.
  apply exhausted_passed; [|vm_compute; reflexivity].
  intros [|[|[|[|k]]]] Hk; [vm_compute; reflexivity..|lia].
Qed.

Lemma free_channel : ~ passed_over tag_of_key (at_address ledger1) 4 (chan_of 1).
Proof. intros [_ H]. vm_compute in H. discriminate H. Qed.

Lemma before_free : forall i, (i < 1)%nat -> passed_over tag_of_key (at_address ledger1) 4 (chan_of (0 + i)).
Proof. intros [|i] Hi; [exact full_channel|lia]. Qed.

Lemma mss_slot_found_witness : exists k api' c w',
  find_slot (node := ledger_node ledger1) 2 nowhere fresh_api 2 no_keys false [] start =
    Some (Some (SC_OK, api', chan_of 1, Some (c, if decide (k = 2)%nat then ANNOUNCE_CHID else SEND_MESSAGE)), w') /\
  header_of id_of_key tag_of_key (chan_of 1) k c.
Proof.
  destruct (mss_slot_found (mlib := mam_lib) (node := ledger_node ledger1) 2 no_keys chan_of a_ord (@snd trits nat) id_of_key tag_of_key
    (channel_laws 2 no_keys) nowhere (at_address ledger1) (ledger_answers ledger1) 4 eq_refl
    ltac:(lia) 1 2 false fresh_api start [] 0 ltac:(lia) eq_refl before_free free_channel)
    as (k & api' & c & w' & _ & H & Hh).
  exists k, api', c, w'. split; [exact H|exact Hh].
Defined.

(** A key is left on the third channel, but its address holds a message of
    somebody else: it is passed over. *)
Definition ledger4 (chid : trytes) : list iota_transaction_t :=
  ((fun k => tagged (tag_of_key chid k) []) <$> [0; 1; 2]%nat) ++ [tagged (replicate 27 90) []].

Example key_lost : first_unused tag_of_key (at_address ledger4) 4 (chan_of 2) 3 /\
  passed_over tag_of_key (at_address ledger4) 4 (chan_of 2).
Proof.
  assert (first_unused tag_of_key (at_address ledger4) 4 (chan_of 2) 3) as H.
  { split; [lia|]. split; [vm_compute; reflexivity|]. intros [|[|[|k]]] Hk; [vm_compute; reflexivity..|lia]. }
  split; [exact H|]. apply last_key_passed; [exact H|vm_compute; reflexivity].
Qed.

Lemma mss_key_reused_witness : exists api' c w',
  find_slot (node := ledger_node ledger2) 1 nowhere fresh_api 2 no_keys false [] start =
    Some (Some (SC_OK, api', chan_of 0, Some (c, SEND_MESSAGE)), w') /\
  header_of id_of_key tag_of_key (chan_of 0) 3 c /\
  used_key tag_of_key (tags_of (at_address ledger2) (chan_of 0)) (chan_of 0) 3 = true.
Proof.
  apply (mss_key_reused (mlib := mam_lib) (node := ledger_node ledger2) 2 no_keys chan_of a_ord (@snd trits nat) id_of_key tag_of_key
    (channel_laws 2 no_keys) nowhere (at_address ledger2) (ledger_answers ledger2) 4 eq_refl
    ltac:(lia) fresh_api start [] 0).
  - intros [|[|[|[|k]]]] Hk; [vm_compute; reflexivity..|lia].
  - vm_compute. discriminate.
Defined.

Definition iconf0 : iota_config_t := mkIotaConf 3 14 (hash_of 57) [].
Definition conf0 : ta_config_t := mkTaConf [] [] 0 [] [] 0 0 0 [].
Definition send_req : ta_send_mam_req_t :=
  mkSendMamReq (replicate 65 0) (Some (mkSendData (Some (hash_of 65)) 2 None (Some [72; 105])))
    (Some (mkMamKey [] [])) MAM_V1.

Lemma ta_send_mam_message_spec_witness : exists ret res' w',
  ta_send_mam_message (node := ledger_node ledger1) (mnode := ledger_mam_node ledger1)
    2 conf0 iconf0 nowhere send_req send_mam_res_new start = Some (Some (ret, res'), w').
Proof.
  destruct (ta_send_mam_message_spec (mlib := mam_lib) (node := ledger_node ledger1) (mnode := ledger_mam_node ledger1)
    2 no_keys chan_of a_ord (@snd trits nat) id_of_key tag_of_key
    (channel_laws 2 no_keys) nowhere (at_address ledger1) (ledger_answers ledger1) 4 eq_refl
    ltac:(lia) conf0 iconf0 send_req send_mam_res_new (mkSendData (Some (hash_of 65)) 2 None (Some [72; 105]))
    (mkMamKey [] []) [72; 105] fresh_api 1 2 start start 0 7 (8, None) (send_laws no_keys) ltac:(lia)
    eq_refl eq_refl eq_refl eq_refl eq_refl eq_refl eq_refl eq_refl before_free free_channel)
    as (k & bundle & api1 & w1 & api2 & w2 & ret & res' & w' & _ & _ & _ & _ & H).
  exists ret, res', w'. exact H.
Defined.

(** Without a seed, from an assigned channel on. *)
Definition next_req : ta_send_mam_req_t :=
  mkSendMamReq (replicate 65 0) (Some (mkSendData None 2 (Some (chan_of 1)) (Some [72; 105])))
    (Some (mkMamKey [] [])) MAM_V1.

Example assigned_channel : exists res' w',
  ta_send_mam_message (node := ledger_node ledger1) (mnode := ledger_mam_node ledger1)
    2 conf0 iconf0 nowhere next_req send_mam_res_new start = Some (Some (SC_OK, res'), w') /\
  sr_chid res' = chan_of 1 ++ [0] /\ sr_msg_id res' = id_of_key (chan_of 1) 1 ++ [0] /\
  a_ord <$> (w_os w').2 = Some 2%nat.
Proof. eexists _, _. split; [vm_compute; reflexivity|]. repeat split. Qed.

Lemma starting_chid_search_witness :
  (exists i api', (i <= 101)%nat /\
  (forall j, (j < i)%nat -> take N_HASH (chan_of 3) <> take N_HASH (chan_of (0 + j))) /\
  take N_HASH (chan_of 3) = take N_HASH (chan_of (0 + i)) /\ a_ord api' = S (0 + i) /\
  find_starting_chid (mlib := mam_lib) 101 2 (chan_of 3) (mkApi 1 [] []) (chan_of 0) = (SC_OK, api', chan_of (0 + i))) \/
  ((forall i, (i <= 101)%nat -> take N_HASH (chan_of 3) <> take N_HASH (chan_of (0 + i))) /\
  exists api', a_ord api' = (S (S 101) + 0)%nat /\
  find_starting_chid (mlib := mam_lib) 101 2 (chan_of 3) (mkApi 1 [] []) (chan_of 0) =
       (SC_MAM_EXCEEDED_CHID_ITER, api', chan_of (S 101 + 0))).
Proof.
  apply (starting_chid_search (mlib := mam_lib) 2 no_keys chan_of a_ord (@snd trits nat) id_of_key tag_of_key
    (channel_laws 2 no_keys) 101 (chan_of 3) (mkApi 1 [] []) 0 eq_refl).
Defined.

Lemma psk_ids_collide_witness :
  set_psks (mlib := mam_lib) 0 [hash_of 65; hash_of 66] [] =
    Some (SC_OK, [mkPsk nines (hash_of 65); mkPsk nines (hash_of 66)]).
Proof.
  rewrite (psk_ids_collide (mlib := mam_lib) [hash_of 65; hash_of 66] []); [reflexivity|reflexivity|].
  repeat constructor.
Defined.

(** *** Receiving *)

Definition recv_text : cstr := cJSON_PrintUnformatted
  (JObject [(lit "data_id", JObject [(lit "bundle_hash", JString (hash_of 65))]);
            (lit "protocol", JString (lit "MAM_V1"))]).

Definition sent_bundle : list iota_transaction_t := [tagged [] (stamped (7, [72; 105]))].
Definition ledger3 (_ : trytes) : list iota_transaction_t := sent_bundle.

Lemma toy_ascii : ascii_laws (lib := iota_lib) (mlib := mam_lib).
Proof. intros p _ Hp. by split. Qed.

Definition recv_req : ta_recv_mam_req_t :=
  mkRecvMamReq (Some (mkDataId (Some (hash_of 65)) None None)) (Some (mkMamKey [] [])) MAM_V1.

(** Two messages of a sender on the second channel, with keys 1 and 2, and a
    ledger with their bundles. *)
Definition written_by (payload : cstr) (k : nat) : list iota_transaction_t := [tagged (id_of_key (chan_of 1) k) payload].

Definition first_sent : cstr := stamped (7, [72; 105]).
Definition second_sent : cstr := stamped (9, [89; 111]).

Definition after_first (chid : trytes) : list iota_transaction_t :=
  ledger1 chid ++ if decide (chid = chan_of 1) then [tagged (tag_of_key (chan_of 1) 1) first_sent] else [].

Lemma first_written : sender_wrote (os := toy_os_state) (db := db) (chan_of 1) first_sent (written_by first_sent 1).
Proof.
  exists unit, (ledger_node ledger1), (ledger_mam_node ledger1), 2%nat, nowhere, fresh_api, (mkChannelInfo 2 None), [], start.
  do 4 eexists. vm_compute. reflexivity.
Qed.

Lemma second_written : sender_wrote (os := toy_os_state) (db := db) (chan_of 1) second_sent (written_by second_sent 2).
Proof.
  exists unit, (ledger_node after_first), (ledger_mam_node after_first), 2%nat, nowhere, fresh_api, (mkChannelInfo 2 None), [], start.
  do 4 eexists. vm_compute. reflexivity.
Qed.

Definition in_bundle (h : trytes) (b : list iota_transaction_t) : list iota_transaction_t :=
  (fun tx => mkTx (transaction_address tx) 0 [66] 0 0 0 h [68] [69] (transaction_tag tx) 0 0 0 [71]
     (transaction_message tx) []) <$> b.

(** The node has both bundles, each a transaction with the bundle's hash. *)
Definition mailbox (hash : trytes) : list iota_transaction_t :=
  if decide (hash = hash_of 66) then in_bundle hash (written_by first_sent 1)
  else if decide (hash = hash_of 67) then in_bundle hash (written_by second_sent 2) else [].

Definition mailbox_node : IotaNode unit := {|
  iota_client_get_transactions_to_approve _ n _ := (None, n);
  iota_client_store_and_broadcast _ n _ := (false, n);
  iota_client_find_transactions _ n r :=
    (Some (match find_addresses r with [] => find_bundles r | _ => [hash_of 66; hash_of 67] end), n);
  iota_client_get_trytes _ n _ := (None, n);
  iota_client_get_transaction_objects _ n hs := (Some (hs ≫= mailbox), n);
  iota_client_prepare_transfers _ n _ _ _ _ := (None, n);
  iota_service_query _ n _ := (None, n) |}.

Lemma published h b : same_content b (in_bundle h b).
Proof. induction b; constructor; done. Qed.

Definition accepted (a : api) (chid : trytes) : Prop := chid ∈ a_trusted a.

Lemma reader_laws : ReaderLaws (mlib := mam_lib) accepted.
Proof.
  split; [|done]. intros chid hapi header id hapi1 api1 p b api2 b' a Hh Hp Hsame Hacc.
  injection Hp as <- _. inversion Hsame as [|tx tx' b1 b1' (_ & _ & Hm) _]; subst.
  exists a. split; [|done]. simpl. by rewrite Hm.
Qed.

Definition recv_channel_text : cstr := cJSON_PrintUnformatted
  (JObject [(lit "data_id", JObject [(lit "chid", JString (chan_of 1))]); (lit "protocol", JString (lit "MAM_V1"))]).

Definition recv_channel_req : ta_recv_mam_req_t :=
  mkRecvMamReq (Some (mkDataId None (Some (chan_of 1)) None)) (Some (mkMamKey [] [])) MAM_V1.

Lemma mam_messages_delivered_witness : exists w',
  api_recv_mam_message (node := mailbox_node) CoreWitness.sort noise 9 iconf0 nowhere recv_channel_text start =
    Some ((SC_OK, Some (cJSON_PrintUnformatted (JObject [(lit "payload",
      JArray [JArray [JString (fmt_020ld 7); JString [72; 105]]; JArray [JString (fmt_020ld 9); JString [89; 111]]])]))), w').
Proof.
  eapply (mam_messages_delivered (node := mailbox_node) (mlib := mam_lib) (txt := text)
    CoreWitness.sort noise noise_len 9 accepted reader_laws iconf0 nowhere recv_channel_text recv_channel_req
    (mkDataId None (Some (chan_of 1)) None) fresh_api (mkApi 0 [] [chan_of 1])
    [in_bundle (hash_of 66) (written_by first_sent 1); in_bundle (hash_of 67) (written_by second_sent 2)]
    [(7, [72; 105]); (9, [89; 111])] start _ toy_ascii).
  - vm_compute. reflexivity.
  - reflexivity.
  - reflexivity.
  - reflexivity.
  - reflexivity.
  - vm_compute. reflexivity.
  - constructor; [|constructor; [|constructor]].
    + exists (chan_of 1), (written_by first_sent 1). split; [by left|]. split; [exact first_written|apply published].
    + exists (chan_of 1), (written_by second_sent 2). split; [by left|]. split; [exact second_written|apply published].
  - repeat (apply Forall_cons; split; [split; [by split|apply (bool_decide_unpack _); vm_compute; exact I]|]). done.
Defined.

Lemma toy_read_laws : ReadLaws (mlib := mam_lib).
Proof. split; simpl; [|done..]. by intros sd api [= <-]. Qed.

Definition with_file : world unit toy_os_state db :=
  mkWorld tt (7, Some (mkApi 1 [(chan_of 0, 2%nat)] [])) (Backend.mkEnv true ∅) Unlocked.

Lemma recv_resets_mam_file_witness : exists api o w',
  ta_recv_mam_message (node := ledger_node ledger3) CoreWitness.sort iconf0 nowhere recv_req recv_mam_res_new with_file =
    Some ((SC_OK, mkRecvMamRes [Some (stamped (7, [72; 105]))] (replicate (S N_HASH) 0)), w') /\
  channels api = [] /\ w_os w' = (mam_api_save api (mam_file_path iconf0) o).2.
Proof.
  assert (ta_recv_mam_message (node := ledger_node ledger3) (mlib := mam_lib) CoreWitness.sort iconf0 nowhere recv_req
    recv_mam_res_new with_file =
    Some ((SC_OK, mkRecvMamRes [Some (stamped (7, [72; 105]))] (replicate (S N_HASH) 0)),
      mkWorld tt (7, Some fresh_api) (Backend.mkEnv true ∅) Unlocked)) as H by (vm_compute; reflexivity).
  destruct (recv_resets_mam_file (node := ledger_node ledger3) (mlib := mam_lib) CoreWitness.sort iconf0 nowhere
    recv_req recv_mam_res_new with_file _ _ _ toy_read_laws H) as (api & o & Hc & Ho); [done|].
  exists api, o, (mkWorld tt (7, Some fresh_api) (Backend.mkEnv true ∅) Unlocked). split; [exact H|]. by split.
Defined.

Lemma recv_other_protocol_undefined_witness :
  api_recv_mam_message (node := ledger_node ledger3) CoreWitness.sort noise 9 iconf0 nowhere
    (cJSON_PrintUnformatted (JObject [(lit "protocol", JString (lit "MAM_V2"))])) start = None.
Proof.
  apply (recv_other_protocol_undefined (node := ledger_node ledger3) (mlib := mam_lib) (txt := text)
    CoreWitness.sort noise noise_len 9 iconf0 nowhere _ (JObject [(lit "protocol", JString (lit "MAM_V2"))])
    (lit "MAM_V2") fresh_api start).
  - vm_compute. reflexivity.
  - vm_compute. reflexivity.
  - vm_compute. discriminate.
  - discriminate.
  - reflexivity.
Defined.
End MamWitness.
