(* ===== verification/Health.v ===== *)
(** * The periodical task ([accelerator/core/periodical_task.c])

    What the health-tracking thread does in each period: it looks after the
    node, sends the buffered transactions ([Buffer]) and the buffered requests
    for MAM messages, and evicts completed requests while the cache is too
    large.  Reading, sending and writing a MAM message are parameters. *)

From S2P Require Import Prelude TaErrors Utils Json Cache World Pow Config Serializer Core Buffer.

Section Health.
Context {net os db : Type} {lib : IotaLib} {txt : JsonText}
  {node : IotaNode net} {sys : Os os} {server : RedisServer db}.
Context (uninit : nat -> list Z).
Abbreviation proc := (@proc net os db).

(** ** The node *)

Definition set_service (core : ta_core_t) (s : iota_client_service_t) : ta_core_t :=
  mkCore (ta_conf core) (cache core) (iota_conf core) s (conf_file core).

(** The service after host and port have been replaced. *)
Definition connect_to (s : iota_client_service_t) (host : cstr) (port : Z) : iota_client_service_t :=
  mkService (take (HOST_MAX_LEN - 1) host) port (http_ca_pem s).

Fixpoint try_hosts (hosts : list (option cstr * Z)) (s : iota_client_service_t)
  : proc iota_client_service_t :=
  match hosts with
  | (Some host, port) :: r =>
      let s := connect_to s host port in
      ret ← ta_get_node_status s;
      if ret =? SC_OK then mret s else try_hosts r s
  | _ => mret s
  end.

(** The status is that of no call: it is never set. *)
Definition ta_update_full_node_connection (core : ta_core_t) : proc (status_t * ta_core_t) :=
  s ← try_hosts (take MAX_NODE_LIST_ELEMENTS (zip (iota_host_list (ta_conf core)) (iota_port_list (ta_conf core))))
        (iota_service core);
  mret (SC_OK, set_service core s).

(** ** Buffered requests for MAM messages *)

Context {mam_req mam_res : Type}
  (send_mam_message_req_deserialize : cstr -> option (status_t * mam_req))
  (ta_send_mam_message :
     ta_config_t -> iota_config_t -> iota_client_service_t -> mam_req -> proc (status_t * mam_res))
  (send_mam_message_res_serialize : mam_res -> option (status_t * option cstr)).

(** From the head of the loop to the text of the response; [Go] carries the
    array [uuid] and the text. *)
Definition mam_send (core : ta_core_t) : proc (iteration (list Z * cstr)) :=
  '(ret, uuid_list_len) ← on_cache (Backend.cache_list_size (Some (mam_buffer_list_name (cache core))) 0);
  if negb (ret =? SC_OK) then mret (Return ret) else
  if uuid_list_len =? 0 then mret (Return ret) else
  '(ret, uuid) ← on_cache (Backend.cache_list_peek (Some (mam_buffer_list_name (cache core)))
                             UUID_STR_LEN (uninit N_UUID));
  if negb (ret =? SC_OK) then mret (Return ret) else
  '(ret, json) ← on_cache (Backend.cache_get (Some (str_of_buf uuid)) None);
  if negb (ret =? SC_OK) then mret (Return ret) else
  json ← check json;
  '(ret, req) ← check (send_mam_message_req_deserialize json);
  if negb (ret =? SC_OK) then mret (Return ret) else
  '(ret, res) ← ta_send_mam_message (ta_conf core) (iota_conf core) (iota_service core) req;
  if negb (ret =? SC_OK) then mret (Return ret) else
  '(ret, json) ← check (send_mam_message_res_serialize res);
  if negb (ret =? SC_OK) then mret (Return ret) else
  json ← check json;
  mret (Go (uuid, json)).

(** The rest of the iteration, under the write lock. *)
Definition mam_move (core : ta_core_t) (uuid : list Z) (json : cstr) : proc (iteration unit) :=
  busy ← lock_fails trywrlock;
  if busy : bool then mret (Return SC_CACHE_LOCK_FAILURE) else
  ret ← on_cache (Backend.cache_del (Some (str_of_buf uuid)));
  if negb (ret =? SC_OK) then mret (Return ret) else
  ret ← on_cache (Backend.cache_set (Some uuid) UUID_LEN (Some json) (strlen json)
                    (i32 (cache_timeout (cache core))));
  if negb (ret =? SC_OK) then mret (Return ret) else
  '(ret, uuid) ← on_cache (Backend.cache_list_pop (Some (mam_buffer_list_name (cache core))) uuid);
  if negb (ret =? SC_OK) then mret (Return ret) else
  ret ← on_cache (Backend.cache_list_push (Some (mam_complete_list_name (cache core)))
                    (strlen (mam_complete_list_name (cache core))) (Some uuid) UUID_LEN);
  if negb (ret =? SC_OK) then mret (Return ret) else
  _ ← unlock;
  mret (Go tt).

Definition mam_iteration (core : ta_core_t) : proc (iteration unit) :=
  r ← mam_send core;
  match r with
  | Return ret => mret (Return ret)
  | Go (uuid, json) => mam_move core uuid json
  end.

(** [broadcast_buffered_send_mam_request]; [None] is running out of fuel. *)
Fixpoint broadcast_buffered_send_mam_request (fuel : nat) (core : ta_core_t) : proc (option status_t) :=
  match fuel with
  | O => mret None
  | S f =>
      r ← mam_iteration core;
      match r with
      | Return ret => mret (Some ret)
      | Go _ => broadcast_buffered_send_mam_request f core
      end
  end.

(** ** Eviction *)

(** The loop at the end of a period; [errno_erange] tells whether [errno] is
    [ERANGE], the result is the array [uuid], [None] when the loop goes on. *)
Context (errno_erange : bool).

Fixpoint evict (fuel : nat) (core : ta_core_t) (uuid : list Z) : proc (option (list Z)) :=
  match fuel with
  | O => mret None
  | S f =>
      space ← on_cache (Backend.cache_occupied_space errno_erange);
      if negb (cache_capacity (cache core) <? space) then mret (Some uuid) else
      busy ← lock_fails trywrlock;
      if busy : bool then mret (Some uuid) else
      '(_, uuid) ← on_cache (Backend.cache_list_pop (Some (complete_list_name (cache core))) uuid);
      _ ← on_cache (Backend.cache_del (Some (str_of_buf uuid)));
      _ ← unlock;
      evict f core uuid
  end.

(** ** One period of [health_track] *)
Definition health_period (fuel : nat) (core : ta_core_t) (uuid : list Z)
  : proc (option (ta_core_t * list Z)) :=
  ret ← ta_get_node_status (iota_service core);
  '(ret, core) ← (if (ret =? SC_CORE_NODE_UNSYNC) || (ret =? SC_CCLIENT_FAILED_RESPONSE)
                  then ta_update_full_node_connection core else mret (ret, core));
  sent ← (if ret =? SC_OK then broadcast_buffered_txn uninit fuel core else mret (Some ret));
  match sent with
  | None => mret None
  | Some ret =>
      sent ← (if ret =? SC_OK then broadcast_buffered_send_mam_request fuel core else mret (Some ret));
      match sent with
      | None => mret None
      | Some _ => uuid ← evict fuel core uuid; mret ((fun u => (core, u)) <$> uuid)
      end
  end.

(** The thread: periods while the cache is on, at most [n] of them. *)
Fixpoint health_track (fuel n : nat) (core : ta_core_t) (uuid : list Z) : proc (option (ta_core_t * list Z)) :=
  match n with
  | O => mret (Some (core, uuid))
  | S n =>
      if negb (cache_state (cache core)) then mret (Some (core, uuid)) else
      r ← health_period fuel core uuid;
      match r with
      | None => mret None
      | Some (core, uuid) => health_track fuel n core uuid
      end
  end.

End Health.

(** ** Properties *)
Section Properties.
Context {net os db : Type} {lib : IotaLib} {txt : JsonText}
  {node : IotaNode net} {sys : Os os} {server : RedisServer db}.
Context (uninit : nat -> list Z) (uninit_len : forall n, length (uninit n) = n).
Context (never_maxed : forall d : db, maxed d = false).
Import CacheView.
Implicit Types w : world net os db.
Implicit Types m : gmap (list Z) rvalue.

(** *** The node *)

(** The services on the priority list, up to the first empty entry. *)
Fixpoint candidates (hosts : list (option cstr * Z)) (pem : cstr) : list iota_client_service_t :=
  match hosts with
  | (Some host, port) :: r => mkService (take (HOST_MAX_LEN - 1) host) port pem :: candidates r pem
  | _ => []
  end.

(** The first service with a good status, or the last one tried. *)
Definition selected (status_of : iota_client_service_t -> status_t) (s : iota_client_service_t)
    (l : list iota_client_service_t) : iota_client_service_t :=
  match list_find (fun s => status_of s = SC_OK) l with
  | Some (_, s) => s
  | None => default s (last l)
  end.

Lemma try_hosts_spec (status_of : iota_client_service_t -> status_t) hosts :
  (forall s w, exists w', ta_get_node_status s w = Some (status_of s, w')) ->
  forall s w, exists w',
    try_hosts hosts s w = Some (selected status_of s (candidates hosts (http_ca_pem s)), w').
Proof.
  intros Hst. induction hosts as [|[ [host|] port] hosts IH]; intros s w; [by eexists| |by eexists].
  cbn [try_hosts candidates]. set (s1 := connect_to s host port).
  change (mkService _ _ _) with s1 at 1. destruct (Hst s1 w) as [w1 H1]. comp_step H1.
  unfold selected. cbn [list_find].
  destruct (Z.eqb_spec (status_of s1) SC_OK) as [E|E].
  - eexists. rewrite decide_True by done. reflexivity.
  - destruct (IH s1 w1) as [w2 H2]. exists w2. rewrite H2. change (http_ca_pem s1) with (http_ca_pem s).
    rewrite decide_False by done. do 2 f_equal. unfold selected.
    destruct (list_find _ (candidates hosts (http_ca_pem s))) as [ [i s2] |]; [done|].
    rewrite last_cons. by destruct (last (candidates hosts (http_ca_pem s))).
Qed.

(** After [ta_update_full_node_connection] the accelerator talks to the first
    node of the priority list that answers; when none does it talks to the last
    one, and the function returns [SC_OK] all the same. *)
Theorem full_node_selected (status_of : iota_client_service_t -> status_t) core w :
  (forall s w, exists w', ta_get_node_status s w = Some (status_of s, w')) ->
  exists w', ta_update_full_node_connection core w =
    Some ((SC_OK, set_service core (selected status_of (iota_service core)
      (candidates (take MAX_NODE_LIST_ELEMENTS
         (zip (iota_host_list (ta_conf core)) (iota_port_list (ta_conf core))))
         (http_ca_pem (iota_service core))))), w').
Proof.
  intros Hst. unfold ta_update_full_node_connection.
  destruct (try_hosts_spec status_of (take MAX_NODE_LIST_ELEMENTS
    (zip (iota_host_list (ta_conf core)) (iota_port_list (ta_conf core)))) Hst (iota_service core) w) as [w' H].
  comp_step H. by exists w'.
Qed.

(** *** Eviction *)

Section Eviction.
(** The memory the server reports, as a function of the keyspace. *)
Context (errno_erange : bool) (used : gmap (list Z) rvalue -> Z).
Definition reports : Prop := forall (e : Backend.env db) m, cache_is e m -> exists e',
  Backend.cache_occupied_space errno_erange e = Some (used m, e') /\ cache_is e' m.

(** The keyspace without the first [k] requests of the complete list [C]. *)
Fixpoint evicted (c : ta_cache_t) m (C : list cstr) (k : nat) {struct k} : gmap (list Z) rvalue :=
  match k, C with
  | S k, u :: C => evicted c (fetched c m u (u :: C)) C k
  | _, _ => m
  end.

Lemma space_step w m : reports -> cache_is (w_cache w) m -> exists w',
  on_cache (Backend.cache_occupied_space errno_erange) w = Some (used m, w') /\
  cache_is (w_cache w') m /\ w_lock w' = w_lock w.
Proof.
  intros Hr Hc. destruct (on_cache_is (Backend.cache_occupied_space errno_erange) w (used m) m)
    as (w' & H & Hc' & _ & _ & Hl); [by apply Hr|]. by exists w'.
Qed.

(** One round that evicts a request. *)
Lemma evict_round core w m B u C uuid f : reports ->
  cache_is (w_cache w) m -> buffered (cache core) m B (u :: C) -> w_lock w = Unlocked ->
  length uuid = N_UUID -> cache_capacity (cache core) < used m ->
  exists w', evict errno_erange (S f) core uuid w = evict errno_erange f core (u ++ [0]) w' /\
    cache_is (w_cache w') (fetched (cache core) m u (u :: C)) /\ w_lock w' = Unlocked.
Proof.
  intros Hr Hc Hb Hl Hu Hcap. set (c := cache core) in *. cbn [evict].
  destruct (b_keys _ _ _ _ Hb u) as [_ Hk]; [rewrite elem_of_app, elem_of_cons; auto|].
  destruct (b_data _ _ _ _ Hb u) as (ts & Hts & _); [rewrite elem_of_app, elem_of_cons; auto|].
  pose proof (b_uuid _ _ _ _ Hb) as Hf. apply Forall_app in Hf as [_ Hf]. apply Forall_cons in Hf as [Hui _].
  destruct (space_step w m Hr Hc) as (w1 & H1 & Hc1 & L1). comp_step H1.
  rewrite (proj2 (Z.ltb_lt _ _)) by done. cbn [negb].
  unfold mbind at 1, comp_mbind at 1, lock_fails. rewrite L1, Hl. cbn [trywrlock].
  set (w2 := mkWorld _ _ _ WriteLocked).
  destruct (on_cache_is (Backend.cache_list_pop (Some (complete_list_name c)) uuid) w2
    (SC_OK, u ++ [0]) (partial_alter (fun _ => of_list C) (complete_list_name c) m))
    as (w3 & H3 & Hc3 & _ & _ & L3).
  { destruct (pop_is (w_cache w2) m (complete_list_name c) u C uuid) as (e' & He & Hi);
      [done|apply Hb|apply Hui|rewrite Hu, (proj1 Hui); change N_UUID with 37%nat; lia|].
    exists e'. split; [|done]. rewrite He, drop_ge; [done|]. by rewrite Hu, (proj1 Hui). }
  comp_step H3.
  destruct (on_cache_is (Backend.cache_del (Some u)) w3 SC_OK (fetched c m u (u :: C)))
    as (w4 & H4 & Hc4 & _ & _ & L4).
  { destruct (del_is (w_cache w3) _ u Hc3) as (e' & He & Hi). exists e'. split.
    - by rewrite He, lookup_partial_alter_ne, Hts by done.
    - unfold fetched. cbn [tail]. by rewrite <- delete_partial_alter_ne. }
  rewrite uuid_key by done. comp_step H4.
  unfold mbind at 1, comp_mbind at 1, unlock. rewrite L4, L3. cbn [w2 w_lock rwlock_unlock].
  eexists. split; [reflexivity|]. by split.
Qed.

(** Nothing happens while the cache is small enough. *)
Lemma evict_stops core w m uuid f : reports -> cache_is (w_cache w) m ->
  used m <= cache_capacity (cache core) ->
  exists w', evict errno_erange (S f) core uuid w = Some (Some uuid, w') /\
    cache_is (w_cache w') m /\ w_lock w' = w_lock w.
Proof.
  intros Hr Hc Hfit. destruct (space_step w m Hr Hc) as (w1 & H1 & Hc1 & L1).
  exists w1. split; [|done]. cbn [evict]. comp_step H1. by rewrite (proj2 (Z.ltb_ge _ _)) by done.
Qed.

(** C5 Eviction removes completed requests from the head of their list until
    the reported memory fits the capacity, and no further: if removing [k] of them is enough, [k + 1] rounds are, and the
    buffer is well formed afterwards with the rest of the complete list. *)
Theorem evict_spec core B k : forall w m C uuid, reports ->
  cache_is (w_cache w) m -> buffered (cache core) m B C -> w_lock w = Unlocked -> length uuid = N_UUID ->
  (k <= length C)%nat -> used (evicted (cache core) m C k) <= cache_capacity (cache core) ->
  exists j uuid' w', (j <= k)%nat /\
    evict errno_erange (S k) core uuid w = Some (Some uuid', w') /\
    cache_is (w_cache w') (evicted (cache core) m C j) /\
    buffered (cache core) (evicted (cache core) m C j) B (drop j C) /\
    used (evicted (cache core) m C j) <= cache_capacity (cache core) /\
    (forall i, (i < j)%nat -> cache_capacity (cache core) < used (evicted (cache core) m C i)) /\
    w_lock w' = Unlocked.
Proof.
  induction k as [|k IH]; intros w m C uuid Hr Hc Hb Hl Hu HkC Hend.
  { destruct (evict_stops core w m uuid 0 Hr Hc Hend) as (w1 & H1 & Hc1 & L1).
    exists 0%nat, uuid, w1. rewrite drop_0. split; [lia|]. split; [exact H1|]. split; [exact Hc1|].
    split; [exact Hb|]. split; [exact Hend|]. split; [lia|congruence]. }
  destruct (decide (used m <= cache_capacity (cache core))) as [Hfit|Hbig].
  { destruct (evict_stops core w m uuid (S k) Hr Hc Hfit) as (w1 & H1 & Hc1 & L1).
    exists 0%nat, uuid, w1. rewrite drop_0. split; [lia|]. split; [exact H1|]. split; [exact Hc1|].
    split; [exact Hb|]. split; [exact Hfit|]. split; [lia|congruence]. }
  destruct C as [|u C]; [simpl in HkC; lia|].
  destruct (evict_round core w m B u C uuid (S k) Hr Hc Hb Hl Hu) as (w1 & -> & Hc1 & L1); [lia|].
  pose proof (fetched_buffered _ _ _ _ _ Hb) as Hb1.
  pose proof (b_uuid _ _ _ _ Hb) as Hf. apply Forall_app in Hf as [_ Hf]. apply Forall_cons in Hf as [Hui _].
  destruct (IH w1 (fetched (cache core) m u (u :: C)) C (u ++ [0]) Hr Hc1 Hb1 L1)
    as (j & uuid' & w' & Hj & Hrun & Hc' & Hb' & Hfit & Hleast & Hl'); [|simpl in HkC; lia|done|].
  { rewrite length_app, (proj1 Hui). reflexivity. }
  exists (S j), uuid', w'. split; [lia|]. split; [done|]. split; [done|]. split; [done|]. split; [done|].
  split; [|done]. intros [|i] Hi; [simpl; lia|]. apply Hleast. lia.
Qed.

Lemma pop_empty_is (e : Backend.env db) m k res : cache_is e m -> as_list (m !! k) = Some [] ->
  exists e', Backend.cache_list_pop (Some k) res e = Some ((SC_CACHE_FAILED_RESPONSE, res), e') /\ cache_is e' m.
Proof.
  intros [Hs Hm] Hl. unfold Backend.cache_list_pop. rewrite Backend.guarded_on by done.
  unfold Backend.redis_list_pop, mbind, comp_mbind, Backend.command.
  pose proof (redis_LPOP (Backend.conn e) k) as Hp. rewrite Hm, Hl in Hp. destruct Hp as [Hk Hrep].
  destruct (redisCommand (Backend.conn e) (LPOP k)) as [d r]. simpl in *. subst r.
  exists (Backend.mkEnv (Backend.state e) d). split; [done|]. by split.
Qed.

(** When the cache is too large although no completed request is left, as
    happens when the memory is taken by cached transactions, the eviction loop
    never ends: whatever the fuel, it asks for more. *)
Theorem evict_spins core fuel : forall w m uuid, reports ->
  cache_is (w_cache w) m -> as_list (m !! complete_list_name (cache core)) = Some [] ->
  m !! str_of_buf uuid = None -> w_lock w = Unlocked -> cache_capacity (cache core) < used m ->
  exists w', evict errno_erange fuel core uuid w = Some (None, w') /\ cache_is (w_cache w') m.
Proof.
  induction fuel as [|f IH]; intros w m uuid Hr Hc HC Hu Hl Hcap; [by exists w|]. cbn [evict].
  destruct (space_step w m Hr Hc) as (w1 & H1 & Hc1 & L1). comp_step H1.
  rewrite (proj2 (Z.ltb_lt _ _)) by done. cbn [negb].
  unfold mbind at 1, comp_mbind at 1, lock_fails. rewrite L1, Hl. cbn [trywrlock].
  set (w2 := mkWorld _ _ _ WriteLocked).
  destruct (on_cache_is (Backend.cache_list_pop (Some (complete_list_name (cache core))) uuid) w2
    (SC_CACHE_FAILED_RESPONSE, uuid) m) as (w3 & H3 & Hc3 & _ & _ & L3); [by apply pop_empty_is|].
  comp_step H3.
  destruct (on_cache_is (Backend.cache_del (Some (str_of_buf uuid))) w3 SC_CACHE_FAILED_RESPONSE m)
    as (w4 & H4 & Hc4 & _ & _ & L4).
  { destruct (del_is (w_cache w3) m (str_of_buf uuid) Hc3) as (e' & He & Hi). exists e'.
    rewrite He, Hu. split; [done|]. by rewrite delete_id in Hi. }
  comp_step H4. unfold mbind at 1, comp_mbind at 1, unlock. rewrite L4, L3. cbn [w2 w_lock rwlock_unlock].
  by apply IH.
Qed.

End Eviction.

(** *** Buffered requests for MAM messages *)

Section Mam.
Context {mam_req mam_res : Type}
  (deserialize : cstr -> option (status_t * mam_req))
  (send : ta_config_t -> iota_config_t -> iota_client_service_t -> mam_req ->
          @proc net os db (status_t * mam_res))
  (serialize : mam_res -> option (status_t * option cstr)).

(** The texts whose requests can be sent. *)
Context (sendable : cstr -> Prop).

(** Reading such a text is defined, and sending the request does not touch the
    cache and returns a response that can be serialized to a C string. *)
Record mam_functions : Prop := {
  mf_read : forall text, sendable text -> is_Some (deserialize text);
  mf_free : forall conf iconf s req, cache_free (send conf iconf s req);
  mf_send : forall text req conf iconf s w, sendable text -> deserialize text = Some (SC_OK, req) ->
    exists ret res w', send conf iconf s req w = Some ((ret, res), w') /\
      (ret = SC_OK -> exists ret' out, serialize res = Some (ret', out) /\
         (ret' = SC_OK -> exists text', out = Some text' /\ 0 ∉ text'))
}.

(** The two MAM lists hold different UUIDs, with a text at each of them, which
    is a request that can be sent for those of the first list. *)
Record mam_buffered (c : ta_cache_t) m (B C : list cstr) : Prop := {
  q_buffer : as_list (m !! mam_buffer_list_name c) = Some B;
  q_complete : as_list (m !! mam_complete_list_name c) = Some C;
  q_names : mam_buffer_list_name c <> mam_complete_list_name c;
  q_uuid : Forall is_uuid (B ++ C);
  q_nodup : NoDup (B ++ C);
  q_size : Z.of_nat (length (B ++ C)) <= INT_MAX;
  q_keys : forall u, u ∈ B ++ C -> u <> mam_buffer_list_name c /\ u <> mam_complete_list_name c;
  q_data : forall u, u ∈ B ++ C -> exists text, m !! u = Some (RString text) /\ 0 ∉ text /\
    (u ∈ B -> sendable text)
}.

Lemma get_is (e : Backend.env db) m k text res : cache_is e m -> m !! k = Some (RString text) -> 0 ∉ text ->
  exists e', Backend.cache_get (Some k) res e = Some ((SC_OK, Some text), e') /\ cache_is e' m.
Proof.
  intros [Hs Hm] Hk H0. destruct (Backend.redis_get_spec e k res) as (e' & He & Hg).
  rewrite Hm, Hk, str_of_buf_no_nul in Hg by done. exists e'.
  unfold Backend.cache_get. rewrite Backend.guarded_on by done. split; [done|]. by apply (equiv_is e).
Qed.

Lemma set_is (e : Backend.env db) m kb k text timeout : cache_is e m -> m !! k = None ->
  take (length k) kb = k ->
  exists e', Backend.cache_set (Some kb) (strlen k) (Some text) (strlen text) timeout e = Some (SC_OK, e') /\
    cache_is e' (<[k := RString text]> m).
Proof.
  intros [Hs Hm] Hk Hkb. destruct (Backend.redis_set_spec e k text timeout (never_maxed _)) as (e' & He & Hu).
  rewrite Hm, Hk in Hu. exists e'. unfold Backend.cache_set. rewrite Backend.guarded_on by done. split.
  - rewrite <- He. unfold Backend.redis_set, mbind, comp_mbind.
    by rewrite (arg_b_take kb k e Hkb), !Backend.arg_b_whole.
  - by apply (updated_is e e' k).
Qed.

(** The keyspace after the request [u] has been sent, with the response. *)
Definition mam_moved (c : ta_cache_t) m (u text : cstr) (B C : list cstr) : gmap (list Z) rvalue :=
  <[mam_complete_list_name c := RList (u :: C)]>
    (partial_alter (fun _ => of_list B) (mam_buffer_list_name c) (<[u := RString text]> m)).

Lemma mam_moved_buffered c m u text B C :
  mam_buffered c m (u :: B) C -> 0 ∉ text -> mam_buffered c (mam_moved c m u text B C) B (u :: C).
Proof.
  intros Hb Ht. destruct (q_keys _ _ _ _ Hb u) as [Hu1 Hu2]; [by constructor|].
  destruct Hb as [b1 b2 b3 b4 b5 b6 b7 b8]. unfold mam_moved.
  assert ((u :: B) ++ C ≡ₚ B ++ u :: C) as Hp by apply Permutation_middle.
  split.
  - by rewrite lookup_insert_ne, lookup_partial_alter_eq, Backend.as_list_of_list.
  - by rewrite lookup_insert_eq.
  - done.
  - by rewrite <- Hp.
  - by rewrite <- Hp.
  - by rewrite <- Hp.
  - intros v Hv. rewrite <- Hp in Hv. by apply b7.
  - intros v Hv. rewrite <- Hp in Hv. destruct (b7 v Hv).
    rewrite lookup_insert_ne, lookup_partial_alter_ne by done.
    destruct (decide (v = u)) as [->|Hne].
    + rewrite lookup_insert_eq. exists text. split; [done|]. split; [done|].
      intros HB. apply NoDup_cons in b5 as [Hnin _]. exfalso. apply Hnin, elem_of_app. by left.
    + rewrite lookup_insert_ne by done. destruct (b8 v Hv) as (t & H1 & H2 & H3).
      exists t. split; [done|]. split; [done|]. intros HB. apply H3, elem_of_cons. by right.
Qed.

(** What a send can change: the network and the operating system. *)
Definition outside w : net * os := (w_net w, w_os w).

(** The node and the core's settings send [req] and answer with [res]. *)
Definition sent_by (core : ta_core_t) (req : mam_req) w (r : status_t * mam_res) w' : Prop :=
  send (ta_conf core) (iota_conf core) (iota_service core) req w = Some (r, w').

(** The requests with the texts of the list were sent, each of them once and in
    this order, and each answer is printed as the text beside it; nothing else
    happened outside the cache. *)
Inductive sends (core : ta_core_t) : list (cstr * cstr) -> net * os -> net * os -> Prop :=
  | sends_nil s : sends core [] s s
  | sends_cons text req res out w w' l s :
      deserialize text = Some (SC_OK, req) -> sent_by core req w (SC_OK, res) w' ->
      serialize res = Some (SC_OK, Some out) -> sends core l (outside w') s ->
      sends core ((text, out) :: l) (outside w) s.

(** One attempt on the request [text] that ends with the error [ret]: it is not
    read, not sent, or its answer cannot be printed. *)
Inductive attempt_failed (core : ta_core_t) (text : cstr) (ret : status_t) : net * os -> net * os -> Prop :=
  | failed_read req s : deserialize text = Some (ret, req) -> ret <> SC_OK ->
      attempt_failed core text ret s s
  | failed_send req res w w' : deserialize text = Some (SC_OK, req) -> ret <> SC_OK ->
      sent_by core req w (ret, res) w' -> attempt_failed core text ret (outside w) (outside w')
  | failed_print req res out w w' : deserialize text = Some (SC_OK, req) ->
      sent_by core req w (SC_OK, res) w' -> serialize res = Some (ret, out) -> ret <> SC_OK ->
      attempt_failed core text ret (outside w) (outside w').

Abbreviation iterate := (mam_iteration uninit deserialize send serialize).

(** Under the lock the request is moved. *)
Lemma mam_move_spec core w m u text B C :
  cache_is (w_cache w) m -> mam_buffered (cache core) m (u :: B) C -> w_lock w = Unlocked ->
  exists w', mam_move core (u ++ [0]) text w = Some (Go tt, w') /\
    cache_is (w_cache w') (mam_moved (cache core) m u text B C) /\ w_lock w' = Unlocked /\ outside w' = outside w.
Proof.
  intros Hc Hb Hl. set (c := cache core) in *.
  destruct (q_keys _ _ _ _ Hb u) as [Hu1 Hu2]; [by constructor|].
  destruct (q_data _ _ _ _ Hb u) as (old & Hold & _ & _); [by constructor|].
  pose proof (q_uuid _ _ _ _ Hb) as Hf. apply Forall_cons in Hf as [Hu _].
  pose proof (q_names _ _ _ _ Hb) as Hne.
  unfold mam_move. unfold mbind at 1, comp_mbind at 1, lock_fails. rewrite Hl. cbn [trywrlock].
  set (w0 := mkWorld _ _ _ WriteLocked). rewrite uuid_key by done. fold c.
  destruct (on_cache_is (Backend.cache_del (Some u)) w0 SC_OK (delete u m)) as (w1 & H1 & Hc1 & N1 & O1 & L1).
  { destruct (del_is (w_cache w0) m u Hc) as (e' & He & Hi). exists e'. by rewrite He, Hold. }
  comp_step H1. change (SC_OK =? SC_OK) with true. cbn [negb].
  destruct (on_cache_is (Backend.cache_set (Some (u ++ [0])) UUID_LEN (Some text) (strlen text) (i32 (cache_timeout c)))
    w1 SC_OK (<[u := RString text]> m)) as (w2 & H2 & Hc2 & N2 & O2 & L2).
  { rewrite (is_uuid_strlen u Hu), <- insert_delete_eq.
    apply set_is; [done|apply lookup_delete_eq|apply take_app_length]. }
  comp_step H2. change (SC_OK =? SC_OK) with true. cbn [negb].
  destruct (on_cache_is (Backend.cache_list_pop (Some (mam_buffer_list_name c)) (u ++ [0])) w2 (SC_OK, u ++ [0])
    (partial_alter (fun _ => of_list B) (mam_buffer_list_name c) (<[u := RString text]> m)))
    as (w3 & H3 & Hc3 & N3 & O3 & L3).
  { destruct (pop_is (w_cache w2) _ (mam_buffer_list_name c) u B (u ++ [0]) Hc2) as (e' & He & Hi);
      [rewrite lookup_insert_ne by done; apply Hb|apply Hu|rewrite length_app; simpl; lia|].
    exists e'. split; [|done]. rewrite He, drop_ge; [done|]. rewrite length_app. simpl. lia. }
  comp_step H3. change (SC_OK =? SC_OK) with true. cbn [negb].
  destruct (on_cache_is (Backend.cache_list_push (Some (mam_complete_list_name c))
    (strlen (mam_complete_list_name c)) (Some (u ++ [0])) UUID_LEN) w3 SC_OK (mam_moved c m u text B C))
    as (w4 & H4 & Hc4 & N4 & O4 & L4).
  { rewrite (is_uuid_strlen u Hu).
    apply push_take_is; [done|done| |by rewrite take_ge|by rewrite take_app_length].
    rewrite lookup_partial_alter_ne, lookup_insert_ne by done. apply Hb. }
  comp_step H4. change (SC_OK =? SC_OK) with true. cbn [negb].
  unfold mbind, comp_mbind, unlock. rewrite L4, L3, L2, L1. cbn [w0 w_lock rwlock_unlock].
  eexists. split; [reflexivity|]. split; [done|]. split; [done|].
  unfold outside, set_lock. cbn [w_net w_os]. by rewrite N4, N3, N2, N1, O4, O3, O2, O1.
Qed.

(** Before that the cache is only read. *)
Lemma mam_send_spec core w m u B C : mam_functions ->
  cache_is (w_cache w) m -> mam_buffered (cache core) m (u :: B) C ->
  exists json r w', m !! u = Some (RString json) /\
    mam_send uninit deserialize send serialize core w = Some (r, w') /\
    cache_is (w_cache w') m /\ w_lock w' = w_lock w /\
    match r with
    | Return ret => ret <> SC_OK /\ attempt_failed core json ret (outside w) (outside w')
    | Go (ub, text) => ub = u ++ [0] /\ 0 ∉ text /\ sends core [(json, text)] (outside w) (outside w')
    end.
Proof.
  intros Hfun Hc Hb. set (c := cache core) in *.
  destruct (q_data _ _ _ _ Hb u) as (json & Hjson & H0 & Hok);
    [by constructor|]. specialize (Hok ltac:(by constructor)).
  pose proof (q_uuid _ _ _ _ Hb) as Hf. apply Forall_cons in Hf as [Hu _].
  pose proof (q_size _ _ _ _ Hb) as Hsize. rewrite length_app in Hsize.
  exists json. unfold mam_send. fold c.
  destruct (on_cache_is (Backend.cache_list_size (Some (mam_buffer_list_name c)) 0) w
    (SC_OK, Z.of_nat (length (u :: B))) m) as (w1 & H1 & Hc1 & N1 & O1 & L1);
    [apply size_is; [done|apply Hb|lia]|].
  comp_step H1. change (SC_OK =? SC_OK) with true. cbn [negb].
  rewrite (proj2 (Z.eqb_neq _ _)) by (simpl; lia).
  destruct (on_cache_is (Backend.cache_list_peek (Some (mam_buffer_list_name c)) UUID_STR_LEN (uninit N_UUID)) w1
    (SC_OK, u ++ [0]) m) as (w2 & H2 & Hc2 & N2 & O2 & L2).
  { destruct (peek_is (w_cache w1) m (mam_buffer_list_name c) u B UUID_STR_LEN (uninit N_UUID) Hc1)
      as (e' & He & Hi); [apply Hb|apply Hu| | |].
    - unfold strlen, UUID_STR_LEN, INT_MAX. rewrite (proj1 Hu). lia.
    - rewrite uninit_len, (proj1 Hu). change N_UUID with 37%nat. lia.
    - exists e'. by rewrite He, (uuid_array uninit uninit_len u Hu). }
  comp_step H2. change (SC_OK =? SC_OK) with true. cbn [negb]. rewrite uuid_key by done.
  destruct (on_cache_is (Backend.cache_get (Some u) None) w2 (SC_OK, Some json) m)
    as (w3 & H3 & Hc3 & N3 & O3 & L3); [by apply get_is|].
  comp_step H3. change (SC_OK =? SC_OK) with true. cbn [negb].
  unfold mbind at 1, comp_mbind at 1, check at 1. cbv beta iota.
  assert (w_lock w3 = w_lock w) as L by congruence.
  assert (outside w = outside w3) as -> by (unfold outside; congruence).
  destruct (mf_read Hfun json Hok) as [[ret req] Hread].
  unfold mbind at 1, comp_mbind at 1, check at 1. rewrite Hread.
  destruct (Z.eqb_spec ret SC_OK) as [->|Hr]; cbn [negb]; [|by eauto 9 using failed_read].
  destruct (mf_send Hfun json req (ta_conf core) (iota_conf core) (iota_service core) w3 Hok Hread)
    as (ret2 & res & w4 & H4 & Hout).
  destruct (cache_free_same _ _ _ _ (mf_free Hfun _ _ _ _) H4) as [E4 L4].
  comp_step H4. rewrite <- E4 in Hc3. rewrite <- L4 in L.
  destruct (Z.eqb_spec ret2 SC_OK) as [->|Hr]; cbn [negb]; [|by eauto 9 using failed_send].
  destruct (Hout eq_refl) as (ret3 & out & Eser & Htext).
  unfold mbind at 1, comp_mbind at 1, check at 1. rewrite Eser.
  destruct (Z.eqb_spec ret3 SC_OK) as [->|Hr]; cbn [negb]; [|by eauto 9 using failed_print].
  destruct (Htext eq_refl) as (text & -> & Ht). exists (Go (u ++ [0], text)), w4.
  eauto 9 using sends_cons, sends_nil.
Qed.

Lemma mam_empty core w m C : cache_is (w_cache w) m -> mam_buffered (cache core) m [] C ->
  exists w', iterate core w = Some (Return SC_OK, w') /\ cache_is (w_cache w') m /\ w_lock w' = w_lock w /\
    outside w' = outside w.
Proof.
  intros Hc Hb. unfold mam_iteration, mam_send.
  destruct (on_cache_is (Backend.cache_list_size (Some (mam_buffer_list_name (cache core))) 0) w
    (SC_OK, 0) m) as (w1 & H1 & Hc1 & N1 & O1 & L1).
  { apply (size_is (w_cache w) m _ []); [done|apply Hb|done]. }
  exists w1. split; [|split; [done|]; split; [done|]; unfold outside; congruence].
  unfold mbind, comp_mbind. by rewrite H1.
Qed.

Lemma mam_moved_frame c m u text B C k :
  k <> mam_buffer_list_name c -> k <> mam_complete_list_name c ->
  mam_moved c m u text B C !! k = if decide (k = u) then Some (RString text) else m !! k.
Proof.
  intros H1 H2. unfold mam_moved. rewrite lookup_insert_ne, lookup_partial_alter_ne by done.
  case_decide as E; [subst; apply lookup_insert_eq|by apply lookup_insert_ne].
Qed.

Lemma sends_first core x s1 s2 l s3 : sends core [x] s1 s2 -> sends core l s2 s3 -> sends core (x :: l) s1 s3.
Proof.
  intros H. inversion H as [|text req res out w w' l' s' H1 H2 H3 H4]; subst. inversion H4; subst.
  eauto using sends_cons.
Qed.

Lemma sends_one core text out s1 s2 : sends core [(text, out)] s1 s2 -> exists req res w w',
  deserialize text = Some (SC_OK, req) /\ sent_by core req w (SC_OK, res) w' /\
  serialize res = Some (SC_OK, Some out) /\ outside w = s1 /\ outside w' = s2.
Proof.
  intros H. inversion H as [|text' req res out' w w' l' s' H1 H2 H3 H4]; subst. inversion H4; subst. eauto 9.
Qed.

(** The request of [u] and its answer before and after. *)
Definition answered m m' (u : cstr) (x : cstr * cstr) : Prop :=
  m !! u = Some (RString x.1) /\ m' !! u = Some (RString x.2).

Lemma Forall2_impl_in {A B} (P Q : A -> B -> Prop) l k :
  Forall2 P l k -> (forall x y, x ∈ l -> P x y -> Q x y) -> Forall2 Q l k.
Proof.
  induction 1 as [|x y l k Hxy _ IH]; intros HPQ; constructor.
  - apply HPQ; [by left|done].
  - apply IH. intros a b Ha. apply HPQ. by right.
Qed.

(** One more request moved before the others: what the keys hold. *)
Lemma moved_answers core m m' u json text B1 B2 C l :
  let m1 := mam_moved (cache core) m u text (B1 ++ B2) C in
  let free k := k <> mam_buffer_list_name (cache core) /\ k <> mam_complete_list_name (cache core) in
  mam_buffered (cache core) m (u :: B1 ++ B2) C -> m !! u = Some (RString json) ->
  Forall2 (answered m1 m') B1 l ->
  (forall k, k ∉ B1 -> k <> mam_buffer_list_name (cache core) -> k <> mam_complete_list_name (cache core) ->
     m' !! k = m1 !! k) ->
  Forall2 (answered m m') (u :: B1) ((json, text) :: l) /\
  (forall k, k ∉ u :: B1 -> k <> mam_buffer_list_name (cache core) -> k <> mam_complete_list_name (cache core) ->
     m' !! k = m !! k) /\
  (forall v, v ∈ B1 ++ B2 -> m1 !! v = m !! v).
Proof.
  intros m1 free Hb Hm Hans Hframe. pose proof (q_nodup _ _ _ _ Hb) as Hnd.
  apply NoDup_cons in Hnd as [Hnin _].
  assert (forall v, v ∈ u :: B1 ++ B2 -> free v) as Hfree.
  { intros v Hv. apply (q_keys _ _ _ _ Hb). rewrite elem_of_app. auto. }
  assert (forall v, v ∈ B1 ++ B2 -> m1 !! v = m !! v) as Hold.
  { intros v Hv. destruct (Hfree v) as [F1 F2]; [by right|]. unfold m1. rewrite mam_moved_frame by done.
    rewrite decide_False; [done|]. intros ->. apply Hnin, elem_of_app. by left. }
  destruct (Hfree u) as [F1 F2]; [by left|]. split; [constructor|split; [|done] ].
  - split; [exact Hm|]. rewrite Hframe by (try done; intros H; apply Hnin; rewrite !elem_of_app; auto).
    unfold m1. by rewrite mam_moved_frame, decide_True.
  - eapply Forall2_impl_in; [exact Hans|]. intros v x Hv [H1 H2]. split; [|done].
    rewrite <- Hold; [done|]. rewrite elem_of_app. auto.
  - intros k [Hk Hk1]%not_elem_of_cons Hn1 Hn2. rewrite Hframe by done. unfold m1.
    by rewrite mam_moved_frame, decide_False.
Qed.

(** C4 The loop over the buffered MAM requests ends after at most one round per
    request. The requests at the head of the list were read from their own
    texts and sent, each exactly once and in order; each of their UUIDs now
    holds the printed answer to that very send and is on the complete list. The
    next request, if there is one, failed with the status the loop returns, and
    it and the rest are still buffered with their texts. Nothing is lost or duplicated, other keys
    are untouched, and the lock is free. *)
Theorem mam_broadcast_total core B : forall fuel w m C, mam_functions ->
  cache_is (w_cache w) m -> mam_buffered (cache core) m B C -> w_lock w = Unlocked -> (length B < fuel)%nat ->
  exists ret w' m' B1 B2 l s,
    broadcast_buffered_send_mam_request uninit deserialize send serialize fuel core w = Some (Some ret, w') /\
    B = B1 ++ B2 /\ cache_is (w_cache w') m' /\ mam_buffered (cache core) m' B2 (rev B1 ++ C) /\
    Forall2 (answered m m') B1 l /\ sends core l (outside w) s /\
    match B2 with
    | [] => ret = SC_OK /\ outside w' = s
    | u :: _ => ret <> SC_OK /\ exists text, m !! u = Some (RString text) /\
        attempt_failed core text ret s (outside w')
    end /\
    (forall k, k ∉ B1 -> k <> mam_buffer_list_name (cache core) -> k <> mam_complete_list_name (cache core) ->
       m' !! k = m !! k) /\
    w_lock w' = Unlocked.
Proof.
  induction B as [|u B IH]; intros [|fuel] w m C Hfun Hc Hb Hl Hf; try (simpl in Hf; lia);
    cbn [broadcast_buffered_send_mam_request].
  - destruct (mam_empty core w m C Hc Hb) as (w1 & H1 & Hc1 & L1 & O1). comp_step H1.
    exists SC_OK, w1, m, [], [], [], (outside w). repeat (split; [first [done|constructor]|]). congruence.
  - destruct (mam_send_spec core w m u B C Hfun Hc Hb) as (json & [ret|[ub text] ] & w1 & Hm & H1 & Hc1 & L1 & Hr).
    + rewrite (comp_bind_eq _ _ w (Return ret) w1) by (unfold mam_iteration; by comp_step H1).
      exists ret, w1, m, [], (u :: B), [], (outside w). destruct Hr as [Hr Hfail].
      do 4 (split; [done|]). split; [constructor|]. split; [constructor|]. split; [eauto|]. split; [done|congruence].
    + destruct Hr as (-> & Ht & Hsent). rewrite Hl in L1.
      destruct (mam_move_spec core w1 m u text B C Hc1 Hb L1) as (w2 & H2 & Hc2 & L2 & O2).
      rewrite (comp_bind_eq _ _ w (Go tt) w2) by (unfold mam_iteration; by comp_step H1).
      destruct (IH fuel w2 _ _ Hfun Hc2 (mam_moved_buffered _ _ _ _ _ _ Hb Ht) L2)
        as (ret & w' & m' & B1 & B2 & l & s & Hrun & -> & Hc' & Hb' & Hans & Hl1 & Hend & Hframe & Hl');
        [simpl in Hf; lia|].
      rewrite O2 in Hl1. destruct (moved_answers core m m' u json text B1 B2 C l Hb Hm Hans Hframe) as (Ha & Hfr & Hold).
      exists ret, w', m', (u :: B1), B2, ((json, text) :: l), s. split; [exact Hrun|]. split; [done|]. split; [done|].
      split; [simpl; by rewrite <- app_assoc|]. split; [exact Ha|]. split; [by eapply sends_first|].
      split; [|by split]. destruct B2 as [|v B2]; [done|].
      destruct Hend as (Hret & t & Hv & Hfail). split; [done|]. exists t. split; [|done].
      rewrite <- Hold; [done|]. rewrite elem_of_app, elem_of_cons. auto.
Qed.

End Mam.

End Properties.


(** ** Evaluations *)
Module HealthWitness.
Import ToyWorld RedisModel CacheView BufferWitness.

(** *** Eviction *)

Lemma digits_cstr ds : Forall (fun c => is_digit c = true) ds -> is_cstr ds.
Proof. intros H. eapply Forall_impl; [exact H|]. intros c Hc. unfold is_digit in Hc. lia. Qed.

Lemma toy_reports : reports (server := server) false memory.
Proof.
  intros e m [Hs <-]. set (n := memory (keyspace (Backend.conn e))).
  assert (0 <= n <= INT_MAX) as Hn by (subst n; unfold memory, INT_MAX; lia).
  destruct (dec_nat_spec n) as (Hd & _ & _); [lia|].
  destruct (CacheSpec.cache_occupied_space_spec e (lit "# Memory" ++ [13; 10]) n []) as (e' & Heq & Hrun);
    [done|unfold INT_MAX, LONG_MAX in *; lia| |reflexivity|reflexivity|].
  - unfold is_cstr. rewrite !Forall_app. split; [|split; [|split; [by apply digits_cstr|] ] ].
    all: apply (bool_decide_unpack _); vm_compute; exact I.
  - exists e'. rewrite (proj2 (Z.leb_le n INT_MAX)) in Hrun by lia. split; [exact Hrun|]. by apply (equiv_is e).
Qed.

Definition small_core : ta_core_t :=
  mkCore (ta_conf toy_core)
    (mkCacheConf (cache_host (cache toy_core)) 0 BUFFER_LIST_NAME COMPLETE_LIST_NAME
       MAM_BUFFER_LIST_NAME MAM_COMPLETE_LIST_NAME 0 true 869000)
    (iota_conf toy_core) (iota_service toy_core) [].

Lemma small_buffered B C m : buffered (cache toy_core) m B C -> buffered (cache small_core) m B C.
Proof. intros [? ? ? ? ? ? ? ?]. by split. Qed.

Lemma evict_spec_witness : exists uuid' w',
  evict false 3 small_core (garbage 37) (toy true [uuid_of 1] [uuid_of 2; uuid_of 3]) = Some (Some uuid', w').
Proof.
  destruct (evict_spec false memory small_core [uuid_of 1] 2 (toy true [uuid_of 1] [uuid_of 2; uuid_of 3])
    (toy_map [uuid_of 1] [uuid_of 2; uuid_of 3]) [uuid_of 2; uuid_of 3] (garbage 37))
    as (j & uuid' & w' & _ & H & _);
    [exact toy_reports|apply toy_is|apply small_buffered; toy_buffer|reflexivity|reflexivity|simpl; lia
    |vm_compute; discriminate|].
  exists uuid', w'. exact H.
Defined.

(** Nothing but a cached transaction. *)
Definition full_map : db := list_to_map ((fun i => (uuid_of i, RString [65])) <$> [1; 2; 3; 4]).

Lemma evict_spins_witness : exists w',
  evict false 50 small_core (replicate 37 0)
    (mkWorld (mkNet true [] []) 0 (Backend.mkEnv true full_map) Unlocked) = Some (None, w').
Proof.
  destruct (evict_spins false memory small_core 50
    (mkWorld (mkNet true [] []) 0 (Backend.mkEnv true full_map) Unlocked) full_map (replicate 37 0))
    as (w' & H & _); [exact toy_reports|done|reflexivity|reflexivity|reflexivity|vm_compute; reflexivity|].
  exists w'. exact H.
Defined.

(** *** The node *)

(** A node that is up only at one host. *)
Definition up_at (host : cstr) : IotaNode unit := {|
  iota_client_get_transactions_to_approve _ n _ := (None, n);
  iota_client_store_and_broadcast _ n _ := (false, n);
  iota_client_find_transactions _ n _ := (None, n);
  iota_client_get_trytes _ n _ := (None, n);
  iota_client_get_transaction_objects _ n _ := (None, n);
  iota_client_prepare_transfers _ n _ _ _ _ := (None, n);
  iota_service_query s n _ :=
    (if decide (http_host s = host) then Some (CoreWitness.lagging) else None, n) |}.

Definition three_hosts : ta_core_t :=
  mkCore (mkTaConf [] [] 0 [Some (lit "first"); Some (lit "second"); Some (lit "third"); None; None]
            [1; 2; 3; 4; 5] 0 0 0 [])
    (cache toy_core) (iota_conf toy_core) (mkService (lit "old") 7 [112]) [].

Lemma full_node_selected_witness : exists w',
  ta_update_full_node_connection (node := up_at (lit "second")) (txt := JsonModel.text) three_hosts
    (mkWorld tt 0 (Backend.mkEnv true (∅ : db)) Unlocked) =
  Some ((SC_OK, set_service three_hosts (mkService (lit "second") 2 [112])), w').
Proof.
  destruct (full_node_selected (node := up_at (lit "second")) (txt := JsonModel.text)
    (fun s => if decide (http_host s = lit "second") then SC_OK else SC_CCLIENT_FAILED_RESPONSE) three_hosts
    (mkWorld tt 0 (Backend.mkEnv true (∅ : db)) Unlocked)) as [w' H]; [|exists w'; exact H].
  intros s w. unfold ta_get_node_status, on_net, mbind, comp_mbind. cbn [iota_service_query up_at].
  case_decide; eexists; [|reflexivity]. vm_compute. reflexivity.
Defined.

(** *** Requests for MAM messages *)

(** One that is sent as it is, and its response. *)
Definition echo_deserialize (text : cstr) : option (status_t * cstr) := Some (SC_OK, text).
Definition echo_send (_ : ta_config_t) (_ : iota_config_t) (_ : iota_client_service_t) (req : cstr)
  : @proc toy_net Z db (status_t * cstr) := mret (SC_OK, req).
Definition echo_serialize (res : cstr) : option (status_t * option cstr) := Some (SC_OK, Some (65 :: res)).

Lemma echo_functions : mam_functions echo_deserialize echo_send echo_serialize (fun text => 0 ∉ text).
Proof.
  split.
  - intros text _. by eexists.
  - intros conf iconf s req. apply cache_free_ret.
  - intros text req conf iconf s w H0 [= <-]. exists SC_OK, text, w. split; [done|]. intros _.
    exists SC_OK, (Some (65 :: text)). split; [done|]. intros _. exists (65 :: text). split; [done|].
    by intros [?|?]%elem_of_cons.
Qed.

Definition mam_map : db :=
  <[MAM_BUFFER_LIST_NAME := RList [uuid_of 1; uuid_of 2] ]>
    (<[uuid_of 1 := RString [66] ]> (<[uuid_of 2 := RString [67] ]> ∅)).

Lemma mam_broadcast_total_witness : exists ret w',
  broadcast_buffered_send_mam_request garbage echo_deserialize echo_send echo_serialize 3 toy_core
    (mkWorld (mkNet true [] []) 0 (Backend.mkEnv true mam_map) Unlocked) = Some (Some ret, w').
Proof.
  destruct (mam_broadcast_total garbage garbage_len toy_unlimited echo_deserialize echo_send echo_serialize
    (fun text => 0 ∉ text) toy_core [uuid_of 1; uuid_of 2] 3 (mkWorld (mkNet true [] []) 0 (Backend.mkEnv true mam_map) Unlocked)
    mam_map []) as (ret & w' & _ & _ & _ & _ & _ & H & _);
    [exact echo_functions|done| |reflexivity|simpl; lia|].
  { split; [vm_compute; reflexivity|vm_compute; reflexivity|done| | |done| |].
    - repeat constructor; apply uuid_of_ok; done.
    - apply (bool_decide_unpack _); vm_compute; exact I.
    - intros u [->|[->|Hu%not_elem_of_nil]%elem_of_cons]%elem_of_cons; done.
    - intros u [->|[->|Hu%not_elem_of_nil]%elem_of_cons]%elem_of_cons; [exists [66]|exists [67]|done];
        (split; [vm_compute; reflexivity|];
         split; [|intros _]; apply (bool_decide_unpack _); vm_compute; exact I). }
  exists ret, w'. exact H.
Defined.
End HealthWitness.
