(* ===== verification/MamFlow.v ===== *)
(** * Requests for MAM messages, end to end

    The API functions on MAM messages against the contract of the cache, and the
    life of a request: [api_send_mam_message] ([Mam]) checks and buffers it, the
    periodical task ([Health]) sends it with [ta_send_mam_message] ([Mam]) and
    keeps the response, [ta_fetch_mam_with_uuid] ([Buffer]) hands it out. *)

From S2P Require Import Prelude TaErrors Utils Json Cache World Pow Config Serializer SerMam Core Buffer Mam Health.

(** [ta_send_mam_message] as the periodical task calls it, with a new response;
    running out of fuel counts as undefined. *)
Definition mam_sender {net os db : Type} {lib : IotaLib} {node : IotaNode net} {mnode : MamNode net}
    {sys : Os os} {mlib : MamLib} {mos : MamOs os} (fuel : nat)
    (info : ta_config_t) (iconf : iota_config_t) (service : iota_client_service_t) (req : ta_send_mam_req_t)
  : @proc net os db (status_t * ta_send_mam_res_t) :=
  r ← ta_send_mam_message fuel info iconf service req send_mam_res_new;
  check r.

Section Flow.
Context {net os db : Type} {lib : IotaLib} {txt : JsonText} {node : IotaNode net} {mnode : MamNode net}
  {sys : Os os} {server : RedisServer db} {mlib : MamLib} {mos : MamOs os}.
Context (uninit : nat -> list Z) (uninit_len : forall n, length (uninit n) = n) (protocol0 : Z)
  (never_maxed : forall d : db, maxed d = false).
Import CacheView.
Implicit Types w : world net os db.
Implicit Types m : gmap (list Z) rvalue.

(** ** Registration *)

(** The keyspace with a channel registered for the user [u]. *)
Definition registered m (u sd : cstr) : gmap (list Z) rvalue := <[u := RString sd]> m.

(** A value given as the beginning of an array. *)
Lemma set_value_is (e : Backend.env db) m k vb v timeout : cache_is e m -> m !! k = None ->
  take (length v) vb = v ->
  exists e', Backend.cache_set (Some k) (strlen k) (Some vb) (strlen v) timeout e = Some (SC_OK, e') /\
    cache_is e' (<[k := RString v]> m).
Proof.
  intros He Hk Hv. destruct (set_is never_maxed e m k k v timeout He Hk) as (e' & Hs & Hi); [by apply take_ge|].
  exists e'. split; [|done]. rewrite <- Hs. unfold Backend.cache_set. destruct He as [Hst _].
  rewrite !Backend.guarded_on by done. unfold Backend.redis_set, mbind, comp_mbind.
  by rewrite !Backend.arg_b_whole, (arg_b_take vb v e Hv).
Qed.

(** Registering a channel stores the seed under a fresh user ID, changes
    nothing else, and the response is read back as that ID. *)
Theorem register_stores_seed c sd w m u o buf :
  cache_is (w_cache w) m -> uuid_random (w_os w) = (u, o) -> is_uuid u -> is_cstr u -> m !! u = None ->
  is_trytes N_HASH sd -> length buf = 37%nat ->
  exists text w',
    api_register_mam_channel uninit c (cJSON_PrintUnformatted (JObject [(lit "seed", JString sd)])) w =
      Some ((SC_OK, Some text), w') /\
    cache_is (w_cache w') (registered m u sd) /\
    register_mam_channel_res_deserialize (Some text) buf = Some (SC_OK, u ++ [0]).
Proof.
  intros Hc Hr Hu Hcu Hfresh Hsd Hbuf. unfold api_register_mam_channel.
  destruct (register_res_roundtrip u buf) as (text & Hser & Hdes); [split; [done|apply Hu]|done|].
  unfold mbind at 1, comp_mbind at 1, check at 1.
  rewrite (register_req_is sd (uninit (S N_HASH))); [|cbn [json_ok forallb fst snd]; by rewrite (bool_decide_true (is_cstr sd)) by apply Hsd|done|apply uninit_len].
  change (negb (SC_OK =? SC_OK)) with false. cbv iota.
  unfold ta_register_mam_channel. cbn [rg_seed].
  set (w1 := mkWorld (w_net w) o (w_cache w) (w_lock w)).
  destruct (on_cache_is (Backend.cache_set (Some u) UUID_LEN (Some (sd ++ [0])) NUM_TRYTES_ADDRESS (i32 (cache_timeout c)))
    w1 SC_OK (<[u := RString sd]> m)) as (w2 & H2 & Hc2 & _).
  { rewrite (is_uuid_strlen u Hu). replace NUM_TRYTES_ADDRESS with (strlen sd).
    - apply set_value_is; [done|done|apply take_app_length].
    - unfold strlen. by rewrite (proj2 Hsd). }
  exists text, w2. split; [|done].
  assert ((uuid ← on_os uuid_random; if bool_decide (uuid = []) then mret (SC_OK, uuid) else
    ret ← on_cache (Backend.cache_set (Some uuid) UUID_LEN (Some (sd ++ [0])) NUM_TRYTES_ADDRESS (i32 (cache_timeout c)));
    mret (ret, uuid)) w = Some ((SC_OK, u), w2)) as Hreg.
  { comp_step (on_os_run _ _ _ _ Hr). rewrite bool_decide_false; [|by intros ->; destruct Hu].
    by comp_step H2. }
  comp_step Hreg. change (negb (SC_OK =? SC_OK)) with false. cbv iota. by rewrite Hser.
Qed.

(** ** Buffering *)

Context (sendable : cstr -> Prop).

(** A request that is accepted is buffered under a fresh UUID, which is the
    response. *)
Lemma api_send_buffers c obj req w m B C u o :
  send_mam_message_req_deserialize uninit (Some obj) (send_mam_req_new protocol0 uninit) = Some (SC_OK, req) ->
  sendable obj -> 0 ∉ obj ->
  cache_is (w_cache w) m -> mam_buffered sendable c m B C -> uuid_random (w_os w) = (u, o) -> is_uuid u ->
  m !! u = None -> u <> mam_buffer_list_name c -> u <> mam_complete_list_name c ->
  Z.of_nat (S (length (B ++ C))) <= INT_MAX ->
  exists w' m', api_send_mam_message uninit protocol0 c obj w =
      Some ((SC_OK, Some (cJSON_PrintUnformatted (JObject [(lit "uuid", JString u)]))), w') /\
    cache_is (w_cache w') m' /\ w_lock w' = w_lock w /\
    mam_buffered sendable c m' (u :: B) C /\ m' !! u = Some (RString obj).
Proof.
  intros Hreq Hs H0 Hc Hb Hr Hu Hfresh Hu1 Hu2 Hsize. unfold api_send_mam_message.
  unfold mbind at 1, comp_mbind at 1, check at 1. rewrite Hreq.
  change (negb (SC_OK =? SC_OK)) with false. cbv iota.
  comp_step (on_os_run _ _ _ _ Hr). rewrite bool_decide_false by (intros ->; by destruct Hu).
  set (w1 := mkWorld (w_net w) o (w_cache w) (w_lock w)).
  destruct (on_cache_is (Backend.cache_set (Some u) UUID_LEN (Some obj) (strlen obj) (i32 (cache_timeout c)))
    w1 SC_OK (<[u := RString obj]> m)) as (w2 & H2 & Hc2 & _ & _ & L2).
  { rewrite (is_uuid_strlen u Hu). apply set_is; [done|done|done|by apply take_ge]. }
  comp_step H2. change (negb (SC_OK =? SC_OK)) with false. cbv iota.
  destruct (on_cache_is (Backend.cache_list_push (Some (mam_buffer_list_name c)) (strlen (mam_buffer_list_name c))
    (Some u) UUID_LEN) w2 SC_OK (<[mam_buffer_list_name c := RList (u :: B)]> (<[u := RString obj]> m)))
    as (w3 & H3 & Hc3 & _ & _ & L3).
  { rewrite (is_uuid_strlen u Hu). apply push_is; [done|done|]. rewrite lookup_insert_ne by done. apply Hb. }
  comp_step H3. change (negb (SC_OK =? SC_OK)) with false. cbv iota.
  eexists w3, _. split; [reflexivity|]. split; [exact Hc3|]. split; [by rewrite L3, L2|].
  destruct Hb as [b1 b2 b3 b4 b5 b6 b7 b8].
  assert (u ∉ B ++ C) as Hnin by (intros Hin; destruct (b8 u Hin) as (t & Ht & _); congruence).
  split; [|by rewrite lookup_insert_ne, lookup_insert_eq]. split.
  - by rewrite lookup_insert_eq.
  - by rewrite !lookup_insert_ne.
  - done.
  - by constructor.
  - by constructor.
  - done.
  - intros v [->|Hv]%elem_of_cons; [done|by apply b7].
  - intros v [->|Hv]%elem_of_cons.
    + rewrite lookup_insert_ne, lookup_insert_eq by done. by exists obj.
    + destruct (b8 v Hv) as (t & Ht & H0t & Hst). destruct (b7 v Hv).
      assert (v <> u) by (by intros ->). rewrite !lookup_insert_ne by done.
      exists t. split; [done|]. split; [done|]. intros [->|HB]%elem_of_cons; [done|by apply Hst].
Qed.

(** ** Fetching *)

(** The cache after the response at [u] was handed out. *)
Definition mam_fetched (c : ta_cache_t) m (u : cstr) (C : list cstr) : gmap (list Z) rvalue :=
  partial_alter (fun _ => of_list (tail C)) (mam_complete_list_name c) (delete u m).

Definition mam_fetch_result (c : ta_cache_t) m (B C : list cstr) (u : cstr)
    (res res' : ta_fetch_buffered_request_status_res_t) (m' : gmap (list Z) rvalue) : Prop :=
  match status_in B C u with
  | MAM_BUFREQ_SENT => exists text, m !! u = Some (RString text) /\
      res' = set_mam (Some text) (set_status MAM_BUFREQ_SENT res) /\ m' = mam_fetched c m u C
  | MAM_BUFREQ_UNSENT => res' = set_status MAM_BUFREQ_UNSENT res /\ m' = m
  | _ => res' = res /\ m' = m
  end.

Lemma mam_hand_out c u w m B C text res : cache_is (w_cache w) m -> mam_buffered sendable c m B C -> u ∈ C ->
  m !! u = Some (RString text) -> exists w1 w2 w3 v,
    on_cache (Backend.cache_get (Some u) res) w = Some ((SC_OK, Some text), w1) /\
    on_cache (Backend.cache_del (Some u)) w1 = Some (SC_OK, w2) /\
    on_cache (Backend.cache_list_pop (Some (mam_complete_list_name c)) (uninit N_UUID)) w2 = Some ((SC_OK, v), w3) /\
    cache_is (w_cache w3) (mam_fetched c m u C) /\ w_lock w3 = w_lock w.
Proof.
  intros Hc Hb Hin Hu. destruct (q_data _ _ _ _ _ Hb u) as (t & Ht & H0 & _); [rewrite elem_of_app; auto|].
  replace t with text in * by congruence.
  destruct (q_keys _ _ _ _ _ Hb u) as [_ Hk]; [rewrite elem_of_app; auto|].
  destruct (on_cache_is (Backend.cache_get (Some u) res) w (SC_OK, Some text) m)
    as (w1 & H1 & Hc1 & _ & _ & L1); [by apply get_is|].
  destruct (on_cache_is (Backend.cache_del (Some u)) w1 SC_OK (delete u m)) as (w2 & H2 & Hc2 & _ & _ & L2).
  { destruct (del_is (w_cache w1) m u Hc1) as (e' & He & Hi). exists e'. by rewrite He, Hu. }
  pose proof (q_complete _ _ _ _ _ Hb) as HC. pose proof (q_uuid _ _ _ _ _ Hb) as Hf.
  destruct C as [|v C]; [by apply not_elem_of_nil in Hin|].
  assert (is_uuid v) as Hv by (apply Forall_app in Hf as [_ Hf]; by inversion Hf).
  destruct (on_cache_is (Backend.cache_list_pop (Some (mam_complete_list_name c)) (uninit N_UUID)) w2
    (SC_OK, v ++ [0]) (mam_fetched c m u (v :: C))) as (w3 & H3 & Hc3 & _ & _ & L3).
  { destruct (pop_is (w_cache w2) (delete u m) (mam_complete_list_name c) v C (uninit N_UUID))
      as (e' & He & Hi); [done|by rewrite lookup_delete_ne|apply Hv| |].
    - rewrite uninit_len, (proj1 Hv). change N_UUID with 37%nat. lia.
    - exists e'. by rewrite He, (uuid_array uninit uninit_len v Hv). }
  exists w1, w2, w3, (v ++ [0]). repeat split; [done..|apply Hc3|apply Hc3|congruence].
Qed.

Lemma fetch_mam_run c u w m B C res :
  cache_is (w_cache w) m -> mam_buffered sendable c m B C -> is_uuid u -> w_lock w = Unlocked ->
  exists res' w' m', ta_fetch_mam_with_uuid uninit c (u ++ [0]) res w = Some ((SC_OK, res'), w') /\
    cache_is (w_cache w') m' /\ w_lock w' = Unlocked /\ mam_fetch_result c m B C u res res' m'.
Proof.
  intros Hc Hb Hu Hl. pose proof (q_size _ _ _ _ _ Hb) as Hsize. rewrite length_app in Hsize.
  pose proof (q_uuid _ _ _ _ _ Hb) as Hf. apply Forall_app in Hf as [HfB HfC].
  unfold ta_fetch_mam_with_uuid. unfold mbind at 1, comp_mbind at 1, lock_fails. rewrite Hl.
  cbn [tryrdlock]. set (w0 := mkWorld _ _ _ _).
  destruct (exist_step uninit uninit_len w0 m (mam_buffer_list_name c) u (u ++ [0]) B false)
    as (w1 & H1 & Hc1 & L1); [done|apply Hb|lia|done|done|by apply take_uuid|].
  comp_step H1. change (SC_OK =? SC_OK) with true. cbn [negb]. unfold mam_fetch_result, status_in.
  assert (forall w', w_lock w' = w_lock w0 -> unlock w' = Some (tt, set_lock w' Unlocked)) as Hunl.
  { intros w' Hw'. unfold unlock. by rewrite Hw'. }
  destruct (decide (u ∈ B)) as [Hin|Hnin].
  { rewrite bool_decide_true by done. comp_step (Hunl w1 L1). eexists _, _, m. split; [done|]. by split. }
  rewrite bool_decide_false by done.
  destruct (exist_step uninit uninit_len w1 m (mam_complete_list_name c) u (u ++ [0]) C false)
    as (w2 & H2 & Hc2 & L2); [done|apply Hb|lia|done|done|by apply take_uuid|].
  comp_step H2. change (SC_OK =? SC_OK) with true. cbn [negb].
  destruct (decide (u ∈ C)) as [HinC|HninC].
  2:{ rewrite bool_decide_false by done. comp_step (Hunl w2 ltac:(congruence)).
      eexists _, _, m. split; [done|]. by split. }
  rewrite bool_decide_true by done. cbv zeta. comp_step (Hunl w2 ltac:(congruence)).
  destruct (q_data _ _ _ _ _ Hb u) as (text & Htext & _ & _); [rewrite elem_of_app; auto|].
  rewrite (c_string_nul u []) by apply Hu. unfold mbind at 1, comp_mbind at 1, check.
  destruct (mam_hand_out c u (set_lock w2 Unlocked) m B C text (fetch_mam_result (set_status MAM_BUFREQ_SENT res)))
    as (w3 & w4 & w5 & v & H3 & H4 & H5 & Hc5 & L5); [done..|].
  comp_step H3. change (SC_OK =? SC_OK) with true. cbn [negb]. comp_step H4.
  change (SC_OK =? SC_OK) with true. cbn [negb]. comp_step H5.
  eexists _, w5, _. split; [done|]. split; [exact Hc5|]. split; [exact L5|]. by exists text.
Qed.

Lemma mam_fetched_buffered c m B C u :
  mam_buffered sendable c m B (u :: C) -> mam_buffered sendable c (mam_fetched c m u (u :: C)) B C.
Proof.
  intros [b1 b2 b3 b4 b5 b6 b7 b8].
  assert (B ++ u :: C ≡ₚ u :: B ++ C) as Hp by (symmetry; apply Permutation_middle).
  rewrite Hp in b4, b5, b6. apply Forall_cons in b4 as [_ b4]. apply NoDup_cons in b5 as [Hnin b5].
  assert (forall v, v ∈ B ++ C -> v ∈ B ++ u :: C) as Hin by (intros v Hv; rewrite Hp; by right).
  destruct (b7 u) as [Hu1 Hu2]; [rewrite Hp; by left|]. unfold mam_fetched. cbn [tail]. split.
  - by rewrite lookup_partial_alter_ne, lookup_delete_ne.
  - by rewrite lookup_partial_alter_eq, Backend.as_list_of_list.
  - done.
  - done.
  - done.
  - simpl in b6. lia.
  - intros v Hv. apply b7, Hin, Hv.
  - intros v Hv. destruct (b7 v (Hin v Hv)). assert (v <> u) by (by intros ->).
    rewrite lookup_partial_alter_ne, lookup_delete_ne by done. apply b8, Hin, Hv.
Qed.

(** ** The sender *)

Lemma cache_free_check {A} (o : option A) : cache_free (net := net) (os := os) (db := db) (check o).
Proof. intros n0 o0 c0 l0 c' l'. unfold check. by destruct o. Qed.

Lemma get_objects_free service hashes : forall txns, cache_free (db := db) (os := os) (get_objects service hashes txns).
Proof.
  induction hashes as [|h hashes IH]; intros txns; cbn [get_objects]; proc_frame.
Qed.

Lemma find_slot_free fuel service depth keys : forall api first chid,
  cache_free (db := db) (os := os) (find_slot fuel service api depth keys first chid).
Proof.
  induction fuel as [|f IH]; intros api first chid; cbn [find_slot]; [apply cache_free_ret|].
  apply cache_free_bind.
  - unfold create_channel_fetch_all_transactions, ta_get_txn_objects_with_txn_hash.
    proc_frame; apply get_objects_free.
  - intros [[[ret api1] chid1] tags]. case_match; [apply cache_free_ret|].
    apply cache_free_bind; [apply cache_free_check|intros leaves].
    apply cache_free_bind; [apply cache_free_check|intros [[r a] [c|]]]; [|apply cache_free_ret].
    do 2 (case_match; [auto with ta|]). apply cache_free_ret.
Qed.

Lemma written_free fuel service api info keys payload chid :
  cache_free (db := db) (os := os) (ta_mam_written_msg_to_bundle fuel service api info keys payload chid).
Proof.
  unfold ta_mam_written_msg_to_bundle, is_setting_changed. proc_frame; try apply find_slot_free.
Qed.

Lemma send_bundle_free info iconf service bundle :
  cache_free (db := db) (os := os) (ta_send_bundle info iconf service bundle).
Proof.
  unfold ta_send_bundle. apply cache_free_bind; [apply ta_send_trytes_frame|intros ?; apply cache_free_ret].
Qed.

#[local] Hint Resolve cache_free_check written_free send_bundle_free : ta.

Lemma mam_sender_free fuel info iconf service req :
  cache_free (net := net) (db := db) (os := os) (mam_sender fuel info iconf service req).
Proof.
  unfold mam_sender, ta_send_mam_message, ta_mam_init, send_message, announce, close_sender.
  proc_frame.
Qed.

Abbreviation deserialize :=
  (fun text => send_mam_message_req_deserialize uninit (Some text) (send_mam_req_new protocol0 uninit)).
Abbreviation serialize := (fun res => send_mam_message_res_serialize (Some res) None).

(** C6 The life of a request for a MAM message on otherwise empty lists:
    [api_send_mam_message] answers with its UUID. The next run of the periodical
    task reads the buffered text and either fails on it, with the status it
    returns, and the request is still reported as unsent; or it calls
    [ta_send_mam_message] once on the request that was buffered, in the state of
    the node and the system left by the API call, and a fetch then hands out
    the printed response of that call and leaves the lists empty again. *)
Theorem mam_request_lifecycle fuel core obj req w m u o res :
  mam_functions (net := net) (os := os) (db := db) deserialize (mam_sender fuel) serialize sendable ->
  deserialize obj = Some (SC_OK, req) -> sendable obj -> 0 ∉ obj ->
  cache_is (w_cache w) m -> mam_buffered sendable (cache core) m [] [] -> w_lock w = Unlocked ->
  uuid_random (w_os w) = (u, o) -> is_uuid u -> m !! u = None ->
  u <> mam_buffer_list_name (cache core) -> u <> mam_complete_list_name (cache core) ->
  exists w1 w2 ret w3 res',
    api_send_mam_message uninit protocol0 (cache core) obj w =
      Some ((SC_OK, Some (cJSON_PrintUnformatted (JObject [(lit "uuid", JString u)]))), w1) /\
    broadcast_buffered_send_mam_request uninit deserialize (mam_sender fuel) serialize 2 core w1 = Some (Some ret, w2) /\
    ta_fetch_mam_with_uuid uninit (cache core) (u ++ [0]) res w2 = Some ((SC_OK, res'), w3) /\
    ((ret <> SC_OK /\ res' = set_status MAM_BUFREQ_UNSENT res /\
      attempt_failed (db := db) deserialize (mam_sender fuel) serialize core obj ret (outside w1) (outside w2)) \/
     (ret = SC_OK /\
      (exists (wa : world net os db) sent (wb : world net os db) text, outside wa = outside w1 /\ outside wb = outside w2 /\
        mam_sender fuel (ta_conf core) (iota_conf core) (iota_service core) req wa = Some ((SC_OK, sent), wb) /\
        serialize sent = Some (SC_OK, Some text) /\
        res' = set_mam (Some text) (set_status MAM_BUFREQ_SENT res)) /\
      exists m3, cache_is (w_cache w3) m3 /\ mam_buffered sendable (cache core) m3 [] [])).
Proof.
  intros Hfun Hreq Hs H0 Hc Hb Hl Hr Hu Hfresh Hu1 Hu2.
  destruct (api_send_buffers (cache core) obj req w m [] [] u o) as (w1 & m1 & H1 & Hc1 & L1 & Hb1 & Hm1); [done..|].
  rewrite Hl in L1. exists w1. cbn [broadcast_buffered_send_mam_request].
  destruct (mam_send_spec uninit uninit_len deserialize (mam_sender fuel) serialize sendable core w1 m1 u [] [] Hfun Hc1 Hb1)
    as (json & [ret|[ub text]] & w2 & Hjson & H2 & Hc2 & L2 & Hit); rewrite L1 in L2;
    replace json with obj in * by congruence.
  - destruct (fetch_mam_run (cache core) u w2 m1 [u] [] res Hc2 Hb1 Hu L2) as (res' & w3 & m3 & H3 & _ & _ & Hres).
    exists w2, ret, w3, res'. destruct Hit as [Hret Hfail]. split; [done|].
    split; [by rewrite (comp_bind_eq _ _ w1 (Return ret) w2) by (unfold mam_iteration; by comp_step H2)|].
    split; [done|]. left. split; [done|].
    unfold mam_fetch_result, status_in in Hres. rewrite decide_True in Hres by by constructor. by destruct Hres.
  - destruct Hit as (-> & Ht & Hsent).
    destruct (mam_move_spec never_maxed sendable core w2 m1 u text [] [] Hc2 Hb1 L2) as (w3 & H3 & Hc3 & L3 & O3).
    pose proof (mam_moved_buffered sendable _ _ _ _ _ _ Hb1 Ht) as Hb3.
    destruct (mam_empty uninit deserialize (mam_sender fuel) serialize sendable core w3 _ _ Hc3 Hb3)
      as (w4 & H4 & Hc4 & L4 & O4). rewrite L3 in L4.
    destruct (fetch_mam_run (cache core) u w4 _ [] [u] res Hc4 Hb3 Hu L4) as (res' & w5 & m5 & H5 & Hc5 & _ & Hres).
    exists w4, SC_OK, w5, res'. split; [done|].
    split; [rewrite (comp_bind_eq _ _ w1 (Go tt) w3) by (unfold mam_iteration; by comp_step H2);
            by rewrite (comp_bind_eq _ _ _ _ _ H4)|].
    split; [done|]. right. split; [done|].
    unfold mam_fetch_result, status_in in Hres.
    rewrite decide_False, decide_True in Hres by (by constructor || by apply not_elem_of_nil).
    destruct Hres as (t & Ht' & -> & ->).
    rewrite (mam_moved_frame _ _ _ _ _ _ _ Hu1 Hu2), decide_True in Ht' by done. injection Ht' as <-. split.
    + destruct (sends_one _ _ _ _ _ _ _ _ Hsent) as (req' & sent & wa & wb & Hreq' & Hrun & Hser & Ea & Eb).
      replace req' with req in * by congruence. exists wa, sent, wb, text. split; [done|]. split; [congruence|done].
    + exists (mam_fetched (cache core) (mam_moved (cache core) m1 u text [] []) u [u]).
      split; [done|]. by apply mam_fetched_buffered.
Qed.

End Flow.

(** ** The hypotheses of the periodical task, from those of the MAM library *)
Section Sender.
Context {net os db : Type} {lib : IotaLib} {txt : JsonText} {node : IotaNode net} {mnode : MamNode net}
  {sys : Os os} {mlib : MamLib} {mos : MamOs os}.
Context (uninit : nat -> list Z) (protocol0 : Z) (print_cstr : forall j, 0 ∉ cJSON_PrintUnformatted j).
Context (depth : Z) (keys : mam_encrypt_key_t) (chan : nat -> trytes)
  (ord : mam_api_t -> nat) (key_index : mam_channel_t -> nat) (id_at tag_at : trytes -> nat -> trits)
  (laws : ChannelLaws depth keys chan ord key_index id_at tag_at)
  (send_laws : SendLaws keys chan ord id_at)
  (txns_of : trytes -> list iota_transaction_t)
  (ledger : forall service chid (w : world net os db), exists w',
     ta_get_txn_objects_with_txn_hash service (channel_query chid) [] w = Some ((SC_OK, txns_of chid), w'))
  (n : nat) (Hn : leaf_num depth = Some n) (Hdepth : 1 <= depth).

Abbreviation deserialize :=
  (fun text => send_mam_message_req_deserialize uninit (Some text) (send_mam_req_new protocol0 uninit)).
Abbreviation serialize := (fun res => send_mam_message_res_serialize (Some res) None).

(** A request with a seed and no assigned channel, with a channel the search
    can end at within [fuel] rounds. *)
Definition sendable_request (fuel : nat) (text : cstr) : Prop := exists req data key message sd api m,
  deserialize text = Some (SC_OK, req) /\ sm_data req = Some data /\ sm_key req = Some key /\
  sd_message data = Some message /\ sd_chid data = None /\ sd_ch_mss_depth data = depth /\
  sd_seed data = Some sd /\ mam_api_init sd = Some api /\
  ta_set_mam_key no_keys (psk_array key) (ntru_array key) [] = Some (SC_OK, keys) /\ (m < fuel)%nat /\
  (forall i, (i < m)%nat -> passed_over tag_at txns_of n (chan (ord api + i))) /\
  ~ passed_over tag_at txns_of n (chan (ord api + m)).

Lemma c_string_terminated s : exists t, c_string (s ++ [0]) = Some t.
Proof.
  unfold c_string. rewrite bool_decide_true; [by eexists|]. rewrite elem_of_app, list_elem_of_singleton. auto.
Qed.

Lemma sent_serializable chid msg_id hash :
  exists text, serialize (sent_res send_mam_res_new chid msg_id hash) = Some (SC_OK, Some text) /\ 0 ∉ text.
Proof.
  unfold send_mam_message_res_serialize.
  destruct (c_string_terminated hash) as [t1 E1], (c_string_terminated chid) as [t2 E2],
    (c_string_terminated msg_id) as [t3 E3].
  cbn [sent_res sr_bundle_hash sr_chid sr_msg_id sr_announcement_bundle_hash sr_chid1 send_mam_res_new].
  rewrite E1; bind_simpl; rewrite E2; bind_simpl; rewrite E3; bind_simpl.
  change (c_string (replicate (S N_HASH) 0)) with (Some ([] : cstr)). bind_simpl.
  eexists. split; [done|apply print_cstr].
Qed.

Lemma announced_serializable chid msg_id hash chid1 hash1 : exists text,
  serialize (announced_res (sent_res send_mam_res_new chid msg_id hash) chid1 hash1) = Some (SC_OK, Some text) /\
  0 ∉ text.
Proof.
  unfold send_mam_message_res_serialize.
  destruct (c_string_terminated hash) as [t1 E1], (c_string_terminated chid) as [t2 E2],
    (c_string_terminated msg_id) as [t3 E3], (c_string_terminated hash1) as [t4 E4],
    (c_string_terminated chid1) as [t5 E5].
  cbn [announced_res sent_res sr_bundle_hash sr_chid sr_msg_id sr_announcement_bundle_hash sr_chid1 send_mam_res_new].
  rewrite E1; bind_simpl; rewrite E2; bind_simpl; rewrite E3; bind_simpl; rewrite E4; bind_simpl; rewrite E5; bind_simpl.
  eexists. split; [done|apply print_cstr].
Qed.

Lemma sender_functions fuel :
  mam_functions (net := net) (os := os) (db := db) deserialize (mam_sender fuel) serialize (sendable_request fuel).
Proof.
  split.
  - intros text (req & data & key & message & sd & api & m & Hd & _). by eexists.
  - intros conf iconf s req. apply mam_sender_free.
  - intros text req conf iconf s w (req' & data & key & message & sd & api & m & Hd & H1 & H2 & H3 & H4 & H5 &
      H6 & H7 & H8 & H9 & H10 & H11) Hreq. replace req' with req in * by congruence.
    destruct (clock_monotonic (w_os w)) as [t o] eqn:Ht.
    assert (ta_mam_init iconf (sd_seed data) w = Some ((SC_OK, Some api), w)) as Hinit
      by (unfold ta_mam_init; by rewrite H6, H7).
    assert (starts_at (mnode := mnode) chan s (sd_chid data) (ord api) w (ord api)) as Hs by (by rewrite H4).
    destruct (send_mam_message_run depth keys chan ord key_index id_at tag_at laws s txns_of (ledger s) n Hn Hdepth
      conf iconf req send_mam_res_new data key message api m fuel w w (ord api) t o)
      as (k & bundle & api1 & w1 & api2 & w2 & ret & res' & w' & _ & _ & Hsent & Hclosed & Hrun); [done..|].
    rewrite H6 in Hclosed. destruct Hclosed as [-> ->].
    assert (exists text, serialize res' = Some (SC_OK, Some text) /\ 0 ∉ text) as (out & Hout & H0).
    { destruct Hsent as (hash & w3 & _ & Hres). cbv zeta in Hres. case_decide.
      - destruct Hres as (hash1 & _ & ->). apply announced_serializable.
      - destruct Hres as (_ & -> & _). apply sent_serializable. }
    exists SC_OK, res', w2. split; [unfold mam_sender; by comp_step Hrun|].
    intros _. exists SC_OK, (Some out). split; [exact Hout|]. intros _. by exists out.
Qed.

End Sender.

(** ** Evaluations *)
Module MamFlowWitness.
Import ToyWorld RedisModel JsonModel ToyMam SerMamWitness MamWitness CacheView.

Lemma toy_print j : 0 ∉ cJSON_PrintUnformatted (JsonText := text) j.
Proof. intros [H|H%not_elem_of_nil]%elem_of_cons; [discriminate H|done]. Qed.

Lemma unlimited (d : db) : maxed d = false.
Proof. reflexivity. Qed.

Definition request_text : cstr :=
  cJSON_PrintUnformatted (send_request [] [] (Some (hash_of 65)) None [72; 105] (Some 2)).

Definition request : ta_send_mam_req_t :=
  mkSendMamReq (replicate 65 0) (Some (mkSendData (Some (hash_of 65)) 2 None (Some [72; 105])))
    (Some (mkMamKey [] [])) MAM_V1.

Lemma request_read :
  send_mam_message_req_deserialize noise (Some request_text) (send_mam_req_new 7 noise) = Some (SC_OK, request).
Proof. vm_compute. reflexivity. Qed.

Abbreviation toy_sendable := (sendable_request (mlib := mam_lib) noise 7 2 no_keys chan_of a_ord tag_of_key (at_address ledger1) 4 2).

Lemma request_sendable : toy_sendable request_text.
Proof.
  exists request, (mkSendData (Some (hash_of 65)) 2 None (Some [72; 105])), (mkMamKey [] []), [72; 105],
    (hash_of 65), fresh_api, 1%nat.
  split; [exact request_read|]. do 8 (split; [reflexivity|]). split; [lia|]. split; [exact before_free|exact free_channel].
Qed.

Lemma ledger_everywhere (service : iota_client_service_t) (chid : trytes) (w : world unit toy_os_state db) : exists w',
  ta_get_txn_objects_with_txn_hash (node := ledger_node ledger1) service (channel_query chid) [] w =
    Some ((SC_OK, at_address ledger1 chid), w').
Proof. apply (ledger_answers ledger1 chid w). Qed.

Lemma toy_functions : mam_functions (net := unit) (os := toy_os_state) (db := db)
  (fun text => send_mam_message_req_deserialize noise (Some text) (send_mam_req_new 7 noise))
  (mam_sender (node := ledger_node ledger1) (mnode := ledger_mam_node ledger1) 2)
  (fun res => send_mam_message_res_serialize (Some res) None) toy_sendable.
Proof.
  apply (sender_functions (mlib := mam_lib) (node := ledger_node ledger1) (mnode := ledger_mam_node ledger1) noise 7 toy_print
    2 no_keys chan_of a_ord (@snd trits nat) id_of_key tag_of_key (channel_laws 2 no_keys) (send_laws no_keys)
    (at_address ledger1) ledger_everywhere 4 eq_refl ltac:(lia) 2).
Qed.

Lemma nothing_buffered : mam_buffered toy_sendable (cache BufferWitness.toy_core) ∅ [] [].
Proof.
  split; [reflexivity|reflexivity|vm_compute; discriminate|constructor|constructor|vm_compute; discriminate| |];
    by intros u ?%not_elem_of_nil.
Qed.

Lemma mam_request_lifecycle_witness : exists w1 w2 ret w3 res',
  api_send_mam_message noise 7 (cache BufferWitness.toy_core) request_text start =
    Some ((SC_OK, Some (cJSON_PrintUnformatted (JObject [(lit "uuid", JString (uuid_of 7))]))), w1) /\
  broadcast_buffered_send_mam_request noise
    (fun text => send_mam_message_req_deserialize noise (Some text) (send_mam_req_new 7 noise))
    (mam_sender (node := ledger_node ledger1) (mnode := ledger_mam_node ledger1) 2)
    (fun res => send_mam_message_res_serialize (Some res) None) 2 BufferWitness.toy_core w1 = Some (Some ret, w2) /\
  ta_fetch_mam_with_uuid noise (cache BufferWitness.toy_core) (uuid_of 7 ++ [0])
    ta_fetch_buffered_request_status_res_new w2 = Some ((SC_OK, res'), w3).
Proof.
  destruct (mam_request_lifecycle (mlib := mam_lib) (node := ledger_node ledger1) (mnode := ledger_mam_node ledger1)
    noise noise_len 7 unlimited toy_sendable 2 BufferWitness.toy_core request_text request start ∅ (uuid_of 7)
    (8, None) ta_fetch_buffered_request_status_res_new toy_functions request_read request_sendable)
    as (w1 & w2 & ret & w3 & res' & H1 & H2 & H3 & _);
    [apply toy_print|done|exact nothing_buffered|reflexivity|reflexivity|by apply BufferWitness.uuid_of_ok
    |reflexivity|vm_compute; discriminate|vm_compute; discriminate|].
  exists w1, w2, ret, w3, res'. split; [exact H1|]. split; [exact H2|exact H3].
Defined.

Lemma register_stores_seed_witness : exists text w',
  api_register_mam_channel noise (cache BufferWitness.toy_core)
    (cJSON_PrintUnformatted (JObject [(lit "seed", JString (hash_of 65))])) start = Some ((SC_OK, Some text), w') /\
  cache_is (w_cache w') (registered ∅ (uuid_of 7) (hash_of 65)) /\
  register_mam_channel_res_deserialize (Some text) (noise 37) = Some (SC_OK, uuid_of 7 ++ [0]).
Proof.
  apply (register_stores_seed noise noise_len unlimited (cache BufferWitness.toy_core) (hash_of 65) start ∅
    (uuid_of 7) (8, None) (noise 37)).
  - done.
  - reflexivity.
  - by apply BufferWitness.uuid_of_ok.
  - apply (bool_decide_unpack _). vm_compute. exact I.
  - reflexivity.
  - by apply hash_of_ok.
  - reflexivity.
Defined.
End MamFlowWitness.
