(* ===== verification/Apis.v ===== *)
(** * The API functions ([accelerator/core/apis.c], [proxy_apis.c])

    Each function reads a request, calls the core and writes a response; the
    result is the status and the response text, [None] while nobody has set it.
    Arguments that the HTTP layer takes from a URL are arrays, which need not
    end in a NUL.  The functions on MAM messages and those of DB builds are in
    [Mam] and [DbApis]. *)

From S2P Require Import Prelude TaErrors Utils Json Cache World Pow Config Serializer Core Buffer.

(** [n] bytes of an array. *)
Definition read_array (buf : list Z) (n : nat) : option (list Z) :=
  if decide (n <= length buf)%nat then Some (take n buf) else None.

(** [strnlen (buf, n)]; [None] when the scan leaves the array. *)
Definition strnlen (buf : list Z) (n : nat) : option nat :=
  let t := str_of_buf (take n buf) in
  if bool_decide (0 ∈ take n buf) || (n <=? length buf)%nat then Some (length t) else None.

(** ** The commands of the node's own API

    The client library has a deserializer, a call and a serializer for each. *)
Inductive proxy_command :=
| checkConsistency | findTransactions | getBalances | getInclusionStates | getTrytes | getNodeInfo.

Class ProxyLib (net : Type) := {
  proxy_req : Type;
  proxy_res : Type;
  deserialize_request : proxy_command -> cstr -> option proxy_req;
  iota_client_call : proxy_command -> iota_client_service_t -> net -> proxy_req -> option proxy_res * net;
  iota_client_get_node_info : iota_client_service_t -> net -> option proxy_res * net;
  serialize_response : proxy_command -> proxy_res -> option cstr
}.

Section Apis.
Context {net os db : Type} {lib : IotaLib} {txt : JsonText}
  {node : IotaNode net} {proxy : ProxyLib net} {sys : Os os} {server : RedisServer db}.
(** Indeterminate contents: of a local array, and of the fields of a request
    that its constructor does not set. *)
Context (uninit : nat -> list Z) (value0 len0 : Z).
Abbreviation proc := (@proc net os db).

Definition api_get_ta_info (info : ta_config_t) (tangle : iota_config_t) (c : ta_cache_t)
  : proc (status_t * option cstr) :=
  let '(ret, text) := ta_get_info_serialize info tangle c in mret (ret, Some text).

Definition api_find_transaction_object_single (service : iota_client_service_t) (obj : list Z)
  : proc (status_t * option cstr) :=
  trytes ← check (read_array obj N_HASH);
  '(ret, res) ← ta_find_transaction_objects service [flex_trits_from_trytes N_HASH trytes] [];
  if negb (ret =? SC_OK) then mret (ret, None)
  else mret (ta_find_transaction_object_single_res_serialize res).

(** [while (hash243_queue_count (hashes) > RESULT_SET_LIMIT) hash243_queue_pop (&hashes)]. *)
Fixpoint limit_hashes (hashes : list trits) : list trits :=
  match hashes with
  | [] => []
  | h :: r => if Z.of_nat (length hashes) >? RESULT_SET_LIMIT then limit_hashes r else hashes
  end.

Definition api_find_transaction_objects (service : iota_client_service_t) (obj : option cstr)
  : proc (status_t * option cstr) :=
  '(ret, hashes) ← check (ta_find_transaction_objects_req_deserialize obj []);
  if negb (ret =? SC_OK) then mret (ret, None) else
  '(ret, res) ← ta_find_transaction_objects service (limit_hashes hashes) [];
  if negb (ret =? SC_OK) then mret (ret, None)
  else mret (ta_find_transaction_objects_res_serialize res).

(** The tag of the request, padded to 27 trytes. *)
Definition tag_trits_of (obj : list Z) : option trits :=
  n ← strnlen obj N_TAG;
  if (n <? N_TAG)%nat then
    s ← c_string obj;
    '(_, new_tag) ← FillNines.fill_nines (Some (uninit 28)) (Some s) NUM_TRYTES_TAG;
    new_tag ← new_tag;
    Some (flex_trits_from_trytes N_TAG (take N_TAG new_tag))
  else t ← read_array obj N_TAG; Some (flex_trits_from_trytes N_TAG t).

Definition tag_query (tag : trits) : find_transactions_req_t := mkFindReq [] [] [tag] [].

Definition api_find_transactions_by_tag (service : iota_client_service_t) (obj : option (list Z))
  : proc (status_t * option cstr) :=
  match obj with
  | None => mret (SC_OOM, None)
  | Some obj =>
      tag ← check (tag_trits_of obj);
      found ← on_net (fun n => iota_client_find_transactions service n (tag_query tag));
      match found with
      | None => mret (SC_CCLIENT_FAILED_RESPONSE, None)
      | Some hashes => mret (ta_find_transactions_by_tag_res_serialize hashes)
      end
  end.

Definition api_find_transactions_obj_by_tag (service : iota_client_service_t) (obj : option (list Z))
  : proc (status_t * option cstr) :=
  match obj with
  | None => mret (SC_OOM, None)
  | Some obj =>
      tag ← check (tag_trits_of obj);
      '(ret, res) ← ta_find_transactions_obj_by_tag service (tag_query tag) [];
      if negb (ret =? SC_OK) then mret (ret, None)
      else mret (ta_find_transaction_objects_res_serialize res)
  end.

Definition api_send_transfer (core : ta_core_t) (service : iota_client_service_t) (obj : option cstr)
  : proc (status_t * option cstr) :=
  '(ret, req) ← check (ta_send_transfer_req_deserialize obj (ta_send_transfer_req_new value0 len0));
  if negb (ret =? SC_OK) then mret (ret, None) else
  '(ret, res) ← ta_send_transfer (ta_conf core) (iota_conf core) service (cache core)
                  (Some req) (Some ta_send_transfer_res_new);
  res ← check res;
  if ret =? SC_CCLIENT_FAILED_RESPONSE then check (ta_send_transfer_res_serialize res)
  else if negb (ret =? SC_OK) then mret (ret, None) else
  match res_hash res with
  | [] => mret (SC_CCLIENT_FAILED_RESPONSE, None)
  | h :: _ =>
      '(ret, txns) ← ta_find_transaction_objects service [h] [];
      if negb (ret =? SC_OK) then mret (ret, None) else
      check (ta_send_transfer_res_serialize
               (mkTransferRes (res_hash res) (Some txns) (res_uuid res) (res_address res)))
  end.

Definition api_send_trytes (info : ta_config_t) (iconf : iota_config_t)
    (service : iota_client_service_t) (obj : option cstr) : proc (status_t * option cstr) :=
  let '(ret, trytes) := ta_send_trytes_req_deserialize obj [] in
  if negb (ret =? SC_OK) then mret (ret, None) else
  '(ret, trytes) ← ta_send_trytes info iconf service trytes;
  if negb (ret =? SC_OK) then mret (ret, None) else mret (ta_send_trytes_res_serialize trytes).

Definition api_get_node_status (service : iota_client_service_t) : proc (status_t * option cstr) :=
  ret ← ta_get_node_status service;
  if (ret =? SC_CCLIENT_FAILED_RESPONSE) || (ret =? SC_CORE_NODE_UNSYNC) || (ret =? SC_OK)
  then let '(ret, text) := get_node_status_res_serialize ret in mret (ret, Some text)
  else mret (ret, None).

Definition api_fetch_buffered_request_status (c : ta_cache_t) (uuid : list Z)
  : proc (status_t * option cstr) :=
  '(ret, res) ← ta_fetch_txn_with_uuid uninit c uuid ta_fetch_buffered_request_status_res_new;
  if negb (ret =? SC_OK) then mret (ret, None) else
  '(ret, res) ← (if decide (fetch_status res = MAM_BUFREQ_NOT_EXIST)
                 then ta_fetch_mam_with_uuid uninit c uuid res else mret (ret, res));
  if negb (ret =? SC_OK) then mret (ret, None)
  else mret (fetch_buffered_request_status_res_serialize res).

(** ** Proxy APIs *)

(** The common text of the five functions with a request. *)
Definition proxy_call (cmd : proxy_command) (service : iota_client_service_t) (obj : cstr)
  : proc (status_t * option cstr) :=
  match deserialize_request cmd obj with
  | None => mret (SC_CCLIENT_JSON_PARSE, None)
  | Some req =>
      res ← on_net (fun n => iota_client_call cmd service n req);
      match res with
      | None => mret (SC_CCLIENT_FAILED_RESPONSE, None)
      | Some res =>
          match serialize_response cmd res with
          | None => mret (SC_CCLIENT_JSON_PARSE, None)
          | Some text => mret (SC_OK, Some text)
          end
      end
  end.

Definition api_check_consistency := proxy_call checkConsistency.
Definition api_find_transactions := proxy_call findTransactions.
Definition api_get_balances := proxy_call getBalances.
Definition api_get_inclusion_states := proxy_call getInclusionStates.
Definition api_get_trytes := proxy_call getTrytes.

Definition api_get_node_info (service : iota_client_service_t) : proc (status_t * option cstr) :=
  res ← on_net (fun n => iota_client_get_node_info service n);
  match res with
  | None => mret (SC_CCLIENT_FAILED_RESPONSE, None)
  | Some res =>
      match serialize_response getNodeInfo res with
      | None => mret (SC_CCLIENT_JSON_PARSE, None)
      | Some text => mret (SC_OK, Some text)
      end
  end.

Definition H_checkConsistency : Z := 3512812181.
Definition H_findTransactions : Z := 1314581663.
Definition H_getBalances : Z := 185959358.
Definition H_getInclusionStates : Z := 3627925933.
Definition H_getNodeInfo : Z := 1097192119.
Definition H_getTrytes : Z := 3016694096.

(** The [switch] on the hash of the command. *)
Definition proxy_dispatch (h : Z) : option proxy_command :=
  if h =? H_checkConsistency then Some checkConsistency
  else if h =? H_findTransactions then Some findTransactions
  else if h =? H_getBalances then Some getBalances
  else if h =? H_getInclusionStates then Some getInclusionStates
  else if h =? H_getNodeInfo then Some getNodeInfo
  else if h =? H_getTrytes then Some getTrytes
  else None.

Definition proxy_api_wrapper (iconf : ta_config_t) (service : iota_client_service_t) (obj : cstr)
  : proc (status_t * option cstr) :=
  if is_option_enabled iconf CLI_PROXY_PASSTHROUGH then
    res ← on_net (fun n => iota_service_query service n obj);
    match res with
    | None => mret (SC_CCLIENT_FAILED_RESPONSE, None)
    | Some text => mret (SC_OK, Some text)
    end
  else
    '(_, command) ← check (proxy_apis_command_req_deserialize (Some obj) (uninit 30));
    command ← check (c_string command);
    match proxy_dispatch (Djb2.hash_algo_djb2 command) with
    | Some checkConsistency => api_check_consistency service obj
    | Some findTransactions => api_find_transactions service obj
    | Some getBalances => api_get_balances service obj
    | Some getInclusionStates => api_get_inclusion_states service obj
    | Some getNodeInfo => api_get_node_info service
    | Some getTrytes => api_get_trytes service obj
    | None => mret (SC_HTTP_COMMAND_NOT_MATCH, None)
    end.

End Apis.

(** ** Properties *)
Section Properties.
Context {net os db : Type} {lib : IotaLib} {txt : JsonText}
  {node : IotaNode net} {proxy : ProxyLib net} {sys : Os os} {server : RedisServer db}.
Context (uninit : nat -> list Z) (uninit_len : forall n, length (uninit n) = n).
Implicit Types w : world net os db.

(** *** Tags and limits *)

Lemma limit_hashes_spec l : limit_hashes l = drop (length l - Z.to_nat RESULT_SET_LIMIT) l.
Proof.
  assert (Z.to_nat RESULT_SET_LIMIT = 100%nat) as E by reflexivity.
  assert (RESULT_SET_LIMIT = 100) as E' by reflexivity.
  induction l as [|h r IH]; [done|]. cbn [limit_hashes].
  destruct (Z.gtb_spec (Z.of_nat (length (h :: r))) RESULT_SET_LIMIT) as [Hgt|Hle].
  - rewrite IH. replace (length (h :: r) - Z.to_nat RESULT_SET_LIMIT)%nat
      with (S (length r - Z.to_nat RESULT_SET_LIMIT)) by (simpl in *; lia). done.
  - replace (length (h :: r) - Z.to_nat RESULT_SET_LIMIT)%nat with 0%nat by (simpl in *; lia). done.
Qed.

Lemma valid_tryte_no_nul s : valid_tryte s (length s) = true -> 0 ∉ s.
Proof. intros H. by apply is_cstr_no_nul, valid_tryte_cstr. Qed.

Lemma take_no_nul n (s : list Z) : 0 ∉ s -> 0 ∉ take n s.
Proof. intros H Hin. apply H. rewrite <- (take_drop n s). apply elem_of_app. by left. Qed.

Lemma strnlen_string s n : 0 ∉ s -> (length s < n)%nat -> strnlen (s ++ [0]) n = Some (length s).
Proof.
  intros H0 Hl. unfold strnlen. rewrite take_ge by (rewrite length_app; simpl; lia).
  rewrite bool_decide_true by (rewrite elem_of_app; right; by constructor). simpl.
  pose proof (c_string_nul s [] H0) as Hc. unfold c_string in Hc.
  rewrite bool_decide_true in Hc by (rewrite elem_of_app; right; by constructor).
  by injection Hc as ->.
Qed.

Lemma strnlen_array s n : 0 ∉ s ->
  strnlen s n = if decide (n <= length s)%nat then Some n else None.
Proof.
  intros H0. unfold strnlen. rewrite str_of_buf_no_nul by by apply take_no_nul.
  rewrite bool_decide_false by by apply take_no_nul. rewrite length_take. simpl.
  destruct (Nat.leb_spec n (length s)); case_decide; try lia; [f_equal; lia|done].
Qed.

Lemma tag_trits_string tag :
  valid_tryte tag (length tag) = true -> (length tag <= N_TAG)%nat ->
  tag_trits_of uninit (tag ++ [0]) = Some (flex_trits_from_trytes N_TAG (FillNines.pad_nines tag)).
Proof.
  intros Hv Hl. pose proof (valid_tryte_no_nul _ Hv) as H0. unfold tag_trits_of.
  change N_TAG with 27%nat in *.
  destruct (decide (length tag < 27)%nat) as [Hlt|Hge].
  - rewrite strnlen_string by done. bind_simpl. rewrite (proj2 (Nat.ltb_lt _ _)) by done.
    rewrite c_string_nul by done. bind_simpl.
    rewrite FillNines.fill_nines_spec;
      [|by rewrite uninit_len|by apply valid_tryte_cstr|unfold strlen; lia].
    rewrite decide_True by (unfold strlen, NUM_TRYTES_TAG; lia). bind_simpl. do 2 f_equal.
    apply take_app_length'. unfold FillNines.pad_nines. rewrite length_app, length_replicate.
    change (Z.to_nat NUM_TRYTES_TAG) with 27%nat. lia.
  - assert (length tag = 27%nat) as E by lia. unfold strnlen.
    rewrite take_app_le by lia.
    rewrite take_ge by lia.
    rewrite str_of_buf_no_nul by done.
    rewrite length_app, E. simpl. rewrite orb_true_r. bind_simpl. unfold read_array.
    rewrite decide_True by (rewrite length_app, E; simpl; lia). bind_simpl. do 2 f_equal.
    rewrite take_app_le, take_ge by lia. unfold FillNines.pad_nines. rewrite E. simpl. by rewrite app_nil_r.
Qed.

(** Without a terminating NUL only a tag of full length can be read. *)
Lemma tag_trits_array tag : 0 ∉ tag -> (length tag <= N_TAG)%nat ->
  tag_trits_of uninit tag =
    if decide (length tag = N_TAG) then Some (flex_trits_from_trytes N_TAG tag) else None.
Proof.
  intros H0 Hl. unfold tag_trits_of. rewrite strnlen_array by done.
  case_decide as E; case_decide as E'; try lia; [|done]. bind_simpl.
  rewrite Nat.ltb_irrefl. unfold read_array. rewrite decide_True by done. bind_simpl.
  by rewrite take_ge by lia.
Qed.

(** *** The proxy commands *)

Definition command_name (cmd : proxy_command) : cstr :=
  match cmd with
  | checkConsistency => lit "checkConsistency"
  | findTransactions => lit "findTransactions"
  | getBalances => lit "getBalances"
  | getInclusionStates => lit "getInclusionStates"
  | getTrytes => lit "getTrytes"
  | getNodeInfo => lit "getNodeInfo"
  end.

Lemma dispatch_command cmd : proxy_dispatch (Djb2.hash_algo_djb2 (command_name cmd)) = Some cmd.
Proof. destruct cmd; reflexivity. Qed.

(** C23 A request whose [command] names one of the six commands reaches the
    function of that command, with the whole text of the request, although only
    a hash of the name is compared. *)
Theorem proxy_command_dispatched cmd more conf service w :
  is_option_enabled conf CLI_PROXY_PASSTHROUGH = false ->
  forallb (fun f => bool_decide (is_cstr f.1) && json_ok f.2) more = true ->
  let text := cJSON_PrintUnformatted (JObject ((lit "command", JString (command_name cmd)) :: more)) in
  proxy_api_wrapper uninit conf service text w =
    match cmd with
    | getNodeInfo => api_get_node_info service w
    | _ => proxy_call cmd service text w
    end.
Proof.
  intros Hopt Hmore text. unfold proxy_api_wrapper. rewrite Hopt.
  unfold proxy_apis_command_req_deserialize, string_req_deserialize. subst text.
  rewrite parse_print.
  2:{ cbn [json_ok forallb fst snd]. rewrite Hmore. destruct cmd; vm_compute; reflexivity. }
  unfold ta_json_get_string. rewrite get_item_here. cbn [valuestring].
  unfold overwrite. rewrite decide_True by (rewrite length_strncpy_data, uninit_len; simpl; lia).
  rewrite take_0, app_nil_l, drop_ge by (rewrite length_strncpy_data, uninit_len; simpl; lia).
  rewrite app_nil_r. bind_simpl. unfold mbind, comp_mbind, check.
  assert (c_string (strncpy_data (command_name cmd) 30) = Some (command_name cmd)) as ->
    by (destruct cmd; reflexivity).
  rewrite dispatch_command. by destruct cmd.
Qed.

(** The comparison of hashes accepts other names as well. *)
Lemma dispatch_collision :
  proxy_dispatch (Djb2.hash_algo_djb2 (lit "checkConsistendX")) = Some checkConsistency /\
  lit "checkConsistendX" <> command_name checkConsistency.
Proof. split; [reflexivity|done]. Qed.

(** *** The reply to a transfer that failed *)

Lemma send_transfer_failed info iconf service c req w res w' :
  (forall n t, 0 ∉ (flex_trits_to_trytes n t).2) ->
  ta_send_transfer info iconf service c (Some req) (Some ta_send_transfer_res_new) w =
    Some ((SC_CCLIENT_FAILED_RESPONSE, Some res), w') ->
  ta_send_transfer_res_serialize res = None.
Proof.
  intros Htr Hrun. unfold ta_send_transfer in Hrun.
  apply comp_bind_Some in Hrun as ([ret res1] & w1 & Hrun & Hret). injection Hret as -> -> ->.
  unfold send_transfer in Hrun.
  apply comp_bind_Some in Hrun as (t1 & w2 & _ & Hrun).
  apply comp_bind_Some in Hrun as (addr & w3 & _ & Hrun).
  apply comp_bind_Some in Hrun as (tag & w4 & _ & Hrun).
  apply comp_bind_Some in Hrun as (msg & w5 & _ & Hrun).
  apply comp_bind_Some in Hrun as (now & w6 & _ & Hrun).
  apply comp_bind_Some in Hrun as ([out_bundle|] & w7 & _ & Hrun); [|by injection Hrun as <- _].
  destruct (serialize_all out_bundle []) as [ret raw].
  destruct (negb (ret =? SC_OK)); [by injection Hrun as _ <- _|].
  apply comp_bind_Some in Hrun as ([ret2 raw2] & w8 & _ & Hrun).
  destruct (negb (ret2 =? SC_OK)).
  - apply comp_bind_Some in Hrun as ([ret3 uuid] & w9 & Hpush & Hrun).
    apply comp_bind_Some in Hrun as (first & w10 & _ & Hrun). injection Hrun as _ <- _.
    unfold ta_send_transfer_res_serialize. cbn [res_uuid res_address res_txn_array].
    destruct uuid; [|done]. cbn [mbind option_bind].
    by rewrite c_string_none by apply Htr.
  - apply comp_bind_Some in Hrun as (first & w9 & _ & Hrun).
    apply comp_bind_Some in Hrun as ([hashes|] & w10 & _ & Hrun); [done|].
    by injection Hrun as <- _.
Qed.

(** Whenever [ta_send_transfer] reports [SC_CCLIENT_FAILED_RESPONSE], the
    reply is undefined: either the response holds a UUID and an address array
    without a terminating NUL, which the serializer reads as a string, or it
    holds neither and the serializer reads a pointer nobody has set. *)
Theorem failed_transfer_reply_undefined value0 len0 core service text req res w w' :
  (forall n t, 0 ∉ (flex_trits_to_trytes n t).2) ->
  ta_send_transfer_req_deserialize (Some text) (ta_send_transfer_req_new value0 len0) =
    Some (SC_OK, req) ->
  ta_send_transfer (ta_conf core) (iota_conf core) service (cache core) (Some req)
    (Some ta_send_transfer_res_new) w = Some ((SC_CCLIENT_FAILED_RESPONSE, res), w') ->
  api_send_transfer value0 len0 core service (Some text) w = None.
Proof.
  intros Htr Hreq Hrun. unfold api_send_transfer. rewrite Hreq.
  unfold mbind at 1, comp_mbind at 1, check at 1. change (SC_OK =? SC_OK) with true. cbn [negb].
  comp_step Hrun. destruct res as [res|]; [|done].
  unfold mbind, comp_mbind, check. rewrite Z.eqb_refl.
  by rewrite (send_transfer_failed _ _ _ _ _ _ _ _ Htr Hrun).
Qed.

End Properties.


(** ** Evaluations *)
Module ApisWitness.
Import ToyWorld RedisModel JsonModel BufferWitness.

(** A library that answers every command with the request. *)
#[export] Instance echo_proxy : ProxyLib toy_net := {
  proxy_req := cstr;
  proxy_res := cstr;
  deserialize_request _ s := Some s;
  iota_client_call _ _ n s := (if up n then Some s else None, n);
  iota_client_get_node_info _ n := (if up n then Some (info n) else None, n);
  serialize_response _ s := Some s }.

Definition balances_request : cstr := cJSON_PrintUnformatted (JObject
  [(lit "command", JString (command_name getBalances)); (lit "threshold", JNumber 100)]).

Lemma proxy_command_dispatched_witness :
  proxy_api_wrapper garbage (ta_conf toy_core) (iota_service toy_core) balances_request
    (toy true [] []) = Some ((SC_OK, Some balances_request), toy true [] []).
Proof.
  unfold balances_request.
  rewrite (proxy_command_dispatched garbage garbage_len getBalances [(lit "threshold", JNumber 100)]
    (ta_conf toy_core) (iota_service toy_core) (toy true [] []));
    [reflexivity|reflexivity|vm_compute; reflexivity].
Defined.

Lemma toy_trytes_no_nul n t : 0 ∉ (flex_trits_to_trytes (IotaLib := lib) n t).2.
Proof. simpl. intros [H _]%list_elem_of_filter. by apply H. Qed.

Definition address : cstr := replicate 81 65.
Definition transfer_text : cstr := cJSON_PrintUnformatted
  (transfer_request address (lit "TAG") (lit "hello")).

(** A call that ends with the given status. *)
Definition ends_with {A} (ret : status_t)
    (r : option (status_t * A * world toy_net Z db)) : bool :=
  match r with Some ((ret', _), _) => ret' =? ret | None => false end.

Lemma failed_transfer_reply_undefined_witness :
  api_send_transfer 0 0 toy_core (iota_service toy_core) (Some transfer_text) (toy false [] []) = None.
Proof.
  destruct (ta_send_transfer_req_deserialize (Some transfer_text) (ta_send_transfer_req_new 0 0))
    as [ [ret req] |] eqn:Hreq; [|vm_compute in Hreq; discriminate Hreq].
  assert (ret = SC_OK) as -> by (vm_compute in Hreq; injection Hreq as <- _; reflexivity).
  assert (ends_with SC_CCLIENT_FAILED_RESPONSE
    (ta_send_transfer (ta_conf toy_core) (iota_conf toy_core) (iota_service toy_core) (cache toy_core)
      (Some req) (Some ta_send_transfer_res_new) (toy false [] [])) = true) as Hrun.
  { vm_compute in Hreq. injection Hreq as <-. vm_compute. reflexivity. }
  destruct (ta_send_transfer _ _ _ _ _ _ _) as [ [ [ret res] w'] |] eqn:E; [|discriminate Hrun].
  apply Z.eqb_eq in Hrun as ->.
  apply (failed_transfer_reply_undefined 0 0 toy_core (iota_service toy_core) transfer_text req res
    (toy false [] []) w'); [exact toy_trytes_no_nul|exact Hreq|exact E].
Defined.

End ApisWitness.
