(* ===== verification/Http.v ===== *)
(** * The HTTP server ([connectivity/common.c], [connectivity/http/http.c])

    Matching of paths, routing, the assembly of request bodies and the handler
    that libmicrohttpd calls for every event of a connection.  The handlers of
    MAM messages are parameters here. *)

From S2P Require Import Prelude TaErrors Utils Cache Regex Json World Pow Config Serializer Core Buffer Apis.

(** ** [connectivity/common.c] *)

Definition STR_HTTP_NOT_FOUND : cstr := qlit "{`message`: `Request not found`}".
Definition STR_HTTP_BAD_REQUEST : cstr := qlit "{`message`: `Invalid request header`}".
Definition STR_HTTP_BAD_REQUEST_MESSAGE_OVERRUN : cstr :=
  qlit "{`message`: `In body 'message', requested message is too long.`}".
Definition STR_HTTP_INTERNAL_SERVICE_ERROR : cstr := qlit "{`message`: `Internal service error`}".
Definition STR_HTTP_REQUEST_SIZE_EXCEED : cstr := qlit "{`message`: `Request size exceed`}".

Definition api_path_matcher (path : cstr) (regex_rule : option cstr) : status_t :=
  match regex_rule with
  | None => SC_NULL
  | Some rule =>
      match regcomp rule with
      | None => SC_HTTP_INVALID_REGEX
      | Some reg =>
          match regexec reg path 0 with
          | None => SC_HTTP_URL_NOT_MATCH
          | Some (rm_so, rm_eo) =>
              if negb (rm_eo - rm_so =? length path)%nat then SC_HTTP_URL_NOT_MATCH else SC_OK
          end
      end
  end.

(** The HTTP code and the response text afterwards. *)
Definition set_response_content (ret : status_t) (json_result : option cstr)
  : Z * option cstr :=
  if ret =? SC_OK then (SC_HTTP_OK, json_result)
  else if (ret =? SC_CCLIENT_NOT_FOUND) || (ret =? SC_MAM_NOT_FOUND)
  then (SC_HTTP_NOT_FOUND, Some STR_HTTP_NOT_FOUND)
  else if (ret =? SC_CCLIENT_JSON_KEY) || (ret =? SC_MAM_NO_PAYLOAD) || (ret =? SC_HTTP_URL_NOT_MATCH)
  then (SC_HTTP_BAD_REQUEST, Some STR_HTTP_BAD_REQUEST)
  else if ret =? SC_SERIALIZER_MESSAGE_OVERRUN
  then (SC_HTTP_BAD_REQUEST, Some STR_HTTP_BAD_REQUEST_MESSAGE_OVERRUN)
  else (SC_HTTP_INTERNAL_SERVICE_ERROR, Some STR_HTTP_INTERNAL_SERVICE_ERROR).

(** ** URL parameters *)

(** [ta_get_url_parameter]: the array allocated for the parameter holds exactly
    the characters of the token, no terminating NUL. *)
Definition ta_get_url_parameter (url : cstr) (index : Z) : status_t * option (list Z) :=
  let index := if index <? 0 then 0 else index in
  match strtok_all 47 [] url !! Z.to_nat index with
  | None => (SC_HTTP_URL_PARSE_ERROR, None)
  | Some tmp => (SC_OK, Some tmp)
  end.

(** ** Routing *)

(** The functions [ta_http_process_request] chooses from. *)
Inductive route :=
| process_options_request
| process_recv_mam_msg_request (payload : cstr)
| process_send_mam_msg_request (payload : cstr)
| process_fetch_buffered_request_status
| process_find_txn_obj_single_request
| process_find_txn_obj_request (payload : cstr)
| process_find_txns_by_tag_request
| process_find_txns_obj_by_tag_request
| process_get_node_status
| process_send_transfer_request (payload : cstr)
| process_send_trytes_request (payload : cstr)
| process_get_ta_info_request
| process_proxy_api_request (payload : cstr)
| process_method_not_allowed_request
| process_invalid_path_request.

Definition RULE_MAM : cstr := lit "/mam/(recv|send)[/]?".
Definition RULE_RECV : cstr := lit ".*/recv.*".
Definition RULE_FETCH : cstr :=
  lit "/fetch/[a-fA-F0-9]{8}-[a-fA-F0-9]{4}-[a-fA-F0-9]{4}-[a-fA-F0-9]{4}-[a-fA-F0-9]{12}[/]?".
Definition RULE_TXN : cstr := lit "/transaction/[A-Z9]{81}[/]?".
Definition RULE_TXN_OBJECT : cstr := lit "/transaction/object[/]?".
Definition RULE_TAG_HASHES : cstr := lit "/tag/[A-Z9]{1,27}/hashes[/]?".
Definition RULE_TAG : cstr := lit "/tag/[A-Z9]{1,27}[/]?".
Definition RULE_STATUS : cstr := lit "/status[/]?".
Definition RULE_TRANSACTION : cstr := lit "/transaction[/]?".
Definition RULE_TRYTE : cstr := lit "/tryte[/]?".
Definition RULE_INFO : cstr := lit "/info[/]?".
Definition RULE_ROOT : cstr := lit "/".

Definition matches (url rule : cstr) : bool := api_path_matcher url (Some rule) =? SC_OK.

(** A route that needs a body. *)
Definition with_payload (payload : option cstr) (r : cstr -> route) : route :=
  match payload with Some p => r p | None => process_method_not_allowed_request end.

Definition ta_http_route (url : cstr) (payload : option cstr) (options : bool) : route :=
  if options then process_options_request
  else if matches url RULE_MAM then
    with_payload payload (if matches url RULE_RECV
                          then process_recv_mam_msg_request else process_send_mam_msg_request)
  else if matches url RULE_FETCH then process_fetch_buffered_request_status
  else if matches url RULE_TXN then process_find_txn_obj_single_request
  else if matches url RULE_TXN_OBJECT then with_payload payload process_find_txn_obj_request
  else if matches url RULE_TAG_HASHES then process_find_txns_by_tag_request
  else if matches url RULE_TAG then process_find_txns_obj_by_tag_request
  else if matches url RULE_STATUS then process_get_node_status
  else if matches url RULE_TRANSACTION then with_payload payload process_send_transfer_request
  else if matches url RULE_TRYTE then with_payload payload process_send_trytes_request
  else if matches url RULE_INFO then process_get_ta_info_request
  else if matches url RULE_ROOT then with_payload payload process_proxy_api_request
  else process_invalid_path_request.

Section Http.
Context {net os db : Type} {lib : IotaLib} {txt : JsonText}
  {node : IotaNode net} {proxy : ProxyLib net} {sys : Os os} {server : RedisServer db}.
Context (uninit : nat -> list Z) (value0 len0 : Z).
Abbreviation proc := (@proc net os db).
Abbreviation api_result := (proc (status_t * option cstr)) (only parsing).
(** [api_recv_mam_message] and [api_send_mam_message]. *)
Context (api_recv_mam_message : iota_config_t -> iota_client_service_t -> cstr -> api_result)
  (api_send_mam_message : ta_cache_t -> cstr -> api_result).

(** [set_response_content] on the result of an API function. *)
Definition respond (m : api_result) : proc (Z * option cstr) :=
  '(ret, out) ← m; mret (set_response_content ret out).

(** An API function on the second token of the URL. *)
Definition on_parameter (url : cstr) (index : Z) (f : list Z -> api_result) : proc (Z * option cstr) :=
  match ta_get_url_parameter url index with
  | (ret, Some p) => respond (f p)
  | (ret, None) => mret (set_response_content ret None)
  end.

Definition MHD_HTTP_OK : Z := 200.
Definition MHD_HTTP_BAD_REQUEST : Z := 400.
Definition MHD_HTTP_METHOD_NOT_ALLOWED : Z := 405.
Definition MHD_HTTP_INTERNAL_SERVER_ERROR : Z := 500.

Definition message_object (text : string) : option cstr :=
  Some (cJSON_PrintUnformatted (add_string (JObject []) "message" (lit text))).

(** [ta_http_process_request]: the answer code and the answer text. *)
Definition ta_http_process_request (core : ta_core_t) (service : iota_client_service_t)
    (url : cstr) (payload : option cstr) (options : bool) : proc (Z * option cstr) :=
  match ta_http_route url payload options with
  | process_options_request => mret (MHD_HTTP_OK, message_object "OPTIONS request")
  | process_recv_mam_msg_request p => respond (api_recv_mam_message (iota_conf core) service p)
  | process_send_mam_msg_request p => respond (api_send_mam_message (cache core) p)
  | process_fetch_buffered_request_status =>
      on_parameter url 1 (api_fetch_buffered_request_status uninit (cache core))
  | process_find_txn_obj_single_request =>
      on_parameter url 1 (api_find_transaction_object_single service)
  | process_find_txn_obj_request p => respond (api_find_transaction_objects service (Some p))
  | process_find_txns_by_tag_request =>
      on_parameter url 1 (fun tag => api_find_transactions_by_tag uninit service (Some tag))
  | process_find_txns_obj_by_tag_request =>
      on_parameter url 1 (fun tag => api_find_transactions_obj_by_tag uninit service (Some tag))
  | process_get_node_status => respond (api_get_node_status service)
  | process_send_transfer_request p => respond (api_send_transfer value0 len0 core service (Some p))
  | process_send_trytes_request p =>
      respond (api_send_trytes (ta_conf core) (iota_conf core) service (Some p))
  | process_get_ta_info_request => respond (api_get_ta_info (ta_conf core) (iota_conf core) (cache core))
  | process_proxy_api_request p => respond (proxy_api_wrapper uninit (ta_conf core) service p)
  | process_method_not_allowed_request =>
      mret (MHD_HTTP_METHOD_NOT_ALLOWED, message_object "Method not allowed")
  | process_invalid_path_request => mret (MHD_HTTP_BAD_REQUEST, message_object "Invalid path")
  end.

(** ** Connections *)

Definition MAX_REQUEST_LEN : Z := 65536.
Definition MHD_NO : Z := 0.
Definition MHD_YES : Z := 1.

Record ta_http_request_t := mkHttpReq {
  valid_content_type : bool;
  answer_string : option cstr;
  answer_code : Z;
  request : option (list Z);
  request_len : Z }.

(** [build_request]: [data] is never NULL, the request object neither. *)
Definition build_request (req : ta_http_request_t) (data : list Z) : status_t * ta_http_request_t :=
  let size := Z.of_nat (length data) in
  if size =? 0 then (SC_NULL, req)
  else if size + request_len req >=? MAX_REQUEST_LEN
  then (SC_HTTP_INTERNAL_SERVICE_ERROR,
        mkHttpReq (valid_content_type req) (Some STR_HTTP_REQUEST_SIZE_EXCEED)
          MHD_HTTP_INTERNAL_SERVER_ERROR (request req) (request_len req))
  else (SC_OK,
        mkHttpReq (valid_content_type req) (answer_string req) (answer_code req)
          (Some (default [] (request req) ++ data)) (request_len req + size)).

Definition to_lower (c : Z) : Z := if (65 <=? c) && (c <=? 90) then c + 32 else c.

Definition RULE_JSON : cstr := lit "application/json\s*(;?\s*charset\s*=\s*(UTF|utf)-8)?".
Definition MHD_HTTP_HEADER_CONTENT_TYPE : cstr := lit "Content-Type".

(** [ta_http_header_iter] on one header. *)
Definition ta_http_header_iter (req : ta_http_request_t) (header : cstr * cstr) : ta_http_request_t :=
  if bool_decide (to_lower <$> take (length MHD_HTTP_HEADER_CONTENT_TYPE) header.1 =
                  to_lower <$> MHD_HTTP_HEADER_CONTENT_TYPE)
  then mkHttpReq (matches header.2 RULE_JSON) (answer_string req) (answer_code req)
         (request req) (request_len req)
  else req.

(** [strncmp (method, name, strlen (name)) == 0]. *)
Definition method_is (method : cstr) (name : string) : bool :=
  bool_decide (take (length (lit name)) method = lit name).

(** [ta_set_iota_client_service] on a fresh structure. *)
Definition ta_set_iota_client_service (s : iota_client_service_t) : iota_client_service_t :=
  mkService (take (HOST_MAX_LEN - 1) (http_host s)) (http_port s) (http_ca_pem s).

(** What a call leaves behind: the return value, [*ptr], and the response that
    was queued, as its code and text. *)
Record handled := mkHandled {
  h_ret : Z; h_ptr : option ta_http_request_t; h_response : option (Z * option cstr) }.

(** [ta_http_handler]; [valid0] is the indeterminate initial value of
    [valid_content_type], [queue_ret] the result of [MHD_queue_response].  The
    calls that see data consume all of it. *)
Definition ta_http_handler (core : ta_core_t) (valid0 : bool) (queue_ret : Z)
    (url method : cstr) (headers : list (cstr * cstr)) (upload_data : list Z)
    (ptr : option ta_http_request_t) : proc handled :=
  let post := method_is method "POST" in
  let options := negb post && method_is method "OPTIONS" in
  if negb post && negb options && negb (method_is method "GET") then mret (mkHandled MHD_NO ptr None) else
  match ptr with
  | None =>
      let req := mkHttpReq valid0 None MHD_NO None 0 in
      mret (mkHandled MHD_YES (Some (if post then foldl ta_http_header_iter req headers else req)) None)
  | Some req =>
      if post && negb (valid_content_type req) then mret (mkHandled MHD_NO None None) else
      if negb (Z.of_nat (length upload_data) =? 0) then
        if negb (answer_code req =? MHD_NO) then mret (mkHandled MHD_YES (Some req) None)
        else mret (mkHandled MHD_YES (Some (build_request req upload_data).2) None)
      else if post && bool_decide (request req = None) then mret (mkHandled MHD_NO None None)
      else
        '(code, answer) ←
          (if answer_code req =? MHD_NO
           then ta_http_process_request core (ta_set_iota_client_service (iota_service core)) url
                  (str_of_buf <$> request req) options
           else mret (answer_code req, answer_string req));
        mret (mkHandled queue_ret None (Some (code, answer)))
  end.

(** The calls libmicrohttpd makes for one request: one without data, one for
    each piece of the body, one more without data; a return of [MHD_NO] closes
    the connection. *)
Fixpoint serve_calls (core : ta_core_t) (valid0 : bool) (queue_ret : Z) (url method : cstr)
    (headers : list (cstr * cstr)) (pieces : list (list Z)) (ptr : option ta_http_request_t)
  : proc (option (Z * option cstr)) :=
  match pieces with
  | [] => mret None
  | p :: r =>
      h ← ta_http_handler core valid0 queue_ret url method headers p ptr;
      if h_ret h =? MHD_NO then mret (h_response h) else
      match h_response h with
      | Some resp => mret (Some resp)
      | None => serve_calls core valid0 queue_ret url method headers r (h_ptr h)
      end
  end.

Definition serve (core : ta_core_t) (valid0 : bool) (queue_ret : Z) (url method : cstr)
    (headers : list (cstr * cstr)) (body : list (list Z)) : proc (option (Z * option cstr)) :=
  serve_calls core valid0 queue_ret url method headers ([] :: body ++ [ [] ]) None.

End Http.

(** ** Properties *)

(** *** Paths *)

Lemma api_path_matcher_whole path rule r : regcomp rule = Some r ->
  api_path_matcher path (Some rule) = if matchb r path then SC_OK else SC_HTTP_URL_NOT_MATCH.
Proof.
  intros Hr. unfold api_path_matcher. rewrite Hr, <- whole_match_matchb. unfold whole_match.
  destruct (regexec r path 0) as [[so eo]|]; [|done]. by destruct (_ =? _)%nat.
Qed.

Lemma matches_matchb url rule r : regcomp rule = Some r -> matches url rule = matchb r url.
Proof.
  intros Hr. unfold matches. rewrite (api_path_matcher_whole _ _ _ Hr). by destruct (matchb r url).
Qed.

(** C22 [api_path_matcher] accepts exactly the paths in the language of the rule,
    although POSIX returns the leftmost match and the function only compares
    its length with that of the path; a rule that does not compile is reported
    as such. *)
Theorem api_path_matcher_spec path rule :
  api_path_matcher path None = SC_NULL /\
  match regcomp rule with
  | None => api_path_matcher path (Some rule) = SC_HTTP_INVALID_REGEX
  | Some r => (lang r path /\ api_path_matcher path (Some rule) = SC_OK) \/
              (~ lang r path /\ api_path_matcher path (Some rule) = SC_HTTP_URL_NOT_MATCH)
  end.
Proof.
  split; [done|]. destruct (regcomp rule) as [r|] eqn:Hr; [|unfold api_path_matcher; by rewrite Hr].
  rewrite (api_path_matcher_whole _ _ _ Hr), <- matchb_lang. by destruct (matchb r path); [left|right].
Qed.

(** *** Routes *)

(** The rules compile, and a prefix that no rule shares decides. *)
Definition dead (rule prefix : cstr) : bool :=
  match regcomp rule with
  | Some r => match foldl (fun r c => deriv c r) r prefix with Nul => true | _ => false end
  | None => false
  end.

Lemma matchb_Nul s : matchb Nul s = false.
Proof. induction s as [|c s IH]; [done|exact IH]. Qed.

Lemma matchb_app r p s : matchb r (p ++ s) = matchb (foldl (fun r c => deriv c r) r p) s.
Proof. unfold matchb. by rewrite foldl_app. Qed.

Lemma dead_no_match rule p s : dead rule p = true -> matches (p ++ s) rule = false.
Proof.
  unfold dead. destruct (regcomp rule) as [r|] eqn:Hr; [|done]. intros Hd.
  rewrite (matches_matchb _ _ _ Hr), matchb_app.
  destruct (foldl _ r p); try done. apply matchb_Nul.
Qed.

(** A literal prefix of a rule. *)
Definition lits (p : cstr) (r : re) : re := foldr (fun c r => Cat (Cls [(c, c)]) r) r p.

Lemma lang_lits p r s : lang (lits p r) (p ++ s) <-> lang r s.
Proof.
  induction p as [|c p IH]; [done|]. simpl. rewrite lang_Cat. split.
  - intros (t & u & E & Ht & Hu). apply lang_Cls in Ht as (d & -> & _).
    injection E as _ <-. by apply IH.
  - intros H. exists [c], (p ++ s). split; [done|]. split; [|by apply IH].
    constructor. simpl. rewrite !Z.leb_refl. done.
Qed.

Definition tryte_class : re := Cls [(57, 57); (65, 90)].
Definition slash_opt : re := Cat (Alt (Cls [(47, 47)]) Eps) Eps.

Lemma lang_slash_opt_nil : lang slash_opt [].
Proof. rewrite <- matchb_lang. reflexivity. Qed.

Lemma tryte_class_valid s :
  Forall (fun c => in_ranges [(57, 57); (65, 90)] c = true) s <-> valid_tryte s (length s) = true.
Proof.
  rewrite valid_tryte_all. unfold in_ranges. simpl. split.
  - intros H. apply forallb_forall. intros c Hc. rewrite Forall_forall in H.
    specialize (H c ltac:(by apply list_elem_of_In)). unfold valid_tryte_char. lia.
  - intros H. apply Forall_forall. intros c Hc. rewrite forallb_forall in H.
    specialize (H c ltac:(by apply list_elem_of_In)). unfold valid_tryte_char in H. lia.
Qed.

Lemma rule_tag : regcomp RULE_TAG = Some (lits (lit "/tag/") (Cat (interval tryte_class 1 27) slash_opt)).
Proof. reflexivity. Qed.

Lemma rule_tag_hashes : regcomp RULE_TAG_HASHES =
  Some (lits (lit "/tag/") (Cat (interval tryte_class 1 27) (lits (lit "/hashes") slash_opt))).
Proof. reflexivity. Qed.

Lemma rule_txn : regcomp RULE_TXN =
  Some (lits (lit "/transaction/") (Cat (interval tryte_class 81 81) slash_opt)).
Proof. reflexivity. Qed.

Lemma lang_trytes m n s r t : (m <= n)%nat ->
  valid_tryte s (length s) = true -> (m <= length s <= n)%nat -> lang r t ->
  lang (Cat (interval tryte_class m n) r) (s ++ t).
Proof.
  intros Hmn Hv Hl Hr. apply lang_Cat. exists s, t. split; [done|]. split; [|done].
  apply lang_interval_cls; [done|]. split; [done|by apply tryte_class_valid].
Qed.

Lemma lang_lits_inv p r s : lang (lits p r) s -> exists t, s = p ++ t /\ lang r t.
Proof.
  revert s. induction p as [|c p IH]; intros s; [by exists s|]. simpl. rewrite lang_Cat.
  intros (x & y & -> & Hx & Hy). apply lang_Cls in Hx as (d & -> & Hd). destruct (IH y Hy) as (t & -> & Ht).
  exists t. split; [|done]. unfold in_ranges in Hd. cbn [existsb fst snd] in Hd. by assert (d = c) as -> by lia.
Qed.

(** A slash at the end, or none. *)
Definition trailing (slash : cstr) : Prop := slash = [] \/ slash = lit "/".

Lemma lang_trailing slash : trailing slash -> lang slash_opt slash.
Proof. rewrite <- matchb_lang. by intros [->| ->]. Qed.

Lemma tag_rule_only tag slash : valid_tryte tag (length tag) = true -> trailing slash ->
  matches (lit "/tag/" ++ tag ++ slash) RULE_TAG_HASHES = false.
Proof.
  intros Hv Hs. rewrite (matches_matchb _ _ _ rule_tag_hashes).
  destruct (matchb _ _) eqn:E; [|done]. exfalso. apply matchb_lang, lang_lits in E.
  apply lang_Cat in E as (t & u & Hu & _ & Hh). apply lang_lits_inv in Hh as (v & -> & _).
  assert (104 ∈ tag ++ slash) as Hin.
  { rewrite Hu, !elem_of_app. right; left. by do 4 right; left. }
  rewrite valid_tryte_all in Hv. apply elem_of_app in Hin as [Hin|Hin].
  - rewrite forallb_forall in Hv. apply list_elem_of_In in Hin. by specialize (Hv _ Hin).
  - destruct Hs as [->| ->]; [by apply not_elem_of_nil in Hin|].
    by apply elem_of_cons in Hin as [?|?%not_elem_of_nil].
Qed.

(** The characters between the dashes of a UUID. *)
Definition hex_ranges : list (Z * Z) := [(48, 57); (65, 70); (97, 102)].
Definition is_hex (n : nat) (s : cstr) : Prop :=
  length s = n /\ Forall (fun c => in_ranges hex_ranges c = true) s.

Definition uuid_text (a b c d e : cstr) : cstr := a ++ 45 :: b ++ 45 :: c ++ 45 :: d ++ 45 :: e.

Definition dash (r : re) : re := Cat (Cls [(45, 45)]) r.
Definition hexes (n : nat) (r : re) : re := Cat (interval (Cls hex_ranges) n n) r.

Lemma rule_fetch : regcomp RULE_FETCH =
  Some (lits (lit "/fetch/") (hexes 8 (dash (hexes 4 (dash (hexes 4 (dash (hexes 4 (dash
    (hexes 12 slash_opt))))))))))%nat.
Proof. reflexivity. Qed.

Lemma lang_hexes n r s t : is_hex n s -> lang r t -> lang (hexes n r) (s ++ t).
Proof.
  intros [Hl Hf] Hr. apply lang_Cat. exists s, t. split; [done|]. split; [|done].
  apply lang_interval_cls; [done|]. split; [lia|done].
Qed.

Lemma lang_dash r t : lang r t -> lang (dash r) (45 :: t).
Proof. intros Hr. apply (lang_cat _ _ [45] t); [by constructor|done]. Qed.

Lemma uuid_matches a b c d e slash :
  is_hex 8 a -> is_hex 4 b -> is_hex 4 c -> is_hex 4 d -> is_hex 12 e -> trailing slash ->
  matches (lit "/fetch/" ++ uuid_text a b c d e ++ slash) RULE_FETCH = true.
Proof.
  intros Ha Hb Hc Hd He Hs. rewrite (matches_matchb _ _ _ rule_fetch).
  apply matchb_lang, lang_lits. unfold uuid_text.
  do 4 (rewrite <- app_assoc, <- app_comm_cons; apply lang_hexes; [done|]; apply lang_dash).
  apply lang_hexes; [done|by apply lang_trailing].
Qed.

(** Rules given up after the prefix of the URL. *)
Ltac dead_rules :=
  repeat match goal with
  | |- context [matches (?p ++ ?s) ?rule] =>
      rewrite (dead_no_match rule p s) by (vm_compute; reflexivity)
  end.

(** Prove that a rule in the form [lits prefix r] matches. *)
Ltac live_rule H :=
  rewrite (matches_matchb _ _ _ H);
  match goal with |- context [matchb ?r ?u] => assert (matchb r u = true) as -> end;
  [apply matchb_lang, lang_lits|].

Lemma route_tag payload tag slash :
  valid_tryte tag (length tag) = true -> (1 <= length tag <= 27)%nat -> trailing slash ->
  ta_http_route (lit "/tag/" ++ tag ++ slash) payload false = process_find_txns_obj_by_tag_request.
Proof.
  intros Ht Htl Hs. unfold ta_http_route. dead_rules. rewrite tag_rule_only by done.
  live_rule rule_tag; [|done]. apply lang_trytes; [lia|done|lia|by apply lang_trailing].
Qed.

Lemma route_tag_hashes payload tag slash :
  valid_tryte tag (length tag) = true -> (1 <= length tag <= 27)%nat -> trailing slash ->
  ta_http_route (lit "/tag/" ++ tag ++ lit "/hashes" ++ slash) payload false = process_find_txns_by_tag_request.
Proof.
  intros Ht Htl Hs. unfold ta_http_route. dead_rules. live_rule rule_tag_hashes; [|done].
  apply lang_trytes; [lia|done|lia|]. by apply lang_lits, lang_trailing.
Qed.

Lemma route_txn payload hash slash :
  valid_tryte hash (length hash) = true -> length hash = 81%nat -> trailing slash ->
  ta_http_route (lit "/transaction/" ++ hash ++ slash) payload false = process_find_txn_obj_single_request.
Proof.
  intros Hh Hhl Hs. unfold ta_http_route. dead_rules. live_rule rule_txn; [|done].
  apply lang_trytes; [lia|done|lia|by apply lang_trailing].
Qed.

Lemma route_fetch payload a b c d e slash :
  is_hex 8 a -> is_hex 4 b -> is_hex 4 c -> is_hex 4 d -> is_hex 12 e -> trailing slash ->
  ta_http_route (lit "/fetch/" ++ uuid_text a b c d e ++ slash) payload false =
    process_fetch_buffered_request_status.
Proof. intros. unfold ta_http_route. dead_rules. by rewrite uuid_matches. Qed.

(** The routes without a parameter in the URL. *)
Definition fixed_routes (payload : option cstr) : list (cstr * route) :=
  [(lit "/mam/recv", with_payload payload process_recv_mam_msg_request);
   (lit "/mam/send", with_payload payload process_send_mam_msg_request);
   (lit "/transaction/object", with_payload payload process_find_txn_obj_request);
   (lit "/status", process_get_node_status);
   (lit "/transaction", with_payload payload process_send_transfer_request);
   (lit "/tryte", with_payload payload process_send_trytes_request);
   (lit "/info", process_get_ta_info_request)].

Lemma fixed_routed payload url r slash : (url, r) ∈ fixed_routes payload -> trailing slash ->
  ta_http_route (url ++ slash) payload false = r.
Proof.
  unfold fixed_routes. rewrite !elem_of_cons. intros H [->| ->];
    repeat (destruct H as [[= -> ->]|H]; [destruct payload; vm_compute; reflexivity|]);
    by apply not_elem_of_nil in H.
Qed.

(** C21 The URLs of all routes reach their functions, with and without a slash at
    the end: the seven fixed paths, where those that need a body are refused
    without one, a tag of 1 to 27 trytes with and without the suffix for hashes,
    a transaction hash of 81 trytes, a UUID in its textual form, and the root,
    without a further slash; an OPTIONS request is answered on every path. *)
Theorem urls_are_routed payload slash tag hash a b c d e :
  trailing slash ->
  valid_tryte tag (length tag) = true -> (1 <= length tag <= 27)%nat ->
  valid_tryte hash (length hash) = true -> length hash = 81%nat ->
  is_hex 8 a -> is_hex 4 b -> is_hex 4 c -> is_hex 4 d -> is_hex 12 e ->
  ta_http_route (lit "/mam/recv" ++ slash) payload false = with_payload payload process_recv_mam_msg_request /\
  ta_http_route (lit "/mam/send" ++ slash) payload false = with_payload payload process_send_mam_msg_request /\
  ta_http_route (lit "/transaction/object" ++ slash) payload false = with_payload payload process_find_txn_obj_request /\
  ta_http_route (lit "/status" ++ slash) payload false = process_get_node_status /\
  ta_http_route (lit "/transaction" ++ slash) payload false = with_payload payload process_send_transfer_request /\
  ta_http_route (lit "/tryte" ++ slash) payload false = with_payload payload process_send_trytes_request /\
  ta_http_route (lit "/info" ++ slash) payload false = process_get_ta_info_request /\
  ta_http_route (lit "/tag/" ++ tag ++ slash) payload false = process_find_txns_obj_by_tag_request /\
  ta_http_route (lit "/tag/" ++ tag ++ lit "/hashes" ++ slash) payload false = process_find_txns_by_tag_request /\
  ta_http_route (lit "/transaction/" ++ hash ++ slash) payload false = process_find_txn_obj_single_request /\
  ta_http_route (lit "/fetch/" ++ uuid_text a b c d e ++ slash) payload false =
    process_fetch_buffered_request_status /\
  ta_http_route (lit "/") payload false = with_payload payload process_proxy_api_request /\
  (forall url, ta_http_route url payload true = process_options_request).
Proof.
  intros Hs Ht Htl Hh Hhl Ha Hb Hc Hd He.
  do 7 (split; [apply fixed_routed; [set_solver|done]|]).
  split; [by apply route_tag|]. split; [by apply route_tag_hashes|].
  split; [by apply route_txn|]. split; [by apply route_fetch|]. split; [by destruct payload; vm_compute|done].
Qed.

Lemma url_parameter_tag tag : 47 ∉ tag -> tag <> [] ->
  ta_get_url_parameter (lit "/tag/" ++ tag) 1 = (SC_OK, Some tag).
Proof.
  intros Hs Hne. unfold ta_get_url_parameter.
  change (strtok_all 47 [] (lit "/tag/" ++ tag)) with (strtok_all 47 [] (join 47 [lit "tag"; tag])).
  rewrite strtok_all_join; [done|]. repeat constructor; try done.
  apply (bool_decide_unpack _). vm_compute. exact I.
Qed.

Lemma url_parameter_fetch u : 47 ∉ u -> u <> [] ->
  ta_get_url_parameter (lit "/fetch/" ++ u) 1 = (SC_OK, Some u).
Proof.
  intros Hs Hne. unfold ta_get_url_parameter.
  change (strtok_all 47 [] (lit "/fetch/" ++ u)) with (strtok_all 47 [] (join 47 [lit "fetch"; u])).
  rewrite strtok_all_join; [done|]. repeat constructor; try done.
  apply (bool_decide_unpack _). vm_compute. exact I.
Qed.

Lemma valid_tryte_no_slash s : valid_tryte s (length s) = true -> 47 ∉ s.
Proof.
  rewrite valid_tryte_all. intros H Hin. rewrite forallb_forall in H.
  by specialize (H 47 (proj1 (list_elem_of_In _ _) Hin)).
Qed.

Lemma is_hex_no_slash n s : is_hex n s -> 47 ∉ s.
Proof. intros [_ Hf] Hin. rewrite Forall_forall in Hf. by specialize (Hf 47 Hin). Qed.

Lemma uuid_text_no_slash a b c d e :
  is_hex 8 a -> is_hex 4 b -> is_hex 4 c -> is_hex 4 d -> is_hex 12 e -> 47 ∉ uuid_text a b c d e.
Proof.
  intros Ha Hb Hc Hd He. unfold uuid_text.
  rewrite !not_elem_of_app, !not_elem_of_cons, !not_elem_of_app, !not_elem_of_cons,
    !not_elem_of_app, !not_elem_of_cons, !not_elem_of_app, !not_elem_of_cons.
  repeat split; try done; by eapply is_hex_no_slash.
Qed.

Section Requests.
Context {net os db : Type} {lib : IotaLib} {txt : JsonText}
  {node : IotaNode net} {proxy : ProxyLib net} {sys : Os os} {server : RedisServer db}.
Context (uninit : nat -> list Z) (uninit_len : forall n, length (uninit n) = n) (value0 len0 : Z).
Abbreviation proc := (@proc net os db).
Context (recv : iota_config_t -> iota_client_service_t -> cstr -> proc (status_t * option cstr))
  (send : ta_cache_t -> cstr -> proc (status_t * option cstr)).
Implicit Types w : world net os db.

(** A tag in a URL is only read correctly when it has all 27 trytes: a
    shorter one is copied to an array without room for a NUL and then read as a
    string, so that the query by tag is undefined. *)
Theorem tag_url_needs_full_length core service tag payload w :
  valid_tryte tag (length tag) = true -> (1 <= length tag <= 27)%nat ->
  ta_http_process_request uninit value0 len0 recv send core service (lit "/tag/" ++ tag) payload false w =
    if decide (length tag = 27%nat) then
      ('(ret, res) ← ta_find_transactions_obj_by_tag service (tag_query (flex_trits_from_trytes N_TAG tag)) [];
       mret (if ret =? SC_OK
             then set_response_content (ta_find_transaction_objects_res_serialize res).1
                    (ta_find_transaction_objects_res_serialize res).2
             else set_response_content ret None)) w
    else None.
Proof.
  intros Hv Hl. unfold ta_http_process_request.
  pose proof (route_tag payload tag [] Hv Hl ltac:(by left)) as E. rewrite app_nil_r in E. rewrite E.
  unfold on_parameter. rewrite url_parameter_tag;
    [|by apply valid_tryte_no_slash|by intros ->; simpl in Hl; lia].
  unfold respond, api_find_transactions_obj_by_tag, check, mbind, comp_mbind.
  rewrite tag_trits_array by (by apply valid_tryte_no_nul || apply Hl).
  change N_TAG with 27%nat. case_decide; [|done].
  destruct (ta_find_transactions_obj_by_tag _ _ _ _) as [[[ret res] w1]|]; [|done].
  destruct (ret =? SC_OK); cbn [negb]; [|done].
  by destruct (ta_find_transaction_objects_res_serialize res).
Qed.

(** The outcome of a buffered request cannot be fetched over HTTP: for a UUID
    on the complete list the copy of the UUID from the URL has no terminating
    NUL, and using it as a key is undefined. *)
Theorem fetch_url_completed_undefined core service a b c d e payload w m B C :
  is_hex 8 a -> is_hex 4 b -> is_hex 4 c -> is_hex 4 d -> is_hex 12 e ->
  CacheView.cache_is (w_cache w) m -> buffered (cache core) m B C ->
  uuid_text a b c d e ∈ C -> w_lock w = Unlocked ->
  ta_http_process_request uninit value0 len0 recv send core service
    (lit "/fetch/" ++ uuid_text a b c d e) payload false w = None.
Proof.
  intros Ha Hb Hc Hd He Hm Hbuf Hin Hl. unfold ta_http_process_request.
  pose proof (route_fetch payload a b c d e [] Ha Hb Hc Hd He ltac:(by left)) as E. rewrite app_nil_r in E. rewrite E.
  unfold on_parameter.
  rewrite url_parameter_fetch; [|by apply uuid_text_no_slash|by destruct a].
  unfold respond, api_fetch_buffered_request_status, mbind, comp_mbind.
  by rewrite (fetch_unterminated uninit uninit_len _ _ _ _ _ _ _ Hm Hbuf Hin Hl).
Qed.

(** *** Bodies *)

Definition json_headers (headers : list (cstr * cstr)) : Prop :=
  forall valid0, valid_content_type
    (foldl ta_http_header_iter (mkHttpReq valid0 None MHD_NO None 0) headers) = true.

(** The headers only decide about the content type. *)
Lemma header_iter_fields headers : forall r,
  let r' := foldl ta_http_header_iter r headers in
  answer_string r' = answer_string r /\ answer_code r' = answer_code r /\
  request r' = request r /\ request_len r' = request_len r.
Proof.
  induction headers as [|h headers IH]; intros r; [done|]. cbn [foldl].
  destruct (IH (ta_http_header_iter r h)) as (-> & -> & -> & ->).
  unfold ta_http_header_iter. by case_bool_decide.
Qed.

Definition body_len (body : list (list Z)) : Z := Z.of_nat (length (concat body)).

Abbreviation handler := (ta_http_handler uninit value0 len0 recv send).
Abbreviation calls := (serve_calls uninit value0 len0 recv send).

(** The request after the pieces [body], none of which is too much. *)
Definition collected (r : ta_http_request_t) (body : list (list Z)) : ta_http_request_t :=
  mkHttpReq (valid_content_type r) (answer_string r) (answer_code r)
    (match body with [] => request r | _ => Some (default [] (request r) ++ concat body) end)
    (request_len r + body_len body).

(** One piece of the body of a POST request. *)
Lemma handler_piece core valid0 qr url headers p r w :
  valid_content_type r = true -> p <> [] ->
  handler core valid0 qr url (lit "POST") headers p (Some r) w =
    Some (mkHandled MHD_YES
      (Some (if answer_code r =? MHD_NO then (build_request r p).2 else r)) None, w).
Proof.
  intros Hv Hp. unfold ta_http_handler. change (method_is (lit "POST") "POST") with true.
  cbn [negb andb]. rewrite Hv. cbn [negb].
  destruct p as [|c p]; [done|].
  rewrite (proj2 (Z.eqb_neq (Z.of_nat (length (c :: p))) 0)) by (simpl; lia). cbn [negb].
  by destruct (answer_code r =? MHD_NO).
Qed.

(** Once an answer is decided the rest of the body is ignored. *)
Lemma calls_answered core valid0 qr url headers body : forall r w,
  valid_content_type r = true -> answer_code r <> MHD_NO -> request r <> None ->
  Forall (fun p => p <> []) body ->
  calls core valid0 qr url (lit "POST") headers (body ++ [ [] ]) (Some r) w =
    Some (Some (answer_code r, answer_string r), w).
Proof.
  induction body as [|p body IH]; intros r w Hv Ha Hq Hb.
  - cbn [app serve_calls]. unfold mbind, comp_mbind, ta_http_handler.
    change (method_is (lit "POST") "POST") with true. cbn [negb andb]. rewrite Hv.
    cbn [negb length]. change (Z.of_nat 0 =? 0) with true. cbn [negb].
    rewrite bool_decide_false by done. rewrite (proj2 (Z.eqb_neq _ _) Ha).
    unfold mbind, comp_mbind, mret, comp_mret. cbn [h_ret h_response]. by destruct (qr =? MHD_NO).
  - apply Forall_cons in Hb as [Hp Hb]. cbn [app serve_calls].
    rewrite (comp_bind_eq _ _ _ _ _ (handler_piece core valid0 qr url headers p r w Hv Hp)).
    cbn [h_ret h_response h_ptr]. change (MHD_YES =? MHD_NO) with false.
    rewrite (proj2 (Z.eqb_neq _ _) Ha). by apply IH.
Qed.

Lemma collected_cons r p body : p <> [] -> answer_code r = MHD_NO ->
  body_len (p :: body) + request_len r < MAX_REQUEST_LEN ->
  collected (build_request r p).2 body = collected r (p :: body) /\
  answer_code (build_request r p).2 = MHD_NO /\
  valid_content_type (build_request r p).2 = valid_content_type r /\
  request_len (build_request r p).2 = request_len r + Z.of_nat (length p).
Proof.
  intros Hp Ha Hl. unfold build_request, body_len in *. cbn [concat] in *. rewrite length_app in Hl.
  destruct p as [|c p]; [done|].
  rewrite (proj2 (Z.eqb_neq (Z.of_nat (length (c :: p))) 0)) by (simpl; lia).
  destruct (Z.geb_spec (Z.of_nat (length (c :: p)) + request_len r) MAX_REQUEST_LEN); [lia|].
  cbn [snd answer_code valid_content_type request_len]. split; [|done].
  unfold collected, body_len. cbn [valid_content_type answer_string answer_code request request_len concat default].
  rewrite length_app. f_equal; [|lia]. f_equal. destruct body; [by rewrite app_nil_r|].
  by rewrite app_assoc.
Qed.

(** Pieces that fit are collected. *)
Lemma calls_collect core valid0 qr url headers body : forall r w,
  valid_content_type r = true -> answer_code r = MHD_NO -> Forall (fun p => p <> []) body ->
  body_len body + request_len r < MAX_REQUEST_LEN ->
  calls core valid0 qr url (lit "POST") headers (body ++ [ [] ]) (Some r) w =
  calls core valid0 qr url (lit "POST") headers [ [] ] (Some (collected r body)) w.
Proof.
  induction body as [|p body IH]; intros r w Hv Ha Hb Hl.
  - unfold collected, body_len. cbn [app concat length]. rewrite Z.add_0_r. by destruct r.
  - apply Forall_cons in Hb as [Hp Hb]. cbn [app]. cbn [serve_calls].
    rewrite (comp_bind_eq _ _ _ _ _ (handler_piece core valid0 qr url headers p r w Hv Hp)).
    cbn [h_ret h_response h_ptr]. change (MHD_YES =? MHD_NO) with false. rewrite Ha, Z.eqb_refl.
    destruct (collected_cons r p body Hp Ha Hl) as (Hc & Ha' & Hv' & Hn').
    rewrite IH; [by rewrite Hc|congruence|done|done|].
    rewrite Hn'. unfold body_len in *. cbn [concat] in Hl. rewrite length_app in Hl. lia.
Qed.

(** The last call of a POST request with a body. *)
Lemma calls_answer core valid0 qr url headers r body w :
  valid_content_type r = true -> answer_code r = MHD_NO -> request r = Some body ->
  calls core valid0 qr url (lit "POST") headers [ [] ] (Some r) w =
  (resp ← ta_http_process_request uninit value0 len0 recv send core
            (ta_set_iota_client_service (iota_service core)) url (Some (str_of_buf body)) false;
   mret (Some resp)) w.
Proof.
  intros Hv Ha Hr. cbn [serve_calls]. unfold ta_http_handler.
  change (method_is (lit "POST") "POST") with true. cbn [negb andb]. rewrite Hv. cbn [negb length].
  change (Z.of_nat 0 =? 0) with true. cbn [negb]. rewrite Hr, bool_decide_false by done.
  rewrite Ha, Z.eqb_refl. unfold mbind, comp_mbind.
  change (str_of_buf <$> Some body) with (Some (str_of_buf body)).
  destruct (ta_http_process_request _ _ _ _ _ _ _ _ _ _ _) as [[[code answer] w1]|]; [|done].
  unfold mret, comp_mret. cbn [h_ret h_response]. by destruct (qr =? MHD_NO).
Qed.

(** A body that does not fit is answered with an error. *)
Lemma calls_overflow core valid0 qr url headers body : forall r w,
  valid_content_type r = true -> answer_code r = MHD_NO -> request r <> None ->
  Forall (fun p => p <> []) body -> MAX_REQUEST_LEN <= body_len body + request_len r ->
  request_len r < MAX_REQUEST_LEN ->
  calls core valid0 qr url (lit "POST") headers (body ++ [ [] ]) (Some r) w =
    Some (Some (MHD_HTTP_INTERNAL_SERVER_ERROR, Some STR_HTTP_REQUEST_SIZE_EXCEED), w).
Proof.
  induction body as [|p body IH]; intros r w Hv Ha Hq Hb Hl Hr.
  { unfold body_len in Hl. simpl in Hl. lia. }
  apply Forall_cons in Hb as [Hp Hb]. cbn [app serve_calls].
  rewrite (comp_bind_eq _ _ _ _ _ (handler_piece core valid0 qr url headers p r w Hv Hp)).
  cbn [h_ret h_response h_ptr]. change (MHD_YES =? MHD_NO) with false. rewrite Ha, Z.eqb_refl.
  assert (Z.of_nat (length p) =? 0 = false) as Hz.
  { apply Z.eqb_neq. destruct p; [done|simpl; lia]. }
  unfold build_request. rewrite Hz.
  unfold body_len in Hl. cbn [concat] in Hl. rewrite length_app in Hl.
  destruct (Z.geb_spec (Z.of_nat (length p) + request_len r) MAX_REQUEST_LEN) as [Hbig|Hsmall].
  - by rewrite calls_answered.
  - apply IH; try done; cbn [snd request_len]; unfold body_len; lia.
Qed.

(** When not even the first piece was kept, the connection is closed at the end
    of the body. *)
Lemma calls_nothing_kept core valid0 qr url headers body : forall r w,
  valid_content_type r = true -> answer_code r <> MHD_NO -> request r = None ->
  Forall (fun p => p <> []) body ->
  calls core valid0 qr url (lit "POST") headers (body ++ [ [] ]) (Some r) w = Some (None, w).
Proof.
  induction body as [|p body IH]; intros r w Hv Ha Hq Hb.
  - cbn [app serve_calls]. unfold mbind, comp_mbind, ta_http_handler.
    change (method_is (lit "POST") "POST") with true. cbn [negb andb]. rewrite Hv.
    cbn [negb length]. change (Z.of_nat 0 =? 0) with true. cbn [negb]. by rewrite bool_decide_true.
  - apply Forall_cons in Hb as [Hp Hb]. cbn [app serve_calls].
    rewrite (comp_bind_eq _ _ _ _ _ (handler_piece core valid0 qr url headers p r w Hv Hp)).
    cbn [h_ret h_response h_ptr]. change (MHD_YES =? MHD_NO) with false.
    rewrite (proj2 (Z.eqb_neq _ _) Ha). by apply IH.
Qed.

(** C20 The body of a POST request with a JSON content type, however the network
    cut it into pieces that are not empty.  Below the limit of 65536 bytes the
    answer is that of the concatenated body.  At the limit or above it the answer
    is the error for oversized requests, unless the first piece alone is that long:
    then nothing has been kept and the connection is closed without an answer. *)
Theorem post_body_assembled core valid0 qr url headers first body w :
  json_headers headers -> first <> [] -> Forall (fun p => p <> []) body ->
  serve uninit value0 len0 recv send core valid0 qr url (lit "POST") headers (first :: body) w =
  if body_len (first :: body) <? MAX_REQUEST_LEN then
    (resp ← ta_http_process_request uninit value0 len0 recv send core
              (ta_set_iota_client_service (iota_service core)) url
              (Some (str_of_buf (concat (first :: body)))) false;
     mret (Some resp)) w
  else if Z.of_nat (length first) <? MAX_REQUEST_LEN
  then Some (Some (MHD_HTTP_INTERNAL_SERVER_ERROR, Some STR_HTTP_REQUEST_SIZE_EXCEED), w)
  else Some (None, w).
Proof.
  intros Hj Hp Hn. unfold serve.
  set (r := foldl ta_http_header_iter (mkHttpReq valid0 None MHD_NO None 0) headers).
  destruct (header_iter_fields headers (mkHttpReq valid0 None MHD_NO None 0)) as (E1 & E2 & E3 & E4).
  fold r in E1, E2, E3, E4. cbn [answer_string answer_code request request_len] in *.
  assert (calls core valid0 qr url (lit "POST") headers ([] :: (first :: body) ++ [ [] ]) None w =
    calls core valid0 qr url (lit "POST") headers ((first :: body) ++ [ [] ]) (Some r) w) as -> by done.
  destruct (Z.ltb_spec (body_len (first :: body)) MAX_REQUEST_LEN) as [Hl|Hl].
  { rewrite calls_collect; [|apply Hj|done|by constructor|lia].
    apply calls_answer; [apply Hj|done|]. unfold collected. cbn [request]. by rewrite E3. }
  cbn [app serve_calls].
  rewrite (comp_bind_eq _ _ _ _ _ (handler_piece core valid0 qr url headers first r w (Hj _) Hp)).
  cbn [h_ret h_response h_ptr]. change (MHD_YES =? MHD_NO) with false. rewrite E2, Z.eqb_refl.
  unfold build_request. rewrite (proj2 (Z.eqb_neq _ _)) by (destruct first; [done|simpl; lia]). rewrite E4, Z.add_0_r.
  destruct (Z.geb_spec (Z.of_nat (length first)) MAX_REQUEST_LEN), (Z.ltb_spec (Z.of_nat (length first)) MAX_REQUEST_LEN);
    try lia; cbn [snd].
  - apply calls_nothing_kept; try done. apply Hj.
  - unfold body_len in *. cbn [concat] in Hl. rewrite length_app in Hl.
    apply calls_overflow; try done; cbn [request_len]; unfold body_len; try lia. apply Hj.
Qed.

End Requests.


(** ** Evaluations *)
Module HttpWitness.
Import ToyWorld RedisModel JsonModel BufferWitness ApisWitness.

Abbreviation toy_proc := (@World.proc toy_net Z db).

Definition no_recv (_ : iota_config_t) (_ : iota_client_service_t) (_ : cstr)
  : toy_proc (status_t * option cstr) := mret (SC_MAM_NOT_FOUND, None).
Definition no_send (_ : ta_cache_t) (_ : cstr) : toy_proc (status_t * option cstr) :=
  mret (SC_MAM_NO_PAYLOAD, None).

Lemma hex_zeros n : is_hex n (replicate n 48).
Proof. split; [apply length_replicate|by apply Forall_replicate]. Qed.

Lemma urls_are_routed_witness :
  ta_http_route (lit "/mam/send/") (Some [65]) false = process_send_mam_msg_request [65] /\
  ta_http_route (lit "/tag/ABC/") (Some [65]) false = process_find_txns_obj_by_tag_request /\
  ta_http_route (lit "/tag/ABC/hashes/") (Some [65]) false = process_find_txns_by_tag_request.
Proof.
  destruct (urls_are_routed (Some [65]) (lit "/") (lit "ABC") address (replicate 8 48) (replicate 4 48)
    (replicate 4 48) (replicate 4 48) (replicate 12 48)) as (_ & H1 & _ & _ & _ & _ & _ & H2 & H3 & _);
    [by right|reflexivity|vm_compute; lia|vm_compute; reflexivity|reflexivity|apply hex_zeros..|].
  split; [exact H1|]. split; [exact H2|exact H3].
Defined.

Abbreviation process := (ta_http_process_request garbage 0 0 no_recv no_send).

Lemma tag_url_needs_full_length_witness :
  process toy_core (iota_service toy_core) (lit "/tag/ABC") None false (toy true [] []) = None.
Proof.
  assert (length (lit "ABC") <> 27%nat) as Hn by done.
  rewrite (tag_url_needs_full_length garbage 0 0 no_recv no_send toy_core
    (iota_service toy_core) (lit "ABC") None (toy true [] []));
    [reflexivity|reflexivity|vm_compute; lia].
Defined.

(** A UUID of zeros, on the complete list. *)
Definition zeros : cstr :=
  uuid_text (replicate 8 48) (replicate 4 48) (replicate 4 48) (replicate 4 48) (replicate 12 48).

Lemma zeros_uuid : is_uuid zeros.
Proof. split; [reflexivity|apply (bool_decide_unpack _); vm_compute; exact I]. Qed.

Lemma fetch_url_completed_undefined_witness :
  process toy_core (iota_service toy_core) (lit "/fetch/" ++ zeros) None false (toy true [] [zeros]) = None.
Proof.
  apply (fetch_url_completed_undefined garbage garbage_len 0 0 no_recv no_send toy_core
    (iota_service toy_core) (replicate 8 48) (replicate 4 48) (replicate 4 48) (replicate 4 48)
    (replicate 12 48) None (toy true [] [zeros]) (toy_map [] [zeros]) [] [zeros]);
    [apply hex_zeros..|apply toy_is| |by apply list_elem_of_singleton|reflexivity].
  apply toy_buffered; [by constructor; [apply zeros_uuid|]|by apply NoDup_singleton|done].
Defined.

Definition json_type : list (cstr * cstr) :=
  [(lit "Host", lit "node"); (lit "content-type", lit "application/json; charset=utf-8")].

(** The text of a request in two pieces. *)
Lemma post_body_assembled_witness :
  serve garbage 0 0 no_recv no_send toy_core false MHD_YES (lit "/mam/recv") (lit "POST") json_type
    [lit "{}"; lit " "] (toy true [] []) =
  Some (Some (404, Some STR_HTTP_NOT_FOUND), toy true [] []).
Proof.
  rewrite (post_body_assembled garbage 0 0 no_recv no_send toy_core false MHD_YES (lit "/mam/recv")
    json_type (lit "{}") [lit " "] (toy true [] []));
    [vm_compute; reflexivity| |done|by constructor].
  intros []; vm_compute; reflexivity.
Defined.

End HttpWitness.
