(* ===== verification/Cipher.v ===== *)
(** * Encryption and text format of the endpoint
    ([endpoint/cipher.h], [cipher.c], [text_serializer.c])

    A device encrypts a message with AES in CBC mode under a key it shares with
    the receiver, authenticates the ciphertext with an HMAC and writes both in a
    fixed layout.  mbed TLS is a parameter (class [MbedTls]) with its documented
    behaviour in the class [MbedTlsLaws].  Logging is not modelled; results are in
    [option], where [None] is an access outside an object or the release of a
    context nobody has initialised. *)

From S2P Require Import Prelude TaErrors.

Definition AES_BLOCK_SIZE : nat := 16.
Definition AES_IV_SIZE : nat := AES_BLOCK_SIZE.
Definition IMSI_LEN : nat := 16.
Definition TA_AES_KEY_BITS : Z := 256.
Definition TA_AES_HMAC_SIZE : nat := AES_BLOCK_SIZE * 2.
Definition MAX_TIMESTAMP_LEN : nat := 20.

(** The arrays behind the pointers are as long as the objects they point to;
    [plaintext] and [ciphertext] are different objects. *)
Record ta_cipher_ctx := mkCipher {
  plaintext : option (list Z);
  plaintext_len : Z;
  ciphertext : option (list Z);
  ciphertext_len : Z;
  iv : list Z;
  key : option (list Z);
  keybits : Z;
  device_id : option cstr;
  hmac : list Z;
  timestamp : Z }.

(** ** mbed TLS

    [md_setup] and [md_hmac_starts] tell whether the calls return 0.  [sha256]
    and [hmac_sha256 key] are what the update calls and the final one compute.
    A call of [aes_cbc_*] on one block returns the new initialization vector and
    the output; [None] stands for the error codes. *)
Class MbedTls := {
  md_setup : bool;
  md_hmac_starts : list Z -> bool;
  sha256 : list Z -> list Z;
  hmac_sha256 : list Z -> list Z -> list Z;
  aes_key : Type;
  aes_setkey_enc : list Z -> Z -> option aes_key;
  aes_setkey_dec : list Z -> Z -> option aes_key;
  aes_cbc_encrypt : aes_key -> list Z -> list Z -> option (list Z * list Z);
  aes_cbc_decrypt : aes_key -> list Z -> list Z -> option (list Z * list Z)
}.

(** The set-up calls succeed, digests have 32 bytes, keys of 32 bytes are
    accepted, and one block is encrypted to one block that decrypts to it. *)
Class MbedTlsLaws (tls : MbedTls) : Prop := {
  md_setup_ok : md_setup = true;
  md_hmac_starts_ok k : md_hmac_starts k = true;
  sha256_length m : length (sha256 m) = 32%nat;
  hmac_length k m : length (hmac_sha256 k m) = 32%nat;
  setkey_ok k : length k = 32%nat ->
    is_Some (aes_setkey_enc k TA_AES_KEY_BITS) /\ is_Some (aes_setkey_dec k TA_AES_KEY_BITS);
  cbc_block k ke kd v b :
    aes_setkey_enc k TA_AES_KEY_BITS = Some ke -> aes_setkey_dec k TA_AES_KEY_BITS = Some kd ->
    length v = AES_BLOCK_SIZE -> length b = AES_BLOCK_SIZE ->
    exists v' c, aes_cbc_encrypt ke v b = Some (v', c) /\ aes_cbc_decrypt kd v c = Some (v', b) /\
      length v' = AES_BLOCK_SIZE /\ length c = AES_BLOCK_SIZE
}.

(** The result of a loop that has enough fuel. *)
Definition done_of {A} (o : outcome A) : option A :=
  match o with Done a => Some a | _ => None end.

Section Cipher.
Context {tls : MbedTls}.

Definition check_cipher_ctx (ctx : ta_cipher_ctx) : status_t :=
  if bool_decide (plaintext ctx = None) || bool_decide (ciphertext ctx = None) then SC_UTILS_CIPHER_ERROR
  else if bool_decide (device_id ctx = None) then SC_UTILS_CIPHER_ERROR
  else if bool_decide (key ctx = None) then SC_UTILS_CIPHER_ERROR
  else SC_OK.

(** The array [nonce] after [snprintf], which leaves the zeros behind the text. *)
Definition nonce_of (device_id : cstr) (timestamp : Z) : list Z :=
  let n := (IMSI_LEN + MAX_TIMESTAMP_LEN + 1)%nat in
  let text := snprintf_text n (device_id ++ 45 :: dec timestamp) in
  text ++ replicate (n - length text) 0.

(** The hash of 32 zeros, the nonce and the key. *)
Definition base_digest (device_id : cstr) (timestamp : Z) (key : list Z) : option (list Z) :=
  k ← read_at key 0 (Z.to_nat (TA_AES_KEY_BITS / 8));
  Some (sha256 (replicate (AES_BLOCK_SIZE * 2) 0 ++
                take (IMSI_LEN + MAX_TIMESTAMP_LEN) (nonce_of device_id timestamp) ++ k)).

(** [mbedtls_platform_zeroize (p, sizeof (p))] on a pointer: 8 bytes. *)
Definition zeroize_pointer (buf : list Z) : option (list Z) := overwrite buf 0 (replicate 8 0).

(** *** Encryption *)

(** The number of bytes of a block that come from the text. *)
Definition block_bytes (len i : Z) : nat :=
  let rest := u64 (len - i) in
  if rest >? Z.of_nat AES_BLOCK_SIZE then AES_BLOCK_SIZE else Z.to_nat (i32 rest).

(** The block at [i]: [buf] after [memset] and [memcpy]. *)
Definition load_block (text : list Z) (len i : Z) : option (list Z) :=
  let n := block_bytes len i in
  d ← read_at text (Z.to_nat i) n;
  Some (d ++ replicate (AES_BLOCK_SIZE - n) 0).

(** One round; the state is [i], [tmp], the ciphertext and the bytes given to
    the HMAC so far, the result tells whether all blocks were encrypted. *)
Definition encrypt_step (ke : aes_key) (plain : list Z) (plain_len new_len : Z)
    (s : Z * list Z * list Z * list Z) : ctl (Z * list Z * list Z * list Z) (bool * list Z * list Z) :=
  let '(i, tmp, cipher, mac) := s in
  if negb (i <? new_len) then Break (true, cipher, mac) else
  match load_block plain plain_len i with
  | None => Fault
  | Some buf =>
      match aes_cbc_encrypt ke tmp buf with
      | None => Break (false, cipher, mac)
      | Some (tmp, buf) =>
          match overwrite cipher (Z.to_nat i) buf with
          | None => Fault
          | Some cipher => Continue (u64 (i + Z.of_nat AES_BLOCK_SIZE), tmp, cipher, mac ++ buf)
          end
      end
  end.

(** Rounds of a loop over [len] bytes, with one more to leave it. *)
Definition rounds (len : Z) : nat := S (S (Z.to_nat (len / Z.of_nat AES_BLOCK_SIZE))).

Definition aes_encrypt (ctx : ta_cipher_ctx) : option (status_t * ta_cipher_ctx) :=
  if negb (check_cipher_ctx ctx =? SC_OK) then None else
  plain ← plaintext ctx; cipher ← ciphertext ctx; dev ← device_id ctx; k ← key ctx;
  if negb md_setup then Some (SC_OK, ctx) else
  let new_len := u64 (plaintext_len ctx +
                      (Z.of_nat AES_BLOCK_SIZE - plaintext_len ctx mod 16)) in
  if new_len >? ciphertext_len ctx then Some (SC_UTILS_CIPHER_ERROR, ctx) else
  cipher ← zeroize_pointer cipher;
  digest ← base_digest dev (timestamp ctx) k;
  let tmp := zip_with Z.lxor (take AES_BLOCK_SIZE digest) (drop AES_BLOCK_SIZE digest) in
  let leave (cipher h : list Z) :=
    mkCipher (Some plain) (plaintext_len ctx) (Some cipher) new_len tmp (Some k) (keybits ctx)
      (Some dev) h (timestamp ctx) in
  k32 ← read_at k 0 (Z.to_nat (TA_AES_KEY_BITS / 8));
  match aes_setkey_enc k32 TA_AES_KEY_BITS with
  | None => Some (SC_UTILS_CIPHER_ERROR, leave cipher (hmac ctx))
  | Some ke =>
      if negb (md_hmac_starts digest) then Some (SC_UTILS_CIPHER_ERROR, leave cipher (hmac ctx)) else
      '(ok, cipher, mac) ← done_of (run (encrypt_step ke plain (plaintext_len ctx) new_len)
                                      (rounds new_len) (0, tmp, cipher, []));
      if ok : bool then Some (SC_OK, leave cipher (take TA_AES_HMAC_SIZE (hmac_sha256 digest mac)))
      else Some (SC_UTILS_CIPHER_ERROR, leave cipher (hmac ctx))
  end.

(** *** Decryption *)

(** The state is [i], the initialization vector of the context, the plaintext
    and the bytes given to the HMAC. *)
Definition decrypt_step (kd : aes_key) (cipher : list Z) (cipher_len : Z)
    (s : Z * list Z * list Z * list Z)
  : ctl (Z * list Z * list Z * list Z) (bool * list Z * list Z * list Z) :=
  let '(i, v, plain, mac) := s in
  if negb (i <? cipher_len) then Break (true, v, plain, mac) else
  match load_block cipher cipher_len i with
  | None => Fault
  | Some buf =>
      let mac := mac ++ buf in
      match aes_cbc_decrypt kd v buf with
      | None => Break (false, v, plain, mac)
      | Some (v, buf) =>
          match overwrite plain (Z.to_nat i) buf with
          | None => Fault
          | Some plain => Continue (u64 (i + Z.of_nat AES_BLOCK_SIZE), v, plain, mac)
          end
      end
  end.

Definition aes_decrypt (ctx : ta_cipher_ctx) : option (status_t * ta_cipher_ctx) :=
  if negb (check_cipher_ctx ctx =? SC_OK) then None else
  plain ← plaintext ctx; cipher ← ciphertext ctx; dev ← device_id ctx; k ← key ctx;
  if negb md_setup then Some (SC_UTILS_CIPHER_ERROR, ctx) else
  plain ← zeroize_pointer plain;
  let leave (v plain : list Z) :=
    mkCipher (Some plain) (plaintext_len ctx) (Some cipher) (ciphertext_len ctx) v (Some k)
      (keybits ctx) (Some dev) (hmac ctx) (timestamp ctx) in
  k32 ← read_at k 0 (Z.to_nat (TA_AES_KEY_BITS / 8));
  match aes_setkey_dec k32 TA_AES_KEY_BITS with
  | None => Some (SC_UTILS_CIPHER_ERROR, leave (iv ctx) plain)
  | Some kd =>
      digest ← base_digest dev (timestamp ctx) k;
      '(ok, v, plain, mac) ← done_of (run (decrypt_step kd cipher (ciphertext_len ctx))
                                        (rounds (ciphertext_len ctx)) (0, iv ctx, plain, []));
      if negb ok then Some (SC_UTILS_CIPHER_ERROR, leave v plain) else
      if bool_decide (take TA_AES_HMAC_SIZE (hmac_sha256 digest mac) = take TA_AES_HMAC_SIZE (hmac ctx))
      then Some (SC_OK, leave v plain) else Some (SC_UTILS_CIPHER_ERROR, leave v plain)
  end.

End Cipher.

(** ** The text format *)

Definition IV_LEN : nat := 16.
Definition UINT32_LEN : nat := 10.
Definition UINT64_LEN : nat := 20.

(** [serialize_msg]: the status, the array [out_msg] and [*out_msg_len]. *)
Definition serialize_msg (ctx : ta_cipher_ctx) (out_msg : option (list Z)) (out_msg_len : option Z)
  : option (status_t * option (list Z) * option Z) :=
  match out_msg, out_msg_len, ciphertext ctx with
  | Some out, Some _, Some cipher =>
      let str_ciphertext_len :=
        snprintf_text (UINT32_LEN + 1) (zero_pad UINT32_LEN (dec_nat (ciphertext_len ctx))) in
      out ← overwrite out 0 (take IV_LEN (iv ctx));
      let buf := snprintf_text (UINT64_LEN + 1) (zero_pad 20 (dec_nat (timestamp ctx))) in
      out ← overwrite out IV_LEN buf;
      out ← overwrite out (IV_LEN + UINT64_LEN) (take TA_AES_HMAC_SIZE (hmac ctx));
      out ← overwrite out (IV_LEN + UINT64_LEN + TA_AES_HMAC_SIZE) str_ciphertext_len;
      data ← read_at cipher 0 (Z.to_nat (ciphertext_len ctx));
      out ← overwrite out (IV_LEN + UINT64_LEN + TA_AES_HMAC_SIZE + UINT32_LEN) data;
      Some (SC_OK, Some out,
            Some (u64 (Z.of_nat (IV_LEN + UINT64_LEN + TA_AES_HMAC_SIZE + UINT32_LEN) + ciphertext_len ctx)))
  | _, _, _ => Some (SC_UTILS_TEXT_SERIALIZE, out_msg, out_msg_len)
  end.

Definition deserialize_msg (msg : option (list Z)) (ctx : ta_cipher_ctx)
  : option (status_t * ta_cipher_ctx) :=
  match msg, ciphertext ctx with
  | Some msg, Some cipher =>
      v ← read_at msg 0 IV_LEN;
      buf ← read_at msg IV_LEN UINT64_LEN;
      ts ← atol (str_of_buf buf);
      h ← read_at msg (IV_LEN + UINT64_LEN) TA_AES_HMAC_SIZE;
      str_ciphertext_len ← read_at msg (IV_LEN + UINT64_LEN + TA_AES_HMAC_SIZE) UINT32_LEN;
      len ← atoi (str_of_buf str_ciphertext_len);
      let ciphertext_len_tmp := u32 len in
      data ← read_at msg (IV_LEN + UINT64_LEN + TA_AES_HMAC_SIZE + UINT32_LEN)
               (Z.to_nat ciphertext_len_tmp);
      cipher ← overwrite cipher 0 data;
      Some (SC_OK, mkCipher (plaintext ctx) (plaintext_len ctx) (Some cipher) ciphertext_len_tmp v
                     (key ctx) (keybits ctx) (device_id ctx) h (u64 ts))
  | _, _ => Some (SC_UTILS_TEXT_DESERIALIZE, ctx)
  end.

(** ** Properties *)

(** *** Blocks *)

Fixpoint chunks (k : nat) (l : list Z) : list (list Z) :=
  match k with O => [] | S k => take AES_BLOCK_SIZE l :: chunks k (drop AES_BLOCK_SIZE l) end.

Definition is_block (b : list Z) : Prop := length b = AES_BLOCK_SIZE.

Lemma chunks_spec k : forall l, length l = (16 * k)%nat ->
  concat (chunks k l) = l /\ Forall is_block (chunks k l) /\ length (chunks k l) = k.
Proof.
  unfold is_block, AES_BLOCK_SIZE. induction k as [|k IH]; intros l Hl; [by destruct l|]. simpl chunks.
  destruct (IH (drop 16 l)) as (Hc & Hf & Hn); [rewrite length_drop; lia|]. split; [|split].
  - unfold AES_BLOCK_SIZE. cbn [concat]. by rewrite Hc, take_drop.
  - constructor; [rewrite length_take; unfold AES_BLOCK_SIZE; lia|done].
  - exact (f_equal S Hn).
Qed.

Lemma length_concat_blocks bs : Forall is_block bs -> length (concat bs) = (16 * length bs)%nat.
Proof.
  induction 1 as [|b bs Hb _ IH]; [done|]. cbn [concat length]. rewrite length_app, IH, Hb.
  unfold AES_BLOCK_SIZE. lia.
Qed.

Lemma lookup_block bs : forall j b rest, Forall is_block bs -> bs !! j = Some b ->
  take 16 (drop (16 * j) (concat bs ++ rest)) = b.
Proof.
  induction bs as [|b0 bs IH]; intros j b rest Hf Hj; [done|]. apply Forall_cons in Hf as [Hb Hf].
  unfold is_block, AES_BLOCK_SIZE in Hb. cbn [concat]. rewrite <- app_assoc. destruct j as [|j].
  - injection Hj as ->. rewrite Nat.mul_0_r, drop_0. by apply take_app_length'.
  - replace (16 * S j)%nat with (length b0 + 16 * j)%nat by lia.
    rewrite <- drop_drop, drop_app_length. by apply IH.
Qed.

Lemma block_bytes_spec len i : 0 <= i <= len -> len < 2 ^ 63 ->
  block_bytes len i = Nat.min 16 (Z.to_nat (len - i)).
Proof.
  intros Hi Hl. unfold block_bytes. rewrite uwrap_small by lia. change (Z.of_nat AES_BLOCK_SIZE) with 16.
  destruct (Z.gtb_spec (len - i) 16); [unfold AES_BLOCK_SIZE; lia|]. rewrite swrap_small; lia.
Qed.

(** A block of a text, padded with zeros behind its end. *)
Lemma load_padded msg rest pad j : Z.of_nat (length msg) < 2 ^ 63 ->
  (16 * j <= length msg)%nat -> (16 * j + 16 <= length msg + pad)%nat ->
  load_block (msg ++ rest) (Z.of_nat (length msg)) (Z.of_nat (16 * j)) =
    Some (take 16 (drop (16 * j) (msg ++ replicate pad 0))).
Proof.
  intros Hl Hj Hp. unfold load_block. rewrite block_bytes_spec, Nat2Z.id by lia.
  set (n := Nat.min 16 _). assert (n = Nat.min 16 (length msg - 16 * j)) as En by lia.
  unfold read_at. rewrite length_app, decide_True by lia. bind_simpl. f_equal.
  rewrite !drop_app_le by lia.
  destruct (decide (16 <= length msg - 16 * j)%nat) as [Hle|Hgt].
  - rewrite En, Nat.min_l by lia. rewrite app_nil_r.
    by rewrite !take_app_le by (rewrite length_drop; lia).
  - rewrite En, Nat.min_r by lia. rewrite take_app_le by (rewrite length_drop; lia).
    rewrite (take_app_ge _ (replicate pad 0)) by (rewrite length_drop; lia).
    rewrite take_ge by (rewrite length_drop; lia). f_equal.
    rewrite take_replicate, length_drop. f_equal. unfold AES_BLOCK_SIZE. lia.
Qed.

Lemma load_block_of bs rest j b : Forall is_block bs -> Z.of_nat (16 * length bs) < 2 ^ 63 ->
  bs !! j = Some b ->
  load_block (concat bs ++ rest) (Z.of_nat (16 * length bs)) (Z.of_nat (16 * j)) = Some b.
Proof.
  intros Hf Hl Hj. pose proof (lookup_lt_Some _ _ _ Hj) as Hlt.
  rewrite <- (lookup_block bs j b rest Hf Hj), <- (length_concat_blocks bs Hf).
  rewrite (load_padded (concat bs) rest 0 j); rewrite ?length_concat_blocks by done; try lia.
  simpl replicate. rewrite app_nil_r. f_equal.
  rewrite drop_app_le by (rewrite length_concat_blocks by done; lia).
  by rewrite take_app_le by (rewrite length_drop, length_concat_blocks by done; lia).
Qed.

(** *** The text format *)

Lemma no_nul_digits ds : Forall (fun c => is_digit c = true) ds -> str_of_buf ds = ds.
Proof.
  intros H. apply str_of_buf_no_nul. intros Hin. rewrite Forall_forall in H. by specialize (H 0 Hin).
Qed.

Lemma atol_digits ds : Forall (fun c => is_digit c = true) ds -> ds <> [] -> dval 0 ds <= LONG_MAX ->
  atol (str_of_buf ds) = Some (dval 0 ds).
Proof.
  intros Hf Hne Hl. rewrite no_nul_digits by done. unfold atol.
  rewrite <- (app_nil_r ds) at 1. by rewrite strtol_digits.
Qed.

Lemma overwrite_next buf p d off : off = length p -> (length p + length d <= length buf)%nat ->
  overwrite (p ++ drop (length p) buf) off d = Some ((p ++ d) ++ drop (length (p ++ d)) buf).
Proof. intros ->. apply overwrite_extend. Qed.

Lemma read_at_next p d r off n : off = length p -> n = length d -> read_at (p ++ d ++ r) off n = Some d.
Proof. intros -> ->. apply read_at_mid. Qed.

Lemma read_at_start d r n : n = length d -> read_at (d ++ r) 0 n = Some d.
Proof. intros ->. apply (read_at_mid []). Qed.

(** The layout of a serialized message. *)
Definition message_text (v : list Z) (ts : Z) (h data : list Z) : list Z :=
  v ++ zero_pad 20 (dec_nat ts) ++ h ++ zero_pad 10 (dec_nat (Z.of_nat (length data))) ++ data.

(** A context as [serialize_msg] expects it: arrays of their sizes, a timestamp
    a [long] can hold, and [data] in the first [ciphertext_len] bytes. *)
Record serializable (ctx : ta_cipher_ctx) (data : list Z) : Prop := {
  s_iv : length (iv ctx) = 16%nat;
  s_hmac : length (hmac ctx) = 32%nat;
  s_time : 0 <= timestamp ctx <= LONG_MAX;
  s_len : ciphertext_len ctx = Z.of_nat (length data);
  s_int : ciphertext_len ctx <= INT_MAX;
  s_data : exists rest, ciphertext ctx = Some (data ++ rest) }.

Lemma length_message_text ctx data : serializable ctx data ->
  length (message_text (iv ctx) (timestamp ctx) (hmac ctx) data) = (78 + length data)%nat.
Proof.
  intros [Hv Hh Ht Hl Hi _]. rewrite Hl in Hi. unfold LONG_MAX, INT_MAX in *.
  destruct (zero_pad_spec 19 (timestamp ctx)) as (H1 & _); [lia|].
  destruct (zero_pad_spec 9 (Z.of_nat (length data))) as (H2 & _); [lia|].
  unfold message_text. rewrite !length_app, H1, H2. lia.
Qed.

Lemma serialize_msg_spec ctx data out l0 : serializable ctx data ->
  (78 + length data <= length out)%nat ->
  let text := message_text (iv ctx) (timestamp ctx) (hmac ctx) data in
  serialize_msg ctx (Some out) (Some l0) =
    Some (SC_OK, Some (text ++ drop (length text) out), Some (Z.of_nat (length text))).
Proof.
  intros Hs Hout text. pose proof (length_message_text ctx data Hs) as Hlt.
  destruct Hs as [Hv Hh Ht Hl Hi [rest Hd]].
  rewrite Hl in Hi. unfold LONG_MAX, INT_MAX in *.
  destruct (zero_pad_spec 19 (timestamp ctx)) as (H1 & _); [lia|].
  destruct (zero_pad_spec 9 (Z.of_nat (length data))) as (H2 & _); [lia|].
  unfold serialize_msg. rewrite Hd, Hl. unfold snprintf_text, IV_LEN, UINT64_LEN, UINT32_LEN, TA_AES_HMAC_SIZE.
  subst text. unfold message_text in *. set (t := zero_pad 20 _) in *. set (n := zero_pad 10 _) in *.
  rewrite (take_ge (iv ctx)), (take_ge (hmac ctx)), (take_ge t), (take_ge n)
    by (rewrite ?Hv, ?Hh, ?H1, ?H2; simpl; lia).
  rewrite overwrite_start by lia. bind_simpl.
  rewrite (overwrite_next out (iv ctx) t) by (rewrite ?length_app, ?H1; lia). bind_simpl.
  rewrite (overwrite_next out (iv ctx ++ t) (hmac ctx)) by (rewrite ?length_app, ?H1; simpl; lia). bind_simpl.
  rewrite (overwrite_next out _ n) by (rewrite ?length_app, ?H1, ?H2; simpl; lia). bind_simpl.
  rewrite Nat2Z.id, read_at_start by done. bind_simpl.
  rewrite (overwrite_next out _ data) by (rewrite ?length_app, ?H1, ?H2; simpl; lia). bind_simpl.
  change (Z.of_nat (16 + 20 + AES_BLOCK_SIZE * 2 + 10)) with 78. rewrite uwrap_small by lia.
  rewrite <- !app_assoc, Hlt. repeat f_equal; lia.
Qed.

Lemma deserialize_msg_spec ctx data rest dst d : serializable ctx data ->
  ciphertext dst = Some d -> (length data <= length d)%nat ->
  deserialize_msg (Some (message_text (iv ctx) (timestamp ctx) (hmac ctx) data ++ rest)) dst =
    Some (SC_OK, mkCipher (plaintext dst) (plaintext_len dst) (Some (data ++ drop (length data) d))
      (ciphertext_len ctx) (iv ctx) (key dst) (keybits dst) (device_id dst) (hmac ctx) (timestamp ctx)).
Proof.
  intros [Hv Hh Ht Hl Hi _] Hd Hroom. rewrite Hl in *. unfold LONG_MAX, INT_MAX in *.
  destruct (zero_pad_spec 19 (timestamp ctx)) as (H1 & F1 & V1); [lia|].
  destruct (zero_pad_spec 9 (Z.of_nat (length data))) as (H2 & F2 & V2); [lia|].
  unfold deserialize_msg, message_text. rewrite Hd.
  set (t := zero_pad 20 _) in *. set (n := zero_pad 10 _) in *. rewrite <- !app_assoc.
  rewrite (read_at_start (iv ctx)) by by rewrite Hv. bind_simpl.
  rewrite (read_at_next (iv ctx) t _ IV_LEN UINT64_LEN) by by rewrite ?Hv, ?H1. bind_simpl.
  assert (t <> []) as N1 by (intros E; by rewrite E in H1).
  rewrite atol_digits, V1 by (done || (rewrite V1; unfold LONG_MAX; lia)). bind_simpl.
  rewrite (app_assoc (iv ctx) t).
  rewrite (read_at_next (iv ctx ++ t) (hmac ctx) _ (IV_LEN + UINT64_LEN) TA_AES_HMAC_SIZE) by by rewrite ?length_app, ?H1, ?Hv, ?Hh. bind_simpl.
  rewrite (app_assoc (iv ctx ++ t) (hmac ctx)).
  rewrite (read_at_next _ n _ (IV_LEN + UINT64_LEN + TA_AES_HMAC_SIZE) UINT32_LEN) by by rewrite ?length_app, ?H1, ?H2, ?Hv, ?Hh. bind_simpl.
  unfold atoi.
  assert (n <> []) as N2 by (intros E; by rewrite E in H2).
  rewrite atol_digits, V2 by (done || (rewrite V2; unfold LONG_MAX; lia)). bind_simpl.
  rewrite (proj2 (Z.ltb_ge _ _)) by (unfold INT_MIN; lia).
  destruct (Z.gtb_spec (Z.of_nat (length data)) INT_MAX); [unfold INT_MAX in *; lia|]. cbn [orb]. bind_simpl.
  rewrite uwrap_small, Nat2Z.id by lia. rewrite (app_assoc _ n).
  rewrite (read_at_next _ data) by by rewrite ?length_app, ?H1, ?H2, ?Hv, ?Hh. bind_simpl.
  rewrite overwrite_start by done. bind_simpl. by rewrite uwrap_small by lia.
Qed.

(** A serialized message is read back: the array holds the documented layout
    of 78 bytes in front of the ciphertext, and [deserialize_msg] restores the
    initialization vector, the timestamp, the HMAC and the ciphertext, whatever
    follows the message in the array. *)
Theorem message_roundtrip ctx data out l0 dst d : serializable ctx data ->
  (78 + length data <= length out)%nat -> ciphertext dst = Some d -> (length data <= length d)%nat ->
  exists out', serialize_msg ctx (Some out) (Some l0) =
      Some (SC_OK, Some out', Some (Z.of_nat (78 + length data))) /\
    deserialize_msg (Some out') dst =
      Some (SC_OK, mkCipher (plaintext dst) (plaintext_len dst) (Some (data ++ drop (length data) d))
        (ciphertext_len ctx) (iv ctx) (key dst) (keybits dst) (device_id dst) (hmac ctx) (timestamp ctx)).
Proof.
  intros Hs Hout Hd Hroom. eexists. rewrite (serialize_msg_spec ctx data out l0 Hs Hout).
  rewrite (length_message_text ctx data Hs). split; [done|]. by apply deserialize_msg_spec.
Qed.

Section Laws.
Context {tls : MbedTls} {laws : MbedTlsLaws tls}.

(** *** The chain of blocks *)

(** [chain v bs cs v']: from the vector [v] the blocks [bs] are encrypted to
    [cs], which decrypt to [bs], and the vector is [v'] afterwards. *)
Inductive chain (ke kd : aes_key) : list Z -> list (list Z) -> list (list Z) -> list Z -> Prop :=
| chain_nil v : chain ke kd v [] [] v
| chain_cons v b v' c bs cs v'' :
    aes_cbc_encrypt ke v b = Some (v', c) -> aes_cbc_decrypt kd v c = Some (v', b) ->
    is_block b -> is_block c -> chain ke kd v' bs cs v'' -> chain ke kd v (b :: bs) (c :: cs) v''.

Lemma chain_exists k ke kd bs : forall v,
  aes_setkey_enc k TA_AES_KEY_BITS = Some ke -> aes_setkey_dec k TA_AES_KEY_BITS = Some kd ->
  is_block v -> Forall is_block bs -> exists cs v', chain ke kd v bs cs v'.
Proof.
  induction bs as [|b bs IH]; intros v He Hd Hv Hb; [by exists [], v; constructor|].
  apply Forall_cons in Hb as [Hb Hbs].
  destruct (cbc_block k ke kd v b He Hd Hv Hb) as (v' & c & E & D & Hv' & Hc).
  destruct (IH v' He Hd Hv' Hbs) as (cs & v'' & H). exists (c :: cs), v''. by econstructor.
Qed.

Lemma chain_blocks ke kd v bs cs v' : chain ke kd v bs cs v' ->
  Forall is_block bs /\ Forall is_block cs /\ length cs = length bs.
Proof.
  induction 1 as [|v b v' c bs cs v'' _ _ Hb Hc _ (H1 & H2 & H3)]; [done|].
  split; [by constructor|]. split; [by constructor|]. simpl. by rewrite H3.
Qed.

(** *** The loops *)

(** [p] is written at the beginning of the array [buf]. *)
Definition written (p buf : list Z) : list Z := p ++ drop (length p) buf.

Lemma overwrite_written buf p c i : is_block c -> i = Z.of_nat (length p) ->
  (length p + 16 <= length buf)%nat -> overwrite (written p buf) (Z.to_nat i) c = Some (written (p ++ c) buf).
Proof.
  intros Hc -> Hl. unfold is_block, AES_BLOCK_SIZE in Hc. rewrite Nat2Z.id. apply overwrite_extend. lia.
Qed.

Lemma encrypt_run ke kd plain plain_len len buf v bs cs v' : chain ke kd v bs cs v' ->
  forall j p fuel,
  length p = (16 * j)%nat -> len = Z.of_nat (16 * (j + length bs)) -> len < 2 ^ 63 ->
  (forall n b, bs !! n = Some b -> load_block plain plain_len (Z.of_nat (16 * (j + n))) = Some b) ->
  (16 * (j + length bs) <= length buf)%nat -> (length bs < fuel)%nat ->
  run (encrypt_step ke plain plain_len len) fuel (Z.of_nat (16 * j), v, written p buf, p) =
    Done (true, written (p ++ concat cs) buf, p ++ concat cs).
Proof.
  induction 1 as [v|v b v' c bs cs v'' E _ _ Hc _ IH]; intros j p fuel Hp Hlen Hm Hload Hbuf Hfuel.
  - destruct fuel as [|fuel]; [simpl in Hfuel; lia|]. cbn [run encrypt_step length] in *.
    rewrite (proj2 (Z.ltb_ge _ _)) by lia. cbn [negb concat]. by rewrite app_nil_r.
  - destruct fuel as [|fuel]; [simpl in Hfuel; lia|]. cbn [run encrypt_step length] in *.
    rewrite (proj2 (Z.ltb_lt _ _)) by lia. cbn [negb].
    pose proof (Hload 0%nat b eq_refl) as Hb. rewrite Nat.add_0_r in Hb. rewrite Hb, E.
    rewrite (overwrite_written buf p c) by (done || lia).
    replace (u64 (Z.of_nat (16 * j) + Z.of_nat AES_BLOCK_SIZE)) with (Z.of_nat (16 * S j))
      by (unfold AES_BLOCK_SIZE; rewrite uwrap_small; lia).
    cbn [concat]. rewrite app_assoc. apply IH; [..|lia|lia]; [|lia|done|].
    + rewrite length_app, Hp, Hc. unfold AES_BLOCK_SIZE. lia.
    + intros n b' Hn. replace (S j + n)%nat with (j + S n)%nat by lia. by apply Hload.
Qed.

Lemma decrypt_run ke kd cipher len buf v bs cs v' : chain ke kd v bs cs v' ->
  forall j p m fuel,
  length p = (16 * j)%nat -> len = Z.of_nat (16 * (j + length cs)) -> len < 2 ^ 63 ->
  (forall n c, cs !! n = Some c -> load_block cipher len (Z.of_nat (16 * (j + n))) = Some c) ->
  (16 * (j + length cs) <= length buf)%nat -> (length cs < fuel)%nat ->
  run (decrypt_step kd cipher len) fuel (Z.of_nat (16 * j), v, written p buf, m) =
    Done (true, v', written (p ++ concat bs) buf, m ++ concat cs).
Proof.
  induction 1 as [v|v b v' c bs cs v'' _ D Hb _ _ IH]; intros j p m fuel Hp Hlen Hm Hload Hbuf Hfuel.
  - destruct fuel as [|fuel]; [simpl in Hfuel; lia|]. cbn [run decrypt_step length] in *.
    rewrite (proj2 (Z.ltb_ge _ _)) by lia. cbn [negb concat]. by rewrite !app_nil_r.
  - destruct fuel as [|fuel]; [simpl in Hfuel; lia|]. cbn [run decrypt_step length] in *.
    rewrite (proj2 (Z.ltb_lt _ _)) by lia. cbn [negb].
    pose proof (Hload 0%nat c eq_refl) as Hc. rewrite Nat.add_0_r in Hc. rewrite Hc, D.
    rewrite (overwrite_written buf p b) by (done || lia).
    replace (u64 (Z.of_nat (16 * j) + Z.of_nat AES_BLOCK_SIZE)) with (Z.of_nat (16 * S j))
      by (unfold AES_BLOCK_SIZE; rewrite uwrap_small; lia).
    cbn [concat]. rewrite !app_assoc. apply IH; [..|lia|lia]; [|lia|done|].
    + rewrite length_app, Hp, Hb. unfold AES_BLOCK_SIZE. lia.
    + intros n b' Hn. replace (S j + n)%nat with (j + S n)%nat by lia. by apply Hload.
Qed.

(** *** Encryption and decryption *)

(** The message with its padding: zeros up to the next multiple of 16, a whole
    block of them when the length is one already. *)
Definition padded (msg : list Z) : list Z := msg ++ replicate (16 - length msg mod 16) 0.

Lemma length_padded msg : length (padded msg) = (16 * (length msg / 16 + 1))%nat.
Proof.
  unfold padded. rewrite length_app, length_replicate.
  pose proof (Nat.div_mod_eq (length msg) 16). pose proof (Nat.mod_upper_bound (length msg) 16). lia.
Qed.

(** The first 8 bytes are gone anyway once a block has been written. *)
Lemma written_zeroized p buf buf0 : zeroize_pointer buf = Some buf0 -> (8 <= length p)%nat ->
  written p buf0 = written p buf /\ length buf0 = length buf.
Proof.
  intros Hz Hp. split; [|by eapply length_overwrite].
  unfold zeroize_pointer, overwrite in Hz. case_decide; [|done]. injection Hz as <-.
  unfold written. f_equal.
  transitivity (drop (length p) (replicate 8 0 ++ drop 8 buf)); [done|].
  rewrite drop_app_ge, drop_drop by done. f_equal. simpl. lia.
Qed.

Lemma zeroize_some buf : (8 <= length buf)%nat -> exists buf0,
  zeroize_pointer buf = Some buf0 /\ length buf0 = length buf.
Proof.
  intros H. unfold zeroize_pointer. rewrite overwrite_start by done. eexists. split; [done|].
  rewrite length_app, length_replicate, length_drop. simpl. lia.
Qed.

Lemma length_xor_halves d : length d = 32%nat ->
  is_block (zip_with Z.lxor (take AES_BLOCK_SIZE d) (drop AES_BLOCK_SIZE d)).
Proof.
  intros Hd. unfold is_block, AES_BLOCK_SIZE. rewrite length_zip_with, length_take, length_drop. lia.
Qed.

(** A context whose pointers are all set. *)
Definition full_ctx (plain : list Z) (plain_len : Z) (cipher : list Z) (cipher_len : Z) (v k : list Z)
    (bits : Z) (dev : cstr) (h : list Z) (ts : Z) : ta_cipher_ctx :=
  mkCipher (Some plain) plain_len (Some cipher) cipher_len v (Some k) bits (Some dev) h ts.

Lemma new_len_padded n : 0 <= n -> n < 2 ^ 62 ->
  u64 (n + (Z.of_nat AES_BLOCK_SIZE - n mod 16)) = Z.of_nat (16 * (Z.to_nat n / 16 + 1)).
Proof.
  intros H0 H1. change (Z.of_nat AES_BLOCK_SIZE) with 16.
  pose proof (Z.div_mod n 16 ltac:(lia)). pose proof (Z.mod_pos_bound n 16 ltac:(lia)).
  rewrite uwrap_small by lia.
  rewrite Nat2Z.inj_mul, Nat2Z.inj_add, Nat2Z.inj_div, Z2Nat.id by done. lia.
Qed.

Lemma rounds_enough k : (k < rounds (Z.of_nat (16 * k)))%nat.
Proof.
  unfold rounds. change (Z.of_nat AES_BLOCK_SIZE) with 16.
  rewrite Nat2Z.inj_mul, Z.mul_comm, Z.div_mul, Nat2Z.id; lia.
Qed.

Lemma read_key k : length k = 32%nat -> read_at k 0 (Z.to_nat (TA_AES_KEY_BITS / 8)) = Some k.
Proof.
  intros Hk. unfold read_at. change (Z.to_nat (TA_AES_KEY_BITS / 8)) with 32%nat.
  by rewrite decide_True, drop_0, take_ge by lia.
Qed.

(** What a successful encryption leaves behind. *)
Lemma aes_encrypt_spec msg rest cipher clen v k bits dev h ts :
  length k = 32%nat -> Z.of_nat (length msg) < 2 ^ 62 ->
  Z.of_nat (length (padded msg)) <= clen -> (length (padded msg) <= length cipher)%nat ->
  exists ke kd cs v' digest, let v0 := zip_with Z.lxor (take AES_BLOCK_SIZE digest) (drop AES_BLOCK_SIZE digest) in
    aes_setkey_dec k TA_AES_KEY_BITS = Some kd /\ base_digest dev ts k = Some digest /\
    chain ke kd v0 (chunks (length msg / 16 + 1) (padded msg)) cs v' /\
    aes_encrypt (full_ctx (msg ++ rest) (Z.of_nat (length msg)) cipher clen v k bits dev h ts) =
      Some (SC_OK, full_ctx (msg ++ rest) (Z.of_nat (length msg)) (written (concat cs) cipher)
        (Z.of_nat (length (concat cs))) v0 k bits dev (hmac_sha256 digest (concat cs)) ts).
Proof.
  intros Hk Hm Hc Hbuf. pose proof (length_padded msg) as Hpad.
  pose proof (Nat.div_mod_eq (length msg) 16) as Hdm.
  destruct (setkey_ok k Hk) as [[ke He] [kd Hd]].
  pose proof (read_key k Hk) as Hr.
  set (digest := sha256 (replicate (AES_BLOCK_SIZE * 2) 0 ++
    take (IMSI_LEN + MAX_TIMESTAMP_LEN) (nonce_of dev ts) ++ k)).
  assert (base_digest dev ts k = Some digest) as Hdig by (unfold base_digest; by rewrite Hr).
  set (v0 := zip_with Z.lxor (take AES_BLOCK_SIZE digest) (drop AES_BLOCK_SIZE digest)).
  destruct (chunks_spec (length msg / 16 + 1) (padded msg) Hpad) as (Hcat & Hbl & Hlen).
  destruct (chain_exists k ke kd (chunks (length msg / 16 + 1) (padded msg)) v0 He Hd) as (cs & v' & Hch);
    [apply length_xor_halves, sha256_length|done|].
  destruct (chain_blocks _ _ _ _ _ _ Hch) as (_ & Hcs & Hlc).
  exists ke, kd, cs, v', digest. split; [done|]. split; [done|]. split; [done|].
  destruct (zeroize_some cipher) as (cipher0 & Hz & Hlz); [lia|].
  unfold aes_encrypt, full_ctx. cbn [check_cipher_ctx plaintext ciphertext device_id key plaintext_len
    ciphertext_len timestamp keybits hmac]. unfold check_cipher_ctx.
  rewrite !bool_decide_false by done. cbn [orb negb]. rewrite Z.eqb_refl. cbn [negb]. bind_simpl.
  rewrite md_setup_ok. cbn [negb].
  rewrite new_len_padded, Nat2Z.id by lia. rewrite <- Hpad.
  destruct (Z.gtb_spec (Z.of_nat (length (padded msg))) clen); [lia|].
  rewrite Hz. bind_simpl. rewrite Hdig. bind_simpl. rewrite Hr. bind_simpl. rewrite He.
  rewrite md_hmac_starts_ok. cbn [negb]. fold v0.
  pose proof (length_concat_blocks cs Hcs) as Hlcat.
  destruct (written_zeroized (concat cs) cipher cipher0 Hz) as [Hw _]; [lia|].
  assert (run (encrypt_step ke (msg ++ rest) (Z.of_nat (length msg)) (Z.of_nat (length (padded msg))))
    (rounds (Z.of_nat (length (padded msg)))) (0, v0, cipher0, []) =
    Done (true, written (concat cs) cipher0, concat cs)) as ->.
  2:{ cbn [done_of mbind option_bind]. rewrite Hw.
    rewrite (take_ge (hmac_sha256 digest (concat cs))) by (rewrite hmac_length; done).
    do 4 f_equal. lia. }
  apply (encrypt_run ke kd (msg ++ rest) (Z.of_nat (length msg)) (Z.of_nat (length (padded msg)))
    cipher0 v0 _ cs v' Hch 0%nat []); [done|lia|lia| |lia|].
  - intros n b Hn. pose proof (lookup_lt_Some _ _ _ Hn) as Hlt. rewrite Hlen in Hlt.
    simpl Nat.add.
    rewrite (load_padded msg rest (16 - length msg mod 16)); [|lia|lia|].
    + fold (padded msg). rewrite <- (lookup_block _ n b [] Hbl Hn), Hcat. by rewrite app_nil_r.
    + pose proof Hpad as Hp'. unfold padded in Hp'. rewrite length_app, length_replicate in Hp'. lia.
  - rewrite Hlen, Hpad. apply rounds_enough.
Qed.

Lemma aes_decrypt_chain ke kd v0 bs cs v' digest plain plen rest k bits dev ts :
  length k = 32%nat -> aes_setkey_dec k TA_AES_KEY_BITS = Some kd -> base_digest dev ts k = Some digest ->
  chain ke kd v0 bs cs v' -> bs <> [] ->
  Z.of_nat (length (concat cs)) < 2 ^ 63 -> (length (concat cs) <= length plain)%nat ->
  aes_decrypt (full_ctx plain plen (concat cs ++ rest) (Z.of_nat (length (concat cs))) v0 k bits dev
      (hmac_sha256 digest (concat cs)) ts) =
    Some (SC_OK, full_ctx (written (concat bs) plain) plen (concat cs ++ rest)
      (Z.of_nat (length (concat cs))) v' k bits dev (hmac_sha256 digest (concat cs)) ts).
Proof.
  intros Hk Hd Hdig Hch Hne Hl Hbuf.
  destruct (chain_blocks _ _ _ _ _ _ Hch) as (Hbs & Hcs & Hlc).
  pose proof (length_concat_blocks cs Hcs) as Hlcat. pose proof (length_concat_blocks bs Hbs) as Hlb.
  assert (0 < length bs)%nat as Hpos by (destruct bs; [done|simpl; lia]).
  destruct (zeroize_some plain) as (plain0 & Hz & Hlz); [lia|].
  destruct (written_zeroized (concat bs) plain plain0 Hz) as [Hw _]; [lia|].
  unfold aes_decrypt, full_ctx. cbn [plaintext ciphertext device_id key plaintext_len
    ciphertext_len timestamp keybits hmac iv]. unfold check_cipher_ctx. cbn [plaintext ciphertext device_id key].
  rewrite !bool_decide_false by done. cbn [orb negb]. rewrite Z.eqb_refl. cbn [negb]. bind_simpl.
  rewrite md_setup_ok. cbn [negb]. rewrite Hz. bind_simpl. rewrite (read_key k Hk). bind_simpl.
  rewrite Hd, Hdig. bind_simpl. rewrite Hlcat in *.
  assert (run (decrypt_step kd (concat cs ++ rest) (Z.of_nat (16 * length cs)))
    (rounds (Z.of_nat (16 * length cs))) (0, v0, plain0, []) =
    Done (true, v', written (concat bs) plain0, concat cs)) as ->.
  2:{ cbn [done_of mbind option_bind negb]. rewrite Hw.
    by rewrite bool_decide_true. }
  apply (decrypt_run ke kd (concat cs ++ rest) (Z.of_nat (16 * length cs)) plain0 v0 bs cs v' Hch
    0%nat [] []); [done|done|done| |lia|apply rounds_enough].
  intros n c Hn. simpl Nat.add. by apply load_block_of.
Qed.

(** C24 A message goes from device to receiver: encrypted, serialized, read back
    and decrypted with the same key and device id, every step returns [SC_OK],
    the receiver's plaintext array starts with the message followed by 1 to 16
    zeros, and the rest of it is unchanged. *)
Theorem endpoint_roundtrip msg rest cipher clen v k bits dev h ts out l0 plain plen d dlen v2 bits2 h2 ts2 :
  length k = 32%nat -> 0 <= ts <= LONG_MAX -> Z.of_nat (length (padded msg)) <= INT_MAX ->
  Z.of_nat (length (padded msg)) <= clen -> (length (padded msg) <= length cipher)%nat ->
  (78 + length (padded msg) <= length out)%nat -> (length (padded msg) <= length d)%nat ->
  (length (padded msg) <= length plain)%nat ->
  exists ctx1 out' ctx2 ctx3,
    aes_encrypt (full_ctx (msg ++ rest) (Z.of_nat (length msg)) cipher clen v k bits dev h ts) =
      Some (SC_OK, ctx1) /\
    serialize_msg ctx1 (Some out) (Some l0) =
      Some (SC_OK, Some out', Some (Z.of_nat (78 + length (padded msg)))) /\
    deserialize_msg (Some out') (full_ctx plain plen d dlen v2 k bits2 dev h2 ts2) = Some (SC_OK, ctx2) /\
    aes_decrypt ctx2 = Some (SC_OK, ctx3) /\ plaintext ctx3 = Some (written (padded msg) plain).
Proof.
  intros Hk Ht Hi Hc Hbuf Hout Hd Hplain.
  pose proof (length_padded msg) as Hpad. pose proof (Nat.div_mod_eq (length msg) 16) as Hdm.
  pose proof (Nat.mod_upper_bound (length msg) 16 ltac:(lia)).
  assert (Z.of_nat (length msg) < 2 ^ 62) as Hm by (unfold INT_MAX in Hi; lia).
  destruct (aes_encrypt_spec msg rest cipher clen v k bits dev h ts Hk Hm Hc Hbuf)
    as (ke & kd & cs & v' & digest & Hdk & Hdig & Hch & Henc).
  set (v0 := zip_with Z.lxor (take AES_BLOCK_SIZE digest) (drop AES_BLOCK_SIZE digest)) in *.
  destruct (chain_blocks _ _ _ _ _ _ Hch) as (_ & Hcs & Hlc).
  pose proof (length_concat_blocks cs Hcs) as Hlcat.
  destruct (chunks_spec (length msg / 16 + 1) (padded msg) Hpad) as (Hcat & _ & Hlen).
  assert (length (concat cs) = length (padded msg)) as Hlp by lia.
  set (ctx1 := full_ctx (msg ++ rest) _ (written (concat cs) cipher) _ v0 k bits dev _ ts) in Henc.
  assert (serializable ctx1 (concat cs)) as Hser.
  { split; simpl; [|apply hmac_length|done|done|lia|by eexists].
    apply length_xor_halves. unfold base_digest in Hdig. rewrite (read_key k Hk) in Hdig.
    injection Hdig as <-. apply sha256_length. }
  assert (chunks (length msg / 16 + 1) (padded msg) <> []) as Hne
    by (intros E; rewrite E in Hlen; simpl in Hlen; lia).
  assert (length (concat cs) <= length plain)%nat as Hpl by lia.
  assert (Z.of_nat (length (concat cs)) < 2 ^ 63) as Hmax by (unfold INT_MAX in Hi; lia).
  pose proof (aes_decrypt_chain ke kd v0 _ cs v' digest plain plen (drop (length (concat cs)) d) k bits2
    dev ts Hk Hdk Hdig Hch Hne Hmax Hpl) as Hdec.
  pose proof (serialize_msg_spec ctx1 (concat cs) out l0 Hser ltac:(lia)) as Hs.
  cbv zeta in Hs. rewrite (length_message_text ctx1 (concat cs) Hser), Hlp in Hs.
  eexists ctx1, _, _, _. split; [exact Henc|]. split; [exact Hs|]. split.
  { apply (deserialize_msg_spec ctx1 (concat cs) _ _ d Hser); [done|lia]. }
  split; [exact Hdec|]. unfold full_ctx. cbn [plaintext]. by rewrite Hcat.
Qed.

(** The ciphertext with zeros up to a whole number of blocks. *)
Definition zero_fill (t : list Z) : list Z := t ++ replicate ((16 - length t mod 16) mod 16) 0.

Lemma length_zero_fill t : length (zero_fill t) = (16 * ((length t + 15) / 16))%nat.
Proof.
  unfold zero_fill. rewrite length_app, length_replicate.
  pose proof (Nat.div_mod_eq (length t) 16). pose proof (Nat.mod_upper_bound (length t) 16 ltac:(lia)).
  destruct (decide (length t mod 16 = 0)%nat) as [E|E].
  - rewrite E. change ((16 - 0) mod 16)%nat with 0%nat.
    rewrite <- (Nat.div_unique (length t + 15) 16 (length t / 16) 15) by lia. lia.
  - rewrite (Nat.mod_small (16 - length t mod 16)) by lia.
    rewrite <- (Nat.div_unique (length t + 15) 16 (length t / 16 + 1) (length t mod 16 - 1)) by lia. lia.
Qed.

Lemma decrypt_mac kd t rest : Z.of_nat (length t) < 2 ^ 62 -> forall fuel j v p m v' p' m',
  (j <= (length t + 15) / 16)%nat ->
  run (decrypt_step kd (t ++ rest) (Z.of_nat (length t))) fuel (Z.of_nat (16 * j), v, p, m) =
    Done (true, v', p', m') -> m' = m ++ drop (16 * j) (zero_fill t).
Proof.
  intros Hl. pose proof (length_zero_fill t) as Hz.
  pose proof (Nat.div_mod_eq (length t + 15) 16). pose proof (Nat.mod_upper_bound (length t + 15) 16 ltac:(lia)).
  induction fuel as [|fuel IH]; intros j v p m v' p' m' Hj Hrun; [done|].
  cbn [run decrypt_step] in Hrun.
  destruct (Z.ltb_spec (Z.of_nat (16 * j)) (Z.of_nat (length t))) as [Hlt|Hge]; cbn [negb] in Hrun.
  - rewrite (load_padded t rest ((16 - length t mod 16) mod 16)) in Hrun.
    + fold (zero_fill t) in Hrun. destruct (aes_cbc_decrypt _ _ _) as [[v1 b]|]; [|done].
      destruct (overwrite _ _ _) as [p1|]; [|done].
      replace (u64 (Z.of_nat (16 * j) + Z.of_nat AES_BLOCK_SIZE)) with (Z.of_nat (16 * S j)) in Hrun
        by (unfold AES_BLOCK_SIZE; rewrite uwrap_small; lia).
      apply IH in Hrun; [|lia]. rewrite Hrun, <- app_assoc. f_equal.
      replace (16 * S j)%nat with (16 * j + 16)%nat by lia. rewrite <- drop_drop. apply take_drop.
    + lia.
    + lia.
    + unfold zero_fill in Hz. rewrite length_app, length_replicate in Hz. lia.
  - injection Hrun as _ _ ->. rewrite drop_ge by lia. by rewrite app_nil_r.
Qed.

(** C25 [aes_decrypt] accepts a message only if the HMAC that came with it is the
    HMAC of its ciphertext under the key derived from the receiver's key, the
    device id and the timestamp. *)
Theorem decrypt_authenticated plain plen t rest v k bits dev h ts ctx' :
  length h = 32%nat -> Z.of_nat (length t) < 2 ^ 62 ->
  aes_decrypt (full_ctx plain plen (t ++ rest) (Z.of_nat (length t)) v k bits dev h ts) = Some (SC_OK, ctx') ->
  exists digest, base_digest dev ts k = Some digest /\ hmac_sha256 digest (zero_fill t) = h.
Proof.
  intros Hh Hl Hrun. unfold aes_decrypt, full_ctx in Hrun.
  cbn [plaintext ciphertext device_id key plaintext_len ciphertext_len timestamp keybits hmac iv] in Hrun.
  unfold check_cipher_ctx in Hrun. cbn [plaintext ciphertext device_id key] in Hrun.
  rewrite !bool_decide_false in Hrun by done. cbn [orb negb] in Hrun. rewrite Z.eqb_refl in Hrun.
  cbn [negb mbind option_bind] in Hrun.
  destruct md_setup; cbn [negb] in Hrun; [|done].
  destruct (zeroize_pointer plain) as [plain0|]; [|done]. cbn [mbind option_bind] in Hrun.
  destruct (read_at k 0 _) as [k32|]; [|done]. cbn [mbind option_bind] in Hrun.
  destruct (aes_setkey_dec k32 _) as [kd|]; [|done].
  destruct (base_digest dev ts k) as [digest|]; [|done]. cbn [mbind option_bind] in Hrun.
  destruct (run _ _ _) as [[[[ok v'] p'] m']| |] eqn:E; [|done|done]. cbn [done_of mbind option_bind] in Hrun.
  destruct ok; cbn [negb] in Hrun; [|done].
  case_bool_decide as Heq; [|done]. exists digest. split; [done|].
  pose proof (decrypt_mac kd t rest Hl (rounds (Z.of_nat (length t))) 0 v plain0 [] v' p' m'
    ltac:(lia) E) as ->. change (drop (16 * 0) (zero_fill t)) with (zero_fill t) in Heq.
  unfold TA_AES_HMAC_SIZE, AES_BLOCK_SIZE in Heq.
  rewrite !take_ge in Heq by (rewrite ?hmac_length, ?Hh; simpl; lia). exact Heq.
Qed.

End Laws.

(** Without a message-digest context [aes_encrypt] reports success and has
    encrypted nothing. *)
Lemma encrypt_without_digest {tls : MbedTls} plain plen cipher clen v k bits dev h ts :
  md_setup = false ->
  aes_encrypt (full_ctx plain plen cipher clen v k bits dev h ts) =
    Some (SC_OK, full_ctx plain plen cipher clen v k bits dev h ts).
Proof.
  intros Hs. unfold aes_encrypt, full_ctx, check_cipher_ctx. cbn [plaintext ciphertext device_id key].
  rewrite !bool_decide_false by done. cbn [orb negb]. rewrite Z.eqb_refl. cbn [negb mbind option_bind].
  by rewrite Hs.
Qed.

(** ** Evaluations *)
Module CipherWitness.

(** A block cipher that adds the vector, and checksums for digests. *)
#[export] Instance toy_tls : MbedTls := {
  md_setup := true;
  md_hmac_starts _ := true;
  sha256 m := replicate 31 1 ++ [foldl Z.add 0 m mod 256];
  hmac_sha256 k m := replicate 30 2 ++ [foldl Z.add 0 k mod 256; foldl Z.add 0 m mod 256];
  aes_key := list Z;
  aes_setkey_enc k _ := Some k;
  aes_setkey_dec k _ := Some k;
  aes_cbc_encrypt _ v b := let c := zip_with Z.lxor b v in Some (c, c);
  aes_cbc_decrypt _ v c := Some (c, zip_with Z.lxor c v)
}.

Lemma xor_twice : forall b v : list Z, length v = length b ->
  zip_with Z.lxor (zip_with Z.lxor b v) v = b.
Proof.
  induction b as [|x b IH]; intros [|y v] Hl; try done. simpl. rewrite IH by (simpl in Hl; lia).
  by rewrite Z.lxor_assoc, Z.lxor_nilpotent, Z.lxor_0_r.
Qed.

#[export] Instance toy_tls_laws : MbedTlsLaws toy_tls.
Proof.
  split; try (intros; reflexivity).
  - intros k _. split; by eexists.
  - intros k ke kd v b _ _ Hv Hb. exists (zip_with Z.lxor b v), (zip_with Z.lxor b v).
    assert (length (zip_with Z.lxor b v) = AES_BLOCK_SIZE) as Hl
      by (rewrite length_zip_with, Hv, Hb; reflexivity).
    split; [done|]. split; [|done]. simpl. by rewrite xor_twice by congruence.
Qed.

Definition toy_key : list Z := replicate 32 9.
Definition device : cstr := lit "470010171566423".
Definition fresh (n : nat) : list Z := replicate n 255.

(** A message and what the receiver finds in its array of 20 bytes. *)
Lemma endpoint_roundtrip_witness : exists ctx1 out' ctx2 ctx3,
  aes_encrypt (full_ctx (lit "hi" ++ [0]) 2 (fresh 16) 16 [] toy_key 256 device [] 1600000000) = Some (SC_OK, ctx1) /\
  serialize_msg ctx1 (Some (fresh 100)) (Some 0) = Some (SC_OK, Some out', Some 94) /\
  deserialize_msg (Some out') (full_ctx (fresh 20) 0 (fresh 16) 0 [] toy_key 256 device [] 0) = Some (SC_OK, ctx2) /\
  aes_decrypt ctx2 = Some (SC_OK, ctx3) /\
  plaintext ctx3 = Some (lit "hi" ++ replicate 14 0 ++ fresh 4).
Proof.
  apply (endpoint_roundtrip (lit "hi") [0] (fresh 16) 16 [] toy_key 256 device [] 1600000000 (fresh 100) 0
    (fresh 20) 0 (fresh 16) 0 [] 256 [] 0); vm_compute; (lia || done || (intros H; discriminate H)).
Defined.

Definition sealed : ta_cipher_ctx :=
  mkCipher (Some []) 0 (Some (replicate 16 7 ++ [1; 2])) 16 (replicate 16 3) (Some toy_key) 256 (Some device)
    (replicate 30 2 ++ [0; 0]) 1600000000.

Lemma message_roundtrip_witness : exists out',
  serialize_msg sealed (Some (fresh 100)) (Some 0) = Some (SC_OK, Some out', Some 94) /\
  deserialize_msg (Some out') sealed = Some (SC_OK, sealed).
Proof.
  apply (message_roundtrip sealed (replicate 16 7) (fresh 100) 0 sealed (replicate 16 7 ++ [1; 2]));
    [|vm_compute; lia|reflexivity|vm_compute; lia].
  split; try (vm_compute; done). by exists [1; 2].
Defined.

(** The two last bytes of the checksums. *)
Definition toy_digest : list Z := default [] (base_digest device 1600000000 toy_key).
Definition toy_hmac : list Z := hmac_sha256 toy_digest (replicate 16 7).

Lemma decrypt_authenticated_witness : exists digest,
  base_digest device 1600000000 toy_key = Some digest /\ hmac_sha256 digest (zero_fill (replicate 16 7)) = toy_hmac.
Proof.
  destruct (aes_decrypt (full_ctx (fresh 20) 0 (replicate 16 7 ++ [1]) 16 (replicate 16 3) toy_key 256 device
    toy_hmac 1600000000)) as [ [ret ctx'] |] eqn:E; [|vm_compute in E; discriminate E].
  assert (ret = SC_OK) as -> by (vm_compute in E; injection E as <- _; reflexivity).
  apply (decrypt_authenticated (fresh 20) 0 (replicate 16 7) [1] (replicate 16 3) toy_key 256 device toy_hmac
    1600000000 ctx'); [vm_compute; reflexivity|vm_compute; reflexivity|exact E].
Defined.

End CipherWitness.
