(* ===== verification/Endpoint.v ===== *)
(** * The HTTP client of the endpoint
    ([endpoint/connectivity/conn_http.c], [https.c], [endpoint_core.c])

    How a device posts an encrypted message to the accelerator.  The calls of
    mbed TLS on sockets, the HTTP parser, the flatbuffers builder and the Base64
    encoder are parameters.  Computations return an [outcome]: [Undefined] is an
    access C leaves undefined, [OutOfFuel] a loop that has not ended within the
    given number of rounds. *)

From S2P Require Import Prelude TaErrors Cipher.

Definition MBEDTLS_ERR_SSL_WANT_READ : Z := - 0x6900.
Definition MBEDTLS_ERR_SSL_WANT_WRITE : Z := - 0x6880.
Definition MBEDTLS_ERR_SSL_ASYNC_IN_PROGRESS : Z := - 0x6500.
Definition MBEDTLS_ERR_SSL_CRYPTO_IN_PROGRESS : Z := - 0x7000.

(** ** Sockets

    [sk] is the state of the connection and of the library; every call returns
    its [int] result.  [net_write] is [mbedtls_ssl_write] or [mbedtls_net_send],
    [net_read] the corresponding read, with the bytes it stored. *)
Class Network (sk : Type) := {
  ctr_drbg_seed : cstr -> sk -> Z * sk;
  x509_crt_parse : sk -> Z * sk;
  net_connect : cstr -> cstr -> sk -> Z * sk;
  ssl_config_defaults : sk -> Z * sk;
  ssl_setup : sk -> Z * sk;
  ssl_set_hostname : cstr -> sk -> Z * sk;
  ssl_handshake : sk -> Z * sk;
  net_write : bool -> list Z -> sk -> Z * sk;
  net_read : bool -> nat -> sk -> Z * list Z * sk
}.

Definition act (sk A : Type) : Type := sk -> outcome (A * sk).

#[export] Instance act_mret sk : MRet (act sk) := fun A a s => Done (a, s).
#[export] Instance act_mbind sk : MBind (act sk) := fun A B k m s =>
  match m s with Done (a, s') => k a s' | Undefined => Undefined | OutOfFuel => OutOfFuel end.

Definition call {sk A} (f : sk -> A * sk) : act sk A := fun s => Done (f s).
Definition defined {sk A} (o : option A) : act sk A :=
  fun s => match o with Some a => Done (a, s) | None => Undefined end.
Definition bounded {sk A} (o : outcome A) : act sk A :=
  fun s => match o with Done a => Done (a, s) | Undefined => Undefined | OutOfFuel => OutOfFuel end.

(** ** Requests *)

Definition MAX_PORT_LEN : nat := 5.
Definition MAX_CONTENT_LENGTH_LEN : nat := 5.
Definition crlf : cstr := [13; 10].

Definition post_req_format : cstr :=
  lit "POST /%s HTTP/1.1" ++ crlf ++
  lit "Host: %s:%d" ++ crlf ++
  lit "Connection: Keep-Alive" ++ crlf ++
  lit "Content-Type: application/json" ++ crlf ++
  lit "Content-Length: %d" ++ crlf ++
  crlf ++
  lit "%s" ++ crlf ++ crlf.

Definition set_post_request (path host : cstr) (port : Z) (req_body : cstr) : status_t * cstr :=
  let out_len := (length post_req_format + length path + length host + MAX_PORT_LEN +
                  MAX_CONTENT_LENGTH_LEN + length req_body)%nat in
  (SC_OK, snprintf_text out_len
            (sprintf post_req_format [path; host; dec (i32 port); dec (i32 (strlen req_body)); req_body])).

Definition get_req_format : cstr :=
  lit "GET /%s HTTP/1.1" ++ crlf ++ lit "Host: %s:%d" ++ crlf ++ crlf ++ crlf.

Definition set_get_request (path host : cstr) (port : Z) : status_t * cstr :=
  let out_len := (length get_req_format + length path + length host + MAX_PORT_LEN)%nat in
  (SC_OK, snprintf_text out_len (sprintf get_req_format [path; host; dec (i32 port)])).

Section Client.
Context {sk : Type} {network : Network sk} (fuel : nat).

(** ** Connections *)

(** The loop behind the handshake, which does not call it again: the value is
    whether the handshake has succeeded. *)
Definition handshake_step (ret : Z) : ctl Z bool :=
  if ret =? 0 then Break true
  else if negb (ret =? MBEDTLS_ERR_SSL_WANT_READ) && negb (ret =? MBEDTLS_ERR_SSL_WANT_WRITE)
  then Break false
  else Continue ret.

Definition http_open (https : bool) (seed_nonce host port : cstr) : act sk status_t :=
  prepared ← (if https then
    ret ← call (ctr_drbg_seed seed_nonce);
    if negb (ret =? 0) then mret SC_UTILS_HTTPS_INIT_ERROR else
    ret ← call x509_crt_parse;
    mret (if ret <? 0 then SC_UTILS_HTTPS_X509_ERROR else SC_OK)
  else mret SC_OK);
  if negb (prepared =? SC_OK) then mret prepared else
  ret ← call (net_connect host port);
  if negb (ret =? 0) then mret SC_UTILS_HTTPS_CONN_ERROR else
  if negb https then mret SC_OK else
  ret ← call ssl_config_defaults;
  if negb (ret =? 0) then mret SC_UTILS_HTTPS_SSL_ERROR else
  ret ← call ssl_setup;
  if negb (ret =? 0) then mret SC_UTILS_HTTPS_SSL_ERROR else
  ret ← call (ssl_set_hostname host);
  if negb (ret =? 0) then mret SC_UTILS_HTTPS_SSL_ERROR else
  ret ← call ssl_handshake;
  ok ← bounded (run handshake_step fuel ret);
  mret (if ok : bool then SC_OK else SC_UTILS_HTTPS_SSL_ERROR).

(** One round of the loop in [http_send_request]. *)
Definition send_step (https : bool) (req : cstr) (s : Z * sk) : ctl (Z * sk) (status_t * sk) :=
  let '(write_len, k) := s in
  if negb (write_len <? strlen req) then Break (SC_OK, k) else
  let '(ret_len, k) := net_write https (drop (Z.to_nat write_len) req) k in
  if ret_len =? MBEDTLS_ERR_SSL_WANT_WRITE then Continue (write_len, k)
  else if ret_len <=? 0 then Break (SC_UTILS_HTTPS_SEND_ERROR, k)
  else Continue (write_len + ret_len, k).

Definition http_send_request (https : bool) (req : cstr) : act sk status_t :=
  fun k => run (send_step https req) fuel (0, k).

(** [http_read_response] into the array [res]; without TLS the context that is
    reset when nothing was read is a NULL pointer. *)
Definition http_read_response (https : bool) (res : list Z) : act sk (status_t * list Z) :=
  '(ret_len, data) ← (call (net_read https (length res)) : act sk (Z * list Z));
  let idle := (ret_len =? 0) || (ret_len =? MBEDTLS_ERR_SSL_WANT_READ) ||
    (ret_len =? MBEDTLS_ERR_SSL_WANT_WRITE) || (ret_len =? MBEDTLS_ERR_SSL_ASYNC_IN_PROGRESS) ||
    (ret_len =? MBEDTLS_ERR_SSL_CRYPTO_IN_PROGRESS) in
  res ← defined (overwrite res 0 data);
  if idle && negb https then defined None else mret (SC_OK, res).

(** ** [https.c] *)

(** [http_parser_execute] on a response: where the pieces of the body are, as
    offset and length, and the status code. *)
Context (http_parser_execute : cstr -> list (nat * nat) * Z).

(** [https_parser_callback]: the buffer of the response and its length. *)
Definition https_parser_callback (res : list Z) (piece : nat * nat) : option (option cstr * Z) :=
  at_ ← c_string (drop piece.1 res);
  Some (Some (snprintf_text (piece.2 + 1) at_), Z.of_nat piece.2).

(** The callback on each piece in turn, the last one stays. *)
Fixpoint parsed (res : list Z) (pieces : list (nat * nat)) (my_data : option cstr * Z)
  : option (option cstr * Z) :=
  match pieces with
  | [] => Some my_data
  | p :: r => d ← https_parser_callback res p; parsed res r d
  end.

Record https_ctx_t := mkHttps {
  ctx_host : cstr; ctx_port : Z; ctx_api : cstr; ctx_ssl_seed : cstr; s_req : cstr;
  s_res : option cstr * Z }.

Definition with_res (ctx : https_ctx_t) (d : option cstr * Z) : https_ctx_t :=
  mkHttps (ctx_host ctx) (ctx_port ctx) (ctx_api ctx) (ctx_ssl_seed ctx) (s_req ctx) d.

Definition send_https_msg (https : bool) (ctx : https_ctx_t) : act sk (status_t * https_ctx_t) :=
  let '(_, req) := set_post_request (ctx_api ctx) (ctx_host ctx) (u32 (ctx_port ctx)) (s_req ctx) in
  let net_port := snprintf_text 12 (dec (ctx_port ctx)) in
  ret ← http_open https (ctx_ssl_seed ctx) (ctx_host ctx) net_port;
  if negb (ret =? SC_OK) then mret (ret, ctx) else
  ret ← http_send_request https req;
  if negb (ret =? SC_OK) then mret (ret, ctx) else
  '(ret, res) ← http_read_response https (replicate 4096 0);
  if negb (ret =? SC_OK) then mret (ret, ctx) else
  text ← defined (c_string res);
  let '(pieces, status_code) := http_parser_execute text in
  my_data ← defined (parsed res pieces (None, 0));
  mret (if negb (status_code =? SC_HTTP_OK) then SC_UTILS_HTTPS_RESPONSE_ERROR else ret,
        with_res ctx my_data).

(** ** [endpoint_core.c] *)

Context {tls : MbedTls} (flatcc_message : list Z -> list Z -> list Z -> list Z)
  (le_base64_Encode : list Z -> option cstr).

Definition MAX_MSG_LEN : nat := 1024.
Definition REQ_BODY : cstr :=
  qlit "{`data`:{`seed`:`%s`,`message`:`%s`},`protocol`:`MAM_V1`}" ++ crlf ++ crlf.
Definition SEND_MAM_API : cstr := lit "mam/send/".

(** [send_mam_message]; [now] is [t.tv_sec]. *)
Definition send_mam_message (https : bool) (now : Z) (host port ssl_seed mam_seed : cstr)
    (message : list Z) (msg_len : Z) (private_key : list Z) (dev : cstr) : act sk status_t :=
  '(ret, encrypt_ctx) ← defined (aes_encrypt
    (mkCipher (Some message) msg_len (Some (replicate MAX_MSG_LEN 0)) (Z.of_nat MAX_MSG_LEN)
       (replicate AES_IV_SIZE 0) (Some private_key) TA_AES_KEY_BITS (Some dev)
       (replicate TA_AES_HMAC_SIZE 0) now));
  if negb (ret =? SC_OK) then mret ret else
  data ← defined (cipher ← ciphertext encrypt_ctx;
                  read_at cipher 0 (Z.to_nat (ciphertext_len encrypt_ctx)));
  let buf := flatcc_message (hmac encrypt_ctx) (iv encrypt_ctx) data in
  match le_base64_Encode buf with
  | None => mret SC_OK
  | Some encodedBuf =>
      let req_body := snprintf_text MAX_MSG_LEN (sprintf REQ_BODY [mam_seed; encodedBuf]) in
      port ← defined (atoi port);
      '(ret, _) ← send_https_msg https (mkHttps host port SEND_MAM_API ssl_seed req_body (None, 0));
      mret (if negb (ret =? SC_OK) then SC_ENDPOINT_SEND_TRANSFER else SC_OK)
  end.

End Client.

(** ** Properties *)

Lemma act_bind {sk A B} (m : act sk A) (k : A -> act sk B) s a s' :
  m s = Done (a, s') -> (m ≫= k) s = k a s'.
Proof. unfold mbind, act_mbind. by intros ->. Qed.

(** *** Requests *)

(** The text of a POST request, in full. *)
Definition post_text (path host : cstr) (port : Z) (body : cstr) : cstr :=
  lit "POST /" ++ path ++ lit " HTTP/1.1" ++ crlf ++
  lit "Host: " ++ host ++ lit ":" ++ dec port ++ crlf ++
  lit "Connection: Keep-Alive" ++ crlf ++ lit "Content-Type: application/json" ++ crlf ++
  lit "Content-Length: " ++ dec (strlen body) ++ crlf ++ crlf ++ body ++ crlf ++ crlf.

Lemma sprintf_post path host port len body :
  sprintf post_req_format [path; host; port; len; body] =
  lit "POST /" ++ path ++ lit " HTTP/1.1" ++ crlf ++
  lit "Host: " ++ host ++ lit ":" ++ port ++ crlf ++
  lit "Connection: Keep-Alive" ++ crlf ++ lit "Content-Type: application/json" ++ crlf ++
  lit "Content-Length: " ++ len ++ crlf ++ crlf ++ body ++ crlf ++ crlf.
Proof. reflexivity. Qed.

Lemma length_dec n k : 0 <= n < 10 ^ Z.of_nat (S k) -> (length (dec n) <= S k)%nat.
Proof.
  intros Hn. unfold dec. rewrite (proj2 (Z.ltb_ge n 0)) by lia. by apply length_dec_nat.
Qed.

(** The array for a request is large enough. *)
Lemma post_request_complete path host port body :
  0 <= port <= 65535 -> strlen body <= INT_MAX ->
  set_post_request path host port body = (SC_OK, post_text path host port body).
Proof.
  intros Hp Hb. unfold set_post_request. unfold strlen, INT_MAX in *.
  rewrite !swrap_small by lia. f_equal. rewrite sprintf_post. unfold snprintf_text, post_text, strlen.
  apply take_ge. pose proof (length_dec port 4 ltac:(lia)).
  pose proof (length_dec (Z.of_nat (length body)) 9 ltac:(lia)).
  change (length post_req_format) with 116%nat. rewrite !length_app. unfold MAX_PORT_LEN, MAX_CONTENT_LENGTH_LEN.
  simpl. lia.
Qed.

(** *** The network *)

(** What the peer has been sent so far: writes that report a positive number
    have delivered that many bytes, nothing else delivers anything. *)
Class NetworkLaws (sk : Type) (network : Network sk) (sent : sk -> list Z) : Prop := {
  write_sent https d k r k' : net_write https d k = (r, k') ->
    (r <= 0 -> sent k' = sent k) /\
    (0 < r -> r <= Z.of_nat (length d) /\ sent k' = sent k ++ take (Z.to_nat r) d);
  connect_sent host port k : sent (net_connect host port k).2 = sent k;
  read_sent https n k : sent (net_read https n k).2 = sent k
}.

Section Delivery.
Context {sk : Type} {network : Network sk} {sent : sk -> list Z} {laws : NetworkLaws sk network sent}.

(** A socket that always takes something. *)
Definition writable (https : bool) : Prop :=
  forall d k, d <> [] -> 0 < (net_write https d k).1.

Lemma send_loop https req : forall fuel n k st k', (n <= length req)%nat ->
  run (send_step https req) fuel (Z.of_nat n, k) = Done (st, k') ->
  exists m, (n <= m <= length req)%nat /\ sent k' = sent k ++ take (m - n) (drop n req) /\
    ((st = SC_OK /\ m = length req) \/ (st = SC_UTILS_HTTPS_SEND_ERROR /\ (m < length req)%nat)).
Proof.
  induction fuel as [|fuel IH]; intros n k st k' Hn Hrun; [done|]. cbn [run send_step] in Hrun.
  unfold strlen in Hrun. destruct (Z.ltb_spec (Z.of_nat n) (Z.of_nat (length req))) as [Hlt|Hge]; cbn [negb] in Hrun.
  - rewrite Nat2Z.id in Hrun. destruct (net_write https (drop n req) k) as [r k1] eqn:Hw.
    destruct (write_sent https _ _ _ _ Hw) as [Hle Hpos].
    destruct (Z.eqb_spec r MBEDTLS_ERR_SSL_WANT_WRITE) as [->|_].
    + rewrite <- (Hle ltac:(done)). by apply IH.
    + destruct (Z.leb_spec r 0) as [Hr|Hr].
      * injection Hrun as <- <-. exists n. split; [lia|].
        rewrite Nat.sub_diag, take_0, app_nil_r. split; [by apply Hle|by right; split; [|lia] ].
      * destruct (Hpos Hr) as [Hmax Hsent]. rewrite length_drop in Hmax.
        replace (Z.of_nat n + r) with (Z.of_nat (n + Z.to_nat r)) in Hrun by lia.
        apply IH in Hrun as (m & Hm & Hs & Hst); [|lia]. exists m. split; [lia|]. split; [|done].
        rewrite Hs, Hsent, <- app_assoc. f_equal.
        replace (m - n)%nat with (Z.to_nat r + (m - (n + Z.to_nat r)))%nat by lia.
        by rewrite <- take_take_drop, drop_drop.
  - injection Hrun as <- <-. exists (length req). split; [lia|]. split; [|by left].
    by rewrite (drop_ge req), take_nil, app_nil_r by lia.
Qed.

Lemma send_loop_total https req : writable https -> forall fuel n k,
  (n <= length req)%nat -> (length req - n < fuel)%nat ->
  exists k', run (send_step https req) fuel (Z.of_nat n, k) = Done (SC_OK, k').
Proof.
  intros Hw. induction fuel as [|fuel IH]; intros n k Hn Hf; [lia|]. cbn [run send_step]. unfold strlen.
  destruct (Z.ltb_spec (Z.of_nat n) (Z.of_nat (length req))) as [Hlt|Hge]; cbn [negb]; [|by eexists].
  rewrite Nat2Z.id.
  assert (drop n req <> []) as Hne.
  { intros E. apply (f_equal length) in E. rewrite length_drop in E. simpl in E. lia. }
  specialize (Hw (drop n req) k Hne). destruct (net_write https (drop n req) k) as [r k1] eqn:E.
  destruct (write_sent https _ _ _ _ E) as [_ Hpos]. simpl in Hw. destruct (Hpos Hw) as [Hmax _].
  rewrite length_drop in Hmax.
  destruct (Z.eqb_spec r MBEDTLS_ERR_SSL_WANT_WRITE) as [->|_]; [done|].
  rewrite (proj2 (Z.leb_gt r 0)) by done.
  replace (Z.of_nat n + r) with (Z.of_nat (n + Z.to_nat r)) by lia. apply IH; lia.
Qed.

(** C26 [http_send_request] delivers the request however the socket cuts it: when
    it returns [SC_OK] the peer has got exactly the request, when it returns an
    error a proper prefix of it, and over a socket that always takes something
    it returns [SC_OK] within one round per byte. *)
Theorem http_send_request_delivers https req k fuel :
  (forall st k', http_send_request fuel https req k = Done (st, k') ->
     (st = SC_OK /\ sent k' = sent k ++ req) \/
     (st = SC_UTILS_HTTPS_SEND_ERROR /\ exists m, (m < length req)%nat /\ sent k' = sent k ++ take m req)) /\
  (writable https -> (length req < fuel)%nat ->
     exists k', http_send_request fuel https req k = Done (SC_OK, k') /\ sent k' = sent k ++ req).
Proof.
  assert (forall st k', http_send_request fuel https req k = Done (st, k') ->
    exists m, sent k' = sent k ++ take m req /\
      ((st = SC_OK /\ m = length req) \/ (st = SC_UTILS_HTTPS_SEND_ERROR /\ (m < length req)%nat))) as H.
  { intros st k' Hrun. destruct (send_loop https req fuel 0 k st k' ltac:(lia) Hrun) as (m & _ & Hs & Hst).
    exists m. rewrite Nat.sub_0_r, drop_0 in Hs. done. }
  split.
  - intros st k' (m & Hs & [ [-> ->] | [-> Hm] ])%H; [left|right; split; [done|by exists m] ].
    by rewrite take_ge in Hs by lia.
  - intros Hw Hf. destruct (send_loop_total https req Hw fuel 0 k) as [k' Hk]; [lia|lia|].
    exists k'. split; [exact Hk|]. destruct (H _ _ Hk) as (m & Hs & [ [_ ->] | [? _] ]); [|done].
    by rewrite take_ge in Hs by lia.
Qed.

(** *** Sending a message *)

Context (http_parser_execute : cstr -> list (nat * nat) * Z).
Abbreviation read_response := (fun d => str_of_buf (d ++ replicate (4096 - length d) 0)).

(** A server that answers every request with status 200 in less than 4096 bytes. *)
Definition answers : Prop := forall k, exists n d k' pieces,
  net_read false 4096 k = (n, d, k') /\ 0 < n /\ (length d < 4096)%nat /\
  http_parser_execute (read_response d) = (pieces, 200) /\ Forall (fun p => p.1 <= length d)%nat pieces.

Lemma c_string_response d off : (off <= length d)%nat -> (length d < 4096)%nat ->
  is_Some (c_string (drop off (d ++ replicate (4096 - length d) 0))).
Proof.
  intros Ho Hl. rewrite drop_app_le by done. unfold c_string.
  rewrite bool_decide_true; [by eexists|]. rewrite elem_of_app. right. apply elem_of_replicate. lia.
Qed.

Lemma parsed_some d pieces : (length d < 4096)%nat -> Forall (fun p => p.1 <= length d)%nat pieces ->
  forall my, is_Some (parsed (d ++ replicate (4096 - length d) 0) pieces my).
Proof.
  intros Hl. induction 1 as [|p pieces Hp _ IH]; intros my; [by eexists|]. cbn [parsed].
  unfold https_parser_callback. destruct (c_string_response d p.1 Hp Hl) as [t ->]. bind_simpl. apply IH.
Qed.

Lemma send_https_ok host p api seed body res fuel k req :
  0 <= p <= 65535 -> strlen body <= INT_MAX -> req = post_text api host p body -> (length req < fuel)%nat ->
  (forall k, (net_connect host (snprintf_text 12 (dec p)) k).1 = 0) -> writable false -> answers ->
  exists k' ctx, send_https_msg fuel http_parser_execute false (mkHttps host p api seed body res) k =
      Done ((SC_OK, ctx), k') /\ sent k' = sent k ++ req.
Proof.
  intros Hp Hlen Hreq Hf Hconn Hw Hans. unfold send_https_msg.
  cbn [ctx_host ctx_port ctx_api ctx_ssl_seed s_req].
  rewrite (uwrap_small 32) by lia. rewrite post_request_complete by done. rewrite <- Hreq.
  set (port := snprintf_text 12 (dec p)) in *.
  specialize (Hconn k). destruct (net_connect host port k) as [c k1] eqn:Ec. simpl in Hconn. subst c.
  pose proof (connect_sent host port k) as Hs1. rewrite Ec in Hs1. simpl in Hs1.
  assert (http_open fuel false seed host port k = Done (SC_OK, k1)) as Ho.
  { unfold http_open, call, mbind, act_mbind, mret, act_mret. cbv beta iota.
    change (negb (SC_OK =? SC_OK)) with false. cbv beta iota. by rewrite Ec. }
  rewrite (act_bind _ _ _ _ _ Ho). change (SC_OK =? SC_OK) with true. cbn [negb].
  destruct (send_loop_total false req Hw fuel 0 k1) as [k2 H2]; [lia|lia|].
  destruct (send_loop false req fuel 0 k1 SC_OK k2 ltac:(lia) H2) as (m & _ & Hs2 & [ [_ ->] | [? _] ]); [|done].
  rewrite (act_bind _ _ _ _ _ (H2 : http_send_request fuel false req k1 = _)).
  change (SC_OK =? SC_OK) with true. cbn [negb].
  destruct (Hans k2) as (n & d & k3 & pieces & Er & Hn & Hd & Hparse & Hpieces).
  pose proof (read_sent false 4096 k2) as Hs3. rewrite Er in Hs3. simpl in Hs3.
  assert (http_read_response false (replicate 4096 0) k2 =
    Done ((SC_OK, d ++ replicate (4096 - length d) 0), k3)) as Hr.
  { unfold http_read_response, call, defined, mbind, act_mbind. rewrite length_replicate, Er.
    rewrite overwrite_start by (rewrite length_replicate; lia). rewrite drop_replicate.
    rewrite (proj2 (Z.eqb_neq n 0)), !(proj2 (Z.eqb_neq n _)); [done|..]; unfold MBEDTLS_ERR_SSL_WANT_READ,
      MBEDTLS_ERR_SSL_WANT_WRITE, MBEDTLS_ERR_SSL_ASYNC_IN_PROGRESS, MBEDTLS_ERR_SSL_CRYPTO_IN_PROGRESS; lia. }
  rewrite (act_bind _ _ _ _ _ Hr). change (SC_OK =? SC_OK) with true. cbn [negb].
  unfold defined, mbind, act_mbind.
  destruct (c_string_response d 0 ltac:(lia) Hd) as [t Ht]. rewrite drop_0 in Ht. rewrite Ht.
  assert (t = read_response d) as ->. { unfold c_string in Ht. case_bool_decide; [|done]. by injection Ht as <-. }
  rewrite Hparse. destruct (parsed_some d pieces Hd Hpieces (None, 0)) as [my Hmy]. rewrite Hmy.
  eexists k3, _. split; [reflexivity|]. rewrite Hs3, Hs2, Hs1, drop_0, Nat.sub_0_r. by rewrite take_ge by lia.
Qed.

Context {tls : MbedTls} {tls_laws : MbedTlsLaws tls}
  (flatcc_message : list Z -> list Z -> list Z -> list Z) (base64 : list Z -> cstr).

Lemma length_post_text path host port body : 0 <= port <= 65535 -> strlen body <= INT_MAX ->
  (length (post_text path host port body) <= 130 + length path + length host + length body)%nat.
Proof.
  intros Hp Hb. unfold post_text. unfold strlen, INT_MAX in *.
  pose proof (length_dec port 4 ltac:(lia)). pose proof (length_dec (Z.of_nat (length body)) 9 ltac:(lia)).
  rewrite !length_app. simpl. lia.
Qed.

Lemma send_mam_steps fuel now host port p seed mam_seed message msg_len k dev c ctx1 data ctx2 c' :
  aes_encrypt (full_ctx message msg_len (replicate MAX_MSG_LEN 0) (Z.of_nat MAX_MSG_LEN)
    (replicate AES_IV_SIZE 0) k TA_AES_KEY_BITS dev (replicate TA_AES_HMAC_SIZE 0) now) = Some (SC_OK, ctx1) ->
  (cipher ← ciphertext ctx1; read_at cipher 0 (Z.to_nat (ciphertext_len ctx1))) = Some data ->
  atoi port = Some p ->
  send_https_msg fuel http_parser_execute false
    (mkHttps host p SEND_MAM_API seed
      (snprintf_text MAX_MSG_LEN (sprintf REQ_BODY [mam_seed; base64 (flatcc_message (hmac ctx1) (iv ctx1) data)]))
      (None, 0)) c = Done ((SC_OK, ctx2), c') ->
  send_mam_message fuel http_parser_execute flatcc_message (Some ∘ base64) false now host port seed
    mam_seed message msg_len k dev c = Done (SC_OK, c').
Proof.
  intros Henc Hdata Hport Hsend. unfold send_mam_message. fold (full_ctx message msg_len
    (replicate MAX_MSG_LEN 0) (Z.of_nat MAX_MSG_LEN) (replicate AES_IV_SIZE 0) k TA_AES_KEY_BITS dev
    (replicate TA_AES_HMAC_SIZE 0) now). rewrite Henc, Hport.
  unfold mbind at 1, act_mbind at 1, defined at 1. rewrite Z.eqb_refl. cbn [negb].
  rewrite Hdata. unfold mbind at 1, act_mbind at 1, defined at 1. cbn [compose].
  unfold mbind at 1, act_mbind at 1, defined at 1. unfold mbind, act_mbind. rewrite Hsend. reflexivity.
Qed.

Lemma length_api : length SEND_MAM_API = 9%nat.
Proof. reflexivity. Qed.

Lemma enough_send_fuel req path host (body : cstr) fuel : (req <= 130 + path + host + length body)%nat ->
  path = 9%nat -> strlen body <= 1023 -> (1200 + host < fuel)%nat -> (req < fuel)%nat.
Proof. unfold strlen. lia. Qed.

Lemma snprintf_max t : snprintf_text MAX_MSG_LEN t = take 1023 t.
Proof. reflexivity. Qed.

(** Whoever has the key, the device id and the time reads the message. *)
Definition opens_to (k : list Z) (dev : cstr) (now : Z) (h v data msg : list Z) : Prop :=
  forall plain plen bits, (length (padded msg) <= length plain)%nat -> exists ctx,
    aes_decrypt (full_ctx plain plen data (Z.of_nat (length data)) v k bits dev h now) = Some (SC_OK, ctx) /\
    plaintext ctx = Some (written (padded msg) plain).

(** [send_mam_message] over plain HTTP, to a server that answers: the message
    is encrypted, can be decrypted with the key, and the server receives one POST request.  Its body is the
    JSON text with the seed and the encoded message as far as it fits in 1023
    characters; the rest of a longer text is missing and nobody notices.  The
    message is built from an HMAC of 32 bytes, an initial vector of 16 and a
    ciphertext of the padded length. *)
Theorem send_mam_posts fuel now host port p seed mam_seed msg rest k dev c :
  length k = 32%nat -> (length (padded msg) <= MAX_MSG_LEN)%nat ->
  atoi port = Some p -> 0 <= p <= 65535 -> (1200 + length host < fuel)%nat ->
  (forall c, (net_connect host (snprintf_text 12 (dec p)) c).1 = 0) -> writable false -> answers ->
  exists h v data c', (length h = 32%nat /\ length v = 16%nat /\ length data = length (padded msg)) /\
    opens_to k dev now h v data msg /\
    send_mam_message fuel http_parser_execute flatcc_message (Some ∘ base64) false now host port seed
      mam_seed (msg ++ rest) (Z.of_nat (length msg)) k dev c = Done (SC_OK, c') /\
    sent c' = sent c ++ post_text SEND_MAM_API host p
      (take 1023 (sprintf REQ_BODY [mam_seed; base64 (flatcc_message h v data)])).
Proof.
  intros Hk Hm Hport Hp Hf Hconn Hw Hans. unfold MAX_MSG_LEN in Hm.
  pose proof (length_padded msg) as Hpad. pose proof (Nat.div_mod_eq (length msg) 16) as Hdm.
  pose proof (Nat.mod_upper_bound (length msg) 16 ltac:(lia)).
  destruct (aes_encrypt_spec msg rest (replicate MAX_MSG_LEN 0) (Z.of_nat MAX_MSG_LEN)
    (replicate AES_IV_SIZE 0) k TA_AES_KEY_BITS dev (replicate TA_AES_HMAC_SIZE 0) now Hk)
    as (ke & kd & cs & v' & digest & Hdk & Hdig & Hch & Henc);
    [lia|unfold MAX_MSG_LEN; lia|rewrite length_replicate; unfold MAX_MSG_LEN; lia|].
  destruct (chain_blocks _ _ _ _ _ _ Hch) as (_ & Hcs & Hlc).
  pose proof (length_concat_blocks cs Hcs) as Hlcat.
  destruct (chunks_spec (length msg / 16 + 1) (padded msg) Hpad) as (Hcat & _ & Hlen).
  set (v0 := zip_with Z.lxor _ _) in *. set (h := hmac_sha256 digest (concat cs)) in *.
  remember (snprintf_text MAX_MSG_LEN (sprintf REQ_BODY [mam_seed; base64 (flatcc_message h v0 (concat cs))]))
    as body eqn:Ebody.
  assert (strlen body <= 1023) as Hb.
  { rewrite Ebody, snprintf_max. clear. unfold strlen. rewrite length_take. lia. }
  assert (strlen body <= INT_MAX) as Hi by (clear - Hb; unfold INT_MAX; lia).
  pose proof (length_post_text SEND_MAM_API host p body Hp Hi) as Hl.
  remember (post_text SEND_MAM_API host p body) as req eqn:Ereq.
  pose proof (enough_send_fuel _ _ _ _ _ Hl length_api Hb Hf) as Hreq.
  destruct (send_https_ok host p SEND_MAM_API seed body (None, 0) fuel c req Hp Hi Ereq Hreq Hconn Hw Hans)
    as (c' & ctx2 & Hsend & Hsent).
  exists h, v0, (concat cs), c'. split.
  { split; [apply hmac_length|]. split; [|clear - Hpad Hlen Hlc Hlcat; lia].
    apply length_xor_halves. unfold base_digest in Hdig. rewrite (read_key k Hk) in Hdig.
    injection Hdig as <-. apply sha256_length. }
  split.
  { intros plain plen bits Hpl.
    assert (length (concat cs) = length (padded msg)) as Hlp by (clear - Hpad Hlen Hlc Hlcat; lia).
    assert (chunks (length msg / 16 + 1) (padded msg) <> []) as Hne
      by (intros E; rewrite E in Hlen; simpl in Hlen; clear - Hlen; lia).
    assert (Z.of_nat (length (concat cs)) < 2 ^ 63) as Hmax by (clear - Hlp Hm; lia).
    assert (length (concat cs) <= length plain)%nat as Hl2 by (clear - Hlp Hpl; lia).
    pose proof (aes_decrypt_chain ke kd v0 _ cs v' digest plain plen [] k bits dev now
      Hk Hdk Hdig Hch Hne Hmax Hl2) as Hdec. rewrite app_nil_r in Hdec.
    eexists. split; [exact Hdec|]. unfold full_ctx. cbn [plaintext]. by rewrite Hcat. }
  rewrite <- snprintf_max, <- Ebody, <- Ereq. split; [|exact Hsent].
  rewrite Ebody in Hsend. eapply send_mam_steps; [exact Henc| |exact Hport|exact Hsend].
  cbn [full_ctx ciphertext ciphertext_len mbind option_bind]. rewrite Nat2Z.id. unfold written.
  by rewrite read_at_start.
Qed.

End Delivery.

(** A handshake that asks to be called again is waited for without an end. *)
Lemma handshake_spins fuel b :
  run handshake_step fuel MBEDTLS_ERR_SSL_WANT_READ <> Done b.
Proof.
  apply (run_never handshake_step (fun r => r = MBEDTLS_ERR_SSL_WANT_READ)); [done|].
  by intros ? ->.
Qed.

(** ** Evaluations *)
Module EndpointWitness.
Import CipherWitness.

(** A connection that keeps what it gets, seven bytes at a time. *)
#[export] Instance toy_network : Network (list Z) := {
  ctr_drbg_seed _ k := (0, k);
  x509_crt_parse k := (0, k);
  net_connect _ _ k := (0, k);
  ssl_config_defaults k := (0, k);
  ssl_setup k := (0, k);
  ssl_set_hostname _ k := (0, k);
  ssl_handshake k := (0, k);
  net_write _ d k := (Z.of_nat (length (take 7 d)), k ++ take 7 d);
  net_read _ _ k := (2, lit "ok", k)
}.

#[export] Instance toy_network_laws : NetworkLaws (list Z) toy_network (fun k => k).
Proof.
  split; [|done|done]. intros https d k r k' [= <- <-]. rewrite length_take. split; intros Hr.
  - assert (length d = 0%nat) as E by lia. destruct d; [by rewrite app_nil_r|done].
  - split; [lia|]. f_equal. rewrite Nat2Z.id. destruct (Nat.min_spec 7 (length d)) as [ [Hl ->] | [Hl ->] ]; [done|].
    by rewrite !take_ge by lia.
Qed.

Lemma toy_writable : writable (network := toy_network) false.
Proof. intros [|x d] k Hd; [done|]. simpl. lia. Qed.

Lemma http_send_request_delivers_witness :
  exists k', http_send_request 30 false (lit "GET /info HTTP/1.1") (lit "old") = Done (SC_OK, k') /\
    k' = lit "old" ++ lit "GET /info HTTP/1.1".
Proof.
  apply (proj2 (http_send_request_delivers (sent := fun k => k) false (lit "GET /info HTTP/1.1") (lit "old") 30));
    [exact toy_writable|vm_compute; lia].
Defined.

Definition one_piece (_ : cstr) : list (nat * nat) * Z := ([(0, 2)%nat], 200).

Lemma toy_server_answers : answers (network := toy_network) one_piece.
Proof.
  intros k. exists 2, (lit "ok"), k, [(0, 2)%nat].
  split; [reflexivity|]. split; [lia|]. split; [simpl length; lia|]. split; [reflexivity|].
  constructor; [simpl; lia|constructor].
Qed.

(** Concatenation and a constant, in place of flatbuffers and Base64. *)
Definition glue (h v d : list Z) : list Z := h ++ v ++ d.
Definition encoded (_ : list Z) : cstr := lit "encoded".

Lemma send_mam_posts_witness : exists h v data c',
  (length h = 32%nat /\ length v = 16%nat /\ length data = 16%nat) /\
  opens_to toy_key device 1600000000 h v data (lit "hi") /\
  send_mam_message 1300 one_piece glue (Some ∘ encoded) false 1600000000
    (lit "node") (lit "8000") (lit "nonce") (lit "SEED") (lit "hi" ++ [0]) 2 toy_key device [] = Done (SC_OK, c') /\
  c' = [] ++ post_text SEND_MAM_API (lit "node") 8000
    (take 1023 (sprintf REQ_BODY [lit "SEED"; encoded (glue h v data)])).
Proof.
  apply (send_mam_posts (sent := fun k => k) one_piece glue encoded 1300
    1600000000 (lit "node") (lit "8000") 8000 (lit "nonce") (lit "SEED") (lit "hi") [0] toy_key device []);
    [reflexivity| |reflexivity|lia| |reflexivity|exact toy_writable|exact toy_server_answers].
  - apply (bool_decide_unpack _). vm_compute. exact I.
  - apply (bool_decide_unpack _). vm_compute. exact I.
Defined.

End EndpointWitness.
