(* ===== verification/Storage.v ===== *)
(** * The storage client

    [storage/scylladb_utils.c] and [scylladb_client.c]: queries and connections
    over the Cassandra driver.  The driver is the class [Cassandra]: a prepared
    statement is its query text, a bound statement the query with the values
    bound so far, a row the list of its columns.  [db] stands for whatever the
    calls change: the session and the tables behind it, the generator of UUIDs
    and the clock. *)

From S2P Require Import Prelude TaErrors.

(** ** The driver *)

Record CassUuid := mkCassUuid { time_and_version : Z; clock_seq_and_node : Z }.

#[export] Instance CassUuid_eq_dec : EqDecision CassUuid.
Proof. solve_decision. Defined.

#[export] Instance CassUuid_countable : Countable CassUuid.
Proof.
  refine (inj_countable' (fun u => (time_and_version u, clock_seq_and_node u))
            (fun p => mkCassUuid p.1 p.2) _).
  by intros [].
Defined.

Inductive cass_value :=
| CassBytes (b : list Z)
| CassInt8 (z : Z)
| CassInt64 (z : Z)
| CassUuidVal (u : CassUuid)
| CassCollection (items : list (list Z))
| CassNull.

#[export] Instance cass_value_eq_dec : EqDecision cass_value.
Proof. solve_decision. Defined.

(** How a parameter of a statement is named when it is bound. *)
Inductive cass_param := ByName (name : cstr) | ByIndex (i : nat).

#[export] Instance cass_param_eq_dec : EqDecision cass_param.
Proof. solve_decision. Defined.

Record CassStatement := mkStatement {
  st_query : cstr; st_bound : list (cass_param * cass_value) }.

#[export] Instance CassStatement_eq_dec : EqDecision CassStatement.
Proof. solve_decision. Defined.

Abbreviation CassRow := (list (cstr * cass_value)) (only parsing).

(** The calls on the driver.  A [bool] is [true] for [CASS_OK]; executing a
    statement gives the rows of its result, or [None] when the future carries
    an error code. *)
Class Cassandra (db : Type) := {
  cass_session_connect : db -> cstr -> option cstr -> bool * db;
  cass_session_prepare : db -> cstr -> bool * db;
  cass_statement_bind : CassStatement -> cass_param -> cass_value -> bool;
  cass_session_execute : db -> CassStatement -> option (list CassRow) * db;
  cass_uuid_gen_random : db -> CassUuid * db;
  cass_uuid_string : CassUuid -> cstr;
  cass_uuid_from_string : cstr -> option CassUuid;
  time_now : db -> Z * db
}.

(** [cass_row_get_column_by_name] and [cass_row_get_column]. *)
Definition cass_row_get_column_by_name (row : CassRow) (name : cstr) : option cass_value :=
  snd <$> (list_find (fun c => c.1 = name) row ≫= fun p => Some p.2).

Definition cass_row_get_column (row : CassRow) (i : nat) : option cass_value := snd <$> row !! i.

(** [cass_value_get_*]: [None] is any code other than [CASS_OK], after which
    the output is as it was. *)
Definition cass_value_get_bytes (v : option cass_value) : option (list Z) :=
  match v with Some (CassBytes b) => Some b | _ => None end.
Definition cass_value_get_int8 (v : option cass_value) : option Z :=
  match v with Some (CassInt8 z) => Some z | _ => None end.
Definition cass_value_get_int64 (v : option cass_value) : option Z :=
  match v with Some (CassInt64 z) => Some z | _ => None end.
Definition cass_value_get_uuid (v : option cass_value) : option CassUuid :=
  match v with Some (CassUuidVal u) => Some u | _ => None end.

(** ** Queries: [scylladb_utils.c] *)
Section Queries.
Context {db : Type} {cass : Cassandra db}.

Definition on_db {A} (f : db -> A * db) : comp db A := fun d => Some (f d).

Definition execute_statement (statement : CassStatement) : comp db bool :=
  res ← on_db (fun d => cass_session_execute d statement);
  mret (bool_decide (is_Some res)).

Definition execute_query (query : cstr) : comp db bool :=
  execute_statement (mkStatement query []).

Definition prepare_query (query : cstr) : comp db bool :=
  on_db (fun d => cass_session_prepare d query).

Definition make_query (head_desc position left_desc : option cstr) : status_t * option cstr :=
  match head_desc, position, left_desc with
  | Some h, Some p, Some l => (SC_OK, Some (h ++ p ++ l))
  | _, _, _ => (SC_NULL, None)
  end.

Definition db_truncate_table (table_name : option cstr) : comp db status_t :=
  let '(ret, query) := make_query (Some (lit "TRUNCATE TABLE ")) table_name (Some (lit "")) in
  if negb (ret =? SC_OK) then mret ret else
  query ← check query;
  ok ← execute_query query;
  mret (if (ok : bool) then ret else SC_STORAGE_CASSANDRA_QUERY_FAIL).

Definition replication : cstr :=
  lit " WITH replication = {'class': 'SimpleStrategy', 'replication_factor': '2'};".

Definition create_keyspace (keyspace_name : option cstr) : comp db status_t :=
  let '(ret, query) :=
    make_query (Some (lit "CREATE KEYSPACE IF NOT EXISTS ")) keyspace_name (Some replication) in
  if negb (ret =? SC_OK) then mret ret else
  query ← check query;
  ok ← execute_query query;
  mret (if (ok : bool) then ret else SC_STORAGE_CASSANDRA_QUERY_FAIL).

(** The calls of [cass_statement_bind_*] after a [cass_prepared_bind]: each one
    is checked and the first that fails ends the function; [None] then. *)
Fixpoint bind_all (st : CassStatement) (values : list (cass_param * cass_value))
  : option CassStatement :=
  match values with
  | [] => Some st
  | (p, v) :: r =>
      if cass_statement_bind st p v
      then bind_all (mkStatement (st_query st) (st_bound st ++ [(p, v)])) r
      else None
  end.

(** [prepare_query], [cass_prepared_bind] and the bindings, up to the statement
    that is executed; [None] when one of them failed. *)
Definition prepare_bound (query : cstr) (values : list (cass_param * cass_value))
  : comp db (option CassStatement) :=
  ok ← prepare_query query;
  mret (if (ok : bool) then bind_all (mkStatement query []) values else None).

(** The statement whose execution creates or empties a table, one after the
    other until one fails. *)
Fixpoint run_queries (queries : list cstr) : comp db status_t :=
  match queries with
  | [] => mret SC_OK
  | q :: r =>
      ok ← execute_query q;
      if (ok : bool) then run_queries r else mret SC_STORAGE_CASSANDRA_QUERY_FAIL
  end.

(** ** Connections: [scylladb_client.c] *)

Definition DB_USAGE_REATTACH : Z := 0.
Definition DB_USAGE_PERMANODE : Z := 1.
Definition DB_USAGE_NULL : Z := 2.

Definition db_keyspace_names : list (Z * cstr) :=
  [(DB_USAGE_REATTACH, lit "reattachment"); (DB_USAGE_PERMANODE, lit "db_chronicle")].

Definition get_keyspace_name (usage : Z) : option cstr :=
  snd <$> (list_find (fun p => p.1 = usage) db_keyspace_names ≫= fun p => Some p.2).

(** [db_client_service_t]: the host and the switch; cluster, session and
    generator are part of [db]. *)
Record db_client_service_t := mkDbService { db_host : option cstr; db_enabled : bool }.

Definition connect_session (host : cstr) (keyspace_name : option cstr) : comp db bool :=
  on_db (fun d => cass_session_connect d host keyspace_name).

Definition db_client_service_init (service : option db_client_service_t) (usage : Z)
  : comp db (status_t * option db_client_service_t) :=
  match service with
  | None => mret (SC_NULL, None)
  | Some s =>
      match db_host s with
      | None => mret (SC_NULL, Some s)
      | Some host =>
          ok ← connect_session host (get_keyspace_name usage);
          mret (if (ok : bool) then (SC_OK, Some (mkDbService (Some host) true))
                else (SC_STORAGE_CONNECT_FAIL, Some (mkDbService (Some host) false)))
      end
  end.

(** ** Keyspaces

    The part [db_init_identity_keyspace] and [db_permanode_keyspace_init] share:
    create the keyspace, use it, create the tables. *)
Definition init_keyspace (create_tables : comp db status_t) (service : option db_client_service_t)
    (keyspace_name : option cstr) : comp db status_t :=
  match service with
  | None => mret SC_NULL
  | Some _ =>
      ret ← create_keyspace keyspace_name;
      if negb (ret =? SC_OK) then mret ret else
      let '(ret, use_query) := make_query (Some (lit "USE ")) keyspace_name (Some (lit "")) in
      if negb (ret =? SC_OK) then mret ret else
      use_query ← check use_query;
      ok ← execute_statement (mkStatement use_query []);
      if (ok : bool) then create_tables else mret SC_STORAGE_CASSANDRA_QUERY_FAIL
  end.

(** ** Facts *)

Lemma on_db_run {A} (f : db -> A * db) d a d' : f d = (a, d') -> on_db f d = Some (a, d').
Proof. unfold on_db. by intros ->. Qed.

Lemma execute_statement_run st d :
  execute_statement st d =
  Some (bool_decide (is_Some (cass_session_execute d st).1), (cass_session_execute d st).2).
Proof. unfold execute_statement. comp_simpl. unfold on_db. by destruct (cass_session_execute d st). Qed.

(** A statement that was bound carries all the values, in the order of the calls. *)
Lemma bind_all_bound st values st' :
  bind_all st values = Some st' ->
  st' = mkStatement (st_query st) (st_bound st ++ values).
Proof.
  revert st. induction values as [|[p v] r IH]; intros st; simpl.
  - intros [= <-]. rewrite app_nil_r. by destruct st.
  - destruct (cass_statement_bind st p v); [|done]. intros ->%IH. simpl.
    by rewrite <- app_assoc.
Qed.

Lemma prepare_bound_inv query values d r d' :
  prepare_bound query values d = Some (r, d') ->
  d' = (cass_session_prepare d query).2 /\
  forall st, r = Some st -> st = mkStatement query values.
Proof.
  unfold prepare_bound, prepare_query, on_db. comp_simpl.
  destruct (cass_session_prepare d query) as [[] d1]; intros [= <- <-]; (split; [done|]).
  - intros st ->%bind_all_bound. done.
  - done.
Qed.

Lemma prepare_bound_total query values d : is_Some (prepare_bound query values d).
Proof.
  unfold prepare_bound, prepare_query, on_db. comp_simpl.
  destruct (cass_session_prepare d query) as [[] d1]; eauto.
Qed.

(** The statements that set up a keyspace, in order. *)
Definition keyspace_queries (ks : cstr) : list cstr :=
  [lit "CREATE KEYSPACE IF NOT EXISTS " ++ ks ++ replication; lit "USE " ++ ks ++ lit ""].

(** One statement in front of others. *)
Lemma query_then q (k : comp db status_t) qs d : (forall d, k d = run_queries qs d) ->
  (ok ← execute_query q; if negb ok then mret SC_STORAGE_CASSANDRA_QUERY_FAIL else k) d =
  run_queries (q :: qs) d.
Proof.
  intros Hk. cbn [run_queries]. comp_simpl.
  destruct (execute_query q d) as [[[] d']|]; [apply Hk|reflexivity..].
Qed.

Lemma truncate_run name d :
  (ret ← db_truncate_table (Some name);
   mret (if negb (ret =? SC_OK) then SC_STORAGE_CASSANDRA_QUERY_FAIL else SC_OK)) d =
  run_queries [lit "TRUNCATE TABLE " ++ name ++ lit ""] d.
Proof.
  unfold db_truncate_table, make_query. change (negb (SC_OK =? SC_OK)) with false. cbv iota beta.
  cbn [run_queries]. comp_simpl.
  destruct (execute_query (lit "TRUNCATE TABLE " ++ name ++ lit "") d) as [[[] d']|]; reflexivity.
Qed.

(** Setting up a keyspace executes the statements of the keyspace and those of
    the tables, and stops at the first that fails. *)
Lemma init_keyspace_queries tables qs sv ks d :
  (forall d, tables d = run_queries qs d) ->
  init_keyspace tables (Some sv) (Some ks) d = run_queries (keyspace_queries ks ++ qs) d.
Proof.
  intros Hq. unfold init_keyspace, create_keyspace, make_query.
  change (negb (SC_OK =? SC_OK)) with false. cbv iota beta. cbn [keyspace_queries app run_queries].
  comp_simpl. unfold execute_query.
  destruct (execute_statement (mkStatement (lit "CREATE KEYSPACE IF NOT EXISTS " ++ ks ++ replication) []) d)
    as [[[] d']|]; [|reflexivity..].
  change (SC_OK =? SC_OK) with true. cbn [negb].
  destruct (execute_statement (mkStatement (lit "USE " ++ ks ++ lit "") []) d') as [[[] d'']|];
    [apply Hq|reflexivity..].
Qed.

End Queries.
