(* ===== verification/Identity.v ===== *)
(** * The identity table ([storage/scylladb_identity.c])

    A transaction that awaits confirmation has a row in the table [identity]:
    its UUID, hash, status and the time of the last change.  The first part
    models the object [db_identity_t] and the functions on the table over the
    driver of [Storage].  [IdentityLaws] states what the three queries do to a
    finite map from UUIDs to rows; the theorems show that the functions read
    and write that map, and that inserting and reading round trip. *)

From S2P Require Import Prelude TaErrors Utils Storage.

(** ** Identities *)

Definition DB_NUM_TRYTES_HASH : Z := NUM_TRYTES_HASH.
Definition N_DB_HASH : nat := Z.to_nat DB_NUM_TRYTES_HASH.
Definition DB_IDENTITY_UUID_VERSION : Z := 4.

Definition PENDING_TXN : Z := 0.
Definition INSERTING_TXN : Z := 1.
Definition CONFIRMED_TXN : Z := 2.
Definition NUM_OF_TXN_STATUS : Z := 3.

Record db_identity_t := mkIdentity {
  id_uuid : CassUuid; id_timestamp : Z; id_status : Z; id_hash : list Z }.

#[export] Instance db_identity_eq_dec : EqDecision db_identity_t.
Proof. solve_decision. Defined.

(** The most significant 4 bits of the timestamp. *)
Definition uuid_version (u : CassUuid) : Z := Z.shiftr (time_and_version u) 60.

(** The setters return the status and the object; [None] is NULL. *)
Definition db_set_identity_uuid (obj : option db_identity_t) (input : option CassUuid)
  : status_t * option db_identity_t :=
  match obj, input with
  | None, _ => (SC_NULL, obj)
  | _, None => (SC_NULL, obj)
  | Some o, Some u =>
      if negb (uuid_version u =? DB_IDENTITY_UUID_VERSION) then (SC_STORAGE_INVALID_INPUT, obj)
      else (SC_OK, Some (mkIdentity u (id_timestamp o) (id_status o) (id_hash o)))
  end.

Definition db_set_identity_status (obj : option db_identity_t) (status : Z)
  : status_t * option db_identity_t :=
  match obj with
  | None => (SC_NULL, obj)
  | Some o =>
      if (status <? 0) || (status >=? NUM_OF_TXN_STATUS) then (SC_STORAGE_INVALID_INPUT, obj)
      else (SC_OK, Some (mkIdentity (id_uuid o) (id_timestamp o) status (id_hash o)))
  end.

Definition db_ret_identity_status (obj : option db_identity_t) : Z :=
  match obj with None => 0 | Some o => id_status o end.

Definition db_set_identity_timestamp (obj : option db_identity_t) (ts : Z)
  : status_t * option db_identity_t :=
  match obj with
  | None => (SC_NULL, obj)
  | Some o => (SC_OK, Some (mkIdentity (id_uuid o) ts (id_status o) (id_hash o)))
  end.

Definition db_ret_identity_timestamp (obj : option db_identity_t) : Z :=
  match obj with None => 0 | Some o => id_timestamp o end.

(** [hash] is the array behind the pointer: the copy is undefined when the
    array is shorter than a hash, whatever [length] says. *)
Definition db_set_identity_hash (obj : option db_identity_t) (hash : option (list Z)) (len : Z)
  : option (status_t * option db_identity_t) :=
  match obj, hash with
  | None, _ => Some (SC_NULL, obj)
  | _, None => Some (SC_NULL, obj)
  | Some o, Some h =>
      if negb (len =? DB_NUM_TRYTES_HASH) then Some (SC_STORAGE_INVALID_INPUT, obj)
      else if decide (N_DB_HASH <= length h)%nat
      then Some (SC_OK, Some (mkIdentity (id_uuid o) (id_timestamp o) (id_status o) (take N_DB_HASH h)))
      else None
  end.

Definition db_ret_identity_hash (obj : option db_identity_t) : option (list Z) := id_hash <$> obj.

(** An element that [utarray_extend_back] appends: all bytes zero. *)
Definition zero_identity : db_identity_t :=
  mkIdentity (mkCassUuid 0 0) 0 0 (replicate N_DB_HASH 0).

(** ** The table *)

Definition UPDATE_IDENTITY : cstr :=
  lit "UPDATE identity Set ts = ?, status = ?, hash =? Where id = ?".
Definition SELECT_BY_STATUS : cstr := lit "SELECT * FROM identity WHERE status = ?;".
Definition SELECT_BY_ID : cstr := lit "SELECT * FROM identity WHERE id = ?;".
Definition SELECT_BY_HASH : cstr := lit "SELECT * FROM identity WHERE hash = ?;".

(** What [db_insert_identity_table] binds. *)
Definition identity_values (o : db_identity_t) : list (cass_param * cass_value) :=
  [(ByName (lit "hash"), CassBytes (id_hash o)); (ByName (lit "status"), CassInt8 (id_status o));
   (ByName (lit "ts"), CassInt64 (id_timestamp o)); (ByName (lit "id"), CassUuidVal (id_uuid o))].

Section Operations.
Context {db : Type} {cass : Cassandra db}.

Definition db_get_identity_uuid_string (obj : option db_identity_t) : status_t * option cstr :=
  match obj with
  | None => (SC_NULL, None)
  | Some o => (SC_OK, Some (cass_uuid_string (id_uuid o)))
  end.

(** The difference of two [cass_int64_t]; [None] when it overflows. *)
Definition int64_sub (a b : Z) : option Z :=
  if decide (- 2 ^ 63 <= a - b < 2 ^ 63) then Some (a - b) else None.

Definition db_ret_identity_time_elapsed (obj : option db_identity_t) : comp db Z :=
  match obj with
  | None => mret SC_NULL
  | Some o => now ← on_db time_now; check (int64_sub now (id_timestamp o))
  end.

Definition create_identity_table (need_truncate : bool) : comp db status_t :=
  ok ← execute_query (lit "CREATE TABLE IF NOT EXISTS identity(id uuid, ts timestamp, hash blob, status tinyint, PRIMARY KEY (id));");
  if negb ok then mret SC_STORAGE_CASSANDRA_QUERY_FAIL else
  ok ← execute_query (lit "CREATE INDEX IF NOT EXISTS ON identity(status);");
  if negb ok then mret SC_STORAGE_CASSANDRA_QUERY_FAIL else
  ok ← execute_query (lit "CREATE INDEX IF NOT EXISTS ON identity(hash);");
  if negb ok then mret SC_STORAGE_CASSANDRA_QUERY_FAIL else
  if need_truncate then
    ret ← db_truncate_table (Some (lit "identity"));
    mret (if negb (ret =? SC_OK) then SC_STORAGE_CASSANDRA_QUERY_FAIL else SC_OK)
  else mret SC_OK.

Definition db_init_identity_keyspace (service : option db_client_service_t) (need_truncate : bool)
    (keyspace_name : option cstr) : comp db status_t :=
  init_keyspace (create_identity_table need_truncate) service keyspace_name.

Definition db_insert_identity_table (service : option db_client_service_t)
    (obj : option db_identity_t) : comp db status_t :=
  match service, obj with
  | None, _ => mret SC_NULL
  | _, None => mret SC_NULL
  | Some _, Some o =>
      statement ← prepare_bound UPDATE_IDENTITY (identity_values o);
      match statement with
      | None => mret SC_STORAGE_CASSANDRA_QUERY_FAIL
      | Some st =>
          ok ← execute_statement st;
          mret (if negb ok then SC_STORAGE_CASSANDRA_QUERY_FAIL else SC_OK)
      end
  end.

(** The result is the status and what was written to [res_uuid_string];
    [fresh] is what the allocated object holds. *)
Definition db_insert_tx_into_identity (fresh : db_identity_t) (service : option db_client_service_t)
    (hash : option (list Z)) (status : Z) (want_uuid : bool) : comp db (status_t * option cstr) :=
  '(ret, identity) ← check (db_set_identity_hash (Some fresh) hash DB_NUM_TRYTES_HASH);
  if negb (ret =? SC_OK) then mret (ret, None) else
  let '(ret, identity) := db_set_identity_status identity (i8 status) in
  if negb (ret =? SC_OK) then mret (ret, None) else
  now ← on_db time_now;
  let '(ret, identity) := db_set_identity_timestamp identity now in
  if negb (ret =? SC_OK) then mret (ret, None) else
  match service, identity with
  | Some _, Some o =>
      uuid ← on_db cass_uuid_gen_random;
      let res := if want_uuid then Some (cass_uuid_string uuid) else None in
      ret ← db_insert_identity_table service
              (Some (mkIdentity uuid (id_timestamp o) (id_status o) (id_hash o)));
      mret (ret, res)
  | _, _ => undefined
  end.

(** The body of the loop of [get_identity_array].  The codes of the accessors
    and setters are not looked at: a column that cannot be read leaves a local
    variable indeterminate, a value that is refused leaves the zero of the new
    element. *)
Definition read_identity (row : list (cstr * cass_value)) : option db_identity_t :=
  hash ← cass_value_get_bytes (cass_row_get_column_by_name row (lit "hash"));
  '(_, itr) ← db_set_identity_hash (Some zero_identity) (Some hash) DB_NUM_TRYTES_HASH;
  value ← cass_value_get_int8 (cass_row_get_column_by_name row (lit "status"));
  let '(_, itr) := db_set_identity_status itr value in
  ts ← cass_value_get_int64 (cass_row_get_column_by_name row (lit "ts"));
  let '(_, itr) := db_set_identity_timestamp itr ts in
  uuid ← cass_value_get_uuid (cass_row_get_column_by_name row (lit "id"));
  let '(_, itr) := db_set_identity_uuid itr (Some uuid) in
  itr.

Definition get_identity_array (statement : CassStatement) (identity_array : list db_identity_t)
  : comp db (status_t * list db_identity_t) :=
  res ← on_db (fun d => cass_session_execute d statement);
  identity_array ← check (match res with
                          | None => Some identity_array
                          | Some rows => ids ← mapM read_identity rows; Some (identity_array ++ ids)
                          end);
  mret (match identity_array with
        | [] => (SC_STORAGE_INVALID_INPUT, identity_array)
        | _ => (SC_OK, identity_array)
        end).

(** The part the three queries share: one value bound by name, which is read
    only after the query is prepared; [None] for an indeterminate one. *)
Definition select_identities (query name : cstr) (value : option cass_value)
    (identity_array : list db_identity_t) : comp db (status_t * list db_identity_t) :=
  ok ← prepare_query query;
  if negb ok then mret (SC_STORAGE_CASSANDRA_QUERY_FAIL, identity_array) else
  value ← check value;
  match bind_all (mkStatement query []) [(ByName name, value)] with
  | None => mret (SC_STORAGE_CASSANDRA_QUERY_FAIL, identity_array)
  | Some st => get_identity_array st identity_array
  end.

Definition db_get_identity_objs_by_status (status : Z) (identity_array : list db_identity_t)
  : comp db (status_t * list db_identity_t) :=
  select_identities SELECT_BY_STATUS (lit "status") (Some (CassInt8 status)) identity_array.

(** The code of [cass_uuid_from_string] is not looked at: a malformed string
    leaves [uuid] indeterminate. *)
Definition db_get_identity_objs_by_uuid_string (uuid_string : cstr)
    (identity_array : list db_identity_t) : comp db (status_t * list db_identity_t) :=
  select_identities SELECT_BY_ID (lit "id") (CassUuidVal <$> cass_uuid_from_string uuid_string)
    identity_array.

Definition db_get_identity_objs_by_hash (hash : list Z) (identity_array : list db_identity_t)
  : comp db (status_t * list db_identity_t) :=
  select_identities SELECT_BY_HASH (lit "hash")
    (if decide (N_DB_HASH <= length hash)%nat then Some (CassBytes (take N_DB_HASH hash)) else None)
    identity_array.

End Operations.

(** The statements that set up the keyspace of the identity table. *)
Definition identity_schema (need_truncate : bool) : list cstr :=
  [lit "CREATE TABLE IF NOT EXISTS identity(id uuid, ts timestamp, hash blob, status tinyint, PRIMARY KEY (id));";
   lit "CREATE INDEX IF NOT EXISTS ON identity(status);";
   lit "CREATE INDEX IF NOT EXISTS ON identity(hash);"] ++
  if need_truncate then [lit "TRUNCATE TABLE " ++ lit "identity" ++ lit ""] else [].

(** The keyspace is set up by these statements, in this order, up to the first
    that fails; the table is emptied only when asked for. *)
Theorem identity_keyspace_schema `{Cassandra db} sv need_truncate ks d :
  db_init_identity_keyspace (Some sv) need_truncate (Some ks) d =
  run_queries (keyspace_queries ks ++ identity_schema need_truncate) d.
Proof.
  apply init_keyspace_queries. clear d. intros d. unfold create_identity_table, identity_schema.
  do 3 (apply query_then; clear d; intros d).
  destruct need_truncate; [apply truncate_run|reflexivity].
Qed.

(** ** The contract of the table

    The table is a finite map from UUIDs to entries. *)

Record id_entry := mkEntry { e_ts : Z; e_status : Z; e_hash : list Z }.

Definition entry_of (o : db_identity_t) : id_entry :=
  mkEntry (id_timestamp o) (id_status o) (id_hash o).
Definition identity_of (p : CassUuid * id_entry) : db_identity_t :=
  mkIdentity p.1 (e_ts p.2) (e_status p.2) (e_hash p.2).

(** A row of [SELECT *]. *)
Definition row_of (p : CassUuid * id_entry) : list (cstr * cass_value) :=
  [(lit "id", CassUuidVal p.1); (lit "hash", CassBytes (e_hash p.2));
   (lit "status", CassInt8 (e_status p.2)); (lit "ts", CassInt64 (e_ts p.2))].

Inductive selection := ByStatus (status : Z) | ById (u : CassUuid) | ByHash (h : list Z).

Definition selects (sel : selection) (p : CassUuid * id_entry) : Prop :=
  match sel with
  | ByStatus s => e_status p.2 = s
  | ById u => p.1 = u
  | ByHash h => e_hash p.2 = h
  end.

#[export] Instance selects_dec sel p : Decision (selects sel p).
Proof. destruct sel; simpl; apply _. Defined.

Definition selection_query (sel : selection) : cstr :=
  match sel with
  | ByStatus _ => SELECT_BY_STATUS | ById _ => SELECT_BY_ID | ByHash _ => SELECT_BY_HASH
  end.
Definition selection_name (sel : selection) : cstr :=
  match sel with ByStatus _ => lit "status" | ById _ => lit "id" | ByHash _ => lit "hash" end.
Definition selection_value (sel : selection) : cass_value :=
  match sel with ByStatus s => CassInt8 s | ById u => CassUuidVal u | ByHash h => CassBytes h end.
Definition selection_statement (sel : selection) : CassStatement :=
  mkStatement (selection_query sel) [(ByName (selection_name sel), selection_value sel)].

Definition matching (sel : selection) (m : gmap CassUuid id_entry) : list (CassUuid * id_entry) :=
  map_to_list (filter (selects sel) m).

(** What the code relies on: [UPDATE] inserts or overwrites the row of the id
    (after an error code it may or may not have happened), [SELECT] returns the
    rows that match, in any order; preparing, reading the clock and generating
    a UUID leave the table alone; random UUIDs have version 4 and are the ones
    their text denotes. *)
Class IdentityTable (db : Type) {cass : Cassandra db} := {
  id_table : db -> gmap CassUuid id_entry;
  law_update : forall d o r d',
    cass_session_execute d (mkStatement UPDATE_IDENTITY (identity_values o)) = (r, d') ->
    id_table d' = <[id_uuid o := entry_of o]> (id_table d) \/ (r = None /\ id_table d' = id_table d);
  law_select : forall d sel r d',
    cass_session_execute d (selection_statement sel) = (r, d') ->
    id_table d' = id_table d /\
    forall rows, r = Some rows -> rows ≡ₚ row_of <$> matching sel (id_table d);
  law_prepare : forall d q, id_table (cass_session_prepare d q).2 = id_table d;
  law_uuid : forall d, id_table (cass_uuid_gen_random d).2 = id_table d /\
    uuid_version (cass_uuid_gen_random d).1 = DB_IDENTITY_UUID_VERSION;
  law_time : forall d, id_table (time_now d).2 = id_table d;
  law_uuid_string : forall u, cass_uuid_from_string (cass_uuid_string u) = Some u
}.

(** The invariant of the table. *)
Definition wf_entry (u : CassUuid) (e : id_entry) : Prop :=
  uuid_version u = DB_IDENTITY_UUID_VERSION /\ 0 <= e_status e < NUM_OF_TXN_STATUS /\
  length (e_hash e) = N_DB_HASH.

Definition wf_table (m : gmap CassUuid id_entry) : Prop := map_Forall wf_entry m.

Lemma wf_table_insert m u e : wf_table m -> wf_entry u e -> wf_table (<[u := e]> m).
Proof. intros. by apply map_Forall_insert_2. Qed.

#[export] Hint Resolve wf_table_insert : ta.

Lemma matching_id m u e : m !! u = Some e -> matching (ById u) m = [(u, e)].
Proof.
  intros Hm. unfold matching.
  assert (filter (selects (ById u)) m = {[u := e]}) as ->.
  { apply map_eq. intros v. rewrite map_lookup_filter.
    destruct (decide (v = u)) as [->|Hv].
    - rewrite Hm, lookup_singleton_eq. simpl. by rewrite option_guard_True.
    - rewrite lookup_singleton_ne by done. destruct (m !! v); simpl; [|done].
      by rewrite option_guard_False. }
  apply map_to_list_singleton.
Qed.

Lemma elem_of_matching sel m u e : (u, e) ∈ matching sel m <-> m !! u = Some e /\ selects sel (u, e).
Proof. unfold matching. by rewrite elem_of_map_to_list, map_lookup_filter_Some. Qed.

Lemma set_identity_hash_ok o h : length h = N_DB_HASH ->
  db_set_identity_hash (Some o) (Some h) NUM_TRYTES_HASH =
  Some (SC_OK, Some (mkIdentity (id_uuid o) (id_timestamp o) (id_status o) h)).
Proof.
  intros Hh. unfold db_set_identity_hash. rewrite Z.eqb_refl, decide_True by lia. cbn [negb].
  by rewrite take_ge by lia.
Qed.

Lemma row_columns u e :
  cass_row_get_column_by_name (row_of (u, e)) (lit "hash") = Some (CassBytes (e_hash e)) /\
  cass_row_get_column_by_name (row_of (u, e)) (lit "status") = Some (CassInt8 (e_status e)) /\
  cass_row_get_column_by_name (row_of (u, e)) (lit "ts") = Some (CassInt64 (e_ts e)) /\
  cass_row_get_column_by_name (row_of (u, e)) (lit "id") = Some (CassUuidVal u).
Proof. split_and!; reflexivity. Qed.

Lemma read_identity_row u e : wf_entry u e -> read_identity (row_of (u, e)) = Some (identity_of (u, e)).
Proof.
  intros (Hv & Hs & Hh). destruct (row_columns u e) as (E1 & E2 & E3 & E4).
  unfold read_identity. rewrite E1, E2, E3, E4.
  unfold db_set_identity_hash, db_set_identity_status, db_set_identity_uuid.
  unfold cass_value_get_bytes, cass_value_get_int8, cass_value_get_int64, cass_value_get_uuid.
  cbn [mbind option_bind]. rewrite Z.eqb_refl, decide_True by lia. cbn [negb].
  rewrite (proj2 (Z.ltb_ge _ _)) by lia. rewrite Z.geb_leb, (proj2 (Z.leb_gt _ _)) by lia.
  cbn. rewrite Hv. cbn. unfold identity_of. cbn. by rewrite take_ge by lia.
Qed.

#[local] Arguments N_DB_HASH : simpl never.
#[local] Arguments db_insert_identity_table : simpl never.

Section Contract.
Context {db : Type} {cass : Cassandra db} {tab : IdentityTable db}.
Implicit Types d : db.

Lemma read_matching sel m rows : wf_table m -> rows ≡ₚ row_of <$> matching sel m ->
  exists ids, mapM read_identity rows = Some ids /\ ids ≡ₚ identity_of <$> matching sel m.
Proof.
  intros Hwf (l & -> & Hl)%Permutation_map_inv. exists (identity_of <$> l).
  split; [|by rewrite Hl]. apply mapM_Some, Forall2_fmap_l, Forall2_fmap_r, Forall_Forall2_diag.
  apply Forall_forall. intros [u e] Hin. apply read_identity_row.
  rewrite <- Hl, elem_of_matching in Hin. by apply Hwf, Hin.
Qed.

(** The three functions, by what they look for. *)
Definition get_identities (sel : selection) : list db_identity_t -> comp db (status_t * list db_identity_t) :=
  match sel with
  | ByStatus s => db_get_identity_objs_by_status s
  | ById u => db_get_identity_objs_by_uuid_string (cass_uuid_string u)
  | ByHash h => db_get_identity_objs_by_hash h
  end.

Definition selectable (sel : selection) : Prop :=
  match sel with ByHash h => length h = N_DB_HASH | _ => True end.

Lemma get_identities_select sel arr : selectable sel ->
  get_identities sel arr =
  select_identities (selection_query sel) (selection_name sel) (Some (selection_value sel)) arr.
Proof.
  destruct sel as [s|u|h]; simpl; intros Hs; [done| |].
  - unfold db_get_identity_objs_by_uuid_string. by rewrite law_uuid_string.
  - unfold db_get_identity_objs_by_hash. by rewrite decide_True, take_ge by lia.
Qed.

Lemma get_identity_array_spec sel d arr : wf_table (id_table d) ->
  exists ids d', get_identity_array (selection_statement sel) arr d =
    Some ((match arr ++ ids with [] => SC_STORAGE_INVALID_INPUT | _ => SC_OK end, arr ++ ids), d') /\
  id_table d' = id_table d /\
  match (cass_session_execute d (selection_statement sel)).1 with
  | Some _ => ids ≡ₚ identity_of <$> matching sel (id_table d)
  | None => ids = []
  end.
Proof.
  intros Hwf. unfold get_identity_array, on_db. comp_simpl.
  destruct (cass_session_execute d (selection_statement sel)) as [r d'] eqn:E.
  destruct (law_select _ _ _ _ E) as [Ht Hrows]. destruct r as [rows|]; cbn.
  - destruct (read_matching sel (id_table d) rows Hwf (Hrows _ eq_refl)) as (ids & Hids & Hp).
    exists ids, d'. rewrite Hids. cbn. split; [|done]. by destruct (arr ++ ids).
  - exists [], d'. split; [|done]. rewrite app_nil_r. by destruct arr.
Qed.

(** What a query on an empty array gives: the matching identities with [SC_OK],
    or none with an error. *)
Definition read_outcome (sel : selection) (m : gmap CassUuid id_entry) (ret : status_t)
    (ids : list db_identity_t) : Prop :=
  (ret = SC_OK /\ ids ≡ₚ identity_of <$> matching sel m /\ ids ≠ []) \/ (ret ≠ SC_OK /\ ids = []).

Lemma get_identities_spec sel d : wf_table (id_table d) -> selectable sel ->
  exists ret ids d', get_identities sel [] d = Some ((ret, ids), d') /\
  id_table d' = id_table d /\ read_outcome sel (id_table d) ret ids.
Proof.
  intros Hwf Hs. rewrite get_identities_select by done.
  unfold select_identities, prepare_query, on_db. comp_simpl.
  pose proof (law_prepare d (selection_query sel)) as Hp.
  destruct (cass_session_prepare d (selection_query sel)) as [ok d1]. cbn in Hp.
  assert (forall ret d', ret ≠ SC_OK -> id_table d' = id_table d ->
    exists ret' ids d'', Some ((ret, []), d') = Some ((ret', ids), d'') /\
      id_table d'' = id_table d /\ read_outcome sel (id_table d) ret' ids) as Hfail.
  { intros ret d' Hr Hd. exists ret, [], d'. split_and!; [done|done|by right]. }
  destruct ok; cbn; [|by apply Hfail].
  destruct (cass_statement_bind _ _ _); cbn; [|by apply Hfail].
  rewrite <- Hp in Hwf. destruct (get_identity_array_spec sel d1 [] Hwf) as (ids & d2 & Hg & Ht & Hids).
  unfold selection_statement in Hg. rewrite Hg. rewrite Hp in *. cbn.
  destruct ids as [|i ids]; [by apply Hfail|].
  eexists _, _, d2. split_and!; [done|done|]. left. split_and!; [done| |done].
  by destruct (cass_session_execute d1 (selection_statement sel)).1.
Qed.

Lemma insert_identity_spec sv o d :
  exists ret d', db_insert_identity_table (Some sv) (Some o) d = Some (ret, d') /\
  (id_table d' = <[id_uuid o := entry_of o]> (id_table d) \/
   (ret = SC_STORAGE_CASSANDRA_QUERY_FAIL /\ id_table d' = id_table d)) /\
  (ret = SC_OK \/ ret = SC_STORAGE_CASSANDRA_QUERY_FAIL).
Proof.
  unfold db_insert_identity_table.
  destruct (prepare_bound_total UPDATE_IDENTITY (identity_values o) d) as [[r d1] E].
  comp_step E. apply prepare_bound_inv in E as [-> Hst].
  pose proof (law_prepare d UPDATE_IDENTITY) as Hp.
  destruct r as [st|]; [|eauto 8].
  specialize (Hst st eq_refl) as ->. comp_simpl. rewrite execute_statement_run.
  destruct (cass_session_execute _ _) as [r d2] eqn:E. cbn. rewrite <- Hp.
  eexists _, d2. split; [done|].
  destruct (law_update _ _ _ _ E) as [->|[-> ->]]; [destruct r|]; cbn; auto.
Qed.

(** A driver that answers: every call gives [CASS_OK]. *)
Record Available : Prop := {
  prepare_available : forall d q, (cass_session_prepare d q).1 = true;
  bind_available : forall st p v, cass_statement_bind st p v = true;
  execute_available : forall d st, is_Some (cass_session_execute d st).1
}.

Lemma bind_all_available st l : Available ->
  bind_all st l = Some (mkStatement (st_query st) (st_bound st ++ l)).
Proof.
  intros Ha. revert st. induction l as [|[p v] l IH]; intros st; cbn.
  - rewrite app_nil_r. by destruct st.
  - rewrite (bind_available Ha), IH. cbn. by rewrite <- app_assoc.
Qed.

Lemma insert_identity_available sv o d : Available ->
  exists d', db_insert_identity_table (Some sv) (Some o) d = Some (SC_OK, d') /\
  id_table d' = <[id_uuid o := entry_of o]> (id_table d).
Proof.
  intros Ha. destruct (insert_identity_spec sv o d) as (ret & d' & E & Ht & Hr).
  assert (ret = SC_OK) as ->.
  { unfold db_insert_identity_table, prepare_bound, prepare_query, on_db in E. comp_simpl.
    pose proof (prepare_available Ha d UPDATE_IDENTITY) as Hp.
    revert E. comp_simpl. destruct (cass_session_prepare d UPDATE_IDENTITY) as [ok d1]. cbn in Hp. subst ok.
    rewrite (bind_all_available _ _ Ha). cbn [st_query st_bound app].
    rewrite execute_statement_run. rewrite bool_decide_true by apply (execute_available Ha).
    by intros [= <- <-]. }
  exists d'. split; [done|]. by destruct Ht as [?|[? ?]].
Qed.

Lemma get_identities_available sel d : Available -> wf_table (id_table d) -> selectable sel ->
  exists ret ids d', get_identities sel [] d = Some ((ret, ids), d') /\
  id_table d' = id_table d /\ ids ≡ₚ identity_of <$> matching sel (id_table d).
Proof.
  intros Ha Hwf Hs. rewrite get_identities_select by done.
  unfold select_identities, prepare_query, on_db. comp_simpl.
  pose proof (law_prepare d (selection_query sel)) as Hp.
  pose proof (prepare_available Ha d (selection_query sel)) as Hok.
  destruct (cass_session_prepare d (selection_query sel)) as [ok d1]. cbn in Hp, Hok. subst ok. cbn [negb].
  rewrite (bind_all_available _ _ Ha). cbn [st_query st_bound app].
  rewrite <- Hp in *. destruct (get_identity_array_spec sel d1 [] Hwf) as (ids & d2 & Hg & Ht & Hids).
  destruct (execute_available Ha d1 (selection_statement sel)) as [rows Er]. rewrite Er in Hids.
  eexists _, ids, d2. split; [exact Hg|done].
Qed.

(** An identity read back is the one inserted; [d] is any state with a
    well-formed table. *)
Lemma insert_tx_spec fresh sv h status d :
  (N_DB_HASH <= length h)%nat -> 0 <= status < NUM_OF_TXN_STATUS ->
  exists ret d', let d1 := (time_now d).2 in
  let o := mkIdentity (cass_uuid_gen_random d1).1 (time_now d).1 status (take N_DB_HASH h) in
  db_insert_tx_into_identity fresh (Some sv) (Some h) status true d =
    Some ((ret, Some (cass_uuid_string (id_uuid o))), d') /\
  (id_table d' = <[id_uuid o := entry_of o]> (id_table d) \/
   (ret = SC_STORAGE_CASSANDRA_QUERY_FAIL /\ id_table d' = id_table d)) /\
  wf_entry (id_uuid o) (entry_of o).
Proof.
  intros Hh Hs. unfold db_insert_tx_into_identity, db_set_identity_hash, db_set_identity_status.
  rewrite Z.eqb_refl, decide_True by done. comp_simpl. cbn [negb Z.eqb SC_OK].
  rewrite (swrap_small 8) by (unfold NUM_OF_TXN_STATUS in Hs; lia).
  rewrite (proj2 (Z.ltb_ge _ _)) by lia. rewrite Z.geb_leb, (proj2 (Z.leb_gt _ _)) by lia.
  cbn. pose proof (law_time d) as Ht. destruct (time_now d) as [now d1]. cbn in *.
  pose proof (law_uuid d1) as Hu. destruct (cass_uuid_gen_random d1) as [u d2]. cbn in *.
  destruct (insert_identity_spec sv (mkIdentity u now status (take N_DB_HASH h)) d2)
    as (ret & d3 & E & Htab & _).
  rewrite E. exists ret, d3. destruct Hu as [Hu1 Hu2]. rewrite <- Ht, <- Hu1.
  split; [done|]. split; [done|]. split; [done|]. split; [done|]. cbn. rewrite length_take. lia.
Qed.

(** A transaction inserted into the identity table is found again under the
    UUID string the insertion returned: whatever the table held, inserting with
    [SC_OK] keeps the table well formed, and a successful query for the
    returned string gives exactly one identity, with the hash, the status and
    the time of the insertion. *)
Theorem identity_roundtrip fresh sv h status d s d1 :
  wf_table (id_table d) -> (N_DB_HASH <= length h)%nat -> 0 <= status < NUM_OF_TXN_STATUS ->
  db_insert_tx_into_identity fresh (Some sv) (Some h) status true d = Some ((SC_OK, Some s), d1) ->
  wf_table (id_table d1) /\
  exists ret ids d2, db_get_identity_objs_by_uuid_string s [] d1 = Some ((ret, ids), d2) /\
  id_table d2 = id_table d1 /\
  (ids = [] /\ ret ≠ SC_OK \/
   ret = SC_OK /\ exists u, s = cass_uuid_string u /\
     ids = [mkIdentity u (time_now d).1 status (take N_DB_HASH h)]).
Proof.
  intros Hwf Hh Hs E. destruct (insert_tx_spec fresh sv h status d Hh Hs) as (ret & d' & E' & Ht & He).
  cbn zeta in E'. rewrite E' in E. injection E as -> <- ->.
  destruct Ht as [Ht|[? ?]]; [|done].
  set (u := (cass_uuid_gen_random (time_now d).2).1) in *. cbn [id_uuid] in *.
  assert (wf_table (id_table d1)) as Hwf1 by (rewrite Ht; auto with ta).
  split; [done|].
  destruct (get_identities_spec (ById u) d1 Hwf1 I) as (ret & ids & d2 & Hg & Hd2 & Ho).
  exists ret, ids, d2. split; [done|]. split; [done|].
  destruct Ho as [(-> & Hp & _)|[? ->]]; [right|by left]. split; [done|]. exists u. split; [done|].
  rewrite Ht, (matching_id _ _ _ (lookup_insert_eq _ _ _)) in Hp. by apply Permutation_singleton_r in Hp.
Qed.

(** A failing query is not reported as one: when the driver returns an error
    the function answers [SC_STORAGE_INVALID_INPUT] (its message says that no
    identity is found), and [SC_OK] when the caller's array already held
    something. *)
Theorem identity_query_failure_masked statement arr d d' :
  cass_session_execute d statement = (None, d') ->
  get_identity_array statement arr d =
  Some ((if decide (arr = []) then SC_STORAGE_INVALID_INPUT else SC_OK, arr), d').
Proof.
  intros E. unfold get_identity_array, on_db. comp_simpl. rewrite E. cbn. by destruct arr.
Qed.

End Contract.

(** ** A driver that keeps the table in memory *)
Module ToyDb.

Record toy_db := mkToy { tbl : gmap CassUuid id_entry; clock : Z; next_uuid : Z; alive : bool }.

Definition toy_uuid (n : Z) : CassUuid := mkCassUuid (Z.shiftl 4 60) n.

Definition execute (d : toy_db) (st : CassStatement) : option (list (list (cstr * cass_value))) * toy_db :=
  if negb (alive d) then (None, d) else
  match st_bound st with
  | [(_, CassBytes h); (_, CassInt8 s); (_, CassInt64 t); (_, CassUuidVal u)] =>
      if decide (st_query st = UPDATE_IDENTITY)
      then (Some [], mkToy (<[u := mkEntry t s h]> (tbl d)) (clock d) (next_uuid d) true)
      else (None, d)
  | [(_, CassInt8 s)] => (Some (row_of <$> matching (ByStatus s) (tbl d)), d)
  | [(_, CassUuidVal u)] => (Some (row_of <$> matching (ById u) (tbl d)), d)
  | [(_, CassBytes h)] => (Some (row_of <$> matching (ByHash h) (tbl d)), d)
  | _ => (None, d)
  end.

#[export] Instance cass : Cassandra toy_db := {
  cass_session_connect d _ _ := (alive d, d);
  cass_session_prepare d _ := (alive d, d);
  cass_statement_bind _ _ _ := true;
  cass_session_execute := execute;
  cass_uuid_gen_random d := (toy_uuid (next_uuid d), mkToy (tbl d) (clock d) (next_uuid d + 1) (alive d));
  cass_uuid_string u := [time_and_version u; clock_seq_and_node u];
  cass_uuid_from_string s := match s with [a; b] => Some (mkCassUuid a b) | _ => None end;
  time_now d := (clock d, mkToy (tbl d) (clock d + 1) (next_uuid d) (alive d))
}.

#[export] Instance table : IdentityTable toy_db.
Proof.
  refine {| id_table := tbl |}.
  - intros d [u t s h] r d'. cbn. unfold execute. cbn. destruct (alive d); cbn; intros [= <- <-]; auto.
  - intros d [s|u|h] r d'; cbn; unfold execute; cbn; destruct (alive d); cbn; intros [= <- <-];
      (split; [done|]); by intros rows [= <-].
  - done.
  - done.
  - done.
  - by intros [].
Defined.

End ToyDb.

Module IdentityWitness.
Import ToyDb.

Definition h1 : list Z := replicate N_DB_HASH 65.
Definition empty_db : toy_db := mkToy ∅ 1000 1 true.
Definition sv : db_client_service_t := mkDbService (Some []) true.

Lemma identity_roundtrip_witness :
  exists s d1,
  db_insert_tx_into_identity zero_identity (Some sv) (Some h1) PENDING_TXN true empty_db
    = Some ((SC_OK, Some s), d1) /\
  wf_table (id_table d1) /\
  exists ret ids d2, db_get_identity_objs_by_uuid_string s [] d1 = Some ((ret, ids), d2) /\
  id_table d2 = id_table d1 /\
  (ids = [] /\ ret ≠ SC_OK \/
   ret = SC_OK /\ exists u, s = cass_uuid_string u /\
     ids = [mkIdentity u (time_now empty_db).1 PENDING_TXN (take N_DB_HASH h1)]).
Proof.
  eexists _, _. split; [vm_compute; reflexivity|].
  apply (identity_roundtrip zero_identity sv h1 PENDING_TXN empty_db).
  - exact (map_Forall_empty _).
  - vm_compute. lia.
  - split; reflexivity || discriminate.
  - vm_compute. reflexivity.
Defined.

Lemma identity_query_failure_masked_witness :
  get_identity_array (selection_statement (ByStatus PENDING_TXN)) [zero_identity] (mkToy ∅ 0 0 false) =
  Some ((SC_OK, [zero_identity]), mkToy ∅ 0 0 false).
Proof.
  exact (identity_query_failure_masked _ [zero_identity] (mkToy ∅ 0 0 false) _ eq_refl).
Defined.

End IdentityWitness.
