(* ===== verification/Reattacher.v ===== *)
(** * The reattacher ([reattacher/reattacher_main.c])

    A daemon that looks up the pending transactions of the identity table every
    five minutes.  One the node has confirmed is marked so; one that has been
    pending for more than half an hour is attached again and its row gets the
    new hash and time.  [id_step] is what may happen to the table; the theorems
    show that a pass takes only such steps, that it handles every pending
    transaction, and what the code takes for the new hash. *)

From stdpp Require Import relations.
From S2P Require Import Prelude TaErrors Utils Json Cache World Config Storage Identity.

Definition PRESISTENT_PENDING_SECOND : Z := 1800.
Definition DELAY_INTERVAL : Z := 300.

(** The calls on the node; [None] is any code other than [RC_OK].  Replaying
    gives the transactions of the bundle object it was handed. *)
Class ReattachNode (net : Type) := {
  iota_client_core_init : iota_client_service_t -> net -> bool * net;
  iota_client_get_latest_inclusion :
    iota_client_service_t -> net -> list trits -> option (list bool) * net;
  iota_client_replay_bundle :
    iota_client_service_t -> net -> trits -> Z -> Z -> option (list iota_transaction_t) * net
}.

Record rstate (net db : Type) := mkR { r_net : net; r_db : db }.
Arguments mkR {net db} r_net r_db.
Arguments r_net {net db} r.
Arguments r_db {net db} r.

Section Reattacher.
Context {net db : Type} {lib : IotaLib} {node : ReattachNode net} {cass : Cassandra db}.

Definition rproc := comp (rstate net db).

Definition rnet {A} (f : net -> A * net) : rproc A :=
  fun s => let '(a, n) := f (r_net s) in Some (a, mkR n (r_db s)).

Definition rdb {A} (m : comp db A) : rproc A :=
  fun s => match m (r_db s) with Some (a, d) => Some (a, mkR (r_net s) d) | None => None end.

Definition init_iota_client_service (serv : option iota_client_service_t) : rproc status_t :=
  match serv with
  | None => mret SC_NULL
  | Some s =>
      ok ← rnet (iota_client_core_init s);
      mret (if negb ok then SC_OOM else SC_OK)
  end.

(** The hash of the second transaction of the bundle; leaving the array is
    undefined. *)
Definition reattached_hash (bundle : list iota_transaction_t) : option trytes :=
  txn ← bundle !! 1%nat;
  Some (snd (flex_trits_to_trytes N_DB_HASH (transaction_hash txn))).

(** The result is the status and the object, which the caller's array holds. *)
Definition handle_pending_txn (iota_service : iota_client_service_t)
    (db_service : db_client_service_t) (obj : db_identity_t) : rproc (status_t * db_identity_t) :=
  let trit_hash := flex_trits_from_trytes N_DB_HASH (id_hash obj) in
  res ← rnet (fun n => iota_client_get_latest_inclusion iota_service n [trit_hash]);
  match res with
  | Some [included] =>
      if (included : bool) then
        let '(_, o) := db_set_identity_status (Some obj) CONFIRMED_TXN in
        ret ← rdb (db_insert_identity_table (Some db_service) o);
        mret (ret, default obj o)
      else
        elapsed ← rdb (db_ret_identity_time_elapsed (Some obj));
        if elapsed >? PRESISTENT_PENDING_SECOND then
          res ← rnet (fun n => iota_client_replay_bundle iota_service n trit_hash MILESTONE_DEPTH MWM);
          match res with
          | None => mret (SC_CCLIENT_FAILED_RESPONSE, obj)
          | Some bundle =>
              tryte_hash ← check (reattached_hash bundle);
              '(_, o) ← check (db_set_identity_hash (Some obj) (Some tryte_hash) NUM_TRYTES_HASH);
              now ← rdb (on_db time_now);
              let '(_, o) := db_set_identity_timestamp o now in
              ret ← rdb (db_insert_identity_table (Some db_service) o);
              mret (ret, default obj o)
          end
        else mret (SC_OK, obj)
  | _ => mret (SC_CCLIENT_FAILED_RESPONSE, obj)
  end.

(** [IDENTITY_TABLE_ARRAY_FOREACH]: a failure is logged and the next one handled. *)
Fixpoint handle_all (iota_service : iota_client_service_t) (db_service : db_client_service_t)
    (id_array : list db_identity_t) : rproc unit :=
  match id_array with
  | [] => mret tt
  | itr :: r =>
      _ ← handle_pending_txn iota_service db_service itr;
      handle_all iota_service db_service r
  end.

(** One round of the loop of [main]; the status of the query is not looked at. *)
Definition reattach_pass (iota_service : iota_client_service_t) (db_service : db_client_service_t)
  : rproc unit :=
  '(_, id_array) ← rdb (db_get_identity_objs_by_status PENDING_TXN []);
  handle_all iota_service db_service id_array.

(** The first [n] rounds. *)
Fixpoint reattach_loop (n : nat) (iota_service : iota_client_service_t)
    (db_service : db_client_service_t) : rproc unit :=
  match n with
  | O => mret tt
  | S n =>
      _ ← reattach_pass iota_service db_service;
      reattach_loop n iota_service db_service
  end.

(** The command line: results of [getopt_long] in order, ['h'], ['p'], ['d']. *)
Fixpoint parse_options (opts : list (Z * cstr)) (serv : iota_client_service_t) (host : cstr)
  : option (iota_client_service_t * cstr) :=
  match opts with
  | [] => Some (serv, host)
  | (c, optarg) :: r =>
      if c =? 63 then parse_options r serv host
      else if c =? 104 then
        parse_options r (mkService optarg (http_port serv) (http_ca_pem serv)) host
      else if c =? 112 then
        port ← atoi optarg;
        parse_options r (mkService (http_host serv) port (http_ca_pem serv)) host
      else if c =? 100 then parse_options r serv optarg
      else parse_options r serv host
  end.

(** [main] up to its [n]th round; [inr] is [EXIT_FAILURE]. *)
Definition reattacher_main (opts : list (Z * cstr)) (n : nat) : rproc (unit + Z) :=
  '(serv, host) ← check (parse_options opts (mkService (lit "localhost") 14265 []) (lit "localhost"));
  '(ret, service) ← rdb (db_client_service_init (Some (mkDbService (Some host) false)) DB_USAGE_REATTACH);
  if negb (ret =? SC_OK) then mret (inr 1) else
  ret ← init_iota_client_service (Some serv);
  if negb (ret =? SC_OK) then mret (inr 1) else
  service ← check service;
  _ ← reattach_loop n serv service;
  mret (inl tt).

End Reattacher.

(** ** What may happen to the table *)
Inductive id_step (m : gmap CassUuid id_entry) : gmap CassUuid id_entry -> Prop :=
| step_confirm u e :
    m !! u = Some e -> e_status e = PENDING_TXN ->
    id_step m (<[u := mkEntry (e_ts e) CONFIRMED_TXN (e_hash e)]> m)
| step_reattach u e t h :
    m !! u = Some e -> e_status e = PENDING_TXN -> e_ts e + PRESISTENT_PENDING_SECOND < t ->
    length h = N_DB_HASH ->
    id_step m (<[u := mkEntry t PENDING_TXN h]> m).

(** Times that a [cass_int64_t] difference cannot leave. *)
Definition TIME_MAX : Z := 2 ^ 62.

Definition timed_table (m : gmap CassUuid id_entry) : Prop :=
  map_Forall (fun u e => wf_entry u e /\ 0 <= e_ts e < TIME_MAX) m.

Lemma timed_wf m : timed_table m -> wf_table m.
Proof. intros H u e He. by destruct (H u e He). Qed.

#[export] Hint Resolve timed_wf : ta.

(** [id_step] keeps identities and never leaves the status confirmed. *)
Lemma id_step_dom m m' : id_step m m' -> dom m' = dom m.
Proof. destruct 1; apply dom_insert_lookup_L; eauto. Qed.

Lemma id_step_confirmed m m' u e :
  id_step m m' -> m !! u = Some e -> e_status e = CONFIRMED_TXN -> m' !! u = Some e.
Proof.
  destruct 1 as [v e' Hv Hp|v e' t h Hv Hp]; intros Hu Hc;
    (destruct (decide (v = u)) as [->|]; [|by rewrite lookup_insert_ne]);
    rewrite Hv in Hu; simplify_eq; rewrite Hp in Hc; done.
Qed.

Lemma id_steps_dom m m' : rtc id_step m m' -> dom m' = dom m.
Proof. induction 1 as [|? ? ? H _ IH]; [done|]. by rewrite IH, (id_step_dom _ _ H). Qed.

Lemma id_steps_confirmed m m' u e :
  rtc id_step m m' -> m !! u = Some e -> e_status e = CONFIRMED_TXN -> m' !! u = Some e.
Proof. induction 1 as [|? ? ? H _ IH]; [done|]. eauto using id_step_confirmed. Qed.

Lemma id_step_wf m m' : id_step m m' -> wf_table m -> wf_table m'.
Proof.
  destruct 1 as [u e Hu|u e t h Hu]; intros Hwf; apply wf_table_insert; try done;
    destruct (Hwf u e Hu) as (? & _ & ?); split; try done; split; done.
Qed.

#[local] Arguments N_DB_HASH : simpl never.
#[local] Arguments db_insert_identity_table : simpl never.

(** What the code relies on, of the library and the node: [n] trytes are
    converted to [n] characters, a replayed bundle holds the original and the
    reattached transaction, the clock does not run backwards. *)
Record ReattachLaws (net db : Type) {lib : IotaLib} {node : ReattachNode net}
    {cass : Cassandra db} : Prop := {
  law_trytes : forall n t, length (snd (flex_trits_to_trytes n t)) = n;
  law_replay : forall sv n h depth mwm b n',
    iota_client_replay_bundle sv n h depth mwm = (Some b, n') -> (2 <= length b)%nat;
  law_clock : forall d : db, 0 <= (time_now d).1 < TIME_MAX;
  law_clock_mono : forall d : db, (time_now d).1 <= (time_now (time_now d).2).1
}.

Section Properties.
Context {net db : Type} {lib : IotaLib} {node : ReattachNode net} {cass : Cassandra db}
  {tab : IdentityTable db} (laws : ReattachLaws net db).
Context (sv : iota_client_service_t) (dsv : db_client_service_t).
Implicit Types s : rstate net db.

Abbreviation tbl s := (id_table (r_db s)).

Lemma rdb_run {A} (m : comp db A) s a d :
  m (r_db s) = Some (a, d) -> rdb m s = Some (a, mkR (r_net s) d).
Proof. unfold rdb. by intros ->. Qed.

Lemma rnet_bind {A B} (f : net -> A * net) (k : A -> rproc B) s a n :
  f (r_net s) = (a, n) -> (rnet f ≫= k) s = k a (mkR n (r_db s)).
Proof. intros E. unfold rnet. comp_simpl. by rewrite E. Qed.

(** One transaction: nothing else than its own entry changes, by one step. *)
Definition own_step (u : CassUuid) (m m' : gmap CassUuid id_entry) : Prop :=
  m' = m \/ (id_step m m' /\ exists e, m' = <[u := e]> m /\ 0 <= e_ts e < TIME_MAX).

Lemma insert_step s u e o :
  timed_table (tbl s) -> tbl s !! u = Some e -> id_uuid o = u ->
  id_step (tbl s) (<[u := entry_of o]> (tbl s)) -> 0 <= id_timestamp o < TIME_MAX ->
  exists ret s', rdb (db_insert_identity_table (Some dsv) (Some o)) s = Some (ret, s') /\
    own_step u (tbl s) (tbl s').
Proof.
  intros Ht Hu <- Hstep Hts.
  destruct (insert_identity_spec dsv o (r_db s)) as (ret & d' & E & Htab & _).
  exists ret, (mkR (r_net s) d'). split; [by apply rdb_run|]. cbn.
  destruct Htab as [->|[_ ->]]; [right|by left]. split; [done|]. by exists (entry_of o).
Qed.

Lemma handle_confirmed s u e :
  timed_table (tbl s) -> tbl s !! u = Some e -> e_status e = PENDING_TXN ->
  exists ret s', rdb (db_insert_identity_table (Some dsv)
    (Some (mkIdentity u (e_ts e) CONFIRMED_TXN (e_hash e)))) s = Some (ret, s') /\
  own_step u (tbl s) (tbl s').
Proof.
  intros Ht Hu Hp. eapply insert_step; [done|done|done|by apply step_confirm|]. by apply (Ht u e).
Qed.

Lemma elapsed_run s u e :
  timed_table (tbl s) -> tbl s !! u = Some e ->
  rdb (db_ret_identity_time_elapsed (Some (identity_of (u, e)))) s =
  Some ((time_now (r_db s)).1 - e_ts e, mkR (r_net s) (time_now (r_db s)).2).
Proof.
  intros Ht Hu. apply rdb_run. unfold db_ret_identity_time_elapsed, on_db. comp_simpl.
  pose proof (law_clock _ _ laws (r_db s)) as Hc. destruct (Ht u e Hu) as [_ He].
  destruct (time_now (r_db s)) as [now d1]. cbn in *. unfold int64_sub.
  rewrite decide_True by (unfold TIME_MAX in *; lia). done.
Qed.

(** The part of [handle_pending_txn] behind a successful replay. *)
Lemma handle_reattached s u e b t0 :
  timed_table (tbl s) -> tbl s !! u = Some e -> e_status e = PENDING_TXN ->
  (2 <= length b)%nat -> e_ts e + PRESISTENT_PENDING_SECOND < t0 <= (time_now (r_db s)).1 ->
  exists h now ret s', reattached_hash b = Some h /\ length h = N_DB_HASH /\
    rdb (on_db time_now) s = Some (now, mkR (r_net s) (time_now (r_db s)).2) /\
    rdb (db_insert_identity_table (Some dsv) (Some (mkIdentity u now (e_status e) h)))
      (mkR (r_net s) (time_now (r_db s)).2) = Some (ret, s') /\
    own_step u (tbl s) (tbl s').
Proof.
  intros Ht Hu Hp Hb Hts. destruct b as [|a [|txn b]]; cbn in Hb; [lia|lia|].
  set (h := snd (flex_trits_to_trytes N_DB_HASH (transaction_hash txn))).
  assert (length h = N_DB_HASH) as Hh by apply (law_trytes _ _ laws).
  pose proof (law_clock _ _ laws (r_db s)) as Hc. pose proof (law_time (r_db s)) as Htab.
  set (s1 := mkR (r_net s) (time_now (r_db s)).2). set (now := (time_now (r_db s)).1) in *.
  destruct (insert_step s1 u e (mkIdentity u now (e_status e) h)) as (ret & s' & E & Ho).
  - unfold s1. cbn. by rewrite Htab.
  - unfold s1. cbn. by rewrite Htab.
  - done.
  - unfold s1. cbn. rewrite Htab, Hp. unfold entry_of. cbn.
    eapply step_reattach; [done|done|lia|done].
  - done.
  - exists h, now, ret, s'. split; [done|]. split; [done|].
    split; [|split; [done|]]; [|by rewrite <- Htab].
    unfold rdb, on_db, now. by destruct (time_now (r_db s)).
Qed.

(** Handling a pending identity is defined and changes its own entry at most,
    by one step. *)
Lemma handle_spec s u e :
  timed_table (tbl s) -> tbl s !! u = Some e -> e_status e = PENDING_TXN ->
  exists r s', handle_pending_txn sv dsv (identity_of (u, e)) s = Some (r, s') /\
    own_step u (tbl s) (tbl s').
Proof.
  intros Ht Hu Hp. unfold handle_pending_txn.
  destruct (iota_client_get_latest_inclusion sv (r_net s)
              [flex_trits_from_trytes N_DB_HASH (e_hash e)]) as [res n1] eqn:E0.
  erewrite rnet_bind by exact E0.
  set (s1 := mkR n1 (r_db s)). change (tbl s) with (tbl s1) in *.
  assert (forall x : status_t * db_identity_t, exists r s', Some (x, s1) = Some (r, s') /\
            own_step u (tbl s1) (tbl s')) as Hkeep by (intros x; exists x, s1; split; [done|by left]).
  destruct res as [[|included [|]]|]; try apply Hkeep. destruct included.
  - destruct (handle_confirmed s1 u e Ht Hu Hp) as (ret & s' & E & Ho).
    change (db_set_identity_status (Some (identity_of (u, e))) CONFIRMED_TXN) with
      (SC_OK, Some (mkIdentity u (e_ts e) CONFIRMED_TXN (e_hash e))). cbv beta iota.
    comp_step E. eauto.
  - comp_step (elapsed_run s1 u e Ht Hu).
    destruct (Z.gtb_spec ((time_now (r_db s1)).1 - e_ts e) PRESISTENT_PENDING_SECOND) as [Hold|].
    2: { eexists _, _. split; [done|]. left. apply law_time. }
    pose proof (law_time (r_db s1)) as Htab. cbn in Htab.
    destruct (iota_client_replay_bundle sv n1 (flex_trits_from_trytes N_DB_HASH (e_hash e))
                MILESTONE_DEPTH MWM) as [rep n2] eqn:Er.
    erewrite rnet_bind by exact Er. cbn [r_db].
    destruct rep as [b|]; [|eexists _, _; split; [done|]; left; exact Htab].
    destruct (handle_reattached (mkR n2 (time_now (r_db s1)).2) u e b (time_now (r_db s1)).1)
      as (h & now & ret & s' & E1 & Hh & E2 & E3 & Ho).
    + cbn. by rewrite Htab.
    + cbn. by rewrite Htab.
    + done.
    + by eapply (law_replay _ _ laws).
    + split; [cbn in Hold |- *; lia|]. apply (law_clock_mono _ _ laws).
    + rewrite E1. comp_simpl.
      rewrite set_identity_hash_ok by done. cbn in E2, E3 |- *.
      rewrite E2. cbn. rewrite E3. eexists _, _. split; [done|]. by rewrite <- Htab.
Qed.

Lemma own_step_timed u m m' : timed_table m -> own_step u m m' -> timed_table m'.
Proof.
  intros Ht [->|(Hstep & e & -> & He)]; [done|].
  pose proof (id_step_wf _ _ Hstep (timed_wf _ Ht)) as Hwf.
  apply map_Forall_insert_2; [|done]. split; [|done]. apply Hwf, lookup_insert_eq.
Qed.

Lemma own_step_other u v m m' : own_step u m m' -> v ≠ u -> m' !! v = m !! v.
Proof. intros [->|(_ & e & -> & _)] Hv; [done|]. by rewrite lookup_insert_ne. Qed.

Lemma own_step_rtc u m m' : own_step u m m' -> rtc id_step m m'.
Proof. intros [->|[H _]]; [done|]. by apply rtc_once. Qed.

(** The entries of a list are in the table, pending, and each once. *)
Definition pending_in (l : list (CassUuid * id_entry)) (m : gmap CassUuid id_entry) : Prop :=
  NoDup l.*1 /\ Forall (fun p => m !! p.1 = Some p.2 /\ e_status p.2 = PENDING_TXN) l.

Lemma pending_in_own_step u e l m m' :
  pending_in ((u, e) :: l) m -> own_step u m m' -> pending_in l m'.
Proof.
  intros [Hn Hl] Ho. apply NoDup_cons in Hn as [Hu Hn]. apply Forall_cons in Hl as [_ Hl].
  split; [done|]. rewrite Forall_forall in *. intros [v e'] Hin.
  cbn [fst snd]. rewrite (own_step_other u v m m'); [by apply (Hl (v, e'))|done|].
  intros ->. apply Hu. apply list_elem_of_fmap. by exists (u, e').
Qed.

Lemma handle_all_spec l s :
  timed_table (tbl s) -> pending_in l (tbl s) ->
  exists s', handle_all sv dsv (identity_of <$> l) s = Some (tt, s') /\
    rtc id_step (tbl s) (tbl s') /\ timed_table (tbl s').
Proof.
  revert s. induction l as [|[u e] l IH]; intros s Ht Hl; [by exists s|].
  destruct Hl as [Hn Hf]. pose proof Hf as [[Hu Hp] _]%Forall_cons.
  destruct (handle_spec s u e Ht Hu Hp) as (r & s1 & E & Ho).
  destruct (IH s1) as (s' & E' & Hr & Ht').
  - by eapply own_step_timed.
  - by eapply pending_in_own_step.
  - exists s'. split; [|split; [|done]].
    + rewrite fmap_cons. cbn [handle_all]. by comp_step E.
    + etrans; [by eapply own_step_rtc|done].
Qed.

(** The pending identities, as the query returns them. *)
Lemma query_pending s :
  timed_table (tbl s) ->
  exists ret l d', rdb (db_get_identity_objs_by_status PENDING_TXN []) s =
      Some ((ret, identity_of <$> l), mkR (r_net s) d') /\
    id_table d' = tbl s /\ pending_in l (tbl s) /\
    (ret = SC_OK -> l ≡ₚ matching (ByStatus PENDING_TXN) (tbl s)).
Proof.
  intros Ht. destruct (get_identities_spec (ByStatus PENDING_TXN) (r_db s) (timed_wf _ Ht) I)
    as (ret & ids & d' & E & Hd & Ho).
  apply rdb_run in E. destruct Ho as [(-> & Hids & _)|[Hr ->]].
  - apply Permutation_map_inv in Hids as (l & -> & Hl). exists SC_OK, l, d'.
    split; [done|]. split; [done|]. split; [|by rewrite Hl]. split.
    + rewrite <- Hl. apply NoDup_fst_map_to_list.
    + rewrite <- Hl. apply Forall_forall. intros [u e] Hin. by apply elem_of_matching in Hin.
  - exists ret, [], d'. split; [done|]. split; [done|]. split; [|done]. split; constructor.
Qed.

Lemma reattach_pass_spec s :
  timed_table (tbl s) ->
  exists s', reattach_pass sv dsv s = Some (tt, s') /\
    rtc id_step (tbl s) (tbl s') /\ timed_table (tbl s').
Proof.
  intros Ht. destruct (query_pending s Ht) as (ret & l & d' & E & Hd & Hl & _).
  unfold reattach_pass. comp_step E.
  destruct (handle_all_spec l (mkR (r_net s) d')) as (s' & E' & H1 & H2);
    [by cbn; rewrite Hd|by cbn; rewrite Hd|]. cbn in H1. rewrite Hd in H1. by exists s'.
Qed.

(** C11 The reattacher refines the step relation [id_step]: from any well-formed
    table, any number of rounds runs without undefined behaviour, whatever the
    node and the database answer, and changes the table only by confirming
    pending transactions and by giving new hashes to transactions that were
    pending for more than [PRESISTENT_PENDING_SECOND].  In particular no
    identity appears or is lost, and a confirmed one never changes again. *)
Theorem reattacher_refines n s :
  timed_table (tbl s) ->
  exists s', reattach_loop n sv dsv s = Some (tt, s') /\ timed_table (tbl s') /\
    rtc id_step (tbl s) (tbl s') /\ dom (tbl s') = dom (tbl s) /\
    (forall u e, tbl s !! u = Some e -> e_status e = CONFIRMED_TXN -> tbl s' !! u = Some e).
Proof.
  revert s. induction n as [|n IH]; intros s Ht; [by exists s|].
  destruct (reattach_pass_spec s Ht) as (s1 & E & Hr & Ht1).
  destruct (IH s1 Ht1) as (s' & E' & Ht' & Hr' & _).
  exists s'. cbn [reattach_loop]. comp_step E. assert (rtc id_step (tbl s) (tbl s')) by by etrans.
  split_and!; [done|done|done|by apply id_steps_dom|]. intros. by eapply id_steps_confirmed.
Qed.

(** *** With a database that answers *)
Context (avail : Available (db := db)).

Definition confirmed (e : id_entry) : id_entry := mkEntry (e_ts e) CONFIRMED_TXN (e_hash e).

Definition hash_trits (e : id_entry) : trits := flex_trits_from_trytes N_DB_HASH (e_hash e).

Lemma insert_available_run s o : exists s',
  rdb (db_insert_identity_table (Some dsv) (Some o)) s = Some (SC_OK, s') /\
  tbl s' = <[id_uuid o := entry_of o]> (tbl s) /\ r_net s' = r_net s.
Proof.
  destruct (insert_identity_available dsv o (r_db s) avail) as (d' & E & Ht).
  exists (mkR (r_net s) d'). split; [by apply rdb_run|done].
Qed.

Lemma handle_included s u e n1 :
  iota_client_get_latest_inclusion sv (r_net s) [hash_trits e] = (Some [true], n1) ->
  exists r s', handle_pending_txn sv dsv (identity_of (u, e)) s = Some (r, s') /\
    tbl s' = <[u := confirmed e]> (tbl s).
Proof.
  intros E0. unfold handle_pending_txn. erewrite rnet_bind by exact E0.
  change (db_set_identity_status (Some (identity_of (u, e))) CONFIRMED_TXN) with
    (SC_OK, Some (mkIdentity u (e_ts e) CONFIRMED_TXN (e_hash e))). cbv beta iota.
  destruct (insert_available_run (mkR n1 (r_db s)) (mkIdentity u (e_ts e) CONFIRMED_TXN (e_hash e)))
    as (s' & E & Ht & _). comp_step E. eexists _, s'. split; [done|]. by rewrite Ht.
Qed.

(** [inclusion] is what the node answers about a hash. *)
Definition answers (inclusion : trits -> bool) : Prop := forall n h,
  (iota_client_get_latest_inclusion sv n [h]).1 = Some [inclusion h].

Lemma handle_all_confirms inclusion l s s' :
  answers inclusion -> timed_table (tbl s) -> pending_in l (tbl s) ->
  handle_all sv dsv (identity_of <$> l) s = Some (tt, s') ->
  forall u e, (u, e) ∈ l -> inclusion (hash_trits e) = true -> tbl s' !! u = Some (confirmed e).
Proof.
  intros Ha. revert s. induction l as [|[v ev] l IH]; intros s Ht Hl E u e Hin Hinc;
    [by apply elem_of_nil in Hin|].
  pose proof Hl as [_ [[Hv Hp] _]%Forall_cons].
  destruct (handle_spec s v ev Ht Hv Hp) as (r & s1 & E1 & Ho).
  rewrite fmap_cons in E. cbn [handle_all] in E. rewrite (comp_bind_eq _ _ _ _ _ E1) in E.
  pose proof (own_step_timed _ _ _ Ht Ho) as Ht1.
  pose proof (pending_in_own_step _ _ _ _ _ Hl Ho) as Hl1.
  apply elem_of_cons in Hin as [[= -> ->]|Hin]; [|by eapply IH].
  destruct (handle_all_spec l s1 Ht1 Hl1) as (s2 & E2 & Hr & _).
  rewrite E2 in E. injection E as ->.
  eapply id_steps_confirmed; [done| |done].
  destruct (iota_client_get_latest_inclusion sv (r_net s) [hash_trits ev]) as [res n1] eqn:E0.
  pose proof (Ha (r_net s) (hash_trits ev)) as Hres. rewrite E0, Hinc in Hres. cbn in Hres. subst res.
  destruct (handle_included s v ev n1 E0) as (r' & s3 & E3 & Ht3). rewrite E3 in E1.
  injection E1 as -> ->. by rewrite Ht3, lookup_insert_eq.
Qed.

Lemma query_available s :
  timed_table (tbl s) ->
  exists ret l d', rdb (db_get_identity_objs_by_status PENDING_TXN []) s =
      Some ((ret, identity_of <$> l), mkR (r_net s) d') /\
    id_table d' = tbl s /\ l ≡ₚ matching (ByStatus PENDING_TXN) (tbl s).
Proof.
  intros Ht. destruct (get_identities_available (ByStatus PENDING_TXN) (r_db s) avail (timed_wf _ Ht) I)
    as (ret & ids & d' & E & Hd & Hids).
  apply rdb_run in E. apply Permutation_map_inv in Hids as (l & -> & Hl).
  exists ret, l, d'. split; [done|]. split; [done|]. by rewrite Hl.
Qed.

Lemma matching_pending l m : l ≡ₚ matching (ByStatus PENDING_TXN) m -> pending_in l m.
Proof.
  intros Hl. split.
  - rewrite Hl. apply NoDup_fst_map_to_list.
  - rewrite Hl. apply Forall_forall. intros [u e] Hin. by apply elem_of_matching in Hin.
Qed.

Lemma pass_confirms inclusion s s' :
  answers inclusion -> timed_table (tbl s) -> reattach_pass sv dsv s = Some (tt, s') ->
  forall u e, tbl s !! u = Some e -> e_status e = PENDING_TXN -> inclusion (hash_trits e) = true ->
    tbl s' !! u = Some (confirmed e).
Proof.
  intros Ha Ht Ep. destruct (query_available s Ht) as (ret & l & d' & E & Hd & Hl).
  unfold reattach_pass in Ep. rewrite (comp_bind_eq _ _ _ _ _ E) in Ep.
  set (s1 := mkR (r_net s) d') in *. assert (tbl s1 = tbl s) as Hs1 by done.
  rewrite <- Hs1 in *. clearbody s1.
  intros u e Hu He Hinc. eapply handle_all_confirms; [done|done| |done| |done].
  - by apply matching_pending.
  - rewrite Hl. by apply elem_of_matching.
Qed.

(** C12 A round of the reattacher confirms what the node has confirmed: when the
    database answers and the node tells of every hash whether it is included,
    every pending identity whose transaction is included has the status
    [CONFIRMED_TXN] after the round, with hash and time unchanged. *)
Theorem reattach_pass_confirms inclusion s :
  answers inclusion -> timed_table (tbl s) ->
  exists s', reattach_pass sv dsv s = Some (tt, s') /\
  forall u e, tbl s !! u = Some e -> e_status e = PENDING_TXN -> inclusion (hash_trits e) = true ->
    tbl s' !! u = Some (confirmed e).
Proof.
  intros Ha Ht. destruct (reattach_pass_spec s Ht) as (s' & E & _). exists s'. split; [done|].
  by eapply pass_confirms.
Qed.

(** What is stored after a reattachment: when the transaction is not
    included, pending for more than half an hour, and the node replays its
    bundle, appending the new transactions [new] to the original ones [old],
    the entry gets the hash of the second transaction of the two.  That is the
    reattached transaction for a bundle of one; for any longer bundle it is a
    transaction of the original bundle, not the new attachment. *)
Theorem reattach_takes_second s u e n1 n2 o0 old t0 new :
  timed_table (tbl s) -> tbl s !! u = Some e -> e_status e = PENDING_TXN ->
  iota_client_get_latest_inclusion sv (r_net s) [hash_trits e] = (Some [false], n1) ->
  e_ts e + PRESISTENT_PENDING_SECOND < (time_now (r_db s)).1 ->
  iota_client_replay_bundle sv n1 (hash_trits e) MILESTONE_DEPTH MWM =
    (Some ((o0 :: old) ++ t0 :: new), n2) ->
  exists r s' t, handle_pending_txn sv dsv (identity_of (u, e)) s = Some (r, s') /\
    e_ts e + PRESISTENT_PENDING_SECOND < t /\
    tbl s' = <[u := mkEntry t PENDING_TXN
                 (snd (flex_trits_to_trytes N_DB_HASH
                         (transaction_hash (match old with [] => t0 | o1 :: _ => o1 end))))]> (tbl s).
Proof.
  intros Ht Hu Hp E0 Hold Er. unfold handle_pending_txn. erewrite rnet_bind by exact E0. cbv beta iota.
  comp_step (elapsed_run (mkR n1 (r_db s)) u e Ht Hu). cbn [r_db].
  destruct (Z.gtb_spec ((time_now (r_db s)).1 - e_ts e) PRESISTENT_PENDING_SECOND); [|lia].
  erewrite rnet_bind by exact Er. cbn [r_db].
  set (h := snd (flex_trits_to_trytes N_DB_HASH
                   (transaction_hash (match old with [] => t0 | o1 :: _ => o1 end)))).
  assert (reattached_hash ((o0 :: old) ++ t0 :: new) = Some h) as -> by by destruct old.
  assert (length h = N_DB_HASH) as Hh by apply (law_trytes _ _ laws).
  comp_simpl. rewrite set_identity_hash_ok by done. unfold on_db. cbn.
  pose proof (law_clock_mono _ _ laws (r_db s)) as Hm. pose proof (law_time (r_db s)) as Ht1.
  destruct (time_now (r_db s)) as [now1 d1]. cbn in *.
  pose proof (law_time d1) as Ht2. unfold rdb at 1. destruct (time_now d1) as [now2 d2]. cbn in *.
  destruct (insert_available_run (mkR n2 d2) (mkIdentity u now2 (e_status e) h)) as (s' & E & Htab & _).
  unfold rdb in E. cbn in E. rewrite E. eexists _, s', now2. split; [done|]. split; [lia|].
  rewrite Htab. unfold entry_of. cbn. by rewrite Hp, Ht2, Ht1.
Qed.

End Properties.

(** ** Witnesses *)
Module ReattacherWitness.
Import ToyWorld ToyDb IdentityWitness.

(** A node that has confirmed the hashes of 66s and replays any bundle as one
    transaction followed by its new attachment. *)
Definition txn (h : trits) : iota_transaction_t := toy_tx 0 0 h.

Definition old_hash : list Z := replicate N_DB_HASH 65.
Definition included_hash : list Z := replicate N_DB_HASH 66.
Definition new_hash : list Z := replicate N_DB_HASH 67.

Definition inclusion (h : trits) : bool := bool_decide (h = included_hash).

#[export] Instance toy_node : ReattachNode unit := {
  iota_client_core_init _ n := (true, n);
  iota_client_get_latest_inclusion _ n hs := (Some (inclusion <$> hs), n);
  iota_client_replay_bundle _ n h _ _ := (Some [txn h; txn new_hash], n)
}.

(** The library with a conversion of any [n] trytes. *)
Definition conv_lib : IotaLib :=
  let l := ToyWorld.lib in {|
  FLEX_TRIT_SIZE_8019 := @FLEX_TRIT_SIZE_8019 l;
  transaction_serialize := @transaction_serialize l;
  transaction_serialize_on_flex_trits := @transaction_serialize_on_flex_trits l;
  transaction_deserialize := @transaction_deserialize l;
  iota_flex_digest := @iota_flex_digest l;
  flex_trits_to_trytes n t := (3 * Z.of_nat n, resize n 57 t);
  flex_trits_from_trytes n t := resize n 57 t;
  ascii_to_trytes := @ascii_to_trytes l;
  fresh_tips := @fresh_tips l;
  bundle_finalize := @bundle_finalize l;
  transaction_deserialize_from_trits := @transaction_deserialize_from_trits l;
  flex_trits_are_null := @flex_trits_are_null l;
  dcurl_entry := @dcurl_entry l
|}.

(** The toy database with a clock that stands still and a database that is up. *)
Definition still : Cassandra (gmap CassUuid id_entry) := {|
  cass_session_connect d _ _ := (true, d);
  cass_session_prepare d _ := (true, d);
  cass_statement_bind _ _ _ := true;
  cass_session_execute d st :=
    match ToyDb.execute (mkToy d 0 0 true) st with
    | (Some r, d') => (Some r, tbl d')
    | (None, d') => (Some [], tbl d')
    end;
  cass_uuid_gen_random d := (toy_uuid 9, d);
  cass_uuid_string u := [time_and_version u; clock_seq_and_node u];
  cass_uuid_from_string s := match s with [a; b] => Some (mkCassUuid a b) | _ => None end;
  time_now d := (5000, d)
|}.

Definition still_table : IdentityTable (gmap CassUuid id_entry) (cass := still).
Proof.
  refine {| id_table := fun d => d |}.
  - intros d [u t s h] r d'. cbn. intros [= <- <-]. by left.
  - intros d [s|u|h] r d'; cbn; intros [= <- <-]; (split; [done|]); by intros rows [= <-].
  - done.
  - done.
  - done.
  - by intros [].
Defined.

Lemma still_available : Available (db := gmap CassUuid id_entry) (cass := still).
Proof.
  split; [done|done|]. intros d st. unfold cass_session_execute, still.
  by destruct (execute (mkToy d 0 0 true) st) as [[r|] d'].
Qed.

Lemma toy_laws : ReattachLaws unit (gmap CassUuid id_entry) (lib := conv_lib) (cass := still).
Proof.
  split.
  - intros n t. cbn. apply length_resize.
  - intros sv n h depth mwm b n'. cbn. intros [= <- <-]. cbn. lia.
  - intros d. cbn. unfold TIME_MAX. lia.
  - intros d. cbn. lia.
Qed.

(** Three identities: one included, one old, one recent. *)
Definition some_table : gmap CassUuid id_entry :=
  list_to_map [(toy_uuid 1, mkEntry 4000 PENDING_TXN included_hash);
               (toy_uuid 2, mkEntry 1000 PENDING_TXN old_hash);
               (toy_uuid 3, mkEntry 4000 PENDING_TXN old_hash)].

Definition start : rstate unit (gmap CassUuid id_entry) := mkR tt some_table.
Definition here : iota_client_service_t := mkService [] 0 [].

Definition timedb (m : gmap CassUuid id_entry) : bool :=
  forallb (fun p => bool_decide (uuid_version p.1 = DB_IDENTITY_UUID_VERSION) &&
    bool_decide (0 <= e_status p.2 < NUM_OF_TXN_STATUS) &&
    bool_decide (length (e_hash p.2) = N_DB_HASH) && bool_decide (0 <= e_ts p.2 < TIME_MAX))
    (map_to_list m).

Lemma timedb_timed m : timedb m = true -> timed_table m.
Proof.
  unfold timedb. rewrite forallb_forall. intros H u e Hu. apply elem_of_map_to_list in Hu.
  specialize (H (u, e) (proj1 (list_elem_of_In _ _) Hu)). cbn in H.
  apply andb_prop in H as [[[? ?]%andb_prop ?]%andb_prop ?].
  split; [split; [|split]|]; by eapply bool_decide_unpack; apply Is_true_true.
Qed.

Lemma some_table_timed : timed_table some_table.
Proof. apply timedb_timed. vm_compute. reflexivity. Qed.

Lemma reattacher_refines_witness :
  exists s', reattach_loop (lib := conv_lib) (cass := still) 2 here sv start = Some (tt, s') /\
    timed_table (r_db s') /\ rtc id_step (r_db start) (r_db s') /\ dom (r_db s') = dom (r_db start) /\
    (forall u e, r_db start !! u = Some e -> e_status e = CONFIRMED_TXN -> r_db s' !! u = Some e).
Proof.
  exact (reattacher_refines (tab := still_table) toy_laws here sv 2 start some_table_timed).
Defined.

Lemma reattach_pass_confirms_witness :
  exists s', reattach_pass (lib := conv_lib) (cass := still) here sv start = Some (tt, s') /\
  r_db s' !! toy_uuid 1 = Some (mkEntry 4000 CONFIRMED_TXN included_hash).
Proof.
  destruct (reattach_pass_confirms (tab := still_table) toy_laws here sv still_available inclusion start
              (fun _ _ => eq_refl) some_table_timed) as (s' & E & H).
  exists s'. split; [exact E|].
  apply (H (toy_uuid 1) (mkEntry 4000 PENDING_TXN included_hash)); vm_compute; reflexivity.
Defined.

Lemma reattach_takes_second_witness :
  exists r s' t, handle_pending_txn (lib := conv_lib) (cass := still) here sv
      (identity_of (toy_uuid 2, mkEntry 1000 PENDING_TXN old_hash)) start = Some (r, s') /\
    1000 + PRESISTENT_PENDING_SECOND < t /\
    r_db s' = <[toy_uuid 2 := mkEntry t PENDING_TXN (resize N_DB_HASH 57 new_hash)]> (r_db start).
Proof.
  apply (reattach_takes_second (tab := still_table) toy_laws here sv still_available start
           (toy_uuid 2) (mkEntry 1000 PENDING_TXN old_hash) tt tt (txn (resize N_DB_HASH 57 old_hash)) []
           (txn new_hash) []).
  - exact some_table_timed.
  - vm_compute. reflexivity.
  - reflexivity.
  - vm_compute. reflexivity.
  - vm_compute. reflexivity.
  - vm_compute. reflexivity.
Defined.

End ReattacherWitness.
