(* ===== verification/DbApis.v ===== *)
(** * The API functions of builds with a database

    [db_identity_serialize] of [core/serializer/serializer.c], the functions of
    [core/apis.c] and the handlers of [connectivity/http/http.c] under
    [DB_ENABLE].  The theorems follow a transaction from its insertion over the
    reattacher to the answer of the API, and show which requests over HTTP read
    outside their object. *)

From S2P Require Import Prelude TaErrors Utils Json Cache World Config Serializer Core Buffer Apis Http.
From S2P Require Import Storage Identity Reattacher.

Section DbApis.
Context {net os db cdb : Type} {lib : IotaLib} {txt : JsonText}
  {node : IotaNode net} {sys : Os os} {server : RedisServer db} {cass : Cassandra cdb}.
(** [strftime] of [localtime] with the format of the source; [None] where
    [localtime] gives NULL. *)
Context (local_time : Z -> option cstr).
(** Fields of a request that its constructor does not set. *)
Context (value0 len0 : Z).

(** ** Serialization *)

Definition identity_json (id hash status timestamp : cstr) : json :=
  let j := add_string (JObject []) "id" id in
  let j := add_string j "hash" hash in
  let j := add_string j "status" status in
  add_string j "timestamp" timestamp.

Definition status_text (status : Z) : cstr :=
  if status =? CONFIRMED_TXN then lit "CONFIRMED" else lit "PENDING".

Definition db_identity_serialize (id_obj : db_identity_t) : option (status_t * option cstr) :=
  uuid_str ← snd (db_get_identity_uuid_string (Some id_obj));
  hash ← db_ret_identity_hash (Some id_obj);
  ts ← local_time (db_ret_identity_timestamp (Some id_obj));
  Some (SC_OK, Some (cJSON_PrintUnformatted
    (identity_json uuid_str (str_of_buf (take N_DB_HASH hash))
       (status_text (db_ret_identity_status (Some id_obj))) ts))).

(** ** API functions

    The argument is the array the caller passes, [None] for NULL. *)

Definition first_identity (ret : status_t) (ids : list db_identity_t)
    (f : db_identity_t -> option (status_t * option cstr)) : option (status_t * option cstr) :=
  if negb (ret =? SC_OK) then Some (ret, None) else
  match ids with
  | itr :: _ => f itr
  | [] => Some (SC_TA_WRONG_REQUEST_OBJ, None)
  end.

Definition api_get_identity_info_by_hash (obj : option (list Z)) : comp cdb (status_t * option cstr) :=
  match obj with
  | None => mret (SC_NULL, None)
  | Some hash =>
      '(ret, ids) ← db_get_identity_objs_by_hash hash [];
      check (first_identity ret ids db_identity_serialize)
  end.

Definition api_get_identity_info_by_id (obj : option (list Z)) : comp cdb (status_t * option cstr) :=
  match obj with
  | None => mret (SC_NULL, None)
  | Some buf =>
      uuid_string ← check (c_string buf);
      '(ret, ids) ← db_get_identity_objs_by_uuid_string uuid_string [];
      check (first_identity ret ids db_identity_serialize)
  end.

(** Functions on node and database run over the pair of states. *)
Definition dbproc := comp (world net os db * cdb).

Definition on_world {A} (m : proc A) : dbproc A :=
  fun s => match m s.1 with Some (a, w) => Some (a, (w, s.2)) | None => None end.

Definition on_cdb {A} (m : comp cdb A) : dbproc A :=
  fun s => match m s.2 with Some (a, d) => Some (a, (s.1, d)) | None => None end.

Definition api_find_transactions_by_id (service : iota_client_service_t) (obj : option (list Z))
  : dbproc (status_t * option cstr) :=
  match obj with
  | None => mret (SC_NULL, None)
  | Some buf =>
      uuid_string ← check (c_string buf);
      '(ret, ids) ← on_cdb (db_get_identity_objs_by_uuid_string uuid_string []);
      if negb (ret =? SC_OK) then mret (ret, None) else
      match ids with
      | itr :: _ =>
          hash ← check (db_ret_identity_hash (Some itr));
          on_world (api_find_transaction_object_single service hash)
      | [] => mret (SC_TA_WRONG_REQUEST_OBJ, None)
      end
  end.

(** [ta_send_transfer_res_serialize] adds the member [id] to a transaction. *)
Definition ta_send_transfer_res_serialize_db (res : ta_send_transfer_res_t) (uuid_string : cstr)
  : option (status_t * option cstr) :=
  match res_uuid res with
  | Some _ => ta_send_transfer_res_serialize res
  | None =>
      txns ← res_txn_array res;
      let '(ret, root) := ta_iota_transaction_to_json_object (head txns) (JObject []) in
      Some (if negb (ret =? SC_OK) then (ret, None)
            else (SC_OK, Some (cJSON_PrintUnformatted (add_string root "id" uuid_string))))
  end.

(** [res->hash] is passed as the hash: the pointer to the first entry of the
    queue, at whose beginning the trits are.  [fresh] is what the allocated
    identity holds, [uuid0] what the array of the response does. *)
Definition api_send_transfer_db (fresh : db_identity_t) (uuid0 : cstr) (core : ta_core_t)
    (db_service : db_client_service_t) (service : iota_client_service_t) (obj : option cstr)
  : dbproc (status_t * option cstr) :=
  '(ret, req) ← check (ta_send_transfer_req_deserialize obj (ta_send_transfer_req_new value0 len0));
  if negb (ret =? SC_OK) then mret (ret, None) else
  '(ret, res) ← on_world (ta_send_transfer (ta_conf core) (iota_conf core) service (cache core)
                  (Some req) (Some ta_send_transfer_res_new));
  res ← check res;
  if ret =? SC_CCLIENT_FAILED_RESPONSE then check (ta_send_transfer_res_serialize_db res uuid0)
  else if negb (ret =? SC_OK) then mret (ret, None) else
  match res_hash res with
  | [] => mret (SC_CCLIENT_FAILED_RESPONSE, None)
  | h :: _ =>
      '(ret, txns) ← on_world (ta_find_transaction_objects service [h] []);
      if negb (ret =? SC_OK) then mret (ret, None) else
      '(ret, id) ← on_cdb (db_insert_tx_into_identity fresh (Some db_service) (Some h) PENDING_TXN true);
      if negb (ret =? SC_OK) then mret (ret, None) else
      check (ta_send_transfer_res_serialize_db
               (mkTransferRes (res_hash res) (Some txns) (res_uuid res) (res_address res))
               (default uuid0 id))
  end.

(** ** Handlers of [http.c]: the third token of the URL *)

Definition on_db_parameter {St} (url : cstr) (f : list Z -> comp St (status_t * option cstr))
  : comp St (Z * option cstr) :=
  match ta_get_url_parameter url 2 with
  | (ret, Some p) => '(ret, out) ← f p; mret (set_response_content ret out)
  | (ret, None) => mret (set_response_content ret None)
  end.

Definition process_get_identity_info_by_hash_request (url : cstr) : comp cdb (Z * option cstr) :=
  on_db_parameter url (fun hash => api_get_identity_info_by_hash (Some hash)).

Definition process_get_identity_info_by_id_request (url : cstr) : comp cdb (Z * option cstr) :=
  on_db_parameter url (fun buf => api_get_identity_info_by_id (Some buf)).

Definition process_find_transaction_by_id_request (service : iota_client_service_t) (url : cstr)
  : dbproc (Z * option cstr) :=
  on_db_parameter url (fun buf => api_find_transactions_by_id service (Some buf)).

End DbApis.

Section Properties.
Context {cdb : Type} {txt : JsonText} {cass : Cassandra cdb} {tab : IdentityTable cdb}.
Context (local_time : Z -> option cstr) (avail : Available (db := cdb)).
Implicit Types d : cdb.

(** What the API answers about an entry of the table; [ts] is the text of its
    time. *)
Definition entry_answer (u : CassUuid) (e : id_entry) (ts : cstr) : cstr :=
  cJSON_PrintUnformatted
    (identity_json (cass_uuid_string u) (str_of_buf (e_hash e)) (status_text (e_status e)) ts).

Lemma serialize_entry u e ts :
  length (e_hash e) = N_DB_HASH -> local_time (e_ts e) = Some ts ->
  db_identity_serialize local_time (identity_of (u, e)) = Some (SC_OK, Some (entry_answer u e ts)).
Proof.
  intros Hh Ht. unfold db_identity_serialize. cbn [db_get_identity_uuid_string snd mbind option_bind].
  cbn [db_ret_identity_hash db_ret_identity_timestamp db_ret_identity_status identity_of fmap option_fmap
       option_map id_hash id_timestamp id_status id_uuid fst snd].
  rewrite Ht. cbn [mbind option_bind]. by rewrite take_ge by lia.
Qed.

Lemma info_by_id u e d ts :
  wf_table (id_table d) -> id_table d !! u = Some e -> 0 ∉ cass_uuid_string u ->
  local_time (e_ts e) = Some ts ->
  exists d', api_get_identity_info_by_id local_time (Some (cass_uuid_string u ++ [0])) d =
    Some ((SC_OK, Some (entry_answer u e ts)), d') /\ id_table d' = id_table d.
Proof.
  intros Hwf Hu H0 Ht. unfold api_get_identity_info_by_id. rewrite c_string_nul by done.
  destruct (get_identities_available (ById u) d avail Hwf I) as (ret & ids & d' & E & Hd & Hids).
  rewrite (matching_id _ _ _ Hu) in Hids. apply Permutation_singleton_r in Hids as ->.
  assert (ret = SC_OK) as ->.
  { destruct (get_identities_spec (ById u) d Hwf I) as (r2 & ids2 & d2 & E2 & _ & Ho).
    cbn [get_identities] in E, E2. rewrite E2 in E. injection E as -> -> ->.
    destruct Ho as [[? _]|[_ ?]]; done. }
  exists d'. split; [|done]. unfold mbind at 1, comp_mbind at 1, check at 1.
  cbn [get_identities] in E. comp_step E. unfold check, first_identity. change (SC_OK =? SC_OK) with true.
  cbn [negb]. rewrite (serialize_entry u e ts); [done| |done]. by apply (Hwf u e Hu).
Qed.

(** ** From the insertion to the answer *)
Section Lifecycle.
Context {net : Type} {lib : IotaLib} {node : ReattachNode net} (laws : ReattachLaws net cdb).
Context (sv : iota_client_service_t) (dsv : db_client_service_t).

(** C10 A transaction that is inserted as pending, and that the node reports as
    included, is reported as confirmed: after one round of the reattacher the
    API answers a query for the UUID string that the insertion returned with
    that UUID, the hash, the status [CONFIRMED] and the time of the insertion. *)
Theorem identity_lifecycle inclusion fresh h n d id d1 ts :
  timed_table (id_table d) -> (N_DB_HASH <= length h)%nat ->
  db_insert_tx_into_identity fresh (Some dsv) (Some h) PENDING_TXN true d = Some ((SC_OK, Some id), d1) ->
  answers sv inclusion -> inclusion (flex_trits_from_trytes N_DB_HASH (take N_DB_HASH h)) = true ->
  0 ∉ id -> local_time (time_now d).1 = Some ts ->
  exists s' d2, reattach_pass sv dsv (mkR n d1) = Some (tt, s') /\
  api_get_identity_info_by_id local_time (Some (id ++ [0])) (r_db s') =
    Some ((SC_OK, Some (cJSON_PrintUnformatted
      (identity_json id (str_of_buf (take N_DB_HASH h)) (lit "CONFIRMED") ts))), d2).
Proof.
  intros Htd Hh E Ha Hinc H0 Hts.
  destruct (insert_tx_spec fresh dsv h PENDING_TXN d Hh) as (ret & d' & E' & Htab & Hwf).
  { unfold PENDING_TXN, NUM_OF_TXN_STATUS. lia. }
  cbn zeta in E'. rewrite E' in E. injection E as -> <- ->.
  destruct Htab as [Htab|[? ?]]; [|done]. cbn [id_uuid entry_of id_timestamp id_status id_hash] in *.
  set (u := (cass_uuid_gen_random (time_now d).2).1) in *.
  set (e := mkEntry (time_now d).1 PENDING_TXN (take N_DB_HASH h)) in *.
  assert (timed_table (id_table d1)) as Htd1.
  { rewrite Htab. apply map_Forall_insert_2; [|done]. split; [done|]. apply (law_clock _ _ laws). }
  destruct (reattach_pass_spec laws sv dsv (mkR n d1) Htd1) as (s' & Ep & Hsteps & Htd').
  assert (id_table (r_db s') !! u = Some (confirmed e)) as Hconf.
  { eapply (pass_confirms laws sv dsv avail inclusion (mkR n d1) s' Ha Htd1 Ep u e); [|done|done].
    cbn. by rewrite Htab, lookup_insert_eq. }
  destruct (info_by_id u (confirmed e) (r_db s') ts) as (d2 & Ei & _);
    [by apply timed_wf|done|done|done|].
  exists s', d2. split; [done|]. exact Ei.
Qed.
End Lifecycle.

(** ** Over HTTP *)

Lemma url_parameter_2 a b p : 47 ∉ a -> a ≠ [] -> 47 ∉ b -> b ≠ [] -> 47 ∉ p -> p ≠ [] ->
  ta_get_url_parameter (47 :: a ++ 47 :: b ++ 47 :: p) 2 = (SC_OK, Some p).
Proof.
  intros. unfold ta_get_url_parameter.
  change (strtok_all 47 [] (47 :: a ++ 47 :: b ++ 47 :: p)) with (strtok_all 47 [] (join 47 [a; b; p])).
  rewrite strtok_all_join; [done|]. by repeat constructor.
Qed.

Definition identity_hash_url (h : cstr) : cstr := 47 :: lit "identity" ++ 47 :: lit "hash" ++ 47 :: h.
Definition identity_id_url (u : cstr) : cstr := 47 :: lit "identity" ++ 47 :: lit "id" ++ 47 :: u.

(** A query by hash over HTTP: when the table has an entry with the hash of
    the URL, the answer is 200 and describes an entry with that hash. *)
Theorem identity_by_hash_answered h u e d :
  wf_table (id_table d) -> id_table d !! u = Some e -> e_hash e = h -> 47 ∉ h ->
  (forall t, is_Some (local_time t)) ->
  exists u' e' ts d', process_get_identity_info_by_hash_request local_time (identity_hash_url h) d =
    Some ((SC_HTTP_OK, Some (entry_answer u' e' ts)), d') /\
    id_table d' = id_table d /\ id_table d !! u' = Some e' /\ e_hash e' = h /\ local_time (e_ts e') = Some ts.
Proof.
  intros Hwf Hu Hh Hs Hlt. assert (length h = N_DB_HASH) as Hlen by (rewrite <- Hh; by apply (Hwf u e Hu)).
  unfold process_get_identity_info_by_hash_request, on_db_parameter, identity_hash_url.
  rewrite url_parameter_2; [|by apply (bool_decide_unpack _); vm_compute|done
    |by apply (bool_decide_unpack _); vm_compute|done|done|intros ->; done].
  destruct (get_identities_available (ByHash h) d avail Hwf Hlen) as (ret & ids & d' & E & Hd & Hids).
  destruct (get_identities_spec (ByHash h) d Hwf Hlen) as (r2 & ids2 & d2 & E2 & _ & Ho).
  rewrite E2 in E. injection E as -> -> ->.
  destruct ids as [|i ids].
  { apply Permutation_nil_l in Hids. symmetry in Hids. apply fmap_nil_inv in Hids.
    assert ((u, e) ∈ matching (ByHash h) (id_table d)) as Hin by by apply elem_of_matching.
    rewrite Hids in Hin. by apply elem_of_nil in Hin. }
  destruct Ho as [(-> & _)|[_ ?]]; [|done].
  assert (i ∈ identity_of <$> matching (ByHash h) (id_table d)) as Hi
    by (rewrite <- Hids; by constructor).
  apply list_elem_of_fmap in Hi as ([u' e'] & -> & Hm). apply elem_of_matching in Hm as [Hm Hsel].
  destruct (Hlt (e_ts e')) as [ts Hts]. exists u', e', ts, d'.
  split; [|done]. unfold api_get_identity_info_by_hash. cbn [get_identities] in E2.
  unfold mbind at 1, comp_mbind at 1. comp_step E2. unfold check, first_identity.
  change (SC_OK =? SC_OK) with true. cbn [negb].
  by rewrite (serialize_entry u' e' ts (proj2 (proj2 (Hwf u' e' Hm))) Hts).
Qed.

(** A query by UUID over HTTP reads outside its object, whatever the UUID:
    the parameter taken from the URL is an array without a terminating NUL, and
    the driver is given it as a C string. *)
Theorem identity_by_id_over_http_undefined u d :
  0 ∉ u -> 47 ∉ u -> u ≠ [] ->
  process_get_identity_info_by_id_request local_time (identity_id_url u) d = None.
Proof.
  intros H0 Hs Hne. unfold process_get_identity_info_by_id_request, on_db_parameter, identity_id_url.
  rewrite url_parameter_2; [|by apply (bool_decide_unpack _); vm_compute|done
    |by apply (bool_decide_unpack _); vm_compute|done|done|done].
  unfold api_get_identity_info_by_id. rewrite c_string_none by done. done.
Qed.

End Properties.

(** ** Witnesses *)
Module DbApisWitness.
Import ToyDb IdentityWitness ReattacherWitness JsonModel.

Definition fixed_time (t : Z) : option cstr := Some (lit "Thu 1970-01-01 01:23:20 UTC").

Definition still_answers : answers (node := toy_node) here inclusion := fun _ _ => eq_refl.

Lemma insert_run :
  db_insert_tx_into_identity (cass := still) zero_identity (Some sv) (Some included_hash) PENDING_TXN true
    some_table =
  Some ((SC_OK, Some [time_and_version (toy_uuid 9); clock_seq_and_node (toy_uuid 9)]),
        <[toy_uuid 9 := mkEntry 5000 PENDING_TXN included_hash]> some_table).
Proof. reflexivity. Qed.

Lemma identity_lifecycle_witness :
  exists id d1 s' d2,
  db_insert_tx_into_identity (cass := still) zero_identity (Some sv) (Some included_hash) PENDING_TXN true
    some_table = Some ((SC_OK, Some id), d1) /\
  reattach_pass (lib := conv_lib) (cass := still) here sv (mkR tt d1) = Some (tt, s') /\
  api_get_identity_info_by_id (txt := text) (cass := still) fixed_time (Some (id ++ [0])) (r_db s') =
    Some ((SC_OK, Some (cJSON_PrintUnformatted
      (identity_json id (str_of_buf (take N_DB_HASH included_hash)) (lit "CONFIRMED")
         (lit "Thu 1970-01-01 01:23:20 UTC")))), d2).
Proof.
  exists [time_and_version (toy_uuid 9); clock_seq_and_node (toy_uuid 9)],
    (<[toy_uuid 9 := mkEntry 5000 PENDING_TXN included_hash]> some_table).
  destruct (identity_lifecycle (txt := text) (cass := still) (tab := still_table) fixed_time still_available
    (lib := conv_lib) (node := toy_node) toy_laws here sv inclusion zero_identity included_hash tt some_table
    [time_and_version (toy_uuid 9); clock_seq_and_node (toy_uuid 9)]
    (<[toy_uuid 9 := mkEntry 5000 PENDING_TXN included_hash]> some_table)
    (lit "Thu 1970-01-01 01:23:20 UTC")) as (s' & d2 & E1 & E2).
  - exact some_table_timed.
  - apply Nat.leb_le. vm_compute. reflexivity.
  - exact insert_run.
  - exact still_answers.
  - vm_compute. reflexivity.
  - apply (bool_decide_unpack _). vm_compute. exact I.
  - reflexivity.
  - exists s', d2. split; [exact insert_run|]. split; [exact E1|exact E2].
Defined.

Lemma identity_by_hash_answered_witness :
  exists u' e' ts d', process_get_identity_info_by_hash_request (txt := text) (cass := still) fixed_time
      (identity_hash_url old_hash) some_table =
    Some ((SC_HTTP_OK, Some (entry_answer (txt := text) (cass := still) u' e' ts)), d') /\
    d' = some_table /\ some_table !! u' = Some e' /\ e_hash e' = old_hash /\ fixed_time (e_ts e') = Some ts.
Proof.
  apply (identity_by_hash_answered (txt := text) (cass := still) (tab := still_table) fixed_time
           still_available old_hash (toy_uuid 2) (mkEntry 1000 PENDING_TXN old_hash) some_table).
  - exact (timed_wf _ some_table_timed).
  - vm_compute. reflexivity.
  - reflexivity.
  - apply (bool_decide_unpack _). vm_compute. exact I.
  - intros t. eexists. reflexivity.
Defined.

Lemma identity_by_id_over_http_undefined_witness :
  process_get_identity_info_by_id_request (txt := text) (cass := still) fixed_time
    (identity_id_url (lit "b3b4eafd-0d6f-4b6b-9b8f-0d6f4b6b9b8f")) some_table = None.
Proof.
  apply (identity_by_id_over_http_undefined (txt := text) (cass := still) fixed_time).
  - apply (bool_decide_unpack _). vm_compute. exact I.
  - apply (bool_decide_unpack _). vm_compute. exact I.
  - discriminate.
Defined.

End DbApisWitness.
