(* ===== verification/Permanode.v ===== *)
(** * The permanent storage ([storage/scylladb_permanode.c])

    Transactions in the table [transaction]: the serialized trytes under the
    transaction hash, the columns bundle, address and tag cut out of them, and
    under every hash the set of the transactions that approve it.  The first
    part models the functions over the driver of [Storage]; [TransactionTable]
    states what the queries do; the theorems show that what is inserted is found
    again, by hash and by column, that the table links it to its parents, and
    where a query goes wrong: the lookup of approvees always frees its statement twice. *)

From S2P Require Import Prelude TaErrors Utils World Storage Identity.

(** ** Layout of the serialized transaction *)

Definition NUM_TRYTES_VALUE : Z := 27.
Definition NUM_TRYTES_OBSOLETE_TAG : Z := 27.
Definition NUM_TRYTES_TIMESTAMP : Z := 9.
Definition NUM_TRYTES_CURRENT_INDEX : Z := 9.
Definition NUM_TRYTES_LAST_INDEX : Z := 9.
Definition NUM_TRYTES_TRUNK : Z := 81.

Definition ADDRESS_OFFSET : Z := NUM_TRYTES_SIGNATURE.
Definition VALUE_OFFSET : Z := ADDRESS_OFFSET + NUM_TRYTES_ADDRESS.
Definition OBSOLETE_TAG_OFFSET : Z := VALUE_OFFSET + NUM_TRYTES_VALUE.
Definition TIMESTAMP_OFFSET : Z := OBSOLETE_TAG_OFFSET + NUM_TRYTES_OBSOLETE_TAG.
Definition CURRENT_INDEX_OFFSET : Z := TIMESTAMP_OFFSET + NUM_TRYTES_TIMESTAMP.
Definition LAST_INDEX_OFFSET : Z := CURRENT_INDEX_OFFSET + NUM_TRYTES_CURRENT_INDEX.
Definition BUNDLE_OFFSET : Z := LAST_INDEX_OFFSET + NUM_TRYTES_LAST_INDEX.
Definition TRUNK_OFFSET : Z := BUNDLE_OFFSET + NUM_TRYTES_BUNDLE.
Definition BRANCH_OFFSET : Z := TRUNK_OFFSET + NUM_TRYTES_TRUNK.

(** [n] bytes of an array behind an offset; [None] outside the array. *)
Definition bytes_at (buf : list Z) (off n : Z) : option (list Z) :=
  read_at buf (Z.to_nat off) (Z.to_nat n).

(** ** Operations *)

Definition UPDATE_TRANSACTION : cstr :=
  lit "UPDATE transaction Set bundle = ?, address = ?, tag = ?, trytes = ?  Where hash = ?".
Definition UPDATE_APPROVEES : cstr :=
  lit "UPDATE transaction SET approvees = approvees + ? WHERE hash = ?".
Definition SELECT_COUNT : cstr := lit "SELECT COUNT(*) FROM transaction WHERE hash = ? LIMIT 1".
Definition SELECT_APPROVEES : cstr := lit "SELECT approvees FROM transaction WHERE hash = ?".
Definition SELECT_TRYTES : cstr := lit "SELECT trytes FROM transaction WHERE hash = ?".
Definition SELECT_HASH_HEAD : cstr := lit "SELECT hash FROM transaction WHERE ".
Definition SELECT_HASH_TAIL : cstr := lit " = ? LIMIT 100".

Section Operations.
Context {db : Type} {cass : Cassandra db}.
(** The bytes of a hash and of a serialized transaction in the client library,
    which its queues copy; the deserialization of a transaction, [None] where it
    consumes nothing. *)
Context (FLEX_TRIT_SIZE_243 FLEX_TRIT_SIZE_8019 : nat).
Context (deserialize_from_trits : trits -> option iota_transaction_t).

Definition create_transaction_table (need_truncate : bool) : comp db status_t :=
  ok ← execute_query (lit "CREATE TABLE IF NOT EXISTS transaction (hash blob PRIMARY KEY,address blob,bundle blob,tag blob,approvees set<blob>,trytes blob );");
  if negb ok then mret SC_STORAGE_CASSANDRA_QUERY_FAIL else
  ok ← execute_query (lit "CREATE INDEX IF NOT EXISTS ON transaction(bundle);");
  if negb ok then mret SC_STORAGE_CASSANDRA_QUERY_FAIL else
  ok ← execute_query (lit "CREATE INDEX IF NOT EXISTS ON transaction(address);");
  if negb ok then mret SC_STORAGE_CASSANDRA_QUERY_FAIL else
  ok ← execute_query (lit "CREATE INDEX IF NOT EXISTS ON transaction(tag);");
  if negb ok then mret SC_STORAGE_CASSANDRA_QUERY_FAIL else
  if need_truncate then
    ret ← db_truncate_table (Some (lit "transaction"));
    mret (if negb (ret =? SC_OK) then SC_STORAGE_CASSANDRA_QUERY_FAIL else SC_OK)
  else mret SC_OK.

Definition db_permanode_keyspace_init (service : option db_client_service_t) (need_truncate : bool)
    (keyspace_name : option cstr) : comp db status_t :=
  init_keyspace (create_transaction_table need_truncate) service keyspace_name.

(** The bindings of a statement, where a value is read from memory when it is
    bound; the outer [None] is an access outside an object, the inner one a
    binding that failed. *)
Fixpoint bind_reads (st : CassStatement) (values : list (cass_param * option cass_value))
  : option (option CassStatement) :=
  match values with
  | [] => Some (Some st)
  | (p, v) :: r =>
      v ← v;
      if cass_statement_bind st p v
      then bind_reads (mkStatement (st_query st) (st_bound st ++ [(p, v)])) r
      else Some None
  end.

(** [cass_statement_free]: a statement can be freed once. *)
Inductive statement_life := Allocated | Released.

Definition cass_statement_free (s : statement_life) : comp db statement_life :=
  match s with Allocated => mret Released | Released => undefined end.

(** [prepare_query], [cass_prepared_bind], the bindings, what is done with the
    statement, which says if it has freed it, and the free at [exit]. *)
Definition with_statement {A} (query : cstr) (values : list (cass_param * option cass_value))
    (failed : A) (k : CassStatement -> comp db (A * statement_life)) : comp db A :=
  ok ← prepare_query query;
  if negb ok then mret failed else
  st ← check (bind_reads (mkStatement query []) values);
  '(res, life) ← match st with
                 | None => mret (failed, Allocated)
                 | Some st => k st
                 end;
  _ ← cass_statement_free life;
  mret res.

(** Most readers leave the statement alone. *)
Definition borrowed {A} (k : CassStatement -> comp db A) (st : CassStatement) : comp db (A * statement_life) :=
  res ← k st; mret (res, Allocated).

Definition execute_update (query : cstr) (values : list (cass_param * option cass_value))
  : comp db status_t :=
  with_statement query values SC_STORAGE_CASSANDRA_QUERY_FAIL (borrowed (fun st =>
    ok ← execute_statement st;
    mret (if negb ok then SC_STORAGE_CASSANDRA_QUERY_FAIL else SC_OK))).

(** The session of a service is never NULL. *)
Definition insert_transaction (hash trytes : option (list Z)) : comp db status_t :=
  match hash, trytes with
  | Some hash, Some trytes =>
      execute_update UPDATE_TRANSACTION
        [(ByName (lit "hash"), CassBytes <$> bytes_at hash 0 NUM_TRYTES_HASH);
         (ByName (lit "bundle"), CassBytes <$> bytes_at trytes BUNDLE_OFFSET NUM_TRYTES_BUNDLE);
         (ByName (lit "address"), CassBytes <$> bytes_at trytes ADDRESS_OFFSET NUM_TRYTES_ADDRESS);
         (ByName (lit "tag"), CassBytes <$> bytes_at trytes OBSOLETE_TAG_OFFSET NUM_TRYTES_OBSOLETE_TAG);
         (ByName (lit "trytes"), CassBytes <$> bytes_at trytes 0 NUM_TRYTES_SERIALIZED_TRANSACTION)]
  | _, _ => mret SC_NULL
  end.

Definition insert_approvee (hash approvee : option (list Z)) : comp db status_t :=
  match hash, approvee with
  | Some hash, Some approvee =>
      execute_update UPDATE_APPROVEES
        [(ByIndex 0, (fun b => CassCollection [b]) <$> bytes_at approvee 0 NUM_TRYTES_HASH);
         (ByIndex 1, CassBytes <$> bytes_at hash 0 NUM_TRYTES_HASH)]
  | _, _ => mret SC_NULL
  end.

(** A push to a queue copies a fixed number of bytes. *)
Definition queue_push (size : nat) (queue : list trits) (buf : list Z) : option (list trits) :=
  if decide (size <= length buf)%nat then Some (queue ++ [take size buf]) else None.

(** The readers take the queue and give status and queue; [check] stands for
    accesses outside an object.  Iterating over a column that holds no
    collection dereferences NULL.  This reader frees the statement at its end. *)
Definition push_collection_into_queue (column_name : cstr) (res_queue : list trits)
    (statement : CassStatement) : comp db (status_t * list trits * statement_life) :=
  res ← on_db (fun d => cass_session_execute d statement);
  '(ret, queue) ← match res with
    | None => mret (SC_STORAGE_CASSANDRA_QUERY_FAIL, res_queue)
    | Some [] => mret (SC_CCLIENT_NOT_FOUND, res_queue)
    | Some (row :: _) =>
        match cass_row_get_column_by_name row column_name with
        | Some (CassCollection items) =>
            queue ← check (foldl (fun q b => q ≫= fun q => queue_push FLEX_TRIT_SIZE_243 q b)
                             (Some res_queue) items);
            mret (if decide (items = []) then SC_CCLIENT_NOT_FOUND else SC_OK, queue)
        | _ => undefined
        end
    end;
  life ← cass_statement_free Allocated;
  mret (ret, queue, life).

Definition get_count (states : list bool) (statement : CassStatement) : comp db (status_t * list bool) :=
  res ← on_db (fun d => cass_session_execute d statement);
  mret (match res with
        | None => (SC_STORAGE_CASSANDRA_QUERY_FAIL, states)
        | Some [] => (SC_CCLIENT_NOT_FOUND, states)
        | Some (row :: _) =>
            match cass_value_get_int64 (cass_row_get_column row 0) with
            | None => (SC_STORAGE_CASSANDRA_QUERY_FAIL, states)
            | Some count => (SC_OK, states ++ [count >? 0])
            end
        end).

Fixpoint push_rows (column_name : cstr) (ret : status_t) (res_queue : list trits)
    (rows : list (list (cstr * cass_value))) : option (status_t * list trits) :=
  match rows with
  | [] => Some (ret, res_queue)
  | row :: r =>
      match cass_value_get_bytes (cass_row_get_column_by_name row column_name) with
      | None => Some (SC_STORAGE_CASSANDRA_QUERY_FAIL, res_queue)
      | Some buf => q ← queue_push FLEX_TRIT_SIZE_243 res_queue buf; push_rows column_name SC_OK q r
      end
  end.

Definition push_columns_into_queue (column_name : cstr) (res_queue : list trits)
    (statement : CassStatement) : comp db (status_t * list trits) :=
  res ← on_db (fun d => cass_session_execute d statement);
  match res with
  | None => mret (SC_STORAGE_CASSANDRA_QUERY_FAIL, res_queue)
  | Some rows => check (push_rows column_name SC_CCLIENT_NOT_FOUND res_queue rows)
  end.

Definition get_trytes (res_queue : list trits) (statement : CassStatement)
  : comp db (status_t * list trits) :=
  res ← on_db (fun d => cass_session_execute d statement);
  match res with
  | None => mret (SC_STORAGE_CASSANDRA_QUERY_FAIL, res_queue)
  | Some [] => mret (SC_CCLIENT_NOT_FOUND, res_queue)
  | Some (row :: _) =>
      match cass_value_get_bytes (cass_row_get_column_by_name row (lit "trytes")) with
      | None => mret (SC_STORAGE_CASSANDRA_QUERY_FAIL, res_queue)
      | Some buf => q ← check (queue_push FLEX_TRIT_SIZE_8019 res_queue buf); mret (SC_OK, q)
      end
  end.

Definition by_hash (hash : list Z) : list (cass_param * option cass_value) :=
  [(ByName (lit "hash"), CassBytes <$> bytes_at hash 0 NUM_TRYTES_HASH)].

Definition get_inclusion_status_from_transaction_table (res : list bool) (hash : list Z)
  : comp db (status_t * list bool) :=
  with_statement SELECT_COUNT (by_hash hash) (SC_STORAGE_CASSANDRA_QUERY_FAIL, res) (borrowed (get_count res)).

Definition get_approvee_from_transaction_table (res_queue : list trits) (hash : list Z)
  : comp db (status_t * list trits) :=
  with_statement SELECT_APPROVEES (by_hash hash) (SC_STORAGE_CASSANDRA_QUERY_FAIL, res_queue)
    (push_collection_into_queue (lit "approvees") res_queue).

Definition get_hash_from_transaction_table (res_queue : list trits) (where_column : cstr)
    (where_value : list Z) (len : Z) : comp db (status_t * list trits) :=
  query ← check (make_query (Some SELECT_HASH_HEAD) (Some where_column) (Some SELECT_HASH_TAIL)).2;
  with_statement query [(ByName where_column, CassBytes <$> bytes_at where_value 0 len)]
    (SC_STORAGE_CASSANDRA_QUERY_FAIL, res_queue) (borrowed (push_columns_into_queue (lit "hash") res_queue)).

Definition get_trytes_from_transaction_table (res_trytes : list trits) (hash : list Z)
  : comp db (status_t * list trits) :=
  with_statement SELECT_TRYTES (by_hash hash) (SC_STORAGE_CASSANDRA_QUERY_FAIL, res_trytes)
    (borrowed (get_trytes res_trytes)).

Definition db_permanode_insert_transaction (hash trytes : option (list Z)) : comp db status_t :=
  ret ← insert_transaction hash trytes;
  if negb (ret =? SC_OK) then mret SC_STORAGE_CASSANDRA_QUERY_FAIL else
  ret ← insert_approvee (drop (Z.to_nat TRUNK_OFFSET) <$> trytes) hash;
  if negb (ret =? SC_OK) then mret SC_STORAGE_CASSANDRA_QUERY_FAIL else
  ret ← insert_approvee (drop (Z.to_nat BRANCH_OFFSET) <$> trytes) hash;
  if negb (ret =? SC_OK) then mret SC_STORAGE_CASSANDRA_QUERY_FAIL else mret ret.

(** The public queries refuse NULL for the service and their arguments; the
    queue is an object here, so that only the value can be NULL. *)
Definition not_null {A B} (arg : option A) (none : B) (f : A -> comp db (status_t * B))
  : comp db (status_t * B) :=
  match arg with None => mret (SC_NULL, none) | Some a => f a end.

Definition db_get_transactions_by_bundle (res : list trits) (bundle : option (list Z))
  : comp db (status_t * list trits) :=
  not_null bundle res (fun b =>
    get_hash_from_transaction_table res (lit "bundle") b NUM_TRYTES_BUNDLE).

Definition db_get_transactions_by_address (res : list trits) (address : option (list Z))
  : comp db (status_t * list trits) :=
  not_null address res (fun a =>
    get_hash_from_transaction_table res (lit "address") a NUM_TRYTES_ADDRESS).

Definition db_get_transactions_by_tag (res : list trits) (tag : option (list Z))
  : comp db (status_t * list trits) :=
  not_null tag res (fun t =>
    get_hash_from_transaction_table res (lit "tag") t NUM_TRYTES_OBSOLETE_TAG).

Definition db_get_approvee (res : list trits) (hash : option (list Z))
  : comp db (status_t * list trits) :=
  not_null hash res (get_approvee_from_transaction_table res).

Definition db_get_trytes (res : list trits) (hash : option (list Z))
  : comp db (status_t * list trits) :=
  not_null hash res (get_trytes_from_transaction_table res).

(** [CDL_FOREACH] with a call on each element, until one fails. *)
Fixpoint for_each {A} (f : A -> list Z -> comp db (status_t * A)) (res : A) (l : list (list Z))
  : comp db (status_t * A) :=
  match l with
  | [] => mret (SC_OK, res)
  | x :: r =>
      '(ret, res) ← f res x;
      if negb (ret =? SC_OK) then mret (ret, res) else for_each f res r
  end.

Definition db_client_find_transactions (req : find_transactions_req_t) (res : list trits)
  : comp db (status_t * list trits) :=
  '(ret, res) ← for_each (fun q x => db_get_transactions_by_bundle q (Some x)) res (find_bundles req);
  if negb (ret =? SC_OK) then mret (ret, res) else
  '(ret, res) ← for_each (fun q x => db_get_transactions_by_address q (Some x)) res (find_addresses req);
  if negb (ret =? SC_OK) then mret (ret, res) else
  '(ret, res) ← for_each (fun q x => db_get_transactions_by_tag q (Some x)) res (find_tags req);
  if negb (ret =? SC_OK) then mret (ret, res) else
  for_each (fun q x => db_get_approvee q (Some x)) res (find_approvees req).

Definition db_client_get_trytes (hashes : list trits) (res : list trits)
  : comp db (status_t * list trits) :=
  for_each (fun q x => db_get_trytes q (Some x)) res hashes.

Definition db_client_get_inclusion_states (transactions : list trits) (res : list bool)
  : comp db (status_t * list bool) :=
  for_each get_inclusion_status_from_transaction_table res transactions.

(** The loop over the trytes ends at the first that cannot be read, with the
    status unchanged. *)
Fixpoint push_objects (trytes : list trits) (out : list iota_transaction_t) : list iota_transaction_t :=
  match trytes with
  | [] => out
  | t :: r =>
      match deserialize_from_trits t with
      | Some tx => push_objects r (out ++ [tx])
      | None => out
      end
  end.

Definition db_client_get_transaction_objects (tx_hashes : list trits) (out_tx_objs : list iota_transaction_t)
  : comp db (status_t * list iota_transaction_t) :=
  '(ret, out_trytes) ← db_client_get_trytes tx_hashes [];
  mret (ret, if ret =? SC_OK then push_objects out_trytes out_tx_objs else out_tx_objs).

End Operations.

(** The statements that set up the keyspace of the transaction table. *)
Definition transaction_schema (need_truncate : bool) : list cstr :=
  [lit "CREATE TABLE IF NOT EXISTS transaction (hash blob PRIMARY KEY,address blob,bundle blob,tag blob,approvees set<blob>,trytes blob );";
   lit "CREATE INDEX IF NOT EXISTS ON transaction(bundle);";
   lit "CREATE INDEX IF NOT EXISTS ON transaction(address);";
   lit "CREATE INDEX IF NOT EXISTS ON transaction(tag);"] ++
  if need_truncate then [lit "TRUNCATE TABLE " ++ lit "transaction" ++ lit ""] else [].

Theorem permanode_keyspace_schema `{Cassandra db} sv need_truncate ks d :
  db_permanode_keyspace_init (Some sv) need_truncate (Some ks) d =
  run_queries (keyspace_queries ks ++ transaction_schema need_truncate) d.
Proof.
  apply init_keyspace_queries. clear d. intros d. unfold create_transaction_table, transaction_schema.
  do 4 (apply query_then; clear d; intros d).
  destruct need_truncate; [apply truncate_run|reflexivity].
Qed.

(** ** The contract of the table *)

Record tx_row := mkTxRow {
  c_bundle : option (list Z); c_address : option (list Z); c_tag : option (list Z);
  c_trytes : option (list Z); c_approvees : gset (list Z) }.

Definition empty_row : tx_row := mkTxRow None None None None ∅.

Abbreviation tx_map := (@gmap (list Z) list_eq_dec list_countable tx_row) (only parsing).

(** The effect of the two updates: both create the row when it is not there. *)
Definition set_columns (h b a g t : list Z) (m : tx_map) : tx_map :=
  <[h := mkTxRow (Some b) (Some a) (Some g) (Some t) (c_approvees (default empty_row (m !! h)))]> m.

Definition add_approvee (h x : list Z) (m : tx_map) : tx_map :=
  let r := default empty_row (m !! h) in
  <[h := mkTxRow (c_bundle r) (c_address r) (c_tag r) (c_trytes r) ({[x]} ∪ c_approvees r)]> m.

Inductive column := Bundle | Address | Tag.

Definition column_name (c : column) : cstr :=
  match c with Bundle => lit "bundle" | Address => lit "address" | Tag => lit "tag" end.
Definition column_value (c : column) (r : tx_row) : option (list Z) :=
  match c with Bundle => c_bundle r | Address => c_address r | Tag => c_tag r end.

Definition has_value (c : column) (v : list Z) (p : list Z * tx_row) : Prop := column_value c p.2 = Some v.

#[export] Instance has_value_dec c v p : Decision (has_value c v p).
Proof. unfold has_value. apply _. Defined.

Definition hashes_with (c : column) (v : list Z) (m : tx_map) : list (list Z) :=
  (map_to_list (filter (has_value c v) m)).*1.

Definition update_statement (h b a g t : list Z) : CassStatement :=
  mkStatement UPDATE_TRANSACTION
    [(ByName (lit "hash"), CassBytes h); (ByName (lit "bundle"), CassBytes b);
     (ByName (lit "address"), CassBytes a); (ByName (lit "tag"), CassBytes g);
     (ByName (lit "trytes"), CassBytes t)].

Definition approvee_statement (h x : list Z) : CassStatement :=
  mkStatement UPDATE_APPROVEES [(ByIndex 0, CassCollection [x]); (ByIndex 1, CassBytes h)].

Definition hash_statement (query h : list Z) : CassStatement :=
  mkStatement query [(ByName (lit "hash"), CassBytes h)].

Definition column_statement (c : column) (v : list Z) : CassStatement :=
  mkStatement (SELECT_HASH_HEAD ++ column_name c ++ SELECT_HASH_TAIL)
    [(ByName (column_name c), CassBytes v)].

(** A column of type [blob] or [set<blob>]; an empty set is stored as null. *)
Definition blob (v : option (list Z)) : cass_value := match v with Some b => CassBytes b | None => CassNull end.
Definition blob_set (s : gset (list Z)) : cass_value :=
  match elements s with [] => CassNull | l => CassCollection l end.

(** [r] and [d'] are the result and the state after a statement that turns the
    table [m] into [m']; after an error it may or may not have done so. *)
Definition updated {A} (r : option A) (m m' after : tx_map) : Prop :=
  after = m' \/ (r = None /\ after = m).

Class TransactionTable (db : Type) {cass : Cassandra db} := {
  tx_table : db -> tx_map;
  law_tx_update : forall d h b a g t r d',
    cass_session_execute d (update_statement h b a g t) = (r, d') ->
    updated r (tx_table d) (set_columns h b a g t (tx_table d)) (tx_table d');
  law_tx_approvee : forall d h x r d',
    cass_session_execute d (approvee_statement h x) = (r, d') ->
    updated r (tx_table d) (add_approvee h x (tx_table d)) (tx_table d');
  law_tx_count : forall d h r d',
    cass_session_execute d (hash_statement SELECT_COUNT h) = (r, d') -> tx_table d' = tx_table d /\
    forall rows, r = Some rows ->
      rows = [[(lit "count", CassInt64 (if tx_table d !! h then 1 else 0))]];
  law_tx_trytes : forall d h r d',
    cass_session_execute d (hash_statement SELECT_TRYTES h) = (r, d') -> tx_table d' = tx_table d /\
    forall rows, r = Some rows ->
      rows = match tx_table d !! h with
             | Some row => [[(lit "trytes", blob (c_trytes row))]] | None => [] end;
  law_tx_approvees : forall d h r d',
    cass_session_execute d (hash_statement SELECT_APPROVEES h) = (r, d') -> tx_table d' = tx_table d /\
    forall rows, r = Some rows ->
      rows = match tx_table d !! h with
             | Some row => [[(lit "approvees", blob_set (c_approvees row))]] | None => [] end;
  law_tx_column : forall d c v r d',
    cass_session_execute d (column_statement c v) = (r, d') -> tx_table d' = tx_table d /\
    forall rows, r = Some rows -> exists l, l ≡ₚ hashes_with c v (tx_table d) /\
      rows = (fun h => [(lit "hash", CassBytes h)]) <$> take 100 l;
  law_tx_prepare : forall d q, tx_table (cass_session_prepare d q).2 = tx_table d
}.

(** The fields of a serialized transaction. *)
Definition field (t : list Z) (off n : Z) : list Z := take (Z.to_nat n) (drop (Z.to_nat off) t).
Definition bundle_of t := field t BUNDLE_OFFSET NUM_TRYTES_BUNDLE.
Definition address_of t := field t ADDRESS_OFFSET NUM_TRYTES_ADDRESS.
Definition tag_of t := field t OBSOLETE_TAG_OFFSET NUM_TRYTES_OBSOLETE_TAG.
Definition trunk_of t := field t TRUNK_OFFSET NUM_TRYTES_HASH.
Definition branch_of t := field t BRANCH_OFFSET NUM_TRYTES_HASH.

Definition HASH_SIZE : nat := Z.to_nat NUM_TRYTES_HASH.
Definition TXN_SIZE : nat := Z.to_nat NUM_TRYTES_SERIALIZED_TRANSACTION.

(** The columns of a stored transaction are the fields of its trytes. *)
Definition columns_ok (m : tx_map) : Prop := map_Forall (fun h r =>
  forall t, c_trytes r = Some t ->
    c_bundle r = Some (bundle_of t) /\ c_address r = Some (address_of t) /\ c_tag r = Some (tag_of t)) m.

(** Keys and approvees are hashes. *)
Definition sized (m : tx_map) : Prop := map_Forall (fun h r =>
  length h = HASH_SIZE /\ forall x, x ∈ c_approvees r -> length x = HASH_SIZE) m.

Definition wf_tx (m : tx_map) : Prop := columns_ok m /\ sized m.

(** Every stored transaction is an approvee of its trunk and its branch. *)
Definition approves (m : tx_map) (parent h : list Z) : Prop :=
  exists r, m !! parent = Some r /\ h ∈ c_approvees r.

Definition linked (m : tx_map) : Prop := forall h r t,
  m !! h = Some r -> c_trytes r = Some t -> approves m (trunk_of t) h /\ approves m (branch_of t) h.


(** ** Lemmas on the table *)

Definition same_columns (r r' : tx_row) : Prop :=
  c_bundle r' = c_bundle r /\ c_address r' = c_address r /\ c_tag r' = c_tag r /\ c_trytes r' = c_trytes r.

Lemma add_approvee_row m p x k r' :
  add_approvee p x m !! k = Some r' ->
  same_columns (default empty_row (m !! k)) r' /\
  (m !! k = Some r' \/ k = p /\ c_approvees r' = {[x]} ∪ c_approvees (default empty_row (m !! k))).
Proof.
  unfold add_approvee. destruct (decide (k = p)) as [->|Hk].
  - rewrite lookup_insert_eq. intros [= <-]. split; [done|]. by right.
  - rewrite lookup_insert_ne by done. intros Hr. rewrite Hr. split; [done|]. by left.
Qed.

Lemma add_approvee_some m p x k : is_Some (m !! k) -> is_Some (add_approvee p x m !! k).
Proof. intros H. apply lookup_insert_is_Some'. by right. Qed.

Lemma add_approvee_self m p x : approves (add_approvee p x m) p x.
Proof.
  unfold approves, add_approvee. eexists. split; [apply lookup_insert_eq|]. cbn. set_solver.
Qed.

Lemma add_approvee_mono m p x a b : approves m a b -> approves (add_approvee p x m) a b.
Proof.
  intros (r & Hr & Hb). unfold approves, add_approvee. destruct (decide (a = p)) as [->|Ha].
  - eexists. split; [apply lookup_insert_eq|]. rewrite Hr. cbn. set_solver.
  - exists r. by rewrite lookup_insert_ne.
Qed.

Lemma set_columns_mono m h b a g t x y : approves m x y -> approves (set_columns h b a g t m) x y.
Proof.
  intros (r & Hr & Hy). unfold approves, set_columns. destruct (decide (x = h)) as [->|Hx].
  - eexists. split; [apply lookup_insert_eq|]. by rewrite Hr.
  - exists r. by rewrite lookup_insert_ne.
Qed.

Lemma add_approvee_columns_ok m p x : columns_ok m -> columns_ok (add_approvee p x m).
Proof.
  intros Hm k r' [(E1 & E2 & E3 & E4) _]%add_approvee_row t Ht. rewrite E1, E2, E3.
  rewrite E4 in Ht. destruct (m !! k) as [r|] eqn:Hk; [|done]. by apply (Hm k r Hk).
Qed.

Lemma set_columns_ok m h t :
  columns_ok m -> columns_ok (set_columns h (bundle_of t) (address_of t) (tag_of t) t m).
Proof.
  intros Hm. apply map_Forall_insert_2; [|done]. cbn. by intros t' [= <-].
Qed.

Lemma row_sized m h : sized m -> forall x, x ∈ c_approvees (default empty_row (m !! h)) -> length x = HASH_SIZE.
Proof.
  intros Hm x. destruct (m !! h) as [r|] eqn:Hr; cbn; [by apply (Hm h r Hr)|]. by intros ?%elem_of_empty.
Qed.

Lemma add_approvee_wf m p x :
  wf_tx m -> length p = HASH_SIZE -> length x = HASH_SIZE -> wf_tx (add_approvee p x m).
Proof.
  intros [Hc Hs] Hp Hx. split; [by apply add_approvee_columns_ok|].
  apply map_Forall_insert_2; [|done]. split; [done|]. cbn. intros y [->%elem_of_singleton|Hy]%elem_of_union; [done|].
  by eapply row_sized.
Qed.

Lemma set_columns_wf m h t : wf_tx m -> length h = HASH_SIZE ->
  wf_tx (set_columns h (bundle_of t) (address_of t) (tag_of t) t m).
Proof.
  intros [Hc Hs] Hh. split; [by apply set_columns_ok|].
  apply map_Forall_insert_2; [|done]. split; [done|]. by apply row_sized.
Qed.

Lemma length_field t off n : 0 <= off -> 0 <= n -> off + n <= Z.of_nat (length t) ->
  length (field t off n) = Z.to_nat n.
Proof. intros. unfold field. rewrite length_take, length_drop. lia. Qed.

(** What storing a transaction does to the table. *)
Definition stored (h t : list Z) (m : tx_map) : tx_map :=
  add_approvee (branch_of t) h (add_approvee (trunk_of t) h
    (set_columns h (bundle_of t) (address_of t) (tag_of t) t m)).

Lemma stored_approves h t m :
  approves (stored h t m) (trunk_of t) h /\ approves (stored h t m) (branch_of t) h.
Proof. split; [apply add_approvee_mono|]; apply add_approvee_self. Qed.

Lemma stored_mono h t m a b : approves m a b -> approves (stored h t m) a b.
Proof. intros H. by apply add_approvee_mono, add_approvee_mono, set_columns_mono. Qed.

Lemma stored_row h t m k r :
  stored h t m !! k = Some r ->
  same_columns (default empty_row (set_columns h (bundle_of t) (address_of t) (tag_of t) t m !! k)) r.
Proof.
  intros [(E1 & E2 & E3 & E4) _]%add_approvee_row. unfold same_columns. rewrite E1, E2, E3, E4.
  destruct (add_approvee (trunk_of t) h _ !! k) as [r1|] eqn:H1; cbn.
  - by apply add_approvee_row in H1 as [? _].
  - revert H1. unfold add_approvee. destruct (decide (k = trunk_of t)) as [->|Hk];
      [by rewrite lookup_insert_eq|]. rewrite lookup_insert_ne by done. by intros ->.
Qed.

(** Columns of the row itself. *)
Lemma stored_self h t m : exists r, stored h t m !! h = Some r /\
  c_bundle r = Some (bundle_of t) /\ c_address r = Some (address_of t) /\ c_tag r = Some (tag_of t) /\
  c_trytes r = Some t.
Proof.
  assert (is_Some (stored h t m !! h)) as [r Hr].
  { by apply add_approvee_some, add_approvee_some, lookup_insert_is_Some'; left. }
  exists r. split; [done|]. apply stored_row in Hr as (E1 & E2 & E3 & E4).
  unfold set_columns in *. rewrite lookup_insert_eq in *. rewrite E1, E2, E3, E4.
  exact (conj eq_refl (conj eq_refl (conj eq_refl eq_refl))).
Qed.

Lemma stored_linked h t m : linked m -> linked (stored h t m).
Proof.
  intros Hm k r t' Hk Ht. destruct (stored_row _ _ _ _ _ Hk) as (_ & _ & _ & E4). rewrite E4 in Ht.
  destruct (decide (k = h)) as [->|Hne]; unfold set_columns in Ht.
  - rewrite lookup_insert_eq in Ht. injection Ht as <-. apply stored_approves.
  - rewrite lookup_insert_ne in Ht by done. destruct (m !! k) as [r0|] eqn:H0; [|done].
    destruct (Hm k r0 t' H0 Ht) as [H1 H2]. split; apply stored_mono; assumption.
Qed.

(** ** The functions and the table *)
Section Properties.
Context {db : Type} {cass : Cassandra db} {tab : TransactionTable db}.
Implicit Types d : db.

Definition readable (vs : list (cass_param * cass_value)) : list (cass_param * option cass_value) :=
  (fun pv => (pv.1, Some pv.2)) <$> vs.

Lemma bind_reads_readable st vs : bind_reads st (readable vs) = Some (bind_all st vs).
Proof.
  revert st. induction vs as [|[p v] vs IH]; intros st; [done|]. cbn.
  destruct (cass_statement_bind st p v); [apply IH|done].
Qed.

Lemma borrowed_freed {A} (k : CassStatement -> comp db A) st d :
  ('(res, life) ← borrowed k st; _ ← cass_statement_free life; mret res) d = k st d.
Proof. unfold borrowed, mbind, comp_mbind. by destruct (k st d) as [[r d']|]. Qed.

(** A statement is executed in a state with the same table, or it failed before. *)
Lemma with_statement_cases {A} query vs (failed : A) k d :
  (exists d1, tx_table d1 = tx_table d /\
     with_statement query (readable vs) failed k d =
       ('(res, life) ← k (mkStatement query vs); _ ← cass_statement_free life; mret res) d1) \/
  (exists d1, tx_table d1 = tx_table d /\ with_statement query (readable vs) failed k d = Some (failed, d1) /\
     ~ Available (db := db)).
Proof.
  unfold with_statement, prepare_query, on_db. comp_simpl.
  pose proof (law_tx_prepare d query) as Hp.
  pose proof (fun Ha => prepare_available Ha d query) as Hok.
  destruct (cass_session_prepare d query) as [[] d1]; cbn [negb fst snd] in *.
  - rewrite bind_reads_readable. destruct (bind_all _ vs) as [st|] eqn:Eb.
    + apply bind_all_bound in Eb as ->. left. by exists d1.
    + right. exists d1. split; [done|]. split; [done|]. intros Ha.
      by rewrite (bind_all_available _ _ Ha) in Eb.
  - right. exists d1. split; [done|]. split; [done|]. intros Ha. by specialize (Hok Ha).
Qed.

(** An update that returns: done with [SC_OK], done or not done with an error;
    [SC_OK] when the database answers. *)
Definition update_outcome (f : tx_map -> tx_map) (d : db) (o : option (status_t * db)) : Prop :=
  exists ret d', o = Some (ret, d') /\
    (ret = SC_OK /\ tx_table d' = f (tx_table d) \/
     ret ≠ SC_OK /\ (tx_table d' = tx_table d \/ tx_table d' = f (tx_table d))) /\
    (Available (db := db) -> ret = SC_OK).

Lemma execute_update_run (query : cstr) (vs : list (cass_param * cass_value)) d (f : tx_map -> tx_map) :
  (forall d r d', cass_session_execute d (mkStatement query vs) = (r, d') ->
     updated r (tx_table d) (f (tx_table d)) (tx_table d')) ->
  update_outcome f d (execute_update query (readable vs) d).
Proof.
  intros Hf. unfold execute_update, update_outcome.
  edestruct (with_statement_cases query vs SC_STORAGE_CASSANDRA_QUERY_FAIL)
    as [(d1 & Ht & ->)|(d1 & Ht & E & Hn)].
  - rewrite borrowed_freed. comp_simpl. rewrite execute_statement_run.
    destruct (cass_session_execute d1 (mkStatement query vs)) as [r d2] eqn:E. cbn [fst snd].
    pose proof (fun Ha => execute_available Ha d1 (mkStatement query vs)) as Hs. rewrite E in Hs.
    specialize (Hf _ _ _ E). rewrite Ht in Hf. eexists _, d2. split; [done|].
    destruct r; cbn; (split; [destruct Hf as [->|[? ->]]; try done; auto|]); [done|].
    intros Ha. by destruct (Hs Ha).
  - rewrite E. eexists _, d1. split; [done|]. split; [|intros Ha; by destruct (Hn Ha)].
    right. split; [done|]. by left.
Qed.

(** The sequence [ret ← m; if (ret) return error; k] keeps an invariant that the
    update of [m] and [k] keep. *)
Lemma update_then (inv : tx_map -> Prop) f (m : comp db status_t) (k : status_t -> comp db status_t) d
    (P : db -> Prop) :
  update_outcome f d (m d) -> (forall t, inv t -> inv (f t)) -> inv (tx_table d) ->
  (forall d1, tx_table d1 = f (tx_table d) -> inv (tx_table d1) ->
     exists ret d', k SC_OK d1 = Some (ret, d') /\ inv (tx_table d') /\ (ret = SC_OK -> P d') /\
       (Available (db := db) -> ret = SC_OK)) ->
  exists ret d', (ret ← m; if negb (ret =? SC_OK) then mret SC_STORAGE_CASSANDRA_QUERY_FAIL else k ret) d =
      Some (ret, d') /\ inv (tx_table d') /\ (ret = SC_OK -> P d') /\ (Available (db := db) -> ret = SC_OK).
Proof.
  intros (r & d1 & E & Hcases & Ha) Hf Hi Hk. comp_step E.
  destruct Hcases as [[-> Ht]|[Hr Ht]].
  - change (negb (SC_OK =? SC_OK)) with false. cbv iota. apply Hk; [done|]. rewrite Ht. auto.
  - destruct (Z.eqb_spec r SC_OK); [done|]. eexists _, d1. split; [done|].
    split; [destruct Ht as [->| ->]; auto|]. split; [done|]. intros H. by destruct (Hr (Ha H)).
Qed.

Lemma bytes_at_field buf off n :
  0 <= off -> 0 <= n -> off + n <= Z.of_nat (length buf) -> bytes_at buf off n = Some (field buf off n).
Proof. intros. unfold bytes_at, read_at. by rewrite decide_True by lia. Qed.

Lemma field_whole buf n : 0 <= n -> Z.of_nat (length buf) = n -> field buf 0 n = buf.
Proof. intros. unfold field. rewrite drop_0. apply take_ge. lia. Qed.

Lemma insert_transaction_values h t :
  length h = HASH_SIZE -> length t = TXN_SIZE ->
  insert_transaction (Some h) (Some t) = execute_update (db := db) UPDATE_TRANSACTION
    (readable (st_bound (update_statement h (bundle_of t) (address_of t) (tag_of t) t))).
Proof.
  intros Hh Ht. unfold HASH_SIZE, TXN_SIZE in *. unfold insert_transaction.
  rewrite !bytes_at_field by (rewrite ?Hh, ?Ht; done).
  rewrite !field_whole by (rewrite ?Hh, ?Ht; done). reflexivity.
Qed.

Lemma insert_approvee_values p x :
  (HASH_SIZE <= length p)%nat -> length x = HASH_SIZE ->
  insert_approvee (Some p) (Some x) = execute_update (db := db) UPDATE_APPROVEES
    (readable (st_bound (approvee_statement (field p 0 NUM_TRYTES_HASH) x))).
Proof.
  intros Hp Hx. unfold HASH_SIZE in *. unfold insert_approvee.
  rewrite !bytes_at_field by (rewrite ?Hx; unfold NUM_TRYTES_HASH in *; lia).
  rewrite (field_whole x) by (rewrite ?Hx; done). reflexivity.
Qed.

Lemma field_drop t off n : 0 <= off -> field (drop (Z.to_nat off) t) 0 n = field t off n.
Proof. intros. unfold field. by rewrite drop_0. Qed.

Lemma insert_transaction_run h t d :
  length h = HASH_SIZE -> length t = TXN_SIZE ->
  update_outcome (set_columns h (bundle_of t) (address_of t) (tag_of t) t) d
    (insert_transaction (Some h) (Some t) d).
Proof.
  intros Hh Ht. rewrite (insert_transaction_values h t Hh Ht).
  apply execute_update_run. intros. by apply law_tx_update.
Qed.

Lemma insert_approvee_run t off h d :
  length h = HASH_SIZE -> 0 <= off -> off + NUM_TRYTES_HASH <= Z.of_nat (length t) ->
  update_outcome (add_approvee (field t off NUM_TRYTES_HASH) h) d
    (insert_approvee (drop (Z.to_nat off) <$> Some t) (Some h) d).
Proof.
  intros Hh H0 Ht. cbn [fmap option_fmap option_map].
  rewrite insert_approvee_values; [|rewrite length_drop; unfold HASH_SIZE; lia|done].
  rewrite field_drop by done. apply execute_update_run. intros. by apply law_tx_approvee.
Qed.

Lemma permanode_insert_run h t d :
  length h = HASH_SIZE -> length t = TXN_SIZE -> wf_tx (tx_table d) ->
  exists ret d', db_permanode_insert_transaction (Some h) (Some t) d = Some (ret, d') /\
    wf_tx (tx_table d') /\ (ret = SC_OK -> tx_table d' = stored h t (tx_table d)) /\
    (Available (db := db) -> ret = SC_OK).
Proof.
  intros Hh Ht Hc. unfold db_permanode_insert_transaction.
  eapply (update_then _ _ _ (fun _ => _)); [by apply insert_transaction_run|intros; by apply set_columns_wf|done|].
  intros d1 H1 Hc1.
  eapply (update_then _ _ _ (fun _ => _)); [by apply insert_approvee_run; rewrite ?Ht|intros; by apply add_approvee_wf; rewrite ?length_field by (rewrite ?Ht; done)|done|].
  intros d2 H2 Hc2.
  eapply (update_then _ _ _ mret);
    [by apply insert_approvee_run; rewrite ?Ht|intros; by apply add_approvee_wf; rewrite ?length_field by (rewrite ?Ht; done)|done|].
  intros d3 H3 Hc3. exists SC_OK, d3. split; [done|]. split; [done|]. split; [|done].
  intros _. rewrite H3, H2, H1. reflexivity.
Qed.

(** C13 Inserting a transaction into the permanent storage, whatever the database
    answers: the function returns, the table stays well formed (the columns of
    every stored transaction are the fields of its trytes), and when it returns [SC_OK] the table is the one
    with the transaction stored, in which still every stored transaction is an
    approvee of its trunk and its branch. *)
Theorem permanode_insert_invariant h t d :
  length h = HASH_SIZE -> length t = TXN_SIZE -> wf_tx (tx_table d) -> linked (tx_table d) ->
  exists ret d', db_permanode_insert_transaction (Some h) (Some t) d = Some (ret, d') /\
    wf_tx (tx_table d') /\
    (ret = SC_OK -> tx_table d' = stored h t (tx_table d) /\ linked (tx_table d')).
Proof.
  intros Hh Ht Hc Hl. destruct (permanode_insert_run h t d Hh Ht Hc) as (ret & d' & E & Hc' & Hs & _).
  exists ret, d'. split; [done|]. split; [done|]. intros Hr. rewrite (Hs Hr).
  split; [done|]. by apply stored_linked.
Qed.

(** *** Queries on a database that answers

    The sizes of the queues are those of the encoding with three trits per
    byte, for which the casts between trytes and trits are right. *)
Context (avail : Available (db := db)).

Lemma with_statement_ok {A} query vs (failed : A) k d :
  exists d1, tx_table d1 = tx_table d /\
    with_statement query (readable vs) failed (borrowed k) d = k (mkStatement query vs) d1.
Proof.
  destruct (with_statement_cases query vs failed (borrowed k) d) as [(d1 & H & E)|(? & _ & _ & H)]; [|by destruct H].
  exists d1. split; [done|]. by rewrite E, borrowed_freed.
Qed.

Lemma by_hash_readable h : length h = HASH_SIZE -> by_hash h = readable [(ByName (lit "hash"), CassBytes h)].
Proof.
  intros Hh. unfold HASH_SIZE in *. unfold by_hash.
  rewrite bytes_at_field by (rewrite ?Hh; done). by rewrite field_whole by (rewrite ?Hh; done).
Qed.

(** What a statement on one hash gives. *)
Lemma execute_rows (st : CassStatement) d d1 (m : tx_map) (rows0 : list (list (cstr * cass_value))) :
  tx_table d1 = m -> tx_table d = m ->
  (forall r d', cass_session_execute d1 st = (r, d') -> tx_table d' = tx_table d1 /\
     forall rows, r = Some rows -> rows = rows0) ->
  exists d', cass_session_execute d1 st = (Some rows0, d') /\ tx_table d' = m.
Proof.
  intros Hd1 Hd Hl. destruct (execute_available avail d1 st) as [rows Hr].
  destruct (cass_session_execute d1 st) as [r d'] eqn:E. cbn in Hr. subst r.
  destruct (Hl _ _ eq_refl) as [Ht Hrows]. exists d'. rewrite (Hrows rows eq_refl). by rewrite Ht.
Qed.

Lemma get_trytes_run q h d : length h = HASH_SIZE ->
  exists d', tx_table d' = tx_table d /\
  db_get_trytes TXN_SIZE q (Some h) d =
    match tx_table d !! h with
    | None => Some ((SC_CCLIENT_NOT_FOUND, q), d')
    | Some r =>
        match c_trytes r with
        | None => Some ((SC_STORAGE_CASSANDRA_QUERY_FAIL, q), d')
        | Some t => match queue_push TXN_SIZE q t with
                    | Some q' => Some ((SC_OK, q'), d') | None => None end
        end
    end.
Proof.
  intros Hh. unfold db_get_trytes, not_null, get_trytes_from_transaction_table.
  rewrite by_hash_readable by done. edestruct @with_statement_ok as (d1 & Ht & ->).
  destruct (execute_rows (hash_statement SELECT_TRYTES h) d d1 (tx_table d)
    match tx_table d !! h with Some row => [[(lit "trytes", blob (c_trytes row))]] | None => [] end)
    as (d' & E & Hd'); [done|done| |].
  { intros r d' E. rewrite <- Ht. exact (law_tx_trytes _ _ _ _ E). }
  exists d'. split; [done|]. unfold get_trytes, on_db. unfold hash_statement in E. comp_simpl.
  rewrite E. destruct (tx_table d !! h) as [r|]; [|done].
  destruct (c_trytes r) as [t|]; [|done]. cbn [blob].
  change (cass_value_get_bytes (cass_row_get_column_by_name [(lit "trytes", CassBytes t)] (lit "trytes")))
    with (Some t).
  cbv beta iota. by destruct (queue_push TXN_SIZE q t).
Qed.

Lemma get_inclusion_run q h d : length h = HASH_SIZE ->
  exists d', tx_table d' = tx_table d /\
  get_inclusion_status_from_transaction_table q h d =
    Some ((SC_OK, q ++ [bool_decide (is_Some (tx_table d !! h))]), d').
Proof.
  intros Hh. unfold get_inclusion_status_from_transaction_table.
  rewrite by_hash_readable by done. edestruct @with_statement_ok as (d1 & Ht & ->).
  destruct (execute_rows (hash_statement SELECT_COUNT h) d d1 (tx_table d)
    [[(lit "count", CassInt64 (if tx_table d !! h then 1 else 0))]]) as (d' & E & Hd'); [done|done| |].
  { intros r d' E. rewrite <- Ht. exact (law_tx_count _ _ _ _ E). }
  exists d'. split; [done|]. unfold get_count, on_db. unfold hash_statement in E. comp_simpl.
  rewrite E. by destruct (tx_table d !! h).
Qed.

Lemma push_all q (l : list (list Z)) : Forall (fun x => length x = HASH_SIZE) l ->
  foldl (fun q b => q ≫= fun q => queue_push HASH_SIZE q b) (Some q) l = Some (q ++ l).
Proof.
  revert q. induction l as [|x l IH]; intros q Hl; [by rewrite app_nil_r|].
  apply Forall_cons in Hl as [Hx Hl]. cbn [foldl mbind option_bind].
  unfold queue_push at 2. rewrite decide_True by lia. rewrite take_ge by lia.
  rewrite IH by done. by rewrite <- app_assoc.
Qed.

(** What the reader of the approvees does. *)
Lemma push_collection_run q h d : wf_tx (tx_table d) ->
  exists d', tx_table d' = tx_table d /\
  push_collection_into_queue HASH_SIZE (lit "approvees") q (hash_statement SELECT_APPROVEES h) d =
    match tx_table d !! h with
    | None => Some ((SC_CCLIENT_NOT_FOUND, q, Released), d')
    | Some r => if decide (elements (c_approvees r) = []) then None
                else Some ((SC_OK, q ++ elements (c_approvees r), Released), d')
    end.
Proof.
  intros [_ Hs].
  destruct (execute_rows (hash_statement SELECT_APPROVEES h) d d (tx_table d)
    match tx_table d !! h with Some row => [[(lit "approvees", blob_set (c_approvees row))]] | None => [] end)
    as (d' & E & Hd'); [done|done|exact (law_tx_approvees d h)|].
  exists d'. split; [done|]. unfold push_collection_into_queue, on_db. unfold hash_statement in *. comp_simpl.
  rewrite E. destruct (tx_table d !! h) as [r|] eqn:Hr; [|done].
  assert (forall v, cass_row_get_column_by_name [(lit "approvees", v)] (lit "approvees") = Some v) as ->
    by reflexivity.
  unfold blob_set. destruct (elements (c_approvees r)) as [|x l] eqn:El; [done|].
  rewrite push_all; [done|]. rewrite <- El. apply Forall_forall. intros y Hy.
  apply (Hs h r Hr). by apply elem_of_elements.
Qed.

(** Whatever the database answers, a statement for approvees is freed by the reader and again at the
    end of [get_approvee_from_transaction_table]. *)
Lemma approvee_lookup_freed_twice n q h d : length h = HASH_SIZE -> db_get_approvee n q (Some h) d = None.
Proof.
  intros Hh. unfold db_get_approvee, not_null, get_approvee_from_transaction_table.
  rewrite by_hash_readable by done.
  destruct (with_statement_cases SELECT_APPROVEES [(ByName (lit "hash"), CassBytes h)]
    (SC_STORAGE_CASSANDRA_QUERY_FAIL, q) (push_collection_into_queue n (lit "approvees") q) d)
    as [(d1 & _ & ->)|(_ & _ & _ & H)]; [|by destruct H].
  unfold push_collection_into_queue, cass_statement_free, mbind, comp_mbind, mret, comp_mret, check, undefined.
  repeat case_match; simplify_eq; done.
Qed.

Definition column_size (c : column) : Z :=
  match c with
  | Bundle => NUM_TRYTES_BUNDLE | Address => NUM_TRYTES_ADDRESS | Tag => NUM_TRYTES_OBSOLETE_TAG
  end.

(** The three queries by the column they look at. *)
Definition get_by_column (c : column) : list trits -> option (list Z) -> comp db (status_t * list trits) :=
  match c with
  | Bundle => db_get_transactions_by_bundle HASH_SIZE
  | Address => db_get_transactions_by_address HASH_SIZE
  | Tag => db_get_transactions_by_tag HASH_SIZE
  end.

Lemma push_rows_all ret q l : Forall (fun x => length x = HASH_SIZE) l ->
  push_rows HASH_SIZE (lit "hash") ret q ((fun h => [(lit "hash", CassBytes h)]) <$> l) =
  Some (match l with [] => ret | _ => SC_OK end, q ++ l).
Proof.
  revert ret q. induction l as [|x l IH]; intros ret q Hl; [by rewrite app_nil_r|].
  apply Forall_cons in Hl as [Hx Hl]. rewrite fmap_cons. cbn [push_rows].
  change (cass_value_get_bytes (cass_row_get_column_by_name [(lit "hash", CassBytes x)] (lit "hash")))
    with (Some x). unfold queue_push. rewrite decide_True by lia. cbn [mbind option_bind].
  rewrite take_ge, IH by (done || lia). rewrite <- app_assoc. by destruct l.
Qed.

Lemma elem_of_hashes_with c v (m : tx_map) h :
  h ∈ hashes_with c v m <-> exists r, m !! h = Some r /\ column_value c r = Some v.
Proof.
  unfold hashes_with. rewrite list_elem_of_fmap. split.
  - intros ([h' r] & -> & Hr). apply elem_of_map_to_list, map_lookup_filter_Some in Hr. by exists r.
  - intros (r & Hr & Hv). exists (h, r). split; [done|].
    by apply elem_of_map_to_list, map_lookup_filter_Some.
Qed.

(** At most a hundred of the hashes with the value are appended to the queue. *)
Lemma get_by_column_run c q v d :
  Z.of_nat (length v) = column_size c -> wf_tx (tx_table d) ->
  exists l d', l ≡ₚ hashes_with c v (tx_table d) /\ tx_table d' = tx_table d /\
  get_by_column c q (Some v) d =
    Some ((match l with [] => SC_CCLIENT_NOT_FOUND | _ => SC_OK end, q ++ take 100 l), d').
Proof.
  intros Hv [_ Hs].
  assert (get_by_column c q (Some v) = with_statement (SELECT_HASH_HEAD ++ column_name c ++ SELECT_HASH_TAIL)
    (readable [(ByName (column_name c), CassBytes v)]) (SC_STORAGE_CASSANDRA_QUERY_FAIL, q)
    (borrowed (push_columns_into_queue HASH_SIZE (lit "hash") q))) as ->.
  { destruct c; cbn [get_by_column]; unfold db_get_transactions_by_bundle, db_get_transactions_by_address,
      db_get_transactions_by_tag, not_null, get_hash_from_transaction_table; cbn [column_size] in Hv;
      (rewrite bytes_at_field by (rewrite ?Hv; (reflexivity || discriminate)));
      (rewrite field_whole by (done || discriminate)); reflexivity. }
  edestruct @with_statement_ok as (d1 & Ht & ->).
  destruct (execute_available avail d1 (column_statement c v)) as [rows Hr].
  destruct (cass_session_execute d1 (column_statement c v)) as [r d'] eqn:E. cbn in Hr. subst r.
  destruct (law_tx_column _ _ _ _ _ E) as [Ht' Hrows]. destruct (Hrows rows eq_refl) as (l & Hl & ->).
  rewrite Ht in Hl. exists l, d'. split; [done|]. split; [by rewrite Ht'|].
  unfold push_columns_into_queue, on_db. unfold column_statement in E. comp_simpl. rewrite E.
  rewrite push_rows_all; [by destruct l|]. apply Forall_take. rewrite Hl. apply Forall_forall.
  intros h (r & Hr & _)%elem_of_hashes_with. exact (proj1 (Hs h r Hr)).
Qed.

Lemma queue_push_whole n q buf : length buf = n -> queue_push n q buf = Some (q ++ [buf]).
Proof. intros H. unfold queue_push. by rewrite decide_True, take_ge by lia. Qed.

Definition column_field (c : column) (t : list Z) : list Z :=
  match c with Bundle => bundle_of t | Address => address_of t | Tag => tag_of t end.

(** C14 What is inserted into the permanent storage is found again: after the
    insertion of a transaction its trytes are returned under its hash, its
    inclusion state is true, and a query for its bundle, its address or its tag
    finds it when no more than a hundred transactions share that value.  The
    rows of its trunk and of its branch name it as approvee, and that is what
    the driver returns for them, although [db_get_approvee] then frees the statement a second
    time and so is undefined. *)
Theorem permanode_roundtrip h t d :
  length h = HASH_SIZE -> length t = TXN_SIZE -> wf_tx (tx_table d) ->
  exists d', db_permanode_insert_transaction (Some h) (Some t) d = Some (SC_OK, d') /\
  (exists d2, db_client_get_trytes TXN_SIZE [h] [] d' = Some ((SC_OK, [t]), d2)) /\
  (exists d2, db_client_get_inclusion_states [h] [] d' = Some ((SC_OK, [true]), d2)) /\
  (forall p, p = trunk_of t \/ p = branch_of t ->
     approves (tx_table d') p h /\
     (exists q d2, push_collection_into_queue HASH_SIZE (lit "approvees") [] (hash_statement SELECT_APPROVEES p) d' =
        Some ((SC_OK, q, Released), d2) /\ h ∈ q) /\
     db_get_approvee HASH_SIZE [] (Some p) d' = None) /\
  (forall c, (length (hashes_with c (column_field c t) (tx_table d')) <= 100)%nat ->
     exists q d2, get_by_column c [] (Some (column_field c t)) d' = Some ((SC_OK, q), d2) /\ h ∈ q).
Proof.
  intros Hh Ht Hwf. destruct (permanode_insert_run h t d Hh Ht Hwf) as (ret & d' & E & Hwf' & Hs & Ha).
  rewrite (Ha avail) in E. specialize (Hs (Ha avail)). exists d'. split; [done|].
  destruct (stored_self h t (tx_table d)) as (r & Hr & Hb & Haddr & Hg & Htr). rewrite <- Hs in Hr.
  split; [|split; [|split]].
  - destruct (get_trytes_run [] h d' Hh) as (d2 & _ & E2). rewrite Hr, Htr, (queue_push_whole _ _ _ Ht) in E2.
    exists d2. unfold db_client_get_trytes. cbn [for_each]. comp_step E2. reflexivity.
  - destruct (get_inclusion_run [] h d' Hh) as (d2 & _ & E2). rewrite Hr in E2.
    exists d2. unfold db_client_get_inclusion_states. cbn [for_each]. comp_step E2. reflexivity.
  - intros p Hp. assert (approves (tx_table d') p h) as (rp & Hrp & Hin).
    { rewrite Hs. destruct (stored_approves h t (tx_table d)) as [H1 H2]. destruct Hp as [->| ->]; assumption. }
    pose proof (proj1 (proj2 Hwf' p rp Hrp)) as Hlp.
    split; [by exists rp|]. split; [|by apply approvee_lookup_freed_twice].
    destruct (push_collection_run [] p d' Hwf') as (d2 & _ & E2). rewrite Hrp in E2.
    apply elem_of_elements in Hin. rewrite decide_False in E2 by (intros Hn; rewrite Hn in Hin; by apply elem_of_nil in Hin).
    by eexists _, d2.
  - intros c Hc. assert (column_value c r = Some (column_field c t)) as Hcv by (destruct c; assumption).
    destruct (get_by_column_run c [] (column_field c t) d') as (l & d2 & Hl & _ & E2); [|done|].
    { destruct c; cbn [column_field column_size]; unfold bundle_of, address_of, tag_of;
        rewrite length_field by (rewrite ?Ht; done); done. }
    assert (h ∈ l) as Hin by (rewrite Hl; apply elem_of_hashes_with; by exists r).
    rewrite <- Hl in Hc. rewrite take_ge in E2 by done.
    exists l, d2. split; [|done]. rewrite E2. by destruct l; [apply elem_of_nil in Hin|].
Qed.

(** The parents of a stored transaction count as stored: after an insertion,
    a trunk that nobody has inserted has the inclusion state true, while a query
    for its trytes fails, because registering an approvee creates a row. *)
Theorem unstored_parent_included h t d :
  length h = HASH_SIZE -> length t = TXN_SIZE -> wf_tx (tx_table d) ->
  trunk_of t ≠ h -> tx_table d !! trunk_of t = None ->
  exists d', db_permanode_insert_transaction (Some h) (Some t) d = Some (SC_OK, d') /\
  (exists d2, db_client_get_inclusion_states [trunk_of t] [] d' = Some ((SC_OK, [true]), d2)) /\
  (exists d2, db_get_trytes TXN_SIZE [] (Some (trunk_of t)) d' =
     Some ((SC_STORAGE_CASSANDRA_QUERY_FAIL, []), d2)).
Proof.
  intros Hh Ht Hwf Hne Hno.
  destruct (permanode_insert_run h t d Hh Ht Hwf) as (ret & d' & E & Hwf' & Hs & Ha).
  rewrite (Ha avail) in E. specialize (Hs (Ha avail)). exists d'. split; [done|].
  destruct (proj1 (stored_approves h t (tx_table d))) as (r & Hr & _). rewrite <- Hs in Hr.
  pose proof (proj1 (proj2 Hwf' _ r Hr)) as Hl.
  assert (c_trytes r = None) as Htr.
  { rewrite Hs in Hr. apply stored_row in Hr as (_ & _ & _ & ->). unfold set_columns.
    rewrite lookup_insert_ne by done. by rewrite Hno. }
  split.
  - destruct (get_inclusion_run [] (trunk_of t) d' Hl) as (d2 & _ & E2). rewrite Hr in E2.
    exists d2. unfold db_client_get_inclusion_states. cbn [for_each]. comp_step E2. reflexivity.
  - destruct (get_trytes_run [] (trunk_of t) d' Hl) as (d2 & _ & E2). rewrite Hr, Htr in E2. by exists d2.
Qed.

(** Reading the approvees of a stored transaction that has none yet is undefined
    before that: the column is null, the driver gives no iterator for it, and
    the code advances that iterator. *)
Theorem approvees_of_tip_undefined h r q d :
  wf_tx (tx_table d) -> tx_table d !! h = Some r -> c_approvees r = ∅ ->
  push_collection_into_queue HASH_SIZE (lit "approvees") q (hash_statement SELECT_APPROVEES h) d = None.
Proof.
  intros Hwf Hr Ha. destruct (push_collection_run q h d Hwf) as (d' & _ & E).
  rewrite Hr, Ha, elements_empty in E. by rewrite decide_True in E.
Qed.

End Properties.

(** ** Witnesses *)
Module PermanodeWitness.

Abbreviation toy := tx_map (only parsing).

Definition column_by_name (name : cstr) : option column :=
  if decide (name = lit "bundle") then Some Bundle
  else if decide (name = lit "address") then Some Address
  else if decide (name = lit "tag") then Some Tag else None.

Definition select_one (m : toy) (query h : list Z) : list (list (cstr * cass_value)) :=
  if decide (query = SELECT_COUNT) then [[(lit "count", CassInt64 (if m !! h then 1 else 0))]]
  else match m !! h with
       | None => []
       | Some row =>
           if decide (query = SELECT_TRYTES) then [[(lit "trytes", blob (c_trytes row))]]
           else [[(lit "approvees", blob_set (c_approvees row))]]
       end.

Definition toy_execute (m : toy) (st : CassStatement) : option (list (list (cstr * cass_value))) * toy :=
  match st_bound st with
  | [(_, CassBytes h); (_, CassBytes b); (_, CassBytes a); (_, CassBytes g); (_, CassBytes t)] =>
      (Some [], set_columns h b a g t m)
  | [(_, CassCollection [x]); (_, CassBytes h)] => (Some [], add_approvee h x m)
  | [(ByName name, CassBytes v)] =>
      match column_by_name name with
      | Some c => (Some ((fun h => [(lit "hash", CassBytes h)]) <$> take 100 (hashes_with c v m)), m)
      | None => (Some (select_one m (st_query st) v), m)
      end
  | _ => (Some [], m)
  end.

#[export] Instance toy_cass : Cassandra toy := {
  cass_session_connect d _ _ := (true, d);
  cass_session_prepare d _ := (true, d);
  cass_statement_bind _ _ _ := true;
  cass_session_execute := toy_execute;
  cass_uuid_gen_random d := (mkCassUuid 0 0, d);
  cass_uuid_string u := [];
  cass_uuid_from_string s := None;
  time_now d := (0, d)
}.

Lemma toy_available : Available (db := toy).
Proof.
  split; [done|done|]. intros d [q l]. cbn. unfold toy_execute. cbn [st_bound st_query].
  repeat (match goal with |- context [match ?x with _ => _ end] => destruct x end); cbn; eauto.
Qed.

Lemma toy_select d q h : column_by_name (lit "hash") = None ->
  toy_execute d (hash_statement q h) = (Some (select_one d q h), d).
Proof. intros E. unfold toy_execute. cbn [hash_statement st_bound st_query]. by rewrite E. Qed.

#[export] Instance toy_table : TransactionTable toy.
Proof.
  assert (column_by_name (lit "hash") = None) as Hn by reflexivity.
  assert (SELECT_TRYTES ≠ SELECT_COUNT /\ SELECT_APPROVEES ≠ SELECT_COUNT /\
          SELECT_APPROVEES ≠ SELECT_TRYTES) as (N1 & N2 & N3).
  { split; [|split]; apply (bool_decide_unpack _); vm_compute; exact I. }
  refine {| tx_table := fun d : toy => d |}.
  - intros d h b a g t r d'. cbn. intros [= <- <-]. by left.
  - intros d h x r d'. cbn. intros [= <- <-]. by left.
  - intros d h r d'. cbn [cass_session_execute toy_cass]. rewrite toy_select by done. intros [= <- <-].
    split; [done|]. intros rows [= <-]. unfold select_one. by rewrite decide_True.
  - intros d h r d'. cbn [cass_session_execute toy_cass]. rewrite toy_select by done. intros [= <- <-].
    split; [done|]. intros rows [= <-]. unfold select_one. rewrite decide_False by done.
    destruct (d !! h); [|done]. by rewrite decide_True.
  - intros d h r d'. cbn [cass_session_execute toy_cass]. rewrite toy_select by done. intros [= <- <-].
    split; [done|]. intros rows [= <-]. unfold select_one. rewrite decide_False by done.
    destruct (d !! h); [|done]. by rewrite decide_False.
  - intros d c v r d'. cbn [cass_session_execute toy_cass]. unfold toy_execute. cbn [column_statement st_bound].
    assert (column_by_name (column_name c) = Some c) as -> by by destruct c.
    intros [= <- <-]. split; [done|]. intros rows [= <-]. by eexists.
  - done.
Defined.

Definition hash1 : list Z := replicate HASH_SIZE 65.
Definition txn1 : list Z := replicate TXN_SIZE 66.

Lemma empty_wf : wf_tx ∅ /\ linked ∅.
Proof. split; [split; exact (map_Forall_empty _)|]. intros h r t H. by rewrite lookup_empty in H. Qed.

Lemma size1 : length hash1 = HASH_SIZE /\ length txn1 = TXN_SIZE.
Proof. split; apply length_replicate. Qed.

Lemma permanode_insert_invariant_witness :
  exists ret d', db_permanode_insert_transaction (Some hash1) (Some txn1) (∅ : toy) = Some (ret, d') /\
    wf_tx d' /\ (ret = SC_OK -> d' = stored hash1 txn1 ∅ /\ linked d').
Proof.
  exact (permanode_insert_invariant (cass := toy_cass) (tab := toy_table) hash1 txn1 (∅ : toy) (proj1 size1) (proj2 size1)
           (proj1 empty_wf) (proj2 empty_wf)).
Defined.

Lemma permanode_roundtrip_witness :
  exists d', db_permanode_insert_transaction (Some hash1) (Some txn1) (∅ : toy) = Some (SC_OK, d') /\
  exists d2, db_client_get_trytes TXN_SIZE [hash1] [] d' = Some ((SC_OK, [txn1]), d2).
Proof.
  destruct (permanode_roundtrip (cass := toy_cass) (tab := toy_table) toy_available hash1 txn1 (∅ : toy) (proj1 size1) (proj2 size1) (proj1 empty_wf))
    as (d' & E & Ht & _). exists d'. exact (conj E Ht).
Defined.

Lemma trunk1 : trunk_of txn1 ≠ hash1.
Proof. apply (bool_decide_unpack _). vm_compute. exact I. Qed.

Lemma unstored_parent_included_witness :
  exists d', db_permanode_insert_transaction (Some hash1) (Some txn1) (∅ : toy) = Some (SC_OK, d') /\
  (exists d2, db_client_get_inclusion_states [trunk_of txn1] [] d' = Some ((SC_OK, [true]), d2)) /\
  (exists d2, db_get_trytes TXN_SIZE [] (Some (trunk_of txn1)) d' =
     Some ((SC_STORAGE_CASSANDRA_QUERY_FAIL, []), d2)).
Proof.
  exact (unstored_parent_included (cass := toy_cass) (tab := toy_table) toy_available hash1 txn1 (∅ : toy) (proj1 size1) (proj2 size1)
           (proj1 empty_wf) trunk1 (lookup_empty _)).
Defined.

Definition tip : tx_row := mkTxRow None None None None ∅.

Lemma tip_wf : wf_tx {[hash1 := tip]}.
Proof.
  split; apply map_Forall_singleton; [done|]. split; [apply size1|]. by intros x ?%elem_of_empty.
Qed.

Lemma approvees_of_tip_undefined_witness :
  push_collection_into_queue HASH_SIZE (lit "approvees") [] (hash_statement SELECT_APPROVEES hash1)
    ({[hash1 := tip]} : toy) = None.
Proof.
  exact (approvees_of_tip_undefined (cass := toy_cass) (tab := toy_table) toy_available hash1 tip [] ({[hash1 := tip]} : toy) tip_wf
           (lookup_singleton_eq _ _) eq_refl).
Defined.

End PermanodeWitness.
