(* ===== verification/RuntimeCli.v ===== *)
(** * The runtime command line ([accelerator/runtime_cli.c])

    A thread reads commands from standard input into a buffer of 128 characters
    and walks a tree of commands, cutting words off the buffer in place.  The
    theorems show that this does what walking the tree with the list of the
    words does, and what happens at the end of the input. *)

From S2P Require Import Prelude TaErrors Strtok Cache World Config.

(** ** Commands *)

Inductive cli_fn := do_logger_switch | do_logger_status | do_redis_memory_set | do_redis_memory_get.

(** [ta_cli_cmd]: the union of [next_state] and [fn] by the type of the command. *)
Inductive ta_cli_cmd :=
| CMD_LAST (name describe example : cstr) (fn : cli_fn)
| CMD_STATE (name describe example : cstr) (next_state : list ta_cli_cmd).

Abbreviation ta_cli_list_t := (list ta_cli_cmd) (only parsing).

Definition cmd_name (c : ta_cli_cmd) : cstr :=
  match c with CMD_LAST n _ _ _ => n | CMD_STATE n _ _ _ => n end.
Definition cmd_describe (c : ta_cli_cmd) : cstr :=
  match c with CMD_LAST _ d _ _ => d | CMD_STATE _ d _ _ => d end.
Definition cmd_example (c : ta_cli_cmd) : cstr :=
  match c with CMD_LAST _ _ e _ => e | CMD_STATE _ _ e _ => e end.

Definition logger_state : ta_cli_list_t :=
  [CMD_LAST (lit "switch") (lit "Switch on/off logger") (lit "logger switch [on/off]") do_logger_switch;
   CMD_LAST (lit "status") (lit "Show current logger status") (lit "logger status") do_logger_status].

Definition redis_memory_state : ta_cli_list_t :=
  [CMD_LAST (lit "get") (lit "Get Redis memory capacity") (lit "redis capacity get") do_redis_memory_get;
   CMD_LAST (lit "set") (lit "Set Redis memory capacity") (lit "redis capacity set [limit]") do_redis_memory_set].

Definition redis_state : ta_cli_list_t :=
  [CMD_STATE (lit "capacity") (lit "Redis memory capacity related operations") (lit "") redis_memory_state].

Definition start_state : ta_cli_list_t :=
  [CMD_STATE (lit "logger") (lit "Logger related operations") (lit "") logger_state;
   CMD_STATE (lit "redis") (lit "Redis related operations") (lit "") redis_state].

(** [!strncmp (a, b, n)] on C strings. *)
Definition strncmp_eq (a b : cstr) (n : nat) : bool := bool_decide (take n a = take n b).

(** ** State

    The buffer, what is left of standard input, the configuration, the cache,
    and the lines printed so far; what the server answers to the commands on
    its memory is printed as well and not part of the model. *)
Record cli_state (db : Type) := mkCli {
  command : list Z; input : list Z; conf : ta_config_t; cache : Backend.env db; out : list cstr }.
Arguments mkCli {db} command input conf cache out.
Arguments command {db} c.
Arguments input {db} c.
Arguments conf {db} c.
Arguments cache {db} c.
Arguments out {db} c.

Section Cli.
Context {db : Type} {server : RedisServer db}.

Definition cli := comp (cli_state db).

Definition printf (s : cstr) : cli unit :=
  modify (fun c => mkCli (command c) (input c) (conf c) (cache c) (out c ++ [s])).

Definition set_command (buf : list Z) : cli unit :=
  modify (fun c => mkCli buf (input c) (conf c) (cache c) (out c)).

Definition on_conf (f : ta_config_t -> ta_config_t) : cli unit :=
  modify (fun c => mkCli (command c) (input c) (f (conf c)) (cache c) (out c)).

Definition on_redis {A} (m : comp (Backend.env db) A) : cli A :=
  fun c => match m (cache c) with
           | Some (a, e) => Some (a, mkCli (command c) (input c) (conf c) e (out c))
           | None => None
           end.

(** ** Cutting off a word

    [strtok_r] with a blank as the delimiter. *)
Definition is_blank (c : Z) : bool := c =? 32.

(** The word (NULL when there is none) and the rest of the string. *)
Definition extract_one (orig : nat) : cli (option cstr * nat) :=
  buf ← gets command;
  '(extracted, buf, orig) ← check (strtok_r is_blank buf orig);
  _ ← set_command buf;
  mret (extracted, orig).

Fixpoint print_all (l : list cstr) : cli unit :=
  match l with [] => mret tt | s :: r => _ ← printf s; print_all r end.

(** [state] is [*ta_state_ptr]. *)
Definition help_line (c : ta_cli_cmd) : cstr :=
  cmd_name c ++ lit ": " ++ cmd_describe c ++
  match c with CMD_LAST _ _ e _ => lit " (example: " ++ e ++ lit ")" | _ => [] end ++ [10; 10].

Definition do_help (state : ta_cli_list_t) : cli unit := print_all (help_line <$> state).

Definition do_example (state : ta_cli_list_t) (name : cstr) : cli unit :=
  print_all ((fun c => lit "Usage: " ++ cmd_example c ++ [10]) <$>
             filter (fun c => strncmp_eq (cmd_name c) name 128 = true) state).

Definition not_enabled : cstr := lit "Cache module not enabled" ++ [10].

(** What a function does with the word it was given, or without one. *)
Definition fn_action (fn : cli_fn) (state : ta_cli_list_t) (selection : option cstr) : cli unit :=
  match fn, selection with
  | do_logger_status, _ =>
      quiet ← gets (fun c => is_option_enabled (conf c) CLI_QUIET_MODE);
      printf ((if (quiet : bool) then lit "quiet" else lit "verbose") ++ [10])
  | do_logger_switch, Some s =>
      if strncmp_eq s (lit "on") 2 then on_conf (ta_logger_switch false false)
      else if strncmp_eq s (lit "off") 3 then on_conf (ta_logger_switch true false)
      else mret tt
  | do_logger_switch, None => do_example state (lit "switch")
  | do_redis_memory_set, Some s =>
      ret ← on_redis (Backend.cache_set_capacity s);
      when (negb (ret =? 1)) (printf not_enabled)
  | do_redis_memory_set, None => do_example state (lit "set")
  | do_redis_memory_get, _ =>
      ret ← on_redis Backend.cache_get_capacity;
      when (negb (ret =? 1)) (printf not_enabled)
  end.

Definition takes_word (fn : cli_fn) : bool :=
  match fn with do_logger_switch | do_redis_memory_set => true | _ => false end.

Definition run_fn (fn : cli_fn) (state : ta_cli_list_t) (str : nat) : cli unit :=
  if takes_word fn then
    '(selection, _) ← extract_one str;
    fn_action fn state selection
  else fn_action fn state None.

(** [handle_command] with the state of a command: [run_cmd state cmd str] is
    what happens once [cmd] of [state] has matched. *)
Fixpoint run_cmd (state : ta_cli_list_t) (c : ta_cli_cmd) (str : nat) : cli unit :=
  match c with
  | CMD_LAST _ _ _ fn => run_fn fn state str
  | CMD_STATE _ _ _ next_state =>
      '(cmd, str) ← extract_one str;
      match cmd with
      | None => do_help next_state
      | Some cmd =>
          (fix search (l : ta_cli_list_t) : cli unit :=
             match l with
             | [] => do_help next_state
             | c :: r =>
                 if strncmp_eq (cmd_name c) cmd 128 then run_cmd next_state c str else search r
             end) next_state
      end
  end.

Definition handle_command (state : ta_cli_list_t) (str : nat) : cli unit :=
  run_cmd [] (CMD_STATE [] [] [] state) str.

(** ** The loop *)

(** How many characters [fgets] takes: up to a newline, at most [n]. *)
Fixpoint line_length (n : nat) (l : list Z) : nat :=
  match n, l with
  | S n, c :: r => if c =? 10 then 1%nat else S (line_length n r)
  | _, _ => O
  end.

(** [fgets (command, 128, stdin)]; at the end of the input the buffer stays. *)
Definition fgets (buf stdin : list Z) : list Z * list Z :=
  let n := line_length 127 stdin in
  match n with
  | O => (buf, stdin)
  | _ => (take n stdin ++ 0 :: drop (S n) buf, drop n stdin)
  end.

Definition prompt : cstr := lit "Command> ".

(** One round of [cli_routine]; the result of [fgets] is not looked at. *)
Definition cli_round : cli unit :=
  _ ← printf prompt;
  c ← gets id;
  let '(buf, stdin) := fgets (command c) (input c) in
  _ ← modify (fun c => mkCli buf stdin (conf c) (cache c) (out c));
  s ← check (c_string buf);
  match length s with
  | O => undefined
  | S n =>
      _ ← set_command (<[n := 0]> buf);
      s ← check (c_string (<[n := 0]> buf));
      if decide (s = []) then mret tt else handle_command start_state 0
  end.

Fixpoint cli_routine (rounds : nat) : cli unit :=
  match rounds with O => mret tt | S n => _ ← cli_round; cli_routine n end.

End Cli.

(** ** The words of a command *)

Definition words (s : cstr) : list cstr := tokens is_blank s.

(** Walking the tree with the list of words. *)
Section Reference.
Context {db : Type} {server : RedisServer db}.

Fixpoint interp_cmd (state : list ta_cli_cmd) (c : ta_cli_cmd) (ws : list cstr) : comp (cli_state db) unit :=
  match c with
  | CMD_LAST _ _ _ fn => fn_action fn state (if takes_word fn then head ws else None)
  | CMD_STATE _ _ _ next_state =>
      match ws with
      | [] => do_help next_state
      | w :: r =>
          (fix search (l : list ta_cli_cmd) : comp (cli_state db) unit :=
             match l with
             | [] => do_help next_state
             | c :: l =>
                 if strncmp_eq (cmd_name c) w 128 then interp_cmd next_state c r else search l
             end) next_state
      end
  end.

Definition interp (state : list ta_cli_cmd) (ws : list cstr) : comp (cli_state db) unit :=
  interp_cmd [] (CMD_STATE [] [] [] state) ws.

(** *** Code that does not look at the buffer *)
Definition with_command (b : list Z) (c : cli_state db) : cli_state db :=
  mkCli b (input c) (conf c) (cache c) (out c).

Definition buffer_free {A} (m : comp (cli_state db) A) : Prop := forall b c,
  m (with_command b c) = (fun r => (r.1, with_command b r.2)) <$> m c.

Lemma buffer_free_ret {A} (a : A) : buffer_free (mret a).
Proof. by intros b c. Qed.

Lemma buffer_free_bind {A B} (m : comp (cli_state db) A) (k : A -> comp (cli_state db) B) :
  buffer_free m -> (forall a, buffer_free (k a)) -> buffer_free (m ≫= k).
Proof.
  intros Hm Hk b c. unfold mbind, comp_mbind. rewrite Hm. destruct (m c) as [[a c']|]; cbn; [|done].
  apply Hk.
Qed.

Lemma buffer_free_printf s : buffer_free (printf s).
Proof. by intros b c. Qed.

Lemma buffer_free_print_all l : buffer_free (print_all l).
Proof.
  induction l as [|s l IH]; [apply buffer_free_ret|]. apply buffer_free_bind; [apply buffer_free_printf|done].
Qed.

Lemma buffer_free_redis {A} (m : comp (Backend.env db) A) : buffer_free (on_redis m).
Proof. intros b c. unfold on_redis. cbn. by destruct (m (cache c)) as [[a e]|]. Qed.

Lemma buffer_free_fn fn state sel : buffer_free (fn_action fn state sel).
Proof.
  destruct fn, sel as [s|]; cbn [fn_action]; try apply buffer_free_print_all;
    try (apply buffer_free_bind; [apply buffer_free_redis|]; intros r; unfold when;
         destruct (negb (r =? 1)); [apply buffer_free_printf|apply buffer_free_ret]).
  - destruct (strncmp_eq s (lit "on") 2); [by intros b c|].
    destruct (strncmp_eq s (lit "off") 3); [by intros b c|apply buffer_free_ret].
  - by intros b c.
  - by intros b c.
Qed.

Lemma interp_buffer_free : forall c state ws, buffer_free (interp_cmd state c ws).
Proof.
  fix IH 1. intros [n d e fn|n d e next] state ws; cbn [interp_cmd]; [apply buffer_free_fn|].
  destruct ws as [|w r]; [apply buffer_free_print_all|].
  generalize next at 1 2. intros st. induction next as [|c l IHl]; [apply buffer_free_print_all|].
  destruct (strncmp_eq (cmd_name c) w 128); [apply IH|apply IHl].
Qed.

End Reference.

(** ** Equivalence *)
Section Properties.
Context {db : Type} {server : RedisServer db}.

Lemma extract_one_spec p (c : cli_state db) s t : drop p (command c) = s ++ 0 :: t -> 0 ∉ s ->
  exists b p', extract_one p c = Some ((head (words s), p'), with_command b c) /\
    exists s' t', drop p' b = s' ++ 0 :: t' /\ 0 ∉ s' /\ words s' = tail (words s).
Proof.
  intros Hd H0. destruct (strtok_r_spec is_blank eq_refl _ _ _ _ Hd H0) as (b & p' & E & Hs').
  exists b, p'. split; [|done]. unfold extract_one. comp_simpl. by rewrite E.
Qed.

Lemma run_interp : forall k state p (c : cli_state db) s t, drop p (command c) = s ++ 0 :: t -> 0 ∉ s ->
  exists b, run_cmd state k p c =
    (fun r => (r.1, with_command b r.2)) <$> interp_cmd state k (words s) c.
Proof.
  fix IH 1. intros [n d e fn|n d e next] state p c s t Hd H0; cbn [run_cmd interp_cmd].
  - unfold run_fn. destruct (takes_word fn).
    + destruct (extract_one_spec p c s t Hd H0) as (b & p' & E & _). comp_step E.
      exists b. apply buffer_free_fn.
    + exists (command c). rewrite <- (buffer_free_fn fn state None (command c) c). by destruct c.
  - destruct (extract_one_spec p c s t Hd H0) as (b & p' & E & s' & t' & Hd' & H0' & Hw). comp_step E.
    destruct (words s) as [|w ws]; cbn [head tail] in *.
    + exists b. apply buffer_free_print_all.
    + generalize next at 1 2 4 5. intros st. induction next as [|k l IHl].
      * exists b. apply buffer_free_print_all.
      * destruct (strncmp_eq (cmd_name k) w 128); [|apply IHl].
        destruct (IH k st p' (with_command b c) s' t' Hd' H0') as (b' & E'). exists b'. rewrite E', Hw.
        rewrite interp_buffer_free. by destruct (interp_cmd st k ws c) as [[[] c']|].
Qed.

Lemma print_all_total l (c : cli_state db) : is_Some (print_all l c).
Proof. revert c. induction l as [|s l IH]; intros c; [by eexists|]. cbn. apply IH. Qed.

Lemma fn_total fn state sel (c : cli_state db) : is_Some (fn_action fn state sel c).
Proof.
  destruct fn, sel as [s|]; cbn [fn_action]; try apply print_all_total; try (by eexists).
  - destruct (strncmp_eq s (lit "on") 2); [by eexists|].
    destruct (strncmp_eq s (lit "off") 3); by eexists.
  - comp_simpl. unfold on_redis, Backend.cache_set_capacity, Backend.guarded, Backend.command.
    comp_simpl. destruct (Backend.state (cache c)); cbn; [|by eexists].
    destruct (redisCommand _ _); by eexists.
  - comp_simpl. unfold on_redis, Backend.cache_get_capacity, Backend.guarded, Backend.command.
    comp_simpl. destruct (Backend.state (cache c)); cbn; [|by eexists].
    destruct (redisCommand _ _); by eexists.
  - comp_simpl. unfold on_redis, Backend.cache_get_capacity, Backend.guarded, Backend.command.
    comp_simpl. destruct (Backend.state (cache c)); cbn; [|by eexists].
    destruct (redisCommand _ _); by eexists.
Qed.

Lemma interp_total : forall k state ws (c : cli_state db), is_Some (interp_cmd state k ws c).
Proof.
  fix IH 1. intros [n d e fn|n d e next] state ws c; cbn [interp_cmd]; [apply fn_total|].
  destruct ws as [|w r]; [apply print_all_total|].
  generalize next at 1 2. intros st. induction next as [|k l IHl]; [apply print_all_total|].
  destruct (strncmp_eq (cmd_name k) w 128); [apply IH|apply IHl].
Qed.

Lemma line_length_line n s rest : 10 ∉ s -> (length s < n)%nat ->
  line_length n (s ++ 10 :: rest) = S (length s).
Proof.
  revert s. induction n as [|n IH]; intros [|c s] Hs Hn; cbn in *; [lia|lia|done|].
  apply not_elem_of_cons in Hs as [Hc Hs]. destruct (Z.eqb_spec c 10); [congruence|].
  by rewrite IH by (done || lia).
Qed.

Lemma fgets_line buf s rest : 10 ∉ s -> (length s <= 126)%nat ->
  exists t, fgets buf (s ++ 10 :: rest) = ((s ++ [10]) ++ 0 :: t, rest).
Proof.
  intros Hs Hn. unfold fgets. rewrite line_length_line by (done || lia).
  exists (drop (S (S (length s))) buf).
  assert (s ++ 10 :: rest = (s ++ [10]) ++ rest) as E by by rewrite <- app_assoc.
  assert (S (length s) = length (s ++ [10])) as El by (rewrite length_app; cbn; lia).
  rewrite E, El, take_app_length, drop_app_length. done.
Qed.

(** C40 A command line is executed as its words: a line of at most 126 characters
    is consumed, and the round changes configuration, cache and output as the
    walk through the tree of commands with the list of the words of the line
    does, although the code cuts the words off the buffer in place and only as
    it goes. *)
Theorem cli_command_executed (c : cli_state db) s rest :
  input c = s ++ 10 :: rest -> 0 ∉ s -> 10 ∉ s -> s ≠ [] -> (length s <= 126)%nat ->
  exists c' b, interp start_state (words s) (mkCli (command c) rest (conf c) (cache c) (out c ++ [prompt])) =
      Some (tt, c') /\
    cli_round c = Some (tt, with_command b c').
Proof.
  intros Hin H0 H10 Hne Hlen. destruct (fgets_line (command c) s rest H10 Hlen) as (t & Ef).
  set (I := interp start_state (words s)). unfold cli_round, printf. comp_simpl. unfold id. cbn [command input conf cache out]. rewrite Hin, Ef.
  assert (0 ∉ s ++ [10]) as H0' by (apply not_elem_of_app; split; [done|by intros [=]%list_elem_of_singleton]).
  rewrite c_string_nul by done. rewrite length_app, Nat.add_1_r. cbn -[c_string handle_command prompt].
  assert (<[length s := 0]> ((s ++ [10]) ++ 0 :: t) = s ++ 0 :: 0 :: t) as ->.
  { rewrite <- app_assoc. replace (length s) with (length s + 0)%nat at 1 by lia. by rewrite insert_app_r. }
  rewrite c_string_nul by done. destruct (decide (s = [])) as [|_]; [done|].
  set (c1 := mkCli (s ++ 0 :: 0 :: t) rest (conf c) (cache c) (out c ++ [prompt])).
  destruct (run_interp (CMD_STATE [] [] [] start_state) [] 0 c1 s (0 :: t) eq_refl H0) as (b & E).
  set (c0 := mkCli (command c) rest (conf c) (cache c) (out c ++ [prompt])).
  destruct (interp_total (CMD_STATE [] [] [] start_state) [] (words s) c0) as [[[] c'] Ei].
  exists c', b. split; [exact Ei|]. unfold handle_command.
  rewrite E.
  change c1 with (with_command (s ++ 0 :: 0 :: t) c0). rewrite interp_buffer_free, Ei. done.
Qed.

(** *** The end of the input *)

(** The string in the buffer has at most [k] characters and no input is left. *)
Definition at_eof (k : nat) (c : cli_state db) : Prop :=
  (length (str_of_buf (command c)) <= k)%nat /\ input c = [].

Lemma str_of_buf_cut (l : list Z) i : (length (str_of_buf (<[i := 0%Z]> l)) <= length (str_of_buf l))%nat.
Proof.
  revert i. induction l as [|c l IH]; intros i; [done|].
  destruct i as [|i]; simpl; [lia|]. destruct (c =? 0); simpl; [lia|]. apply le_n_S, IH.
Qed.

Lemma str_of_buf_shorter (l : list Z) i : (i < length (str_of_buf l))%nat ->
  length (str_of_buf (<[i := 0%Z]> l)) = i.
Proof.
  revert i. induction l as [|c l IH]; intros i; simpl; [lia|].
  destruct (Z.eqb_spec c 0) as [->|Hc]; simpl; [lia|]. intros Hi.
  destruct i as [|i]; simpl; [done|]. destruct (Z.eqb_spec c 0); [done|]. simpl. f_equal. apply IH. lia.
Qed.

Lemma at_eof_buffer_free {A} k (m : cli A) : buffer_free m ->
  (forall c a c', m c = Some (a, c') -> input c' = input c) -> hoare (at_eof k) m (fun _ => at_eof k).
Proof.
  intros Hb Hi c a c' [Hl Hin] E. split; [|by rewrite (Hi _ _ _ E)].
  pose proof (Hb (command c) c) as Hc. replace (with_command (command c) c) with c in Hc by by destruct c.
  rewrite E in Hc. injection Hc as Hc. rewrite Hc. exact Hl.
Qed.

Lemma at_eof_extract k p : hoare (at_eof k) (extract_one p) (fun _ => at_eof k).
Proof.
  intros c a c' [Hl Hin] E. revert E. unfold extract_one. comp_simpl.
  destruct (strtok_r is_blank (command c) p) as [[[w b] p']|] eqn:Es; [|done]. intros [= <- <-].
  split; [|done]. cbn [with_command command]. clear Hin. revert Es. unfold strtok_r.
  set (i := (p + span_delims is_blank (drop p (command c)))%nat).
  set (j := (i + span_token is_blank (drop i (command c)))%nat).
  destruct (command c !! i) as [x|]; cbn [mbind option_bind]; [|intros; discriminate].
  destruct (x =? 0); [intros [= <- <- <-]; exact Hl|].
  destruct (command c !! j) as [y|]; cbn [mbind option_bind]; [|intros; discriminate].
  destruct (y =? 0); intros [= <- <- <-]; [exact Hl|].
  etrans; [apply str_of_buf_cut|exact Hl].
Qed.

Lemma print_all_input l (c : cli_state db) a c' : print_all l c = Some (a, c') -> input c' = input c.
Proof.
  revert c. induction l as [|s l IH]; intros c; [by intros [= <- <-]|]. cbn. intros E. by rewrite (IH _ E).
Qed.

Lemma redis_when_input {A} (m : comp (Backend.env db) A) (f : A -> bool) s (c : cli_state db) a c' :
  (r ← on_redis m; when (f r) (printf s)) c = Some (a, c') -> input c' = input c.
Proof.
  unfold on_redis. comp_simpl. destruct (m (cache c)) as [[r e]|]; [|done].
  destruct (f r); by intros [= <- <-].
Qed.

Lemma fn_input fn state sel (c : cli_state db) a c' :
  fn_action fn state sel c = Some (a, c') -> input c' = input c.
Proof.
  destruct fn, sel as [s|]; cbn [fn_action]; try apply print_all_input;
    try apply (redis_when_input _ (fun r => negb (r =? 1))); try (by intros [= <- <-]).
  destruct (strncmp_eq s (lit "on") 2); [by intros [= <- <-]|].
  destruct (strncmp_eq s (lit "off") 3); by intros [= <- <-].
Qed.

Lemma at_eof_run n : forall k state p, hoare (at_eof n) (run_cmd state k p) (fun _ => at_eof n).
Proof.
  assert (forall l, hoare (at_eof n) (print_all l) (fun _ => at_eof n)) as Hprint
    by (intros; apply at_eof_buffer_free; [apply buffer_free_print_all|apply print_all_input]).
  assert (forall fn state sel, hoare (at_eof n) (fn_action fn state sel) (fun _ => at_eof n)) as Hfn
    by (intros; apply at_eof_buffer_free; [apply buffer_free_fn|apply fn_input]).
  fix IH 1. intros [nm d e fn|nm d e next] state p; cbn [run_cmd].
  - unfold run_fn. destruct (takes_word fn); [|apply Hfn].
    eapply hoare_bind; [apply at_eof_extract|]. intros [sel p']. apply Hfn.
  - eapply hoare_bind; [apply at_eof_extract|]. intros [[w|] p']; [|apply Hprint].
    generalize next at 1 2. intros st. induction next as [|k l IHl]; [apply Hprint|].
    destruct (strncmp_eq (cmd_name k) w 128); [apply IH|apply IHl].
Qed.

(** At the end of the input a round shortens the string of the buffer. *)
Lemma eof_round n (c c' : cli_state db) u :
  at_eof (S n) c -> cli_round c = Some (u, c') -> at_eof n c'.
Proof.
  intros [Hl Hin]. unfold cli_round, printf. comp_simpl. unfold id. cbn [command input conf cache out]. rewrite Hin.
  unfold fgets. cbn [line_length]. cbv beta iota.
  destruct (c_string (command c)) as [s|] eqn:Es; [|done].
  assert (s = str_of_buf (command c)) as -> by (unfold c_string in Es; by destruct (bool_decide _); simplify_eq).
  destruct (length (str_of_buf (command c))) as [|m] eqn:Em; [done|]. cbn -[c_string handle_command].
  destruct (c_string (<[m := 0]> (command c))) as [s'|]; [|done].
  assert (at_eof n (mkCli (<[m := 0]> (command c)) [] (conf c) (cache c) (out c ++ [prompt]))) as He.
  { split; [|done]. cbn. pose proof (str_of_buf_shorter (command c) m ltac:(lia)). lia. }
  destruct (decide (s' = [])); [by intros [= <- <-]|]. intros E. exact (at_eof_run n _ _ _ _ _ _ He E).
Qed.

(** The end of standard input is not handled: once the input is used up, the
    thread runs what is left in the buffer again and again, a character shorter
    each time, and writes in front of the buffer after at most as many rounds as
    the buffer had characters, and one more. *)
Theorem cli_eof_undefined (c : cli_state db) :
  input c = [] -> cli_routine (S (length (str_of_buf (command c)))) c = None.
Proof.
  intros Hin. assert (at_eof (length (str_of_buf (command c))) c) as He by by split.
  revert He. generalize (length (str_of_buf (command c))) as n. clear Hin. intros n. revert c.
  induction n as [|n IH]; intros c He; cbn [cli_routine]; comp_simpl.
  - destruct (cli_round c) as [[u c']|] eqn:E; [|done]. exfalso. revert E.
    destruct He as [Hl Hin]. unfold cli_round, printf. comp_simpl. unfold id, fgets. cbn [command input conf cache out]. rewrite Hin. cbn [line_length].
    cbv beta iota. destruct (c_string (command c)) as [s|] eqn:Es; [|done].
    assert (s = str_of_buf (command c)) as -> by (unfold c_string in Es; by destruct (bool_decide _); simplify_eq).
    by destruct (str_of_buf (command c)); cbn in *; [|lia].
  - destruct (cli_round c) as [[u c']|] eqn:E; [|done]. apply (IH c'). by eapply eof_round.
Qed.

End Properties.

(** ** Witnesses *)
Module RuntimeCliWitness.
Import RedisModel.

Definition some_conf : ta_config_t := mkTaConf [] [] 0 [] [] 0 0 CLI_GTTA [].

Definition at_prompt (typed : cstr) : cli_state (gmap (list Z) rvalue) :=
  mkCli (replicate 128 0) typed some_conf (Backend.mkEnv true ∅) [].

Definition switch_off : cstr := lit "logger  switch off".

Lemma cli_command_executed_witness :
  exists c' b, cli_round (at_prompt (switch_off ++ [10])) = Some (tt, with_command b c') /\
    is_option_enabled (conf c') CLI_QUIET_MODE = true.
Proof.
  destruct (cli_command_executed (at_prompt (switch_off ++ [10])) switch_off []) as (c' & b & Ei & Er).
  - reflexivity.
  - apply (bool_decide_unpack _). vm_compute. exact I.
  - apply (bool_decide_unpack _). vm_compute. exact I.
  - discriminate.
  - apply Nat.leb_le. vm_compute. reflexivity.
  - exists c', b. split; [exact Er|]. vm_compute in Ei. injection Ei as <-. vm_compute. reflexivity.
Defined.

Lemma cli_eof_undefined_witness :
  cli_routine 5 (mkCli (lit "help" ++ replicate 124 0) [] some_conf
    (Backend.mkEnv true (∅ : gmap (list Z) rvalue)) []) = None.
Proof.
  exact (cli_eof_undefined (mkCli (lit "help" ++ replicate 124 0) [] some_conf
    (Backend.mkEnv true (∅ : gmap (list Z) rvalue)) []) eq_refl).
Defined.

End RuntimeCliWitness.
