(* ===== verification/Mqtt.v ===== *)
(** * MQTT clients ([connectivity/mqtt/mqtt_common.c], [pub_utils.c], [sub_utils.c])

    The configuration of a client, its preparation, and the callbacks of a
    publishing and of a subscribing client.  libmosquitto is the class
    [Mosquitto]: the checks of names are functions, everything else is a call
    with a return code, and the calls are recorded in the order they are made.
    The build sets neither [WITH_TLS] nor [WITH_SOCKS], so the parts under these
    conditions are left out here; [Socks] has the parser of proxy URLs. *)

From S2P Require Import Prelude TaErrors World Serializer.

(** ** Configuration *)

Inductive client_type_t := client_pub | client_sub | client_duplex.

#[export] Instance client_type_eq_dec : EqDecision client_type_t.
Proof. solve_decision. Defined.

(** [general_config->id] is an array, the other strings are C strings; [None] is
    NULL. *)
Record mosq_general_config_t := mkGeneral {
  client_id : option (list Z); protocol_version : Z; keepalive : Z; host : option cstr; port : Z;
  qos : Z; last_mid : Z; client_type : client_type_t; max_inflight : Z; username : option cstr;
  password : option cstr; will_topic : option cstr; will_payload : option cstr; will_payloadlen : Z;
  will_qos : Z; retain : bool; will_retain : bool; clean_session : bool }.

Record mosq_pub_config_t := mkPub {
  mid_sent : Z; message : option cstr; msglen : Z; topic : option cstr; first_publish : bool;
  response_topic : option cstr }.

(** [topics] with [topic_count], [unsub_topics] with [unsub_topic_count]. *)
Record mosq_sub_config_t := mkSub {
  topics : list cstr; recv_message : option cstr; no_retain : bool; retained_only : bool;
  remove_retained : bool; unsub_topics : list cstr }.

Record mosq_property_config_t (property : Type) := mkProps {
  connect_props : option property; publish_props : option property; subscribe_props : option property;
  unsubscribe_props : option property; disconnect_props : option property; will_props : option property }.
Arguments mkProps {property} connect_props publish_props subscribe_props unsubscribe_props disconnect_props will_props.
Arguments connect_props {property} m.
Arguments publish_props {property} m.
Arguments subscribe_props {property} m.
Arguments unsubscribe_props {property} m.
Arguments disconnect_props {property} m.
Arguments will_props {property} m.

Record mosq_config_t (property : Type) := mkMosqConfig {
  general_config : mosq_general_config_t; pub_config : option mosq_pub_config_t;
  sub_config : option mosq_sub_config_t; property_config : mosq_property_config_t property }.
Arguments mkMosqConfig {property} general_config pub_config sub_config property_config.
Arguments general_config {property} m.
Arguments pub_config {property} m.
Arguments sub_config {property} m.
Arguments property_config {property} m.

(** Field updates. *)
Definition set_id v g := mkGeneral (Some v) (protocol_version g) (keepalive g) (host g) (port g) (qos g)
  (last_mid g) (client_type g) (max_inflight g) (username g) (password g) (will_topic g) (will_payload g)
  (will_payloadlen g) (will_qos g) (retain g) (will_retain g) (clean_session g).
Definition set_host v g := mkGeneral (client_id g) (protocol_version g) (keepalive g) (Some v) (port g) (qos g)
  (last_mid g) (client_type g) (max_inflight g) (username g) (password g) (will_topic g) (will_payload g)
  (will_payloadlen g) (will_qos g) (retain g) (will_retain g) (clean_session g).
Definition set_last_mid v g := mkGeneral (client_id g) (protocol_version g) (keepalive g) (host g) (port g) (qos g)
  v (client_type g) (max_inflight g) (username g) (password g) (will_topic g) (will_payload g)
  (will_payloadlen g) (will_qos g) (retain g) (will_retain g) (clean_session g).
Definition set_client_type v g := mkGeneral (client_id g) (protocol_version g) (keepalive g) (host g) (port g) (qos g)
  (last_mid g) v (max_inflight g) (username g) (password g) (will_topic g) (will_payload g)
  (will_payloadlen g) (will_qos g) (retain g) (will_retain g) (clean_session g).

Definition set_mid_sent v p := mkPub v (message p) (msglen p) (topic p) (first_publish p) (response_topic p).
Definition set_message v n p := mkPub (mid_sent p) (Some v) n (topic p) (first_publish p) (response_topic p).
Definition set_topic v p := mkPub (mid_sent p) (message p) (msglen p) (Some v) (first_publish p) (response_topic p).
Definition set_first_publish v p := mkPub (mid_sent p) (message p) (msglen p) (topic p) v (response_topic p).
Definition set_response_topic v p := mkPub (mid_sent p) (message p) (msglen p) (topic p) (first_publish p) (Some v).

Definition add_topic v s := mkSub (topics s ++ [v]) (recv_message s) (no_retain s) (retained_only s)
  (remove_retained s) (unsub_topics s).
Definition set_recv_message v s := mkSub (topics s) (Some v) (no_retain s) (retained_only s)
  (remove_retained s) (unsub_topics s).

(** ** The library *)

(** The calls that change something, and what they are given. *)
Inductive mosq_call :=
| LibInit
| LibCleanup
| ProtocolVersion (version : Z)
| MaxInflight (n : Z)
| WillSet (topic : cstr) (payloadlen : Z) (payload : option cstr) (qos : Z) (retain : bool)
| UsernamePw (username : cstr) (password : option cstr)
| Connect (host : option cstr) (port keepalive : Z)
| SubscribeMultiple (topics : list cstr) (qos : Z)
| Unsubscribe (topic : cstr)
| Publish (topic : option cstr) (payload : list Z) (qos : Z) (retain : bool)
| Disconnect.

(** [struct mosquitto_message]: [payload] is what can be read from the pointer. *)
Record mosquitto_message := mkMessage {
  msg_topic : cstr; payload : option (list Z); payloadlen : Z; msg_retain : bool }.

(** What the library calls back for. *)
Inductive mosq_event :=
| Connected (result : Z)
| Received (m : mosquitto_message)
| Published (mid reason_code : Z)
| Subscribed (mid : Z) (granted_qos : list Z)
| Disconnected (rc : Z)
| Logged (s : cstr).

(** The commands properties are checked for. *)
Inductive mqtt_command := CMD_CONNECT | CMD_PUBLISH | CMD_SUBSCRIBE | CMD_UNSUBSCRIBE | CMD_DISCONNECT | CMD_WILL.

(** [mosq_do] is the return code of a call and the message identifier it
    stores, if it stores one.  [mosq_poll forever] is what [mosquitto_loop_forever]
    and [mosquitto_loop] do next: call back or return. *)
Class Mosquitto (mosq : Type) := {
  mosquitto_property : Type;
  mosquitto_validate_utf8 : cstr -> Z;
  mosquitto_pub_topic_check : cstr -> Z;
  mosquitto_property_check_all : mqtt_command -> option mosquitto_property -> Z;
  mosquitto_new : cstr -> bool -> option mosq;
  mosq_do : mosq_call -> mosq -> Z * option Z * mosq;
  mosq_poll : bool -> mosq -> (mosq_event + Z) * mosq
}.

Definition MOSQ_ERR_SUCCESS : Z := 0.
Definition MOSQ_ERR_INVAL : Z := 3.
Definition MQTT_PROTOCOL_V311 : Z := 4.
Definition MQTT_PROTOCOL_V5 : Z := 5.

(** ** State *)
Record mqtt_state (W mosq : Type) `{Mosquitto mosq} := mkMqtt {
  st_world : W; st_cfg : mosq_config_t mosquitto_property; st_mosq : option mosq; st_calls : list mosq_call }.
Arguments mkMqtt {W mosq H} st_world st_cfg st_mosq st_calls.
Arguments st_world {W mosq H} m.
Arguments st_cfg {W mosq H} m.
Arguments st_mosq {W mosq H} m.
Arguments st_calls {W mosq H} m.

Section Mqtt.
Context {W mosq : Type} {M : Mosquitto mosq}.

Definition mq := comp (mqtt_state W mosq).

Definition on_world {A} (m : comp W A) : mq A :=
  fun s => match m (st_world s) with
           | Some (a, w) => Some (a, mkMqtt w (st_cfg s) (st_mosq s) (st_calls s))
           | None => None
           end.

(** A call on the client object; the library refuses a NULL one. *)
Definition perform (c : mosq_call) : mq (Z * option Z) :=
  fun s => match st_mosq s with
           | Some m =>
               let '(rc, mid, m) := mosq_do c m in
               Some ((rc, mid), mkMqtt (st_world s) (st_cfg s) (Some m) (st_calls s ++ [c]))
           | None => Some ((MOSQ_ERR_INVAL, None), s)
           end.

(** [mosquitto_lib_init] and [mosquitto_lib_cleanup]. *)
Definition lib_call (c : mosq_call) : mq unit :=
  modify (fun s => mkMqtt (st_world s) (st_cfg s) (st_mosq s) (st_calls s ++ [c])).

Definition set_cfg (cfg : mosq_config_t mosquitto_property) : mq unit :=
  modify (fun s => mkMqtt (st_world s) cfg (st_mosq s) (st_calls s)).

Definition set_mosq (m : option mosq) : mq unit :=
  modify (fun s => mkMqtt (st_world s) (st_cfg s) m (st_calls s)).

Definition on_general (f : mosq_general_config_t -> mosq_general_config_t) : mq unit :=
  c ← gets st_cfg;
  set_cfg (mkMosqConfig (f (general_config c)) (pub_config c) (sub_config c) (property_config c)).

(** The parts that are NULL in some kinds of client. *)
Definition get_pub : mq mosq_pub_config_t := p ← gets (fun s => pub_config (st_cfg s)); check p.
Definition get_sub : mq mosq_sub_config_t := p ← gets (fun s => sub_config (st_cfg s)); check p.

Definition on_pub (f : mosq_pub_config_t -> mosq_pub_config_t) : mq unit :=
  p ← get_pub;
  c ← gets st_cfg;
  set_cfg (mkMosqConfig (general_config c) (Some (f p)) (sub_config c) (property_config c)).

Definition on_sub (f : mosq_sub_config_t -> mosq_sub_config_t) : mq unit :=
  p ← get_sub;
  c ← gets st_cfg;
  set_cfg (mkMosqConfig (general_config c) (pub_config c) (Some (f p)) (property_config c)).

(** ** [mqtt_common.c] *)

Definition zero_pub : mosq_pub_config_t := mkPub 0 None 0 None false None.
Definition zero_sub : mosq_sub_config_t := mkSub [] None false false false [].
Definition zero_props : mosq_property_config_t mosquitto_property := mkProps None None None None None None.

(** [first_publish] is set before the memory is cleared. *)
Definition init_mosq_config (type : client_type_t) : mq status_t :=
  let pub := if bool_decide (type = client_pub) || bool_decide (type = client_duplex) then Some zero_pub else None in
  let sub := if bool_decide (type = client_sub) || bool_decide (type = client_duplex) then Some zero_sub else None in
  _ ← set_cfg (mkMosqConfig
        (mkGeneral None MQTT_PROTOCOL_V311 60 None (-1) 1 0 type 20 None None None None 0 0 false false true)
        pub sub zero_props);
  mret SC_OK.

Definition cfg_add_topic (type : client_type_t) (t : cstr) : mq status_t :=
  if negb (mosquitto_validate_utf8 t =? 0) then mret SC_MQTT_TOPIC_SET
  else if mosquitto_pub_topic_check t =? MOSQ_ERR_INVAL then mret SC_MQTT_TOPIC_SET
  else
    _ ← (if bool_decide (type = client_pub) || bool_decide (type = client_duplex) then
           _ ← on_pub (set_topic t);
           when (bool_decide (type = client_duplex)) (on_pub (set_response_topic t))
         else on_sub (add_topic t));
    mret SC_OK.

Definition fails (c : mosq_call) : mq bool :=
  '(rc, _) ← perform c; mret (negb (rc =? 0)).

Definition drop_will_props : mq unit :=
  c ← gets st_cfg;
  let p := property_config c in
  set_cfg (mkMosqConfig (general_config c) (pub_config c) (sub_config c)
    (mkProps (connect_props p) (publish_props p) (subscribe_props p) (unsubscribe_props p) (disconnect_props p) None)).

Definition mosq_opts_set : mq status_t :=
  mosq ← gets st_mosq;
  match mosq with
  | None => mret SC_NULL
  | Some _ =>
      g ← gets (fun s => general_config (st_cfg s));
      _ ← perform (ProtocolVersion (protocol_version g));
      failed ← match will_topic g with
               | Some t => fails (WillSet t (will_payloadlen g) (will_payload g) (will_qos g) (will_retain g))
               | None => mret false
               end;
      if (failed : bool) then _ ← lib_call LibCleanup; mret SC_MQTT_OPT_SET else
      _ ← drop_will_props;
      failed ← match username g with
               | Some u => fails (UsernamePw u (password g))
               | None => mret false
               end;
      if (failed : bool) then _ ← lib_call LibCleanup; mret SC_MQTT_OPT_SET else
      _ ← perform (MaxInflight (max_inflight g));
      mret SC_OK
  end.

Definition id_alphabet : cstr := lit "0123456789abcdefghijklmnopqrstuvwxyz".

(** The characters of the identifier; [rand i] is the [i]-th number after seeding. *)
Fixpoint random_id (rand : nat -> Z) (i n : nat) : option (list Z) :=
  match n with
  | O => Some []
  | S n => c ← get id_alphabet (Z.rem (rand i) 36); r ← random_id rand (S i) n; Some (c :: r)
  end.

(** The array of the identifier has [ID_LEN] characters and no NUL. *)
Definition generate_client_id (rand : nat -> Z) : mq status_t :=
  id ← check (random_id rand 0 ID_LEN);
  _ ← on_general (set_id (strncpy_data id ID_LEN));
  mret SC_OK.

Definition mosq_client_connect : mq status_t :=
  mosq ← gets st_mosq;
  match mosq with
  | None => mret SC_NULL
  | Some _ =>
      g ← gets (fun s => general_config (st_cfg s));
      let p := if port g <? 0 then 1883 else port g in
      failed ← fails (Connect (host g) p (keepalive g));
      if (failed : bool) then _ ← lib_call LibCleanup; mret SC_MQTT_CONNECT else mret SC_OK
  end.

(** ** [pub_utils.c] *)

(** [len] bytes from the start of a string, its NUL included. *)
Definition payload_bytes (s : option cstr) (len : Z) : option (list Z) :=
  match s with
  | None => if len =? 0 then Some [] else None
  | Some s => if (0 <=? len) && (len <=? strlen s + 1) then Some (take (Z.to_nat len) (s ++ [0])) else None
  end.

Definition store_mid (f : Z -> mosq_pub_config_t -> mosq_pub_config_t) (mid : option Z) : mq unit :=
  match mid with Some mid => on_pub (f mid) | None => mret tt end.

(** Called with [&cfg->pub_config->mid_sent] for [mid]. *)
Definition publish_message (t : option cstr) (payload_len : Z) (payload : option cstr) (q : Z) (ret : bool) : mq Z :=
  mosq ← gets st_mosq;
  match mosq with
  | None => mret SC_NULL
  | Some _ =>
      g ← gets (fun s => general_config (st_cfg s));
      p ← get_pub;
      bytes ← check (payload_bytes payload payload_len);
      if (protocol_version g =? MQTT_PROTOCOL_V5) && negb (first_publish p) then
        '(rc, mid) ← perform (Publish None bytes q ret);
        _ ← store_mid set_mid_sent mid;
        mret rc
      else
        _ ← on_pub (set_first_publish false);
        '(rc, mid) ← perform (Publish t bytes q ret);
        _ ← store_mid set_mid_sent mid;
        mret rc
  end.

Definition mosquitto_disconnect : mq unit := _ ← perform Disconnect; mret tt.

Definition connect_callback_pub_func (result : Z) : mq unit :=
  if result =? 0 then
    p ← get_pub;
    g ← gets (fun s => general_config (st_cfg s));
    rc ← publish_message (topic p) (msglen p) (message p) (qos g) (retain g);
    when (negb (rc =? 0)) mosquitto_disconnect
  else mret tt.

Definition publish_callback_pub_func (mid reason_code : Z) : mq unit := mosquitto_disconnect.

Definition isNone {A} (o : option A) : bool := match o with None => true | _ => false end.
Definition isSome {A} (o : option A) : bool := negb (isNone o).

(** The properties in the order they are checked. *)
Definition checked_props (p : mosq_property_config_t mosquitto_property) : list (mqtt_command * option mosquitto_property) :=
  [(CMD_CONNECT, connect_props p); (CMD_PUBLISH, publish_props p); (CMD_SUBSCRIBE, subscribe_props p);
   (CMD_UNSUBSCRIBE, unsubscribe_props p); (CMD_DISCONNECT, disconnect_props p); (CMD_WILL, will_props p)].

Definition init_check_error (type : client_type_t) : mq status_t :=
  g ← gets (fun s => general_config (st_cfg s));
  if isSome (will_payload g) && isNone (will_topic g) then mret SC_MQTT_INIT
  else if will_retain g && isNone (will_topic g) then mret SC_MQTT_INIT
  else if negb (clean_session g) && isNone (client_id g) then mret SC_MQTT_INIT
  else
    no_topic ← (if bool_decide (type = client_sub)
                then s ← get_sub; mret (bool_decide (topics s = [])) else mret false);
    if (no_topic : bool) then mret SC_MQTT_INIT else
    _ ← when (isNone (host g)) (on_general (set_host (lit "localhost")));
    p ← gets (fun s => property_config (st_cfg s));
    if forallb (fun '(cmd, l) => mosquitto_property_check_all cmd l =? 0) (checked_props p)
    then mret MOSQ_ERR_SUCCESS else mret SC_MQTT_INIT.

(** ** [sub_utils.c] *)

Definition dump_message (m : mosquitto_message) : mq status_t :=
  match payload m with
  | None => mret SC_NULL
  | Some bytes =>
      if payloadlen m =? 0 then mret SC_NULL else
      text ← check (c_string bytes);
      _ ← on_sub (set_recv_message text);
      mret SC_OK
  end.

Definition publish_callback_sub_func (mid reason_code : Z) : mq unit :=
  g ← gets (fun s => general_config (st_cfg s));
  when ((mid =? last_mid g) || (last_mid g =? 0)) mosquitto_disconnect.

Definition message_callback_sub_func (m : mosquitto_message) : mq unit :=
  s ← get_sub;
  _ ← when (remove_retained s && msg_retain m)
        ('(_, mid) ← perform (Publish (Some (msg_topic m)) [] 1 true);
         match mid with Some mid => on_general (set_last_mid mid) | None => mret tt end);
  if retained_only s && negb (msg_retain m) then
    g ← gets (fun s => general_config (st_cfg s));
    when (last_mid g =? 0) mosquitto_disconnect
  else if msg_retain m && no_retain s then mret tt
  else _ ← dump_message m; mret tt.

Fixpoint unsubscribe_all (l : list cstr) : mq unit :=
  match l with [] => mret tt | t :: r => _ ← perform (Unsubscribe t); unsubscribe_all r end.

Definition connect_callback_sub_func (result : Z) : mq unit :=
  if result =? 0 then
    s ← get_sub;
    g ← gets (fun s => general_config (st_cfg s));
    _ ← perform (SubscribeMultiple (topics s) (qos g));
    unsubscribe_all (unsub_topics s)
  else mosquitto_disconnect.

End Mqtt.

(** [strcat (buf, s)]; [None] when it leaves the buffer. *)
Definition strcat (buf : list Z) (s : cstr) : option (list Z) :=
  t ← c_string buf; overwrite buf (length t) (s ++ [0]).

(** The text of the granted qualities of service in [subscribe_callback_sub_func]:
    three bytes for each, of which the first is printed apart. *)
Fixpoint qos_text (buf : list Z) (l : list Z) : option (list Z) :=
  match l with
  | [] => Some buf
  | q :: r => buf ← strcat buf (snprintf_text 4 (lit ", " ++ dec q)); qos_text buf r
  end.

(** What [subscribe_callback_sub_func] logs. *)
Definition subscribe_callback_sub_func (mid : Z) (granted_qos : list Z) : option cstr :=
  buf ← qos_text (replicate (length granted_qos * 3) 0) (tail granted_qos);
  q ← head granted_qos;
  text ← c_string buf;
  Some (lit "Subscribed (mid: " ++ dec mid ++ lit "): " ++ dec q ++ text ++ [10]).

(** ** The text of a subscription *)

Lemma dec_no_nul n : 0 ∉ dec n.
Proof.
  assert (forall m, 0 <= m -> 0 ∉ dec_nat m) as Hnat.
  { intros m Hm Hin. destruct (dec_nat_spec m Hm) as (Hf & _ & _). rewrite Forall_forall in Hf.
    specialize (Hf 0 Hin). done. }
  unfold dec. destruct (Z.ltb_spec n 0); [|apply Hnat; lia].
  apply not_elem_of_cons. split; [done|]. apply Hnat. lia.
Qed.

(** What is appended for one quality of service. *)
Definition qos_piece (q : Z) : cstr := snprintf_text 4 (lit ", " ++ dec q).

Lemma qos_piece_spec q : 0 ∉ qos_piece q /\ (length (qos_piece q) <= 3)%nat.
Proof.
  unfold qos_piece, snprintf_text. split; [|rewrite length_take; lia].
  intros Hin. apply list_elem_of_lookup in Hin as (i & Hi). apply lookup_take_Some in Hi as [Hi _].
  apply list_elem_of_lookup_2 in Hi. apply elem_of_app in Hi as [Hi|Hi]; [|by apply dec_no_nul in Hi].
  apply (bool_decide_eq_true_2 _) in Hi. vm_compute in Hi. discriminate.
Qed.

Lemma strcat_run t n s : 0 ∉ t -> (length s < n)%nat ->
  strcat (t ++ replicate n 0) s = Some ((t ++ s) ++ replicate (n - length s) 0).
Proof.
  intros H0 Hn. unfold strcat. destruct n as [|n]; [lia|]. cbn [replicate]. rewrite c_string_nul by done.
  bind_simpl. unfold overwrite. rewrite decide_True
    by (rewrite !length_app; cbn [length]; rewrite length_replicate; lia). f_equal. rewrite length_app.
  rewrite take_app_length, <- !app_assoc. do 2 f_equal.
  rewrite drop_app_ge by lia. replace (length t + (length s + length [0%Z]) - length t)%nat with (S (length s)) by (cbn; lia).
  cbn [drop]. rewrite drop_replicate. replace (S n - length s)%nat with (S (n - length s)) by lia. done.
Qed.

Lemma qos_text_run l : forall t n, 0 ∉ t -> (3 * length l < n)%nat ->
  exists k, qos_text (t ++ replicate n 0) l = Some ((t ++ (l ≫= qos_piece)) ++ replicate (S k) 0).
Proof.
  induction l as [|q l IH]; intros t n H0 Hn.
  - destruct n as [|n]; [lia|]. exists n. cbn [qos_text mbind list_bind]. by rewrite app_nil_r.
  - destruct (qos_piece_spec q) as [Hq Hl]. cbn [qos_text length] in *. fold (qos_piece q).
    rewrite strcat_run by (done || lia). bind_simpl.
    destruct (IH (t ++ qos_piece q) (n - length (qos_piece q))%nat) as (k & E).
    + by apply not_elem_of_app.
    + lia.
    + exists k. rewrite E. do 2 f_equal. rewrite <- app_assoc. reflexivity.
Qed.

(** The buffer for the granted qualities of service is large enough for any
    broker: whatever codes it grants, three bytes for each, of which the first
    is printed apart, hold the cut texts and the NUL, and the text logged lists
    them in order. *)
Theorem subscribe_text_fits mid q r :
  subscribe_callback_sub_func mid (q :: r) =
    Some (lit "Subscribed (mid: " ++ dec mid ++ lit "): " ++ dec q ++ (r ≫= qos_piece) ++ [10]).
Proof.
  unfold subscribe_callback_sub_func. cbn [tail head].
  destruct (qos_text_run r [] (length (q :: r) * 3)) as (k & E); [by intros ?%elem_of_nil|cbn [length]; lia|].
  cbn [app] in E. rewrite E. bind_simpl. cbn [replicate]. rewrite c_string_nul; [done|].
  clear E. induction r as [|x r IH]; [by intros ?%elem_of_nil|]. change (0 ∉ qos_piece x ++ (r ≫= qos_piece)). apply not_elem_of_app. split; [apply qos_piece_spec|done].
Qed.
