(* ===== verification/MqttDuplex.v ===== *)
(** * The MQTT server ([connectivity/mqtt/duplex_callback.c], [duplex_utils.c], [accelerator/mqtt_main.c])

    The accelerator as an MQTT client that takes one request at a time: it
    subscribes to a topic per API function, disconnects when a message has
    arrived, executes the request, connects again and publishes the answer on
    the topic of the request followed by the identifier of the device. *)

From S2P Require Import Prelude TaErrors Utils Cache Regex Json World Pow Config Serializer Core Buffer Apis Http Mqtt.

(** The fields of [ta_config_t] that only builds with [MQTT_ENABLE] have. *)
Record mqtt_conf_t := mkMqttConf { mqtt_host : cstr; mqtt_topic_root : cstr }.

(** Bytes behind two arrays that belong to no other object.  The language
    grants none ([strict]), and then [mqtt_request_handler] is undefined for every
    request that names its device, since it copies 33 bytes into the 32 of
    [device_id], and so is [duplex_config_init], which reads behind the
    identifier of the client; compilers and allocators leave some, and what
    the program does then is modelled too. *)
Record layout := mkLayout { behind_device_id : list Z; behind_client_id : list Z }.

Definition strict : layout := mkLayout [] [].

(** ** Topics *)

Definition api_names : list cstr :=
  [lit "address"; lit "tag/hashes"; lit "tag/object"; lit "transaction/object"; lit "tryte"; lit "transaction";
   lit "transaction/send"].

Definition sub_topic (root_path name : cstr) : cstr := root_path ++ lit "/" ++ name.

(** The branches of [mqtt_request_handler]. *)
Inductive mqtt_route :=
| find_transactions_by_tag | find_transactions_obj_by_tag | find_transaction_object_single
| find_transaction_objects | send_transfer | send_trytes | echo.

Definition route_topic (api_sub_topic : cstr) : mqtt_route :=
  if matches api_sub_topic (lit "/tag/hashes") then find_transactions_by_tag
  else if matches api_sub_topic (lit "/tag/object") then find_transactions_obj_by_tag
  else if matches api_sub_topic (lit "/transaction") then find_transaction_object_single
  else if matches api_sub_topic (lit "/transaction/object") then find_transaction_objects
  else if matches api_sub_topic (lit "/transaction/send") then send_transfer
  else if matches api_sub_topic (lit "/tryte") then send_trytes
  else echo.

Definition is_tryte_char (c : Z) : bool := negb (((c >? 90) || (c <? 65)) && negb (c =? 57)).

Definition check_valid_tag (tag : list Z) : option status_t :=
  len ← strnlen tag (N_TAG + 1);
  Some (if (len <? 1)%nat || (N_TAG <? len)%nat then SC_MQTT_INVALID_TAG
        else if forallb is_tryte_char (take len tag) then SC_OK else SC_MQTT_INVALID_TAG).

(** [ptr + n] for a string of which at least [n] characters must be there. *)
Definition skip_chars (s : cstr) (n : nat) : option cstr :=
  if decide (n <= length s)%nat then Some (drop n s) else None.

Section Duplex.
Context {net os db : Type} {lib : IotaLib} {txt : JsonText}
  {node : IotaNode net} {proxy : ProxyLib net} {sys : Os os} {server : RedisServer db}
  {mosq : Type} {M : Mosquitto mosq}.
Context (uninit : nat -> list Z) (value0 len0 : Z) (L : layout) (rand : nat -> Z).
Context (core : ta_core_t) (conf : mqtt_conf_t).
Abbreviation mq := (@mq (world net os db) mosq M).
Abbreviation api_result := (proc (net := net) (os := os) (db := db) (status_t * option cstr)) (only parsing).

(** ** [duplex_utils.c] *)

Definition gossip_channel_set (h sub pub : option cstr) : mq status_t :=
  match h, sub, pub with
  | None, None, None => mret SC_NULL
  | _, _, _ =>
      _ ← match h with
          | Some h => _ ← on_general (set_host h); on_general (set_client_type client_pub)
          | None => mret tt
          end;
      ret ← match sub with Some t => cfg_add_topic client_sub t | None => mret SC_OK end;
      if negb (ret =? SC_OK) then mret ret else
      match pub with Some t => cfg_add_topic client_pub t | None => mret ret end
  end.

Fixpoint add_channels (root_path : cstr) (names : list cstr) : mq status_t :=
  match names with
  | [] => mret SC_OK
  | n :: r =>
      ret ← gossip_channel_set None (Some (sub_topic root_path n)) None;
      if negb (ret =? SC_OK) then mret ret else add_channels root_path r
  end.

Definition gossip_api_channels_set (h root_path : option cstr) : mq status_t :=
  match h, root_path with
  | Some h, Some root_path =>
      _ ← on_general (set_host h);
      _ ← on_general (set_client_type client_pub);
      add_channels root_path api_names
  | _, _ => mret SC_NULL
  end.

Definition gossip_message_set (m : option cstr) : mq status_t :=
  match m with
  | None => mret SC_NULL
  | Some m => _ ← on_pub (set_message m (strlen m)); mret SC_OK
  end.

(** The identifier is passed as a string although its array holds no NUL; the
    result of [init_check_error] is ignored. *)
Definition duplex_config_init : mq status_t :=
  _ ← init_mosq_config client_duplex;
  _ ← lib_call LibInit;
  ret ← generate_client_id rand;
  if negb (ret =? SC_OK) then mret ret else
  _ ← init_check_error client_pub;
  id ← gets (fun s => client_id (general_config (st_cfg s)));
  id ← check id;
  id ← check (c_string (id ++ behind_client_id L));
  _ ← set_mosq (mosquitto_new id true);
  m ← gets st_mosq;
  match m with
  | None => mret SC_MQTT_MOSQ_OBJ_INIT_ERROR
  | Some _ => mosq_opts_set
  end.

(** ** [duplex_callback.c] *)

(** The API function of a topic, on the text of the request. *)
Definition on_tag (req : cstr) (f : list Z -> api_result) : api_result :=
  '(_, tag) ← check (mqtt_tag_req_deserialize (Some req) (replicate (N_TAG + 1) 0));
  valid ← check (check_valid_tag tag);
  if valid =? SC_OK then f tag else mret (SC_HTTP_URL_NOT_MATCH, None).

Definition mqtt_api (api_sub_topic req : cstr) : api_result :=
  let iota_service := ta_set_iota_client_service (iota_service core) in
  match route_topic api_sub_topic with
  | find_transactions_by_tag =>
      on_tag req (fun tag => api_find_transactions_by_tag uninit iota_service (Some tag))
  | find_transactions_obj_by_tag =>
      on_tag req (fun tag => api_find_transactions_obj_by_tag uninit iota_service (Some tag))
  | find_transaction_object_single =>
      '(_, hash) ← check (mqtt_transaction_hash_req_deserialize (Some req) (uninit (N_HASH + 1)));
      api_find_transaction_object_single iota_service hash
  | find_transaction_objects => api_find_transaction_objects iota_service (Some req)
  | send_transfer => api_send_transfer value0 len0 core iota_service (Some req)
  | send_trytes => api_send_trytes (ta_conf core) (iota_conf core) iota_service (Some req)
  | echo => mret (SC_OK, Some (cJSON_PrintUnformatted (add_string (JObject []) "message" api_sub_topic)))
  end.

(** The topic of the answer; its buffer has room for an identifier of [ID_LEN]
    characters. *)
Definition response_topic_of (subscribe_topic device_id : cstr) : cstr :=
  snprintf_text (length subscribe_topic + 1 + ID_LEN + 1) (subscribe_topic ++ lit "/" ++ device_id).

(** [mqtt_request_handler] after the identifier of the device has been read. *)
Definition mqtt_process (subscribe_topic req : cstr) (device_id : list Z) : mq status_t :=
  api_sub_topic ← check (skip_chars subscribe_topic (length (mqtt_topic_root conf)));
  '(ret, json_result) ← on_world (mqtt_api api_sub_topic req);
  let json_result := (set_response_content ret json_result).2 in
  device_id ← check (c_string device_id);
  ret ← gossip_channel_set None None (Some (response_topic_of subscribe_topic device_id));
  if negb (ret =? SC_OK) then mret ret else gossip_message_set json_result.

Definition mqtt_request_handler (subscribe_topic : cstr) (req : option cstr) : mq status_t :=
  match req with
  | None => mret SC_NULL
  | Some req =>
      '(ret, device_id) ← check (mqtt_device_id_deserialize (Some req) (replicate ID_LEN 0 ++ behind_device_id L));
      if negb (ret =? SC_OK) then mret ret else mqtt_process subscribe_topic req device_id
  end.

Definition message_callback_duplex_func (m : mosquitto_message) : mq unit :=
  _ ← message_callback_sub_func m;
  _ ← mosquitto_disconnect;
  s ← get_sub;
  _ ← mqtt_request_handler (msg_topic m) (recv_message s);
  mret tt.

Definition connect_callback_duplex_func (result : Z) : mq unit :=
  g ← gets (fun s => general_config (st_cfg s));
  match client_type g with
  | client_pub => connect_callback_pub_func result
  | client_sub => connect_callback_sub_func result
  | client_duplex => mret tt
  end.

(** The callbacks [duplex_callback_func_set] registers. *)
Definition duplex_callback (e : mosq_event) : mq unit :=
  match e with
  | Connected result => connect_callback_duplex_func result
  | Received m => message_callback_duplex_func m
  | Published mid reason_code => publish_callback_pub_func mid reason_code
  | Subscribed mid granted_qos => _ ← check (subscribe_callback_sub_func mid granted_qos); mret tt
  | Disconnected _ => mret tt
  | Logged _ => mret tt
  end.

(** ** Running *)

Definition poll (forever : bool) : mq (mosq_event + Z) :=
  fun s => match st_mosq s with
           | Some m => let '(r, m) := mosq_poll forever m in
                       Some (r, mkMqtt (st_world s) (st_cfg s) (Some m) (st_calls s))
           | None => Some (inr MOSQ_ERR_INVAL, s)
           end.

(** [mosquitto_loop_forever] and [mosquitto_loop]: callbacks until the library
    returns; [None] is running out of fuel. *)
Fixpoint mosq_loop (forever : bool) (fuel : nat) : mq (option Z) :=
  match fuel with
  | O => mret None
  | S fuel =>
      r ← poll forever;
      match r with
      | inr rc => mret (Some rc)
      | inl e => _ ← duplex_callback e; mosq_loop forever fuel
      end
  end.

(** [fuel] bounds the callbacks of one call, [rounds] the calls. *)
Fixpoint publish_loop (fuel rounds : nat) : mq (option status_t) :=
  match rounds with
  | O => mret None
  | S rounds =>
      rc ← mosq_loop false fuel;
      match rc with
      | None => mret None
      | Some rc => if rc =? MOSQ_ERR_SUCCESS then publish_loop fuel rounds else mret (Some SC_OK)
      end
  end.

Definition duplex_client_start (fuel : nat) : mq (option status_t) :=
  m ← gets st_mosq;
  match m with
  | None => mret (Some SC_NULL)
  | Some _ =>
      _ ← on_general (set_client_type client_sub);
      ret ← mosq_client_connect;
      if negb (ret =? SC_OK) then mret (Some ret) else
      rc ← mosq_loop true fuel;
      match rc with
      | None => mret None
      | Some rc =>
          if negb (rc =? 0) then mret (Some rc) else
          _ ← on_general (set_client_type client_pub);
          ret ← mosq_client_connect;
          if negb (ret =? SC_OK) then mret (Some ret) else publish_loop fuel fuel
      end
  end.

(** [do ... while (!ret)] of [mqtt_main.c]. *)
Fixpoint serve (fuel requests : nat) : mq (option status_t) :=
  match requests with
  | O => mret None
  | S n =>
      ret ← duplex_client_start fuel;
      match ret with
      | None => mret None
      | Some ret => if ret =? SC_OK then serve fuel n else mret (Some ret)
      end
  end.

(** [main] after the configuration has been read. *)
Definition mqtt_main (fuel requests : nat) : mq (option status_t) :=
  ret ← duplex_config_init;
  if negb (ret =? SC_OK) then mret (Some ret) else
  ret ← gossip_api_channels_set (Some (mqtt_host conf)) (Some (mqtt_topic_root conf));
  if negb (ret =? SC_OK) then mret (Some ret) else serve fuel requests.

End Duplex.

(** ** Topics *)

(** The table of [usage.md]. *)
Definition mqtt_table : list (cstr * mqtt_route) :=
  [(lit "/tag/hashes", find_transactions_by_tag); (lit "/tag/object", find_transactions_obj_by_tag);
   (lit "/transaction", find_transaction_object_single); (lit "/transaction/object", find_transaction_objects);
   (lit "/transaction/send", send_transfer); (lit "/tryte", send_trytes)].

Definition table_route (t : cstr) : mqtt_route :=
  default echo (snd <$> (snd <$> list_find (fun e => e.1 = t) mqtt_table)).

Lemma lang_lits_eps p s : lang (lits p Eps) s <-> s = p.
Proof.
  revert s. induction p as [|c p IH]; intros s; [apply lang_Eps|]. simpl. rewrite lang_Cat. split.
  - intros (t & u & -> & Ht & Hu). apply lang_Cls in Ht as (d & -> & Hd). apply IH in Hu as ->.
    cbn in Hd. rewrite orb_false_r, andb_true_iff in Hd. destruct Hd as [H1%Z.leb_le H2%Z.leb_le].
    cbn. f_equal. lia.
  - intros ->. exists [c], p. split; [done|]. split; [|by apply IH]. constructor. cbn. by rewrite !Z.leb_refl.
Qed.

(** A rule without special characters matches itself only. *)
Lemma matches_literal p t : regcomp p = Some (lits p Eps) -> matches t p = if decide (p = t) then true else false.
Proof.
  intros Hr. rewrite (matches_matchb _ _ _ Hr). destruct (matchb (lits p Eps) t) eqn:E.
  - apply matchb_lang, lang_lits_eps in E. by rewrite decide_True.
  - rewrite decide_False; [done|]. intros ->. apply not_true_iff_false in E. destruct E.
    by apply matchb_lang, lang_lits_eps.
Qed.

(** Requests reach the function of the documented table: the part of a topic
    behind the root selects a function exactly if it is the entry of that
    function in the table, everything else is echoed, and the part of a
    subscribed topic behind the root is its name. *)
Theorem mqtt_topics_served root t :
  (forall name, skip_chars (sub_topic root name) (length root) = Some (lit "/" ++ name)) /\
  route_topic t = table_route t.
Proof.
  split.
  - intros name. unfold skip_chars, sub_topic. rewrite decide_True by (rewrite length_app; lia).
    by rewrite drop_app_length.
  - unfold route_topic, table_route, mqtt_table.
    rewrite !(matches_literal _ t) by reflexivity.
    cbn [list_find fst].
    repeat (case_decide; [reflexivity|]). reflexivity.
Qed.

(** ** Requests *)

(** The request is a JSON text with the string member [device_id]. *)
Definition gives_device_id `{JsonText} (req d : cstr) : Prop :=
  exists j, cJSON_Parse req = Some j /\ get_item j (lit "device_id") ≫= valuestring = Some d.

Lemma device_id_read `{JsonText} req d out : gives_device_id req d ->
  mqtt_device_id_deserialize (Some req) out =
    (fun t => (SC_OK, t)) <$> overwrite out 0 (strncpy_data d (ID_LEN + 1)).
Proof.
  intros (j & Hp & Hd). unfold mqtt_device_id_deserialize, string_req_deserialize. rewrite Hp.
  unfold ta_json_get_string. destruct (get_item j (lit "device_id")) as [v|]; [|done].
  cbn in Hd. rewrite Hd. by destruct (overwrite _ _ _).
Qed.

Lemma device_id_copied d x rest : 0 ∉ d -> (length d <= ID_LEN)%nat ->
  exists id, overwrite (replicate ID_LEN 0 ++ x :: rest) 0 (strncpy_data d (ID_LEN + 1)) = Some id /\
    c_string id = Some d.
Proof.
  intros H0 Hl. rewrite overwrite_start
    by (rewrite length_strncpy_data, length_app, length_replicate; cbn [length]; lia).
  eexists. split; [done|]. unfold strncpy_data. rewrite take_ge by lia. rewrite str_of_buf_no_nul by done.
  replace (ID_LEN + 1 - length d)%nat with (S (ID_LEN - length d)) by lia. cbn [replicate].
  rewrite <- app_assoc. apply c_string_nul, H0.
Qed.

Section Properties.
Context {net os db : Type} {lib : IotaLib} {txt : JsonText}
  {node : IotaNode net} {proxy : ProxyLib net} {sys : Os os} {server : RedisServer db}
  {mosq : Type} {M : Mosquitto mosq}.
Context (uninit : nat -> list Z) (value0 len0 : Z).
Context (core : ta_core_t) (conf : mqtt_conf_t).
Abbreviation state := (mqtt_state (world net os db) mosq).

(** What [cfg_add_topic] asks of a topic. *)
Definition valid_topic (t : cstr) : Prop :=
  mosquitto_validate_utf8 t = 0 /\ mosquitto_pub_topic_check t <> MOSQ_ERR_INVAL.

Definition map_pub (f : mosq_pub_config_t -> mosq_pub_config_t) (s : state) : state :=
  let c := st_cfg s in
  mkMqtt (st_world s) (mkMosqConfig (general_config c) (f <$> pub_config c) (sub_config c) (property_config c))
    (st_mosq s) (st_calls s).

Definition map_sub (f : mosq_sub_config_t -> mosq_sub_config_t) (s : state) : state :=
  let c := st_cfg s in
  mkMqtt (st_world s) (mkMosqConfig (general_config c) (pub_config c) (f <$> sub_config c) (property_config c))
    (st_mosq s) (st_calls s).

Definition map_general (f : mosq_general_config_t -> mosq_general_config_t) (s : state) : state :=
  let c := st_cfg s in
  mkMqtt (st_world s) (mkMosqConfig (f (general_config c)) (pub_config c) (sub_config c) (property_config c))
    (st_mosq s) (st_calls s).

Definition set_world (w : world net os db) (s : state) : state :=
  mkMqtt w (st_cfg s) (st_mosq s) (st_calls s).

Lemma on_pub_run f (s : state) : is_Some (pub_config (st_cfg s)) -> on_pub f s = Some (tt, map_pub f s).
Proof. intros [p E]. unfold on_pub, get_pub, set_cfg, map_pub. comp_simpl. by rewrite E. Qed.

Lemma on_sub_run f (s : state) : is_Some (sub_config (st_cfg s)) -> on_sub f s = Some (tt, map_sub f s).
Proof. intros [p E]. unfold on_sub, get_sub, set_cfg, map_sub. comp_simpl. by rewrite E. Qed.

Lemma on_general_run f (s : state) : on_general f s = Some (tt, map_general f s).
Proof. done. Qed.

Lemma map_pub_some f (s : state) : is_Some (pub_config (st_cfg s)) -> is_Some (pub_config (st_cfg (map_pub f s))).
Proof. intros [p E]. cbn. rewrite E. by eexists. Qed.

Lemma add_pub_topic t (s : state) : valid_topic t -> is_Some (pub_config (st_cfg s)) ->
  cfg_add_topic client_pub t s = Some (SC_OK, map_pub (set_topic t) s).
Proof.
  intros [Hu Hc] Hp. unfold cfg_add_topic. rewrite Hu. cbn [Z.eqb negb].
  destruct (Z.eqb_spec (mosquitto_pub_topic_check t) MOSQ_ERR_INVAL); [done|].
  rewrite bool_decide_true by done. cbn [orb].
  rewrite (comp_bind_eq _ _ _ tt (map_pub (set_topic t) s)); [done|].
  rewrite (comp_bind_eq _ _ _ _ _ (on_pub_run _ _ Hp)). by rewrite bool_decide_false.
Qed.

Lemma add_sub_topic t (s : state) : valid_topic t -> is_Some (sub_config (st_cfg s)) ->
  cfg_add_topic client_sub t s = Some (SC_OK, map_sub (add_topic t) s).
Proof.
  intros [Hu Hc] Hp. unfold cfg_add_topic. rewrite Hu. cbn [Z.eqb negb].
  destruct (Z.eqb_spec (mosquitto_pub_topic_check t) MOSQ_ERR_INVAL); [done|].
  rewrite bool_decide_false by done. rewrite bool_decide_false by done. cbn [orb].
  by rewrite (comp_bind_eq _ _ _ _ _ (on_sub_run _ _ Hp)).
Qed.

(** A request is answered to the device that sent it: on a topic below the
    root, with an identifier of at most 32 characters and a byte of padding
    behind the array of the identifier, the API function of the topic is called
    with the request, and its answer (or the error text) is prepared to be
    published on the topic of the request followed by the identifier. *)
Lemma request_answered L x rest suffix req d ret res answer (s : state) w' :
  behind_device_id L = x :: rest -> gives_device_id req d -> 0 ∉ d -> (length d <= ID_LEN)%nat ->
  mqtt_api uninit value0 len0 core suffix req (st_world s) = Some ((ret, res), w') ->
  (set_response_content ret res).2 = Some answer ->
  valid_topic (mqtt_topic_root conf ++ suffix ++ lit "/" ++ d) -> is_Some (pub_config (st_cfg s)) ->
  mqtt_request_handler uninit value0 len0 L core conf (mqtt_topic_root conf ++ suffix) (Some req) s =
    Some (SC_OK, map_pub (set_message answer (strlen answer))
                   (map_pub (set_topic (mqtt_topic_root conf ++ suffix ++ lit "/" ++ d)) (set_world w' s))).
Proof.
  intros HL Hd H0 Hl Hapi Hres Ht Hp. unfold mqtt_request_handler. rewrite HL, (device_id_read req d) by done.
  destruct (device_id_copied d x rest H0 Hl) as (id & -> & Hid). cbn [fmap option_fmap option_map].
  rewrite (comp_bind_eq _ _ _ (SC_OK, id) s) by done. cbn [Z.eqb SC_OK negb]. unfold mqtt_process.
  rewrite (comp_bind_eq _ _ _ suffix s).
  2:{ unfold skip_chars. rewrite decide_True by (rewrite length_app; lia). by rewrite drop_app_length. }
  rewrite (comp_bind_eq _ _ _ (ret, res) (set_world w' s)) by (unfold on_world; by rewrite Hapi).
  cbv zeta. rewrite Hres. rewrite (comp_bind_eq _ _ _ d (set_world w' s)) by (by rewrite Hid).
  assert (response_topic_of (mqtt_topic_root conf ++ suffix) d =
    mqtt_topic_root conf ++ suffix ++ lit "/" ++ d) as ->.
  { unfold response_topic_of, snprintf_text. rewrite take_ge; [by rewrite <- app_assoc|].
    rewrite !length_app. cbn [length lit map String.list_ascii_of_string]. lia. }
  cbn [gossip_channel_set]. rewrite (comp_bind_eq _ _ _ SC_OK (map_pub (set_topic (mqtt_topic_root conf ++ suffix ++ lit "/" ++ d)) (set_world w' s))).
  2:{ comp_simpl. by apply add_pub_topic. }
  unfold gossip_message_set. cbn [Z.eqb SC_OK negb].
  by rewrite (comp_bind_eq _ _ _ _ _ (on_pub_run _ _ (map_pub_some _ (set_world w' s) Hp))).
Qed.

(** With the arrays the source declares, every request that names its device
    is undefined behaviour: the identifier is copied with its padding, 33 bytes,
    into an array of 32. *)
Lemma device_id_overflows L topic req d (s : state) :
  behind_device_id L = [] -> gives_device_id req d ->
  mqtt_request_handler uninit value0 len0 L core conf topic (Some req) s = None.
Proof.
  intros HL Hd. unfold mqtt_request_handler. rewrite HL, (device_id_read req d) by done.
  unfold overwrite. rewrite decide_False; [done|].
  rewrite length_strncpy_data, app_nil_r, length_replicate. lia.
Qed.

Definition add_topics (l : list cstr) (sub : mosq_sub_config_t) : mosq_sub_config_t :=
  foldl (fun sub t => add_topic t sub) sub l.

Lemma add_channels_run root names : forall s : state, is_Some (sub_config (st_cfg s)) ->
  Forall valid_topic (map (sub_topic root) names) ->
  add_channels root names s = Some (SC_OK, map_sub (add_topics (map (sub_topic root) names)) s).
Proof.
  induction names as [|n names IH]; intros s [sub Hs] Hv.
  - unfold map_sub. cbn. rewrite Hs. cbn. rewrite <- Hs. by destruct s as [w [g p sb pr] m c].
  - apply Forall_cons in Hv as [Hn Hv]. cbn [add_channels gossip_channel_set].
    rewrite (comp_bind_eq _ _ _ SC_OK (map_sub (add_topic (sub_topic root n)) s)).
    2:{ comp_simpl. rewrite add_sub_topic by (done || by exists sub). done. }
    cbn [Z.eqb SC_OK negb]. rewrite IH; [|cbn; rewrite Hs; by eexists|done].
    do 2 f_equal. unfold map_sub. cbn. by rewrite Hs.
Qed.

(** The client subscribes to the topics of all the functions. *)
Theorem mqtt_channels_subscribed h root sub (s : state) :
  sub_config (st_cfg s) = Some sub -> Forall valid_topic (map (sub_topic root) api_names) ->
  exists s', gossip_api_channels_set (Some h) (Some root) s = Some (SC_OK, s') /\
    topics <$> sub_config (st_cfg s') = Some (topics sub ++ map (sub_topic root) api_names) /\
    host (general_config (st_cfg s')) = Some h /\ pub_config (st_cfg s') = pub_config (st_cfg s).
Proof.
  intros Hs Hv. unfold gossip_api_channels_set.
  rewrite (comp_bind_eq _ _ _ _ _ (on_general_run _ _)), (comp_bind_eq _ _ _ _ _ (on_general_run _ _)).
  rewrite add_channels_run; [|cbn; rewrite Hs; by eexists|done]. eexists. split; [done|].
  split; [|done]. cbn -[api_names]. rewrite Hs. cbn -[api_names]. f_equal.
  generalize (map (sub_topic root) api_names) as l. clear Hs Hv. intros l. revert sub.
  induction l as [|t l IH]; intros sub; [cbn; by rewrite app_nil_r|].
  change (add_topics (t :: l) sub) with (add_topics l (add_topic t sub)). rewrite IH. cbn. by rewrite <- app_assoc.
Qed.

(** *** A library whose calls succeed

    [pending] is what the loops of the library will do next. *)
Class ResponsiveLib := {
  pending : mosq -> list (mosq_event + Z);
  poll_pending b m x l : pending m = x :: l -> exists m', mosq_poll b m = (x, m') /\ pending m' = l;
  do_succeeds c m : exists mid m', mosq_do c m = (0, mid, m') /\ pending m' = pending m
}.

Section Exchange.
Context {R : ResponsiveLib} (L : layout) (rand : nat -> Z).

Abbreviation cfg_t := (mosq_config_t mosquitto_property) (only parsing).
Abbreviation callback := (duplex_callback uninit value0 len0 L core conf) (only parsing).
Abbreviation loop := (mosq_loop uninit value0 len0 L core conf) (only parsing).
Abbreviation publishing := (publish_loop uninit value0 len0 L core conf) (only parsing).

(** Configuration, world, what the library will do, and the calls made. *)
Definition at_state (cfg : cfg_t) (w : world net os db) (l : list (mosq_event + Z)) (calls : list mosq_call)
    (s : state) : Prop :=
  st_cfg s = cfg /\ st_world s = w /\ st_calls s = calls /\ exists m, st_mosq s = Some m /\ pending m = l.

(** [m] returns, with result [a] and in a state with [Q]. *)
Definition reaches {A} (m : Mqtt.mq (W := world net os db) A) (s : state) (a : A) (Q : state -> Prop) : Prop :=
  exists s', m s = Some (a, s') /\ Q s'.

Abbreviation leads m s a cfg w l calls := (reaches m s a (at_state cfg w l calls)).

Lemma leads_bind {A B} (m : Mqtt.mq A) (k : A -> Mqtt.mq B) s a P b Q :
  reaches m s a P -> (forall s', P s' -> reaches (k a) s' b Q) -> reaches (m ≫= k) s b Q.
Proof.
  intros (s1 & E & H1) Hk. destruct (Hk s1 H1) as (s2 & E2 & H2). exists s2. split; [|done]. by comp_step E.
Qed.

Lemma leads_ret {A} (a : A) s cfg w l calls : at_state cfg w l calls s -> leads (mret a) s a cfg w l calls.
Proof. intros H. by exists s. Qed.

Lemma leads_gets {A} (f : state -> A) s cfg w l calls : at_state cfg w l calls s -> leads (gets f) s (f s) cfg w l calls.
Proof. intros H. by exists s. Qed.

Lemma leads_perform c s cfg w l calls : at_state cfg w l calls s ->
  exists mid, leads (perform c) s (0, mid) cfg w l (calls ++ [c]).
Proof.
  intros (Hc & Hw & Hca & m & Hm & Hp). destruct (do_succeeds c m) as (mid & m' & E & Hp').
  exists mid. unfold reaches, perform. rewrite Hm, E. eexists. split; [done|].
  split; [done|]. split; [done|]. split; [by cbn; rewrite Hca|]. exists m'. split; [done|]. by rewrite Hp'.
Qed.

Lemma leads_poll b x s cfg w l calls : at_state cfg w (x :: l) calls s -> leads (poll b) s x cfg w l calls.
Proof.
  intros (Hc & Hw & Hca & m & Hm & Hp). destruct (poll_pending b m x l Hp) as (m' & E & Hp').
  unfold reaches, poll. rewrite Hm, E. eexists. split; [done|]. repeat split; try done. by exists m'.
Qed.

Lemma leads_general f s cfg w l calls : at_state cfg w l calls s ->
  leads (on_general f) s tt (mkMosqConfig (f (general_config cfg)) (pub_config cfg) (sub_config cfg) (property_config cfg))
    w l calls.
Proof.
  intros (Hc & Hw & Hca & m & Hm & Hp). exists (map_general f s). split; [done|].
  subst. repeat split. by exists m.
Qed.

Lemma leads_disconnect s cfg w l calls : at_state cfg w l calls s ->
  leads mosquitto_disconnect s tt cfg w l (calls ++ [Disconnect]).
Proof.
  intros H. destruct (leads_perform Disconnect _ _ _ _ _ H) as (mid & Hl). eapply leads_bind; [exact Hl|].
  intros s' H'. by apply leads_ret.
Qed.

(** The call [mosq_client_connect] makes. *)
Definition connect_call (g : mosq_general_config_t) : mosq_call :=
  Connect (host g) (if port g <? 0 then 1883 else port g) (keepalive g).

Lemma leads_connect s cfg w l calls : at_state cfg w l calls s ->
  leads mosq_client_connect s SC_OK cfg w l (calls ++ [connect_call (general_config cfg)]).
Proof.
  intros H. pose proof H as (Hc & _ & _ & m & Hm & _). unfold mosq_client_connect.
  eapply leads_bind; [by apply leads_gets|]. rewrite Hm. intros s1 H1.
  eapply leads_bind; [by apply leads_gets|]. intros s2 H2. cbv zeta.
  destruct (leads_perform (connect_call (general_config cfg)) _ _ _ _ _ H2) as (mid & Hl).
  destruct H1 as [-> _]. eapply leads_bind.
  - unfold fails. eapply leads_bind; [exact Hl|]. intros s3 H3. by apply leads_ret.
  - intros s4 H4. by apply leads_ret.
Qed.

(** Events that only log. *)
Definition quiet (e : mosq_event) : Prop :=
  match e with
  | Subscribed _ granted_qos => granted_qos <> []
  | Disconnected _ | Logged _ => True
  | _ => False
  end.

Lemma leads_quiet e s cfg w l calls : quiet e -> at_state cfg w l calls s -> leads (callback e) s tt cfg w l calls.
Proof.
  destruct e as [| | |mid [|q r]| |]; try done; intros _ H; try by apply leads_ret.
  cbn [duplex_callback]. rewrite subscribe_text_fits. eapply leads_bind; [by exists s|].
  intros s' H'. by apply leads_ret.
Qed.

(** One turn of a loop, and as many as there are quiet events. *)
Lemma loop_event b e fuel s a cfg w l calls cfg1 w1 calls1 Q :
  at_state cfg w (inl e :: l) calls s ->
  (forall s', at_state cfg w l calls s' -> leads (callback e) s' tt cfg1 w1 l calls1) ->
  (forall s', at_state cfg1 w1 l calls1 s' -> reaches (loop b fuel) s' a Q) ->
  reaches (loop b (S fuel)) s a Q.
Proof.
  intros H He Hk. cbn [mosq_loop]. eapply leads_bind; [by apply leads_poll|]. intros s1 H1. cbv beta iota.
  eapply leads_bind; [by apply He|]. done.
Qed.

Lemma loop_quiet b es : forall fuel s a cfg w l calls Q, Forall quiet es ->
  at_state cfg w (map inl es ++ l) calls s ->
  (forall s', at_state cfg w l calls s' -> reaches (loop b fuel) s' a Q) ->
  reaches (loop b (length es + fuel)) s a Q.
Proof.
  induction es as [|e es IH]; intros fuel s a cfg w l calls Q Hq H Hk; [by apply Hk|].
  apply Forall_cons in Hq as [He Hq]. cbn [length Nat.add map app] in *.
  eapply loop_event; [exact H| |].
  - intros s1 H1. by apply leads_quiet.
  - intros s1 H1. by eapply IH.
Qed.

Lemma loop_return b rc fuel s cfg w l calls : at_state cfg w (inr rc :: l) calls s ->
  leads (loop b (S fuel)) s (Some rc) cfg w l calls.
Proof.
  intros H. cbn [mosq_loop]. eapply leads_bind; [by apply leads_poll|]. intros s1 H1. by apply leads_ret.
Qed.

(** *** Callbacks *)

Lemma leads_sub p s cfg w l calls : at_state cfg w l calls s -> sub_config cfg = Some p ->
  leads get_sub s p cfg w l calls.
Proof. intros H Hp. exists s. split; [|done]. unfold get_sub. comp_simpl. destruct H as [-> _]. by rewrite Hp. Qed.

Lemma leads_pub p s cfg w l calls : at_state cfg w l calls s -> pub_config cfg = Some p ->
  leads get_pub s p cfg w l calls.
Proof. intros H Hp. exists s. split; [|done]. unfold get_pub. comp_simpl. destruct H as [-> _]. by rewrite Hp. Qed.

Lemma leads_on_pub f p s cfg w l calls : at_state cfg w l calls s -> pub_config cfg = Some p ->
  leads (on_pub f) s tt (mkMosqConfig (general_config cfg) (Some (f p)) (sub_config cfg) (property_config cfg)) w l calls.
Proof.
  intros (Hc & Hw & Hca & m & Hm & Hp) Hpub. exists (map_pub f s). split.
  - apply on_pub_run. rewrite Hc, Hpub. by eexists.
  - unfold map_pub. rewrite Hc, Hpub. repeat split; try done. by exists m.
Qed.

Lemma leads_on_sub f p s cfg w l calls : at_state cfg w l calls s -> sub_config cfg = Some p ->
  leads (on_sub f) s tt (mkMosqConfig (general_config cfg) (pub_config cfg) (Some (f p)) (property_config cfg)) w l calls.
Proof.
  intros (Hc & Hw & Hca & m & Hm & Hp) Hpub. exists (map_sub f s). split.
  - apply on_sub_run. rewrite Hc, Hpub. by eexists.
  - unfold map_sub. rewrite Hc, Hpub. repeat split; try done. by exists m.
Qed.

(** Connected as a subscriber. *)
Lemma leads_subscribe sub s cfg w l calls : at_state cfg w l calls s ->
  client_type (general_config cfg) = client_sub -> sub_config cfg = Some sub -> unsub_topics sub = [] ->
  leads (callback (Connected 0)) s tt cfg w l (calls ++ [SubscribeMultiple (topics sub) (qos (general_config cfg))]).
Proof.
  intros H Ht Hs Hu. cbn [duplex_callback]. unfold connect_callback_duplex_func.
  eapply leads_bind; [by apply leads_gets|]. pose proof H as [-> _]. rewrite Ht. intros s1 H1.
  unfold connect_callback_sub_func. cbn [Z.eqb].
  eapply leads_bind; [by eapply leads_sub|]. intros s2 H2.
  eapply leads_bind; [by apply leads_gets|]. pose proof H2 as [-> _]. intros s3 H3.
  destruct (leads_perform (SubscribeMultiple (topics sub) (qos (general_config cfg))) _ _ _ _ _ H3) as (mid & Hl).
  eapply leads_bind; [exact Hl|]. intros s4 H4. rewrite Hu. by apply leads_ret.
Qed.

(** Connected as a publisher. *)
Lemma leads_publish p bytes s cfg w l calls : at_state cfg w l calls s ->
  client_type (general_config cfg) = client_pub -> pub_config cfg = Some p ->
  protocol_version (general_config cfg) <> MQTT_PROTOCOL_V5 -> payload_bytes (message p) (msglen p) = Some bytes ->
  exists p', leads (callback (Connected 0)) s tt
    (mkMosqConfig (general_config cfg) (Some p') (sub_config cfg) (property_config cfg)) w l
    (calls ++ [Publish (topic p) bytes (qos (general_config cfg)) (retain (general_config cfg))]).
Proof.
  intros H Ht Hp Hv Hb. pose proof H as (Hc & _ & _ & m & Hm & _).
  destruct (leads_on_pub (set_first_publish false) p s cfg w l calls H Hp) as (s1 & E1 & H1).
  destruct (leads_perform (Publish (topic p) bytes (qos (general_config cfg)) (retain (general_config cfg))) s1 _ _ _ _ H1)
    as (mid & s2 & E2 & H2).
  assert (exists p' s', store_mid set_mid_sent mid s2 = Some (tt, s') /\ at_state
    (mkMosqConfig (general_config cfg) (Some p') (sub_config cfg) (property_config cfg)) w l
    (calls ++ [Publish (topic p) bytes (qos (general_config cfg)) (retain (general_config cfg))]) s') as (p' & s3 & E3 & H3).
  { destruct mid as [mid|]; [|by eexists _, s2]. eexists (set_mid_sent mid (set_first_publish false p)).
    exact (leads_on_pub (set_mid_sent mid) _ _ _ _ _ _ H2 eq_refl). }
  exists p', s3. split; [|exact H3].
  cbn [duplex_callback]. unfold connect_callback_duplex_func, connect_callback_pub_func, publish_message, get_pub.
  cbn [Z.eqb]. comp_simpl. repeat (progress (rewrite ?Hc, ?Ht, ?Hp, ?Hm, ?Hb); cbv beta iota).
  destruct (Z.eqb_spec (protocol_version (general_config cfg)) MQTT_PROTOCOL_V5); [done|]. cbn [andb].
  by rewrite E1, E2, E3.
Qed.

Lemma leads_published mid rc s cfg w l calls : at_state cfg w l calls s ->
  leads (callback (Published mid rc)) s tt cfg w l (calls ++ [Disconnect]).
Proof. apply leads_disconnect. Qed.

(** A message that is read and handled. *)
Lemma leads_message m text junk sub ret s cfg w l calls cfg' w' :
  at_state cfg w l calls s -> payload m = Some (text ++ 0 :: junk) -> payloadlen m <> 0 -> 0 ∉ text ->
  sub_config cfg = Some sub -> remove_retained sub = false -> retained_only sub = false -> no_retain sub = false ->
  (forall s', at_state (mkMosqConfig (general_config cfg) (pub_config cfg) (Some (set_recv_message text sub))
                          (property_config cfg)) w l (calls ++ [Disconnect]) s' ->
     leads (mqtt_request_handler uninit value0 len0 L core conf (msg_topic m) (Some text)) s' ret
       cfg' w' l (calls ++ [Disconnect])) ->
  leads (callback (Received m)) s tt cfg' w' l (calls ++ [Disconnect]).
Proof.
  intros H Hpl Hlen H0 Hs H1 H2 H3 Hh. cbn [duplex_callback]. unfold message_callback_duplex_func.
  eapply leads_bind.
  - unfold message_callback_sub_func. eapply leads_bind; [by eapply leads_sub|]. intros s1 Hs1.
    rewrite H1, H2, H3, andb_false_r. cbn [andb]. eapply leads_bind; [by apply leads_ret|]. intros s2 Hs2.
    unfold dump_message. rewrite Hpl. destruct (Z.eqb_spec (payloadlen m) 0); [done|].
    rewrite c_string_nul by done. eapply leads_bind; [|intros s4 Hs4; by apply leads_ret].
    eapply leads_bind; [by exists s2|]. intros s3 Hs3.
    eapply leads_bind; [by eapply leads_on_sub|]. intros s5 Hs5. by apply leads_ret.
  - intros s1 Hs1. eapply leads_bind; [by apply leads_disconnect|]. intros s2 Hs2.
    eapply leads_bind; [by eapply leads_sub|]. intros s3 Hs3. cbn [set_recv_message recv_message].
    eapply leads_bind; [by apply Hh|]. intros s4 Hs4. by apply leads_ret.
Qed.

(** *** The loop of a publisher *)

(** What is left of a call of the loop, and of the calls after it. *)
Definition publish_rest (fuel f rounds : nat) : Mqtt.mq (W := world net os db) (option status_t) :=
  rc ← loop false f;
  match rc with
  | None => mret None
  | Some rc => if rc =? MOSQ_ERR_SUCCESS then publishing fuel rounds else mret (Some SC_OK)
  end.

Lemma rest_event fuel f rounds e s a cfg w l calls cfg1 w1 calls1 Q :
  at_state cfg w (inl e :: l) calls s ->
  (forall s', at_state cfg w l calls s' -> leads (callback e) s' tt cfg1 w1 l calls1) ->
  (forall s', at_state cfg1 w1 l calls1 s' -> reaches (publish_rest fuel f rounds) s' a Q) ->
  reaches (publish_rest fuel (S f) rounds) s a Q.
Proof.
  intros H He Hk. destruct (leads_poll false _ _ _ _ _ _ H) as (s1 & E1 & H1).
  destruct (He s1 H1) as (s2 & E2 & H2). destruct (Hk s2 H2) as (s3 & E3 & H3). exists s3. split; [|done].
  rewrite <- E3. unfold publish_rest. cbn [mosq_loop]. unfold mbind, comp_mbind. rewrite E1, E2. done.
Qed.

Lemma rest_again fuel f rounds s a cfg w l calls Q :
  at_state cfg w (inr MOSQ_ERR_SUCCESS :: l) calls s ->
  (forall s', at_state cfg w l calls s' -> reaches (publish_rest fuel fuel rounds) s' a Q) ->
  reaches (publish_rest fuel (S f) (S rounds)) s a Q.
Proof.
  intros H Hk. unfold publish_rest at 1. eapply leads_bind; [by apply loop_return|]. exact Hk.
Qed.

Lemma rest_done fuel f rounds rc s cfg w l calls : rc <> MOSQ_ERR_SUCCESS ->
  at_state cfg w (inr rc :: l) calls s -> leads (publish_rest fuel (S f) rounds) s (Some SC_OK) cfg w l calls.
Proof.
  intros Hrc H. unfold publish_rest. eapply leads_bind; [by apply loop_return|]. intros s1 H1. cbv beta iota.
  destruct (Z.eqb_spec rc MOSQ_ERR_SUCCESS); [done|]. by apply leads_ret.
Qed.

(** What a publisher goes through without effect. *)
Definition idle (x : mosq_event + Z) : Prop := match x with inl e => quiet e | inr rc => rc = MOSQ_ERR_SUCCESS end.

Lemma rest_idle fuel k (xs : list (mosq_event + Z)) : forall f rounds s a cfg w l calls Q,
  Forall idle xs -> (length xs + k < f)%nat -> (length xs + k < fuel)%nat -> (length xs + k <= rounds)%nat ->
  at_state cfg w (xs ++ l) calls s ->
  (forall f rounds s, (k < f)%nat -> (k <= rounds)%nat -> at_state cfg w l calls s ->
     reaches (publish_rest fuel f rounds) s a Q) ->
  reaches (publish_rest fuel f rounds) s a Q.
Proof.
  induction xs as [|x xs IH]; intros f rounds s a cfg w l calls Q Hi Hf Hfuel Hr H Hk.
  { apply Hk; [simpl in *; lia|simpl in *; lia|done]. }
  apply Forall_cons in Hi as [Hx Hi]. cbn [length app] in *. destruct f as [|f]; [lia|].
  destruct x as [e|rc].
  - eapply rest_event; [exact H| |].
    + intros s1 H1. by apply leads_quiet.
    + intros s1 H1. eapply (IH f rounds s1); try done; lia.
  - cbn in Hx. subst rc. destruct rounds as [|rounds]; [lia|]. eapply rest_again; [exact H|].
    intros s1 H1. eapply (IH fuel rounds s1); try done; lia.
Qed.

(** *** One request

    The library connects, delivers a message, disconnects, connects again,
    confirms the publication and reports the end of the connection, with events
    that do not matter in between. *)
Record script := mkScript {
  before_connect : list mosq_event; before_message : list mosq_event; request_message : mosquitto_message;
  after_message : list mosq_event; before_publish : list (mosq_event + Z); before_ack : list (mosq_event + Z);
  ack_mid : Z; ack_code : Z; after_ack : list (mosq_event + Z); end_code : Z }.

Definition script_ok (c : script) : Prop :=
  Forall quiet (before_connect c) /\ Forall quiet (before_message c) /\ Forall quiet (after_message c) /\
  Forall idle (before_publish c) /\ Forall idle (before_ack c) /\ Forall idle (after_ack c) /\ end_code c <> 0.

Definition publish_items (c : script) (l : list (mosq_event + Z)) : list (mosq_event + Z) :=
  before_publish c ++ inl (Connected 0) :: before_ack c ++ inl (Published (ack_mid c) (ack_code c)) ::
  after_ack c ++ inr (end_code c) :: l.

Definition script_items (c : script) (l : list (mosq_event + Z)) : list (mosq_event + Z) :=
  map inl (before_connect c) ++ inl (Connected 0) :: map inl (before_message c) ++
  inl (Received (request_message c)) :: map inl (after_message c) ++ inr 0 :: publish_items c l.

Lemma length_publish_items c l : length (publish_items c l) =
  (length (before_publish c) + S (length (before_ack c) + S (length (after_ack c) + S (length l))))%nat.
Proof. unfold publish_items. rewrite !length_app. cbn [length]. rewrite !length_app. cbn [length]. by rewrite !length_app. Qed.

Lemma publish_phase c p bytes fuel s cfg w l calls : script_ok c -> at_state cfg w (publish_items c l) calls s ->
  (length (publish_items c l) < fuel)%nat ->
  client_type (general_config cfg) = client_pub -> pub_config cfg = Some p ->
  protocol_version (general_config cfg) <> MQTT_PROTOCOL_V5 -> payload_bytes (message p) (msglen p) = Some bytes ->
  reaches (publishing fuel fuel) s (Some SC_OK) (fun s' => exists p',
    at_state (mkMosqConfig (general_config cfg) (Some p') (sub_config cfg) (property_config cfg)) w l
      (calls ++ [Publish (topic p) bytes (qos (general_config cfg)) (retain (general_config cfg)); Disconnect]) s').
Proof.
  intros (_ & _ & _ & Hi1 & Hi2 & Hi3 & Hk) H Hfuel Ht Hp Hv Hb. rewrite length_publish_items in Hfuel.
  destruct fuel as [|fuel]; [lia|]. change (publishing (S fuel) (S fuel)) with (publish_rest (S fuel) (S fuel) fuel).
  unfold publish_items in H.
  eapply (rest_idle (S fuel) (S (length (before_ack c) + S (length (after_ack c) + 1)))); [exact Hi1|lia|lia|lia|exact H|].
  intros f rounds s1 Hf Hr H1. destruct f as [|f]; [lia|].
  destruct (leads_poll false _ _ _ _ _ _ H1) as (s2 & E2 & H2).
  destruct (leads_publish p bytes _ _ _ _ _ H2 Ht Hp Hv Hb) as (p' & s3 & E3 & H3).
  assert (publish_rest (S fuel) (S f) rounds s1 = publish_rest (S fuel) f rounds s3) as E.
  { unfold publish_rest. cbn [mosq_loop]. unfold mbind, comp_mbind. by rewrite E2, E3. }
  unfold reaches. rewrite E. clear E E2 E3 H1 H2.
  eapply (rest_idle (S fuel) (S (length (after_ack c) + 1))); [exact Hi2|lia|lia|lia|exact H3|].
  intros f1 rounds1 s4 Hf1 Hr1 H4. destruct f1 as [|f1]; [lia|].
  eapply rest_event; [exact H4|intros s5 H5; by apply leads_published|]. intros s5 H5.
  eapply (rest_idle (S fuel) 1); [exact Hi3|lia|lia|lia|exact H5|].
  intros f2 rounds2 s6 Hf2 Hr2 H6. destruct f2 as [|f2]; [lia|].
  destruct (rest_done (S fuel) f2 rounds2 (end_code c) _ _ _ _ _ Hk H6) as (s7 & E7 & H7).
  exists s7. split; [exact E7|]. exists p'. by rewrite <- app_assoc in H7.
Qed.

(** What a client needs to be configured for requests. *)
Definition listening (cfg : cfg_t) (sub : mosq_sub_config_t) : Prop :=
  sub_config cfg = Some sub /\ unsub_topics sub = [] /\ remove_retained sub = false /\ retained_only sub = false /\
  no_retain sub = false /\ protocol_version (general_config cfg) <> MQTT_PROTOCOL_V5.

(** A message with a text of its own. *)
Definition carries (m : mosquitto_message) (text : cstr) : Prop :=
  (exists junk, payload m = Some (text ++ 0 :: junk)) /\ payloadlen m <> 0 /\ 0 ∉ text.

(** The configuration with the kind of client and a new message. *)
Definition heard (cfg : cfg_t) (sub : mosq_sub_config_t) (text : cstr) : cfg_t :=
  mkMosqConfig (set_client_type client_sub (general_config cfg)) (pub_config cfg)
    (Some (set_recv_message text sub)) (property_config cfg).

Definition with_pub (cfg : cfg_t) (p : mosq_pub_config_t) : cfg_t :=
  mkMosqConfig (general_config cfg) (Some p) (sub_config cfg) (property_config cfg).

Definition exchange_calls (cfg : cfg_t) (sub : mosq_sub_config_t) (t : option cstr) (bytes : list Z) : list mosq_call :=
  [connect_call (general_config cfg); SubscribeMultiple (topics sub) (qos (general_config cfg)); Disconnect;
   connect_call (general_config cfg); Publish t bytes (qos (general_config cfg)) (retain (general_config cfg)); Disconnect].

Lemma receive_phase c text sub ret p fuel s cfg w w' l calls :
  script_ok c -> carries (request_message c) text ->
  sub_config cfg = Some sub -> unsub_topics sub = [] -> remove_retained sub = false -> retained_only sub = false ->
  no_retain sub = false -> client_type (general_config cfg) = client_sub ->
  at_state cfg w (map inl (before_connect c) ++ inl (Connected 0) :: map inl (before_message c) ++
     inl (Received (request_message c)) :: map inl (after_message c) ++ inr 0 :: l) calls s ->
  (length (before_connect c) + length (before_message c) + length (after_message c) + 3 <= fuel)%nat ->
  (forall s' l' calls', at_state (heard cfg sub text) w l' calls' s' ->
     leads (mqtt_request_handler uninit value0 len0 L core conf (msg_topic (request_message c)) (Some text)) s' ret
       (with_pub (heard cfg sub text) p) w' l' calls') ->
  leads (loop true fuel) s (Some 0) (with_pub (heard cfg sub text) p) w' l
    (calls ++ [SubscribeMultiple (topics sub) (qos (general_config cfg)); Disconnect]).
Proof.
  intros (Hq1 & Hq2 & Hq3 & _) ((junk & Hpl) & Hlen & H0) Hs Hu Hr1 Hr2 Hr3 Ht H Hf Hh.
  replace fuel with (length (before_connect c) + S (length (before_message c) + S (length (after_message c) +
    S (fuel - (length (before_connect c) + length (before_message c) + length (after_message c) + 3)))))%nat by lia.
  eapply loop_quiet; [exact Hq1|exact H|]. intros s1 H1.
  eapply loop_event; [exact H1|intros s2 H2; by eapply leads_subscribe|]. intros s2 H2.
  eapply loop_quiet; [exact Hq2|exact H2|]. intros s3 H3.
  eapply loop_event; [exact H3| |].
  { intros s4 H4. eapply leads_message; try done. intros s5 H5. apply Hh.
    replace (heard cfg sub text) with (mkMosqConfig (general_config cfg) (pub_config cfg)
      (Some (set_recv_message text sub)) (property_config cfg)); [exact H5|].
    unfold heard, set_client_type. f_equal. destruct (general_config cfg). cbn in *. by rewrite Ht. }
  intros s4 H4. eapply loop_quiet; [exact Hq3|exact H4|]. intros s5 H5. rewrite <- app_assoc in H5.
  by apply loop_return.
Qed.

Lemma exchange_run c text sub ret p bytes fuel s cfg w w' l calls :
  script_ok c -> carries (request_message c) text -> listening cfg sub ->
  at_state cfg w (script_items c l) calls s -> (length (script_items c l) < fuel)%nat ->
  (forall s' l' calls', at_state (heard cfg sub text) w l' calls' s' ->
     leads (mqtt_request_handler uninit value0 len0 L core conf (msg_topic (request_message c)) (Some text)) s' ret
       (with_pub (heard cfg sub text) p) w' l' calls') ->
  payload_bytes (message p) (msglen p) = Some bytes ->
  reaches (duplex_client_start uninit value0 len0 L core conf fuel) s (Some SC_OK)
    (fun s' => exists cfg', at_state cfg' w' l (calls ++ exchange_calls cfg sub (topic p) bytes) s').
Proof.
  intros Hok Hc (Hs & Hu & Hr1 & Hr2 & Hr3 & Hv) H Hfuel Hh Hb. unfold duplex_client_start.
  assert (length (script_items c l) = length (before_connect c) + length (before_message c) + length (after_message c) + 3 +
    length (publish_items c l))%nat as El.
  { unfold script_items. rewrite length_app. cbn [length]. rewrite length_app. cbn [length]. rewrite length_app.
    cbn [length]. rewrite !length_map. lia. }
  pose proof H as (_ & _ & _ & m & Hm & _).
  eapply leads_bind; [by apply leads_gets|]. rewrite Hm. intros s1 H1.
  eapply leads_bind; [by apply leads_general|]. intros s2 H2.
  eapply leads_bind; [by apply leads_connect|]. intros s3 H3.
  eapply leads_bind.
  { eapply (receive_phase c text sub ret p fuel s3 (mkMosqConfig (set_client_type client_sub (general_config cfg))
      (pub_config cfg) (sub_config cfg) (property_config cfg))); [exact Hok|exact Hc|exact Hs|exact Hu|exact Hr1|exact Hr2|exact Hr3
      |reflexivity|exact H3|lia|exact Hh]. }
  intros s4 H4. cbn [Z.eqb negb]. eapply leads_bind; [by apply leads_general|]. intros s5 H5.
  eapply leads_bind; [by apply leads_connect|]. intros s6 H6. cbn [Z.eqb negb SC_OK].
  destruct (publish_phase c p bytes fuel _ _ _ _ _ Hok H6) as (s7 & E7 & p' & H7); try done; [lia|].
  exists s7. split; [exact E7|]. eexists. cbn [general_config set_client_type] in H7. rewrite <- !app_assoc in H7. exact H7.
Qed.

Lemma payload_whole m : payload_bytes (Some m) (strlen m) = Some m.
Proof.
  unfold payload_bytes, strlen. destruct (Z.leb_spec 0 (Z.of_nat (length m))); [|lia].
  destruct (Z.leb_spec (Z.of_nat (length m)) (Z.of_nat (length m) + 1)); [|lia]. cbn [andb].
  by rewrite Nat2Z.id, take_app_length.
Qed.

(** C15 A request over MQTT that names its device.  The handler copies 33 bytes
    into the 32 of [device_id]: with the array as it is declared, and nothing
    behind it, every such request is undefined behaviour.  Only where the
    layout of the stack leaves at least one unused byte behind the array is the
    request answered: one run of the client connects, subscribes to its topics,
    takes the request, disconnects, executes it, connects again and publishes
    the answer once, on the topic of the request followed by the identifier of
    the device. *)
Theorem mqtt_exchange c text sub d suffix ret res answer fuel s cfg w w' l calls p0 :
  script_ok c -> carries (request_message c) text -> listening cfg sub ->
  at_state cfg w (script_items c l) calls s -> (length (script_items c l) < fuel)%nat ->
  pub_config cfg = Some p0 -> msg_topic (request_message c) = mqtt_topic_root conf ++ suffix ->
  gives_device_id text d -> 0 ∉ d -> (length d <= ID_LEN)%nat ->
  mqtt_api uninit value0 len0 core suffix text w = Some ((ret, res), w') ->
  (set_response_content ret res).2 = Some answer ->
  valid_topic (mqtt_topic_root conf ++ suffix ++ lit "/" ++ d) ->
  match behind_device_id L with
  | [] => forall s1 : state,
      mqtt_request_handler uninit value0 len0 L core conf (mqtt_topic_root conf ++ suffix) (Some text) s1 = None
  | _ :: _ =>
      reaches (duplex_client_start uninit value0 len0 L core conf fuel) s (Some SC_OK)
        (fun s' => exists cfg', at_state cfg' w' l
           (calls ++ exchange_calls cfg sub (Some (mqtt_topic_root conf ++ suffix ++ lit "/" ++ d)) answer) s')
  end.
Proof.
  intros Hok Hc Hl H Hfuel Hp Ht Hd H0 Hlen Hapi Hres Hv.
  destruct (behind_device_id L) as [|x rest] eqn:HL; [intros s1; by eapply device_id_overflows|].
  eapply (exchange_run c text sub SC_OK
    (set_message answer (strlen answer) (set_topic (mqtt_topic_root conf ++ suffix ++ lit "/" ++ d) p0)));
    [exact Hok|exact Hc|exact Hl|exact H|exact Hfuel| |].
  - intros s1 l1 calls1 H1. rewrite Ht. pose proof H1 as (Ec & Ew & Eca & m & Em & Hpend).
    eexists. split.
    + eapply request_answered; try done; [by rewrite Ew|]. rewrite Ec. cbn. rewrite Hp. by eexists.
    + unfold at_state, map_pub, set_world. cbn. rewrite Ec. cbn. rewrite Hp. repeat split; [done|]. by exists m.
  - apply payload_whole.
Qed.

(** No device is named: the text is no JSON, or without a string [device_id]. *)
Definition names_no_device (req : cstr) : Prop :=
  match cJSON_Parse req with
  | None => True
  | Some j => get_item j (lit "device_id") ≫= valuestring = None
  end.

Lemma no_device_refused t req : names_no_device req ->
  exists ret, ret <> SC_OK /\
    forall s : state, mqtt_request_handler uninit value0 len0 L core conf t (Some req) s = Some (ret, s).
Proof.
  intros Hd. unfold mqtt_request_handler, mqtt_device_id_deserialize, string_req_deserialize.
  unfold names_no_device in Hd. destruct (cJSON_Parse req) as [j|]; [|by exists SC_SERIALIZER_JSON_PARSE].
  unfold ta_json_get_string. destruct (get_item j (lit "device_id")) as [v|]; cbn in Hd;
    [rewrite Hd; by exists SC_CCLIENT_JSON_PARSE|by exists SC_CCLIENT_JSON_KEY].
Qed.

(** A request that names no device is answered with the previous answer: the
    handler refuses it and changes nothing, but the client connects all the
    same and publishes what it published before, to the device that asked then. *)
Theorem mqtt_stale_answer c text sub old fuel s cfg w l calls p0 :
  script_ok c -> carries (request_message c) text -> listening cfg sub ->
  at_state cfg w (script_items c l) calls s -> (length (script_items c l) < fuel)%nat ->
  pub_config cfg = Some p0 -> message p0 = Some old -> msglen p0 = strlen old -> names_no_device text ->
  reaches (duplex_client_start uninit value0 len0 L core conf fuel) s (Some SC_OK)
    (fun s' => exists cfg', at_state cfg' w l (calls ++ exchange_calls cfg sub (topic p0) old) s').
Proof.
  intros Hok Hc Hl H Hfuel Hp Hm Hn Hd.
  destruct (no_device_refused (msg_topic (request_message c)) text Hd) as (ret & _ & Hh).
  eapply (exchange_run c text sub ret p0); [exact Hok|exact Hc|exact Hl|exact H|exact Hfuel| |].
  - intros s1 l1 calls1 H1. exists s1. split; [apply Hh|]. unfold with_pub, heard in *. cbn. by rewrite <- Hp.
  - rewrite Hm, Hn. apply payload_whole.
Qed.

End Exchange.

(** ** Any run

    Nothing is assumed of the library and of the network here. *)
Section Runs.
Context (L : layout) (rand : nat -> Z).

Definition pub_wf (p : mosq_pub_config_t) : Prop :=
  (forall t, topic p = Some t -> valid_topic t) /\
  match message p with None => msglen p = 0 | Some m => msglen p = strlen m end.

Definition sub_wf (sub : mosq_sub_config_t) : Prop :=
  Forall valid_topic (topics sub) /\ unsub_topics sub = [] /\ remove_retained sub = false.

Definition cfg_wf (cfg : mosq_config_t mosquitto_property) : Prop :=
  (exists p, pub_config cfg = Some p /\ pub_wf p) /\ (exists sub, sub_config cfg = Some sub /\ sub_wf sub) /\
  protocol_version (general_config cfg) = MQTT_PROTOCOL_V311.

Definition call_ok (c : mosq_call) : Prop :=
  match c with
  | SubscribeMultiple l _ => Forall valid_topic l
  | Publish (Some t) _ _ _ => valid_topic t
  | Unsubscribe _ => False
  | _ => True
  end.

Definition mqtt_inv (s : state) : Prop := cfg_wf (st_cfg s) /\ Forall call_ok (st_calls s).

Abbreviation keeps m := (hoare mqtt_inv m (fun _ => mqtt_inv)).

Lemma mkeeps_perform c : call_ok c -> keeps (perform c).
Proof.
  intros Hc s a s' [Hi Hca]. unfold perform. destruct (st_mosq s) as [m|]; [|by intros [= <- <-]].
  destruct (mosq_do c m) as [[rc mid] m']. intros [= <- <-]. split; [done|].
  cbn. apply Forall_app. split; [done|by constructor].
Qed.

Lemma mkeeps_pure {A} (m : Mqtt.mq A) :
  (forall s a s', m s = Some (a, s') -> st_cfg s' = st_cfg s /\ st_calls s' = st_calls s) -> keeps m.
Proof. intros H s a s' [Hi Hca] E. destruct (H _ _ _ E) as [E1 E2]. split; [by rewrite E1|by rewrite E2]. Qed.

Lemma mkeeps_ret {A} (a : A) : keeps (mret a : Mqtt.mq A).
Proof. by intros s b s' H [= <- <-]. Qed.

Lemma mkeeps_gets {A} (f : state -> A) : keeps (gets f).
Proof. by intros s b s' H [= <- <-]. Qed.

Lemma mkeeps_check {A} (o : option A) : keeps (check o : Mqtt.mq A).
Proof. intros s b s' H. unfold check. by destruct o; intros [= <- <-]. Qed.

Lemma mkeeps_world {A} (m : comp (world net os db) A) : keeps (on_world m).
Proof. apply mkeeps_pure. intros s a s'. unfold on_world. by destruct (m (st_world s)) as [[b w]|]; intros [= <- <-]. Qed.

Lemma mkeeps_general f :
  (forall g, protocol_version (f g) = protocol_version g) -> keeps (on_general f).
Proof.
  intros Hf s a s' [(Hp & Hs & Hv) Hca] [= <- <-]. split; [|done]. split; [done|]. split; [done|]. cbn. by rewrite Hf.
Qed.

Lemma mkeeps_on_pub f : (forall p, pub_wf p -> pub_wf (f p)) -> keeps (on_pub f).
Proof.
  intros Hf s a s' [((p & Ep & Hp) & Hs & Hv) Hca]. rewrite on_pub_run by (rewrite Ep; by eexists).
  intros [= <- <-]. split; [|done]. split; [|done]. exists (f p). cbn. rewrite Ep. split; [done|by apply Hf].
Qed.

Lemma mkeeps_on_sub f : (forall p, sub_wf p -> sub_wf (f p)) -> keeps (on_sub f).
Proof.
  intros Hf s a s' [(Hp & (p & Ep & Hs) & Hv) Hca]. rewrite on_sub_run by (rewrite Ep; by eexists).
  intros [= <- <-]. split; [|done]. split; [done|]. split; [|done]. exists (f p). cbn. rewrite Ep. split; [done|by apply Hf].
Qed.

Lemma hoare_pub : hoare mqtt_inv get_pub (fun p s => mqtt_inv s /\ pub_wf p).
Proof.
  intros s a s' H. pose proof H as [((p & Ep & Hp) & _) _]. unfold get_pub. comp_simpl. rewrite Ep. by intros [= <- <-].
Qed.

Lemma hoare_sub : hoare mqtt_inv get_sub (fun p s => mqtt_inv s /\ sub_wf p).
Proof.
  intros s a s' H. pose proof H as [(_ & (p & Ep & Hp) & _) _]. unfold get_sub. comp_simpl. rewrite Ep. by intros [= <- <-].
Qed.

Lemma mkeeps_bind {A B} (m : Mqtt.mq A) (k : A -> Mqtt.mq B) : keeps m -> (forall a, keeps (k a)) -> keeps (m ≫= k).
Proof. apply hoare_bind. Qed.

Lemma hoare_pre {St A} (P : St -> Prop) (F : Prop) (m : comp St A) Q :
  (F -> hoare P m Q) -> hoare (fun s => P s /\ F) m Q.
Proof. intros H s a s' [HP HF]. by apply H. Qed.

Lemma mkeeps_disconnect : keeps (mosquitto_disconnect : Mqtt.mq unit).
Proof. apply mkeeps_bind; [by apply mkeeps_perform|]. intros a. apply mkeeps_ret. Qed.

Lemma mkeeps_when b (m : Mqtt.mq unit) : keeps m -> keeps (when b m).
Proof. intros H. destruct b; [exact H|apply mkeeps_ret]. Qed.

#[local] Hint Resolve mkeeps_ret mkeeps_gets mkeeps_check mkeeps_world mkeeps_disconnect : core.

Lemma mkeeps_add_topic type t : keeps (cfg_add_topic type t).
Proof.
  unfold cfg_add_topic. destruct (Z.eqb_spec (mosquitto_validate_utf8 t) 0) as [Hu|]; [|apply mkeeps_ret]. cbn [negb].
  destruct (Z.eqb_spec (mosquitto_pub_topic_check t) MOSQ_ERR_INVAL) as [|Hc]; [apply mkeeps_ret|].
  apply mkeeps_bind; [|intros a; apply mkeeps_ret]. case_match.
  - apply mkeeps_bind; [|intros a; apply mkeeps_when]; apply mkeeps_on_pub; intros p [H1 H2]; split; cbn; try done.
    by intros t' [= <-].
  - apply mkeeps_on_sub. intros p (H1 & H2). split; [|done]. cbn. apply Forall_app. split; [done|by constructor].
Qed.

Ltac mkeeps_step :=
  repeat first
    [ done
    | apply mkeeps_general; intros ?; done
    | apply mkeeps_add_topic
    | apply mkeeps_when
    | apply mkeeps_bind; [|intros ?]
    | case_match ].

Lemma mkeeps_channel h sub pub : keeps (gossip_channel_set h sub pub).
Proof.
  unfold gossip_channel_set. mkeeps_step.
Qed.

Lemma mkeeps_channels root names : keeps (add_channels root names).
Proof.
  induction names as [|n names IH]; [apply mkeeps_ret|]. cbn [add_channels].
  apply mkeeps_bind; [apply mkeeps_channel|]. intros ret. case_match; [apply mkeeps_ret|exact IH].
Qed.

Lemma mkeeps_api_channels h root : keeps (gossip_api_channels_set h root).
Proof.
  destruct h as [h|], root as [root|]; try apply mkeeps_ret. unfold gossip_api_channels_set.
  apply mkeeps_bind; [by apply mkeeps_general|]. intros u. apply mkeeps_bind; [by apply mkeeps_general|]. intros v.
  apply mkeeps_channels.
Qed.

Lemma mkeeps_message_set m : keeps (gossip_message_set m).
Proof.
  destruct m as [m|]; [|apply mkeeps_ret]. apply mkeeps_bind; [|intros a; apply mkeeps_ret].
  apply mkeeps_on_pub. intros p [H1 _]. by split.
Qed.

Lemma mkeeps_handler t req : keeps (mqtt_request_handler uninit value0 len0 L core conf t req).
Proof.
  destruct req as [req|]; [|apply mkeeps_ret]. cbn [mqtt_request_handler].
  apply mkeeps_bind; [apply mkeeps_check|]. intros [ret id]. case_match; [apply mkeeps_ret|]. unfold mqtt_process.
  apply mkeeps_bind; [apply mkeeps_check|]. intros sub. apply mkeeps_bind; [apply mkeeps_world|]. intros [r j].
  apply mkeeps_bind; [apply mkeeps_check|]. intros d. apply mkeeps_bind; [apply mkeeps_channel|]. intros r'.
  case_match; [apply mkeeps_ret|apply mkeeps_message_set].
Qed.

Lemma mkeeps_store mid : keeps (store_mid set_mid_sent mid).
Proof. destruct mid; [|apply mkeeps_ret]. apply mkeeps_on_pub. intros p [H1 H2]. by split. Qed.

Lemma mkeeps_publish p q r : pub_wf p -> keeps (publish_message (topic p) (msglen p) (message p) q r).
Proof.
  intros [Ht _]. unfold publish_message. apply mkeeps_bind; [apply mkeeps_gets|]. intros [m|]; [|apply mkeeps_ret].
  apply mkeeps_bind; [apply mkeeps_gets|]. intros g.
  eapply hoare_bind; [apply hoare_pub|]. intros p'. apply hoare_pre. intros _.
  apply mkeeps_bind; [apply mkeeps_check|]. intros bytes.
  assert (forall t b, (forall t', t = Some t' -> valid_topic t') -> keeps (
    '(rc, mid) ← perform (Publish t b q r); _ ← store_mid set_mid_sent mid; mret rc)) as Hk.
  { intros t b Hv. apply mkeeps_bind; [apply mkeeps_perform; destruct t; cbn; auto|]. intros [rc mid].
    apply mkeeps_bind; [apply mkeeps_store|]. intros u. apply mkeeps_ret. }
  case_match; [by apply Hk|]. apply mkeeps_bind; [|intros u; by apply Hk].
  apply mkeeps_on_pub. intros p1 [H1 H2]. by split.
Qed.

Lemma mkeeps_unsubscribe l : l = [] -> keeps (unsubscribe_all l).
Proof. intros ->. apply mkeeps_ret. Qed.

Lemma mkeeps_dump m : keeps (dump_message m).
Proof.
  unfold dump_message. case_match; [|apply mkeeps_ret]. case_match; [apply mkeeps_ret|].
  apply mkeeps_bind; [apply mkeeps_check|]. intros t. apply mkeeps_bind; [|intros u; apply mkeeps_ret].
  apply mkeeps_on_sub. intros p (H1 & H2 & H3). by split_and!.
Qed.

Lemma mkeeps_callback e : keeps (duplex_callback uninit value0 len0 L core conf e).
Proof.
  destruct e as [result|m|mid rc|mid q|rc|t]; cbn [duplex_callback];
    try apply mkeeps_ret; try apply mkeeps_disconnect.
  - unfold connect_callback_duplex_func. apply mkeeps_bind; [apply mkeeps_gets|]. intros g. case_match; [| |apply mkeeps_ret].
    + unfold connect_callback_pub_func. case_match; [|apply mkeeps_ret].
      eapply hoare_bind; [apply hoare_pub|]. intros p. apply hoare_pre. intros Hp.
      apply mkeeps_bind; [apply mkeeps_gets|]. intros g'.
      apply mkeeps_bind; [by apply mkeeps_publish|]. intros rc. apply mkeeps_when, mkeeps_disconnect.
    + unfold connect_callback_sub_func. case_match; [|apply mkeeps_disconnect].
      eapply hoare_bind; [apply hoare_sub|]. intros p. apply hoare_pre. intros (Hp & Hu & _).
      apply mkeeps_bind; [apply mkeeps_gets|]. intros g'.
      apply mkeeps_bind; [by apply mkeeps_perform|]. intros rc. by apply mkeeps_unsubscribe.
  - unfold message_callback_duplex_func. apply mkeeps_bind.
    + unfold message_callback_sub_func. eapply hoare_bind; [apply hoare_sub|]. intros p. apply hoare_pre.
      intros (_ & _ & Hr). rewrite Hr. cbn [andb when]. apply mkeeps_bind; [apply mkeeps_ret|]. intros u.
      case_match; [apply mkeeps_bind; [apply mkeeps_gets|]; intros g; apply mkeeps_when, mkeeps_disconnect|].
      case_match; [apply mkeeps_ret|]. apply mkeeps_bind; [apply mkeeps_dump|intros v; apply mkeeps_ret].
    + intros u. apply mkeeps_bind; [apply mkeeps_disconnect|]. intros v.
      eapply hoare_bind; [apply hoare_sub|]. intros p. apply hoare_pre. intros _.
      apply mkeeps_bind; [apply mkeeps_handler|]. intros x. apply mkeeps_ret.
  - apply mkeeps_bind; [apply mkeeps_check|]. intros u. apply mkeeps_ret.
Qed.

Lemma mkeeps_poll b : keeps (poll b).
Proof.
  apply mkeeps_pure. intros s a s'. unfold poll. destruct (st_mosq s); [|by intros [= <- <-]].
  destruct (mosq_poll b m). by intros [= <- <-].
Qed.

Lemma mkeeps_loop b fuel : keeps (mosq_loop uninit value0 len0 L core conf b fuel).
Proof.
  induction fuel as [|fuel IH]; [apply mkeeps_ret|]. cbn [mosq_loop].
  apply mkeeps_bind; [apply mkeeps_poll|]. intros [e|rc]; [|apply mkeeps_ret].
  apply mkeeps_bind; [apply mkeeps_callback|]. done.
Qed.

Lemma mkeeps_publish_loop fuel rounds : keeps (publish_loop uninit value0 len0 L core conf fuel rounds).
Proof.
  induction rounds as [|n IH]; [apply mkeeps_ret|]. cbn [publish_loop].
  apply mkeeps_bind; [apply mkeeps_loop|]. intros [rc|]; [|apply mkeeps_ret]. case_match; [exact IH|apply mkeeps_ret].
Qed.

Lemma mkeeps_lib_call c : call_ok c -> keeps (lib_call c).
Proof.
  intros Hc s a s' [Hi Hca] [= <- <-]. split; [done|]. cbn. apply Forall_app. split; [done|by constructor].
Qed.

Lemma mkeeps_fails c : call_ok c -> keeps (fails c).
Proof. intros Hc. apply mkeeps_bind; [by apply mkeeps_perform|]. intros [rc mid]. apply mkeeps_ret. Qed.

Lemma mkeeps_connect : keeps (mosq_client_connect : Mqtt.mq status_t).
Proof.
  unfold mosq_client_connect. apply mkeeps_bind; [apply mkeeps_gets|]. intros [m|]; [|apply mkeeps_ret].
  apply mkeeps_bind; [apply mkeeps_gets|]. intros g. apply mkeeps_bind; [by apply mkeeps_fails|]. intros [].
  - apply mkeeps_bind; [by apply mkeeps_lib_call|]. intros u. apply mkeeps_ret.
  - apply mkeeps_ret.
Qed.

Lemma mkeeps_start fuel : keeps (duplex_client_start uninit value0 len0 L core conf fuel).
Proof.
  unfold duplex_client_start. apply mkeeps_bind; [apply mkeeps_gets|]. intros [m|]; [|apply mkeeps_ret].
  apply mkeeps_bind; [by apply mkeeps_general|]. intros u. apply mkeeps_bind; [apply mkeeps_connect|]. intros ret.
  case_match; [apply mkeeps_ret|]. apply mkeeps_bind; [apply mkeeps_loop|]. intros [rc|]; [|apply mkeeps_ret].
  case_match; [apply mkeeps_ret|]. apply mkeeps_bind; [by apply mkeeps_general|]. intros v.
  apply mkeeps_bind; [apply mkeeps_connect|]. intros ret'. case_match; [apply mkeeps_ret|apply mkeeps_publish_loop].
Qed.

Lemma mkeeps_serve fuel n : keeps (serve uninit value0 len0 L core conf fuel n).
Proof.
  induction n as [|n IH]; [apply mkeeps_ret|]. cbn [serve].
  apply mkeeps_bind; [apply mkeeps_start|]. intros [ret|]; [|apply mkeeps_ret]. case_match; [exact IH|apply mkeeps_ret].
Qed.

Lemma init_establishes type : type = client_duplex ->
  hoare (fun s : state => Forall call_ok (st_calls s)) (init_mosq_config type) (fun _ => mqtt_inv).
Proof.
  intros -> s a s' Hca [= <- <-]. split; [|done]. split; [|split; [|done]].
  - exists zero_pub. split; [done|]. by split.
  - exists zero_sub. split; [done|]. by split_and!.
Qed.

Lemma mkeeps_check_error type : keeps (init_check_error type).
Proof.
  unfold init_check_error. apply mkeeps_bind; [apply mkeeps_gets|]. intros g. do 3 (case_match; [apply mkeeps_ret|]).
  apply mkeeps_bind.
  - case_match; [|apply mkeeps_ret]. eapply hoare_bind; [apply hoare_sub|]. intros p. apply hoare_pre. intros _. apply mkeeps_ret.
  - intros []; [apply mkeeps_ret|]. apply mkeeps_bind; [apply mkeeps_when; by apply mkeeps_general|]. intros u.
    apply mkeeps_bind; [apply mkeeps_gets|]. intros p. case_match; apply mkeeps_ret.
Qed.

Lemma mkeeps_opts : keeps (mosq_opts_set : Mqtt.mq status_t).
Proof.
  assert (forall ret : status_t, keeps (_ ← lib_call LibCleanup; mret ret)) as Hclean.
  { intros ret. apply mkeeps_bind; [by apply mkeeps_lib_call|]. intros u. apply mkeeps_ret. }
  unfold mosq_opts_set. apply mkeeps_bind; [apply mkeeps_gets|]. intros [m|]; [|apply mkeeps_ret].
  apply mkeeps_bind; [apply mkeeps_gets|]. intros g. apply mkeeps_bind; [by apply mkeeps_perform|]. intros r1.
  apply mkeeps_bind; [case_match; [by apply mkeeps_fails|apply mkeeps_ret]|]. intros []; [apply Hclean|].
  apply mkeeps_bind; [by intros s a s' Hi [= <- <-]|]. intros r2.
  apply mkeeps_bind; [case_match; [by apply mkeeps_fails|apply mkeeps_ret]|]. intros []; [apply Hclean|].
  apply mkeeps_bind; [by apply mkeeps_perform|]. intros r3. apply mkeeps_ret.
Qed.

Lemma config_init_establishes :
  hoare (fun s : state => Forall call_ok (st_calls s)) (duplex_config_init L rand) (fun _ => mqtt_inv).
Proof.
  unfold duplex_config_init. eapply hoare_bind; [by apply init_establishes|]. intros r.
  apply mkeeps_bind; [by apply mkeeps_lib_call|]. intros u. apply mkeeps_bind.
  { unfold generate_client_id. apply mkeeps_bind; [apply mkeeps_check|]. intros id.
    apply mkeeps_bind; [by apply mkeeps_general|]. intros v. apply mkeeps_ret. }
  intros ret. case_match; [apply mkeeps_ret|]. apply mkeeps_bind; [apply mkeeps_check_error|]. intros r2.
  apply mkeeps_bind; [apply mkeeps_gets|]. intros id. apply mkeeps_bind; [apply mkeeps_check|]. intros id'.
  apply mkeeps_bind; [apply mkeeps_check|]. intros id''. apply mkeeps_bind; [by intros s a s' Hi [= <- <-]|]. intros v.
  apply mkeeps_bind; [apply mkeeps_gets|]. intros [m|]; [apply mkeeps_opts|apply mkeeps_ret].
Qed.

(** C16 Whatever the broker and the library do, the client only subscribes and
    publishes to topics that passed the checks, and at any time what it would
    publish is the whole answer it last prepared: the configuration stays well
    formed through every sequence of callbacks. *)
Theorem mqtt_run_invariant fuel requests (s : state) ret s' :
  Forall call_ok (st_calls s) ->
  mqtt_main uninit value0 len0 L rand core conf fuel requests s = Some (ret, s') -> mqtt_inv s'.
Proof.
  intros Hs. revert s ret s' Hs. change (hoare (fun s : state => Forall call_ok (st_calls s))
    (mqtt_main uninit value0 len0 L rand core conf fuel requests) (fun _ => mqtt_inv)).
  unfold mqtt_main. eapply hoare_bind; [apply config_init_establishes|]. intros ret.
  case_match; [apply mkeeps_ret|]. apply mkeeps_bind; [apply mkeeps_api_channels|]. intros ret'.
  case_match; [apply mkeeps_ret|apply mkeeps_serve].
Qed.

(** *** The identifier of the client *)

Lemma alphabet_get i : 0 <= i -> exists c, get id_alphabet (Z.rem i 36) = Some c /\ c ∈ id_alphabet.
Proof.
  intros Hi. pose proof (Z.rem_bound_pos i 36 Hi ltac:(lia)). unfold get.
  destruct (Z.ltb_spec (Z.rem i 36) 0); [lia|].
  assert (Z.to_nat (Z.rem i 36) < length id_alphabet)%nat as Hl by (change (length id_alphabet) with 36%nat; lia).
  apply lookup_lt_is_Some in Hl as [c Hc]. exists c. split; [done|]. by apply list_elem_of_lookup_2 in Hc.
Qed.

Lemma random_id_spec n : forall i, (forall i, 0 <= rand i) ->
  exists id, random_id rand i n = Some id /\ length id = n /\ Forall (fun c => c ∈ id_alphabet) id.
Proof.
  induction n as [|n IH]; intros i Hr; [by exists []|]. cbn [random_id].
  destruct (alphabet_get (rand i) (Hr i)) as (c & -> & Hc). destruct (IH (S i) Hr) as (id & E & Hl & Hf).
  bind_simpl. rewrite E. exists (c :: id). split; [done|]. split; [cbn; by rewrite Hl|by constructor].
Qed.

Lemma alphabet_no_nul id : Forall (fun c => c ∈ id_alphabet) id -> 0 ∉ id.
Proof.
  intros Hf Hin. rewrite Forall_forall in Hf. specialize (Hf _ Hin).
  apply (bool_decide_eq_true_2 _) in Hf. vm_compute in Hf. discriminate.
Qed.

(** With the memory the source allocates, the program reads behind the
    identifier of its client when it creates the client: the identifier fills
    its array of 32 characters, whatever numbers are drawn, and has no NUL. *)
Theorem mqtt_start_undefined fuel requests (s : state) :
  behind_client_id L = [] -> (forall i, 0 <= rand i) ->
  mqtt_main uninit value0 len0 L rand core conf fuel requests s = None.
Proof.
  intros HL Hr. destruct (random_id_spec ID_LEN 0 Hr) as (id & E & Hlen & Hf). apply alphabet_no_nul in Hf.
  unfold mqtt_main, duplex_config_init, generate_client_id. rewrite E, HL.
  assert (strncpy_data id ID_LEN = id) as Hs by (rewrite <- Hlen; by apply strncpy_data_no_nul).
  assert (c_string (id ++ []) = None) as Hc by (rewrite app_nil_r; by apply c_string_none).
  unfold init_check_error, init_mosq_config, lib_call, on_general, set_cfg. comp_simpl.
  cbn -[c_string forallb ID_LEN strncpy_data]. rewrite Hs. rewrite bool_decide_false by done.
  match goal with |- context [forallb ?f ?l] => destruct (forallb f l) end; cbn -[c_string]; by rewrite Hc.
Qed.

End Runs.

End Properties.

(** ** Evaluations

    A library that succeeds and goes through a list of events. *)
Module MqttWitness.
Import ToyWorld RedisModel JsonModel BufferWitness ApisWitness.

Definition padded : layout := mkLayout [0] [0].
Definition mqtt_conf : mqtt_conf_t := mkMqttConf (lit "localhost") (lit "root/topics").
Definition device : cstr := lit "470MHz".
Definition request_text : cstr := cJSON_PrintUnformatted
  (JObject [(lit "device_id", JString device); (lit "tag", JString (lit "ABC"))]).
Definition anonymous_text : cstr := cJSON_PrintUnformatted (JObject [(lit "tag", JString (lit "ABC"))]).

Definition message_of (text : cstr) : mosquitto_message :=
  mkMessage (lit "root/topics/tag/hashes") (Some (text ++ [0])) (strlen text) false.

Definition a_script (text : cstr) : script :=
  mkScript [] [Subscribed 1 [1; 1; 1]] (message_of text) [Disconnected 0] [inr 0] [inr 0] 7 0 [inr 0] 4.

Definition scripted := list (mosq_event + Z).

#[export] Instance scripted_lib : Mosquitto scripted := {
  mosquitto_property := unit;
  mosquitto_validate_utf8 _ := 0;
  mosquitto_pub_topic_check t := if bool_decide (43 ∈ t \/ 35 ∈ t) then MOSQ_ERR_INVAL else 0;
  mosquitto_property_check_all _ _ := 0;
  mosquitto_new _ _ := Some (script_items (a_script request_text) []);
  mosq_do _ m := (0, Some 7, m);
  mosq_poll _ m := match m with x :: l => (x, l) | [] => (inr 4, []) end
}.

#[export] Instance scripted_responsive : ResponsiveLib (mosq := scripted).
Proof.
  refine {| pending := fun m : scripted => m |}.
  - intros b m x l ->. by exists l.
  - intros c m. by exists (Some 7), m.
Defined.

(** A client that has answered before. *)
Definition old_pub : mosq_pub_config_t := mkPub 3 (Some (lit "old")) 3 (Some (lit "root/topics/tryte/other")) false None.
Definition some_sub : mosq_sub_config_t := mkSub (map (sub_topic (lit "root/topics")) api_names) None false false false [].
Definition some_cfg : mosq_config_t unit :=
  mkMosqConfig (mkGeneral None MQTT_PROTOCOL_V311 60 (Some (lit "localhost")) (-1) 1 0 client_pub 20 None None None None
    0 0 false false true) (Some old_pub) (Some some_sub) zero_props.

Definition some_state (text : cstr) : mqtt_state (world toy_net Z db) scripted :=
  mkMqtt (toy true [] []) some_cfg (Some (script_items (a_script text) [])) [].

Definition api_outcome := mqtt_api garbage 0 0 toy_core (lit "/tag/hashes") request_text (toy true [] []).
Definition an_answer : cstr :=
  match api_outcome with
  | Some ((ret, res), _) => default [] (set_response_content ret res).2
  | None => []
  end.

Lemma a_script_ok text : script_ok (a_script text).
Proof. split_and!; repeat constructor; done. Qed.

Lemma some_listening : listening (mosq := scripted) some_cfg some_sub.
Proof. split_and!; done. Qed.

Lemma some_at_state text : at_state (mosq := scripted) some_cfg (toy true [] []) (script_items (a_script text) []) []
  (some_state text).
Proof. repeat split. eexists. split; reflexivity. Qed.

Definition answer_topic : cstr := lit "root/topics/tag/hashes/470MHz".

Lemma a_request : carries (request_message (a_script request_text)) request_text.
Proof.
  split; [exists []; reflexivity|]. split; [vm_compute; discriminate|].
  apply (bool_decide_unpack _). vm_compute. exact I.
Qed.

Lemma enough_fuel : (length (script_items (a_script request_text) []) < 40)%nat.
Proof. apply Nat.ltb_lt. vm_compute. reflexivity. Qed.

Lemma names_device : gives_device_id request_text device.
Proof. eexists. split; [apply parse_print; vm_compute; reflexivity|reflexivity]. Qed.

Lemma device_ok : 0 ∉ device.
Proof. apply (bool_decide_unpack _). vm_compute. exact I. Qed.

Lemma device_fits : (length device <= ID_LEN)%nat.
Proof. apply Nat.leb_le. vm_compute. reflexivity. Qed.

Lemma answer_is ret res w' : api_outcome = Some ((ret, res), w') -> (set_response_content ret res).2 = Some an_answer.
Proof. intros E. unfold an_answer. rewrite E. vm_compute in E. injection E as <- <-. reflexivity. Qed.

Lemma answer_topic_ok : valid_topic (mosq := scripted) answer_topic.
Proof. split; [reflexivity|]. vm_compute. discriminate. Qed.

Lemma mqtt_exchange_witness :
  mqtt_request_handler garbage 0 0 strict toy_core mqtt_conf (lit "root/topics/tag/hashes") (Some request_text)
    (some_state request_text) = None /\
  reaches (mosq := scripted) (duplex_client_start garbage 0 0 padded toy_core mqtt_conf 40) (some_state request_text)
    (Some SC_OK) (fun s' => exists cfg', at_state (mosq := scripted) cfg' (toy true [] []) []
      ([] ++ exchange_calls (mosq := scripted) some_cfg some_sub (Some answer_topic) an_answer) s').
Proof.
  destruct api_outcome as [[[ret res] w']|] eqn:E; [|vm_compute in E; discriminate E].
  assert (w' = toy true [] []) as -> by (vm_compute in E; injection E as _ _ <-; reflexivity).
  split.
  - apply (mqtt_exchange (mosq := scripted) garbage 0 0 toy_core mqtt_conf strict (a_script request_text) request_text some_sub
      device (lit "/tag/hashes") ret res an_answer 40 (some_state request_text) some_cfg (toy true [] []) (toy true [] [])
      [] [] old_pub (a_script_ok request_text) a_request some_listening (some_at_state request_text) enough_fuel eq_refl eq_refl
      names_device device_ok device_fits E (answer_is ret res _ E) answer_topic_ok (some_state request_text)).
  - exact (mqtt_exchange (mosq := scripted) garbage 0 0 toy_core mqtt_conf padded (a_script request_text) request_text some_sub
      device (lit "/tag/hashes") ret res an_answer 40 (some_state request_text) some_cfg (toy true [] []) (toy true [] [])
      [] [] old_pub (a_script_ok request_text) a_request some_listening (some_at_state request_text) enough_fuel eq_refl eq_refl
      names_device device_ok device_fits E (answer_is ret res _ E) answer_topic_ok).
Defined.

Lemma mqtt_stale_answer_witness :
  reaches (mosq := scripted) (duplex_client_start garbage 0 0 padded toy_core mqtt_conf 40) (some_state anonymous_text)
    (Some SC_OK) (fun s' => exists cfg', at_state (mosq := scripted) cfg' (toy true [] []) []
      ([] ++ exchange_calls (mosq := scripted) some_cfg some_sub (Some (lit "root/topics/tryte/other")) (lit "old")) s').
Proof.
  apply (mqtt_stale_answer (mosq := scripted) garbage 0 0 toy_core mqtt_conf padded (a_script anonymous_text)
    anonymous_text some_sub (lit "old") 40 (some_state anonymous_text) some_cfg (toy true [] []) [] [] old_pub).
  - exact (a_script_ok anonymous_text).
  - split; [exists []; reflexivity|]. split; [vm_compute; discriminate|].
    apply (bool_decide_unpack _). vm_compute. exact I.
  - exact some_listening.
  - exact (some_at_state anonymous_text).
  - apply Nat.ltb_lt. vm_compute. reflexivity.
  - reflexivity.
  - reflexivity.
  - reflexivity.
  - unfold names_no_device. vm_compute. reflexivity.
Defined.

Definition fresh_state : mqtt_state (world toy_net Z db) scripted :=
  mkMqtt (toy true [] []) (mkMosqConfig (general_config some_cfg) None None zero_props) None [].

Definition zero_rand (_ : nat) : Z := 0.

Lemma mqtt_run_invariant_witness :
  exists ret s', mqtt_main garbage 0 0 padded zero_rand toy_core mqtt_conf 40 2 fresh_state = Some (ret, s') /\
    mqtt_inv s' /\ st_calls s' !! 7%nat = Some (Publish (Some answer_topic) an_answer 1 false).
Proof.
  destruct (mqtt_main garbage 0 0 padded zero_rand toy_core mqtt_conf 40 2 fresh_state) as [[ret s']|] eqn:E.
  - exists ret, s'. split; [reflexivity|]. split.
    + apply (mqtt_run_invariant garbage 0 0 toy_core mqtt_conf padded zero_rand 40 2 fresh_state ret s'); [constructor|exact E].
    + vm_compute in E. injection E as _ <-. reflexivity.
  - vm_compute in E. discriminate E.
Defined.

Lemma mqtt_start_undefined_witness :
  mqtt_main garbage 0 0 strict zero_rand toy_core mqtt_conf 40 2 fresh_state = None.
Proof. apply mqtt_start_undefined; [reflexivity|intros i; exact (Z.le_refl 0)]. Defined.

End MqttWitness.
