(* ===== verification/Obd.v ===== *)
(** * The OBD monitor and emulator ([endpoint/OBDComp])

    The monitor asks the control units of a vehicle for its data over a CAN bus
    ([can-bus/can-utils.c]), puts together answers that take more than one frame
    and packs the values ([monitor/monitor.c]); the emulator answers in place of
    a vehicle ([emulator/obd_emulator.c]).  The socket, the flatbuffer builder
    and the compressor are parameters. *)

From S2P Require Import Prelude TaErrors.

(** ** Frames and sockets *)

Record can_frame := mkFrame { can_id : Z; can_dlc : Z; frame_data : list Z }.

#[export] Instance can_frame_eq_dec : EqDecision can_frame.
Proof. solve_decision. Defined.

Definition zero_frame : can_frame := mkFrame 0 0 (replicate 8 0).

(** Raw CAN sockets transfer whole frames: [sock_write] says whether it was
    accepted, [sock_read] is [None] on an error. *)
Class CanSocket (sock : Type) := {
  sock_write : can_frame -> sock -> bool * sock;
  sock_read : sock -> option can_frame * sock
}.

Definition OBD_BROADCAST_ID : Z := 0x7DF.
Definition OBD_FIRST_ECU_RESPONSE : Z := 0x7E8.
Definition OBD_REQUEST_RESPONSE_OFFSET : Z := 8.

(** *** [can-utils.c] *)
Section CanUtils.
Context {sock : Type} {S : CanSocket sock}.

Definition can_send (f : can_frame) (s : sock) : status_t * sock :=
  let '(ok, s) := sock_write f s in (if ok : bool then SC_OK else SC_ENDPOINT_CAN_SEND_ERROR, s).

(** The frame stays as it is on an error. *)
Definition can_recv (f : can_frame) (s : sock) : status_t * can_frame * sock :=
  match sock_read s with
  | (Some f, s) => (SC_OK, f, s)
  | (None, s) => (SC_ENDPOINT_CAN_RECV_ERROR, f, s)
  end.

End CanUtils.

(** ** Parameter identifiers ([obd_pid.h]) *)

Record PID := mkPid { service : Z; pid : Z }.

(** [PIDS_INIT_LIST], from which [PIDS] and [pid_to_string] are made. *)
Definition PIDS_INIT_LIST : list (cstr * PID) :=
  [(lit "VEHICLE_IDENTIFICATION_NUMBER", mkPid 0x09 0x02);
   (lit "CALCULATED_ENGINE_LOAD", mkPid 0x01 0x04);
   (lit "ENGINE_COOLANT_TEMPERATURE", mkPid 0x01 0x05);
   (lit "FUEL_PRESSURE", mkPid 0x01 0x0A);
   (lit "ENGINE_RPM", mkPid 0x01 0x0C);
   (lit "VEHICLE_SPEED", mkPid 0x01 0x0D);
   (lit "INTAKE_AIR_TEMPERATURE", mkPid 0x01 0x0F);
   (lit "MASS_AIR_FLOW", mkPid 0x01 0x10);
   (lit "FUEL_TANK_LEVEL_INPUT", mkPid 0x01 0x1F);
   (lit "ABSOLUTE_BAROMETRIC_PRESSURE", mkPid 0x01 0x33);
   (lit "CONTROL_MODULE_VOLTAGE", mkPid 0x01 0x42);
   (lit "THROTTLE_POSITION", mkPid 0x01 0x45);
   (lit "AMBIENT_AIR_TEMPERATURE", mkPid 0x01 0x46);
   (lit "RELATIVE_ACCELERATOR_PEDAL_POSITION", mkPid 0x01 0x5A);
   (lit "ENGINE_OIL_TEMPERATURE", mkPid 0x01 0x5C);
   (lit "ENGINE_FUEL_RATE", mkPid 0x01 0x5E);
   (lit "SERVICE_DISTANCE", mkPid 0x01 0xE1);
   (lit "ANTI_LOCK_BRAKING_ACTIVE", mkPid 0x01 0xE2);
   (lit "STEERING_WHEEL_ANGLE", mkPid 0x01 0xE3);
   (lit "POSITION_OF_DOORS", mkPid 0x01 0xE5);
   (lit "RIGHT_LEFT_TURN_SIGNAL_LIGHT", mkPid 0x01 0xE6);
   (lit "ALTERNATE_BEAM_HEAD_LIGHT", mkPid 0x01 0xE7);
   (lit "HIGH_BEAM_HEAD_LIGHT", mkPid 0x01 0xE8)].

(** [OBD_data_t] with what its pointer points to: [data_addr] is the value of
    the pointer. *)
Record OBD_data_t := mkObd { data_addr : Z; obd_data : option (list Z); data_len : Z }.

Definition no_data : OBD_data_t := mkObd 0 None 0.

(** ** The monitor *)

Record monitor (sock : Type) := mkMonitor {
  mon_sock : sock; append_data : Z; allocs : nat }.
Arguments mkMonitor {sock} mon_sock append_data allocs.
Arguments mon_sock {sock} m.
Arguments append_data {sock} m.
Arguments allocs {sock} m.

(** The sum of two [int]s; undefined when it overflows. *)
Definition add_int (a b : Z) : option Z := if a + b <=? INT_MAX then Some (a + b) else None.

(** [enum MESSAGE_TYPE]. *)
Definition SINGLE : Z := 0.
Definition FIRST : Z := 1.
Definition CONSECUTIVE : Z := 2.
Definition FLOW : Z := 3.

Definition check_message_type (f : can_frame) : option Z :=
  b ← get (frame_data f) 0; Some (Z.shiftr b 4).

(** [hex_to_obd_data (arr, offset, len)], from the index [i] on. *)
Fixpoint hex_loop (arr : list Z) (i : Z) (n : nat) (result : Z) : option Z :=
  match n with
  | O => Some result
  | S n => b ← get arr i; hex_loop arr (i + 1) n (u32 (Z.shiftl (Z.lor result b) 4))
  end.

Definition hex_to_obd_data (arr : list Z) (offset len : Z) : option Z :=
  hex_loop arr offset (Z.to_nat (len - offset)) 0.

(** The string made from the bytes behind the first three. *)
Definition vin_hex_to_string (arr : list Z) (len : Z) : option cstr :=
  if len <? 3 then None else
  bytes ← read_at arr 3 (Z.to_nat (len - 3));
  str ← overwrite (replicate (Z.to_nat len) 0) 0 bytes;
  c_string str.

(** The bytes of an integer, least significant first. *)
Fixpoint le_bytes (n : nat) (v : Z) : list Z :=
  match n with O => [] | S n => v mod 256 :: le_bytes n (v / 256) end.

(** The object representation of an [OBD_data_t]: pointer and [size_t]. *)
Definition struct_bytes (d : OBD_data_t) : list Z := le_bytes 8 (data_addr d) ++ le_bytes 8 (data_len d).

(** The flatbuffer of a vehicle in that of a device at a time, and the
    compressor with the size of its output buffer. *)
Class ObdPacking := {
  OBD2_data_create : cstr -> list Z -> cstr -> Z -> list Z;
  BrotliEncoderCompress : list Z -> nat -> bool * list Z
}.

Section Monitor.
Context {sock : Type} {S : CanSocket sock} {packing : ObdPacking}.
(** The addresses [malloc] returns, one after the other. *)
Context (malloc : nat -> Z).

Definition mon := comp (monitor sock).

Definition send (f : can_frame) : mon status_t :=
  fun m => let '(ret, s) := can_send f (mon_sock m) in Some (ret, mkMonitor s (append_data m) (allocs m)).

Definition recv (f : can_frame) : mon can_frame :=
  fun m => let '(_, f, s) := can_recv f (mon_sock m) in Some (f, mkMonitor s (append_data m) (allocs m)).

Definition allocate : mon Z :=
  fun m => Some (malloc (allocs m), mkMonitor (mon_sock m) (append_data m) (Datatypes.S (allocs m))).

Definition add_append (n : Z) : mon unit :=
  a ← gets append_data;
  a ← check (add_int a n);
  modify (fun m => mkMonitor (mon_sock m) a (allocs m)).

(** [obd_query]: the frame received. *)
Definition obd_query (id service pid : Z) : mon can_frame :=
  _ ← send (mkFrame id 8 [2; u8 service; u8 pid; 0; 0; 0; 0; 0]);
  recv zero_frame.

Definition flow_control (f : can_frame) : can_frame :=
  mkFrame (u32 (can_id f - OBD_REQUEST_RESPONSE_OFFSET)) 8 [Z.shiftl FLOW 4; 0; 0; 0; 0; 0; 0; 0].

(** [obd_message]; [None] is running out of fuel. *)
Fixpoint obd_message (fuel : nat) (f : can_frame) (d : OBD_data_t) : mon (option OBD_data_t) :=
  match fuel with
  | O => mret None
  | Datatypes.S fuel =>
      type ← check (check_message_type f);
      if type =? SINGLE then
        addr ← allocate;
        bytes ← check (read_at (frame_data f) 0 8);
        mret (Some (mkObd addr (Some bytes) 8))
      else
        d ← (if type =? FIRST then
               b0 ← check (get (frame_data f) 0);
               b1 ← check (get (frame_data f) 1);
               let size := Z.lor (Z.shiftl (Z.land b0 0x0F) 8) b1 in
               addr ← allocate;
               bytes ← check (read_at (frame_data f) 2 6);
               buffer ← check (overwrite (replicate (Z.to_nat size) 0) 0 bytes);
               _ ← add_append 6;
               _ ← send (flow_control f);
               mret (mkObd addr (Some buffer) size)
             else if type =? CONSECUTIVE then
               bytes ← check (read_at (frame_data f) 1 7);
               buffer ← check (obd_data d);
               a ← gets append_data;
               buffer ← check (overwrite buffer (Z.to_nat a) bytes);
               _ ← add_append 7;
               mret (mkObd (data_addr d) (Some buffer) (data_len d))
             else mret d);
        a ← gets append_data;
        if data_len d =? a then mret (Some d)
        else f ← recv f; obd_message fuel f d
  end.

(** One query for each parameter, stored under its name. *)
Fixpoint query_all (fuel : nat) (l : list (cstr * PID)) : mon (option (list (cstr * OBD_data_t))) :=
  match l with
  | [] => mret (Some [])
  | (name, p) :: l =>
      f ← obd_query OBD_BROADCAST_ID (service p) (pid p);
      d ← obd_message fuel f no_data;
      match d with
      | None => mret None
      | Some d => rest ← query_all fuel l; mret ((fun rest => (name, d) :: rest) <$> rest)
      end
  end.

Definition hashmap_get (t : list (cstr * OBD_data_t)) (name : cstr) : option OBD_data_t :=
  snd <$> (snd <$> list_find (fun e => e.1 = name) t).

(** [hex_to_obd_data (le_hashmap_Get (table, name), 4, 8)]: the entry itself is
    passed as the array. *)
Definition obd_value (t : list (cstr * OBD_data_t)) (name : string) : option Z :=
  d ← hashmap_get t (lit name); hex_to_obd_data (struct_bytes d) 4 8.

(** The names of the values in the order of the arguments of [OBD2_data_create]. *)
Definition obd_fields : list string :=
  ["CALCULATED_ENGINE_LOAD"; "ENGINE_COOLANT_TEMPERATURE"; "FUEL_PRESSURE"; "ENGINE_RPM"; "VEHICLE_SPEED";
   "INTAKE_AIR_TEMPERATURE"; "MASS_AIR_FLOW"; "FUEL_TANK_LEVEL_INPUT"; "ABSOLUTE_BAROMETRIC_PRESSURE";
   "CONTROL_MODULE_VOLTAGE"; "THROTTLE_POSITION"; "AMBIENT_AIR_TEMPERATURE"; "RELATIVE_ACCELERATOR_PEDAL_POSITION";
   "ENGINE_COOLANT_TEMPERATURE"; "ENGINE_FUEL_RATE"; "SERVICE_DISTANCE"; "ANTI_LOCK_BRAKING_ACTIVE";
   "STEERING_WHEEL_ANGLE"; "POSITION_OF_DOORS"; "RIGHT_LEFT_TURN_SIGNAL_LIGHT"; "ALTERNATE_BEAM_HEAD_LIGHT";
   "HIGH_BEAM_HEAD_LIGHT"]%string.

(** What is sent of the compressed text: as much as the compressor says, whether
    it succeeded or not. *)
Definition string_compress (origin : list Z) : bool * list Z :=
  BrotliEncoderCompress origin (length origin).

Definition create_obd2_flatbuffer (t : list (cstr * OBD_data_t)) (device_id : cstr) (now : Z) : option (list Z) :=
  vin ← hashmap_get t (lit "VEHICLE_IDENTIFICATION_NUMBER");
  arr ← obd_data vin;
  vin_id ← vin_hex_to_string arr (data_len vin);
  values ← mapM (obd_value t) obd_fields;
  _ ← obd_value t "ENGINE_OIL_TEMPERATURE";
  Some (string_compress (OBD2_data_create vin_id values device_id now)).2.

(** [get_obd_datasets] up to the message it passes to the endpoint service. *)
Definition get_obd_datasets (fuel : nat) (device_id : cstr) (now : Z) : mon (option (list Z)) :=
  t ← query_all fuel PIDS_INIT_LIST;
  match t with
  | None => mret None
  | Some t => msg ← check (create_obd2_flatbuffer t device_id now); mret (Some msg)
  end.

End Monitor.

(** ** The emulator *)

Definition OBD_EMULATOR_DEFAULT_VIN : cstr := lit "1234567890ABCDEFG".
Definition OBD2_SERVICE_01 : Z := 0x01.
Definition OBD2_SERVICE_09 : Z := 0x09.

(** [rand_int] with the number drawn. *)
Definition rand_int (rand upper lower : Z) : Z := Z.rem rand (upper - lower + 1) + lower.

Section Emulator.
Context {sock : Type} {S : CanSocket sock}.
Context (rand : nat -> Z).

Definition emu := comp sock.

Definition emu_send (f : can_frame) : emu status_t := fun s => Some (can_send f s).
Definition emu_recv (f : can_frame) : emu (status_t * can_frame) := fun s => Some (can_recv f s).

Definition service_01_response (pid : Z) : emu Z :=
  let noise i := u8 (0x0F + rand_int (rand i) 5 (-5)) in
  _ ← emu_send (mkFrame OBD_FIRST_ECU_RESPONSE 8 [7; 0x41; pid; noise 0%nat; noise 1%nat; noise 2%nat; noise 3%nat; 0]);
  mret 0.

(** The frames behind the first one; [None] is running out of fuel. *)
Fixpoint vin_loop (fuel : nat) (vin : cstr) (byte_send seq_num : Z) : emu (option unit) :=
  match fuel with
  | O => mret None
  | Datatypes.S fuel =>
      if byte_send =? strlen vin then mret (Some tt) else
      bytes ← check (read_at (vin ++ [0]) (Z.to_nat byte_send) 7);
      _ ← emu_send (mkFrame OBD_FIRST_ECU_RESPONSE 8 (Z.lor 0x20 seq_num :: bytes));
      vin_loop fuel vin (byte_send + 7) (u8 (seq_num + 1))
  end.

Definition send_vin_message (fuel : nat) (pid : Z) : emu (option unit) :=
  let vin := OBD_EMULATOR_DEFAULT_VIN in
  bytes ← check (read_at vin 0 3);
  _ ← emu_send (mkFrame OBD_FIRST_ECU_RESPONSE 8 ([0x10; 0x14; 0x49; pid; 0x01] ++ bytes));
  '(_, f) ← emu_recv zero_frame;
  b ← check (get (frame_data f) 0);
  if b =? 0x30 then vin_loop fuel vin 3 1 else mret (Some tt).

Definition service_09_response (fuel : nat) (pid : Z) : emu (option unit) :=
  if pid =? 0x02 then send_vin_message fuel pid else mret (Some tt).

(** One round of the loop of [main]. *)
Definition emulator_round (fuel : nat) (f : can_frame) : emu (option can_frame) :=
  '(ret, f) ← emu_recv f;
  if negb (ret =? SC_OK) then mret (Some f)
  else if can_id f =? OBD_BROADCAST_ID then
    if can_dlc f >=? 2 then
      b1 ← check (get (frame_data f) 1);
      b2 ← check (get (frame_data f) 2);
      if b1 =? OBD2_SERVICE_01 then _ ← service_01_response b2; mret (Some f)
      else if b1 =? OBD2_SERVICE_09 then
        done ← service_09_response fuel b2; mret ((fun _ => f) <$> done)
      else mret (Some f)
    else mret (Some f)
  else mret (Some f).

End Emulator.

(** ** Messages of several frames

    How a control unit cuts a message (ISO 15765-2): the first frame has the
    length and six bytes, each of the others its number and seven. *)
Section Segments.
Context (id : Z).

Definition first_frame (m : list Z) : can_frame :=
  let n := Z.of_nat (length m) in mkFrame id 8 ([16 + n / 256; n mod 256] ++ take 6 m).

Definition consecutive_frame (i : Z) (l : list Z) : can_frame :=
  mkFrame id 8 ((32 + i mod 16) :: take 7 l ++ replicate (7 - length l) 0).

Fixpoint consecutive_frames (n : nat) (i : Z) (l : list Z) : list can_frame :=
  match n with
  | O => []
  | Datatypes.S n => consecutive_frame i l :: consecutive_frames n (i + 1) (drop 7 l)
  end.

(** All the frames behind the first. *)
Definition tail_frames (m : list Z) : list can_frame :=
  consecutive_frames (length m / 7) 1 (drop 6 m).

Lemma first_type m : (length m < 4096)%nat -> check_message_type (first_frame m) = Some FIRST.
Proof.
  intros Hm. change (Some (Z.shiftr (16 + Z.of_nat (length m) / 256) 4) = Some FIRST). f_equal.
  rewrite Z.shiftr_div_pow2 by lia.
  change (2 ^ 4) with 16. unfold FIRST. symmetry. apply (Z.div_unique_pos _ _ _ (Z.of_nat (length m) / 256)); [|lia].
  split; [apply Z.div_pos; lia|]. apply Z.div_lt_upper_bound; lia.
Qed.

Lemma consecutive_type i l : check_message_type (consecutive_frame i l) = Some CONSECUTIVE.
Proof.
  change (Some (Z.shiftr (32 + i mod 16) 4) = Some CONSECUTIVE). f_equal. rewrite Z.shiftr_div_pow2 by lia.
  change (2 ^ 4) with 16. symmetry. apply (Z.div_unique_pos _ _ _ (i mod 16)); [|unfold CONSECUTIVE; lia].
  apply Z.mod_pos_bound. lia.
Qed.

(** The length in the first frame. *)
Lemma first_size n : 0 <= n < 4096 ->
  Z.lor (Z.shiftl (Z.land (16 + n / 256) 0x0F) 8) (n mod 256) = n.
Proof.
  intros Hn. assert (0 <= n / 256 < 16) as Hq
    by (split; [apply Z.div_pos; lia|apply Z.div_lt_upper_bound; lia]).
  pose proof (Z.mod_pos_bound n 256 ltac:(lia)) as Hr.
  change 15 with (Z.ones 4). rewrite Z.land_ones by lia. change (2 ^ 4) with 16.
  replace (16 + n / 256) with (n / 256 + 1 * 16) by lia. rewrite Z.mod_add, Z.mod_small by lia.
  pose proof (Z.add_lor_land (Z.shiftl (n / 256) 8) (n mod 256)) as E.
  rewrite <- (Z.shiftl_0_r (n mod 256)) in E at 2.
  rewrite (land_shiftl_disj _ _ 4 8 8 0) in E by (change (2 ^ 8) with 256; change (2 ^ 4) with 16; lia).
  rewrite Z.shiftl_mul_pow2 in * by lia. change (2 ^ 8) with 256 in *.
  pose proof (Z.div_mod n 256 ltac:(lia)). lia.
Qed.

End Segments.

(** A socket that delivers frames in their order and accepts every frame. *)
Class QueueSocket (sock : Type) {S : CanSocket sock} := {
  incoming : sock -> list can_frame;
  sent : sock -> list can_frame;
  read_queue s f l : incoming s = f :: l ->
    exists s', sock_read s = (Some f, s') /\ incoming s' = l /\ sent s' = sent s;
  write_queue f s : exists s', sock_write f s = (true, s') /\ incoming s' = incoming s /\ sent s' = sent s ++ [f]
}.

Section Reassembly.
Context {sock : Type} {S : CanSocket sock} {Q : QueueSocket sock}.
Context (malloc : nat -> Z) (id : Z).

(** What a monitor will receive and has sent, where it appends, and how much it
    has allocated. *)
Definition mon_at (inc snt : list can_frame) (a n : nat) (m : monitor sock) : Prop :=
  incoming (mon_sock m) = inc /\ sent (mon_sock m) = snt /\ append_data m = Z.of_nat a /\ allocs m = n.

Lemma recv_run f g inc snt a n m : mon_at (g :: inc) snt a n m ->
  exists m', recv f m = Some (g, m') /\ mon_at inc snt a n m'.
Proof.
  intros (Hi & Hs & Ha & Hn). destruct (read_queue _ _ _ Hi) as (s' & E & Hi' & Hs'). unfold recv, can_recv. rewrite E.
  eexists. split; [done|]. unfold mon_at. cbn. by rewrite Hs'.
Qed.

Lemma send_run f inc snt a n m : mon_at inc snt a n m ->
  exists m', send f m = Some (SC_OK, m') /\ mon_at inc (snt ++ [f]) a n m'.
Proof.
  intros (Hi & Hs & Ha & Hn). destruct (write_queue f (mon_sock m)) as (s' & E & Hi' & Hs'). unfold send, can_send. rewrite E.
  eexists. split; [done|]. unfold mon_at. cbn. by rewrite Hs', Hi', Hs.
Qed.

Lemma append_run inc snt a n k m : mon_at inc snt a n m -> (Z.of_nat (a + k) <= INT_MAX) ->
  exists m', add_append (Z.of_nat k) m = Some (tt, m') /\ mon_at inc snt (a + k) n m'.
Proof.
  intros (Hi & Hs & Ha & Hn) Hk. unfold add_append, add_int. comp_simpl. rewrite Ha.
  destruct (Z.leb_spec (Z.of_nat a + Z.of_nat k) INT_MAX); [|lia]. cbn. eexists. split; [done|].
  repeat split; try done. cbn. lia.
Qed.

(** The bytes of a frame behind the first one. *)
Definition chunk (l : list Z) : list Z := take 7 l ++ replicate (7 - length l) 0.

Lemma length_chunk l : length (chunk l) = 7%nat.
Proof. unfold chunk. rewrite length_app, length_take, length_replicate. lia. Qed.

Lemma chunk_bytes i l : read_at (frame_data (consecutive_frame id i l)) 1 7 = Some (chunk l).
Proof.
  unfold consecutive_frame. cbn [frame_data]. fold (chunk l).
  pose proof (read_at_mid [32 + i mod 16] (chunk l) []) as E. rewrite app_nil_r, length_chunk in E. exact E.
Qed.

(** One such frame: the bytes go to where the message ended. *)
Lemma consecutive_run fuel i l addr buf len inc snt a n m : mon_at inc snt a n m -> Z.of_nat (a + 7) <= INT_MAX ->
  match overwrite buf a (chunk l) with
  | None => obd_message malloc (Datatypes.S fuel) (consecutive_frame id i l) (mkObd addr (Some buf) len) m = None
  | Some buf' => exists m', mon_at inc snt (a + 7) n m' /\
      obd_message malloc (Datatypes.S fuel) (consecutive_frame id i l) (mkObd addr (Some buf) len) m =
        if len =? Z.of_nat (a + 7) then Some (Some (mkObd addr (Some buf') len), m')
        else (f ← recv (consecutive_frame id i l); obd_message malloc fuel f (mkObd addr (Some buf') len)) m'
  end.
Proof.
  intros Hm Ha. pose proof Hm as (_ & _ & Happ & _). cbn [obd_message]. rewrite consecutive_type. comp_simpl.
  change (CONSECUTIVE =? SINGLE) with false. change (CONSECUTIVE =? FIRST) with false.
  change (CONSECUTIVE =? CONSECUTIVE) with true. cbv iota beta. rewrite chunk_bytes. cbn [obd_data data_addr data_len].
  rewrite Happ, Nat2Z.id. destruct (overwrite buf a (chunk l)) as [buf'|]; [|done].
  destruct (append_run _ _ _ _ 7 _ Hm Ha) as (m' & E & Hm'). exists m'. split; [exact Hm'|].
  change (add_append 7 m = Some (tt, m')) in E. rewrite E. pose proof Hm' as (_ & _ & -> & _).
  cbn [data_len]. by destruct (len =? Z.of_nat (a + 7)).
Qed.

(** The rest of a message, from a frame on. *)
Lemma consecutive_loop k : forall i done rest more addr snt n m,
  length rest = (7 * Datatypes.S k)%nat -> Z.of_nat (length done + length rest) <= INT_MAX ->
  mon_at (consecutive_frames id k (i + 1) (drop 7 rest) ++ more) snt (length done) n m ->
  exists m', obd_message malloc (Datatypes.S k) (consecutive_frame id i rest)
      (mkObd addr (Some (done ++ replicate (length rest) 0)) (Z.of_nat (length done + length rest))) m =
      Some (Some (mkObd addr (Some (done ++ rest)) (Z.of_nat (length done + length rest))), m') /\
    mon_at more snt (length done + length rest) n m'.
Proof.
  induction k as [|k IH]; intros i done rest more addr snt n m Hl Hmax Hm;
    pose proof (consecutive_run) as Hrun;
    match goal with |- context [obd_message malloc (Datatypes.S ?f) _ _ _] =>
      specialize (Hrun f i rest addr (done ++ replicate (length rest) 0) (Z.of_nat (length done + length rest)) _ _ _ _ _ Hm
        ltac:(lia)) end.
  - assert (chunk rest = rest) as Hc by (unfold chunk; rewrite take_ge, Hl, app_nil_r by lia; done).
    rewrite Hc in Hrun. unfold overwrite in Hrun. rewrite decide_True in Hrun by (rewrite !length_app, length_replicate; lia).
    destruct Hrun as (m' & Hm' & E). rewrite take_app_length in E.
    rewrite drop_ge in E by (rewrite length_app, length_replicate; lia). rewrite app_nil_r in E.
    replace (length done + 7)%nat with (length done + length rest)%nat in * by lia. rewrite Z.eqb_refl in E.
    exists m'. split; [exact E|exact Hm'].
  - assert (chunk rest = take 7 rest) as Hc.
    { unfold chunk. replace (7 - length rest)%nat with O by lia. by rewrite app_nil_r. }
    assert (length (take 7 rest) = 7%nat) as Ht by (rewrite length_take; lia).
    rewrite Hc in Hrun. unfold overwrite in Hrun. rewrite decide_True in Hrun by (rewrite !length_app, length_replicate; lia).
    destruct Hrun as (m' & Hm' & E). rewrite take_app_length, drop_app_ge in E by lia.
    rewrite drop_replicate in E. destruct (Z.eqb_spec (Z.of_nat (length done + length rest)) (Z.of_nat (length done + 7)));
      [lia|]. cbn [consecutive_frames app] in Hm'. destruct (recv_run (consecutive_frame id i rest) _ _ _ _ _ _ Hm') as (m2 & E2 & H2).
    rewrite (comp_bind_eq _ _ _ _ _ E2) in E.
    assert (length (drop 7 rest) = (7 * Datatypes.S k)%nat) as Hd by (rewrite length_drop; lia).
    replace (length done + 7)%nat with (length (done ++ take 7 rest)) in H2 by (rewrite length_app; lia).
    destruct (IH (i + 1) (done ++ take 7 rest) (drop 7 rest) more addr snt n m2 Hd) as (m3 & E3 & H3);
      [rewrite length_app; lia|exact H2|].
    exists m3. rewrite E. replace (length (done ++ take 7 rest) + length (drop 7 rest))%nat
      with (length done + length rest)%nat in * by (rewrite length_app; lia).
    split; [|exact H3]. rewrite <- !app_assoc, take_drop in E3. rewrite <- E3.
    do 7 f_equal. rewrite length_drop. lia.
Qed.

(** The first frame: a buffer of the announced size, its six bytes, and the
    permission to send the others. *)
Lemma first_run fuel l d inc snt a n m : mon_at inc snt a n m -> (6 <= length l < 4096)%nat -> Z.of_nat (a + 6) <= INT_MAX ->
  exists m', mon_at inc (snt ++ [flow_control (first_frame id l)]) (a + 6) (Datatypes.S n) m' /\
    obd_message malloc (Datatypes.S fuel) (first_frame id l) d m =
      let d' := mkObd (malloc n) (Some (take 6 l ++ replicate (length l - 6) 0)) (Z.of_nat (length l)) in
      if Z.of_nat (length l) =? Z.of_nat (a + 6) then Some (Some d', m')
      else (f ← recv (first_frame id l); obd_message malloc fuel f d') m'.
Proof.
  intros Hm Hl Ha. cbn [obd_message]. rewrite first_type by lia. comp_simpl.
  change (FIRST =? SINGLE) with false. change (FIRST =? FIRST) with true. cbv iota beta.
  change (get (frame_data (first_frame id l)) 0) with (Some (16 + Z.of_nat (length l) / 256)).
  change (get (frame_data (first_frame id l)) 1) with (Some (Z.of_nat (length l) mod 256)). cbv iota beta.
  rewrite first_size by lia. unfold allocate. cbv iota beta.
  assert (length (take 6 l) = 6%nat) as Ht by (rewrite length_take; lia).
  pose proof (read_at_mid [16 + Z.of_nat (length l) / 256; Z.of_nat (length l) mod 256] (take 6 l) []) as Er.
  rewrite Ht, app_nil_r in Er. change (read_at _ _ _) with (read_at (frame_data (first_frame id l)) 2 6) in Er. rewrite Er.
  rewrite overwrite_start by (rewrite length_replicate; lia). cbv iota beta. rewrite Nat2Z.id, drop_replicate, Ht.
  set (m1 := mkMonitor (mon_sock m) (append_data m) (Datatypes.S (allocs m))).
  assert (mon_at inc snt a (Datatypes.S n) m1) as H1 by (destruct Hm as (? & ? & ? & ?); repeat split; try done; cbn; congruence).
  destruct (append_run _ _ _ _ 6 _ H1 Ha) as (m2 & E2 & H2). change (add_append 6 m1 = Some (tt, m2)) in E2. rewrite E2.
  destruct (send_run (flow_control (first_frame id l)) _ _ _ _ _ H2) as (m3 & E3 & H3). rewrite E3.
  assert (allocs m = n) as -> by apply Hm. exists m3. split; [exact H3|]. pose proof H3 as (_ & _ & -> & _).
  cbn [data_len]. by destruct (Z.of_nat (length l) =? Z.of_nat (a + 6)).
Qed.

(** A message of several frames is put together: if its length is six more
    than a multiple of seven, the monitor takes exactly its frames, sends one
    flow control frame to the control unit and returns the message. *)
Lemma obd_reassembled l k d inc snt n m : length l = (6 + 7 * k)%nat -> (length l < 4096)%nat ->
  mon_at (tail_frames id l ++ inc) snt 0 n m ->
  exists m', obd_message malloc (Datatypes.S k) (first_frame id l) d m =
      Some (Some (mkObd (malloc n) (Some l) (Z.of_nat (length l))), m') /\
    mon_at inc (snt ++ [flow_control (first_frame id l)]) (length l) (Datatypes.S n) m'.
Proof.
  intros Hl Hmax Hm. assert (Z.of_nat (length l) <= INT_MAX) as Hint by (unfold INT_MAX; lia).
  destruct (first_run k l d _ _ _ _ _ Hm ltac:(lia) ltac:(unfold INT_MAX; lia)) as (m1 & H1 & E1).
  unfold tail_frames in H1. replace (length l / 7)%nat with k in H1 by (rewrite Hl; apply (Nat.div_unique _ 7 _ 6); lia).
  cbv zeta in E1. destruct k as [|k].
  - rewrite Hl, Z.eqb_refl in E1. exists m1. rewrite Hl. split; [|exact H1]. rewrite E1. do 4 f_equal.
    rewrite app_nil_r, take_ge by lia. done.
  - destruct (Z.eqb_spec (Z.of_nat (length l)) (Z.of_nat (0 + 6))); [lia|]. cbn [consecutive_frames app] in H1.
    destruct (recv_run (first_frame id l) _ _ _ _ _ _ H1) as (m2 & E2 & H2). rewrite (comp_bind_eq _ _ _ _ _ E2) in E1.
    assert (length (take 6 l) = 6%nat) as Ht by (rewrite length_take; lia).
    destruct (consecutive_loop k 1 (take 6 l) (drop 6 l) inc (malloc n) (snt ++ [flow_control (first_frame id l)]) (Datatypes.S n) m2)
      as (m3 & E3 & H3).
    + rewrite length_drop. lia.
    + rewrite Ht, length_drop. lia.
    + rewrite Ht. exact H2.
    + rewrite Ht, length_drop in *. replace (6 + (length l - 6))%nat with (length l) in * by lia.
      rewrite take_drop in E3. exists m3. split; [by rewrite E1|exact H3].
Qed.

(** Frames that would go beyond the buffer. *)
Lemma consecutive_overflow k : forall i addr buf len l inc snt a n m,
  mon_at (consecutive_frames id k (i + 1) (drop 7 l) ++ inc) snt a n m ->
  Z.of_nat (a + 7 * Datatypes.S k) <= INT_MAX -> (length buf < a + 7 * Datatypes.S k)%nat ->
  (forall j, (0 < j <= Datatypes.S k)%nat -> len <> Z.of_nat (a + 7 * j)) ->
  obd_message malloc (Datatypes.S k) (consecutive_frame id i l) (mkObd addr (Some buf) len) m = None.
Proof.
  induction k as [|k IH]; intros i addr buf len l inc snt a n m Hm Hmax Hb Hlen.
  - pose proof (consecutive_run 0 i l addr buf len _ _ _ _ _ Hm ltac:(lia)) as Hrun.
    unfold overwrite in Hrun. by rewrite decide_False in Hrun by (rewrite length_chunk; lia).
  - pose proof (consecutive_run (Datatypes.S k) i l addr buf len _ _ _ _ _ Hm ltac:(lia)) as Hrun.
    destruct (overwrite buf a (chunk l)) as [buf'|] eqn:Ho; [|exact Hrun].
    destruct Hrun as (m1 & H1 & ->). destruct (Z.eqb_spec len (Z.of_nat (a + 7))) as [E|_].
    { by destruct (Hlen 1%nat); [lia|]. }
    cbn [consecutive_frames app] in H1. destruct (recv_run (consecutive_frame id i l) _ _ _ _ _ _ H1) as (m2 & E2 & H2).
    rewrite (comp_bind_eq _ _ _ _ _ E2). apply length_overwrite in Ho.
    eapply (IH (i + 1)); [exact H2|lia|lia|]. intros j Hj. specialize (Hlen (Datatypes.S j) ltac:(lia)). lia.
Qed.

(** Any other length is undefined behaviour: the padding of the last frame is
    written behind the buffer. *)
Theorem obd_length_undefined l k r d inc snt n m : length l = (6 + 7 * k + r)%nat -> (0 < r < 7)%nat ->
  (length l < 4096)%nat -> mon_at (tail_frames id l ++ inc) snt 0 n m ->
  obd_message malloc (Datatypes.S (Datatypes.S k)) (first_frame id l) d m = None.
Proof.
  intros Hl Hr Hmax Hm.
  destruct (first_run (Datatypes.S k) l d _ _ _ _ _ Hm ltac:(lia) ltac:(unfold INT_MAX; lia)) as (m1 & H1 & E1).
  unfold tail_frames in H1.
  replace (length l / 7)%nat with (Datatypes.S k) in H1 by (rewrite Hl; apply (Nat.div_unique _ 7 _ (r - 1)); lia).
  cbv zeta in E1. destruct (Z.eqb_spec (Z.of_nat (length l)) (Z.of_nat (0 + 6))); [lia|]. cbn [consecutive_frames app] in H1.
  destruct (recv_run (first_frame id l) _ _ _ _ _ _ H1) as (m2 & E2 & H2). rewrite (comp_bind_eq _ _ _ _ _ E2) in E1.
  rewrite E1. eapply consecutive_overflow; [exact H2|unfold INT_MAX; lia| |].
  - rewrite length_app, length_take, length_replicate. lia.
  - intros j Hj. lia.
Qed.

(** The position in the message is never reset: after a message of several
    frames the next one of the same length is undefined behaviour. *)
Theorem obd_second_message_undefined l k d inc snt n m : length l = (6 + 7 * Datatypes.S k)%nat -> (length l < 4096)%nat ->
  mon_at (tail_frames id l ++ inc) snt (length l) n m ->
  obd_message malloc (Datatypes.S (Datatypes.S k)) (first_frame id l) d m = None.
Proof.
  intros Hl Hmax Hm.
  destruct (first_run (Datatypes.S k) l d _ _ _ _ _ Hm ltac:(lia) ltac:(unfold INT_MAX; lia)) as (m1 & H1 & E1).
  unfold tail_frames in H1.
  replace (length l / 7)%nat with (Datatypes.S k) in H1 by (rewrite Hl; apply (Nat.div_unique _ 7 _ 6); lia).
  cbv zeta in E1. destruct (Z.eqb_spec (Z.of_nat (length l)) (Z.of_nat (length l + 6))); [lia|].
  cbn [consecutive_frames app] in H1.
  destruct (recv_run (first_frame id l) _ _ _ _ _ _ H1) as (m2 & E2 & H2). rewrite (comp_bind_eq _ _ _ _ _ E2) in E1.
  rewrite E1. eapply consecutive_overflow; [exact H2|unfold INT_MAX; lia| |].
  - rewrite length_app, length_take, length_replicate. lia.
  - intros j Hj. lia.
Qed.

End Reassembly.

(** ** The emulator and the monitor *)

(** What the emulator answers to the query for the identification number. *)
Definition vin_message : list Z := [0x49; 0x02; 0x01] ++ OBD_EMULATOR_DEFAULT_VIN.
Definition vin_query : can_frame := mkFrame OBD_BROADCAST_ID 8 [2; 0x09; 0x02; 0; 0; 0; 0; 0].
Definition vin_frames : list can_frame :=
  first_frame OBD_FIRST_ECU_RESPONSE vin_message :: tail_frames OBD_FIRST_ECU_RESPONSE vin_message.
Definition vin_flow : can_frame := flow_control (first_frame OBD_FIRST_ECU_RESPONSE vin_message).

Section Emulated.
Context {sock : Type} {S : CanSocket sock} {Q : QueueSocket sock}.

Definition emu_at (inc snt : list can_frame) (s : sock) : Prop := incoming s = inc /\ sent s = snt.

Lemma emu_recv_run f g inc snt s : emu_at (g :: inc) snt s ->
  exists s', emu_recv f s = Some ((SC_OK, g), s') /\ emu_at inc snt s'.
Proof.
  intros [Hi Hs]. destruct (read_queue _ _ _ Hi) as (s' & E & Hi' & Hs'). unfold emu_recv, can_recv. rewrite E.
  eexists. split; [done|]. by split; [|rewrite Hs'].
Qed.

Lemma emu_send_run f inc snt s : emu_at inc snt s ->
  exists s', emu_send f s = Some (SC_OK, s') /\ emu_at inc (snt ++ [f]) s'.
Proof.
  intros [Hi Hs]. destruct (write_queue f s) as (s' & E & Hi' & Hs'). unfold emu_send, can_send. rewrite E.
  eexists. split; [done|]. by split; [rewrite Hi'|rewrite Hs', Hs].
Qed.

(** The emulator sends the identification number as a message of three frames,
    once it is allowed to. *)
Lemma emulator_sends_vin rand f0 inc snt s : emu_at (vin_query :: vin_flow :: inc) snt s ->
  exists s', emulator_round rand 3 f0 s = Some (Some vin_query, s') /\ emu_at inc (snt ++ vin_frames) s'.
Proof.
  intros H. destruct (emu_recv_run f0 _ _ _ _ H) as (s1 & E1 & H1).
  destruct (emu_send_run (first_frame OBD_FIRST_ECU_RESPONSE vin_message) _ _ _ H1) as (s2 & E2 & H2).
  destruct (emu_recv_run zero_frame _ _ _ _ H2) as (s3 & E3 & H3).
  destruct (emu_send_run (consecutive_frame OBD_FIRST_ECU_RESPONSE 1 (drop 6 vin_message)) _ _ _ H3) as (s4 & E4 & H4).
  destruct (emu_send_run (consecutive_frame OBD_FIRST_ECU_RESPONSE 2 (drop 13 vin_message)) _ _ _ H4) as (s5 & E5 & H5).
  exists s5. split; [|rewrite <- !app_assoc in H5; exact H5].
  assert (send_vin_message 3 2 s1 = Some (Some tt, s5)) as Ev.
  { unfold send_vin_message. erewrite comp_bind_eq; [|reflexivity]. erewrite comp_bind_eq; [|exact E2].
    erewrite comp_bind_eq; [|exact E3]. cbv beta iota. erewrite comp_bind_eq; [|reflexivity].
    change (Z.shiftl FLOW 4 =? 0x30) with true. cbv iota. cbn [vin_loop].
    change (3 =? strlen OBD_EMULATOR_DEFAULT_VIN) with false. cbv iota.
    erewrite comp_bind_eq; [|reflexivity]. erewrite comp_bind_eq; [|exact E4].
    change (3 + 7 =? strlen OBD_EMULATOR_DEFAULT_VIN) with false. cbv iota.
    erewrite comp_bind_eq; [|reflexivity]. erewrite comp_bind_eq; [|exact E5]. reflexivity. }
  unfold emulator_round. erewrite comp_bind_eq; [|exact E1]. cbv beta iota.
  change (negb (SC_OK =? SC_OK)) with false. change (can_id vin_query =? OBD_BROADCAST_ID) with true.
  change (can_dlc vin_query >=? 2) with true. cbv iota.
  erewrite comp_bind_eq; [|reflexivity]. erewrite comp_bind_eq; [|reflexivity].
  change (9 =? OBD2_SERVICE_01) with false. change (9 =? OBD2_SERVICE_09) with true. cbv iota.
  erewrite comp_bind_eq; [|exact Ev]. reflexivity.
Qed.

(** The answer of the emulator to the query for another value. *)
Lemma emulator_sends_value rand f0 p inc snt s :
  emu_at (mkFrame OBD_BROADCAST_ID 8 [2; 0x01; p; 0; 0; 0; 0; 0] :: inc) snt s ->
  exists s' noise, emulator_round rand 3 f0 s = Some (Some (mkFrame OBD_BROADCAST_ID 8 [2; 0x01; p; 0; 0; 0; 0; 0]), s') /\
    length noise = 4%nat /\ emu_at inc (snt ++ [mkFrame OBD_FIRST_ECU_RESPONSE 8 ([7; 0x41; p] ++ noise ++ [0])]) s'.
Proof.
  intros H. destruct (emu_recv_run f0 _ _ _ _ H) as (s1 & E1 & H1).
  set (noise i := u8 (0x0F + rand_int (rand i) 5 (-5))).
  destruct (emu_send_run (mkFrame OBD_FIRST_ECU_RESPONSE 8 ([7; 0x41; p] ++ [noise 0%nat; noise 1%nat; noise 2%nat; noise 3%nat] ++ [0]))
    _ _ _ H1) as (s2 & E2 & H2).
  exists s2, [noise 0%nat; noise 1%nat; noise 2%nat; noise 3%nat]. split; [|by split].
  unfold emulator_round. erewrite comp_bind_eq; [|exact E1]. cbv beta iota.
  change (negb (SC_OK =? SC_OK)) with false. cbn [can_id can_dlc].
  change (OBD_BROADCAST_ID =? OBD_BROADCAST_ID) with true. change (8 >=? 2) with true. cbv iota.
  erewrite comp_bind_eq; [|reflexivity]. erewrite comp_bind_eq; [|reflexivity].
  change (1 =? OBD2_SERVICE_01) with true. cbv iota. unfold service_01_response.
  unfold mbind at 1, comp_mbind at 1. erewrite comp_bind_eq; [|exact E2]. reflexivity.
Qed.

End Emulated.

(** ** The report of the monitor *)

(** Evaluate the first part of a bind, up to conversion. *)
Ltac bind_with E := etrans; [exact (comp_bind_eq _ _ _ _ _ E)|].

Section Report.
Context {sock : Type} {S : CanSocket sock} {Q : QueueSocket sock} {packing : ObdPacking}.
Context (malloc : nat -> Z) (id : Z).

(** A frame that is a message of its own. *)
Definition single_frame (f : can_frame) : Prop :=
  length (frame_data f) = 8%nat /\ exists b, get (frame_data f) 0 = Some b /\ 0 <= b < 16.

Lemma single_run fuel f d inc snt a n m : mon_at inc snt a n m -> single_frame f ->
  exists m', obd_message malloc (Datatypes.S fuel) f d m = Some (Some (mkObd (malloc n) (Some (frame_data f)) 8), m') /\
    mon_at inc snt a (Datatypes.S n) m'.
Proof.
  intros (Hi & Hs & Ha & Hn) (Hl & b & Hb & Hr). cbn [obd_message]. unfold check_message_type. rewrite Hb. bind_simpl.
  rewrite Z.shiftr_div_pow2, Z.div_small by (change (2 ^ 4) with 16; lia). comp_simpl. change (0 =? SINGLE) with true.
  unfold allocate. cbv iota beta. unfold read_at. rewrite decide_True by (rewrite Hl; lia).
  rewrite drop_0, take_ge by (rewrite Hl; lia). rewrite Hn. eexists. split; [done|]. repeat split; try done.
Qed.

Definition query_frame (p : PID) : can_frame := mkFrame OBD_BROADCAST_ID 8 [2; u8 (service p); u8 (pid p); 0; 0; 0; 0; 0].

Lemma query_run p f inc snt a n m : mon_at (f :: inc) snt a n m ->
  exists m', obd_query OBD_BROADCAST_ID (service p) (pid p) m = Some (f, m') /\ mon_at inc (snt ++ [query_frame p]) a n m'.
Proof.
  intros H. destruct (send_run (query_frame p) _ _ _ _ _ H) as (m1 & E1 & H1).
  destruct (recv_run zero_frame _ _ _ _ _ _ H1) as (m2 & E2 & H2). exists m2. split; [|exact H2].
  unfold obd_query.
  bind_with E1. exact E2.
Qed.

(** The entry of the table for the [i]-th answer. *)
Definition entry (n : nat) (fs : list can_frame) (i : nat) : OBD_data_t :=
  mkObd (malloc (n + i)) (frame_data <$> fs !! i) 8.

Lemma query_singles fuel l : forall fs inc snt a n m, length fs = length l -> Forall single_frame fs ->
  mon_at (fs ++ inc) snt a n m ->
  exists m', query_all malloc (Datatypes.S fuel) l m = Some (Some (imap (fun i e => (e.1, entry n fs i)) l), m') /\
    mon_at inc (snt ++ map (fun e => query_frame e.2) l) a (n + length l) m'.
Proof.
  induction l as [|[name p] l IH]; intros [|f fs] inc snt a n m Hl Hf Hm; try done.
  - exists m. split; [done|]. by rewrite app_nil_r, Nat.add_0_r.
  - apply Forall_cons in Hf as [Hf1 Hf]. cbn [length app] in *.
    destruct (query_run p _ _ _ _ _ _ Hm) as (m1 & E1 & H1).
    destruct (single_run fuel f no_data _ _ _ _ _ H1 Hf1) as (m2 & E2 & H2).
    destruct (IH fs inc _ a (Datatypes.S n) m2 ltac:(lia) Hf H2) as (m3 & E3 & H3).
    exists m3. split.
    + cbn [query_all]. bind_with E1. bind_with E2. cbv beta iota.
      bind_with E3. cbn [fmap option_fmap option_map]. comp_simpl. do 3 f_equal. cbn [imap fst].
      f_equal; [unfold entry; by rewrite Nat.add_0_r|]. apply imap_ext. intros i e _. unfold entry. cbn.
      by rewrite Nat.add_succ_r.
    + rewrite <- app_assoc in H3. replace (n + Datatypes.S (length l))%nat with (Datatypes.S n + length l)%nat by lia.
      exact H3.
Qed.

(** *** The values *)

Definition address_value (a : Z) : Z := default 0 (hex_to_obd_data (le_bytes 8 a) 4 8).

Lemma struct_value d : hex_to_obd_data (struct_bytes d) 4 8 = Some (address_value (data_addr d)).
Proof. reflexivity. Qed.

Definition pid_index (name : cstr) : option nat := fst <$> list_find (fun e => e.1 = name) PIDS_INIT_LIST.

Lemma imap_get (dat : nat -> OBD_data_t) (l : list (cstr * PID)) name :
  hashmap_get (imap (fun i e => (e.1, dat i)) l) name = dat <$> (fst <$> list_find (fun e => e.1 = name) l).
Proof.
  unfold hashmap_get. revert dat. induction l as [|e l IH]; intros dat; [done|]. cbn [imap list_find fst].
  case_decide; [done|]. specialize (IH (dat ∘ Datatypes.S)).
  change (imap ((λ (i : nat) (e0 : list Z * PID), (e0.1, dat i)) ∘ Datatypes.S) l)
    with (imap (fun (i : nat) (e0 : list Z * PID) => (e0.1, (dat ∘ Datatypes.S) i)) l).
  destruct (list_find _ (imap _ l)) as [[i e1]|], (list_find _ l) as [[j e2]|]; cbn in *; congruence.
Qed.

Lemma values_addresses (dat : nat -> OBD_data_t) names :
  Forall (fun name => is_Some (pid_index (lit name))) names ->
  mapM (obd_value (imap (fun i e => (e.1, dat i)) PIDS_INIT_LIST)) names =
    Some (map (fun name => address_value (data_addr (dat (default 0%nat (pid_index (lit name)))))) names).
Proof.
  intros Hn. apply mapM_Some. induction Hn as [|name names [i Hi] Hf IH]; [constructor|]. cbn [map].
  constructor; [|exact IH]. rewrite Hi. cbn [default].
  unfold obd_value. rewrite imap_get. unfold pid_index in Hi. rewrite Hi. bind_simpl. apply struct_value.
Qed.

(** What a vehicle answers to the query for its identification number. *)
Definition vin_answer (v : cstr) : list Z := [0x49; 0x02; 0x01] ++ v.

Lemma vin_read v : length v = 17%nat -> 0 ∉ v -> vin_hex_to_string (vin_answer v) 20 = Some v.
Proof.
  intros Hl H0. unfold vin_hex_to_string. cbn [Z.ltb Z.compare].
  pose proof (read_at_mid [0x49; 0x02; 0x01] v []) as E. rewrite Hl, app_nil_r in E.
  change (read_at _ _ _) with (read_at (vin_answer v) 3 (Z.to_nat (20 - 3))) in E. rewrite E. bind_simpl.
  rewrite overwrite_start by (rewrite Hl, length_replicate; vm_compute; lia). bind_simpl.
  rewrite Hl. change (drop 17 (replicate (Z.to_nat 20) 0)) with [0; 0; 0]. by apply c_string_nul.
Qed.

(** The monitor reports the identification number of the vehicle and nothing
    else of what it measured: whatever single frames the control units answer
    with, each value in the report is made from the address of the memory the
    answer is stored in, and the oil temperature is that of the coolant. *)
Theorem obd_report v fs inc snt n device now m : length v = 17%nat -> 0 ∉ v -> length fs = 22%nat ->
  Forall single_frame fs ->
  mon_at ((first_frame id (vin_answer v) :: tail_frames id (vin_answer v)) ++ fs ++ inc) snt 0 n m ->
  exists m', get_obd_datasets malloc 3 device now m =
    Some (Some (string_compress (OBD2_data_create v
      (map (fun name => address_value (malloc (n + default 0%nat (pid_index (lit name)))%nat)) obd_fields) device now)).2, m') /\
    mon_at inc (snt ++ [vin_query; flow_control (first_frame id (vin_answer v))] ++
                map (fun e => query_frame e.2) (tail PIDS_INIT_LIST)) 20 (n + 23) m'.
Proof.
  intros Hv H0 Hfs Hsingle Hm. assert (length (vin_answer v) = 20%nat) as Hl by (cbn; lia).
  change PIDS_INIT_LIST with ((lit "VEHICLE_IDENTIFICATION_NUMBER", mkPid 0x09 0x02) :: tail PIDS_INIT_LIST) at 1.
  destruct (query_run (mkPid 0x09 0x02) _ _ _ _ _ _ Hm) as (m1 & E1 & H1).
  destruct (obd_reassembled malloc id (vin_answer v) 2 no_data _ _ _ _ ltac:(lia) ltac:(lia) H1) as (m2 & E2 & H2).
  destruct (query_singles 2 (tail PIDS_INIT_LIST) fs inc _ _ _ _ Hfs Hsingle H2) as (m3 & E3 & H3).
  exists m3. rewrite Hl in *. split.
  2:{ change (length (tail PIDS_INIT_LIST)) with 22%nat in H3. rewrite <- !app_assoc in H3.
      replace (n + 23)%nat with (Datatypes.S n + 22)%nat by lia. exact H3. }
  set (dat i := match i with O => mkObd (malloc n) (Some (vin_answer v)) 20 | Datatypes.S i => entry (Datatypes.S n) fs i end).
  assert (query_all malloc 3 PIDS_INIT_LIST m = Some (Some (imap (fun i e => (e.1, dat i)) PIDS_INIT_LIST), m3)) as E.
  { change PIDS_INIT_LIST with ((lit "VEHICLE_IDENTIFICATION_NUMBER", mkPid 0x09 0x02) :: tail PIDS_INIT_LIST).
    cbn [query_all]. bind_with E1. bind_with E2. cbv beta iota.
    bind_with E3. reflexivity. }
  unfold get_obd_datasets. bind_with E. cbv beta iota.
  assert (create_obd2_flatbuffer (imap (fun i e => (e.1, dat i)) PIDS_INIT_LIST) device now =
    Some (string_compress (OBD2_data_create v
      (map (fun name => address_value (malloc (n + default 0%nat (pid_index (lit name)))%nat)) obd_fields) device now)).2) as Ec.
  { set (t := imap (fun i e => (e.1, dat i)) PIDS_INIT_LIST).
    assert (hashmap_get t (lit "VEHICLE_IDENTIFICATION_NUMBER") = Some (dat 0%nat)) as E0 by (unfold t; rewrite imap_get; reflexivity).
    assert (obd_value t "ENGINE_OIL_TEMPERATURE" = Some (address_value (data_addr (dat 14%nat)))) as E14
      by (unfold obd_value, t; rewrite imap_get; exact (struct_value (dat 14%nat))).
    pose proof (values_addresses dat obd_fields ltac:(apply (bool_decide_unpack _); vm_compute; exact I)) as Ev. fold t in Ev.
    unfold create_obd2_flatbuffer. rewrite E0, Ev. bind_simpl. change (obd_data (dat 0%nat)) with (Some (vin_answer v)).
    change (data_len (dat 0%nat)) with 20. bind_simpl. rewrite vin_read by done. bind_simpl. rewrite E14. bind_simpl.
    do 4 f_equal.
    apply map_ext. intros name. f_equal. destruct (default 0%nat (pid_index (lit name))) as [|i]; cbn.
    - by rewrite Nat.add_0_r.
    - by rewrite Nat.add_succ_r. }
  rewrite Ec. reflexivity.
Qed.

End Report.

(** C37 The identification number crosses the bus: fed with what the monitor
    sends, the emulator sends the three frames of its number, and fed with these
    the monitor sends exactly that and reads the number of the emulator. *)
Theorem obd_vin_transported {sock : Type} {S : CanSocket sock} {Q : QueueSocket sock} malloc rand f0
    incE sntE incM sntM n (sE : sock) (m : monitor sock) :
  emu_at (vin_query :: vin_flow :: incE) sntE sE -> mon_at (vin_frames ++ incM) sntM 0 n m ->
  exists sE' m', emulator_round rand 3 f0 sE = Some (Some vin_query, sE') /\ emu_at incE (sntE ++ vin_frames) sE' /\
    (f ← obd_query OBD_BROADCAST_ID 0x09 0x02; obd_message malloc 3 f no_data) m =
      Some (Some (mkObd (malloc n) (Some vin_message) 20), m') /\
    mon_at incM (sntM ++ [vin_query; vin_flow]) 20 (Datatypes.S n) m' /\
    vin_hex_to_string vin_message 20 = Some OBD_EMULATOR_DEFAULT_VIN.
Proof.
  intros HE HM. destruct (emulator_sends_vin rand f0 incE sntE sE HE) as (sE' & EE & HE').
  destruct (query_run (mkPid 0x09 0x02) _ _ _ _ _ _ HM) as (m1 & E1 & H1).
  destruct (obd_reassembled malloc OBD_FIRST_ECU_RESPONSE vin_message 2 no_data incM _ _ m1 eq_refl
    ltac:(apply Nat.ltb_lt; reflexivity) H1) as (m2 & E2 & H2).
  exists sE', m2. split; [exact EE|]. split; [exact HE'|]. split; [bind_with E1; exact E2|].
  split; [|reflexivity]. rewrite <- app_assoc in H2. exact H2.
Qed.

(** ** Evaluations *)
Module ObdWitness.

(** What will be read, and what was written. *)
Definition queue : Type := list can_frame * list can_frame.

#[export] Instance queue_can : CanSocket queue := {
  sock_write f s := (true, (s.1, s.2 ++ [f]));
  sock_read s := match s.1 with f :: l => (Some f, (l, s.2)) | [] => (None, s) end
}.

#[export] Instance queue_laws : QueueSocket queue.
Proof.
  refine {| incoming := fun s : queue => s.1; sent := fun s : queue => s.2 |}.
  - intros [l t] f r E. cbn in E. subst l. by exists (r, t).
  - intros f s. by exists (s.1, s.2 ++ [f]).
Defined.

#[export] Instance plain_packing : ObdPacking := {
  OBD2_data_create vin values device now := vin ++ values ++ device ++ [now];
  BrotliEncoderCompress l n := (true, l)
}.

Definition heap (n : nat) : Z := 0x7F0000001000 + 16 * Z.of_nat n.

Lemma obd_vin_transported_witness :
  exists sE' m', emulator_round (fun _ => 3) 3 zero_frame ([vin_query; vin_flow], []) = Some (Some vin_query, sE') /\
    (f ← obd_query OBD_BROADCAST_ID 0x09 0x02; obd_message heap 3 f no_data) (mkMonitor (vin_frames, []) 0 0) =
      Some (Some (mkObd (heap 0) (Some vin_message) 20), m') /\ sent sE' = vin_frames.
Proof.
  destruct (obd_vin_transported heap (fun _ => 3) zero_frame [] [] [] [] 0 ([vin_query; vin_flow], [])
    (mkMonitor (vin_frames, []) 0 0)) as (sE' & m' & E1 & [_ H2] & E3 & _).
  - split; reflexivity.
  - repeat split; reflexivity.
  - exists sE', m'. split; [exact E1|]. split; [exact E3|exact H2].
Defined.

Definition answers (b : Z) : list can_frame := replicate 22 (mkFrame OBD_FIRST_ECU_RESPONSE 8 [7; 0x41; 4; b; b; b; b; 0]).

(** The same report for two vehicles with different measurements. *)
Lemma obd_report_witness :
  fst <$> get_obd_datasets heap 3 (lit "dev") 9 (mkMonitor (vin_frames ++ answers 15, []) 0 0) =
  fst <$> get_obd_datasets heap 3 (lit "dev") 9 (mkMonitor (vin_frames ++ answers 99, []) 0 0).
Proof.
  assert (forall b, Forall single_frame (answers b)) as Hs.
  { intros b. apply Forall_replicate. split; [reflexivity|]. exists 7. split; [reflexivity|lia]. }
  assert (forall b, exists m', get_obd_datasets heap 3 (lit "dev") 9 (mkMonitor (vin_frames ++ answers b, []) 0 0) =
    Some (Some (string_compress (OBD2_data_create OBD_EMULATOR_DEFAULT_VIN
      (map (fun name => address_value (heap (0 + default 0%nat (pid_index (lit name)))%nat)) obd_fields) (lit "dev") 9)).2, m')) as H.
  { intros b. destruct (obd_report heap OBD_FIRST_ECU_RESPONSE OBD_EMULATOR_DEFAULT_VIN (answers b) [] [] 0 (lit "dev") 9
      (mkMonitor (vin_frames ++ answers b, []) 0 0)) as (m' & E & _).
    - reflexivity.
    - apply (bool_decide_unpack _). vm_compute. exact I.
    - reflexivity.
    - exact (Hs b).
    - repeat split.
    - exists m'. exact E. }
  destruct (H 15) as [m1 ->], (H 99) as [m2 ->]. reflexivity.
Defined.

End ObdWitness.
