(* ===== verification/Device.v ===== *)
(** * Devices ([endpoint/platform], [endpoint/endpointComp])

    A platform keeps the key and the name of a device: the simulator in the file
    [endpoint.conf] ([simulator/impl.c]), the Legato target in its secure storage
    and on the SIM card ([legato-target/impl.c]).  The endpoint program
    ([endpointComp/endpoint.c]) gets both and sends a message encrypted with the
    key.  [Platform] is the interface of [impl.h]; the simulator is shown to
    implement a register that survives restarts, and the program to send what
    can be read with the key the platform hands over: the device's on the
    simulator, zeros on the Legato target. *)

From S2P Require Import Prelude TaErrors Cipher Endpoint.

Definition AES_CBC_KEY_SIZE : nat := AES_BLOCK_SIZE * 2.
Definition EXIT_SUCCESS : Z := 0.
Definition EXIT_FAILURE : Z := 1.

(** ** The interface ([impl.h])

    Pointers are [None] for NULL, otherwise the array they point to; arrays that
    are written are part of the result. *)
Class Platform (P : Type) := {
  set_device_key : option (list Z) -> comp P status_t;
  get_device_key : list Z -> comp P (status_t * list Z);
  get_device_id : list Z -> comp P (status_t * list Z)
}.

(** ** The simulator *)

(** [fscanf] with a format of white space, characters and [%s]: the words it
    stores.  It stops at the first character that does not match. *)
Fixpoint span_nonspace (s : cstr) : cstr :=
  match s with c :: r => if is_space c then [] else c :: span_nonspace r | [] => [] end.

Fixpoint fscanf_words (fmt text : cstr) : list cstr :=
  match fmt with
  | [] => []
  | c :: f =>
      if c =? 37 then
        match f with
        | [] => []
        | _ :: f =>
            let t := skip_space text in
            match span_nonspace t with
            | [] => []
            | w => w :: fscanf_words f (drop (length w) t)
            end
        end
      else if is_space c then fscanf_words f (skip_space text)
      else match text with
           | d :: t => if c =? d then fscanf_words f t else []
           | [] => []
           end
  end.

Module Simulator.

(** The file, whether it may be opened and created, and the static arrays. *)
Record state := mkState {
  file : option (list Z); may_open : bool; may_create : bool;
  device_key : list Z; device_id : list Z }.

(** What the process asks the system for: [gethostname] with the size of the
    buffer (the bytes it writes), and the numbers drawn by [rand]. *)
Class System := {
  gethostname : nat -> option (list Z);
  rand : nat -> Z
}.

Definition ENDPOINT_DEVICE_ID_LEN : nat := IMSI_LEN.
Definition ENDPOINT_DEVICE_KEY_LEN : nat := AES_CBC_KEY_SIZE.

Definition conf_format : cstr := lit "Device ID:%s" ++ [10] ++ lit "Device key:%s" ++ [10].
Definition conf_text (id key : cstr) : list Z :=
  (lit "Device ID:" ++ id ++ [10]) ++ (lit "Device key:" ++ key ++ [10]).

Definition alphanum : cstr := lit "ABCDEFGHIJKLMNOPQRSTUVWXYZabcdefghijklmnopqrstuvwxyz0123456789".

(** [fopen (.., "wb+")]: an empty file, or NULL. *)
Definition open_truncate (s : state) : bool := if file s then may_open s else may_create s.

(** The words of the file go into the two arrays. *)
Definition store_words (ws : list cstr) (id key : list Z) : option (list Z * list Z) :=
  id ← match ws with w :: _ => overwrite id 0 (w ++ [0]) | [] => Some id end;
  key ← match ws with _ :: w :: _ => overwrite key 0 (w ++ [0]) | _ => Some key end;
  Some (id, key).

(** [gen_random (s, len)] from the index [i] on. *)
Fixpoint random_chars {sys : System} (i n : nat) : option cstr :=
  match n with
  | O => Some []
  | S n => c ← get alphanum (Z.rem (rand i) 62); r ← random_chars (S i) n; Some (c :: r)
  end.

Definition gen_random {sys : System} (s : list Z) (len : nat) : option (list Z) :=
  r ← random_chars 0 len;
  overwrite s 0 (r ++ [0]).

(** [endpoint_conf_init], which runs before [main]: [false] when the process
    exits.  A NULL file makes the functions that write to it undefined. *)
Definition endpoint_conf_init {sys : System} : comp state bool := fun s =>
  let id := replicate (ENDPOINT_DEVICE_ID_LEN + 1) 0 in
  let key := replicate (ENDPOINT_DEVICE_KEY_LEN + 1) 0 in
  match (if may_open s then file s else None) with
  | Some text =>
      '(id, key) ← store_words (fscanf_words conf_format text) id key;
      i0 ← get id 0; k0 ← get key 0;
      Some (negb ((i0 =? 0) || (k0 =? 0)), mkState (Some text) (may_open s) (may_create s) key id)
  | None =>
      if negb (open_truncate s) then None else
      match gethostname ENDPOINT_DEVICE_ID_LEN with
      | None => Some (false, mkState (Some []) (may_open s) (may_create s) key id)
      | Some name =>
          id ← overwrite id 0 name;
          key ← gen_random key ENDPOINT_DEVICE_KEY_LEN;
          i ← c_string id; k ← c_string key;
          Some (true, mkState (Some (conf_text i k)) (may_open s) (may_create s) key id)
      end
  end.

(** The file has been emptied when it is scanned. *)
Definition sim_set_device_key (key : option (list Z)) : comp state status_t := fun s =>
  if negb (open_truncate s) then None else
  '(id, dkey) ← store_words (fscanf_words conf_format []) (device_id s) (device_key s);
  key ← key;
  bytes ← read_at key 0 ENDPOINT_DEVICE_KEY_LEN;
  dkey ← overwrite dkey 0 bytes;
  i ← c_string id; k ← c_string dkey;
  Some (SC_OK, mkState (Some (conf_text i k)) (may_open s) (may_create s) dkey id).

Definition sim_get_device_key (key : list Z) : comp state (status_t * list Z) :=
  dkey ← gets device_key;
  bytes ← check (read_at dkey 0 ENDPOINT_DEVICE_KEY_LEN);
  key ← check (overwrite key 0 bytes);
  mret (SC_OK, key).

Definition sim_get_device_id (id : list Z) : comp state (status_t * list Z) :=
  did ← gets device_id;
  bytes ← check (read_at did 0 IMSI_LEN);
  id ← check (overwrite id 0 bytes);
  mret (SC_OK, id).

#[export] Instance simulator : Platform state := {
  set_device_key := sim_set_device_key;
  get_device_key := sim_get_device_key;
  get_device_id := sim_get_device_id
}.

End Simulator.

(** ** The Legato target *)

Inductive le_result_t := LE_OK | LE_OVERFLOW | LE_NOT_FOUND | LE_UNAVAILABLE | LE_FAULT | LE_OTHER.

#[export] Instance le_result_eq_dec : EqDecision le_result_t.
Proof. solve_decision. Defined.

(** The secure storage (items by name; a read returns the bytes written to the
    buffer of the given size) and the SIM card. *)
Class LegatoServices (L : Type) := {
  secStoreGlobal_Write : cstr -> list Z -> L -> le_result_t * L;
  secStoreGlobal_Read : cstr -> nat -> L -> le_result_t * list Z * L;
  le_sim_GetIMSI : Z -> nat -> L -> le_result_t * list Z * L
}.

Module Legato.
Section Legato.
Context {L : Type} {services : LegatoServices L}.

Definition ENDPOINT_DEVICE_KEY_NAME : cstr := lit "Device key".
Definition LE_SIM_IMSI_BYTES : nat := 16.
(** The static variable is never assigned. *)
Definition SimId : Z := 0.

Definition service {A} (f : L -> A * L) : comp L A := fun s => Some (f s).

Definition leg_set_device_key (key : option (list Z)) : comp L status_t :=
  match key with
  | None => mret SC_ENDPOINT_SET_KEY_ERROR
  | Some key =>
      bytes ← check (read_at key 0 AES_CBC_KEY_SIZE);
      private_key ← check (overwrite (replicate AES_CBC_KEY_SIZE 0) 0 bytes);
      result ← service (secStoreGlobal_Write ENDPOINT_DEVICE_KEY_NAME private_key);
      mret (if decide (result = LE_OK) then SC_OK else SC_ENDPOINT_SET_KEY_ERROR)
  end.

(** The item is read into an array of the function; [key] is not written. *)
Definition leg_get_device_key (key : list Z) : comp L (status_t * list Z) :=
  '(result, bytes) ← service (secStoreGlobal_Read ENDPOINT_DEVICE_KEY_NAME AES_CBC_KEY_SIZE);
  private_key ← check (overwrite (replicate AES_CBC_KEY_SIZE 0) 0 bytes);
  match result with
  | LE_OK => mret (SC_OK, key)
  | _ => mret (SC_ENDPOINT_GET_KEY_ERROR, key)
  end.

Definition cm_sim_GetSimImsi (sim_id : list Z) : comp L (status_t * list Z) :=
  '(result, bytes) ← service (le_sim_GetIMSI SimId LE_SIM_IMSI_BYTES);
  imsi ← check (overwrite sim_id 0 bytes);
  if decide (result = LE_OK) then mret (SC_OK, imsi)
  else imsi ← check (put imsi 0 0); mret (SC_ENDPOINT_GET_DEVICE_ID_ERROR, imsi).

Definition leg_get_device_id (device_id : list Z) : comp L (status_t * list Z) :=
  '(ret, device_id) ← cm_sim_GetSimImsi device_id;
  mret (if ret =? SC_OK then SC_OK else SC_ENDPOINT_GET_DEVICE_ID_ERROR, device_id).

#[export] Instance legato : Platform L := {
  set_device_key := leg_set_device_key;
  get_device_key := leg_get_device_key;
  get_device_id := leg_get_device_id
}.

End Legato.
End Legato.

(** ** The endpoint program *)

Section Program.
Context {P sk : Type} {platform : Platform P} {network : Network sk} {tls : MbedTls}.
Context (fuel : nat) (http_parser_execute : cstr -> list (nat * nat) * Z)
  (flatcc_message : list Z -> list Z -> list Z -> list Z) (le_base64_Encode : list Z -> option cstr).

(** Code of the platform and of the connection, over both states. *)
Definition on_platform {A} (m : comp P A) : act (P * sk) A := fun s =>
  match m s.1 with Some (a, p) => Done (a, (p, s.2)) | None => Undefined end.

Definition on_connection {A} (m : act sk A) : act (P * sk) A := fun s =>
  match m s.2 with Done (a, k) => Done (a, (s.1, k)) | Undefined => Undefined | OutOfFuel => OutOfFuel end.

(** [COMPONENT_INIT] with the options of the command line: the exit code.  The
    device id is read as a string when the message is encrypted, the seed for
    TLS when it is used. *)
Definition endpoint_main (https : bool) (now : Z) (host port ssl_seed message mam_seed : option cstr)
    : act (P * sk) Z :=
  '(ret, private_key) ← on_platform (get_device_key (replicate AES_CBC_KEY_SIZE 0));
  if negb (ret =? SC_OK) then mret EXIT_FAILURE else
  '(_, id) ← on_platform (get_device_id (replicate 16 0));
  match host, port, message, mam_seed with
  | Some host, Some port, Some message, Some mam_seed =>
      dev ← defined (c_string id);
      seed ← defined (if https then ssl_seed else Some (default [] ssl_seed));
      ret ← on_connection (send_mam_message fuel http_parser_execute flatcc_message le_base64_Encode
              https now host port seed mam_seed (message ++ [0]) (strlen message) private_key dev);
      mret (if ret =? SC_OK then EXIT_SUCCESS else EXIT_FAILURE)
  | _, _, _, _ => mret EXIT_FAILURE
  end.

(** [endpoint_Send_mam_message], the service the OBD monitor calls. *)
Definition endpoint_Send_mam_message (https : bool) (now : Z) (host port ssl_seed mam_seed : cstr)
    (message : list Z) (message_size : Z) (private_key : list Z) (device_id : cstr) : act sk status_t :=
  send_mam_message fuel http_parser_execute flatcc_message le_base64_Encode
    https now host port ssl_seed mam_seed message message_size private_key device_id.

End Program.

(** ** The file of the simulator

    Words that [fscanf] reads back: characters other than white space and NUL. *)
Definition is_word (w : cstr) : Prop := w <> [] /\ Forall (fun c => is_space c = false /\ c <> 0) w.

#[export] Instance is_word_dec w : Decision (is_word w).
Proof. unfold is_word. apply _. Defined.

Lemma word_no_nul w : is_word w -> 0 ∉ w.
Proof. intros [_ H] H0. rewrite Forall_forall in H. by destruct (H 0 H0). Qed.

Lemma span_word_newline w r : is_word w -> span_nonspace (w ++ 10 :: r) = w.
Proof.
  intros [_ H]. induction H as [|c w [Hc _] _ IH]; [done|]. cbn. by rewrite Hc, IH.
Qed.

Lemma skip_space_word w r : is_word w -> skip_space (w ++ r) = w ++ r.
Proof.
  intros [Hne H]. destruct H as [|c w [Hc _] _]; [done|]. cbn. by rewrite Hc.
Qed.

Lemma fscanf_string f w r : is_word w ->
  fscanf_words (37 :: 115 :: f) (w ++ 10 :: r) = w :: fscanf_words f (10 :: r).
Proof.
  intros H. cbn [fscanf_words]. change (37 =? 37) with true. cbv iota zeta.
  rewrite skip_space_word, span_word_newline by done.
  destruct w as [|c w]; [by destruct H as [? _]|]. by rewrite drop_app_length.
Qed.

Import Simulator.

(** The two lines of the file are read back. *)
Lemma conf_text_scanned id key : is_word id -> is_word key ->
  fscanf_words conf_format (conf_text id key) = [id; key].
Proof.
  intros Hi Hk.
  transitivity (fscanf_words (37 :: 115 :: [10] ++ lit "Device key:%s" ++ [10])
    (id ++ 10 :: lit "Device key:" ++ key ++ [10])).
  { unfold conf_text. rewrite <- !app_assoc. reflexivity. }
  rewrite fscanf_string by done. f_equal.
  transitivity (fscanf_words (37 :: 115 :: [10]) (key ++ 10 :: [])); [reflexivity|].
  by rewrite fscanf_string.
Qed.

(** *** The register the simulator implements *)

Inductive device_op := Restart | SetKey (key : cstr) | GetKey | GetId.

Definition id_bytes (id : cstr) : list Z := take IMSI_LEN (id ++ replicate IMSI_LEN 0).

(** What an operation returns and the key afterwards. *)
Definition register_op (id : cstr) (op : device_op) (key : cstr) : list Z * cstr :=
  match op with
  | Restart => ([], key)
  | SetKey k => ([], k)
  | GetKey => (key, key)
  | GetId => (id_bytes id, key)
  end.

Fixpoint register_run (id : cstr) (ops : list device_op) (key : cstr) : list (list Z) * cstr :=
  match ops with
  | [] => ([], key)
  | op :: ops =>
      let '(r, key) := register_op id op key in
      let '(rs, key) := register_run id ops key in (r :: rs, key)
  end.

(** The same operations on the simulator; [None] is a status other than
    [SC_OK] or a process that exits. *)
Definition sim_op {sys : System} (op : device_op) : comp state (option (list Z)) :=
  match op with
  | Restart => ok ← endpoint_conf_init; mret (if ok : bool then Some [] else None)
  | SetKey k => ret ← set_device_key (Some (k ++ [0])); mret (if ret =? SC_OK then Some [] else None)
  | GetKey => '(ret, k) ← get_device_key (replicate AES_CBC_KEY_SIZE 0);
              mret (if ret =? SC_OK then Some k else None)
  | GetId => '(ret, i) ← get_device_id (replicate IMSI_LEN 0); mret (if ret =? SC_OK then Some i else None)
  end.

Fixpoint sim_run {sys : System} (ops : list device_op) : comp state (option (list (list Z))) :=
  match ops with
  | [] => mret (Some [])
  | op :: ops =>
      r ← sim_op op;
      match r with
      | None => mret None
      | Some r => rs ← sim_run ops; mret (cons r <$> rs)
      end
  end.

Definition key_ok (key : cstr) : Prop := is_word key /\ length key = AES_CBC_KEY_SIZE.
Definition op_ok (op : device_op) : Prop := match op with SetKey k => key_ok k | _ => True end.

#[export] Instance op_ok_dec op : Decision (op_ok op).
Proof. destruct op; unfold op_ok, key_ok; apply _. Defined.

(** Arrays and file agree on the name and the key. *)
Record provisioned (id key : cstr) (s : state) : Prop := {
  p_id : is_word id;
  p_id_length : (length id <= IMSI_LEN)%nat;
  p_key : key_ok key;
  p_open : may_open s = true;
  p_file : file s = Some (conf_text id key);
  p_device_id : Simulator.device_id s = id ++ replicate (17 - length id) 0;
  p_device_key : device_key s = key ++ [0] }.

Lemma overwrite_word w n : (length w < n)%nat ->
  overwrite (replicate n 0) 0 (w ++ [0]) = Some (w ++ replicate (n - length w) 0).
Proof.
  intros H. rewrite overwrite_start by (rewrite length_app, length_replicate; simpl; lia).
  rewrite drop_replicate, <- app_assoc, length_app. do 2 f_equal.
  replace (n - length w)%nat with (S (n - (length w + 1))) by lia. done.
Qed.

Lemma head_word w r : is_word w -> exists c, get (w ++ r) 0 = Some c /\ c <> 0.
Proof. intros [Hne H]. destruct H as [|c w [_ Hc] _]; [done|]. by exists c. Qed.

Lemma c_string_word w n : is_word w -> (0 < n)%nat -> c_string (w ++ replicate n 0) = Some w.
Proof. intros Hw Hn. destruct n; [lia|]. by apply c_string_nul, word_no_nul. Qed.

Ltac sizes := unfold ENDPOINT_DEVICE_KEY_LEN, ENDPOINT_DEVICE_ID_LEN, IMSI_LEN, AES_CBC_KEY_SIZE, AES_BLOCK_SIZE in *.

Lemma read_key_array key n : length key = AES_CBC_KEY_SIZE -> n = AES_CBC_KEY_SIZE ->
  read_at (key ++ [0]) 0 n = Some key.
Proof. intros Hk ->. rewrite <- Hk. apply (read_at_mid [] key [0]). Qed.

Section Provisioned.
Context {sys : System} (id key : cstr) (s : state) (Hp : provisioned id key s).

Lemma restart_provisioned : exists s', endpoint_conf_init s = Some (true, s') /\ provisioned id key s'.
Proof using Hp.
  destruct Hp as [Hi Hli [Hk Hlk] Ho Hf Hdi Hdk]. sizes.
  exists (mkState (file s) true (may_create s) (key ++ [0]) (id ++ replicate (17 - length id) 0)).
  split; [|by split]. unfold endpoint_conf_init. rewrite Ho, Hf, conf_text_scanned by done. unfold store_words.
  rewrite !overwrite_word by (sizes; lia). bind_simpl.
  change (ENDPOINT_DEVICE_ID_LEN + 1)%nat with 17%nat. change (ENDPOINT_DEVICE_KEY_LEN + 1)%nat with 33%nat.
  rewrite Hlk. destruct (head_word id (replicate (17 - length id) 0) Hi) as (c & -> & Hc).
  destruct (head_word key (replicate (33 - (16 * 2)) 0) Hk) as (c' & -> & Hc'). bind_simpl.
  by rewrite !(proj2 (Z.eqb_neq _ 0)).
Qed.

Lemma set_key_provisioned k : key_ok k -> exists s',
  sim_set_device_key (Some (k ++ [0])) s = Some (SC_OK, s') /\ provisioned id k s'.
Proof using Hp.
  intros [Hk' Hlk']. destruct Hp as [Hi Hli [Hk Hlk] Ho Hf Hdi Hdk].
  exists (mkState (Some (conf_text id k)) true (may_create s) (k ++ [0]) (id ++ replicate (17 - length id) 0)).
  split; [|by split]. unfold sim_set_device_key, open_truncate. rewrite Hf, Ho, Hdi, Hdk. cbn [negb].
  change (fscanf_words conf_format []) with (@nil cstr). cbn [store_words mbind option_bind].
  rewrite read_key_array by done. bind_simpl.
  rewrite overwrite_start by (rewrite length_app; lia). rewrite Hlk', <- Hlk, drop_app_length. bind_simpl.
  rewrite c_string_word by (done || sizes; lia). bind_simpl.
  by rewrite (c_string_nul k []) by by apply word_no_nul.
Qed.

Lemma get_key_provisioned : sim_get_device_key (replicate AES_CBC_KEY_SIZE 0) s = Some ((SC_OK, key), s).
Proof using Hp.
  destruct Hp as [_ _ [_ Hlk] _ _ _ Hdk]. unfold sim_get_device_key. comp_simpl.
  rewrite Hdk, read_key_array by done. rewrite overwrite_start by (rewrite length_replicate; lia).
  by rewrite drop_replicate, Hlk, Nat.sub_diag, app_nil_r.
Qed.

Lemma get_id_provisioned : sim_get_device_id (replicate IMSI_LEN 0) s = Some ((SC_OK, id_bytes id), s).
Proof using Hp.
  destruct Hp as [_ Hli _ _ _ Hdi _]. sizes. unfold sim_get_device_id. comp_simpl. sizes. rewrite Hdi.
  unfold read_at. rewrite length_app, length_replicate, decide_True by lia. rewrite drop_0.
  assert (take 16 (id ++ replicate (17 - length id) 0) = id_bytes id) as ->.
  { unfold id_bytes. sizes. rewrite !take_app, !take_replicate. do 2 f_equal. lia. }
  unfold id_bytes. sizes. rewrite overwrite_start; rewrite length_take, length_app, !length_replicate; [|lia].
  rewrite drop_replicate. replace (16 - _)%nat with 0%nat by lia. by rewrite app_nil_r.
Qed.

Lemma sim_op_refines op : op_ok op -> exists s',
  sim_op op s = Some (Some (register_op id op key).1, s') /\ provisioned id (register_op id op key).2 s'.
Proof using Hp.
  intros Hop. destruct op as [|k| |]; cbn [sim_op register_op fst snd].
  - destruct restart_provisioned as (s' & E & H'). comp_step E. by exists s'.
  - destruct (set_key_provisioned k Hop) as (s' & E & H'). comp_step E. by exists s'.
  - comp_step get_key_provisioned. by exists s.
  - comp_step get_id_provisioned. by exists s.
Qed.

End Provisioned.

Lemma sim_run_refines {sys : System} id ops : forall key s, provisioned id key s -> Forall op_ok ops ->
  exists s', sim_run ops s = Some (Some (register_run id ops key).1, s') /\
    provisioned id (register_run id ops key).2 s'.
Proof.
  induction ops as [|op ops IH]; intros key s Hp Hops; [by exists s|]. inversion Hops; subst.
  destruct (sim_op_refines id key s Hp op) as (s1 & E1 & Hp1); [done|]. cbn [sim_run register_run].
  comp_step E1. destruct (register_op id op key) as [r key1]. cbn [fst snd] in *.
  destruct (IH key1 s1 Hp1) as (s2 & E2 & Hp2); [done|]. comp_step E2.
  destruct (register_run id ops key1) as [rs key2]. by exists s2.
Qed.

(** *** The first start *)

Lemma random_chars_ok {sys : System} n : (forall i, 0 <= rand i) -> forall i, exists r,
  random_chars i n = Some r /\ length r = n /\ Forall (fun c => is_space c = false /\ c <> 0) r.
Proof.
  intros Hr. induction n as [|n IH]; intros i; [by exists []|]. cbn [random_chars].
  destruct (IH (S i)) as (r & E & Hl & Hf).
  assert (0 <= Z.rem (rand i) 62 < 62) as Hb by (apply Z.rem_bound_pos; [apply Hr|lia]).
  destruct (lookup_lt_is_Some_2 alphanum (Z.to_nat (Z.rem (rand i) 62))) as [c Hc].
  { change (length alphanum) with 62%nat. lia. }
  exists (c :: r). rewrite E. unfold get. destruct (Z.ltb_spec (Z.rem (rand i) 62) 0); [lia|]. rewrite Hc.
  split; [done|]. split; [cbn; congruence|]. constructor; [|done].
  assert (Forall (fun c => is_space c = false /\ c <> 0) alphanum) as Ha
    by (apply (bool_decide_unpack _); vm_compute; exact I).
  rewrite Forall_forall in Ha. apply Ha. by eapply list_elem_of_lookup_2.
Qed.

Lemma first_start {sys : System} s h : file s = None -> may_open s = true -> may_create s = true ->
  gethostname IMSI_LEN = Some (h ++ [0]) -> is_word h -> (length h < IMSI_LEN)%nat ->
  (forall i, 0 <= rand i) ->
  exists key s', endpoint_conf_init s = Some (true, s') /\ provisioned h key s'.
Proof.
  intros Hf Ho Hc Hh Hw Hl Hr. sizes.
  destruct (random_chars_ok 32 Hr 0) as (key & Ek & Hlk & Hfk).
  assert (is_word key) as Hwk by (split; [by destruct key|done]).
  exists key, (mkState (Some (conf_text h key)) true true (key ++ [0]) (h ++ replicate (17 - length h) 0)).
  split; [|split; cbn; sizes; (done || lia || by split)].
  unfold endpoint_conf_init, open_truncate, gen_random. rewrite Hf, Ho, Hc. cbn [negb].
  sizes. rewrite Hh. cbn [Nat.add Nat.mul]. rewrite overwrite_word by lia. bind_simpl. rewrite Ek. bind_simpl.
  rewrite overwrite_word by lia. bind_simpl. rewrite Hlk. rewrite c_string_word by (done || lia). bind_simpl.
  by rewrite c_string_word by (done || lia).
Qed.

(** C36 The simulator implements a register that survives restarts: started without
    a configuration file on a host whose name is a word of at most 15 characters,
    it generates a key, and from then on every sequence of restarts, reads of the
    key and of the id, and writes of keys of 32 characters without white space
    returns what a register with the host name and that key returns. *)
Theorem simulator_refines {sys : System} s h ops :
  file s = None -> may_open s = true -> may_create s = true ->
  gethostname IMSI_LEN = Some (h ++ [0]) -> is_word h -> (length h < IMSI_LEN)%nat ->
  (forall i, 0 <= rand i) -> Forall op_ok ops ->
  exists key s1 s2, key_ok key /\ endpoint_conf_init s = Some (true, s1) /\
    sim_run ops s1 = Some (Some (register_run h ops key).1, s2) /\
    provisioned h (register_run h ops key).2 s2.
Proof.
  intros Hf Ho Hc Hh Hw Hl Hr Hops.
  destruct (first_start s h Hf Ho Hc Hh Hw Hl Hr) as (key & s1 & E1 & Hp1).
  destruct (sim_run_refines h ops key s1 Hp1 Hops) as (s2 & E2 & Hp2).
  exists key, s1, s2. split; [apply Hp1|]. done.
Qed.

(** A name in the file that is longer than the array is written behind it. *)
Theorem long_name_undefined {sys : System} s id key : may_open s = true ->
  file s = Some (conf_text id key) -> is_word id -> is_word key -> (IMSI_LEN < length id)%nat ->
  endpoint_conf_init s = None.
Proof.
  intros Ho Hf Hi Hk Hl. unfold endpoint_conf_init. rewrite Ho, Hf, conf_text_scanned by done.
  assert (overwrite (replicate (ENDPOINT_DEVICE_ID_LEN + 1) 0) 0 (id ++ [0]) = None) as E.
  { unfold overwrite. rewrite length_app, length_replicate, decide_False; [done|]. sizes. cbn [length]. lia. }
  unfold store_words. by rewrite E.
Qed.

(** ** Messages of the program *)
Section Messages.
Context {P sk : Type} {platform : Platform P} {network : Network sk} {sent : sk -> list Z}
  {network_laws : NetworkLaws sk network sent} {tls : MbedTls} {tls_laws : MbedTlsLaws tls}.
Context (http_parser_execute : cstr -> list (nat * nat) * Z)
  (flatcc_message : list Z -> list Z -> list Z -> list Z) (base64 : list Z -> cstr).

(** A server under a name that takes connections on a port and answers. *)
Record server_at (fuel : nat) (host port : cstr) (p : Z) : Prop := {
  at_port : atoi port = Some p;
  at_range : 0 <= p <= 65535;
  at_fuel : (1200 + length host < fuel)%nat;
  at_connect c : (net_connect host (snprintf_text 12 (dec p)) c).1 = 0;
  at_writable : writable false;
  at_answers : answers http_parser_execute }.

(** The request that carries a message. *)
Definition carries (k : list Z) (dev : cstr) (now : Z) (host : cstr) (p : Z) (mam_seed msg : cstr)
    (before after : sk) : Prop :=
  exists h v data, (length h = 32%nat /\ length v = 16%nat /\ length data = length (padded msg)) /\
    opens_to k dev now h v data msg /\
    sent after = sent before ++ post_text SEND_MAM_API host p
      (take 1023 (sprintf REQ_BODY [mam_seed; base64 (flatcc_message h v data)])).

(** The same with the whole text, for a message that fits. *)
Definition carries_whole (k : list Z) (dev : cstr) (now : Z) (host : cstr) (p : Z) (mam_seed msg : cstr)
    (before after : sk) : Prop :=
  exists h v data, opens_to k dev now h v data msg /\
    sent after = sent before ++ post_text SEND_MAM_API host p
      (sprintf REQ_BODY [mam_seed; base64 (flatcc_message h v data)]).

(** The body of a request stays below the size of its array, whatever the HMAC,
    the initial vector and the ciphertext are. *)
Definition fits (mam_seed msg : cstr) : Prop := forall h v data,
  length h = 32%nat -> length v = 16%nat -> length data = length (padded msg) ->
  strlen (sprintf REQ_BODY [mam_seed; base64 (flatcc_message h v data)]) <= 1023.

Lemma take_whole (t : cstr) : strlen t <= 1023 -> take 1023 t = t.
Proof using. intros H. apply take_ge. apply Nat2Z.inj_le. exact H. Qed.

Lemma carries_fitting k dev now host p mam_seed msg before after : fits mam_seed msg ->
  carries k dev now host p mam_seed msg before after ->
  carries_whole k dev now host p mam_seed msg before after.
Proof using.
  intros Hf (h & v & data & (H1 & H2 & H3) & Ho & Hs). exists h, v, data. split; [done|].
  rewrite Hs. do 2 f_equal. by apply take_whole, Hf.
Qed.

Lemma endpoint_main_sends fuel now host port p ssl mam_seed msg (s s1 s2 : P) c k r id dev :
  get_device_key (replicate AES_CBC_KEY_SIZE 0) s = Some ((SC_OK, k), s1) ->
  get_device_id (replicate 16 0) s1 = Some ((r, id), s2) -> c_string id = Some dev ->
  length k = AES_CBC_KEY_SIZE -> (length (padded msg) <= MAX_MSG_LEN)%nat ->
  server_at fuel host port p ->
  exists c', endpoint_main fuel http_parser_execute flatcc_message (Some ∘ base64) false now
      (Some host) (Some port) ssl (Some msg) (Some mam_seed) (s, c) = Done (EXIT_SUCCESS, (s2, c')) /\
    carries k dev now host p mam_seed msg c c'.
Proof.
  intros Ek Ei Ed Hk Hm [Hport Hp Hf Hconn Hw Hans].
  destruct (send_mam_posts http_parser_execute flatcc_message base64 fuel now host port p (default [] ssl)
    mam_seed msg [0] k dev c Hk Hm Hport Hp Hf Hconn Hw Hans) as (h & v & data & c' & Hlen & Ho & E & Hs).
  exists c'. split; [|by exists h, v, data].
  unfold endpoint_main, on_platform, on_connection, defined, mbind, act_mbind, mret, act_mret.
  cbn [fst snd]. rewrite Ek. change (SC_OK =? SC_OK) with true. cbn [negb fst snd]. rewrite Ei. cbn [fst snd].
  rewrite Ed. unfold strlen. cbn [fst snd]. rewrite E. done.
Qed.

End Messages.

Lemma id_bytes_string id : is_word id -> (length id < IMSI_LEN)%nat -> c_string (id_bytes id) = Some id.
Proof.
  intros Hi Hl. unfold id_bytes. sizes. rewrite take_app, take_ge, take_replicate by lia.
  apply c_string_word; [done|lia].
Qed.

Lemma padded_fits msg : (length msg <= 1008)%nat -> (length (padded msg) <= MAX_MSG_LEN)%nat.
Proof.
  intros Hm. rewrite length_padded. unfold MAX_MSG_LEN.
  pose proof (Nat.div_le_mono (length msg) 1008 16 ltac:(lia) Hm) as Hd. change (1008 / 16)%nat with 63%nat in Hd. lia.
Qed.

Section Simulated.
Context {sys : System} {sk : Type} {network : Network sk} {sent : sk -> list Z}
  {network_laws : NetworkLaws sk network sent} {tls : MbedTls} {tls_laws : MbedTlsLaws tls}.
Context (http_parser_execute : cstr -> list (nat * nat) * Z)
  (flatcc_message : list Z -> list Z -> list Z -> list Z) (base64 : list Z -> cstr).

(** On the simulator the program encrypts with the key of the device. *)
Lemma provisioned_message fuel now host port p ssl mam_seed msg id key s c :
  provisioned id key s -> (length id < IMSI_LEN)%nat ->
  (length msg <= 1008)%nat -> server_at http_parser_execute fuel host port p ->
  exists c', endpoint_main fuel http_parser_execute flatcc_message (Some ∘ base64) false now
      (Some host) (Some port) ssl (Some msg) (Some mam_seed) (s, c) = Done (EXIT_SUCCESS, (s, c')) /\
    carries (sent := sent) flatcc_message base64 key id now host p mam_seed msg c c'.
Proof.
  intros Hp Hl Hm Hsrv.
  apply (endpoint_main_sends http_parser_execute flatcc_message base64 fuel now host port p ssl mam_seed
    msg s s s c key SC_OK (id_bytes id) id).
  - exact (get_key_provisioned _ _ _ Hp).
  - exact (get_id_provisioned _ _ _ Hp).
  - apply id_bytes_string; [apply Hp|done].
  - apply Hp.
  - by apply padded_fits.
  - exact Hsrv.
Qed.

(** C34 On the simulator the key of the device protects its messages: after a first
    start that generates a key, and any sequence of restarts, reads and key
    changes, the endpoint program sends a message as one POST request that
    whoever has the present key, the device name and the time decrypts.  The
    encoded message must fit, with the seed, in the 1023 characters of the
    body.  (On the Legato target the key is not used at all, see
    [legato_message_unprotected].) *)
Theorem device_key_protects fuel now host port p ssl mam_seed msg s h ops c :
  file s = None -> may_open s = true -> may_create s = true ->
  gethostname IMSI_LEN = Some (h ++ [0]) -> is_word h -> (length h < IMSI_LEN)%nat ->
  (forall i, 0 <= rand i) -> Forall op_ok ops ->
  (length msg <= 1008)%nat -> fits flatcc_message base64 mam_seed msg ->
  server_at http_parser_execute fuel host port p ->
  exists key s1 s2 c', endpoint_conf_init s = Some (true, s1) /\ key_ok key /\
    sim_run ops s1 = Some (Some (register_run h ops key).1, s2) /\
    endpoint_main fuel http_parser_execute flatcc_message (Some ∘ base64) false now
      (Some host) (Some port) ssl (Some msg) (Some mam_seed) (s2, c) = Done (EXIT_SUCCESS, (s2, c')) /\
    carries_whole (sent := sent) flatcc_message base64 (register_run h ops key).2 h now host p mam_seed msg c c'.
Proof.
  intros Hf Ho Hc Hh Hw Hl Hr Hops Hm Hfit Hsrv.
  destruct (first_start s h Hf Ho Hc Hh Hw Hl Hr) as (key & s1 & E1 & Hp1).
  destruct (sim_run_refines h ops key s1 Hp1 Hops) as (s2 & E2 & Hp2).
  destruct (provisioned_message fuel now host port p ssl mam_seed msg h _ s2 c Hp2 Hl Hm Hsrv) as (c' & E3 & Hca).
  exists key, s1, s2, c'. split; [done|]. split; [apply Hp1|]. split; [done|]. split; [done|].
  by apply carries_fitting.
Qed.

End Simulated.

#[export] Existing Instance Legato.legato.
#[export] Existing Instance Simulator.simulator.

Section OnLegato.
Context {L : Type} {services : LegatoServices L} {sk : Type} {network : Network sk} {sent : sk -> list Z}
  {network_laws : NetworkLaws sk network sent} {tls : MbedTls} {tls_laws : MbedTlsLaws tls}.
Context (http_parser_execute : cstr -> list (nat * nat) * Z)
  (flatcc_message : list Z -> list Z -> list Z -> list Z) (base64 : list Z -> cstr).

(** On the Legato target the key does not protect the message: [get_device_key]
    reads it into an array of its own, so that whatever key has been stored, the
    program encrypts with 32 zeros, and whoever has the IMSI and the time
    decrypts the message. *)
Theorem legato_message_unprotected fuel now host port p ssl mam_seed msg key (l l1 l2 l3 : L) c bytes imsi dev :
  set_device_key (Some key) l = Some (SC_OK, l1) ->
  secStoreGlobal_Read Legato.ENDPOINT_DEVICE_KEY_NAME AES_CBC_KEY_SIZE l1 = (LE_OK, bytes, l2) ->
  (length bytes <= AES_CBC_KEY_SIZE)%nat ->
  le_sim_GetIMSI Legato.SimId Legato.LE_SIM_IMSI_BYTES l2 = (LE_OK, imsi, l3) ->
  length imsi = Legato.LE_SIM_IMSI_BYTES -> c_string imsi = Some dev ->
  (length msg <= 1008)%nat -> server_at http_parser_execute fuel host port p ->
  exists c', endpoint_main fuel http_parser_execute flatcc_message (Some ∘ base64) false now
      (Some host) (Some port) ssl (Some msg) (Some mam_seed) (l1, c) = Done (EXIT_SUCCESS, (l3, c')) /\
    carries (sent := sent) flatcc_message base64 (replicate AES_CBC_KEY_SIZE 0) dev now host p mam_seed msg c c'.
Proof.
  intros _ Er Hb Ei Hi Hd Hm Hsrv.
  apply (endpoint_main_sends http_parser_execute flatcc_message base64 fuel now host port p ssl mam_seed
    msg l1 l2 l3 c (replicate AES_CBC_KEY_SIZE 0) SC_OK imsi dev).
  - cbn [get_device_key Legato.legato]. unfold Legato.leg_get_device_key, Legato.service. comp_simpl.
    rewrite Er. by rewrite overwrite_start by by rewrite length_replicate.
  - cbn [get_device_id Legato.legato]. unfold Legato.leg_get_device_id, Legato.cm_sim_GetSimImsi, Legato.service.
    comp_simpl. rewrite Ei. rewrite overwrite_start by (rewrite length_replicate, Hi; done).
    rewrite drop_replicate, Hi. change (16 - Legato.LE_SIM_IMSI_BYTES)%nat with 0%nat. cbn [replicate].
    by rewrite app_nil_r.
  - done.
  - reflexivity.
  - by apply padded_fits.
  - exact Hsrv.
Qed.

End OnLegato.

(** ** Evaluations *)
Module DeviceWitness.
Import CipherWitness EndpointWitness.

#[export] Instance toy_system : System := {
  gethostname _ := Some (lit "edge" ++ [0]);
  rand i := 7 * Z.of_nat i
}.

Definition empty_device : state := mkState None true true [] [].
Definition new_key : cstr := lit "0123456789abcdef0123456789ABCDEF".
Definition toy_ops : list device_op := [GetKey; SetKey new_key; Restart; GetKey; GetId].

Ltac decided := apply (bool_decide_unpack _); vm_compute; exact I.

(** The key and the id after a restart, evaluated. *)
Example toy_run :
  match (endpoint_conf_init ≫= fun _ => sim_run (tail toy_ops)) empty_device with
  | Some (r, _) => r | None => None end = Some [[]; []; new_key; lit "edge" ++ replicate 12 0].
Proof. vm_compute. reflexivity. Qed.

Lemma simulator_refines_witness :
  exists key s1 s2, key_ok key /\ endpoint_conf_init empty_device = Some (true, s1) /\
    sim_run toy_ops s1 = Some (Some (register_run (lit "edge") toy_ops key).1, s2) /\
    provisioned (lit "edge") (register_run (lit "edge") toy_ops key).2 s2.
Proof.
  apply (simulator_refines empty_device (lit "edge") toy_ops);
    [reflexivity|reflexivity|reflexivity|reflexivity|decided|vm_compute; lia| |decided].
  intros i. cbn. lia.
Defined.

Definition toy_word : cstr := replicate 32 65.
Definition toy_device : state :=
  mkState (Some (conf_text (lit "edge") toy_word)) true true (toy_word ++ [0]) (lit "edge" ++ replicate 13 0).

Lemma toy_provisioned : provisioned (lit "edge") toy_word toy_device.
Proof. split; [decided|vm_compute; lia|split; [decided|reflexivity]|reflexivity..]. Qed.

Lemma toy_server : server_at one_piece 1300 (lit "node") (lit "8000") 8000.
Proof.
  split; [reflexivity|lia|apply (bool_decide_unpack _); vm_compute; exact I|reflexivity|
    exact toy_writable|exact toy_server_answers].
Qed.

Lemma device_key_protects_witness :
  exists key s1 s2 c', endpoint_conf_init empty_device = Some (true, s1) /\ key_ok key /\
    sim_run toy_ops s1 = Some (Some (register_run (lit "edge") toy_ops key).1, s2) /\
    endpoint_main 1300 one_piece glue (Some ∘ encoded) false 1600000000 (Some (lit "node")) (Some (lit "8000"))
      None (Some (lit "hi")) (Some (lit "SEED")) (s2, []) = Done (EXIT_SUCCESS, (s2, c')) /\
    carries_whole (sent := fun k => k) glue encoded new_key (lit "edge") 1600000000 (lit "node") 8000
      (lit "SEED") (lit "hi") [] c'.
Proof.
  apply (device_key_protects (sent := fun k => k) one_piece glue encoded 1300 1600000000 (lit "node")
    (lit "8000") 8000 None (lit "SEED") (lit "hi") empty_device (lit "edge") toy_ops []);
    [reflexivity|reflexivity|reflexivity|reflexivity|decided|vm_compute; lia|intros i; cbn; lia|decided|
     vm_compute; lia|by intros h v data _ _ _|exact toy_server].
Defined.

(** A secure storage with one item, and a SIM card. *)
#[export] Instance toy_legato : LegatoServices (list Z) := {
  secStoreGlobal_Write _ item _ := (LE_OK, item);
  secStoreGlobal_Read _ n l := (LE_OK, take n l, l);
  le_sim_GetIMSI _ _ l := (LE_OK, device ++ [0], l)
}.

Lemma legato_message_unprotected_witness :
  exists c', endpoint_main 1300 one_piece glue (Some ∘ encoded) false 1600000000 (Some (lit "node"))
      (Some (lit "8000")) None (Some (lit "hi")) (Some (lit "SEED")) (new_key, []) =
      Done (EXIT_SUCCESS, (new_key, c')) /\
    carries (sent := fun k => k) glue encoded (replicate 32 0) device 1600000000 (lit "node") 8000
      (lit "SEED") (lit "hi") [] c'.
Proof.
  apply (legato_message_unprotected (sent := fun k => k) one_piece glue encoded 1300 1600000000 (lit "node")
    (lit "8000") 8000 None (lit "SEED") (lit "hi") (new_key ++ [0]) [] new_key new_key new_key [] new_key
    (device ++ [0]) device);
    [reflexivity|reflexivity|vm_compute; lia|reflexivity|reflexivity|reflexivity|vm_compute; lia|exact toy_server].
Defined.

End DeviceWitness.
