(* ===== verification/Shell.v ===== *)
(** * The engineering shell ([endpoint/shellComp/shell.c])

    A shell on the serial line of a device: it reads a line, cuts it into words
    and runs the built-in command named by the first.  The system calls are a
    parameter; [set-private-key] goes through the [Platform] interface of
    [Device], so that the theorems follow a key from the serial line to the
    storage of the target and the messages the endpoint program sends. *)

From S2P Require Import Prelude TaErrors Strtok Cipher Endpoint Device.

Inductive speed_t := B9600 | B115200.

Definition SHELL_USING_DEVICE : cstr := lit "/dev/ttyHS0".
Definition ATCMD_USING_DEVICE : cstr := lit "/dev/ttyAT".
Definition UART_BAUDRATE : speed_t := B9600.
Definition AT_BAUDRATE : speed_t := B115200.

(** ** The system

    [sys_write], [sys_fork] and [curl_init] tell whether the call succeeded;
    [sys_select] whether the descriptor is readable; [sys_read] is [None] for -1.
    [sys_fork] runs a program with its arguments and waits for its end.
    [curl_post] is the text of the error, if there is one. *)
Class ShellOs (os : Type) := {
  sys_open : cstr -> os -> Z * os;
  sys_tcgetattr : Z -> os -> bool * os;
  sys_tcsetattr : Z -> speed_t -> os -> bool * os;
  sys_dup2 : Z -> Z -> os -> unit * os;
  sys_write : Z -> list Z -> os -> bool * os;
  sys_select : Z -> os -> bool * os;
  sys_read : Z -> nat -> os -> option (list Z) * os;
  sys_fork : list cstr -> os -> bool * os;
  put_stdout : cstr -> os -> unit * os;
  put_stderr : cstr -> os -> unit * os;
  curl_init : os -> bool * os;
  curl_post : cstr -> list cstr -> cstr -> os -> option cstr * os
}.

(** The static file descriptors and the system. *)
Record tty (os : Type) := mkTty { uart_fd : Z; at_fd : Z; sys_os : os }.
Arguments mkTty {os} uart_fd at_fd sys_os.
Arguments uart_fd {os} t.
Arguments at_fd {os} t.
Arguments sys_os {os} t.

(** ** Commands *)

Inductive builtin :=
  b_ok | b_help | b_ecm | b_radio | b_ping | b_dns | b_route | b_at | b_transaction | b_connect | b_setup_private_key.

Record command := mkCommand { name : cstr; desc : cstr; cmd : builtin }.

Definition builtin_cmd : list command :=
  [mkCommand (lit "ok") (lit "OK") b_ok;
   mkCommand (lit "help") (lit "print the help message") b_help;
   mkCommand (lit "ecm") (lit "enable/disable ssh login [on/off]") b_ecm;
   mkCommand (lit "radio") (lit "show modem connection status") b_radio;
   mkCommand (lit "ping") (lit "ping the FQDN or ip host [FQDN or ip]") b_ping;
   mkCommand (lit "dns") (lit "show the current dns address") b_dns;
   mkCommand (lit "route") (lit "show the current route") b_route;
   mkCommand (lit "AT") (lit "Change to AT shell [Command]") b_at;
   mkCommand (lit "trans") (lit "Send the test transaction [host] [port]") b_transaction;
   mkCommand (lit "connect") (lit "Connect modem to network") b_connect;
   mkCommand (lit "set-private-key") (lit "Setup private key into secure storage [private-key]") b_setup_private_key].

Definition test_post_data : cstr :=
  qlit "{`value`: 0, `message`: " ++
  qlit "`ZBCDKDTCFDTCSCEAQCMDEAHDPCBDVC9DTCRAPCRCRCTC9DTCFDPCHDCDFD`, " ++
  qlit "`tag`: `POWEREDBYTANGLEACCELERATOR9`, `address`: " ++
  qlit "`POWEREDBYTANGLEACCELERATOR999999999999999999999999999999999999999999" ++
  qlit "9999999999999`}".

Definition READ_BUFFER_SIZE : nat := 4096.
Definition LSH_TOK_BUFSIZE : Z := 64.

(** A slot of the array of arguments: not yet written, NULL, or a string. *)
Inductive slot := Uninit | Null | Tok (s : cstr).

Definition arg (argv : list slot) (i : nat) : option (option cstr) :=
  match argv !! i with Some Null => Some None | Some (Tok s) => Some (Some s) | _ => None end.

(** The arguments up to the first NULL. *)
Fixpoint until_null (args : list (option cstr)) : list cstr :=
  match args with Some a :: r => a :: until_null r | _ => [] end.

(** ** Splitting a line

    [LSH_TOK_DELIM]: blank, tab, carriage return, newline, bell. *)
Definition sh_delim (c : Z) : bool := (c =? 32) || (c =? 9) || (c =? 13) || (c =? 10) || (c =? 7).

(** The variables of the loop of [sh_split_line]; [strtok] keeps the line and an
    offset in it. *)
Record split_state := mkSplit {
  bufsize : Z; position : Z; sp_tokens : list slot; sp_token : option cstr; sp_line : list Z; sp_next : nat }.

Definition split_step (s : split_state) : ctl split_state (list slot) :=
  match sp_token s with
  | None => match put (sp_tokens s) (position s) Null with Some t => Break t | None => Fault end
  | Some token => continue_or_fault (
      toks ← put (sp_tokens s) (position s) (Tok token);
      let position := position s + 1 in
      let size := if position >=? bufsize s then bufsize s + LSH_TOK_BUFSIZE else bufsize s in
      let toks := toks ++ replicate (Z.to_nat size - length toks) Uninit in
      '(token, line, next) ← strtok_r sh_delim (sp_line s) (sp_next s);
      Some (mkSplit size position toks token line next))
  end.

Definition sh_split_line (line : cstr) : outcome (list slot) :=
  let toks := replicate (Z.to_nat LSH_TOK_BUFSIZE) Uninit in
  match strtok_r sh_delim (line ++ [0]) 0 with
  | None => Undefined
  | Some (token, buf, next) =>
      run split_step (S (S (length line))) (mkSplit LSH_TOK_BUFSIZE 0 toks token buf next)
  end.

(** ** The shell *)
Section Shell.
Context {P os : Type} {platform : Platform P} {system : ShellOs os}.
(** How often [select] may report that nothing is there. *)
Context (fuel : nat).

Definition sh := act (P * tty os).

Definition sys {A} (f : os -> A * os) : sh A := fun s =>
  let '(a, o) := f (sys_os s.2) in Done (a, (s.1, mkTty (uart_fd s.2) (at_fd s.2) o)).

Definition fd (f : tty os -> Z) : sh Z := fun s => Done (f s.2, s).

Definition printf (t : cstr) : sh unit := sys (put_stdout t).
Definition eprintf (t : cstr) : sh unit := sys (put_stderr t).

Definition uart_write (fd : Z) (msg : cstr) : sh status_t :=
  ok ← sys (sys_write fd msg);
  mret (if ok : bool then SC_OK else SC_ENDPOINT_UART_WRITE_ERROR).

(** The buffer is written to the log as a string before it is copied: without
    a NUL in it the log reads behind it. *)
Fixpoint uart_wait (n : nat) (fd : Z) : sh (option cstr) :=
  match n with
  | O => fun _ => OutOfFuel
  | S n =>
      ready ← sys (sys_select fd);
      if ready : bool then
        data ← sys (sys_read fd READ_BUFFER_SIZE);
        match data with
        | None => mret None
        | Some data =>
            buffer ← defined (overwrite (replicate READ_BUFFER_SIZE 0) 0 data);
            _ ← defined (c_string buffer);
            mret (Some (str_of_buf buffer))
        end
      else uart_wait n fd
  end.

Definition uart_read (fd : Z) : sh (option cstr) := uart_wait fuel fd.

(** [sh_launch]: 0 when no process could be made. *)
Definition sh_launch (args : list (option cstr)) : sh Z :=
  ok ← sys (sys_fork (until_null args));
  if ok : bool then mret 1
  else _ ← printf (lit "Fork error when execute command: " ++ default [] (default None (head args))); mret 0.

(** *** Built-in commands; [arg] is the access to the array [argv]. *)
Section Builtins.
Context (arg : nat -> option (option cstr)).

Definition sh_ok : sh Z := _ ← printf (lit "OK" ++ [10]); mret 1.

Fixpoint print_help (l : list command) : sh unit :=
  match l with [] => mret tt | c :: l => _ ← printf (name c ++ lit ": " ++ desc c ++ [10]); print_help l end.

Definition sh_help : sh Z := _ ← print_help builtin_cmd; mret 1.

Definition cm (l : list string) : list (option cstr) := (fun s => Some (lit s)) <$> l.

Definition sh_ecm : sh Z :=
  a ← defined (arg 1);
  match a with
  | Some a =>
      if is_prefix_of (lit "on") a then
        _ ← sh_launch (cm ["/sbin/ifconfig"; "ecm0"; "192.168.2.2"; "netmask"; "255.255.255.0"; "up"]%string); mret 1
      else if is_prefix_of (lit "off") a then
        _ ← sh_launch (cm ["/sbin/ifconfig"; "ecm0"; "0.0.0.0"]%string);
        _ ← sh_launch (cm ["/sbin/ifconfig"; "ecm0"; "down"]%string); mret 1
      else mret 1
  | None => _ ← printf (lit "only the [on/off] arguments can be used" ++ [10]); mret 1
  end.

Definition sh_radio : sh Z :=
  _ ← sh_launch (cm ["/legato/systems/current/bin/cm"; "data"]%string);
  _ ← sh_launch (cm ["/legato/systems/current/bin/cm"; "radio"]%string);
  _ ← sh_launch (cm ["/legato/systems/current/bin/cm"; "info"]%string);
  mret 1.

Definition sh_ping : sh Z :=
  a ← defined (arg 1);
  sh_launch [Some (lit "ping"); a; Some (lit "-c"); Some (lit "4")].

Definition sh_dns : sh Z := sh_launch (cm ["cat"; "/etc/resolv.conf"]%string).
Definition sh_route : sh Z := sh_launch (cm ["/sbin/route"; "-n"]%string).

(** The array of the command ends in a newline and has no NUL. *)
Definition sh_at : sh Z :=
  a ← defined (arg 1);
  match a with
  | Some a =>
      at_cmd ← defined (put (a ++ [0]) (strlen a) 10);
      text ← defined (c_string at_cmd);
      at_ ← fd at_fd;
      _ ← uart_write at_ text;
      msg ← uart_read at_;
      msg ← defined msg;
      uart ← fd uart_fd;
      _ ← uart_write uart msg;
      mret 1
  | None => mret 1
  end.

Definition send_transaction_test (host port : cstr) : sh Z :=
  ok ← sys curl_init;
  if ok : bool then
    let url_len := u64 (strlen host + strlen port + 21) in
    let url := snprintf_text (Z.to_nat url_len) (sprintf (lit "http://%s:%s/transaction") [host; port]) in
    res ← sys (curl_post url [lit "Content-Type: application/json"] test_post_data);
    match res with
    | Some error => _ ← eprintf (lit "curl failed: " ++ error ++ [10]); mret 1
    | None => mret 1
    end
  else mret 1.

Definition sh_transaction : sh Z :=
  host ← defined (arg 1);
  match host with
  | None => _ ← eprintf (lit "Should enter host and port" ++ [10]); mret 1
  | Some host =>
      port ← defined (arg 2);
      match port with
      | None => _ ← eprintf (lit "Should enter host and port" ++ [10]); mret 1
      | Some port => send_transaction_test host port
      end
  end.

Definition sh_connect : sh Z := sh_launch (cm ["/legato/systems/current/bin/cm"; "data"; "connect"; "&"]%string).

Definition sh_setup_private_key : sh Z :=
  private_key ← defined (arg 1);
  match private_key with
  | None => _ ← eprintf (lit "The private key should be entered" ++ [10]); mret 1
  | Some private_key =>
      if negb (strlen private_key =? Z.of_nat AES_CBC_KEY_SIZE) then
        _ ← eprintf (lit "The private key length should be 32 bytes of string" ++ [10]); mret 1
      else
        ret ← on_platform (set_device_key (Some (private_key ++ [0])));
        if negb (ret =? SC_OK) then _ ← eprintf (lit "Failed to set private key" ++ [10]); mret 1
        else _ ← printf (lit "Finish to update new device key" ++ [10]); mret 1
  end.

Definition run_builtin (b : builtin) : sh Z :=
  match b with
  | b_ok => sh_ok | b_help => sh_help | b_ecm => sh_ecm | b_radio => sh_radio | b_ping => sh_ping
  | b_dns => sh_dns | b_route => sh_route | b_at => sh_at | b_transaction => sh_transaction
  | b_connect => sh_connect | b_setup_private_key => sh_setup_private_key
  end.

Fixpoint find_builtin (l : list command) (n : cstr) : option builtin :=
  match l with
  | [] => None
  | c :: l => if decide (n = name c) then Some (cmd c) else find_builtin l n
  end.

Definition sh_execute : sh Z :=
  a ← defined (arg 0);
  match a with
  | None => mret 1
  | Some a =>
      match find_builtin builtin_cmd a with
      | Some b => run_builtin b
      | None => _ ← eprintf (lit "No such command: " ++ a ++ [10]); mret 1
      end
  end.

End Builtins.

(** *** The loop *)

Definition sh_read_line : sh (option cstr) := uart ← fd uart_fd; uart_read uart.

(** One round.  A line that could not be read is NULL, with which [strtok] goes
    on in the line before, which has been released. *)
Definition sh_round : sh Z :=
  uart ← fd uart_fd;
  _ ← uart_write uart (lit "> ");
  line ← sh_read_line;
  line ← defined line;
  args ← bounded (sh_split_line line);
  sh_execute (arg args).

Fixpoint sh_loop (rounds : nat) : sh unit :=
  match rounds with
  | O => fun _ => OutOfFuel
  | S n => status ← sh_round; if status =? 0 then mret tt else sh_loop n
  end.

(** *** Start *)

Definition set_interface_attribs (fd : Z) (speed : speed_t) : sh status_t :=
  ok ← sys (sys_tcgetattr fd);
  if negb (ok : bool) then mret SC_ENDPOINT_UART_SET_ATTR else
  ok ← sys (sys_tcsetattr fd speed);
  mret (if ok : bool then SC_OK else SC_ENDPOINT_UART_SET_ATTR).

(** The message of [perror] is not recorded. *)
Definition open_serialport (dev : cstr) (baudrate : speed_t) : sh Z :=
  fd ← sys (sys_open dev);
  _ ← set_interface_attribs fd baudrate;
  mret fd.

Definition set_fds (f : tty os -> tty os) : sh unit := fun s => Done (tt, (s.1, f s.2)).

Definition sh_init : sh Z :=
  uart ← open_serialport SHELL_USING_DEVICE UART_BAUDRATE;
  _ ← set_fds (fun t => mkTty uart (at_fd t) (sys_os t));
  _ ← uart_write uart (lit "Engineer mode start" ++ [10]);
  _ ← sys (sys_dup2 uart 1);
  _ ← sys (sys_dup2 uart 2);
  at_ ← open_serialport ATCMD_USING_DEVICE AT_BAUDRATE;
  _ ← set_fds (fun t => mkTty (uart_fd t) at_ (sys_os t));
  mret 0.

(** [COMPONENT_INIT]: the exit code. *)
Definition shell_main (rounds : nat) : sh Z :=
  _ ← sh_init;
  _ ← sh_loop rounds;
  mret EXIT_SUCCESS.

End Shell.

(** ** The array of arguments *)

(** The words, NULL, and slots that have not been written. *)
Definition represents (argv : list slot) (ws : list cstr) : Prop :=
  exists k, argv = (Tok <$> ws) ++ Null :: replicate k Uninit.

Lemma split_run ws : forall fuel size done k token line next s t,
  drop next line = s ++ 0 :: t -> 0 ∉ s -> ws = match token with None => [] | Some w => w :: tokens sh_delim s end ->
  (length ws < fuel)%nat -> size = Z.of_nat (length done + S k) ->
  exists argv, run split_step fuel (mkSplit size (Z.of_nat (length done))
      ((Tok <$> done) ++ replicate (S k) Uninit) token line next) = Done argv /\ represents argv (done ++ ws).
Proof.
  induction ws as [|w ws IH]; intros fuel size done k token line next s t Hd H0 Hws Hf Hsize;
    (destruct fuel as [|fuel]; [cbn in Hf; lia|]); destruct token as [w'|]; cbn in Hws; try discriminate Hws;
    cbn [run split_step sp_token sp_tokens position bufsize sp_line sp_next replicate].
  - rewrite put_app_r by by rewrite length_fmap. eexists. split; [done|]. exists k. by rewrite app_nil_r.
  - injection Hws as <- ->. rewrite put_app_r by by rewrite length_fmap. bind_simpl.
    destruct (strtok_r_spec sh_delim eq_refl _ _ _ _ Hd H0) as (line' & next' & E & s' & t' & Hd' & H0' & Ht).
    rewrite E. bind_simpl. unfold continue_or_fault.
    set (size' := if Z.of_nat (length done) + 1 >=? size then size + LSH_TOK_BUFSIZE else size).
    assert (exists k', size' = Z.of_nat (length (done ++ [w]) + S k') /\
      ((Tok <$> done) ++ Tok w :: replicate k Uninit) ++ replicate (Z.to_nat size' -
        length ((Tok <$> done) ++ Tok w :: replicate k Uninit)) Uninit =
      (Tok <$> (done ++ [w])) ++ replicate (S k') Uninit) as (k' & Es & Ea).
    { rewrite !length_app, !fmap_app, length_fmap. cbn [length]. rewrite length_replicate. subst size size'.
      rewrite Z.geb_leb. destruct (Z.leb_spec (Z.of_nat (length done + S k)) (Z.of_nat (length done) + 1)) as [Hk|Hk];
        unfold LSH_TOK_BUFSIZE.
      - assert (k = 0)%nat as -> by lia. exists 63%nat. split; [lia|]. rewrite <- !app_assoc. do 2 f_equal. cbn [app].
        do 2 f_equal. lia.
      - exists (k - 1)%nat. split; [lia|]. replace (Z.to_nat _ - _)%nat with 0%nat by lia. rewrite app_nil_r.
        rewrite <- app_assoc. do 2 f_equal. replace (S (k - 1)) with k by lia. done. }
    rewrite Ea. replace (Z.of_nat (length done) + 1) with (Z.of_nat (length (done ++ [w])))
      by (rewrite length_app; cbn; lia).
    destruct (IH fuel size' (done ++ [w]) k' (head (tokens sh_delim s)) line' next' s' t' Hd' H0')
      as (argv & Er & Hr); [|cbn in Hf; lia|done|].
    + rewrite Ht. by destruct (tokens sh_delim s).
    + exists argv. split; [done|]. by rewrite <- app_assoc in Hr.
Qed.

Lemma length_tokens_from delim s : forall cur, (length (tokens_from delim cur s) <= length s + length cur)%nat.
Proof.
  assert (forall cur, (length (flush cur) <= length cur)%nat) as Hfl by (intros [|c cur]; cbn; lia).
  induction s as [|c s IH]; intros cur; cbn [tokens_from]; [apply Hfl|].
  destruct (delim c); [|specialize (IH (c :: cur)); cbn in *; lia].
  rewrite length_app. specialize (IH []). specialize (Hfl cur). cbn in *. lia.
Qed.

(** The array grows in time and ends up with the words of the line. *)
Lemma sh_split_line_spec line : 0 ∉ line -> exists argv,
  sh_split_line line = Done argv /\ represents argv (tokens sh_delim line).
Proof.
  intros H0. unfold sh_split_line.
  destruct (strtok_r_spec sh_delim eq_refl (line ++ [0]) 0 line []) as (buf & next & E & s & t & Hd & Hs & Ht);
    [done|done|]. rewrite E.
  change (Z.to_nat LSH_TOK_BUFSIZE) with (S 63).
  apply (split_run (tokens sh_delim line) (S (S (length line))) LSH_TOK_BUFSIZE [] 63
    (head (tokens sh_delim line)) buf next s t Hd Hs); [|pose proof (length_tokens_from sh_delim line []); unfold tokens;
      cbn in *; lia|done].
  rewrite Ht. by destruct (tokens sh_delim line).
Qed.

Definition list_arg (ws : list cstr) (i : nat) : option (option cstr) := Some (ws !! i).

Lemma represents_arg argv ws i : represents argv ws -> (i <= length ws)%nat -> arg argv i = list_arg ws i.
Proof.
  intros [k ->] Hi. unfold arg, list_arg. destruct (decide (i < length ws)%nat) as [Hlt|Hge].
  - rewrite lookup_app_l by by rewrite length_fmap. rewrite list_lookup_fmap.
    destruct (lookup_lt_is_Some_2 ws i Hlt) as [w ->]. done.
  - rewrite (lookup_ge_None_2 ws) by lia. rewrite lookup_app_r by (rewrite length_fmap; lia).
    rewrite length_fmap. by replace (i - length ws)%nat with 0%nat by lia.
Qed.

(** ** Rounds of the shell *)
Section Rounds.
Context {P os : Type} {platform : Platform P} {system : ShellOs os}.
Context (fuel : nat).

(** Data arrive on a descriptor after [select] has reported [n] times that
    there are none. *)
Inductive delivers (fd : Z) (d : list Z) : nat -> os -> os -> Prop :=
| delivers_now o o1 o2 : sys_select fd o = (true, o1) -> sys_read fd READ_BUFFER_SIZE o1 = (Some d, o2) ->
    delivers fd d 0 o o2
| delivers_later n o o1 o2 : sys_select fd o = (false, o1) -> delivers fd d n o1 o2 -> delivers fd d (S n) o o2.

(** Data that leave a NUL in the buffer. *)
Definition ends_inside (d : list Z) : Prop :=
  (length d < READ_BUFFER_SIZE)%nat \/ (length d = READ_BUFFER_SIZE /\ 0 ∈ d).

Lemma buffer_text d : ends_inside d ->
  overwrite (replicate READ_BUFFER_SIZE 0) 0 d = Some (d ++ replicate (READ_BUFFER_SIZE - length d) 0) /\
  c_string (d ++ replicate (READ_BUFFER_SIZE - length d) 0) = Some (str_of_buf d).
Proof.
  intros Hd.
  assert (length d <= READ_BUFFER_SIZE)%nat as Hl by (destruct Hd as [|[-> _]]; lia).
  rewrite overwrite_start by by rewrite length_replicate. rewrite drop_replicate. split; [done|].
  unfold c_string. rewrite bool_decide_true.
  - f_equal. generalize (READ_BUFFER_SIZE - length d)%nat. clear. intros m.
    induction d as [|c d IH]; cbn; [by destruct m|destruct (c =? 0); [done|by f_equal]].
  - rewrite elem_of_app. destruct Hd as [Hlt|[_ H0]]; [right|by left]. apply elem_of_replicate. lia.
Qed.

Lemma uart_read_delivers fd d n (p : P) u a o o' : ends_inside d ->
  delivers fd d n o o' -> forall m, (n < m)%nat ->
  uart_wait m fd (p, mkTty u a o) = Done (Some (str_of_buf d), (p, mkTty u a o')).
Proof.
  intros Hd. induction 1 as [o o1 o2 E1 E2|n o o1 o2 E1 _ IH]; intros [|m] Hm; try lia; cbn [uart_wait];
    unfold mbind at 1, act_mbind at 1, sys at 1; cbn [fst snd sys_os]; rewrite E1; cbn [uart_fd at_fd].
  - unfold mbind at 1, act_mbind at 1, sys at 1. cbn [fst snd sys_os]. rewrite E2. cbn [uart_fd at_fd].
    destruct (buffer_text d Hd) as [-> E]. unfold mbind, act_mbind, defined. rewrite E.
    unfold c_string in E. case_bool_decide; [|done]. injection E as ->. done.
  - apply IH. lia.
Qed.

Lemma execute_represents argv ws : represents argv ws -> forall s : P * tty os,
  sh_execute fuel (arg argv) s = sh_execute fuel (list_arg ws) s.
Proof.
  intros Hr s. unfold sh_execute. rewrite (represents_arg argv ws 0 Hr) by lia.
  destruct ws as [|w ws]; [done|]. cbn [list_arg lookup].
  pose proof (represents_arg argv (w :: ws) 1 Hr ltac:(cbn; lia)) as E1.
  unfold mbind, act_mbind, defined. destruct (list_arg (w :: ws) 0) as [[a|]|]; [|done|done].
  destruct (find_builtin builtin_cmd a) as [[]|]; cbn [run_builtin]; try done;
    unfold sh_ecm, sh_ping, sh_at, sh_setup_private_key, sh_transaction; rewrite ?E1; try done.
  destruct ws as [|w2 ws]; [done|].
  by rewrite (represents_arg argv (w :: w2 :: ws) 2 Hr) by (cbn; lia).
Qed.

Lemma str_of_buf_nul d : 0 ∉ str_of_buf d.
Proof.
  induction d as [|c d IH]; cbn; [by intros ?%elem_of_nil|]. destruct (Z.eqb_spec c 0); [by intros ?%elem_of_nil|].
  by apply not_elem_of_cons.
Qed.

Lemma round_executes n d (p : P) u a o b o0 o1 :
  ends_inside d -> (n < fuel)%nat -> sys_write u (lit "> ") o = (b, o0) ->
  delivers u d n o0 o1 ->
  sh_round fuel (p, mkTty u a o) =
    sh_execute fuel (list_arg (tokens sh_delim (str_of_buf d))) (p, mkTty u a o1).
Proof.
  intros Hd Hn Hw Hr. unfold sh_round.
  destruct (sh_split_line_spec (str_of_buf d) (str_of_buf_nul d)) as (argv & Ea & Hrep).
  unfold mbind at 1, act_mbind at 1, fd at 1. cbn [snd uart_fd].
  unfold uart_write. unfold mbind at 1, act_mbind at 1, mbind at 1, act_mbind at 1, sys at 1. cbn [fst snd sys_os].
  rewrite Hw. unfold mret, act_mret. cbn [uart_fd at_fd].
  unfold mbind at 1, act_mbind at 1, sh_read_line, mbind at 1, act_mbind at 1, fd at 1. cbn [snd uart_fd].
  unfold uart_read. rewrite (uart_read_delivers u d n p u a o0 o1 Hd Hr fuel Hn).
  unfold mbind, act_mbind, defined, bounded. rewrite Ea. by apply execute_represents.
Qed.

(** C35 A line is executed as its words: whatever the bytes that arrive (fewer than
    4096, or 4096 with a NUL among them), logging and splitting them stays inside the array of arguments, however many words
    there are, and the round of the shell does what executing the list of the
    words of the line does. *)
Theorem shell_line_executed n d (p : P) u a o b o0 o1 :
  ends_inside d -> (n < fuel)%nat -> sys_write u (lit "> ") o = (b, o0) ->
  delivers u d n o0 o1 ->
  sh_round fuel (p, mkTty u a o) =
    sh_execute fuel (list_arg (tokens sh_delim (str_of_buf d))) (p, mkTty u a o1).
Proof. apply round_executes. Qed.

(** 4096 bytes without a NUL fill the buffer, and its text is read beyond it. *)
Theorem full_line_undefined d (p : P) u a o b o0 o1 :
  (0 < fuel)%nat -> length d = READ_BUFFER_SIZE -> 0 ∉ d -> sys_write u (lit "> ") o = (b, o0) ->
  delivers u d 0 o0 o1 -> sh_round fuel (p, mkTty u a o) = Undefined.
Proof.
  intros Hf Hl H0 Hw Hd. inversion Hd as [? o2 ? E1 E2|]; subst. destruct fuel as [|m]; [lia|].
  unfold sh_round, uart_write, sh_read_line, uart_read, fd. cbn [uart_wait].
  unfold mbind, act_mbind, sys, mret, act_mret. cbn [fst snd sys_os uart_fd at_fd]. rewrite Hw.
  cbn [fst snd sys_os uart_fd at_fd]. rewrite E1. cbn [fst snd sys_os uart_fd at_fd]. rewrite E2. unfold defined.
  rewrite overwrite_start by (rewrite length_replicate; lia). rewrite drop_ge by (rewrite length_replicate; lia).
  by rewrite app_nil_r, c_string_none.
Qed.

(** The command [AT] reads behind the array it has filled. *)
Theorem sh_at_undefined args w (s : P * tty os) : args 1%nat = Some (Some w) -> 0 ∉ w ->
  sh_at fuel args s = Undefined.
Proof.
  intros E H0. unfold sh_at, mbind, act_mbind, defined. rewrite E, put_app_r by done.
  rewrite c_string_none; [done|]. rewrite not_elem_of_app. split; [done|]. by intros ?%list_elem_of_singleton.
Qed.

(** A line that cannot be read is used all the same. *)
Theorem sh_round_read_error (p : P) u a o b o0 o1 o2 n : fuel = S n -> sys_write u (lit "> ") o = (b, o0) ->
  sys_select u o0 = (true, o1) -> sys_read u READ_BUFFER_SIZE o1 = (None, o2) ->
  sh_round fuel (p, mkTty u a o) = Undefined.
Proof.
  intros -> Hw H1 H2. unfold sh_round, uart_write, sh_read_line, uart_read, fd. cbn [uart_wait].
  unfold mbind, act_mbind, sys, mret, act_mret, defined. cbn [fst snd sys_os uart_fd at_fd]. rewrite Hw. cbn.
  rewrite H1. cbn. by rewrite H2.
Qed.

(** The URL of the test transaction fits in its buffer. *)
Lemma transaction_url_fits host port : strlen host + strlen port < 2 ^ 63 ->
  snprintf_text (Z.to_nat (u64 (strlen host + strlen port + 21)))
    (sprintf (lit "http://%s:%s/transaction") [host; port]) =
    lit "http://" ++ host ++ lit ":" ++ port ++ lit "/transaction".
Proof.
  intros H. rewrite uwrap_small by (unfold strlen in *; lia).
  assert (sprintf (lit "http://%s:%s/transaction") [host; port] =
    lit "http://" ++ host ++ lit ":" ++ port ++ lit "/transaction") as ->.
  { reflexivity. }
  unfold snprintf_text. apply take_ge. rewrite !length_app. unfold strlen.
  change (length (lit "http://")) with 7%nat. change (length (lit ":")) with 1%nat.
  change (length (lit "/transaction")) with 12%nat. lia.
Qed.

(** *** How long the shell runs *)

(** [m] returns nothing but 1. *)
Definition always_one (m : sh Z) : Prop := forall (s : P * tty os) r s', m s = Done (r, s') -> r = 1.

Lemma one_ret : always_one (mret 1).
Proof. by intros s r s' [= <- <-]. Qed.

Lemma one_bind {A} (m : act (P * tty os) A) k : (forall a, always_one (k a)) -> always_one (m ≫= k).
Proof.
  intros Hk s r s'. unfold mbind, act_mbind. destruct (m s) as [ [a s1] | |]; [|done|done]. apply Hk.
Qed.

Hypothesis forks : forall args o, (sys_fork args o).1 = true.

Lemma one_launch args : always_one (sh_launch args).
Proof using forks.
  intros s r s'. unfold sh_launch, mbind, act_mbind, sys. pose proof (forks (until_null args) (sys_os s.2)) as Hf.
  destruct (sys_fork (until_null args) (sys_os s.2)) as [ok o]. cbn in Hf. subst ok. by intros [= <- <-].
Qed.

Lemma one_builtin args b : always_one (run_builtin fuel args b).
Proof using forks.
  destruct b; cbn [run_builtin];
    unfold sh_ok, sh_help, sh_ecm, sh_radio, sh_ping, sh_dns, sh_route, sh_at, sh_transaction,
      send_transaction_test, sh_connect, sh_setup_private_key;
    repeat first [apply one_ret | apply one_launch | apply one_bind; intros | destruct_test].
Qed.

Lemma one_execute args : always_one (sh_execute fuel args).
Proof using forks.
  unfold sh_execute. apply one_bind. intros [a|]; [|apply one_ret].
  destruct (find_builtin _ _); [apply one_builtin|]. apply one_bind. intros. apply one_ret.
Qed.

(** The shell runs as long as processes can be made: no round ends it. *)
Lemma loop_never_ends rounds : forall s r, sh_loop fuel rounds s <> Done r.
Proof using forks.
  induction rounds as [|n IH]; intros s r; cbn [sh_loop]; [done|].
  assert (always_one (sh_round fuel)) as H1 by (unfold sh_round; do 5 (apply one_bind; intros); apply one_execute).
  unfold mbind, act_mbind. destruct (sh_round fuel s) as [ [st s1] | |] eqn:E; [|done|done].
  rewrite (H1 _ _ _ E). change (1 =? 0) with false. apply IH.
Qed.

End Rounds.

(** ** A key, from the serial line to the target *)

(** The shell gives the platform the word behind [set-private-key] when it has 32
    characters; the message that follows depends on the status. *)
Lemma set_key_executed {P os : Type} {platform : Platform P} {system : ShellOs os} fuel k (p p' : P) ret u a (o : os) :
  length k = AES_CBC_KEY_SIZE -> set_device_key (Some (k ++ [0])) p = Some (ret, p') ->
  exists o', sh_execute fuel (list_arg [lit "set-private-key"; k]) (p, mkTty u a o) = Done (1, (p', mkTty u a o')).
Proof.
  intros Hlk E. unfold sh_execute, mbind, act_mbind, defined. cbn [list_arg lookup list_lookup fst snd].
  change (find_builtin builtin_cmd (lit "set-private-key")) with (Some b_setup_private_key).
  cbn [run_builtin]. unfold sh_setup_private_key, mbind, act_mbind, defined. cbn [list_arg lookup list_lookup].
  unfold strlen. rewrite Hlk, Z.eqb_refl. cbn [negb]. unfold on_platform. cbn [fst snd]. rewrite E.
  unfold eprintf, printf, sys. cbn [fst snd].
  destruct (negb (ret =? SC_OK)).
  - cbn [fst snd sys_os uart_fd at_fd]. destruct (put_stderr _ o) as [ [] o']. by exists o'.
  - cbn [fst snd sys_os uart_fd at_fd]. destruct (put_stdout _ o) as [ [] o']. by exists o'.
Qed.

Section KeyOverSerial.
Context {L : Type} {services : LegatoServices L} {os : Type} {system : ShellOs os}.
Context {sk : Type} {network : Network sk} {sent : sk -> list Z}
  {network_laws : NetworkLaws sk network sent} {tls : MbedTls} {tls_laws : MbedTlsLaws tls}.
Context (http_parser_execute : cstr -> list (nat * nat) * Z)
  (flatcc_message : list Z -> list Z -> list Z -> list Z) (base64 : list Z -> cstr).

(** A key typed on the target the shell is built for is kept but not used: the
    round of the shell puts the 32 characters into the secure storage, and the
    message the endpoint program then sends is encrypted with 32 zeros. *)
Theorem typed_key_unused fuel pfuel now host port p ssl mam_seed msg n d u a (o : os) b o0 o1 k
    (l l1 l2 l3 : L) c bytes imsi dev :
  ends_inside d -> (n < fuel)%nat -> sys_write u (lit "> ") o = (b, o0) -> delivers u d n o0 o1 ->
  tokens sh_delim (str_of_buf d) = [lit "set-private-key"; k] -> length k = AES_CBC_KEY_SIZE ->
  secStoreGlobal_Write Legato.ENDPOINT_DEVICE_KEY_NAME k l = (LE_OK, l1) ->
  secStoreGlobal_Read Legato.ENDPOINT_DEVICE_KEY_NAME AES_CBC_KEY_SIZE l1 = (LE_OK, bytes, l2) ->
  (length bytes <= AES_CBC_KEY_SIZE)%nat ->
  le_sim_GetIMSI Legato.SimId Legato.LE_SIM_IMSI_BYTES l2 = (LE_OK, imsi, l3) ->
  length imsi = Legato.LE_SIM_IMSI_BYTES -> c_string imsi = Some dev ->
  (length msg <= 1008)%nat -> server_at http_parser_execute pfuel host port p ->
  exists o2 c', sh_round fuel (l, mkTty u a o) = Done (1, (l1, mkTty u a o2)) /\
    endpoint_main pfuel http_parser_execute flatcc_message (Some ∘ base64) false now
      (Some host) (Some port) ssl (Some msg) (Some mam_seed) (l1, c) = Done (EXIT_SUCCESS, (l3, c')) /\
    carries (sent := sent) flatcc_message base64 (replicate AES_CBC_KEY_SIZE 0) dev now host p mam_seed msg c c'.
Proof using network_laws tls_laws.
  intros Hd Hn Hw Hdel Ht Hk Ewr Erd Hb Ei Hi Hdev Hm Hsrv.
  assert (set_device_key (Some (k ++ [0])) l = Some (SC_OK, l1)) as Es.
  { cbn [set_device_key Legato.legato]. unfold Legato.leg_set_device_key, Legato.service.
    rewrite <- Hk, read_at_start by done. comp_simpl.
    rewrite overwrite_start by (rewrite length_replicate; lia).
    rewrite drop_ge by (rewrite length_replicate; lia). rewrite app_nil_r, Ewr. done. }
  destruct (set_key_executed fuel k l l1 SC_OK u a o1 Hk Es) as (o2 & E1).
  destruct (legato_message_unprotected http_parser_execute flatcc_message base64 pfuel now host port p ssl
    mam_seed msg (k ++ [0]) l l1 l2 l3 c bytes imsi dev Es Erd Hb Ei Hi Hdev Hm Hsrv) as (c' & E2 & Hc).
  exists o2, c'. split; [|done]. rewrite (round_executes fuel n d l u a o b o0 o1 Hd Hn Hw Hdel), Ht. exact E1.
Qed.

End KeyOverSerial.

(** ** Evaluations *)
Module ShellWitness.
Import CipherWitness EndpointWitness DeviceWitness.

(** Lines to come, and what has been printed. *)
Record toy_os := mkToy { lines : list (list Z); printed : list Z }.

Definition toy_print (t : list Z) (o : toy_os) : toy_os := mkToy (lines o) (printed o ++ t).

#[export] Instance toy_shell : ShellOs toy_os := {
  sys_open _ o := (3, o);
  sys_tcgetattr _ o := (true, o);
  sys_tcsetattr _ _ o := (true, o);
  sys_dup2 _ _ o := (tt, o);
  sys_write _ t o := (true, toy_print t o);
  sys_select _ o := (match lines o with [] => false | _ => true end, o);
  sys_read _ n o := match lines o with
                    | [] => (None, o)
                    | l :: r => (Some (take n l), mkToy r (printed o))
                    end;
  sys_fork args o := (true, toy_print (lit "run " ++ concat args) o);
  put_stdout t o := (tt, toy_print t o);
  put_stderr t o := (tt, toy_print t o);
  curl_init o := (true, o);
  curl_post url _ _ o := (None, toy_print url o)
}.

Definition typed (l : cstr) : toy_os := mkToy [l] [].
Definition ping_line : cstr := lit "  ping  node" ++ [13; 10].

Example ping_runs : match sh_round 3 (toy_device, mkTty 3 4 (typed ping_line)) with
  | Done (r, (_, t)) => (r, printed (sys_os t)) = (1, lit "> run pingnode-c4")
  | _ => False end.
Proof. vm_compute. reflexivity. Qed.

Lemma shell_line_executed_witness :
  sh_round 3 (toy_device, mkTty 3 4 (typed ping_line)) =
    sh_execute 3 (list_arg (tokens sh_delim (str_of_buf ping_line)))
      (toy_device, mkTty 3 4 (mkToy [] (lit "> "))).
Proof.
  apply (shell_line_executed 3 0 ping_line toy_device 3 4 (typed ping_line) true
    (mkToy [ping_line] (lit "> ")) (mkToy [] (lit "> "))); [left; vm_compute; lia|lia|reflexivity|].
  by apply (delivers_now 3 ping_line _ (mkToy [ping_line] (lit "> "))).
Defined.

Definition key_line : cstr := lit "set-private-key " ++ new_key ++ [10].

Lemma typed_key_unused_witness :
  exists o2 c', sh_round 3 (lit "", mkTty 3 4 (typed key_line)) = Done (1, (new_key, mkTty 3 4 o2)) /\
    endpoint_main 1300 one_piece glue (Some ∘ encoded) false 1600000000 (Some (lit "node")) (Some (lit "8000"))
      None (Some (lit "hi")) (Some (lit "SEED")) (new_key, []) = Done (EXIT_SUCCESS, (new_key, c')) /\
    carries (sent := fun k => k) glue encoded (replicate 32 0) device 1600000000 (lit "node") 8000
      (lit "SEED") (lit "hi") [] c'.
Proof.
  apply (typed_key_unused (sent := fun k => k) one_piece glue encoded 3 1300 1600000000 (lit "node")
    (lit "8000") 8000 None (lit "SEED") (lit "hi") 0 key_line 3 4 (typed key_line) true
    (mkToy [key_line] (lit "> ")) (mkToy [] (lit "> ")) new_key [] new_key new_key new_key [] new_key
    (device ++ [0]) device);
    [left; vm_compute; lia|lia|reflexivity| |vm_compute; reflexivity|reflexivity|reflexivity|reflexivity|
     vm_compute; lia|reflexivity|reflexivity|reflexivity|vm_compute; lia|exact toy_server].
  by apply (delivers_now 3 key_line _ (mkToy [key_line] (lit "> "))).
Defined.

End ShellWitness.
