(* ===== verification/Ecdh.v ===== *)
(** * Key agreement ([crypto/ecdh.c])

    Elliptic-curve Diffie-Hellman on Curve25519 with mbed TLS as a parameter: two
    parties generate keys, exchange 32 bytes each, and compute the same secret. *)

From S2P Require Import Prelude TaErrors.

Definition SHARE_DATA_LEN : nat := 32.

(** The parts of an [mbedtls_ecdh_context] the functions touch: the group, the
    private key, the public key, the peer's key ([X] and [Z]) and the secret. *)
Record ecdh_context := mkEcdh {
  grp : option Z; ctx_d : Z; Q_X : Z; Qp_X : Z; Qp_Z : Z; ctx_z : Z }.

Definition MBEDTLS_ECP_DP_CURVE25519 : Z := 9.

(** [drbg] is the state of the generator.  [ecp_mul d x] is the [X] coordinate of
    a multiple of the point with coordinate [x], [base_X] that of the generator.
    Codes other than 0 are errors; an error leaves the outputs unspecified, which
    here means as they were. *)
Class EcdhLib (drbg entropy : Type) := {
  ctr_drbg_init : drbg;
  entropy_init : entropy;
  ctr_drbg_seed : drbg -> entropy -> list Z -> Z * drbg * entropy;
  ecp_group_load : Z -> Z;
  ecp_mul : Z -> Z -> Z;
  base_X : Z;
  gen_privkey : drbg -> Z * Z * drbg;
  mpi_write_binary : Z -> nat -> Z * list Z;
  mpi_lset : Z -> Z;
  mpi_read_binary : list Z -> Z * Z;
  compute_shared_code : Z -> Z -> drbg -> Z * drbg
}.

Section Ecdh.
Context {drbg entropy : Type} {lib : EcdhLib drbg entropy}.

(** [rand_gen_init] with the [seed_len] bytes of [rand_seed]. *)
Definition rand_gen_init (rand_seed : list Z) (seed_len : nat) : option (status_t * entropy * drbg) :=
  seed ← read_at rand_seed 0 seed_len;
  let '(ret, d, e) := ctr_drbg_seed ctr_drbg_init entropy_init seed in
  Some (if ret =? 0 then SC_OK else SC_CRYPTO_RAND_ERR, e, d).

(** [ecdh_gen_public_key]: status, context, generator and the array [pkey]. *)
Definition ecdh_gen_public_key (ctx : ecdh_context) (g : drbg) (pkey : list Z)
    : option (status_t * ecdh_context * drbg * list Z) :=
  let ret := ecp_group_load MBEDTLS_ECP_DP_CURVE25519 in
  if negb (ret =? 0) then Some (SC_CRYPTO_GENKEY_ERR, ctx, g, pkey) else
  let '(ret, d, g) := gen_privkey g in
  let ctx := mkEcdh (Some MBEDTLS_ECP_DP_CURVE25519) (ctx_d ctx) (Q_X ctx) (Qp_X ctx) (Qp_Z ctx) (ctx_z ctx) in
  if negb (ret =? 0) then Some (SC_CRYPTO_GENKEY_ERR, ctx, g, pkey) else
  let ctx := mkEcdh (grp ctx) d (ecp_mul d base_X) (Qp_X ctx) (Qp_Z ctx) (ctx_z ctx) in
  let '(ret, bytes) := mpi_write_binary (Q_X ctx) SHARE_DATA_LEN in
  if negb (ret =? 0) then Some (SC_CRYPTO_GENKEY_ERR, ctx, g, pkey) else
  pkey ← overwrite pkey 0 bytes;
  Some (SC_OK, ctx, g, pkey).

(** [ecdh_compute_shared_secret]; computing in a group that was not loaded is
    left to the library as well. *)
Definition ecdh_compute_shared_secret (ctx : ecdh_context) (g : drbg) (input_shared_data : list Z)
    : option (status_t * ecdh_context * drbg) :=
  let ret := mpi_lset 1 in
  if negb (ret =? 0) then Some (SC_CRYPTO_SECRET_ERR, ctx, g) else
  let ctx := mkEcdh (grp ctx) (ctx_d ctx) (Q_X ctx) (Qp_X ctx) 1 (ctx_z ctx) in
  data ← read_at input_shared_data 0 SHARE_DATA_LEN;
  let '(ret, x) := mpi_read_binary data in
  if negb (ret =? 0) then Some (SC_CRYPTO_SECRET_ERR, ctx, g) else
  let ctx := mkEcdh (grp ctx) (ctx_d ctx) (Q_X ctx) x (Qp_Z ctx) (ctx_z ctx) in
  let '(ret, g) := compute_shared_code (ctx_d ctx) (Qp_X ctx) g in
  if negb (ret =? 0) then Some (SC_CRYPTO_SECRET_ERR, ctx, g) else
  Some (SC_OK, mkEcdh (grp ctx) (ctx_d ctx) (Q_X ctx) (Qp_X ctx) (Qp_Z ctx) (ecp_mul (ctx_d ctx) (Qp_X ctx)), g).

End Ecdh.

(** What is known of the library: coordinates fit in 32 bytes and survive being
    written and read, and multiples of the generator commute. *)
Class EcdhLaws {drbg entropy : Type} (lib : EcdhLib drbg entropy) : Prop := {
  mul_range d x : 0 <= ecp_mul d x < 2 ^ 256;
  write_binary x : 0 <= x < 2 ^ 256 ->
    exists bytes, mpi_write_binary x SHARE_DATA_LEN = (0, bytes) /\ length bytes = SHARE_DATA_LEN /\
      mpi_read_binary bytes = (0, x);
  mul_comm d e : ecp_mul d (ecp_mul e base_X) = ecp_mul e (ecp_mul d base_X)
}.

Section Agreement.
Context {drbg entropy : Type} {lib : EcdhLib drbg entropy} {laws : EcdhLaws lib}.

Lemma gen_public_key_spec ctx g pkey d g' :
  ecp_group_load MBEDTLS_ECP_DP_CURVE25519 = 0 -> gen_privkey g = (0, d, g') ->
  (SHARE_DATA_LEN <= length pkey)%nat -> exists ctx' bytes,
    ecdh_gen_public_key ctx g pkey = Some (SC_OK, ctx', g', bytes ++ drop SHARE_DATA_LEN pkey) /\
    ctx_d ctx' = d /\ length bytes = SHARE_DATA_LEN /\ mpi_read_binary bytes = (0, ecp_mul d base_X).
Proof.
  intros Hl Hg Hp. unfold ecdh_gen_public_key. rewrite Hl, Hg. cbn [negb Z.eqb grp ctx_d Q_X Qp_X Qp_Z ctx_z].
  destruct (write_binary (ecp_mul d base_X) (mul_range _ _)) as (bytes & -> & Hb & Hr).
  cbn [negb Z.eqb]. rewrite overwrite_start by (rewrite Hb; done). bind_simpl. rewrite Hb.
  eexists _, bytes. split; [done|]. done.
Qed.

Lemma compute_shared_spec ctx g bytes rest x g' :
  mpi_lset 1 = 0 -> length bytes = SHARE_DATA_LEN -> mpi_read_binary bytes = (0, x) ->
  compute_shared_code (ctx_d ctx) x g = (0, g') -> exists ctx',
    ecdh_compute_shared_secret ctx g (bytes ++ rest) = Some (SC_OK, ctx', g') /\
    ctx_z ctx' = ecp_mul (ctx_d ctx) x.
Proof.
  intros Hs Hb Hr Hc. unfold ecdh_compute_shared_secret. rewrite Hs. cbn [negb Z.eqb].
  pose proof (read_at_mid [] bytes rest) as E. cbn [app length] in E. rewrite Hb in E. rewrite E. bind_simpl.
  rewrite Hr. cbn [negb Z.eqb grp ctx_d Q_X Qp_X Qp_Z ctx_z]. rewrite Hc. cbn [negb Z.eqb]. eexists. done.
Qed.

(** Two parties agree: each generates a key pair and sends the 32 bytes of its
    public key to the other; when the library reports no error, both compute the
    secret, and it is the same. *)
Theorem ecdh_agreement ctx1 ctx2 g1 g2 d1 d2 g1' g2' pk1 pk2 :
  ecp_group_load MBEDTLS_ECP_DP_CURVE25519 = 0 -> mpi_lset 1 = 0 ->
  gen_privkey g1 = (0, d1, g1') -> gen_privkey g2 = (0, d2, g2') ->
  (forall d x g, (compute_shared_code d x g).1 = 0) ->
  length pk1 = SHARE_DATA_LEN -> length pk2 = SHARE_DATA_LEN ->
  exists a1 k1 a2 k2 b1 b2 h1 h2,
    ecdh_gen_public_key ctx1 g1 pk1 = Some (SC_OK, a1, g1', k1) /\
    ecdh_gen_public_key ctx2 g2 pk2 = Some (SC_OK, a2, g2', k2) /\
    ecdh_compute_shared_secret a1 g1' k2 = Some (SC_OK, b1, h1) /\
    ecdh_compute_shared_secret a2 g2' k1 = Some (SC_OK, b2, h2) /\
    ctx_z b1 = ctx_z b2.
Proof.
  intros Hl Hs Hg1 Hg2 Hc Hp1 Hp2.
  destruct (gen_public_key_spec ctx1 g1 pk1 d1 g1' Hl Hg1) as (a1 & k1 & E1 & Hd1 & Hk1 & Hr1); [lia|].
  destruct (gen_public_key_spec ctx2 g2 pk2 d2 g2' Hl Hg2) as (a2 & k2 & E2 & Hd2 & Hk2 & Hr2); [lia|].
  destruct (compute_shared_code d1 (ecp_mul d2 base_X) g1') as [r1 h1] eqn:Ec1.
  destruct (compute_shared_code d2 (ecp_mul d1 base_X) g2') as [r2 h2] eqn:Ec2.
  pose proof (Hc d1 (ecp_mul d2 base_X) g1') as H1. rewrite Ec1 in H1. cbn in H1. subst r1.
  pose proof (Hc d2 (ecp_mul d1 base_X) g2') as H2. rewrite Ec2 in H2. cbn in H2. subst r2.
  destruct (compute_shared_spec a1 g1' k2 (drop SHARE_DATA_LEN pk2) _ h1 Hs Hk2 Hr2) as (b1 & F1 & Z1);
    [by rewrite Hd1|].
  destruct (compute_shared_spec a2 g2' k1 (drop SHARE_DATA_LEN pk1) _ h2 Hs Hk1 Hr1) as (b2 & F2 & Z2);
    [by rewrite Hd2|].
  eexists a1, _, a2, _, b1, b2, h1, h2. split_and!; [exact E1|exact E2|exact F1|exact F2|].
  rewrite Z1, Z2, Hd1, Hd2. apply mul_comm.
Qed.

(** Every error of the library is reported: a status other than [SC_OK] is the
    code of the operation, and [SC_OK] means that no call failed. *)
Lemma ecdh_errors_reported ctx g pkey st ctx' g' pkey' :
  ecdh_gen_public_key ctx g pkey = Some (st, ctx', g', pkey') ->
  st = SC_OK /\ (gen_privkey g).1.1 = 0 /\ ecp_group_load MBEDTLS_ECP_DP_CURVE25519 = 0 /\
    length pkey' = length pkey \/
  st = SC_CRYPTO_GENKEY_ERR /\ pkey' = pkey.
Proof.
  unfold ecdh_gen_public_key. destruct (Z.eqb_spec (ecp_group_load MBEDTLS_ECP_DP_CURVE25519) 0) as [Hl|_];
    cbn [negb]; [|intros [= <- <- <- <-]; by right].
  destruct (gen_privkey g) as [ [r d] g1] eqn:Eg. destruct (Z.eqb_spec r 0) as [->|_]; cbn [negb];
    [|intros [= <- <- <- <-]; by right].
  destruct (mpi_write_binary _ _) as [r bytes]. destruct (Z.eqb_spec r 0) as [->|_]; cbn [negb];
    [|intros [= <- <- <- <-]; by right].
  destruct (overwrite pkey 0 bytes) as [pk|] eqn:Eo; [|done]. intros [= <- <- <- <-]. left.
  split_and!; [done|done|done|]. by eapply length_overwrite.
Qed.

End Agreement.

(** ** Evaluations *)
Module EcdhWitness.

(** Multiplication modulo a power of two, and the private keys 3, 4, 5, ... *)
#[export] Instance toy_ecdh : EcdhLib Z unit := {
  ctr_drbg_init := 0;
  entropy_init := tt;
  ctr_drbg_seed _ e s := (0, 3 + Z.of_nat (length s), e);
  ecp_group_load _ := 0;
  ecp_mul d x := (d * x) mod 2 ^ 256;
  base_X := 9;
  gen_privkey g := (0, g, g + 1);
  mpi_write_binary x n := (0, x :: replicate (n - 1) 0);
  mpi_lset _ := 0;
  mpi_read_binary l := (0, default 0 (head l));
  compute_shared_code _ _ g := (0, g)
}.

#[export] Instance toy_ecdh_laws : EcdhLaws toy_ecdh.
Proof.
  split.
  - intros d x. apply Z.mod_pos_bound. reflexivity.
  - intros x _. by exists (x :: replicate 31 0).
  - intros d e. cbn. rewrite !Z.mul_mod_idemp_r by discriminate. f_equal. lia.
Qed.

Definition fresh_ctx : ecdh_context := mkEcdh None 0 0 0 0 0.

Lemma ecdh_agreement_witness :
  exists a1 k1 a2 k2 b1 b2 h1 h2,
    ecdh_gen_public_key fresh_ctx 3 (replicate 32 0) = Some (SC_OK, a1, 4, k1) /\
    ecdh_gen_public_key fresh_ctx 4 (replicate 32 0) = Some (SC_OK, a2, 5, k2) /\
    ecdh_compute_shared_secret a1 4 k2 = Some (SC_OK, b1, h1) /\
    ecdh_compute_shared_secret a2 5 k1 = Some (SC_OK, b2, h2) /\
    ctx_z b1 = ctx_z b2.
Proof.
  apply (ecdh_agreement fresh_ctx fresh_ctx 3 4 3 4 4 5 (replicate 32 0) (replicate 32 0)); reflexivity.
Defined.

End EcdhWitness.
