(* ===== verification/Timer.v ===== *)
(** * Threads with a time limit ([utils/timer.c])

    [ta_timer_start] arms a timer and starts a thread; when the timer expires
    its handler, in a thread of its own, cancels the thread; [ta_timer_stop]
    waits for the thread and releases everything.  The three run concurrently:
    the model is a step relation over the shared memory, the lock and the
    program counters. *)

From S2P Require Import Prelude TaErrors.

(** The value [pthread_join] stores for a cancelled thread. *)
Definition PTHREAD_CANCELED : Z := -1.

Inductive thread_state :=
| NoThread
| Running
| CancelRequested
| Ended (rval : Z).

(** Program counters of the process that calls [ta_timer_start] and then
    [ta_timer_stop]: before [timer_create], [timer_settime], [pthread_create];
    with the timer returned; before [pthread_join], the lock, [timer_delete]
    and the releases, the unlock; at the end with the result of start ([None]
    for NULL) and stop. *)
Inductive main_pc :=
| Create | Settime | Spawn | Started
| Join | Lock (rval : Z) | Delete (rval : Z) | Unlock (rval ret : Z)
| NotStarted | Stopped (rval : Z) (st : status_t).

(** The handler: before it reads the timer id, before the lock, before
    [pthread_cancel], before the unlock, at the end. *)
Inductive handler_pc := H_log | H_lock | H_cancel | H_unlock | H_done.

(** Who holds [timer_lock]. *)
Inductive holder := Free | ByMain | ByHandler (i : nat).

#[export] Instance holder_eq_dec : EqDecision holder.
Proof. solve_decision. Defined.

Record state := mkState {
  allocated : bool;        (* [ta_timer], [thread_id], [timer_id] have not been released *)
  created : bool;          (* [*thread_id] has been written *)
  armed : bool;            (* the timer can expire *)
  thread : thread_state;
  joined : bool;
  expired : bool;          (* the timer has expired before *)
  handlers : list handler_pc;
  lock : holder;
  pc : main_pc }.

Definition initial : state := mkState true false false NoThread false false [] Free Create.

(** What [ta_timer_stop] returns, from the results of [pthread_join] (which has
    succeeded) and [timer_delete]. *)
Definition stop_status (rval ret : Z) : status_t :=
  if negb (ret =? 0) then SC_UTILS_TIMER_ERROR
  else if rval =? PTHREAD_CANCELED then SC_UTILS_TIMER_EXPIRED
  else SC_OK.

(** A state, or an access to released or uninitialised memory or to a thread
    that has been joined. *)
Inductive conf := Ok (s : state) | Fault.

Section Steps.
(** Whether the timer is periodic, and what the callback may return. *)
Context (interval : bool) (returns : Z -> Prop).

(** [ta_timer_start] and [ta_timer_stop]. *)
Inductive main_step : state -> conf -> Prop :=
| create_fails al cr ar th jo ex hs lk :
    main_step (mkState al cr ar th jo ex hs lk Create) (Ok (mkState al cr ar th jo ex hs lk NotStarted))
| create_ok al cr ar th jo ex hs lk :
    main_step (mkState al cr ar th jo ex hs lk Create) (Ok (mkState al cr ar th jo ex hs lk Settime))
| settime al cr ar th jo ex hs lk :
    main_step (mkState al cr ar th jo ex hs lk Settime) (Ok (mkState al cr true th jo ex hs lk Spawn))
| spawn_ok al cr ar th jo ex hs lk :
    main_step (mkState al cr ar th jo ex hs lk Spawn) (Ok (mkState al true ar Running jo ex hs lk Started))
| spawn_fails al cr ar th jo ex hs lk :
    main_step (mkState al cr ar th jo ex hs lk Spawn) (Ok (mkState al cr ar th jo ex hs lk Started))
| stop_called al cr ar th jo ex hs lk :
    main_step (mkState al cr ar th jo ex hs lk Started) (Ok (mkState al cr ar th jo ex hs lk Join))
| join_garbage al ar th jo ex hs lk :
    main_step (mkState al false ar th jo ex hs lk Join) Fault
| join_ended al ar rval jo ex hs lk :
    main_step (mkState al true ar (Ended rval) jo ex hs lk Join)
      (Ok (mkState al true ar (Ended rval) true ex hs lk (Lock rval)))
| stop_lock al cr ar th jo ex hs rval :
    main_step (mkState al cr ar th jo ex hs Free (Lock rval))
      (Ok (mkState al cr ar th jo ex hs ByMain (Delete rval)))
| stop_delete al cr ar th jo ex hs lk rval ret :
    main_step (mkState al cr ar th jo ex hs lk (Delete rval))
      (Ok (mkState false cr false th jo ex hs lk (Unlock rval ret)))
| stop_unlock al cr ar th jo ex hs lk rval ret :
    main_step (mkState al cr ar th jo ex hs lk (Unlock rval ret))
      (Ok (mkState al cr ar th jo ex hs Free (Stopped rval (stop_status rval ret)))).

(** The callback returns a value, or is cancelled once that was asked for. *)
Inductive thread_step : state -> conf -> Prop :=
| thread_returns al cr ar th jo ex hs lk p rval :
    th = Running \/ th = CancelRequested -> returns rval ->
    thread_step (mkState al cr ar th jo ex hs lk p) (Ok (mkState al cr ar (Ended rval) jo ex hs lk p))
| thread_cancelled al cr ar jo ex hs lk p :
    thread_step (mkState al cr ar CancelRequested jo ex hs lk p)
      (Ok (mkState al cr ar (Ended PTHREAD_CANCELED) jo ex hs lk p)).

(** The timer expires: a thread for the handler is made. *)
Inductive timer_step : state -> conf -> Prop :=
| expires al cr th jo ex hs lk p :
    timer_step (mkState al cr true th jo ex hs lk p)
      (Ok (mkState al cr interval th jo true (hs ++ [H_log]) lk p)).

(** [pthread_cancel] on a thread that has not been joined. *)
Definition cancel (th : thread_state) : thread_state :=
  match th with Running => CancelRequested | _ => th end.

(** [handler], for the [i]-th expiry. *)
Inductive handler_step : state -> conf -> Prop :=
| handler_log i al cr ar th jo ex hs lk p : hs !! i = Some H_log ->
    handler_step (mkState al cr ar th jo ex hs lk p)
      (if al then Ok (mkState al cr ar th jo ex (<[i := H_lock]> hs) lk p) else Fault)
| handler_lock i al cr ar th jo ex hs p : hs !! i = Some H_lock ->
    handler_step (mkState al cr ar th jo ex hs Free p)
      (Ok (mkState al cr ar th jo ex (<[i := H_cancel]> hs) (ByHandler i) p))
| handler_cancel i al cr ar th jo ex hs lk p : hs !! i = Some H_cancel ->
    handler_step (mkState al cr ar th jo ex hs lk p)
      (if al && cr && negb jo
       then Ok (mkState al cr ar (cancel th) jo ex (<[i := H_unlock]> hs) lk p) else Fault)
| handler_unlock i al cr ar th jo ex hs lk p : hs !! i = Some H_unlock ->
    handler_step (mkState al cr ar th jo ex hs lk p)
      (Ok (mkState al cr ar th jo ex (<[i := H_done]> hs) Free p)).

Definition step (s : state) (c : conf) : Prop :=
  main_step s c \/ thread_step s c \/ timer_step s c \/ handler_step s c.

Inductive reachable : conf -> Prop :=
| reach_initial : reachable (Ok initial)
| reach_step s c : reachable (Ok s) -> step s c -> reachable c.

(** *** Mutual exclusion *)

Definition main_inside (p : main_pc) : Prop :=
  match p with Delete _ | Unlock _ _ => True | _ => False end.
Definition handler_inside (h : handler_pc) : Prop :=
  match h with H_cancel | H_unlock => True | _ => False end.

(** The holder of the lock is the only one between lock and unlock. *)
Definition exclusive (s : state) : Prop :=
  (main_inside (pc s) -> lock s = ByMain) /\
  (forall i h, handlers s !! i = Some h -> handler_inside h -> lock s = ByHandler i).

Lemma lookup_insert_cases (hs : list handler_pc) i j h h' :
  <[i := h']> hs !! j = Some h -> i = j /\ h = h' \/ i <> j /\ hs !! j = Some h \/ hs !! i = None.
Proof.
  destruct (hs !! i) eqn:E; [|auto]. apply lookup_lt_Some in E.
  destruct (decide (i = j)) as [<-|Hne]; [rewrite list_lookup_insert_eq by done|rewrite list_lookup_insert_ne by done];
    intros H; simplify_eq; auto.
Qed.

(** Use what is known of the handlers on one that is inside. *)
Ltac inside Hh :=
  repeat match goal with
  | H : handler_inside ?h, E : ?hs !! ?j = Some ?h |- _ => pose proof (Hh j h E H); clear H
  end; try congruence.

Lemma exclusive_main s s' : exclusive s -> main_step s (Ok s') -> exclusive s'.
Proof.
  intros [Hm Hh] Hs; inversion Hs; subst; split; cbn [main_inside pc lock handlers] in *; try done;
    try exact Hh; intros; pose proof (fun H => Hm H) as Hm'; inside Hh; specialize (Hm' I); congruence.
Qed.

Lemma exclusive_handler s s' : exclusive s -> handler_step s (Ok s') -> exclusive s'.
Proof.
  intros [Hm Hh] Hs; inversion Hs as [i al cr ar th jo ex hs lk p E|i al cr ar th jo ex hs p E|
      i al cr ar th jo ex hs lk p E|i al cr ar th jo ex hs lk p E]; subst;
    repeat (case_match; [|done]); simplify_eq; split; cbn [main_inside pc lock handlers] in *; try exact Hm.
  - intros j h [ [-> ->] | [ [Hne E'] | E']]%lookup_insert_cases Hi; [done|by apply (Hh j h)|congruence].
  - intros Hi. by pose proof (Hm Hi).
  - intros j h [ [-> ->] | [ [Hne E'] | E']]%lookup_insert_cases Hi; [done|inside Hh|congruence].
  - intros j h [ [-> ->] | [ [Hne E'] | E']]%lookup_insert_cases Hi; [by apply (Hh j H_cancel)|by apply (Hh j h)|congruence].
  - intros Hi. pose proof (Hm Hi). pose proof (Hh i H_unlock E I). congruence.
  - intros j h [ [-> ->] | [ [Hne E'] | E']]%lookup_insert_cases Hi; [done| |congruence].
    pose proof (Hh i H_unlock E I). inside Hh.
Qed.

Lemma exclusive_reachable s : reachable (Ok s) -> exclusive s.
Proof.
  intros H. remember (Ok s) as c eqn:Ec. revert s Ec.
  induction H as [|s0 c _ IH Hs]; intros s Ec; simplify_eq; [by split|].
  specialize (IH s0 eq_refl). destruct Hs as [Hs|[Hs|[Hs|Hs]]].
  - by eapply exclusive_main.
  - destruct IH as [Hm Hh]. inversion Hs; subst; by split.
  - destruct IH as [Hm Hh]. inversion Hs; subst. split; [done|]. cbn [handlers lock] in *.
    intros i h E Hi. apply lookup_app_Some in E as [E|[_ E]]; [by apply (Hh i h)|].
    apply list_lookup_singleton_Some in E as [_ <-]. done.
  - by eapply exclusive_handler.
Qed.

(** *** Results *)

(** The value [pthread_join] has delivered. *)
Definition delivered (p : main_pc) : option Z :=
  match p with Lock v | Delete v | Unlock v _ | Stopped v _ => Some v | _ => None end.

(** How the thread can have ended, and what is done with its value. *)
Record consistent (s : state) : Prop := {
  c_handlers : handlers s <> [] -> expired s = true;
  c_requested : thread s = CancelRequested -> expired s = true;
  c_ended v : thread s = Ended v -> returns v \/ v = PTHREAD_CANCELED /\ expired s = true;
  c_joined v : delivered (pc s) = Some v -> thread s = Ended v;
  c_status v st : pc s = Stopped v st -> exists ret, st = stop_status v ret }.

Lemma insert_nonempty (hs : list handler_pc) i h : <[i := h]> hs <> [] -> hs <> [].
Proof. by destruct hs. Qed.

Lemma lookup_nonempty (hs : list handler_pc) i h : hs !! i = Some h -> hs <> [].
Proof. by destruct hs. Qed.

Ltac consistent_tac :=
  constructor; cbn [handlers expired thread pc delivered] in *; intros; simplify_eq; eauto 3 using insert_nonempty.

Lemma consistent_main s s' : consistent s -> main_step s (Ok s') -> consistent s'.
Proof. intros [H1 H2 H3 H4 H5] Hs. inversion Hs; subst; consistent_tac. Qed.

Lemma consistent_thread s s' : consistent s -> thread_step s (Ok s') -> consistent s'.
Proof.
  intros [H1 H2 H3 H4 H5] Hs. inversion Hs; subst; consistent_tac.
  - match goal with H : delivered _ = _ |- _ => apply H4 in H as E end. naive_solver.
  - by right; split; [|apply H2].
  - match goal with H : delivered _ = _ |- _ => by apply H4 in H end.
Qed.

Lemma consistent_timer s s' : consistent s -> timer_step s (Ok s') -> consistent s'.
Proof.
  intros [H1 H2 H3 H4 H5] Hs. inversion Hs; subst; consistent_tac.
  destruct (H3 _ eq_refl) as [?|[-> _]]; auto.
Qed.

Lemma cancel_cases th : cancel th = th \/ th = Running /\ cancel th = CancelRequested.
Proof. destruct th; auto. Qed.

Lemma consistent_handler s s' : consistent s -> handler_step s (Ok s') -> consistent s'.
Proof.
  intros [H1 H2 H3 H4 H5] Hs. inversion Hs; subst; repeat (case_match; [|done]); simplify_eq;
    try (consistent_tac; fail).
  destruct (cancel_cases th) as [->|[-> ->]]; consistent_tac.
  - apply H1. by eapply lookup_nonempty.
  - match goal with H : delivered _ = _ |- _ => by apply H4 in H end.
Qed.

Lemma consistent_reachable s : reachable (Ok s) -> consistent s.
Proof.
  intros H. remember (Ok s) as c eqn:Ec. revert s Ec.
  induction H as [|s0 c _ IH Hs]; intros s Ec; simplify_eq; [by constructor|].
  specialize (IH s0 eq_refl). destruct Hs as [Hs|[Hs|[Hs|Hs]]].
  - by eapply consistent_main.
  - by eapply consistent_thread.
  - by eapply consistent_timer.
  - by eapply consistent_handler.
Qed.

(** *** Schedules without faults

    The timer expires only while the thread exists and has not been joined, and
    its handler is done when [pthread_join] returns. *)
Definition timely (s : state) (c : conf) : Prop :=
  main_step s c /\ (pc s = Join -> created s = true /\ Forall (fun h => h = H_done) (handlers s)) \/
  thread_step s c \/
  timer_step s c /\ created s = true /\ (pc s = Started \/ pc s = Join) \/
  handler_step s c.

Inductive timely_reachable : conf -> Prop :=
| timely_initial : timely_reachable (Ok initial)
| timely_next s c : timely_reachable (Ok s) -> timely s c -> timely_reachable c.

(** Until the thread is joined the memory is there; afterwards no handler
    runs. *)
Definition quiet (s : state) : Prop :=
  match pc s with
  | Create | Settime | Spawn | NotStarted => handlers s = []
  | Started | Join => allocated s = true /\ joined s = false /\ (handlers s = [] \/ created s = true)
  | _ => Forall (fun h => h = H_done) (handlers s)
  end.

Definition safe (c : conf) : Prop :=
  match c with
  | Ok s => quiet s /\ (allocated s = true /\ joined s = false \/ is_Some (delivered (pc s)))
  | Fault => False
  end.

Lemma done_lookup (hs : list handler_pc) i h : Forall (fun h => h = H_done) hs -> hs !! i = Some h -> h = H_done.
Proof. rewrite Forall_lookup. eauto. Qed.

Lemma safe_handler s c : safe (Ok s) -> handler_step s c -> safe c.
Proof.
  intros [Hq Ha] Hs. inversion Hs as [i al cr ar th jo ex hs lk p E|i al cr ar th jo ex hs p E|
      i al cr ar th jo ex hs lk p E|i al cr ar th jo ex hs lk p E]; subst;
    unfold safe, quiet in *; cbn [pc handlers allocated joined created] in *;
    destruct p; cbn in Ha; simplify_eq; try (by rewrite Hq in E);
    try (by pose proof (done_lookup _ _ _ Hq E));
    destruct Hq as (-> & -> & [-> | ->]); try done; cbn [andb negb]; unfold quiet; cbn; auto.
Qed.

Lemma safe_main s c : safe (Ok s) ->
  (pc s = Join -> created s = true /\ Forall (fun h => h = H_done) (handlers s)) -> main_step s c -> safe c.
Proof.
  intros [Hq Ha] Hj Hs. inversion Hs; subst; unfold safe, quiet in *; cbn in *; eauto; try naive_solver.
Qed.

(** C38 The lock works, and results are right: in every execution at most one of
    the handlers and [ta_timer_stop] is between lock and unlock; when
    [ta_timer_stop] has returned, [SC_OK] comes with a value the callback
    returned, and [SC_UTILS_TIMER_EXPIRED] means that the timer has expired and
    the thread was cancelled (for a callback that does not itself return
    [PTHREAD_CANCELED]). *)
Theorem timer_results s : ~ returns PTHREAD_CANCELED -> reachable (Ok s) ->
  exclusive s /\
  forall v st, pc s = Stopped v st ->
    (st = SC_OK -> returns v) /\
    (st = SC_UTILS_TIMER_EXPIRED -> v = PTHREAD_CANCELED /\ expired s = true).
Proof.
  intros Hret Hr. split; [by apply exclusive_reachable|]. intros v st Hpc.
  destruct (consistent_reachable s Hr) as [_ _ H3 H4 H5].
  destruct (H5 v st Hpc) as [ret ->]. pose proof (H4 v ltac:(by rewrite Hpc)) as Ht.
  unfold stop_status. destruct (negb (ret =? 0)); [by split; intros E; vm_compute in E|].
  destruct (Z.eqb_spec v PTHREAD_CANCELED) as [->|Hne].
  - split; intros E; [by vm_compute in E|]. split; [done|]. by destruct (H3 _ Ht) as [?|[_ ?]].
  - split; intros E; [|by vm_compute in E]. by destruct (H3 _ Ht) as [?|[? _]].
Qed.

(** No execution with such a schedule touches released or uninitialised
    memory. *)
Theorem timely_safe c : timely_reachable c -> safe c.
Proof.
  induction 1 as [|s c _ IH Hs]; [by split; [|left]|].
  destruct Hs as [[Hs Hj]|[Hs|[(Hs & Hc & Hp)|Hs]]].
  - by eapply safe_main.
  - destruct IH as [Hq Ha]. inversion Hs; subst; unfold safe, quiet in *; cbn in *; auto.
  - destruct IH as [Hq Ha]. inversion Hs; subst; unfold safe, quiet in *; cbn in *.
    destruct Hp as [-> | ->]; split; [|naive_solver| |naive_solver]; naive_solver.
  - by eapply safe_handler.
Qed.

End Steps.

(** ** Evaluations *)
Module TimerWitness.

Definition seven (v : Z) : Prop := v = 7.

Lemma reach_main interval returns s c : reachable interval returns (Ok s) -> main_step s c ->
  reachable interval returns c.
Proof. intros Hr Hs. eapply reach_step; [exact Hr|by left]. Qed.

(** The callback has returned 7 and been joined, the timer is still armed. *)
Definition at_lock : state := mkState true true true (Ended 7) true false [] Free (Lock 7).

Lemma reach_at_lock : reachable false seven (Ok at_lock).
Proof.
  eapply reach_main; [|apply join_ended]. eapply reach_main; [|apply stop_called].
  eapply reach_step; [|right; left; apply (thread_returns seven _ _ _ Running); [by left|done]].
  eapply reach_main; [|apply spawn_ok]. eapply reach_main; [|apply settime].
  eapply reach_main; [apply reach_initial|apply create_ok].
Qed.

Definition finished : state :=
  mkState false true false (Ended 7) true false [] Free (Stopped 7 (stop_status 7 0)).

Lemma reach_finished : reachable false seven (Ok finished).
Proof.
  eapply reach_main; [|apply stop_unlock]. eapply reach_main; [|apply (stop_delete true true true)].
  eapply reach_main; [exact reach_at_lock|apply stop_lock].
Qed.

Lemma timer_results_witness : exclusive finished /\ (SC_OK = SC_OK -> seven 7).
Proof.
  destruct (timer_results false seven finished) as [H1 H2]; [done|exact reach_finished|].
  split; [exact H1|]. exact (proj1 (H2 7 SC_OK eq_refl)).
Defined.

End TimerWitness.

(** A handler that gets the lock right after its timer has expired. *)
Lemma handler_gets_lock s interval returns al cr th jo ex p : al = true ->
  reachable interval returns (Ok (mkState al cr true th jo ex [] Free p)) ->
  s = mkState al cr interval th jo true [H_cancel] (ByHandler 0) p -> reachable interval returns (Ok s).
Proof.
  intros -> Hr ->.
  eapply reach_step; [|right; right; right; exact (handler_lock 0 true cr interval th jo true [H_lock] p eq_refl)].
  eapply reach_step; [|right; right; right;
    exact (handler_log 0 true cr interval th jo true [H_log] Free p eq_refl)].
  eapply reach_step; [exact Hr|]. right; right; left. apply expires.
Qed.

(** A timer that expires after the thread has been joined and before
    [ta_timer_stop] has the lock cancels a thread that is no longer there. *)
Theorem timer_race : exists s, reachable false TimerWitness.seven (Ok s) /\ joined s = true /\
  step false TimerWitness.seven s Fault.
Proof.
  eexists. split; [eapply handler_gets_lock; [|exact TimerWitness.reach_at_lock|reflexivity]; reflexivity|].
  split; [done|]. right; right; right.
  exact (handler_cancel 0 true true false (Ended 7) true true [H_cancel] (ByHandler 0) (Lock 7) eq_refl).
Qed.

(** One that expires before the thread has been made reads a thread id nobody
    has written. *)
Theorem timer_early_expiry : exists s, reachable false TimerWitness.seven (Ok s) /\ created s = false /\
  step false TimerWitness.seven s Fault.
Proof.
  eexists. split.
  { eapply handler_gets_lock; [|eapply TimerWitness.reach_main; [|apply settime]|reflexivity]; [reflexivity|].
    eapply TimerWitness.reach_main; [apply reach_initial|apply create_ok]. }
  split; [done|]. right; right; right.
  exact (handler_cancel 0 true false false NoThread false true [H_cancel] (ByHandler 0) Spawn eq_refl).
Qed.
