(* ===== verification/Debug.v ===== *)
(** * Comparing and printing transactions ([common/debug.c])

    [transaction_cmp] compares two transaction objects field by field and logs
    the differences, [dump_transaction_obj] and [dump_bundle] log everything.
    All three make every column of the objects visible and restore what was
    visible before. *)

From S2P Require Import Prelude TaErrors Cache World.

Definition NUM_TRYTES_OBSOLETE_TAG : Z := 27.
Definition NUM_TRYTES_TRUNK : Z := 81.
Definition NUM_TRYTES_BRANCH : Z := 81.
Definition NUM_TRYTES_TAG : Z := 27.
Definition NUM_TRYTES_HASH : Z := 81.

(** An object with its [loaded_columns_mask]. *)
Record tx_object := mkObj { tx : iota_transaction_t; loaded_columns_mask : list Z }.

(** [memset (&mask, 0xFF, sizeof mask)]. *)
Definition show_all (o : tx_object) : tx_object := mkObj (tx o) (replicate (length (loaded_columns_mask o)) 0xFF).
Definition restore (o : tx_object) (old_mask : list Z) : tx_object := mkObj (tx o) old_mask.

(** What is logged: text, or the trits of a field. *)
Inductive log_item := Text (t : cstr) | Trits (t : trits) (n : Z).

Definition newline : cstr := [10].

(** ** Comparison *)

(** [memcmp] on two pieces of memory of the same length: an [int], 0 exactly when
    they agree. *)
Class Memcmp := {
  memcmp : list Z -> list Z -> Z;
  memcmp_int a b : INT_MIN <= memcmp a b <= INT_MAX;
  memcmp_zero a b : memcmp a b = 0 <-> a = b
}.

(** The state of the comparison: [equal] and the log. *)
Definition cmp_state : Type := bool * list log_item.

Section Compare.
Context {libc : Memcmp}.

Section Fields.
Context (tx1 tx2 : iota_transaction_t).

(** A field of trits, which both objects must have in full. *)
Definition cmp_trits (title : cstr) (field : string) (f : iota_transaction_t -> trits) (tryte_len : Z)
    (s : cmp_state) : option cmp_state :=
  x ← read_at (f tx1) 0 (Z.to_nat tryte_len);
  y ← read_at (f tx2) 0 (Z.to_nat tryte_len);
  let result := u64 (memcmp x y) in
  let log := s.2 ++ [Text title; Text (dec (i64 result) ++ newline)] in
  Some (if negb (result =? 0) then
    (false, log ++ [Text (lit (field ++ " tx1: ")); Trits (f tx1) (3 * tryte_len); Text newline;
                    Text (lit (field ++ " tx2: ")); Trits (f tx2) (3 * tryte_len); Text newline])
  else (s.1, log)).

(** A number: the difference is kept in 64 bits and printed as a signed number. *)
Definition cmp_number (title : cstr) (field : string) (f : iota_transaction_t -> Z) (s : cmp_state)
    : option cmp_state :=
  let result := u64 (f tx1 - f tx2) in
  let log := s.2 ++ [Text title; Text (dec (i64 result) ++ newline)] in
  Some (if negb (result =? 0) then
    (false, log ++ [Text (lit (field ++ " tx1: ") ++ dec (i64 (f tx1)) ++ newline);
                    Text (lit (field ++ " tx2: ") ++ dec (i64 (f tx2)) ++ newline)])
  else (s.1, log)).

(** The last fields. *)
Definition cmp_rest (s : cmp_state) : option cmp_state :=
  s ← cmp_trits (lit "nonce: ") "nonce" transaction_nonce NUM_TRYTES_NONCE s;
  s ← cmp_trits (lit "hash: ") "hash" transaction_hash NUM_TRYTES_HASH s;
  cmp_trits (lit "message: " ++ newline) "message" transaction_message NUM_TRYTES_MESSAGE s.

Definition cmp_fields : option cmp_state :=
  s ← cmp_trits (lit "address: ") "address" transaction_address NUM_TRYTES_ADDRESS (true, []);
  s ← cmp_number (lit "value: ") "value" transaction_value s;
  s ← cmp_trits (lit "obsolete tag: ") "obsolete tag" transaction_obsolete_tag NUM_TRYTES_OBSOLETE_TAG s;
  s ← cmp_number (lit "timestamp: ") "timestamp" transaction_timestamp s;
  s ← cmp_number (lit "curr_index: ") "curr_index" transaction_current_index s;
  s ← cmp_number (lit "last_index: ") "last_index" transaction_last_index s;
  s ← cmp_trits (lit "bundle: ") "bundle" transaction_bundle NUM_TRYTES_BUNDLE s;
  s ← cmp_trits (lit "trunk: ") "trunk" transaction_trunk NUM_TRYTES_TRUNK s;
  s ← cmp_trits (lit "branch: ") "branch" transaction_branch NUM_TRYTES_BRANCH s;
  s ← cmp_trits (lit "tag: ") "tag" transaction_tag NUM_TRYTES_TAG s;
  s ← cmp_number (lit "attachment_timestamp: ") "attachment_timestamp" transaction_attachment_timestamp s;
  s ← cmp_number (lit "attachment_timestamp_lower: ") "attachment_timestamp_lower"
        transaction_attachment_timestamp_lower s;
  s ← cmp_number (lit "attachment_timestamp_upper: ") "attachment_timestamp_upper"
        transaction_attachment_timestamp_upper s;
  cmp_rest s.

End Fields.

(** [transaction_cmp]: the result, both objects and the log. *)
Definition transaction_cmp (o1 o2 : tx_object) : option (bool * tx_object * tx_object * list log_item) :=
  let old_mask1 := loaded_columns_mask o1 in
  let o1 := show_all o1 in
  let old_mask2 := loaded_columns_mask o2 in
  let o2 := show_all o2 in
  '(equal, log) ← cmp_fields (tx o1) (tx o2);
  Some (equal, restore o1 old_mask1, restore o2 old_mask2, log).

(** ** Printing *)

Definition dump_trits (title : string) (t : trits) (tryte_len : Z) : list log_item :=
  [Text (lit title); Trits t (3 * tryte_len); Text newline].

Definition dump_number (title : string) (n : Z) : list log_item := [Text (lit title ++ dec (i64 n) ++ newline)].

Definition dump_fields (t : iota_transaction_t) : list log_item :=
  [Text (lit "==========Transaction Object==========" ++ newline)] ++
  dump_trits "address: " (transaction_address t) NUM_TRYTES_ADDRESS ++
  dump_number "value: " (transaction_value t) ++
  dump_trits "obsolete tag: " (transaction_obsolete_tag t) NUM_TRYTES_OBSOLETE_TAG ++
  dump_number "timestamp: " (transaction_timestamp t) ++
  [Text (lit "curr index: " ++ dec (i64 (transaction_current_index t)) ++ lit " " ++ newline ++
         lit "last index: " ++ dec (i64 (transaction_last_index t)) ++ newline)] ++
  dump_trits "bundle: " (transaction_bundle t) NUM_TRYTES_BUNDLE ++
  dump_trits "trunk: " (transaction_trunk t) NUM_TRYTES_TRUNK ++
  dump_trits "branch: " (transaction_branch t) NUM_TRYTES_BRANCH ++
  dump_trits "tag: " (transaction_tag t) NUM_TRYTES_TAG ++
  dump_number "attachment_timestamp: " (transaction_attachment_timestamp t) ++
  dump_number "attachment_timestamp_lower: " (transaction_attachment_timestamp_lower t) ++
  dump_number "attachment_timestamp_upper: " (transaction_attachment_timestamp_upper t) ++
  dump_trits "nonce: " (transaction_nonce t) NUM_TRYTES_NONCE ++
  dump_trits "hash: " (transaction_hash t) NUM_TRYTES_HASH ++
  [Text (lit "message: " ++ newline); Trits (transaction_message t) (3 * NUM_TRYTES_MESSAGE); Text newline].

Definition dump_transaction_obj (o : tx_object) : tx_object * list log_item :=
  let old_mask := loaded_columns_mask o in
  let o := show_all o in
  (restore o old_mask, dump_fields (tx o)).

(** [BUNDLE_FOREACH]: each object in turn. *)
Fixpoint dump_bundle (bundle : list tx_object) : list tx_object * list log_item :=
  match bundle with
  | [] => ([], [])
  | o :: r =>
      let '(o, log) := dump_transaction_obj o in
      let '(r, logs) := dump_bundle r in (o :: r, log ++ logs)
  end.

(** ** Properties *)

(** Objects as the library makes them: fields of their sizes and numbers of 64
    bits, of which the value is signed. *)
Record wf_tx (t : iota_transaction_t) : Prop := {
  wf_address : length (transaction_address t) = 81%nat;
  wf_obsolete_tag : length (transaction_obsolete_tag t) = 27%nat;
  wf_bundle : length (transaction_bundle t) = 81%nat;
  wf_trunk : length (transaction_trunk t) = 81%nat;
  wf_branch : length (transaction_branch t) = 81%nat;
  wf_tag : length (transaction_tag t) = 27%nat;
  wf_nonce : length (transaction_nonce t) = 27%nat;
  wf_hash : length (transaction_hash t) = 81%nat;
  wf_message : length (transaction_message t) = 2187%nat;
  wf_value : - 2 ^ 63 <= transaction_value t < 2 ^ 63;
  wf_timestamp : 0 <= transaction_timestamp t < 2 ^ 64;
  wf_current : 0 <= transaction_current_index t < 2 ^ 64;
  wf_last : 0 <= transaction_last_index t < 2 ^ 64;
  wf_attachment : 0 <= transaction_attachment_timestamp t < 2 ^ 64;
  wf_lower : 0 <= transaction_attachment_timestamp_lower t < 2 ^ 64;
  wf_upper : 0 <= transaction_attachment_timestamp_upper t < 2 ^ 64 }.

Lemma u64_zero n : - 2 ^ 64 < n < 2 ^ 64 -> (u64 n =? 0) = (n =? 0).
Proof.
  intros H. unfold uwrap. destruct (Z.eqb_spec n 0) as [->|Hn]; [done|]. apply Z.eqb_neq. intros E.
  apply Z.mod_divide in E as [k Ek]; lia.
Qed.

Lemma cmp_trits_spec t1 t2 title field f n s : length (f t1) = Z.to_nat n -> length (f t2) = Z.to_nat n ->
  exists log, cmp_trits t1 t2 title field f n s = Some (s.1 && bool_decide (f t1 = f t2), log).
Proof.
  intros H1 H2. unfold cmp_trits, read_at. rewrite !drop_0, !decide_True, !take_ge by lia. bind_simpl.
  pose proof (memcmp_int (f t1) (f t2)) as Hi. unfold INT_MIN, INT_MAX in Hi.
  rewrite u64_zero by lia. destruct (Z.eqb_spec (memcmp (f t1) (f t2)) 0) as [E|E]; rewrite memcmp_zero in E.
  - rewrite bool_decide_true by done. rewrite andb_true_r. by eexists.
  - rewrite bool_decide_false by done. rewrite andb_false_r. by eexists.
Qed.

Lemma cmp_number_spec t1 t2 title field f s : - 2 ^ 64 < f t1 - f t2 < 2 ^ 64 ->
  exists log, cmp_number t1 t2 title field f s = Some (s.1 && bool_decide (f t1 = f t2), log).
Proof.
  intros H. unfold cmp_number. rewrite u64_zero by lia.
  destruct (Z.eqb_spec (f t1 - f t2) 0) as [E|E].
  - rewrite bool_decide_true by lia. rewrite andb_true_r. by eexists.
  - rewrite bool_decide_false by lia. rewrite andb_false_r. by eexists.
Qed.

(** The fields of a transaction, in the order they are compared. *)
Lemma tx_eq t u : t = u <->
  transaction_address t = transaction_address u /\ transaction_value t = transaction_value u /\
  transaction_obsolete_tag t = transaction_obsolete_tag u /\ transaction_timestamp t = transaction_timestamp u /\
  transaction_current_index t = transaction_current_index u /\ transaction_last_index t = transaction_last_index u /\
  transaction_bundle t = transaction_bundle u /\ transaction_trunk t = transaction_trunk u /\
  transaction_branch t = transaction_branch u /\ transaction_tag t = transaction_tag u /\
  transaction_attachment_timestamp t = transaction_attachment_timestamp u /\
  transaction_attachment_timestamp_lower t = transaction_attachment_timestamp_lower u /\
  transaction_attachment_timestamp_upper t = transaction_attachment_timestamp_upper u /\
  transaction_nonce t = transaction_nonce u /\ transaction_hash t = transaction_hash u /\
  transaction_message t = transaction_message u.
Proof.
  split; [intros ->; by repeat split|]. destruct t, u. cbn.
  by intros (-> & -> & -> & -> & -> & -> & -> & -> & -> & -> & -> & -> & -> & -> & -> & ->).
Qed.

Ltac cmp_next :=
  match goal with
  | |- context [cmp_trits ?a ?b ?t ?n ?f ?k ?s] =>
      let E := fresh in
      destruct (cmp_trits_spec a b t n f k s) as [? E]; [done|done|]; rewrite E; clear E; bind_simpl
  | |- context [cmp_number ?a ?b ?t ?n ?f ?s] =>
      let E := fresh in
      destruct (cmp_number_spec a b t n f s) as [? E]; [lia|]; rewrite E; clear E; bind_simpl
  end.

(** [transaction_cmp] decides equality: for objects as the library makes them it
    returns true exactly when all sixteen fields agree, never reads outside a
    field, and both objects show the same columns as before. *)
Theorem transaction_cmp_spec o1 o2 : wf_tx (tx o1) -> wf_tx (tx o2) ->
  exists log, transaction_cmp o1 o2 = Some (bool_decide (tx o1 = tx o2), o1, o2, log).
Proof.
  intros [] []. unfold transaction_cmp, cmp_fields, cmp_rest. cbn [tx show_all].
  repeat cmp_next. eexists. repeat f_equal; [|by destruct o1|by destruct o2].
  apply eq_true_iff_eq. rewrite !andb_true_iff, !bool_decide_eq_true.
  rewrite tx_eq. tauto.
Qed.

End Compare.

(** *** What is printed determines the transaction *)

Lemma dec_nat_inj m n : 0 <= m -> 0 <= n -> dec_nat m = dec_nat n -> m = n.
Proof. intros Hm Hn E. destruct (dec_nat_spec m Hm) as (_ & <- & _), (dec_nat_spec n Hn) as (_ & <- & _). by rewrite E. Qed.

Lemma dec_nat_head n r : 0 <= n -> dec_nat n <> 45 :: r.
Proof.
  intros Hn E. destruct (dec_nat_spec n Hn) as (H & _ & _). rewrite E in H. by inversion H.
Qed.

Lemma dec_inj m n : dec m = dec n -> m = n.
Proof.
  unfold dec. destruct (Z.ltb_spec m 0), (Z.ltb_spec n 0); intros E.
  - injection E as E. apply dec_nat_inj in E; lia.
  - symmetry in E. by apply dec_nat_head in E.
  - by apply dec_nat_head in E.
  - by apply dec_nat_inj in E.
Qed.

Lemma i64_inj m n : 0 <= m < 2 ^ 64 -> 0 <= n < 2 ^ 64 -> i64 m = i64 n -> m = n.
Proof.
  intros Hm Hn. unfold swrap. rewrite !uwrap_small by lia. change (2 ^ (64 - 1)) with (2 ^ 63).
  destruct (Z.ltb_spec m (2 ^ 63)), (Z.ltb_spec n (2 ^ 63)); lia.
Qed.

Lemma dump_number_inj title m n r s : dump_number title m ++ r = dump_number title n ++ s ->
  i64 m = i64 n /\ r = s.
Proof.
  unfold dump_number. cbn [app]. intros [= E ->]. split; [|done].
  apply app_inv_head, app_inv_tail in E. by apply dec_inj.
Qed.

Lemma dump_trits_inj title t u n r s : dump_trits title t n ++ r = dump_trits title u n ++ s -> t = u /\ r = s.
Proof. unfold dump_trits. cbn [app]. by intros [= -> ->]. Qed.

Lemma dec_no_blank n : 32 ∉ dec n.
Proof.
  assert (forall m, 0 <= m -> 32 ∉ dec_nat m) as H.
  { intros m Hm Hin. destruct (dec_nat_spec m Hm) as (Hd & _ & _). rewrite Forall_forall in Hd. by apply Hd in Hin. }
  unfold dec. destruct (Z.ltb_spec n 0); [|by apply H].
  apply not_elem_of_cons. split; [lia|]. apply H. lia.
Qed.

Lemma app_blank_inj (a b x y : cstr) : 32 ∉ a -> 32 ∉ b -> a ++ 32 :: x = b ++ 32 :: y -> a = b /\ x = y.
Proof.
  revert b. induction a as [|c a IH]; intros [|d b] Ha Hb; cbn; intros E; injection E as E.
  - done.
  - subst d. by destruct Hb; constructor.
  - subst c. by destruct Ha; constructor.
  - apply not_elem_of_cons in Ha as [_ Ha], Hb as [_ Hb]. subst d. by destruct (IH b Ha Hb H) as [-> ->].
Qed.

Lemma dump_unsigned_inj title m n r s : 0 <= m < 2 ^ 64 -> 0 <= n < 2 ^ 64 ->
  dump_number title m ++ r = dump_number title n ++ s -> m = n /\ r = s.
Proof. intros Hm Hn [E ->]%dump_number_inj. by apply i64_inj in E. Qed.

Lemma dump_signed_inj title m n r s : - 2 ^ 63 <= m < 2 ^ 63 -> - 2 ^ 63 <= n < 2 ^ 63 ->
  dump_number title m ++ r = dump_number title n ++ s -> m = n /\ r = s.
Proof. intros Hm Hn [E ->]%dump_number_inj. by rewrite !swrap_small in E by done. Qed.

Lemma dump_text_inj a b r s : [Text a] ++ r = [Text b] ++ s -> a = b /\ r = s.
Proof. by intros [= -> ->]. Qed.

Ltac dump_next H :=
  first [apply dump_trits_inj in H as [? H]
        |apply dump_unsigned_inj in H as [? H]; [|assumption|assumption]
        |apply dump_signed_inj in H as [? H]; [|assumption|assumption]].

(** Two transactions with the same dump are the same. *)
Theorem dump_determines t u : wf_tx t -> wf_tx u -> dump_fields t = dump_fields u -> t = u.
Proof.
  intros [] [] H. unfold dump_fields in H. apply app_inv_head in H. do 4 dump_next H.
  apply dump_text_inj in H as [Hi H]. do 9 dump_next H. injection H as Hm. apply app_inv_head in Hi.
  apply app_blank_inj in Hi as [Hc%dec_inj Hi]; [|apply dec_no_blank|apply dec_no_blank].
  do 2 apply app_inv_head in Hi. apply app_inv_tail in Hi. apply dec_inj in Hi.
  apply i64_inj in Hc; [|assumption|assumption]. apply i64_inj in Hi; [|assumption|assumption].
  apply tx_eq. tauto.
Qed.

(** ** Evaluations *)
Module DebugWitness.

#[export] Program Instance toy_memcmp : Memcmp := { memcmp a b := if decide (a = b) then 0 else 1 }.
Next Obligation. intros a b. cbn. case_decide; unfold INT_MIN, INT_MAX; lia. Qed.
Next Obligation. intros a b. cbn. case_decide; split; (done || lia). Qed.

Definition toy_tx (v : Z) : iota_transaction_t :=
  mkTx (replicate 81 1) v (replicate 27 2) 3 0 0 (replicate 81 4) (replicate 81 5) (replicate 81 6) (replicate 27 7)
    8 9 10 (replicate 27 11) (replicate 2187 12) (replicate 81 13).

Lemma toy_wf v : 0 <= v < 100 -> wf_tx (toy_tx v).
Proof. intros Hv. split; first [reflexivity|cbn; lia]. Qed.

Definition toy_obj (v : Z) : tx_object := mkObj (toy_tx v) [1; 2; 4].

Lemma transaction_cmp_spec_witness :
  exists log, transaction_cmp (toy_obj 1) (toy_obj 2) = Some (bool_decide (toy_tx 1 = toy_tx 2), toy_obj 1, toy_obj 2, log).
Proof. apply (transaction_cmp_spec (toy_obj 1) (toy_obj 2)); apply toy_wf; lia. Defined.

Example toy_differ :
  match transaction_cmp (toy_obj 1) (toy_obj 2) with
  | Some (equal, _, _, log) => (equal, take 6 (drop 2 log)) =
      (false, [Text (lit "value: "); Text (lit "-1" ++ newline); Text (lit "value tx1: 1" ++ newline);
               Text (lit "value tx2: 2" ++ newline); Text (lit "obsolete tag: "); Text (lit "0" ++ newline)])
  | None => False
  end.
Proof. vm_compute. reflexivity. Qed.

End DebugWitness.
