(* ===== verification/Heap.v ===== *)
(** * The heap

    Blocks that are allocated and freed, for the components whose memory is
    modelled: [Socks], [Requests] and [MqttMemory].  A block is a value of a type
    the component chooses.  [own] says of which blocks a heap consists; [triple]
    is a specification of a computation by the blocks it needs and the blocks it
    leaves, whatever other blocks there are, so that a triple that leaves [[]]
    says that nothing is lost, and that the computation is defined at all says that
    nothing is freed twice or used after it was freed. *)

From S2P Require Import Prelude.

(** The heap, and how many allocations were made. *)
Record mem (B : Type) := mkMem { blocks : gmap nat B; mallocs : nat }.
Arguments mkMem {B} blocks mallocs.
Arguments blocks {B} m.
Arguments mallocs {B} m.

(** A pointer is NULL or the address of a block; a member of a block that was not
    written yet holds an indeterminate pointer. *)
Abbreviation ptr := (option nat).
Abbreviation member := (option (option nat)).

Section Heap.
Context {B : Type}.
Implicit Types (m : mem B) (L F : list (nat * B)).

(** The heap consists of exactly these blocks. *)
Definition own m L : Prop := map_to_list (blocks m) ≡ₚ L.

Lemma own_lookup m a b L : own m ((a, b) :: L) -> blocks m !! a = Some b.
Proof. intros H. apply elem_of_map_to_list. rewrite H. by left. Qed.

Lemma own_delete m a b L n : own m ((a, b) :: L) -> own (mkMem (delete a (blocks m)) n) L.
Proof.
  intros H. unfold own in *. cbn. apply (Permutation_cons_inv (a := (a, b))).
  by rewrite map_to_list_delete by by eapply own_lookup.
Qed.

Lemma own_insert m a b L n : own m L -> blocks m !! a = None ->
  own (mkMem (<[a := b]> (blocks m)) n) ((a, b) :: L).
Proof. intros H Hn. unfold own in *. cbn. by rewrite map_to_list_insert, H. Qed.

Lemma own_update m a b b' L n : own m ((a, b) :: L) -> own (mkMem (<[a := b']> (blocks m)) n) ((a, b') :: L).
Proof.
  intros H. unfold own. cbn. rewrite <- insert_delete_eq, map_to_list_insert by apply lookup_delete_eq.
  apply perm_skip. exact (own_delete _ _ _ _ n H).
Qed.

Lemma own_perm m L L' : own m L -> L ≡ₚ L' -> own m L'.
Proof. intros H HL. unfold own. by rewrite H. Qed.

Lemma own_frame m m' : own m' (map_to_list (blocks m)) -> blocks m' = blocks m.
Proof. apply map_to_list_inj. Qed.

Lemma own_self m : own m (map_to_list (blocks m)).
Proof. unfold own. reflexivity. Qed.

(** ** Operations *)

Section Operations.
(** [malloc_ok n]: the [n]-th allocation succeeds. *)
Context (malloc_ok : nat -> bool).

Definition no_memory : Prop := exists n, malloc_ok n = false.

Lemma enough_memory {P : Prop} : (forall n, malloc_ok n = true) -> no_memory -> P.
Proof. intros enough [n Hn]. by rewrite enough in Hn. Qed.

(** A new block, or NULL. *)
Definition malloc (b : B) : comp (mem B) ptr := fun m =>
  if malloc_ok (mallocs m) then
    let p := fresh (dom (blocks m)) in
    Some (Some p, mkMem (<[p := b]> (blocks m)) (S (mallocs m)))
  else Some (None, mkMem (blocks m) (S (mallocs m))).

Definition load (p : ptr) : comp (mem B) B := fun m =>
  a ← p; b ← blocks m !! a; Some (b, m).

Definition store (p : ptr) (b : B) : comp (mem B) unit := fun m =>
  a ← p; _ ← blocks m !! a; Some (tt, mkMem (<[a := b]> (blocks m)) (mallocs m)).

Definition free (p : ptr) : comp (mem B) unit := fun m =>
  match p with
  | None => Some (tt, m)
  | Some a => _ ← blocks m !! a; Some (tt, mkMem (delete a (blocks m)) (mallocs m))
  end.

(** What a pointer points to, as a structure of a type; reading a block as another
    type is undefined. *)
Definition at_ptr {T} (as_T : B -> option T) (p : ptr) : comp (mem B) T := b ← load p; check (as_T b).

(** ** Triples *)

Definition triple {A} L (c : comp (mem B) A) (Q : A -> list (nat * B) -> Prop) : Prop :=
  forall F m, own m (L ++ F) -> exists a m' L', c m = Some (a, m') /\ own m' (L' ++ F) /\ Q a L'.

Lemma triple_ret {A} L (a : A) (Q : A -> list (nat * B) -> Prop) : Q a L -> triple L (mret a) Q.
Proof. intros HQ F m Ho. by exists a, m, L. Qed.

Lemma triple_bind {A C} L (c : comp (mem B) A) (k : A -> comp (mem B) C) R Q :
  triple L c R -> (forall a L', R a L' -> triple L' (k a) Q) -> triple L (c ≫= k) Q.
Proof.
  intros Hc Hk F m Ho. destruct (Hc F m Ho) as (a & m' & L' & E & Ho' & HR).
  rewrite (comp_bind_eq _ _ _ _ _ E). by apply (Hk a L' HR).
Qed.

Lemma triple_conseq {A} L (c : comp (mem B) A) (Q R : A -> list (nat * B) -> Prop) :
  triple L c R -> (forall a L', R a L' -> Q a L') -> triple L c Q.
Proof. intros Hc HQ F m Ho. destruct (Hc F m Ho) as (a & m' & L' & ? & ? & ?). exists a, m', L'. eauto. Qed.

(** The states between which the computation has run. *)
Lemma triple_trace {A} L (c : comp (mem B) A) (Q : A -> list (nat * B) -> Prop) : triple L c Q ->
  triple L c (fun a L' => Q a L' /\ exists F m m', own m (L ++ F) /\ c m = Some (a, m')).
Proof.
  intros Hc F m Ho. destruct (Hc F m Ho) as (a & m' & L' & E & Ho' & HQ). exists a, m', L'. split_and!; [done..|].
  by exists F, m, m'.
Qed.

Lemma triple_perm {A} L L' (c : comp (mem B) A) Q : L ≡ₚ L' -> triple L' c Q -> triple L c Q.
Proof. intros HL Hc F m Ho. apply Hc. eapply own_perm; [exact Ho|]. by rewrite HL. Qed.

Lemma triple_frame {A} L (R : list (nat * B)) (c : comp (mem B) A) Q :
  triple L c Q -> triple (L ++ R) c (fun a L' => exists L1, Q a L1 /\ L' = L1 ++ R).
Proof.
  intros Hc F m Ho. destruct (Hc (R ++ F) m) as (a & m' & L' & E & Ho' & HQ); [by rewrite app_assoc|].
  exists a, m', (L' ++ R). rewrite <- app_assoc. eauto.
Qed.

Lemma triple_malloc L b (Q : ptr -> list (nat * B) -> Prop) :
  (forall a, Q (Some a) ((a, b) :: L)) -> (no_memory -> Q None L) -> triple L (malloc b) Q.
Proof.
  intros HS HN F m Ho. unfold malloc. destruct (malloc_ok (mallocs m)) eqn:E.
  - eexists _, _, ((_, b) :: L). split; [done|]. split; [|apply HS].
    apply own_insert; [done|]. apply not_elem_of_dom, is_fresh.
  - eexists None, _, L. split; [done|]. split; [done|]. apply HN. by eexists.
Qed.

Lemma triple_load L a b L' (Q : B -> list (nat * B) -> Prop) :
  L ≡ₚ (a, b) :: L' -> Q b L -> triple L (load (Some a)) Q.
Proof.
  intros HL HQ F m Ho. unfold load. bind_simpl.
  rewrite (own_lookup m a b (L' ++ F)) by (eapply own_perm; [exact Ho|]; by rewrite HL). bind_simpl. by exists b, m, L.
Qed.

Lemma triple_store L a b b' L' (Q : unit -> list (nat * B) -> Prop) :
  L ≡ₚ (a, b) :: L' -> Q tt ((a, b') :: L') -> triple L (store (Some a) b') Q.
Proof.
  intros HL HQ F m Ho. unfold store. bind_simpl.
  assert (own m ((a, b) :: L' ++ F)) as Ho' by (eapply own_perm; [exact Ho|]; by rewrite HL).
  rewrite (own_lookup _ _ _ _ Ho'). bind_simpl. eexists tt, _, ((a, b') :: L'). split; [done|].
  split; [|done]. by eapply own_update.
Qed.

Lemma triple_free L a b L' (Q : unit -> list (nat * B) -> Prop) :
  L ≡ₚ (a, b) :: L' -> Q tt L' -> triple L (free (Some a)) Q.
Proof.
  intros HL HQ F m Ho. unfold free.
  assert (own m ((a, b) :: L' ++ F)) as Ho' by (eapply own_perm; [exact Ho|]; by rewrite HL).
  rewrite (own_lookup _ _ _ _ Ho'). bind_simpl. eexists tt, _, L'. split; [done|]. split; [|done].
  by eapply own_delete.
Qed.

Lemma triple_free_null L (Q : unit -> list (nat * B) -> Prop) : Q tt L -> triple L (free None) Q.
Proof. intros HQ F m Ho. by exists tt, m, L. Qed.

(** A computation that needs nothing and leaves nothing gives the heap back. *)
Lemma triple_closed {A} (c : comp (mem B) A) Q m : triple [] c Q -> (forall a L, Q a L -> L = []) ->
  exists a m', c m = Some (a, m') /\ blocks m' = blocks m /\ Q a [].
Proof.
  intros Hc Hn. destruct (Hc (map_to_list (blocks m)) m (own_self m)) as (a & m' & L & E & Ho & HQ).
  assert (L = []) as -> by by eapply Hn. exists a, m'. split; [done|]. split; [|done]. by apply own_frame.
Qed.

(** ** Symbolic execution

    The rules for the first step of a sequence. *)

Section Steps.
Context {A C : Type}.
Implicit Types (Q : C -> list (nat * B) -> Prop).

Lemma wp_assoc {D} L (c : comp (mem B) D) (f : D -> comp (mem B) A) (g : A -> comp (mem B) C) Q :
  triple L (c ≫= fun x => f x ≫= g) Q -> triple L ((c ≫= f) ≫= g) Q.
Proof using.
  intros H F m Ho. specialize (H F m Ho). unfold mbind, comp_mbind in *. by destruct (c m) as [[]|].
Qed.

Lemma wp_ret L (a : A) (k : A -> comp (mem B) C) Q : triple L (k a) Q -> triple L (mret a ≫= k) Q.
Proof using. exact id. Qed.

Lemma wp_check L (a : A) (k : A -> comp (mem B) C) Q : triple L (k a) Q -> triple L (check (Some a) ≫= k) Q.
Proof using. exact id. Qed.

(** A call, by its specification, beside the blocks it does not need. *)
Lemma wp_call L L1 F (c : comp (mem B) A) R (k : A -> comp (mem B) C) Q :
  triple L1 c R -> L ≡ₚ L1 ++ F -> (forall a L', R a L' -> triple (L' ++ F) (k a) Q) -> triple L (c ≫= k) Q.
Proof using.
  intros Hc HL Hk. eapply triple_perm; [exact HL|]. eapply triple_bind; [by apply triple_frame|].
  intros a L' (L2 & HR & ->). by apply Hk.
Qed.

Lemma wp_malloc L b (k : ptr -> comp (mem B) C) Q : (forall a, triple ((a, b) :: L) (k (Some a)) Q) ->
  (no_memory -> triple L (k None) Q) -> triple L (malloc b ≫= k) Q.
Proof using.
  intros HS HN. eapply triple_bind; [apply (triple_malloc L b (fun p L' =>
    (exists a, p = Some a /\ L' = (a, b) :: L) \/ (p = None /\ L' = L /\ no_memory)))|]; [eauto|eauto|].
  intros p L' [(a & -> & ->)|(-> & -> & Hn)]; auto.
Qed.

Lemma wp_load L a b L' (k : B -> comp (mem B) C) Q :
  L ≡ₚ (a, b) :: L' -> triple L (k b) Q -> triple L (load (Some a) ≫= k) Q.
Proof using.
  intros HL Hk. eapply triple_bind; [by apply (triple_load _ _ _ _ (fun b1 L1 => b1 = b /\ L1 = L) HL)|].
  by intros ? ? [-> ->].
Qed.

Lemma wp_at L a b L' (as_T : B -> option A) x (k : A -> comp (mem B) C) Q :
  L ≡ₚ (a, b) :: L' -> as_T b = Some x -> triple L (k x) Q -> triple L (at_ptr as_T (Some a) ≫= k) Q.
Proof using.
  intros HL Hx Hk. eapply (triple_bind _ _ _ (fun x1 L1 => x1 = x /\ L1 = L)); [|by intros ? ? [-> ->]]. unfold at_ptr.
  eapply triple_bind; [by apply (triple_load _ _ _ _ (fun b1 L1 => b1 = b /\ L1 = L) HL)|]. intros ? ? [-> ->]. rewrite Hx.
  by apply triple_ret.
Qed.

Lemma wp_store L a b b' L' (k : unit -> comp (mem B) C) Q :
  L ≡ₚ (a, b) :: L' -> triple ((a, b') :: L') (k tt) Q -> triple L (store (Some a) b' ≫= k) Q.
Proof using.
  intros HL Hk. eapply triple_bind; [by apply (triple_store _ _ _ b' _ (fun _ L1 => L1 = (a, b') :: L') HL)|].
  by intros [] ? ->.
Qed.

Lemma wp_free L a b L' (k : unit -> comp (mem B) C) Q :
  L ≡ₚ (a, b) :: L' -> triple L' (k tt) Q -> triple L (free (Some a) ≫= k) Q.
Proof using.
  intros HL Hk. eapply triple_bind; [by apply (triple_free _ _ _ _ (fun _ L1 => L1 = L') HL)|]. by intros [] ? ->.
Qed.

Lemma wp_free_null L (k : unit -> comp (mem B) C) Q : triple L (k tt) Q -> triple L (free None ≫= k) Q.
Proof using. exact id. Qed.

End Steps.

(** The last step is a step before [mret]. *)
Lemma wp_last {A} L (c : comp (mem B) A) Q : triple L (c ≫= mret) Q -> triple L c Q.
Proof.
  intros H F m Ho. specialize (H F m Ho). unfold mbind, comp_mbind, mret, comp_mret in *.
  by destruct (c m) as [[]|].
Qed.

End Operations.
End Heap.

(** The block at an address in a list of blocks, and the list without it. *)
Ltac find_block L a :=
  lazymatch L with
  | (a, ?b) :: ?L1 => constr:((b, L1))
  | ?x :: ?L1 => let r := find_block L1 a in lazymatch r with (?b, ?R) => constr:((b, x :: R)) end
  | ?L1 ++ ?L2 =>
      match goal with
      | _ => let r := find_block L1 a in lazymatch r with (?b, ?R) => constr:((b, R ++ L2)) end
      | _ => let r := find_block L2 a in lazymatch r with (?b, ?R) => constr:((b, L1 ++ R)) end
      end
  end.

(** One step of a sequence. *)
Ltac wp_step :=
  lazymatch goal with
  | |- triple _ ((_ ≫= _) ≫= _) _ => apply wp_assoc
  | |- triple _ (mret _ ≫= _) _ => apply wp_ret
  | |- triple _ (check ?o ≫= _) _ => let o' := eval hnf in o in change o with o'; apply wp_check
  | |- triple _ (free None ≫= _) _ => apply wp_free_null
  | |- triple ?L (load (Some ?a) ≫= _) _ =>
      let r := find_block L a in lazymatch r with (?b, ?R) => apply (wp_load L a b R); [solve_Permutation|] end
  | |- triple ?L (at_ptr _ (Some ?a) ≫= _) _ =>
      let r := find_block L a in
      lazymatch r with (?b, ?R) => eapply (wp_at L a b R); [solve_Permutation|reflexivity|] end
  | |- triple ?L (store (Some ?a) ?b' ≫= _) _ =>
      let r := find_block L a in lazymatch r with (?b, ?R) => apply (wp_store L a b b' R); [solve_Permutation|] end
  | |- triple ?L (free (Some ?a) ≫= _) _ =>
      let r := find_block L a in lazymatch r with (?b, ?R) => apply (wp_free L a b R); [solve_Permutation|] end
  | |- triple _ (mret _) _ => apply triple_ret
  end; cbn beta iota.
