(* ===== verification/Requests.v ===== *)
(** * The memory of MAM requests ([core/request/ta_send_mam.c],
    [core/request/ta_recv_mam.c], [core/response/ta_recv_mam.c] and the
    deserializers of [core/serializer/ser_mam.c])

    [SerMam] says what a request contains; here a request is a tree of blocks:
    the structure, its data with their strings, its keys with their arrays.  The
    theorems relate the two, and say which blocks are left when a request has been
    released.  An allocation that is not checked ends in the use of NULL when it
    fails; [utarray_new] ends the process when there is no memory, so its
    allocations are those that succeed. *)

From S2P Require Import Prelude TaErrors Utils Json Cache World Config Serializer SerMam Heap.

(** ** Blocks *)

Inductive block :=
| Str (s : cstr)
| Arr (l : list cstr)
| SendData (seed chid message : member) (ch_mss_depth : Z)
| DataId (bundle_hash chid msg_id : member)
| Keys (psk ntru : member)
| SendReq (service_token : list Z) (data key : member) (protocol : Z)
| RecvReq (data_id key : member) (protocol : Z)
| RecvRes (payloads : member).

Abbreviation M := (comp (mem block)).

(** Members of a block; [None] is a block of another type. *)
Definition as_str (b : block) : option cstr := match b with Str s => Some s | _ => None end.
Definition as_arr (b : block) : option (list cstr) := match b with Arr l => Some l | _ => None end.
Definition as_send_data (b : block) : option (member * member * member * Z) :=
  match b with SendData s c m d => Some (s, c, m, d) | _ => None end.
Definition as_data_id (b : block) : option (member * member * member) :=
  match b with DataId b c m => Some (b, c, m) | _ => None end.
Definition as_keys (b : block) : option (member * member) := match b with Keys p n => Some (p, n) | _ => None end.
Definition as_send_req (b : block) : option (list Z * member * member * Z) :=
  match b with SendReq t d k p => Some (t, d, k, p) | _ => None end.
Definition as_recv_req (b : block) : option (member * member * Z) :=
  match b with RecvReq d k p => Some (d, k, p) | _ => None end.
Definition as_recv_res (b : block) : option member := match b with RecvRes p => Some p | _ => None end.

(** A pointer that is read must have been written. *)
Definition read (f : member) : M ptr := check f.

Section Memory.
Context (malloc_ok : nat -> bool).

(** [strdup], and a buffer of [malloc] filled with a string. *)
Definition strdup (s : cstr) : M ptr := malloc malloc_ok (Str s).

Definition utarray_new : M ptr := malloc (fun _ => true) (Arr []).

Definition utarray_free (p : ptr) : M unit := _ ← at_ptr as_arr p; free p.

(** ** Requests to receive *)

Section Protocol.
(** What [malloc] leaves in [protocol] and [service_token]. *)
Context (protocol0 : Z) (uninit : nat -> list Z).

Definition new_recv_req : M ptr :=
  req ← malloc malloc_ok (RecvReq None None protocol0);
  match req with
  | None => mret None
  | Some _ => _ ← store req (RecvReq (Some None) (Some None) protocol0); mret req
  end.

Definition new_send_req : M ptr :=
  let token := uninit (S SERVICE_TOKEN_LEN) in
  req ← malloc malloc_ok (SendReq token None None protocol0);
  match req with
  | None => mret None
  | Some _ => _ ← store req (SendReq token (Some None) (Some None) protocol0); mret req
  end.

End Protocol.

Definition init_recv_req (req : ptr) : M status_t :=
  match req with
  | None => mret SC_NULL
  | Some _ =>
      data_id ← malloc malloc_ok (DataId None None None);
      '(_, key, protocol) ← at_ptr as_recv_req req;
      _ ← store req (RecvReq (Some data_id) key protocol);
      if bool_decide (data_id = None) then mret SC_OOM else
      key ← malloc malloc_ok (Keys None None);
      _ ← store req (RecvReq (Some data_id) (Some key) protocol);
      if bool_decide (key = None) then mret SC_OOM else
      _ ← store data_id (DataId (Some None) (Some None) (Some None));
      psk ← utarray_new;
      _ ← store key (Keys (Some psk) None);
      ntru ← utarray_new;
      _ ← store key (Keys (Some psk) (Some ntru));
      mret SC_OK
  end.

(** [free_keys] is the part both kinds of requests share. *)
Definition free_keys (key : ptr) : M unit :=
  match key with
  | None => mret tt
  | Some _ =>
      '(psk, ntru) ← at_ptr as_keys key;
      psk ← read psk;
      _ ← utarray_free psk;
      ntru ← read ntru;
      _ ← utarray_free ntru;
      free key
  end.

Definition free_data_id (data_id : ptr) : M unit :=
  match data_id with
  | None => mret tt
  | Some _ =>
      '(bundle_hash, chid, msg_id) ← at_ptr as_data_id data_id;
      bundle_hash ← read bundle_hash; _ ← free bundle_hash;
      chid ← read chid; _ ← free chid;
      msg_id ← read msg_id; _ ← free msg_id;
      _ ← store data_id (DataId (Some None) (Some None) (Some None));
      free data_id
  end.

Definition recv_mam_req_v1_free (req : ptr) : M unit :=
  '(data_id, key, protocol) ← at_ptr as_recv_req req;
  data_id ← read data_id;
  _ ← free_data_id data_id;
  _ ← store req (RecvReq (Some None) key protocol);
  key ← read key;
  _ ← free_keys key;
  store req (RecvReq (Some None) (Some None) protocol).

(** The caller's pointer becomes NULL. *)
Definition recv_mam_req_free (req : ptr) : M ptr :=
  match req with
  | None => mret None
  | Some _ =>
      '(_, _, protocol) ← at_ptr as_recv_req req;
      _ ← when (protocol =? MAM_V1) (recv_mam_req_v1_free req);
      _ ← free req;
      mret None
  end.

(** One member of [data_id]: [strdup] when there is a string; false when there is
    no memory.  [put] writes the member. *)
Definition set_member (data_id : ptr) (put : ptr -> member * member * member -> member * member * member)
    (s : ptr) : M bool :=
  match s with
  | None => mret true
  | Some _ =>
      s ← at_ptr as_str s;
      p ← strdup s;
      d ← at_ptr as_data_id data_id;
      let '(b, c, m) := put p d in
      _ ← store data_id (DataId b c m);
      mret (negb (bool_decide (p = None)))
  end.

Definition put_bundle_hash (p : ptr) (d : member * member * member) := let '(_, c, m) := d in (Some p, c, m).
Definition put_chid (p : ptr) (d : member * member * member) := let '(b, _, m) := d in (b, Some p, m).
Definition put_msg_id (p : ptr) (d : member * member * member) := let '(b, c, _) := d in (b, c, Some p).

(** The label [error] frees the strings and leaves the pointers. *)
Definition set_error (data_id : ptr) : M status_t :=
  '(b, c, m) ← at_ptr as_data_id data_id;
  b ← read b; _ ← free b;
  c ← read c; _ ← free c;
  m ← read m; _ ← free m;
  mret SC_OOM.

Definition set_data_id (req : ptr) (bundle_hash chid msg_id : ptr) : M status_t :=
  match bundle_hash, chid, msg_id with
  | None, None, None => mret SC_NULL
  | _, _, _ =>
      '(data_id, _, _) ← at_ptr as_recv_req req;
      data_id ← read data_id;
      ok ← set_member data_id put_bundle_hash bundle_hash;
      if negb ok then set_error data_id else
      ok ← set_member data_id put_chid chid;
      if negb ok then set_error data_id else
      ok ← set_member data_id put_msg_id msg_id;
      if negb ok then set_error data_id else
      mret SC_OK
  end.

(** ** Responses to receiving *)

Definition new_recv_res : M ptr :=
  res ← malloc malloc_ok (RecvRes None);
  match res with
  | None => mret None
  | Some _ => payloads ← utarray_new; _ ← store res (RecvRes (Some payloads)); mret res
  end.

Definition recv_mam_res_free (res : ptr) : M ptr :=
  match res with
  | None => mret None
  | Some _ =>
      payloads ← at_ptr as_recv_res res;
      payloads ← read payloads;
      _ ← utarray_free payloads;
      _ ← free res;
      mret None
  end.

(** ** Requests to send *)

Definition init_send_req (req : ptr) : M status_t :=
  match req with
  | None => mret SC_NULL
  | Some _ =>
      '(_, data, key, protocol) ← at_ptr as_send_req req;
      let token := replicate (S SERVICE_TOKEN_LEN) 0 in
      _ ← store req (SendReq token data key protocol);
      data ← malloc malloc_ok (SendData None None None 0);
      _ ← store req (SendReq token (Some data) key protocol);
      if bool_decide (data = None) then mret SC_OOM else
      key ← malloc malloc_ok (Keys None None);
      _ ← store req (SendReq token (Some data) (Some key) protocol);
      if bool_decide (key = None) then mret SC_OOM else
      _ ← store data (SendData (Some None) (Some None) (Some None) 6);
      psk ← utarray_new;
      _ ← store key (Keys (Some psk) None);
      ntru ← utarray_new;
      _ ← store key (Keys (Some psk) (Some ntru));
      mret SC_OK
  end.

Definition free_send_data (data : ptr) : M unit :=
  match data with
  | None => mret tt
  | Some _ =>
      '(seed, chid, message, _) ← at_ptr as_send_data data;
      seed ← read seed; _ ← free seed;
      chid ← read chid; _ ← free chid;
      message ← read message; _ ← free message;
      free data
  end.

Definition send_mam_req_v1_free (req : ptr) : M unit :=
  '(token, data, key, protocol) ← at_ptr as_send_req req;
  data ← read data;
  _ ← free_send_data data;
  _ ← store req (SendReq token (Some None) key protocol);
  key ← read key;
  _ ← free_keys key;
  store req (SendReq token (Some None) (Some None) protocol).

Definition send_mam_req_free (req : ptr) : M ptr :=
  match req with
  | None => mret None
  | Some _ =>
      '(_, _, _, protocol) ← at_ptr as_send_req req;
      _ ← when (protocol =? MAM_V1) (send_mam_req_v1_free req);
      _ ← free req;
      mret None
  end.

(** ** Deserializers *)

(** A buffer of [malloc] that is written without a test. *)
Definition new_string (s : cstr) : M ptr := p ← malloc malloc_ok (Str s); _ ← load p; mret p.

(** The arrays of keys, which only grow. *)
Definition fill_array (json_key : json) (name : string) (p : ptr) : M status_t :=
  l ← at_ptr as_arr p;
  let '(ret, l) := mam_key_array json_key name l in
  _ ← store p (Arr l);
  mret ret.

Definition fill_keys (json_obj : json) (key : ptr) : M status_t :=
  match get_item_ci json_obj (lit "key") with
  | None => mret SC_OK
  | Some json_key =>
      '(psk, ntru) ← at_ptr as_keys key;
      psk ← read psk;
      ret ← fill_array json_key "psk" psk;
      if negb (ret =? SC_OK) then mret ret else
      ntru ← read ntru;
      fill_array json_key "ntru" ntru
  end.

(** A seed or an identifier of a channel. *)
Definition fill_trytes (json_key : json) (name : string) (data : ptr)
    (put : ptr -> member * member * member * Z -> member * member * member * Z) : M status_t :=
  let '(ret, s) := mam_trytes_member json_key name None in
  match s with
  | None => mret ret
  | Some s =>
      p ← new_string s;
      d ← at_ptr as_send_data data;
      let '(s, c, m, depth) := put p d in
      _ ← store data (SendData s c m depth);
      mret ret
  end.

Definition put_seed (p : ptr) (d : member * member * member * Z) := let '(_, c, m, n) := d in (Some p, c, m, n).
Definition put_send_chid (p : ptr) (d : member * member * member * Z) := let '(s, _, m, n) := d in (s, Some p, m, n).

Context (uninit : nat -> list Z).

(** The message is tested before it is copied. *)
Definition fill_message (json_key : json) (data : ptr) : M status_t :=
  match string_member json_key "message" with
  | None => mret SC_SERIALIZER_NULL
  | Some s =>
      p ← malloc malloc_ok (Str (uninit (S (length s))));
      '(seed, chid, _, depth) ← at_ptr as_send_data data;
      _ ← store data (SendData seed chid (Some p) depth);
      if existsb (fun c => negb (Z.land c 0x80 =? 0)) s then mret SC_SERIALIZER_JSON_PARSE_NOT_TRYTE else
      _ ← store p (Str s);
      mret SC_OK
  end.

Definition fill_depth (json_key : json) (data : ptr) : M unit :=
  match get_item json_key (lit "ch_mss_depth") with
  | Some j =>
      when (is_number j)
        ('(seed, chid, message, _) ← at_ptr as_send_data data;
         store data (SendData seed chid message (valueint j)))
  | None => mret tt
  end.

Definition fill_send_data (json_key : json) (data : ptr) : M status_t :=
  ret ← fill_trytes json_key "seed" data put_seed;
  if negb (ret =? SC_OK) then mret ret else
  ret ← fill_trytes json_key "chid" data put_send_chid;
  if negb (ret =? SC_OK) then mret ret else
  ret ← fill_message json_key data;
  if ret =? SC_SERIALIZER_JSON_PARSE_NOT_TRYTE then mret ret else
  _ ← fill_depth json_key data;
  mret ret.

Definition fill_send_req (json_obj : json) (req : ptr) : M status_t :=
  '(token, data, key, protocol) ← at_ptr as_send_req req;
  data' ← read data;
  key' ← read key;
  '(ret, token) ← check (service_token_of json_obj token);
  _ ← store req (SendReq token data key protocol);
  if negb (ret =? SC_OK) then mret ret else
  ret ← fill_keys json_obj key';
  if negb (ret =? SC_OK) then mret ret else
  match get_item_ci json_obj (lit "data") with
  | None => mret SC_SERIALIZER_JSON_PARSE
  | Some json_key => fill_send_data json_key data'
  end.

(** An identifier below [data_id] in a buffer of its own, with the status. *)
Definition take_member (json_key : json) (name : string) (n : nat) : M (status_t * ptr) :=
  let '(ret, s) := data_id_member json_key name n in
  match s with
  | None => mret (ret, None)
  | Some s => p ← new_string s; mret (ret, p)
  end.

(** The label [done]. *)
Definition take_done (ret : status_t) (bundle_hash chid msg_id : ptr) : M status_t :=
  _ ← free bundle_hash; _ ← free chid; _ ← free msg_id; mret ret.

(** A [msg_id] that is only found when the case of its name is ignored returns
    without passing the label. *)
Definition fill_recv_req (json_obj : json) (req : ptr) : M status_t :=
  '(_, key, _) ← at_ptr as_recv_req req;
  key ← read key;
  ret ← fill_keys json_obj key;
  if negb (ret =? SC_OK) then take_done ret None None None else
  match get_item_ci json_obj (lit "data_id") with
  | None => take_done SC_SERIALIZER_JSON_PARSE None None None
  | Some json_key =>
      '(ret, bundle_hash) ← take_member json_key "bundle_hash" N_HASH;
      if negb (ret =? SC_OK) then take_done ret None None None else
      match bundle_hash with
      | Some _ => ret ← set_data_id req bundle_hash None None; take_done ret bundle_hash None None
      | None =>
          '(ret, chid) ← take_member json_key "chid" N_HASH;
          if negb (ret =? SC_OK) then take_done ret None None None else
          '(ret, msg_id) ← take_member json_key "msg_id" N_MSG_ID;
          if ret =? SC_CCLIENT_JSON_KEY then mret ret else
          if negb (ret =? SC_OK) then take_done ret None chid None else
          ret ← set_data_id req None chid msg_id; take_done ret None chid msg_id
      end
  end.

Context {txt : JsonText}.

Definition deserialize_send_req (obj : option cstr) (req : ptr) : M status_t :=
  match obj, req with
  | Some obj, Some _ =>
      match cJSON_Parse obj with
      | None => mret SC_SERIALIZER_JSON_PARSE
      | Some json_obj =>
          '(ret, protocol_str) ← check (ta_json_get_string json_obj (lit "protocol") (uninit protocol_len) protocol_len);
          if negb (ret =? SC_OK) then mret ret else
          '(token, data, key, protocol) ← at_ptr as_send_req req;
          _ ← store req (SendReq token data key (if is_mam_v1 protocol_str then MAM_V1 else protocol));
          _ ← init_send_req req;
          fill_send_req json_obj req
      end
  | _, _ => mret SC_SERIALIZER_NULL
  end.

Definition deserialize_recv_req (obj : option cstr) (req : ptr) : M status_t :=
  match obj, req with
  | Some obj, Some _ =>
      match cJSON_Parse obj with
      | None => mret SC_SERIALIZER_JSON_PARSE
      | Some json_obj =>
          '(ret, protocol_str) ← check (ta_json_get_string json_obj (lit "protocol") (uninit protocol_len) protocol_len);
          if negb (ret =? SC_OK) then mret ret else
          '(data_id, key, protocol) ← at_ptr as_recv_req req;
          let protocol := if is_mam_v1 protocol_str then MAM_V1 else protocol in
          _ ← store req (RecvReq data_id key protocol);
          if protocol =? MAM_V1 then
            ret ← init_recv_req req;
            if negb (ret =? SC_OK) then mret ret else
            fill_recv_req json_obj req
          else mret ret
      end
  | _, _ => mret SC_SERIALIZER_NULL
  end.

(** The memory of [api_recv_mam_message]: what happens between reading and
    releasing the request is [use], which gets the request and the response. *)
Definition api_recv_memory (protocol0 : Z) (obj : option cstr) (use : ptr -> ptr -> M status_t) : M status_t :=
  req ← new_recv_req protocol0;
  res ← new_recv_res;
  ret ← match req, res with
        | Some _, Some _ =>
            ret ← deserialize_recv_req obj req;
            if negb (ret =? SC_OK) then mret ret else use req res
        | _, _ => mret SC_OOM
        end;
  _ ← recv_mam_req_free req;
  _ ← recv_mam_res_free res;
  mret ret.

(** The memory of [api_send_mam_message], which does not look at the request it
    has read: it buffers the text. *)
Definition api_send_memory (protocol0 : Z) (obj : option cstr) : M status_t :=
  req ← new_send_req protocol0 uninit;
  ret ← deserialize_send_req obj req;
  _ ← send_mam_req_free req;
  mret ret.

End Memory.

(** ** What the blocks represent *)

Definition opt_rep {T} (P : nat -> T -> list (nat * block) -> Prop) (f : member) (v : option T) (L : list (nat * block)) : Prop :=
  match f, v with
  | Some None, None => L = []
  | Some (Some a), Some x => P a x L
  | _, _ => False
  end.

Definition str_at (a : nat) (s : cstr) (L : list (nat * block)) : Prop := L = [(a, Str s)].

Definition keys_at (a : nat) (k : mam_key_mam_v1_t) (L : list (nat * block)) : Prop :=
  exists p n, L = [(a, Keys (Some (Some p)) (Some (Some n))); (p, Arr (psk_array k)); (n, Arr (ntru_array k))].


Definition send_data_at (a : nat) (d : send_mam_data_mam_v1_t) (L : list (nat * block)) : Prop :=
  exists fs fc fm Ls Lc Lm, opt_rep str_at fs (sd_seed d) Ls /\ opt_rep str_at fc (sd_chid d) Lc /\
    opt_rep str_at fm (sd_message d) Lm /\ L = (a, SendData fs fc fm (sd_ch_mss_depth d)) :: Ls ++ Lc ++ Lm.


Definition send_req_at (a : nat) (r : ta_send_mam_req_t) (L : list (nat * block)) : Prop :=
  exists fd fk Ld Lk, opt_rep send_data_at fd (sm_data r) Ld /\ opt_rep keys_at fk (sm_key r) Lk /\
    L = (a, SendReq (sm_service_token r) fd fk (sm_protocol r)) :: Ld ++ Lk.

(** A pointer to a string or NULL is read and freed. *)
Lemma opt_str_rep f v L : opt_rep str_at f v L ->
  (f = Some None /\ v = None /\ L = []) \/ (exists a s, f = Some (Some a) /\ v = Some s /\ L = [(a, Str s)]).
Proof. destruct f as [[a|]|], v as [s|]; cbn; try done; intros ->; [right; eauto|by left]. Qed.

(** Case analysis on three strings that may be missing. *)
Ltac three_strings H1 H2 H3 :=
  destruct (opt_str_rep _ _ _ H1) as [(-> & _ & ->)|(? & ? & -> & _ & ->)];
  destruct (opt_str_rep _ _ _ H2) as [(-> & _ & ->)|(? & ? & -> & _ & ->)];
  destruct (opt_str_rep _ _ _ H3) as [(-> & _ & ->)|(? & ? & -> & _ & ->)]; cbn [app].

Lemma opt_rep_read {T} (P : nat -> T -> list (nat * block) -> Prop) f v L : opt_rep P f v L -> exists p, f = Some p.
Proof. destruct f as [p|]; [by exists p|done]. Qed.

Lemma free_keys_spec p key L : opt_rep keys_at (Some p) key L -> triple L (free_keys p) (fun _ L' => L' = []).
Proof.
  destruct p as [a|], key as [k|]; cbn [opt_rep]; try done.
  - intros (p & n & ->). unfold free_keys, utarray_free, at_ptr, read. apply wp_last. by repeat wp_step.
  - intros ->. by apply triple_ret.
Qed.


Lemma free_send_data_spec p d L : opt_rep send_data_at (Some p) d L -> triple L (free_send_data p) (fun _ L' => L' = []).
Proof.
  destruct p as [a|], d as [d|]; cbn [opt_rep]; try done.
  - intros (fb & fc & fm & Lb & Lc & Lm & Hb & Hc & Hm & ->). unfold free_send_data, at_ptr, read. apply wp_last.
    three_strings Hb Hc Hm; by repeat wp_step.
  - intros ->. by apply triple_ret.
Qed.


Lemma send_req_freed a r L : send_req_at a r L ->
  sm_protocol r = MAM_V1 \/ (sm_data r = None /\ sm_key r = None) ->
  triple L (send_mam_req_free (Some a)) (fun p L' => p = None /\ L' = []).
Proof.
  intros (fd & fk & Ld & Lk & Hd & Hk & ->) Hp.
  destruct (opt_rep_read _ _ _ _ Hd) as [d ->], (opt_rep_read _ _ _ _ Hk) as [k ->].
  unfold send_mam_req_free, send_mam_req_v1_free, at_ptr, read. repeat wp_step.
  destruct (Z.eqb_spec (sm_protocol r) MAM_V1) as [_|Hn]; cbn [when].
  - repeat wp_step. apply (wp_call _ Ld ((a, SendReq (sm_service_token r) (Some d) (Some k) (sm_protocol r)) :: Lk) _ _ _ _ (free_send_data_spec _ _ _ Hd)); [solve_Permutation|].
    intros _ ? ->. cbn [app]. repeat wp_step.
    eapply (wp_call _ Lk [_] _ _ _ _ (free_keys_spec _ _ _ Hk)); [solve_Permutation|]. intros _ ? ->. cbn [app]. by repeat wp_step.
  - destruct Hp as [Hp|[Hd0 Hk0]]; [done|]. rewrite Hd0 in Hd. rewrite Hk0 in Hk.
    destruct d, k; cbn in Hd, Hk; try done. subst. cbn [app]. by repeat wp_step.
Qed.

(** A request of another protocol leaves everything but its own block. *)
Lemma send_req_leaked a r L : send_req_at a r L -> sm_protocol r <> MAM_V1 ->
  triple L (send_mam_req_free (Some a)) (fun p L' => p = None /\ exists b, L = (a, b) :: L').
Proof.
  intros (fd & fk & Ld & Lk & Hd & Hk & ->) Hp. unfold send_mam_req_free, at_ptr. repeat wp_step.
  rewrite (proj2 (Z.eqb_neq _ _)) by done. cbn [when]. repeat wp_step. eauto.
Qed.

(** ** Reading a request into memory *)

(** In any order of the blocks. *)
Definition upto (P : list (nat * block) -> Prop) (L : list (nat * block)) : Prop := exists L1, P L1 /\ L ≡ₚ L1.

Lemma upto_refl (P : list (nat * block) -> Prop) L : P L -> upto P L.
Proof. intros HP. by exists L. Qed.

Section Reading.
Context (malloc_ok : nat -> bool) (enough : forall n, malloc_ok n = true) (protocol0 : Z) (uninit : nat -> list Z).

(** An allocation that succeeds. *)
Lemma array_memory {P : Prop} : no_memory (fun _ => true) -> P.
Proof using. by intros []. Qed.

Ltac wp_new := apply wp_malloc; [intros ?|first [exact (enough_memory malloc_ok enough) | exact array_memory]]; cbn beta iota.

Ltac wp_null :=
  lazymatch goal with
  | |- triple _ (if bool_decide (Some _ = None) then _ else _) _ => rewrite bool_decide_false by done
  | |- triple _ (if negb (negb (bool_decide (Some _ = None))) then _ else _) _ =>
      rewrite bool_decide_false by done; cbn [negb]
  | |- triple _ (if negb true then _ else _) _ => cbn [negb]
  end.

Ltac wp_test :=
  progress (change (negb (SC_OK =? SC_OK)) with false; change (negb (SC_SERIALIZER_INVALID_REQ =? SC_OK)) with true; cbv iota).

Ltac wp_put := progress cbn [put_seed put_send_chid put_bundle_hash put_chid put_msg_id].

Ltac wp := repeat (wp_step || wp_new || wp_null || wp_test || wp_put).


Lemma new_send_req_spec : triple [] (new_send_req malloc_ok protocol0 uninit) (fun p L =>
  exists a, p = Some a /\ send_req_at a (send_mam_req_new protocol0 uninit) L).
Proof using enough.
  unfold new_send_req. wp. eexists. split; [done|]. by exists (Some None), (Some None), [], [].
Qed.


Lemma init_send_req_spec a r L : send_req_at a r L -> sm_data r = None -> sm_key r = None ->
  triple L (init_send_req malloc_ok (Some a)) (fun ret L' =>
    ret = SC_OK /\ upto (send_req_at a (send_mam_req_v1_init r).2) L').
Proof using enough.
  intros (fd & fk & Ld & Lk & Hd & Hk & ->) Hd0 Hk0. rewrite Hd0 in Hd. rewrite Hk0 in Hk.
  destruct fd as [[]|], fk as [[]|]; cbn in Hd, Hk; try done. subst. cbn [app].
  unfold init_send_req, utarray_new, at_ptr. wp. split; [done|].
  eexists. split.
  - eexists (Some (Some _)), (Some (Some _)), _, _. split_and!; [| |reflexivity].
    + exists (Some None), (Some None), (Some None), [], [], []. by split_and!.
    + eexists _, _. reflexivity.
  - cbn. solve_Permutation.
Qed.

Lemma fill_keys_spec j k key L : keys_at k key L ->
  triple L (fill_keys j (Some k)) (fun ret L' => exists key', mam_keys_of j key = (ret, key') /\ upto (keys_at k key') L').
Proof using.
  intros (p & n & ->). unfold fill_keys, mam_keys_of. destruct (get_item_ci j (lit "key")) as [jk|].
  2:{ wp. exists key. split; [done|]. apply upto_refl. by exists p, n. }
  unfold fill_array, at_ptr, read. wp. destruct (mam_key_array jk "psk" (psk_array key)) as [ret psk]. wp.
  destruct (Z.eqb_spec ret SC_OK) as [->|Hr]; cbn [negb].
  - apply wp_last. wp. destruct (mam_key_array jk "ntru" (ntru_array key)) as [ret ntru]. wp.
    eexists. split; [done|]. eexists. split; [by exists p, n|]. cbn. solve_Permutation.
  - wp. eexists. split; [done|]. eexists. split; [by exists p, n|]. cbn. solve_Permutation.
Qed.

(** A string that was written is a string that may be missing. *)
Lemma member_cases j name : mam_trytes_member j name None = (SC_OK, None) \/
  (exists s, mam_trytes_member j name None = (SC_OK, Some s)) \/ mam_trytes_member j name None = (SC_SERIALIZER_INVALID_REQ, None).
Proof using. unfold mam_trytes_member. destruct (string_member j name) as [s|]; [|by left]. case_match; [by right; right|right; left; eauto]. Qed.

Ltac data_done :=
  eexists; split; [reflexivity|]; eexists; split;
  [by exists (Some None), (Some None), (Some None), [], [], []; split_and!|cbn; solve_Permutation].

Lemma fill_message_spec j d fs fc depth F :
  triple ((d, SendData fs fc (Some None) depth) :: F) (fill_message malloc_ok uninit j (Some d)) (fun ret L' =>
    exists m fm Lm, mam_message_member uninit j None = (ret, m) /\ opt_rep str_at fm m Lm /\
      L' ≡ₚ (d, SendData fs fc fm depth) :: Lm ++ F).
Proof using enough.
  unfold fill_message, mam_message_member, at_ptr. destruct (string_member j "message") as [s|].
  - wp. destruct (existsb _ s).
    + wp. eexists _, (Some (Some _)), _. split; [reflexivity|]. split; [reflexivity|]. cbn [app]. solve_Permutation.
    + wp. eexists _, (Some (Some _)), _. split; [reflexivity|]. split; [reflexivity|]. cbn [app]. solve_Permutation.
  - wp. by exists None, (Some None), [].
Qed.

(** The message and the depth, the last two members. *)
Definition last_members (j : json) (d : send_mam_data_mam_v1_t) : status_t * send_mam_data_mam_v1_t :=
  let '(ret, message) := mam_message_member uninit j (sd_message d) in
  let d := mkSendData (sd_seed d) (sd_ch_mss_depth d) (sd_chid d) message in
  if ret =? SC_SERIALIZER_JSON_PARSE_NOT_TRYTE then (ret, d) else
  let depth := match get_item j (lit "ch_mss_depth") with
               | Some j => if is_number j then valueint j else sd_ch_mss_depth d
               | None => sd_ch_mss_depth d
               end in
  (ret, mkSendData (sd_seed d) depth (sd_chid d) message).

Lemma last_members_spec j d fs fc vs vc Ls Lc L : opt_rep str_at fs vs Ls -> opt_rep str_at fc vc Lc ->
  L ≡ₚ (d, SendData fs fc (Some None) 6) :: Ls ++ Lc ->
  triple L (ret ← fill_message malloc_ok uninit j (Some d);
            if ret =? SC_SERIALIZER_JSON_PARSE_NOT_TRYTE then mret ret else
            _ ← fill_depth j (Some d); mret ret) (fun ret L' =>
    exists data, last_members j (mkSendData vs 6 vc None) = (ret, data) /\ upto (send_data_at d data) L').
Proof using enough.
  intros Hs Hc HL. eapply triple_perm; [exact HL|].
  eapply triple_bind; [apply fill_message_spec|]. intros ret L' (m & fm & Lm & Hm & Hf & HL'). unfold last_members.
  cbn [sd_message sd_seed sd_chid sd_ch_mss_depth]. rewrite Hm. eapply triple_perm; [exact HL'|]. case_match.
  - wp. eexists. split; [done|]. eexists. split; [exists fs, fc, fm, Ls, Lc, Lm; by split_and!|]. cbn. solve_Permutation.
  - unfold fill_depth, at_ptr. destruct (get_item j _) as [jd|]; [destruct (is_number jd)|]; cbn [when]; wp;
      (eexists; split; [done|]; eexists; split; [exists fs, fc, fm, Ls, Lc, Lm; by split_and!|]; cbn; solve_Permutation).
Qed.

Lemma fill_send_data_spec j d :
  triple [(d, SendData (Some None) (Some None) (Some None) 6)] (fill_send_data malloc_ok uninit j (Some d)) (fun ret L' =>
    exists data, send_mam_data_of uninit j (mkSendData None 6 None None) = (ret, data) /\ upto (send_data_at d data) L').
Proof using enough.
  unfold fill_send_data, send_mam_data_of, fill_trytes, new_string, at_ptr.
  cbn [sd_message sd_seed sd_chid sd_ch_mss_depth].
  destruct (member_cases j "seed") as [Es|[(ss & Es)|Es]]; rewrite Es; wp.
  - destruct (member_cases j "chid") as [Ec|[(sc & Ec)|Ec]]; rewrite Ec; wp.
    + eapply (last_members_spec j d (Some None) (Some None) None None [] []); [done|done|cbn; solve_Permutation].
    + eapply (last_members_spec j d (Some None) (Some (Some _)) None (Some sc) [] [_]); [done|done|cbn; solve_Permutation].
    + data_done.
  - destruct (member_cases j "chid") as [Ec|[(sc & Ec)|Ec]]; rewrite Ec; wp.
    + eapply (last_members_spec j d (Some (Some _)) (Some None) (Some ss) None [_] []); [done|done|cbn; solve_Permutation].
    + eapply (last_members_spec j d (Some (Some _)) (Some (Some _)) (Some ss) (Some sc) [_] [_]); [done|done|cbn; solve_Permutation].
    + eexists. split; [reflexivity|]. eexists. split; [by eexists (Some (Some _)), (Some None), (Some None), [_], [], []; split_and!|]. cbn. solve_Permutation.
  - data_done.
Qed.

Lemma fill_send_req_spec j a token protocol L :
  send_req_at a (mkSendMamReq token (Some (mkSendData None 6 None None)) (Some (mkMamKey [] [])) protocol) L ->
  (exists ret t, service_token_of j token = Some (ret, t)) ->
  triple L (fill_send_req malloc_ok uninit j (Some a)) (fun ret L' =>
    exists r, send_mam_message_mam_v1_req_deserialize uninit j
        (mkSendMamReq token (Some (mkSendData None 6 None None)) (Some (mkMamKey [] [])) protocol) = Some (ret, r) /\
      sm_protocol r = protocol /\ upto (send_req_at a r) L').
Proof using enough.
  intros (fd & fk & Ld & Lk & Hd & Hk & ->) (ret & t & Ht). cbn [sm_data sm_key sm_protocol sm_service_token] in *.
  destruct fd as [[d|]|], fk as [[k|]|]; cbn [opt_rep] in Hd, Hk; try done.
  unfold fill_send_req, send_mam_message_mam_v1_req_deserialize, at_ptr, read.
  cbn [sm_data sm_key sm_protocol sm_service_token]. bind_simpl. wp. rewrite Ht. wp. bind_simpl.
  destruct (Z.eqb_spec ret SC_OK) as [->|Hr]; cbn [negb].
  2:{ wp. eexists. split; [done|]. split; [done|]. eexists. split; [by exists (Some (Some d)), (Some (Some k)), Ld, Lk; split_and!|]. done. }
  eapply (wp_call _ Lk ((a, SendReq t (Some (Some d)) (Some (Some k)) protocol) :: Ld)); [by apply fill_keys_spec|solve_Permutation|].
  intros ret L' (key & Ek & (L1 & Hk1 & HL1)). rewrite Ek. destruct (Z.eqb_spec ret SC_OK) as [->|Hr]; cbn [negb].
  2:{ wp. eexists. split; [done|]. split; [done|]. eexists. split; [by exists (Some (Some d)), (Some (Some k)), Ld, L1; split_and!|].
      cbn. rewrite HL1. solve_Permutation. }
  destruct (get_item_ci j (lit "data")) as [jd|].
  2:{ wp. eexists. split; [done|]. split; [done|]. eexists. split; [by exists (Some (Some d)), (Some (Some k)), Ld, L1; split_and!|].
      cbn. rewrite HL1. solve_Permutation. }
  destruct Hd as (fs & fc & fm & Ls & Lc & Lm & Hs & Hc & Hm & ->). cbn in Hs, Hc, Hm.
  destruct fs as [[]|], fc as [[]|], fm as [[]|]; try done. cbn in Hs, Hc, Hm. subst.
  apply wp_last. eapply (wp_call _ [(d, SendData (Some None) (Some None) (Some None) 6)]
    ((a, SendReq t (Some (Some d)) (Some (Some k)) protocol) :: L1)); [by apply fill_send_data_spec| |].
  { cbn [app sd_ch_mss_depth]. rewrite HL1. solve_Permutation. }
  intros ret L2 (data & Ed & (L4 & Hd4 & HL4)). rewrite Ed. wp. eexists. split; [done|]. split; [done|].
  eexists. split; [by exists (Some (Some d)), (Some (Some k)), L4, L1; split_and!|]. cbn [sm_service_token sm_protocol].
  rewrite HL4. solve_Permutation.
Qed.

(** *** The identifiers of a request to receive *)















Context (uninit_len : forall n, length (uninit n) = n) {txt : JsonText}.


Lemma deserialize_send_spec a obj L : send_req_at a (send_mam_req_new protocol0 uninit) L ->
  triple L (deserialize_send_req malloc_ok uninit (Some obj) (Some a)) (fun ret L' => exists r,
    send_mam_message_req_deserialize uninit (Some obj) (send_mam_req_new protocol0 uninit) = Some (ret, r) /\
    upto (send_req_at a r) L').
Proof using enough uninit_len.
  intros Ha. unfold deserialize_send_req, send_mam_message_req_deserialize, at_ptr, send_mam_req_new in *.
  assert (upto (send_req_at a (mkSendMamReq (uninit (S SERVICE_TOKEN_LEN)) None None protocol0)) L) as Hsame by by apply upto_refl.
  destruct Ha as (fd & fk & Ld & Lk & Hd & Hk & ->). destruct fd as [[]|], fk as [[]|]; cbn in Hd, Hk; try done. subst. cbn [app] in *.
  destruct (cJSON_Parse obj) as [j|] eqn:Ej; [|wp; eauto].
  destruct (get_string_total j (lit "protocol") (uninit protocol_len) protocol_len) as (r0 & p & -> & _); [by rewrite uninit_len|].
  bind_simpl. wp. destruct (Z.eqb_spec r0 SC_OK) as [->|?]; cbn [negb]; [|wp; eauto]. wp.
  cbn [sm_data sm_key sm_protocol sm_service_token]. set (proto := if is_mam_v1 p then MAM_V1 else protocol0).
  eapply (wp_call _ [(a, SendReq (uninit (S SERVICE_TOKEN_LEN)) (Some None) (Some None) proto)] []); [|by rewrite app_nil_r|].
  { apply (init_send_req_spec a (mkSendMamReq (uninit (S SERVICE_TOKEN_LEN)) None None proto)); [|done|done].
    by exists (Some None), (Some None), [], []. }
  cbn [send_mam_req_v1_init sm_protocol snd]. intros ret L' [-> (L1 & Hr & HL1)].
  rewrite app_nil_r. eapply triple_perm; [exact HL1|]. eapply triple_conseq; [apply fill_send_req_spec; [exact Hr|]|].
  { destruct (service_token_ok j) as (r1 & t & Ht & _). eauto. }
  cbn beta. intros ret L2 (r & Er & _ & HL2). eauto.
Qed.






(** A request to send, likewise; but one of another protocol is not released: its
    data and its keys are lost with every such text. *)
Theorem send_request_released obj m :
  exists ret m' r, api_send_memory malloc_ok uninit protocol0 (Some obj) m = Some (ret, m') /\
    send_mam_message_req_deserialize uninit (Some obj) (send_mam_req_new protocol0 uninit) = Some (ret, r) /\
    if (sm_protocol r =? MAM_V1) || bool_decide (sm_data r = None /\ sm_key r = None) then blocks m' = blocks m
    else exists a b L, send_req_at a r ((a, b) :: L) /\ own m' (L ++ map_to_list (blocks m)).
Proof using enough uninit_len.
  assert (triple [] (api_send_memory malloc_ok uninit protocol0 (Some obj)) (fun ret L' => exists r,
    send_mam_message_req_deserialize uninit (Some obj) (send_mam_req_new protocol0 uninit) = Some (ret, r) /\
    if (sm_protocol r =? MAM_V1) || bool_decide (sm_data r = None /\ sm_key r = None) then L' = []
    else exists a b L, send_req_at a r ((a, b) :: L) /\ L' ≡ₚ L)) as Ht.
  2:{ destruct (Ht (map_to_list (blocks m)) m (own_self m)) as (ret & m' & L & E & Ho & r & Er & HL).
      exists ret, m', r. split_and!; [done..|]. revert HL. lazymatch goal with |- (if ?c then _ else _) -> _ => destruct c end; intros HL.
      - rewrite HL in Ho. by apply own_frame.
      - destruct HL as (a & b & L' & Ha & HL). exists a, b, L'. split; [done|]. eapply own_perm; [exact Ho|]. by rewrite HL. }
  unfold api_send_memory. eapply (wp_call _ [] []); [apply new_send_req_spec|done|]. cbn beta. intros req L0 (a & -> & Ha).
  eapply (wp_call _ L0 []); [by apply deserialize_send_spec|done|]. cbn beta. intros ret L1 (r & Er & (L2 & Hr & HL2)).
  rewrite app_nil_r. destruct (Z.eqb_spec (sm_protocol r) MAM_V1) as [Hp|Hp]; cbn [orb].
  - eapply (wp_call _ L2 []); [eapply send_req_freed; [exact Hr|by left]|by rewrite app_nil_r|]. cbn beta.
    intros _ ? [_ ->]. apply triple_ret. exists r. rewrite (proj2 (Z.eqb_eq _ _)) by done. by cbn [orb].
  - destruct (decide (sm_data r = None /\ sm_key r = None)) as [Hd|Hd].
    + eapply (wp_call _ L2 []); [eapply send_req_freed; [exact Hr|by right]|by rewrite app_nil_r|]. cbn beta.
      intros _ ? [_ ->]. apply triple_ret. exists r. rewrite (proj2 (Z.eqb_neq _ _)), bool_decide_true by done. by cbn [orb].
    + eapply (wp_call _ L2 []); [by eapply send_req_leaked|by rewrite app_nil_r|]. cbn beta.
      intros _ L3 (_ & b & ->). apply triple_ret. exists r. rewrite (proj2 (Z.eqb_neq _ _)), bool_decide_false by done. cbn [orb].
      split; [done|]. exists a, b, L3. by rewrite app_nil_r.
Qed.

End Reading.

(** ** Evaluations *)
Module RequestsWitness.
Import JsonModel SerMamWitness.

Definition all_ok (n : nat) : bool := true.
Definition idle (req res : ptr) : M status_t := mret SC_OK.


Definition recv_text (fields : list (cstr * json)) (protocol : string) : cstr :=
  cJSON_PrintUnformatted (JObject [(lit "data_id", JObject fields); (lit "protocol", JString (lit protocol))]).


(** What is left when the functions return: the status and the blocks. *)
Definition left_behind {A} (c : M A) : option (A * list block) :=
  (fun '(a, m) => (a, snd <$> map_to_list (blocks m))) <$> c (mkMem ∅ 0).

(** A message ID under another spelling of its name loses the name of the channel. *)
Example msg_id_loses_chid :
  left_behind (api_recv_memory all_ok noise 7
    (Some (recv_text [(lit "chid", JString (hash_of 65)); (lit "MSG_ID", JString (id_of 66))] "MAM_V1")) idle) =
  Some (SC_CCLIENT_JSON_KEY, [Str (hash_of 65)]).
Proof. vm_compute. reflexivity. Qed.

(** Of a request to send by another protocol, accepted all the same, everything but
    the structure is lost. *)
Example other_protocol_loses_request :
  (fun '(ret, l) => (ret, length l)) <$> left_behind (api_send_memory all_ok noise 7 (Some (cJSON_PrintUnformatted
    (JObject [(lit "data", JObject [(lit "message", JString [72; 105])]); (lit "protocol", JString (lit "OTHER"))])))) =
  Some (SC_OK, 5%nat).
Proof. vm_compute. reflexivity. Qed.

(** Without memory for the keys, the identifiers are left indeterminate: releasing
    the request frees whatever they hold. *)
Definition short_of_keys (n : nat) : bool := negb (n =? 2)%nat.

Example init_without_memory :
  (fst <$> (req ← new_recv_req short_of_keys MAM_V1; init_recv_req short_of_keys req) (mkMem ∅ 0)) = Some SC_OOM /\
  (req ← new_recv_req short_of_keys MAM_V1; _ ← init_recv_req short_of_keys req; recv_mam_req_free req) (mkMem ∅ 0) = None.
Proof. split; vm_compute; reflexivity. Qed.

(** Without memory for the second identifier, the first is freed twice. *)
Definition short_of_msg_id (n : nat) : bool := negb (n =? 8)%nat.

Definition set_two (req : ptr) : M status_t :=
  chid ← strdup all_ok (hash_of 65);
  msg_id ← strdup all_ok (id_of 66);
  set_data_id short_of_msg_id req None chid msg_id.

Example set_without_memory :
  (fst <$> (req ← new_recv_req all_ok MAM_V1; _ ← init_recv_req all_ok req; set_two req) (mkMem ∅ 0)) = Some SC_OOM /\
  (req ← new_recv_req all_ok MAM_V1; _ ← init_recv_req all_ok req; _ ← set_two req; recv_mam_req_free req) (mkMem ∅ 0) = None.
Proof. split; vm_compute; reflexivity. Qed.
End RequestsWitness.
