(* ===== verification/MqttMemory.v ===== *)
(** * The memory of the MQTT configuration ([connectivity/mqtt/mqtt_common.c],
    [duplex_utils.c], [sub_utils.c])

    [Mqtt] says what the configuration contains; here it is four structures on the
    heap with the strings they point to.  The theorems say what initialisation
    leaves when there is no memory, what releasing the configuration leaves, and
    that every request that is answered costs three strings for good. *)

From S2P Require Import Prelude TaErrors World Serializer Mqtt Heap.

Inductive block :=
| Raw
| Str (s : cstr)
| Ptrs (l : list ptr)
| General (id host username password will_topic will_payload : ptr) (type : client_type_t)
| Pub (message topic response_topic : ptr)
| Sub (topics : ptr) (topic_count : nat) (recv_message unsub_topics : ptr) (unsub_topic_count : nat)
| Props.

Abbreviation M := (comp (mem block)).

(** The structure of the caller, with pointers to the four parts. *)
Record config := mkConfig { general_ptr : ptr; pub_ptr : ptr; sub_ptr : ptr; property_ptr : ptr }.

Definition as_ptrs (b : block) : option (list ptr) := match b with Ptrs l => Some l | _ => None end.
Definition as_general (b : block) : option (ptr * ptr * ptr * ptr * ptr * ptr * client_type_t) :=
  match b with General i h u p t w y => Some (i, h, u, p, t, w, y) | _ => None end.
Definition as_pub (b : block) : option (ptr * ptr * ptr) := match b with Pub m t r => Some (m, t, r) | _ => None end.
Definition as_sub (b : block) : option (ptr * nat * ptr * ptr * nat) :=
  match b with Sub t n r u k => Some (t, n, r, u, k) | _ => None end.

(** The halves of the configuration a type of client has. *)
Definition publishes (t : client_type_t) : bool := bool_decide (t = client_pub) || bool_decide (t = client_duplex).
Definition subscribes (t : client_type_t) : bool := bool_decide (t = client_sub) || bool_decide (t = client_duplex).

Section Memory.
Context (malloc_ok : nat -> bool).

Definition strdup (s : cstr) : M ptr := malloc malloc_ok (Str s).

(** ** Initialisation *)

Definition no_general : block := General None None None None None None client_pub.

(** The label [oom_err]; the pointers of the caller stay as they are. *)
Definition oom_err (cfg : config) : M (status_t * config) :=
  _ ← free (general_ptr cfg);
  _ ← free (property_ptr cfg);
  _ ← free (pub_ptr cfg);
  _ ← free (sub_ptr cfg);
  mret (SC_OOM, cfg).

Definition init_sub (t : client_type_t) (cfg : config) : M (status_t * config) :=
  let finish cfg :=
    '(i, h, u, p, tp, w, _) ← at_ptr as_general (general_ptr cfg);
    _ ← store (general_ptr cfg) (General i h u p tp w t);
    mret (SC_OK, cfg) in
  if subscribes t then
    q ← malloc malloc_ok Raw;
    let cfg := mkConfig (general_ptr cfg) (pub_ptr cfg) q (property_ptr cfg) in
    match q with
    | None => oom_err cfg
    | Some _ => _ ← store q (Sub None 0 None None 0); finish cfg
    end
  else finish cfg.

Definition init_pub (t : client_type_t) (cfg : config) : M (status_t * config) :=
  if publishes t then
    q ← malloc malloc_ok Raw;
    let cfg := mkConfig (general_ptr cfg) q (sub_ptr cfg) (property_ptr cfg) in
    match q with
    | None => oom_err cfg
    | Some _ => _ ← store q (Pub None None None); init_sub t cfg
    end
  else init_sub t cfg.

Definition init_config (t : client_type_t) : M (status_t * config) :=
  g ← malloc malloc_ok Raw;
  p ← malloc malloc_ok Raw;
  let cfg := mkConfig g None None p in
  match g, p with
  | Some _, Some _ => _ ← store g no_general; _ ← store p Props; init_pub t cfg
  | _, _ => oom_err cfg
  end.

(** ** Release *)

(** The loop over an array of strings. *)
Fixpoint free_strings (p : ptr) (i n : nat) : M unit :=
  match n with
  | O => mret tt
  | S n => l ← at_ptr as_ptrs p; q ← check (l !! i); _ ← free q; free_strings p (S i) n
  end.

Definition free_topics (p : ptr) (n : nat) : M unit :=
  match p with None => mret tt | Some _ => _ ← free_strings p 0 n; free p end.

Definition mosq_config_free (cfg : config) : M status_t :=
  '(_, _, _, _, _, _, t) ← at_ptr as_general (general_ptr cfg);
  _ ← when (publishes t)
        ('(message, topic, response_topic) ← at_ptr as_pub (pub_ptr cfg);
         _ ← free message; _ ← free topic; free response_topic);
  _ ← when (subscribes t)
        ('(topics, n, _, unsub, k) ← at_ptr as_sub (sub_ptr cfg);
         _ ← free_topics topics n; free_topics unsub k);
  '(id, host, username, password, will_topic, will_payload, _) ← at_ptr as_general (general_ptr cfg);
  _ ← free id; _ ← free host; _ ← free username; _ ← free password; _ ← free will_topic; _ ← free will_payload;
  _ ← load (property_ptr cfg);
  mret SC_OK.

(** ** Assignments *)

(** The type of the client is changed while the server runs. *)
Definition set_client_type (cfg : config) (t : client_type_t) : M unit :=
  '(i, h, u, p, tp, w, _) ← at_ptr as_general (general_ptr cfg);
  store (general_ptr cfg) (General i h u p tp w t).

Definition set_client_host (cfg : config) (host : cstr) : M unit :=
  h ← strdup host;
  '(i, _, u, p, tp, w, t) ← at_ptr as_general (general_ptr cfg);
  store (general_ptr cfg) (General i h u p tp w t).

(** [id] is not terminated, which does not matter here. *)
Definition generate_id (cfg : config) (id : list Z) : M status_t :=
  i ← malloc malloc_ok (Str id);
  '(_, h, u, p, tp, w, t) ← at_ptr as_general (general_ptr cfg);
  _ ← store (general_ptr cfg) (General i h u p tp w t);
  mret (if bool_decide (i = None) then SC_OOM else SC_OK).

(** [cfg_add_topic] for a topic the library accepts. *)
Definition add_sub_topic (cfg : config) (topic : cstr) : M status_t :=
  '(topics, n, r, u, k) ← at_ptr as_sub (sub_ptr cfg);
  old ← match topics with None => mret [] | Some _ => at_ptr as_ptrs topics end;
  new ← malloc malloc_ok (Ptrs (old ++ [None]));
  match new with
  | None => _ ← store (sub_ptr cfg) (Sub None (S n) r u k); mret SC_OOM
  | Some _ =>
      _ ← free topics;
      _ ← store (sub_ptr cfg) (Sub new (S n) r u k);
      t ← strdup topic;
      l ← at_ptr as_ptrs new;
      _ ← store new (Ptrs (<[n := t]> l));
      mret SC_OK
  end.

Definition set_pub_topic (cfg : config) (topic : cstr) : M status_t :=
  t ← strdup topic;
  '(m, _, r) ← at_ptr as_pub (pub_ptr cfg);
  _ ← store (pub_ptr cfg) (Pub m t r);
  mret SC_OK.

(** [gossip_message_set] also measures the copy. *)
Definition message_set (cfg : config) (message : cstr) : M status_t :=
  m ← strdup message;
  '(_, t, r) ← at_ptr as_pub (pub_ptr cfg);
  _ ← store (pub_ptr cfg) (Pub m t r);
  _ ← load m;
  mret SC_OK.

(** [dump_message] of [sub_utils.c]. *)
Definition dump_payload (cfg : config) (payload : cstr) : M status_t :=
  m ← strdup payload;
  '(t, n, _, u, k) ← at_ptr as_sub (sub_ptr cfg);
  _ ← store (sub_ptr cfg) (Sub t n m u k);
  mret SC_OK.

(** What a request that is answered does to the configuration: the payload is kept,
    the topic and the text of the answer are set. *)
Definition answer (cfg : config) (request : cstr * cstr * cstr) : M unit :=
  let '(payload, topic, message) := request in
  _ ← dump_payload cfg payload;
  _ ← set_pub_topic cfg topic;
  _ ← message_set cfg message;
  mret tt.

Fixpoint answers (cfg : config) (requests : list (cstr * cstr * cstr)) : M unit :=
  match requests with [] => mret tt | r :: rs => _ ← answer cfg r; answers cfg rs end.

End Memory.

(** ** What the configuration owns *)

(** A pointer to a string or NULL, with its block. *)
Definition str_cell (p : ptr) (L : list (nat * block)) : Prop :=
  match p with None => L = [] | Some a => exists s, L = [(a, Str s)] end.

(** An array of [n] strings. *)
Definition strings_cell (p : ptr) (n : nat) (L : list (nat * block)) : Prop :=
  match p with
  | None => L = []
  | Some a => exists l Ls, length l = n /\ Forall2 str_cell l Ls /\ L = (a, Ptrs l) :: concat Ls
  end.

Lemma wp_free_cell {C} p Lp L F (k : unit -> M C) Q : str_cell p Lp -> L ≡ₚ Lp ++ F ->
  triple F (k tt) Q -> triple L (free p ≫= k) Q.
Proof.
  intros Hp HL Hk. eapply triple_perm; [exact HL|]. destruct p as [a|]; cbn in Hp.
  - destruct Hp as [s ->]. cbn [app]. by repeat wp_step.
  - subst. cbn [app]. by repeat wp_step.
Qed.

Lemma free_strings_spec a l : forall n i Ls, Forall2 str_cell (drop i l) Ls -> length l = (i + n)%nat ->
  triple ((a, Ptrs l) :: concat Ls) (free_strings (Some a) i n) (fun _ L => L = [(a, Ptrs l)]).
Proof.
  induction n as [|n IH]; intros i Ls Hf Hl; cbn [free_strings].
  - rewrite drop_ge in Hf by lia. inversion Hf; subst. by apply triple_ret.
  - destruct (lookup_lt_is_Some_2 l i ltac:(lia)) as [q Hq]. rewrite (drop_S _ _ _ Hq) in Hf.
    inversion Hf as [|? L1 ? Ls' Hc Hf']; subst. cbn [concat]. wp_step. rewrite Hq. wp_step.
    eapply (wp_free_cell _ L1 _ ((a, Ptrs l) :: concat Ls')); [done|solve_Permutation|]. apply IH; [done|lia].
Qed.

Lemma wp_free_topics {C} p n Lp L F (k : unit -> M C) Q : strings_cell p n Lp -> L ≡ₚ Lp ++ F ->
  triple F (k tt) Q -> triple L (free_topics p n ≫= k) Q.
Proof.
  intros Hp HL Hk. eapply triple_perm; [exact HL|]. destruct p as [a|]; cbn in Hp; unfold free_topics.
  - destruct Hp as (l & Ls & Hl & Hf & ->). wp_step.
    eapply (wp_call _ ((a, Ptrs l) :: concat Ls) F); [by apply free_strings_spec|done|]. cbn beta. intros _ ? ->. cbn [app].
    by repeat wp_step.
  - subst. by repeat wp_step.
Qed.

(** Initialisation either makes the structures the type needs, or leaves nothing on
    the heap and pointers to blocks that are gone. *)
Section Init.
Context (malloc_ok : nat -> bool).

Definition initialised (t : client_type_t) (cfg : config) (L : list (nat * block)) : Prop :=
  exists g p, general_ptr cfg = Some g /\ property_ptr cfg = Some p /\
    L ≡ₚ [(g, General None None None None None None t); (p, Props)] ++
         (if publishes t then match pub_ptr cfg with Some q => [(q, Pub None None None)] | None => [] end else []) ++
         (if subscribes t then match sub_ptr cfg with Some q => [(q, Sub None 0 None None 0)] | None => [] end else []) /\
    (publishes t = true -> pub_ptr cfg <> None) /\ (subscribes t = true -> sub_ptr cfg <> None).

Theorem init_config_all_or_nothing t : triple [] (init_config malloc_ok t) (fun '(ret, cfg) L =>
  (ret = SC_OK /\ initialised t cfg L) \/ (ret = SC_OOM /\ L = [] /\ no_memory malloc_ok)).
Proof.
  assert (forall b L (k : ptr -> M (status_t * config)) Q, (forall a, triple ((a, b) :: L) (k (Some a)) Q) ->
    (no_memory malloc_ok -> triple L (k None) Q) -> triple L (malloc malloc_ok b ≫= k) Q) as Hnew by (intros; by apply wp_malloc).
  unfold init_config. apply Hnew; [intros g|intros Hno]; cbn beta; (apply Hnew; [intros p|intros Hno']; cbn beta iota zeta).
  2-4: unfold oom_err; cbn [general_ptr property_ptr pub_ptr sub_ptr]; repeat wp_step; by right.
  repeat wp_step. unfold init_pub, init_sub, oom_err. cbn [general_ptr property_ptr pub_ptr sub_ptr].
  unfold initialised. destruct (publishes t), (subscribes t).
  - apply Hnew; [intros q|intros Hq]; cbn beta iota; repeat wp_step; [|by right].
    apply Hnew; [intros q'|intros Hq]; cbn beta iota; repeat wp_step; [|by right].
    left. split; [done|]. exists g, p. cbn. split_and!; [done..|solve_Permutation|done|done].
  - apply Hnew; [intros q|intros Hq]; cbn beta iota; repeat wp_step; [|by right].
    left. split; [done|]. exists g, p. cbn. split_and!; [done..|solve_Permutation|done|done].
  - apply Hnew; [intros q|intros Hq]; cbn beta iota; repeat wp_step; [|by right].
    left. split; [done|]. exists g, p. cbn. split_and!; [done..|solve_Permutation|done|done].
  - repeat wp_step. left. split; [done|]. exists g, p. cbn. split_and!; [done..|solve_Permutation|done|done].
Qed.

End Init.

(** Releasing the configuration frees the strings of the half its type names at that
    moment and those of the connection; the four structures, the last message that
    was received and the strings of the other half stay. *)
Record owned := mkOwned {
  o_id : ptr; o_host : ptr; o_username : ptr; o_password : ptr; o_will_topic : ptr; o_will_payload : ptr;
  o_type : client_type_t; o_message : ptr; o_topic : ptr; o_response_topic : ptr;
  o_topics : ptr; o_topic_count : nat; o_recv : ptr; o_unsub : ptr; o_unsub_count : nat }.

Definition structures (g q s p : nat) (o : owned) : list (nat * block) :=
  [(g, General (o_id o) (o_host o) (o_username o) (o_password o) (o_will_topic o) (o_will_payload o) (o_type o));
   (q, Pub (o_message o) (o_topic o) (o_response_topic o));
   (s, Sub (o_topics o) (o_topic_count o) (o_recv o) (o_unsub o) (o_unsub_count o)); (p, Props)].

Definition general_strings (o : owned) (L : list (nat * block)) : Prop :=
  exists L1 L2 L3 L4 L5 L6, str_cell (o_id o) L1 /\ str_cell (o_host o) L2 /\ str_cell (o_username o) L3 /\
    str_cell (o_password o) L4 /\ str_cell (o_will_topic o) L5 /\ str_cell (o_will_payload o) L6 /\
    L = L1 ++ L2 ++ L3 ++ L4 ++ L5 ++ L6.

Definition pub_strings (o : owned) (L : list (nat * block)) : Prop :=
  exists L1 L2 L3, str_cell (o_message o) L1 /\ str_cell (o_topic o) L2 /\ str_cell (o_response_topic o) L3 /\
    L = L1 ++ L2 ++ L3.

Definition sub_strings (o : owned) (L : list (nat * block)) : Prop :=
  exists L1 L2, strings_cell (o_topics o) (o_topic_count o) L1 /\ strings_cell (o_unsub o) (o_unsub_count o) L2 /\ L = L1 ++ L2.

Theorem mosq_config_free_spec g q s p o Lg Lq Ls L : general_strings o Lg -> pub_strings o Lq -> sub_strings o Ls ->
  L ≡ₚ structures g q s p o ++ Lg ++ Lq ++ Ls ->
  triple L (mosq_config_free (mkConfig (Some g) (Some q) (Some s) (Some p))) (fun ret L' => ret = SC_OK /\
    L' ≡ₚ structures g q s p o ++ (if publishes (o_type o) then [] else Lq) ++ (if subscribes (o_type o) then [] else Ls)).
Proof.
  intros (G1 & G2 & G3 & G4 & G5 & G6 & HG1 & HG2 & HG3 & HG4 & HG5 & HG6 & ->) (P1 & P2 & P3 & HP1 & HP2 & HP3 & ->)
    (S1 & S2 & HS1 & HS2 & ->) HL.
  eapply triple_perm; [exact HL|]. clear HL L. set (R := structures g q s p o).
  assert (forall Lr, triple (R ++ (G1 ++ G2 ++ G3 ++ G4 ++ G5 ++ G6) ++ Lr)
    ('(id, host, username, password, will_topic, will_payload, _) ← at_ptr as_general (Some g);
     _ ← free id; _ ← free host; _ ← free username; _ ← free password; _ ← free will_topic; _ ← free will_payload;
     _ ← load (Some p); mret SC_OK) (fun ret L' => ret = SC_OK /\ L' ≡ₚ R ++ Lr)) as Hgeneral.
  { intros Lr. unfold R, structures. cbn [app]. repeat wp_step.
    eapply (wp_free_cell _ G1 _ (structures g q s p o ++ G2 ++ G3 ++ G4 ++ G5 ++ G6 ++ Lr)); [done|unfold structures; solve_Permutation|].
    eapply (wp_free_cell _ G2 _ (structures g q s p o ++ G3 ++ G4 ++ G5 ++ G6 ++ Lr)); [done|solve_Permutation|].
    eapply (wp_free_cell _ G3 _ (structures g q s p o ++ G4 ++ G5 ++ G6 ++ Lr)); [done|solve_Permutation|].
    eapply (wp_free_cell _ G4 _ (structures g q s p o ++ G5 ++ G6 ++ Lr)); [done|solve_Permutation|].
    eapply (wp_free_cell _ G5 _ (structures g q s p o ++ G6 ++ Lr)); [done|solve_Permutation|].
    eapply (wp_free_cell _ G6 _ (structures g q s p o ++ Lr)); [done|solve_Permutation|].
    unfold structures. cbn [app]. by repeat wp_step. }
  assert (forall Lr, triple (R ++ (S1 ++ S2) ++ (G1 ++ G2 ++ G3 ++ G4 ++ G5 ++ G6) ++ Lr)
    (_ ← when (subscribes (o_type o))
          ('(topics, n, _, unsub, k) ← at_ptr as_sub (Some s); _ ← free_topics topics n; free_topics unsub k);
     '(id, host, username, password, will_topic, will_payload, _) ← at_ptr as_general (Some g);
     _ ← free id; _ ← free host; _ ← free username; _ ← free password; _ ← free will_topic; _ ← free will_payload;
     _ ← load (Some p); mret SC_OK) (fun ret L' => ret = SC_OK /\
       L' ≡ₚ R ++ (if subscribes (o_type o) then [] else S1 ++ S2) ++ Lr)) as Hsub.
  { intros Lr. destruct (subscribes (o_type o)); cbn [when].
    - unfold R, structures. cbn [app]. repeat wp_step.
      eapply (wp_free_topics _ _ S1 _ (R ++ S2 ++ (G1 ++ G2 ++ G3 ++ G4 ++ G5 ++ G6) ++ Lr)); [done|unfold R, structures; solve_Permutation|].
      eapply (wp_free_topics _ _ S2 _ (R ++ (G1 ++ G2 ++ G3 ++ G4 ++ G5 ++ G6) ++ Lr)); [done|solve_Permutation|]. apply Hgeneral.
    - eapply triple_perm; [|apply (Hgeneral ((S1 ++ S2) ++ Lr))]. solve_Permutation. }
  unfold mosq_config_free. cbn [general_ptr pub_ptr sub_ptr property_ptr].
  unfold R, structures at 1. cbn [app]. wp_step.
  destruct (publishes (o_type o)); cbn [when].
  - repeat wp_step.
    eapply (wp_free_cell _ P1 _ (R ++ (S1 ++ S2) ++ (G1 ++ G2 ++ G3 ++ G4 ++ G5 ++ G6) ++ P2 ++ P3)); [done|unfold R, structures; solve_Permutation|].
    repeat wp_step. eapply (wp_free_cell _ P2 _ (R ++ (S1 ++ S2) ++ (G1 ++ G2 ++ G3 ++ G4 ++ G5 ++ G6) ++ P3)); [done|solve_Permutation|].
    eapply (wp_free_cell _ P3 _ (R ++ (S1 ++ S2) ++ (G1 ++ G2 ++ G3 ++ G4 ++ G5 ++ G6) ++ [])); [done|solve_Permutation|].
    eapply triple_conseq; [apply Hsub|]. cbn beta. intros ret L' [-> HL]. split; [done|]. rewrite HL. rewrite app_nil_r. done.
  - eapply triple_perm; [|eapply triple_conseq; [apply (Hsub (P1 ++ P2 ++ P3))|]].
    + unfold R, structures. solve_Permutation.
    + cbn beta. intros ret L' [-> HL]. split; [done|]. rewrite HL. solve_Permutation.
Qed.

(** Every request that is answered makes three strings that nothing frees: the next
    one overwrites the pointers to them. *)
Theorem answers_leak malloc_ok q s cfg rs : (forall n, malloc_ok n = true) -> pub_ptr cfg = Some q -> sub_ptr cfg = Some s ->
  forall m t r ts n rm us k L,
  triple ((q, Pub m t r) :: (s, Sub ts n rm us k) :: L) (answers malloc_ok cfg rs) (fun _ L' =>
    exists m' t' rm' kept, L' ≡ₚ (q, Pub m' t' r) :: (s, Sub ts n rm' us k) :: kept ++ L /\
      snd <$> kept ≡ₚ (rs ≫= fun '(payload, topic, message) => [Str payload; Str topic; Str message])).
Proof.
  intros Hok Hq Hs. assert (forall P : Prop, no_memory malloc_ok -> P) as Hno by (intros P [i Hi]; by rewrite Hok in Hi).
  induction rs as [|[[payload topic] message] rs IH]; intros m t r ts n rm us k L; cbn [answers answer].
  { wp_step. by exists m, t, rm, []. }
  unfold dump_payload, set_pub_topic, message_set, strdup. rewrite Hq, Hs.
  repeat (wp_step || (apply wp_malloc; [intros ?|exact (Hno _)]; cbn beta iota)).
  eapply triple_perm; [|eapply triple_conseq; [apply (IH (Some a1) (Some a0) r ts n (Some a) us k ((a1, Str message) :: (a0, Str topic) :: (a, Str payload) :: L))|]].
  { solve_Permutation. }
  cbn beta. intros _ L' (m' & t' & rm' & kept & HL & Hk).
  exists m', t', rm', (kept ++ [(a, Str payload); (a0, Str topic); (a1, Str message)]). split.
  - rewrite HL. solve_Permutation.
  - rewrite fmap_app, Hk. cbn [fmap list_fmap snd]. rewrite bind_cons. solve_Permutation.
Qed.

(** ** Evaluations *)
Module MqttMemoryWitness.

Definition all_ok (n : nat) : bool := true.

(** Without memory for the second half, the configuration points to blocks that are
    free, and [duplex_config_init], which ignores the status, uses them. *)
Definition short_of_sub (n : nat) : bool := negb (n =? 3)%nat.

Example init_unchecked :
  (fun r => fst (fst r)) <$> init_config short_of_sub client_duplex (mkMem ∅ 0) = Some SC_OOM /\
  ('(_, cfg) ← init_config short_of_sub client_duplex; generate_id short_of_sub cfg (lit "id")) (mkMem ∅ 0) = None.
Proof. split; vm_compute; reflexivity. Qed.

(** A whole life: identifier, host, two topics, two requests, release.  The status
    and what is left on the heap. *)
Definition life : M status_t :=
  '(_, cfg) ← init_config all_ok client_duplex;
  _ ← generate_id all_ok cfg (lit "id");
  _ ← set_client_host all_ok cfg (lit "host");
  _ ← set_client_type cfg client_pub;
  _ ← add_sub_topic all_ok cfg (lit "root/tryte");
  _ ← add_sub_topic all_ok cfg (lit "root/transaction");
  _ ← set_client_type cfg client_sub;
  _ ← answers all_ok cfg [(lit "q1", lit "t1", lit "a1"); (lit "q2", lit "t2", lit "a2")];
  mosq_config_free cfg.

Definition strings_left (m : mem block) : list cstr :=
  omap (fun b => match b.2 with Str s => Some s | _ => None end) (map_to_list (blocks m)).

Example life_leaves :
  (fun '(ret, m) => (ret, strings_left m)) <$> life (mkMem ∅ 0) =
  Some (SC_OK, lit <$> ["t2"; "q1"; "a1"; "q2"; "t1"; "a2"]%string).
Proof. vm_compute. reflexivity. Qed.
End MqttMemoryWitness.
