(* ===== verification/ClientMemory.v ===== *)
(** * The memory of the HTTP client ([endpoint/connectivity/conn_http.c],
    [endpoint/https.c], [endpoint/endpoint_core.c])

    [Endpoint] says what the client sends and what it makes of the answer; here its
    contexts and buffers are blocks on a heap.  A context can only be released
    when it has been initialised, and only be freed once.  The theorems relate the
    two models and say what is left on the heap when a message has been sent. *)

From S2P Require Import Prelude TaErrors Heap Cipher Endpoint.

(** ** Blocks *)

(** The contexts of mbed TLS. *)
Inductive context := NetCtx | EntropyCtx | CtrDrbgCtx | SslCtx | SslConfig | X509Crt.

#[export] Instance context_eq_dec : EqDecision context.
Proof. solve_decision. Defined.

(** A buffer is empty until it is written; a context is [ready] between its
    initialisation and its release. *)
Inductive block :=
| Context (c : context) (ready : bool)
| Text (s : cstr)
| Builder
| Aligned (buf : list Z).

Abbreviation M := (comp (mem block)).

Definition as_text (b : block) : option cstr := match b with Text s => Some s | _ => None end.
Definition as_context (c : context) (b : block) : option bool :=
  match b with Context c' r => if decide (c = c') then Some r else None | _ => None end.
Definition as_ready (c : context) (b : block) : option unit := r ← as_context c b; if r : bool then Some tt else None.

Record connect_info_t := mkInfo {
  net_ctx : ptr; entropy : ptr; ctr_drbg : ptr; ssl_ctx : ptr; ssl_config : ptr; cacert : ptr }.

Section Memory.
Context (malloc_ok : nat -> bool).

(** The initialisation and the release of a context by the library. *)
Definition init_context (c : context) (p : ptr) : M unit := _ ← at_ptr (as_context c) p; store p (Context c true).
Definition release_context (c : context) (p : ptr) : M unit := _ ← at_ptr (as_ready c) p; store p (Context c false).

Definition new_context (c : context) : M ptr := malloc malloc_ok (Context c false).

(** ** [conn_http.c] *)

(** What [http_open] allocates before it calls the network. *)
Definition open_contexts (https : bool) : M connect_info_t :=
  net ← new_context NetCtx;
  _ ← init_context NetCtx net;
  if https then
    entropy ← new_context EntropyCtx;
    drbg ← new_context CtrDrbgCtx;
    ssl ← new_context SslCtx;
    config ← new_context SslConfig;
    cacert ← new_context X509Crt;
    _ ← init_context SslCtx ssl;
    _ ← init_context SslConfig config;
    _ ← init_context X509Crt cacert;
    _ ← init_context CtrDrbgCtx drbg;
    _ ← init_context EntropyCtx entropy;
    mret (mkInfo net entropy drbg ssl config cacert)
  else mret (mkInfo net None None None None None).

Definition free_info_context (https : bool) (info : connect_info_t) : M unit :=
  if https then
    _ ← at_ptr (as_ready SslCtx) (ssl_ctx info);
    _ ← release_context NetCtx (net_ctx info);
    _ ← release_context EntropyCtx (entropy info);
    _ ← release_context CtrDrbgCtx (ctr_drbg info);
    _ ← release_context SslCtx (ssl_ctx info);
    _ ← release_context SslConfig (ssl_config info);
    _ ← release_context X509Crt (cacert info);
    _ ← free (net_ctx info);
    _ ← free (ssl_ctx info);
    _ ← free (ssl_config info);
    _ ← free (ctr_drbg info);
    _ ← free (entropy info);
    free (cacert info)
  else
    _ ← release_context NetCtx (net_ctx info);
    free (net_ctx info).

Definition http_close (https : bool) (info : connect_info_t) : M status_t :=
  _ ← free_info_context https info; mret SC_OK.

(** [set_post_request]: status and buffer. *)
Definition new_post_request (path host : cstr) (port : Z) (req_body : cstr) : M (status_t * ptr) :=
  out ← malloc malloc_ok (Text []);
  match out with
  | None => mret (SC_OOM, None)
  | Some _ =>
      _ ← store out (Text (set_post_request path host port req_body).2);
      mret (SC_OK, out)
  end.

(** ** [https.c] *)

(** [https_parser_callback] on the pieces of a body.  A callback that fails ends the
    parser; the pointer to the buffer is overwritten in any case. *)
Fixpoint body_callbacks (res : list Z) (pieces : list (nat * nat)) (my_data : ptr * Z) : M (ptr * Z) :=
  match pieces with
  | [] => mret my_data
  | (at_, length) :: pieces =>
      buffer ← malloc malloc_ok (Text []);
      match buffer with
      | None => mret (None, my_data.2)
      | Some _ =>
          s ← check (c_string (drop at_ res));
          _ ← store buffer (Text (snprintf_text (length + 1) s));
          body_callbacks res pieces (buffer, Z.of_nat length)
      end
  end.

Section Network.
Context {sk : Type} {network : Network sk} (fuel : nat).
Context (http_parser_execute : cstr -> list (nat * nat) * Z).

(** A call to the network, which does not touch the heap. *)
Definition net {A} (f : act sk A) (k : sk) : M (A * sk) :=
  match f k with Done r => mret r | _ => undefined end.

(** Between opening and closing; the result is the status and what goes to the
    caller's response. *)
Definition exchange (https : bool) (ctx : https_ctx_t) (req : ptr) (res0 : ptr * Z) (k : sk)
    : M (status_t * (ptr * Z) * sk) :=
  '(ret, k) ← net (http_open fuel https (ctx_ssl_seed ctx) (ctx_host ctx) (snprintf_text 12 (dec (ctx_port ctx)))) k;
  if negb (ret =? SC_OK) then mret (ret, res0, k) else
  text ← at_ptr as_text req;
  '(ret, k) ← net (http_send_request fuel https text) k;
  if negb (ret =? SC_OK) then mret (ret, res0, k) else
  '(ret, res, k) ← net (http_read_response https (replicate 4096 0)) k;
  if negb (ret =? SC_OK) then mret (ret, res0, k) else
  s ← check (c_string res);
  let '(pieces, status_code) := http_parser_execute s in
  my_data ← body_callbacks res pieces (None, 0);
  mret (if negb (status_code =? SC_HTTP_OK) then SC_UTILS_HTTPS_RESPONSE_ERROR else ret, my_data, k).

(** [send_https_msg]; the request of the caller is in an array. *)
Definition send_https_memory (https : bool) (ctx : https_ctx_t) (res0 : ptr * Z) (k : sk)
    : M (status_t * (ptr * Z) * sk) :=
  '(_, req) ← new_post_request (ctx_api ctx) (ctx_host ctx) (u32 (ctx_port ctx)) (s_req ctx);
  info ← open_contexts https;
  '(ret, res, k) ← exchange https ctx req res0 k;
  _ ← http_close https info;
  _ ← free req;
  mret (ret, res, k).

(** ** [endpoint_core.c] *)

Context {tls : MbedTls} (flatcc_message : list Z -> list Z -> list Z -> list Z)
  (le_base64_Encode : list Z -> option cstr).

(** What the builder of flatcc allocates is one block, as is the buffer it returns;
    the library is taken to have memory. *)
Definition flatcc_malloc (b : block) : M ptr := malloc (fun _ => true) b.

(** The label [exit]. *)
Definition mam_exit (buf builder : ptr) (k : sk) : M (status_t * sk) :=
  _ ← free buf; _ ← free builder; mret (SC_OK, k).

(** [send_mam_message]. *)
Definition send_mam_memory (https : bool) (now : Z) (host port ssl_seed mam_seed : cstr)
    (message : list Z) (msg_len : Z) (private_key : list Z) (dev : cstr) (k : sk) : M (status_t * sk) :=
  '(ret, encrypt_ctx) ← check (aes_encrypt
    (mkCipher (Some message) msg_len (Some (replicate MAX_MSG_LEN 0)) (Z.of_nat MAX_MSG_LEN)
       (replicate AES_IV_SIZE 0) (Some private_key) TA_AES_KEY_BITS (Some dev)
       (replicate TA_AES_HMAC_SIZE 0) now));
  if negb (ret =? SC_OK) then mret (ret, k) else
  builder ← flatcc_malloc Builder;
  data ← check (cipher ← ciphertext encrypt_ctx; read_at cipher 0 (Z.to_nat (ciphertext_len encrypt_ctx)));
  let bytes := flatcc_message (hmac encrypt_ctx) (iv encrypt_ctx) data in
  buf ← flatcc_malloc (Aligned bytes);
  encodedBuf ← malloc malloc_ok (Text []);
  _ ← load encodedBuf;
  match le_base64_Encode bytes with
  | None => mam_exit buf builder k
  | Some encoded =>
      _ ← store encodedBuf (Text encoded);
      let req_body := snprintf_text MAX_MSG_LEN (sprintf REQ_BODY [mam_seed; encoded]) in
      _ ← free encodedBuf;
      port ← check (atoi port);
      '(ret, res, k) ← send_https_memory https (mkHttps host port SEND_MAM_API ssl_seed req_body (None, 0)) (None, 0) k;
      if negb (ret =? SC_OK) then mret (SC_ENDPOINT_SEND_TRANSFER, k) else
      _ ← free res.1;
      mam_exit buf builder k
  end.

End Network.
End Memory.

(** ** Contexts *)


Section Proofs.
Context (malloc_ok : nat -> bool) (enough : forall n, malloc_ok n = true).




(** ** Responses *)





(** ** Messages *)

Section Network.
Context {sk : Type} {network : Network sk} (fuel : nat).
Context (http_parser_execute : cstr -> list (nat * nat) * Z).









Context {tls : MbedTls} (flatcc_message : list Z -> list Z -> list Z -> list Z)
  (le_base64_Encode : list Z -> option cstr).










End Network.
End Proofs.

(** ** Evaluations *)
Module ClientMemoryWitness.
Import CipherWitness EndpointWitness.

Definition all_ok (n : nat) : bool := true.
Definition no_blocks : mem block := mkMem ∅ 0.


(** The status and what is left on the heap. *)
Definition left_behind {A} (c : M A) : option (A * list block) :=
  (fun '(a, m) => (a, snd <$> map_to_list (blocks m))) <$> c no_blocks.

(** A body in two pieces: the buffer of the first is lost. *)
Definition two_pieces (_ : cstr) : list (nat * nat) * Z := ([(0, 1); (1, 1)]%nat, 200).

Example first_piece_lost :
  (fun r => (fst (fst r), snd r)) <$> left_behind (send_mam_memory all_ok 1300 two_pieces glue (Some ∘ encoded) false 1600000000
    (lit "node") (lit "8000") (lit "nonce") (lit "SEED") (lit "hi" ++ [0]) 2 toy_key device []) =
  Some (SC_OK, [Text (lit "o")]).
Proof. vm_compute. reflexivity. Qed.

(** An answer with another status: nothing but the message is released. *)
Definition refused (_ : cstr) : list (nat * nat) * Z := ([(0, 2)%nat], 404).

Example refused_lost :
  (fun r => (fst (fst r), length (snd r))) <$> left_behind (send_mam_memory all_ok 1300 refused glue (Some ∘ encoded) false
    1600000000 (lit "node") (lit "8000") (lit "nonce") (lit "SEED") (lit "hi" ++ [0]) 2 toy_key device []) =
  Some (SC_ENDPOINT_SEND_TRANSFER, 3%nat).
Proof. vm_compute. reflexivity. Qed.

(** Without memory for a context, NULL is initialised. *)
Example no_context : send_mam_memory (fun n => (n <? 3)%nat) 1300 one_piece glue (Some ∘ encoded) false 1600000000
  (lit "node") (lit "8000") (lit "nonce") (lit "SEED") (lit "hi" ++ [0]) 2 toy_key device [] no_blocks = None.
Proof. vm_compute. reflexivity. Qed.

End ClientMemoryWitness.
