(* ===== verification/Resources.v ===== *)
(** * Connections, descriptors and arrays that are opened and released
    ([utils/cache/backend_redis.c], [storage/scylladb_client.c],
    [endpoint/OBDComp/can-bus/can-utils.c], [endpoint/OBDComp/monitor/monitor.c],
    [utils/bundle_array.h], [utils/cpuinfo.h])

    Each section is the life of one resource over [Heap]: what is taken when it is
    opened, on every outcome, and what is left when it has been closed. *)

From S2P Require Import Prelude TaErrors Heap.

(** ** The connection of the cache *)
Module CacheConnection.

Inductive block :=
| Conn (rc : member)
| Redis (err : bool)
| Lock (ready : bool).

Abbreviation M := (comp (mem block)).

Definition as_conn (b : block) : option member := match b with Conn rc => Some rc | _ => None end.
Definition as_redis (b : block) : option bool := match b with Redis e => Some e | _ => None end.
Definition as_ready (b : block) : option unit := match b with Lock true => Some tt | _ => None end.
Definition as_lock (b : block) : option bool := match b with Lock r => Some r | _ => None end.

(** The statics of the file: [CONN(cache)] and [state]. *)
Record statics := mkStatics { conn : ptr; state : bool }.

Section Memory.
Context (malloc_ok : nat -> bool).

(** [redisConnect] returns NULL, or a context that is in error or not. *)
Definition redisConnect (outcome : option bool) : M ptr :=
  match outcome with None => mret None | Some err => malloc (fun _ => true) (Redis err) end.

(** [cache_init]: what it returns, the statics and the caller's lock.  The function
    returns [bool], so that the status of a lock that fails is [true]. *)
Definition cache_init (g : statics) (rwlock : ptr) (input_state : bool) (outcome : option bool) (lock_ok : bool)
    : M (bool * statics * ptr) :=
  if negb input_state then mret (false, mkStatics (conn g) input_state, rwlock) else
  c ← malloc malloc_ok (Conn None);
  let g := mkStatics c input_state in
  rc ← redisConnect outcome;
  _ ← at_ptr as_conn c;
  _ ← store c (Conn (Some rc));
  err ← at_ptr as_redis rc;
  if err : bool then mret (false, g, rwlock) else
  lock ← malloc malloc_ok (Lock false);
  _ ← at_ptr as_lock lock;
  _ ← store lock (Lock lock_ok);
  mret (true, g, lock).

Definition cache_stop (g : statics) (rwlock : ptr) : M unit :=
  if negb (state g) then mret tt else
  rc ← at_ptr as_conn (conn g);
  rc ← check rc;
  match rc with
  | None => mret tt
  | Some _ =>
      _ ← at_ptr as_redis rc;
      _ ← free rc;
      _ ← at_ptr as_ready rwlock;
      _ ← free rwlock;
      free (conn g)
  end.

Context (enough : forall n, malloc_ok n = true).

Ltac wp := repeat (wp_step || (apply wp_malloc; [intros ?|intros [? Hno]; first [discriminate | by rewrite enough in Hno] ]; cbn beta iota)).

(** A cache that could be opened, or that is off, is released whole. *)
Theorem cache_session g rwlock on : triple []
  ('(ret, g, lock) ← cache_init g rwlock on (Some false) true; _ ← cache_stop g lock; mret ret)
  (fun ret L => ret = on /\ L = []).
Proof using enough.
  unfold cache_init, cache_stop, redisConnect. destruct on; cbn [negb].
  - wp. cbn [state conn negb]. by wp.
  - wp. cbn [state negb]. by wp.
Qed.

(** One that could not is still on; stopping it destroys a lock there is none of. *)
Theorem cache_failed_session g L : triple L (cache_init g None true (Some true) true) (fun r L' => exists c rc,
  r = (false, mkStatics (Some c) true, None) /\ L' ≡ₚ (c, Conn (Some (Some rc))) :: (rc, Redis true) :: L).
Proof using enough. unfold cache_init, redisConnect. cbn [negb]. wp. eexists _, _. split; [done|]. solve_Permutation. Qed.

Example cache_stop_undefined :
  ('(_, g, lock) ← cache_init (mkStatics None false) None true (Some true) true; cache_stop g lock) (mkMem ∅ 0) = None.
Proof using enough. unfold cache_init, redisConnect, malloc, mbind, comp_mbind. cbn. rewrite !enough. vm_compute. reflexivity. Qed.

(** Without a context even the message about it is undefined. *)
Example cache_init_undefined : cache_init (mkStatics None false) None true None true (mkMem ∅ 0) = None.
Proof using enough. unfold cache_init, redisConnect, malloc, mbind, comp_mbind. cbn. rewrite !enough. vm_compute. reflexivity. Qed.

End Memory.
End CacheConnection.

(** ** The clients of the database *)
Module DbService.

Inductive block := UuidGen | Session | Cluster | Host.

Abbreviation M := (comp (mem block)).

Record db_client_service_t := mkService { uuid_gen : ptr; session : ptr; cluster : ptr; host : ptr; enabled : bool }.

(** The driver ends the process when it has no memory. *)
Definition cass_new (b : block) : M ptr := malloc (fun _ => true) b.

(** [db_client_service_init]; [connected]: the session could be connected. *)
Definition db_client_service_init (service : db_client_service_t) (connected : bool) : M (status_t * db_client_service_t) :=
  match host service with
  | None => mret (SC_NULL, service)
  | Some _ =>
      uuid_gen ← cass_new UuidGen;
      session ← cass_new Session;
      _ ← load (host service);
      cluster ← cass_new Cluster;
      mret (if connected then SC_OK else SC_STORAGE_CONNECT_FAIL,
            mkService uuid_gen session cluster (host service) connected)
  end.

(** [db_client_service_free], which leaves the pointers as they are. *)
Definition db_client_service_free (service : db_client_service_t) : M status_t :=
  _ ← free (uuid_gen service);
  _ ← free (session service);
  _ ← free (cluster service);
  _ ← free (host service);
  mret SC_OK.

(** Whether it could be connected or not, a service is released whole. *)
Theorem db_session h e connected : triple [(h, Host)]
  ('(ret, service) ← db_client_service_init (mkService None None None (Some h) e) connected;
   _ ← db_client_service_free service; mret (ret, enabled service))
  (fun r L => r = (if connected then SC_OK else SC_STORAGE_CONNECT_FAIL, connected) /\ L = []).
Proof.
  unfold db_client_service_init, db_client_service_free, cass_new. cbn [host].
  repeat (wp_step || (apply wp_malloc; [intros ?|intros [? Hno]; discriminate]; cbn beta iota)).
  cbn [uuid_gen session cluster host enabled]. by repeat wp_step.
Qed.

(** Connecting again loses what the first attempt has made. *)
Theorem db_reconnect_loses u s c h e connected : triple [(u, UuidGen); (s, Session); (c, Cluster); (h, Host)]
  ('(ret, service) ← db_client_service_init (mkService (Some u) (Some s) (Some c) (Some h) e) connected;
   db_client_service_free service)
  (fun _ L => L ≡ₚ [(u, UuidGen); (s, Session); (c, Cluster)]).
Proof.
  unfold db_client_service_init, db_client_service_free, cass_new. cbn [host].
  repeat (wp_step || (apply wp_malloc; [intros ?|intros [? Hno]; discriminate]; cbn beta iota)).
  cbn [uuid_gen session cluster host enabled]. repeat wp_step. solve_Permutation.
Qed.

Example db_freed_twice :
  (h ← cass_new Host; '(_, service) ← db_client_service_init (mkService None None None h false) true;
   _ ← db_client_service_free service; db_client_service_free service) (mkMem ∅ 0) = None.
Proof. vm_compute. reflexivity. Qed.

End DbService.

(** ** The CAN socket *)
Module CanDescriptor.

(** An open descriptor is a block; nothing is stored in it. *)
Inductive block := Fd.

Abbreviation M := (comp (mem block)).

Section Descriptor.
(** [socket_ok n]: the [n]-th call of [socket] succeeds. *)
Context (socket_ok : nat -> bool).

(** [close] on a descriptor that is not open fails. *)
Definition can_close (fd : ptr) : M status_t :=
  fun m => match fd ≫= fun a => blocks m !! a with
           | Some _ => (_ ← free fd; mret SC_OK) m
           | None => Some (SC_ENDPOINT_CAN_CLOSE_ERROR, m)
           end.

(** [can_open]: the status, and the caller's variable, which a failure leaves as it
    was. *)
Definition can_open (bind_ok : bool) (fd : member) : M (status_t * member) :=
  s ← malloc socket_ok Fd;
  match s with
  | None => _ ← can_close s; mret (SC_ENDPOINT_CAN_OPEN_ERROR, fd)
  | Some _ =>
      if bind_ok then mret (SC_OK, Some s)
      else _ ← can_close s; mret (SC_ENDPOINT_CAN_OPEN_ERROR, fd)
  end.

Lemma can_close_spec a L : triple ((a, Fd) :: L) (can_close (Some a)) (fun ret L' => ret = SC_OK /\ L' = L).
Proof.
  intros F m Ho. unfold can_close. cbn [mbind option_bind]. rewrite (own_lookup m a Fd (L ++ F)) by exact Ho.
  exact (wp_free ((a, Fd) :: L) a Fd L (fun _ => mret SC_OK) (fun ret L' => ret = SC_OK /\ L' = L)
    ltac:(reflexivity) (triple_ret _ _ _ (conj eq_refl eq_refl)) F m Ho).
Qed.

(** A descriptor is open exactly when the socket could be opened. *)
Theorem can_open_spec bind_ok fd : triple [] (can_open bind_ok fd) (fun r L =>
  (exists a, r = (SC_OK, Some (Some a)) /\ L = [(a, Fd)]) \/ (r = (SC_ENDPOINT_CAN_OPEN_ERROR, fd) /\ L = [])).
Proof.
  unfold can_open. apply wp_malloc; [intros a|intros _]; cbn beta iota.
  - destruct bind_ok; [apply triple_ret; eauto|].
    eapply (wp_call _ [(a, Fd)] []); [apply can_close_spec|done|]. cbn beta. intros _ ? [_ ->]. apply triple_ret. by right.
  - intros F m Ho. exists (SC_ENDPOINT_CAN_OPEN_ERROR, fd), m, []. split; [reflexivity|]. split; [done|]. by right.
Qed.

(** *** The start of the monitor *)

(** The arguments of the command line, NULL when they are not given. *)
Record arguments := mkArguments { help : bool; interface : option cstr; host : option cstr; port : option cstr; mam_seed : option cstr }.

Definition EXIT_SUCCESS : Z := 0.
Definition EXIT_FAILURE : Z := 1.

(** [COMPONENT_INIT] of [monitor.c]: the exit code.  [session] is
    [get_obd_datasets], which is given the descriptor. *)
Definition monitor_main (args : arguments) (key : status_t) (bind_ok : bool) (session : ptr -> M unit) : M Z :=
  if help args then mret EXIT_SUCCESS else
  if negb (key =? SC_OK) then mret EXIT_FAILURE else
  match interface args with
  | None => mret EXIT_SUCCESS
  | Some _ =>
      match host args, port args, mam_seed args with
      | Some _, Some _, Some _ =>
          '(_, fd) ← can_open bind_ok None;
          fd ← check fd;
          _ ← session fd;
          _ ← can_close fd;
          mret EXIT_SUCCESS
      | _, _, _ => mret EXIT_FAILURE
      end
  end.

(** Complete arguments, a key and a socket: one session, and the descriptor is closed. *)
Theorem monitor_serves args session : (forall n, socket_ok n = true) ->
  help args = false -> is_Some (interface args) -> is_Some (host args) -> is_Some (port args) -> is_Some (mam_seed args) ->
  (forall a, triple [(a, Fd)] (session (Some a)) (fun _ L => L = [(a, Fd)])) ->
  triple [] (monitor_main args SC_OK true session) (fun code L => code = EXIT_SUCCESS /\ L = []).
Proof.
  intros Hok Hh [? Hi] [? Ho] [? Hp] [? Hs] Hsession. unfold monitor_main. rewrite Hh, Hi, Ho, Hp, Hs. rewrite Z.eqb_refl. cbn [negb].
  unfold can_open. wp_step. apply wp_malloc; [intros a|intros [n Hn]; by rewrite Hok in Hn]. cbn beta iota. repeat wp_step.
  eapply (wp_call _ [(a, Fd)] []); [apply Hsession|done|]. cbn beta. intros _ ? ->. cbn [app].
  eapply (wp_call _ [(a, Fd)] []); [apply can_close_spec|done|]. cbn beta. intros _ ? [_ ->]. cbn [app]. by wp_step.
Qed.

(** A socket that could not be opened is used all the same: the status is ignored and
    the variable has no value. *)
Theorem monitor_without_socket args session m :
  help args = false -> is_Some (interface args) -> is_Some (host args) -> is_Some (port args) -> is_Some (mam_seed args) ->
  monitor_main args SC_OK false session m = None.
Proof.
  intros Hh [? Hi] [? Ho] [? Hp] [? Hs]. unfold monitor_main. rewrite Hh, Hi, Ho, Hp, Hs. rewrite Z.eqb_refl. cbn [negb].
  destruct (can_open_spec false None (map_to_list (blocks m)) m (own_self m)) as (r & m' & L & E & _ & Hr).
  rewrite (comp_bind_eq _ _ _ _ _ E). destruct Hr as [(a & -> & _)|[-> _]]; [|done].
  exfalso. revert E. unfold can_open, malloc, mbind, comp_mbind. destruct (socket_ok _); [|done].
  destruct (can_close _ _) as [[]|]; done.
Qed.

(** *** The start of the emulator *)

(** [main] of [obd_emulator.c] up to its loop: an exit code or the descriptor. *)
Definition emulator_start (argv1 : option cstr) (bind_ok : bool) : M (Z + ptr) :=
  match argv1 with
  | None => mret (inl EXIT_SUCCESS)
  | Some dev =>
      if bool_decide (take 2 dev = lit "-h") then mret (inl EXIT_SUCCESS) else
      '(ret, fd) ← can_open bind_ok None;
      if negb (ret =? SC_OK) then mret (inl EXIT_FAILURE) else
      fd ← check fd;
      mret (inr fd)
  end.

(** The emulator runs with an open descriptor, or exits with none. *)
Theorem emulator_start_spec argv1 bind_ok : triple [] (emulator_start argv1 bind_ok) (fun r L =>
  (exists a, r = inr (Some a) /\ L = [(a, Fd)]) \/ (L = [] /\ (r = inl EXIT_SUCCESS \/ r = inl EXIT_FAILURE))).
Proof.
  unfold emulator_start. destruct argv1 as [dev|]; [|apply triple_ret; auto].
  case_bool_decide; [apply triple_ret; auto|].
  eapply (wp_call _ [] []); [apply can_open_spec|done|]. cbn beta. intros r L' [(a & -> & ->)|[-> ->]].
  - rewrite Z.eqb_refl. cbn [negb app]. wp_step. apply triple_ret. left. eauto.
  - cbn. apply triple_ret. auto.
Qed.

End Descriptor.
End CanDescriptor.

(** ** Arrays of bundles *)
Module BundleArray.
Section BundleArray.
(** A transaction, which is copied as it is. *)
Context {T : Type}.

(** A bundle is a header and a vector of transactions; the array is a header and a
    vector of headers, of which only the pointers to their vectors matter. *)
Inductive block :=
| Bundle (d : ptr)
| Txns (l : list T)
| Array (d : ptr)
| Bundles (l : list ptr).

Abbreviation M := (comp (mem block)).

Definition as_bundle (b : block) : option ptr := match b with Bundle d => Some d | _ => None end.
Definition as_txns (b : block) : option (list T) := match b with Txns l => Some l | _ => None end.
Definition as_array (b : block) : option ptr := match b with Array d => Some d | _ => None end.
Definition as_bundles (b : block) : option (list ptr) := match b with Bundles l => Some l | _ => None end.

(** [utarray_new] and [utarray_reserve] end the process when there is no memory. *)
Definition utarray_malloc (b : block) : M ptr := malloc (fun _ => true) b.

(** The transactions behind a pointer; an empty vector is NULL. *)
Definition txns_of (d : ptr) : M (list T) := match d with None => mret [] | Some _ => at_ptr as_txns d end.
Definition bundles_of (d : ptr) : M (list ptr) := match d with None => mret [] | Some _ => at_ptr as_bundles d end.

(** [bundle_transactions_add]: the vector grows by one and may move. *)
Definition push_one (d : ptr) (txn : T) : M ptr :=
  l ← txns_of d;
  d' ← utarray_malloc (Txns (l ++ [txn]));
  _ ← free d;
  mret d'.

Fixpoint push_each (d : ptr) (l : list T) : M ptr :=
  match l with [] => mret d | txn :: l => d ← push_one d txn; push_each d l end.

(** [bundle_array_copy]: the vector of the copy, one transaction after the other. *)
Definition bundle_array_copy (src : ptr) : M ptr := l ← txns_of src; push_each None l.

Definition bundle_array_new : M ptr := utarray_malloc (Array None).

(** [bundle_array_add]: [utarray_push_back] with the copy of the bundle. *)
Definition bundle_array_add (bundle_array bundle : ptr) : M status_t :=
  match bundle, bundle_array with
  | Some _, Some _ =>
      d ← at_ptr as_array bundle_array;
      l ← bundles_of d;
      d' ← utarray_malloc (Bundles l);
      _ ← free d;
      _ ← store bundle_array (Array d');
      src ← at_ptr as_bundle bundle;
      copy ← bundle_array_copy src;
      _ ← store d' (Bundles (l ++ [copy]));
      mret SC_OK
  | _, _ => mret SC_NULL
  end.

Definition bundle_array_size (bundle_array : ptr) : M nat :=
  match bundle_array with
  | None => mret O
  | Some _ => d ← at_ptr as_array bundle_array; l ← bundles_of d; mret (length l)
  end.

(** [bundle_array_at]: the transactions behind the header, or NULL. *)
Definition bundle_array_at (bundle_array : ptr) (index : nat) : M (option (list T)) :=
  d ← at_ptr as_array bundle_array;
  l ← bundles_of d;
  match l !! index with
  | Some src => t ← txns_of src; mret (Some t)
  | None => mret None
  end.

(** [utarray_done] on every bundle. *)
Fixpoint free_bundles (l : list ptr) : M unit :=
  match l with [] => mret tt | d :: l => _ ← free d; free_bundles l end.

Definition bundle_array_free (bundle_array : ptr) : M ptr :=
  d ← at_ptr as_array bundle_array;
  l ← bundles_of d;
  _ ← free_bundles l;
  _ ← free d;
  _ ← free bundle_array;
  mret None.

(** *** What the array represents *)

Implicit Types (L : list (nat * block)).

Definition txns_at (d : ptr) (l : list T) L : Prop :=
  match d with None => l = [] /\ L = [] | Some a => l <> [] /\ L = [(a, Txns l)] end.

Definition bundle_at (p : nat) (l : list T) L : Prop := exists d L1, txns_at d l L1 /\ L = (p, Bundle d) :: L1.

(** The headers with their vectors. *)
Fixpoint bundles_at (ds : list ptr) (bs : list (list T)) L : Prop :=
  match ds, bs with
  | [], [] => L = []
  | d :: ds, b :: bs => exists L1 L2, txns_at d b L1 /\ bundles_at ds bs L2 /\ L = L1 ++ L2
  | _, _ => False
  end.

Definition vector_at (d : ptr) (ds : list ptr) L : Prop :=
  match d with None => ds = [] /\ L = [] | Some a => L = [(a, Bundles ds)] end.

Definition array_at (p : nat) (bs : list (list T)) L : Prop :=
  exists d ds L1 L2, vector_at d ds L1 /\ bundles_at ds bs L2 /\ L = (p, Array d) :: L1 ++ L2.

Ltac grow := apply wp_malloc; [intros ?|intros [? ?]; discriminate]; cbn beta iota.

Lemma wp_txns_of {C} d l L1 L F (k : list T -> M C) Q : txns_at d l L1 -> L ≡ₚ L1 ++ F ->
  triple L (k l) Q -> triple L (txns_of d ≫= k) Q.
Proof.
  intros Hd HL Hk. destruct d as [a|]; cbn in Hd.
  - destruct Hd as [_ ->]. cbn [app] in HL. unfold txns_of. by eapply wp_at.
  - destruct Hd as [-> ->]. by apply wp_ret.
Qed.

Lemma wp_free_txns {C} d l L1 L F (k : unit -> M C) Q : txns_at d l L1 -> L ≡ₚ L1 ++ F ->
  triple F (k tt) Q -> triple L (free d ≫= k) Q.
Proof.
  intros Hd HL Hk. eapply triple_perm; [exact HL|]. destruct d as [a|]; cbn in Hd.
  - destruct Hd as [_ ->]. by wp_step.
  - destruct Hd as [_ ->]. by wp_step.
Qed.

Lemma push_each_spec : forall l d l0 L, txns_at d l0 L ->
  triple L (push_each d l) (fun d' L' => txns_at d' (l0 ++ l) L').
Proof.
  induction l as [|txn l IH]; intros d l0 L Hd; cbn [push_each].
  { apply triple_ret. by rewrite app_nil_r. }
  unfold push_one, utarray_malloc. repeat wp_step. eapply (wp_txns_of d l0 L L []); [done|by rewrite app_nil_r|].
  wp_step. grow. wp_step. eapply (wp_free_txns d l0 L _ [(a, Txns (l0 ++ [txn]))]); [done|solve_Permutation|]. wp_step.
  replace (l0 ++ txn :: l) with ((l0 ++ [txn]) ++ l) by by rewrite <- app_assoc. apply IH.
  split; [by destruct l0|done].
Qed.

(** The copy is made of blocks of its own. *)
Lemma bundle_array_copy_spec d l L : txns_at d l L ->
  triple L (bundle_array_copy d) (fun d' L' => exists L1, txns_at d' l L1 /\ L' ≡ₚ L1 ++ L).
Proof.
  intros Hd. unfold bundle_array_copy. eapply (wp_txns_of d l L L []); [done|by rewrite app_nil_r|].
  eapply triple_perm, triple_conseq; [|apply (triple_frame [] L); by apply (push_each_spec l None [])|].
  { done. }
  cbn beta. intros d' L' (L1 & H1 & ->). exists L1. by rewrite app_nil_l in H1.
Qed.

Lemma bundles_at_snoc ds bs d b L L1 : bundles_at ds bs L -> txns_at d b L1 -> bundles_at (ds ++ [d]) (bs ++ [b]) (L ++ L1).
Proof.
  revert bs L. induction ds as [|d0 ds IH]; intros [|b0 bs] L H Hd; cbn in H; try done.
  - subst. cbn. exists L1, []. by rewrite app_nil_r.
  - destruct H as (L2 & L3 & H2 & H3 & ->). cbn. exists L2, (L3 ++ L1). rewrite <- app_assoc. split; [done|]. split; [by apply IH|done].
Qed.

Lemma wp_bundles_of {C} d ds L1 L F (k : list ptr -> M C) Q : vector_at d ds L1 -> L ≡ₚ L1 ++ F ->
  triple L (k ds) Q -> triple L (bundles_of d ≫= k) Q.
Proof.
  intros Hd HL Hk. destruct d as [a|]; cbn in Hd.
  - subst. cbn [app] in HL. unfold bundles_of. by eapply wp_at.
  - destruct Hd as [-> ->]. by apply wp_ret.
Qed.

Lemma wp_free_vector {C} d ds L1 L F (k : unit -> M C) Q : vector_at d ds L1 -> L ≡ₚ L1 ++ F ->
  triple F (k tt) Q -> triple L (free d ≫= k) Q.
Proof.
  intros Hd HL Hk. eapply triple_perm; [exact HL|]. destruct d as [a|]; cbn in Hd.
  - subst. by wp_step.
  - destruct Hd as [_ ->]. by wp_step.
Qed.

Lemma bundle_array_new_spec : triple [] bundle_array_new (fun p L => exists a, p = Some a /\ array_at a [] L).
Proof. apply triple_malloc; [|intros [? ?]; discriminate]. intros a. exists a. split; [done|]. by exists None, [], [], []. Qed.

(** Adding a bundle appends a copy of it that shares nothing with it. *)
Theorem bundle_array_add_spec a p bs b La Lb : array_at a bs La -> bundle_at p b Lb ->
  triple (La ++ Lb) (bundle_array_add (Some a) (Some p)) (fun ret L =>
    ret = SC_OK /\ exists La', array_at a (bs ++ [b]) La' /\ L ≡ₚ La' ++ Lb).
Proof.
  intros (d & ds & L1 & L2 & Hv & Hb & ->) (s & L3 & Hs & ->). unfold bundle_array_add, utarray_malloc. cbn [app]. repeat wp_step.
  eapply (wp_bundles_of d ds L1 _ ((a, Array d) :: L2 ++ (p, Bundle s) :: L3)); [done|solve_Permutation|]. grow.
  eapply (wp_free_vector d ds L1 _ ((a0, Bundles ds) :: (a, Array d) :: L2 ++ (p, Bundle s) :: L3)); [done|solve_Permutation|].
  repeat wp_step.
  eapply (wp_call _ L3 ((a, Array (Some a0)) :: (a0, Bundles ds) :: L2 ++ [(p, Bundle s)]));
    [by apply bundle_array_copy_spec|solve_Permutation|].
  cbn beta. intros c L' (L4 & Hc & HL'). eapply triple_perm; [by rewrite HL'|].
  apply (wp_store _ a0 (Bundles ds) (Bundles (ds ++ [c])) (L4 ++ L3 ++ (a, Array (Some a0)) :: L2 ++ [(p, Bundle s)])); [solve_Permutation|].
  apply triple_ret. split; [done|]. exists ((a, Array (Some a0)) :: [(a0, Bundles (ds ++ [c]))] ++ (L2 ++ L4)). split.
  - exists (Some a0), (ds ++ [c]), [(a0, Bundles (ds ++ [c]))], (L2 ++ L4). split; [done|]. split; [by apply bundles_at_snoc|done].
  - solve_Permutation.
Qed.

Lemma bundles_at_lookup ds bs L i b : bundles_at ds bs L -> bs !! i = Some b ->
  exists d L1 L2, ds !! i = Some d /\ txns_at d b L1 /\ L ≡ₚ L1 ++ L2.
Proof.
  revert bs L i. induction ds as [|d ds IH]; intros [|b0 bs] L i H Hi; cbn in H; try done.
  destruct H as (L1 & L2 & H1 & H2 & ->). destruct i as [|i]; cbn in *.
  - injection Hi as <-. by exists d, L1, L2.
  - destruct (IH bs L2 i H2 Hi) as (d' & L3 & L4 & ? & ? & HL). exists d', L3, (L1 ++ L4). split; [done|]. split; [done|]. rewrite HL. solve_Permutation.
Qed.

Lemma bundles_at_length ds bs L : bundles_at ds bs L -> length ds = length bs.
Proof.
  revert bs L. induction ds as [|d ds IH]; intros [|b0 bs] L H; cbn in H; try done.
  destruct H as (L1 & L2 & H1 & H2 & ->). cbn. by rewrite (IH bs L2).
Qed.

(** Reading gives the bundle at the index, or NULL behind the end. *)
Theorem bundle_array_at_spec a bs La i : array_at a bs La ->
  triple La (bundle_array_at (Some a) i) (fun r L => r = bs !! i /\ L = La).
Proof.
  intros (d & ds & L1 & L2 & Hv & Hb & ->). unfold bundle_array_at. wp_step.
  eapply (wp_bundles_of d ds L1 _ ((a, Array d) :: L2)); [done|solve_Permutation|].
  destruct (bs !! i) as [b|] eqn:Ei.
  - destruct (bundles_at_lookup ds bs L2 i b Hb Ei) as (c & L3 & L4 & -> & Hc & HL).
    eapply (wp_txns_of c b L3 _ ((a, Array d) :: L1 ++ L4)); [done|rewrite HL; solve_Permutation|]. by apply triple_ret.
  - apply lookup_ge_None_1 in Ei. rewrite <- (bundles_at_length _ _ _ Hb) in Ei. rewrite lookup_ge_None_2 by done. by apply triple_ret.
Qed.

Theorem bundle_array_size_spec a bs La : array_at a bs La ->
  triple La (bundle_array_size (Some a)) (fun r L => r = length bs /\ L = La).
Proof.
  intros (d & ds & L1 & L2 & Hv & Hb & ->). unfold bundle_array_size. wp_step.
  eapply (wp_bundles_of d ds L1 _ ((a, Array d) :: L2)); [done|solve_Permutation|].
  rewrite (bundles_at_length _ _ _ Hb). by apply triple_ret.
Qed.

Lemma free_bundles_spec : forall ds bs L, bundles_at ds bs L -> triple L (free_bundles ds) (fun _ L' => L' = []).
Proof.
  induction ds as [|d ds IH]; intros [|b bs] L H; cbn in H; try done.
  - subst. by apply triple_ret.
  - destruct H as (L1 & L2 & H1 & H2 & ->). cbn [free_bundles]. eapply wp_free_txns; [exact H1|done|]. by eapply IH.
Qed.

(** Releasing the array releases every bundle in it. *)
Theorem bundle_array_free_spec a bs La : array_at a bs La ->
  triple La (bundle_array_free (Some a)) (fun p L => p = None /\ L = []).
Proof.
  intros (d & ds & L1 & L2 & Hv & Hb & ->). unfold bundle_array_free. wp_step.
  eapply (wp_bundles_of d ds L1 _ ((a, Array d) :: L2)); [done|solve_Permutation|].
  eapply (wp_call _ L2 ((a, Array d) :: L1)); [by eapply free_bundles_spec|solve_Permutation|]. cbn beta. intros _ ? ->. cbn [app].
  eapply (wp_free_vector d ds L1 _ [(a, Array d)]); [done|solve_Permutation|]. by repeat wp_step.
Qed.

Fixpoint add_all (bundle_array : ptr) (bundles : list nat) : M unit :=
  match bundles with [] => mret tt | p :: ps => _ ← bundle_array_add bundle_array (Some p); add_all bundle_array ps end.

(** Bundles on the heap, one after the other. *)
Fixpoint all_at (ps : list nat) (bs : list (list T)) L : Prop :=
  match ps, bs with
  | [], [] => L = []
  | p :: ps, b :: bs => exists L1 L2, bundle_at p b L1 /\ all_at ps bs L2 /\ L = L1 ++ L2
  | _, _ => False
  end.

Lemma add_all_spec a : forall ps bs0 bs La Lp, array_at a bs0 La -> all_at ps bs Lp ->
  triple (La ++ Lp) (add_all (Some a) ps) (fun _ L => exists La', array_at a (bs0 ++ bs) La' /\ L ≡ₚ La' ++ Lp).
Proof.
  induction ps as [|p ps IH]; intros bs0 [|b bs] La Lp Ha Hp; cbn in Hp; try done.
  - subst. cbn. apply triple_ret. exists La. rewrite app_nil_r. split; [done|]. by rewrite app_nil_r.
  - destruct Hp as (L1 & L2 & Hb & Hps & ->). cbn [add_all].
    eapply (wp_call _ (La ++ L1) L2); [by apply bundle_array_add_spec|solve_Permutation|].
    cbn beta. intros _ L' (_ & La' & Ha' & HL').
    eapply triple_perm, triple_conseq; [|apply (triple_frame (La' ++ L2) L1); by apply (IH (bs0 ++ [b]) bs La' L2)|].
    { rewrite HL'. solve_Permutation. }
    cbn beta. intros _ L3 (L4 & (La2 & Ha2 & HL4) & ->). exists La2.
    replace (bs0 ++ b :: bs) with ((bs0 ++ [b]) ++ bs) by by rewrite <- app_assoc. split; [done|]. rewrite HL4. solve_Permutation.
Qed.

(** The life of an array: whatever bundles are added, they are read back at their
    indices, and releasing the array leaves the bundles of the caller as they were
    and nothing else. *)
Theorem bundle_array_life ps bs i Lp : all_at ps bs Lp ->
  triple Lp (a ← bundle_array_new; _ ← add_all a ps; n ← bundle_array_size a; b ← bundle_array_at a i;
             _ ← bundle_array_free a; mret (n, b))
    (fun r L => r = (length bs, bs !! i) /\ L ≡ₚ Lp).
Proof.
  intros Hp. eapply (wp_call _ [] Lp); [apply bundle_array_new_spec|done|]. cbn beta. intros ? L0 (a & -> & Ha).
  eapply (wp_call _ (L0 ++ Lp) []); [by apply (add_all_spec a ps [] bs)|by rewrite app_nil_r|]. cbn beta.
  intros _ L1 (La & Ha' & HL1). rewrite app_nil_l in Ha'.
  eapply (wp_call _ La Lp); [by apply bundle_array_size_spec|by rewrite app_nil_r|]. cbn beta. intros n ? [-> ->].
  eapply (wp_call _ La Lp); [by apply bundle_array_at_spec|done|]. cbn beta. intros b ? [-> ->].
  eapply (wp_call _ La Lp); [by apply (bundle_array_free_spec a bs)|done|]. cbn beta. intros _ ? [_ ->]. by apply triple_ret.
Qed.

End BundleArray.
End BundleArray.

(** ** The processors ([utils/cpuinfo.h]) *)
Module CpuInfo.

(** The stream of a pipe; nothing is stored in it. *)
Inductive block := Stream.

Abbreviation M := (comp (mem block)).

(** What the system does: the pipe with the text [lscpu] and its filters write, NULL
    when it cannot be made, whether anything can be read, and the result of closing. *)
Record pipe := mkPipe { opens : bool; output : option cstr; closes : bool }.

(** [fgets] into an array of [n] bytes: a line as far as it fits. *)
Definition fgets (n : nat) (text : cstr) : cstr :=
  let line := match list_find (fun c => c = 10) text with Some (i, _) => take (S i) text | None => text end in
  take (n - 1) line.

(** [pclose] ends the process behind the stream. *)
Definition pclose (fd : ptr) (ok : bool) : M Z := _ ← load fd; _ ← free fd; mret (if ok then 0 else -1).

(** [get_nthds_per_phys_proc] on Linux; [erange]: [errno] is [ERANGE] when it is
    called. *)
Definition get_nthds_per_phys_proc (erange : bool) (p : pipe) : M Z :=
  fd ← malloc (fun _ => opens p) Stream;
  match fd with
  | None => mret (-1)
  | Some _ =>
      match output p with
      | None => mret (-1)
      | Some text =>
          let '(v, _, overflow) := strtol (fgets 4 text) in
          let nthread := i32 v in
          if erange || overflow || (nthread =? 0) then _ ← pclose fd (closes p); mret (-1) else
          rc ← pclose fd (closes p);
          if rc =? -1 then mret (-1) else mret nthread
      end
  end.

(** The limit of [config.h] on the threads of the HTTP server. *)
Definition MAX_HTTP_TPOOL_SIZE (nprocs nthds : Z) : Z := nprocs - nthds.

(** A number of up to three digits is read, and the pipe is closed. *)
Theorem threads_read n p : 1 <= n <= 999 -> opens p = true -> output p = Some (dec_nat n) -> closes p = true ->
  triple [] (get_nthds_per_phys_proc false p) (fun r L => r = n /\ L = []).
Proof.
  intros Hn Ho Hout Hc. unfold get_nthds_per_phys_proc, pclose. rewrite Ho, Hout, Hc.
  destruct (dec_nat_spec n ltac:(lia)) as (Hf & _ & _).
  assert (list_find (fun c => c = 10) (dec_nat n) = None) as Hnl.
  { apply list_find_None. eapply Forall_impl; [exact Hf|]. intros c Hd ->. discriminate Hd. }
  assert (length (dec_nat n) <= 3)%nat as Hl by (apply (length_dec_nat n 2); lia).
  assert (fgets 4 (dec_nat n) = dec_nat n ++ []) as ->.
  { unfold fgets. rewrite Hnl, app_nil_r. apply take_ge. lia. }
  rewrite strtol_dec_nat by (unfold LONG_MAX; done || lia).
  apply wp_malloc; [intros a|intros [? ?]; discriminate]. cbn beta iota.
  rewrite swrap_small by lia. rewrite (proj2 (Z.eqb_neq n 0)) by lia. cbn [orb]. repeat wp_step. change (0 =? -1) with false. cbn iota. by wp_step.
Qed.

(** The stream is lost exactly when nothing could be read from it. *)
Theorem threads_streams erange p : triple [] (get_nthds_per_phys_proc erange p) (fun r L =>
  if opens p && negb (if output p then true else false) then r = -1 /\ exists a, L = [(a, Stream)] else L = []).
Proof.
  unfold get_nthds_per_phys_proc, pclose. destruct (opens p) eqn:Eo; cbn [andb].
  - apply wp_malloc; [intros a|intros [n Hn]; discriminate]. cbn beta iota.
    destruct (output p) as [text|]; cbn [negb]; [|apply triple_ret; eauto].
    destruct (strtol _) as [[v rest] o]. destruct (_ || _); repeat wp_step; [done|].
    by destruct (closes p); cbn; repeat wp_step.
  - intros F m Ho. exists (-1), (mkMem (blocks m) (S (mallocs m))), []. split; [reflexivity|]. done.
Qed.
End CpuInfo.
