(* ===== verification/MqttTls.v ===== *)
(** * The options of TLS and of SOCKS proxies for MQTT
    ([connectivity/mqtt/mqtt_common.c], [mosq_opts_set])

    The part of [mosq_opts_set] that only builds with [WITH_TLS], [WITH_SOCKS] or
    [FINAL_WITH_TLS_PSK] have, over libmosquitto as a function of its calls.  The
    theorem compares it with a table: for every option that is set one call, in
    the order of the table, until one fails. *)

From S2P Require Import Prelude TaErrors.

Inductive string_opt := TLS_ENGINE | TLS_KEYFORM | TLS_ENGINE_KPASS_SHA1 | TLS_ALPN.

Inductive tls_call :=
| TlsSet (cafile capath certfile keyfile : option cstr)
| TlsInsecureSet (value : bool)
| StringOption (o : string_opt) (value : cstr)
| PskSet (psk : cstr) (identity : option cstr)
| TlsOptsSet (cert_reqs : Z) (tls_version ciphers : option cstr)
| MaxInflightSet (n : Z)
| Socks5Set (host : cstr) (port : Z) (username password : option cstr)
| TlsLibCleanup.

Record mosq_tls_config_t := mkTls {
  cafile : option cstr; capath : option cstr; certfile : option cstr; keyfile : option cstr; ciphers : option cstr;
  insecure : bool; tls_alpn : option cstr; tls_version : option cstr; tls_engine : option cstr;
  tls_engine_kpass_sha1 : option cstr; keyform : option cstr; psk : option cstr; psk_identity : option cstr }.

(** The proxy of the configuration. *)
Record socks_proxy := mkProxy {
  proxy_host : option cstr; proxy_port : Z; proxy_username : option cstr; proxy_password : option cstr }.

Section Options.
(** The library: a state, and what a call returns. *)
Context {lib : Type} (tls_do : tls_call -> lib -> Z * lib).

(** The library, and the calls so far. *)
Definition tls_state : Type := lib * list tls_call.

Definition tls_perform (c : tls_call) : comp tls_state Z := fun s =>
  let '(rc, l) := tls_do c s.1 in Some (rc, (l, s.2 ++ [c])).

(** One of the blocks that end in [SC_MQTT_OPT_SET]. *)
Definition set_option (c : option tls_call) (next : comp tls_state status_t) : comp tls_state status_t :=
  match c with
  | None => next
  | Some c =>
      rc ← tls_perform c;
      if rc =? 0 then next else _ ← tls_perform TlsLibCleanup; mret SC_MQTT_OPT_SET
  end.

(** The blocks whose result is the code of the library. *)
Definition set_or_return (c : option tls_call) (next : comp tls_state status_t) : comp tls_state status_t :=
  match c with
  | None => next
  | Some c =>
      ret ← tls_perform c;
      if ret =? 0 then next else _ ← tls_perform TlsLibCleanup; mret ret
  end.

Definition when_set (o : option cstr) (f : cstr -> tls_call) : option tls_call := f <$> o.

Definition given (o : option cstr) : bool := if o then true else false.

(** From line 243 on; [tls] and [socks] are there in builds that have them, and
    [with_psk] is [FINAL_WITH_TLS_PSK]. *)
Definition tls_opts_set (tls : option mosq_tls_config_t) (with_psk : bool) (max_inflight : Z) (socks : option socks_proxy)
    : comp tls_state status_t :=
  let finish :=
    _ ← tls_perform (MaxInflightSet max_inflight);
    match socks with
    | None => mret SC_OK
    | Some s =>
        set_or_return (when_set (proxy_host s) (fun h => Socks5Set h (proxy_port s) (proxy_username s) (proxy_password s)))
          (mret SC_OK)
    end in
  match tls with
  | None => finish
  | Some t =>
      set_or_return (if given (cafile t) || given (capath t)
                     then Some (TlsSet (cafile t) (capath t) (certfile t) (keyfile t)) else None)
      (set_option (if insecure t then Some (TlsInsecureSet true) else None)
      (set_option (when_set (tls_engine t) (StringOption TLS_ENGINE))
      (set_option (when_set (keyform t) (StringOption TLS_KEYFORM))
      (set_option (when_set (tls_engine_kpass_sha1 t) (StringOption TLS_ENGINE_KPASS_SHA1))
      (set_option (when_set (tls_alpn t) (StringOption TLS_ALPN))
      (set_option (if with_psk then when_set (psk t) (fun p => PskSet p (psk_identity t)) else None)
      (set_option (if given (tls_version t) || given (ciphers t)
                   then Some (TlsOptsSet 1 (tls_version t) (ciphers t)) else None)
      finish)))))))
  end.

(** ** The table *)

(** What is called for a configuration, in order. *)
Definition tls_table (t : mosq_tls_config_t) (with_psk : bool) : list tls_call :=
  (if given (cafile t) || given (capath t) then [TlsSet (cafile t) (capath t) (certfile t) (keyfile t)] else []) ++
  (if insecure t then [TlsInsecureSet true] else []) ++
  option_list (StringOption TLS_ENGINE <$> tls_engine t) ++
  option_list (StringOption TLS_KEYFORM <$> keyform t) ++
  option_list (StringOption TLS_ENGINE_KPASS_SHA1 <$> tls_engine_kpass_sha1 t) ++
  option_list (StringOption TLS_ALPN <$> tls_alpn t) ++
  (if with_psk then option_list ((fun p => PskSet p (psk_identity t)) <$> psk t) else []) ++
  (if given (tls_version t) || given (ciphers t) then [TlsOptsSet 1 (tls_version t) (ciphers t)] else []).

Definition options_table (tls : option mosq_tls_config_t) (with_psk : bool) (max_inflight : Z) (socks : option socks_proxy) : list tls_call :=
  match tls with Some t => tls_table t with_psk | None => [] end ++ [MaxInflightSet max_inflight] ++
  match socks with
  | Some s => option_list ((fun h => Socks5Set h (proxy_port s) (proxy_username s) (proxy_password s)) <$> proxy_host s)
  | None => []
  end.

(** The first call of a list that fails, with its result; the number of messages in
    flight is set without looking at the result. *)
Fixpoint first_failure (l : list tls_call) (s : tls_state) : option (tls_call * Z) * tls_state :=
  match l with
  | [] => (None, s)
  | c :: l =>
      let '(rc, lib1) := tls_do c s.1 in
      let s1 := (lib1, s.2 ++ [c]) in
      match c with
      | MaxInflightSet _ => first_failure l s1
      | _ => if rc =? 0 then first_failure l s1 else (Some (c, rc), s1)
      end
  end.

(** The status for a failure. *)
Definition failure_status (c : tls_call) (rc : Z) : status_t :=
  match c with TlsSet _ _ _ _ | Socks5Set _ _ _ _ => rc | _ => SC_MQTT_OPT_SET end.

Definition outcome_of (r : option (tls_call * Z) * tls_state) : option (status_t * tls_state) :=
  match r with
  | (None, s) => Some (SC_OK, s)
  | (Some (c, rc), s) => Some (failure_status c rc, ((tls_do TlsLibCleanup s.1).2, s.2 ++ [TlsLibCleanup]))
  end.

Lemma first_failure_cons c l s rc lib1 : tls_do c s.1 = (rc, lib1) -> (forall n, c <> MaxInflightSet n) ->
  first_failure (c :: l) s =
  if rc =? 0 then first_failure l (lib1, s.2 ++ [c]) else (Some (c, rc), (lib1, s.2 ++ [c])).
Proof. intros E H. cbn [first_failure]. rewrite E. destruct c; try done. by destruct (H n). Qed.

Lemma block_table c next l s (f : Z -> status_t) : (forall s, next s = outcome_of (first_failure l s)) ->
  (forall rc, failure_status c rc = f rc) -> (forall n, c <> MaxInflightSet n) ->
  (rc ← tls_perform c; if rc =? 0 then next else _ ← tls_perform TlsLibCleanup; mret (f rc)) s =
  outcome_of (first_failure (c :: l) s).
Proof.
  intros Hn Hf Hm. unfold mbind, comp_mbind, tls_perform. destruct (tls_do c s.1) as [rc lib1] eqn:E.
  rewrite (first_failure_cons _ _ _ _ _ E Hm). destruct (rc =? 0); [apply Hn|]. cbn [outcome_of fst snd]. rewrite Hf.
  by destruct (tls_do TlsLibCleanup lib1).
Qed.

Definition plain_option (c : option tls_call) : Prop :=
  match c with Some c => (forall rc, failure_status c rc = SC_MQTT_OPT_SET) /\ (forall n, c <> MaxInflightSet n) | None => True end.

Lemma set_option_table c next l s : (forall s, next s = outcome_of (first_failure l s)) -> plain_option c ->
  set_option c next s = outcome_of (first_failure (option_list c ++ l) s).
Proof. intros Hn Hc. destruct c as [c|]; [|apply Hn]. destruct Hc. by apply (block_table c next l s (fun _ => SC_MQTT_OPT_SET)). Qed.

Definition coded_option (c : option tls_call) : Prop :=
  match c with Some c => (forall rc, failure_status c rc = rc) /\ (forall n, c <> MaxInflightSet n) | None => True end.

Lemma set_or_return_table c next l s : (forall s, next s = outcome_of (first_failure l s)) -> coded_option c ->
  set_or_return c next s = outcome_of (first_failure (option_list c ++ l) s).
Proof. intros Hn Hc. destruct c as [c|]; [|apply Hn]. destruct Hc. by apply (block_table c next l s id). Qed.

Ltac destruct_options :=
  unfold when_set, plain_option;
  repeat match goal with |- context [_ <$> ?o] => destruct o; simpl end; repeat case_match; simplify_eq/=; done.

(** Whatever is configured and whatever the library answers: the calls of the table
    in order, up to the first that fails, after which the library is cleaned up. *)
Theorem tls_opts_set_spec tls with_psk max_inflight socks s :
  tls_opts_set tls with_psk max_inflight socks s = outcome_of (first_failure (options_table tls with_psk max_inflight socks) s).
Proof.
  assert (forall s, (_ ← tls_perform (MaxInflightSet max_inflight);
    match socks with
    | None => mret SC_OK
    | Some s =>
        set_or_return (when_set (proxy_host s) (fun h => Socks5Set h (proxy_port s) (proxy_username s) (proxy_password s)))
          (mret SC_OK)
    end) s = outcome_of (first_failure ([MaxInflightSet max_inflight] ++
      match socks with
      | Some s => option_list ((fun h => Socks5Set h (proxy_port s) (proxy_username s) (proxy_password s)) <$> proxy_host s)
      | None => []
      end) s)) as Hfinish.
  { clear s. intros s. cbn [app first_failure]. unfold mbind at 1, comp_mbind at 1, tls_perform at 1.
    destruct (tls_do _ s.1) as [rc lib1]. destruct socks as [p|]; [|done].
    rewrite (set_or_return_table _ (mret SC_OK) []); [by rewrite app_nil_r|done|].
    unfold when_set. by destruct (proxy_host p). }
  unfold tls_opts_set, options_table. destruct tls as [t|]; [|apply Hfinish]. unfold tls_table. rewrite <- !app_assoc.
  assert (forall (b : bool) (c : tls_call), (if b then [c] else []) = option_list (if b then Some c else None)) as Hif by by intros [].
  rewrite !Hif.
  assert ((if with_psk then option_list ((fun p => PskSet p (psk_identity t)) <$> psk t) else []) =
    option_list (if with_psk then when_set (psk t) (fun p => PskSet p (psk_identity t)) else None)) as -> by by destruct with_psk.
  apply set_or_return_table; [clear s; intros s|by destruct (_ || _)].
  repeat (apply set_option_table; [clear s; intros s|destruct_options]).
  apply Hfinish.
Qed.

(** With a library that accepts everything, every option that is set is called for. *)
Corollary tls_opts_accepted tls with_psk max_inflight socks l : (forall c k, (tls_do c k).1 = 0) ->
  exists l', tls_opts_set tls with_psk max_inflight socks (l, []) =
    Some (SC_OK, (l', options_table tls with_psk max_inflight socks)).
Proof.
  intros Hok. rewrite tls_opts_set_spec. generalize (options_table tls with_psk max_inflight socks) as cs.
  assert (forall cs l done, exists l', first_failure cs (l, done) = (None, (l', done ++ cs))) as H.
  { induction cs as [|c cs IH]; intros k done_; cbn [first_failure fst snd]; [exists k; by rewrite app_nil_r|].
    pose proof (Hok c k) as Hc. destruct (tls_do c k) as [rc k1]. cbn in Hc. subst rc.
    destruct (IH k1 (done_ ++ [c])) as [l' Hl]. rewrite <- app_assoc in Hl. exists l'. destruct c; exact Hl. }
  intros cs. destruct (H cs l []) as [l' ->]. by exists l'.
Qed.

End Options.

(** Keys without the certificate of an authority are not given to the library, and the
    connection that was to be encrypted is not. *)
Example certificate_ignored :
  (fun r => snd (snd r)) <$> tls_opts_set (fun _ (k : unit) => (0, k))
    (Some (mkTls None None (Some (lit "client.crt")) (Some (lit "client.key")) None false None None None None None None None))
    false 20 None (tt, []) = Some [MaxInflightSet 20].
Proof. reflexivity. Qed.
