(* ===== verification/Main.v ===== *)
(** * The process ([accelerator/main.c])

    How the program starts and stops: the configuration of [Config], the threads
    of [Health] and [RuntimeCli], the HTTP daemon with the handler of [Http], the
    notification of [config.c], the wait for a signal and the cleanup.  What the
    process does to the outside is recorded as a sequence of events; [outcome]
    lists the ways a process can go, each with its cause. *)

From S2P Require Import Prelude TaErrors Cache World Config.

Inductive event :=
| ClientInit
| PowInit
| DbInit
| HealthThread (core : ta_core_t)
| CliThread (core : ta_core_t)
| DaemonStarted (port pool : Z)
| DaemonStopped
| Notified (path text : cstr)
| Unlinked (path : cstr)
| DbFreed
| PowDestroyed
| CacheStopped.

(** How [main] ends: with an exit code, or it is still in [pause]. *)
Inductive ending := Exit (code : Z) | Waiting.

Definition EXIT_SUCCESS : Z := 0.
Definition EXIT_FAILURE : Z := 1.
Definition SIGINT : Z := 2.
Definition SIGTERM : Z := 15.

(** The results of the calls to the system and the libraries: the registration
    of signals, the loggers, the IOTA client, the database of builds that have
    one, the HTTP daemon for a port and a number of threads, the local socket,
    and the signal that ends [pause], if one arrives. *)
Record host := mkHost {
  signal_registered : Z -> bool;
  logger_init_ok : bool;
  client_service_init : Z;
  db_service_init : option status_t;
  daemon_starts : Z -> Z -> bool;
  socket_ok : bool;
  socket_connects : cstr -> bool;
  socket_writes : bool;
  pause_signal : option Z;
  pause_eintr : bool;
  logger_destroy_ok : bool }.

(** The configuration, whether the daemon runs, and the events so far. *)
Record state (db : Type) := mkState { m_cfg : cfg db; daemon : bool; trace : list event }.
Arguments mkState {db} m_cfg daemon trace.
Arguments m_cfg {db} s.
Arguments daemon {db} s.
Arguments trace {db} s.

Section Main.
Context {db : Type} {server : RedisServer db}.
Context (fs : cstr -> option (list Z)) (max_tpool : Z)
  (connect : cstr -> Z -> @Backend.connect_result db) (lock_rc : Z).
Context (h : host).

Definition M := comp (state db).

Definition emit (e : event) : M unit := modify (fun s => mkState (m_cfg s) (daemon s) (trace s ++ [e])).

Definition configured {A} (m : comp (cfg db) A) : M A := fun s =>
  match m (m_cfg s) with
  | Some (a, c) => Some (a, mkState c (daemon s) (trace s))
  | None => None
  end.

(** [ta_core_set]. *)
Definition ta_core_set : M status_t :=
  if negb (client_service_init h =? 0) then mret SC_OOM else
  _ ← emit ClientInit;
  _ ← emit PowInit;
  match db_service_init h with
  | None => mret SC_OK
  | Some ret => _ ← emit DbInit; mret ret
  end.

Definition ta_core_destroy : M unit :=
  _ ← (match db_service_init h with Some _ => emit DbFreed | None => mret tt end);
  _ ← emit PowDestroyed;
  emit CacheStopped.

(** [ta_http_start] and [ta_http_stop] of the daemon of the process. *)
Definition ta_http_start (core : ta_core_t) : M status_t :=
  let port := ta_port (ta_conf core) in
  let pool := http_tpool_size (ta_conf core) in
  if daemon_starts h port pool then
    _ ← modify (fun s => mkState (m_cfg s) true (trace s ++ [DaemonStarted port pool])); mret SC_OK
  else mret SC_OOM.

Definition ta_http_stop : M status_t :=
  d ← gets daemon;
  _ ← when d (modify (fun s => mkState (m_cfg s) false (trace s ++ [DaemonStopped])));
  mret SC_OK.

(** The signal handler. *)
Definition ta_stop (signal : Z) : M unit :=
  when ((signal =? SIGINT) || (signal =? SIGTERM)) (_ ← ta_http_stop; mret tt).

Definition START_NOTIFICATION : cstr := lit "TA-START".

(** The size of [sun_path]. *)
Definition SUN_PATH_LEN : nat := 108.

(** [notification_trigger]: the path is copied without regard to the size of
    the array, which is zero before. *)
Definition notification_trigger (t : ta_config_t) : M unit :=
  _ ← (if socket_ok h then
         sun_path ← check (overwrite (replicate SUN_PATH_LEN 0) 0 (Config.socket t));
         let path := str_of_buf sun_path in
         when (socket_connects h path && socket_writes h) (emit (Notified path START_NOTIFICATION))
       else mret tt);
  emit (Unlinked (Config.socket t)).

Definition current : M ta_core_t := gets (fun s => c_core (m_cfg s)).

Definition set_quiet (quiet init : bool) : M unit :=
  configured (modify (fun c => mkCfg (with_ta_conf (ta_logger_switch quiet init) (c_core c)) (c_errno c) (c_env c))).

Definition cleanup : M ending :=
  _ ← set_quiet true false;
  _ ← ta_core_destroy;
  mret (Exit (if logger_destroy_ok h then 0 else EXIT_FAILURE)).

(** From the start of the threads on. *)
Definition serve : M ending :=
  core ← current;
  _ ← emit (HealthThread core);
  _ ← when (is_option_enabled (ta_conf core) CLI_RUNTIME_CLI) (emit (CliThread core));
  ret ← ta_http_start core;
  if negb (ret =? SC_OK) then cleanup else
  _ ← set_quiet (is_option_enabled (ta_conf core) CLI_QUIET_MODE) true;
  core ← current;
  _ ← notification_trigger (ta_conf core);
  match pause_signal h with
  | None => mret Waiting
  | Some signal =>
      _ ← ta_stop signal;
      if negb (pause_eintr h) then mret (Exit EXIT_FAILURE) else cleanup
  end.

(** [main]; [opts] are the results of [getopt_long], [yaml] the tokens of a
    configuration file. *)
Definition main (mam_file ca : cstr) (parser_ok : bool) (yaml : cstr -> option (list yaml_token))
    (opts : list (Z * option cstr)) : M ending :=
  if negb (signal_registered h SIGINT) || negb (signal_registered h SIGTERM) then mret (Exit EXIT_FAILURE) else
  if negb (logger_init_ok h) then mret (Exit EXIT_FAILURE) else
  ret ← configured (ta_core_default_init mam_file ca);
  if negb (ret =? SC_OK) then mret (Exit EXIT_FAILURE) else
  ret ← configured (ta_core_file_init fs max_tpool connect lock_rc parser_ok yaml opts);
  if negb (ret =? SC_OK) then mret (Exit EXIT_FAILURE) else
  ret ← configured (ta_core_cli_init fs max_tpool connect lock_rc opts);
  match ret with
  | inr _ => mret (Exit EXIT_SUCCESS)
  | inl ret =>
      if negb (ret =? SC_OK) then mret (Exit EXIT_FAILURE) else
      ret ← ta_core_set;
      if negb (ret =? SC_OK) then mret (Exit EXIT_FAILURE) else serve
  end.

(** The start of the MQTT server, [main] of [mqtt_main.c] up to [duplex_config_init]:
    an exit code, or nothing when it goes on. *)
Definition mqtt_start (mam_file ca : cstr) (parser_ok : bool) (yaml : cstr -> option (list yaml_token))
    (opts : list (Z * option cstr)) : M (option ending) :=
  if negb (logger_init_ok h) then mret (Some (Exit EXIT_FAILURE)) else
  ret ← configured (ta_core_default_init mam_file ca);
  if negb (ret =? SC_OK) then mret (Some (Exit EXIT_FAILURE)) else
  ret ← configured (ta_core_file_init fs max_tpool connect lock_rc parser_ok yaml opts);
  if negb (ret =? SC_OK) then mret (Some (Exit EXIT_FAILURE)) else
  ret ← configured (ta_core_cli_init fs max_tpool connect lock_rc opts);
  match ret with
  | inr _ => mret (Some (Exit EXIT_SUCCESS))
  | inl ret =>
      if negb (ret =? SC_OK) then mret (Some (Exit EXIT_FAILURE)) else
      ret ← ta_core_set;
      if negb (ret =? SC_OK) then mret (Some (Exit EXIT_FAILURE)) else
      core ← current;
      _ ← set_quiet (is_option_enabled (ta_conf core) CLI_QUIET_MODE) true;
      mret None
  end.

(** ** Properties *)

Section Start.
Context (mam_file ca : cstr) (parser_ok : bool) (yaml : cstr -> option (list yaml_token))
  (opts : list (Z * option cstr)).

(** *** How a process can go *)

Lemma configured_Some {A} (m : comp (cfg db) A) s a s' : configured m s = Some (a, s') ->
  exists c, m (m_cfg s) = Some (a, c) /\ s' = mkState c (daemon s) (trace s).
Proof.
  unfold configured. destruct (m (m_cfg s)) as [ [b c]|]; intros [= <- <-]. by exists c.
Qed.

Lemma configured_eq {A} (m : comp (cfg db) A) s a c : m (m_cfg s) = Some (a, c) ->
  configured m s = Some (a, mkState c (daemon s) (trace s)).
Proof. intros E. unfold configured. by rewrite E. Qed.

(** The configuration file and the command line on top of the defaults. *)
Definition file_result (c0 : cfg db) : option (status_t * cfg db) :=
  ta_core_file_init fs max_tpool connect lock_rc parser_ok yaml opts
    (mkCfg (default_core mam_file ca (c_core c0)) (c_errno c0) (c_env c0)).
Definition line_result (c2 : cfg db) : option ((status_t + unit) * cfg db) :=
  ta_core_cli_init fs max_tpool connect lock_rc opts c2.

(** The process may begin, and the configuration is accepted. *)
Definition prepared : Prop :=
  signal_registered h SIGINT = true /\ signal_registered h SIGTERM = true /\ logger_init_ok h = true.
Definition accepted (c0 c3 : cfg db) : Prop := prepared /\
  exists c2, file_result c0 = Some (SC_OK, c2) /\ line_result c2 = Some (inl SC_OK, c3).

(** The client, the proof of work and, where there is one, the database. *)
Definition initialised : list event :=
  [ClientInit; PowInit] ++ (if db_service_init h then [DbInit] else []).
Definition initialises : Prop :=
  client_service_init h = 0 /\ (forall ret, db_service_init h = Some ret -> ret = SC_OK).
Definition released : list event :=
  (if db_service_init h then [DbFreed] else []) ++ [PowDestroyed; CacheStopped].
Definition exit_code : Z := if logger_destroy_ok h then EXIT_SUCCESS else EXIT_FAILURE.

Definition daemon_starts_for (core : ta_core_t) : bool :=
  daemon_starts h (ta_port (ta_conf core)) (http_tpool_size (ta_conf core)).
Definition threads (core : ta_core_t) : list event :=
  HealthThread core :: (if is_option_enabled (ta_conf core) CLI_RUNTIME_CLI then [CliThread core] else []).
(** The daemon runs, and who waits for it on the local socket is told. *)
Definition serving (core : ta_core_t) : list event :=
  let path := Config.socket (ta_conf core) in
  DaemonStarted (ta_port (ta_conf core)) (http_tpool_size (ta_conf core)) ::
  (if socket_ok h && socket_connects h path && socket_writes h
   then [Notified path START_NOTIFICATION] else []) ++ [Unlinked path].

(** The ways the process can go, with what it does to the outside. *)
Inductive outcome (c0 : cfg db) : ending -> list event -> Prop :=
| not_prepared : ~ prepared -> outcome c0 (Exit EXIT_FAILURE) []
| file_refused ret c2 : prepared -> file_result c0 = Some (ret, c2) -> ret <> SC_OK ->
    outcome c0 (Exit EXIT_FAILURE) []
| line_refused c2 ret c3 : prepared -> file_result c0 = Some (SC_OK, c2) ->
    line_result c2 = Some (inl ret, c3) -> ret <> SC_OK -> outcome c0 (Exit EXIT_FAILURE) []
| help_or_version c2 c3 : prepared -> file_result c0 = Some (SC_OK, c2) ->
    line_result c2 = Some (inr tt, c3) -> outcome c0 (Exit EXIT_SUCCESS) []
| no_client c3 : accepted c0 c3 -> client_service_init h <> 0 -> outcome c0 (Exit EXIT_FAILURE) []
| no_database c3 ret : accepted c0 c3 -> client_service_init h = 0 ->
    db_service_init h = Some ret -> ret <> SC_OK -> outcome c0 (Exit EXIT_FAILURE) initialised
| no_daemon c3 : accepted c0 c3 -> initialises -> daemon_starts_for (c_core c3) = false ->
    outcome c0 (Exit exit_code) (initialised ++ threads (c_core c3) ++ released)
| still_serving c3 : accepted c0 c3 -> initialises -> daemon_starts_for (c_core c3) = true ->
    pause_signal h = None ->
    outcome c0 Waiting (initialised ++ threads (c_core c3) ++ serving (c_core c3))
| stopped c3 signal : accepted c0 c3 -> initialises -> daemon_starts_for (c_core c3) = true ->
    pause_signal h = Some signal -> pause_eintr h = true ->
    outcome c0 (Exit exit_code)
      (initialised ++ threads (c_core c3) ++ serving (c_core c3) ++
       (if (signal =? SIGINT) || (signal =? SIGTERM) then [DaemonStopped] else []) ++ released)
| pause_failed c3 signal : accepted c0 c3 -> initialises -> daemon_starts_for (c_core c3) = true ->
    pause_signal h = Some signal -> pause_eintr h = false ->
    outcome c0 (Exit EXIT_FAILURE)
      (initialised ++ threads (c_core c3) ++ serving (c_core c3) ++
       (if (signal =? SIGINT) || (signal =? SIGTERM) then [DaemonStopped] else [])).

(** *** The parts of a run *)
Ltac main_step E := etrans; [exact (comp_bind_eq _ _ _ _ _ E)|].

Lemma emit_eq e (s : state db) : emit e s = Some (tt, mkState (m_cfg s) (daemon s) (trace s ++ [e])).
Proof. done. Qed.

Lemma switch_socket q i t : Config.socket (ta_logger_switch q i t) = Config.socket t.
Proof. unfold ta_logger_switch. destruct (_ || _); [|done]. by destruct (negb q). Qed.

Lemma copied_path path : (length path < SUN_PATH_LEN)%nat -> 0 ∉ path ->
  overwrite (replicate SUN_PATH_LEN 0) 0 path = Some (path ++ replicate (SUN_PATH_LEN - length path) 0) /\
  str_of_buf (path ++ replicate (SUN_PATH_LEN - length path) 0) = path.
Proof.
  intros Hl H0. rewrite overwrite_start by (rewrite length_replicate; lia). rewrite drop_replicate.
  split; [done|]. destruct (SUN_PATH_LEN - length path)%nat as [|n] eqn:E; [lia|].
  cbn [replicate]. pose proof (c_string_nul path (replicate n 0) H0) as Hc. unfold c_string in Hc.
  case_bool_decide; [|done]. by injection Hc.
Qed.

Lemma notify_run t (s : state db) : let path := Config.socket t in
  (length path < SUN_PATH_LEN)%nat -> 0 ∉ path ->
  notification_trigger t s = Some (tt, mkState (m_cfg s) (daemon s) (trace s ++
    (if socket_ok h && socket_connects h path && socket_writes h
     then [Notified path START_NOTIFICATION] else []) ++ [Unlinked path])).
Proof.
  intros path Hl H0. unfold notification_trigger, emit. comp_simpl. fold path.
  destruct (copied_path path Hl H0) as [-> E]. destruct (socket_ok h); [|done]. rewrite E.
  destruct (socket_connects h path && socket_writes h) eqn:Ec; cbn [andb when].
  - rewrite Ec. cbn. by rewrite <- app_assoc.
  - rewrite Ec. done.
Qed.

Lemma cleanup_run (s : state db) : exists c, cleanup s =
  Some (Exit exit_code, mkState c (daemon s) (trace s ++ released)).
Proof.
  eexists. unfold cleanup, set_quiet, configured, ta_core_destroy, emit, released, exit_code. comp_simpl.
  destruct (db_service_init h); cbn; by rewrite <- ?app_assoc.
Qed.

Lemma stop_run signal (s : state db) : daemon s = true ->
  exists d, ta_stop signal s = Some (tt, mkState (m_cfg s) d
    (trace s ++ (if (signal =? SIGINT) || (signal =? SIGTERM) then [DaemonStopped] else []))).
Proof.
  intros Hd. unfold ta_stop, ta_http_stop. destruct (_ || _); cbn [when].
  - exists false. comp_simpl. by rewrite Hd.
  - exists true. rewrite app_nil_r, <- Hd. by destruct s.
Qed.

(** The process after the daemon has started. *)
Lemma serving_run c l : let core := c_core c in
  (length (Config.socket (ta_conf core)) < SUN_PATH_LEN)%nat -> 0 ∉ Config.socket (ta_conf core) ->
  daemon_starts_for core = true ->
  exists c', forall (k : M ending),
  (ret ← ta_http_start core;
   if negb (ret =? SC_OK) then cleanup else
   _ ← set_quiet (is_option_enabled (ta_conf core) CLI_QUIET_MODE) true;
   core ← current;
   _ ← notification_trigger (ta_conf core);
   k) (mkState c false l) = k (mkState c' true (l ++ serving core)).
Proof.
  intros core Hl H0 Hd. eexists. intros k. unfold ta_http_start. unfold daemon_starts_for in Hd. rewrite Hd.
  unfold mbind, comp_mbind, modify. cbn [m_cfg daemon trace].
  unfold mret, comp_mret. change (negb (SC_OK =? SC_OK)) with false. cbv iota.
  unfold set_quiet, configured, current, modify, gets. cbn [m_cfg daemon trace c_core with_ta_conf ta_conf].
  fold core. rewrite notify_run by (rewrite switch_socket; done). cbn [m_cfg daemon trace]. rewrite switch_socket.
  unfold serving. rewrite <- app_assoc. reflexivity.
Qed.

Lemma serve_run c l : let core := c_core c in
  (length (Config.socket (ta_conf core)) < SUN_PATH_LEN)%nat -> 0 ∉ Config.socket (ta_conf core) ->
  exists r s', serve (mkState c false l) = Some (r, s') /\
  if daemon_starts_for core then
    match pause_signal h with
    | None => r = Waiting /\ trace s' = l ++ threads core ++ serving core
    | Some signal =>
        r = (if pause_eintr h then Exit exit_code else Exit EXIT_FAILURE) /\
        trace s' = l ++ threads core ++ serving core ++
          (if (signal =? SIGINT) || (signal =? SIGTERM) then [DaemonStopped] else []) ++
          (if pause_eintr h then released else [])
    end
  else r = Exit exit_code /\ trace s' = l ++ threads core ++ released.
Proof.
  intros core Hl H0. unfold serve.
  assert (forall k, (core ← current; _ ← emit (HealthThread core);
    _ ← when (is_option_enabled (ta_conf core) CLI_RUNTIME_CLI) (emit (CliThread core)); k core) (mkState c false l)
    = (k core (mkState c false (l ++ threads core)) : option (ending * state db))) as ->.
  { intros k. unfold current, gets, mbind, comp_mbind, emit, modify, threads. cbn [m_cfg daemon trace]. fold core.
    destruct (is_option_enabled _ CLI_RUNTIME_CLI); cbn; by rewrite <- ?app_assoc. }
  destruct (daemon_starts_for core) eqn:Hd.
  - destruct (serving_run c (l ++ threads core) Hl H0 Hd) as [c' ->]. rewrite <- app_assoc.
    destruct (pause_signal h) as [signal|]; [|by eexists _, _].
    destruct (stop_run signal (mkState c' true (l ++ threads core ++ serving core)) eq_refl) as [d Es].
    rewrite (comp_bind_eq _ _ _ _ _ Es). cbn [m_cfg daemon trace].
    destruct (pause_eintr h); cbn [negb].
    + match goal with |- context [cleanup ?s] => destruct (cleanup_run s) as [c2 ->] end.
      eexists _, _. split; [reflexivity|]. split; [done|]. cbn [trace]. by rewrite <- !app_assoc.
    + eexists _, _. split; [reflexivity|]. split; [done|]. cbn [trace]. by rewrite app_nil_r, <- !app_assoc.
  - assert (ta_http_start core (mkState c false (l ++ threads core)) =
      Some (SC_OOM, mkState c false (l ++ threads core))) as E
      by (unfold ta_http_start; unfold daemon_starts_for in Hd; by rewrite Hd).
    rewrite (comp_bind_eq _ _ _ _ _ E). change (negb (SC_OOM =? SC_OK)) with true. cbv iota.
    match goal with |- context [cleanup ?s] => destruct (cleanup_run s) as [c2 ->] end.
    eexists _, _. split; [reflexivity|]. split; [done|]. cbn [trace]. by rewrite <- app_assoc.
Qed.

(** The process after the configuration. *)
Lemma accepted_run c0 c3 (Hacc : accepted c0 c3) :
  (length (Config.socket (ta_conf (c_core c3))) < SUN_PATH_LEN)%nat ->
  0 ∉ Config.socket (ta_conf (c_core c3)) ->
  exists r s', (ret ← ta_core_set; if negb (ret =? SC_OK) then mret (Exit EXIT_FAILURE) else serve)
    (mkState c3 false []) = Some (r, s') /\ outcome c0 r (trace s').
Proof.
  intros Hl H0. unfold ta_core_set.
  destruct (Z.eqb_spec (client_service_init h) 0) as [Hc|Hc]; cbn [negb].
  2:{ eexists _, _. split; [reflexivity|]. by eapply no_client. }
  destruct (db_service_init h) as [ret|] eqn:Hdb.
  1: destruct (Z.eqb_spec ret SC_OK) as [->|Hret].
  2:{ eexists _, (mkState c3 false [ClientInit; PowInit; DbInit]). split.
      - unfold emit, mbind, comp_mbind, modify, mret, comp_mret. cbn.
        by rewrite (proj2 (Z.eqb_neq _ _) Hret).
      - cbn [trace]. pose proof (no_database c0 c3 ret Hacc Hc Hdb Hret) as Ho.
        unfold initialised in Ho. by rewrite Hdb in Ho. }
  1,2: destruct (serve_run c3 initialised Hl H0) as (r & s' & Hs & Ht); unfold initialised in Hs; rewrite Hdb in Hs;
    exists r, s'; (split; [exact Hs|]);
    assert (initialises) as Hi by (split; [done|]; rewrite Hdb; by intros ? [= <-]);
    (destruct (daemon_starts_for (c_core c3)) eqn:Hd;
      [destruct (pause_signal h) as [signal|] eqn:Hp; [destruct (pause_eintr h) eqn:He|]|]);
    destruct Ht as [-> ->]; rewrite ?app_nil_r; eauto using outcome.
Qed.

(** C32 What the process does, for every cause.  From the configuration that
    defaults, file and command line make (a core within the widths of its
    fields), [main] comes to one of these ends: unregistered signals, no
    logger, a configuration file or a command line that is refused, no client or
    no database end it with [EXIT_FAILURE], help and version with
    [EXIT_SUCCESS], in every case before a thread is started; otherwise the threads
    are started and the daemon is on the configured port with the configured
    number of threads, the waiting script is told, and the process waits until a
    signal stops the daemon, everything initialised is released and it exits
    with 0.  A daemon that cannot be started is cleaned up after and, as the code
    is written, also ends with 0.  The configuration must be defined and its
    socket path must fit [sun_path]; no signal comes before [pause]. *)
Theorem main_started_or_failed c0 r2 c2 :
  u_bits 32 (cli_options (ta_conf (c_core c0))) -> strlen (conf_file (c_core c0)) < FILE_PATH_SIZE ->
  file_result c0 = Some (r2, c2) ->
  (r2 = SC_OK -> exists r3 c3, line_result c2 = Some (r3, c3) /\
     (r3 = inl SC_OK -> (length (Config.socket (ta_conf (c_core c3))) < SUN_PATH_LEN)%nat /\
                        0 ∉ Config.socket (ta_conf (c_core c3)))) ->
  (exists r s', main mam_file ca parser_ok yaml opts (mkState c0 false []) = Some (r, s') /\
     outcome c0 r (trace s')) /\
  (forall c3, accepted c0 c3 -> core_wf (c_core c3)).
Proof.
  intros Ho Hf E2 Hl. split.
  - unfold main. destruct (signal_registered h SIGINT) eqn:S1, (signal_registered h SIGTERM) eqn:S2; cbn [negb orb];
      try (eexists _, _; (split; [reflexivity|]); apply not_prepared; intros (P1 & P2 & _); congruence).
    destruct (logger_init_ok h) eqn:S3; cbn [negb].
    2:{ eexists _, _. split; [reflexivity|]. apply not_prepared. intros (_ & _ & P). congruence. }
    assert (prepared) as Hp by done.
    rewrite (comp_bind_eq _ _ _ _ _ (configured_eq (ta_core_default_init mam_file ca) (mkState c0 false [])
      SC_OK _ eq_refl)). change (negb (SC_OK =? SC_OK)) with false. cbv iota. cbn [m_cfg daemon trace].
    rewrite (comp_bind_eq _ _ _ _ _ (configured_eq (ta_core_file_init fs max_tpool connect lock_rc parser_ok yaml opts)
      (mkState _ false []) _ _ E2)). cbn [m_cfg daemon trace].
    destruct (Z.eqb_spec r2 SC_OK) as [->|Hr]; cbn [negb].
    2:{ eexists _, _. split; [reflexivity|]. by eapply file_refused. }
    destruct (Hl eq_refl) as (r3 & c3 & E3 & Hs).
    rewrite (comp_bind_eq _ _ _ _ _ (configured_eq (ta_core_cli_init fs max_tpool connect lock_rc opts)
      (mkState _ false []) _ _ E3)). cbn [m_cfg daemon trace].
    destruct r3 as [r3|[]].
    2:{ eexists _, _. split; [reflexivity|]. by eapply help_or_version. }
    destruct (Z.eqb_spec r3 SC_OK) as [->|Hr]; cbn [negb].
    2:{ eexists _, _. split; [reflexivity|]. by eapply line_refused. }
    destruct (Hs eq_refl). apply accepted_run; [split; [done|by eexists]|done|done].
  - intros c3 (_ & c2' & F2 & F3).
    eapply (keeps_cli_init fs max_tpool connect lock_rc core_wf core_wf_stable); [|exact F3].
    eapply (keeps_file_init fs max_tpool connect lock_rc core_wf); [apply core_wf_stable| |exact F2].
    by apply default_core_wf.
Qed.

(** A process that waits has its configuration accepted and its daemon
    started. *)
Theorem serving_has_daemon c0 l : outcome c0 Waiting l ->
  exists c3, accepted c0 c3 /\ DaemonStarted (ta_port (ta_conf (c_core c3))) (http_tpool_size (ta_conf (c_core c3))) ∈ l.
Proof. inversion 1. exists c3. split; [done|]. rewrite !elem_of_app. right. right. left. Qed.

(** The MQTT server is configured as the HTTP server is: it exits where that one does,
    and goes on with the configuration that one serves. *)
Theorem mqtt_starts_alike s r s' : (forall z, signal_registered h z = true) ->
  mqtt_start mam_file ca parser_ok yaml opts s = Some (r, s') ->
  match r with
  | Some e => main mam_file ca parser_ok yaml opts s = Some (e, s')
  | None => exists s1, main mam_file ca parser_ok yaml opts s = serve s1 /\
      set_quiet (is_option_enabled (ta_conf (c_core (m_cfg s1))) CLI_QUIET_MODE) true s1 = Some (tt, s')
  end.
Proof.
  intros Hs H. unfold main. rewrite !Hs. cbn [negb orb]. unfold mqtt_start in H.
  destruct (negb (logger_init_ok h)); [by injection H as <- <-|].
  apply comp_bind_Some in H as (r1 & s1 & E1 & H). rewrite (comp_bind_eq _ _ _ _ _ E1).
  destruct (negb (r1 =? SC_OK)); [by injection H as <- <-|].
  apply comp_bind_Some in H as (r2 & s2 & E2 & H). rewrite (comp_bind_eq _ _ _ _ _ E2).
  destruct (negb (r2 =? SC_OK)); [by injection H as <- <-|].
  apply comp_bind_Some in H as (r3 & s3 & E3 & H). rewrite (comp_bind_eq _ _ _ _ _ E3).
  destruct r3 as [r3|?]; [|by injection H as <- <-]. destruct (negb (r3 =? SC_OK)); [by injection H as <- <-|].
  apply comp_bind_Some in H as (r4 & s4 & E4 & H). rewrite (comp_bind_eq _ _ _ _ _ E4).
  destruct (negb (r4 =? SC_OK)); [by injection H as <- <-|].
  apply comp_bind_Some in H as (core & s5 & [= <- <-] & H). apply comp_bind_Some in H as ([] & s6 & E6 & H).
  injection H as <- <-. eauto.
Qed.

(** A socket path that is longer than [sun_path] is copied behind it. *)
Theorem long_socket_path_undefined t (s : state db) : socket_ok h = true ->
  (SUN_PATH_LEN < length (Config.socket t))%nat -> notification_trigger t s = None.
Proof.
  intros Ho Hl. unfold notification_trigger, overwrite. comp_simpl. rewrite Ho, length_replicate.
  by rewrite decide_False by lia.
Qed.

End Start.
End Main.

(** ** Evaluations *)
Module MainWitness.
Import RedisModel ConfigWitness.

Definition good_host : host :=
  mkHost (fun _ => true) true 0 None (fun _ _ => true) true (fun _ => true) true (Some SIGINT) true true.

Definition toy_opts : list (Z * option cstr) := [(TA_PORT_CLI, Some (lit "8080")); (RUNTIME_CLI, None)].

Definition toy_main : M (db := db) ending :=
  main no_files 3 local_redis 0 good_host (lit "/tmp/mam_bin_a") [] true (fun _ => None) toy_opts.

Example toy_main_trace :
  match toy_main (mkState start false []) with
  | Some (Exit 0, s') => (fun e => match e with DaemonStarted p n => Some (p, n) | _ => None end) <$> trace s' =
      [None; None; None; None; Some (8080, 4); None; None; None; None; None]
  | _ => False
  end.
Proof. vm_compute. reflexivity. Qed.

Definition toy_cfg : cfg db :=
  match ta_core_cli_init no_files 3 local_redis 0 toy_opts defaults with Some (_, c) => c | None => defaults end.

Lemma main_started_or_failed_witness :
  exists r s', toy_main (mkState start false []) = Some (r, s') /\
    outcome no_files 3 local_redis 0 good_host (lit "/tmp/mam_bin_a") [] true (fun _ => None) toy_opts start r (trace s').
Proof.
  apply (main_started_or_failed no_files 3 local_redis 0 good_host (lit "/tmp/mam_bin_a") [] true
    (fun _ => None) toy_opts start SC_OK defaults); [by vm_compute|by vm_compute|vm_compute; reflexivity|].
  intros _. exists (inl SC_OK), toy_cfg. split; [vm_compute; reflexivity|]. intros _. split.
  - vm_compute. lia.
  - apply (bool_decide_unpack _). vm_compute. exact I.
Defined.

End MainWitness.
